(* ===== verification/_CoqProject ===== *)
-Q . S2P
Prelude.v
Utf8.v
GraphKeys.v
GraphKeysFacts.v
GoSourceKeys.v
Sha256.v
PyVal.v
Ordering.v
Json.v
PyDictFacts.v
JsonFacts.v
PyRepr.v
Observations.v
ObservationsFacts.v
CanonCore.v
CanonState.v
KeyBuilders.v
CanonInvariant.v
CanonLogic.v
CanonShared.v
CanonConfig.v
CanonLanguage.v
CanonEmail.v
CanonWeb.v
CanonDocument.v
CanonShell.v
CanonAwk.v
CanonBash.v
CanonBats.v
CanonZunit.v
CanonZsh.v
CanonPowershell.v
CanonGoModel.v
CanonGoContext.v
CanonGoFacts.v
CanonDispatch.v
CanonTheorems.v
CanonSecrets.v
CanonMerge.v
Limits.v
Regex.v
Contracts.v
ContractsFacts.v
Semantics.v
ControlDb.v
ControlDbFacts.v
ControlOwnership.v
ControlState.v
ControlSubmission.v
ControlReconciliation.v
ControlMaintenance.v
Protocol.v
ControlRefinement.v
ControlStore.v
ControlFacts.v
ControlRuns.v
StoreInterface.v
Coordinator.v
CoordinatorFacts.v
CoordinatorTheorems.v
DesiredState.v
DesiredStateFacts.v
Polling.v
PollingFacts.v
ExternalSort.v
ExternalSortFacts.v
StructuralDigest.v
StructuralDigestFacts.v
StagingChecksums.v
StagingChecksumsFacts.v
RowSpool.v
StagingFamilies.v
StagedRows.v
StagedRowsFacts.v
Artifacts.v
ArtifactStore.v
WorkerProtocol.v
WorkerProtocolFacts.v
WorkerRun.v
WorkerRunFacts.v
