(* ===== verification/Prelude.v ===== *)
(** * A verification development for RepoMap

    RepoMap ([src/src/main/python/repomap_kg]) extracts observations from a repository,
    canonicalises them into a graph whose nodes have stable textual keys, and keeps
    published graphs fresh with a coordinator: a process that accepts refresh jobs,
    records them in a PostgreSQL control database, claims them under leases, runs
    workers and reconciles what they published.  This library models five parts: the
    keys, which every node and edge of a graph is identified by; the way from raw
    observations to the canonical graph (the observation records and their files, and the
    whole of canonicalisation, from the dispatch to the handlers of every family); the way
    from the canonical graph to the rows that are loaded into graph storage, with their
    receipts and the digest the stored graph is known by; the coordinator: its durable
    protocol, which decides what is run and when a graph counts as published, its process,
    the polling that asks for refreshes, and the workers it runs, with the protocol they
    speak; and the immutable artifacts jobs exchange.

    ** Parts and files

    - Prelude: results and exceptions with their monad, Python strings as lists of code
      points ([pystr], [lit]), list and string lemmas, tactics ([unbind]).
    - Utf8, Sha256, PyVal: what the code uses of Python's codecs, [hashlib] and
      [json.dumps], and Python values ([pyval]).
    - GraphKeys, GraphKeysFacts ([graph/keys.py], [graph/_key_namespaces.py]): every key
      builder, the path normaliser, percent encoding, [parse_key] and [validate_key].
    - GoSourceKeys ([graph/go_source_keys.py]).
    - Json, PyDictFacts, JsonFacts: [json.dumps] and [json.loads] on Python values, with
      the hooks that refuse repeated keys, constants and floats and the bound on nesting,
      and their round trip; PyRepr: [repr] and [str].
    - Observations, ObservationsFacts ([observations/raw.py], [normalization.py],
      [spool.py]): the observation record with its validation, JSON lines, the spool and
      the normalised graph.
    - CanonCore, CanonState ([canonicalization/records.py], [diagnostics.py], [core.py],
      [dispatch.py] and the helper modules): the canonical records and their JSON, the
      state of a run, the monad of the handlers (a state that survives exceptions), and
      the operations on it.  [relate], [attach], [chart] and [with_keys] are the statement
      sequences the handlers repeat.
    - KeyBuilders, CanonInvariant, CanonLogic, CanonShared: what a key builder promises;
      the well-formedness of a state and that every operation keeps it; the rules for the
      handlers ([quiet], [recorded]: the handler leaves evidence or a diagnostic of its
      observation and raises only what it may); shared idioms of the families.
    - CanonConfig (with Nix), CanonLanguage (with JavaScript), CanonEmail (with feeds),
      CanonWeb, CanonDocument, CanonShell, CanonAwk, CanonBash, CanonBats, CanonZunit,
      CanonZsh, CanonPowershell: the families of handlers
      ([canonicalization/*_family.py] and their helper modules), each with the theorem
      that its dispatcher is [recorded].
    - CanonGoModel, CanonGoContext, CanonGoFacts ([_go_context*.py],
      [_go_family.py]): the Go context builder as its own state and monad, the Go
      handlers, and the bound on what the builder reports.
    - CanonDispatch ([main.py], [_document_dispatch.py]): [canonicalize_observations].
    - CanonTheorems, CanonSecrets, CanonMerge: the theorems about whole runs, about
      redaction, and about the merging of metadata.
    - Limits ([coordinator/limits.py]): the limits record and its validation.
    - Regex: the regular expressions of [contracts.py] as a syntax tree with a matcher
      and its specification.
    - Contracts, ContractsFacts ([coordinator/contracts.py]): job and publication
      states, legal transitions, request normalisation, public projections.
    - Semantics ([coordinator/semantics.py]): coalescing of hints, reconciliation rules,
      retry policy, progress throttling.
    - ControlDb, ControlDbFacts: the control database of
      [src/src/main/resources/coordinator-rdbms]: a record of finite maps of rows, the
      CHECK, UNIQUE and FOREIGN KEY constraints, and the statements the store uses, in a
      transaction monad [tx] that reads an environment (clock, collation, locks held by
      others, the transaction number, a fresh id).  [commit] runs a transaction and rolls
      back when it raises.
    - ControlOwnership, ControlState, ControlSubmission, ControlReconciliation,
      ControlMaintenance: the store's operations, one definition per function of
      [coordinator/_control_ownership.py], [_control_state.py],
      [_control_submission.py], [_control_coalescing.py], [_control_reconciliation.py],
      [_control_startup.py], [_control_polling.py], [_control_maintenance.py],
      [_supervisor_registration.py], [_restart_fencing.py] and the methods of
      [storage.py] that add to them.
    - Protocol: the abstract job protocol: a state with the singleton's epoch, jobs,
      attempts and leases, six kinds of step, and its invariant by rule induction.
    - ControlRefinement: what each operation does to the abstract view of the database.
    - ControlStore: the store as a transition system ([op], [exec], [store_step],
      [reachable]) and the theorems about every reachable database.
    - ControlFacts: functional behaviour of single operations.
    - ControlRuns: concrete runs, and the witnesses of the theorems about the store.
    - StoreInterface: what the coordinator process asks of its store (the protocol classes
      of [_coordinator_protocols.py]) as a type class with laws, and the control store as
      its instance.
    - Coordinator: the process ([coordinator/core.py], [_core_disposition.py],
      [startup_recovery.py]) over any such store, in a monad that keeps the store and the
      process's fields when an exception is raised.  A [host] supplies the interference of
      other threads and processes before each call, connection failures before or after a
      commit, and the answers of workers and callbacks.
    - CoordinatorFacts: what the process does to the store and to its counters, from the
      laws alone; CoordinatorTheorems: the process on the control store, with runs.
    - DesiredState, DesiredStateFacts ([coordinator/desired_state.py]): the reconciler over
      any store of a class [ReconcilerStore], with the control store as instance; the
      snapshots and receipts it compares are arguments.
    - Ordering: comparisons as keys of a sort, and the merge of sorted runs by a heap.
    - Polling, PollingFacts ([coordinator/polling.py]): the scheduler as a state with one turn of its loop ([run_turn]); clock
      readings are rationals, and what pool, targets and polls answer in a turn is an
      argument of the turn.
    - ExternalSort, ExternalSortFacts ([storage/external_row_sort.py],
      [_external_row_sort_helpers.py], [structural_digest_encoding.py]): the sort with
      bounded memory in a monad over a world of temporary files; Facts has the
      weakest-precondition rules of the monad.
    - StructuralDigest, StructuralDigestFacts ([storage/structural_digest.py]): the
      streaming digest of the seven families.
    - StagingChecksums, StagingChecksumsFacts ([storage/staging_checksums.py]): the
      receipts of families.
    - RowSpool ([storage/row_spool.py]): rows kept in a private file.
    - StagingFamilies ([storage/staging_family_rows.py], [staging_merge_operations.py],
      [staging_family_contracts.py], [staging_family_catalog.py]): the catalog of families.
    - StagedRows, StagedRowsFacts ([storage/canonical_rows.py],
      [file_rows.py], [_staged_row_adapters.py], [staged_rows.py]): from observations,
      through canonicalisation, to prepared rows in memory or in spools.
    - Artifacts ([artifacts/_canonical.py], [references.py]): canonical JSON, locators and
      references.
    - ArtifactStore ([artifacts/_store_common.py], [_store_memory.py], the stream of
      [_store_stream.py]): the memory store as a state with its operations, and the stream
      that verifies a file while it is read.
    - WorkerProtocol, WorkerProtocolFacts ([coordinator/_protocol_validation.py],
      [_protocol_session.py]): the frames, the values of the eight kinds of message, and
      the session as a state machine.
    - WorkerRun, WorkerRunFacts ([coordinator/_protocol_execution.py],
      [process_supervision.py]): a supervised run in a monad that draws a moment of the
      world (lines, clock, exit, cancellation) at every call that can see it, so that the
      reading threads interleave with the waiting one at every such point.

    ** What the theorems show

    - Keys: encoding and decoding of segments and whole keys are inverse and injective,
      the accepted spellings are characterised, file keys stay inside the repository and
      exactly the escaping paths are refused, nested keys parse to their parents,
      [validate_key] never raises; and two inputs the parser accepts that no builder
      makes.
    - Observations: the constructor accepts exactly the well-formed records; written files
      and spools are read back; reading ends on every text, the two limits of the
      interpreter that are not caught included; the normalised graph is closed.
    - Canonicalisation: for every list of observations without Go ones, the graph is
      closed and keyed, no observation is lost, and only the exceptions of ten kinds of
      handler (all shown to occur) and of texts without an encoding leave the run; for
      every list, the value in a [shell.env] observation of a write to a secret-prone
      variable does not matter; metadata lists
      merge as a membership test would; the Go context reports a bounded number of public
      diagnostics.
    - Contracts: the state machine (terminal states final, every state reachable and
      every state leading to an end), accepted requests are bounded and free of the
      prohibited content, normalisation is idempotent, public errors carry fixed texts.
    - Semantics: a burst of hints leaves one follow-up, publication is concluded on
      evidence only, delays are bounded.
    - Store, for every database reachable by any interleaving of the operations: the
      transactions refine the abstract protocol (a compare-and-set to [queued] apart, whose
      effect is stated); an active job holds its graph's lease,
      so work on a graph is mutually exclusive; success is backed by a committed marker;
      work is bounded by the limits; jobs move along legal transitions; takeovers need that
      no owner is live and fence former ones; a stale owner changes nothing, but that it may
      mark itself stopped and record the publication marker of an attempt that has none.
    - Operations: claims take the best eligible job, submission is idempotent, where the
      store's reconciliation agrees with the pure rules and where it does not (a started
      transaction without a marker), launch registrations are used once, and two situations in which a leftover row makes an operation fail.
    - Process: it is a lawful client of the store whatever it is asked and however calls
      fail, so the store's theorems hold throughout; a finished run leaves its job in the
      reported state, if others leave a finished job alone, and no lease; slots are given back when a run returns; recovery
      fences every attempt of another owner and accounts for every claim; and one failure
      that leaks a slot.
    - Polling: a requested refresh is for exactly the wanted generations; a graph that is
      due is polled once as many turns have room as graphs are waiting before it; polls
      are bounded in number and spaced; and two situations in which a wanted refresh is
      not requested.
    - Storage: the external sort is a sort and leaves no file, within bounded memory; the
      streaming digest is the digest of the JSON of the whole graph; receipts depend on
      the rows only, and their texts tell rows apart; spools give back their rows; the
      family catalog is consistent; staging a graph ends, preserves its digest across
      memory and spools, and leaves no file behind when it fails, except the one spool
      whose [stat] or measurements fail after it was written.
    - Artifacts: canonical bytes are exact and references survive their mappings; a locator
      stays in its store; what a reference reads never changes, and a stale one is refused
      for ever; a stream vouches only for the whole artifact, and never refuses an
      untouched one (but for [readline(0)]).
    - Workers: frames are read back; what a session accepts is a conversation in order, and
      refusals leave no trace; success is reported only for a worker whose lines say so in
      order, about what it was asked, and that then exited well; every run ends, but one that
      closes an output pipe which a thread reads and another process keeps open; one that
      returns leaves no worker unattended, and a well-set one whose worker keeps its input
      open and whose pipes are not so held does return whatever that worker says; and
      situations, found here, in which a worker is left running, its success is lost, or the
      thread that reads it ends unnoticed.

    ** Bounds, fuel and idealisations

    Some models take fuel.  [scan_once] of the JSON reader gets twice the length of the
    text and two more, which [observation_reading_terminates] shows to be enough on every text;
    [hkey_eq] gets the depth of its left key, which [hkey_eq_spec] shows to be enough;
    [text_chunks] gets the length of the text and [merge_steps] the number of lines left in
    the runs, and the sort theorem shows that nothing is lost with them.  [read_all] and
    [drain] of the stream get the number of bytes left and two more, which [stream_vouches]
    shows to be enough; [hex_digits] gets the bits of its number.  The loops of a worker's
    run get the number of pauses their deadlines hold and a few more turns, and
    [worker_run_ends] shows that they never want another.  [decode_ignore] gets the number
    of bytes.
    Other loops over strings, rows, observations and claims are structural, and
    [claim_loop] counts the three tries of [claim_next].  The regular-expression matcher
    recurses on the expression and, for repetitions, on the length of the text.
    Transactions are serial: the store takes row and table locks, and what a transaction
    sees of others is the environment (rows skipped because they are locked, a fencing
    lock not obtained, the maintenance lock refused).  Database integers are unbounded
    here.  Times are microseconds.  Floats are rationals.  A timestamp with hour 24 is
    refused, as in the Python versions the project supports.  The Unicode tables the
    regular expressions consult are a class parameter with an instance for ASCII.  The
    database's text collation is a parameter; the order of claims assumes it is a total
    order.  A float is the text of its [repr] with the integer it equals, if any; [float] of
    a token is a parameter of the JSON reader, and the identity of a NaN with itself in
    membership tests is left out.  Of the interpreter's recursion limit, what is modelled is
    the reading and writing of JSON that comes from outside (observation files, frames of
    workers): one number of levels, a parameter, stands for the room every recursive walk
    over a value has.  Rows the program writes to its own temporary files and reads back
    are taken to fit, and other recursion limits are left out.  [str.lower] does not
    look at the context of a final sigma.  The in-place update of a merged metadata list
    gives a fresh list here: the list it updates is reachable only from the edge it
    replaces.  The theorems on canonicalisation assume what the annotations say of the
    name and the target of an observation: a [str] or [None].  A [next(...)] of the Go
    builder that finds nothing raises [CValueError].  Callbacks (the graph-storage fence, the publication file, the retirer of
    evidence, cancellation checks and observers, which may raise) are arguments, as are the
    parts in which [JSONEncoder.iterencode] gives a text (assumed to make up what [dumps]
    gives) and the blocks a file system gives a file.  A generator is a function of the
    body of the loop that consumes it.  The external sort refuses more runs than its four
    levels hold, which takes at least [fan_in ^ 4] rows.  The measurements of staging are calls that may
    raise; what they record is left out.  A transaction reads one clock, so that a check it
    repeats after the fence gives the same answer.  [op_ok] keeps the compare-and-set from being asked for
    [queued]; the theorem on the
    process shows that the coordinator never does.

    In a worker's run the clock is what was slept plus a time that does not go back, the
    lines of the worker are those [readline] gives, and more can happen between two calls
    than does: a line may still arrive when the reading threads have ended.  The start and
    the cancel written to a worker are taken to fit its input pipe.

    ** Not modelled, and what is left

    Not modelled: sockets, signals and files (transport, endpoint security, launching,
    the worker programs, the filesystem store and the bundles of artifacts), schema
    management, listing, the command line, the server, packaging, the SQL of graph storage
    (COPY, merge statements, readback), and the extractors, most of which call third-party
    parsers.  Not yet proved: that the Go part
    of a canonical graph is closed too (its [declares] edges start at file nodes that only
    file observations make).  What is left and can be modelled in
    the same way: the manifests, receipts and bundles of artifacts, the validation of
    transport requests, job listing, and the merging of sources ([graph/multi_source*]). *)
From stdpp Require Export base list gmap strings pretty sorting.
From Stdlib Require Export ZArith Lia.
Open Scope Z_scope.

(** ** Results and exceptions *)

(** Python code that may raise: a value or the exception raised. *)
Inductive result (E A : Type) : Type :=
| Ok (a : A)
| Err (e : E).
Arguments Ok {E A} a.
Arguments Err {E A} e.

#[export] Instance result_ret {E} : MRet (result E) := fun A a => Ok a.
#[export] Instance result_bind {E} : MBind (result E) := fun A B f m =>
  match m with Ok a => f a | Err e => Err e end.
#[export] Instance result_fmap {E} : FMap (result E) := fun A B f m =>
  match m with Ok a => Ok (f a) | Err e => Err e end.
#[export] Instance result_eq_dec {E A} `{EqDecision E} `{EqDecision A} :
  EqDecision (result E A).
Proof. solve_decision. Defined.

(** [if b: raise e]. *)
Definition raise_if {E} (b : bool) (e : E) : result E unit :=
  if b then Err e else Ok tt.

Definition is_ok {E A} (r : result E A) : bool :=
  match r with Ok _ => true | Err _ => false end.

Lemma bind_Ok {E A B} (m : result E A) (f : A -> result E B) (b : B) :
  m ≫= f = Ok b <-> exists a, m = Ok a /\ f a = Ok b.
Proof.
  destruct m as [a|e]; cbn; split; intros H.
  - eauto.
  - by destruct H as (a' & [= ->] & ?).
  - discriminate.
  - by destruct H as (? & ? & ?).
Qed.

Lemma mapM_Ok {E A B} (f : A -> result E B) (l : list A) (k : list B) :
  mapM f l = Ok k <-> Forall2 (fun x y => f x = Ok y) l k.
Proof.
  revert k. induction l as [|x l IH]; intros k; cbn.
  - split; [by intros [= <-]|by inversion 1].
  - split.
    + intros (y & Hy & (ys & Hys%IH & [= <-])%bind_Ok)%bind_Ok. by constructor.
    + inversion 1 as [|? y ? ys Hy Hys]; subst. by rewrite Hy; cbn; rewrite (proj2 (IH _) Hys).
Qed.

(** The first exception of [mapM f l] is raised by an element. *)
Lemma mapM_Err {E A B} (f : A -> result E B) (l : list A) (e : E) :
  mapM f l = Err e -> exists x, x ∈ l /\ f x = Err e.
Proof.
  induction l as [|x l IH]; cbn; [done|]. destruct (f x) as [y|e'] eqn:Hx; cbn.
  - destruct (mapM f l) as [ys|e']; cbn; [done|]. intros [= ->].
    destruct IH as (x' & ? & ?); [done|]. exists x'. set_solver.
  - intros [= ->]. exists x. set_solver.
Qed.

Lemma raise_if_Ok {E} (b : bool) (e : E) (u : unit) :
  raise_if b e = Ok u <-> b = false.
Proof. destruct b, u; cbn; split; congruence. Qed.

(** ** Python strings: sequences of code points *)

Abbreviation pystr := (list Z).

(** A literal of the source, as a Python [str]. *)
Definition lit (s : string) : pystr :=
  (fun a => Z.of_N (Ascii.N_of_ascii a)) <$> String.list_ascii_of_string s.
Arguments lit s%_string.

(** [c in set] for a set of characters written as a literal. *)
Definition char_in (c : Z) (s : pystr) : bool := bool_decide (c ∈ s).

(** [sep.join(parts)] for a one-character separator. *)
Fixpoint str_join (sep : Z) (parts : list pystr) : pystr :=
  match parts with
  | [] => []
  | [p] => p
  | p :: rest => p ++ sep :: str_join sep rest
  end.

(** [s.split(sep)] for a one-character separator: never empty. *)
Fixpoint str_split (sep : Z) (s : pystr) : list pystr :=
  match s with
  | [] => [[]]
  | c :: rest =>
      if c =? sep then [] :: str_split sep rest
      else match str_split sep rest with
           | [] => [[c]]
           | w :: ws => (c :: w) :: ws
           end
  end.

(** [s.partition(sep)]: the head, whether the separator was found, the rest. *)
Fixpoint str_partition (sep : Z) (s : pystr) : pystr * bool * pystr :=
  match s with
  | [] => ([], false, [])
  | c :: rest =>
      if c =? sep then ([], true, rest)
      else let '(h, found, t) := str_partition sep rest in (c :: h, found, t)
  end.

(** [s.startswith(prefix)] *)
Fixpoint startswith (prefix s : pystr) : bool :=
  match prefix, s with
  | [], _ => true
  | p :: ps, c :: cs => (p =? c) && startswith ps cs
  | _ :: _, [] => false
  end.

(** [s.replace(old, new)] for single characters. *)
Definition replace_char (old new : Z) (s : pystr) : pystr :=
  (fun c => if c =? old then new else c) <$> s.

(** [str.isspace] of one character: the code points CPython's Unicode database
    gives the bidirectional type WS, B or S or the category Zs. *)
Definition isspace (c : Z) : bool :=
  ((9 <=? c) && (c <=? 13)) || ((28 <=? c) && (c <=? 32)) ||
  (c =? 133) || (c =? 160) || (c =? 5760) ||
  ((8192 <=? c) && (c <=? 8202)) || (c =? 8232) || (c =? 8233) ||
  (c =? 8239) || (c =? 8287) || (c =? 12288).

Fixpoint lstrip (s : pystr) : pystr :=
  match s with
  | c :: rest => if isspace c then lstrip rest else s
  | [] => []
  end.

(** [s.strip()] *)
Definition strip (s : pystr) : pystr := reverse (lstrip (reverse (lstrip s))).

(** [str(n)] of an [int]. *)
Definition str_of_int (n : Z) : pystr := lit (pretty n).

(** ASCII character classes. *)
Definition is_upper (c : Z) : bool := (65 <=? c) && (c <=? 90).
Definition is_lower (c : Z) : bool := (97 <=? c) && (c <=? 122).
Definition is_digit (c : Z) : bool := (48 <=? c) && (c <=? 57).
Definition is_alnum (c : Z) : bool := is_upper c || is_lower c || is_digit c.

(** The Unicode character database outside ASCII, which the interpreter ships
    and no file of the repository defines.  Inside ASCII the model is exact. *)
Class Unicode := {
  uni_upper : Z -> pystr;     (** [c.upper()] *)
  uni_lower : Z -> pystr;     (** [c.lower()] *)
  uni_alnum : Z -> bool;      (** [c.isalnum()] *)
  uni_decimal : Z -> bool;    (** [c.isdecimal()] *)
  uni_printable : Z -> bool;  (** [c.isprintable()] *)
}.

(** The database of an ASCII-only world, used to evaluate examples. *)
Definition ascii_only : Unicode :=
  {| uni_upper := fun c => [c]; uni_lower := fun c => [c];
     uni_alnum := fun _ => false; uni_decimal := fun _ => false;
     uni_printable := fun _ => false |}.

(** [c.upper()] for a one-character string. *)
Definition upper_char `{Unicode} (c : Z) : pystr :=
  if c <? 128 then (if is_lower c then [c - 32] else [c]) else uni_upper c.

(** [c.lower()] for a one-character string. *)
Definition lower_char `{Unicode} (c : Z) : pystr :=
  if c <? 128 then (if is_upper c then [c + 32] else [c]) else uni_lower c.

(** ** Lemmas on the string operations *)

Lemma str_join_cons sep p q rest :
  str_join sep (p :: q :: rest) = p ++ sep :: str_join sep (q :: rest).
Proof. done. Qed.

Lemma str_split_nonempty sep s : str_split sep s <> [].
Proof. destruct s as [|c s]; cbn; [done|]. destruct (c =? sep); [done|]. by destruct (str_split sep s). Qed.

Lemma str_split_app_no_sep sep w s :
  sep ∉ w -> str_split sep (w ++ sep :: s) = w :: str_split sep s.
Proof.
  induction w as [|c w IH]; cbn; intros Hw.
  - by rewrite Z.eqb_refl.
  - apply not_elem_of_cons in Hw as [Hc Hw]. rewrite (proj2 (Z.eqb_neq c sep)) by congruence.
    by rewrite IH.
Qed.

Lemma str_split_no_sep sep w : sep ∉ w -> str_split sep w = [w].
Proof.
  induction w as [|c w IH]; cbn; intros Hw; [done|].
  apply not_elem_of_cons in Hw as [Hc Hw]. rewrite (proj2 (Z.eqb_neq c sep)) by congruence.
  by rewrite IH.
Qed.

Lemma str_split_join sep parts :
  parts <> [] -> Forall (fun p => sep ∉ p) parts -> str_split sep (str_join sep parts) = parts.
Proof.
  induction parts as [|p [|q rest] IH]; intros Hne Hall; [done| |].
  - inversion_clear Hall. cbn. by apply str_split_no_sep.
  - inversion_clear Hall as [|? ? Hp Hrest]. rewrite str_join_cons, str_split_app_no_sep by done.
    f_equal. by apply IH.
Qed.

Lemma str_join_split sep s : str_join sep (str_split sep s) = s.
Proof.
  induction s as [|c s IH]; cbn; [done|].
  destruct (Z.eqb_spec c sep) as [->|Hne].
  - pose proof (str_split_nonempty sep s). destruct (str_split sep s) as [|w ws]; [done|].
    rewrite <- IH. done.
  - destruct (str_split sep s) as [|w [|v ws]]; cbn in *; [by subst|by subst|].
    by rewrite IH.
Qed.

Lemma str_split_parts_no_sep sep s : Forall (fun p => sep ∉ p) (str_split sep s).
Proof.
  induction s as [|c s IH]; cbn.
  - constructor; [set_solver|constructor].
  - destruct (Z.eqb_spec c sep) as [->|Hne].
    + constructor; [set_solver|done].
    + destruct (str_split sep s) as [|w ws]; [by repeat constructor; set_solver|].
      inversion IH; subst. constructor; [set_solver|done].
Qed.

Lemma str_partition_app sep w s :
  sep ∉ w -> str_partition sep (w ++ sep :: s) = (w, true, s).
Proof.
  induction w as [|c w IH]; cbn; intros Hw.
  - by rewrite Z.eqb_refl.
  - apply not_elem_of_cons in Hw as [Hc Hw]. rewrite (proj2 (Z.eqb_neq c sep)) by congruence.
    by rewrite IH.
Qed.

Lemma str_partition_found sep s h t :
  str_partition sep s = (h, true, t) -> s = h ++ sep :: t /\ sep ∉ h.
Proof.
  revert h t. induction s as [|c s IH]; cbn; intros h t H; [done|].
  destruct (Z.eqb_spec c sep) as [->|Hne].
  - injection H as <- <-. split; [done|set_solver].
  - destruct (str_partition sep s) as [[h' f'] t'] eqn:E. injection H as <- -> <-.
    destruct (IH _ _ eq_refl) as [-> ?]. split; [done|set_solver].
Qed.

Lemma startswith_app prefix s : startswith prefix (prefix ++ s) = true.
Proof. induction prefix as [|c p IH]; cbn; [done|]. by rewrite Z.eqb_refl. Qed.

Lemma startswith_spec prefix s :
  startswith prefix s = true <-> exists rest, s = prefix ++ rest.
Proof.
  split.
  - revert s. induction prefix as [|p ps IH]; intros [|c cs] H; cbn in *; eauto; [done|].
    apply andb_true_iff in H as [->%Z.eqb_eq (rest & ->)%IH]. by exists rest.
  - intros (rest & ->). apply startswith_app.
Qed.

(** Every character of an encoded part satisfies [P] when all parts do. *)
Lemma elem_of_str_join sep parts c :
  c ∈ str_join sep parts -> c = sep \/ exists p, p ∈ parts /\ c ∈ p.
Proof.
  induction parts as [|p [|q rest] IH]; intros Hc; [by apply elem_of_nil in Hc| |].
  - right. exists p. cbn in Hc. set_solver.
  - rewrite str_join_cons in Hc. apply elem_of_app in Hc as [Hc|Hc].
    + right. exists p. set_solver.
    + apply elem_of_cons in Hc as [->|Hc]; [by left|].
      destruct (IH Hc) as [->|(p' & ? & ?)]; [by left|]. right. exists p'. set_solver.
Qed.

Lemma str_join_elem sep parts p c : p ∈ parts -> c ∈ p -> c ∈ str_join sep parts.
Proof.
  induction parts as [|q [|r rest] IH]; intros Hp Hc; [by apply elem_of_nil in Hp|set_solver|].
  rewrite str_join_cons. apply elem_of_cons in Hp as [->|Hp]; [set_solver|].
  apply elem_of_app. right. apply elem_of_cons. right. by apply IH.
Qed.

(** ** Automation *)

(** Decides a closed boolean or arithmetic fact about concrete data. *)
Create HintDb pykeys.

Ltac concrete := first [ reflexivity | vm_compute; reflexivity | lia | by vm_compute ].

(** Proves a closed decidable proposition by evaluating its decision procedure. *)
Ltac decide_closed := refine (bool_decide_unpack _ _); vm_compute; exact I.

(** Splits the [result] binds and [raise_if] guards of a hypothesis [H : m = Ok b]. *)
Ltac unbind H :=
  repeat first
    [ match type of H with
      | mbind _ _ = Ok _ => apply bind_Ok in H as (? & ? & H)
      | (if ?b then Err _ else _) = Ok _ => destruct b eqn:?; [discriminate H|]
      | (if ?b then _ else Err _) = Ok _ => destruct b eqn:?; [|discriminate H]
      end ];
  repeat match goal with
    | G : raise_if _ _ = Ok _ |- _ => apply raise_if_Ok in G
    end.
