(* ===== verification/Utf8.v ===== *)
(** UTF-8, as [str.encode("utf-8")] and [bytes.decode("utf-8")] of the standard
    library behave: the strict codec, which refuses surrogates in both
    directions and, when decoding, overlong forms and values past U+10FFFF.
    A byte is an integer of [0, 255]; [None] is the exception. *)
From S2P Require Import Prelude.
Open Scope Z_scope.

Definition is_surrogate (c : Z) : bool := (55296 <=? c) && (c <=? 57343).

(** A code point with a UTF-8 encoding. *)
Definition is_scalar (c : Z) : bool :=
  (0 <=? c) && (c <? 1114112) && negb (is_surrogate c).

Definition utf8_encode_char (c : Z) : option (list Z) :=
  if negb (is_scalar c) then None
  else if c <? 128 then Some [c]
  else if c <? 2048 then Some [192 + c / 64; 128 + c mod 64]
  else if c <? 65536 then
    Some [224 + c / 4096; 128 + c / 64 mod 64; 128 + c mod 64]
  else
    Some [240 + c / 262144; 128 + c / 4096 mod 64; 128 + c / 64 mod 64; 128 + c mod 64].

(** [s.encode("utf-8")] *)
Fixpoint utf8_encode (s : pystr) : option (list Z) :=
  match s with
  | [] => Some []
  | c :: rest => b ← utf8_encode_char c; bs ← utf8_encode rest; Some (b ++ bs)
  end.

Definition is_cont (b : Z) : bool := (128 <=? b) && (b <? 192).

(** One multi-byte sequence decoded to [v]: refused when it is overlong (below
    [low]), a surrogate, or past the last code point. *)
Definition utf8_accept (low v : Z) : option Z :=
  if (low <=? v) && is_scalar v then Some v else None.

(** [bs.decode("utf-8")] *)
Fixpoint utf8_decode (bs : list Z) : option pystr :=
  match bs with
  | [] => Some []
  | b0 :: r0 =>
      if (0 <=? b0) && (b0 <? 128) then cons b0 <$> utf8_decode r0
      else if (192 <=? b0) && (b0 <? 224) then
        match r0 with
        | b1 :: r1 =>
            if is_cont b1 then
              c ← utf8_accept 128 ((b0 - 192) * 64 + (b1 - 128));
              cons c <$> utf8_decode r1
            else None
        | _ => None
        end
      else if (224 <=? b0) && (b0 <? 240) then
        match r0 with
        | b1 :: b2 :: r2 =>
            if is_cont b1 && is_cont b2 then
              c ← utf8_accept 2048 ((b0 - 224) * 4096 + (b1 - 128) * 64 + (b2 - 128));
              cons c <$> utf8_decode r2
            else None
        | _ => None
        end
      else if (240 <=? b0) && (b0 <? 248) then
        match r0 with
        | b1 :: b2 :: b3 :: r3 =>
            if is_cont b1 && is_cont b2 && is_cont b3 then
              c ← utf8_accept 65536
                    ((b0 - 240) * 262144 + (b1 - 128) * 4096 + (b2 - 128) * 64 + (b3 - 128));
              cons c <$> utf8_decode r3
            else None
        | _ => None
        end
      else None
  end.

Definition is_byte (b : Z) : Prop := 0 <= b < 256.

(** ** Facts *)

Lemma is_scalar_spec c :
  is_scalar c = true <-> 0 <= c < 1114112 /\ ~ (55296 <= c <= 57343).
Proof. unfold is_scalar, is_surrogate. lia. Qed.

Ltac bools :=
  repeat match goal with
  | H : negb _ = true |- _ => apply negb_true_iff in H
  | H : negb _ = false |- _ => apply negb_false_iff in H
  | H : is_scalar _ = true |- _ => apply is_scalar_spec in H
  end.

(** Solves [if b then x else y = x] steps where [lia] decides [b]. *)
Ltac take_true := match goal with |- context [if ?b then _ else _] =>
  replace b with true by (unfold is_cont in *; lia) end; cbv beta iota.
Ltac take_false := match goal with |- context [if ?b then _ else _] =>
  replace b with false by (unfold is_cont in *; lia) end; cbv beta iota.

Lemma utf8_accept_ok low v : low <= v -> is_scalar v = true -> utf8_accept low v = Some v.
Proof. intros. unfold utf8_accept. rewrite H0, andb_true_r. by replace (low <=? v) with true by lia. Qed.

Lemma utf8_accept_Some low v c :
  utf8_accept low v = Some c -> c = v /\ low <= v /\ is_scalar v = true.
Proof.
  unfold utf8_accept. destruct (low <=? v) eqn:?; cbn; [|done].
  destruct (is_scalar v) eqn:?; intros [=]; subst. split_and!; [done|lia|done].
Qed.

(** Decoding the encoding of one character gives it back. *)
Lemma utf8_decode_char c b rest :
  utf8_encode_char c = Some b -> utf8_decode (b ++ rest) = cons c <$> utf8_decode rest.
Proof.
  unfold utf8_encode_char. destruct (is_scalar c) eqn:Hs; [|done]. cbn [negb].
  pose proof (proj1 (is_scalar_spec c) Hs).
  pose proof (Z.div_mod c 64 ltac:(lia)). pose proof (Z.mod_pos_bound c 64 ltac:(lia)).
  pose proof (Z.div_mod (c / 64) 64 ltac:(lia)). pose proof (Z.mod_pos_bound (c / 64) 64 ltac:(lia)).
  pose proof (Z.div_mod (c / 4096) 64 ltac:(lia)). pose proof (Z.mod_pos_bound (c / 4096) 64 ltac:(lia)).
  assert (c / 64 / 64 = c / 4096) by (rewrite Z.div_div; [f_equal|..]; lia).
  assert (c / 4096 / 64 = c / 262144) by (rewrite Z.div_div; [f_equal|..]; lia).
  destruct (c <? 128) eqn:?; [|destruct (c <? 2048) eqn:?; [|destruct (c <? 65536) eqn:?]];
    intros [= <-]; cbn [app utf8_decode].
  - by take_true.
  - take_false. take_true. take_true.
    rewrite utf8_accept_ok; [|lia|rewrite <- Hs; f_equal; lia]. cbn. do 3 f_equal. lia.
  - take_false. take_false. take_true. take_true.
    rewrite utf8_accept_ok; [|lia|rewrite <- Hs; f_equal; lia]. cbn. do 3 f_equal. lia.
  - take_false. take_false. take_false. take_true. take_true.
    rewrite utf8_accept_ok; [|lia|rewrite <- Hs; f_equal; lia]. cbn. do 3 f_equal. lia.
Qed.

Lemma utf8_decode_encode s bs : utf8_encode s = Some bs -> utf8_decode bs = Some s.
Proof.
  revert bs. induction s as [|c s IH]; cbn; intros bs H; [by simplify_eq|].
  destruct (utf8_encode_char c) as [b|] eqn:Ec; cbn in H; [|done].
  destruct (utf8_encode s) as [bs'|] eqn:Es; cbn in H; [|done]. simplify_eq.
  rewrite (utf8_decode_char c b bs' Ec), (IH _ eq_refl). done.
Qed.

(** A decoded multi-byte value re-encodes to the bytes it came from. *)
Lemma utf8_encode_char2 b0 b1 v :
  192 <= b0 < 224 -> is_cont b1 = true ->
  v = (b0 - 192) * 64 + (b1 - 128) -> 128 <= v -> is_scalar v = true ->
  utf8_encode_char v = Some [b0; b1].
Proof.
  intros ? ? -> ? Hs. unfold utf8_encode_char. rewrite Hs. cbn [negb].
  unfold is_cont in *. take_false. take_true. do 2 f_equal; [|f_equal].
  - rewrite <- (Z.div_unique _ 64 (b0 - 192) (b1 - 128)); lia.
  - rewrite <- (Z.mod_unique _ 64 (b0 - 192) (b1 - 128)); lia.
Qed.

Lemma utf8_encode_char3 b0 b1 b2 v :
  224 <= b0 < 240 -> is_cont b1 && is_cont b2 = true ->
  v = (b0 - 224) * 4096 + (b1 - 128) * 64 + (b2 - 128) -> 2048 <= v -> is_scalar v = true ->
  utf8_encode_char v = Some [b0; b1; b2].
Proof.
  intros ? ? -> ? Hs. unfold utf8_encode_char. rewrite Hs. cbn [negb].
  unfold is_cont in *. take_false. take_false. take_true.
  set (v := (b0 - 224) * 4096 + (b1 - 128) * 64 + (b2 - 128)).
  assert (v / 64 = (b0 - 224) * 64 + (b1 - 128)) as E1.
  { unfold v. rewrite <- (Z.div_unique _ 64 ((b0 - 224) * 64 + (b1 - 128)) (b2 - 128)); lia. }
  assert (v / 4096 = b0 - 224) as E2.
  { unfold v. rewrite <- (Z.div_unique _ 4096 (b0 - 224) ((b1 - 128) * 64 + (b2 - 128))); lia. }
  assert (v mod 64 = b2 - 128) as E3.
  { unfold v. rewrite <- (Z.mod_unique _ 64 ((b0 - 224) * 64 + (b1 - 128)) (b2 - 128)); lia. }
  assert (v / 64 mod 64 = b1 - 128) as E4.
  { rewrite E1. rewrite <- (Z.mod_unique _ 64 (b0 - 224) (b1 - 128)); lia. }
  rewrite E2, E3, E4. repeat f_equal; lia.
Qed.

Lemma utf8_encode_char4 b0 b1 b2 b3 v :
  240 <= b0 < 248 -> is_cont b1 && is_cont b2 && is_cont b3 = true ->
  v = (b0 - 240) * 262144 + (b1 - 128) * 4096 + (b2 - 128) * 64 + (b3 - 128) ->
  65536 <= v -> is_scalar v = true ->
  utf8_encode_char v = Some [b0; b1; b2; b3].
Proof.
  intros ? ? -> ? Hs. unfold utf8_encode_char. rewrite Hs. cbn [negb].
  unfold is_cont in *. take_false. take_false. take_false.
  set (v := (b0 - 240) * 262144 + (b1 - 128) * 4096 + (b2 - 128) * 64 + (b3 - 128)).
  assert (v / 64 = (b0 - 240) * 4096 + (b1 - 128) * 64 + (b2 - 128)) as E1.
  { unfold v. rewrite <- (Z.div_unique _ 64 ((b0 - 240) * 4096 + (b1 - 128) * 64 + (b2 - 128)) (b3 - 128)); lia. }
  assert (v / 4096 = (b0 - 240) * 64 + (b1 - 128)) as E2.
  { unfold v. rewrite <- (Z.div_unique _ 4096 ((b0 - 240) * 64 + (b1 - 128)) ((b2 - 128) * 64 + (b3 - 128))); lia. }
  assert (v / 262144 = b0 - 240) as E3.
  { unfold v. rewrite <- (Z.div_unique _ 262144 (b0 - 240) ((b1 - 128) * 4096 + (b2 - 128) * 64 + (b3 - 128))); lia. }
  assert (v mod 64 = b3 - 128) as E4.
  { unfold v. rewrite <- (Z.mod_unique _ 64 ((b0 - 240) * 4096 + (b1 - 128) * 64 + (b2 - 128)) (b3 - 128)); lia. }
  assert (v / 64 mod 64 = b2 - 128) as E5.
  { rewrite E1. rewrite <- (Z.mod_unique _ 64 ((b0 - 240) * 64 + (b1 - 128)) (b2 - 128)); lia. }
  assert (v / 4096 mod 64 = b1 - 128) as E6.
  { rewrite E2. rewrite <- (Z.mod_unique _ 64 (b0 - 240) (b1 - 128)); lia. }
  rewrite E3, E4, E5, E6. repeat f_equal; lia.
Qed.

(** Extends a decoding by one character, on the encoding side. *)
Lemma utf8_encode_cons c b s bs :
  utf8_encode_char c = Some b -> utf8_encode s = Some bs ->
  utf8_encode (c :: s) = Some (b ++ bs).
Proof. intros Hc Hs. cbn. by rewrite Hc, Hs. Qed.

Lemma utf8_encode_decode bs s : utf8_decode bs = Some s -> utf8_encode s = Some bs.
Proof.
  revert s. induction bs as [bs IH] using (induction_ltof1 _ (@length Z)).
  unfold ltof in IH. intros s H.
  destruct bs as [|b0 r0]; cbn in H; [by simplify_eq|].
  destruct ((0 <=? b0) && (b0 <? 128)) eqn:H1; [|destruct ((192 <=? b0) && (b0 <? 224)) eqn:H2;
    [|destruct ((224 <=? b0) && (b0 <? 240)) eqn:H3;
      [|destruct ((240 <=? b0) && (b0 <? 248)) eqn:H4; [|done]]]].
  - apply fmap_Some in H as (s' & Hd & ->).
    apply (utf8_encode_cons b0 [b0]); [|by apply IH; cbn; [lia|]].
    unfold utf8_encode_char. replace (is_scalar b0) with true by (symmetry; apply is_scalar_spec; lia).
    cbn. by replace (b0 <? 128) with true by lia.
  - destruct r0 as [|b1 r1]; [done|]. destruct (is_cont b1) eqn:C; [|done].
    apply bind_Some in H as (c & Ha & (s' & Hd & ->)%fmap_Some).
    apply utf8_accept_Some in Ha as (-> & ? & ?).
    apply (utf8_encode_cons _ [b0; b1]); [|by apply IH; cbn; [lia|]].
    eapply utf8_encode_char2; eauto. lia.
  - destruct r0 as [|b1 [|b2 r2]]; [done..|]. destruct (is_cont b1 && is_cont b2) eqn:C; [|done].
    apply bind_Some in H as (c & Ha & (s' & Hd & ->)%fmap_Some).
    apply utf8_accept_Some in Ha as (-> & ? & ?).
    apply (utf8_encode_cons _ [b0; b1; b2]); [|by apply IH; cbn; [lia|]].
    eapply utf8_encode_char3; eauto. lia.
  - destruct r0 as [|b1 [|b2 [|b3 r3]]]; [done..|].
    destruct (is_cont b1 && is_cont b2 && is_cont b3) eqn:C; [|done].
    apply bind_Some in H as (c & Ha & (s' & Hd & ->)%fmap_Some).
    apply utf8_accept_Some in Ha as (-> & ? & ?).
    apply (utf8_encode_cons _ [b0; b1; b2; b3]); [|by apply IH; cbn; [lia|]].
    eapply utf8_encode_char4; eauto. lia.
Qed.

Lemma utf8_encode_char_bytes c b : utf8_encode_char c = Some b -> Forall is_byte b.
Proof.
  unfold utf8_encode_char, is_byte. destruct (is_scalar c) eqn:Hs; [|done].
  apply is_scalar_spec in Hs as [Hs _]. cbn [negb].
  destruct (c <? 128) eqn:?; [|destruct (c <? 2048) eqn:?; [|destruct (c <? 65536) eqn:?]];
    intros [= <-]; repeat constructor; Z.div_mod_to_equations; lia.
Qed.

Lemma utf8_encode_bytes s bs : utf8_encode s = Some bs -> Forall is_byte bs.
Proof.
  revert bs. induction s as [|c s IH]; cbn; intros bs H; [by simplify_eq; constructor|].
  apply bind_Some in H as (b & Hc & (bs' & Hs & [= <-])%bind_Some).
  apply Forall_app. eauto using utf8_encode_char_bytes.
Qed.

Lemma utf8_encode_nonempty s bs : utf8_encode s = Some bs -> s <> [] -> bs <> [].
Proof. intros H Hne ->. apply utf8_decode_encode in H. cbn in H. congruence. Qed.

Lemma utf8_encode_scalar s : Forall (fun c => is_scalar c = true) s <-> is_Some (utf8_encode s).
Proof.
  induction s as [|c s IH]; cbn; [by split; [eauto|constructor]|].
  rewrite Forall_cons, IH. unfold utf8_encode_char.
  destruct (is_scalar c) eqn:?; cbn.
  - destruct (utf8_encode s); [|split; [by intros [_ []]|]].
    + split; [|by eauto]. intros _. repeat case_match; cbn; eauto.
    + repeat case_match; cbn; intros []; done.
  - split; [by intros [? _]|by intros []].
Qed.

#[export] Hint Resolve utf8_decode_encode utf8_encode_decode : pykeys.
