(* ===== verification/GraphKeys.v ===== *)
(** Canonical graph keys: [graph/keys.py] and [graph/_key_namespaces.py].

    A canonical key is a namespace, a colon, and percent-encoded segments: the
    identity of every node of the knowledge graph.  The file holds the segment
    codec, the path normaliser, the parser and validator, the coercions of parent
    keys and one builder per namespace.  A raised [GraphKeyError] is a
    [key_error] that names the raise site; the other exceptions the code lets
    through are separate constructors.  The facts are in [GraphKeysFacts.v]. *)
From S2P Require Import Prelude Utf8.
Open Scope Z_scope.

Inductive key_error :=
| KeyMustBeString
| KeyRequired
| SeparatorMissing
| UnknownNamespace (ns : pystr)
| SegmentCount (ns : pystr) (expected : nat)
| SegmentRequired
| ReservedCharacter (c : Z)
| NotUtf8
| MalformedEscape
| LowercaseEscape
| FileKeyRequiresPath
| FileKeyEmptyComponent
| FileKeyNotNormalized
| FileKeyEscapes
| PathTypeInvalid
| PathRequired
| PathAbsolute
| PathEscapes
| FileKeyRequired
| ParentNamespace (ns : pystr)
| PointerRequired
| PointerNotNormalized
| JsPointerRequired
| JsTestCaseOwner
| GoIdentityRequired
| GoIdentityTooLong (maximum : Z)
| GoModuleNotSlashPath
| GoModuleTraverses
| GoFallbackNotRelative
| GoPackageParent
| GoScopeUnsafe
| GoDirectoryNotNormalized
| GoSourceModuleParent
| GoSourcePackageParent.

(** What a call can raise.  [UnicodeEncodeError] and [KeyError] are not
    [GraphKeyError]s. *)
Inductive key_exn :=
| GraphKeyError (e : key_error)
| UnicodeEncodeError
| KeyError.

#[export] Instance key_error_eq_dec : EqDecision key_error.
Proof. solve_decision. Defined.
#[export] Instance key_exn_eq_dec : EqDecision key_exn.
Proof. solve_decision. Defined.

Abbreviation kres := (result key_exn).

Abbreviation kerr e := (Err (GraphKeyError e)).

(** An argument of unchecked type: a [str], or something else. *)
Inductive pyarg := PyStr (s : pystr) | PyOther.

(** A path argument: a [str]; a [PurePath], by its [as_posix()]; another
    [os.PathLike], by its [os.fspath] ([None] when that is not a [str]); or an
    object of another type. *)
Inductive pathlike :=
| PathStr (s : pystr)
| PathPure (as_posix : pystr)
| PathFspath (fspath : option pystr)
| PathOther.

(** A line number argument, [int | str]. *)
Inductive int_or_str := ArgInt (n : Z) | ArgStr (s : pystr).

Definition str_of_arg (a : int_or_str) : pystr :=
  match a with ArgInt n => str_of_int n | ArgStr s => s end.

Record ParsedGraphKey := {
  graph_key_version : Z;
  namespace : pystr;
  segments : list pystr;
  key : pystr;
  path : option pystr;
}.

Record GraphKeyValidation := {
  valid : bool;
  error : option key_error;
}.

Definition COLON : Z := 58.
Definition SLASH : Z := 47.
Definition BACKSLASH : Z := 92.
Definition PERCENT : Z := 37.
Definition TILDE : Z := 126.

Definition GRAPH_KEY_VERSION : Z := 1.
Definition SAFE_CHARS : pystr :=
  lit "ABCDEFGHIJKLMNOPQRSTUVWXYZabcdefghijklmnopqrstuvwxyz0123456789-._~".
Definition HEX_CHARS : pystr := lit "0123456789ABCDEF".
Definition MAX_GO_PATH_IDENTITY_BYTES : Z := 4096.
Definition MAX_GO_NAME_IDENTITY_BYTES : Z := 512.

Definition _SEGMENT_COUNTS : list (pystr * nat) :=
  [(lit "tool", 1%nat);
   (lit "env", 1%nat);
   (lit "host.category", 1%nat);
   (lit "python.module", 1%nat);
   (lit "python.class", 2%nat);
   (lit "python.function", 2%nat);
   (lit "python.method", 3%nat);
   (lit "go.module", 1%nat);
   (lit "go.package", 2%nat);
   (lit "go.type", 2%nat);
   (lit "go.function", 2%nat);
   (lit "go.method", 3%nat);
   (lit "go.const", 2%nat);
   (lit "go.var", 2%nat);
   (lit "go.source-module.v2", 3%nat);
   (lit "go.source-package.v2", 3%nat);
   (lit "go.source-package-fallback.v2", 3%nat);
   (lit "go.source-type.v2", 2%nat);
   (lit "go.source-function.v2", 2%nat);
   (lit "go.source-method.v2", 3%nat);
   (lit "go.source-const.v2", 2%nat);
   (lit "go.source-var.v2", 2%nat);
   (lit "nix.app", 3%nat);
   (lit "nix.package", 3%nat);
   (lit "nix.devShell", 3%nat);
   (lit "nix.check", 3%nat);
   (lit "nix.output", 2%nat);
   (lit "doc.page", 1%nat);
   (lit "doc.section", 2%nat);
   (lit "doc.adr", 1%nat);
   (lit "doc.skill", 1%nat);
   (lit "external.url", 1%nat);
   (lit "config.document", 1%nat);
   (lit "config.path", 2%nat);
   (lit "css.document", 1%nat);
   (lit "css.rule", 2%nat);
   (lit "css.selector", 2%nat);
   (lit "css.custom_property", 2%nat);
   (lit "html.document", 1%nat);
   (lit "html.element", 2%nat);
   (lit "html.anchor", 2%nat);
   (lit "xml.document", 1%nat);
   (lit "xml.element", 2%nat);
   (lit "xml.attribute", 3%nat);
   (lit "feed.document", 1%nat);
   (lit "feed.channel", 2%nat);
   (lit "feed.item", 2%nat);
   (lit "feed.author", 2%nat);
   (lit "feed.category", 2%nat);
   (lit "warc.document", 1%nat);
   (lit "warc.record", 2%nat);
   (lit "document.file", 1%nat);
   (lit "document.section", 2%nat);
   (lit "document.table", 2%nat);
   (lit "document.sheet", 2%nat);
   (lit "document.column", 2%nat);
   (lit "document.latex_command", 2%nat);
   (lit "ruby.file", 1%nat);
   (lit "ruby.module", 1%nat);
   (lit "ruby.class", 1%nat);
   (lit "ruby.method", 2%nat);
   (lit "ruby.singleton_method", 2%nat);
   (lit "ruby.constant", 2%nat);
   (lit "ruby.test_case", 2%nat);
   (lit "ruby.test_method", 2%nat);
   (lit "ruby.route", 2%nat);
   (lit "js.file", 1%nat);
   (lit "js.module", 1%nat);
   (lit "js.function", 2%nat);
   (lit "js.class", 2%nat);
   (lit "js.method", 2%nat);
   (lit "js.variable", 2%nat);
   (lit "js.component", 2%nat);
   (lit "js.test_suite", 2%nat);
   (lit "js.test_case", 2%nat);
   (lit "js.route", 2%nat);
   (lit "bash.script", 1%nat);
   (lit "bash.function", 2%nat);
   (lit "bats.file", 1%nat);
   (lit "bats.test_case", 2%nat);
   (lit "bats.expectation", 3%nat);
   (lit "awk.program", 1%nat);
   (lit "awk.function", 2%nat);
   (lit "zsh.script", 1%nat);
   (lit "zsh.function", 2%nat);
   (lit "zunit.file", 1%nat);
   (lit "zunit.suite", 2%nat);
   (lit "zunit.test_case", 2%nat);
   (lit "zunit.hook", 3%nat);
   (lit "zunit.assertion", 3%nat);
   (lit "zunit.expectation", 3%nat);
   (lit "zunit.command_under_test", 3%nat);
   (lit "zunit.mock", 3%nat);
   (lit "zunit.stub", 3%nat);
   (lit "powershell.script", 1%nat);
   (lit "powershell.module", 1%nat);
   (lit "powershell.manifest", 1%nat);
   (lit "powershell.function", 2%nat);
   (lit "powershell.export", 3%nat);
   (lit "email.mailbox", 1%nat);
   (lit "email.message", 2%nat);
   (lit "email.address", 1%nat);
   (lit "email.part", 2%nat);
   (lit "email.attachment_stub", 2%nat);
   (lit "email.thread_hint", 2%nat);
   (lit "dynamic", 2%nat);
   (lit "external", 2%nat);
   (lit "unknown", 2%nat)].

(** [_SEGMENT_COUNTS.get(namespace)] *)
Fixpoint table_get (ns : pystr) (table : list (pystr * nat)) : option nat :=
  match table with
  | [] => None
  | (k, n) :: rest => if bool_decide (k = ns) then Some n else table_get ns rest
  end.

(** ** Segment codec *)

(** The character of one hexadecimal digit in [f"{byte:02X}"]. *)
Definition hex_char (d : Z) : Z := if d <? 10 then 48 + d else 55 + d.

(** One byte of a segment, as the encoder writes it. *)
Definition encode_byte (b : Z) : pystr :=
  if char_in b SAFE_CHARS then [b]
  else [PERCENT; hex_char (b / 16); hex_char (b mod 16)].

Definition _encode_segment (segment : pystr) : kres pystr :=
  match segment with
  | [] => kerr SegmentRequired
  | _ =>
      match utf8_encode segment with
      | None => Err UnicodeEncodeError
      | Some bytes => Ok (bytes ≫= encode_byte)
      end
  end.

(** [int(c, 16)] of one uppercase hexadecimal digit. *)
Definition hex_value (c : Z) : Z := if c <? 65 then c - 48 else c - 55.

Section Codec.
Context {U : Unicode}.

(** [_decode_percent_byte]: [escape] is the slice of at most three characters
    that starts at the percent sign. *)
Definition _decode_percent_byte (escape : pystr) : kres Z :=
  match escape with
  | [_; h; l] =>
      if negb (bool_decide (upper_char h = [h])) || negb (bool_decide (upper_char l = [l]))
      then kerr LowercaseEscape
      else if negb (char_in h HEX_CHARS) || negb (char_in l HEX_CHARS)
      then kerr MalformedEscape
      else Ok (hex_value h * 16 + hex_value l)
  | _ => kerr MalformedEscape
  end.

(** The decoding loop of [_decode_segment]: the bytes from the current index. *)
Fixpoint decode_loop (rest : pystr) : kres (list Z) :=
  match rest with
  | [] => Ok []
  | c :: rest1 =>
      if c =? PERCENT then
        match rest1 with
        | h :: l :: rest3 =>
            b ← _decode_percent_byte [c; h; l];
            bs ← decode_loop rest3;
            Ok (b :: bs)
        | _ => b ← _decode_percent_byte (c :: rest1); Ok [b]
        end
      else if negb (char_in c SAFE_CHARS) then kerr (ReservedCharacter c)
      else bs ← decode_loop rest1; Ok (c :: bs)
  end.

Definition _decode_segment (segment : pystr) : kres pystr :=
  match segment with
  | [] => kerr SegmentRequired
  | _ =>
      decoded ← decode_loop segment;
      match utf8_decode decoded with
      | Some s => Ok s
      | None => kerr NotUtf8
      end
  end.

(** ** Keys *)

Definition _key (ns : pystr) (segs : list pystr) : kres pystr :=
  match table_get ns _SEGMENT_COUNTS with
  | None => Err KeyError
  | Some expected_count =>
      if negb (Nat.eqb (length segs) expected_count)
      then kerr (SegmentCount ns expected_count)
      else encs ← mapM _encode_segment segs;
           Ok (ns ++ COLON :: str_join COLON encs)
  end.

(** The loop of [_normalize_file_components] over the split path; [components]
    is the list built so far, last component first. *)
Fixpoint normalize_loop (parts : list pystr) (components : list pystr) : kres (list pystr) :=
  match parts with
  | [] => Ok (reverse components)
  | component :: rest =>
      if bool_decide (component = []) || bool_decide (component = lit ".")
      then normalize_loop rest components
      else if bool_decide (component = lit "..") then
        match components with
        | [] => kerr PathEscapes
        | _ :: components' => normalize_loop rest components'
        end
      else normalize_loop rest (component :: components)
  end.

Definition _normalize_file_components (p : pathlike) : kres (list pystr) :=
  raw_path ← match p with
             | PathPure s | PathStr s => Ok (Some s)
             | PathFspath f => Ok f
             | PathOther => kerr PathTypeInvalid
             end;
  match raw_path with
  | None | Some [] => kerr PathRequired
  | Some raw =>
      let raw := replace_char BACKSLASH SLASH raw in
      if startswith [SLASH] raw then kerr PathAbsolute
      else components ← normalize_loop (str_split SLASH raw) [];
           match components with
           | [] => Ok [lit "."]
           | _ => Ok components
           end
  end.

Definition file_key (p : pathlike) : kres pystr :=
  components ← _normalize_file_components p;
  encs ← mapM _encode_segment components;
  Ok (lit "file:" ++ str_join SLASH encs).

Definition _parse_file_segments (path_text : pystr) : kres (list pystr) :=
  match path_text with
  | [] => kerr FileKeyRequiresPath
  | _ =>
      let raw_segments := str_split SLASH path_text in
      if existsb (fun s => bool_decide (s = [])) raw_segments then kerr FileKeyEmptyComponent
      else segs ← mapM _decode_segment raw_segments;
           if bool_decide (segs = [lit "."]) then Ok segs
           else if bool_decide (lit "." ∈ segs) then kerr FileKeyNotNormalized
           else if bool_decide (lit ".." ∈ segs) then kerr FileKeyEscapes
           else Ok segs
  end.

Definition parse_key (k : pyarg) : kres ParsedGraphKey :=
  match k with
  | PyOther => kerr KeyMustBeString
  | PyStr [] => kerr KeyRequired
  | PyStr k =>
      let '(ns, separator, remainder) := str_partition COLON k in
      if negb separator then kerr SeparatorMissing
      else if bool_decide (ns = lit "file") then
        segs ← _parse_file_segments remainder;
        Ok {| graph_key_version := GRAPH_KEY_VERSION; namespace := ns;
              segments := segs; key := k; path := Some (str_join SLASH segs) |}
      else
        match table_get ns _SEGMENT_COUNTS with
        | None => kerr (UnknownNamespace ns)
        | Some expected_count =>
            let raw_segments := str_split COLON remainder in
            if negb (Nat.eqb (length raw_segments) expected_count)
            then kerr (SegmentCount ns expected_count)
            else segs ← mapM _decode_segment raw_segments;
                 Ok {| graph_key_version := GRAPH_KEY_VERSION; namespace := ns;
                       segments := segs; key := k; path := None |}
        end
  end.

(** [validate_key] turns a [GraphKeyError] into a value; any other exception
    propagates. *)
Definition validate_key (k : pyarg) : kres GraphKeyValidation :=
  match parse_key k with
  | Ok _ => Ok {| valid := true; error := None |}
  | Err (GraphKeyError e) => Ok {| valid := false; error := Some e |}
  | Err e => Err e
  end.

(** ** Bounded Go identities *)

Definition _bounded_go_identity (value : pystr) (maximum_bytes : Z) : kres pystr :=
  match value with
  | [] => kerr GoIdentityRequired
  | _ =>
      match utf8_encode value with
      | None => Err UnicodeEncodeError
      | Some bytes =>
          if maximum_bytes <? Z.of_nat (length bytes) then kerr (GoIdentityTooLong maximum_bytes)
          else Ok value
      end
  end.

(** A component that is empty or names the current or the parent directory. *)
Definition dot_component (c : pystr) : bool :=
  bool_decide (c = []) || bool_decide (c = lit ".") || bool_decide (c = lit "..").

Definition _bounded_go_path_identity (value : pystr) : kres pystr :=
  value ← _bounded_go_identity value MAX_GO_PATH_IDENTITY_BYTES;
  if negb (bool_decide (value = strip value)) || startswith [SLASH] value || startswith [TILDE] value
     || char_in BACKSLASH value || char_in COLON value || existsb isspace value
  then kerr GoModuleNotSlashPath
  else if existsb dot_component (str_split SLASH value) then kerr GoModuleTraverses
  else Ok value.

Definition fallback_prefix : pystr := lit "repo-relative:".

Definition _bounded_go_package_import_path (value : pystr) : kres pystr :=
  value ← _bounded_go_identity value MAX_GO_PATH_IDENTITY_BYTES;
  if negb (startswith fallback_prefix value) then _bounded_go_path_identity value
  else
    let relative := drop (length fallback_prefix) value in
    if bool_decide (relative = lit ".") then Ok value
    else if bool_decide (relative = []) || startswith [SLASH] relative || startswith [TILDE] relative
            || char_in BACKSLASH relative || char_in COLON relative || existsb isspace relative
            || existsb dot_component (str_split SLASH relative)
    then kerr GoFallbackNotRelative
    else Ok value.

Definition _coerce_go_package_key (k : pystr) : kres pystr :=
  parsed ← parse_key (PyStr k);
  if negb (bool_decide (namespace parsed = lit "go.package")) then kerr GoPackageParent
  else
    match segments parsed with
    | s0 :: s1 :: _ =>
        _ ← _bounded_go_package_import_path s0;
        _ ← _bounded_go_identity s1 MAX_GO_NAME_IDENTITY_BYTES;
        Ok k
    | _ => kerr GoPackageParent
    end.

(** ** Coercions of arguments *)

Definition _coerce_file_key (p : pathlike) : kres pystr :=
  match p with
  | PathStr s =>
      if startswith (lit "file:") s then
        parsed ← parse_key (PyStr s);
        if negb (bool_decide (namespace parsed = lit "file")) then kerr FileKeyRequired
        else Ok s
      else file_key p
  | _ => file_key p
  end.

Definition _coerce_namespace_key (k ns : pystr) : kres pystr :=
  parsed ← parse_key (PyStr k);
  if negb (bool_decide (namespace parsed = ns)) then kerr (ParentNamespace ns) else Ok k.

Definition _coerce_pointer (pointer : pystr) : kres pystr :=
  match pointer with
  | [] => kerr PointerRequired
  | _ => if negb (startswith [SLASH] pointer) then kerr PointerNotNormalized else Ok pointer
  end.

Definition _coerce_js_pointer (pointer : pystr) : kres pystr :=
  if bool_decide (strip pointer = []) then kerr JsPointerRequired else Ok pointer.

(** ** One builder per namespace *)

Definition tool_key (name : pystr) : kres pystr :=
  _key (lit "tool") [name].

Definition env_key (name : pystr) : kres pystr :=
  _key (lit "env") [name].

Definition host_category_key (category : pystr) : kres pystr :=
  _key (lit "host.category") [category].

Definition python_module_key (name : pystr) : kres pystr :=
  _key (lit "python.module") [name].

Definition python_class_key (module : pystr) (class_name : pystr) : kres pystr :=
  _key (lit "python.class") [module; class_name].

Definition python_function_key (module : pystr) (function_name : pystr) : kres pystr :=
  _key (lit "python.function") [module; function_name].

Definition python_method_key
    (module : pystr) (class_name : pystr) (method_name : pystr) : kres pystr :=
  _key (lit "python.method") [module; class_name; method_name].

Definition go_module_key (module_path : pystr) : kres pystr :=
  s0 ← _bounded_go_path_identity module_path; _key (lit "go.module") [s0].

Definition go_package_key (import_path : pystr) (package_name : pystr) : kres pystr :=
  s0 ← _bounded_go_package_import_path import_path;
  s1 ← _bounded_go_identity package_name MAX_GO_NAME_IDENTITY_BYTES;
  _key (lit "go.package") [s0; s1].

Definition go_type_key (package_key : pystr) (declaration_name : pystr) : kres pystr :=
  s0 ← _coerce_go_package_key package_key;
  s1 ← _bounded_go_identity declaration_name MAX_GO_NAME_IDENTITY_BYTES;
  _key (lit "go.type") [s0; s1].

Definition go_function_key (package_key : pystr) (declaration_name : pystr) : kres pystr :=
  s0 ← _coerce_go_package_key package_key;
  s1 ← _bounded_go_identity declaration_name MAX_GO_NAME_IDENTITY_BYTES;
  _key (lit "go.function") [s0; s1].

Definition go_method_key
    (package_key : pystr) (receiver_base : pystr) (declaration_name : pystr) : kres pystr :=
  s0 ← _coerce_go_package_key package_key;
  s1 ← _bounded_go_identity receiver_base MAX_GO_NAME_IDENTITY_BYTES;
  s2 ← _bounded_go_identity declaration_name MAX_GO_NAME_IDENTITY_BYTES;
  _key (lit "go.method") [s0; s1; s2].

Definition go_const_key (package_key : pystr) (declaration_name : pystr) : kres pystr :=
  s0 ← _coerce_go_package_key package_key;
  s1 ← _bounded_go_identity declaration_name MAX_GO_NAME_IDENTITY_BYTES;
  _key (lit "go.const") [s0; s1].

Definition go_var_key (package_key : pystr) (declaration_name : pystr) : kres pystr :=
  s0 ← _coerce_go_package_key package_key;
  s1 ← _bounded_go_identity declaration_name MAX_GO_NAME_IDENTITY_BYTES;
  _key (lit "go.var") [s0; s1].

Definition nix_app_key (flake_ref : pystr) (system : pystr) (name : pystr) : kres pystr :=
  _key (lit "nix.app") [flake_ref; system; name].

Definition nix_package_key (flake_ref : pystr) (system : pystr) (name : pystr) : kres pystr :=
  _key (lit "nix.package") [flake_ref; system; name].

Definition nix_dev_shell_key (flake_ref : pystr) (system : pystr) (name : pystr) : kres pystr :=
  _key (lit "nix.devShell") [flake_ref; system; name].

Definition nix_check_key (flake_ref : pystr) (system : pystr) (name : pystr) : kres pystr :=
  _key (lit "nix.check") [flake_ref; system; name].

Definition nix_output_key (flake_ref : pystr) (output_path : pystr) : kres pystr :=
  _key (lit "nix.output") [flake_ref; output_path].

Definition doc_page_key (path_or_file_key : pathlike) : kres pystr :=
  s0 ← _coerce_file_key path_or_file_key; _key (lit "doc.page") [s0].

Definition doc_section_key (path_or_file_key : pathlike) (anchor : pystr) : kres pystr :=
  s0 ← _coerce_file_key path_or_file_key; _key (lit "doc.section") [s0; anchor].

Definition doc_adr_key (number : pystr) : kres pystr :=
  _key (lit "doc.adr") [number].

Definition doc_skill_key (name : pystr) : kres pystr :=
  _key (lit "doc.skill") [name].

Definition external_url_key (url : pystr) : kres pystr :=
  _key (lit "external.url") [url].

Definition config_document_key (path_or_file_key : pathlike) : kres pystr :=
  s0 ← _coerce_file_key path_or_file_key; _key (lit "config.document") [s0].

Definition config_path_key (path_or_file_key : pathlike) (pointer : pystr) : kres pystr :=
  s0 ← _coerce_file_key path_or_file_key;
  s1 ← _coerce_pointer pointer;
  _key (lit "config.path") [s0; s1].

Definition css_document_key (path_or_file_key : pathlike) : kres pystr :=
  s0 ← _coerce_file_key path_or_file_key; _key (lit "css.document") [s0].

Definition css_rule_key (path_or_file_key : pathlike) (pointer : pystr) : kres pystr :=
  s0 ← _coerce_file_key path_or_file_key;
  s1 ← _coerce_pointer pointer;
  _key (lit "css.rule") [s0; s1].

Definition css_selector_key (path_or_file_key : pathlike) (pointer : pystr) : kres pystr :=
  s0 ← _coerce_file_key path_or_file_key;
  s1 ← _coerce_pointer pointer;
  _key (lit "css.selector") [s0; s1].

Definition css_custom_property_key
    (path_or_file_key : pathlike) (property_name : pystr) : kres pystr :=
  s0 ← _coerce_file_key path_or_file_key; _key (lit "css.custom_property") [s0; property_name].

Definition html_document_key (path_or_file_key : pathlike) : kres pystr :=
  s0 ← _coerce_file_key path_or_file_key; _key (lit "html.document") [s0].

Definition html_element_key (path_or_file_key : pathlike) (pointer : pystr) : kres pystr :=
  s0 ← _coerce_file_key path_or_file_key;
  s1 ← _coerce_pointer pointer;
  _key (lit "html.element") [s0; s1].

Definition html_anchor_key (path_or_file_key : pathlike) (fragment : pystr) : kres pystr :=
  s0 ← _coerce_file_key path_or_file_key; _key (lit "html.anchor") [s0; fragment].

Definition xml_document_key (path_or_file_key : pathlike) : kres pystr :=
  s0 ← _coerce_file_key path_or_file_key; _key (lit "xml.document") [s0].

Definition xml_element_key (path_or_file_key : pathlike) (pointer : pystr) : kres pystr :=
  s0 ← _coerce_file_key path_or_file_key;
  s1 ← _coerce_pointer pointer;
  _key (lit "xml.element") [s0; s1].

Definition xml_attribute_key
    (path_or_file_key : pathlike) (pointer : pystr) (attribute_name : pystr) : kres pystr :=
  s0 ← _coerce_file_key path_or_file_key;
  s1 ← _coerce_pointer pointer;
  _key (lit "xml.attribute") [s0; s1; attribute_name].

Definition feed_document_key (path_or_file_key : pathlike) : kres pystr :=
  s0 ← _coerce_file_key path_or_file_key; _key (lit "feed.document") [s0].

Definition feed_channel_key
    (feed_document_canonical_key : pystr) (channel_id : pystr) : kres pystr :=
  s0 ← _coerce_namespace_key feed_document_canonical_key (lit "feed.document");
  _key (lit "feed.channel") [s0; channel_id].

Definition feed_item_key (feed_channel_canonical_key : pystr) (item_id : pystr) : kres pystr :=
  s0 ← _coerce_namespace_key feed_channel_canonical_key (lit "feed.channel");
  _key (lit "feed.item") [s0; item_id].

Definition feed_author_key (feed_channel_canonical_key : pystr) (author_id : pystr) : kres pystr :=
  s0 ← _coerce_namespace_key feed_channel_canonical_key (lit "feed.channel");
  _key (lit "feed.author") [s0; author_id].

Definition feed_category_key
    (feed_channel_canonical_key : pystr) (category_id : pystr) : kres pystr :=
  s0 ← _coerce_namespace_key feed_channel_canonical_key (lit "feed.channel");
  _key (lit "feed.category") [s0; category_id].

Definition warc_document_key (path_or_file_key : pathlike) : kres pystr :=
  s0 ← _coerce_file_key path_or_file_key; _key (lit "warc.document") [s0].

Definition warc_record_key (warc_document_canonical_key : pystr) (record_id : pystr) : kres pystr :=
  s0 ← _coerce_namespace_key warc_document_canonical_key (lit "warc.document");
  _key (lit "warc.record") [s0; record_id].

Definition document_file_key (path_or_file_key : pathlike) : kres pystr :=
  s0 ← _coerce_file_key path_or_file_key; _key (lit "document.file") [s0].

Definition document_section_key (path_or_file_key : pathlike) (pointer : pystr) : kres pystr :=
  s0 ← _coerce_file_key path_or_file_key;
  s1 ← _coerce_pointer pointer;
  _key (lit "document.section") [s0; s1].

Definition document_table_key (path_or_file_key : pathlike) (pointer : pystr) : kres pystr :=
  s0 ← _coerce_file_key path_or_file_key;
  s1 ← _coerce_pointer pointer;
  _key (lit "document.table") [s0; s1].

Definition document_sheet_key (path_or_file_key : pathlike) (pointer : pystr) : kres pystr :=
  s0 ← _coerce_file_key path_or_file_key;
  s1 ← _coerce_pointer pointer;
  _key (lit "document.sheet") [s0; s1].

Definition document_column_key (path_or_file_key : pathlike) (pointer : pystr) : kres pystr :=
  s0 ← _coerce_file_key path_or_file_key;
  s1 ← _coerce_pointer pointer;
  _key (lit "document.column") [s0; s1].

Definition document_latex_command_key
    (path_or_file_key : pathlike) (pointer : pystr) : kres pystr :=
  s0 ← _coerce_file_key path_or_file_key;
  s1 ← _coerce_pointer pointer;
  _key (lit "document.latex_command") [s0; s1].

Definition ruby_file_key (path_or_file_key : pathlike) : kres pystr :=
  s0 ← _coerce_file_key path_or_file_key; _key (lit "ruby.file") [s0].

Definition ruby_module_key (name : pystr) : kres pystr :=
  _key (lit "ruby.module") [name].

Definition ruby_class_key (class_name : pystr) : kres pystr :=
  _key (lit "ruby.class") [class_name].

Definition ruby_method_key (owner : pystr) (method_name : pystr) : kres pystr :=
  _key (lit "ruby.method") [owner; method_name].

Definition ruby_singleton_method_key (owner : pystr) (method_name : pystr) : kres pystr :=
  _key (lit "ruby.singleton_method") [owner; method_name].

Definition ruby_constant_key (owner : pystr) (constant_name : pystr) : kres pystr :=
  _key (lit "ruby.constant") [owner; constant_name].

Definition ruby_test_case_key (path_or_file_key : pathlike) (name : pystr) : kres pystr :=
  s0 ← _coerce_file_key path_or_file_key; _key (lit "ruby.test_case") [s0; name].

Definition ruby_test_method_key
    (test_case_canonical_key : pystr) (method_name : pystr) : kres pystr :=
  s0 ← _coerce_namespace_key test_case_canonical_key (lit "ruby.test_case");
  _key (lit "ruby.test_method") [s0; method_name].

Definition ruby_route_key (path_or_file_key : pathlike) (pointer : pystr) : kres pystr :=
  s0 ← _coerce_file_key path_or_file_key;
  s1 ← _coerce_pointer pointer;
  _key (lit "ruby.route") [s0; s1].

Definition js_file_key (path_or_file_key : pathlike) : kres pystr :=
  s0 ← _coerce_file_key path_or_file_key; _key (lit "js.file") [s0].

Definition js_module_key (path_or_file_key : pathlike) : kres pystr :=
  s0 ← _coerce_file_key path_or_file_key; _key (lit "js.module") [s0].

Definition js_function_key (path_or_file_key : pathlike) (pointer : pystr) : kres pystr :=
  s0 ← _coerce_file_key path_or_file_key;
  s1 ← _coerce_js_pointer pointer;
  _key (lit "js.function") [s0; s1].

Definition js_class_key (path_or_file_key : pathlike) (class_name : pystr) : kres pystr :=
  s0 ← _coerce_file_key path_or_file_key; _key (lit "js.class") [s0; class_name].

Definition js_method_key (js_class_canonical_key : pystr) (method_name : pystr) : kres pystr :=
  s0 ← _coerce_namespace_key js_class_canonical_key (lit "js.class");
  _key (lit "js.method") [s0; method_name].

Definition js_variable_key (path_or_file_key : pathlike) (pointer : pystr) : kres pystr :=
  s0 ← _coerce_file_key path_or_file_key;
  s1 ← _coerce_js_pointer pointer;
  _key (lit "js.variable") [s0; s1].

Definition js_component_key (path_or_file_key : pathlike) (pointer : pystr) : kres pystr :=
  s0 ← _coerce_file_key path_or_file_key;
  s1 ← _coerce_js_pointer pointer;
  _key (lit "js.component") [s0; s1].

Definition js_test_suite_key (path_or_file_key : pathlike) (pointer : pystr) : kres pystr :=
  s0 ← _coerce_file_key path_or_file_key;
  s1 ← _coerce_pointer pointer;
  _key (lit "js.test_suite") [s0; s1].

Definition js_test_case_key (owner_canonical_key : pystr) (pointer : pystr) : kres pystr :=
  parsed ← parse_key (PyStr owner_canonical_key);
  if negb (bool_decide (namespace parsed = lit "js.file")
           || bool_decide (namespace parsed = lit "js.test_suite"))
  then kerr JsTestCaseOwner
  else s1 ← _coerce_pointer pointer; _key (lit "js.test_case") [owner_canonical_key; s1].

Definition js_route_key (path_or_file_key : pathlike) (pointer : pystr) : kres pystr :=
  s0 ← _coerce_file_key path_or_file_key;
  s1 ← _coerce_pointer pointer;
  _key (lit "js.route") [s0; s1].

Definition bash_script_key (path_or_file_key : pathlike) : kres pystr :=
  s0 ← _coerce_file_key path_or_file_key; _key (lit "bash.script") [s0].

Definition bash_function_key (path_or_file_key : pathlike) (function_name : pystr) : kres pystr :=
  s0 ← _coerce_file_key path_or_file_key; _key (lit "bash.function") [s0; function_name].

Definition bats_file_key (path_or_file_key : pathlike) : kres pystr :=
  s0 ← _coerce_file_key path_or_file_key; _key (lit "bats.file") [s0].

Definition bats_test_case_key (path_or_file_key : pathlike) (test_identity : pystr) : kres pystr :=
  s0 ← _coerce_file_key path_or_file_key; _key (lit "bats.test_case") [s0; test_identity].

Definition bats_expectation_key
    (path_or_file_key : pathlike) (test_identity : pystr) (line_number : int_or_str)
    (assertion_name : pystr) : kres pystr :=
  test_key ← bats_test_case_key path_or_file_key test_identity;
  _key (lit "bats.expectation") [test_key; str_of_arg line_number; assertion_name].

Definition awk_program_key (path_or_file_key : pathlike) : kres pystr :=
  s0 ← _coerce_file_key path_or_file_key; _key (lit "awk.program") [s0].

Definition awk_function_key (path_or_file_key : pathlike) (function_name : pystr) : kres pystr :=
  s0 ← _coerce_file_key path_or_file_key; _key (lit "awk.function") [s0; function_name].

Definition zsh_script_key (path_or_file_key : pathlike) : kres pystr :=
  s0 ← _coerce_file_key path_or_file_key; _key (lit "zsh.script") [s0].

Definition zsh_function_key (path_or_file_key : pathlike) (function_name : pystr) : kres pystr :=
  s0 ← _coerce_file_key path_or_file_key; _key (lit "zsh.function") [s0; function_name].

Definition zunit_file_key (path_or_file_key : pathlike) : kres pystr :=
  s0 ← _coerce_file_key path_or_file_key; _key (lit "zunit.file") [s0].

Definition zunit_suite_key (path_or_file_key : pathlike) (suite_identity : pystr) : kres pystr :=
  s0 ← _coerce_file_key path_or_file_key; _key (lit "zunit.suite") [s0; suite_identity].

Definition zunit_test_case_key (path_or_file_key : pathlike) (test_identity : pystr) : kres pystr :=
  s0 ← _coerce_file_key path_or_file_key; _key (lit "zunit.test_case") [s0; test_identity].

Definition zunit_hook_key
    (path_or_file_key : pathlike) (hook_kind : pystr) (line_number : int_or_str) : kres pystr :=
  s0 ← _coerce_file_key path_or_file_key;
  _key (lit "zunit.hook") [s0; hook_kind; str_of_arg line_number].

Definition zunit_assertion_key
    (path_or_file_key : pathlike) (line_number : int_or_str) (assertion_name : pystr) : kres pystr :=
  s0 ← _coerce_file_key path_or_file_key;
  _key (lit "zunit.assertion") [s0; str_of_arg line_number; assertion_name].

Definition zunit_expectation_key
    (path_or_file_key : pathlike) (line_number : int_or_str) (expectation_kind : pystr) : kres pystr :=
  s0 ← _coerce_file_key path_or_file_key;
  _key (lit "zunit.expectation") [s0; str_of_arg line_number; expectation_kind].

Definition zunit_command_under_test_key
    (path_or_file_key : pathlike) (line_number : int_or_str) (command_identity : pystr) : kres pystr :=
  s0 ← _coerce_file_key path_or_file_key;
  _key (lit "zunit.command_under_test") [s0; str_of_arg line_number; command_identity].

Definition zunit_mock_key
    (path_or_file_key : pathlike) (line_number : int_or_str) (command_identity : pystr) : kres pystr :=
  s0 ← _coerce_file_key path_or_file_key;
  _key (lit "zunit.mock") [s0; str_of_arg line_number; command_identity].

Definition zunit_stub_key
    (path_or_file_key : pathlike) (line_number : int_or_str) (command_identity : pystr) : kres pystr :=
  s0 ← _coerce_file_key path_or_file_key;
  _key (lit "zunit.stub") [s0; str_of_arg line_number; command_identity].

Definition powershell_script_key (path_or_file_key : pathlike) : kres pystr :=
  s0 ← _coerce_file_key path_or_file_key; _key (lit "powershell.script") [s0].

Definition powershell_module_key (path_or_file_key : pathlike) : kres pystr :=
  s0 ← _coerce_file_key path_or_file_key; _key (lit "powershell.module") [s0].

Definition powershell_manifest_key (path_or_file_key : pathlike) : kres pystr :=
  s0 ← _coerce_file_key path_or_file_key; _key (lit "powershell.manifest") [s0].

Definition powershell_function_key
    (path_or_file_key : pathlike) (function_name : pystr) : kres pystr :=
  s0 ← _coerce_file_key path_or_file_key; _key (lit "powershell.function") [s0; function_name].

Definition powershell_manifest_export_key
    (manifest_canonical_key : pystr) (export_kind : pystr) (export_name : pystr) : kres pystr :=
  s0 ← _coerce_namespace_key manifest_canonical_key (lit "powershell.manifest");
  _key (lit "powershell.export") [s0; export_kind; export_name].

Definition email_message_key (path_or_file_key : pathlike) (identity : pystr) : kres pystr :=
  s0 ← _coerce_file_key path_or_file_key; _key (lit "email.message") [s0; identity].

Definition email_mailbox_key (path_or_file_key : pathlike) : kres pystr :=
  s0 ← _coerce_file_key path_or_file_key; _key (lit "email.mailbox") [s0].

Definition email_address_key (address_identity : pystr) : kres pystr :=
  _key (lit "email.address") [address_identity].

Definition email_part_key (email_message_canonical_key : pystr) (pointer : pystr) : kres pystr :=
  s0 ← _coerce_namespace_key email_message_canonical_key (lit "email.message");
  s1 ← _coerce_pointer pointer;
  _key (lit "email.part") [s0; s1].

Definition email_attachment_stub_key
    (email_message_canonical_key : pystr) (pointer : pystr) : kres pystr :=
  s0 ← _coerce_namespace_key email_message_canonical_key (lit "email.message");
  s1 ← _coerce_pointer pointer;
  _key (lit "email.attachment_stub") [s0; s1].

Definition email_thread_hint_key
    (email_message_canonical_key : pystr) (pointer : pystr) : kres pystr :=
  s0 ← _coerce_namespace_key email_message_canonical_key (lit "email.message");
  s1 ← _coerce_pointer pointer;
  _key (lit "email.thread_hint") [s0; s1].

Definition dynamic_key (domain : pystr) (reason : pystr) : kres pystr :=
  _key (lit "dynamic") [domain; reason].

Definition external_key (domain : pystr) (stable_name : pystr) : kres pystr :=
  _key (lit "external") [domain; stable_name].

Definition unknown_key (domain : pystr) (reason : pystr) : kres pystr :=
  _key (lit "unknown") [domain; reason].

End Codec.
