(* ===== verification/GraphKeysFacts.v ===== *)
(** Facts about canonical graph keys: the codec round trips, keys parse back to
    what they were built from, builders are injective, [file_key] is a normal
    form that never leaves the repository, and what parsing accepts beyond the
    builders' image. *)
From S2P Require Import Prelude Utf8 GraphKeys.
Open Scope Z_scope.

Section Facts.
Context {U : Unicode}.

(** ** The segment codec *)

(** What is checked of the encoding of each of the 256 bytes. *)
Definition byte_ok (b : Z) : bool :=
  match encode_byte b with
  | [c] => (c =? b) && negb (c =? PERCENT) && char_in c SAFE_CHARS
  | [p; h; l] => (p =? PERCENT) && bool_decide (_decode_percent_byte [p; h; l] = Ok b)
                 && negb (char_in b SAFE_CHARS)
  | _ => false
  end && forallb (fun c => negb (c =? COLON) && negb (c =? SLASH)) (encode_byte b).

Lemma byte_ok_all : forallb byte_ok (seqZ 0 256) = true.
Proof. vm_compute. reflexivity. Qed.

Lemma byte_ok_byte b : is_byte b -> byte_ok b = true.
Proof.
  intros Hb. pose proof byte_ok_all as H. rewrite forallb_forall in H. apply H.
  apply list_elem_of_In, elem_of_seqZ. unfold is_byte in Hb. lia.
Qed.

Lemma encode_byte_cases b :
  is_byte b ->
  (encode_byte b = [b] /\ b <> PERCENT /\ char_in b SAFE_CHARS = true) \/
  (exists h l, encode_byte b = [PERCENT; h; l] /\ _decode_percent_byte [PERCENT; h; l] = Ok b
               /\ char_in b SAFE_CHARS = false).
Proof.
  intros Hb%byte_ok_byte. unfold byte_ok in Hb.
  apply andb_true_iff in Hb as [Hb _].
  destruct (encode_byte b) as [|c [|h [|l [|]]]]; try done.
  - left. rewrite !andb_true_iff, negb_true_iff in Hb. destruct Hb as [[Hc Hp] Hs].
    apply Z.eqb_eq in Hc as ->. apply Z.eqb_neq in Hp. done.
  - right. rewrite !andb_true_iff, negb_true_iff in Hb. destruct Hb as [[Hc Hd] Hs].
    apply Z.eqb_eq in Hc as ->. apply bool_decide_eq_true in Hd. eauto.
Qed.

Lemma encode_byte_clean b c :
  is_byte b -> c ∈ encode_byte b -> c <> COLON /\ c <> SLASH.
Proof.
  intros Hb%byte_ok_byte Hc. unfold byte_ok in Hb. apply andb_true_iff in Hb as [_ Hb].
  rewrite forallb_forall in Hb. apply list_elem_of_In in Hc. apply Hb in Hc.
  rewrite andb_true_iff, !negb_true_iff, !Z.eqb_neq in Hc. done.
Qed.

Lemma decode_loop_encode_byte b rest :
  is_byte b -> decode_loop (encode_byte b ++ rest) = bs ← decode_loop rest; Ok (b :: bs).
Proof.
  intros [(-> & Hp & Hs)|(h & l & -> & Hd & _)]%encode_byte_cases; cbn [app decode_loop].
  - rewrite (proj2 (Z.eqb_neq b PERCENT) Hp), Hs. done.
  - rewrite Z.eqb_refl, Hd. done.
Qed.

Lemma decode_loop_encode bs :
  Forall is_byte bs -> decode_loop (bs ≫= encode_byte) = Ok bs.
Proof.
  induction 1 as [|b bs Hb _ IH]; [done|].
  rewrite bind_cons, decode_loop_encode_byte by done. by rewrite IH.
Qed.

Lemma encode_segment_Ok s t :
  _encode_segment s = Ok t <->
  exists bs, s <> [] /\ utf8_encode s = Some bs /\ t = (bs ≫= encode_byte).
Proof.
  unfold _encode_segment. destruct s as [|c s]; [by split; [|intros (? & ? & _)]|].
  destruct (utf8_encode (c :: s)) as [bs|]; [|by split; [|intros (? & _ & ? & _)]].
  split.
  - intros [= <-]. exists bs. done.
  - intros (? & _ & [= <-] & ->). done.
Qed.

Lemma encode_byte_nonempty b : encode_byte b <> [].
Proof. unfold encode_byte. by case_match. Qed.

Lemma encoded_nonempty bs : bs <> [] -> (bs ≫= encode_byte) <> [].
Proof.
  destruct bs as [|b bs]; [done|]. rewrite bind_cons. pose proof (encode_byte_nonempty b).
  by destruct (encode_byte b).
Qed.

Lemma encode_segment_nonempty s t : _encode_segment s = Ok t -> t <> [].
Proof.
  intros (bs & Hne & Hu & ->)%encode_segment_Ok.
  by apply encoded_nonempty, (utf8_encode_nonempty s).
Qed.

Lemma decode_encode_segment s t : _encode_segment s = Ok t -> _decode_segment t = Ok s.
Proof.
  intros H. pose proof (encode_segment_nonempty _ _ H) as Hne.
  apply encode_segment_Ok in H as (bs & _ & Hu & ->).
  unfold _decode_segment.
  rewrite decode_loop_encode by eauto using utf8_encode_bytes. cbn.
  rewrite (utf8_decode_encode _ _ Hu).
  by destruct (bs ≫= encode_byte).
Qed.

Lemma encode_segment_clean s t :
  _encode_segment s = Ok t -> (COLON ∉ t) /\ (SLASH ∉ t).
Proof.
  intros (bs & _ & Hu%utf8_encode_bytes & ->)%encode_segment_Ok.
  split; intros (b & Hc & Hb)%list_elem_of_bind;
    rewrite Forall_forall in Hu; apply Hu in Hb; by apply (encode_byte_clean b) in Hc as [].
Qed.

Lemma encode_segments_clean sep segs encs :
  sep = COLON \/ sep = SLASH ->
  Forall2 (fun s e => _encode_segment s = Ok e) segs encs -> Forall (fun e => sep ∉ e) encs.
Proof.
  intros Hsep. induction 1 as [|s e segs encs He _ IH]; constructor; [|done].
  destruct (encode_segment_clean _ _ He). by destruct Hsep as [->| ->].
Qed.

Lemma encode_segments_nonempty segs encs :
  Forall2 (fun s e => _encode_segment s = Ok e) segs encs -> Forall (fun e => e <> []) encs.
Proof. induction 1; constructor; eauto using encode_segment_nonempty. Qed.

Lemma decode_encode_segments segs encs :
  Forall2 (fun s e => _encode_segment s = Ok e) segs encs -> mapM _decode_segment encs = Ok segs.
Proof.
  intros H. apply mapM_Ok. induction H; constructor; eauto using decode_encode_segment.
Qed.

(** The percent escapes of [t] all stand for bytes that need one. *)
Fixpoint canonical_escapes (t : pystr) : bool :=
  match t with
  | [] => true
  | c :: rest =>
      if c =? PERCENT then
        match rest with
        | h :: l :: rest' =>
            negb (char_in (hex_value h * 16 + hex_value l) SAFE_CHARS) && canonical_escapes rest'
        | _ => false
        end
      else canonical_escapes rest
  end.

(** Every pair of hexadecimal digits is the escape of the byte it denotes. *)
Definition hex_pair_ok (h l : Z) : bool :=
  let b := hex_value h * 16 + hex_value l in
  (0 <=? b) && (b <? 256) &&
  (char_in b SAFE_CHARS || bool_decide (encode_byte b = [PERCENT; h; l])).

Lemma hex_pair_ok_all :
  forallb (fun h => forallb (hex_pair_ok h) HEX_CHARS) HEX_CHARS = true.
Proof. vm_compute. reflexivity. Qed.

Lemma decode_percent_byte_Ok h l b :
  _decode_percent_byte [PERCENT; h; l] = Ok b ->
  b = hex_value h * 16 + hex_value l /\ is_byte b /\
  (char_in b SAFE_CHARS = false -> encode_byte b = [PERCENT; h; l]).
Proof.
  unfold _decode_percent_byte. intros H. unbind H. injection H as <-.
  rewrite orb_false_iff, !negb_false_iff in Heqb1. destruct Heqb1 as [Hh Hl].
  apply bool_decide_eq_true, list_elem_of_In in Hh, Hl.
  pose proof hex_pair_ok_all as Hall. rewrite forallb_forall in Hall. specialize (Hall h Hh).
  rewrite forallb_forall in Hall. specialize (Hall l Hl). unfold hex_pair_ok in Hall.
  rewrite !andb_true_iff, orb_true_iff, bool_decide_eq_true in Hall.
  destruct Hall as [[? ?] Henc]. split_and!; [done|unfold is_byte; lia|].
  intros Hs. rewrite Hs in Henc. by destruct Henc.
Qed.

Lemma safe_char_byte c : char_in c SAFE_CHARS = true -> is_byte c /\ encode_byte c = [c] /\ c <> PERCENT.
Proof.
  intros Hc. unfold encode_byte. rewrite Hc. apply bool_decide_eq_true in Hc.
  assert (Forall (fun c => 0 <= c < 256 /\ c <> PERCENT) SAFE_CHARS) as Hall.
  { by decide_closed. }
  rewrite Forall_forall in Hall. destruct (Hall c Hc). done.
Qed.

Lemma encode_decode_loop t bs :
  decode_loop t = Ok bs -> Forall is_byte bs /\ (canonical_escapes t = true -> (bs ≫= encode_byte) = t).
Proof.
  revert bs. induction t as [t IH] using (induction_ltof1 _ (@length Z)). unfold ltof in IH.
  intros bs H. destruct t as [|c t]; cbn [decode_loop] in H; [injection H as <-; done|].
  destruct (Z.eqb_spec c PERCENT) as [->|Hc].
  - destruct t as [|h [|l t]]; [by cbn in H..|].
    apply bind_Ok in H as (b & Hb & (bs' & Ht & [= <-])%bind_Ok).
    apply decode_percent_byte_Ok in Hb as (-> & Hbyte & Henc).
    destruct (IH t ltac:(cbn; lia) _ Ht) as [Hall Hcan]. split; [by constructor|].
    cbn [canonical_escapes]. rewrite Z.eqb_refl. intros [Hs%negb_true_iff Hr]%andb_true_iff.
    rewrite bind_cons, (Henc Hs), (Hcan Hr). done.
  - destruct (char_in c SAFE_CHARS) eqn:Hs; cbn [negb] in H; [|discriminate H].
    apply bind_Ok in H as (bs' & Ht & [= <-]). apply safe_char_byte in Hs as (Hbyte & Henc & _).
    destruct (IH t ltac:(cbn; lia) _ Ht) as [Hall Hcan]. split; [by constructor|].
    cbn [canonical_escapes]. rewrite (proj2 (Z.eqb_neq c PERCENT) Hc). intros Hr.
    rewrite bind_cons, Henc, (Hcan Hr). done.
Qed.

Lemma canonical_encode bs : Forall is_byte bs -> canonical_escapes (bs ≫= encode_byte) = true.
Proof.
  induction 1 as [|b bs Hb _ IH]; [done|]. rewrite bind_cons.
  destruct (encode_byte_cases b Hb) as [(-> & Hp & _)|(h & l & -> & Hd & Hs)]; cbn [app canonical_escapes].
  - by rewrite (proj2 (Z.eqb_neq b PERCENT) Hp).
  - apply decode_percent_byte_Ok in Hd as (-> & _ & _). by rewrite Z.eqb_refl, Hs.
Qed.

(** ** Keys built by [_key] *)

Lemma table_get_elem ns n table : table_get ns table = Some n -> (ns, n) ∈ table.
Proof.
  induction table as [|[k m] table IH]; cbn; [done|]. case_bool_decide; [|set_solver].
  intros [= ->]. subst. set_solver.
Qed.

(** Namespaces hold no separator, and every kind of key has a segment. *)
Lemma namespace_facts ns n :
  table_get ns _SEGMENT_COUNTS = Some n -> (COLON ∉ ns) /\ ns <> lit "file" /\ ns <> [] /\ (0 < n)%nat.
Proof.
  intros H%table_get_elem.
  assert (Forall (fun kn => (COLON ∉ kn.1) /\ kn.1 <> lit "file" /\ kn.1 <> [] /\ (0 < kn.2)%nat)
            _SEGMENT_COUNTS) as Hall by (by decide_closed).
  rewrite Forall_forall in Hall. apply (Hall (ns, n) H).
Qed.

(** The key [_key] returns, taken apart. *)
Lemma key_Ok ns segs k :
  _key ns segs = Ok k <->
  exists encs, table_get ns _SEGMENT_COUNTS = Some (length segs) /\
    Forall2 (fun s e => _encode_segment s = Ok e) segs encs /\ k = ns ++ COLON :: str_join COLON encs.
Proof.
  unfold _key. split.
  - intros H. destruct (table_get ns _SEGMENT_COUNTS) as [n|] eqn:Hn; [|done].
    destruct (Nat.eqb_spec (length segs) n) as [<-|]; cbn in H; [|done].
    apply bind_Ok in H as (encs & He%mapM_Ok & [= <-]). eauto.
  - intros (encs & -> & He%mapM_Ok & ->). rewrite Nat.eqb_refl. cbn. by rewrite He.
Qed.

Lemma parse_built_key ns segs k :
  _key ns segs = Ok k ->
  parse_key (PyStr k) =
    Ok {| graph_key_version := GRAPH_KEY_VERSION; namespace := ns;
          segments := segs; key := k; path := None |}.
Proof.
  intros (encs & Hn & He & ->)%key_Ok.
  destruct (namespace_facts _ _ Hn) as (Hcolon & Hfile & Hne & Hpos).
  unfold parse_key. destruct (ns ++ COLON :: str_join COLON encs) as [|c k'] eqn:Ek;
    [by destruct ns|]. rewrite <- Ek. rewrite str_partition_app by done. cbn [negb].
  rewrite bool_decide_eq_false_2 by done. rewrite Hn.
  assert (encs <> []) as Hencs by (intros ->; inversion He; subst; cbn in Hpos; lia).
  rewrite str_split_join by eauto using encode_segments_clean.
  rewrite <- (Forall2_length _ _ _ He), Nat.eqb_refl. cbn.
  by rewrite (decode_encode_segments _ _ He).
Qed.

(** ** File keys *)

(** A component of a normalised path: a name, not a directory step, without a
    path separator of either platform. *)
Definition plain_component (c : pystr) : Prop :=
  c <> [] /\ c <> lit "." /\ c <> lit ".." /\ (SLASH ∉ c) /\ (BACKSLASH ∉ c).

Definition separator_free (c : pystr) : Prop := (SLASH ∉ c) /\ (BACKSLASH ∉ c).

(** How far one component of a path moves from the root. *)
Definition depth_step (c : pystr) : Z :=
  if bool_decide (c = []) || bool_decide (c = lit ".") then 0
  else if bool_decide (c = lit "..") then -1 else 1.

Definition depth (parts : list pystr) : Z := foldr (fun c d => depth_step c + d) 0 parts.

Lemma normalize_loop_plain parts comps out :
  Forall separator_free parts -> Forall plain_component comps ->
  normalize_loop parts comps = Ok out -> Forall plain_component out.
Proof.
  revert comps. induction parts as [|c parts IH]; intros comps Hp Hc H; cbn in H.
  - injection H as <-. by apply Forall_reverse.
  - inversion Hp as [|? ? [Hs Hb] Hp']; subst.
    case_bool_decide; [eauto|]. case_bool_decide; [eauto|]. cbn in H.
    case_bool_decide.
    + destruct comps; [done|]. inversion Hc; subst. eauto.
    + eapply IH; [done| |done]. constructor; [|done]. by split_and!.
Qed.

(** The loop refuses a path exactly when some prefix of it climbs above the
    directory the components already name. *)
Lemma normalize_loop_escapes parts comps :
  normalize_loop parts comps = kerr PathEscapes <->
  exists n, Z.of_nat (length comps) + depth (take n parts) < 0.
Proof.
  revert comps. induction parts as [|c parts IH]; intros comps; cbn [normalize_loop].
  - split; [done|]. intros [n Hn]. rewrite take_nil in Hn. cbn in Hn. lia.
  - assert (forall n, depth (take (S n) (c :: parts)) = depth_step c + depth (take n parts)) as Hd by done.
    assert (forall d (comps' : list pystr), Z.of_nat (length comps) + d = Z.of_nat (length comps') ->
              depth_step c = d ->
              (exists n, Z.of_nat (length comps') + depth (take n parts) < 0) <->
              exists n, Z.of_nat (length comps) + depth (take n (c :: parts)) < 0) as Hshift.
    { intros d comps' Hl Hs. split.
      - intros [n Hn]. exists (S n). rewrite Hd. lia.
      - intros [[|n] Hn]; [cbn in Hn; lia|]. exists n. rewrite Hd in Hn. lia. }
    unfold depth_step in Hshift.
    destruct (bool_decide (c = []) || bool_decide (c = lit ".")) eqn:H0.
    + rewrite IH. apply (Hshift 0); [lia|done].
    + case_bool_decide as Hdd.
      * destruct comps as [|c0 comps].
        -- split; [|done]. intros _. exists 1%nat. cbn. unfold depth_step. rewrite H0.
           by rewrite bool_decide_eq_true_2.
        -- rewrite IH. apply (Hshift (-1)); [cbn; lia|done].
      * rewrite IH. apply (Hshift 1); [cbn; lia|done].
Qed.

Lemma normalize_loop_errors parts comps e :
  normalize_loop parts comps = Err e -> e = GraphKeyError PathEscapes.
Proof.
  revert comps. induction parts as [|c parts IH]; intros comps; cbn; [done|].
  repeat case_match; eauto. by intros [= <-].
Qed.

(** Plain components are already normal. *)
Lemma normalize_loop_id parts comps :
  Forall plain_component parts -> normalize_loop parts comps = Ok (reverse comps ++ parts).
Proof.
  revert comps. induction parts as [|c parts IH]; intros comps Hp; cbn.
  - by rewrite app_nil_r.
  - inversion Hp as [|? ? (? & ? & ? & _) Hp']; subst.
    rewrite !bool_decide_eq_false_2 by done. cbn. rewrite IH by done.
    rewrite reverse_cons, <- app_assoc. done.
Qed.

Lemma replace_char_split raw : Forall separator_free (str_split SLASH (replace_char BACKSLASH SLASH raw)).
Proof.
  apply Forall_forall. intros c Hc. split.
  - pose proof (str_split_parts_no_sep SLASH (replace_char BACKSLASH SLASH raw)) as Hall.
    rewrite Forall_forall in Hall. by apply Hall.
  - intros Hb. assert (BACKSLASH ∈ replace_char BACKSLASH SLASH raw) as Hin.
    { rewrite <- (str_join_split SLASH (replace_char BACKSLASH SLASH raw)).
      by apply (str_join_elem SLASH _ c). }
    apply list_elem_of_fmap in Hin as (x & Hx & _).
    destruct (Z.eqb_spec x BACKSLASH); unfold BACKSLASH, SLASH in *; congruence.
Qed.

Lemma replace_char_id old new s : old ∉ s -> replace_char old new s = s.
Proof.
  intros H. unfold replace_char. rewrite <- (list_fmap_id s) at 2. apply list_fmap_ext.
  intros i x Hx. apply list_elem_of_lookup_2 in Hx.
  destruct (Z.eqb_spec x old); [congruence|done].
Qed.

(** What [_normalize_file_components] returns: the root, or plain components. *)
Lemma normalize_components_plain p comps :
  _normalize_file_components p = Ok comps ->
  comps = [lit "."] \/ (comps <> [] /\ Forall plain_component comps).
Proof.
  unfold _normalize_file_components. intros (raw & _ & H)%bind_Ok.
  destruct raw as [[|c raw]|]; try done. unbind H.
  apply (normalize_loop_plain _ []) in H0; [|apply replace_char_split|constructor].
  destruct x; injection H as <-; [by left|by right].
Qed.

Lemma not_root_component comps :
  comps <> [] -> Forall plain_component comps -> comps <> [lit "."] /\ (lit "." ∉ comps) /\ (lit ".." ∉ comps).
Proof.
  intros Hne Hp. rewrite Forall_forall in Hp.
  split_and!; [intros ->; by destruct (Hp (lit ".") ltac:(set_solver)) as (_ & ? & _)|..];
    intros Hin; by destruct (Hp _ Hin) as (_ & ? & ? & _).
Qed.

Lemma parse_file_segments_encoded comps encs :
  comps = [lit "."] \/ (comps <> [] /\ Forall plain_component comps) ->
  Forall2 (fun s e => _encode_segment s = Ok e) comps encs ->
  _parse_file_segments (str_join SLASH encs) = Ok comps.
Proof.
  intros Hc He.
  assert (encs <> []) as Hne by (intros ->; inversion He; subst; by destruct Hc as [|[? _]]).
  pose proof (encode_segments_nonempty _ _ He) as Hnonempty.
  assert (str_split SLASH (str_join SLASH encs) = encs) as Hsplit
    by (apply str_split_join; eauto using encode_segments_clean).
  unfold _parse_file_segments. rewrite Hsplit.
  destruct (str_join SLASH encs) as [|c t] eqn:Ej.
  { cbn in Hsplit. rewrite <- Hsplit in Hnonempty. by inversion Hnonempty. }
  replace (existsb _ encs) with false.
  2: { symmetry. apply not_true_iff_false. intros (e & Hin & Hd)%existsb_exists.
       apply bool_decide_eq_true in Hd as ->. rewrite Forall_forall in Hnonempty.
       by apply (Hnonempty []); [apply list_elem_of_In|]. }
  rewrite (decode_encode_segments _ _ He). cbn.
  destruct Hc as [->|[Hcne Hp]]; [done|].
  destruct (not_root_component _ Hcne Hp) as (? & ? & ?).
  by rewrite !bool_decide_eq_false_2.
Qed.

Lemma file_key_Ok p k :
  file_key p = Ok k <->
  exists comps encs, _normalize_file_components p = Ok comps /\
    Forall2 (fun s e => _encode_segment s = Ok e) comps encs /\ k = lit "file:" ++ str_join SLASH encs.
Proof.
  unfold file_key. split.
  - intros (comps & Hc & (encs & He%mapM_Ok & [= <-])%bind_Ok)%bind_Ok. eauto.
  - intros (comps & encs & -> & He%mapM_Ok & ->). cbn. by rewrite He.
Qed.

Lemma parse_file_key p k comps :
  _normalize_file_components p = Ok comps -> file_key p = Ok k ->
  parse_key (PyStr k) =
    Ok {| graph_key_version := GRAPH_KEY_VERSION; namespace := lit "file";
          segments := comps; key := k; path := Some (str_join SLASH comps) |}.
Proof.
  intros Hn (comps' & encs & Hn' & He & ->)%file_key_Ok.
  rewrite Hn in Hn'. injection Hn' as <-.
  pose proof (normalize_components_plain _ _ Hn) as Hp. unfold parse_key.
  replace (lit "file:" ++ str_join SLASH encs) with (lit "file" ++ COLON :: str_join SLASH encs) by done.
  cbn [app]. change (102 :: 105 :: 108 :: 101 :: COLON :: str_join SLASH encs)
    with (lit "file" ++ COLON :: str_join SLASH encs).
  destruct (lit "file" ++ COLON :: str_join SLASH encs) eqn:E; [done|]. rewrite <- E.
  rewrite str_partition_app by (by decide_closed). cbn [negb].
  rewrite bool_decide_eq_true_2 by done. by rewrite (parse_file_segments_encoded _ _ Hp He).
Qed.

(** Re-reading the path of a file key builds the same key. *)
Lemma normalize_joined comps :
  comps = [lit "."] \/ (comps <> [] /\ Forall plain_component comps) ->
  _normalize_file_components (PathStr (str_join SLASH comps)) = Ok comps.
Proof.
  intros [->|[Hne Hp]]; [done|].
  assert (Forall (fun c => SLASH ∉ c) comps) as Hslash.
  { eapply Forall_impl; [exact Hp|]. by intros c (_ & _ & _ & ? & _). }
  assert (BACKSLASH ∉ str_join SLASH comps) as Hback.
  { intros [?|(c & Hc & Hb)]%elem_of_str_join; [done|].
    rewrite Forall_forall in Hp. by destruct (Hp c Hc) as (_ & _ & _ & _ & ?). }
  assert (startswith [SLASH] (str_join SLASH comps) = false /\ str_join SLASH comps <> []) as [Hsw Hj].
  { destruct comps as [|c comps]; [done|]. inversion Hp as [|? ? (Hc & _ & _ & Hs & _) _]; subst.
    destruct c as [|x c]; [done|].
    destruct comps; cbn [str_join startswith app]; rewrite andb_true_r;
      (split; [apply Z.eqb_neq; set_solver|done]). }
  pose proof (normalize_loop_id comps [] Hp) as Hid.
  rewrite <- (str_split_join SLASH comps), <- (replace_char_id BACKSLASH SLASH (str_join SLASH comps))
    in Hid at 1 by done.
  rewrite <- (replace_char_id BACKSLASH SLASH (str_join SLASH comps)) in Hsw by done.
  unfold _normalize_file_components. cbn [mbind result_bind].
  destruct (str_join SLASH comps) as [|x j]; [done|].
  rewrite Hsw, Hid. cbn. by destruct comps.
Qed.

(** ** Errors *)

Lemma decode_percent_byte_errors esc e :
  _decode_percent_byte esc = Err e -> exists g, e = GraphKeyError g.
Proof. unfold _decode_percent_byte. repeat case_match; intros [=]; eauto. Qed.

Lemma decode_loop_errors t e : decode_loop t = Err e -> exists g, e = GraphKeyError g.
Proof.
  induction t as [t IH] using (induction_ltof1 _ (@length Z)). unfold ltof in IH.
  destruct t as [|c t]; [done|]. cbn [decode_loop].
  destruct (c =? PERCENT).
  - destruct t as [|h [|l t]]; [by intros [= <-]; eauto..|].
    destruct (_decode_percent_byte [c; h; l]) eqn:Hd; cbn.
    + destruct (decode_loop t) eqn:Ht; cbn; [done|]. intros [= <-].
      eapply IH; [|exact Ht]. cbn. lia.
    + intros [= <-]. eauto using decode_percent_byte_errors.
  - destruct (char_in c SAFE_CHARS); cbn [negb]; [|intros [= <-]; eauto].
    destruct (decode_loop t) eqn:Ht; cbn; [done|]. intros [= <-].
    eapply IH; [|exact Ht]. cbn. lia.
Qed.

Lemma decode_segment_errors t e : _decode_segment t = Err e -> exists g, e = GraphKeyError g.
Proof.
  unfold _decode_segment. destruct t as [|c t]; [intros [= <-]; eauto|].
  destruct (decode_loop (c :: t)) eqn:Ht; cbn [mbind result_bind].
  - case_match; [done|intros [= <-]; eauto].
  - intros [= <-]. eauto using decode_loop_errors.
Qed.

Lemma decode_segments_errors l e : mapM _decode_segment l = Err e -> exists g, e = GraphKeyError g.
Proof. intros (x & _ & Hx)%mapM_Err. eauto using decode_segment_errors. Qed.

Lemma parse_file_segments_errors t e :
  _parse_file_segments t = Err e -> exists g, e = GraphKeyError g.
Proof.
  unfold _parse_file_segments. destruct t as [|c t]; [intros [= <-]; eauto|].
  case_match; [intros [= <-]; eauto|].
  destruct (mapM _decode_segment _) eqn:Hm; cbn [mbind result_bind].
  - repeat case_match; intros [=]; subst; eauto.
  - intros [= <-]. eauto using decode_segments_errors.
Qed.

(** ** Builders with a parent key *)

(** [child_key ns parent_ns parent k]: a builder of [ns] keys made [k] below
    the key [parent]. *)
Inductive child_key : pystr -> pystr -> pystr -> pystr -> Prop :=
| child_feed_channel p i k : feed_channel_key p i = Ok k ->
    child_key (lit "feed.channel") (lit "feed.document") p k
| child_feed_item p i k : feed_item_key p i = Ok k ->
    child_key (lit "feed.item") (lit "feed.channel") p k
| child_feed_author p i k : feed_author_key p i = Ok k ->
    child_key (lit "feed.author") (lit "feed.channel") p k
| child_feed_category p i k : feed_category_key p i = Ok k ->
    child_key (lit "feed.category") (lit "feed.channel") p k
| child_warc_record p i k : warc_record_key p i = Ok k ->
    child_key (lit "warc.record") (lit "warc.document") p k
| child_ruby_test_method p i k : ruby_test_method_key p i = Ok k ->
    child_key (lit "ruby.test_method") (lit "ruby.test_case") p k
| child_js_method p i k : js_method_key p i = Ok k ->
    child_key (lit "js.method") (lit "js.class") p k
| child_powershell_export p i j k : powershell_manifest_export_key p i j = Ok k ->
    child_key (lit "powershell.export") (lit "powershell.manifest") p k
| child_email_part p i k : email_part_key p i = Ok k ->
    child_key (lit "email.part") (lit "email.message") p k
| child_email_attachment p i k : email_attachment_stub_key p i = Ok k ->
    child_key (lit "email.attachment_stub") (lit "email.message") p k
| child_email_thread p i k : email_thread_hint_key p i = Ok k ->
    child_key (lit "email.thread_hint") (lit "email.message") p k
| child_go_type p i k : go_type_key p i = Ok k ->
    child_key (lit "go.type") (lit "go.package") p k
| child_go_function p i k : go_function_key p i = Ok k ->
    child_key (lit "go.function") (lit "go.package") p k
| child_go_method p i j k : go_method_key p i j = Ok k ->
    child_key (lit "go.method") (lit "go.package") p k
| child_go_const p i k : go_const_key p i = Ok k ->
    child_key (lit "go.const") (lit "go.package") p k
| child_go_var p i k : go_var_key p i = Ok k ->
    child_key (lit "go.var") (lit "go.package") p k.

Lemma coerce_namespace_Ok k ns k' :
  _coerce_namespace_key k ns = Ok k' ->
  k' = k /\ exists q, parse_key (PyStr k) = Ok q /\ namespace q = ns.
Proof.
  unfold _coerce_namespace_key. intros (q & Hq & H)%bind_Ok. unbind H.
  apply negb_false_iff, bool_decide_eq_true in Heqb. injection H as <-. eauto.
Qed.

Lemma coerce_go_package_Ok k k' :
  _coerce_go_package_key k = Ok k' ->
  k' = k /\ exists q, parse_key (PyStr k) = Ok q /\ namespace q = lit "go.package".
Proof.
  unfold _coerce_go_package_key. intros (q & Hq & H)%bind_Ok. unbind H.
  apply negb_false_iff, bool_decide_eq_true in Heqb.
  destruct (segments q) as [|s0 [|s1 ?]]; try discriminate H. unbind H. injection H as <-. eauto.
Qed.

Lemma bounded_go_identity_Ok v m v' :
  _bounded_go_identity v m = Ok v' ->
  v' = v /\ v <> [] /\ exists bs, utf8_encode v = Some bs /\ Z.of_nat (length bs) <= m.
Proof.
  unfold _bounded_go_identity. destruct v as [|c v]; [done|].
  destruct (utf8_encode (c :: v)) as [bs|]; [|done].
  intros H. unbind H. injection H as <-. split_and!; [done..|]. exists bs. split; [done|lia].
Qed.

(** An import path the Go builders accept: relative, without directory steps,
    either plain or behind the [repo-relative:] prefix. *)
Definition safe_import_path (v : pystr) : Prop :=
  let body := if startswith fallback_prefix v then drop (length fallback_prefix) v else v in
  body = lit "." \/
  (startswith [SLASH] body = false /\ char_in BACKSLASH body = false /\ char_in COLON body = false /\
   Forall (fun c => c <> [] /\ c <> lit "." /\ c <> lit "..") (str_split SLASH body)).

Lemma no_dot_components body :
  existsb dot_component (str_split SLASH body) = false ->
  Forall (fun c => c <> [] /\ c <> lit "." /\ c <> lit "..") (str_split SLASH body).
Proof.
  intros H. apply Forall_forall. intros c Hc.
  assert (dot_component c = false) as Hd.
  { apply not_true_iff_false. intros Hd. apply not_true_iff_false in H. apply H.
    apply existsb_exists. exists c. split; [by apply list_elem_of_In|done]. }
  unfold dot_component in Hd. rewrite !orb_false_iff, !bool_decide_eq_false in Hd. tauto.
Qed.

Lemma go_import_path_Ok v v' :
  _bounded_go_package_import_path v = Ok v' ->
  v' = v /\ safe_import_path v /\ exists bs, utf8_encode v = Some bs /\ Z.of_nat (length bs) <= 4096.
Proof.
  unfold _bounded_go_package_import_path, safe_import_path.
  intros (w & (-> & _ & Hb)%bounded_go_identity_Ok & H)%bind_Ok.
  destruct (startswith fallback_prefix v); cbn [negb] in H.
  - case_bool_decide as Hdot; [injection H as <-; eauto|]. unbind H.
    rewrite !orb_false_iff in Heqb. destruct Heqb as [[[[[[_ ?] _] ?] ?] _] Hd%no_dot_components].
    injection H as <-. split_and!; [done| |done]. right. done.
  - unfold _bounded_go_path_identity in H.
    apply bind_Ok in H as (w & (-> & _)%bounded_go_identity_Ok & H). unbind H.
    rewrite !orb_false_iff in Heqb. destruct Heqb as [[[[[_ ?] _] ?] ?] _].
    apply no_dot_components in Heqb0. injection H as <-. split_and!; [done| |done]. right. done.
Qed.

(** ** Properties *)

(**  Decoding inverts encoding: every segment a builder can encode is read
    back unchanged, whatever the Unicode database says. *)
Theorem segment_roundtrip (s t : pystr) :
  _encode_segment s = Ok t -> _decode_segment t = Ok s.
Proof. apply decode_encode_segment. Qed.

(**  Encoding inverts decoding exactly on the canonical spellings: a text
    that decodes is the encoder's output if and only if none of its escapes
    stands for an unreserved character. *)
Theorem segment_canonical_spelling (s t : pystr) :
  _decode_segment t = Ok s -> _encode_segment s = Ok t <-> canonical_escapes t = true.
Proof.
  unfold _decode_segment. destruct t as [|c t]; [done|].
  intros (bs & Hl & H)%bind_Ok. destruct (utf8_decode bs) as [s'|] eqn:Hd; [|done].
  injection H as ->. apply utf8_encode_decode in Hd.
  apply encode_decode_loop in Hl as [Hb Hcan]. split.
  - intros (bs' & _ & Hu & ->)%encode_segment_Ok. simplify_eq. by apply canonical_encode.
  - intros Hc. apply encode_segment_Ok. exists bs. split_and!; [|done|by rewrite Hcan].
    intros ->. cbn in Hd. simplify_eq. by specialize (Hcan Hc).
Qed.

(** C35.  A key parses back to the namespace and the segments it was built from,
    for every namespace of the table and all segments. *)
Theorem key_roundtrip (ns : pystr) (segs : list pystr) (k : pystr) :
  _key ns segs = Ok k ->
  parse_key (PyStr k) =
    Ok {| graph_key_version := GRAPH_KEY_VERSION; namespace := ns;
          segments := segs; key := k; path := None |}.
Proof. apply parse_built_key. Qed.

(**  Distinct nodes have distinct keys: equal keys come from the same
    namespace and segments, and no such key is a file key. *)
Theorem key_injective (ns ns' : pystr) (segs segs' : list pystr) (k : pystr) :
  _key ns segs = Ok k ->
  (_key ns' segs' = Ok k -> ns' = ns /\ segs' = segs) /\ (forall p, file_key p <> Ok k).
Proof.
  intros H%parse_built_key. split.
  - intros H'%parse_built_key. rewrite H in H'. injection H' as <- <-. done.
  - intros p Hp. pose proof Hp as (comps & encs & Hn & _)%file_key_Ok.
    rewrite (parse_file_key p k comps Hn Hp) in H. discriminate H.
Qed.

(**  A file key parses back to the normalised components, its path names no
    directory step and no separator inside a component, and building a key from
    that path gives the same key: file keys are normal forms. *)
Theorem file_key_roundtrip (p : pathlike) (k : pystr) :
  file_key p = Ok k ->
  exists comps,
    parse_key (PyStr k) =
      Ok {| graph_key_version := GRAPH_KEY_VERSION; namespace := lit "file";
            segments := comps; key := k; path := Some (str_join SLASH comps) |} /\
    (comps = [lit "."] \/ (comps <> [] /\ Forall plain_component comps)) /\
    file_key (PathStr (str_join SLASH comps)) = Ok k.
Proof.
  intros Hk. pose proof Hk as (comps & encs & Hn & He & ->)%file_key_Ok.
  pose proof (normalize_components_plain _ _ Hn) as Hp.
  exists comps. split_and!; [by apply (parse_file_key p)|done|].
  apply file_key_Ok. exists comps, encs. split_and!; [by apply normalize_joined|done|done].
Qed.

(** C36.  [file_key] refuses a path as escaping exactly when it is relative and
    some prefix of its components climbs above the repository root. *)
Theorem file_key_refuses_escapes (raw : pystr) :
  file_key (PathStr raw) = kerr PathEscapes <->
  raw <> [] /\ startswith [SLASH] (replace_char BACKSLASH SLASH raw) = false /\
  exists n, depth (take n (str_split SLASH (replace_char BACKSLASH SLASH raw))) < 0.
Proof.
  pose proof (normalize_loop_escapes (str_split SLASH (replace_char BACKSLASH SLASH raw)) []) as Hloop.
  cbn [length] in Hloop. change (Z.of_nat 0) with 0 in Hloop. setoid_rewrite Z.add_0_l in Hloop.
  rewrite <- Hloop. unfold file_key, _normalize_file_components. cbn [mbind result_bind].
  destruct raw as [|c raw]; [by split; [|intros [? _]]|].
  destruct (startswith [SLASH] _) eqn:Hs; [by split; [|intros (_ & ? & _)]|].
  destruct (normalize_loop _ []) as [comps|e] eqn:Hl; cbn [mbind result_bind].
  - split; [|by intros (_ & _ & ?)]. destruct comps as [|c0 comps].
    + by vm_compute.
    + cbn [mbind result_bind]. destruct (mapM _encode_segment (c0 :: comps)) as [|e] eqn:Hm; cbn [mbind result_bind]; [intros [=]|]. intros [= ->].
      apply mapM_Err in Hm as (x & _ & Hx). unfold _encode_segment in Hx.
      destruct x; [done|]. by destruct (utf8_encode _).
  - apply normalize_loop_errors in Hl as ->. naive_solver.
Qed.

(**  [validate_key] never raises, whatever it is given: [parse_key] raises
    nothing but [GraphKeyError], and the record says whether it parsed. *)
Theorem validate_key_total (a : pyarg) :
  exists v, validate_key a = Ok v /\ (valid v = true <-> exists q, parse_key a = Ok q) /\
            (valid v = false -> exists g, error v = Some g /\ parse_key a = kerr g).
Proof.
  assert (forall e, parse_key a = Err e -> exists g, e = GraphKeyError g) as Herr.
  { unfold parse_key. intros e. destruct a as [[|c k]|]; [intros [= <-]; eauto| |intros [= <-]; eauto].
    destruct (str_partition COLON (c :: k)) as [[ns sep] rem]. case_match; [intros [= <-]; eauto|].
    case_match.
    - destruct (_parse_file_segments rem) eqn:Hf; cbn; [done|]. intros [= <-].
      eauto using parse_file_segments_errors.
    - case_match; [|intros [= <-]; eauto]. case_match; [intros [= <-]; eauto|].
      destruct (mapM _decode_segment _) eqn:Hm; cbn; [done|]. intros [= <-].
      eauto using decode_segments_errors. }
  unfold validate_key. destruct (parse_key a) as [q|e] eqn:Hp.
  - eexists. split; [done|]. cbn. split; [|done]. split; eauto.
  - destruct (Herr e eq_refl) as [g ->]. eexists. split; [done|]. cbn.
    split; [|eauto]. by split; [|intros [? ?]].
Qed.

(**  Keys of contained nodes nest: a key built below a parent parses to the
    child's namespace with the parent's key, unchanged, as its first segment, and
    that key parses to the parent's namespace. *)
Theorem child_key_nests (ns pns parent k : pystr) :
  child_key ns pns parent k ->
  exists q rest pq,
    parse_key (PyStr k) = Ok q /\ namespace q = ns /\ segments q = parent :: rest /\
    parse_key (PyStr parent) = Ok pq /\ namespace pq = pns.
Proof.
  intros H. destruct H as [p i k H|p i k H|p i k H|p i k H|p i k H|p i k H|p i k H|p i j k H
    |p i k H|p i k H|p i k H|p i k H|p i k H|p i j k H|p i k H|p i k H];
    apply bind_Ok in H as (s0 & Hp & H);
    first [apply coerce_namespace_Ok in Hp | apply coerce_go_package_Ok in Hp];
    destruct Hp as (-> & pq & Hpq & Hns);
    unbind H; apply parse_built_key in H; repeat eexists; eauto.
Qed.

(**  A Go package key carries a bounded, repository-safe import path: at
    most 4096 bytes of UTF-8, relative and free of directory steps; the package
    name takes at most 512 bytes. *)
Theorem go_package_key_bounded (import_path package_name k : pystr) :
  go_package_key import_path package_name = Ok k ->
  safe_import_path import_path /\
  (exists bs, utf8_encode import_path = Some bs /\ Z.of_nat (length bs) <= 4096) /\
  (exists bs, utf8_encode package_name = Some bs /\ Z.of_nat (length bs) <= 512).
Proof.
  unfold go_package_key.
  intros (s0 & (_ & Hsafe & Hlen)%go_import_path_Ok & (s1 & (_ & _ & Hname)%bounded_go_identity_Ok & _)%bind_Ok)%bind_Ok.
  done.
Qed.

End Facts.

(** ** Witnesses *)

#[local] Existing Instance ascii_only.

Lemma segment_roundtrip_witness :
  _decode_segment (lit "My%20Tool%3Aguide") = Ok (lit "My Tool:guide").
Proof. apply (segment_roundtrip (lit "My Tool:guide")). vm_compute. reflexivity. Defined.

Lemma segment_canonical_spelling_witness :
  (_encode_segment (lit "A b") = Ok (lit "A%20b") <-> canonical_escapes (lit "A%20b") = true) /\
  (_encode_segment (lit "A b") = Ok (lit "%41%20b") <-> canonical_escapes (lit "%41%20b") = true).
Proof. split; apply segment_canonical_spelling; vm_compute; reflexivity. Defined.

Lemma key_roundtrip_witness :
  exists k, _key (lit "python.method") [lit "m"; lit "C:D"; lit "f"] = Ok k /\
    parse_key (PyStr k) =
      Ok {| graph_key_version := 1; namespace := lit "python.method";
            segments := [lit "m"; lit "C:D"; lit "f"]; key := k; path := None |}.
Proof.
  exists (lit "python.method:m:C%3AD:f"). split; [vm_compute; reflexivity|].
  apply (key_roundtrip (lit "python.method")). vm_compute. reflexivity.
Defined.

Lemma key_injective_witness :
  (_key (lit "env") [lit "PATH"] = Ok (lit "tool:nix") -> lit "env" = lit "tool" /\ [lit "PATH"] = [lit "nix"])
  /\ (forall p, file_key p <> Ok (lit "tool:nix")).
Proof. apply (key_injective (lit "tool") (lit "env") [lit "nix"]). vm_compute. reflexivity. Defined.

Lemma file_key_roundtrip_witness :
  exists comps,
    parse_key (PyStr (lit "file:bin/my%20tool")) =
      Ok {| graph_key_version := GRAPH_KEY_VERSION; namespace := lit "file"; segments := comps;
            key := lit "file:bin/my%20tool"; path := Some (str_join SLASH comps) |} /\
    (comps = [lit "."] \/ (comps <> [] /\ Forall plain_component comps)) /\
    file_key (PathStr (str_join SLASH comps)) = Ok (lit "file:bin/my%20tool").
Proof. apply (file_key_roundtrip (PathStr (lit "scripts/../bin/./my tool"))). vm_compute. reflexivity. Defined.

Lemma child_key_nests_witness :
  exists q rest pq,
    parse_key (PyStr (lit "js.method:js.class%3Afile%253Aa.js%3AC:run")) = Ok q /\
    namespace q = lit "js.method" /\ segments q = lit "js.class:file%3Aa.js:C" :: rest /\
    parse_key (PyStr (lit "js.class:file%3Aa.js:C")) = Ok pq /\ namespace pq = lit "js.class".
Proof.
  apply child_key_nests. apply (child_js_method _ (lit "run")). vm_compute. reflexivity.
Defined.

Lemma go_package_key_bounded_witness :
  safe_import_path (lit "example.com/pkg") /\
  (exists bs, utf8_encode (lit "example.com/pkg") = Some bs /\ Z.of_nat (length bs) <= 4096) /\
  (exists bs, utf8_encode (lit "pkg") = Some bs /\ Z.of_nat (length bs) <= 512).
Proof.
  apply (go_package_key_bounded _ _ (lit "go.package:example.com%2Fpkg:pkg")). vm_compute. reflexivity.
Defined.

(** ** What the parser accepts beyond the builders *)

(**  The parser accepts file keys no builder makes: a separator written as
    an escape survives decoding, so a file key can parse to an absolute path or
    to one that climbs out of the repository. *)
Theorem parse_key_accepts_escaping_paths :
  (exists q, parse_key (PyStr (lit "file:..%2F..%2Fetc%2Fpasswd")) = Ok q /\
             path q = Some (lit "../../etc/passwd")) /\
  (exists q, parse_key (PyStr (lit "file:%2Fetc%2Fpasswd")) = Ok q /\
             path q = Some (lit "/etc/passwd")) /\
  file_key (PathStr (lit "../../etc/passwd")) = kerr PathEscapes /\
  file_key (PathStr (lit "/etc/passwd")) = kerr PathAbsolute.
Proof. split_and!; [eexists..| |]; vm_compute; split_and?; reflexivity. Qed.

(**  Two spellings of one node: a key whose segment escapes an unreserved
    character parses to the same namespace and segments as the key the builder
    makes, and it is a different key. *)
Theorem parse_key_accepts_two_spellings :
  exists q q',
    parse_key (PyStr (lit "tool:%41wk")) = Ok q /\ parse_key (PyStr (lit "tool:Awk")) = Ok q' /\
    namespace q = namespace q' /\ segments q = segments q' /\ key q <> key q' /\
    tool_key (lit "Awk") = Ok (key q').
Proof. do 2 eexists. vm_compute. split_and!; try reflexivity. discriminate. Qed.
