(* ===== verification/GoSourceKeys.v ===== *)
(** Versioned keys of observed Go source: [graph/go_source_keys.py].

    The v2 keys scope Go modules, packages and declarations to a repository.  The
    parts of [pathlib] the code consults are modelled for the values that reach
    them: a [PurePosixPath] by its filtered components, and the drive of a
    [PureWindowsPath] for a value with no backslash and no leading slash. *)
From S2P Require Import Prelude Utf8 GraphKeys GraphKeysFacts.
Open Scope Z_scope.

Definition MAX_GO_REPOSITORY_SCOPE_BYTES : Z := 512.

(** [GO_REPOSITORY_SCOPE_PATTERN.fullmatch] *)
Definition go_repository_scope_match (scope : pystr) : bool :=
  match scope with
  | [] => false
  | c :: rest => is_alnum c && forallb (fun c => is_alnum c || char_in c (lit "._-")) rest
  end.

Definition validate_go_repository_scope (scope : pystr) : kres pystr :=
  scope ← _bounded_go_identity scope MAX_GO_REPOSITORY_SCOPE_BYTES;
  if negb (go_repository_scope_match scope) then kerr GoScopeUnsafe else Ok scope.

(** [PurePosixPath(value).parts] of a relative value. *)
Definition posix_parts (value : pystr) : list pystr :=
  filter (fun x => x <> [] /\ x <> lit ".") (str_split SLASH value).

(** [str(PurePosixPath(value))] of a relative value. *)
Definition posix_str (value : pystr) : pystr :=
  match posix_parts value with
  | [] => lit "."
  | parts => str_join SLASH parts
  end.

(** [bool(PureWindowsPath(value).drive)] of a value that starts with no slash. *)
Definition windows_drive (value : pystr) : bool :=
  match value with
  | _ :: c :: _ => c =? COLON
  | _ => false
  end.

Definition _bounded_relative_directory (value : pystr) : kres pystr :=
  value ← _bounded_go_identity value MAX_GO_PATH_IDENTITY_BYTES;
  if bool_decide (value = lit ".") then Ok value
  else if char_in BACKSLASH value || startswith [SLASH] value || windows_drive value
          || negb (bool_decide (posix_str value = value))
          || existsb dot_component (posix_parts value)
  then kerr GoDirectoryNotNormalized
  else Ok value.

Section Builders.
Context {U : Unicode}.

Definition _coerce_source_module_key (k : pystr) : kres pystr :=
  parsed ← parse_key (PyStr k);
  if negb (bool_decide (namespace parsed = lit "go.source-module.v2")) then kerr GoSourceModuleParent
  else
    match segments parsed with
    | s0 :: s1 :: s2 :: _ =>
        _ ← validate_go_repository_scope s0;
        _ ← _bounded_relative_directory s1;
        _ ← _bounded_go_path_identity s2;
        Ok k
    | _ => kerr GoSourceModuleParent
    end.

Definition _coerce_source_package_key (k : pystr) : kres pystr :=
  parsed ← parse_key (PyStr k);
  if negb (bool_decide (namespace parsed = lit "go.source-package.v2")
           || bool_decide (namespace parsed = lit "go.source-package-fallback.v2"))
  then kerr GoSourcePackageParent
  else
    match segments parsed with
    | s0 :: s1 :: s2 :: _ =>
        _ ← (if bool_decide (namespace parsed = lit "go.source-package.v2")
             then _coerce_source_module_key s0
             else validate_go_repository_scope s0);
        _ ← _bounded_relative_directory s1;
        _ ← _bounded_go_identity s2 MAX_GO_NAME_IDENTITY_BYTES;
        Ok k
    | _ => kerr GoSourcePackageParent
    end.

Definition go_source_module_key (scope module_root module_path : pystr) : kres pystr :=
  s0 ← validate_go_repository_scope scope;
  s1 ← _bounded_relative_directory module_root;
  s2 ← _bounded_go_path_identity module_path;
  _key (lit "go.source-module.v2") [s0; s1; s2].

Definition go_source_package_key
    (source_module_key relative_directory package_name : pystr) : kres pystr :=
  s0 ← _coerce_source_module_key source_module_key;
  s1 ← _bounded_relative_directory relative_directory;
  s2 ← _bounded_go_identity package_name MAX_GO_NAME_IDENTITY_BYTES;
  _key (lit "go.source-package.v2") [s0; s1; s2].

Definition go_source_package_fallback_key
    (scope repository_directory package_name : pystr) : kres pystr :=
  s0 ← validate_go_repository_scope scope;
  s1 ← _bounded_relative_directory repository_directory;
  s2 ← _bounded_go_identity package_name MAX_GO_NAME_IDENTITY_BYTES;
  _key (lit "go.source-package-fallback.v2") [s0; s1; s2].

Definition _source_declaration_key
    (ns source_package_key declaration_name : pystr) : kres pystr :=
  s0 ← _coerce_source_package_key source_package_key;
  s1 ← _bounded_go_identity declaration_name MAX_GO_NAME_IDENTITY_BYTES;
  _key ns [s0; s1].

Definition go_source_type_key (source_package_key declaration_name : pystr) : kres pystr :=
  _source_declaration_key (lit "go.source-type.v2") source_package_key declaration_name.

Definition go_source_function_key (source_package_key declaration_name : pystr) : kres pystr :=
  _source_declaration_key (lit "go.source-function.v2") source_package_key declaration_name.

Definition go_source_method_key
    (source_package_key receiver_base declaration_name : pystr) : kres pystr :=
  s0 ← _coerce_source_package_key source_package_key;
  s1 ← _bounded_go_identity receiver_base MAX_GO_NAME_IDENTITY_BYTES;
  s2 ← _bounded_go_identity declaration_name MAX_GO_NAME_IDENTITY_BYTES;
  _key (lit "go.source-method.v2") [s0; s1; s2].

Definition go_source_const_key (source_package_key declaration_name : pystr) : kres pystr :=
  _source_declaration_key (lit "go.source-const.v2") source_package_key declaration_name.

Definition go_source_var_key (source_package_key declaration_name : pystr) : kres pystr :=
  _source_declaration_key (lit "go.source-var.v2") source_package_key declaration_name.

(** ** Facts *)

Lemma validate_scope_Ok s s' :
  validate_go_repository_scope s = Ok s' ->
  s' = s /\ go_repository_scope_match s = true /\ s <> [].
Proof.
  unfold validate_go_repository_scope. intros (v & (-> & Hne & _)%bounded_go_identity_Ok & H)%bind_Ok.
  unbind H. apply negb_false_iff in Heqb. injection H as <-. done.
Qed.

(** A directory the v2 keys accept: the repository root or plain names. *)
Definition relative_directory (v : pystr) : Prop :=
  v = lit "." \/ Forall plain_component (str_split SLASH v).

Lemma bounded_relative_directory_Ok v v' :
  _bounded_relative_directory v = Ok v' -> v' = v /\ relative_directory v.
Proof.
  unfold _bounded_relative_directory, relative_directory.
  intros (w & (-> & Hne & _)%bounded_go_identity_Ok & H)%bind_Ok.
  case_bool_decide as Hdot; [injection H as <-; auto|]. unbind H. injection H as <-.
  split; [done|]. right.
  rewrite !orb_false_iff, negb_false_iff in Heqb.
  destruct Heqb as [[[[Hb _] _] Hstr] Hdots]. apply bool_decide_eq_true in Hstr.
  apply bool_decide_eq_false in Hb.
  assert (Forall (fun c => SLASH ∉ c) (posix_parts v)) as Hslash.
  { apply Forall_forall. intros c [_ Hc]%list_elem_of_filter.
    pose proof (str_split_parts_no_sep SLASH v) as Hall. rewrite Forall_forall in Hall. by apply Hall. }
  assert (str_split SLASH v = posix_parts v) as ->.
  { unfold posix_str in Hstr. destruct (posix_parts v) as [|p ps] eqn:E; [congruence|].
    rewrite <- Hstr. by apply str_split_join. }
  apply Forall_forall. intros c Hc. pose proof Hc as [[? ?] Hin]%list_elem_of_filter.
  rewrite Forall_forall in Hslash. split_and!; [done..| |by apply Hslash|].
  - intros ->. apply not_true_iff_false in Hdots. apply Hdots. apply existsb_exists.
    exists (lit ".."). split; [by apply list_elem_of_In|done].
  - intros Hbc. apply Hb. rewrite <- (str_join_split SLASH v). by apply (str_join_elem SLASH _ c).
Qed.

(**  A Go source-module key names a scoped repository location: the scope
    is a public-safe identifier, the module root is the repository root or a
    relative directory without steps out of it, and the key parses back to
    exactly the three parts. *)
Theorem go_source_module_key_scoped (scope module_root module_path k : pystr) :
  go_source_module_key scope module_root module_path = Ok k ->
  go_repository_scope_match scope = true /\ relative_directory module_root /\
  exists q, parse_key (PyStr k) = Ok q /\ namespace q = lit "go.source-module.v2" /\
            segments q = [scope; module_root; module_path].
Proof.
  unfold go_source_module_key.
  intros (s0 & (-> & Hs & _)%validate_scope_Ok & H)%bind_Ok.
  apply bind_Ok in H as (s1 & (-> & Hd)%bounded_relative_directory_Ok & H).
  apply bind_Ok in H as (s2 & Hp & H).
  assert (s2 = module_path) as ->.
  { unfold _bounded_go_path_identity in Hp.
    apply bind_Ok in Hp as (w & (-> & _)%bounded_go_identity_Ok & Hp). unbind Hp. by injection Hp. }
  split_and!; [done..|]. eexists. split; [by apply parse_built_key|done].
Qed.

End Builders.

Lemma go_source_module_key_scoped_witness :
  go_repository_scope_match (lit "repo-map") = true /\ relative_directory (lit "src/main/go") /\
  exists q, parse_key (U := ascii_only)
              (PyStr (lit "go.source-module.v2:repo-map:src%2Fmain%2Fgo:example.com%2Fm")) = Ok q /\
            namespace q = lit "go.source-module.v2" /\
            segments q = [lit "repo-map"; lit "src/main/go"; lit "example.com/m"].
Proof.
  apply (go_source_module_key_scoped (U := ascii_only)). vm_compute. reflexivity.
Defined.
