(* ===== verification/Sha256.v ===== *)
(** SHA-256, as [hashlib.sha256(data).hexdigest()] computes it: digests identify
    idempotency keys and request fingerprints in the control store.  Words are
    integers of [0, 2^32); the wrap-around is written out. *)
From S2P Require Import Prelude.
Open Scope Z_scope.

Definition mask32 (x : Z) : Z := Z.land x 0xffffffff.
Definition add32 (x y : Z) : Z := mask32 (x + y).
Definition rotr (x n : Z) : Z := Z.lor (Z.shiftr x n) (mask32 (Z.shiftl x (32 - n))).
Definition not32 (x : Z) : Z := Z.lxor x 0xffffffff.

(** The round constants and the initial state are the first 32 bits of the
    fractional parts of the cube and square roots of the first primes: the
    root of [p * 2^(32 k)], taken down, modulo [2^32]. *)
Fixpoint root_bits (fuel : nat) (k n acc : Z) : Z :=
  match fuel with
  | O => acc
  | S fuel =>
      let candidate := acc + 2 ^ Z.of_nat fuel in
      root_bits fuel k n (if candidate ^ k <=? n then candidate else acc)
  end.

Definition is_prime (n : Z) : bool :=
  forallb (fun d => negb (n mod Z.of_nat d =? 0)) (seq 2 (Z.to_nat n - 2)).

Definition primes (bound : nat) : list Z :=
  List.filter is_prime (Z.of_nat <$> seq 2 bound).

Definition root_fraction (k p : Z) : Z := mask32 (root_bits 40 k (p * 2 ^ (32 * k)) 0).

Definition sha_k : list Z := Eval vm_compute in root_fraction 3 <$> take 64 (primes 310).
Definition sha_init : list Z := Eval vm_compute in root_fraction 2 <$> take 8 (primes 310).

Definition big_endian (n : nat) (x : Z) : list Z :=
  (fun i => Z.land (Z.shiftr x (8 * Z.of_nat i)) 255) <$> reverse (seq 0 n).

(** Padding: a one bit, zeros to 56 bytes modulo 64, the length in bits. *)
Definition sha_pad (msg : list Z) : list Z :=
  let len := Z.of_nat (length msg) in
  msg ++ [128] ++ replicate (Z.to_nat ((55 - len) mod 64)) 0 ++ big_endian 8 (8 * len).

Definition word_of (b : list Z) : Z := foldl (fun acc x => Z.lor (Z.shiftl acc 8) x) 0 b.

Fixpoint chunks {A} (fuel n : nat) (l : list A) : list (list A) :=
  match fuel, l with
  | S fuel, _ :: _ => take n l :: chunks fuel n (drop n l)
  | _, _ => []
  end.

(** The message schedule, newest word first. *)
Fixpoint schedule (fuel : nat) (w : list Z) : list Z :=
  match fuel with
  | O => w
  | S fuel =>
      let g i := nth i w 0 in
      let s0 := Z.lxor (Z.lxor (rotr (g 14%nat) 7) (rotr (g 14%nat) 18)) (Z.shiftr (g 14%nat) 3) in
      let s1 := Z.lxor (Z.lxor (rotr (g 1%nat) 17) (rotr (g 1%nat) 19)) (Z.shiftr (g 1%nat) 10) in
      schedule fuel (add32 (add32 (g 15%nat) s0) (add32 (g 6%nat) s1) :: w)
  end.

Definition sha_round (h : list Z) (kw : Z * Z) : list Z :=
  match h with
  | [a; b; c; d; e; f; g; hh] =>
      let s1 := Z.lxor (Z.lxor (rotr e 6) (rotr e 11)) (rotr e 25) in
      let ch := Z.lxor (Z.land e f) (Z.land (not32 e) g) in
      let t1 := add32 (add32 hh s1) (add32 ch (add32 kw.1 kw.2)) in
      let s0 := Z.lxor (Z.lxor (rotr a 2) (rotr a 13)) (rotr a 22) in
      let maj := Z.lxor (Z.lxor (Z.land a b) (Z.land a c)) (Z.land b c) in
      let t2 := add32 s0 maj in
      [add32 t1 t2; a; b; c; add32 d t1; e; f; g]
  | _ => h
  end.

Definition sha_block (h : list Z) (block : list Z) : list Z :=
  let w := reverse (schedule 48 (reverse (word_of <$> chunks 16 4 block))) in
  zip_with add32 h (foldl sha_round h (zip sha_k w)).

Definition sha256 (msg : list Z) : list Z :=
  let padded := sha_pad msg in
  foldl sha_block sha_init (chunks (length padded) 64 padded) ≫= big_endian 4.

Definition hex_lower (d : Z) : Z := if d <? 10 then 48 + d else 87 + d.

(** [hashlib.sha256(data).hexdigest()] *)
Definition sha256_hex (data : list Z) : pystr :=
  sha256 data ≫= (fun b => [hex_lower (b / 16); hex_lower (b mod 16)]).

Lemma sha_round_length h kw : length h = 8%nat -> length (sha_round h kw) = 8%nat.
Proof. intros H. do 9 (destruct h as [|? h]; try discriminate H). done. Qed.

Lemma sha_block_length h b : length h = 8%nat -> length (sha_block h b) = 8%nat.
Proof.
  intros H. unfold sha_block. rewrite length_zip_with.
  assert (forall kws h', length h' = 8%nat -> length (foldl sha_round h' kws) = 8%nat) as Hf.
  { induction kws; intros h' Hh; cbn; [done|]. by apply IHkws, sha_round_length. }
  rewrite Hf by done. lia.
Qed.

(** Every digest text has the 64 characters the schema demands. *)
Lemma sha256_hex_length data : length (sha256_hex data) = 64%nat.
Proof.
  assert (length (sha256 data) = 32%nat) as Hl.
  { unfold sha256.
    assert (forall bs h, length h = 8%nat -> length (foldl sha_block h bs) = 8%nat) as Hf.
    { induction bs; intros h Hh; cbn; [done|]. by apply IHbs, sha_block_length. }
    specialize (Hf (chunks (length (sha_pad data)) 64 (sha_pad data)) sha_init eq_refl).
    revert Hf. generalize (foldl sha_block sha_init (chunks (length (sha_pad data)) 64 (sha_pad data))).
    intros h Hh. do 9 (destruct h as [|? h]; try discriminate Hh). done. }
  unfold sha256_hex. revert Hl. generalize (sha256 data). intros l Hl.
  do 33 (destruct l as [|? l]; try discriminate Hl). done.
Qed.

Example sha256_abc :
  sha256_hex (lit "abc") = lit "ba7816bf8f01cfea414140de5dae2223b00361a396177a9cb410ff61f20015ad".
Proof. vm_compute. reflexivity. Qed.
