(* ===== verification/PyVal.v ===== *)
(** Python values as the code receives them from JSON and in mappings, and
    [json.dumps(value, sort_keys=True, separators=(",", ":"))]. *)
From S2P Require Import Prelude Utf8.
Open Scope Z_scope.

(** A value: [None], [bool], [int], a [float] (by its [repr] and the integer it
    equals, if any), [str], [list], [tuple], and [dict] with [str] keys in
    insertion order. *)
Inductive pyval :=
| VNone
| VBool (b : bool)
| VInt (n : Z)
| VFloat (repr : pystr) (integral : option Z)
| VStr (s : pystr)
| VList (l : list pyval)
| VTuple (l : list pyval)
| VDict (d : list (pystr * pyval)).

Abbreviation pydict := (list (pystr * pyval)).

(** [v is None] *)
Definition is_none (v : pyval) : bool := match v with VNone => true | _ => false end.

(** [bool(v)] *)
Definition truthy (v : pyval) : bool :=
  match v with
  | VNone | VBool false | VInt 0 | VFloat _ (Some 0) | VStr [] | VList [] | VTuple [] | VDict [] => false
  | _ => true
  end.

(** [hash(v)] does not raise. *)
Fixpoint hashable (v : pyval) : bool :=
  match v with
  | VList _ | VDict _ => false
  | VTuple l => forallb hashable l
  | _ => true
  end.

(** [d[k]] of a dict's items. *)
Fixpoint dict_get {A} (k : pystr) (d : list (pystr * A)) : option A :=
  match d with
  | [] => None
  | (k', v) :: rest => if bool_decide (k' = k) then Some v else dict_get k rest
  end.

(** [set(d) == fields] *)
Definition same_keys {A} (d : list (pystr * A)) (fields : list pystr) : bool :=
  forallb (fun kv => bool_decide (kv.1 ∈ fields)) d &&
  forallb (fun f => bool_decide (is_Some (dict_get f d))) fields.

(** Order of [str] values: by code points. *)
Fixpoint str_leb (s t : pystr) : bool :=
  match s, t with
  | [], _ => true
  | _ :: _, [] => false
  | a :: s', b :: t' => (a <? b) || ((a =? b) && str_leb s' t')
  end.

(** ** JSON text *)

Definition hex4 (n : Z) : pystr :=
  (fun d => if d <? 10 then 48 + d else 87 + d) <$>
    [n / 4096 mod 16; n / 256 mod 16; n / 16 mod 16; n mod 16].

(** One character inside a JSON string, with [ensure_ascii]. *)
Definition json_char (c : Z) : pystr :=
  if c =? 34 then [92; 34] else if c =? 92 then [92; 92]
  else if c =? 10 then lit "\n" else if c =? 13 then lit "\r" else if c =? 9 then lit "\t"
  else if c =? 12 then lit "\f" else if c =? 8 then lit "\b"
  else if (32 <=? c) && (c <? 127) then [c]
  else if c <? 65536 then lit "\u" ++ hex4 c
  else let v := c - 65536 in
       lit "\u" ++ hex4 (55296 + v / 1024) ++ lit "\u" ++ hex4 (56320 + v mod 1024).

Definition json_str (s : pystr) : pystr := [34] ++ (s ≫= json_char) ++ [34].

Fixpoint insert_item {A} (kv : pystr * A) (l : list (pystr * A)) : list (pystr * A) :=
  match l with
  | [] => [kv]
  | kv' :: rest => if str_leb kv.1 kv'.1 then kv :: l else kv' :: insert_item kv rest
  end.

(** The items of a dict in key order. *)
Definition sort_items {A} (d : list (pystr * A)) : list (pystr * A) := foldr insert_item [] d.

(** [json.dumps] of a flat mapping of strings and integers or of one nested
    mapping of strings: what request fingerprints are taken over. *)
Inductive json :=
| JInt (n : Z)
| JStr (s : pystr)
| JObj (d : list (pystr * json)).

Fixpoint json_dumps (v : json) : pystr :=
  match v with
  | JInt n => str_of_int n
  | JStr s => json_str s
  | JObj d =>
      [123] ++
      str_join 44 ((fun kv : pystr * pystr => json_str kv.1 ++ [58] ++ kv.2) <$>
                   sort_items ((fix go d := match d with
                                            | [] => []
                                            | (k, x) :: rest => (k, json_dumps x) :: go rest
                                            end) d))
      ++ [125]
  end.

Example json_dumps_sorted :
  json_dumps (JObj [(lit "b", JInt 1); (lit "a", JObj [(lit "reason", JStr (233 :: lit "x"))])]) =
  lit "{" ++ [34] ++ lit "a" ++ [34] ++ lit ":{" ++ [34] ++ lit "reason" ++ [34] ++ lit ":" ++
  [34] ++ lit "\u00e9x" ++ [34] ++ lit "}," ++ [34] ++ lit "b" ++ [34] ++ lit ":1}".
Proof. vm_compute. reflexivity. Qed.
