(* ===== verification/Ordering.v ===== *)
(** Orders: comparison of tuples, comparison functions that order their type, and
    the order of texts by code point. *)
From S2P Require Import Prelude PyVal.
Open Scope Z_scope.

(** Tuples: compare by the first component in which they differ. *)
Fixpoint lex (l : list comparison) : comparison :=
  match l with
  | [] => Eq
  | Eq :: rest => lex rest
  | c :: _ => c
  end.

(** Comparison by a total order. *)
Definition compare_by (leb : pystr -> pystr -> bool) (s t : pystr) : comparison :=
  if bool_decide (s = t) then Eq else if leb s t then Lt else Gt.

Definition not_gt (c : comparison) : bool := match c with Gt => false | _ => true end.

(** A comparison function that orders its type. *)
Record ordering {A} (c : A -> A -> comparison) : Prop := {
  ord_opp : forall x y, c y x = CompOpp (c x y);
  ord_eq : forall x y z, c x y = Eq -> c x z = c y z;
  ord_lt : forall x y z, c x y = Lt -> c y z = Lt -> c x z = Lt
}.

Lemma ordering_Z {A} (f : A -> Z) : ordering (fun x y => f x ?= f y).
Proof.
  split; intros x y *.
  - apply Z.compare_antisym.
  - intros ->%Z.compare_eq. done.
  - rewrite !Z.compare_lt_iff. lia.
Qed.

Lemma ordering_flip {A} (c : A -> A -> comparison) : ordering c -> ordering (fun x y => c y x).
Proof.
  intros [Ho He Hl]. split; intros x y *.
  - apply Ho.
  - intros H. assert (c x y = Eq) as H' by (rewrite (Ho y x), H; done).
    by rewrite (Ho x z), (Ho y z), (He _ _ z H').
  - intros H1 H2. eauto.
Qed.

(** The first comparison, then the second. *)
Definition lex2 (c1 c2 : comparison) : comparison := match c1 with Eq => c2 | _ => c1 end.

Lemma ordering_lex {A} (c1 c2 : A -> A -> comparison) :
  ordering c1 -> ordering c2 -> ordering (fun x y => lex2 (c1 x y) (c2 x y)).
Proof.
  intros [Ho1 He1 Hl1] [Ho2 He2 Hl2]. split.
  - intros x y. rewrite (Ho1 x y). destruct (c1 x y); cbn; [apply Ho2|done|done].
  - intros x y z H. unfold lex2 in *. destruct (c1 x y) eqn:E1; try done.
    rewrite (He1 _ _ z E1). destruct (c1 y z); [by apply He2|done|done].
  - intros x y z H1 H2. unfold lex2 in *.
    destruct (c1 x y) eqn:E1; [|destruct (c1 y z) eqn:E2|]; try done.
    + rewrite (He1 _ _ z E1). destruct (c1 y z); [by eapply Hl2|done|done].
    + assert (c1 x z = Lt) as ->; [|done].
      assert (c1 z x = c1 y x) as Hzx.
      { apply He1. by rewrite (Ho1 y z), E2. }
      rewrite (Ho1 z x), Hzx, (Ho1 x y), E1. done.
    + by rewrite (Hl1 _ _ _ E1 E2).
Qed.

Lemma ordering_not_gt {A} (c : A -> A -> comparison) :
  ordering c ->
  (forall x y, Is_true (not_gt (c x y)) \/ Is_true (not_gt (c y x))) /\
  (forall x y z, Is_true (not_gt (c x y)) -> Is_true (not_gt (c y z)) -> Is_true (not_gt (c x z))).
Proof.
  intros [Ho He Hl]. split.
  - intros x y. rewrite (Ho x y). destruct (c x y); cbn; tauto.
  - intros x y z. destruct (c x y) eqn:E1; cbn; [|destruct (c y z) eqn:E2; cbn|done]; try done.
    + by rewrite (He _ _ z E1).
    + intros _ _. assert (c z x = c y x) as Hzx.
      { apply He. by rewrite (Ho y z), E2. }
      by rewrite (Ho z x), Hzx, (Ho x y), E1.
    + intros _ _. by rewrite (Hl _ _ _ E1 E2).
Qed.

(** A total order of texts. *)
Definition text_order (leb : pystr -> pystr -> bool) : Prop :=
  (forall s t, leb s t = true \/ leb t s = true) /\
  (forall s t u, leb s t = true -> leb t u = true -> leb s u = true) /\
  (forall s t, leb s t = true -> leb t s = true -> s = t).

Lemma str_leb_order : text_order str_leb.
Proof.
  split_and!.
  - induction s as [|a s IH]; intros [|b t]; cbn; auto.
    destruct (IH t) as [->| ->]; lia.
  - induction s as [|a s IH]; intros [|b t] [|c u]; cbn; try done. intros H1 H2.
    specialize (IH t u). destruct (str_leb s t), (str_leb t u), (str_leb s u); lia || (exfalso; by auto).
  - induction s as [|a s IH]; intros [|b t]; cbn; try done. intros H1 H2.
    assert (a = b) as -> by lia. f_equal. apply IH.
    all: destruct (str_leb s t), (str_leb t s); done || lia.
Qed.

Lemma ordering_by {A} leb (f : A -> pystr) : text_order leb -> ordering (fun x y => compare_by leb (f x) (f y)).
Proof.
  intros (Htot & Htr & Has). unfold compare_by. split; intros x y *.
  - case_bool_decide as H1; case_bool_decide as H2; try congruence; [done|].
    destruct (leb (f x) (f y)) eqn:E1, (leb (f y) (f x)) eqn:E2; try done.
    + by destruct H1; apply Has.
    + destruct (Htot (f x) (f y)); congruence.
  - case_bool_decide as H1; [by rewrite H1|]. by destruct (leb _ _).
  - case_bool_decide as H1; [done|]. case_bool_decide as H2; [done|].
    destruct (leb (f x) (f y)) eqn:E1; [|done]. destruct (leb (f y) (f z)) eqn:E2; [|done].
    intros _ _. rewrite (Htr _ _ _ E1 E2). case_bool_decide as H3; [|done].
    destruct H1. apply Has; [done|]. by rewrite H3.
Qed.

(** Merging sorted runs through a heap, as [heapq] does it: a heap of the next element of
    every run, the least of which is taken and replaced by its successor.  The heap is the
    list of its entries in order; [heapq] keeps them in an array, of which only the least is
    seen.  Entries are ordered by value, then by the number of the run. *)

Section Merge.
Context {A : Type} (cmp : A -> A -> comparison).

Definition entry_compare (e f : A * nat) : comparison := lex2 (cmp e.1 f.1) (Nat.compare e.2 f.2).

(** [heapq.heappush]; [heapq.heappop] takes the head. *)
Fixpoint heappush (e : A * nat) (heap : list (A * nat)) : list (A * nat) :=
  match heap with
  | [] => [e]
  | f :: rest => if not_gt (entry_compare e f) then e :: heap else f :: heappush e rest
  end.

(** One more element of run [i], if it has one. *)
Definition refill (i : nat) (heap : list (A * nat)) (runs : list (list A)) : list (A * nat) * list (list A) :=
  match runs !! i with
  | Some (y :: ys) => (heappush (y, i) heap, <[i := ys]> runs)
  | _ => (heap, runs)
  end.

Fixpoint merge_loop (fuel : nat) (heap : list (A * nat)) (runs : list (list A)) : list A :=
  match fuel, heap with
  | S fuel, (x, i) :: heap => x :: (let '(heap, runs) := refill i heap runs in merge_loop fuel heap runs)
  | _, _ => []
  end.

(** The first element of every run, numbered from [i] on. *)
Fixpoint fill (i : nat) (runs : list (list A)) (heap : list (A * nat)) (rests : list (list A))
    : list (A * nat) * list (list A) :=
  match runs with
  | [] => (heap, rests)
  | [] :: rest => fill (S i) rest heap (rests ++ [[]])
  | (x :: xs) :: rest => fill (S i) rest (heappush (x, i) heap) (rests ++ [xs])
  end.

Definition merge_runs (runs : list (list A)) : list A :=
  let '(heap, rests) := fill 0 runs [] [] in merge_loop (length heap + length (concat rests)) heap rests.

(** ** Correctness *)

Hypothesis cmp_ordering : ordering cmp.

Definition cle (x y : A) : Prop := cmp x y <> Gt.
Definition ele (e f : A * nat) : Prop := entry_compare e f <> Gt.

Lemma not_gt_iff c : Is_true (not_gt c) <-> c <> Gt.
Proof. destruct c; cbn; naive_solver. Qed.

Lemma cle_refl x : cle x x.
Proof.
  unfold cle. pose proof (ord_opp _ cmp_ordering x x) as H. intros E. rewrite E in H. done.
Qed.

Lemma cle_total x y : cle x y \/ cle y x.
Proof. unfold cle. rewrite (ord_opp _ cmp_ordering x y). destruct (cmp x y); cbn; naive_solver. Qed.

#[export] Instance cle_trans : Transitive cle.
Proof.
  intros x y z. unfold cle. rewrite <- !not_gt_iff. apply (proj2 (ordering_not_gt _ cmp_ordering)).
Qed.

Lemma entry_ordering : ordering entry_compare.
Proof.
  destruct cmp_ordering as [Ho He Hl].
  apply (ordering_lex (fun e f => cmp e.1 f.1) (fun e f => Nat.compare e.2 f.2)).
  - split; intros x y *; [apply Ho|apply He|apply Hl].
  - split; intros x y *.
    + apply Nat.compare_antisym.
    + intros H%Nat.compare_eq_iff. by rewrite H.
    + rewrite !Nat.compare_lt_iff. lia.
Qed.

#[export] Instance ele_trans : Transitive ele.
Proof.
  intros x y z. unfold ele. rewrite <- !not_gt_iff. apply (proj2 (ordering_not_gt _ entry_ordering)).
Qed.

Lemma ele_cle e f : ele e f -> cle e.1 f.1.
Proof. unfold ele, cle, entry_compare, lex2. destruct (cmp e.1 f.1); naive_solver. Qed.

Lemma heappush_perm e heap : heappush e heap ≡ₚ e :: heap.
Proof.
  induction heap as [|f rest IH]; cbn; [done|]. destruct (not_gt _); [done|].
  rewrite IH. apply Permutation_swap.
Qed.

Lemma heappush_sorted e heap : StronglySorted ele heap -> StronglySorted ele (heappush e heap).
Proof.
  induction 1 as [|f rest Hs IH Hall]; cbn; [repeat constructor|].
  destruct (not_gt (entry_compare e f)) eqn:E.
  - assert (ele e f) as He by (apply not_gt_iff; by rewrite E). constructor; [by constructor|].
    constructor; [done|]. eapply Forall_impl; [exact Hall|]. intros g Hg. cbn in Hg. by transitivity f.
  - assert (ele f e) as He.
    { destruct (proj1 (ordering_not_gt _ entry_ordering) e f) as [H|H]; [by rewrite E in H|by apply not_gt_iff]. }
    constructor; [done|]. rewrite heappush_perm. by constructor.
Qed.

(** A heap of the runs' next elements: sorted, at most one entry a run, which comes before
    the rest of its run; every run that goes on has one. *)
Record heap_ok (heap : list (A * nat)) (runs : list (list A)) : Prop := {
  heap_sorted : StronglySorted ele heap;
  heap_runs : Forall (StronglySorted cle) runs;
  heap_first x i ys : (x, i) ∈ heap -> runs !! i = Some ys -> Forall (cle x) ys;
  heap_present i y ys : runs !! i = Some (y :: ys) -> exists x, (x, i) ∈ heap;
  heap_once : NoDup heap.*2
}.

Lemma concat_insert_perm (runs : list (list A)) i y ys :
  runs !! i = Some (y :: ys) -> concat runs ≡ₚ y :: concat (<[i := ys]> runs).
Proof.
  intros H. apply list_elem_of_split_length in H as (l1 & l2 & -> & ->).
  rewrite insert_app_r_alt, Nat.sub_diag by lia. cbn. rewrite !concat_app. cbn.
  symmetry. apply Permutation_middle.
Qed.

Lemma refill_ok x i heap runs :
  heap_ok ((x, i) :: heap) runs -> heap_ok (refill i heap runs).1 (refill i heap runs).2.
Proof.
  intros [Hs Hr Hf Hp Ho]. apply StronglySorted_inv in Hs as [Hs Hall]. apply NoDup_cons in Ho as [Hi Ho].
  assert (forall z, (z, i) ∈ heap -> False) as Hni.
  { intros z Hz. apply Hi, list_elem_of_fmap. by exists (z, i). }
  unfold refill. destruct (runs !! i) as [[|y ys]|] eqn:E; cbn.
  1, 3: split; [done|done|intros z j zs Hz Hj; apply (Hf z j zs); [set_solver|done]| |done];
    intros j y ys Hj; destruct (Hp j y ys Hj) as [z [[= -> ->]|Hz]%elem_of_cons]; [congruence|eauto].
  pose proof (proj1 (Forall_lookup _ _) Hr i _ E) as Hrun. apply StronglySorted_inv in Hrun as [Hys Hy].
  split.
  - by apply heappush_sorted.
  - apply Forall_insert; [done|done].
  - intros z j zs. rewrite heappush_perm. intros [[= -> ->]|Hz]%elem_of_cons.
    + rewrite list_lookup_insert_eq by (by eapply lookup_lt_Some). by intros [= <-].
    + rewrite list_lookup_insert_ne by (intros ->; eauto). intros Hj. apply (Hf z j zs); [set_solver|done].
  - intros j z zs. destruct (decide (i = j)) as [<-|Hne].
    + intros _. exists y. rewrite heappush_perm. set_solver.
    + rewrite list_lookup_insert_ne by done. intros Hj. destruct (Hp j z zs Hj) as [u [[= -> ->]|Hu]%elem_of_cons];
        [done|]. exists u. rewrite heappush_perm. set_solver.
  - rewrite heappush_perm. cbn. by constructor.
Qed.

(** The least entry of the heap comes before everything left. *)
Lemma head_least x i heap runs :
  heap_ok ((x, i) :: heap) runs -> Forall (cle x) (heap.*1 ++ concat runs).
Proof.
  intros [Hs Hr Hf Hp Ho]. apply StronglySorted_inv in Hs as [Hs Hall]. rewrite Forall_forall in Hall.
  apply Forall_app. split; apply Forall_forall.
  - intros z ([z' j] & -> & Hz)%list_elem_of_fmap. exact (ele_cle _ _ (Hall _ Hz)).
  - intros z Hz. apply list_elem_of_In, in_concat in Hz as (run & Hrun%list_elem_of_In & Hz%list_elem_of_In).
    apply list_elem_of_lookup in Hrun as [j Hj]. destruct run as [|y ys]; [set_solver|].
    destruct (Hp j y ys Hj) as [u Hu]. pose proof (Hf u j _ Hu Hj) as Hall'. rewrite Forall_forall in Hall'.
    transitivity u; [|by apply Hall']. apply elem_of_cons in Hu as [[= -> ->]|Hu]; [apply cle_refl|].
    exact (ele_cle _ _ (Hall _ Hu)).
Qed.

Lemma refill_perm x i heap runs :
  heap_ok ((x, i) :: heap) runs ->
  (refill i heap runs).1.*1 ++ concat (refill i heap runs).2 ≡ₚ heap.*1 ++ concat runs.
Proof.
  intros _. unfold refill. destruct (runs !! i) as [[|y ys]|] eqn:E; [done| |done]. cbn.
  rewrite heappush_perm. cbn. rewrite (concat_insert_perm _ _ _ _ E). by rewrite Permutation_middle.
Qed.

Lemma merge_loop_correct fuel heap runs :
  heap_ok heap runs -> (length (heap.*1 ++ concat runs) <= fuel)%nat ->
  merge_loop fuel heap runs ≡ₚ heap.*1 ++ concat runs /\ StronglySorted cle (merge_loop fuel heap runs).
Proof.
  revert heap runs. induction fuel as [|fuel IH]; intros heap runs Hok Hl; cbn [merge_loop].
  { destruct (heap.*1 ++ concat runs); [|cbn in Hl; lia]. split; [done|constructor]. }
  destruct heap as [|[x i] heap].
  { assert (concat runs = []) as ->; [|split; [done|constructor]].
    apply concat_nil_Forall, Forall_lookup. intros j run Hj. destruct run as [|y ys]; [done|].
    destruct (heap_present _ _ Hok j y ys Hj) as [z Hz]. set_solver. }
  pose proof (refill_perm x i heap runs Hok) as Hperm. pose proof (head_least x i heap runs Hok) as Hleast.
  pose proof (refill_ok x i heap runs Hok) as Hok'. destruct (refill i heap runs) as [heap' runs']. cbn in *.
  destruct (IH heap' runs' Hok') as [Hp Hs].
  { rewrite Hperm. lia. }
  split; [by rewrite Hp, Hperm|]. constructor; [done|]. by rewrite Hp, Hperm.
Qed.

(** A further run. *)
Lemma heap_ok_more heap rests run :
  heap_ok heap rests -> (forall x i, (x, i) ∈ heap -> (i < length rests)%nat) -> StronglySorted cle run ->
  match run with
  | [] => heap_ok heap (rests ++ [[]])
  | x :: xs => heap_ok (heappush (x, length rests) heap) (rests ++ [xs])
  end.
Proof.
  intros [Hs Hr Hf Hp Ho] Hlt Hrun.
  assert (forall (tail : list A) x i ys, (x, i) ∈ heap -> (rests ++ [tail]) !! i = Some ys -> Forall (cle x) ys) as Hf'.
  { intros tail x i ys Hx. rewrite lookup_app_l by eauto. by apply Hf. }
  destruct run as [|x xs].
  - split; [done|by apply Forall_app_2; repeat constructor|by apply Hf'| |done].
    intros i y ys [Hi|[_ Hi]]%lookup_app_Some; [eauto|]. by apply list_lookup_singleton_Some in Hi as [_ ?].
  - apply StronglySorted_inv in Hrun as [Hxs Hx]. split.
    + by apply heappush_sorted.
    + by apply Forall_app_2; [|repeat constructor].
    + intros z i ys. rewrite heappush_perm. intros [[= -> ->]|Hz]%elem_of_cons; [|by apply Hf'].
      rewrite lookup_app_r, Nat.sub_diag by done. by intros [= <-].
    + intros i y ys [Hi|[Hl Hi]]%lookup_app_Some.
      * destruct (Hp i y ys Hi) as [z Hz]. exists z. rewrite heappush_perm. set_solver.
      * apply list_lookup_singleton_Some in Hi as [Hi _]. exists x. rewrite heappush_perm.
        replace i with (length rests) by lia. set_solver.
    + rewrite heappush_perm. cbn. apply NoDup_cons. split; [|done].
      intros ([z i] & E & Hz)%list_elem_of_fmap. cbn in E. subst. apply Hlt in Hz. lia.
Qed.

Lemma fill_ok runs heap rests :
  Forall (StronglySorted cle) runs -> heap_ok heap rests -> (forall x i, (x, i) ∈ heap -> (i < length rests)%nat) ->
  let '(heap', rests') := fill (length rests) runs heap rests in
  heap_ok heap' rests' /\ heap'.*1 ++ concat rests' ≡ₚ heap.*1 ++ concat rests ++ concat runs.
Proof.
  intros H. revert heap rests. induction H as [|run rest Hrun Hrest IH]; intros heap rests Hok Hlt; cbn [fill].
  { split; [done|]. cbn. by rewrite app_nil_r. }
  pose proof (heap_ok_more heap rests run Hok Hlt Hrun) as Hmore. destruct run as [|x xs].
  - specialize (IH heap (rests ++ [[]]) Hmore). rewrite length_app, Nat.add_1_r in IH.
    destruct (fill (S (length rests)) rest heap (rests ++ [[]])) as [heap' rests'].
    destruct IH as [Hok' Hp]; [intros z i Hz%Hlt; lia|]. split; [done|].
    rewrite Hp, concat_app. cbn. by rewrite !app_nil_r.
  - specialize (IH (heappush (x, length rests) heap) (rests ++ [xs]) Hmore). rewrite length_app, Nat.add_1_r in IH.
    destruct (fill (S (length rests)) rest (heappush (x, length rests) heap) (rests ++ [xs])) as [heap' rests'].
    destruct IH as [Hok' Hp].
    { intros z i. rewrite heappush_perm. intros [[= -> ->]|Hz%Hlt]%elem_of_cons; lia. }
    split; [done|]. rewrite Hp, concat_app, heappush_perm. cbn. rewrite app_nil_r, <- app_assoc.
    rewrite <- (Permutation_middle (concat rests)). by rewrite <- Permutation_middle.
Qed.

Lemma cle_antisymm_unique l1 l2 :
  (forall x y, cmp x y = Eq -> x = y) -> StronglySorted cle l1 -> StronglySorted cle l2 -> l1 ≡ₚ l2 -> l1 = l2.
Proof.
  intros Heq. apply StronglySorted_unique. intros x y. unfold cle. rewrite (ord_opp _ cmp_ordering x y).
  destruct (cmp x y) eqn:E; cbn; [by auto|done|done].
Qed.

(** Merging sorted runs gives all their elements in order. *)
Lemma merge_runs_correct runs :
  Forall (StronglySorted cle) runs ->
  merge_runs runs ≡ₚ concat runs /\ StronglySorted cle (merge_runs runs).
Proof.
  intros H. unfold merge_runs. pose proof (fill_ok runs [] [] H) as Hfill. cbn [length] in Hfill.
  destruct (fill 0 runs [] []) as [heap rests]. destruct Hfill as [Hok Hp].
  - split; [constructor|done|set_solver|set_solver|constructor].
  - set_solver.
  - cbn in Hp. destruct (merge_loop_correct (length heap + length (concat rests)) heap rests Hok) as [Hperm Hsort].
    { by rewrite length_app, length_fmap. }
    split; [by rewrite Hperm|done].
Qed.
End Merge.
