(* ===== verification/Json.v ===== *)
(** JSON text as the interpreter's [json] module writes and reads it:
    [json.dumps(value, sort_keys=True, ...)] with the separators and indentation
    the code asks for, and [json.loads] (strict mode), over the values of
    [PyVal.v].  A float token is converted by the interpreter's [float], which
    is an argument of the reader. *)
From S2P Require Import Prelude Utf8 PyVal.
Open Scope Z_scope.

(** ** Values *)

(** Structural induction through lists, tuples and dicts. *)
Definition pyval_ind' (P : pyval -> Prop)
    (Hnone : P VNone) (Hbool : forall b, P (VBool b)) (Hint : forall n, P (VInt n))
    (Hfloat : forall t i, P (VFloat t i)) (Hstr : forall s, P (VStr s))
    (Hlist : forall l, Forall P l -> P (VList l)) (Htuple : forall l, Forall P l -> P (VTuple l))
    (Hdict : forall d, Forall (fun kv : pystr * pyval => P kv.2) d -> P (VDict d)) :
    forall v, P v :=
  fix go v :=
    match v with
    | VNone => Hnone
    | VBool b => Hbool b
    | VInt n => Hint n
    | VFloat t i => Hfloat t i
    | VStr s => Hstr s
    | VList l => Hlist l ((fix all l : Forall P l := match l with
                            | [] => @List.Forall_nil _ _
                            | x :: l' => @List.Forall_cons _ _ _ _ (go x) (all l')
                            end) l)
    | VTuple l => Htuple l ((fix all l : Forall P l := match l with
                              | [] => @List.Forall_nil _ _
                              | x :: l' => @List.Forall_cons _ _ _ _ (go x) (all l')
                              end) l)
    | VDict d => Hdict d ((fix all d : Forall (fun kv : pystr * pyval => P kv.2) d := match d with
                            | [] => @List.Forall_nil _ _
                            | kv :: d' => @List.Forall_cons _ _ _ _ (go kv.2) (all d')
                            end) d)
    end.

Definition pair_eq_dec (go : forall v w : pyval, Decision (v = w)) (x y : pystr * pyval) :
    Decision (x = y).
Proof.
  refine (match x, y with (k, v), (k', v') => cast_if_and (decide (k = k')) (go v v') end);
    congruence.
Defined.

#[export] Instance pyval_eq_dec : EqDecision pyval.
Proof.
  refine (fix go (v w : pyval) {struct v} : Decision (v = w) :=
          match v, w with
          | VNone, VNone => left eq_refl
          | VBool b, VBool b' => cast_if (decide (b = b'))
          | VInt n, VInt n' => cast_if (decide (n = n'))
          | VFloat t i, VFloat t' i' => cast_if_and (decide (t = t')) (decide (i = i'))
          | VStr s, VStr s' => cast_if (decide (s = s'))
          | VList l, VList l' => cast_if (@list_eq_dec pyval go l l')
          | VTuple l, VTuple l' => cast_if (@list_eq_dec pyval go l l')
          | VDict d, VDict d' =>
              cast_if (@list_eq_dec (pystr * pyval) (pair_eq_dec go) d d')
          | _, _ => right _
          end); congruence.
Defined.

(** [d[k] = v] on a dict's items: an existing key keeps its place. *)
Fixpoint dict_set {A} (k : pystr) (v : A) (d : list (pystr * A)) : list (pystr * A) :=
  match d with
  | [] => [(k, v)]
  | (k', v') :: rest => if bool_decide (k' = k) then (k, v) :: rest else (k', v') :: dict_set k v rest
  end.

(** [k in d] *)
Definition dict_has {A} (k : pystr) (d : list (pystr * A)) : bool := bool_decide (is_Some (dict_get k d)).

(** ** Writing *)

(** The separators, the indentation step if one is given, and [ensure_ascii]. *)
Record json_style := { item_separator : pystr; key_separator : pystr; indent : option nat; ensure_ascii : bool }.

(** [json.dumps(..., separators=(",", ":"))], the defaults, and [indent=2]. *)
Definition compact_style : json_style :=
  {| item_separator := lit ","; key_separator := lit ":"; indent := None; ensure_ascii := true |}.
Definition default_style : json_style :=
  {| item_separator := lit ", "; key_separator := lit ": "; indent := None; ensure_ascii := true |}.
Definition indented_style : json_style :=
  {| item_separator := lit ","; key_separator := lit ": "; indent := Some 2%nat; ensure_ascii := true |}.

(** [json.dumps(..., ensure_ascii=False, separators=(",", ":"))]. *)
Definition raw_style : json_style :=
  {| item_separator := lit ","; key_separator := lit ":"; indent := None; ensure_ascii := false |}.

(** One character inside a JSON string, without [ensure_ascii]. *)
Definition raw_char (c : Z) : pystr :=
  if c =? 34 then [92; 34] else if c =? 92 then [92; 92]
  else if c =? 10 then lit "\n" else if c =? 13 then lit "\r" else if c =? 9 then lit "\t"
  else if c =? 12 then lit "\f" else if c =? 8 then lit "\b"
  else if c <? 32 then lit "\u" ++ hex4 c
  else [c].

Definition style_char (st : json_style) : Z -> pystr := if ensure_ascii st then json_char else raw_char.
Definition style_str (st : json_style) (s : pystr) : pystr := [34] ++ (s ≫= style_char st) ++ [34].

(** [sep.join(parts)] *)
Fixpoint join_with (sep : pystr) (parts : list pystr) : pystr :=
  match parts with
  | [] => []
  | [p] => p
  | p :: rest => p ++ sep ++ join_with sep rest
  end.

(** The line break and indentation before an element at a nesting level. *)
Definition newline (st : json_style) (level : nat) : pystr :=
  match indent st with
  | None => []
  | Some step => 10 :: replicate (step * level)%nat 32
  end.

(** [float.__repr__], and the three names outside JSON. *)
Definition json_float (repr : pystr) : pystr :=
  if bool_decide (repr = lit "nan") then lit "NaN"
  else if bool_decide (repr = lit "inf") then lit "Infinity"
  else if bool_decide (repr = lit "-inf") then lit "-Infinity"
  else repr.

(** The elements of a list or an object between its brackets. *)
Definition bracketed (st : json_style) (level : nat) (o c : Z) (parts : list pystr) : pystr :=
  match parts with
  | [] => [o; c]
  | _ => o :: newline st (S level) ++
         join_with (item_separator st ++ newline st (S level)) parts ++ newline st level ++ [c]
  end.

(** [json.dumps(v, sort_keys=True)] at a nesting level. *)
Fixpoint json_text (st : json_style) (level : nat) (v : pyval) : pystr :=
  match v with
  | VNone => lit "null"
  | VBool b => lit (if b then "true" else "false")
  | VInt n => str_of_int n
  | VFloat r _ => json_float r
  | VStr s => style_str st s
  | VList l | VTuple l => bracketed st level 91 93 (json_text st (S level) <$> l)
  | VDict d =>
      bracketed st level 123 125
        ((fun kt : pystr * pystr => style_str st kt.1 ++ key_separator st ++ kt.2) <$>
         sort_items ((fun kv : pystr * pyval => (kv.1, json_text st (S level) kv.2)) <$> d))
  end.

Definition dumps (st : json_style) (v : pyval) : pystr := json_text st 0 v.

(** ** Reading *)

(** [JSONDecodeError]; the interpreter's limit on the digits of an integer
    ([ValueError]); the exception of a hook; the [RecursionError] of a text that is nested too
    deeply for the interpreter's stack; the bound of the model's recursion, never met. *)
Inductive json_error := JSONDecodeError | IntegerTooLong | HookError | RecursionLimit | OutOfFuel.

#[export] Instance json_error_eq_dec : EqDecision json_error.
Proof. solve_decision. Defined.

Abbreviation jres := (result json_error).

Fixpoint skip_ws (s : pystr) : pystr :=
  match s with
  | c :: rest => if char_in c [32; 9; 10; 13] then skip_ws rest else s
  | [] => []
  end.

Definition hex_digit (c : Z) : option Z :=
  if is_digit c then Some (c - 48)
  else if (97 <=? c) && (c <=? 102) then Some (c - 87)
  else if (65 <=? c) && (c <=? 70) then Some (c - 55)
  else None.

(** The code unit of [XXXX] in [\uXXXX]. *)
Definition code_unit (a b c d : Z) : option Z :=
  match hex_digit a, hex_digit b, hex_digit c, hex_digit d with
  | Some a, Some b, Some c, Some d => Some (((a * 16 + b) * 16 + c) * 16 + d)
  | _, _, _, _ => None
  end.

Definition high_surrogate (u : Z) : bool := (55296 <=? u) && (u <=? 56319).
Definition low_surrogate (u : Z) : bool := (56320 <=? u) && (u <=? 57343).

(** The character a one-letter escape stands for. *)
Definition simple_escape (c : Z) : option Z :=
  if c =? 34 then Some 34 else if c =? 92 then Some 92 else if c =? 47 then Some 47
  else if c =? 98 then Some 8 else if c =? 102 then Some 12 else if c =? 110 then Some 10
  else if c =? 114 then Some 13 else if c =? 116 then Some 9 else None.

(** [scanstring] after the opening quote: the characters up to the closing one,
    and what follows it.  An escaped pair of surrogates is one character. *)
Fixpoint scan_str (s : pystr) : jres (pystr * pystr) :=
  match s with
  | [] => Err JSONDecodeError
  | c :: s1 =>
      if c =? 34 then Ok ([], s1)
      else if c =? 92 then
        match s1 with
        | [] => Err JSONDecodeError
        | e :: s2 =>
            if e =? 117 then
              match s2 with
              | h1 :: h2 :: h3 :: h4 :: s3 =>
                  match code_unit h1 h2 h3 h4 with
                  | None => Err JSONDecodeError
                  | Some u =>
                      let lone := '(t, rest) ← scan_str s3; Ok (u :: t, rest) in
                      if high_surrogate u then
                        match s3 with
                        | b :: v :: g1 :: g2 :: g3 :: g4 :: s4 =>
                            if (b =? 92) && (v =? 117) then
                              match code_unit g1 g2 g3 g4 with
                              | None => Err JSONDecodeError
                              | Some w =>
                                  if low_surrogate w
                                  then '(t, rest) ← scan_str s4;
                                       Ok (65536 + (u - 55296) * 1024 + (w - 56320) :: t, rest)
                                  else lone
                              end
                            else lone
                        | _ => lone
                        end
                      else lone
                  end
              | _ => Err JSONDecodeError
              end
            else
              match simple_escape e with
              | None => Err JSONDecodeError
              | Some x => '(t, rest) ← scan_str s2; Ok (x :: t, rest)
              end
        end
      else if c <? 32 then Err JSONDecodeError
      else '(t, rest) ← scan_str s1; Ok (c :: t, rest)
  end.

(** The longest prefix of decimal digits, and the rest. *)
Fixpoint span_digits (s : pystr) : pystr * pystr :=
  match s with
  | c :: rest => if is_digit c then let '(ds, r) := span_digits rest in (c :: ds, r) else ([], s)
  | [] => ([], [])
  end.

Definition digits_value (ds : pystr) : Z := foldl (fun n c => n * 10 + (c - 48)) 0 ds.

(** [sys.get_int_max_str_digits()] *)
Definition MAX_STR_DIGITS : Z := 4300.

(** What the hooks of [json.loads] refuse: an object with a repeated key
    ([object_pairs_hook]), the constants [NaN], [Infinity] and [-Infinity]
    ([parse_constant]), a number with a fraction or an exponent ([parse_float]). *)
Record json_hooks := { unique_keys : bool; refuse_constants : bool; refuse_floats : bool }.
Definition no_hooks : json_hooks := {| unique_keys := false; refuse_constants := false; refuse_floats := false |}.

(** How many arrays and objects may be nested: as the stack has room for, or without a bound.
    Entering one takes a place. *)
Definition enter (depth : option nat) : option (option nat) :=
  match depth with None => Some None | Some O => None | Some (S n) => Some (Some n) end.

Section Reader.
(** The hooks, and the interpreter's [float(token)]. *)
Context (hooks : json_hooks) (float_of : pystr -> pyval).

(** A pair read is added to those before it. *)
Definition add_pair (k : pystr) (v : pyval) (pairs : pydict) : jres pydict :=
  if unique_keys hooks && dict_has k pairs then Err HookError else Ok (dict_set k v pairs).

(** A constant, and a number that is not an integer. *)
Definition constant_value (v : pyval) : jres pyval :=
  match v with
  | VFloat _ _ => if refuse_constants hooks then Err HookError else Ok v
  | _ => Ok v
  end.
Definition float_value (token : pystr) : jres pyval :=
  if refuse_floats hooks then Err HookError else Ok (float_of token).

(** The fraction and the exponent of a number, each if present. *)
Definition scan_fraction (s : pystr) : pystr * pystr :=
  match s with
  | c :: rest =>
      if c =? 46 then match span_digits rest with
                      | ([], _) => ([], s)
                      | (ds, r) => (c :: ds, r)
                      end
      else ([], s)
  | [] => ([], [])
  end.

Definition scan_exponent (s : pystr) : pystr * pystr :=
  match s with
  | c :: rest =>
      if char_in c (lit "eE") then
        let '(sign, body) := match rest with
                             | x :: rest' => if char_in x (lit "+-") then ([x], rest') else ([], rest)
                             | [] => ([], rest)
                             end in
        match span_digits body with
        | ([], _) => ([], s)
        | (ds, r) => (c :: sign ++ ds, r)
        end
      else ([], s)
  | [] => ([], [])
  end.

(** The number at the head of the text: an optional minus sign, [0] or digits
    that do not start with [0], an optional fraction and exponent. *)
Definition scan_number (s : pystr) : jres (pyval * pystr) :=
  let '(neg, body) := match s with
                      | c :: rest => if c =? 45 then (true, rest) else (false, s)
                      | [] => (false, s)
                      end in
  let '(ds, rest) := match body with
                     | c :: r => if c =? 48 then ([c], r) else span_digits body
                     | [] => ([], body)
                     end in
  match ds with
  | [] => Err JSONDecodeError
  | _ =>
      let '(fraction, rest1) := scan_fraction rest in
      let '(exponent, rest2) := scan_exponent rest1 in
      match fraction ++ exponent with
      | [] => if MAX_STR_DIGITS <? Z.of_nat (length ds) then Err IntegerTooLong
              else Ok (VInt (if neg then - digits_value ds else digits_value ds), rest2)
      | tail => v ← float_value ((if neg then [45] else []) ++ ds ++ tail); Ok (v, rest2)
      end
  end.

(** The named constants a value can start with. *)
Definition constants : list (pystr * pyval) :=
  [(lit "null", VNone); (lit "true", VBool true); (lit "false", VBool false);
   (lit "NaN", VFloat (lit "nan") None); (lit "Infinity", VFloat (lit "inf") None);
   (lit "-Infinity", VFloat (lit "-inf") None)].

Fixpoint scan_constant (table : list (pystr * pyval)) (s : pystr) : option (pyval * pystr) :=
  match table with
  | [] => None
  | (text, v) :: rest =>
      if startswith text s then Some (v, drop (length text) s) else scan_constant rest s
  end.

(** [scan_once], [JSONObject] and [JSONArray]: the value at the head of the text
    and what follows it; the two loops start at a key or an element. *)
Fixpoint scan_once (depth : option nat) (fuel : nat) (s : pystr) : jres (pyval * pystr) :=
  match fuel with
  | O => Err OutOfFuel
  | S fuel =>
      match s with
      | [] => Err JSONDecodeError
      | c :: s1 =>
          if c =? 34 then '(t, rest) ← scan_str s1; Ok (VStr t, rest)
          else if c =? 123 then
            match enter depth with
            | None => Err RecursionLimit
            | Some depth =>
                match skip_ws s1 with
                | [] => Err JSONDecodeError
                | d :: s2 => if d =? 125 then Ok (VDict [], s2) else scan_pairs depth fuel (d :: s2) []
                end
            end
          else if c =? 91 then
            match enter depth with
            | None => Err RecursionLimit
            | Some depth =>
                match skip_ws s1 with
                | [] => Err JSONDecodeError
                | d :: s2 => if d =? 93 then Ok (VList [], s2) else scan_items depth fuel (d :: s2) []
                end
            end
          else match scan_constant constants s with
               | Some (v, rest) => v ← constant_value v; Ok (v, rest)
               | None => scan_number s
               end
      end
  end
with scan_pairs (depth : option nat) (fuel : nat) (s : pystr) (pairs : pydict) : jres (pyval * pystr) :=
  match fuel with
  | O => Err OutOfFuel
  | S fuel =>
      match s with
      | c :: s1 =>
          if c =? 34 then
            '(k, s2) ← scan_str s1;
            match skip_ws s2 with
            | d :: s3 =>
                if d =? 58 then
                  '(v, s4) ← scan_once depth fuel (skip_ws s3);
                  match skip_ws s4 with
                  | e :: s5 =>
                      if e =? 125 then d ← add_pair k v pairs; Ok (VDict d, s5)
                      else if e =? 44 then d ← add_pair k v pairs; scan_pairs depth fuel (skip_ws s5) d
                      else Err JSONDecodeError
                  | [] => Err JSONDecodeError
                  end
                else Err JSONDecodeError
            | [] => Err JSONDecodeError
            end
          else Err JSONDecodeError
      | [] => Err JSONDecodeError
      end
  end
with scan_items (depth : option nat) (fuel : nat) (s : pystr) (values : list pyval) : jres (pyval * pystr) :=
  match fuel with
  | O => Err OutOfFuel
  | S fuel =>
      '(v, s1) ← scan_once depth fuel s;
      match skip_ws s1 with
      | c :: s2 =>
          if c =? 93 then Ok (VList (values ++ [v]), s2)
          else if c =? 44 then scan_items depth fuel (skip_ws s2) (values ++ [v])
          else Err JSONDecodeError
      | [] => Err JSONDecodeError
      end
  end.

(** Every call of a loop or of [scan_once] in one of them is at most two calls
    for each character. *)
Definition scan_fuel (s : pystr) : nat := S (S (2 * length s)).

(** [json.loads(s, ...)] of a [str], with room for so many nested arrays and objects. *)
Definition loads_within (depth : option nat) (s : pystr) : jres pyval :=
  if startswith [65279] s then Err JSONDecodeError
  else
    let body := skip_ws s in
    '(v, rest) ← scan_once depth (scan_fuel body) body;
    match skip_ws rest with
    | [] => Ok v
    | _ => Err JSONDecodeError
    end.

(** With all the room it takes. *)
Definition loads_hooked : pystr -> jres pyval := loads_within None.

End Reader.

(** How many arrays and objects of a value are one in the other. *)
Fixpoint nesting (v : pyval) : nat :=
  match v with
  | VList l | VTuple l => S (max_list (nesting <$> l))
  | VDict d => S (max_list ((fun kv : pystr * pyval => nesting kv.2) <$> d))
  | _ => 0
  end.

(** What reading and writing JSON take of the interpreter: the value of a float's text, and how
    many arrays and objects its stack has room for, one in the other.  One bound stands for every
    recursive walk over a value, of the library and of the program. *)
Record interpreter := MkInterpreter { py_float : pystr -> pyval; py_stack : nat }.

(** [json.loads(s)] without hooks. *)
Definition loads (float_of : pystr -> pyval) : pystr -> jres pyval := loads_hooked no_hooks float_of.

Example loads_example :
  loads (fun _ => VNone) (dumps indented_style
    (VDict [(lit "b", VList [VInt (-12); VNone; VTuple []]); (lit "a", VStr [233; 128512; 10])])) =
  Ok (VDict [(lit "a", VStr [233; 128512; 10]); (lit "b", VList [VInt (-12); VNone; VList []])]).
Proof. vm_compute. reflexivity. Qed.
