(* ===== verification/PyDictFacts.v ===== *)
(** Lookup and update of dicts, as lists of items in insertion order. *)
From S2P Require Import Prelude Utf8 PyVal Json.
Open Scope Z_scope.

Lemma dict_get_Some {A} (d : list (pystr * A)) k v :
  NoDup d.*1 -> dict_get k d = Some v <-> (k, v) ∈ d.
Proof.
  induction d as [|[k' v'] d IH]; cbn; intros Hn; [split; [done|by intros ?%elem_of_nil]|].
  inversion_clear Hn as [|? ? Hk Hd]. case_bool_decide as Heq.
  - subst k'. rewrite elem_of_cons. split; [by intros [= <-]; left|].
    intros [[= ->]|Hin]; [done|]. exfalso. apply Hk. apply list_elem_of_fmap. by exists (k, v).
  - rewrite IH by done. rewrite elem_of_cons. split; [by right|]. intros [[= -> _]|?]; [done|done].
Qed.

(** Looking a key up does not depend on the order of the items. *)
Lemma dict_get_perm {A} (d d' : list (pystr * A)) k :
  NoDup d.*1 -> d ≡ₚ d' -> dict_get k d = dict_get k d'.
Proof.
  intros Hn Hp. assert (Hn' : NoDup d'.*1) by by rewrite <- Hp.
  apply option_eq. intros v. by rewrite !dict_get_Some, Hp.
Qed.

Lemma dict_get_set {A} (d : list (pystr * A)) k v k' :
  dict_get k' (dict_set k v d) = if bool_decide (k = k') then Some v else dict_get k' d.
Proof.
  induction d as [|[k0 v0] d IH]; cbn; [done|].
  destruct (bool_decide (k0 = k)) eqn:E; cbn.
  - apply bool_decide_eq_true in E as ->. by case_bool_decide.
  - apply bool_decide_eq_false in E. rewrite IH. repeat case_bool_decide; congruence.
Qed.

Lemma dict_get_set_eq {A} (d : list (pystr * A)) k v : dict_get k (dict_set k v d) = Some v.
Proof. rewrite dict_get_set. by rewrite bool_decide_true. Qed.

Lemma dict_get_set_ne {A} (d : list (pystr * A)) k v k' :
  k <> k' -> dict_get k' (dict_set k v d) = dict_get k' d.
Proof. intros. rewrite dict_get_set. by rewrite bool_decide_false. Qed.

(** The keys: a new one is appended, an old one stays where it was. *)
Lemma dict_set_keys {A} (d : list (pystr * A)) k v :
  (dict_set k v d).*1 = if bool_decide (k ∈ d.*1) then d.*1 else d.*1 ++ [k].
Proof.
  induction d as [|[k0 v0] d IH]; cbn; [done|].
  destruct (bool_decide (k0 = k)) eqn:E; cbn.
  - apply bool_decide_eq_true in E as ->. rewrite bool_decide_true; [done|]. apply elem_of_cons. by left.
  - apply bool_decide_eq_false in E. rewrite IH.
    destruct (bool_decide (k ∈ d.*1)) eqn:E2.
    + apply bool_decide_eq_true in E2. rewrite bool_decide_true; [done|]. apply elem_of_cons. by right.
    + apply bool_decide_eq_false in E2. rewrite bool_decide_false; [done|].
      intros [?|?]%elem_of_cons; [congruence|done].
Qed.

Lemma NoDup_dict_set {A} (d : list (pystr * A)) k v : NoDup d.*1 -> NoDup (dict_set k v d).*1.
Proof.
  intros Hn. rewrite dict_set_keys. case_bool_decide as E; [done|].
  apply NoDup_app. split_and!; [done| |apply NoDup_singleton].
  intros x Hx ->%list_elem_of_singleton. done.
Qed.

Lemma dict_get_elem {A} (d : list (pystr * A)) k v : dict_get k d = Some v -> (k, v) ∈ d.
Proof.
  induction d as [|[k' v'] d IH]; cbn; [done|]. case_bool_decide as E; intros H.
  - injection H as ->. subst. apply elem_of_cons. by left.
  - apply elem_of_cons. right. auto.
Qed.

(** The items after an update: the new one, and old ones. *)
Lemma elem_of_dict_set {A} (d : list (pystr * A)) k v kv :
  kv ∈ dict_set k v d -> kv = (k, v) \/ kv ∈ d.
Proof.
  induction d as [|[k0 v0] d IH]; cbn; intros H; [left; by apply list_elem_of_singleton in H|].
  destruct (bool_decide (k0 = k)); apply elem_of_cons in H as [->|H].
  - by left.
  - right. apply elem_of_cons. by right.
  - right. apply elem_of_cons. by left.
  - destruct (IH H); [by left|]. right. apply elem_of_cons. by right.
Qed.

Lemma Forall_dict_set {A} (P : pystr * A -> Prop) d k v :
  Forall P d -> P (k, v) -> Forall P (dict_set k v d).
Proof.
  rewrite !Forall_forall. intros Hd Hk x Hx. apply elem_of_dict_set in Hx as [->|Hx]; auto.
Qed.

Lemma dict_get_is_Some {A} (d : list (pystr * A)) k : is_Some (dict_get k d) <-> k ∈ d.*1.
Proof.
  induction d as [|[k' v'] d IH]; cbn.
  - split; [by intros [? ?]|by intros ?%elem_of_nil].
  - rewrite elem_of_cons. case_bool_decide as E; [subst; by split; [left|eauto]|].
    rewrite IH. split; [by right|]. intros [?|?]; [congruence|done].
Qed.

Create HintDb pydict.
#[export] Hint Resolve NoDup_dict_set : pydict.
