(* ===== verification/JsonFacts.v ===== *)
(** The JSON reader always ends with a value or an error, and reads back what
    [json.dumps] wrote, with the keys of every object in order. *)
From S2P Require Import Prelude Utf8 PyVal Json.
Open Scope Z_scope.

(** ** The reader terminates *)

(** A scan of a text of [n] characters that did not run out of fuel and, when it
    succeeded, consumed at least one. *)
Definition consumes {A} (n : nat) (x : jres (A * pystr)) : Prop :=
  match x with
  | Ok (_, rest) => (length rest < n)%nat
  | Err e => e <> OutOfFuel
  end.

Lemma consumes_mono {A} (n m : nat) (x : jres (A * pystr)) :
  (n <= m)%nat -> consumes n x -> consumes m x.
Proof. destruct x as [[v r]|e]; cbn; [lia|done]. Qed.

(** A scan followed by another of what it left. *)
Lemma consumes_bind {A B} (n : nat) (x : jres (A * pystr)) (f : A -> pystr -> jres (B * pystr)) :
  consumes n x -> (forall v r, (length r < n)%nat -> consumes n (f v r)) ->
  consumes n ('(v, r) ← x; f v r).
Proof. destruct x as [[v r]|e]; cbn; auto. Qed.

Lemma skip_ws_length s : (length (skip_ws s) <= length s)%nat.
Proof. induction s as [|c s IH]; cbn; [done|]. destruct (char_in c _); cbn; lia. Qed.

Lemma skip_ws_cons s c r : skip_ws s = c :: r -> (length r < length s)%nat.
Proof. intros H. pose proof (skip_ws_length s) as Hl. rewrite H in Hl. cbn in Hl. lia. Qed.

Lemma scan_str_consumes s : consumes (length s) (scan_str s).
Proof.
  induction s as [s IH] using (induction_ltof1 _ (@length Z)). unfold ltof in IH.
  assert (Hrec : forall x t, (length t < length s)%nat ->
            consumes (length s) ('(r, rest) ← scan_str t; Ok (x :: r, rest))).
  { intros x t Ht. apply consumes_bind; [|cbn; lia].
    apply (consumes_mono (length t)); [lia|]. by apply IH. }
  destruct s as [|c s1]; cbn [scan_str]; [by cbn|].
  destruct (c =? 34); [cbn; lia|]. destruct (c =? 92).
  2: { destruct (c <? 32); [by cbn|]. apply Hrec. cbn. lia. }
  destruct s1 as [|e s2]; [by cbn|]. destruct (e =? 117).
  2: { destruct (simple_escape e); [|by cbn]. apply Hrec. cbn. lia. }
  destruct s2 as [|h1 [|h2 [|h3 [|h4 s3]]]]; try by cbn.
  destruct (code_unit h1 h2 h3 h4) as [u|]; [|by cbn].
  destruct (high_surrogate u); [|apply Hrec; cbn; lia].
  destruct s3 as [|b [|v [|g1 [|g2 [|g3 [|g4 s4]]]]]]; try (apply Hrec; cbn; lia).
  destruct ((b =? 92) && (v =? 117)); [|apply Hrec; cbn; lia].
  destruct (code_unit g1 g2 g3 g4) as [w|]; [|by cbn].
  destruct (low_surrogate w); apply Hrec; cbn; lia.
Qed.

Lemma span_digits_app s ds r : span_digits s = (ds, r) -> s = ds ++ r.
Proof.
  revert ds. induction s as [|c s IH]; cbn; intros ds H; [by injection H as <- <-|].
  destruct (is_digit c); [|by injection H as <- <-].
  destruct (span_digits s) as [ds' r']. injection H as <- ->. cbn. by rewrite (IH ds').
Qed.

Lemma scan_fraction_length s f r : scan_fraction s = (f, r) -> (length r <= length s)%nat.
Proof.
  destruct s as [|c s]; cbn; [by intros [= <- <-]|]. destruct (c =? 46); [|by intros [= <- <-]].
  destruct (span_digits s) as [[|d ds] r'] eqn:E; intros [= <- <-]; [done|].
  apply span_digits_app in E. rewrite E, length_app. cbn. lia.
Qed.

Lemma scan_exponent_length s f r : scan_exponent s = (f, r) -> (length r <= length s)%nat.
Proof.
  destruct s as [|c s]; cbn; [by intros [= <- <-]|].
  destruct (char_in c _); [|by intros [= <- <-]].
  destruct s as [|x s]; cbn; [by intros [= <- <-]|].
  destruct (char_in x _).
  - destruct (span_digits s) as [[|d ds] r'] eqn:E; intros [= <- <-]; [done|].
    apply span_digits_app in E. rewrite E, length_app. cbn. lia.
  - change (if is_digit x then _ else _) with (span_digits (x :: s)).
    destruct (span_digits (x :: s)) as [[|d ds] r'] eqn:E; intros [= <- <-]; [done|].
    apply span_digits_app in E. change (S (length s)) with (length (x :: s)).
    rewrite E, length_app. cbn. lia.
Qed.

Section Reader.
Context (hooks : json_hooks) (float_of : pystr -> pyval).

Lemma scan_number_consumes s : consumes (length s) (scan_number hooks float_of s).
Proof.
  unfold scan_number.
  assert (exists neg body, match s with
            | c :: rest => if c =? 45 then (true, rest) else (false, s)
            | [] => (false, s) end = (neg, body) /\ (length body <= length s)%nat) as (neg & body & -> & Hb).
  { destruct s as [|c s]; [by exists false, []|]. destruct (c =? 45); eexists _, _; split; [done|cbn; lia|done|done]. }
  assert (exists ds rest, match body with
            | c :: r => if c =? 48 then ([c], r) else span_digits body
            | [] => ([], body) end = (ds, rest) /\ (length ds + length rest = length body)%nat)
    as (ds & rest & -> & Hr).
  { destruct body as [|c b]; [by exists [], []|]. destruct (c =? 48); [by exists [c], b|].
    destruct (span_digits (c :: b)) as [ds r] eqn:E. apply span_digits_app in E.
    exists ds, r. by rewrite E, length_app. }
  destruct ds as [|d ds]; [by cbn|].
  destruct (scan_fraction rest) as [fr r1] eqn:E1. apply scan_fraction_length in E1.
  destruct (scan_exponent r1) as [ex r2] eqn:E2. apply scan_exponent_length in E2.
  cbn [length] in Hr. destruct (fr ++ ex); [|unfold float_value; destruct (refuse_floats hooks); cbn; [done|lia]].
  destruct (_ <? _); cbn; [done|lia].
Qed.

Lemma scan_constant_length table s v r :
  Forall (fun tv : pystr * pyval => tv.1 <> []) table ->
  scan_constant table s = Some (v, r) -> (length r < length s)%nat.
Proof.
  induction 1 as [|[t w] table Ht _ IH]; cbn; [done|].
  destruct (startswith t s) eqn:E; [|done]. intros [= <- <-].
  apply startswith_spec in E as (rest & ->). rewrite drop_app_length, length_app.
  destruct t; [done|]. cbn. lia.
Qed.

Lemma constants_nonempty : Forall (fun tv : pystr * pyval => tv.1 <> []) constants.
Proof. by repeat constructor. Qed.

(** Two units of fuel per character are enough for every scan. *)
Lemma scan_consumes fuel :
  (forall depth s, (2 * length s < fuel)%nat -> consumes (length s) (scan_once hooks float_of depth fuel s)) /\
  (forall depth s ps, (S (2 * length s) < fuel)%nat -> consumes (length s) (scan_pairs hooks float_of depth fuel s ps)) /\
  (forall depth s vs, (S (2 * length s) < fuel)%nat -> consumes (length s) (scan_items hooks float_of depth fuel s vs)).
Proof.
  induction fuel as [|fuel (IHo & IHp & IHi)]; [split_and!; intros; lia|].
  assert (Hval : forall depth n s, (length s < n)%nat -> (2 * n <= S fuel)%nat ->
            consumes n (scan_once hooks float_of depth fuel s)).
  { intros depth n s Hs Hf. apply (consumes_mono (length s)); [lia|]. apply IHo. lia. }
  split_and!.
  - intros depth [|c s1] Hf; [by cbn|]. cbn [length] in Hf |- *. cbn [scan_once].
    destruct (c =? 34).
    { apply consumes_bind; [|cbn; lia]. eapply consumes_mono, scan_str_consumes. lia. }
    destruct (c =? 123); [|destruct (c =? 91)].
    + destruct (enter depth) as [depth'|]; [|by cbn]. destruct (skip_ws s1) as [|d s2] eqn:E; [by cbn|]. apply skip_ws_cons in E.
      destruct (d =? 125); [cbn; lia|].
      apply (consumes_mono (length (d :: s2))); [cbn; lia|]. apply IHp. cbn. lia.
    + destruct (enter depth) as [depth'|]; [|by cbn]. destruct (skip_ws s1) as [|d s2] eqn:E; [by cbn|]. apply skip_ws_cons in E.
      destruct (d =? 93); [cbn; lia|].
      apply (consumes_mono (length (d :: s2))); [cbn; lia|]. apply IHi. cbn. lia.
    + destruct (scan_constant constants (c :: s1)) as [[v r]|] eqn:E.
      * apply scan_constant_length in E; [|apply constants_nonempty].
        unfold constant_value. destruct v; try done. by destruct (refuse_constants hooks).
      * apply (scan_number_consumes (c :: s1)).
  - intros depth [|c s1] ps Hf; [by cbn|]. cbn [length] in Hf |- *. cbn [scan_pairs].
    destruct (c =? 34); [|by cbn].
    apply consumes_bind; [eapply consumes_mono, scan_str_consumes; lia|]. intros k s2 H2.
    destruct (skip_ws s2) as [|d s3] eqn:E2; [by cbn|]. apply skip_ws_cons in E2.
    destruct (d =? 58); [|by cbn]. pose proof (skip_ws_length s3) as H3.
    apply consumes_bind; [apply Hval; lia|]. intros v s4 H4.
    destruct (skip_ws s4) as [|e s5] eqn:E4; [by cbn|]. apply skip_ws_cons in E4.
    destruct (e =? 125); [unfold add_pair; destruct (_ && _); cbn; [done|lia]|]. destruct (e =? 44); [|by cbn].
    pose proof (skip_ws_length s5) as H5. unfold add_pair. destruct (_ && _); [by cbn|]. cbn [mbind result_bind].
    apply (consumes_mono (length (skip_ws s5))); [lia|]. apply IHp. lia.
  - intros depth s vs Hf. cbn [scan_items].
    apply consumes_bind; [apply IHo; lia|]. intros v s1 H1.
    destruct (skip_ws s1) as [|c s2] eqn:E1; [by cbn|]. apply skip_ws_cons in E1.
    destruct (c =? 93); [cbn; lia|]. destruct (c =? 44); [|by cbn].
    pose proof (skip_ws_length s2) as H2.
    apply (consumes_mono (length (skip_ws s2))); [lia|]. apply IHi. lia.
Qed.

(** [json.loads] ends with a value or an error. *)
Lemma loads_within_terminates depth s : loads_within hooks float_of depth s <> Err OutOfFuel.
Proof.
  unfold loads_within. destruct (startswith _ s); [done|].
  pose proof (proj1 (scan_consumes (scan_fuel (skip_ws s))) depth (skip_ws s) ltac:(unfold scan_fuel; lia)) as H.
  destruct (scan_once _ _ _ _ _) as [[v r]|e]; cbn in *; [|congruence]. by destruct (skip_ws r).
Qed.

Lemma loads_hooked_terminates s : loads_hooked hooks float_of s <> Err OutOfFuel.
Proof. apply loads_within_terminates. Qed.

(** More fuel gives the same result. *)
Lemma scan_fuel_mono fuel :
  (forall depth fuel' s, (fuel <= fuel')%nat -> scan_once hooks float_of depth fuel s <> Err OutOfFuel ->
     scan_once hooks float_of depth fuel' s = scan_once hooks float_of depth fuel s) /\
  (forall depth fuel' s ps, (fuel <= fuel')%nat -> scan_pairs hooks float_of depth fuel s ps <> Err OutOfFuel ->
     scan_pairs hooks float_of depth fuel' s ps = scan_pairs hooks float_of depth fuel s ps) /\
  (forall depth fuel' s vs, (fuel <= fuel')%nat -> scan_items hooks float_of depth fuel s vs <> Err OutOfFuel ->
     scan_items hooks float_of depth fuel' s vs = scan_items hooks float_of depth fuel s vs).
Proof.
  induction fuel as [|fuel (IHo & IHp & IHi)]; [split_and!; intros; exfalso; by eauto|].
  assert (Hval : forall depth fuel' s (f : pyval * pystr -> jres (pyval * pystr)) g,
    (fuel <= fuel')%nat ->
    (x ← scan_once hooks float_of depth fuel s; f x) <> Err OutOfFuel ->
    (forall v r, f (v, r) <> Err OutOfFuel -> g (v, r) = f (v, r)) ->
    (x ← scan_once hooks float_of depth fuel' s; g x) = (x ← scan_once hooks float_of depth fuel s; f x)).
  { intros depth fuel' s f g Hle Hne Hfg. rewrite (IHo depth fuel' s Hle).
    - destruct (scan_once hooks float_of depth fuel s) as [[v r]|e]; cbn in *; [by apply Hfg|done].
    - intros E. rewrite E in Hne. by apply Hne. }
  split_and!; intros depth [|fuel'] s; intros; try lia; assert (fuel <= fuel')%nat by lia.
  - cbn [scan_once] in *. destruct s as [|c s1]; [done|].
    destruct (c =? 34); [done|]. destruct (c =? 123); [|destruct (c =? 91); [|done]].
    + destruct (enter depth); [|done]. destruct (skip_ws s1) as [|d s2]; [done|]. destruct (d =? 125); [done|]. by apply IHp.
    + destruct (enter depth); [|done]. destruct (skip_ws s1) as [|d s2]; [done|]. destruct (d =? 93); [done|]. by apply IHi.
  - cbn [scan_pairs] in *. destruct s as [|c s1]; [done|].
    destruct (c =? 34); [|done]. destruct (scan_str s1) as [[k s2]|e]; [|done].
    cbn [mbind result_bind] in *. destruct (skip_ws s2) as [|d s3]; [done|].
    destruct (d =? 58); [|done]. apply Hval; [done|done|].
    intros v r Hv. destruct (skip_ws r) as [|e s5]; [done|]. destruct (e =? 125); [done|].
    destruct (e =? 44); [|done]. destruct (add_pair hooks k v _); [|done]. by apply IHp.
  - cbn [scan_items] in *. apply Hval; [done|done|].
    intros v r Hv. destruct (skip_ws r) as [|e s5]; [done|]. destruct (e =? 93); [done|].
    destruct (e =? 44); [|done]. by apply IHi.
Qed.

(** A value some amount of fuel reads is the value [loads] reads. *)
Lemma scan_once_enough depth fuel s x :
  scan_once hooks float_of depth fuel s = Ok x -> scan_once hooks float_of depth (scan_fuel s) s = Ok x.
Proof.
  intros H. pose proof (proj1 (scan_consumes (scan_fuel s)) depth s ltac:(unfold scan_fuel; lia)) as Hc.
  destruct (Nat.le_ge_cases fuel (scan_fuel s)) as [Hle|Hle].
  - rewrite (proj1 (scan_fuel_mono fuel) depth (scan_fuel s) s Hle); [done|by rewrite H].
  - rewrite <- H. symmetry. apply (proj1 (scan_fuel_mono (scan_fuel s))); [done|].
    intros E. rewrite E in Hc. by apply Hc.
Qed.

End Reader.

(** ** Reading back what was written *)

(** *** Decimal integers *)

Definition is_decimal (ds : pystr) : Prop := Forall (fun c => is_digit c = true) ds.

Lemma digits_value_snoc ds c : digits_value (ds ++ [c]) = digits_value ds * 10 + (c - 48).
Proof. unfold digits_value. by rewrite foldl_app. Qed.

Lemma lit_cons a s : lit (String a s) = Z.of_N (Ascii.N_of_ascii a) :: lit s.
Proof. done. Qed.

Lemma pretty_char_code x : (x < 10)%N -> Z.of_N (Ascii.N_of_ascii (pretty_N_char x)) = 48 + Z.of_N x.
Proof.
  intros Hx. assert (x = 0 \/ x = 1 \/ x = 2 \/ x = 3 \/ x = 4 \/ x = 5 \/ x = 6 \/ x = 7 \/ x = 8
                     \/ x = 9)%N as Hc by lia.
  repeat (destruct Hc as [->|Hc]; [done|]). by subst.
Qed.

Lemma pretty_go_digits x s :
  exists ds, lit (pretty_N_go x s) = ds ++ lit s /\ is_decimal ds /\
             digits_value ds = Z.of_N x /\ (forall c r, ds = c :: r -> c <> 48) /\
             ((0 < x)%N -> ds <> []).
Proof.
  revert s. induction (N.lt_wf_0 x) as [x _ IH]; intros s.
  assert (x = 0 \/ 0 < x)%N as [->|Hx] by lia.
  { exists []. rewrite pretty_N_go_0. split_and!; [done|by constructor|done|done|lia]. }
  rewrite pretty_N_go_step by done.
  destruct (IH (x / 10)%N ltac:(by apply N.div_lt) (String (pretty_N_char (x mod 10)) s))
    as (ds & Hs & Hd & Hv & Hz & Hn).
  pose proof (N.mod_lt x 10 ltac:(done)) as Hm. pose proof (N.div_mod x 10 ltac:(done)) as Hdm.
  exists (ds ++ [48 + Z.of_N (x mod 10)]). rewrite Hs, lit_cons, pretty_char_code by done.
  split_and!.
  - by rewrite <- app_assoc.
  - apply Forall_app. split; [done|]. constructor; [|constructor].
    unfold is_digit. clear -Hm. remember (x mod 10)%N as m. lia.
  - rewrite digits_value_snoc, Hv. rewrite Hdm at 3. clear. lia.
  - intros c r. destruct ds as [|d ds]; cbn; [|intros [= <- _]; eauto].
    intros [= <- _]. cbn in Hv. lia.
  - intros _. by destruct ds.
Qed.

(** The digits of [str(n)] for [n >= 0]. *)
Lemma str_of_nat_digits n :
  0 <= n ->
  exists ds, str_of_int n = ds /\ is_decimal ds /\ digits_value ds = n /\
             ((n = 0 /\ ds = [48]) \/ exists c r, ds = c :: r /\ c <> 48).
Proof.
  intros Hn. destruct n as [|p|p]; [|..|lia].
  - exists [48]. split_and!; [done|by repeat constructor|done|by left].
  - destruct (pretty_go_digits (Npos p) "") as (ds & Hs & Hd & Hv & Hz & Hne).
    exists ds. split_and!; [|done|done|right].
    + unfold str_of_int. change (pretty (Zpos p)) with (pretty_N_go (Npos p) "").
      by rewrite Hs, app_nil_r.
    + destruct ds as [|c r]; [by destruct Hne|]. exists c, r. eauto.
Qed.

(** What may follow a number without becoming part of it. *)
Definition ends_number (rest : pystr) : Prop :=
  match rest with
  | [] => True
  | c :: _ => is_digit c = false /\ c <> 46 /\ c <> 101 /\ c <> 69
  end.

Lemma span_digits_app_stop ds rest :
  is_decimal ds -> ends_number rest -> span_digits (ds ++ rest) = (ds, rest).
Proof.
  intros Hd Hr. induction Hd as [|c ds Hc _ IH]; cbn.
  - destruct rest as [|c r]; [done|]. destruct Hr as [Hc _]. cbn. by rewrite Hc.
  - by rewrite Hc, IH.
Qed.

Lemma scan_fraction_stop rest : ends_number rest -> scan_fraction rest = ([], rest).
Proof.
  destruct rest as [|c r]; [done|]. intros (_ & Hc & _). cbn.
  by rewrite (proj2 (Z.eqb_neq c 46)).
Qed.

Lemma scan_exponent_stop rest : ends_number rest -> scan_exponent rest = ([], rest).
Proof.
  destruct rest as [|c r]; [done|]. intros (_ & _ & He & HE). cbn. unfold char_in.
  rewrite bool_decide_false; [done|]. change (lit "eE") with [101; 69]. set_solver.
Qed.

(** The integers the interpreter reads back. *)
Definition int_readable (n : Z) : bool := Z.of_nat (length (str_of_int (Z.abs n))) <=? MAX_STR_DIGITS.

Lemma str_of_neg n : n < 0 -> str_of_int n = 45 :: str_of_int (- n).
Proof. intros Hn. destruct n as [|p|p]; [lia|lia|done]. Qed.

Section Numbers.
Context (hooks : json_hooks) (float_of : pystr -> pyval).

(** The digits of a number, after its sign. *)
Lemma scan_number_nat (neg : bool) n rest :
  0 <= n -> int_readable n = true -> ends_number rest ->
  scan_number hooks float_of ((if neg then [45] else []) ++ str_of_int n ++ rest) =
  Ok (VInt (if neg then - n else n), rest).
Proof.
  intros Hn Hi Hr. unfold int_readable in Hi. rewrite Z.abs_eq in Hi by done.
  destruct (str_of_nat_digits n Hn) as (ds & Hs & Hd & Hv & Hz). rewrite Hs in Hi |- *.
  assert (exists c r, ds = c :: r /\ is_digit c = true /\ c <> 45) as (c & r & -> & Hc & Hc45).
  { destruct Hz as [[_ ->]|(c & r & -> & _)]; [by exists 48, []|].
    inversion Hd as [|? ? Hdc]; subst. exists c, r. split_and!; [done|done|].
    intros ->. by vm_compute in Hdc. }
  unfold scan_number.
  assert ((match (if neg then [45] else []) ++ (c :: r) ++ rest with
           | x :: rest' => if x =? 45 then (true, rest') else (false, (if neg then [45] else []) ++ (c :: r) ++ rest)
           | [] => (false, (if neg then [45] else []) ++ (c :: r) ++ rest)
           end) = (neg, (c :: r) ++ rest)) as ->.
  { destruct neg; cbn; [done|]. by rewrite (proj2 (Z.eqb_neq c 45)). }
  assert ((match (c :: r) ++ rest with
           | x :: r' => if x =? 48 then ([x], r') else span_digits ((c :: r) ++ rest)
           | [] => ([], (c :: r) ++ rest)
           end) = (c :: r, rest)) as ->.
  { destruct Hz as [[-> [= -> ->]]|(c' & r' & [= <- <-] & H48)]; [done|].
    cbn [app]. rewrite (proj2 (Z.eqb_neq c 48)) by done. by apply (span_digits_app_stop (c :: r)). }
  rewrite scan_fraction_stop, scan_exponent_stop by done. cbn [app].
  apply Z.leb_le in Hi. rewrite (proj2 (Z.ltb_ge _ _)) by done. by rewrite Hv.
Qed.

Lemma scan_number_int n rest :
  int_readable n = true -> ends_number rest ->
  scan_number hooks float_of (str_of_int n ++ rest) = Ok (VInt n, rest).
Proof.
  intros Hi Hr. destruct (Z_lt_le_dec n 0) as [Hn|Hn].
  - rewrite str_of_neg by done. unfold int_readable in Hi.
    rewrite Z.abs_neq in Hi by lia.
    pose proof (scan_number_nat true (- n) rest ltac:(lia)) as H. cbn [app] in H |- *.
    unfold int_readable in H. rewrite Z.abs_eq in H by lia. rewrite H by done. by rewrite Z.opp_involutive.
  - by apply (scan_number_nat false).
Qed.

(** The first character of an integer is a digit, or a minus sign before one. *)
Lemma str_of_int_head n :
  exists c r, str_of_int n = c :: r /\
    (is_digit c = true \/ c = 45 /\ exists d r', r = d :: r' /\ is_digit d = true).
Proof.
  assert (Hpos : forall m, 0 <= m -> exists c r, str_of_int m = c :: r /\ is_digit c = true).
  { intros m Hm. destruct (str_of_nat_digits m Hm) as (ds & -> & Hd & _ & [[_ ->]|(c & r & -> & _)]).
    - by exists 48, [].
    - inversion Hd; subst. eauto. }
  destruct (Z_lt_le_dec n 0) as [Hn|Hn].
  - rewrite str_of_neg by done. destruct (Hpos (- n) ltac:(lia)) as (c & r & -> & Hc).
    exists 45, (c :: r). split; [done|]. right. eauto.
  - destruct (Hpos n Hn) as (c & r & -> & Hc). exists c, r. auto.
Qed.

Lemma scan_constant_number n rest : scan_constant constants (str_of_int n ++ rest) = None.
Proof.
  destruct (str_of_int_head n) as (c & r & -> & [Hc|(-> & d & r' & -> & Hd)]);
    cbn; repeat match goal with |- context [?a =? ?b] =>
      rewrite (proj2 (Z.eqb_neq a b)) by (intros <-; done) end; done.
Qed.

End Numbers.

(** *** Strings *)

Definition lower_hex (d : Z) : Z := if d <? 10 then 48 + d else 87 + d.

Lemma hex_digit_lower d : 0 <= d < 16 -> hex_digit (lower_hex d) = Some d.
Proof.
  intros Hd. unfold lower_hex, hex_digit, is_digit.
  repeat case_match; try (f_equal; lia); exfalso; lia.
Qed.

Lemma hex4_code_unit n :
  0 <= n < 65536 ->
  exists a b c d, hex4 n = [a; b; c; d] /\ code_unit a b c d = Some n.
Proof.
  intros Hn. exists (lower_hex (n / 4096 mod 16)), (lower_hex (n / 256 mod 16)),
    (lower_hex (n / 16 mod 16)), (lower_hex (n mod 16)). split; [done|].
  unfold code_unit. rewrite !hex_digit_lower by (apply Z.mod_pos_bound; lia).
  f_equal. zify. Z.to_euclidean_division_equations. lia.
Qed.

(** Appending a character to what a scan of a string reads. *)
Definition prepend (c : Z) (x : jres (pystr * pystr)) : jres (pystr * pystr) :=
  '(t, rest) ← x; Ok (c :: t, rest).

Lemma scan_str_u n s :
  0 <= n < 65536 -> high_surrogate n = false ->
  scan_str (lit "\u" ++ hex4 n ++ s) = prepend n (scan_str s).
Proof.
  intros Hn Hh. destruct (hex4_code_unit n Hn) as (a & b & c & d & -> & Hu).
  change (lit "\u") with [92; 117]. cbn [app scan_str Z.eqb Pos.eqb]. by rewrite Hu, Hh.
Qed.

Lemma scan_str_pair u w s :
  high_surrogate u = true -> low_surrogate w = true ->
  scan_str (lit "\u" ++ hex4 u ++ lit "\u" ++ hex4 w ++ s) =
  prepend (65536 + (u - 55296) * 1024 + (w - 56320)) (scan_str s).
Proof.
  intros Hu Hw.
  destruct (hex4_code_unit u) as (a & b & c & d & -> & Eu); [unfold high_surrogate in Hu; lia|].
  destruct (hex4_code_unit w) as (a' & b' & c' & d' & -> & Ew); [unfold low_surrogate in Hw; lia|].
  change (lit "\u") with [92; 117]. cbn [app scan_str Z.eqb Pos.eqb andb].
  by rewrite Eu, Hu, Ew, Hw.
Qed.

(** The reader undoes the escaping of one character. *)
Lemma scan_json_char c s : is_scalar c = true -> scan_str (json_char c ++ s) = prepend c (scan_str s).
Proof.
  intros Hc%is_scalar_spec. unfold json_char.
  destruct (Z.eqb_spec c 34) as [->|H34]; [done|]. destruct (Z.eqb_spec c 92) as [->|H92]; [done|].
  destruct (Z.eqb_spec c 10) as [->|_]; [done|]. destruct (Z.eqb_spec c 13) as [->|_]; [done|].
  destruct (Z.eqb_spec c 9) as [->|_]; [done|]. destruct (Z.eqb_spec c 12) as [->|_]; [done|].
  destruct (Z.eqb_spec c 8) as [->|_]; [done|].
  destruct ((32 <=? c) && (c <? 127)) eqn:Ha.
  - cbn [app scan_str]. rewrite (proj2 (Z.eqb_neq c 34)), (proj2 (Z.eqb_neq c 92)) by done.
    by replace (c <? 32) with false by lia.
  - destruct (c <? 65536) eqn:Hb.
    + rewrite <- app_assoc. apply scan_str_u; [lia|]. unfold high_surrogate. lia.
    + pose proof (Z.mod_pos_bound (c - 65536) 1024 ltac:(lia)).
      pose proof (Z.div_mod (c - 65536) 1024 ltac:(lia)).
      assert (0 <= (c - 65536) / 1024 < 1024) by (split; [apply Z.div_pos|apply Z.div_lt_upper_bound]; lia).
      cbn zeta. rewrite <- !app_assoc, scan_str_pair by (unfold high_surrogate, low_surrogate; lia).
      f_equal. lia.
Qed.

Lemma scan_raw_char c s : is_scalar c = true -> scan_str (raw_char c ++ s) = prepend c (scan_str s).
Proof.
  intros Hc%is_scalar_spec. unfold raw_char.
  destruct (Z.eqb_spec c 34) as [->|H34]; [done|]. destruct (Z.eqb_spec c 92) as [->|H92]; [done|].
  destruct (Z.eqb_spec c 10) as [->|_]; [done|]. destruct (Z.eqb_spec c 13) as [->|_]; [done|].
  destruct (Z.eqb_spec c 9) as [->|_]; [done|]. destruct (Z.eqb_spec c 12) as [->|_]; [done|].
  destruct (Z.eqb_spec c 8) as [->|_]; [done|]. destruct (c <? 32) eqn:Ha.
  - rewrite <- app_assoc. apply scan_str_u; [lia|]. unfold high_surrogate. lia.
  - cbn [app scan_str]. by rewrite (proj2 (Z.eqb_neq c 34)), (proj2 (Z.eqb_neq c 92)), Ha by done.
Qed.

Lemma scan_style_char st c s : is_scalar c = true -> scan_str (style_char st c ++ s) = prepend c (scan_str s).
Proof. unfold style_char. destruct (ensure_ascii st); [apply scan_json_char|apply scan_raw_char]. Qed.

Lemma scan_style_str st t rest :
  forallb is_scalar t = true -> scan_str ((t ≫= style_char st) ++ 34 :: rest) = Ok (t, rest).
Proof.
  induction t as [|c t IH]; cbn [forallb mbind list_bind app]; [done|].
  intros [Hc Ht]%andb_true_iff. rewrite <- app_assoc, scan_style_char by done. by rewrite IH.
Qed.

(** *** Values *)

(** What reading back leaves of a value: tuples are lists, and the items of an
    object are in the order of their keys. *)
Fixpoint json_norm (v : pyval) : pyval :=
  match v with
  | VList l | VTuple l => VList (json_norm <$> l)
  | VDict d => VDict (sort_items ((fun kv : pystr * pyval => (kv.1, json_norm kv.2)) <$> d))
  | _ => v
  end.

(** A value JSON text keeps: no float, text without surrogates, integers within
    the interpreter's digit limit, each key of an object once. *)
Fixpoint json_clean (v : pyval) : bool :=
  match v with
  | VNone | VBool _ => true
  | VInt n => int_readable n
  | VFloat _ _ => false
  | VStr s => forallb is_scalar s
  | VList l | VTuple l => forallb json_clean l
  | VDict d => forallb (fun kv : pystr * pyval => forallb is_scalar kv.1 && json_clean kv.2) d
               && bool_decide (NoDup d.*1)
  end.

Definition blank (s : pystr) : bool := forallb (fun c => char_in c [32; 9; 10; 13]) s.

(** The separators are the punctuation followed by blanks. *)
Definition style_ok (st : json_style) : bool :=
  match item_separator st, key_separator st with
  | c :: w, k :: w' => (c =? 44) && blank w && (k =? 58) && blank w'
  | _, _ => false
  end.

Lemma skip_ws_blank w s : blank w = true -> skip_ws (w ++ s) = skip_ws s.
Proof.
  induction w as [|c w IH]; cbn; [done|]. intros [-> H]%andb_true_iff. auto.
Qed.

Lemma newline_blank st level : blank (newline st level) = true.
Proof.
  unfold newline. destruct (indent st) as [n|]; [|done]. cbn.
  induction (n * level)%nat as [|m IH]; [done|]. cbn. done.
Qed.

Lemma sort_items_map {A B} (f : A -> B) (d : list (pystr * A)) :
  sort_items ((fun kv => (kv.1, f kv.2)) <$> d) = (fun kv => (kv.1, f kv.2)) <$> sort_items d.
Proof.
  assert (Hins : forall kv (l : list (pystr * A)),
    insert_item (kv.1, f kv.2) ((fun kv => (kv.1, f kv.2)) <$> l) =
    (fun kv => (kv.1, f kv.2)) <$> insert_item kv l).
  { intros kv l. induction l as [|kv' l IH]; cbn; [done|]. destruct (str_leb _ _); cbn; [done|].
    by f_equal. }
  induction d as [|kv d IH]; cbn; [done|].
  change (foldr insert_item [] ((fun kv => (kv.1, f kv.2)) <$> d)) with
    (sort_items ((fun kv : pystr * A => (kv.1, f kv.2)) <$> d)).
  rewrite IH. apply Hins.
Qed.

Lemma sort_items_perm {A} (d : list (pystr * A)) : sort_items d ≡ₚ d.
Proof.
  assert (Hins : forall kv (l : list (pystr * A)), insert_item kv l ≡ₚ kv :: l).
  { intros kv l. induction l as [|kv' l IH]; cbn; [done|]. destruct (str_leb _ _); [done|].
    rewrite IH. apply Permutation_swap. }
  induction d as [|kv d IH]; cbn; [done|].
  change (foldr insert_item [] d) with (sort_items d). by rewrite Hins, IH.
Qed.

Lemma dict_set_fresh {A} k (v : A) d : k ∉ d.*1 -> dict_set k v d = d ++ [(k, v)].
Proof.
  induction d as [|[k' v'] d IH]; cbn; [done|]. intros [Hne Hd]%not_elem_of_cons.
  rewrite bool_decide_false by congruence. by rewrite IH.
Qed.

Lemma NoDup_app_head {A} (l : list A) x l' : NoDup (l ++ x :: l') -> x ∉ l.
Proof. intros (_ & Hd & _)%NoDup_app Hin. apply (Hd _ Hin), elem_of_cons. by left. Qed.

(** Every written value starts with a character that is neither blank nor a
    closing bracket. *)
Definition starts_value (s : pystr) : Prop :=
  exists c r, s = c :: r /\ c < 128 /\ char_in c [32; 9; 10; 13] = false /\ c <> 93 /\ c <> 125.

Lemma starts_value_app s t : starts_value s -> starts_value (s ++ t).
Proof. intros (c & r & -> & H). exists c, (r ++ t). done. Qed.

Lemma starts_value_skip s : starts_value s -> skip_ws s = s.
Proof. intros (c & r & -> & _ & Hc & _). cbn. by rewrite Hc. Qed.

Lemma join_with_cons sep p ps :
  ps <> [] -> join_with sep (p :: ps) = p ++ sep ++ join_with sep ps.
Proof. by destruct ps. Qed.

Lemma skip_comma s : skip_ws (44 :: s) = 44 :: s.
Proof. done. Qed.

Lemma skip_blanks w w' s :
  blank w = true -> blank w' = true -> starts_value s -> skip_ws (w ++ w' ++ s) = s.
Proof. intros. rewrite !skip_ws_blank by done. by apply starts_value_skip. Qed.

Lemma starts_value_join sep p ps : starts_value p -> starts_value (join_with sep (p :: ps)).
Proof. destruct ps; cbn; [done|]. apply starts_value_app. Qed.

Lemma bracketed_starts st level o c parts :
  o = 91 \/ o = 123 -> starts_value (bracketed st level o c parts).
Proof.
  intros Ho. exists o, (tail (bracketed st level o c parts)).
  split; [by destruct parts|]. by destruct Ho as [-> | ->].
Qed.

Lemma json_text_starts st level v : json_clean v = true -> starts_value (json_text st level v).
Proof.
  destruct v as [|b|n|r i|s|l|l|d]; intros Hc; cbn [json_text].
  - by exists 110, (lit "ull").
  - destruct b; [by exists 116, (lit "rue")|by exists 102, (lit "alse")].
  - destruct (str_of_int_head n) as (c & r & -> & Hd). exists c, r. split; [done|].
    destruct Hd as [Hd|[-> _]]; [|done]. unfold is_digit in Hd. split_and!; [lia| |lia|lia].
    apply bool_decide_eq_false. rewrite !elem_of_cons, elem_of_nil. lia.
  - done.
  - by exists 34, ((s ≫= style_char st) ++ [34]).
  - apply bracketed_starts. by left.
  - apply bracketed_starts. by left.
  - apply bracketed_starts. by right.
Qed.

Lemma ends_number_newline st level c rest :
  c = 93 \/ c = 125 -> ends_number (newline st level ++ c :: rest).
Proof. unfold newline. intros Hc. destruct (indent st); [done|]. by destruct Hc as [-> | ->]. Qed.

(** ** Nesting *)

Definition within (depth : option nat) (v : pyval) : Prop :=
  match depth with None => True | Some n => (nesting v <= n)%nat end.

Lemma within_inner {A} (f : A -> pyval) depth (l : list A) :
  match depth with None => True | Some n => (S (max_list ((fun a => nesting (f a)) <$> l)) <= n)%nat end ->
  exists depth', enter depth = Some depth' /\ Forall (fun a => within depth' (f a)) l.
Proof.
  destruct depth as [[|n]|]; cbn; [lia| |intros _; exists None; split; [done|by apply Forall_true]].
  intros H. exists (Some n). split; [done|]. apply Forall_forall. intros a Ha. cbn.
  pose proof (max_list_elem_of_le (nesting (f a)) ((fun a => nesting (f a)) <$> l)) as Hm.
  etransitivity; [apply Hm, list_elem_of_fmap; eauto|lia].
Qed.

Lemma within_list depth l : within depth (VList l) -> exists depth', enter depth = Some depth' /\ Forall (within depth') l.
Proof. apply (within_inner id). Qed.
Lemma within_tuple depth l : within depth (VTuple l) -> exists depth', enter depth = Some depth' /\ Forall (within depth') l.
Proof. apply (within_inner id). Qed.
Lemma within_dict depth d :
  within depth (VDict d) -> exists depth', enter depth = Some depth' /\ Forall (fun kv : pystr * pyval => within depth' kv.2) d.
Proof. apply (within_inner snd). Qed.

(** The loops, one turn unfolded. *)
Lemma scan_items_S hooks float_of depth fuel s values :
  scan_items hooks float_of depth (S fuel) s values =
  ('(v, s1) ← scan_once hooks float_of depth fuel s;
   match skip_ws s1 with
   | c :: s2 =>
       if c =? 93 then Ok (VList (values ++ [v]), s2)
       else if c =? 44 then scan_items hooks float_of depth fuel (skip_ws s2) (values ++ [v])
       else Err JSONDecodeError
   | [] => Err JSONDecodeError
   end).
Proof. reflexivity. Qed.

Lemma scan_pairs_S hooks float_of depth fuel c s1 pairs :
  scan_pairs hooks float_of depth (S fuel) (c :: s1) pairs =
  (if c =? 34 then
     '(k, s2) ← scan_str s1;
     match skip_ws s2 with
     | d :: s3 =>
         if d =? 58 then
           '(v, s4) ← scan_once hooks float_of depth fuel (skip_ws s3);
           match skip_ws s4 with
           | e :: s5 =>
               if e =? 125 then d ← add_pair hooks k v pairs; Ok (VDict d, s5)
               else if e =? 44 then d ← add_pair hooks k v pairs; scan_pairs hooks float_of depth fuel (skip_ws s5) d
               else Err JSONDecodeError
           | [] => Err JSONDecodeError
           end
         else Err JSONDecodeError
     | [] => Err JSONDecodeError
     end
   else Err JSONDecodeError).
Proof. reflexivity. Qed.

Section RoundTrip.
Context (hooks : json_hooks) (float_of : pystr -> pyval) (st : json_style) (Hst : style_ok st = true).

Lemma scan_once_more depth f f' s x :
  scan_once hooks float_of depth f s = Ok x -> (f <= f')%nat -> scan_once hooks float_of depth f' s = Ok x.
Proof. intros H Hle. rewrite (proj1 (scan_fuel_mono hooks float_of f) depth f' s Hle); [done|by rewrite H]. Qed.

(** Some fuel reads the value back and stops where it ended. *)
Definition reads (depth : option nat) (s : pystr) (v : pyval) (rest : pystr) : Prop :=
  exists f, scan_once hooks float_of depth f (s ++ rest) = Ok (v, rest).

Definition reads_back (v : pyval) : Prop :=
  json_clean v = true -> forall depth level rest, within depth v -> ends_number rest ->
  reads depth (json_text st level v) (json_norm v) rest.

Lemma separators : exists w w', item_separator st = 44 :: w /\ blank w = true /\
                                key_separator st = 58 :: w' /\ blank w' = true.
Proof.
  unfold style_ok in Hst. destruct (item_separator st) as [|c w]; [done|].
  destruct (key_separator st) as [|k w']; [done|].
  rewrite !andb_true_iff, !Z.eqb_eq in Hst. destruct Hst as [[[-> ?] ->] ?]. eauto 8.
Qed.

Lemma items_read depth level l vs rest :
  l <> [] -> Forall (within depth) l -> Forall reads_back l -> forallb json_clean l = true ->
  exists f, scan_items hooks float_of depth f
    (join_with (item_separator st ++ newline st (S level)) (json_text st (S level) <$> l) ++
     newline st level ++ 93 :: rest) vs = Ok (VList (vs ++ (json_norm <$> l)), rest).
Proof.
  destruct separators as (w & w' & -> & Hw & _). revert vs.
  induction l as [|v [|v' l] IH]; intros vs Hne Hd Hr Hc; [done| |];
    inversion_clear Hr as [|? ? Hv Hrest]; inversion_clear Hd as [|? ? Hdv Hdl]; cbn [forallb] in Hc; apply andb_true_iff in Hc as [Hcv Hcl].
  - destruct (Hv Hcv depth (S level) (newline st level ++ 93 :: rest)) as [f Hf];
      [done|by apply ends_number_newline; left|].
    exists (S f). rewrite scan_items_S. cbn [fmap list_fmap join_with]. rewrite Hf. cbn [mbind result_bind].
    by rewrite skip_ws_blank by apply newline_blank.
  - destruct (IH (vs ++ [json_norm v]) ltac:(done) Hdl Hrest Hcl) as [f2 H2].
    set (tail := join_with _ (json_text st (S level) <$> v' :: l) ++ newline st level ++ 93 :: rest) in H2.
    assert (starts_value tail) as Htail.
    { apply starts_value_app. cbn [fmap list_fmap]. apply starts_value_join, json_text_starts.
      cbn in Hcl. by apply andb_true_iff in Hcl as [? _]. }
    destruct (Hv Hcv depth (S level) (44 :: w ++ newline st (S level) ++ tail)) as [f1 H1]; [done|done|].
    exists (S (f1 + f2)). rewrite scan_items_S.
    rewrite (fmap_cons _ v), join_with_cons by done. rewrite <- !app_assoc. fold tail.
    rewrite (scan_once_more _ _ _ _ _ H1) by lia. cbn [mbind result_bind].
    rewrite skip_comma. cbn [Z.eqb Pos.eqb]. rewrite skip_blanks by first [done|apply newline_blank].
    rewrite (proj2 (proj2 (scan_fuel_mono hooks float_of f2)) depth (f1 + f2)%nat tail) by first [lia|by rewrite H2].
    rewrite H2. cbn. by rewrite <- app_assoc.
Qed.

(** The text of one item of an object. *)
Definition item_text (level : nat) (kv : pystr * pyval) : pystr :=
  style_str st kv.1 ++ key_separator st ++ json_text st (S level) kv.2.

Definition clean_item (kv : pystr * pyval) : bool := forallb is_scalar kv.1 && json_clean kv.2.

(** One item, up to what follows its value. *)
Lemma pair_read depth level kv ps after :
  within depth kv.2 -> reads_back kv.2 -> clean_item kv = true -> ends_number after ->
  exists f, forall g, (f <= g)%nat ->
    scan_pairs hooks float_of depth (S g) (item_text level kv ++ after) ps =
    match skip_ws after with
    | e :: s5 =>
        if e =? 125 then d ← add_pair hooks kv.1 (json_norm kv.2) ps; Ok (VDict d, s5)
        else if e =? 44 then d ← add_pair hooks kv.1 (json_norm kv.2) ps; scan_pairs hooks float_of depth g (skip_ws s5) d
        else Err JSONDecodeError
    | [] => Err JSONDecodeError
    end.
Proof.
  destruct separators as (w & w' & _ & _ & Hksep & Hw').
  destruct kv as [k v]. intros Hd Hv [Hk Hcv]%andb_true_iff Ha. cbn [fst snd] in *.
  destruct (Hv Hcv depth (S level) after Hd Ha) as [f Hf]. exists f. intros g Hg.
  unfold item_text. cbn [fst snd]. rewrite Hksep. unfold style_str. rewrite <- !app_assoc.
  cbn [app]. rewrite scan_pairs_S. change (34 =? 34) with true. cbn iota.
  rewrite scan_style_str by done. cbn [mbind result_bind].
  change (skip_ws (58 :: w' ++ json_text st (S level) v ++ after)) with
    (58 :: w' ++ json_text st (S level) v ++ after).
  change (58 =? 58) with true. cbn iota.
  rewrite skip_ws_blank, starts_value_skip by first [done|by apply starts_value_app, json_text_starts].
  by rewrite (scan_once_more _ _ _ _ _ Hf Hg).
Qed.

Lemma item_text_starts level kv : starts_value (item_text level kv).
Proof.
  exists 34, ((kv.1 ≫= style_char st) ++ [34] ++ key_separator st ++ json_text st (S level) kv.2).
  split; [|done]. unfold item_text, style_str. by rewrite <- !app_assoc.
Qed.

Lemma add_pair_fresh k v ps : k ∉ ps.*1 -> add_pair hooks k v ps = Ok (ps ++ [(k, v)]).
Proof.
  intros Hk. unfold add_pair, dict_has. rewrite bool_decide_false, andb_false_r, dict_set_fresh; [done|done|].
  intros [x Hx]. apply Hk. clear -Hx. induction ps as [|[k' v'] ps IH]; [done|]. cbn [dict_get] in Hx. cbn.
  apply elem_of_cons. case_bool_decide; [by left|right; auto].
Qed.

Lemma pairs_read depth level l ps rest :
  l <> [] -> Forall (fun kv : pystr * pyval => within depth kv.2) l -> Forall (fun kv : pystr * pyval => reads_back kv.2) l -> forallb clean_item l = true ->
  NoDup (ps.*1 ++ l.*1) ->
  exists f, scan_pairs hooks float_of depth f
    (join_with (item_separator st ++ newline st (S level)) (item_text level <$> l) ++
     newline st level ++ 125 :: rest) ps =
    Ok (VDict (ps ++ ((fun kv : pystr * pyval => (kv.1, json_norm kv.2)) <$> l)), rest).
Proof.
  destruct separators as (w & _ & -> & Hw & _). revert ps.
  induction l as [|kv [|kv' l] IH]; intros ps Hne Hd Hr Hc Hnd; [done| |];
    inversion_clear Hr as [|? ? Hv Hrest]; inversion_clear Hd as [|? ? Hdv Hdl]; cbn [forallb] in Hc; apply andb_true_iff in Hc as [Hcv Hcl];
    pose proof (NoDup_app_head _ _ _ Hnd) as Hfresh.
  - destruct (pair_read depth level kv ps (newline st level ++ 125 :: rest)) as [f Hf];
      [done|done|done|by apply ends_number_newline; right|].
    exists (S f). cbn [fmap list_fmap join_with]. rewrite (Hf f) by done.
    rewrite skip_ws_blank by apply newline_blank. cbn. by rewrite add_pair_fresh.
  - destruct (IH (ps ++ [(kv.1, json_norm kv.2)]) ltac:(done) Hdl Hrest Hcl) as [f2 H2].
    { rewrite fmap_app. cbn. by rewrite <- app_assoc. }
    set (tail := join_with _ (item_text level <$> kv' :: l) ++ newline st level ++ 125 :: rest) in H2.
    assert (starts_value tail) as Htail.
    { apply starts_value_app. cbn [fmap list_fmap]. apply starts_value_join, item_text_starts. }
    destruct (pair_read depth level kv ps (44 :: w ++ newline st (S level) ++ tail)) as [f1 H1]; [done|done|done|done|].
    exists (S (f1 + f2)). rewrite (fmap_cons _ kv), join_with_cons by done.
    rewrite <- !app_assoc. fold tail. cbn [app]. rewrite H1 by lia.
    rewrite skip_comma. cbn [Z.eqb Pos.eqb]. rewrite skip_blanks by first [done|apply newline_blank].
    rewrite add_pair_fresh by done. cbn [mbind result_bind].
    rewrite (proj1 (proj2 (scan_fuel_mono hooks float_of f2)) depth (f1 + f2)%nat tail) by first [lia|by rewrite H2].
    rewrite H2. cbn. by rewrite <- app_assoc.
Qed.

Lemma forallb_perm {A} (f : A -> bool) l l' : l ≡ₚ l' -> forallb f l = true -> forallb f l' = true.
Proof.
  rewrite !forallb_forall. intros Hp H x Hx. apply H. apply list_elem_of_In.
  rewrite Hp. by apply list_elem_of_In.
Qed.

Lemma bracketed_cons level o c p ps :
  bracketed st level o c (p :: ps) =
  o :: newline st (S level) ++
  join_with (item_separator st ++ newline st (S level)) (p :: ps) ++ newline st level ++ [c].
Proof. done. Qed.

Lemma list_reads_back depth depth' l level rest :
  enter depth = Some depth' -> Forall (within depth') l -> Forall reads_back l -> forallb json_clean l = true ->
  reads depth (bracketed st level 91 93 (json_text st (S level) <$> l)) (VList (json_norm <$> l)) rest.
Proof.
  intros He Hd Hr Hc. destruct l as [|v l]; [exists 1%nat; cbn; by rewrite He|].
  destruct (items_read depth' level (v :: l) [] rest) as [f Hf]; [done|done|done|done|].
  exists (S f). rewrite fmap_cons, bracketed_cons, <- fmap_cons. cbn [app]. rewrite <- !app_assoc.
  change ([93] ++ rest) with (93 :: rest). set (body := join_with _ _ ++ _) in Hf |- *.
  assert (starts_value body) as Hb.
  { apply starts_value_app, starts_value_join, json_text_starts. cbn in Hc. by apply andb_true_iff in Hc as []. }
  cbn [scan_once Z.eqb Pos.eqb]. rewrite He, skip_ws_blank by apply newline_blank.
  rewrite starts_value_skip by done. destruct Hb as (c & r & -> & _ & _ & H93 & _).
  by rewrite (proj2 (Z.eqb_neq c 93)).
Qed.

Lemma dict_reads_back depth depth' d level rest :
  enter depth = Some depth' -> Forall (fun kv : pystr * pyval => within depth' kv.2) d ->
  Forall (fun kv : pystr * pyval => reads_back kv.2) d -> forallb clean_item d = true -> NoDup d.*1 ->
  reads depth (bracketed st level 123 125 (item_text level <$> d))
        (VDict ((fun kv : pystr * pyval => (kv.1, json_norm kv.2)) <$> d)) rest.
Proof.
  intros He Hd Hr Hc Hn. destruct d as [|kv d]; [exists 1%nat; cbn; by rewrite He|].
  destruct (pairs_read depth' level (kv :: d) [] rest) as [f Hf]; [done|done|done|done|done|].
  exists (S f). rewrite fmap_cons, bracketed_cons, <- fmap_cons. cbn [app]. rewrite <- !app_assoc.
  change ([125] ++ rest) with (125 :: rest). set (body := join_with _ _ ++ _) in Hf |- *.
  assert (starts_value body) as Hb by apply starts_value_app, starts_value_join, item_text_starts.
  cbn [scan_once Z.eqb Pos.eqb]. rewrite He, skip_ws_blank by apply newline_blank.
  rewrite starts_value_skip by done. destruct Hb as (c & r & -> & _ & _ & _ & H125).
  by rewrite (proj2 (Z.eqb_neq c 125)).
Qed.

Lemma all_read_back v : reads_back v.
Proof.
  induction v as [|b|n|t i|s|l IH|l IH|d IH] using pyval_ind'; intros Hc depth level rest Hd Hr;
    cbn [json_text json_norm json_clean] in *.
  - by exists 1%nat.
  - by exists 1%nat; destruct b.
  - exists 1%nat. cbn [scan_once]. pose proof (scan_constant_number n rest) as Hk.
    pose proof (scan_number_int hooks float_of n rest Hc Hr) as Hn.
    destruct (str_of_int_head n) as (c & r & E & Hh). rewrite E in *. cbn [app] in *.
    rewrite Hk, Hn.
    assert (c <> 34 /\ c <> 123 /\ c <> 91) as (H1 & H2 & H3)
      by (destruct Hh as [Hh|[-> _]]; [unfold is_digit in Hh; lia|done]).
    by rewrite (proj2 (Z.eqb_neq c 34)), (proj2 (Z.eqb_neq c 123)), (proj2 (Z.eqb_neq c 91)).
  - done.
  - exists 1%nat. unfold style_str. cbn [app scan_once Z.eqb Pos.eqb]. rewrite <- app_assoc. cbn [app].
    by rewrite scan_style_str.
  - destruct (within_list _ _ Hd) as (depth' & He & Hl). by apply (list_reads_back depth depth').
  - destruct (within_tuple _ _ Hd) as (depth' & He & Hl). by apply (list_reads_back depth depth').
  - apply andb_true_iff in Hc as [Hc Hn%bool_decide_eq_true].
    rewrite !sort_items_map.
    replace ((fun kt : pystr * pystr => _) <$> _) with (item_text level <$> sort_items d)
      by (by rewrite <- list_fmap_compose).
    destruct (within_dict _ _ Hd) as (depth' & He & Hl). apply (dict_reads_back depth depth'); [done| | | |].
    + by rewrite sort_items_perm.
    + by rewrite sort_items_perm.
    + by apply (forallb_perm _ d); [by rewrite sort_items_perm|].
    + by rewrite sort_items_perm.
Qed.

(** [json.loads] reads back what [json.dumps] wrote of a clean value, alone on
    its line or followed by blanks. *)
Lemma loads_within_dumps depth v trailer :
  json_clean v = true -> within depth v -> blank trailer = true ->
  loads_within hooks float_of depth (dumps st v ++ trailer) = Ok (json_norm v).
Proof.
  intros Hc Hd Ht. unfold loads_within, dumps.
  pose proof (json_text_starts st 0 v Hc) as Hs.
  assert (ends_number trailer) as He.
  { destruct trailer as [|c r]; [done|]. cbn in Ht. apply andb_true_iff in Ht as [Hb%bool_decide_eq_true _].
    repeat (apply elem_of_cons in Hb as [->|Hb]; [done|]). by apply elem_of_nil in Hb. }
  destruct (all_read_back v Hc depth 0%nat trailer Hd He) as [f Hf]. apply scan_once_enough in Hf.
  pose proof (starts_value_app _ trailer Hs) as Hs'. rewrite (starts_value_skip _ Hs'), Hf.
  replace (startswith _ _) with false.
  - cbn [mbind result_bind]. rewrite <- (app_nil_r trailer), skip_ws_blank by done. done.
  - destruct Hs' as (c & r & -> & Hlt & _). symmetry.
    apply andb_false_iff. left. lia.
Qed.

Lemma loads_hooked_dumps v trailer :
  json_clean v = true -> blank trailer = true -> loads_hooked hooks float_of (dumps st v ++ trailer) = Ok (json_norm v).
Proof. intros Hc Ht. by apply loads_within_dumps. Qed.

End RoundTrip.

(** ** Without hooks *)

Section NoHooks.
Context (float_of : pystr -> pyval).

Definition unhooked {A} (r : jres A) : Prop := r <> Err HookError.

Lemma unhooked_bind {A B} (r : jres A) (f : A -> jres B) :
  unhooked r -> (forall a, unhooked (f a)) -> unhooked (r ≫= f).
Proof. unfold unhooked. destruct r; cbn; [auto|]. intros H _ [= ->]. by apply H. Qed.

Lemma scan_str_unhooked s : unhooked (scan_str s).
Proof.
  induction s as [s IH] using (induction_ltof1 _ (@length Z)). unfold ltof in IH.
  assert (Hp : forall t x, (length t < length s)%nat -> unhooked ('(r, rest) ← scan_str t; Ok (x :: r, rest))).
  { intros t x Ht. apply unhooked_bind; [by apply IH|]. by intros [? ?]. }
  unfold unhooked in *. destruct s as [|c s1]; cbn [scan_str]; [done|]. cbn [length] in Hp.
  repeat first [case_match; subst; try done; try (apply Hp; cbn [length]; lia)].
Qed.

Lemma scan_unhooked fuel :
  (forall depth s, unhooked (scan_once no_hooks float_of depth fuel s)) /\
  (forall depth s ps, unhooked (scan_pairs no_hooks float_of depth fuel s ps)) /\
  (forall depth s vs, unhooked (scan_items no_hooks float_of depth fuel s vs)).
Proof.
  induction fuel as [|fuel (IHo & IHp & IHi)]; [done|]. split_and!.
  - intros depth [|c s1]; [done|]. cbn [scan_once scan_pairs scan_items]. destruct (c =? 34).
    { apply unhooked_bind; [apply scan_str_unhooked|by intros []]. }
    destruct (c =? 123); [|destruct (c =? 91)].
    + destruct (enter depth); [|done]. destruct (skip_ws s1) as [|d s2]; [done|]. by destruct (d =? 125).
    + destruct (enter depth); [|done]. destruct (skip_ws s1) as [|d s2]; [done|]. by destruct (d =? 93).
    + destruct (scan_constant constants (c :: s1)) as [[v r]|]; [by destruct v|].
      unfold scan_number. repeat case_match; try done; cbn; done.
  - intros depth [|c s1] ps; [done|]. rewrite scan_pairs_S. destruct (c =? 34); [|done].
    apply unhooked_bind; [apply scan_str_unhooked|]. intros [k s2]. destruct (skip_ws s2) as [|d s3]; [done|].
    destruct (d =? 58); [|done]. apply unhooked_bind; [apply IHo|]. intros [v s4].
    destruct (skip_ws s4) as [|e s5]; [done|]. destruct (e =? 125); [done|]. by destruct (e =? 44); [apply IHp|].
  - intros depth s vs. rewrite scan_items_S. apply unhooked_bind; [apply IHo|]. intros [v s1].
    destruct (skip_ws s1) as [|c s2]; [done|]. destruct (c =? 93); [done|]. by destruct (c =? 44); [apply IHi|].
Qed.

(** [json.loads] ends with a value, a decode error, the digit limit or the end of the stack. *)
Lemma loads_terminates depth s :
  loads_within no_hooks float_of depth s <> Err OutOfFuel /\ loads_within no_hooks float_of depth s <> Err HookError.
Proof.
  split; [apply loads_within_terminates|]. unfold loads_within. destruct (startswith _ s); [done|].
  apply unhooked_bind; [apply scan_unhooked|]. intros [v r]. by destruct (skip_ws r).
Qed.

Lemma loads_dumps st (Hst : style_ok st = true) v trailer :
  json_clean v = true -> blank trailer = true -> loads float_of (dumps st v ++ trailer) = Ok (json_norm v).
Proof. by apply loads_hooked_dumps. Qed.

End NoHooks.
