(* ===== verification/PyRepr.v ===== *)
(** [repr] and [str] of Python values, as f-strings and error messages use
    them. *)
From S2P Require Import Prelude Utf8 PyVal Json.
Open Scope Z_scope.

Section Repr.
Context {U : Unicode}.

(** [n] as [width] lowercase hexadecimal digits. *)
Fixpoint hex_width (width : nat) (n : Z) : pystr :=
  match width with
  | O => []
  | S w => hex_width w (n / 16) ++ [if n mod 16 <? 10 then 48 + n mod 16 else 87 + n mod 16]
  end.

(** [c.isprintable()] *)
Definition isprintable (c : Z) : bool :=
  if c <? 128 then (32 <=? c) && (c <? 127) else uni_printable c.

(** One character inside [repr(s)] between the given quotes. *)
Definition repr_char (quote c : Z) : pystr :=
  if (c =? quote) || (c =? 92) then [92; c]
  else if c =? 9 then lit "\t" else if c =? 10 then lit "\n" else if c =? 13 then lit "\r"
  else if isprintable c then [c]
  else if c <? 256 then lit "\x" ++ hex_width 2 c
  else if c <? 65536 then lit "\u" ++ hex_width 4 c
  else lit "\U" ++ hex_width 8 c.

(** [repr(s)]: double quotes only when the text has a single quote and no
    double quote. *)
Definition repr_str (s : pystr) : pystr :=
  let quote := if char_in 39 s && negb (char_in 34 s) then 34 else 39 in
  [quote] ++ (s ≫= repr_char quote) ++ [quote].

Fixpoint py_repr (v : pyval) : pystr :=
  match v with
  | VNone => lit "None"
  | VBool b => lit (if b then "True" else "False")
  | VInt n => str_of_int n
  | VFloat r _ => r
  | VStr s => repr_str s
  | VList l => lit "[" ++ join_with (lit ", ") (py_repr <$> l) ++ lit "]"
  | VTuple [x] => lit "(" ++ py_repr x ++ lit ",)"
  | VTuple l => lit "(" ++ join_with (lit ", ") (py_repr <$> l) ++ lit ")"
  | VDict d =>
      lit "{" ++ join_with (lit ", ")
        ((fun kv : pystr * pyval => repr_str kv.1 ++ lit ": " ++ py_repr kv.2) <$> d) ++ lit "}"
  end.

(** [str(v)] and [f"{v}"]. *)
Definition str_of_val (v : pyval) : pystr :=
  match v with VStr s => s | _ => py_repr v end.

End Repr.

Example repr_example :
  py_repr (U := ascii_only) (VDict [(lit "it's", VTuple [VStr [9; 92]]); (lit "b", VList [VNone; VBool true])]) =
  lit "{" ++ [34] ++ lit "it's" ++ [34] ++ lit ": ('\t\\',), 'b': [None, True]}".
Proof. vm_compute. reflexivity. Qed.
