(* ===== verification/Observations.v ===== *)
(** Raw observations: [observations/raw.py] (the record, its validation and its
    JSON lines), [observations/normalization.py] (the graph-shaped projection)
    and [observations/spool.py] (disk-backed replay).  Files are their text. *)
From S2P Require Import Prelude Utf8 PyVal Json PyRepr.
Open Scope Z_scope.

(** ** [raw.py] *)

Definition SCHEMA_VERSION : Z := 1.
Definition VALID_CONFIDENCES : list pystr :=
  [lit "extracted"; lit "heuristic"; lit "manual"; lit "unknown"].

(** What an [ObservationValidationError] says, by its raise site. *)
Inductive obs_error :=
| FieldRequired (field : string)
| SchemaVersionMismatch
| ConfidenceUnknown
| MetadataNotObject
| LineRangeIncomplete
| StartLineNotInteger
| EndLineNotInteger
| LinesNotPositive
| LinesReversed
| ObservationNotObject
| InvalidJson.

(** [ObservationValidationError], with the line number its message carries if
    any; the interpreter's refusal of an over-long integer ([ValueError]) and of
    a text nested too deeply for its stack ([RecursionError]), neither of which
    [from_json_line] catches; the use of a closed spool ([RuntimeError]); a missing file; an exception of the
    caller's iterable. *)
Inductive obs_exn :=
| ObservationValidationError (line : option Z) (e : obs_error)
| IntegerDigitsExceeded
| RecursionError
| SpoolClosed
| SpoolFileMissing
| IterableFailed
| ReaderOutOfFuel.

#[export] Instance obs_error_eq_dec : EqDecision obs_error.
Proof. solve_decision. Defined.
#[export] Instance obs_exn_eq_dec : EqDecision obs_exn.
Proof. solve_decision. Defined.

Abbreviation ores := (result obs_exn).
Abbreviation invalid e := (Err (ObservationValidationError None e)).

(** A constructed observation.  [name] and [target] are not checked, and the
    line numbers may be [bool]s, which are [int]s. *)
Record RawObservation := {
  obs_kind : pystr;
  obs_source_id : pystr;
  obs_path : pystr;
  obs_confidence : pystr;
  obs_extractor : pystr;
  obs_extractor_version : pystr;
  obs_start_line : pyval;
  obs_end_line : pyval;
  obs_name : pyval;
  obs_target : pyval;
  obs_metadata : pydict;
  obs_schema_version : pyval
}.

(** The [int] a value is, [bool]s included. *)
Definition int_of (v : pyval) : option Z :=
  match v with VInt n => Some n | VBool b => Some (if b then 1 else 0) | _ => None end.

(** [v == n] *)
Definition equals_int (v : pyval) (n : Z) : bool :=
  match v with
  | VFloat _ (Some m) => m =? n
  | _ => match int_of v with Some m => m =? n | None => false end
  end.

Definition _validate_line_range (start_line end_line : pyval) : ores unit :=
  match start_line, end_line with
  | VNone, VNone => Ok tt
  | VNone, _ | _, VNone => invalid LineRangeIncomplete
  | _, _ =>
      match int_of start_line with
      | None => invalid StartLineNotInteger
      | Some s =>
          match int_of end_line with
          | None => invalid EndLineNotInteger
          | Some e =>
              if (s <? 1) || (e <? 1) then invalid LinesNotPositive
              else if e <? s then invalid LinesReversed
              else Ok tt
          end
      end
  end.

(** [isinstance(value, str) and value.strip()] *)
Definition required_text (field : string) (value : pyval) : ores pystr :=
  match value with
  | VStr s => if bool_decide (strip s = []) then invalid (FieldRequired field) else Ok s
  | _ => invalid (FieldRequired field)
  end.

(** [RawObservation(...)] with [__post_init__]. *)
Definition raw_observation (kind source_id path confidence extractor extractor_version
    start_line end_line name target metadata schema_version : pyval) : ores RawObservation :=
  kind ← required_text "kind" kind;
  source_id ← required_text "source_id" source_id;
  path ← required_text "path" path;
  confidence ← required_text "confidence" confidence;
  extractor ← required_text "extractor" extractor;
  extractor_version ← required_text "extractor_version" extractor_version;
  if negb (equals_int schema_version SCHEMA_VERSION) then invalid SchemaVersionMismatch
  else if negb (bool_decide (confidence ∈ VALID_CONFIDENCES)) then invalid ConfidenceUnknown
  else match metadata with
       | VDict metadata =>
           _ ← _validate_line_range start_line end_line;
           Ok {| obs_kind := kind; obs_source_id := source_id; obs_path := path;
                 obs_confidence := confidence; obs_extractor := extractor;
                 obs_extractor_version := extractor_version; obs_start_line := start_line;
                 obs_end_line := end_line; obs_name := name; obs_target := target;
                 obs_metadata := metadata; obs_schema_version := schema_version |}
       | _ => invalid MetadataNotObject
       end.

(** The items of [optional] whose value is not [None]. *)
Definition present (items : list (string * pyval)) : pydict :=
  items ≫= fun kv => if is_none kv.2 then [] else [(lit kv.1, kv.2)].

Definition to_dict (o : RawObservation) : pydict :=
  [(lit "schema_version", obs_schema_version o); (lit "kind", VStr (obs_kind o));
   (lit "source_id", VStr (obs_source_id o)); (lit "path", VStr (obs_path o));
   (lit "confidence", VStr (obs_confidence o)); (lit "extractor", VStr (obs_extractor o));
   (lit "extractor_version", VStr (obs_extractor_version o));
   (lit "metadata", VDict (obs_metadata o))] ++
  present [("start_line", obs_start_line o); ("end_line", obs_end_line o);
           ("name", obs_name o); ("target", obs_target o)].

Definition to_json_line (o : RawObservation) : pystr :=
  dumps default_style (VDict (to_dict o)) ++ [10].

Definition require (payload : pydict) (key : string) : ores pyval :=
  match dict_get (lit key) payload with
  | Some v => Ok v
  | None => invalid (FieldRequired key)
  end.

(** [payload.get(key, fallback)] *)
Definition get_or (payload : pydict) (key : string) (fallback : pyval) : pyval :=
  default fallback (dict_get (lit key) payload).

Definition from_dict (payload : pyval) : ores RawObservation :=
  match payload with
  | VDict payload =>
      kind ← require payload "kind";
      source_id ← require payload "source_id";
      path ← require payload "path";
      confidence ← require payload "confidence";
      extractor ← require payload "extractor";
      extractor_version ← require payload "extractor_version";
      raw_observation kind source_id path confidence extractor extractor_version
        (get_or payload "start_line" VNone) (get_or payload "end_line" VNone)
        (get_or payload "name" VNone) (get_or payload "target" VNone)
        (get_or payload "metadata" (VDict []))
        (get_or payload "schema_version" (VInt SCHEMA_VERSION))
  | _ => invalid ObservationNotObject
  end.

Section Files.
Context (py : interpreter).

Definition from_json_line (json_line : pystr) (line_number : option Z) : ores RawObservation :=
  match loads_within no_hooks (py_float py) (Some (py_stack py)) json_line with
  | Err JSONDecodeError => Err (ObservationValidationError line_number InvalidJson)
  | Err IntegerTooLong => Err IntegerDigitsExceeded
  | Err RecursionLimit => Err RecursionError
  | Err _ => Err ReaderOutOfFuel (** never: see [from_json_line_outcome] *)
  | Ok payload =>
      match from_dict payload with
      | Err (ObservationValidationError _ e) => Err (ObservationValidationError line_number e)
      | r => r
      end
  end.

(** The lines of a text file opened for reading: [\r\n] and [\r] end a line as
    [\n] does, and every line but an unfinished last one keeps its [\n]. *)
Fixpoint universal_newlines (s : pystr) : pystr :=
  match s with
  | [] => []
  | c :: rest =>
      if c =? 13 then
        match rest with
        | d :: rest' => if d =? 10 then 10 :: universal_newlines rest' else 10 :: universal_newlines rest
        | [] => [10]
        end
      else c :: universal_newlines rest
  end.

Fixpoint split_lines (line : pystr) (s : pystr) : list pystr :=
  match s with
  | [] => match line with [] => [] | _ => [line] end
  | c :: rest => if c =? 10 then (line ++ [10]) :: split_lines [] rest
                 else split_lines (line ++ [c]) rest
  end.

Definition file_lines (text : pystr) : list pystr := split_lines [] (universal_newlines text).

(** The loop of [_read_observations_lines] from a line number on: blank lines
    are passed over but counted. *)
Fixpoint _read_observations_lines (line_number : Z) (lines : list pystr) : ores (list RawObservation) :=
  match lines with
  | [] => Ok []
  | line :: rest =>
      if bool_decide (strip line = []) then _read_observations_lines (line_number + 1) rest
      else o ← from_json_line line (Some line_number);
           os ← _read_observations_lines (line_number + 1) rest;
           Ok (o :: os)
  end.

Definition read_observations_jsonl (text : pystr) : ores (list RawObservation) :=
  _read_observations_lines 1 (file_lines text).

(** The text [_write_observations_lines] leaves in an empty file. *)
Definition write_observations_jsonl (os : list RawObservation) : pystr := os ≫= to_json_line.

(** ** [spool.py] *)

(** The spool object and the text of its file, [None] once it is unlinked. *)
Record ObservationSpool := {
  spool_file : option pystr;
  spool_count : Z;
  spool_byte_count : Z;
  spool_allocated : Z;
  spool_closed : bool
}.

(** The loop of [from_observations]: text written, count and bytes so far.  The
    text of a JSON line is ASCII, one byte for each character. *)
Definition spool_step (acc : pystr * Z * Z) (o : RawObservation) : pystr * Z * Z :=
  let '(text, count, bytes) := acc in
  let encoded := to_json_line o in
  (text ++ encoded, count + 1, bytes + Z.of_nat (length (default [] (utf8_encode encoded)))).

(** [from_observations]: the iterable yields [os] and then ends, or raises when
    [fails] is set.  [st_blocks] is what the file system reports.  The second
    component is the file left on disk. *)
Definition from_observations (os : list RawObservation) (fails : bool) (st_blocks : Z) :
    ores ObservationSpool * option pystr :=
  let '(text, count, bytes) := foldl spool_step ([], 0, 0) os in
  if fails then (Err IterableFailed, None)
  else (Ok {| spool_file := Some text; spool_count := count; spool_byte_count := bytes;
              spool_allocated := st_blocks * 512; spool_closed := false |}, Some text).

Fixpoint replay_lines (line_number : Z) (lines : list pystr) : ores (list RawObservation) :=
  match lines with
  | [] => Ok []
  | line :: rest =>
      o ← from_json_line line (Some line_number);
      os ← replay_lines (line_number + 1) rest;
      Ok (o :: os)
  end.

(** [list(iter(spool))] *)
Definition spool_iter (s : ObservationSpool) : ores (list RawObservation) :=
  if spool_closed s then Err SpoolClosed
  else match spool_file s with
       | None => Err SpoolFileMissing
       | Some text => replay_lines 1 (file_lines text)
       end.

Definition spool_close (s : ObservationSpool) : ObservationSpool :=
  if spool_closed s then s
  else {| spool_file := None; spool_count := spool_count s; spool_byte_count := spool_byte_count s;
          spool_allocated := spool_allocated s; spool_closed := true |}.

End Files.

(** ** [normalization.py] *)

Record NormalizedNode := {
  nn_stable_key : pystr;
  nn_kind : pystr;
  nn_name : pyval;
  nn_path : pystr;
  nn_start_line : pyval;
  nn_end_line : pyval;
  nn_metadata : pydict
}.

Record NormalizedEdge := {
  ne_stable_key : pystr;
  ne_src_node_key : pystr;
  ne_dst_node_key : pyval;
  ne_kind : pystr;
  ne_confidence : pystr;
  ne_evidence_key : pystr;
  ne_metadata : pydict
}.

Record EvidenceRecord := {
  er_stable_key : pystr;
  er_path : pystr;
  er_start_line : pyval;
  er_end_line : pyval;
  er_extractor : pystr;
  er_extractor_version : pystr;
  er_metadata : pydict
}.

Record NormalizedGraph := {
  ng_nodes : list NormalizedNode;
  ng_edges : list NormalizedEdge;
  ng_evidence : list EvidenceRecord;
  ng_raw_observations : Z
}.

(** The [to_dict] methods: [asdict] gives the fields in order. *)
Definition normalized_node_to_dict (n : NormalizedNode) : pydict :=
  [(lit "stable_key", VStr (nn_stable_key n)); (lit "kind", VStr (nn_kind n)); (lit "name", nn_name n);
   (lit "path", VStr (nn_path n)); (lit "start_line", nn_start_line n); (lit "end_line", nn_end_line n);
   (lit "metadata", VDict (nn_metadata n))].

Definition normalized_edge_to_dict (e : NormalizedEdge) : pydict :=
  [(lit "stable_key", VStr (ne_stable_key e)); (lit "src_node_key", VStr (ne_src_node_key e));
   (lit "dst_node_key", ne_dst_node_key e); (lit "kind", VStr (ne_kind e));
   (lit "confidence", VStr (ne_confidence e)); (lit "evidence_key", VStr (ne_evidence_key e));
   (lit "metadata", VDict (ne_metadata e))].

Definition evidence_record_to_dict (r : EvidenceRecord) : pydict :=
  [(lit "stable_key", VStr (er_stable_key r)); (lit "path", VStr (er_path r));
   (lit "start_line", er_start_line r); (lit "end_line", er_end_line r);
   (lit "extractor", VStr (er_extractor r)); (lit "extractor_version", VStr (er_extractor_version r));
   (lit "metadata", VDict (er_metadata r))].

Definition normalized_graph_to_dict (g : NormalizedGraph) : pydict :=
  let count {A} (l : list A) := VInt (Z.of_nat (length l)) in
  [(lit "summary", VDict [(lit "raw_observations", VInt (ng_raw_observations g));
                          (lit "nodes", count (ng_nodes g)); (lit "edges", count (ng_edges g));
                          (lit "evidence", count (ng_evidence g))]);
   (lit "nodes", VList (VDict ∘ normalized_node_to_dict <$> ng_nodes g));
   (lit "edges", VList (VDict ∘ normalized_edge_to_dict <$> ng_edges g));
   (lit "evidence", VList (VDict ∘ evidence_record_to_dict <$> ng_evidence g))].

Section Normalization.
Context {U : Unicode}.

(** [a or b] *)
Definition or_else (a b : pyval) : pyval := if truthy a then a else b.

(** [f"{value or 0}"] of a line number. *)
Definition line_text (v : pyval) : pystr := str_of_val (or_else v (VInt 0)).

Definition node_from_observation (o : RawObservation) : NormalizedNode :=
  {| nn_stable_key := lit "node:" ++ obs_path o ++ lit ":" ++ obs_kind o ++ lit ":" ++ obs_source_id o;
     nn_kind := obs_kind o;
     nn_name := or_else (obs_name o) (VStr (obs_source_id o));
     nn_path := obs_path o;
     nn_start_line := obs_start_line o;
     nn_end_line := obs_end_line o;
     nn_metadata := obs_metadata o |}.

Definition evidence_from_observation (o : RawObservation) : EvidenceRecord :=
  {| er_stable_key := lit "evidence:" ++ obs_path o ++ lit ":" ++ line_text (obs_start_line o) ++
       lit "-" ++ line_text (obs_end_line o) ++ lit ":" ++ obs_extractor o ++ lit ":" ++ obs_source_id o;
     er_path := obs_path o;
     er_start_line := obs_start_line o;
     er_end_line := obs_end_line o;
     er_extractor := obs_extractor o;
     er_extractor_version := obs_extractor_version o;
     er_metadata := [(lit "raw_source_id", VStr (obs_source_id o))] |}.

Definition edge_from_observation (o : RawObservation) (node : NormalizedNode)
    (evidence : EvidenceRecord) : NormalizedEdge :=
  {| ne_stable_key := lit "edge:" ++ nn_stable_key node ++ lit ":" ++ obs_kind o ++ lit ":" ++
       str_of_val (obs_target o);
     ne_src_node_key := nn_stable_key node;
     ne_dst_node_key := or_else (obs_target o) (VStr []);
     ne_kind := obs_kind o;
     ne_confidence := obs_confidence o;
     ne_evidence_key := er_stable_key evidence;
     ne_metadata := [] |}.

(** The three dicts of the loop. *)
Record norm_state := {
  ns_nodes : list (pystr * NormalizedNode);
  ns_edges : list (pystr * NormalizedEdge);
  ns_evidence : list (pystr * EvidenceRecord)
}.

Definition normalize_step (s : norm_state) (o : RawObservation) : norm_state :=
  let node := node_from_observation o in
  let record := evidence_from_observation o in
  {| ns_nodes := dict_set (nn_stable_key node) node (ns_nodes s);
     ns_evidence := dict_set (er_stable_key record) record (ns_evidence s);
     ns_edges := if is_none (obs_target o) then ns_edges s
                 else let edge := edge_from_observation o node record in
                      dict_set (ne_stable_key edge) edge (ns_edges s) |}.

Definition normalize_observations (os : list RawObservation) : NormalizedGraph :=
  let s := foldl normalize_step {| ns_nodes := []; ns_edges := []; ns_evidence := [] |} os in
  {| ng_nodes := (ns_nodes s).*2; ng_edges := (ns_edges s).*2; ng_evidence := (ns_evidence s).*2;
     ng_raw_observations := Z.of_nat (length os) |}.

Definition normalize_observation (o : RawObservation) : NormalizedGraph := normalize_observations [o].

End Normalization.
