(* ===== verification/ObservationsFacts.v ===== *)
(** Facts about raw observations: what construction guarantees, the round trips
    through dicts, JSON lines, files and the spool, and the graph the
    normalisation builds. *)
From S2P Require Import Prelude Utf8 PyVal Json PyDictFacts JsonFacts PyRepr Observations.
Open Scope Z_scope.

(** ** What construction guarantees *)

Definition nonblank (s : pystr) : Prop := strip s <> [].

(** No line range, or a range of positive lines in order. *)
Definition line_range_ok (start_line end_line : pyval) : Prop :=
  (start_line = VNone /\ end_line = VNone) \/
  exists s e, int_of start_line = Some s /\ int_of end_line = Some e /\ 1 <= s <= e.

Record valid_observation (o : RawObservation) : Prop := {
  vo_kind : nonblank (obs_kind o);
  vo_source_id : nonblank (obs_source_id o);
  vo_path : nonblank (obs_path o);
  vo_confidence : obs_confidence o ∈ VALID_CONFIDENCES;
  vo_extractor : nonblank (obs_extractor o);
  vo_extractor_version : nonblank (obs_extractor_version o);
  vo_lines : line_range_ok (obs_start_line o) (obs_end_line o);
  vo_schema : equals_int (obs_schema_version o) SCHEMA_VERSION = true
}.

Lemma required_text_Ok f v s : required_text f v = Ok s <-> v = VStr s /\ nonblank s.
Proof.
  unfold required_text, nonblank. destruct v; try (split; [done|by intros [? _]]).
  case_bool_decide as Hb; split; try done.
  - by intros [[= ->] ?].
  - by intros [= ->].
  - by intros [[= ->] ?].
Qed.

Lemma line_range_Ok s e : _validate_line_range s e = Ok tt <-> line_range_ok s e.
Proof.
  unfold line_range_ok. split.
  - unfold _validate_line_range. intros H.
    destruct (int_of s) as [a|] eqn:Es, (int_of e) as [b|] eqn:Ee;
      destruct s; try done; destruct e; try done; try (by left); right;
      (destruct ((a <? 1) || (b <? 1)) eqn:E1; [done|]; destruct (b <? a) eqn:E2; [done|];
       exists a, b; split_and!; [done|done|lia|lia]).
  - intros [[-> ->]|(a & b & Ea & Eb & H)]; [done|]. unfold _validate_line_range.
    rewrite Ea, Eb. replace ((a <? 1) || (b <? 1)) with false by lia. replace (b <? a) with false by lia.
    by destruct s, e.
Qed.

Lemma valid_confidence_nonblank c : c ∈ VALID_CONFIDENCES -> nonblank c.
Proof.
  intros H. repeat (apply elem_of_cons in H as [->|H]; [by vm_compute|]). by apply elem_of_nil in H.
Qed.

(** The fields of an observation, given back to the constructor. *)
Definition rebuild (o : RawObservation) : ores RawObservation :=
  raw_observation (VStr (obs_kind o)) (VStr (obs_source_id o)) (VStr (obs_path o))
    (VStr (obs_confidence o)) (VStr (obs_extractor o)) (VStr (obs_extractor_version o))
    (obs_start_line o) (obs_end_line o) (obs_name o) (obs_target o) (VDict (obs_metadata o))
    (obs_schema_version o).

Lemma rebuild_valid o : valid_observation o -> rebuild o = Ok o.
Proof.
  intros [H1 H2 H3 H4 H5 H6 H7 H8]. unfold rebuild, raw_observation.
  rewrite !(proj2 (required_text_Ok _ _ _)) by eauto using valid_confidence_nonblank. cbn.
  rewrite H8. cbn. rewrite bool_decide_true by done. cbn.
  rewrite (proj2 (line_range_Ok _ _)) by done. by destruct o.
Qed.

Lemma constructed_valid kind source_id path confidence extractor extractor_version start_line end_line
    name target metadata schema_version o :
  raw_observation kind source_id path confidence extractor extractor_version start_line end_line
    name target metadata schema_version = Ok o ->
  valid_observation o.
Proof.
  unfold raw_observation. intros H. unbind H.
  repeat match goal with G : required_text _ _ = Ok _ |- _ => apply required_text_Ok in G as [-> ?] end.
  destruct (negb (equals_int _ _)) eqn:Hv; [done|]. destruct (negb (bool_decide _)) eqn:Hc; [done|].
  destruct metadata; try done. destruct (_validate_line_range _ _) as [[]|] eqn:Hl; [|done].
  injection H as <-. apply negb_false_iff in Hv. apply negb_false_iff, bool_decide_eq_true in Hc.
  apply line_range_Ok in Hl. by constructor.
Qed.

(** ** Round trip through a dict *)

Lemma is_none_cases v : v = VNone \/ is_none v = false.
Proof. destruct v; auto. Qed.

Lemma from_dict_to_dict o : valid_observation o -> from_dict (VDict (to_dict o)) = Ok o.
Proof.
  intros Hv. rewrite <- (rebuild_valid o Hv). unfold rebuild.
  destruct o as [k si p c e ev sl el n t m sv]. cbn [obs_kind obs_source_id obs_path obs_confidence
    obs_extractor obs_extractor_version obs_start_line obs_end_line obs_name obs_target obs_metadata
    obs_schema_version].
  unfold to_dict, present. cbn [obs_kind obs_source_id obs_path obs_confidence
    obs_extractor obs_extractor_version obs_start_line obs_end_line obs_name obs_target obs_metadata
    obs_schema_version mbind list_bind fst snd app].
  destruct (is_none_cases sl) as [->|Hs], (is_none_cases el) as [->|He],
    (is_none_cases n) as [->|Hn], (is_none_cases t) as [->|Ht];
    rewrite ?Hs, ?He, ?Hn, ?Ht; reflexivity.
Qed.

(** ** Round trip through a JSON line *)

Lemma from_dict_ext d d' :
  (forall k, dict_get k d = dict_get k d') -> from_dict (VDict d) = from_dict (VDict d').
Proof. intros H. unfold from_dict, require, get_or. by rewrite !H. Qed.

(** An observation after its values went through JSON. *)
Definition obs_norm (o : RawObservation) : RawObservation :=
  {| obs_kind := obs_kind o; obs_source_id := obs_source_id o; obs_path := obs_path o;
     obs_confidence := obs_confidence o; obs_extractor := obs_extractor o;
     obs_extractor_version := obs_extractor_version o;
     obs_start_line := json_norm (obs_start_line o); obs_end_line := json_norm (obs_end_line o);
     obs_name := json_norm (obs_name o); obs_target := json_norm (obs_target o);
     obs_metadata := sort_items ((fun kv : pystr * pyval => (kv.1, json_norm kv.2)) <$> obs_metadata o);
     obs_schema_version := json_norm (obs_schema_version o) |}.

(** Every value of the observation is one JSON text keeps. *)
Definition clean_observation (o : RawObservation) : bool := json_clean (VDict (to_dict o)).

Lemma int_of_norm v : int_of (json_norm v) = int_of v.
Proof. by destruct v. Qed.

Lemma equals_int_norm v n : equals_int (json_norm v) n = equals_int v n.
Proof. by destruct v. Qed.

Lemma is_none_norm v : is_none (json_norm v) = is_none v.
Proof. by destruct v. Qed.

Lemma obs_norm_valid o : valid_observation o -> valid_observation (obs_norm o).
Proof.
  intros [H1 H2 H3 H4 H5 H6 H7 H8]. constructor; cbn; try done.
  - destruct H7 as [[-> ->]|(s & e & Hs & He & ?)]; [by left|right].
    exists s, e. by rewrite !int_of_norm.
  - by rewrite equals_int_norm.
Qed.

Lemma to_dict_norm o :
  to_dict (obs_norm o) = (fun kv : pystr * pyval => (kv.1, json_norm kv.2)) <$> to_dict o.
Proof.
  unfold to_dict, present. cbn [mbind list_bind fst snd obs_norm obs_kind obs_source_id obs_path
    obs_confidence obs_extractor obs_extractor_version obs_start_line obs_end_line obs_name obs_target
    obs_metadata obs_schema_version]. rewrite !is_none_norm, !fmap_app. cbn [fmap list_fmap fst snd].
  apply f_equal2; [done|]. by destruct (is_none (obs_start_line o)), (is_none (obs_end_line o)),
    (is_none (obs_name o)), (is_none (obs_target o)).
Qed.

Lemma norm_keys (d : pydict) : ((fun kv : pystr * pyval => (kv.1, json_norm kv.2)) <$> d).*1 = d.*1.
Proof. rewrite <- list_fmap_compose. by apply list_fmap_ext. Qed.

(** [from_dict] raises nothing but validation errors. *)
Lemma from_dict_errors payload e :
  from_dict payload = Err e -> exists e', e = ObservationValidationError None e'.
Proof.
  assert (Hreq : forall p k x, require p k = Err x -> exists e', x = ObservationValidationError None e')
    by (intros p k x; unfold require; destruct (dict_get _ _); [done|]; intros [= <-]; eauto).
  assert (Htext : forall f v x, required_text f v = Err x -> exists e', x = ObservationValidationError None e')
    by (intros f v x; unfold required_text; destruct v; try case_bool_decide; try done; intros [= <-]; eauto).
  assert (Hrange : forall a b x, _validate_line_range a b = Err x -> exists e', x = ObservationValidationError None e')
    by (intros a b x; unfold _validate_line_range; repeat case_match; try done; intros [= <-]; eauto).
  unfold from_dict, raw_observation. destruct payload; try (intros [= <-]; eauto).
  repeat match goal with
    | |- (?m ≫= _) = Err _ -> _ => let E := fresh "E" in destruct m eqn:E; cbn [mbind result_bind]; [|intros [= <-]; eauto]
    end.
  repeat case_match; try (intros [= <-]; eauto).
  destruct (_validate_line_range _ _) eqn:Hl; cbn; [done|]. intros [= <-]. eauto.
Qed.

(** The observation's line can be read by the interpreter: its JSON text nests no
    deeper than the stack allows. *)
Definition readable (py : interpreter) (o : RawObservation) : bool :=
  (nesting (VDict (to_dict o)) <=? py_stack py)%nat.

Section Lines.
Context (py : interpreter).

Lemma from_json_line_to_json_line o n :
  valid_observation o -> clean_observation o = true -> readable py o = true ->
  from_json_line py (to_json_line o) n = Ok (obs_norm o).
Proof.
  intros Hv Hc Hr%Nat.leb_le. unfold from_json_line, to_json_line. rewrite loads_within_dumps by done.
  assert (Hn : NoDup (to_dict o).*1)
    by (apply andb_true_iff in Hc as [_ Hn]; by apply bool_decide_eq_true in Hn).
  cbn [json_norm]. rewrite (from_dict_ext _ (to_dict (obs_norm o))).
  - by rewrite from_dict_to_dict by by apply obs_norm_valid.
  - intros k. rewrite to_dict_norm. apply dict_get_perm; [|apply sort_items_perm].
    by rewrite sort_items_perm, norm_keys.
Qed.

(** A line gives a valid observation, an error with its number, or one of the
    interpreter's two limits. *)
Lemma from_json_line_outcome line n :
  (exists o, from_json_line py line (Some n) = Ok o /\ valid_observation o) \/
  (exists e, from_json_line py line (Some n) = Err (ObservationValidationError (Some n) e)) \/
  from_json_line py line (Some n) = Err IntegerDigitsExceeded \/
  from_json_line py line (Some n) = Err RecursionError.
Proof.
  unfold from_json_line. destruct (loads_terminates (py_float py) (Some (py_stack py)) line) as [Ht Hh].
  destruct (loads_within _ _ _ line) as [payload|[]]; [|by eauto 6..].
  destruct (from_dict payload) as [o|e] eqn:E.
  - left. exists o. split; [done|]. unfold from_dict in E. destruct payload; try done.
    unbind E. by eapply constructed_valid.
  - destruct (from_dict_errors _ _ E) as (e' & ->). eauto.
Qed.

(** *** Files of JSON lines *)

Definition printable (s : pystr) : Prop := Forall (fun c => 32 <= c < 127) s.

Lemma printable_app s t : printable s -> printable t -> printable (s ++ t).
Proof. apply Forall_app_2. Qed.

Lemma printable_lit s : forallb (fun c => (32 <=? c) && (c <? 127)) s = true -> printable s.
Proof.
  intros H. apply Forall_forall. intros c Hc. rewrite forallb_forall in H.
  apply list_elem_of_In, H in Hc. lia.
Qed.

Lemma hex4_printable n : 0 <= n -> printable (hex4 n).
Proof.
  intros Hn. unfold hex4. repeat (apply Forall_cons; split; [|]); try apply Forall_nil; try done;
    match goal with |- context [?x mod 16 <? 10] => pose proof (Z.mod_pos_bound x 16 ltac:(lia)) end;
    destruct (_ <? _) eqn:E; lia.
Qed.

Lemma json_char_printable c : is_scalar c = true -> printable (json_char c).
Proof.
  intros Hc%is_scalar_spec. unfold json_char.
  do 7 (destruct (c =? _); [by apply printable_lit|]).
  destruct ((32 <=? c) && (c <? 127)) eqn:E; [apply Forall_singleton; lia|].
  assert (printable (lit "\u")) by by apply printable_lit.
  destruct (c <? 65536) eqn:E'; [apply printable_app; [done|apply hex4_printable; lia]|].
  pose proof (Z.mod_pos_bound (c - 65536) 1024 ltac:(lia)).
  assert (0 <= (c - 65536) / 1024) by (apply Z.div_pos; lia).
  cbn zeta. repeat apply printable_app; try done; apply hex4_printable; lia.
Qed.

Lemma json_str_printable s : forallb is_scalar s = true -> printable (json_str s).
Proof.
  intros Hs. unfold json_str. apply printable_app; [by apply printable_lit|].
  apply printable_app; [|by apply printable_lit].
  induction s as [|c s IH]; cbn in *; [by apply Forall_nil|].
  apply andb_true_iff in Hs as [Hc Hs]. apply printable_app; [by apply json_char_printable|auto].
Qed.

(** *** The characters of a text on one line *)

Section Chars.
Variable P : Z -> Prop.
Hypothesis ascii : forall c, 32 <= c < 127 -> P c.

(** A style that writes on one line with characters of [P]. *)
Record writes_with (st : json_style) : Prop := {
  ww_indent : indent st = None;
  ww_item : Forall P (item_separator st);
  ww_key : Forall P (key_separator st);
  ww_char c : is_scalar c = true -> Forall P (style_char st c)
}.

Lemma printable_P s : printable s -> Forall P s.
Proof. intros H. eapply Forall_impl; [exact H|]. exact ascii. Qed.

Lemma join_with_P sep parts : Forall P sep -> Forall (Forall P) parts -> Forall P (join_with sep parts).
Proof.
  intros Hsep. induction 1 as [|p [|q parts] Hp _ IH]; cbn [join_with]; [by apply Forall_nil|done|].
  by repeat apply Forall_app_2.
Qed.

Lemma style_str_P st s : writes_with st -> forallb is_scalar s = true -> Forall P (style_str st s).
Proof.
  intros Hst Hs. unfold style_str. assert (P 34) by (apply ascii; lia). constructor; [done|].
  apply Forall_app_2; [|by constructor]. induction s as [|c s IH]; [by apply Forall_nil|].
  cbn in Hs. apply andb_true_iff in Hs as [Hc Hs]. apply Forall_app_2; [by apply Hst|auto].
Qed.

Lemma bracketed_P st o c parts level :
  writes_with st -> P o -> P c -> Forall (Forall P) parts -> Forall P (bracketed st level o c parts).
Proof.
  intros Hst Ho Hc Hp. assert (Forall P [c]) by by apply Forall_singleton.
  destruct parts as [|p parts]; [by apply Forall_cons|].
  unfold bracketed, newline. rewrite (ww_indent _ Hst). cbn [app]. rewrite app_nil_r.
  apply Forall_cons. split; [done|]. apply Forall_app_2; [|done]. by apply join_with_P; [apply Hst|].
Qed.

Lemma json_text_P st level v : writes_with st -> json_clean v = true -> Forall P (json_text st level v).
Proof.
  intros Hst. revert level.
  assert (P 91 /\ P 93 /\ P 123 /\ P 125) as (H1 & H2 & H3 & H4) by (split_and!; apply ascii; lia).
  induction v as [|b|n|t i|s|l IH|l IH|d IH] using pyval_ind'; intros level Hc; cbn [json_text json_clean] in *.
  - by apply printable_P, printable_lit.
  - destruct b; by apply printable_P, printable_lit.
  - apply printable_P. assert (Hnat : forall m, 0 <= m -> printable (str_of_int m)).
    { intros m Hm. destruct (str_of_nat_digits m Hm) as (ds & -> & Hd & _). eapply Forall_impl; [exact Hd|].
      unfold is_digit. intros x ?. cbn in *. lia. }
    destruct (Z_lt_le_dec n 0); [|by apply Hnat]. rewrite str_of_neg by done.
    apply Forall_cons. split; [lia|]. apply Hnat. lia.
  - done.
  - by apply style_str_P.
  - apply bracketed_P; [done|done|done|]. apply Forall_fmap. rewrite Forall_forall in IH |- *.
    rewrite forallb_forall in Hc. intros v Hv. apply IH; [done|]. by apply Hc, list_elem_of_In.
  - apply bracketed_P; [done|done|done|]. apply Forall_fmap. rewrite Forall_forall in IH |- *.
    rewrite forallb_forall in Hc. intros v Hv. apply IH; [done|]. by apply Hc, list_elem_of_In.
  - apply andb_true_iff in Hc as [Hc _]. apply bracketed_P; [done|done|done|].
    rewrite sort_items_map, <- list_fmap_compose. apply Forall_fmap. rewrite sort_items_perm.
    rewrite Forall_forall in IH |- *. rewrite forallb_forall in Hc. intros kv Hkv.
    pose proof (Hc kv (proj1 (list_elem_of_In _ _) Hkv)) as [Hk Hv]%andb_true_iff.
    apply (Forall_app_2 _ (style_str st kv.1)); [by apply style_str_P|]. apply Forall_app_2; [apply Hst|]. by apply IH.
Qed.
End Chars.

(** A style whose text is printable ASCII on one line. *)
Definition one_line : json_style -> Prop := writes_with (fun c => 32 <= c < 127).

Lemma default_one_line : one_line default_style.
Proof. split; [done|by apply printable_lit|by apply printable_lit|apply json_char_printable]. Qed.

Lemma compact_one_line : one_line compact_style.
Proof. split; [done|by apply printable_lit|by apply printable_lit|apply json_char_printable]. Qed.

(** Text [json.dumps] writes on one line is printable ASCII. *)
Lemma json_text_printable st level v : one_line st -> json_clean v = true -> printable (json_text st level v).
Proof. by apply json_text_P. Qed.

(** A line of text without control characters, one of a file. *)
Definition unbroken (s : pystr) : Prop := Forall (fun c => 32 <= c) s.
Definition is_line (s : pystr) : Prop := exists body, s = body ++ [10] /\ unbroken body /\ body <> [].

Lemma printable_unbroken s : printable s -> unbroken s.
Proof. intros H. eapply Forall_impl; [exact H|]. cbn. lia. Qed.

Lemma universal_newlines_line body rest :
  unbroken body -> universal_newlines (body ++ 10 :: rest) = body ++ 10 :: universal_newlines rest.
Proof.
  induction 1 as [|c body Hc _ IH]; [done|]. cbn [app universal_newlines].
  rewrite (proj2 (Z.eqb_neq c 13)) by lia. by rewrite IH.
Qed.

Lemma split_lines_line line body rest :
  unbroken body -> split_lines line (body ++ 10 :: rest) = (line ++ body ++ [10]) :: split_lines [] rest.
Proof.
  intros H. revert line. induction H as [|c body Hc _ IH]; intros line; cbn; [done|].
  rewrite (proj2 (Z.eqb_neq c 10)) by lia. rewrite IH. by rewrite <- app_assoc.
Qed.

Lemma file_lines_join lines : Forall is_line lines -> file_lines (lines ≫= id) = lines.
Proof.
  unfold file_lines. induction 1 as [|l lines (body & -> & Hb & _) _ IH]; [done|].
  cbn [mbind list_bind id]. rewrite <- app_assoc. cbn [app].
  rewrite universal_newlines_line, split_lines_line by done. cbn [app]. f_equal. exact IH.
Qed.

Lemma to_json_line_is_line o : clean_observation o = true -> is_line (to_json_line o).
Proof.
  intros Hc. exists (dumps default_style (VDict (to_dict o))). split; [done|].
  split; [by apply printable_unbroken, json_text_printable; [apply default_one_line|]|].
  destruct (json_text_starts default_style 0 _ Hc) as (c & r & E & _). unfold dumps. by rewrite E.
Qed.

Lemma file_lines_written os :
  forallb clean_observation os = true ->
  file_lines (write_observations_jsonl os) = to_json_line <$> os.
Proof.
  intros Hc. rewrite <- (file_lines_join (to_json_line <$> os)).
  - unfold write_observations_jsonl. f_equal. induction os as [|o os IH]; [done|]. cbn.
    f_equal. apply IH. cbn [forallb] in Hc. by apply andb_true_iff in Hc as [].
  - apply Forall_fmap, Forall_forall. intros o Ho. rewrite forallb_forall in Hc.
    by apply to_json_line_is_line, Hc, list_elem_of_In.
Qed.

Lemma lstrip_keeps s c : c ∈ s -> isspace c = false -> c ∈ lstrip s.
Proof.
  induction s as [|d s IH]; cbn; intros Hin Hc; [done|].
  destruct (isspace d) eqn:Hd; [|done]. apply elem_of_cons in Hin as [->|Hin]; [congruence|auto].
Qed.

(** A text with a character that is not a space is not blank. *)
Lemma nonblank_has s c : c ∈ s -> isspace c = false -> nonblank s.
Proof.
  intros Hin Hc. unfold nonblank, strip. intros E.
  assert (c ∈ reverse (lstrip (reverse (lstrip s)))) as H.
  { apply elem_of_reverse, lstrip_keeps; [|done]. apply elem_of_reverse. by apply lstrip_keeps. }
  rewrite E in H. by apply elem_of_nil in H.
Qed.

Lemma to_json_line_nonblank o : nonblank (to_json_line o).
Proof.
  apply (nonblank_has _ 123); [|done]. unfold to_json_line, dumps, to_dict. cbn [json_text app].
  apply elem_of_app. left. unfold bracketed. case_match; apply elem_of_cons; by left.
Qed.

Lemma read_lines_written n os :
  Forall valid_observation os -> forallb clean_observation os = true -> forallb (readable py) os = true ->
  _read_observations_lines py n (to_json_line <$> os) = Ok (obs_norm <$> os).
Proof.
  revert n. induction os as [|o os IH]; intros n Hv Hc Hr; [done|].
  inversion_clear Hv. cbn [forallb] in Hc, Hr. apply andb_true_iff in Hc as [Ho Hos], Hr as [Hro Hros].
  cbn [fmap list_fmap _read_observations_lines].
  rewrite bool_decide_false by apply to_json_line_nonblank.
  rewrite from_json_line_to_json_line by done. cbn. by rewrite IH.
Qed.

Lemma replay_lines_written n os :
  Forall valid_observation os -> forallb clean_observation os = true -> forallb (readable py) os = true ->
  replay_lines py n (to_json_line <$> os) = Ok (obs_norm <$> os).
Proof.
  revert n. induction os as [|o os IH]; intros n Hv Hc Hr; [done|].
  inversion_clear Hv. cbn [forallb] in Hc, Hr. apply andb_true_iff in Hc as [Ho Hos], Hr as [Hro Hros].
  cbn [fmap list_fmap replay_lines].
  rewrite from_json_line_to_json_line by done. cbn. by rewrite IH.
Qed.

(** ** The spool *)

Lemma utf8_encode_ascii s : Forall (fun c => 0 <= c < 128) s -> utf8_encode s = Some s.
Proof.
  induction 1 as [|c s Hc _ IH]; [done|]. cbn.
  assert (utf8_encode_char c = Some [c]) as ->.
  { unfold utf8_encode_char. rewrite (proj2 (is_scalar_spec c)) by lia. cbn.
    by replace (c <? 128) with true by lia. }
  cbn. by rewrite IH.
Qed.

Lemma spool_fold os text count bytes :
  forallb clean_observation os = true ->
  foldl spool_step (text, count, bytes) os =
  (text ++ write_observations_jsonl os, count + Z.of_nat (length os),
   bytes + Z.of_nat (length (write_observations_jsonl os))).
Proof.
  revert text count bytes. induction os as [|o os IH]; intros text count bytes Hc.
  { cbn. rewrite app_nil_r. f_equal; [f_equal|]; lia. }
  cbn [forallb] in Hc. apply andb_true_iff in Hc as [Ho Hos].
  cbn [foldl spool_step]. rewrite utf8_encode_ascii.
  - rewrite IH by done.
    change (write_observations_jsonl (o :: os)) with (to_json_line o ++ write_observations_jsonl os).
    rewrite <- app_assoc, length_app. cbn [default from_option id length]. f_equal; [f_equal|]; lia.
  - change (to_json_line o) with (dumps default_style (VDict (to_dict o)) ++ [10]). apply Forall_app. split.
    + eapply Forall_impl; [apply (json_text_printable _ _ _ default_one_line Ho)|]. cbn. lia.
    + apply Forall_singleton. lia.
Qed.

(** A spool replays what was written to it, and counts it. *)
Lemma spool_replays os blocks :
  Forall valid_observation os -> forallb clean_observation os = true -> forallb (readable py) os = true ->
  exists spool, from_observations os false blocks = (Ok spool, Some (write_observations_jsonl os)) /\
    spool_iter py spool = Ok (obs_norm <$> os) /\
    spool_count spool = Z.of_nat (length os) /\
    spool_byte_count spool = Z.of_nat (length (write_observations_jsonl os)).
Proof.
  intros Hv Hc Hr. unfold from_observations. rewrite spool_fold by done. cbn [app].
  eexists. split_and!; [done| |done|done]. unfold spool_iter. cbn [spool_closed spool_file].
  rewrite file_lines_written by done. by apply replay_lines_written.
Qed.

End Lines.

(** ** Normalisation *)

Section Normalized.
Context {U : Unicode}.

(** Every record is filed under its own key, once; every edge leaves a node of
    the graph and names an evidence record of it. *)
Record norm_ok (s : norm_state) : Prop := {
  no_nodes : Forall (fun kn => kn.1 = nn_stable_key kn.2) (ns_nodes s);
  no_edges : Forall (fun ke => ke.1 = ne_stable_key ke.2) (ns_edges s);
  no_evidence : Forall (fun kr => kr.1 = er_stable_key kr.2) (ns_evidence s);
  no_nodes_once : NoDup (ns_nodes s).*1;
  no_edges_once : NoDup (ns_edges s).*1;
  no_evidence_once : NoDup (ns_evidence s).*1;
  no_sources : Forall (fun ke => ne_src_node_key ke.2 ∈ (ns_nodes s).*1) (ns_edges s);
  no_supports : Forall (fun ke => ne_evidence_key ke.2 ∈ (ns_evidence s).*1) (ns_edges s)
}.

Lemma key_in_dict_set {A} (d : list (pystr * A)) k v k' : k' ∈ d.*1 -> k' ∈ (dict_set k v d).*1.
Proof. intros H. rewrite dict_set_keys. case_bool_decide; [done|]. apply elem_of_app. by left. Qed.

Lemma key_of_dict_set {A} (d : list (pystr * A)) k v : k ∈ (dict_set k v d).*1.
Proof. apply dict_get_is_Some. rewrite dict_get_set_eq. eauto. Qed.

Lemma normalize_step_ok s o : norm_ok s -> norm_ok (normalize_step s o).
Proof.
  intros [H1 H2 H3 H4 H5 H6 H7 H8]. unfold normalize_step.
  assert (Hsrc : Forall (fun ke : pystr * NormalizedEdge => ne_src_node_key ke.2 ∈
    (dict_set (nn_stable_key (node_from_observation o)) (node_from_observation o) (ns_nodes s)).*1) (ns_edges s))
    by (eapply Forall_impl; [exact H7|]; intros; by apply key_in_dict_set).
  assert (Hsup : Forall (fun ke : pystr * NormalizedEdge => ne_evidence_key ke.2 ∈
    (dict_set (er_stable_key (evidence_from_observation o)) (evidence_from_observation o) (ns_evidence s)).*1)
    (ns_edges s)) by (eapply Forall_impl; [exact H8|]; intros; by apply key_in_dict_set).
  constructor; cbn [ns_nodes ns_edges ns_evidence];
    try (destruct (is_none (obs_target o)); [done|]); auto using Forall_dict_set, NoDup_dict_set.
  - apply Forall_dict_set; [done|]. apply key_of_dict_set.
  - apply Forall_dict_set; [done|]. apply key_of_dict_set.
Qed.

Lemma normalize_ok os s : norm_ok s -> norm_ok (foldl normalize_step s os).
Proof. revert s. induction os as [|o os IH]; cbn; auto using normalize_step_ok. Qed.

Lemma empty_norm_ok : norm_ok {| ns_nodes := []; ns_edges := []; ns_evidence := [] |}.
Proof. constructor; cbn; auto using NoDup_nil_2. Qed.

(** The keys of the records, taken from the records. *)
Lemma filed_keys {A} (key : A -> pystr) (d : list (pystr * A)) :
  Forall (fun kv => kv.1 = key kv.2) d -> key <$> d.*2 = d.*1.
Proof. induction 1 as [|[k v] d H _ IH]; cbn in *; [done|]. by rewrite <- H, IH. Qed.

(** After every observation, the node of the last one with its key is filed. *)
Lemma normalize_last os o s :
  dict_get (nn_stable_key (node_from_observation o)) (ns_nodes (foldl normalize_step s (os ++ [o]))) =
  Some (node_from_observation o).
Proof. rewrite foldl_app. cbn. apply dict_get_set_eq. Qed.

End Normalized.

(** ** The properties *)

(** Constructing a [RawObservation] is exact: the constructor returns a
    record for some arguments precisely when the record has non-blank required
    texts, a registered confidence, schema version 1 and either no line range or
    a range of positive lines in order; and [from_dict] gives such a record back
    from its [to_dict]. *)
Theorem observation_constructor_exact (o : RawObservation) :
  (valid_observation o <->
   exists kind source_id path confidence extractor extractor_version start_line end_line name target
          metadata schema_version,
     raw_observation kind source_id path confidence extractor extractor_version start_line end_line
       name target metadata schema_version = Ok o) /\
  (valid_observation o -> from_dict (VDict (to_dict o)) = Ok o).
Proof.
  split; [|apply from_dict_to_dict]. split.
  - intros H%rebuild_valid. unfold rebuild in H. eauto 20.
  - intros (? & ? & ? & ? & ? & ? & ? & ? & ? & ? & ? & ? & H). by eapply constructed_valid.
Qed.

(** C28. Observations written as JSON lines come back: reading the text that
    [write_observations_jsonl] wrote gives the same observations in order, each
    value as JSON keeps it (keys of objects in order, tuples as lists), and a
    spool filled from them replays the same sequence, with its count and byte
    count equal to what was written.  The observations hold what JSON can write
    ([clean_observation]: no floats, no lone surrogates, distinct keys) and nest
    no deeper than the interpreter's stack lets it read ([readable]). *)
Theorem observation_jsonl_roundtrip (py : interpreter) (os : list RawObservation) (blocks : Z) :
  Forall valid_observation os ->
  forallb clean_observation os = true ->
  forallb (readable py) os = true ->
  read_observations_jsonl py (write_observations_jsonl os) = Ok (obs_norm <$> os) /\
  exists spool,
    from_observations os false blocks = (Ok spool, Some (write_observations_jsonl os)) /\
    spool_iter py spool = Ok (obs_norm <$> os) /\
    spool_count spool = Z.of_nat (length os) /\
    spool_byte_count spool = Z.of_nat (length (write_observations_jsonl os)).
Proof.
  intros Hv Hc Hr. split; [|by apply spool_replays].
  unfold read_observations_jsonl. rewrite file_lines_written by done. by apply read_lines_written.
Qed.

(** C38. Reading observations always ends: whatever the text of the file, the
    JSON scanner never runs out of steps, and the outcome is the observations,
    a validation error that carries the number of the offending line, or one of
    the two limits of the interpreter that the reader does not catch: an
    over-long integer or a line nested deeper than the stack. *)
Theorem observation_reading_terminates (py : interpreter) (text : pystr) :
  match read_observations_jsonl py text with
  | Ok os => Forall valid_observation os
  | Err (ObservationValidationError (Some n) _) => 1 <= n <= Z.of_nat (length (file_lines text))
  | Err e => e = IntegerDigitsExceeded \/ e = RecursionError
  end.
Proof.
  unfold read_observations_jsonl.
  enough (forall n lines, match _read_observations_lines py n lines with
    | Ok os => Forall valid_observation os
    | Err (ObservationValidationError (Some k) _) => n <= k < n + Z.of_nat (length lines)
    | Err e => e = IntegerDigitsExceeded \/ e = RecursionError
    end) as H.
  { specialize (H 1 (file_lines text)). destruct (_read_observations_lines _ _ _) as [os|[[k|] e| | | | | |]]; try done. lia. }
  intros n lines. revert n. induction lines as [|line lines IH]; intros n; cbn [_read_observations_lines]; [by apply Forall_nil|].
  specialize (IH (n + 1)). cbn [length]. case_bool_decide.
  { destruct (_read_observations_lines _ _ _) as [os|[[k|] e| | | | | |]]; try done. lia. }
  destruct (from_json_line_outcome py line n) as [(o & -> & Ho)|[(e & ->)|[->| ->]]]; cbn; [|lia|by left|by right].
  destruct (_read_observations_lines _ _ _) as [os|[[k|] e| | | | | |]]; cbn; try done; [|lia].
  by apply Forall_cons.
Qed.

(** The normalised graph is closed and keyed: no two nodes, edges or
    evidence records share a stable key, every edge starts at a node of the
    graph and names an evidence record of the graph, and the node of the last
    observation is in it. *)
Theorem normalized_graph_closed {U : Unicode} (os : list RawObservation) :
  let g := normalize_observations os in
  NoDup (nn_stable_key <$> ng_nodes g) /\ NoDup (ne_stable_key <$> ng_edges g) /\
  NoDup (er_stable_key <$> ng_evidence g) /\
  Forall (fun e => ne_src_node_key e ∈ nn_stable_key <$> ng_nodes g /\
                   ne_evidence_key e ∈ er_stable_key <$> ng_evidence g) (ng_edges g) /\
  (forall o, last os = Some o -> node_from_observation o ∈ ng_nodes g).
Proof.
  cbn zeta. unfold normalize_observations. cbn [ng_nodes ng_edges ng_evidence].
  pose proof (normalize_ok os _ empty_norm_ok) as Hok. destruct Hok as [H1 H2 H3 H4 H5 H6 H7 H8].
  rewrite !filed_keys by done. split_and!; [done|done|done| |].
  - apply Forall_fmap, Forall_and. split; done.
  - intros o (l & ->)%last_Some. pose proof (normalize_last l o {| ns_nodes := []; ns_edges := []; ns_evidence := [] |}) as Hl.
    apply dict_get_elem in Hl. apply list_elem_of_fmap. eexists. split; [|exact Hl]. done.
Qed.

(** *** Witnesses *)

Definition sample_observation : RawObservation :=
  {| obs_kind := lit "python.import"; obs_source_id := lit "a.py:1"; obs_path := lit "a.py";
     obs_confidence := lit "extracted"; obs_extractor := lit "python"; obs_extractor_version := lit "1";
     obs_start_line := VInt 1; obs_end_line := VInt 1; obs_name := VNone;
     obs_target := VStr (lit "file:b.py");
     obs_metadata := [(lit "z", VInt 7); (lit "module", VStr [233; 128512])];
     obs_schema_version := VInt 1 |}.

Lemma sample_observation_valid : valid_observation sample_observation.
Proof.
  constructor; [by vm_compute|by vm_compute|by vm_compute|decide_closed|by vm_compute|by vm_compute| |done].
  right. by exists 1, 1.
Qed.

(** An interpreter that reads no floats and three levels of nesting. *)
Definition shallow_interpreter : interpreter := {| py_float := fun _ => VNone; py_stack := 3 |}.

(** A line of brackets, one more than the stack allows. *)
Example deep_line_raises :
  read_observations_jsonl shallow_interpreter (lit "[[[[]]]]") = Err RecursionError.
Proof. reflexivity. Qed.

Lemma observation_jsonl_roundtrip_witness :
  read_observations_jsonl shallow_interpreter (write_observations_jsonl [sample_observation; sample_observation]) =
  Ok [obs_norm sample_observation; obs_norm sample_observation].
Proof.
  apply (observation_jsonl_roundtrip shallow_interpreter [sample_observation; sample_observation] 8).
  - apply Forall_cons. split; [apply sample_observation_valid|].
    apply Forall_singleton, sample_observation_valid.
  - vm_compute. reflexivity.
  - vm_compute. reflexivity.
Defined.
