(* ===== verification/CanonCore.v ===== *)
(** The core of canonicalization: [canonicalization/diagnostics.py],
    [records.py], [core.py], [dispatch.py] and the helper modules the observation
    families share ([diagnostic_helpers.py], [edge_helpers.py],
    [metadata_helpers.py], [file_helpers.py]).

    A handler mutates the state's dicts and lists and may raise, so it is a
    computation of the monad [CM]: state passing in which an exception keeps the
    mutations made before it. *)
From S2P Require Import Prelude Utf8 Sha256 PyVal Json PyRepr GraphKeys Observations.
Open Scope Z_scope.

(** ** Equality of Python values *)

(** The pointwise comparison of two sequences. *)
Definition all2 {A B} (f : A -> B -> bool) : list A -> list B -> bool :=
  fix go l m :=
    match l, m with
    | [], [] => true
    | x :: l', y :: m' => f x y && go l' m'
    | _, _ => false
    end.

(** A number, by the integer it equals or by its [repr]. *)
Inductive number := Integral (n : Z) | Fractional (repr : pystr).

#[export] Instance number_eq_dec : EqDecision number.
Proof. solve_decision. Defined.

Definition number_of (v : pyval) : option number :=
  match v with
  | VBool b => Some (Integral (if b then 1 else 0))
  | VInt n => Some (Integral n)
  | VFloat _ (Some n) => Some (Integral n)
  | VFloat r None => Some (Fractional r)
  | _ => None
  end.

(** [a == b] *)
Fixpoint py_eq (a b : pyval) {struct a} : bool :=
  match a, b with
  | VNone, VNone => true
  | VStr s, VStr t => bool_decide (s = t)
  | VList l, VList m => all2 py_eq l m
  | VTuple l, VTuple m => all2 py_eq l m
  | VDict d, VDict e =>
      (Nat.eqb (length d) (length e)) &&
      forallb (fun kv : pystr * pyval =>
                 match dict_get kv.1 e with Some w => py_eq kv.2 w | None => false end) d
  | _, _ => match number_of a, number_of b with
            | Some m, Some n => bool_decide (m = n)
            | _, _ => false
            end
  end.

(** [v in l] *)
Definition py_in (v : pyval) (l : list pyval) : bool := existsb (fun w => py_eq w v) l.

(** ** Exceptions and messages *)

(** [needle in s] *)
Fixpoint contains (needle s : pystr) : bool :=
  startswith needle s || match s with [] => false | _ :: rest => contains needle rest end.

(** What canonicalization can raise.  A [GraphKeyError] is its message. *)
Inductive cexn :=
| CGraphKeyError (msg : pystr)
| CUnicodeEncodeError
| CKeyError
| CValueError
| CTypeError
| CAttributeError.

#[export] Instance cexn_eq_dec : EqDecision cexn.
Proof. solve_decision. Defined.

Abbreviation cres := (result cexn).

Section Canon.
Context {U : Unicode}.

(** [str(error)] of the errors the key functions raise. *)
Definition key_error_message (e : key_error) : pystr :=
  match e with
  | KeyMustBeString => lit "canonical key must be a string"
  | KeyRequired => lit "canonical key is required"
  | SeparatorMissing => lit "canonical key must include a namespace separator"
  | UnknownNamespace ns => lit "unknown canonical key namespace: " ++ ns
  | SegmentCount ns n => ns ++ lit " keys require " ++ str_of_int (Z.of_nat n) ++ lit " segments"
  | SegmentRequired => lit "canonical key segment is required"
  | ReservedCharacter c => lit "reserved character " ++ repr_str [c] ++ lit " must be percent-encoded"
  | NotUtf8 => lit "percent-encoded segment is not valid UTF-8"
  | MalformedEscape => lit "malformed percent escape"
  | LowercaseEscape => lit "percent escapes must use uppercase hex digits"
  | FileKeyRequiresPath => lit "file key requires a path"
  | FileKeyEmptyComponent => lit "file key path must not contain empty components"
  | FileKeyNotNormalized => lit "file key path must be normalized"
  | FileKeyEscapes => lit "file key path must not escape the repository"
  | PathTypeInvalid => lit "file path must be a string or path-like object"
  | PathRequired => lit "file path is required"
  | PathAbsolute => lit "file path must not be absolute"
  | PathEscapes => lit "file path must not escape the repository"
  | FileKeyRequired => lit "documentation page keys require a file key"
  | ParentNamespace ns => ns ++ lit " keys require a " ++ ns ++ lit " parent key"
  | PointerRequired => lit "config pointer is required"
  | PointerNotNormalized => lit "config pointer must be normalized"
  | JsPointerRequired => lit "JavaScript pointer is required"
  | JsTestCaseOwner => lit "js.test_case keys require js.file or js.test_suite owner"
  | GoIdentityRequired => lit "Go canonical identity component is required"
  | GoIdentityTooLong maximum =>
      lit "Go canonical identity component exceeds " ++ str_of_int maximum ++ lit " UTF-8 bytes"
  | GoModuleNotSlashPath => lit "Go module identity must be a non-local slash path"
  | GoModuleTraverses => lit "Go module identity must not traverse directories"
  | GoFallbackNotRelative => lit "Go package fallback identity must be repository-relative"
  | GoPackageParent => lit "go.package keys require a go.package parent key"
  | GoScopeUnsafe => lit "Go repository scope must be a public-safe identifier"
  | GoDirectoryNotNormalized => lit "Go source directory must be normalized and repository-relative"
  | GoSourceModuleParent => lit "go.source-package.v2 keys require a go.source-module.v2 parent key"
  | GoSourcePackageParent => lit "Go source declarations require a source-package parent key"
  end.

Definition key_cexn (e : key_exn) : cexn :=
  match e with
  | GraphKeyError e => CGraphKeyError (key_error_message e)
  | UnicodeEncodeError => CUnicodeEncodeError
  | KeyError => CKeyError
  end.

Definition _graph_key_error_category (message : pystr) : pystr :=
  if contains (lit "percent") message then lit "malformed_percent_escape"
  else if contains (lit "escape") message then lit "repo_escaping_path"
  else lit "invalid_canonical_key".

(** ** [diagnostics.py] *)

Definition SEVERITY_SORT_ORDER : list (pystr * Z) :=
  [(lit "error", 0); (lit "warning", 1); (lit "info", 2)].

Record CanonicalizationDiagnostic := {
  d_severity : pystr;
  d_category : pystr;
  d_message : pystr;
  d_raw_observation_ordinal : option Z;
  d_raw_source_id : option pystr;
  d_path : option pystr;
  d_field : option pystr;
  d_value : pyval;
  d_placeholder_key : option pystr
}.

(** [__post_init__] *)
Definition valid_diagnostic (d : CanonicalizationDiagnostic) : bool :=
  bool_decide (is_Some (dict_get (d_severity d) SEVERITY_SORT_ORDER)) &&
  negb (bool_decide (d_category d = [])) && negb (bool_decide (d_message d = [])).

Definition opt_str (o : option pystr) : pyval := match o with Some s => VStr s | None => VNone end.
Definition opt_int (o : option Z) : pyval := match o with Some n => VInt n | None => VNone end.

Definition diagnostic_to_dict (d : CanonicalizationDiagnostic) : pyval :=
  VDict [(lit "severity", VStr (d_severity d)); (lit "category", VStr (d_category d));
         (lit "message", VStr (d_message d));
         (lit "raw_observation_ordinal", opt_int (d_raw_observation_ordinal d));
         (lit "raw_source_id", opt_str (d_raw_source_id d)); (lit "path", opt_str (d_path d));
         (lit "field", opt_str (d_field d)); (lit "value", d_value d);
         (lit "placeholder_key", opt_str (d_placeholder_key d))].

(** A component of a sort key.  Components at the same place of two keys have
    the same kind, so the order between kinds is never used, but for
    [float("inf")] after every integer. *)
Inductive skey := SNum (n : Z) | SInf | SText (s : pystr).

#[export] Instance skey_eq_dec : EqDecision skey.
Proof. solve_decision. Defined.

Definition skey_leb (a b : skey) : bool :=
  match a, b with
  | SNum m, SNum n => m <=? n
  | SNum _, _ => true
  | SInf, SNum _ => false
  | SInf, _ => true
  | SText s, SText t => str_leb s t
  | SText _, _ => false
  end.

(** The order of tuples. *)
Fixpoint skeys_leb (a b : list skey) : bool :=
  match a, b with
  | [], _ => true
  | _ :: _, [] => false
  | x :: a', y :: b' => if bool_decide (x = y) then skeys_leb a' b' else skey_leb x y
  end.

(** [sorted(l, key=key)]: stable. *)
Fixpoint insert_by {A} (key : A -> list skey) (x : A) (l : list A) : list A :=
  match l with
  | [] => [x]
  | y :: rest => if skeys_leb (key x) (key y) then x :: l else y :: insert_by key x rest
  end.
Definition sorted_by {A} (key : A -> list skey) (l : list A) : list A := foldr (insert_by key) [] l.

Definition diagnostic_sort_key (d : CanonicalizationDiagnostic) : list skey :=
  [match d_raw_observation_ordinal d with Some n => SNum n | None => SInf end;
   SNum (default 0 (dict_get (d_severity d) SEVERITY_SORT_ORDER)); SText (d_category d);
   SText (default [] (d_path d)); SText (default [] (d_field d)); SText (d_message d)].

Definition diagnostics_have_errors (ds : list CanonicalizationDiagnostic) : bool :=
  existsb (fun d => bool_decide (d_severity d = lit "error")) ds.

(** ** [records.py] *)

Record CanonicalNode := {
  n_canonical_key : pystr;
  n_graph_key_version : Z;
  n_kind : pystr;
  n_display_name : pyval;
  n_metadata : pydict;
  n_confidence : pystr;
  n_conflict : bool
}.

Record CanonicalEdge := {
  e_edge_key : pystr;
  e_graph_key_version : Z;
  e_source_key : pystr;
  e_kind : pystr;
  e_target_key : pystr;
  e_identity_metadata : pydict;
  e_metadata : pydict;
  e_confidence : pystr;
  e_conflict : bool
}.

Record CanonicalEvidence := {
  v_evidence_key : pystr;
  v_raw_observation_ordinal : Z;
  v_raw_schema_version : pyval;
  v_raw_kind : pystr;
  v_raw_source_id : pystr;
  v_path : pystr;
  v_start_line : pyval;
  v_end_line : pyval;
  v_extractor : pystr;
  v_extractor_version : pystr;
  v_confidence : pystr;
  v_metadata : pydict
}.

Record CanonicalNodeEvidenceLink := {
  nl_canonical_key : pystr;
  nl_evidence_key : pystr;
  nl_link_kind : pystr
}.

Record CanonicalEdgeEvidenceLink := {
  el_edge_key : pystr;
  el_evidence_key : pystr;
  el_link_kind : pystr
}.

Record CanonicalGraph := {
  g_graph_key_version : Z;
  g_nodes : list CanonicalNode;
  g_edges : list CanonicalEdge;
  g_evidence : list CanonicalEvidence;
  g_node_evidence_links : list CanonicalNodeEvidenceLink;
  g_edge_evidence_links : list CanonicalEdgeEvidenceLink;
  g_raw_observation_count : Z
}.

Definition empty_graph (raw_observation_count : Z) : CanonicalGraph :=
  {| g_graph_key_version := 1; g_nodes := []; g_edges := []; g_evidence := [];
     g_node_evidence_links := []; g_edge_evidence_links := [];
     g_raw_observation_count := raw_observation_count |}.

(** [ok] is computed from the diagnostics. *)
Record CanonicalizationResult := {
  r_graph : CanonicalGraph;
  r_diagnostics : list CanonicalizationDiagnostic
}.
Definition r_ok (r : CanonicalizationResult) : bool := negb (diagnostics_have_errors (r_diagnostics r)).

(** Mappings with their keys in order, tuples as lists. *)
Fixpoint _canonicalize_metadata (value : pyval) : pyval :=
  match value with
  | VDict d => VDict (sort_items ((fun kv : pystr * pyval => (kv.1, _canonicalize_metadata kv.2)) <$> d))
  | VTuple l => VList (_canonicalize_metadata <$> l)
  | VList l => VList (_canonicalize_metadata <$> l)
  | _ => value
  end.

(** The text an edge's key is the digest of. *)
Definition edge_identity_text (graph_key_version : Z) (source_key kind target_key : pystr)
    (identity_metadata : pydict) : pystr :=
  dumps compact_style
    (VDict [(lit "graph_key_version", VInt graph_key_version); (lit "source_key", VStr source_key);
            (lit "kind", VStr kind); (lit "target_key", VStr target_key);
            (lit "identity_metadata", _canonicalize_metadata (VDict identity_metadata))]).

Definition canonical_edge_key (graph_key_version : Z) (source_key kind target_key : pystr)
    (identity_metadata : pydict) : pystr :=
  lit "canonical-edge:" ++
  sha256_hex (default [] (utf8_encode
    (edge_identity_text graph_key_version source_key kind target_key identity_metadata))).

Definition node_to_dict (n : CanonicalNode) : pyval :=
  VDict [(lit "canonical_key", VStr (n_canonical_key n));
         (lit "graph_key_version", VInt (n_graph_key_version n)); (lit "kind", VStr (n_kind n));
         (lit "display_name", n_display_name n);
         (lit "metadata", _canonicalize_metadata (VDict (n_metadata n)));
         (lit "confidence", VStr (n_confidence n)); (lit "conflict", VBool (n_conflict n))].

Definition edge_to_dict (e : CanonicalEdge) : pyval :=
  VDict [(lit "edge_key", VStr (e_edge_key e)); (lit "graph_key_version", VInt (e_graph_key_version e));
         (lit "source_key", VStr (e_source_key e)); (lit "kind", VStr (e_kind e));
         (lit "target_key", VStr (e_target_key e));
         (lit "identity_metadata", _canonicalize_metadata (VDict (e_identity_metadata e)));
         (lit "metadata", _canonicalize_metadata (VDict (e_metadata e)));
         (lit "confidence", VStr (e_confidence e)); (lit "conflict", VBool (e_conflict e))].

Definition evidence_to_dict (v : CanonicalEvidence) : pyval :=
  VDict [(lit "evidence_key", VStr (v_evidence_key v));
         (lit "raw_observation_ordinal", VInt (v_raw_observation_ordinal v));
         (lit "raw_schema_version", v_raw_schema_version v); (lit "raw_kind", VStr (v_raw_kind v));
         (lit "raw_source_id", VStr (v_raw_source_id v)); (lit "path", VStr (v_path v));
         (lit "start_line", v_start_line v); (lit "end_line", v_end_line v);
         (lit "extractor", VStr (v_extractor v)); (lit "extractor_version", VStr (v_extractor_version v));
         (lit "confidence", VStr (v_confidence v));
         (lit "metadata", _canonicalize_metadata (VDict (v_metadata v)))].

Definition node_link_to_dict (l : CanonicalNodeEvidenceLink) : pyval :=
  VDict [(lit "canonical_key", VStr (nl_canonical_key l)); (lit "evidence_key", VStr (nl_evidence_key l));
         (lit "link_kind", VStr (nl_link_kind l))].

Definition edge_link_to_dict (l : CanonicalEdgeEvidenceLink) : pyval :=
  VDict [(lit "edge_key", VStr (el_edge_key l)); (lit "evidence_key", VStr (el_evidence_key l));
         (lit "link_kind", VStr (el_link_kind l))].

Definition _node_sort_key (n : CanonicalNode) : list skey :=
  [SNum (n_graph_key_version n); SText (n_canonical_key n)].
Definition _edge_sort_key (e : CanonicalEdge) : list skey :=
  [SNum (e_graph_key_version e); SText (e_source_key e); SText (e_kind e); SText (e_target_key e);
   SText (dumps compact_style (_canonicalize_metadata (VDict (e_identity_metadata e))));
   SText (e_edge_key e)].
Definition _evidence_sort_key (v : CanonicalEvidence) : list skey :=
  [SNum (v_raw_observation_ordinal v); SText (v_evidence_key v)].
Definition _node_link_sort_key (l : CanonicalNodeEvidenceLink) : list skey :=
  [SText (nl_canonical_key l); SText (nl_evidence_key l); SText (nl_link_kind l)].
Definition _edge_link_sort_key (l : CanonicalEdgeEvidenceLink) : list skey :=
  [SText (el_edge_key l); SText (el_evidence_key l); SText (el_link_kind l)].

Definition count_severity (severity : string) (ds : list CanonicalizationDiagnostic) : Z :=
  Z.of_nat (length (filter (fun d => d_severity d = lit severity) ds)).

Definition len {A} (l : list A) : pyval := VInt (Z.of_nat (length l)).

Definition _summary (r : CanonicalizationResult) (ds : list CanonicalizationDiagnostic) : pyval :=
  VDict [(lit "raw_observations", VInt (g_raw_observation_count (r_graph r)));
         (lit "nodes", len (g_nodes (r_graph r))); (lit "edges", len (g_edges (r_graph r)));
         (lit "evidence", len (g_evidence (r_graph r)));
         (lit "node_evidence_links", len (g_node_evidence_links (r_graph r)));
         (lit "edge_evidence_links", len (g_edge_evidence_links (r_graph r)));
         (lit "diagnostics", len ds); (lit "errors", VInt (count_severity "error" ds));
         (lit "warnings", VInt (count_severity "warning" ds));
         (lit "infos", VInt (count_severity "info" ds))].

Definition result_to_dict (r : CanonicalizationResult) : pyval :=
  let diagnostics := sorted_by diagnostic_sort_key (r_diagnostics r) in
  let g := r_graph r in
  VDict [(lit "graph_key_version", VInt (g_graph_key_version g)); (lit "ok", VBool (r_ok r));
         (lit "summary", _summary r diagnostics);
         (lit "nodes", VList (node_to_dict <$> sorted_by _node_sort_key (g_nodes g)));
         (lit "edges", VList (edge_to_dict <$> sorted_by _edge_sort_key (g_edges g)));
         (lit "evidence", VList (evidence_to_dict <$> sorted_by _evidence_sort_key (g_evidence g)));
         (lit "node_evidence_links",
            VList (node_link_to_dict <$> sorted_by _node_link_sort_key (g_node_evidence_links g)));
         (lit "edge_evidence_links",
            VList (edge_link_to_dict <$> sorted_by _edge_link_sort_key (g_edge_evidence_links g)));
         (lit "diagnostics", VList (diagnostic_to_dict <$> diagnostics))].

Definition result_to_json (r : CanonicalizationResult) : pystr :=
  dumps indented_style (result_to_dict r) ++ [10].

End Canon.
