(* ===== verification/CanonState.v ===== *)
(** The state of canonicalization and the operations on it: [core.py],
    [dispatch.py], [file_helpers.py], [edge_helpers.py], [metadata_helpers.py]
    and [diagnostic_helpers.py]. *)
From S2P Require Import Prelude Utf8 PyVal Json PyRepr GraphKeys Observations CanonCore.
Open Scope Z_scope.

(** ** Values of metadata ([core.py]) *)

(** The hashable key [_json_value_key] gives a value; a scalar is its own key. *)
Inductive hkey :=
| KScalar (v : pyval)
| KList (l : list hkey)
| KTuple (l : list hkey)
| KMapping (items : list (hkey * hkey)).

Fixpoint _json_value_key (value : pyval) : hkey :=
  match value with
  | VDict d => KMapping ((fun kv : pystr * pyval => (KScalar (VStr kv.1), _json_value_key kv.2)) <$> d)
  | VList l => KList (_json_value_key <$> l)
  | VTuple l => KTuple (_json_value_key <$> l)
  | _ => KScalar value
  end.

(** Equality of keys: tuples elementwise, frozensets by mutual inclusion. *)
Fixpoint hkey_eq (fuel : nat) (a b : hkey) : bool :=
  match fuel with
  | O => false
  | S fuel =>
      let pair_eq (x y : hkey * hkey) := hkey_eq fuel x.1 y.1 && hkey_eq fuel x.2 y.2 in
      match a, b with
      | KScalar v, KScalar w => py_eq v w
      | KList l, KList m | KTuple l, KTuple m => all2 (hkey_eq fuel) l m
      | KMapping s, KMapping t =>
          forallb (fun x => existsb (pair_eq x) t) s && forallb (fun y => existsb (pair_eq y) s) t
      | _, _ => false
      end
  end.

(** The nesting of a key bounds the recursion of the comparison. *)
Fixpoint hkey_depth (k : hkey) : nat :=
  match k with
  | KScalar _ => 1
  | KList l | KTuple l => S (list_max (hkey_depth <$> l))
  | KMapping s => S (list_max ((fun x : hkey * hkey => Nat.max (hkey_depth x.1) (hkey_depth x.2)) <$> s))
  end.

Definition hkey_eqb (a b : hkey) : bool := hkey_eq (hkey_depth a) a b.

(** [_DistinctJsonValues]: the list itself and [_values_by_key]. *)
Record DistinctJsonValues := {
  dv_values : list pyval;
  dv_by_key : list (hkey * list pyval)
}.

(** [index.setdefault(key, [])] *)
Fixpoint bucket_of (k : hkey) (index : list (hkey * list pyval)) : list pyval :=
  match index with
  | [] => []
  | (k', b) :: rest => if hkey_eqb k' k then b else bucket_of k rest
  end.

(** [index.setdefault(key, []).append(value)] *)
Fixpoint bucket_append (k : hkey) (v : pyval) (index : list (hkey * list pyval)) :
    list (hkey * list pyval) :=
  match index with
  | [] => [(k, [v])]
  | (k', b) :: rest =>
      if hkey_eqb k' k then (k', b ++ [v]) :: rest else (k', b) :: bucket_append k v rest
  end.

Definition index_values (values : list pyval) : list (hkey * list pyval) :=
  foldl (fun index v => bucket_append (_json_value_key v) v index) [] values.

Definition distinct_json_values (values : list pyval) : DistinctJsonValues :=
  {| dv_values := values; dv_by_key := index_values values |}.

Definition append_if_distinct (dv : DistinctJsonValues) (value : pyval) : DistinctJsonValues :=
  if existsb (fun candidate => py_eq candidate value) (bucket_of (_json_value_key value) (dv_by_key dv))
  then dv
  else {| dv_values := dv_values dv ++ [value];
          dv_by_key := bucket_append (_json_value_key value) value (dv_by_key dv) |}.

(** A list that already is a [_DistinctJsonValues] keeps its index, which is the
    one its values determine. *)
Definition _append_distinct_json_values (existing incoming : list pyval) : list pyval :=
  dv_values (foldl append_if_distinct (distinct_json_values existing) incoming).

Definition _metadata_value_list (value : pyval) : list pyval :=
  match value with VList l => l | _ => [value] end.

(** One item of the loop of [_merge_summary_metadata]. *)
Definition merge_summary_item (merged : pydict) (item : pystr * pyval) : pydict :=
  let '(key, value) := item in
  match dict_get key merged with
  | None => dict_set key value merged
  | Some old =>
      match bool_decide (key = lit "privileged_observed"), old, value with
      | true, VBool a, VBool b => dict_set key (VBool (a || b)) merged
      | _, VList l, VList m => dict_set key (VList (_append_distinct_json_values l m)) merged
      | _, _, _ => if py_eq old value then merged else dict_set key (VList [old; value]) merged
      end
  end.

Definition _merge_summary_metadata (existing incoming : pydict) : pydict :=
  foldl merge_summary_item existing incoming.

Definition CONFIDENCE_RANKS : list (pystr * Z) :=
  [(lit "unknown", 0); (lit "heuristic", 1); (lit "extracted", 2); (lit "manual", 3)].

Definition confidence_rank (c : pystr) : cres Z :=
  match dict_get c CONFIDENCE_RANKS with Some r => Ok r | None => Err CKeyError end.

Definition _stronger_confidence (first second : pystr) : cres pystr :=
  s ← confidence_rank second;
  f ← confidence_rank first;
  Ok (if f <? s then second else first).

(** [key.split(":", 1)[0]] and [key.rsplit(":", 1)[-1]] *)
Definition _node_kind_from_key (canonical_key : pystr) : pystr := (str_partition COLON canonical_key).1.1.
Definition _display_name_from_key (canonical_key : pystr) : pystr :=
  reverse (str_partition COLON (reverse canonical_key)).1.1.

(** ** The state ([dispatch.py]) and the monad of the handlers *)

Record CanonicalizationState := {
  cs_nodes : list (pystr * CanonicalNode);
  cs_edges : list (pystr * CanonicalEdge);
  cs_evidence : list CanonicalEvidence;
  cs_node_evidence_links : list CanonicalNodeEvidenceLink;
  cs_edge_evidence_links : list CanonicalEdgeEvidenceLink;
  cs_diagnostics : list CanonicalizationDiagnostic
}.

Definition empty_state : CanonicalizationState :=
  {| cs_nodes := []; cs_edges := []; cs_evidence := []; cs_node_evidence_links := [];
     cs_edge_evidence_links := []; cs_diagnostics := [] |}.

Definition CM (A : Type) : Type := CanonicalizationState -> cres A * CanonicalizationState.

#[export] Instance cm_ret : MRet CM := fun A a s => (Ok a, s).
#[export] Instance cm_bind : MBind CM := fun A B f m s =>
  match m s with
  | (Ok a, s') => f a s'
  | (Err e, s') => (Err e, s')
  end.

Definition craise {A} (e : cexn) : CM A := fun s => (Err e, s).
Definition key_error {A} (message : pystr) : CM A := craise (CGraphKeyError message).
Definition lift {A} (r : cres A) : CM A := fun s => (r, s).

(** [try: m ... except GraphKeyError as error: ...]: the result, or the message
    of the error; the mutations made before it stay. *)
Definition try_key {A} (m : CM A) : CM (A + pystr) := fun s =>
  match m s with
  | (Ok a, s') => (Ok (inl a), s')
  | (Err (CGraphKeyError msg), s') => (Ok (inr msg), s')
  | (Err e, s') => (Err e, s')
  end.

Definition get_nodes : CM (list (pystr * CanonicalNode)) := fun s => (Ok (cs_nodes s), s).
Definition get_edges : CM (list (pystr * CanonicalEdge)) := fun s => (Ok (cs_edges s), s).
Definition set_node (k : pystr) (n : CanonicalNode) : CM unit := fun s =>
  (Ok tt, {| cs_nodes := dict_set k n (cs_nodes s); cs_edges := cs_edges s; cs_evidence := cs_evidence s;
             cs_node_evidence_links := cs_node_evidence_links s;
             cs_edge_evidence_links := cs_edge_evidence_links s; cs_diagnostics := cs_diagnostics s |}).
Definition set_edge (k : pystr) (e : CanonicalEdge) : CM unit := fun s =>
  (Ok tt, {| cs_nodes := cs_nodes s; cs_edges := dict_set k e (cs_edges s); cs_evidence := cs_evidence s;
             cs_node_evidence_links := cs_node_evidence_links s;
             cs_edge_evidence_links := cs_edge_evidence_links s; cs_diagnostics := cs_diagnostics s |}).
Definition append_evidence (v : CanonicalEvidence) : CM unit := fun s =>
  (Ok tt, {| cs_nodes := cs_nodes s; cs_edges := cs_edges s; cs_evidence := cs_evidence s ++ [v];
             cs_node_evidence_links := cs_node_evidence_links s;
             cs_edge_evidence_links := cs_edge_evidence_links s; cs_diagnostics := cs_diagnostics s |}).
Definition append_node_link (l : CanonicalNodeEvidenceLink) : CM unit := fun s =>
  (Ok tt, {| cs_nodes := cs_nodes s; cs_edges := cs_edges s; cs_evidence := cs_evidence s;
             cs_node_evidence_links := cs_node_evidence_links s ++ [l];
             cs_edge_evidence_links := cs_edge_evidence_links s; cs_diagnostics := cs_diagnostics s |}).
Definition append_edge_link (l : CanonicalEdgeEvidenceLink) : CM unit := fun s =>
  (Ok tt, {| cs_nodes := cs_nodes s; cs_edges := cs_edges s; cs_evidence := cs_evidence s;
             cs_node_evidence_links := cs_node_evidence_links s;
             cs_edge_evidence_links := cs_edge_evidence_links s ++ [l]; cs_diagnostics := cs_diagnostics s |}).

(** [diagnostics.append(CanonicalizationDiagnostic(...))]: constructing an
    invalid diagnostic raises. *)
Definition append_diagnostic (d : CanonicalizationDiagnostic) : CM unit := fun s =>
  if valid_diagnostic d then
    (Ok tt, {| cs_nodes := cs_nodes s; cs_edges := cs_edges s; cs_evidence := cs_evidence s;
               cs_node_evidence_links := cs_node_evidence_links s;
               cs_edge_evidence_links := cs_edge_evidence_links s;
               cs_diagnostics := cs_diagnostics s ++ [d] |})
  else (Err CValueError, s).

(** A diagnostic about an observation, with its ordinal, source and path. *)
Definition diagnose (o : RawObservation) (ordinal : Z) (severity category : string) (message : pystr)
    (field : string) (value : pyval) (placeholder_key : option pystr) : CM unit :=
  append_diagnostic
    {| d_severity := lit severity; d_category := lit category; d_message := message;
       d_raw_observation_ordinal := Some ordinal; d_raw_source_id := Some (obs_source_id o);
       d_path := Some (obs_path o); d_field := Some (lit field); d_value := value;
       d_placeholder_key := placeholder_key |}.

(** The same for a [GraphKeyError], whose message gives the category. *)
Definition diagnose_key_error (o : RawObservation) (ordinal : Z) (severity : string) (error : pystr)
    (message : pystr) (field : string) (value : pyval) (placeholder_key : option pystr) : CM unit :=
  append_diagnostic
    {| d_severity := lit severity; d_category := _graph_key_error_category error; d_message := message;
       d_raw_observation_ordinal := Some ordinal; d_raw_source_id := Some (obs_source_id o);
       d_path := Some (obs_path o); d_field := Some (lit field); d_value := value;
       d_placeholder_key := placeholder_key |}.

(** ** Nodes, edges and evidence ([core.py]) *)

Definition _upsert_node (canonical_key kind : pystr) (display_name : pyval) (metadata : pydict)
    (confidence : pystr) : CM unit :=
  nodes ← get_nodes;
  match dict_get canonical_key nodes with
  | None =>
      set_node canonical_key
        {| n_canonical_key := canonical_key; n_graph_key_version := GRAPH_KEY_VERSION; n_kind := kind;
           n_display_name := display_name; n_metadata := metadata; n_confidence := confidence;
           n_conflict := false |}
  | Some existing =>
      stronger ← lift (_stronger_confidence (n_confidence existing) confidence);
      set_node canonical_key
        {| n_canonical_key := n_canonical_key existing;
           n_graph_key_version := n_graph_key_version existing; n_kind := n_kind existing;
           n_display_name := n_display_name existing; n_metadata := n_metadata existing;
           n_confidence := stronger; n_conflict := n_conflict existing |}
  end.

Definition _upsert_edge (edge_key source_key kind target_key : pystr) (identity_metadata metadata : pydict)
    (confidence : pystr) : CM unit :=
  edges ← get_edges;
  match dict_get edge_key edges with
  | None =>
      set_edge edge_key
        {| e_edge_key := edge_key; e_graph_key_version := GRAPH_KEY_VERSION; e_source_key := source_key;
           e_kind := kind; e_target_key := target_key; e_identity_metadata := identity_metadata;
           e_metadata := metadata; e_confidence := confidence; e_conflict := false |}
  | Some existing =>
      stronger ← lift (_stronger_confidence (e_confidence existing) confidence);
      set_edge edge_key
        {| e_edge_key := e_edge_key existing; e_graph_key_version := e_graph_key_version existing;
           e_source_key := e_source_key existing; e_kind := e_kind existing;
           e_target_key := e_target_key existing; e_identity_metadata := e_identity_metadata existing;
           e_metadata := _merge_summary_metadata (e_metadata existing) metadata;
           e_confidence := stronger; e_conflict := e_conflict existing |}
  end.

(** [_upsert_config_edge], [_upsert_css_edge] and [_upsert_nix_edge] are the same
    function: an edge with no identity metadata, whose key is returned. *)
Definition _upsert_config_edge (source_key : pystr) (kind : string) (target_key : pystr)
    (metadata : pydict) (confidence : pystr) : CM pystr :=
  let edge_key := canonical_edge_key GRAPH_KEY_VERSION source_key (lit kind) target_key [] in
  _ ← _upsert_edge edge_key source_key (lit kind) target_key [] metadata confidence;
  mret edge_key.

Section Helpers.
Context {U : Unicode}.

Definition lift_key {A} (r : kres A) : CM A :=
  lift (match r with Ok a => Ok a | Err e => Err (key_cexn e) end).

Definition _evidence_key (o : RawObservation) (ordinal : Z) : pystr :=
  lit "evidence:" ++ str_of_int ordinal ++ lit ":" ++ obs_path o ++ lit ":" ++
  line_text (obs_start_line o) ++ lit "-" ++ line_text (obs_end_line o) ++ lit ":" ++
  obs_extractor o ++ lit ":" ++ obs_source_id o.

(** [metadata] is [None] for the observation's own. *)
Definition _evidence_from_observation (o : RawObservation) (ordinal : Z) (metadata : option pydict) :
    CanonicalEvidence :=
  {| v_evidence_key := _evidence_key o ordinal; v_raw_observation_ordinal := ordinal;
     v_raw_schema_version := obs_schema_version o; v_raw_kind := obs_kind o;
     v_raw_source_id := obs_source_id o; v_path := obs_path o; v_start_line := obs_start_line o;
     v_end_line := obs_end_line o; v_extractor := obs_extractor o;
     v_extractor_version := obs_extractor_version o; v_confidence := obs_confidence o;
     v_metadata := default (obs_metadata o) metadata |}.

(** ** [diagnostic_helpers.py] *)

(** The argument of [parse_key]. *)
Definition key_arg (v : pyval) : pyarg := match v with VStr s => PyStr s | _ => PyOther end.

Definition _append_raw_target_diagnostic (o : RawObservation) (ordinal : Z)
    (placeholder_key : option pystr) : CM bool :=
  match obs_target o with
  | VNone => mret false
  | target =>
      r ← try_key (lift_key (parse_key (key_arg target)));
      match r with
      | inl _ => mret false
      | inr error =>
          _ ← diagnose_key_error o ordinal "warning" error
                (lit "raw target is not a valid canonical key: " ++ error) "target" target placeholder_key;
          mret true
      end
  end.

End Helpers.

(** ** [metadata_helpers.py] *)

(** [metadata.get(key)] *)
Definition meta_get (metadata : pydict) (key : string) : pyval := default VNone (dict_get (lit key) metadata).

(** A text that is not blank. *)
Definition nonblank_text (v : pyval) : option pystr :=
  match v with VStr s => if bool_decide (strip s = []) then None else Some s | _ => None end.

Definition _metadata_text (metadata : pydict) (key : string) : option pystr :=
  nonblank_text (meta_get metadata key).

Definition _append_metadata_text (summary metadata : pydict) (source_key summary_key : string) : pydict :=
  match _metadata_text metadata source_key with
  | Some value => dict_set (lit summary_key) (VList [VStr value]) summary
  | None => summary
  end.

(** The loop over pairs of names most edge summaries are. *)
Definition append_metadata_texts (summary metadata : pydict) (names : list (string * string)) : pydict :=
  foldl (fun summary nm => _append_metadata_text summary metadata nm.1 nm.2) summary names.

(** The entries of [metadata] under the given names, in that order. *)
Definition select_metadata (metadata : pydict) (keys : list string) : pydict :=
  foldl (fun summary key =>
           match dict_get (lit key) metadata with
           | Some v => dict_set (lit key) v summary
           | None => summary
           end) [] keys.

(** ** [file_helpers.py] *)

Definition FILE_METADATA_KEYS : list string :=
  ["language"; "role"; "content_hash"; "executable"; "generated"; "binding_id"; "binding_alias";
   "binding_role"; "snapshot_id"; "source_relative_path"; "candidate_id"].

Definition FILE_CONFLICT_METADATA_KEYS : list pystr :=
  [lit "language"; lit "content_hash"; lit "executable"; lit "generated"].

Definition merge_file_item (acc : pydict * list pystr) (item : pystr * pyval) : pydict * list pystr :=
  let '(merged, conflict_fields) := acc in
  let '(key, value) := item in
  match dict_get key merged with
  | None => (dict_set key value merged, conflict_fields)
  | Some old =>
      let current_values := _metadata_value_list old in
      let incoming_values := _metadata_value_list value in
      if forallb (fun v => py_in v current_values) incoming_values then acc
      else (dict_set key (VList (_append_distinct_json_values current_values incoming_values)) merged,
            if bool_decide (key ∈ FILE_CONFLICT_METADATA_KEYS) then conflict_fields ++ [key]
            else conflict_fields)
  end.

Definition _merge_file_node_metadata (existing incoming : pydict) : pydict * list pystr :=
  foldl merge_file_item (existing, []) incoming.

Definition _upsert_file_node (canonical_key : pystr) (display_name : pyval) (metadata : pydict)
    (confidence : pystr) : CM (list pystr) :=
  nodes ← get_nodes;
  match dict_get canonical_key nodes with
  | None =>
      _ ← set_node canonical_key
            {| n_canonical_key := canonical_key; n_graph_key_version := GRAPH_KEY_VERSION;
               n_kind := lit "file"; n_display_name := display_name; n_metadata := metadata;
               n_confidence := confidence; n_conflict := false |};
      mret []
  | Some existing =>
      let '(merged_metadata, conflict_fields) := _merge_file_node_metadata (n_metadata existing) metadata in
      stronger ← lift (_stronger_confidence (n_confidence existing) confidence);
      _ ← set_node canonical_key
            {| n_canonical_key := n_canonical_key existing;
               n_graph_key_version := n_graph_key_version existing; n_kind := n_kind existing;
               n_display_name := n_display_name existing; n_metadata := merged_metadata;
               n_confidence := stronger;
               n_conflict := n_conflict existing || negb (bool_decide (conflict_fields = [])) |};
      mret conflict_fields
  end.

(** ** [dispatch.py] *)

Definition append_unsupported_observation_diagnostic (o : RawObservation) (ordinal : Z) : CM unit :=
  diagnose o ordinal "warning" "unsupported_raw_observation_kind"
    (lit "raw observation kind is not supported: " ++ obs_kind o) "kind" (VStr (obs_kind o)) None.

Definition canonicalization_result_from_state (s : CanonicalizationState) (raw_observation_count : Z) :
    CanonicalizationResult :=
  {| r_graph := {| g_graph_key_version := GRAPH_KEY_VERSION; g_nodes := (cs_nodes s).*2;
                   g_edges := (cs_edges s).*2; g_evidence := cs_evidence s;
                   g_node_evidence_links := cs_node_evidence_links s;
                   g_edge_evidence_links := cs_edge_evidence_links s;
                   g_raw_observation_count := raw_observation_count |};
     r_diagnostics := cs_diagnostics s |}.

(** ** The shape of a handler

    The handlers of a relation append the evidence of the observation, upsert the
    two nodes, link both to the evidence, upsert the edge between them and link
    it.  [relate] is that sequence; each handler gives it its own keys, kinds,
    names and metadata. *)

Record node_arg := NodeArg {
  na_key : pystr;
  na_kind : pystr;
  na_display : pyval;
  na_metadata : pydict;
  na_link : string
}.

Definition upsert_arg (o : RawObservation) (a : node_arg) : CM unit :=
  _upsert_node (na_key a) (na_kind a) (na_display a) (na_metadata a) (obs_confidence o).

Definition link_arg (evidence_key : pystr) (a : node_arg) : CM unit :=
  append_node_link {| nl_canonical_key := na_key a; nl_evidence_key := evidence_key;
                      nl_link_kind := lit (na_link a) |}.

Definition support_edge (o : RawObservation) (evidence_key source_key : pystr) (kind : string)
    (target_key : pystr) (metadata : pydict) : CM unit :=
  edge_key ← _upsert_config_edge source_key kind target_key metadata (obs_confidence o);
  append_edge_link {| el_edge_key := edge_key; el_evidence_key := evidence_key;
                      el_link_kind := lit "supports" |}.

Definition relate (o : RawObservation) (evidence : CanonicalEvidence) (source target : node_arg)
    (kind : string) (metadata : pydict) : CM unit :=
  let evidence_key := v_evidence_key evidence in
  _ ← append_evidence evidence;
  _ ← upsert_arg o source;
  _ ← upsert_arg o target;
  _ ← link_arg evidence_key source;
  _ ← link_arg evidence_key target;
  support_edge o evidence_key (na_key source) kind (na_key target) metadata.

(** A further node and an edge, on evidence already recorded. *)
Definition attach (o : RawObservation) (evidence_key : pystr) (node : node_arg) (source_key : pystr)
    (kind : string) (target_key : pystr) (metadata : pydict) : CM unit :=
  _ ← upsert_arg o node;
  _ ← link_arg evidence_key node;
  support_edge o evidence_key source_key kind target_key metadata.

(** A chart of nodes, each linked as it is upserted, and edges of one kind. *)
Fixpoint chart_nodes (o : RawObservation) (evidence_key : pystr) (nodes : list node_arg) : CM unit :=
  match nodes with
  | [] => mret tt
  | node :: rest =>
      _ ← upsert_arg o node;
      _ ← link_arg evidence_key node;
      chart_nodes o evidence_key rest
  end.

Fixpoint chart_edges (o : RawObservation) (evidence_key : pystr) (kind : string)
    (edges : list (pystr * pystr * pydict)) : CM unit :=
  match edges with
  | [] => mret tt
  | (source_key, target_key, metadata) :: rest =>
      _ ← support_edge o evidence_key source_key kind target_key metadata;
      chart_edges o evidence_key kind rest
  end.

Definition chart (o : RawObservation) (evidence : CanonicalEvidence) (nodes : list node_arg) (kind : string)
    (edges : list (pystr * pystr * pydict)) : CM unit :=
  _ ← append_evidence evidence;
  _ ← chart_nodes o (v_evidence_key evidence) nodes;
  chart_edges o (v_evidence_key evidence) kind edges.

(** [try: ... except GraphKeyError as error:] around the computation of the keys,
    with an error diagnostic and an early return. *)
Definition with_keys {A} (o : RawObservation) (ordinal : Z) (field : string) (value : pyval)
    (keys : CM A) (body : A -> CM unit) : CM unit :=
  r ← try_key keys;
  match r with
  | inr error => diagnose_key_error o ordinal "error" error error field value None
  | inl a => body a
  end.

(** A node argument whose kind and name come from its key. *)
Definition keyed_node (key : pystr) (metadata : pydict) (link : string) : node_arg :=
  NodeArg key (_node_kind_from_key key) (VStr (_display_name_from_key key)) metadata link.
