(* ===== verification/KeyBuilders.v ===== *)
(** What every key builder has in common: it returns a key of its namespace that
    parses back, or raises a [GraphKeyError] or a [UnicodeEncodeError]. *)
From S2P Require Import Prelude Utf8 GraphKeys GraphKeysFacts.
Open Scope Z_scope.

Section Builders.
Context {U : Unicode}.

(** A call that does not raise [KeyError]. *)
Definition safe {A} (r : kres A) : Prop := r <> Err KeyError.

(** The call of a builder of keys of namespace [ns]. *)
Definition builds (ns : pystr) (r : kres pystr) : Prop :=
  match r with
  | Ok k => exists p, parse_key (PyStr k) = Ok p /\ namespace p = ns
  | Err e => e <> KeyError
  end.

Lemma safe_bind {A B} (m : kres A) (f : A -> kres B) :
  safe m -> (forall a, m = Ok a -> safe (f a)) -> safe (m ≫= f).
Proof. unfold safe. destruct m as [a|e]; cbn; [auto|intros H _ [= ->]; by apply H]. Qed.

Lemma builds_bind {A} ns (m : kres A) (f : A -> kres pystr) :
  safe m -> (forall a, m = Ok a -> builds ns (f a)) -> builds ns (m ≫= f).
Proof. unfold safe. destruct m as [a|e]; cbn; [auto|intros H _ ->; by apply H]. Qed.

Lemma encode_segment_errors s e :
  _encode_segment s = Err e -> e = UnicodeEncodeError \/ s = [] /\ e = GraphKeyError SegmentRequired.
Proof.
  unfold _encode_segment. destruct s as [|c s]; [intros [= <-]; auto|].
  destruct (utf8_encode (c :: s)); [done|]. intros [= <-]. auto.
Qed.

Lemma encode_segments_safe segs : safe (mapM _encode_segment segs).
Proof. intros (s & _ & [?|[_ ?]]%encode_segment_errors)%mapM_Err; done. Qed.

Lemma key_builds ns segs : is_Some (table_get ns _SEGMENT_COUNTS) -> builds ns (_key ns segs).
Proof.
  intros [n Hn]. destruct (_key ns segs) as [k|e] eqn:E; cbn.
  - eexists. split; [exact (parse_built_key _ _ _ E)|done].
  - intros ->. unfold _key in E. rewrite Hn in E. destruct (negb _); [done|].
    destruct (mapM _encode_segment segs) as [encs|e] eqn:Em; [done|]. cbn in E. injection E as ->.
    by apply (encode_segments_safe segs).
Qed.

(** A key of the right number of non-empty segments fails only on text that
    cannot be encoded. *)
Lemma key_encodable ns segs e :
  table_get ns _SEGMENT_COUNTS = Some (length segs) -> Forall (fun s => s <> []) segs ->
  _key ns segs = Err e -> e = UnicodeEncodeError.
Proof.
  intros Hn Hs. unfold _key. rewrite Hn, Nat.eqb_refl. cbn.
  destruct (mapM _encode_segment segs) as [encs|e'] eqn:Em; [done|]. intros [= <-].
  apply mapM_Err in Em as (s & Hin & [->|[-> _]]%encode_segment_errors); [done|].
  rewrite Forall_forall in Hs. by destruct (Hs [] Hin).
Qed.

Lemma parse_key_errors k e : parse_key k = Err e -> exists g, e = GraphKeyError g.
Proof.
  unfold parse_key. destruct k as [[|c k]|]; [intros [= <-]; eauto| |intros [= <-]; eauto].
  destruct (str_partition COLON (c :: k)) as [[ns sep] rem]. destruct (negb sep); [intros [= <-]; eauto|].
  case_bool_decide.
  - destruct (_parse_file_segments rem) as [segs|e'] eqn:E; [done|]. cbn. intros [= <-].
    eauto using parse_file_segments_errors.
  - destruct (table_get ns _SEGMENT_COUNTS); [|intros [= <-]; eauto].
    destruct (negb _); [intros [= <-]; eauto|].
    destruct (mapM _decode_segment _) as [segs|e'] eqn:E; [done|]. cbn. intros [= <-].
    eauto using decode_segments_errors.
Qed.

Lemma parse_key_safe k : safe (parse_key k).
Proof. intros (g & [=])%parse_key_errors. Qed.

Lemma normalize_file_components_safe p : safe (_normalize_file_components p).
Proof.
  assert (Hloop : forall raw : pystr, safe (components ← normalize_loop (str_split SLASH raw) [];
                     match components with [] => Ok [lit "."] | _ => Ok components end)).
  { intros raw. apply safe_bind; [|by intros []]. intros H%normalize_loop_errors. done. }
  unfold _normalize_file_components. apply safe_bind; [by destruct p|]. intros [[|c s]|] _; try done.
  cbn zeta. destruct (startswith _ _); [done|]. apply Hloop.
Qed.

Lemma file_key_safe p : safe (file_key p).
Proof.
  unfold file_key. apply safe_bind; [apply normalize_file_components_safe|]. intros comps _.
  apply safe_bind; [apply encode_segments_safe|done].
Qed.

Lemma file_key_builds p : builds (lit "file") (file_key p).
Proof.
  destruct (file_key p) as [k|e] eqn:E; cbn.
  - pose proof E as (comps & encs & Hn & _)%file_key_Ok.
    eexists. split; [exact (parse_file_key _ _ _ Hn E)|done].
  - intros ->. by apply (file_key_safe p).
Qed.

Lemma coerce_file_key_safe p : safe (_coerce_file_key p).
Proof.
  unfold _coerce_file_key. destruct p; try apply file_key_safe.
  destruct (startswith _ _); [|apply file_key_safe].
  apply safe_bind; [apply parse_key_safe|]. intros q _. by destruct (negb _).
Qed.

Lemma coerce_namespace_key_safe k ns : safe (_coerce_namespace_key k ns).
Proof.
  unfold _coerce_namespace_key. apply safe_bind; [apply parse_key_safe|]. intros q _. by destruct (negb _).
Qed.

Lemma coerce_pointer_safe p : safe (_coerce_pointer p).
Proof. unfold _coerce_pointer. destruct p; [done|]. by destruct (negb _). Qed.

Lemma coerce_js_pointer_safe p : safe (_coerce_js_pointer p).
Proof. unfold _coerce_js_pointer. by case_bool_decide. Qed.

Lemma bounded_go_identity_safe v m : safe (_bounded_go_identity v m).
Proof. unfold _bounded_go_identity. destruct v; [done|]. destruct (utf8_encode _); [|done]. by destruct (_ <? _). Qed.

Lemma bounded_go_path_identity_safe v : safe (_bounded_go_path_identity v).
Proof.
  unfold _bounded_go_path_identity. apply safe_bind; [apply bounded_go_identity_safe|]. intros w _.
  destruct (_ || _); [done|]. by destruct (existsb _ _).
Qed.

Lemma bounded_go_package_import_path_safe v : safe (_bounded_go_package_import_path v).
Proof.
  unfold _bounded_go_package_import_path. apply safe_bind; [apply bounded_go_identity_safe|]. intros w _.
  destruct (negb _); [apply bounded_go_path_identity_safe|]. case_bool_decide; [done|].
  by destruct (_ || _).
Qed.

Lemma coerce_go_package_key_safe k : safe (_coerce_go_package_key k).
Proof.
  unfold _coerce_go_package_key. apply safe_bind; [apply parse_key_safe|]. intros q _.
  destruct (negb _); [done|]. destruct (segments q) as [|s0 [|s1 ?]]; try done.
  apply safe_bind; [apply bounded_go_package_import_path_safe|]. intros _ _.
  by apply safe_bind; [apply bounded_go_identity_safe|].
Qed.

End Builders.

Create HintDb keybuild.
#[export] Hint Resolve parse_key_safe file_key_safe coerce_file_key_safe coerce_namespace_key_safe
  coerce_pointer_safe coerce_js_pointer_safe bounded_go_identity_safe bounded_go_path_identity_safe
  bounded_go_package_import_path_safe coerce_go_package_key_safe : keybuild.
#[export] Hint Resolve file_key_builds : keybuild.

(** Proves that a call of a builder builds a key of its namespace. *)
Ltac builder_head t := lazymatch t with ?f _ => builder_head f | ?f => f end.
Ltac prove_builds :=
  lazymatch goal with
  | |- builds _ (file_key _) => apply file_key_builds
  | |- builds _ (_key _ _) => apply key_builds; decide_closed
  | |- builds _ (_ ≫= _) => apply builds_bind; [eauto with keybuild|intros ? _; prove_builds]
  | |- builds _ (if ?b then _ else _) => destruct b; prove_builds
  | |- builds _ (Err _) => discriminate
  | |- builds _ ?t => let f := builder_head t in unfold f; prove_builds
  end.

Example builders_examples {U : Unicode} (p : pathlike) (s t : pystr) :
  builds (lit "js.test_case") (js_test_case_key s t) /\ builds (lit "config.path") (config_path_key p s) /\
  builds (lit "unknown") (unknown_key s t) /\ builds (lit "email.part") (email_part_key s t) /\
  builds (lit "python.module") (python_module_key s).
Proof. split_and!; prove_builds. Qed.
