(* ===== verification/CanonInvariant.v ===== *)
(** The invariant of the canonicalization state: every node and edge is filed
    under its own key, a node's kind is its key's namespace, an edge's key is the
    digest of its identity, its kind is registered and its ends are nodes, every
    link names a node or an edge and a piece of evidence, every node and edge is
    supported by evidence, and every diagnostic is valid.  Each operation keeps
    it; [relate] and [attach], the shape of the handlers, are total on it. *)
From S2P Require Import Prelude Utf8 PyVal Json PyDictFacts GraphKeys GraphKeysFacts.
From S2P Require Import Observations ObservationsFacts CanonCore CanonState.
Open Scope Z_scope.

(** [graph/edge_kinds.py] *)
Definition CANONICAL_EDGE_KINDS : list string :=
  ["asserts"; "benchmarks"; "calls"; "command_intent"; "command_under_test"; "completion_for";
   "configures"; "constructs"; "contains"; "declares"; "defers"; "defines"; "depends_on";
   "embeds"; "examples"; "executes"; "expects"; "exposes_script"; "fuzzes"; "has_assertion";
   "has_hook"; "has_test_case"; "host_mutation_intent"; "imports"; "includes"; "instance_of";
   "instantiates"; "links_to"; "loads"; "method_of"; "mutates_host"; "network_intent";
   "package_intent"; "panics"; "pipe_command_intent"; "reads"; "reads_env"; "receives";
   "recovers"; "references"; "refutes"; "replaces_module"; "requires_module"; "returns";
   "selects"; "sends"; "sources"; "starts_goroutine"; "styles"; "system_command_intent"; "tests";
   "tests_command"; "uses_builtin"; "uses_fixture"; "uses_helper"; "uses_mock";
   "uses_package_manager"; "uses_plugin"; "uses_plugin_manager"; "uses_stub"; "uses_zsh_module";
   "workspace_uses"; "wraps"; "writes"; "writes_env"].

Section Invariant.
Context {U : Unicode}.

(** A placeholder key of a non-exact multi-source relation. *)
Definition opaque_key (k : pystr) : Prop :=
  exists ns rest, (ns = lit "dynamic" \/ ns = lit "unknown") /\
                  k = ns ++ lit ":file:nix-cross-source-" ++ rest.

(** The keys of nodes: those [parse_key] accepts, and opaque placeholders. *)
Definition node_key_ok (k : pystr) : Prop :=
  (exists p, parse_key (PyStr k) = Ok p) \/ opaque_key k.

Record node_wf (k : pystr) (n : CanonicalNode) : Prop := {
  nw_key : n_canonical_key n = k;
  nw_version : n_graph_key_version n = GRAPH_KEY_VERSION;
  nw_kind : n_kind n = _node_kind_from_key k;
  nw_confidence : n_confidence n ∈ VALID_CONFIDENCES;
  nw_key_ok : node_key_ok k
}.

Record edge_wf (nodes : list pystr) (k : pystr) (e : CanonicalEdge) : Prop := {
  ew_key : e_edge_key e = k;
  ew_version : e_graph_key_version e = GRAPH_KEY_VERSION;
  ew_identity : k = canonical_edge_key GRAPH_KEY_VERSION (e_source_key e) (e_kind e) (e_target_key e)
                      (e_identity_metadata e);
  ew_kind : exists kind, kind ∈ CANONICAL_EDGE_KINDS /\ e_kind e = lit kind;
  ew_source : e_source_key e ∈ nodes;
  ew_target : e_target_key e ∈ nodes;
  ew_confidence : e_confidence e ∈ VALID_CONFIDENCES
}.

Definition node_linked (s : CanonicalizationState) (k : pystr) : Prop :=
  k ∈ nl_canonical_key <$> cs_node_evidence_links s.
Definition edge_linked (s : CanonicalizationState) (k : pystr) : Prop :=
  k ∈ el_edge_key <$> cs_edge_evidence_links s.

(** The invariant, with the evidence recorded so far and the keys of the nodes
    and edges that are still to be linked. *)
Record wf (pn pe : list pystr) (es : list CanonicalEvidence) (s : CanonicalizationState) : Prop := {
  wf_nodes_once : NoDup (cs_nodes s).*1;
  wf_edges_once : NoDup (cs_edges s).*1;
  wf_node : Forall (fun kn => node_wf kn.1 kn.2) (cs_nodes s);
  wf_edge : Forall (fun ke => edge_wf (cs_nodes s).*1 ke.1 ke.2) (cs_edges s);
  wf_evidence : cs_evidence s = es;
  wf_node_links : Forall (fun l => nl_canonical_key l ∈ (cs_nodes s).*1 /\
                                   nl_evidence_key l ∈ v_evidence_key <$> es) (cs_node_evidence_links s);
  wf_edge_links : Forall (fun l => el_edge_key l ∈ (cs_edges s).*1 /\
                                   el_evidence_key l ∈ v_evidence_key <$> es) (cs_edge_evidence_links s);
  wf_nodes_linked : Forall (fun k => k ∈ pn \/ node_linked s k) (cs_nodes s).*1;
  wf_edges_linked : Forall (fun k => k ∈ pe \/ edge_linked s k) (cs_edges s).*1;
  wf_diagnostics : Forall (fun d => valid_diagnostic d = true) (cs_diagnostics s)
}.

Lemma wf_empty : wf [] [] [] empty_state.
Proof. constructor; cbn; auto using NoDup_nil_2. Qed.

(** ** Confidence *)

Lemma confidence_rank_Ok c : c ∈ VALID_CONFIDENCES -> exists r, confidence_rank c = Ok r.
Proof.
  intros H. repeat (apply elem_of_cons in H as [->|H]; [by eexists|]). by apply elem_of_nil in H.
Qed.

Lemma stronger_confidence_Ok a b :
  a ∈ VALID_CONFIDENCES -> b ∈ VALID_CONFIDENCES ->
  exists c, _stronger_confidence a b = Ok c /\ c ∈ VALID_CONFIDENCES.
Proof.
  intros Ha Hb. destruct (confidence_rank_Ok a Ha) as [ra Ea], (confidence_rank_Ok b Hb) as [rb Eb].
  unfold _stronger_confidence. rewrite Ea, Eb. cbn. eexists. split; [done|]. by case_match.
Qed.

(** ** The operations *)

Lemma wf_node_get pn pe es s k n : wf pn pe es s -> dict_get k (cs_nodes s) = Some n -> node_wf k n.
Proof. intros [] Hk%dict_get_elem. rewrite Forall_forall in wf_node0. by apply (wf_node0 (k, n)). Qed.

Lemma wf_edge_get pn pe es s k e :
  wf pn pe es s -> dict_get k (cs_edges s) = Some e -> edge_wf (cs_nodes s).*1 k e.
Proof. intros [] Hk%dict_get_elem. rewrite Forall_forall in wf_edge0. by apply (wf_edge0 (k, e)). Qed.

Lemma edge_wf_mono nodes nodes' k e : nodes ⊆ nodes' -> edge_wf nodes k e -> edge_wf nodes' k e.
Proof. intros Hs []. constructor; auto. Qed.

Lemma keys_mono {A} (d : list (pystr * A)) k v : d.*1 ⊆ (dict_set k v d).*1.
Proof. intros x. apply key_in_dict_set. Qed.

(** Filing a well-formed node, to be linked. *)
Lemma wf_set_node pn pe es s k n :
  wf pn pe es s -> node_wf k n ->
  exists s', set_node k n s = (Ok tt, s') /\ wf (k :: pn) pe es s' /\
             k ∈ (cs_nodes s').*1 /\ (cs_nodes s).*1 ⊆ (cs_nodes s').*1 /\
             cs_diagnostics s' = cs_diagnostics s.
Proof.
  intros [] Hn. eexists. split; [reflexivity|]. cbn [cs_nodes cs_diagnostics].
  split; [|eauto using key_of_dict_set, keys_mono].
  constructor; cbn [cs_nodes cs_edges cs_evidence cs_node_evidence_links cs_edge_evidence_links
    cs_diagnostics]; auto using NoDup_dict_set, Forall_dict_set.
  - eapply Forall_impl; [exact wf_edge0|]. intros x. apply edge_wf_mono, keys_mono.
  - eapply Forall_impl; [exact wf_node_links0|]. cbn. intros l [? ?]. split; [by apply keys_mono|done].
  - rewrite dict_set_keys. case_bool_decide; [|apply Forall_app; split; [|apply Forall_singleton; left; apply elem_of_cons; by left]];
      (eapply Forall_impl; [exact wf_nodes_linked0|]); intros x [?|?]; auto; left; apply elem_of_cons; by right.
Qed.

(** Filing a well-formed edge, to be linked. *)
Lemma wf_set_edge pn pe es s k e :
  wf pn pe es s -> edge_wf (cs_nodes s).*1 k e ->
  exists s', set_edge k e s = (Ok tt, s') /\ wf pn (k :: pe) es s' /\ k ∈ (cs_edges s').*1 /\
             cs_nodes s' = cs_nodes s /\ cs_diagnostics s' = cs_diagnostics s /\
             cs_node_evidence_links s' = cs_node_evidence_links s.
Proof.
  intros [] He. eexists. split; [reflexivity|]. cbn [cs_nodes cs_edges cs_diagnostics cs_node_evidence_links].
  split; [|eauto using key_of_dict_set].
  constructor; cbn [cs_nodes cs_edges cs_evidence cs_node_evidence_links cs_edge_evidence_links
    cs_diagnostics]; auto using NoDup_dict_set, Forall_dict_set.
  - eapply Forall_impl; [exact wf_edge_links0|]. cbn. intros l [? ?]. split; [by apply keys_mono|done].
  - rewrite dict_set_keys. case_bool_decide; [|apply Forall_app; split; [|apply Forall_singleton; left; apply elem_of_cons; by left]];
      (eapply Forall_impl; [exact wf_edges_linked0|]); intros x [?|?]; auto; left; apply elem_of_cons; by right.
Qed.

Lemma wf_append_evidence pn pe es s v :
  wf pn pe es s ->
  exists s', append_evidence v s = (Ok tt, s') /\ wf pn pe (es ++ [v]) s' /\
             cs_nodes s' = cs_nodes s /\ cs_diagnostics s' = cs_diagnostics s.
Proof.
  intros []. eexists. split; [reflexivity|]. split; [|done].
  constructor; cbn [cs_nodes cs_edges cs_evidence cs_node_evidence_links cs_edge_evidence_links
    cs_diagnostics]; auto.
  - by rewrite wf_evidence0.
  - eapply Forall_impl; [exact wf_node_links0|]. cbn. intros l [? ?]. split; [done|].
    rewrite fmap_app. apply elem_of_app. by left.
  - eapply Forall_impl; [exact wf_edge_links0|]. cbn. intros l [? ?]. split; [done|].
    rewrite fmap_app. apply elem_of_app. by left.
Qed.

Lemma wf_append_node_link pn pe es s l :
  wf pn pe es s -> nl_canonical_key l ∈ (cs_nodes s).*1 -> nl_evidence_key l ∈ v_evidence_key <$> es ->
  exists s', append_node_link l s = (Ok tt, s') /\ wf pn pe es s' /\ node_linked s' (nl_canonical_key l) /\
             (forall k, node_linked s k -> node_linked s' k) /\
             cs_nodes s' = cs_nodes s /\ cs_diagnostics s' = cs_diagnostics s.
Proof.
  intros [] Hn He. eexists. split; [reflexivity|]. unfold node_linked.
  cbn [cs_node_evidence_links cs_nodes cs_diagnostics].
  assert (Hk : forall k, k ∈ nl_canonical_key <$> cs_node_evidence_links s ->
                         k ∈ nl_canonical_key <$> cs_node_evidence_links s ++ [l])
    by (intros k ?; rewrite fmap_app; apply elem_of_app; by left).
  split_and!; [|rewrite fmap_app; apply elem_of_app; right; by apply list_elem_of_singleton|done|done|done].
  constructor; cbn [cs_nodes cs_edges cs_evidence cs_node_evidence_links cs_edge_evidence_links
    cs_diagnostics]; auto.
  - apply Forall_app. split; [done|]. by apply Forall_singleton.
  - eapply Forall_impl; [exact wf_nodes_linked0|]. intros k [?|?]; [by left|right]. by apply Hk.
Qed.

Lemma wf_append_edge_link pn pe es s l :
  wf pn pe es s -> el_edge_key l ∈ (cs_edges s).*1 -> el_evidence_key l ∈ v_evidence_key <$> es ->
  exists s', append_edge_link l s = (Ok tt, s') /\ wf pn pe es s' /\ edge_linked s' (el_edge_key l) /\
             cs_nodes s' = cs_nodes s /\ cs_diagnostics s' = cs_diagnostics s /\
             cs_node_evidence_links s' = cs_node_evidence_links s.
Proof.
  intros [] Hn He. eexists. split; [reflexivity|]. unfold edge_linked. cbn [cs_edge_evidence_links].
  assert (Hk : forall k, k ∈ el_edge_key <$> cs_edge_evidence_links s ->
                         k ∈ el_edge_key <$> cs_edge_evidence_links s ++ [l])
    by (intros k ?; rewrite fmap_app; apply elem_of_app; by left).
  split_and!; [|rewrite fmap_app; apply elem_of_app; right; by apply list_elem_of_singleton|done|done|done].
  constructor; cbn [cs_nodes cs_edges cs_evidence cs_node_evidence_links cs_edge_evidence_links
    cs_diagnostics]; auto.
  - apply Forall_app. split; [done|]. by apply Forall_singleton.
  - eapply Forall_impl; [exact wf_edges_linked0|]. intros k [?|?]; [by left|right]. by apply Hk.
Qed.

(** Adding diagnostics changes nothing else. *)
Definition add_diagnostics (ds : list CanonicalizationDiagnostic) (s : CanonicalizationState) :
    CanonicalizationState :=
  {| cs_nodes := cs_nodes s; cs_edges := cs_edges s; cs_evidence := cs_evidence s;
     cs_node_evidence_links := cs_node_evidence_links s;
     cs_edge_evidence_links := cs_edge_evidence_links s; cs_diagnostics := cs_diagnostics s ++ ds |}.

Lemma wf_add_diagnostics pn pe es s ds :
  wf pn pe es s -> Forall (fun d => valid_diagnostic d = true) ds -> wf pn pe es (add_diagnostics ds s).
Proof. intros [] Hd. constructor; cbn; auto. by apply Forall_app. Qed.

Lemma add_diagnostics_nil s : add_diagnostics [] s = s.
Proof. destruct s. unfold add_diagnostics. cbn. by rewrite app_nil_r. Qed.

Lemma add_diagnostics_app ds ds' s :
  add_diagnostics ds' (add_diagnostics ds s) = add_diagnostics (ds ++ ds') s.
Proof. unfold add_diagnostics. cbn. by rewrite <- app_assoc. Qed.

(** A linked node or edge is no longer pending. *)
Lemma wf_node_done k pn pe es s : wf (k :: pn) pe es s -> node_linked s k -> wf pn pe es s.
Proof.
  intros [] Hk. constructor; auto. eapply Forall_impl; [exact wf_nodes_linked0|].
  intros x [[->|?]%elem_of_cons|?]; auto.
Qed.

Lemma wf_edge_done k pn pe es s : wf pn (k :: pe) es s -> edge_linked s k -> wf pn pe es s.
Proof.
  intros [] Hk. constructor; auto. eapply Forall_impl; [exact wf_edges_linked0|].
  intros x [[->|?]%elem_of_cons|?]; auto.
Qed.

(** ** Upserts *)

Lemma wf_upsert_node pn pe es s k kind display metadata confidence :
  wf pn pe es s -> kind = _node_kind_from_key k -> node_key_ok k -> confidence ∈ VALID_CONFIDENCES ->
  exists s', _upsert_node k kind display metadata confidence s = (Ok tt, s') /\ wf (k :: pn) pe es s' /\
             k ∈ (cs_nodes s').*1 /\ (cs_nodes s).*1 ⊆ (cs_nodes s').*1 /\
             cs_diagnostics s' = cs_diagnostics s.
Proof.
  intros Hwf -> Hk Hc. unfold _upsert_node, get_nodes, mbind, cm_bind.
  destruct (dict_get k (cs_nodes s)) as [n|] eqn:E.
  - destruct (wf_node_get _ _ _ _ _ _ Hwf E) as [H1 H2 H3 H4 H5].
    destruct (stronger_confidence_Ok _ _ H4 Hc) as (c & Hs & Hcv). unfold lift. rewrite Hs.
    apply wf_set_node; [done|]. by constructor.
  - apply wf_set_node; [done|]. by constructor.
Qed.

Lemma wf_upsert_edge pn pe es s source kind target identity metadata confidence :
  wf pn pe es s -> kind ∈ CANONICAL_EDGE_KINDS -> source ∈ (cs_nodes s).*1 -> target ∈ (cs_nodes s).*1 ->
  confidence ∈ VALID_CONFIDENCES ->
  let k := canonical_edge_key GRAPH_KEY_VERSION source (lit kind) target identity in
  exists s', _upsert_edge k source (lit kind) target identity metadata confidence s = (Ok tt, s') /\
             wf pn (k :: pe) es s' /\ k ∈ (cs_edges s').*1 /\ cs_nodes s' = cs_nodes s /\
             cs_diagnostics s' = cs_diagnostics s /\ cs_node_evidence_links s' = cs_node_evidence_links s.
Proof.
  intros Hwf Hk Hs Ht Hc k. unfold _upsert_edge, get_edges, mbind, cm_bind.
  destruct (dict_get k (cs_edges s)) as [e|] eqn:E.
  - destruct (wf_edge_get _ _ _ _ _ _ Hwf E) as [H1 H2 H3 H4 H5 H6 H7].
    destruct (stronger_confidence_Ok _ _ H7 Hc) as (c & Hst & Hcv). unfold lift. rewrite Hst.
    apply wf_set_edge; [done|]. by constructor.
  - apply wf_set_edge; [done|]. constructor; cbn; eauto.
Qed.

Lemma wf_support_edge pn pe es s o ek source kind target metadata :
  wf pn pe es s -> kind ∈ CANONICAL_EDGE_KINDS -> source ∈ (cs_nodes s).*1 -> target ∈ (cs_nodes s).*1 ->
  obs_confidence o ∈ VALID_CONFIDENCES -> ek ∈ v_evidence_key <$> es ->
  exists s', support_edge o ek source kind target metadata s = (Ok tt, s') /\ wf pn pe es s' /\
             cs_nodes s' = cs_nodes s /\ cs_diagnostics s' = cs_diagnostics s /\
             cs_node_evidence_links s' = cs_node_evidence_links s.
Proof.
  intros Hwf Hk Hs Ht Hc He.
  destruct (wf_upsert_edge _ _ _ _ _ _ _ [] metadata _ Hwf Hk Hs Ht Hc) as (s1 & E1 & W1 & K1 & N1 & D1 & L1).
  set (k := canonical_edge_key _ _ _ _ _) in *.
  destruct (wf_append_edge_link _ _ _ _ {| el_edge_key := k; el_evidence_key := ek; el_link_kind := lit "supports" |}
              W1 K1 He) as (s2 & E2 & W2 & K2 & N2 & D2 & L2).
  exists s2. unfold support_edge, _upsert_config_edge, mbind, cm_bind. fold k. rewrite E1. cbn [mret cm_ret].
  rewrite E2. split_and!; [done|by eapply wf_edge_done|congruence|congruence|congruence].
Qed.

(** A node argument a handler may pass. *)
Definition arg_ok (a : node_arg) : Prop :=
  node_key_ok (na_key a) /\ na_kind a = _node_kind_from_key (na_key a).

Lemma wf_upsert_arg pn pe es s o a :
  wf pn pe es s -> arg_ok a -> obs_confidence o ∈ VALID_CONFIDENCES ->
  exists s', upsert_arg o a s = (Ok tt, s') /\ wf (na_key a :: pn) pe es s' /\
             na_key a ∈ (cs_nodes s').*1 /\ (cs_nodes s).*1 ⊆ (cs_nodes s').*1 /\
             cs_diagnostics s' = cs_diagnostics s.
Proof. intros Hwf [Hk Hkind] Hc. by apply wf_upsert_node. Qed.

Lemma wf_link_arg pn pe es s ek a :
  wf pn pe es s -> na_key a ∈ (cs_nodes s).*1 -> ek ∈ v_evidence_key <$> es ->
  exists s', link_arg ek a s = (Ok tt, s') /\ wf pn pe es s' /\ node_linked s' (na_key a) /\
             (forall k, node_linked s k -> node_linked s' k) /\
             cs_nodes s' = cs_nodes s /\ cs_diagnostics s' = cs_diagnostics s.
Proof. intros Hwf Hk He. by apply wf_append_node_link. Qed.

(** ** The shapes of the handlers *)

Lemma wf_relate es s o ev source target kind metadata :
  wf [] [] es s -> arg_ok source -> arg_ok target -> kind ∈ CANONICAL_EDGE_KINDS ->
  obs_confidence o ∈ VALID_CONFIDENCES ->
  exists s', relate o ev source target kind metadata s = (Ok tt, s') /\ wf [] [] (es ++ [ev]) s' /\
             na_key source ∈ (cs_nodes s').*1 /\ na_key target ∈ (cs_nodes s').*1 /\
             cs_diagnostics s' = cs_diagnostics s.
Proof.
  intros Hwf Hs Ht Hk Hc.
  assert (He : v_evidence_key ev ∈ v_evidence_key <$> es ++ [ev])
    by (rewrite fmap_app; apply elem_of_app; right; by apply list_elem_of_singleton).
  destruct (wf_append_evidence _ _ _ _ ev Hwf) as (s1 & E1 & W1 & _ & D1).
  destruct (wf_upsert_arg _ _ _ _ o _ W1 Hs Hc) as (s2 & E2 & W2 & K2 & M2 & D2).
  destruct (wf_upsert_arg _ _ _ _ o _ W2 Ht Hc) as (s3 & E3 & W3 & K3 & M3 & D3).
  destruct (wf_link_arg _ _ _ _ _ _ W3 (M3 _ K2) He) as (s4 & E4 & W4 & L4 & _ & N4 & D4).
  destruct (wf_link_arg _ _ _ _ _ target W4 ltac:(by rewrite N4) He) as (s5 & E5 & W5 & L5 & M5 & N5 & D5).
  destruct (wf_support_edge _ _ _ _ o _ (na_key source) kind (na_key target) metadata W5 Hk
              ltac:(rewrite N5, N4; auto) ltac:(by rewrite N5, N4) Hc He) as (s6 & E6 & W6 & N6 & D6 & L6).
  exists s6. unfold relate, mbind, cm_bind. rewrite E1, E2, E3, E4, E5, E6.
  split_and!; [done| |by rewrite N6, N5, N4; auto|by rewrite N6, N5, N4|congruence].
  assert (Hl : forall k, node_linked s5 k -> node_linked s6 k) by (unfold node_linked; by rewrite L6).
  eapply wf_node_done, Hl, M5, L4. eapply wf_node_done; [exact W6|]. by apply Hl.
Qed.

Lemma wf_attach es s o ek node source kind target metadata :
  wf [] [] es s -> arg_ok node -> kind ∈ CANONICAL_EDGE_KINDS -> obs_confidence o ∈ VALID_CONFIDENCES ->
  ek ∈ v_evidence_key <$> es ->
  (source = na_key node \/ source ∈ (cs_nodes s).*1) -> (target = na_key node \/ target ∈ (cs_nodes s).*1) ->
  exists s', attach o ek node source kind target metadata s = (Ok tt, s') /\ wf [] [] es s' /\
             (cs_nodes s).*1 ⊆ (cs_nodes s').*1 /\ cs_diagnostics s' = cs_diagnostics s.
Proof.
  intros Hwf Hn Hk Hc He Hsrc Htgt.
  destruct (wf_upsert_arg _ _ _ _ o _ Hwf Hn Hc) as (s1 & E1 & W1 & K1 & M1 & D1).
  destruct (wf_link_arg _ _ _ _ _ _ W1 K1 He) as (s2 & E2 & W2 & L2 & _ & N2 & D2).
  destruct (wf_support_edge _ _ _ _ o _ source kind target metadata W2 Hk
              ltac:(rewrite N2; destruct Hsrc as [-> |]; auto)
              ltac:(rewrite N2; destruct Htgt as [-> |]; auto) Hc He) as (s3 & E3 & W3 & N3 & D3 & L3).
  exists s3. unfold attach, mbind, cm_bind. rewrite E1, E2, E3.
  split_and!; [done| |by rewrite N3, N2|congruence].
  eapply wf_node_done; [exact W3|]. unfold node_linked. by rewrite L3.
Qed.

Lemma wf_chart_nodes o ek nodes es s :
  wf [] [] es s -> Forall arg_ok nodes -> obs_confidence o ∈ VALID_CONFIDENCES -> ek ∈ v_evidence_key <$> es ->
  exists s', chart_nodes o ek nodes s = (Ok tt, s') /\ wf [] [] es s' /\
             (cs_nodes s).*1 ⊆ (cs_nodes s').*1 /\ (na_key <$> nodes) ⊆ (cs_nodes s').*1 /\
             cs_diagnostics s' = cs_diagnostics s.
Proof.
  intros Hwf Hn Hc He. revert s Hwf. induction Hn as [|node nodes Hnode _ IH]; intros s Hwf.
  { exists s. split_and!; [done|done|done|intros x Hx; by apply elem_of_nil in Hx|done]. }
  destruct (wf_upsert_arg _ _ _ _ o _ Hwf Hnode Hc) as (s1 & E1 & W1 & K1 & M1 & D1).
  destruct (wf_link_arg _ _ _ _ _ _ W1 K1 He) as (s2 & E2 & W2 & L2 & _ & N2 & D2).
  destruct (IH s2 ltac:(by eapply wf_node_done)) as (s3 & E3 & W3 & M3 & K3 & D3).
  exists s3. cbn [chart_nodes]. unfold mbind, cm_bind. rewrite E1, E2, E3.
  rewrite N2 in M3. split_and!; [done|done|by etrans| |congruence].
  intros x. rewrite fmap_cons. intros [->|Hx]%elem_of_cons; auto.
Qed.

Lemma wf_chart_edges o ek kind edges es s :
  wf [] [] es s -> kind ∈ CANONICAL_EDGE_KINDS -> obs_confidence o ∈ VALID_CONFIDENCES ->
  ek ∈ v_evidence_key <$> es ->
  Forall (fun e : pystr * pystr * pydict => e.1.1 ∈ (cs_nodes s).*1 /\ e.1.2 ∈ (cs_nodes s).*1) edges ->
  exists s', chart_edges o ek kind edges s = (Ok tt, s') /\ wf [] [] es s' /\
             cs_diagnostics s' = cs_diagnostics s.
Proof.
  intros Hwf Hk Hc He. revert s Hwf. induction edges as [|[[src tgt] md] edges IH]; intros s Hwf Hes.
  { by exists s. }
  apply Forall_cons in Hes as [[Hs Ht] Hes].
  destruct (wf_support_edge _ _ _ _ o _ src kind tgt md Hwf Hk Hs Ht Hc He) as (s1 & E1 & W1 & N1 & D1 & _).
  destruct (IH s1 W1) as (s2 & E2 & W2 & D2); [by rewrite N1|].
  exists s2. cbn [chart_edges]. unfold mbind, cm_bind. rewrite E1, E2. split_and!; [done|done|congruence].
Qed.

(** Every end of an edge is one of the nodes of the chart. *)
Definition chart_closed (nodes : list node_arg) (edges : list (pystr * pystr * pydict)) : Prop :=
  Forall (fun e : pystr * pystr * pydict => e.1.1 ∈ na_key <$> nodes /\ e.1.2 ∈ na_key <$> nodes) edges.

Lemma wf_chart es s o ev nodes kind edges :
  wf [] [] es s -> Forall arg_ok nodes -> chart_closed nodes edges -> kind ∈ CANONICAL_EDGE_KINDS ->
  obs_confidence o ∈ VALID_CONFIDENCES ->
  exists s', chart o ev nodes kind edges s = (Ok tt, s') /\ wf [] [] (es ++ [ev]) s' /\
             cs_diagnostics s' = cs_diagnostics s.
Proof.
  intros Hwf Hn He Hk Hc.
  assert (Hev : v_evidence_key ev ∈ v_evidence_key <$> es ++ [ev])
    by (rewrite fmap_app; apply elem_of_app; right; by apply list_elem_of_singleton).
  destruct (wf_append_evidence _ _ _ _ ev Hwf) as (s1 & E1 & W1 & _ & D1).
  destruct (wf_chart_nodes o _ _ _ _ W1 Hn Hc Hev) as (s2 & E2 & W2 & _ & K2 & D2).
  destruct (wf_chart_edges o _ _ edges _ _ W2 Hk Hc Hev) as (s3 & E3 & W3 & D3).
  { eapply Forall_impl; [exact He|]. intros e [? ?]. auto. }
  exists s3. unfold chart, mbind, cm_bind. rewrite E1, E2, E3. split_and!; [done|done|congruence].
Qed.

End Invariant.
