(* ===== verification/CanonLogic.v ===== *)
(** Rules for the handlers of canonicalization.

    A computation of keys ([quiet]) reads nothing of the state and adds only
    valid diagnostics about its observation; it returns a value with a property
    or raises an allowed exception.  A handler ([recorded]) keeps the invariant
    and accounts for its observation: it appends exactly one piece of evidence
    for it or at least one diagnostic. *)
From S2P Require Import Prelude Utf8 PyVal Json PyDictFacts GraphKeys GraphKeysFacts KeyBuilders.
From S2P Require Import Observations ObservationsFacts CanonCore CanonState CanonInvariant.
Open Scope Z_scope.

Section Logic.
Context {U : Unicode}.

(** ** Exceptions *)

(** Inside [try ... except GraphKeyError]. *)
Definition key_failure (e : cexn) : Prop :=
  e = CUnicodeEncodeError \/ exists msg, e = CGraphKeyError msg /\ msg <> [].
(** Outside: only text that has no UTF-8 encoding. *)
Definition unicode_failure (e : cexn) : Prop := e = CUnicodeEncodeError.

Lemma unicode_is_key_failure e : unicode_failure e -> key_failure e.
Proof. by left. Qed.

Lemma key_error_message_nonempty e : key_error_message e <> [].
Proof. destruct e; cbn; try done; by destruct ns. Qed.

(** ** Computations of keys *)

(** A valid diagnostic about the observation with ordinal [n]. *)
Definition diag_for (n : Z) (d : CanonicalizationDiagnostic) : Prop :=
  valid_diagnostic d = true /\ d_raw_observation_ordinal d = Some n.

Definition quiet {A} (n : Z) (m : CM A) (Q : A -> Prop) (X : cexn -> Prop) : Prop :=
  forall s, exists r ds, m s = (r, add_diagnostics ds s) /\ Forall (diag_for n) ds /\
                         match r with Ok a => Q a | Err e => X e end.

Lemma quiet_weaken {A} n (m : CM A) (Q Q' : A -> Prop) (X X' : cexn -> Prop) :
  quiet n m Q X -> (forall a, Q a -> Q' a) -> (forall e, X e -> X' e) -> quiet n m Q' X'.
Proof.
  intros H HQ HX s. destruct (H s) as (r & ds & E & Hds & Hr). exists r, ds. split_and!; [done|done|].
  destruct r; auto.
Qed.

Lemma quiet_ret {A} n (a : A) (Q : A -> Prop) X : Q a -> quiet n (mret a) Q X.
Proof. intros H s. exists (Ok a), []. by rewrite add_diagnostics_nil. Qed.

Lemma quiet_raise {A} n e (Q : A -> Prop) (X : cexn -> Prop) : X e -> quiet n (craise e) Q X.
Proof. intros H s. exists (Err e), []. by rewrite add_diagnostics_nil. Qed.

Lemma quiet_key_error {A} n msg (Q : A -> Prop) : msg <> [] -> quiet n (key_error msg) Q key_failure.
Proof. intros H. apply quiet_raise. right. eauto. Qed.

Lemma quiet_bind {A B} n (m : CM A) (f : A -> CM B) (P : A -> Prop) (Q : B -> Prop) X :
  quiet n m P X -> (forall a, P a -> quiet n (f a) Q X) -> quiet n (m ≫= f) Q X.
Proof.
  intros Hm Hf s. destruct (Hm s) as (r & ds & E & Hds & Hr).
  unfold mbind, cm_bind. rewrite E. destruct r as [a|e]; [|exists (Err e), ds; auto].
  destruct (Hf a Hr (add_diagnostics ds s)) as (r' & ds' & E' & Hds' & Hr').
  exists r', (ds ++ ds'). rewrite E', add_diagnostics_app. split_and!; [done|by apply Forall_app|done].
Qed.

Lemma quiet_lift_key {A} n (r : kres A) (Q : A -> Prop) (X : cexn -> Prop) :
  match r with Ok a => Q a | Err e => X (key_cexn e) end -> quiet n (lift_key r) Q X.
Proof.
  intros H s. exists (match r with Ok a => Ok a | Err e => Err (key_cexn e) end), [].
  rewrite add_diagnostics_nil. split_and!; [done|done|]. by destruct r.
Qed.

(** A call of a builder, inside a [try]. *)
Lemma quiet_builds n ns (r : kres pystr) :
  builds ns r ->
  quiet n (lift_key r) (fun k => exists p, parse_key (PyStr k) = Ok p /\ namespace p = ns) key_failure.
Proof.
  intros H. apply quiet_lift_key. destruct r as [k|e]; [done|]. cbn in H.
  destruct e; cbn; [right|by left|done]. eexists. split; [done|]. apply key_error_message_nonempty.
Qed.

(** [parse_key] of a value, inside a [try]. *)
Lemma quiet_parse n v :
  quiet n (lift_key (parse_key (key_arg v)))
    (fun p => exists k, v = VStr k /\ parse_key (PyStr k) = Ok p) key_failure.
Proof.
  apply quiet_lift_key. destruct (parse_key (key_arg v)) as [p|e] eqn:E.
  - destruct v; try discriminate E. eauto.
  - destruct (parse_key_errors _ _ E) as (g & ->). right. eexists. split; [done|].
    apply key_error_message_nonempty.
Qed.

Lemma quiet_parse_text n k :
  quiet n (lift_key (parse_key (PyStr k))) (fun p => parse_key (PyStr k) = Ok p) key_failure.
Proof.
  eapply quiet_weaken; [apply (quiet_parse n (VStr k))| |done].
  by intros p (k' & [= <-] & ?).
Qed.

Lemma quiet_append_diagnostic n d X :
  diag_for n d -> quiet n (append_diagnostic d) (fun _ => True) X.
Proof.
  intros [Hv Hn] s. exists (Ok tt), [d]. unfold append_diagnostic. rewrite Hv. split_and!; [done| |done].
  apply Forall_singleton. by split.
Qed.

(** The severity and category of a diagnostic are literals. *)
Definition literals_ok (severity category : string) : bool :=
  bool_decide (is_Some (dict_get (lit severity) SEVERITY_SORT_ORDER)) && negb (bool_decide (category = "")).

Lemma lit_nonempty s : s <> "" -> lit s <> [].
Proof. by destruct s. Qed.

Lemma diagnose_for n o severity category message field value placeholder :
  literals_ok severity category = true -> message <> [] ->
  quiet n (diagnose o n severity category message field value placeholder) (fun _ => True) (fun _ => False).
Proof.
  intros [Hs Hc%negb_true_iff%bool_decide_eq_false]%andb_true_iff Hm. apply quiet_append_diagnostic.
  split; [|done]. unfold valid_diagnostic. cbn [d_severity d_category d_message]. rewrite Hs.
  rewrite !bool_decide_false by auto using lit_nonempty. done.
Qed.

Lemma graph_key_error_category_nonempty e : _graph_key_error_category e <> [].
Proof. unfold _graph_key_error_category. by repeat case_match. Qed.

Lemma diagnose_key_error_for n o severity error message field value placeholder :
  literals_ok severity "x" = true -> message <> [] ->
  quiet n (diagnose_key_error o n severity error message field value placeholder)
    (fun _ => True) (fun _ => False).
Proof.
  intros [Hs _]%andb_true_iff Hm. apply quiet_append_diagnostic.
  split; [|done]. unfold valid_diagnostic. cbn [d_severity d_category d_message]. rewrite Hs.
  rewrite !bool_decide_false by auto using graph_key_error_category_nonempty. done.
Qed.

Lemma quiet_diagnose n o severity category message field value placeholder X :
  literals_ok severity category = true -> message <> [] ->
  quiet n (diagnose o n severity category message field value placeholder) (fun _ => True) X.
Proof. intros. eapply quiet_weaken; [by apply diagnose_for|done|done]. Qed.

Lemma quiet_diagnose_key_error n o severity error message field value placeholder X :
  literals_ok severity "x" = true -> message <> [] ->
  quiet n (diagnose_key_error o n severity error message field value placeholder) (fun _ => True) X.
Proof. intros. eapply quiet_weaken; [by apply diagnose_key_error_for|done|done]. Qed.

Lemma quiet_try {A} n (m : CM A) (Q : A -> Prop) X :
  (forall e, unicode_failure e -> X e) ->
  quiet n m Q key_failure ->
  quiet n (try_key m) (fun r => match r with inl a => Q a | inr msg => msg <> [] end) X.
Proof.
  intros HX Hm s. destruct (Hm s) as (r & ds & E & Hds & Hr). unfold try_key. rewrite E.
  destruct r as [a|e]; [exists (Ok (inl a)), ds; auto|].
  destruct Hr as [->|(msg & -> & Hmsg)].
  - exists (Err CUnicodeEncodeError), ds. split_and!; [done|done|by apply HX].
  - exists (Ok (inr msg)), ds. auto.
Qed.

(** ** Handlers *)

Definition wp {A} (m : CM A) (s : CanonicalizationState) (Q : A -> CanonicalizationState -> Prop)
    (X : cexn -> Prop) : Prop :=
  match m s with (Ok a, s') => Q a s' | (Err e, _) => X e end.

Lemma wp_bind {A B} (m : CM A) (f : A -> CM B) s Q X :
  wp m s (fun a s' => wp (f a) s' Q X) X -> wp (m ≫= f) s Q X.
Proof. unfold wp, mbind, cm_bind. by destruct (m s) as [[a|e] s']. Qed.

Lemma wp_quiet {A} n (m : CM A) s (P : A -> Prop) Q X :
  quiet n m P X ->
  (forall a ds, P a -> Forall (diag_for n) ds -> Q a (add_diagnostics ds s)) -> wp m s Q X.
Proof.
  intros Hm HQ. destruct (Hm s) as (r & ds & E & Hds & Hr). unfold wp. rewrite E. destruct r; auto.
Qed.

Lemma diag_for_valid n ds : Forall (diag_for n) ds -> Forall (fun d => valid_diagnostic d = true) ds.
Proof. intros H. eapply Forall_impl; [exact H|]. by intros d []. Qed.

(** The evidence of an observation. *)
Definition evidence_for (o : RawObservation) (n : Z) (v : CanonicalEvidence) : Prop :=
  exists md, v = _evidence_from_observation o n md.

Lemma evidence_from_observation_for o n md : evidence_for o n (_evidence_from_observation o n md).
Proof. by exists md. Qed.

(** What a handler leaves: only diagnostics about its observation and evidence for
    it were added, at least one of either; and one piece of evidence at most,
    unless [many]. *)
Definition accounted (many : bool) (o : RawObservation) (n : Z) (es : list CanonicalEvidence)
    (s s' : CanonicalizationState) : Prop :=
  exists ds vs, cs_diagnostics s' = cs_diagnostics s ++ ds /\ Forall (diag_for n) ds /\
    wf [] [] (es ++ vs) s' /\ Forall (evidence_for o n) vs /\ (vs <> [] \/ ds <> []) /\
    (many = false -> (length vs <= 1)%nat).

Definition recorded_as (many : bool) (o : RawObservation) (n : Z) (X : cexn -> Prop) (m : CM unit) : Prop :=
  forall es s, wf [] [] es s -> wp m s (fun _ s' => accounted many o n es s s') X.

#[local] Abbreviation recorded := (recorded_as false).

Lemma accounted_one many o n es s s' ds v :
  cs_diagnostics s' = cs_diagnostics s ++ ds -> Forall (diag_for n) ds -> evidence_for o n v ->
  wf [] [] (es ++ [v]) s' -> accounted many o n es s s'.
Proof.
  intros. exists ds, [v]. split_and!; [done|done|done|by apply Forall_singleton|by left|by cbn; lia].
Qed.

Lemma accounted_none many o n es s s' ds :
  cs_diagnostics s' = cs_diagnostics s ++ ds -> Forall (diag_for n) ds -> ds <> [] ->
  wf [] [] es s' -> accounted many o n es s s'.
Proof.
  intros. exists ds, []. rewrite app_nil_r. split_and!; [done|done|done|by apply Forall_nil|by right|by cbn; lia].
Qed.

Lemma recorded_more many o n X m : recorded o n X m -> recorded_as many o n X m.
Proof.
  intros H es s Hwf. specialize (H es s Hwf). unfold wp in *. destruct (m s) as [[u|e] s']; [|done].
  destruct H as (ds & vs & ? & ? & ? & ? & ? & Hl). exists ds, vs. split_and!; auto.
Qed.

Lemma recorded_allow many o n (X Y : cexn -> Prop) m :
  (forall e, X e -> Y e) -> recorded_as many o n X m -> recorded_as many o n Y m.
Proof.
  intros HXY H es s Hwf. specialize (H es s Hwf). unfold wp in *. destruct (m s) as [[u|e] s']; auto.
Qed.

Lemma accounted_diagnostics many o n es s ds s' :
  Forall (diag_for n) ds -> accounted many o n es (add_diagnostics ds s) s' -> accounted many o n es s s'.
Proof.
  intros Hds (ds' & vs & Hd & Hds' & Hwf & Hv & Hne & Hl). exists (ds ++ ds'), vs.
  split_and!; [by rewrite Hd, app_assoc|by apply Forall_app|done|done| |done].
  destruct Hne as [?|?]; [by left|right]. by destruct ds.
Qed.

(** Computing keys first. *)
Lemma recorded_quiet_bind {A} many o n X (m : CM A) (f : A -> CM unit) (P : A -> Prop) :
  quiet n m P X -> (forall a, P a -> recorded_as many o n X (f a)) -> recorded_as many o n X (m ≫= f).
Proof.
  intros Hm Hf es s Hwf. apply wp_bind. eapply wp_quiet; [exact Hm|]. intros a ds Ha Hds.
  pose proof (Hf a Ha es _ (wf_add_diagnostics _ _ _ _ _ Hwf (diag_for_valid _ _ Hds))) as H.
  unfold wp in *. destruct (f a _) as [[u|e] s']; [|done]. by eapply accounted_diagnostics.
Qed.

(** Ending with a diagnostic. *)
Lemma recorded_diagnostic many o n X d : diag_for n d -> recorded_as many o n X (append_diagnostic d).
Proof.
  intros Hd es s Hwf. unfold wp, append_diagnostic. destruct Hd as [Hv Hn]. rewrite Hv.
  apply (accounted_none _ _ _ _ _ _ [d]); [done|by apply Forall_singleton|done|].
  change (wf [] [] es (add_diagnostics [d] s)). apply wf_add_diagnostics; [done|].
  by apply Forall_singleton.
Qed.

Lemma recorded_diagnose many o n X severity category message field value placeholder :
  literals_ok severity category = true -> message <> [] ->
  recorded_as many o n X (diagnose o n severity category message field value placeholder).
Proof.
  intros [Hs Hc%negb_true_iff%bool_decide_eq_false]%andb_true_iff Hm. apply recorded_diagnostic.
  split; [|done]. unfold valid_diagnostic. cbn [d_severity d_category d_message]. rewrite Hs.
  rewrite !bool_decide_false by auto using lit_nonempty. done.
Qed.

Lemma recorded_diagnose_key_error many o n X error field value placeholder :
  error <> [] -> recorded_as many o n X (diagnose_key_error o n "error" error error field value placeholder).
Proof.
  intros Hm. apply recorded_diagnostic. split; [|done]. unfold valid_diagnostic.
  cbn [d_severity d_category d_message].
  rewrite !(bool_decide_false (_ = [])) by auto using graph_key_error_category_nonempty.
  by rewrite bool_decide_true by (by eexists).
Qed.

Lemma recorded_with_keys {A} many o n (X : cexn -> Prop) field value (keys : CM A) (body : A -> CM unit)
    (P : A -> Prop) :
  (forall e, unicode_failure e -> X e) ->
  quiet n keys P key_failure -> (forall a, P a -> recorded_as many o n X (body a)) ->
  recorded_as many o n X (with_keys o n field value keys body).
Proof.
  intros HX Hk Hb. unfold with_keys. eapply recorded_quiet_bind; [by apply quiet_try|].
  intros [a|msg]; [by apply Hb|]. intros Hmsg. by apply recorded_diagnose_key_error.
Qed.

(** Evidence alone. *)
Lemma recorded_evidence o n X md :
  recorded o n X (append_evidence (_evidence_from_observation o n md)).
Proof.
  intros es s Hwf. destruct (wf_append_evidence _ _ _ _ (_evidence_from_observation o n md) Hwf)
    as (s' & E & W & _ & D). unfold wp. rewrite E.
  eapply (accounted_one _ _ _ _ _ _ []); [by rewrite app_nil_r|by apply Forall_nil| |exact W].
  apply evidence_from_observation_for.
Qed.

(** What may follow the relation: the invariant is kept and only diagnostics
    about the observation are added. *)
Definition kept (n : Z) (es : list CanonicalEvidence) (s s' : CanonicalizationState) : Prop :=
  wf [] [] es s' /\ exists ds, cs_diagnostics s' = cs_diagnostics s ++ ds /\ Forall (diag_for n) ds.

Lemma kept_nothing n es s X : wf [] [] es s -> wp (mret ()) s (fun _ s' => kept n es s s') X.
Proof. intros Hwf. split; [done|]. exists []. by rewrite app_nil_r. Qed.

(** A relation, and what a handler may still do with the two nodes in place. *)
Lemma recorded_relate_then o n X md source target kind metadata (rest : CM unit) :
  arg_ok source -> arg_ok target -> kind ∈ CANONICAL_EDGE_KINDS -> obs_confidence o ∈ VALID_CONFIDENCES ->
  (forall es s, wf [] [] es s -> _evidence_key o n ∈ v_evidence_key <$> es ->
     na_key source ∈ (cs_nodes s).*1 -> na_key target ∈ (cs_nodes s).*1 ->
     wp rest s (fun _ s' => kept n es s s') X) ->
  recorded o n X (_ ← relate o (_evidence_from_observation o n md) source target kind metadata; rest).
Proof.
  intros Hs Ht Hk Hc Hrest es s Hwf. apply wp_bind.
  destruct (wf_relate _ _ o (_evidence_from_observation o n md) _ _ _ metadata Hwf Hs Ht Hk Hc)
    as (s1 & E1 & W1 & K1 & K2 & D1). unfold wp at 1. rewrite E1.
  specialize (Hrest _ _ W1 ltac:(rewrite fmap_app; apply elem_of_app; right; by apply list_elem_of_singleton) K1 K2).
  unfold wp in *. destruct (rest s1) as [[u|e] s2]; [|done]. destruct Hrest as (W2 & ds & D2 & Hds).
  eapply accounted_one; [by rewrite D2, D1|done| |exact W2]. apply evidence_from_observation_for.
Qed.

Lemma recorded_relate o n X md source target kind metadata :
  arg_ok source -> arg_ok target -> kind ∈ CANONICAL_EDGE_KINDS -> obs_confidence o ∈ VALID_CONFIDENCES ->
  recorded o n X (relate o (_evidence_from_observation o n md) source target kind metadata).
Proof.
  intros Hs Ht Hk Hc es s Hwf.
  destruct (wf_relate _ _ o (_evidence_from_observation o n md) _ _ _ metadata Hwf Hs Ht Hk Hc)
    as (s1 & E1 & W1 & _ & _ & D1). unfold wp. rewrite E1.
  eapply (accounted_one _ _ _ _ _ _ []); [by rewrite app_nil_r|by apply Forall_nil| |exact W1].
  apply evidence_from_observation_for.
Qed.

Lemma recorded_chart o n X md nodes kind edges :
  Forall arg_ok nodes -> chart_closed nodes edges -> kind ∈ CANONICAL_EDGE_KINDS ->
  obs_confidence o ∈ VALID_CONFIDENCES ->
  recorded o n X (chart o (_evidence_from_observation o n md) nodes kind edges).
Proof.
  intros Hn He Hk Hc es s Hwf.
  destruct (wf_chart es s o (_evidence_from_observation o n md) nodes kind edges Hwf Hn He Hk Hc)
    as (s1 & E1 & W1 & D1). unfold wp. rewrite E1.
  eapply (accounted_one _ _ _ _ _ _ []); [by rewrite app_nil_r|by apply Forall_nil| |exact W1].
  apply evidence_from_observation_for.
Qed.

(** ** Keys of nodes *)

Definition key_in (ns : string) (k : pystr) : Prop :=
  exists p, parse_key (PyStr k) = Ok p /\ namespace p = lit ns.
Definition parsed_key (k : pystr) : Prop := exists p, parse_key (PyStr k) = Ok p.

Lemma key_in_parsed ns k : key_in ns k -> parsed_key k.
Proof. intros (p & H & _). by exists p. Qed.

(** The namespace of a key is the text before its first colon. *)
Lemma parsed_kind k p : parse_key (PyStr k) = Ok p -> _node_kind_from_key k = namespace p.
Proof.
  unfold parse_key, _node_kind_from_key. destruct k as [|c k]; [done|].
  destruct (str_partition COLON (c :: k)) as [[ns sep] rem]. destruct (negb sep); [done|]. cbn [fst].
  case_bool_decide.
  - destruct (_parse_file_segments rem); [|done]. cbn. by intros [= <-].
  - destruct (table_get ns _SEGMENT_COUNTS); [|done]. destruct (negb _); [done|].
    destruct (mapM _decode_segment _); [|done]. cbn. by intros [= <-].
Qed.

Lemma key_in_kind ns k : key_in ns k -> _node_kind_from_key k = lit ns.
Proof. intros (p & H & <-). by apply parsed_kind. Qed.

Lemma arg_ok_kind k ns display metadata link :
  key_in ns k -> arg_ok (NodeArg k (lit ns) display metadata link).
Proof.
  intros H. split; cbn; [left; by eapply key_in_parsed|]. symmetry. by apply key_in_kind.
Qed.

Lemma arg_ok_parsed k display metadata link :
  parsed_key k -> arg_ok (NodeArg k (_node_kind_from_key k) display metadata link).
Proof. intros H. split; [by left|done]. Qed.

Lemma arg_ok_keyed k metadata link : parsed_key k -> arg_ok (keyed_node k metadata link).
Proof. apply arg_ok_parsed. Qed.

End Logic.

(** One piece of evidence at most. *)
Abbreviation recorded := (recorded_as false).

Create HintDb canon.
#[export] Hint Resolve arg_ok_kind arg_ok_parsed arg_ok_keyed key_in_parsed : canon.
#[export] Hint Resolve quiet_parse quiet_parse_text : canon.
