(* ===== verification/CanonShared.v ===== *)
(** Pieces the observation families share: the loops and conditions their
    handlers are written with, and their rules. *)
From S2P Require Import Prelude Utf8 PyVal Json PyDictFacts GraphKeys GraphKeysFacts KeyBuilders.
From S2P Require Import Observations ObservationsFacts CanonCore CanonState CanonInvariant CanonLogic.
Open Scope Z_scope.

(** [x in ("a", "b", ...)] *)
Definition one_of (s : pystr) (l : list string) : bool := existsb (fun t => bool_decide (s = lit t)) l.

(** [observation.kind == "..."] *)
Definition kind_is (o : RawObservation) (k : string) : bool := bool_decide (obs_kind o = lit k).

(** The text of a value known to be a [str]. *)
Definition val_text (v : pyval) : pystr := match v with VStr s => s | _ => [] end.

(** [text or value] of a metadata text and a value. *)
Definition text_or (t : option pystr) (v : pyval) : pyval := match t with Some s => VStr s | None => v end.

(** [metadata.get(key)] copied when it is a [bool]. *)
Definition copy_bool (summary metadata : pydict) (source_key summary_key : string) : pydict :=
  match meta_get metadata source_key with
  | VBool b => dict_set (lit summary_key) (VBool b) summary
  | _ => summary
  end.

(** [metadata.get(key)] listed when it is an [int]. *)
Definition list_int (summary metadata : pydict) (source_key summary_key : string) : pydict :=
  match int_of (meta_get metadata source_key) with
  | Some _ => dict_set (lit summary_key) (VList [meta_get metadata source_key]) summary
  | None => summary
  end.

(** The entries of [metadata] under the given names whose value is not [None]. *)
Definition select_present (metadata : pydict) (keys : list string) : pydict :=
  foldl (fun summary key =>
           match meta_get metadata key with
           | VNone => summary
           | v => dict_set (lit key) v summary
           end) [] keys.

(** [{key: value for key, value in metadata.items() if key in allowed}] *)
Definition filter_items (metadata : pydict) (allowed : list string) : pydict :=
  filter (fun kv : pystr * pyval => one_of kv.1 allowed = true) metadata.

(** The first of several metadata texts, if any. *)
Definition first_text (metadata : pydict) (keys : list string) : option pystr :=
  foldr (fun key rest => match _metadata_text metadata key with Some t => Some t | None => rest end)
        None keys.

(** [value or text] *)
Definition value_or (v : pyval) (t : option pystr) : pyval :=
  if truthy v then v else match t with Some s => VStr s | None => VNone end.

(** A display name: one of several metadata texts, the name, or the end of the key. *)
Definition display_name_or (metadata : pydict) (keys : list string) (name : pyval) (key : pystr) : pyval :=
  match first_text metadata keys with
  | Some value => VStr value
  | None => if truthy name then name else VStr (_display_name_from_key key)
  end.

Fixpoint for_each {A} (l : list A) (f : A -> CM unit) : CM unit :=
  match l with
  | [] => mret tt
  | x :: rest => _ ← f x; for_each rest f
  end.

(** [isinstance(value, str) and value] *)
Definition plain_text (v : pyval) : option pystr :=
  match v with VStr (c :: s) => Some (c :: s) | _ => None end.

(** [summary[key] = value] when there is a value. *)
Definition set_text (summary : pydict) (key : string) (t : option pystr) : pydict :=
  match t with Some s => dict_set (lit key) (VStr s) summary | None => summary end.

(** The texts of [metadata] under the given names. *)
Definition copy_texts (summary metadata : pydict) (keys : list string) : pydict :=
  foldl (fun summary key => set_text summary key (_metadata_text metadata key)) summary keys.

(** Name and target are what their annotations say. *)
Definition text_or_none (v : pyval) : bool := match v with VNone | VStr _ => true | _ => false end.

Record typed_observation {U : Unicode} (o : RawObservation) : Prop := {
  ty_valid : valid_observation o;
  ty_name : text_or_none (obs_name o) = true;
  ty_target : text_or_none (obs_target o) = true
}.

Section Shared.
Context {U : Unicode}.

Definition parse_text (k : pystr) : CM ParsedGraphKey := lift_key (parse_key (PyStr k)).
Definition parse_value (v : pyval) : CM ParsedGraphKey := lift_key (parse_key (key_arg v)).

(** [parsed.namespace in (...)] *)
Definition in_namespaces (p : ParsedGraphKey) (l : list string) : bool := one_of (namespace p) l.

(** The key of the file of the observation. *)
Definition own_file_key (o : RawObservation) : CM pystr := lift_key (file_key (PathStr (obs_path o))).

(** A key given as text, of one of the given namespaces. *)
Definition checked_key (k : pystr) (namespaces : list string) (refusal : pystr) : CM pystr :=
  parsed ← parse_text k;
  if in_namespaces parsed namespaces then mret k else key_error refusal.

(** The target of the observation, of one of the given namespaces. *)
Definition checked_target (o : RawObservation) (namespaces : list string) (refusal : pystr) : CM pystr :=
  parsed ← parse_value (obs_target o);
  if in_namespaces parsed namespaces then mret (val_text (obs_target o)) else key_error refusal.

(** [resolution == "..."] of an optional text *)
Definition text_is (t : option pystr) (s : string) : bool := bool_decide (t = Some (lit s)).

(** [parse_key(observation.target); return observation.target] *)
Definition own_target_key (o : RawObservation) : CM pystr :=
  _ ← parse_value (obs_target o);
  mret (val_text (obs_target o)).

(** A metadata text the key needs. *)
Definition required_metadata (o : RawObservation) (key : string) (refusal : pystr) : CM pystr :=
  match _metadata_text (obs_metadata o) key with
  | Some value => mret value
  | None => key_error refusal
  end.

(** The target of a reference: a missing one and one that is not a canonical key
    become placeholders, with a warning. *)
Definition reference_target_key_as (o : RawObservation) (ordinal : Z) (domain missing_reason malformed_reason : string)
    (missing malformed : pystr) (target : pyval) : CM pystr :=
  if is_none target then
    placeholder_key ← lift_key (unknown_key (lit domain) (lit missing_reason));
    _ ← diagnose o ordinal "warning" "missing_required_metadata" missing "target" VNone
          (Some placeholder_key);
    mret placeholder_key
  else
    r ← try_key (parse_value target);
    match r with
    | inl _ => mret (val_text target)
    | inr error =>
        placeholder_key ← lift_key (unknown_key (lit domain) (lit malformed_reason));
        _ ← diagnose_key_error o ordinal "warning" error (malformed ++ error) "target" target
              (Some placeholder_key);
        mret placeholder_key
    end.

Definition reference_target_key (o : RawObservation) (ordinal : Z) (domain : string)
    (missing malformed : pystr) (target : pyval) : CM pystr :=
  reference_target_key_as o ordinal domain "missing-target" "malformed-target" missing malformed target.

(** ** Rules *)

Lemma quiet_parse_value n v :
  quiet n (parse_value v) (fun p => exists k, v = VStr k /\ parse_key (PyStr k) = Ok p) key_failure.
Proof. apply quiet_parse. Qed.

Lemma quiet_parse_value_as n v (Q : ParsedGraphKey -> Prop) :
  (forall k p, v = VStr k -> parse_key (PyStr k) = Ok p -> Q p) -> quiet n (parse_value v) Q key_failure.
Proof. intros H. eapply quiet_weaken; [apply quiet_parse| |done]. intros p (k & ? & ?). eauto. Qed.

(** A key that was built, as any key. *)
Lemma quiet_built n ns (r : kres pystr) (Q : pystr -> Prop) :
  builds (lit ns) r -> (forall k, key_in ns k -> Q k) -> quiet n (lift_key r) Q key_failure.
Proof. intros Hr HQ. eapply quiet_weaken; [by apply quiet_builds| |done]. intros k Hk. by apply HQ. Qed.

Lemma quiet_append_raw_target_diagnostic n o placeholder (X : cexn -> Prop) :
  (forall e, unicode_failure e -> X e) ->
  quiet n (_append_raw_target_diagnostic o n placeholder) (fun _ => True) X.
Proof.
  intros HX. unfold _append_raw_target_diagnostic. destruct (obs_target o); try by apply quiet_ret.
  all: eapply quiet_bind; [apply quiet_try; [done|apply quiet_parse]|].
  all: intros [p|error]; [intros _; by apply quiet_ret|intros He].
  all: eapply quiet_bind; [by apply quiet_diagnose_key_error|intros _ _; by apply quiet_ret].
Qed.

Lemma str_nonempty_app_l (s t : pystr) : s <> [] -> s ++ t <> [].
Proof. by destruct s. Qed.

Lemma str_nonempty_app_r (s t : pystr) : t <> [] -> s ++ t <> [].
Proof. by destruct s. Qed.

(** A placeholder key of two segments that are not empty. *)
Lemma unknown_key_quiet n domain reason (X : cexn -> Prop) :
  domain <> [] -> reason <> [] -> (forall e, unicode_failure e -> X e) ->
  quiet n (lift_key (unknown_key domain reason)) (key_in "unknown") X.
Proof.
  intros Hd Hr HX. apply quiet_lift_key.
  pose proof (key_builds (lit "unknown") [domain; reason] ltac:(by eexists)) as Hb. unfold unknown_key in *.
  destruct (_key (lit "unknown") [domain; reason]) as [k|e] eqn:E; [exact Hb|].
  apply HX. apply key_encodable in E as ->; [done|done|by repeat constructor].
Qed.

Lemma dynamic_key_quiet n domain reason (X : cexn -> Prop) :
  domain <> [] -> reason <> [] -> (forall e, unicode_failure e -> X e) ->
  quiet n (lift_key (dynamic_key domain reason)) (key_in "dynamic") X.
Proof.
  intros Hd Hr HX. apply quiet_lift_key.
  pose proof (key_builds (lit "dynamic") [domain; reason] ltac:(by eexists)) as Hb. unfold dynamic_key in *.
  destruct (_key (lit "dynamic") [domain; reason]) as [k|e] eqn:E; [exact Hb|].
  apply HX. apply key_encodable in E as ->; [done|done|by repeat constructor].
Qed.

(** A key of literal namespace and segments that are not empty. *)
Lemma plain_key_quiet n ns segs (X : cexn -> Prop) :
  bool_decide (table_get (lit ns) _SEGMENT_COUNTS = Some (length segs)) = true ->
  Forall (fun s => s <> []) segs -> (forall e, unicode_failure e -> X e) ->
  quiet n (lift_key (_key (lit ns) segs)) (key_in ns) X.
Proof.
  intros Hn%bool_decide_eq_true Hs HX. apply quiet_lift_key.
  pose proof (key_builds (lit ns) segs ltac:(by eexists)) as Hb.
  destruct (_key (lit ns) segs) as [k|e] eqn:E; [exact Hb|].
  apply HX. by apply key_encodable in E as ->.
Qed.

Lemma quiet_reference_target_key_as n o domain mr fr missing malformed target (X : cexn -> Prop) :
  domain <> "" -> mr <> "" -> fr <> "" -> missing <> [] -> (forall e, unicode_failure e -> X e) ->
  quiet n (reference_target_key_as o n domain mr fr missing malformed target) parsed_key X.
Proof.
  intros Hd Hmr Hfr Hm HX. unfold reference_target_key_as. destruct (is_none target).
  - eapply quiet_bind; [by apply unknown_key_quiet; [apply lit_nonempty|apply lit_nonempty|]|]. intros k Hk.
    eapply quiet_bind; [by apply quiet_diagnose|]. intros _ _. apply quiet_ret. by eapply key_in_parsed.
  - eapply quiet_bind; [apply quiet_try; [done|apply quiet_parse_value]|].
    intros [p|error].
    + intros (k & -> & Hp). apply quiet_ret. by exists p.
    + intros He. eapply quiet_bind; [by apply unknown_key_quiet; [apply lit_nonempty|apply lit_nonempty|]|].
      intros k Hk.
      eapply quiet_bind; [by apply quiet_diagnose_key_error; [|apply str_nonempty_app_r]|].
      intros _ _. apply quiet_ret. by eapply key_in_parsed.
Qed.

Lemma quiet_reference_target_key n o domain missing malformed target (X : cexn -> Prop) :
  domain <> "" -> missing <> [] -> (forall e, unicode_failure e -> X e) ->
  quiet n (reference_target_key o n domain missing malformed target) parsed_key X.
Proof. intros. by apply quiet_reference_target_key_as. Qed.

Lemma nonblank_text_Some v t : nonblank_text v = Some t -> v = VStr t /\ nonblank t.
Proof. unfold nonblank_text. destruct v; try done. case_bool_decide; [done|]. by intros [= ->]. Qed.

Lemma nonblank_nonempty t : nonblank t -> t <> [].
Proof. by intros H ->. Qed.

Lemma metadata_text_nonempty md key t : _metadata_text md key = Some t -> t <> [].
Proof. intros [_ H]%nonblank_text_Some. by apply nonblank_nonempty. Qed.

Lemma kind_nonempty o : valid_observation o -> obs_kind o <> [].
Proof. intros H. apply nonblank_nonempty, H. Qed.

Lemma path_nonempty o : valid_observation o -> obs_path o <> [].
Proof. intros H. apply nonblank_nonempty, H. Qed.

End Shared.

#[export] Hint Resolve quiet_parse_value quiet_append_raw_target_diagnostic : canon.
#[export] Hint Resolve metadata_text_nonempty nonblank_nonempty kind_nonempty path_nonempty : canon.

(** Proves that a message is not empty. *)
Ltac nonempty :=
  solve [ discriminate | eauto with canon | by apply str_nonempty_app_l | by apply str_nonempty_app_r
        | apply str_nonempty_app_r; nonempty | apply str_nonempty_app_l; nonempty ].

Section Finish.
Context {U : Unicode}.

Lemma parsed_val_text v p : (exists k, v = VStr k /\ parse_key (PyStr k) = Ok p) -> parsed_key (val_text v).
Proof. intros (k & -> & H). by exists p. Qed.

Lemma parsed_of_parse k p : parse_key (PyStr k) = Ok p -> parsed_key k.
Proof. by exists p. Qed.

(** A namespace that was checked. *)
Lemma key_in_checked k p ns :
  parse_key (PyStr k) = Ok p -> bool_decide (namespace p = lit ns) = true -> key_in ns k.
Proof. intros H Hn%bool_decide_eq_true. by exists p. Qed.

Lemma key_in_not_refused k p ns :
  parse_key (PyStr k) = Ok p -> negb (bool_decide (namespace p = lit ns)) = false -> key_in ns k.
Proof. intros H Hn%negb_false_iff. by eapply key_in_checked. Qed.

(** A key that was built. *)
Lemma quiet_built_key n ns (r : kres pystr) :
  builds (lit ns) r -> quiet n (lift_key r) (key_in ns) key_failure.
Proof. apply quiet_builds. Qed.

Lemma own_file_key_quiet n o : quiet n (own_file_key o) (key_in "file") key_failure.
Proof. apply quiet_built_key, file_key_builds. Qed.

Lemma checked_key_quiet n k nss refusal :
  refusal <> [] -> quiet n (checked_key k nss refusal) parsed_key key_failure.
Proof.
  intros Hr. unfold checked_key. eapply quiet_bind; [apply quiet_parse_text|]. intros p Hp.
  destruct (in_namespaces p nss); [apply quiet_ret; by exists p|by apply quiet_key_error].
Qed.

Lemma checked_target_quiet n o nss refusal :
  refusal <> [] -> quiet n (checked_target o nss refusal) parsed_key key_failure.
Proof.
  intros Hr. unfold checked_target. eapply quiet_bind; [apply quiet_parse_value|]. intros p (k & -> & Hp).
  destruct (in_namespaces p nss); [apply quiet_ret; by exists p|by apply quiet_key_error].
Qed.

(** Two computations whose results are returned together. *)
Lemma quiet_pair {A B} n (m : CM A) (m' : CM B) (P : A -> Prop) (Q : B -> Prop) X :
  quiet n m P X -> quiet n m' Q X ->
  quiet n (a ← m; b ← m'; mret (a, b)) (fun r => P r.1 /\ Q r.2) X.
Proof.
  intros Hm Hm'. eapply quiet_bind; [exact Hm|intros a Ha]. eapply quiet_bind; [exact Hm'|intros b Hb].
  by apply quiet_ret.
Qed.

End Finish.

#[export] Hint Resolve parsed_val_text parsed_of_parse key_in_checked key_in_not_refused : canon.
#[export] Hint Resolve vo_confidence own_file_key_quiet : canon.
#[export] Hint Extern 0 (_ ∈ CANONICAL_EDGE_KINDS) => decide_closed : canon.

(** Text that has no encoding may fail anywhere. *)
Ltac allowed := solve [exact (fun _ H => H) | exact unicode_is_key_failure | done].

(** What is known of the keys at hand. *)
Ltac open_keys :=
  cbv beta in *;
  repeat match goal with
  | H : exists _, _ |- _ => destruct H
  | H : _ /\ _ |- _ => destruct H
  end;
  try subst.

Ltac split_conjunctions := repeat match goal with |- _ /\ _ => split end.
Ltac key_post :=
  intros; open_keys;
  repeat match goal with H : ?v = VStr _ |- context [val_text ?v] => rewrite H end;
  cbn [fst snd val_text]; split_conjunctions; eauto 7 with canon.

(** Uses a rule, weakening its conclusion when it is not wanted as it is. *)
Ltac quiet_rule tac :=
  first [ tac | eapply quiet_weaken; [tac|key_post|allowed] ].

(** One call in a computation of keys. *)
Ltac quiet_leaf :=
  lazymatch goal with
  | |- quiet _ (mret _) _ _ => apply quiet_ret; key_post
  | |- quiet _ (key_error _) _ _ => apply quiet_key_error; nonempty
  | |- quiet _ (parse_text _) _ _ => quiet_rule ltac:(apply quiet_parse_text)
  | |- quiet _ (parse_value _) _ _ => quiet_rule ltac:(apply quiet_parse_value)
  | |- quiet _ (own_file_key _) _ _ => quiet_rule ltac:(apply own_file_key_quiet)
  | |- quiet _ (checked_key _ _ _) _ _ => quiet_rule ltac:(apply checked_key_quiet; nonempty)
  | |- quiet _ (checked_target _ _ _) _ _ => quiet_rule ltac:(apply checked_target_quiet; nonempty)
  | |- quiet _ (_append_raw_target_diagnostic _ _ _) _ _ =>
      apply quiet_append_raw_target_diagnostic; allowed
  | |- quiet _ (reference_target_key _ _ _ _ _ _) _ _ =>
      apply quiet_reference_target_key; [discriminate|nonempty|allowed]
  | |- quiet _ (lift_key (unknown_key _ _)) _ _ =>
      quiet_rule ltac:(apply unknown_key_quiet; [nonempty|nonempty|allowed])
  | |- quiet _ (lift_key (dynamic_key _ _)) _ _ =>
      quiet_rule ltac:(apply dynamic_key_quiet; [nonempty|nonempty|allowed])
  | |- quiet _ (lift_key (parse_key (PyStr _))) _ _ => quiet_rule ltac:(apply quiet_parse_text)
  | |- quiet _ (lift_key (parse_key (key_arg _))) _ _ => quiet_rule ltac:(apply quiet_parse)
  | |- quiet _ (lift_key _) _ _ => quiet_rule ltac:(eapply quiet_built_key; prove_builds)
  | |- quiet _ (diagnose _ _ _ _ _ _ _ _) _ _ => quiet_rule ltac:(apply quiet_diagnose; [reflexivity|nonempty])
  | |- quiet _ (diagnose_key_error _ _ _ _ _ _ _ _) _ _ =>
      quiet_rule ltac:(apply quiet_diagnose_key_error; [reflexivity|nonempty])
  | |- _ => quiet_rule ltac:(solve [eauto with canon])
  end.

(** Runs through a computation of keys (the branches of a condition in it give keys): binds, conditions, builders, parses,
    diagnostics and raises; what is left are properties of returned keys. *)
Ltac quiet_go :=
  cbv beta zeta;
  lazymatch goal with
  | |- quiet _ (mbind _ (try_key _)) _ _ =>
      eapply quiet_bind;
        [apply quiet_try; [allowed|quiet_go]
        |let r := fresh "r" in intros r; destruct r; intros; open_keys; quiet_go]
  | |- quiet ?n (mbind ?f (if ?b then ?m else ?m')) _ _ =>
      apply (quiet_bind n (if b then m else m') f parsed_key); [quiet_go|intros; open_keys; quiet_go]
  | |- quiet _ (mbind _ _) _ _ => eapply quiet_bind; [quiet_go|intros; open_keys; quiet_go]
  | |- quiet _ (if ?b then _ else _) _ _ => destruct b eqn:?; quiet_go
  | |- quiet _ (match ?x with _ => _ end) _ _ => destruct x eqn:?; quiet_go
  | |- _ => quiet_leaf
  end.

Section Own.
Context {U : Unicode}.

Lemma own_target_key_quiet o n : quiet n (own_target_key o) parsed_key key_failure.
Proof. unfold own_target_key. quiet_go. Qed.

Lemma required_metadata_quiet o n key refusal :
  refusal <> [] -> quiet n (required_metadata o key refusal) (fun _ => True) key_failure.
Proof. intros. unfold required_metadata. quiet_go. Qed.
End Own.

#[export] Hint Resolve own_target_key_quiet : canon.
#[export] Hint Extern 1 (quiet _ (required_metadata _ _ _) _ _) =>
  apply required_metadata_quiet; nonempty : canon.

(** A relation between two nodes whose keys are known. *)
Ltac relates := apply recorded_relate; eauto with canon.

(** A handler that computes the two keys of a relation and records it. *)
Ltac relation_handler :=
  intros [Hv _ _]; eapply recorded_with_keys;
  [done|apply quiet_pair; eauto with canon|];
  let sk := fresh "sk" in let tk := fresh "tk" in let Hs := fresh in let Ht := fresh in
  intros [sk tk] [Hs Ht];
  repeat match goal with p : _ * _ |- _ => destruct p end; cbn [fst snd] in *; relates.
