(* ===== verification/CanonConfig.v ===== *)
(** The file and configuration families: [canonicalization/file_family.py] and
    [canonicalization/config_family.py]. *)
From S2P Require Import Prelude Utf8 GraphKeys GraphKeysFacts Sha256 PyVal Json PyDictFacts Observations.
From S2P Require Import ObservationsFacts CanonCore CanonState KeyBuilders CanonInvariant CanonLogic CanonShared.
Open Scope Z_scope.

Section Families.
Context {U : Unicode}.

(** ** Files *)

Definition _file_node_metadata (metadata : pydict) : pydict := select_metadata metadata FILE_METADATA_KEYS.

(** The warning about one conflicting field. *)
Definition file_conflict_diagnostic (o : RawObservation) (ordinal : Z) (field : pystr) :
    CanonicalizationDiagnostic :=
  {| d_severity := lit "warning"; d_category := lit "conflicting_evidence";
     d_message := lit "file metadata has conflicting evidence for " ++ field;
     d_raw_observation_ordinal := Some ordinal; d_raw_source_id := Some (obs_source_id o);
     d_path := Some (obs_path o); d_field := Some (lit "metadata." ++ field);
     d_value := default VNone (dict_get field (obs_metadata o)); d_placeholder_key := None |}.

Definition _canonicalize_file_observation (o : RawObservation) (ordinal : Z) : CM unit :=
  with_keys o ordinal "path" (VStr (obs_path o)) (own_file_key o) (fun canonical_key =>
    conflict_fields ← _upsert_file_node canonical_key (VStr (obs_path o))
                        (_file_node_metadata (obs_metadata o)) (obs_confidence o);
    _ ← for_each conflict_fields (fun field =>
          append_diagnostic (file_conflict_diagnostic o ordinal field));
    let evidence_record := _evidence_from_observation o ordinal None in
    _ ← append_evidence evidence_record;
    append_node_link {| nl_canonical_key := canonical_key;
                        nl_evidence_key := v_evidence_key evidence_record;
                        nl_link_kind := lit "observed" |}).

(** ** Configuration *)

Definition _config_document_node_metadata (metadata : pydict) : pydict :=
  select_metadata metadata
    ["format"; "parser"; "top_level_type"; "document_role"; "path_count"; "record_count";
     "parse_error_count"; "profile"; "document_count"; "duplicate_key_policy"].

Definition _config_path_node_metadata (metadata : pydict) : pydict :=
  select_metadata metadata
    ["format"; "pointer"; "display_path"; "value_type"; "container_type"; "redacted"; "redaction_reason";
     "value_summary"; "array_policy"; "item_count"; "value_summaries"; "stable_member_key"; "profile";
     "document_index"; "yaml_tag"; "anchor"; "alias"; "merge_key"].

Definition _config_define_edge_metadata (metadata : pydict) : pydict :=
  append_metadata_texts [] metadata
    [("format", "formats"); ("document_role", "document_roles"); ("pointer", "pointers");
     ("value_type", "value_types")].

Definition _config_reference_edge_metadata (metadata : pydict) : pydict :=
  copy_bool
    (append_metadata_texts [] metadata
       [("reference_kind", "reference_kinds"); ("raw_key", "raw_keys");
        ("raw_value_summary", "raw_value_summaries"); ("resolution_reason", "resolution_reasons");
        ("pointer", "pointers")])
    metadata "redacted" "redacted_observed".

(** The target of a definition: key, display name, node and edge metadata. *)
Definition _config_definition_target (o : RawObservation) (ordinal : Z) :
    CM (pystr * pyval * pydict * pydict) :=
  if kind_is o "config.document" then
    target_key ← lift_key (config_document_key (PathStr (obs_path o)));
    _ ← _append_raw_target_diagnostic o ordinal None;
    let metadata := _config_document_node_metadata (obs_metadata o) in
    let display_name := _metadata_text (obs_metadata o) "document_role" in
    mret (target_key, VStr (default (obs_path o) display_name), metadata,
          _config_define_edge_metadata metadata)
  else
    match nonblank_text (text_or (_metadata_text (obs_metadata o) "pointer") (obs_name o)) with
    | None => key_error (lit "config.path observation requires pointer metadata")
    | Some pointer =>
        target_key ← lift_key (config_path_key (PathStr (obs_path o)) pointer);
        _ ← _append_raw_target_diagnostic o ordinal None;
        let metadata := _config_path_node_metadata (obs_metadata o) in
        mret (target_key, VStr pointer, metadata, _config_define_edge_metadata metadata)
    end.

Definition _config_reference_source_key (o : RawObservation) : CM pystr :=
  match _metadata_text (obs_metadata o) "source_path_key" with
  | Some source_key =>
      parsed ← parse_text source_key;
      if bool_decide (namespace parsed = lit "config.path") then mret source_key
      else key_error (lit "config.reference source_path_key must be config.path")
  | None =>
      match nonblank_text (text_or (_metadata_text (obs_metadata o) "pointer") (obs_name o)) with
      | None => key_error (lit "config.reference observation requires pointer metadata")
      | Some pointer => lift_key (config_path_key (PathStr (obs_path o)) pointer)
      end
  end.

Definition _config_reference_target_key (o : RawObservation) (ordinal : Z) : CM pystr :=
  reference_target_key o ordinal "config.reference" (lit "config.reference observation requires target")
    (lit "raw target is not a valid canonical key: ") (obs_target o).

Definition _canonicalize_config_definition_observation (o : RawObservation) (ordinal : Z) : CM unit :=
  with_keys o ordinal "target" (obs_target o)
    (source_key ← own_file_key o;
     target ← _config_definition_target o ordinal;
     mret (source_key, target))
    (fun '(source_key, (target_key, display_name, node_metadata, edge_metadata)) =>
       relate o (_evidence_from_observation o ordinal None)
         (NodeArg source_key (lit "file") (VStr (obs_path o)) [] "inferred_from_edge")
         (NodeArg target_key (_node_kind_from_key target_key) display_name node_metadata "observed")
         "defines" edge_metadata).

Definition _canonicalize_config_reference_observation (o : RawObservation) (ordinal : Z) : CM unit :=
  with_keys o ordinal "target" (obs_target o)
    (source_key ← _config_reference_source_key o;
     target_key ← _config_reference_target_key o ordinal;
     mret (source_key, target_key))
    (fun '(source_key, target_key) =>
       relate o (_evidence_from_observation o ordinal None)
         (keyed_node source_key [] "inferred_from_edge")
         (keyed_node target_key [] "inferred_from_edge")
         "references" (_config_reference_edge_metadata (obs_metadata o))).

(** ** The handlers keep the invariant *)

Lemma config_definition_target_quiet o n :
  quiet n (_config_definition_target o n) (fun r => parsed_key r.1.1.1) key_failure.
Proof. unfold _config_definition_target. quiet_go. Qed.

Lemma config_reference_source_quiet o n : quiet n (_config_reference_source_key o) parsed_key key_failure.
Proof. unfold _config_reference_source_key. quiet_go. Qed.

Lemma config_reference_target_quiet o n : quiet n (_config_reference_target_key o n) parsed_key key_failure.
Proof. unfold _config_reference_target_key. quiet_go. Qed.

#[local] Hint Resolve config_definition_target_quiet config_reference_source_quiet
  config_reference_target_quiet : canon.

Lemma config_definition_recorded o n :
  typed_observation o -> recorded o n unicode_failure (_canonicalize_config_definition_observation o n).
Proof. relation_handler. Qed.

Lemma config_reference_recorded o n :
  typed_observation o -> recorded o n unicode_failure (_canonicalize_config_reference_observation o n).
Proof. relation_handler. Qed.

(** ** Files *)

Lemma wf_upsert_file_node es s k display metadata confidence :
  wf [] [] es s -> key_in "file" k -> confidence ∈ VALID_CONFIDENCES ->
  exists s' fields, _upsert_file_node k display metadata confidence s = (Ok fields, s') /\
    wf [k] [] es s' /\ k ∈ (cs_nodes s').*1 /\ cs_diagnostics s' = cs_diagnostics s.
Proof.
  intros Hwf Hk Hc. unfold _upsert_file_node, get_nodes, mbind, cm_bind.
  destruct (dict_get k (cs_nodes s)) as [node|] eqn:E.
  - destruct (wf_node_get _ _ _ _ _ _ Hwf E) as [H1 H2 H3 H4 H5].
    destruct (_merge_file_node_metadata _ _) as [merged fields].
    destruct (stronger_confidence_Ok _ _ H4 Hc) as (c & Hs & Hcv). unfold lift. rewrite Hs.
    match goal with |- context [set_node k ?x] => destruct (wf_set_node _ _ _ _ k x Hwf ltac:(by constructor))
      as (s' & E' & W & K & _ & D) end. rewrite E'. by exists s', fields.
  - match goal with |- context [set_node k ?x] => destruct (wf_set_node _ _ _ _ k x Hwf) as (s' & E' & W & K & _ & D) end.
    { constructor; [done|done|symmetry; by apply (key_in_kind "file")|done|left; by eapply key_in_parsed]. }
    rewrite E'. by exists s', [].
Qed.

Lemma quiet_for_each {A} n (l : list A) (f : A -> CM unit) X :
  (forall x, quiet n (f x) (fun _ => True) X) -> quiet n (for_each l f) (fun _ => True) X.
Proof.
  intros Hf. induction l as [|x l IH]; cbn; [by apply quiet_ret|]. eapply quiet_bind; [apply Hf|by intros].
Qed.

Lemma file_conflict_for o n field : diag_for n (file_conflict_diagnostic o n field).
Proof. split; [|done]. reflexivity. Qed.

Lemma file_recorded o n :
  typed_observation o -> recorded o n unicode_failure (_canonicalize_file_observation o n).
Proof.
  intros [Hv _ _]. eapply recorded_with_keys; [done|apply own_file_key_quiet|]. intros k Hk es s Hwf.
  apply wp_bind. destruct (wf_upsert_file_node es s k (VStr (obs_path o)) (_file_node_metadata (obs_metadata o))
    (obs_confidence o) Hwf Hk ltac:(apply Hv)) as (s1 & fields & E1 & W1 & K1 & D1).
  unfold wp at 1. rewrite E1. apply wp_bind. eapply wp_quiet.
  { apply (quiet_for_each n). intros f. apply quiet_append_diagnostic, file_conflict_for. }
  intros _ ds _ Hds. cbv zeta. apply wp_bind.
  destruct (wf_append_evidence _ _ _ _ (_evidence_from_observation o n None)
    (wf_add_diagnostics _ _ _ _ _ W1 (diag_for_valid _ _ Hds))) as (s2 & E2 & W2 & N2 & D2).
  unfold wp at 1. rewrite E2.
  destruct (wf_append_node_link _ _ _ _ {| nl_canonical_key := k;
    nl_evidence_key := v_evidence_key (_evidence_from_observation o n None); nl_link_kind := lit "observed" |} W2)
    as (s3 & E3 & W3 & L3 & _ & _ & D3); [by rewrite N2| |].
  { rewrite fmap_app. apply elem_of_app. right. by apply list_elem_of_singleton. }
  unfold wp. rewrite E3. eapply accounted_one; [by rewrite D3, D2; cbn; rewrite D1|done| |].
  { apply evidence_from_observation_for. }
  by eapply wf_node_done.
Qed.

End Families.

(** The Nix family: [canonicalization/nix_family.py] and
    [canonicalization/_nix_multi_source.py]. *)


Section Nix.
Context {U : Unicode}.

(** ** [_nix_multi_source.py] *)

(** [hashlib.sha256(identity.encode("utf-8")).hexdigest()[:24]] *)
Definition identity_digest (identity : pystr) : CM pystr :=
  match utf8_encode identity with
  | Some bytes => mret (take 24 (sha256_hex bytes))
  | None => craise CUnicodeEncodeError
  end.

Definition multi_source_opaque_target_key (o : RawObservation) (ordinal : Z) : CM (option pystr) :=
  let metadata := obs_metadata o in
  match _metadata_text metadata "binding_id", _metadata_text metadata "snapshot_id",
        _metadata_text metadata "resolution_outcome" with
  | Some _, Some _, Some outcome =>
      if bool_decide (outcome = lit "exact") then mret None
      else
        let identity := default (obs_source_id o) (_metadata_text metadata "unresolved_identity") in
        digest ← identity_digest identity;
        let evaluation := bool_decide (outcome = lit "evaluation-dependent") in
        let namespace := if evaluation then "dynamic" else "unknown" in
        let placeholder_key :=
          lit namespace ++ lit ":file:nix-cross-source-" ++ outcome ++ lit "#" ++ digest in
        _ ← diagnose o ordinal "info"
              (if evaluation then "opaque_dynamic_target" else "opaque_unknown_target")
              (lit "non-exact multi-source Nix relation represented by opaque identity")
              "metadata.resolution_outcome" (VStr outcome) (Some placeholder_key);
        mret (Some placeholder_key)
  | _, _, _ => mret None
  end.

Definition _nix_import_edge_metadata (metadata : pydict) : pydict :=
  let summary :=
    foldl (fun summary (nm : string * string) =>
             match plain_text (meta_get metadata nm.1) with
             | Some value => dict_set (lit nm.2) (VList [VStr value]) summary
             | None => summary
             end) []
          [("import_path", "imports"); ("resolved_path", "resolved_paths"); ("syntax", "syntaxes")] in
  let summary :=
    foldl (fun summary field => set_text summary field (plain_text (meta_get metadata field))) summary
          ["resolution_outcome"; "resolution_evidence_class"; "source_binding"; "target_binding";
           "candidate_id"] in
  copy_bool summary metadata "cross_binding" "cross_binding".

(** ** [nix_family.py] *)

Definition NIX_OUTPUT_SECTION_NAMES : list string :=
  ["packages"; "apps"; "devShells"; "checks"; "nixosModules"; "darwinModules"; "homeManagerModules";
   "overlays"; "formatter"; "templates"; "legacyPackages"].

Definition _nix_output_section_edge_metadata (metadata : pydict) : pydict :=
  copy_texts [] metadata ["section_family"; "scope"; "shape"; "confidence_reason"].

Definition _nix_output_section_node_metadata (metadata : pydict) (section : pystr) : pydict :=
  copy_texts [(lit "section", VStr section); (lit "identity_precision", VStr (lit "section_category"));
              (lit "concrete_output_identity", VBool false)]
    metadata ["section_family"; "scope"; "shape"; "confidence_reason"].

Definition _nix_define_edge_metadata (metadata : pydict) : pydict :=
  let summary := append_metadata_texts [] metadata
    [("flake_ref", "flake_refs"); ("system", "systems"); ("attr_path", "attr_paths")] in
  match _metadata_text metadata "output_kind" with
  | Some output_kind =>
      let summary := dict_set (lit "output_kinds") (VList [VStr output_kind]) summary in
      if bool_decide (output_kind = lit "app") then _append_metadata_text summary metadata "name" "apps"
      else if bool_decide (output_kind = lit "package") then
        _append_metadata_text summary metadata "name" "packages"
      else if bool_decide (output_kind = lit "devShell") then
        _append_metadata_text summary metadata "name" "devShells"
      else if bool_decide (output_kind = lit "check") then
        _append_metadata_text summary metadata "name" "checks"
      else _append_metadata_text summary metadata "name" "names"
  | None => _append_metadata_text summary metadata "name" "names"
  end.

Definition _nix_app_exposes_edge_metadata (metadata : pydict) : pydict :=
  append_metadata_texts [] metadata
    [("flake_ref", "flake_refs"); ("system", "systems"); ("name", "apps"); ("program", "programs");
     ("program_path", "program_paths")].

(** The last resort of an import: a placeholder and a warning. *)
Definition unresolved_nix_import (o : RawObservation) (ordinal : Z) (resolved_path : pyval) : CM pystr :=
  placeholder_key ← lift_key (unknown_key (lit "file") (lit "unresolved-nix-import"));
  _ ← diagnose o ordinal "warning" "unknown_target" (lit "Nix import target could not be resolved")
        "metadata.resolved_path" resolved_path (Some placeholder_key);
  mret placeholder_key.

(** The branches of [_nix_import_target_key] after the opaque target, in order. *)
Definition nix_import_resolved_path (o : RawObservation) (ordinal : Z) (resolved_path : pystr) : CM pystr :=
  r ← try_key (lift_key (file_key (PathStr resolved_path)));
  match r with
  | inl key => mret key
  | inr error =>
      placeholder_key ← lift_key (unknown_key (lit "file") (lit "repo-escaping-nix-import"));
      _ ← diagnose_key_error o ordinal "warning" error error "metadata.resolved_path" (VStr resolved_path)
            (Some placeholder_key);
      mret placeholder_key
  end.

Definition nix_import_dynamic (o : RawObservation) (ordinal : Z) (dynamic_reason : pystr) : CM pystr :=
  placeholder_key ← lift_key (dynamic_key (lit "file") dynamic_reason);
  _ ← diagnose o ordinal "info" "dynamic_target" (lit "dynamic Nix import represented by placeholder")
        "metadata.dynamic_reason" (VStr dynamic_reason) (Some placeholder_key);
  mret placeholder_key.

Definition nix_import_target (o : RawObservation) (ordinal : Z) : CM pystr :=
  r ← try_key (parse_value (obs_target o));
  match r with
  | inr error =>
      placeholder_key ← lift_key (unknown_key (lit "file") (lit "unresolved-nix-import"));
      _ ← diagnose_key_error o ordinal "warning" error
            (lit "raw target is not a valid canonical key: " ++ error) "target" (obs_target o)
            (Some placeholder_key);
      mret placeholder_key
  | inl parsed =>
      if in_namespaces parsed ["file"; "unknown"; "dynamic"; "external"] then mret (val_text (obs_target o))
      else unresolved_nix_import o ordinal VNone
  end.

Definition _nix_import_target_key (o : RawObservation) (ordinal : Z) : CM pystr :=
  opaque_target ← multi_source_opaque_target_key o ordinal;
  match opaque_target with
  | Some key => mret key
  | None =>
      match _metadata_text (obs_metadata o) "resolved_path" with
      | Some resolved_path => nix_import_resolved_path o ordinal resolved_path
      | None =>
          match _metadata_text (obs_metadata o) "dynamic_reason" with
          | Some dynamic_reason => nix_import_dynamic o ordinal dynamic_reason
          | None =>
              if is_none (obs_target o) then unresolved_nix_import o ordinal VNone
              else nix_import_target o ordinal
          end
      end
  end.

Definition _canonicalize_nix_import_observation (o : RawObservation) (ordinal : Z) : CM unit :=
  with_keys o ordinal "path" (VStr (obs_path o)) (own_file_key o) (fun source_key =>
    target_key ← _nix_import_target_key o ordinal;
    relate o (_evidence_from_observation o ordinal None)
      (NodeArg source_key (lit "file") (VStr (obs_path o)) [] "inferred_from_edge")
      (keyed_node target_key [] "inferred_from_edge")
      "sources" (_nix_import_edge_metadata (obs_metadata o))).

(** [section not in NIX_OUTPUT_SECTION_NAMES] of a value that may be unhashable. *)
Definition registered_section (section : pyval) : CM (option pystr) :=
  match section with
  | VStr s => mret (if one_of s NIX_OUTPUT_SECTION_NAMES then Some s else None)
  | v => if hashable v then mret None else craise CTypeError
  end.

Definition _canonicalize_nix_output_section_observation (o : RawObservation) (ordinal : Z) : CM unit :=
  with_keys o ordinal "path" (VStr (obs_path o)) (own_file_key o) (fun source_key =>
    let value := text_or (_metadata_text (obs_metadata o) "section") (obs_name o) in
    registered ← registered_section value;
    match registered with
    | None =>
        diagnose o ordinal "warning" "unregistered_nix_output_section"
          (lit "nix output section is not registered") "metadata.section" value None
    | Some section =>
        target_key ← lift_key (nix_output_key source_key (lit "section/" ++ section));
        relate o (_evidence_from_observation o ordinal None)
          (NodeArg source_key (lit "file") (VStr (obs_path o)) [] "inferred_from_edge")
          (NodeArg target_key (lit "nix.output") (VStr (section ++ lit " output section"))
             (_nix_output_section_node_metadata (obs_metadata o) section) "observed")
          "defines" (_nix_output_section_edge_metadata (obs_metadata o))
    end).

Definition missing_field (t : option pystr) (field : string) : list string :=
  match t with Some _ => [] | None => [field] end.

(** The target of an output: key, display name and edge metadata. *)
Definition _nix_output_target (o : RawObservation) (ordinal : Z) : CM (pystr * pystr * pydict) :=
  let flake_ref := _metadata_text (obs_metadata o) "flake_ref" in
  let system := _metadata_text (obs_metadata o) "system" in
  let name := nonblank_text (text_or (_metadata_text (obs_metadata o) "name") (obs_name o)) in
  match flake_ref, system, name with
  | Some flake_ref, Some system, Some name =>
      target_key ←
        (if kind_is o "nix.app" then lift_key (nix_app_key flake_ref system name)
         else if kind_is o "nix.package" then lift_key (nix_package_key flake_ref system name)
         else if kind_is o "nix.devShell" then lift_key (nix_dev_shell_key flake_ref system name)
         else if kind_is o "nix.check" then lift_key (nix_check_key flake_ref system name)
         else key_error (lit "unsupported Nix output kind: " ++ obs_kind o));
      mret (target_key, name, _nix_define_edge_metadata (obs_metadata o))
  | _, _, _ =>
      let missing_fields :=
        missing_field flake_ref "metadata.flake_ref" ++ missing_field system "metadata.system" ++
        missing_field name "metadata.name" in
      placeholder_key ← lift_key (unknown_key (obs_kind o) (lit "missing-output-identity"));
      _ ← diagnose o ordinal "warning" "missing_required_metadata"
            (obs_kind o ++ lit " observation requires flake_ref, system, and name metadata")
            (String.concat "," missing_fields) VNone (Some placeholder_key);
      mret (placeholder_key, lit "missing-output-identity", [])
  end.

(** The key of the program of an app. *)
Definition nix_program_key (o : RawObservation) (ordinal : Z) (program_path : pystr) : CM pystr :=
  r ← try_key (lift_key (file_key (PathStr program_path)));
  match r with
  | inl key => mret key
  | inr error =>
      program_key ← lift_key (unknown_key (lit "file") (lit "repo-escaping-nix-app-program"));
      _ ← diagnose_key_error o ordinal "warning" error error "metadata.program_path" (VStr program_path)
            (Some program_key);
      mret program_key
  end.

Definition _canonicalize_nix_output_observation (o : RawObservation) (ordinal : Z) : CM unit :=
  with_keys o ordinal "target" (obs_target o)
    (source_key ← own_file_key o;
     target ← _nix_output_target o ordinal;
     mret (source_key, target))
    (fun '(source_key, (target_key, target_display_name, define_metadata)) =>
       let evidence_record := _evidence_from_observation o ordinal None in
       _ ← relate o evidence_record
             (NodeArg source_key (lit "file") (VStr (obs_path o)) [] "inferred_from_edge")
             (NodeArg target_key (_node_kind_from_key target_key) (VStr target_display_name) [] "observed")
             "defines" define_metadata;
       match _metadata_text (obs_metadata o) "program_path" with
       | Some program_path =>
           if negb (kind_is o "nix.app") then mret tt
           else
             program_key ← nix_program_key o ordinal program_path;
             attach o (v_evidence_key evidence_record) (keyed_node program_key [] "inferred_from_edge")
               target_key "exposes_script" program_key (_nix_app_exposes_edge_metadata (obs_metadata o))
       | None => mret tt
       end).

(** ** The handlers keep the invariant *)

Definition nix_import_key_ok (k : pystr) : Prop := arg_ok (keyed_node k [] "inferred_from_edge").

Lemma parsed_import_key k : parsed_key k -> nix_import_key_ok k.
Proof. apply arg_ok_keyed. Qed.
#[local] Hint Resolve parsed_import_key : canon.

Lemma opaque_import_key (b : bool) rest :
  nix_import_key_ok (lit (if b then "dynamic" else "unknown") ++ lit ":file:nix-cross-source-" ++ rest).
Proof.
  split; [|done]. right. exists (lit (if b then "dynamic" else "unknown")), rest. split; [|done].
  destruct b; auto.
Qed.

Lemma multi_source_quiet o n :
  quiet n (multi_source_opaque_target_key o n)
    (fun r => forall k, r = Some k -> nix_import_key_ok k) unicode_failure.
Proof.
  unfold multi_source_opaque_target_key.
  destruct (_metadata_text (obs_metadata o) "binding_id"), (_metadata_text (obs_metadata o) "snapshot_id"),
    (_metadata_text (obs_metadata o) "resolution_outcome") as [outcome|]; try by apply quiet_ret.
  case_bool_decide; [by apply quiet_ret|]. cbv zeta. eapply quiet_bind.
  { instantiate (1 := fun _ => True). unfold identity_digest. destruct (utf8_encode _); [by apply quiet_ret|].
    by apply quiet_raise. }
  intros digest _. eapply quiet_bind; [apply quiet_diagnose; [by case_match|done]|]. intros _ _.
  apply quiet_ret. intros k [= <-]. apply opaque_import_key.
Qed.

Lemma unresolved_nix_import_quiet o n v : quiet n (unresolved_nix_import o n v) nix_import_key_ok unicode_failure.
Proof. unfold unresolved_nix_import. quiet_go. Qed.
#[local] Hint Resolve unresolved_nix_import_quiet : canon.

Lemma nix_import_target_quiet o n : quiet n (nix_import_target o n) nix_import_key_ok unicode_failure.
Proof. unfold nix_import_target. quiet_go. Qed.

Lemma nix_import_target_key_quiet o n : quiet n (_nix_import_target_key o n) nix_import_key_ok unicode_failure.
Proof.
  unfold _nix_import_target_key. eapply quiet_bind; [apply multi_source_quiet|].
  intros [k|]; [intros Hk; apply quiet_ret; by apply Hk|intros _].
  destruct (_metadata_text (obs_metadata o) "resolved_path") eqn:?; [unfold nix_import_resolved_path; quiet_go|].
  destruct (_metadata_text (obs_metadata o) "dynamic_reason") eqn:?; [unfold nix_import_dynamic; quiet_go|].
  destruct (is_none _); [apply unresolved_nix_import_quiet|apply nix_import_target_quiet].
Qed.

Lemma nix_import_recorded o n :
  typed_observation o -> recorded o n unicode_failure (_canonicalize_nix_import_observation o n).
Proof.
  intros [Hv _ _]. eapply recorded_with_keys; [done|eauto with canon|]. intros sk Hs.
  eapply recorded_quiet_bind; [apply nix_import_target_key_quiet|]. intros tk Ht. relates.
Qed.

Lemma registered_section_quiet n v :
  text_or_none v = true -> quiet n (registered_section v) (fun _ => True) unicode_failure.
Proof. destruct v; intros H; try discriminate H; by apply quiet_ret. Qed.

Lemma nix_output_section_recorded o n :
  typed_observation o -> recorded o n unicode_failure (_canonicalize_nix_output_section_observation o n).
Proof.
  intros [Hv Hn _]. eapply recorded_with_keys; [done|eauto with canon|]. intros sk Hs.
  eapply recorded_quiet_bind; [apply registered_section_quiet; by destruct (_metadata_text (obs_metadata o) "section")|].
  intros [section|] _; [|by apply recorded_diagnose].
  eapply recorded_quiet_bind; [|intros tk Ht; relates]. unfold nix_output_key.
  apply plain_key_quiet; [reflexivity| |done]. repeat constructor; [|nonempty].
  destruct Hs as (p & Hp & _). by intros ->.
Qed.

Lemma nix_output_target_quiet o n :
  valid_observation o -> quiet n (_nix_output_target o n) (fun r => parsed_key r.1.1) key_failure.
Proof.
  intros Hv.
  unfold _nix_output_target. cbv zeta. destruct (_metadata_text (obs_metadata o) "flake_ref") as [fr|].
  all: try destruct (_metadata_text (obs_metadata o) "system") as [sy|]; try destruct (nonblank_text _) as [nm|]; quiet_go.
Qed.

Lemma nix_program_key_quiet o n path : quiet n (nix_program_key o n path) parsed_key unicode_failure.
Proof. unfold nix_program_key. quiet_go. Qed.

(** The program of an app, on the evidence already recorded. *)
Lemma nix_program_attached o n tk path es s md :
  typed_observation o -> wf [] [] es s -> _evidence_key o n ∈ v_evidence_key <$> es -> tk ∈ (cs_nodes s).*1 ->
  wp (program_key ← nix_program_key o n path;
      attach o (_evidence_key o n) (keyed_node program_key [] "inferred_from_edge")
        tk "exposes_script" program_key md) s
    (fun _ s' => kept n es s s') unicode_failure.
Proof.
  intros [Hv _ _] Hwf He Ht. apply wp_bind. eapply wp_quiet; [apply nix_program_key_quiet|].
  intros pk ds Hp Hds.
  destruct (wf_attach es (add_diagnostics ds s) o (_evidence_key o n) (keyed_node pk [] "inferred_from_edge")
    tk "exposes_script" pk md (wf_add_diagnostics _ _ _ _ _ Hwf (diag_for_valid _ _ Hds)))
    as (s' & E & W & _ & D); eauto with canon.
  unfold wp. rewrite E. split; [done|]. exists ds. by rewrite D.
Qed.

Lemma nix_output_recorded o n :
  typed_observation o -> recorded o n unicode_failure (_canonicalize_nix_output_observation o n).
Proof.
  intros Ht. pose proof Ht as [Hv _ _]. eapply recorded_with_keys; [done| |].
  { apply quiet_pair; [eauto with canon|by apply nix_output_target_quiet]. }
  intros [sk [[tk dn] md]] [Hs Htk]. cbv zeta. cbn [fst snd] in *.
  apply recorded_relate_then; [eauto with canon..|]. intros es s Hwf He _ Kt.
  destruct (_metadata_text (obs_metadata o) "program_path") as [path|]; [|by apply kept_nothing].
  destruct (negb _); [by apply kept_nothing|]. by apply nix_program_attached.
Qed.

End Nix.
