(* ===== verification/CanonLanguage.v ===== *)
(** Python and Ruby: [canonicalization/language_family.py]. *)
From S2P Require Import Prelude Utf8 GraphKeys GraphKeysFacts PyVal Json PyDictFacts Observations.
From S2P Require Import ObservationsFacts CanonCore CanonState KeyBuilders CanonInvariant CanonLogic CanonShared.
Open Scope Z_scope.

Section Language.
Context {U : Unicode}.

(** ** Python *)

(** [{key: [text]}] *)
Definition single_text (key : string) (text : pystr) : pydict := [(lit key, VList [VStr text])].

(** The target of a definition: key, display name and edge metadata. *)
Definition _python_definition_target (o : RawObservation) : CM (pystr * pystr * pydict) :=
  let module := _metadata_text (obs_metadata o) "module" in
  let name := obs_name o in
  if kind_is o "python.module" then
    match nonblank_text (text_or module name) with
    | None => key_error (lit "python.module observation requires module name")
    | Some module_name =>
        key ← lift_key (python_module_key module_name);
        mret (key, module_name, single_text "modules" module_name)
    end
  else
    match module with
    | None => key_error (obs_kind o ++ lit " observation requires module metadata")
    | Some module =>
        match nonblank_text name with
        | None => key_error (obs_kind o ++ lit " observation requires name")
        | Some name =>
            if kind_is o "python.class" then
              key ← lift_key (python_class_key module name);
              mret (key, name, single_text "classes" name)
            else if kind_is o "python.function" then
              key ← lift_key (python_function_key module name);
              mret (key, name, single_text "functions" name)
            else if kind_is o "python.method" then
              match _metadata_text (obs_metadata o) "class" with
              | None => key_error (lit "python.method observation requires class metadata")
              | Some class_name =>
                  key ← lift_key (python_method_key module class_name name);
                  let method := class_name ++ lit "." ++ name in
                  mret (key, method, single_text "methods" method)
              end
            else key_error (lit "unsupported Python definition kind: " ++ obs_kind o)
        end
    end.

Definition _canonicalize_python_definition_observation (o : RawObservation) (ordinal : Z) : CM unit :=
  with_keys o ordinal "target" (obs_target o)
    (source_key ← own_file_key o;
     target ← _python_definition_target o;
     mret (source_key, target))
    (fun '(source_key, (target_key, target_display_name, edge_metadata)) =>
       relate o (_evidence_from_observation o ordinal None)
         (NodeArg source_key (lit "file") (VStr (obs_path o)) [] "inferred_from_edge")
         (NodeArg target_key (_node_kind_from_key target_key) (VStr target_display_name) [] "observed")
         "defines" edge_metadata).

(** The target of an import whose resolution is unknown. *)
Definition python_unresolved_import (o : RawObservation) (ordinal : Z) : CM pystr :=
  if is_none (obs_target o) then lift_key (unknown_key (lit "python.module") (lit "missing-module"))
  else
    r ← try_key (parse_value (obs_target o));
    match r with
    | inr error =>
        _ ← diagnose_key_error o ordinal "warning" error
              (lit "raw target is not a valid canonical key: " ++ error) "target" (obs_target o) None;
        lift_key (unknown_key (lit "python.module") (lit "missing-module"))
    | inl parsed =>
        if in_namespaces parsed ["unknown"; "dynamic"] then mret (val_text (obs_target o))
        else lift_key (unknown_key (lit "python.module") (lit "missing-module"))
    end.

Definition _python_import_target_key (o : RawObservation) (ordinal : Z) : CM pystr :=
  let resolution := _metadata_text (obs_metadata o) "resolution" in
  match _metadata_text (obs_metadata o) "imported_module" with
  | Some imported_module =>
      if text_is resolution "local" then lift_key (python_module_key imported_module)
      else if text_is resolution "external" then lift_key (external_key (lit "python.module") imported_module)
      else if text_is resolution "unknown" then python_unresolved_import o ordinal
      else lift_key (external_key (lit "python.module") imported_module)
  | None =>
      if text_is resolution "unknown" then python_unresolved_import o ordinal
      else lift_key (unknown_key (lit "python.module") (lit "missing-module"))
  end.

Definition _python_import_edge_metadata (metadata : pydict) : pydict :=
  append_metadata_texts [] metadata
    [("imported_module", "imported_modules"); ("resolution", "resolutions")].

Definition _canonicalize_python_import_observation (o : RawObservation) (ordinal : Z) : CM unit :=
  match _metadata_text (obs_metadata o) "module" with
  | None =>
      diagnose o ordinal "warning" "missing_required_metadata"
        (lit "python.import observation requires module metadata") "metadata.module" VNone None
  | Some source_module =>
      with_keys o ordinal "target" (obs_target o)
        (source_key ← lift_key (python_module_key source_module);
         target_key ← _python_import_target_key o ordinal;
         mret (source_key, target_key))
        (fun '(source_key, target_key) =>
           relate o (_evidence_from_observation o ordinal None)
             (NodeArg source_key (lit "python.module") (VStr source_module) [] "inferred_from_edge")
             (keyed_node target_key [] "inferred_from_edge")
             "imports" (_python_import_edge_metadata (obs_metadata o)))
  end.

(** ** Ruby *)

Definition _ruby_definition_source_key (o : RawObservation) : CM pystr :=
  if kind_is o "ruby.file" then own_file_key o
  else
    match _metadata_text (obs_metadata o) "source_key" with
    | Some source_key =>
        checked_key source_key
          ["file"; "ruby.file"; "ruby.module"; "ruby.class"; "ruby.method"; "ruby.singleton_method";
           "ruby.test_case"; "ruby.route"]
          (obs_kind o ++ lit " source_key has unsupported namespace")
    | None =>
        if one_of (obs_kind o) ["ruby.module"; "ruby.class"; "ruby.test_case"; "ruby.route"] then
          lift_key (ruby_file_key (PathStr (obs_path o)))
        else if kind_is o "ruby.test_method" then
          match _metadata_text (obs_metadata o) "test_case_key" with
          | Some test_case_key =>
              checked_key test_case_key ["ruby.test_case"]
                (lit "ruby.test_method observation requires test_case_key")
          | None => key_error (lit "ruby.test_method observation requires test_case_key")
          end
        else if one_of (obs_kind o) ["ruby.method"; "ruby.singleton_method"; "ruby.constant"] then
          match _metadata_text (obs_metadata o) "owner" with
          | None => key_error (obs_kind o ++ lit " observation requires owner metadata")
          | Some owner =>
              let owner_kind := default (lit "ruby.class") (_metadata_text (obs_metadata o) "owner_kind") in
              if bool_decide (owner_kind = lit "ruby.module") then lift_key (ruby_module_key owner)
              else if bool_decide (owner_kind = lit "ruby.class") then lift_key (ruby_class_key owner)
              else key_error (obs_kind o ++ lit " owner_kind has unsupported namespace")
          end
        else key_error (lit "unsupported Ruby definition kind: " ++ obs_kind o)
    end.

Definition _ruby_definition_target_key (o : RawObservation) : CM pystr :=
  if negb (is_none (obs_target o)) then own_target_key o
  else
    match nonblank_text (obs_name o) with
    | None => key_error (obs_kind o ++ lit " observation requires name or target")
    | Some name =>
        if kind_is o "ruby.file" then lift_key (ruby_file_key (PathStr (obs_path o)))
        else if kind_is o "ruby.module" then lift_key (ruby_module_key name)
        else if kind_is o "ruby.class" then lift_key (ruby_class_key name)
        else if kind_is o "ruby.method" then
          owner ← required_metadata o "owner" (lit "ruby.method observation requires owner metadata");
          lift_key (ruby_method_key owner name)
        else if kind_is o "ruby.singleton_method" then
          owner ← required_metadata o "owner"
                    (lit "ruby.singleton_method observation requires owner metadata");
          lift_key (ruby_singleton_method_key owner name)
        else if kind_is o "ruby.constant" then
          owner ← required_metadata o "owner" (lit "ruby.constant observation requires owner metadata");
          lift_key (ruby_constant_key owner name)
        else if kind_is o "ruby.test_case" then lift_key (ruby_test_case_key (PathStr (obs_path o)) name)
        else if kind_is o "ruby.test_method" then
          test_case_key ← required_metadata o "test_case_key"
                            (lit "ruby.test_method observation requires test_case_key");
          lift_key (ruby_test_method_key test_case_key name)
        else if kind_is o "ruby.route" then
          route_pointer ← required_metadata o "route_pointer"
                            (lit "ruby.route observation requires route_pointer metadata");
          lift_key (ruby_route_key (PathStr (obs_path o)) route_pointer)
        else key_error (lit "unsupported Ruby definition kind: " ++ obs_kind o)
    end.

Definition _ruby_reference_source_key (o : RawObservation) : CM pystr :=
  match _metadata_text (obs_metadata o) "source_key" with
  | None => lift_key (ruby_file_key (PathStr (obs_path o)))
  | Some source_key =>
      checked_key source_key
        ["ruby.file"; "ruby.module"; "ruby.class"; "ruby.method"; "ruby.singleton_method";
         "ruby.test_case"; "ruby.test_method"; "ruby.route"]
        (lit "ruby.reference source_key has unsupported namespace")
  end.

Definition _ruby_reference_target_key (o : RawObservation) (ordinal : Z) : CM pystr :=
  reference_target_key o ordinal "ruby.reference" (lit "ruby.reference observation requires target")
    (lit "ruby.reference target is not a canonical key: ")
    (value_or (obs_target o) (_metadata_text (obs_metadata o) "target_key")).

Definition _ruby_node_metadata (metadata : pydict) : pydict :=
  select_present metadata
    ["format"; "profile"; "parser"; "qualified_name"; "owner"; "method_name"; "superclass";
     "constant_name"; "test_framework"; "route_method"; "route_pattern"; "redacted"; "redaction_reason";
     "dynamic"; "dynamic_reason"; "identity_strength"].

Definition _ruby_define_edge_metadata (metadata : pydict) : pydict :=
  append_metadata_texts [] metadata
    [("profile", "profiles"); ("qualified_name", "qualified_names"); ("owner", "owners");
     ("method_name", "methods"); ("constant_name", "constants"); ("test_framework", "test_frameworks");
     ("route_method", "route_methods"); ("route_pattern", "route_patterns")].

Definition _ruby_reference_edge_metadata (metadata : pydict) : pydict :=
  append_metadata_texts [] metadata
    [("profile", "profiles"); ("raw_value_summary", "raw_value_summaries");
     ("reference_kind", "reference_kinds"); ("resolution_reason", "resolution_reasons")].

Definition _ruby_display_name (canonical_key : pystr) (o : RawObservation) : pyval :=
  display_name_or (obs_metadata o) ["qualified_name"; "method_name"; "constant_name"; "route_pattern"]
    (obs_name o) canonical_key.

Definition _canonicalize_ruby_definition_observation (o : RawObservation) (ordinal : Z) : CM unit :=
  with_keys o ordinal "target" (obs_target o)
    (source_key ← _ruby_definition_source_key o;
     target_key ← _ruby_definition_target_key o;
     mret (source_key, target_key))
    (fun '(source_key, target_key) =>
       relate o (_evidence_from_observation o ordinal None)
         (NodeArg source_key (_node_kind_from_key source_key) (_ruby_display_name source_key o)
            (_ruby_node_metadata (obs_metadata o)) "inferred_from_edge")
         (NodeArg target_key (_node_kind_from_key target_key) (_ruby_display_name target_key o)
            (_ruby_node_metadata (obs_metadata o)) "observed")
         "defines" (_ruby_define_edge_metadata (obs_metadata o))).

Definition _canonicalize_ruby_reference_observation (o : RawObservation) (ordinal : Z) : CM unit :=
  with_keys o ordinal "target" (obs_target o)
    (source_key ← _ruby_reference_source_key o;
     target_key ← _ruby_reference_target_key o ordinal;
     mret (source_key, target_key))
    (fun '(source_key, target_key) =>
       relate o (_evidence_from_observation o ordinal None)
         (keyed_node source_key (_ruby_node_metadata (obs_metadata o)) "inferred_from_edge")
         (keyed_node target_key [] "inferred_from_edge")
         "references" (_ruby_reference_edge_metadata (obs_metadata o))).

(** ** The handlers keep the invariant *)

Lemma python_definition_target_quiet o n :
  quiet n (_python_definition_target o) (fun r => parsed_key r.1.1) key_failure.
Proof. unfold _python_definition_target. quiet_go. Qed.

Lemma python_unresolved_import_quiet o n :
  quiet n (python_unresolved_import o n) parsed_key key_failure.
Proof. unfold python_unresolved_import. quiet_go. Qed.
#[local] Hint Resolve python_unresolved_import_quiet : canon.

Lemma python_import_target_quiet o n : quiet n (_python_import_target_key o n) parsed_key key_failure.
Proof. unfold _python_import_target_key. quiet_go. Qed.

Lemma ruby_definition_source_quiet o n : quiet n (_ruby_definition_source_key o) parsed_key key_failure.
Proof. unfold _ruby_definition_source_key. quiet_go. Qed.

Lemma ruby_definition_target_quiet o n : quiet n (_ruby_definition_target_key o) parsed_key key_failure.
Proof. unfold _ruby_definition_target_key. quiet_go. Qed.

Lemma ruby_reference_source_quiet o n : quiet n (_ruby_reference_source_key o) parsed_key key_failure.
Proof. unfold _ruby_reference_source_key. quiet_go. Qed.

Lemma ruby_reference_target_quiet o n : quiet n (_ruby_reference_target_key o n) parsed_key key_failure.
Proof. unfold _ruby_reference_target_key. quiet_go. Qed.

#[local] Hint Resolve python_definition_target_quiet python_import_target_quiet ruby_definition_source_quiet
  ruby_definition_target_quiet ruby_reference_source_quiet ruby_reference_target_quiet : canon.

Lemma python_definition_recorded o n :
  typed_observation o -> recorded o n unicode_failure (_canonicalize_python_definition_observation o n).
Proof. relation_handler. Qed.

Lemma python_import_recorded o n :
  typed_observation o -> recorded o n unicode_failure (_canonicalize_python_import_observation o n).
Proof.
  intros [Hv _ _]. unfold _canonicalize_python_import_observation.
  destruct (_metadata_text (obs_metadata o) "module"); [|by apply recorded_diagnose].
  eapply recorded_with_keys; [done|apply quiet_pair; [quiet_go|eauto with canon]|].
  intros [sk tk] [Hs Ht]. relates.
Qed.

Lemma ruby_definition_recorded o n :
  typed_observation o -> recorded o n unicode_failure (_canonicalize_ruby_definition_observation o n).
Proof. relation_handler. Qed.

Lemma ruby_reference_recorded o n :
  typed_observation o -> recorded o n unicode_failure (_canonicalize_ruby_reference_observation o n).
Proof. relation_handler. Qed.

End Language.

(** JavaScript: [canonicalization/language_javascript_family.py]. *)


Section Javascript.
Context {U : Unicode}.

Definition _js_definition_source_key (o : RawObservation) : CM pystr :=
  let path := PathStr (obs_path o) in
  if kind_is o "js.file" then own_file_key o
  else
    match _metadata_text (obs_metadata o) "source_key" with
    | Some source_key =>
        checked_key source_key
          ["file"; "js.file"; "js.module"; "js.function"; "js.class"; "js.method"; "js.component";
           "js.test_suite"; "js.test_case"; "js.route"]
          (obs_kind o ++ lit " source_key has unsupported namespace")
    | None =>
        if kind_is o "js.module" then lift_key (js_file_key path)
        else if one_of (obs_kind o)
                  ["js.function"; "js.class"; "js.variable"; "js.component"; "js.test_suite"; "js.route"] then
          lift_key (js_module_key path)
        else if kind_is o "js.method" then
          let from_name :=
            match _metadata_text (obs_metadata o) "class_name" with
            | Some class_name => lift_key (js_class_key path class_name)
            | None => key_error (lit "js.method observation requires class metadata")
            end in
          match _metadata_text (obs_metadata o) "class_key" with
          | Some class_key =>
              parsed ← parse_text class_key;
              if bool_decide (namespace parsed = lit "js.class") then mret class_key else from_name
          | None => from_name
          end
        else if kind_is o "js.test_case" then
          match _metadata_text (obs_metadata o) "test_suite_key" with
          | Some suite_key =>
              parsed ← parse_text suite_key;
              if bool_decide (namespace parsed = lit "js.test_suite") then mret suite_key
              else lift_key (js_file_key path)
          | None => lift_key (js_file_key path)
          end
        else key_error (lit "unsupported JavaScript definition kind: " ++ obs_kind o)
    end.

(** [_metadata_text(metadata, "test_pointer") or f"/tests/{name}"] *)
Definition js_test_pointer (o : RawObservation) (name : pystr) : pystr :=
  default (lit "/tests/" ++ name) (_metadata_text (obs_metadata o) "test_pointer").

Definition _js_definition_target_key (o : RawObservation) : CM pystr :=
  let path := PathStr (obs_path o) in
  if negb (is_none (obs_target o)) then own_target_key o
  else
    match nonblank_text (obs_name o) with
    | None => key_error (obs_kind o ++ lit " observation requires name or target")
    | Some name =>
        if kind_is o "js.file" then lift_key (js_file_key path)
        else if kind_is o "js.module" then lift_key (js_module_key path)
        else if kind_is o "js.function" then lift_key (js_function_key path name)
        else if kind_is o "js.class" then lift_key (js_class_key path name)
        else if kind_is o "js.method" then
          class_key ← _js_definition_source_key o;
          lift_key (js_method_key class_key name)
        else if kind_is o "js.variable" then lift_key (js_variable_key path name)
        else if kind_is o "js.component" then lift_key (js_component_key path name)
        else if kind_is o "js.test_suite" then lift_key (js_test_suite_key path (js_test_pointer o name))
        else if kind_is o "js.test_case" then
          owner_key ← _js_definition_source_key o;
          lift_key (js_test_case_key owner_key (js_test_pointer o name))
        else if kind_is o "js.route" then
          route_pointer ← required_metadata o "route_pointer"
                            (lit "js.route observation requires route_pointer metadata");
          lift_key (js_route_key path route_pointer)
        else key_error (lit "unsupported JavaScript definition kind: " ++ obs_kind o)
    end.

Definition _js_reference_source_key (o : RawObservation) : CM pystr :=
  match _metadata_text (obs_metadata o) "source_key" with
  | None => lift_key (js_module_key (PathStr (obs_path o)))
  | Some source_key =>
      checked_key source_key
        ["js.file"; "js.module"; "js.function"; "js.class"; "js.method"; "js.variable"; "js.component";
         "js.test_suite"; "js.test_case"; "js.route"]
        (lit "js.reference source_key has unsupported namespace")
  end.

Definition _js_reference_target_key (o : RawObservation) (ordinal : Z) : CM pystr :=
  reference_target_key o ordinal "js.reference" (lit "js.reference observation requires target")
    (lit "js.reference target is not a canonical key: ")
    (value_or (obs_target o) (_metadata_text (obs_metadata o) "target_key")).

Definition _js_node_metadata (metadata : pydict) : pydict :=
  select_present metadata
    ["format"; "profile"; "parser"; "module_system"; "export_kind"; "import_kind"; "local_name";
     "exported_name"; "qualified_name"; "function_name"; "class_name"; "method_name"; "component_name";
     "test_framework"; "route_method"; "route_pattern"; "literal_type"; "dynamic"; "dynamic_reason";
     "redacted"; "redaction_reason"; "identity_strength"].

Definition _js_define_edge_metadata (metadata : pydict) : pydict :=
  append_metadata_texts [] metadata
    [("profile", "profiles"); ("module_system", "module_systems"); ("function_name", "functions");
     ("class_name", "classes"); ("method_name", "methods"); ("local_name", "locals");
     ("component_name", "components"); ("test_framework", "test_frameworks");
     ("route_method", "route_methods"); ("route_pattern", "route_patterns")].

Definition _js_reference_edge_metadata (metadata : pydict) : pydict :=
  let summary := append_metadata_texts [] metadata
    [("profile", "profiles"); ("raw_value_summary", "raw_value_summaries");
     ("reference_kind", "reference_kinds"); ("import_kind", "import_kinds");
     ("export_kind", "export_kinds"); ("resolution_reason", "resolution_reasons");
     ("dynamic_reason", "dynamic_reasons")] in
  let summary := copy_bool summary metadata "not_fetched" "not_fetched" in
  copy_bool summary metadata "dynamic" "dynamic_observed".

Definition _js_display_name (canonical_key : pystr) (o : RawObservation) : pyval :=
  display_name_or (obs_metadata o)
    ["qualified_name"; "function_name"; "class_name"; "method_name"; "component_name"; "route_pattern";
     "local_name"]
    (obs_name o) canonical_key.

Definition _canonicalize_js_definition_observation (o : RawObservation) (ordinal : Z) : CM unit :=
  with_keys o ordinal "target" (obs_target o)
    (source_key ← _js_definition_source_key o;
     target_key ← _js_definition_target_key o;
     mret (source_key, target_key))
    (fun '(source_key, target_key) =>
       relate o (_evidence_from_observation o ordinal None)
         (NodeArg source_key (_node_kind_from_key source_key) (_js_display_name source_key o)
            (_js_node_metadata (obs_metadata o)) "inferred_from_edge")
         (NodeArg target_key (_node_kind_from_key target_key) (_js_display_name target_key o)
            (_js_node_metadata (obs_metadata o)) "observed")
         "defines" (_js_define_edge_metadata (obs_metadata o))).

Definition _canonicalize_js_reference_observation (o : RawObservation) (ordinal : Z) : CM unit :=
  with_keys o ordinal "target" (obs_target o)
    (source_key ← _js_reference_source_key o;
     target_key ← _js_reference_target_key o ordinal;
     mret (source_key, target_key))
    (fun '(source_key, target_key) =>
       relate o (_evidence_from_observation o ordinal None)
         (keyed_node source_key (_js_node_metadata (obs_metadata o)) "inferred_from_edge")
         (keyed_node target_key [] "inferred_from_edge")
         "references" (_js_reference_edge_metadata (obs_metadata o))).

(** ** The handlers keep the invariant *)

Lemma js_definition_source_quiet o n : quiet n (_js_definition_source_key o) parsed_key key_failure.
Proof. unfold _js_definition_source_key. quiet_go. Qed.
#[local] Hint Resolve js_definition_source_quiet : canon.

Lemma js_definition_target_quiet o n : quiet n (_js_definition_target_key o) parsed_key key_failure.
Proof. unfold _js_definition_target_key. quiet_go. Qed.

Lemma js_reference_source_quiet o n : quiet n (_js_reference_source_key o) parsed_key key_failure.
Proof. unfold _js_reference_source_key. quiet_go. Qed.

Lemma js_reference_target_quiet o n : quiet n (_js_reference_target_key o n) parsed_key key_failure.
Proof. unfold _js_reference_target_key. quiet_go. Qed.

#[local] Hint Resolve js_definition_target_quiet js_reference_source_quiet js_reference_target_quiet : canon.

Lemma js_definition_recorded o n :
  typed_observation o -> recorded o n unicode_failure (_canonicalize_js_definition_observation o n).
Proof. relation_handler. Qed.

Lemma js_reference_recorded o n :
  typed_observation o -> recorded o n unicode_failure (_canonicalize_js_reference_observation o n).
Proof. relation_handler. Qed.

End Javascript.
