(* ===== verification/CanonEmail.v ===== *)
(** Email: [canonicalization/email_family.py]. *)
From S2P Require Import Prelude Utf8 GraphKeys GraphKeysFacts PyVal Json PyDictFacts PyRepr Observations.
From S2P Require Import ObservationsFacts CanonCore CanonState KeyBuilders CanonInvariant CanonLogic CanonShared.
Open Scope Z_scope.

Section Email.
Context {U : Unicode}.

Definition _email_definition_source_key (o : RawObservation) : CM pystr :=
  if kind_is o "email.mailbox" then own_file_key o
  else if kind_is o "email.message" then
    match _metadata_text (obs_metadata o) "source_key" with
    | Some source_key =>
        checked_key source_key ["email.mailbox"] (lit "email.message source_key must be email.mailbox")
    | None => own_file_key o
    end
  else
    match _metadata_text (obs_metadata o) "source_key" with
    | None => key_error (obs_kind o ++ lit " observation requires source_key")
    | Some source_key =>
        checked_key source_key ["email.message"] (obs_kind o ++ lit " source_key must be email.message")
    end.

Definition _email_definition_target_key (o : RawObservation) : CM pystr :=
  if negb (is_none (obs_target o)) then
    checked_target o
      ["email.mailbox"; "email.message"; "email.part"; "email.attachment_stub"; "email.thread_hint"]
      (obs_kind o ++ lit " target has unsupported namespace")
  else if kind_is o "email.mailbox" then lift_key (email_mailbox_key (PathStr (obs_path o)))
  else if kind_is o "email.message" then
    let message_id_hash := _metadata_text (obs_metadata o) "message_id_hash" in
    let identity_strength := _metadata_text (obs_metadata o) "identity_strength" in
    let identity := default (lit "structural") identity_strength ++ lit ":" ++
                    default (obs_source_id o) message_id_hash in
    lift_key (email_message_key (PathStr (obs_path o)) identity)
  else
    source_key ← _email_definition_source_key o;
    match nonblank_text
            (text_or (first_text (obs_metadata o) ["part_path"; "thread_hint_kind"]) (obs_name o)) with
    | None => key_error (obs_kind o ++ lit " observation requires pointer metadata")
    | Some pointer =>
        if kind_is o "email.part" then lift_key (email_part_key source_key pointer)
        else if kind_is o "email.attachment_stub" then
          lift_key (email_attachment_stub_key source_key pointer)
        else if kind_is o "email.thread_hint" then lift_key (email_thread_hint_key source_key pointer)
        else key_error (lit "unsupported email definition kind: " ++ obs_kind o)
    end.

Definition _email_address_target_key (o : RawObservation) : CM pystr :=
  if negb (is_none (obs_target o)) then
    parsed ← parse_value (obs_target o);
    if bool_decide (namespace parsed = lit "email.address") then mret (val_text (obs_target o))
    else key_error (lit "email.address target must be email.address")
  else
    match _metadata_text (obs_metadata o) "address_hash" with
    | None => key_error (lit "email.address observation requires address_hash")
    | Some address_hash => lift_key (email_address_key (lit "addrhash:" ++ address_hash))
    end.

Definition _email_reference_source_key (o : RawObservation) : CM pystr :=
  match _metadata_text (obs_metadata o) "source_key" with
  | None => key_error (obs_kind o ++ lit " observation requires source_key")
  | Some source_key =>
      checked_key source_key ["email.message"; "email.part"; "email.attachment_stub"]
        (obs_kind o ++ lit " source_key has unsupported namespace")
  end.

Definition _email_reference_target_key (o : RawObservation) (ordinal : Z) : CM pystr :=
  reference_target_key o ordinal "email.reference" (lit "email.reference observation requires target")
    (lit "email.reference target is not a canonical key: ")
    (value_or (obs_target o) (_metadata_text (obs_metadata o) "target_key")).

(** [keys_by_kind] *)
Definition email_node_keys (kind : pystr) : list string :=
  if bool_decide (kind = lit "email.mailbox") then
    ["format"; "parser"; "mailbox_message_count"; "mailbox_message_count_limited"; "mailbox_byte_count";
     "mailbox_parse_status"; "mailbox_limit_reason"; "mailbox_digest"; "identity_strength"]
  else if bool_decide (kind = lit "email.message") then
    ["format"; "parser"; "mailbox_file_key"; "mbox_message_ordinal"; "mbox_message_identity";
     "message_id_hash"; "message_id_present"; "message_id_valid"; "date"; "date_parse_status";
     "subject_present"; "subject_hash"; "subject_preview_redacted"; "from_count"; "to_count"; "cc_count";
     "bcc_count"; "reply_to_count"; "sender_count"; "return_path_count"; "text_plain_part_count";
     "text_html_part_count"; "attachment_count"; "has_text_plain"; "has_text_html"; "has_attachments";
     "has_remote_references"; "redacted"; "redaction_reason"; "identity_strength"]
  else if bool_decide (kind = lit "email.address") then
    ["format"; "parser"; "address_role"; "address_domain"; "address_hash";
     "address_display_name_redacted"; "redacted"; "redaction_reason"]
  else if bool_decide (kind = lit "email.part") then
    ["format"; "parser"; "mime_type"; "content_type"; "content_disposition"; "charset";
     "transfer_encoding"; "part_index"; "part_path"; "part_depth"; "part_byte_count"; "inline";
     "content_id_present"; "redacted"; "redaction_reason"]
  else if bool_decide (kind = lit "email.attachment_stub") then
    ["format"; "parser"; "part_path"; "content_disposition"; "attachment_filename_redacted";
     "attachment_filename_hash"; "attachment_mime_type"; "attachment_byte_count"; "inline";
     "content_id_present"; "redacted"; "redaction_reason"]
  else if bool_decide (kind = lit "email.thread_hint") then
    ["format"; "parser"; "thread_hint_kind"; "reference_kind"; "referenced_message_id_hash";
     "not_fetched"; "identity_strength"]
  else [].

Definition _email_node_metadata (kind : pystr) (metadata : pydict) : pydict :=
  select_present metadata (email_node_keys kind).

Definition _email_define_edge_metadata (metadata : pydict) : pydict :=
  append_metadata_texts [] metadata
    [("format", "formats"); ("mailbox_parse_status", "mailbox_parse_statuses");
     ("mailbox_limit_reason", "mailbox_limit_reasons"); ("content_type", "content_types");
     ("content_disposition", "content_dispositions"); ("part_path", "part_paths");
     ("thread_hint_kind", "thread_hint_kinds"); ("identity_strength", "identity_strengths")].

Definition _email_reference_edge_metadata (metadata : pydict) : pydict :=
  let summary := append_metadata_texts [] metadata
    [("format", "formats"); ("address_role", "address_roles"); ("address_domain", "address_domains");
     ("reference_kind", "reference_kinds"); ("thread_hint_kind", "thread_hint_kinds");
     ("raw_value_summary", "raw_value_summaries"); ("redaction_reason", "redaction_reasons")] in
  let summary := copy_bool summary metadata "not_fetched" "not_fetched" in
  copy_bool summary metadata "redacted" "redacted_observed".

Definition _email_display_name (canonical_key : pystr) (o : RawObservation) : pyval :=
  if kind_is o "email.mailbox" then
    let count := meta_get (obs_metadata o) "mailbox_message_count" in
    match int_of count with
    | Some _ => VStr (lit "email mailbox (" ++ str_of_val count ++ lit " messages)")
    | None => VStr (lit "email mailbox")
    end
  else
    match first_text (obs_metadata o)
            ["address_domain"; "part_path"; "attachment_filename_redacted"; "thread_hint_kind"] with
    | Some value => VStr value
    | None =>
        if kind_is o "email.message" then
          match _metadata_text (obs_metadata o) "message_id_hash" with
          | Some digest => VStr (lit "email message " ++ take 12 digest)
          | None => VStr (lit "email message")
          end
        else if truthy (obs_name o) then obs_name o else VStr (_display_name_from_key canonical_key)
    end.

Definition _canonicalize_email_definition_observation (o : RawObservation) (ordinal : Z) : CM unit :=
  with_keys o ordinal "target" (obs_target o)
    (source_key ← _email_definition_source_key o;
     target_key ← _email_definition_target_key o;
     mret (source_key, target_key))
    (fun '(source_key, target_key) =>
       relate o (_evidence_from_observation o ordinal None)
         (keyed_node source_key [] "inferred_from_edge")
         (NodeArg target_key (_node_kind_from_key target_key) (_email_display_name target_key o)
            (_email_node_metadata (obs_kind o) (obs_metadata o)) "observed")
         "defines" (_email_define_edge_metadata (obs_metadata o))).

Definition _canonicalize_email_address_observation (o : RawObservation) (ordinal : Z) : CM unit :=
  with_keys o ordinal "target" (obs_target o)
    (source_key ← _email_reference_source_key o;
     target_key ← _email_address_target_key o;
     mret (source_key, target_key))
    (fun '(source_key, target_key) =>
       relate o (_evidence_from_observation o ordinal None)
         (keyed_node source_key [] "inferred_from_edge")
         (NodeArg target_key (lit "email.address") (_email_display_name target_key o)
            (_email_node_metadata (obs_kind o) (obs_metadata o)) "observed")
         "references" (_email_reference_edge_metadata (obs_metadata o))).

Definition _canonicalize_email_reference_observation (o : RawObservation) (ordinal : Z) : CM unit :=
  with_keys o ordinal "target" (obs_target o)
    (source_key ← _email_reference_source_key o;
     target_key ← _email_reference_target_key o ordinal;
     mret (source_key, target_key))
    (fun '(source_key, target_key) =>
       relate o (_evidence_from_observation o ordinal None)
         (keyed_node source_key [] "inferred_from_edge")
         (keyed_node target_key [] "inferred_from_edge")
         "references" (_email_reference_edge_metadata (obs_metadata o))).

(** ** The handlers keep the invariant *)

Lemma email_definition_source_quiet o n : quiet n (_email_definition_source_key o) parsed_key key_failure.
Proof. unfold _email_definition_source_key. quiet_go. Qed.
#[local] Hint Resolve email_definition_source_quiet : canon.

Lemma email_definition_target_quiet o n : quiet n (_email_definition_target_key o) parsed_key key_failure.
Proof. unfold _email_definition_target_key. quiet_go. Qed.

Lemma email_address_target_quiet o n :
  quiet n (_email_address_target_key o) (key_in "email.address") key_failure.
Proof. unfold _email_address_target_key. quiet_go. Qed.

Lemma email_reference_source_quiet o n : quiet n (_email_reference_source_key o) parsed_key key_failure.
Proof. unfold _email_reference_source_key. quiet_go. Qed.

Lemma email_reference_target_quiet o n : quiet n (_email_reference_target_key o n) parsed_key key_failure.
Proof. unfold _email_reference_target_key. quiet_go. Qed.

#[local] Hint Resolve email_definition_target_quiet email_address_target_quiet email_reference_source_quiet
  email_reference_target_quiet : canon.

Lemma email_definition_recorded o n :
  typed_observation o -> recorded o n unicode_failure (_canonicalize_email_definition_observation o n).
Proof. relation_handler. Qed.

Lemma email_address_recorded o n :
  typed_observation o -> recorded o n unicode_failure (_canonicalize_email_address_observation o n).
Proof. relation_handler. Qed.

Lemma email_reference_recorded o n :
  typed_observation o -> recorded o n unicode_failure (_canonicalize_email_reference_observation o n).
Proof. relation_handler. Qed.

End Email.

(** Feeds: [canonicalization/feed_family.py]. *)


Section Feed.
Context {U : Unicode}.

Definition _feed_definition_source_key (o : RawObservation) : CM pystr :=
  if kind_is o "feed.document" then own_file_key o
  else if kind_is o "feed.channel" then
    match _metadata_text (obs_metadata o) "document_key" with
    | None => lift_key (feed_document_key (PathStr (obs_path o)))
    | Some document_key =>
        checked_key document_key ["feed.document"] (lit "feed.channel document_key must be feed.document")
    end
  else
    match _metadata_text (obs_metadata o) "channel_key" with
    | None => key_error (obs_kind o ++ lit " observation requires channel_key")
    | Some channel_key =>
        checked_key channel_key ["feed.channel"] (obs_kind o ++ lit " channel_key must be feed.channel")
    end.

Definition _feed_definition_target_key (o : RawObservation) : CM pystr :=
  if kind_is o "feed.document" && is_none (obs_target o) then
    lift_key (feed_document_key (PathStr (obs_path o)))
  else if is_none (obs_target o) then key_error (obs_kind o ++ lit " observation requires target")
  else
    parsed ← parse_value (obs_target o);
    let expected_namespace := obs_kind o in
    if negb (bool_decide (namespace parsed = expected_namespace)) then
      key_error (obs_kind o ++ lit " target must use " ++ expected_namespace ++ lit " namespace")
    else mret (val_text (obs_target o)).

Definition _feed_reference_source_key (o : RawObservation) : CM pystr :=
  match _metadata_text (obs_metadata o) "source_key" with
  | None => key_error (obs_kind o ++ lit " observation requires source_key")
  | Some source_key =>
      checked_key source_key ["feed.document"; "feed.channel"; "feed.item"]
        (obs_kind o ++ lit " source_key must be feed.document, feed.channel, or feed.item")
  end.

Definition _feed_reference_target_key (o : RawObservation) (ordinal : Z) : CM pystr :=
  reference_target_key o ordinal "feed.reference" (obs_kind o ++ lit " observation requires target")
    (lit "raw target is not a valid canonical key: ") (obs_target o).

Definition _feed_node_metadata (metadata : pydict) : pydict :=
  filter_items metadata
    ["feed_format"; "parser"; "parser_mode"; "top_level_type"; "identity_source"; "identity_strength";
     "duplicate_identity"; "duplicate_disambiguator"; "title"; "name"; "published_at"; "updated_at";
     "email_redacted"].

Definition _feed_define_edge_metadata (metadata : pydict) : pydict :=
  filter_items metadata
    ["feed_format"; "identity_source"; "identity_strength"; "duplicate_identity";
     "duplicate_disambiguator"; "parser_mode"; "top_level_type"].

Definition _feed_reference_edge_metadata (metadata : pydict) : pydict :=
  filter_items metadata
    ["feed_format"; "scope"; "attribute"; "field"; "rel"; "mime_type"; "length"; "not_fetched";
     "target_kind"; "raw_target_summary"; "email_redacted"].

(** The reference from the item of an author or category; [parse_key] is outside
    any [try] here. *)
Definition feed_item_reference (o : RawObservation) (ordinal : Z) (evidence_key target_key item_key : pystr) :
    CM unit :=
  parsed ← parse_text item_key;
  if negb (bool_decide (namespace parsed = lit "feed.item")) then
    diagnose o ordinal "error" "invalid_canonical_key" (obs_kind o ++ lit " item_key must be feed.item")
      "metadata.item_key" (VStr item_key) None
  else
    attach o evidence_key
      (NodeArg item_key (lit "feed.item") (VStr (_display_name_from_key item_key)) [] "inferred_from_edge")
      item_key "references" target_key (_feed_reference_edge_metadata (obs_metadata o)).

Definition _canonicalize_feed_definition_observation (o : RawObservation) (ordinal : Z) : CM unit :=
  with_keys o ordinal "target" (obs_target o)
    (source_key ← _feed_definition_source_key o;
     target_key ← _feed_definition_target_key o;
     mret (source_key, target_key))
    (fun '(source_key, target_key) =>
       let evidence_record := _evidence_from_observation o ordinal None in
       _ ← relate o evidence_record
             (keyed_node source_key [] "inferred_from_edge")
             (NodeArg target_key (_node_kind_from_key target_key)
                (if truthy (obs_name o) then obs_name o else VStr (_display_name_from_key target_key))
                (_feed_node_metadata (obs_metadata o)) "observed")
             "defines" (_feed_define_edge_metadata (obs_metadata o));
       match _metadata_text (obs_metadata o) "item_key" with
       | Some item_key =>
           if one_of (obs_kind o) ["feed.author"; "feed.category"] then
             feed_item_reference o ordinal (v_evidence_key evidence_record) target_key item_key
           else mret tt
       | None => mret tt
       end).

Definition _canonicalize_feed_reference_observation (o : RawObservation) (ordinal : Z) : CM unit :=
  with_keys o ordinal "metadata.source_key" (meta_get (obs_metadata o) "source_key")
    (source_key ← _feed_reference_source_key o;
     target_key ← _feed_reference_target_key o ordinal;
     mret (source_key, target_key))
    (fun '(source_key, target_key) =>
       relate o (_evidence_from_observation o ordinal None)
         (keyed_node source_key [] "inferred_from_edge")
         (keyed_node target_key [] "inferred_from_edge")
         "references" (_feed_reference_edge_metadata (obs_metadata o))).

(** ** The handlers keep the invariant *)

Lemma feed_definition_source_quiet o n : quiet n (_feed_definition_source_key o) parsed_key key_failure.
Proof. unfold _feed_definition_source_key. quiet_go. Qed.

Lemma feed_definition_target_quiet o n :
  quiet n (_feed_definition_target_key o) parsed_key key_failure.
Proof. unfold _feed_definition_target_key. quiet_go. Qed.

Lemma feed_reference_source_quiet o n : quiet n (_feed_reference_source_key o) parsed_key key_failure.
Proof. unfold _feed_reference_source_key. quiet_go. Qed.

Lemma feed_reference_target_quiet o n : quiet n (_feed_reference_target_key o n) parsed_key key_failure.
Proof. unfold _feed_reference_target_key. quiet_go. Qed.

#[local] Hint Resolve feed_definition_source_quiet feed_definition_target_quiet feed_reference_source_quiet
  feed_reference_target_quiet : canon.

Lemma feed_item_attached o n tk item es s :
  typed_observation o -> wf [] [] es s -> _evidence_key o n ∈ v_evidence_key <$> es -> tk ∈ (cs_nodes s).*1 ->
  wp (feed_item_reference o n (_evidence_key o n) tk item) s (fun _ s' => kept n es s s') key_failure.
Proof.
  intros [Hv _ _] Hwf He Ht. unfold feed_item_reference. apply wp_bind.
  eapply wp_quiet; [apply quiet_parse_text|]. intros p ds Hp Hds. cbv beta in Hp.
  assert (Hwf' : wf [] [] es (add_diagnostics ds s)) by (apply wf_add_diagnostics; [done|by eapply diag_for_valid]).
  assert (Ht' : tk ∈ (cs_nodes (add_diagnostics ds s)).*1) by done.
  destruct (negb _) eqn:Hn.
  - eapply wp_quiet; [by apply quiet_diagnose; [|apply str_nonempty_app_r]|]. intros _ ds' _ Hds'.
    split; [by apply wf_add_diagnostics; [|eapply diag_for_valid]|].
    exists (ds ++ ds'). split; [by rewrite app_assoc|by apply Forall_app].
  - destruct (wf_attach es (add_diagnostics ds s) o (_evidence_key o n)
      (NodeArg item (lit "feed.item") (VStr (_display_name_from_key item)) [] "inferred_from_edge")
      item "references" tk (_feed_reference_edge_metadata (obs_metadata o)) Hwf') as (s' & E & W & _ & D);
      eauto with canon.
    unfold wp. rewrite E. split; [done|]. exists ds. by rewrite D.
Qed.

(** An author's or category's item is looked up outside any [try]. *)
Lemma feed_definition_recorded o n (X : cexn -> Prop) :
  typed_observation o -> (forall e, unicode_failure e -> X e) ->
  (one_of (obs_kind o) ["feed.author"; "feed.category"] = true -> forall e, key_failure e -> X e) ->
  recorded o n X (_canonicalize_feed_definition_observation o n).
Proof.
  intros Ht HX Hk. pose proof Ht as [Hv _ _].
  eapply recorded_with_keys; [done|apply quiet_pair; eauto with canon|].
  intros [sk tk] [Hs Htk]. cbv zeta. cbn [fst snd] in *.
  apply recorded_relate_then; [eauto with canon..|]. intros es s Hwf He _ Kt.
  destruct (_metadata_text (obs_metadata o) "item_key") as [item|] eqn:Eitem; [|by apply kept_nothing].
  destruct (one_of _ _) eqn:Ek; [|by apply kept_nothing].
  pose proof (feed_item_attached o n tk item es s Ht Hwf He Kt) as Hi. specialize (Hk eq_refl).
  unfold wp in *. destruct (feed_item_reference _ _ _ _ _ s) as [[|] ?]; auto.
Qed.

Lemma feed_reference_recorded o n :
  typed_observation o -> recorded o n unicode_failure (_canonicalize_feed_reference_observation o n).
Proof. relation_handler. Qed.

End Feed.
