(* ===== verification/CanonWeb.v ===== *)
(** CSS, HTML and XML: [canonicalization/document_css_family.py],
    [document_html_family.py] and [document_xml_family.py]. *)
From S2P Require Import Prelude Utf8 PyVal Json PyRepr PyDictFacts GraphKeys GraphKeysFacts KeyBuilders.
From S2P Require Import Observations ObservationsFacts CanonCore CanonState CanonInvariant CanonLogic.
From S2P Require Import CanonShared.
Open Scope Z_scope.

Section Css.
Context {U : Unicode}.

Definition _css_document_node_metadata (metadata : pydict) : pydict :=
  select_metadata metadata
    ["format"; "parser"; "parser_mode"; "source_kind"; "rule_count"; "selector_count";
     "custom_property_count"; "reference_count"; "parse_error_count"].

Definition _css_rule_node_metadata (metadata : pydict) : pydict :=
  select_metadata metadata
    ["format"; "parser"; "parser_mode"; "rule_pointer"; "rule_type"; "selector_text"; "at_rule_name";
     "at_rule_prelude_summary"; "declaration_count"; "custom_property_names"; "reference_count";
     "parent_rule_pointer"; "identity_mode"; "font_family_summary"].

Definition _css_selector_node_metadata (metadata : pydict) : pydict :=
  select_metadata metadata
    ["format"; "parser"; "parser_mode"; "selector_pointer"; "rule_pointer"; "selector_text";
     "selector_index"; "classes"; "ids"; "element_names"; "attributes"; "pseudo_classes";
     "pseudo_elements"; "selector_kind"].

Definition _css_custom_property_node_metadata (metadata : pydict) : pydict :=
  select_metadata metadata
    ["format"; "parser"; "parser_mode"; "property_name"; "rule_pointer"; "definition_count"; "value_type";
     "value_summary"; "redacted"; "redaction_reason"].

Definition _css_selector_match_source_node_metadata (metadata : pydict) : pydict :=
  select_metadata metadata ["selector_text"; "css_file"; "scope"; "not_runtime_style"].

Definition _css_selector_match_target_node_metadata (metadata : pydict) : pydict :=
  select_metadata metadata ["html_pointer"; "html_file"; "scope"; "not_runtime_style"].

Definition _css_reference_source_node_metadata (metadata : pydict) : pydict :=
  select_metadata metadata ["format"; "parser"; "parser_mode"; "rule_pointer"; "rule_type"].

Definition _css_define_edge_metadata (metadata : pydict) : pydict :=
  append_metadata_texts [] metadata
    [("format", "formats"); ("rule_pointer", "rule_pointers"); ("selector_pointer", "selector_pointers");
     ("property_name", "custom_properties"); ("rule_type", "rule_types")].

Definition _css_selector_match_edge_metadata (metadata : pydict) : pydict :=
  let summary := append_metadata_texts [] metadata
    [("match_kind", "match_kinds"); ("css_file", "css_files"); ("html_file", "html_files");
     ("stylesheet_reference_source", "stylesheet_reference_sources"); ("scope", "scopes");
     ("html_pointer", "html_pointers")] in
  let summary :=
    match meta_get metadata "matched_components" with
    | VDict d => dict_set (lit "matched_components") (VList [VDict d]) summary
    | _ => summary
    end in
  let summary :=
    match meta_get metadata "limitations" with
    | VList l | VTuple l =>
        dict_set (lit "limitations") (VList (filter (fun v => is_Some (nonblank_text v)) l)) summary
    | _ => summary
    end in
  copy_bool summary metadata "not_runtime_style" "not_runtime_style_observed".

Definition _css_reference_edge_metadata (metadata : pydict) : pydict :=
  copy_bool
    (append_metadata_texts [] metadata
       [("reference_kind", "reference_kinds"); ("source_kind", "source_kinds");
        ("raw_value_summary", "raw_value_summaries"); ("resolution_reason", "resolution_reasons");
        ("rule_pointer", "rule_pointers"); ("property_name", "properties")])
    metadata "redacted" "redacted_observed".

Definition _css_selector_source_key (o : RawObservation) : CM pystr :=
  match _metadata_text (obs_metadata o) "source_rule_key" with
  | Some source_key =>
      checked_key source_key ["css.rule"] (lit "css.selector source_rule_key must be css.rule")
  | None =>
      match _metadata_text (obs_metadata o) "rule_pointer" with
      | None => key_error (lit "css.selector observation requires rule pointer metadata")
      | Some rule_pointer => lift_key (css_rule_key (PathStr (obs_path o)) rule_pointer)
      end
  end.

Record css_parts := {
  cp_source_key : pystr; cp_source_display : pystr; cp_target_key : pystr; cp_display : pystr;
  cp_node_metadata : pydict
}.

Definition _css_definition_parts (o : RawObservation) (ordinal : Z) : CM css_parts :=
  let path := PathStr (obs_path o) in
  let metadata := obs_metadata o in
  if kind_is o "css.document" then
    source_key ← own_file_key o;
    target_key ← lift_key (css_document_key path);
    _ ← _append_raw_target_diagnostic o ordinal None;
    mret {| cp_source_key := source_key; cp_source_display := obs_path o; cp_target_key := target_key;
            cp_display := obs_path o; cp_node_metadata := _css_document_node_metadata metadata |}
  else if kind_is o "css.rule" then
    source_key ← own_file_key o;
    match nonblank_text (text_or (_metadata_text metadata "rule_pointer") (obs_name o)) with
    | None => key_error (lit "css.rule observation requires rule pointer metadata")
    | Some pointer =>
        target_key ← lift_key (css_rule_key path pointer);
        _ ← _append_raw_target_diagnostic o ordinal None;
        mret {| cp_source_key := source_key; cp_source_display := obs_path o; cp_target_key := target_key;
                cp_display := default pointer (_metadata_text metadata "selector_text");
                cp_node_metadata := _css_rule_node_metadata metadata |}
    end
  else if kind_is o "css.selector" then
    source_key ← _css_selector_source_key o;
    match nonblank_text (text_or (_metadata_text metadata "selector_pointer") (obs_name o)) with
    | None => key_error (lit "css.selector observation requires selector pointer metadata")
    | Some pointer =>
        target_key ← lift_key (css_selector_key path pointer);
        _ ← _append_raw_target_diagnostic o ordinal None;
        mret {| cp_source_key := source_key; cp_source_display := _display_name_from_key source_key;
                cp_target_key := target_key;
                cp_display := default pointer (_metadata_text metadata "selector_text");
                cp_node_metadata := _css_selector_node_metadata metadata |}
    end
  else if kind_is o "css.custom_property" then
    source_key ← own_file_key o;
    match nonblank_text (value_or (obs_name o) (_metadata_text metadata "property_name")) with
    | None => key_error (lit "css.custom_property observation requires property name")
    | Some property_name =>
        target_key ← lift_key (css_custom_property_key path property_name);
        _ ← _append_raw_target_diagnostic o ordinal None;
        mret {| cp_source_key := source_key; cp_source_display := obs_path o; cp_target_key := target_key;
                cp_display := property_name;
                cp_node_metadata := _css_custom_property_node_metadata metadata |}
    end
  else key_error (lit "unsupported CSS definition kind: " ++ obs_kind o).

Definition _css_reference_source_key (o : RawObservation) : CM pystr :=
  match _metadata_text (obs_metadata o) "source_key" with
  | Some source_key => checked_key source_key ["css.rule"] (lit "css.reference source_key must be css.rule")
  | None =>
      match nonblank_text (text_or (_metadata_text (obs_metadata o) "rule_pointer") (obs_name o)) with
      | None => key_error (lit "css.reference observation requires rule pointer metadata")
      | Some rule_pointer => lift_key (css_rule_key (PathStr (obs_path o)) rule_pointer)
      end
  end.

Definition _css_reference_target_key (o : RawObservation) (ordinal : Z) : CM pystr :=
  reference_target_key o ordinal "css.reference" (lit "css.reference observation requires target")
    (lit "raw target is not a valid canonical key: ") (obs_target o).

Definition _css_selector_match_source_key (o : RawObservation) : CM pystr :=
  match nonblank_text (text_or (_metadata_text (obs_metadata o) "selector_key") (obs_name o)) with
  | None => key_error (lit "css.selector_match observation requires selector_key")
  | Some source_key =>
      checked_key source_key ["css.selector"] (lit "css.selector_match selector_key must be css.selector")
  end.

Definition _css_selector_match_target_key (o : RawObservation) : CM pystr :=
  match nonblank_text (value_or (obs_target o) (_metadata_text (obs_metadata o) "html_key")) with
  | None => key_error (lit "css.selector_match observation requires html target")
  | Some target_key =>
      checked_key target_key ["html.element"; "html.anchor"]
        (lit "css.selector_match target must be html.element or html.anchor")
  end.

Definition _canonicalize_css_definition_observation (o : RawObservation) (ordinal : Z) : CM unit :=
  with_keys o ordinal "target" (obs_target o) (_css_definition_parts o ordinal) (fun parts =>
    let source_key := cp_source_key parts in
    let target_key := cp_target_key parts in
    relate o (_evidence_from_observation o ordinal None)
      (NodeArg source_key (_node_kind_from_key source_key) (VStr (cp_source_display parts)) []
         "inferred_from_edge")
      (NodeArg target_key (_node_kind_from_key target_key) (VStr (cp_display parts))
         (cp_node_metadata parts) "observed")
      "defines" (_css_define_edge_metadata (cp_node_metadata parts))).

Definition _canonicalize_css_reference_observation (o : RawObservation) (ordinal : Z) : CM unit :=
  with_keys o ordinal "target" (obs_target o)
    (source_key ← _css_reference_source_key o;
     target_key ← _css_reference_target_key o ordinal;
     mret (source_key, target_key))
    (fun '(source_key, target_key) =>
       relate o (_evidence_from_observation o ordinal None)
         (keyed_node source_key (_css_reference_source_node_metadata (obs_metadata o)) "inferred_from_edge")
         (keyed_node target_key [] "inferred_from_edge")
         "references" (_css_reference_edge_metadata (obs_metadata o))).

Definition _canonicalize_css_selector_match_observation (o : RawObservation) (ordinal : Z) : CM unit :=
  with_keys o ordinal "target" (obs_target o)
    (source_key ← _css_selector_match_source_key o;
     target_key ← _css_selector_match_target_key o;
     mret (source_key, target_key))
    (fun '(source_key, target_key) =>
       relate o (_evidence_from_observation o ordinal None)
         (keyed_node source_key (_css_selector_match_source_node_metadata (obs_metadata o))
            "inferred_from_edge")
         (keyed_node target_key (_css_selector_match_target_node_metadata (obs_metadata o))
            "inferred_from_edge")
         "styles" (_css_selector_match_edge_metadata (obs_metadata o))).

(** ** The handlers keep the invariant *)

Lemma css_selector_source_quiet o n : quiet n (_css_selector_source_key o) parsed_key key_failure.
Proof. unfold _css_selector_source_key. quiet_go. Qed.
#[local] Hint Resolve css_selector_source_quiet : canon.

Lemma css_definition_parts_quiet o n :
  quiet n (_css_definition_parts o n)
    (fun r => parsed_key (cp_source_key r) /\ parsed_key (cp_target_key r)) key_failure.
Proof. unfold _css_definition_parts. quiet_go. Qed.

Lemma css_reference_source_quiet o n : quiet n (_css_reference_source_key o) parsed_key key_failure.
Proof. unfold _css_reference_source_key. quiet_go. Qed.

Lemma css_reference_target_quiet o n : quiet n (_css_reference_target_key o n) parsed_key key_failure.
Proof. unfold _css_reference_target_key. quiet_go. Qed.

Lemma css_match_source_quiet o n : quiet n (_css_selector_match_source_key o) parsed_key key_failure.
Proof. unfold _css_selector_match_source_key. quiet_go. Qed.

Lemma css_match_target_quiet o n : quiet n (_css_selector_match_target_key o) parsed_key key_failure.
Proof. unfold _css_selector_match_target_key. quiet_go. Qed.

#[local] Hint Resolve css_definition_parts_quiet css_reference_source_quiet css_reference_target_quiet
  css_match_source_quiet css_match_target_quiet : canon.

Lemma css_definition_recorded o n :
  typed_observation o -> recorded o n unicode_failure (_canonicalize_css_definition_observation o n).
Proof.
  intros [Hv _ _]. eapply recorded_with_keys; [done|eauto with canon|]. intros r [Hs Ht]. relates.
Qed.

Lemma css_reference_recorded o n :
  typed_observation o -> recorded o n unicode_failure (_canonicalize_css_reference_observation o n).
Proof. relation_handler. Qed.

Lemma css_selector_match_recorded o n :
  typed_observation o -> recorded o n unicode_failure (_canonicalize_css_selector_match_observation o n).
Proof. relation_handler. Qed.

End Css.

Section Html.
Context {U : Unicode}.

Definition _html_document_node_metadata (metadata : pydict) : pydict :=
  select_metadata metadata
    ["format"; "parser"; "parser_mode"; "title"; "doctype"; "root_element"; "language";
     "parse_warning_count"; "element_count"; "anchor_count"].

Definition _html_element_node_metadata (metadata : pydict) : pydict :=
  select_metadata metadata
    ["format"; "parser"; "parser_mode"; "tag"; "pointer"; "id"; "id_is_unique"; "classes";
     "attribute_count"; "child_count"; "text_summary"; "structural_identity"; "content_policy";
     "content_length"; "redacted"; "redaction_reason"].

Definition _html_anchor_node_metadata (metadata : pydict) : pydict :=
  select_metadata metadata
    ["format"; "parser"; "parser_mode"; "heading_level"; "source_element_pointer"; "source_element_key";
     "id"; "id_is_unique"; "text_summary"].

Definition _html_heading_element_node_metadata (metadata : pydict) : pydict :=
  dict_set (lit "heading_without_anchor") (VBool true) (_html_anchor_node_metadata metadata).

Definition _html_reference_source_node_metadata (metadata : pydict) : pydict :=
  select_metadata metadata ["format"; "parser"; "parser_mode"; "tag"; "pointer"].

Definition _html_define_edge_metadata (metadata : pydict) : pydict :=
  append_metadata_texts [] metadata
    [("format", "formats"); ("tag", "tags"); ("pointer", "pointers"); ("heading_level", "heading_levels");
     ("structural_identity", "structural_identity_modes")].

Definition _html_reference_edge_metadata (metadata : pydict) : pydict :=
  let summary := append_metadata_texts [] metadata
    [("reference_kind", "reference_kinds"); ("attribute", "attributes");
     ("raw_value_summary", "raw_value_summaries"); ("resolution_reason", "resolution_reasons");
     ("tag", "tags"); ("pointer", "pointers"); ("source_element_pointer", "source_element_pointers");
     ("method", "methods")] in
  let summary := list_int summary metadata "field_count" "field_counts" in
  copy_bool summary metadata "redacted" "redacted_observed".

Definition _html_heading_target_key (o : RawObservation) : CM pystr :=
  if negb (is_none (obs_target o)) then
    checked_target o ["html.anchor"; "html.element"]
      (lit "html.heading target must be html.anchor or html.element")
  else
    match _metadata_text (obs_metadata o) "source_element_key" with
    | Some source_key =>
        checked_key source_key ["html.element"]
          (lit "html.heading source_element_key must be html.element")
    | None =>
        match _metadata_text (obs_metadata o) "source_element_pointer" with
        | None => key_error (lit "html.heading observation requires source element pointer")
        | Some pointer => lift_key (html_element_key (PathStr (obs_path o)) pointer)
        end
    end.

(** The target of a definition: key, display name and node metadata. *)
Definition _html_definition_target (o : RawObservation) (ordinal : Z) : CM (pystr * pystr * pydict) :=
  let metadata := obs_metadata o in
  if kind_is o "html.document" then
    target_key ← lift_key (html_document_key (PathStr (obs_path o)));
    _ ← _append_raw_target_diagnostic o ordinal None;
    mret (target_key, default (obs_path o) (_metadata_text metadata "title"),
          _html_document_node_metadata metadata)
  else if kind_is o "html.element" then
    match nonblank_text (text_or (_metadata_text metadata "pointer") (obs_name o)) with
    | None => key_error (lit "html.element observation requires pointer metadata")
    | Some pointer =>
        target_key ← lift_key (html_element_key (PathStr (obs_path o)) pointer);
        _ ← _append_raw_target_diagnostic o ordinal None;
        mret (target_key, default pointer (_metadata_text metadata "tag"),
              _html_element_node_metadata metadata)
    end
  else
    target_key ← _html_heading_target_key o;
    _ ← _append_raw_target_diagnostic o ordinal None;
    parsed ← parse_text target_key;
    let display_name := default (_display_name_from_key target_key) (_metadata_text metadata "text_summary") in
    if bool_decide (namespace parsed = lit "html.anchor") then
      mret (target_key, display_name, _html_anchor_node_metadata metadata)
    else if bool_decide (namespace parsed = lit "html.element") then
      mret (target_key, display_name, _html_heading_element_node_metadata metadata)
    else key_error (lit "html.heading target must be html.anchor or html.element").

Definition _html_reference_source_key (o : RawObservation) : CM pystr :=
  match _metadata_text (obs_metadata o) "source_key" with
  | Some source_key =>
      checked_key source_key ["html.element"; "html.anchor"]
        (lit "html reference source_key must be html.element or html.anchor")
  | None =>
      match nonblank_text
              (text_or (first_text (obs_metadata o) ["source_element_pointer"; "pointer"]) (obs_name o)) with
      | None => key_error (lit "html reference observation requires source pointer")
      | Some pointer => lift_key (html_element_key (PathStr (obs_path o)) pointer)
      end
  end.

Definition _html_reference_target_key (o : RawObservation) (ordinal : Z) : CM pystr :=
  reference_target_key o ordinal "html.reference" (lit "html reference observation requires target")
    (lit "raw target is not a valid canonical key: ") (obs_target o).

Definition _canonicalize_html_definition_observation (o : RawObservation) (ordinal : Z) : CM unit :=
  with_keys o ordinal "target" (obs_target o)
    (source_key ← own_file_key o;
     target ← _html_definition_target o ordinal;
     mret (source_key, target))
    (fun '(source_key, (target_key, display_name, node_metadata)) =>
       relate o (_evidence_from_observation o ordinal None)
         (NodeArg source_key (lit "file") (VStr (obs_path o)) [] "inferred_from_edge")
         (NodeArg target_key (_node_kind_from_key target_key) (VStr display_name) node_metadata "observed")
         "defines" (_html_define_edge_metadata node_metadata)).

Definition _canonicalize_html_reference_observation (o : RawObservation) (ordinal : Z) : CM unit :=
  with_keys o ordinal "target" (obs_target o)
    (source_key ← _html_reference_source_key o;
     target_key ← _html_reference_target_key o ordinal;
     mret (source_key, target_key))
    (fun '(source_key, target_key) =>
       relate o (_evidence_from_observation o ordinal None)
         (keyed_node source_key (_html_reference_source_node_metadata (obs_metadata o)) "inferred_from_edge")
         (keyed_node target_key [] "inferred_from_edge")
         "references" (_html_reference_edge_metadata (obs_metadata o))).

(** ** The handlers keep the invariant *)

Lemma html_heading_target_quiet o n : quiet n (_html_heading_target_key o) parsed_key key_failure.
Proof. unfold _html_heading_target_key. quiet_go. Qed.
#[local] Hint Resolve html_heading_target_quiet : canon.

Lemma html_definition_target_quiet o n :
  quiet n (_html_definition_target o n) (fun r => parsed_key r.1.1) key_failure.
Proof. unfold _html_definition_target. quiet_go. Qed.

Lemma html_reference_source_quiet o n : quiet n (_html_reference_source_key o) parsed_key key_failure.
Proof. unfold _html_reference_source_key. quiet_go. Qed.

Lemma html_reference_target_quiet o n : quiet n (_html_reference_target_key o n) parsed_key key_failure.
Proof. unfold _html_reference_target_key. quiet_go. Qed.

#[local] Hint Resolve html_definition_target_quiet html_reference_source_quiet html_reference_target_quiet
  : canon.

Lemma html_definition_recorded o n :
  typed_observation o -> recorded o n unicode_failure (_canonicalize_html_definition_observation o n).
Proof. relation_handler. Qed.

Lemma html_reference_recorded o n :
  typed_observation o -> recorded o n unicode_failure (_canonicalize_html_reference_observation o n).
Proof. relation_handler. Qed.

End Html.

Section Xml.
Context {U : Unicode}.

Definition _xml_document_node_metadata (metadata : pydict) : pydict :=
  select_metadata metadata
    ["format"; "parser"; "safety_mode"; "root_tag"; "root_local_name"; "root_namespace_uri";
     "namespace_summary"; "document_role"; "element_count"; "attribute_count"; "reference_count";
     "parse_error_count"].

Definition _xml_element_node_metadata (metadata : pydict) : pydict :=
  select_metadata metadata
    ["format"; "parser"; "safety_mode"; "element_name"; "local_name"; "namespace_uri"; "xml_pointer";
     "attribute_count"; "child_count"; "identity_mode"; "role_hint"; "text_summary"; "bean_id";
     "class_name"; "property_name"; "bean_ref"; "maven_group_id"; "maven_artifact_id"; "maven_version";
     "redacted"; "redaction_reason"].

Definition _xml_attribute_node_metadata (metadata : pydict) : pydict :=
  select_metadata metadata
    ["format"; "parser"; "safety_mode"; "element_pointer"; "attribute_name"; "local_name";
     "namespace_uri"; "semantic_key"; "value_type"; "value_summary"; "redacted"; "redaction_reason"].

Definition _xml_reference_source_node_metadata (metadata : pydict) : pydict :=
  select_metadata metadata ["format"; "parser"; "safety_mode"; "element_pointer"; "source_kind"].

Definition _xml_define_edge_metadata (metadata : pydict) : pydict :=
  append_metadata_texts [] metadata
    [("format", "formats"); ("xml_pointer", "xml_pointers"); ("element_pointer", "element_pointers");
     ("attribute_name", "attributes"); ("document_role", "document_roles"); ("role_hint", "role_hints")].

Definition _xml_reference_edge_metadata (metadata : pydict) : pydict :=
  copy_bool
    (append_metadata_texts [] metadata
       [("reference_kind", "reference_kinds"); ("source_kind", "source_kinds");
        ("raw_value_summary", "raw_value_summaries"); ("resolution_reason", "resolution_reasons");
        ("element_pointer", "element_pointers"); ("attribute_name", "attributes")])
    metadata "redacted" "redacted_observed".

(** The target of a definition: key, display name and node metadata. *)
Definition _xml_definition_target (o : RawObservation) : CM (pystr * pystr * pydict) :=
  let path := PathStr (obs_path o) in
  let metadata := obs_metadata o in
  if kind_is o "xml.document" then
    target_key ← lift_key (xml_document_key path);
    mret (target_key, obs_path o, _xml_document_node_metadata metadata)
  else if kind_is o "xml.element" then
    match nonblank_text (text_or (_metadata_text metadata "xml_pointer") (obs_name o)) with
    | None => key_error (lit "xml.element observation requires xml_pointer metadata")
    | Some pointer =>
        target_key ← lift_key (xml_element_key path pointer);
        mret (target_key, default pointer (_metadata_text metadata "element_name"),
              _xml_element_node_metadata metadata)
    end
  else if kind_is o "xml.attribute" then
    match _metadata_text metadata "element_pointer" with
    | None => key_error (lit "xml.attribute observation requires element_pointer metadata")
    | Some pointer =>
        match _metadata_text metadata "attribute_name" with
        | None => key_error (lit "xml.attribute observation requires attribute_name metadata")
        | Some attribute_name =>
            target_key ← lift_key (xml_attribute_key path pointer attribute_name);
            mret (target_key, attribute_name, _xml_attribute_node_metadata metadata)
        end
    end
  else key_error (lit "unsupported XML definition kind: " ++ obs_kind o).

Definition _xml_reference_source_key (o : RawObservation) : CM pystr :=
  match _metadata_text (obs_metadata o) "source_key" with
  | None => key_error (lit "xml.reference observation requires source_key metadata")
  | Some source_key =>
      checked_key source_key ["xml.element"; "xml.attribute"]
        (lit "xml.reference source_key must be xml.element or xml.attribute")
  end.

Definition _xml_reference_target_key (o : RawObservation) (ordinal : Z) : CM pystr :=
  reference_target_key o ordinal "xml.reference" (lit "xml.reference observation requires target")
    (lit "raw target is not a valid canonical key: ") (obs_target o).

Definition _canonicalize_xml_definition_observation (o : RawObservation) (ordinal : Z) : CM unit :=
  with_keys o ordinal "target" (obs_target o)
    (source_key ← own_file_key o;
     target ← _xml_definition_target o;
     mret (source_key, target))
    (fun '(source_key, (target_key, display_name, node_metadata)) =>
       relate o (_evidence_from_observation o ordinal None)
         (NodeArg source_key (lit "file") (VStr (obs_path o)) [] "inferred_from_edge")
         (NodeArg target_key (_node_kind_from_key target_key) (VStr display_name) node_metadata "observed")
         "defines" (_xml_define_edge_metadata node_metadata)).

Definition _canonicalize_xml_reference_observation (o : RawObservation) (ordinal : Z) : CM unit :=
  with_keys o ordinal "target" (obs_target o)
    (source_key ← _xml_reference_source_key o;
     target_key ← _xml_reference_target_key o ordinal;
     mret (source_key, target_key))
    (fun '(source_key, target_key) =>
       relate o (_evidence_from_observation o ordinal None)
         (keyed_node source_key (_xml_reference_source_node_metadata (obs_metadata o)) "inferred_from_edge")
         (keyed_node target_key [] "inferred_from_edge")
         "references" (_xml_reference_edge_metadata (obs_metadata o))).

(** ** The handlers keep the invariant *)

Lemma xml_definition_target_quiet o n :
  quiet n (_xml_definition_target o) (fun r => parsed_key r.1.1) key_failure.
Proof. unfold _xml_definition_target. quiet_go. Qed.

Lemma xml_reference_source_quiet o n : quiet n (_xml_reference_source_key o) parsed_key key_failure.
Proof. unfold _xml_reference_source_key. quiet_go. Qed.

Lemma xml_reference_target_quiet o n : quiet n (_xml_reference_target_key o n) parsed_key key_failure.
Proof. unfold _xml_reference_target_key. quiet_go. Qed.

#[local] Hint Resolve xml_definition_target_quiet xml_reference_source_quiet xml_reference_target_quiet
  : canon.

Lemma xml_definition_recorded o n :
  typed_observation o -> recorded o n unicode_failure (_canonicalize_xml_definition_observation o n).
Proof. relation_handler. Qed.

Lemma xml_reference_recorded o n :
  typed_observation o -> recorded o n unicode_failure (_canonicalize_xml_reference_observation o n).
Proof. relation_handler. Qed.

End Xml.
