(* ===== verification/CanonDocument.v ===== *)
(** Markdown, WARC and documents: [canonicalization/document_markdown_family.py],
    [document_warc_family.py] and [document_family.py]. *)
From S2P Require Import Prelude Utf8 PyVal Json PyRepr PyDictFacts GraphKeys GraphKeysFacts KeyBuilders.
From S2P Require Import Observations ObservationsFacts CanonCore CanonState CanonInvariant CanonLogic.
From S2P Require Import CanonShared.
Open Scope Z_scope.

Section Markdown.
Context {U : Unicode}.

Definition _markdown_document_node_metadata (metadata : pydict) : pydict :=
  select_metadata metadata
    ["doc_path"; "doc_role"; "title"; "frontmatter_present"; "content_hash"; "generated"].

Definition _markdown_heading_node_metadata (metadata : pydict) : pydict :=
  select_metadata metadata
    ["level"; "text"; "anchor"; "base_anchor"; "duplicate_index"; "parent_anchor"; "page_key"].

Definition _markdown_adr_node_metadata (metadata : pydict) : pydict :=
  select_metadata metadata
    ["adr_number"; "title"; "status"; "date"; "filename_slug"; "heading_anchor"; "metadata_source"].

Definition _markdown_skill_node_metadata (metadata : pydict) : pydict :=
  select_metadata metadata
    ["skill_name"; "description"; "skill_path"; "frontmatter_keys"; "metadata_source"; "parse_status"].

Definition _markdown_page_evidence_metadata (o : RawObservation) : pydict :=
  let metadata := obs_metadata o in
  if kind_is o "markdown.frontmatter" then
    let summary :=
      match meta_get metadata "keys" with
      | VList l | VTuple l => [(lit "frontmatter_keys", VList l)]
      | _ => []
      end in
    _append_metadata_text summary metadata "parse_status" "frontmatter_parse_statuses"
  else if kind_is o "markdown.code_fence" then
    copy_bool (_append_metadata_text [] metadata "language" "code_fence_languages")
      metadata "closed" "code_fence_closed_observed"
  else [].

Definition _markdown_define_edge_metadata (metadata : pydict) : pydict :=
  append_metadata_texts [] metadata
    [("doc_role", "doc_roles"); ("title", "titles"); ("anchor", "anchors"); ("adr_number", "adr_numbers");
     ("skill_name", "skill_names")].

Definition _markdown_link_edge_metadata (metadata : pydict) : pydict :=
  copy_bool
    (append_metadata_texts [] metadata
       [("link_text", "link_texts"); ("raw_target", "raw_targets"); ("link_syntax", "syntaxes");
        ("resolved_path", "resolved_paths"); ("resolved_anchor", "resolved_anchors");
        ("resolution_reason", "resolution_reasons")])
    metadata "is_image" "image_link_observed".

(** The target of a definition: key, display name and node metadata. *)
Definition _markdown_definition_target (o : RawObservation) (ordinal : Z) : CM (pystr * pyval * pydict) :=
  let metadata := obs_metadata o in
  if kind_is o "markdown.document" then
    target_key ← lift_key (doc_page_key (PathStr (obs_path o)));
    _ ← _append_raw_target_diagnostic o ordinal None;
    mret (target_key, VStr (default (obs_path o) (_metadata_text metadata "title")),
          _markdown_document_node_metadata metadata)
  else if kind_is o "markdown.heading" then
    match _metadata_text metadata "anchor" with
    | None => key_error (lit "markdown.heading observation requires anchor metadata")
    | Some anchor =>
        target_key ← lift_key (doc_section_key (PathStr (obs_path o)) anchor);
        _ ← _append_raw_target_diagnostic o ordinal None;
        let text := text_or (_metadata_text metadata "text")
                      (if truthy (obs_name o) then obs_name o else VStr anchor) in
        mret (target_key, text, _markdown_heading_node_metadata metadata)
    end
  else if kind_is o "markdown.adr_metadata" then
    match nonblank_text (text_or (_metadata_text metadata "adr_number") (obs_name o)) with
    | None => key_error (lit "markdown.adr_metadata observation requires ADR number")
    | Some number =>
        target_key ← lift_key (doc_adr_key number);
        _ ← _append_raw_target_diagnostic o ordinal None;
        mret (target_key, VStr (default number (_metadata_text metadata "title")),
              _markdown_adr_node_metadata metadata)
    end
  else if kind_is o "markdown.skill_metadata" then
    match nonblank_text (text_or (_metadata_text metadata "skill_name") (obs_name o)) with
    | None => key_error (lit "markdown.skill_metadata observation requires skill name")
    | Some skill_name =>
        target_key ← lift_key (doc_skill_key skill_name);
        _ ← _append_raw_target_diagnostic o ordinal None;
        mret (target_key, VStr skill_name, _markdown_skill_node_metadata metadata)
    end
  else key_error (lit "unsupported Markdown definition kind: " ++ obs_kind o).

Definition _markdown_link_source_key (o : RawObservation) : CM pystr :=
  match _metadata_text (obs_metadata o) "source_key" with
  | Some source_key =>
      checked_key source_key ["doc.page"; "doc.section"]
        (lit "markdown.link source_key must be doc.page or doc.section")
  | None =>
      match _metadata_text (obs_metadata o) "source_anchor" with
      | Some source_anchor => lift_key (doc_section_key (PathStr (obs_path o)) source_anchor)
      | None => lift_key (doc_page_key (PathStr (obs_path o)))
      end
  end.

Definition _markdown_link_target_key (o : RawObservation) (ordinal : Z) : CM pystr :=
  reference_target_key_as o ordinal "external.url" "missing-markdown-link-target" "malformed-markdown-link"
    (lit "markdown.link observation requires target")
    (lit "raw target is not a valid canonical key: ") (obs_target o).

Definition _canonicalize_markdown_definition_observation (o : RawObservation) (ordinal : Z) : CM unit :=
  with_keys o ordinal "target" (obs_target o)
    (source_key ← own_file_key o;
     target ← _markdown_definition_target o ordinal;
     mret (source_key, target))
    (fun '(source_key, (target_key, display_name, node_metadata)) =>
       relate o (_evidence_from_observation o ordinal None)
         (NodeArg source_key (lit "file") (VStr (obs_path o)) [] "inferred_from_edge")
         (NodeArg target_key (_node_kind_from_key target_key) display_name node_metadata "observed")
         "defines" (_markdown_define_edge_metadata node_metadata)).

(** [_metadata_text(metadata, "page_key") or doc_page_key(path)] of namespace
    [doc.page]. *)
Definition markdown_page_key (o : RawObservation) : CM pystr :=
  page_key ← match _metadata_text (obs_metadata o) "page_key" with
             | Some page_key => mret page_key
             | None => lift_key (doc_page_key (PathStr (obs_path o)))
             end;
  parsed_page_key ← parse_text page_key;
  if negb (bool_decide (namespace parsed_page_key = lit "doc.page")) then
    key_error (lit "markdown page evidence requires a doc.page key")
  else mret page_key.

Definition _canonicalize_markdown_page_evidence_observation (o : RawObservation) (ordinal : Z) : CM unit :=
  with_keys o ordinal "metadata.page_key" (meta_get (obs_metadata o) "page_key") (markdown_page_key o)
    (fun page_key =>
       chart o (_evidence_from_observation o ordinal None)
         [NodeArg page_key (lit "doc.page") (VStr (obs_path o)) (_markdown_page_evidence_metadata o)
            "observed"] "defines" []).

Definition _canonicalize_markdown_link_observation (o : RawObservation) (ordinal : Z) : CM unit :=
  with_keys o ordinal "target" (obs_target o)
    (source_key ← _markdown_link_source_key o;
     target_key ← _markdown_link_target_key o ordinal;
     mret (source_key, target_key))
    (fun '(source_key, target_key) =>
       relate o (_evidence_from_observation o ordinal None)
         (keyed_node source_key [] "inferred_from_edge")
         (keyed_node target_key [] "inferred_from_edge")
         "links_to" (_markdown_link_edge_metadata (obs_metadata o))).

(** ** The handlers keep the invariant *)

Lemma markdown_definition_target_quiet o n :
  quiet n (_markdown_definition_target o n) (fun r => parsed_key r.1.1) key_failure.
Proof. unfold _markdown_definition_target. quiet_go. Qed.

Lemma markdown_link_source_quiet o n : quiet n (_markdown_link_source_key o) parsed_key key_failure.
Proof. unfold _markdown_link_source_key. quiet_go. Qed.

Lemma markdown_link_target_quiet o n : quiet n (_markdown_link_target_key o n) parsed_key key_failure.
Proof. by apply quiet_reference_target_key_as; [| | | |apply unicode_is_key_failure]. Qed.

Lemma markdown_page_key_quiet o n : quiet n (markdown_page_key o) (key_in "doc.page") key_failure.
Proof.
  unfold markdown_page_key. apply (quiet_bind _ _ _ (fun _ => True)); [|intros; quiet_go].
  destruct (_metadata_text _ _); quiet_go.
Qed.

#[local] Hint Resolve markdown_definition_target_quiet markdown_link_source_quiet markdown_link_target_quiet
  markdown_page_key_quiet : canon.

Lemma markdown_definition_recorded o n :
  typed_observation o -> recorded o n unicode_failure (_canonicalize_markdown_definition_observation o n).
Proof. relation_handler. Qed.

Lemma markdown_link_recorded o n :
  typed_observation o -> recorded o n unicode_failure (_canonicalize_markdown_link_observation o n).
Proof. relation_handler. Qed.

Lemma markdown_page_evidence_recorded o n :
  typed_observation o -> recorded o n unicode_failure (_canonicalize_markdown_page_evidence_observation o n).
Proof.
  intros [Hv _ _]. eapply recorded_with_keys; [done|eauto with canon|]. intros k Hk.
  apply recorded_chart; eauto with canon; by constructor; eauto with canon.
Qed.

End Markdown.

Section Warc.
Context {U : Unicode}.

Definition _warc_definition_source_key (o : RawObservation) : CM pystr :=
  if kind_is o "warc.document" then own_file_key o
  else
    match _metadata_text (obs_metadata o) "document_key" with
    | None => key_error (lit "warc.record observation requires document_key")
    | Some document_key =>
        checked_key document_key ["warc.document"] (lit "warc.record document_key must be warc.document")
    end.

Definition _warc_definition_target_key (o : RawObservation) : CM pystr :=
  if kind_is o "warc.document" && is_none (obs_target o) then
    lift_key (warc_document_key (PathStr (obs_path o)))
  else if is_none (obs_target o) then key_error (obs_kind o ++ lit " observation requires target")
  else
    parsed ← parse_value (obs_target o);
    if negb (bool_decide (namespace parsed = obs_kind o)) then
      key_error (obs_kind o ++ lit " target must use " ++ obs_kind o)
    else mret (val_text (obs_target o)).

Definition _warc_reference_source_key (o : RawObservation) : CM pystr :=
  match _metadata_text (obs_metadata o) "source_key" with
  | None => key_error (lit "warc.reference observation requires source_key")
  | Some source_key =>
      checked_key source_key ["warc.document"; "warc.record"]
        (lit "warc.reference source_key must be warc.document or warc.record")
  end.

Definition _warc_reference_target_key (o : RawObservation) : CM pystr :=
  if is_none (obs_target o) then lift_key (unknown_key (lit "warc.reference") (lit "missing-target"))
  else own_target_key o.

Definition _warc_node_metadata (metadata : pydict) : pydict :=
  filter_items metadata
    ["format"; "warc_version"; "record_count"; "parsed_record_count"; "skipped_record_count";
     "routed_payload_count"; "record_type"; "record_ordinal"; "identity_source"; "identity_strength";
     "duplicate_identity"; "duplicate_disambiguator"; "target_uri_summary"; "target_uri_redacted";
     "warc_date"; "content_type"; "payload_byte_length"; "extractor_route"; "skip_reason"].

Definition _warc_define_edge_metadata (metadata : pydict) : pydict :=
  filter_items metadata
    ["format"; "warc_version"; "record_type"; "record_ordinal"; "identity_source"; "identity_strength";
     "duplicate_identity"; "extractor_route"; "skip_reason"].

Definition _warc_reference_edge_metadata (metadata : pydict) : pydict :=
  filter_items metadata
    ["reference_kind"; "not_fetched"; "target_kind"; "target_uri_summary"; "target_uri_redacted";
     "record_type"; "record_ordinal"].

Definition _canonicalize_warc_definition_observation (o : RawObservation) (ordinal : Z) : CM unit :=
  with_keys o ordinal "target" (obs_target o)
    (source_key ← _warc_definition_source_key o;
     target_key ← _warc_definition_target_key o;
     mret (source_key, target_key))
    (fun '(source_key, target_key) =>
       relate o (_evidence_from_observation o ordinal None)
         (keyed_node source_key [] "inferred_from_edge")
         (NodeArg target_key (_node_kind_from_key target_key)
            (if truthy (obs_name o) then obs_name o else VStr (_display_name_from_key target_key))
            (_warc_node_metadata (obs_metadata o)) "observed")
         "defines" (_warc_define_edge_metadata (obs_metadata o))).

Definition _canonicalize_warc_reference_observation (o : RawObservation) (ordinal : Z) : CM unit :=
  with_keys o ordinal "target" (obs_target o)
    (source_key ← _warc_reference_source_key o;
     target_key ← _warc_reference_target_key o;
     mret (source_key, target_key))
    (fun '(source_key, target_key) =>
       relate o (_evidence_from_observation o ordinal None)
         (keyed_node source_key [] "inferred_from_edge")
         (keyed_node target_key [] "inferred_from_edge")
         "references" (_warc_reference_edge_metadata (obs_metadata o))).

Lemma warc_definition_source_quiet o n : quiet n (_warc_definition_source_key o) parsed_key key_failure.
Proof. unfold _warc_definition_source_key. quiet_go. Qed.

Lemma warc_definition_target_quiet o n : quiet n (_warc_definition_target_key o) parsed_key key_failure.
Proof. unfold _warc_definition_target_key. quiet_go. Qed.

Lemma warc_reference_source_quiet o n : quiet n (_warc_reference_source_key o) parsed_key key_failure.
Proof. unfold _warc_reference_source_key. quiet_go. Qed.

Lemma warc_reference_target_quiet o n : quiet n (_warc_reference_target_key o) parsed_key key_failure.
Proof. unfold _warc_reference_target_key. quiet_go. Qed.

#[local] Hint Resolve warc_definition_source_quiet warc_definition_target_quiet warc_reference_source_quiet
  warc_reference_target_quiet : canon.

Lemma warc_definition_recorded o n :
  typed_observation o -> recorded o n unicode_failure (_canonicalize_warc_definition_observation o n).
Proof. relation_handler. Qed.

Lemma warc_reference_recorded o n :
  typed_observation o -> recorded o n unicode_failure (_canonicalize_warc_reference_observation o n).
Proof. relation_handler. Qed.

End Warc.

Section Document.
Context {U : Unicode}.

Definition _document_file_node_metadata (metadata : pydict) : pydict :=
  select_metadata metadata
    ["format"; "parser"; "byte_count"; "line_count"; "paragraph_count"; "section_count";
     "reference_count"; "summary_redacted"; "compiled"; "document_kind"; "template";
     "package_byte_count"; "package_part_count"; "parsed_part_count"; "skipped_part_count";
     "total_uncompressed_bytes"; "paragraph_count"; "heading_count"; "table_count"; "sheet_count";
     "row_count_summary"; "column_count_summary"; "formulas_evaluated"; "formula_count";
     "macro_script_ignored"; "style_count"; "title_summary"].

Definition _document_section_node_metadata (metadata : pydict) : pydict :=
  select_metadata metadata
    ["format"; "pointer"; "heading_level"; "heading_summary"; "command"; "redacted"].

Definition _document_table_node_metadata (metadata : pydict) : pydict :=
  select_metadata metadata
    ["format"; "parser"; "pointer"; "row_count"; "column_count"; "header_present"; "delimiter";
     "display_name"; "formula_count"; "formulas_evaluated"; "redacted"].

Definition _document_sheet_node_metadata (metadata : pydict) : pydict :=
  select_metadata metadata
    ["format"; "parser"; "pointer"; "display_name"; "row_count"; "column_count"; "header_present";
     "formula_count"; "formulas_evaluated"; "redacted"].

Definition _document_column_node_metadata (metadata : pydict) : pydict :=
  select_metadata metadata
    ["format"; "pointer"; "column_index"; "column_name_summary"; "type_summary"; "non_empty_count";
     "redacted"; "redaction_reason"].

Definition _document_latex_command_node_metadata (metadata : pydict) : pydict :=
  select_metadata metadata ["format"; "pointer"; "command"; "argument_summary"; "redacted"].

Definition _document_define_edge_metadata (metadata : pydict) : pydict :=
  copy_bool
    (append_metadata_texts [] metadata
       [("format", "formats"); ("pointer", "pointers"); ("command", "commands");
        ("type_summary", "type_summaries"); ("document_kind", "document_kinds");
        ("source_part", "source_parts")])
    metadata "template" "template_observed".

Definition _document_reference_edge_metadata (metadata : pydict) : pydict :=
  let summary := append_metadata_texts [] metadata
    [("format", "formats"); ("reference_kind", "reference_kinds");
     ("raw_value_summary", "raw_value_summaries"); ("resolution_reason", "resolution_reasons");
     ("command", "commands")] in
  let summary := copy_bool summary metadata "redacted" "redacted_observed" in
  copy_bool summary metadata "not_fetched" "not_fetched".

Definition _document_file_node_key (o : RawObservation) : CM pystr :=
  match _metadata_text (obs_metadata o) "document_key" with
  | Some document_key => checked_key document_key ["document.file"] (lit "document_key must be document.file")
  | None => lift_key (document_file_key (PathStr (obs_path o)))
  end.

Definition document_node (key display : pystr) (metadata : pydict) (link : string) : node_arg :=
  NodeArg key (_node_kind_from_key key) (VStr display) metadata link.

(** The nodes and the edges of a definition. *)
Abbreviation document_chart := (list node_arg * list (pystr * pystr * pydict))%type.

(** [_metadata_text(metadata, "pointer") or observation.name], required. *)
Definition document_pointer (o : RawObservation) (refusal : pystr) : CM pystr :=
  match nonblank_text (text_or (_metadata_text (obs_metadata o) "pointer") (obs_name o)) with
  | None => key_error refusal
  | Some pointer => mret pointer
  end.

(** The parent of a column, checked. *)
Definition document_parent_key (o : RawObservation) : CM pystr :=
  let refusal := lit "document.table_column table_key must be document.table" in
  match _metadata_text (obs_metadata o) "parent_key" with
  | Some parent_key =>
      checked_key parent_key ["document.table"; "document.sheet"]
        (obs_kind o ++ lit " parent_key must be document.table or document.sheet")
  | None =>
      match _metadata_text (obs_metadata o) "table_key" with
      | Some table_key => checked_key table_key ["document.table"; "document.sheet"] refusal
      | None =>
          parent_key ← lift_key (document_table_key (PathStr (obs_path o)) (lit "/table"));
          checked_key parent_key ["document.table"; "document.sheet"] refusal
      end
  end.

(** A child of the document, after the raw target was looked at. *)
Definition document_child (o : RawObservation) (ordinal : Z) (base : document_chart)
    (parent_key child_key display : pystr) (metadata : pydict) : CM document_chart :=
  _ ← _append_raw_target_diagnostic o ordinal None;
  mret (base.1 ++ [document_node child_key display metadata "observed"],
        base.2 ++ [(parent_key, child_key, _document_define_edge_metadata (obs_metadata o))]).

Definition _document_definition (o : RawObservation) (ordinal : Z) : CM document_chart :=
  let path := PathStr (obs_path o) in
  let metadata := obs_metadata o in
  file_node_key ← own_file_key o;
  document_key ← _document_file_node_key o;
  let nodes := [document_node file_node_key (obs_path o) [] "inferred_from_edge";
                document_node document_key (obs_path o) (_document_file_node_metadata metadata) "observed"] in
  let edges := [(file_node_key, document_key, _document_define_edge_metadata metadata)] in
  if one_of (obs_kind o) ["document.text_document"; "document.latex_document"; "document.odf_document"] then
    _ ← _append_raw_target_diagnostic o ordinal None;
    mret (nodes, edges)
  else if one_of (obs_kind o) ["document.text_section"; "document.latex_section"; "document.odf_text"] then
    pointer ← document_pointer o (obs_kind o ++ lit " observation requires pointer");
    section_key ← lift_key (document_section_key path pointer);
    document_child o ordinal (nodes, edges) document_key section_key
      (default pointer (_metadata_text metadata "heading_summary")) (_document_section_node_metadata metadata)
  else if one_of (obs_kind o) ["document.table_document"; "document.odf_table"] then
    pointer ← document_pointer o (obs_kind o ++ lit " observation requires pointer");
    table_key ← lift_key (document_table_key path pointer);
    document_child o ordinal (nodes, edges) document_key table_key
      (default pointer (_metadata_text metadata "display_name")) (_document_table_node_metadata metadata)
  else if kind_is o "document.odf_sheet" then
    pointer ← document_pointer o (lit "document.odf_sheet observation requires pointer");
    sheet_key ← lift_key (document_sheet_key path pointer);
    document_child o ordinal (nodes, edges) document_key sheet_key
      (default pointer (_metadata_text metadata "display_name")) (_document_sheet_node_metadata metadata)
  else if one_of (obs_kind o) ["document.table_column"; "document.odf_column"] then
    pointer ← document_pointer o (obs_kind o ++ lit " observation requires pointer");
    parent_key ← document_parent_key o;
    column_key ← lift_key (document_column_key path pointer);
    document_child o ordinal
      (nodes ++ [document_node parent_key (_display_name_from_key parent_key) [] "inferred_from_edge"], edges)
      parent_key column_key
      (default pointer (_metadata_text metadata "column_name_summary")) (_document_column_node_metadata metadata)
  else if kind_is o "document.latex_command" then
    pointer ← document_pointer o (lit "document.latex_command observation requires pointer");
    command_key ← lift_key (document_latex_command_key path pointer);
    document_child o ordinal (nodes, edges) document_key command_key
      (default pointer (_metadata_text metadata "command")) (_document_latex_command_node_metadata metadata)
  else key_error (lit "unsupported document observation kind: " ++ obs_kind o).

Definition _document_reference_source_key (o : RawObservation) : CM pystr :=
  match _metadata_text (obs_metadata o) "source_key" with
  | None => lift_key (document_file_key (PathStr (obs_path o)))
  | Some source_key =>
      checked_key source_key
        ["document.file"; "document.section"; "document.table"; "document.sheet"; "document.column";
         "document.latex_command"]
        (lit "document.reference source_key must be a document key")
  end.

Definition _document_reference_target_key (o : RawObservation) (ordinal : Z) : CM pystr :=
  reference_target_key o ordinal "document.reference" (lit "document.reference observation requires target")
    (lit "raw target is not a valid canonical key: ") (obs_target o).

Definition _canonicalize_document_definition_observation (o : RawObservation) (ordinal : Z) : CM unit :=
  with_keys o ordinal "target" (obs_target o) (_document_definition o ordinal) (fun definition =>
    chart o (_evidence_from_observation o ordinal None) definition.1 "defines" definition.2).

Definition _canonicalize_document_reference_observation (o : RawObservation) (ordinal : Z) : CM unit :=
  with_keys o ordinal "target" (obs_target o)
    (source_key ← _document_reference_source_key o;
     target_key ← _document_reference_target_key o ordinal;
     mret (source_key, target_key))
    (fun '(source_key, target_key) =>
       relate o (_evidence_from_observation o ordinal None)
         (keyed_node source_key [] "inferred_from_edge")
         (keyed_node target_key [] "inferred_from_edge")
         "references" (_document_reference_edge_metadata (obs_metadata o))).

(** ** The handlers keep the invariant *)

Definition good_chart (c : document_chart) : Prop := Forall arg_ok c.1 /\ chart_closed c.1 c.2.

Lemma document_node_ok key display metadata link : parsed_key key -> arg_ok (document_node key display metadata link).
Proof. apply arg_ok_parsed. Qed.

Lemma document_pointer_quiet o n refusal :
  refusal <> [] -> quiet n (document_pointer o refusal) (fun _ => True) key_failure.
Proof. intros. unfold document_pointer. quiet_go. Qed.

Lemma document_parent_key_quiet o n : quiet n (document_parent_key o) parsed_key key_failure.
Proof. unfold document_parent_key. quiet_go. Qed.

Lemma document_file_node_key_quiet o n : quiet n (_document_file_node_key o) parsed_key key_failure.
Proof. unfold _document_file_node_key. quiet_go. Qed.

Lemma document_child_quiet o n base parent child display metadata :
  good_chart base -> parent ∈ na_key <$> base.1 -> parsed_key child ->
  quiet n (document_child o n base parent child display metadata) good_chart key_failure.
Proof.
  intros [Hn He] Hp Hc. unfold document_child. eapply quiet_bind; [quiet_leaf|]. intros _ _. apply quiet_ret.
  unfold good_chart, chart_closed. cbn [fst snd]. rewrite fmap_app. split.
  - apply Forall_app. split; [done|]. apply Forall_singleton. by apply document_node_ok.
  - apply Forall_app. split.
    + eapply Forall_impl; [exact He|]. cbn. intros e [? ?]. split; apply elem_of_app; by left.
    + apply Forall_singleton. cbn [fst snd]. split; apply elem_of_app; [by left|right].
      by apply list_elem_of_singleton.
Qed.

Lemma document_base_good fk dk path md em :
  parsed_key fk -> parsed_key dk ->
  good_chart ([document_node fk path [] "inferred_from_edge"; document_node dk path md "observed"],
              [(fk, dk, em)]).
Proof.
  intros Hf Hd. split; cbn [fst snd].
  - by repeat (apply Forall_cons; split; [by apply document_node_ok|]).
  - apply Forall_singleton. cbn. split; set_solver.
Qed.

Lemma good_chart_parent nodes edges pk :
  good_chart (nodes, edges) -> parsed_key pk ->
  good_chart (nodes ++ [document_node pk (_display_name_from_key pk) [] "inferred_from_edge"], edges).
Proof.
  intros [Hn He] Hp. split; cbn [fst snd] in *.
  - apply Forall_app. split; [done|]. apply Forall_singleton. by apply document_node_ok.
  - eapply Forall_impl; [exact He|]. cbn. rewrite fmap_app. intros e [? ?]. split; apply elem_of_app; by left.
Qed.

#[local] Hint Resolve document_parent_key_quiet document_file_node_key_quiet : canon.
#[local] Hint Extern 1 (quiet _ (document_pointer _ _) _ _) => apply document_pointer_quiet; nonempty : canon.

Lemma document_definition_quiet o n : quiet n (_document_definition o n) good_chart key_failure.
Proof.
  unfold _document_definition. eapply quiet_bind; [quiet_go|]. intros fk Hf.
  eapply quiet_bind; [quiet_go|]. intros dk Hd. cbv zeta.
  pose proof (document_base_good fk dk (obs_path o) (_document_file_node_metadata (obs_metadata o))
    (_document_define_edge_metadata (obs_metadata o)) (key_in_parsed _ _ Hf) Hd) as Hbase.
  assert (Hdk : dk ∈ na_key <$> [document_node fk (obs_path o) [] "inferred_from_edge";
    document_node dk (obs_path o) (_document_file_node_metadata (obs_metadata o)) "observed"]) by set_solver.
  repeat match goal with |- quiet _ (if ?b then _ else _) _ _ => destruct b end.
  all: try (apply quiet_key_error; nonempty).
  all: eapply quiet_bind; [quiet_leaf|intros pointer _].
  all: try by apply quiet_ret.
  all: eapply quiet_bind; [quiet_leaf|intros key Hk]; try (apply document_child_quiet; eauto with canon).
  eapply quiet_bind; [quiet_leaf|intros column Hcol]. apply document_child_quiet; [| |eauto with canon].
  - by apply good_chart_parent.
  - cbn [fst]. rewrite fmap_app. apply elem_of_app. right. by apply list_elem_of_singleton.
Qed.

Lemma document_reference_source_quiet o n : quiet n (_document_reference_source_key o) parsed_key key_failure.
Proof. unfold _document_reference_source_key. quiet_go. Qed.

Lemma document_reference_target_quiet o n : quiet n (_document_reference_target_key o n) parsed_key key_failure.
Proof. unfold _document_reference_target_key. quiet_go. Qed.

#[local] Hint Resolve document_definition_quiet document_reference_source_quiet
  document_reference_target_quiet : canon.

Lemma document_definition_recorded o n :
  typed_observation o -> recorded o n unicode_failure (_canonicalize_document_definition_observation o n).
Proof.
  intros [Hv _ _]. eapply recorded_with_keys; [done|eauto with canon|]. intros c [Hn He].
  apply recorded_chart; eauto with canon.
Qed.

Lemma document_reference_recorded o n :
  typed_observation o -> recorded o n unicode_failure (_canonicalize_document_reference_observation o n).
Proof. relation_handler. Qed.

End Document.
