(* ===== verification/CanonShell.v ===== *)
(** What the shell families share ([_shell_edge_helpers.py],
    [_shell_observation_helpers.py], [shell_shared_helpers.py]) and the generic
    shell observations ([shell_legacy_family.py], [_shell_env_family.py]).

    A name that is not a [str] is refused as a segment of a key exactly like an
    empty one, so names are passed to the builders by their text. *)
From S2P Require Import Prelude Utf8 PyVal Json PyRepr PyDictFacts GraphKeys GraphKeysFacts KeyBuilders.
From S2P Require Import Observations ObservationsFacts CanonCore CanonState CanonInvariant CanonLogic.
From S2P Require Import CanonShared.
Open Scope Z_scope.

(** ** Metadata *)

Definition set_bool (d : pydict) (key : string) (b : bool) : pydict := dict_set (lit key) (VBool b) d.
Definition set_str (d : pydict) (key value : string) : pydict := dict_set (lit key) (VStr (lit value)) d.
(** [d[key] = [value]] *)
Definition set_one (d : pydict) (key : string) (v : pyval) : pydict := dict_set (lit key) (VList [v]) d.
(** [d.update(e)] *)
Definition dict_update (d e : pydict) : pydict := foldl (fun d kv => dict_set kv.1 kv.2 d) d e.

(** Several flags, as in a literal dict. *)
Definition flags (l : list (string * bool)) : pydict := (fun kb => (lit kb.1, VBool kb.2)) <$> l.

Definition copy_bools (summary metadata : pydict) (names : list (string * string)) : pydict :=
  foldl (fun summary nm => copy_bool summary metadata nm.1 nm.2) summary names.
Definition list_ints (summary metadata : pydict) (names : list (string * string)) : pydict :=
  foldl (fun summary nm => list_int summary metadata nm.1 nm.2) summary names.

(** [if key in metadata: summary[key] = metadata[key]] *)
Definition copy_present (summary metadata : pydict) (keys : list string) : pydict :=
  foldl (fun summary key =>
           match dict_get (lit key) metadata with
           | Some v => dict_set (lit key) v summary
           | None => summary
           end) summary keys.

(** [isinstance(value, Sequence) and not isinstance(value, (str, bytes))] *)
Definition seq_items (v : pyval) : option (list pyval) :=
  match v with VList l | VTuple l => Some l | _ => None end.

(** [summary[key] = list(value)] of a sequence *)
Definition copy_sequence (summary metadata : pydict) (source_key summary_key : string) : pydict :=
  match seq_items (meta_get metadata source_key) with
  | Some l => dict_set (lit summary_key) (VList l) summary
  | None => summary
  end.

(** [metadata.get(key) == "..."] *)
Definition meta_is (metadata : pydict) (key value : string) : bool :=
  bool_decide (meta_get metadata key = VStr (lit value)).

(** [value == "..."], [value in ("...", ...)] by equality *)
Definition val_is (v : pyval) (s : string) : bool := bool_decide (v = VStr (lit s)).

(** [value in {"...", ...}]: an unhashable value raises. *)
Definition val_in_set (v : pyval) (l : list string) : CM bool :=
  match v with
  | VStr s => mret (one_of s l)
  | _ => if hashable v then mret false else craise CTypeError
  end.

(** [value.startswith(prefix)]: only a [str] has it. *)
Definition val_startswith (v : pyval) (prefix : string) : CM bool :=
  match v with
  | VStr s => mret (startswith (lit prefix) s)
  | _ => craise CAttributeError
  end.

Definition kind_starts (o : RawObservation) (prefix : string) : bool := startswith (lit prefix) (obs_kind o).

(** [bool(_metadata_text(metadata, "shebang"))] *)
Definition shebang_present (metadata : pydict) : bool := bool_decide (is_Some (_metadata_text metadata "shebang")).

(** [summary[key] = len(value)] of a sequence *)
Definition set_count (summary metadata : pydict) (source_key summary_key : string) : pydict :=
  match seq_items (meta_get metadata source_key) with
  | Some l => dict_set (lit summary_key) (VInt (Z.of_nat (length l))) summary
  | None => summary
  end.

(** ** [_shell_observation_helpers.py] *)

Definition _filtered_evidence_metadata (metadata : pydict) (omit_keys : list string) : pydict :=
  filter (fun kv : pystr * pyval => one_of kv.1 omit_keys = false) metadata.

Section Shell.
Context {U : Unicode}.

Definition _shell_evidence (o : RawObservation) (ordinal : Z) (omit_keys : list string) : CanonicalEvidence :=
  _evidence_from_observation o ordinal (Some (_filtered_evidence_metadata (obs_metadata o) omit_keys)).

(** The keys of a shell handler; a [GraphKeyError] is reported on the path. *)
Definition shell_keys {A} (o : RawObservation) (ordinal : Z) (keys : CM A) (body : A -> CM unit) : CM unit :=
  with_keys o ordinal "path" (VStr (obs_path o)) keys body.

(** ** [_shell_edge_helpers.py] *)

(** A node of a two-node edge. *)
Definition edge_node (key : pystr) (kind : string) (display : pyval) (metadata : pydict) : node_arg :=
  NodeArg key (lit kind) display metadata "inferred_from_edge".

(** The file of the observation, as the source of an edge. *)
Definition file_node (o : RawObservation) (source_key : pystr) : node_arg :=
  edge_node source_key "file" (VStr (obs_path o)) [].

Definition _append_two_node_edge (o : RawObservation) (evidence_record : CanonicalEvidence)
    (source target : node_arg) (edge_kind : string) (edge_metadata : pydict) : CM unit :=
  relate o evidence_record source target edge_kind edge_metadata.

(** ** [posixpath] and [shell_shared_helpers.py] *)

(** [text.rstrip("/")] *)
Fixpoint drop_slashes (s : pystr) : pystr :=
  match s with c :: rest => if c =? SLASH then drop_slashes rest else s | [] => [] end.
Definition rstrip_slashes (s : pystr) : pystr := reverse (drop_slashes (reverse s)).

(** The text up to and with the last slash. *)
Fixpoint after_slash (s : pystr) : pystr :=
  match s with c :: rest => if c =? SLASH then s else after_slash rest | [] => [] end.
Definition dirname (p : pystr) : pystr :=
  let head := reverse (after_slash (reverse p)) in
  match rstrip_slashes head with [] => head | h => h end.

Definition path_join (a b : pystr) : pystr :=
  if startswith [SLASH] b then b
  else if bool_decide (a = []) || bool_decide (last a = Some SLASH) then a ++ b
  else a ++ [SLASH] ++ b.

Definition DOT : pystr := lit ".".
Definition DOTDOT : pystr := lit "..".

(** The loop of [normpath]; the components are kept in reverse. *)
Fixpoint normpath_loop (rooted : bool) (comps new_comps : list pystr) : list pystr :=
  match comps with
  | [] => reverse new_comps
  | comp :: rest =>
      if bool_decide (comp = []) || bool_decide (comp = DOT) then normpath_loop rooted rest new_comps
      else if negb (bool_decide (comp = DOTDOT))
              || (negb rooted && bool_decide (new_comps = []))
              || bool_decide (head new_comps = Some DOTDOT)
      then normpath_loop rooted rest (comp :: new_comps)
      else normpath_loop rooted rest (tail new_comps)
  end.

Definition normpath (path : pystr) : pystr :=
  let initial_slashes : nat :=
    if startswith (lit "//") path && negb (startswith (lit "///") path) then 2%nat
    else if startswith [SLASH] path then 1%nat else 0%nat in
  let comps := normpath_loop (negb (Nat.eqb initial_slashes 0)) (str_split SLASH path) [] in
  match repeat SLASH initial_slashes ++ str_join SLASH comps with
  | [] => DOT
  | p => p
  end.

(** Starts with one of several texts. *)
Definition starts_with_any (s : pystr) (l : list string) : bool := existsb (fun p => startswith (lit p) s) l.

Definition _safe_relative_shell_target (source_path target : pystr) : option pystr :=
  if starts_with_any target ["/"; "~"] || char_in 36 target || char_in 96 target
     || startswith (lit "[") target then None
  else
    let resolved := normpath (path_join (dirname source_path) target) in
    if bool_decide (resolved = DOT) || startswith (lit "../") resolved then None
    else Some resolved.

(** [observation.start_line or 0], as a segment of a key *)
Definition start_line_arg (o : RawObservation) : int_or_str := ArgStr (line_text (obs_start_line o)).

Definition target_is_static (o : RawObservation) : bool :=
  text_is (_metadata_text (obs_metadata o) "target_kind") "static".

(** The file a static target names, relative to the observation's path;
    [file_key] is outside any [try] here. *)
Definition static_file_target (o : RawObservation) : CM (option pystr) :=
  if negb (target_is_static o) then mret None
  else
    match _metadata_text (obs_metadata o) "target_display" with
    | None => mret None
    | Some target_display =>
        match _safe_relative_shell_target (obs_path o) target_display with
        | None => mret None
        | Some resolved_path =>
            key ← lift_key (file_key (PathStr resolved_path));
            mret (Some key)
        end
    end.

(** [observation.target is not None and observation.target.startswith(prefix)] *)
Definition target_starts (o : RawObservation) (prefix : string) : CM bool :=
  if is_none (obs_target o) then mret false else val_startswith (obs_target o) prefix.

(** [text.replace("_", "-")] *)
Definition underscores_to_dashes (s : pystr) : pystr := (fun c => if c =? 95 then 45 else c) <$> s.

(** The name of a command: one of several metadata texts, the name, or the first
    segment of a [tool:] target that [accept]s. *)
Definition command_name_of (o : RawObservation) (keys : list string) (accept : ParsedGraphKey -> bool) : CM pyval :=
  match first_text (obs_metadata o) keys with
  | Some value => mret (VStr value)
  | None =>
      if truthy (obs_name o) then mret (obs_name o)
      else if truthy (obs_target o) then
        is_tool ← val_startswith (obs_target o) "tool:";
        if (is_tool : bool) then
          r ← try_key (parse_value (obs_target o));
          match r with
          | inl parsed =>
              mret (if accept parsed then match segments parsed with s :: _ => VStr s | [] => VNone end else VNone)
          | inr _ => mret VNone
          end
        else mret VNone
      else mret VNone
  end.

(** The file a [file:] target or the resolved path names; [parse_key] and
    [file_key] are outside any [try]. *)
Definition named_file_target (o : RawObservation) : CM (option pystr) :=
  is_file ← target_starts o "file:";
  if (is_file : bool) then
    _ ← parse_value (obs_target o);
    mret (Some (val_text (obs_target o)))
  else
    match _metadata_text (obs_metadata o) "resolved_path" with
    | Some resolved_path =>
        key ← lift_key (file_key (PathStr resolved_path));
        mret (Some key)
    | None => mret None
    end.

(** ** [shell_legacy_family.py] *)

Definition HOST_MUTATION_CATEGORIES : list string :=
  ["package-management"; "service-management"; "system-activation"; "filesystem-mutation"].

Definition _shell_command_name (metadata : pydict) : option pystr :=
  match _metadata_text metadata "command" with
  | Some command => Some command
  | None =>
      match seq_items (meta_get metadata "argv") with
      | Some (first :: _) => nonblank_text first
      | _ => None
      end
  end.

(** The reason, and the field and value it was found in. *)
Definition _shell_command_dynamic_reason (o : RawObservation) : CM (option (pystr * string * pyval)) :=
  match _metadata_text (obs_metadata o) "dynamic_reason" with
  | Some dynamic_reason => mret (Some (dynamic_reason, "metadata.dynamic_reason"%string, VStr dynamic_reason))
  | None =>
      if is_none (obs_target o) then mret None
      else
        r ← try_key (parse_value (obs_target o));
        match r with
        | inr _ => mret None
        | inl parsed_target =>
            match segments parsed_target with
            | [s0; s1] =>
                if bool_decide (namespace parsed_target = lit "dynamic") && bool_decide (s0 = lit "tool")
                   && negb (bool_decide (strip s1 = []))
                then mret (Some (s1, "target"%string, obs_target o))
                else mret None
            | _ => mret None
            end
        end
  end.

(** [{"argv_examples": [list(argv)]}] *)
Definition sequence_example (summary metadata : pydict) (source_key summary_key : string) : pydict :=
  match seq_items (meta_get metadata source_key) with
  | Some l => dict_set (lit summary_key) (VList [VList l]) summary
  | None => summary
  end.

Definition _shell_command_edge_metadata (metadata : pydict) (command dynamic_reason : option pystr) : pydict :=
  let summary := match command with Some c => [(lit "commands", VList [VStr c])] | None => [] end in
  let summary := match dynamic_reason with
                 | Some r => set_one summary "dynamic_reasons" (VStr r)
                 | None => summary
                 end in
  sequence_example summary metadata "argv" "argv_examples".

(** The target of a command: key, display name and edge metadata. *)
Definition _shell_command_target (o : RawObservation) (ordinal : Z) : CM (pystr * pystr * pydict) :=
  let metadata := obs_metadata o in
  match _shell_command_name metadata with
  | Some command =>
      key ← lift_key (tool_key command);
      mret (key, command, _shell_command_edge_metadata metadata (Some command) None)
  | None =>
      dynamic ← _shell_command_dynamic_reason o;
      match dynamic with
      | Some (dynamic_reason, dynamic_field, dynamic_value) =>
          placeholder_key ← lift_key (dynamic_key (lit "tool") dynamic_reason);
          _ ← diagnose o ordinal "info" "dynamic_target"
                (lit "dynamic shell command represented by placeholder") dynamic_field dynamic_value
                (Some placeholder_key);
          mret (placeholder_key, dynamic_reason,
                _shell_command_edge_metadata metadata None (Some dynamic_reason))
      | None =>
          placeholder_key ← lift_key (unknown_key (lit "tool") (lit "missing-command"));
          _ ← diagnose o ordinal "warning" "missing_required_metadata"
                (lit "shell.command is missing metadata.command or metadata.argv[0]") "metadata.command" VNone
                (Some placeholder_key);
          mret (placeholder_key, lit "missing-command", [])
      end
  end.

Definition _canonicalize_shell_command_observation (o : RawObservation) (ordinal : Z) : CM unit :=
  shell_keys o ordinal (own_file_key o) (fun source_key =>
    '(target_key, target_display_name, edge_metadata) ← _shell_command_target o ordinal;
    _ ← _append_raw_target_diagnostic o ordinal
          (if startswith (lit "tool:") target_key then None else Some target_key);
    relate o (_evidence_from_observation o ordinal None)
      (edge_node source_key "file" (VStr (obs_path o)) [])
      (NodeArg target_key (_node_kind_from_key target_key) (VStr target_display_name) [] "inferred_from_edge")
      "executes" edge_metadata).

Definition shell_source_resolved (o : RawObservation) (ordinal : Z) (resolved_path : pystr) : CM pystr :=
  r ← try_key (lift_key (file_key (PathStr resolved_path)));
  match r with
  | inl key => mret key
  | inr error =>
      placeholder_key ← lift_key (unknown_key (lit "file") (lit "repo-escaping-source"));
      _ ← diagnose_key_error o ordinal "warning" error error "metadata.resolved_path" (VStr resolved_path)
            (Some placeholder_key);
      mret placeholder_key
  end.

Definition _shell_source_target_key (o : RawObservation) (ordinal : Z) : CM pystr :=
  match _metadata_text (obs_metadata o) "resolved_path" with
  | Some resolved_path => shell_source_resolved o ordinal resolved_path
  | None =>
      match _metadata_text (obs_metadata o) "dynamic_reason" with
      | Some dynamic_reason =>
          placeholder_key ← lift_key (dynamic_key (lit "file") dynamic_reason);
          _ ← diagnose o ordinal "info" "dynamic_target"
                (lit "dynamic shell source represented by placeholder") "metadata.dynamic_reason"
                (VStr dynamic_reason) (Some placeholder_key);
          mret placeholder_key
      | None =>
          placeholder_key ← lift_key (unknown_key (lit "file") (lit "unresolved-shell-source"));
          reported ← _append_raw_target_diagnostic o ordinal (Some placeholder_key);
          if (reported : bool) then mret placeholder_key
          else
            _ ← diagnose o ordinal "warning" "unknown_target" (lit "shell source target could not be resolved")
                  "target" (obs_target o) (Some placeholder_key);
            mret placeholder_key
      end
  end.

(** [value = metadata.get(key)] listed when it is a text that is not empty. *)
Definition list_plain_text (summary metadata : pydict) (source_key summary_key : string) : pydict :=
  match plain_text (meta_get metadata source_key) with
  | Some value => set_one summary summary_key (VStr value)
  | None => summary
  end.

Definition _shell_source_edge_metadata (metadata : pydict) : pydict :=
  list_plain_text (list_plain_text [] metadata "source" "sources") metadata "resolved_path" "resolved_paths".

Definition _canonicalize_shell_source_observation (o : RawObservation) (ordinal : Z) : CM unit :=
  shell_keys o ordinal (own_file_key o) (fun source_key =>
    target_key ← _shell_source_target_key o ordinal;
    relate o (_evidence_from_observation o ordinal None)
      (edge_node source_key "file" (VStr (obs_path o)) [])
      (keyed_node target_key [] "inferred_from_edge")
      "sources" (_shell_source_edge_metadata (obs_metadata o))).

Definition _shell_host_mutation_target_key (o : RawObservation) (ordinal : Z) : CM pystr :=
  match _metadata_text (obs_metadata o) "category" with
  | None =>
      placeholder_key ← lift_key (unknown_key (lit "host.category") (lit "missing-host-category"));
      _ ← diagnose o ordinal "warning" "missing_required_metadata"
            (lit "shell.host_mutation observation requires category metadata") "metadata.category"
            (meta_get (obs_metadata o) "category") (Some placeholder_key);
      mret placeholder_key
  | Some category =>
      if negb (one_of category HOST_MUTATION_CATEGORIES) then
        placeholder_key ← lift_key (unknown_key (lit "host.category") (lit "unregistered-" ++ category));
        _ ← diagnose o ordinal "warning" "unregistered_category"
              (lit "unregistered shell host mutation category: " ++ category) "metadata.category"
              (VStr category) (Some placeholder_key);
        mret placeholder_key
      else lift_key (host_category_key category)
  end.

Definition _shell_host_mutation_edge_metadata (metadata : pydict) : pydict :=
  let summary := list_plain_text [] metadata "tool" "tools" in
  let summary := sequence_example summary metadata "argv" "argv_examples" in
  let summary := sequence_example summary metadata "effective_argv" "effective_argv_examples" in
  let summary := copy_bool summary metadata "privileged" "privileged_observed" in
  list_plain_text summary metadata "reason" "reasons".

Definition _canonicalize_shell_host_mutation_observation (o : RawObservation) (ordinal : Z) : CM unit :=
  shell_keys o ordinal (own_file_key o) (fun source_key =>
    target_key ← _shell_host_mutation_target_key o ordinal;
    relate o (_evidence_from_observation o ordinal None)
      (edge_node source_key "file" (VStr (obs_path o)) [])
      (keyed_node target_key [] "inferred_from_edge")
      "mutates_host" (_shell_host_mutation_edge_metadata (obs_metadata o))).

(** ** [_shell_env_family.py] *)

Definition SECRET_PRONE_ENV_MARKERS : list string :=
  ["SECRET"; "TOKEN"; "PASSWORD"; "PASS"; "KEY"; "CREDENTIAL"; "AUTH"].

Definition _is_secret_prone_env_variable (variable : pystr) : bool :=
  let upper_variable := variable ≫= upper_char in
  existsb (fun marker => contains (lit marker) upper_variable) SECRET_PRONE_ENV_MARKERS.

Definition _shell_env_variable (metadata : pydict) : option pystr := _metadata_text metadata "variable".

Definition _shell_env_target_key (o : RawObservation) (ordinal : Z) : CM pystr :=
  match _shell_env_variable (obs_metadata o) with
  | Some variable => lift_key (env_key variable)
  | None =>
      match _metadata_text (obs_metadata o) "dynamic_reason" with
      | Some dynamic_reason =>
          placeholder_key ← lift_key (dynamic_key (lit "env") dynamic_reason);
          _ ← diagnose o ordinal "info" "dynamic_target"
                (lit "dynamic shell environment variable represented by placeholder")
                "metadata.dynamic_reason" (VStr dynamic_reason) (Some placeholder_key);
          mret placeholder_key
      | None =>
          placeholder_key ← lift_key (unknown_key (lit "env") (lit "missing-variable"));
          _ ← diagnose o ordinal "warning" "missing_required_metadata"
                (lit "shell.env observation requires variable metadata") "metadata.variable" VNone
                (Some placeholder_key);
          mret placeholder_key
      end
  end.

Definition _shell_env_edge_metadata (metadata : pydict) (operation : pyval) (secret_redacted : bool) : pydict :=
  let summary := [(lit "operations", VList [operation])] in
  if val_is operation "write" then
    let summary := list_plain_text summary metadata "scope" "scopes" in
    if secret_redacted then set_bool summary "value_redacted" true
    else match dict_get (lit "value") metadata with
         | Some value => set_one summary "values" value
         | None => summary
         end
  else summary.

(** [dict.pop(key, None)] *)
Definition dict_pop (k : pystr) (d : pydict) : pydict := filter (fun kv : pystr * pyval => kv.1 <> k) d.

Definition _shell_env_evidence_metadata (metadata : pydict) (secret_redacted : bool) : pydict :=
  if secret_redacted then
    set_bool (set_bool (dict_pop (lit "value") metadata) "value_present" true) "value_redacted" true
  else metadata.

(** [secret_redacted]: a write of a value to a secret-prone variable. *)
Definition env_secret_redacted (metadata : pydict) (operation : pyval) : bool :=
  val_is operation "write" &&
  match _shell_env_variable metadata with
  | Some variable => _is_secret_prone_env_variable variable
  | None => false
  end &&
  bool_decide (is_Some (dict_get (lit "value") metadata)).

Definition _canonicalize_shell_env_observation (o : RawObservation) (ordinal : Z) : CM unit :=
  shell_keys o ordinal (own_file_key o) (fun source_key =>
    let operation := meta_get (obs_metadata o) "operation" in
    if is_none operation then
      diagnose o ordinal "warning" "missing_required_metadata"
        (lit "shell.env observation requires operation metadata") "metadata.operation" operation None
    else if negb (val_is operation "read" || val_is operation "write") then
      diagnose o ordinal "warning" "unsupported_operation"
        (lit "unsupported shell.env operation: " ++ str_of_val operation) "metadata.operation" operation None
    else
      target_key ← _shell_env_target_key o ordinal;
      let secret_redacted := env_secret_redacted (obs_metadata o) operation in
      _ ← (if secret_redacted then
             diagnose o ordinal "info" "secret_prone_value"
               (lit "secret-prone environment value redacted from canonical metadata") "metadata.value"
               (VStr (lit "[redacted]")) None
           else mret tt);
      relate o
        (_evidence_from_observation o ordinal
           (Some (_shell_env_evidence_metadata (obs_metadata o) secret_redacted)))
        (edge_node source_key "file" (VStr (obs_path o)) [])
        (keyed_node target_key [] "inferred_from_edge")
        (if val_is operation "read" then "reads_env" else "writes_env")
        (_shell_env_edge_metadata (obs_metadata o) operation secret_redacted)).

(** ** The handlers keep the invariant *)

Lemma edge_node_ok key kind display metadata : key_in kind key -> arg_ok (edge_node key kind display metadata).
Proof. apply arg_ok_kind. Qed.

Lemma shell_command_name_nonempty md c : _shell_command_name md = Some c -> c <> [].
Proof.
  unfold _shell_command_name. destruct (_metadata_text md "command") eqn:E.
  - intros [= <-]. eauto with canon.
  - destruct (seq_items _) as [[|v l]|]; try done. intros [_ H]%nonblank_text_Some. by apply nonblank_nonempty.
Qed.

Lemma strip_nonempty s : strip s <> [] -> s <> [].
Proof. by intros H ->. Qed.

Lemma shell_dynamic_reason_quiet o n :
  quiet n (_shell_command_dynamic_reason o) (fun r => forall x, r = Some x -> x.1.1 <> []) unicode_failure.
Proof.
  unfold _shell_command_dynamic_reason. destruct (_metadata_text (obs_metadata o) "dynamic_reason") eqn:E.
  { apply quiet_ret. intros x [= <-]. cbn. eauto with canon. }
  destruct (is_none _); [by apply quiet_ret|].
  eapply quiet_bind; [apply quiet_try; [done|apply quiet_parse_value]|].
  intros [p|]; [intros _|intros _; by apply quiet_ret].
  destruct (segments p) as [|s0 [|s1 [|]]]; try by apply quiet_ret.
  destruct (_ && _ && _) eqn:Hb; [|by apply quiet_ret]. apply quiet_ret. intros x [= <-]. cbn.
  apply andb_true_iff in Hb as [_ Hb%negb_true_iff%bool_decide_eq_false]. by apply strip_nonempty.
Qed.

End Shell.

#[export] Hint Resolve edge_node_ok shell_command_name_nonempty : canon.

(** A key that is built outside any [try]. *)
Ltac built_outside := apply plain_key_quiet; [reflexivity|repeat constructor; nonempty|allowed].

Section ShellFacts.
Context {U : Unicode}.

Lemma shell_command_target_quiet o n :
  quiet n (_shell_command_target o n) (fun r => parsed_key r.1.1) unicode_failure.
Proof.
  unfold _shell_command_target. cbv zeta. destruct (_shell_command_name (obs_metadata o)) as [c|] eqn:E.
  { eapply quiet_bind; [unfold tool_key; built_outside|]. intros k Hk. apply quiet_ret. cbn. eauto with canon. }
  eapply quiet_bind; [apply shell_dynamic_reason_quiet|]. intros [[[reason field] value]|] Hr; [|quiet_go].
  pose proof (Hr _ eq_refl) as Hne. cbn in Hne. quiet_go.
Qed.

Lemma shell_source_target_quiet o n : quiet n (_shell_source_target_key o n) parsed_key unicode_failure.
Proof. unfold _shell_source_target_key, shell_source_resolved. quiet_go. Qed.

Lemma shell_host_mutation_target_quiet o n :
  quiet n (_shell_host_mutation_target_key o n) parsed_key unicode_failure.
Proof.
  unfold _shell_host_mutation_target_key. destruct (_metadata_text (obs_metadata o) "category") eqn:E.
  - destruct (negb _); [quiet_go|]. eapply quiet_weaken; [unfold host_category_key; built_outside| |done].
    eauto with canon.
  - quiet_go.
Qed.

Lemma shell_env_target_quiet o n : quiet n (_shell_env_target_key o n) parsed_key unicode_failure.
Proof.
  unfold _shell_env_target_key. destruct (_shell_env_variable (obs_metadata o)) eqn:E.
  - unfold _shell_env_variable in E. eapply quiet_weaken; [unfold env_key; built_outside| |done]. eauto with canon.
  - quiet_go.
Qed.

Lemma shell_command_recorded o n :
  typed_observation o -> recorded o n unicode_failure (_canonicalize_shell_command_observation o n).
Proof.
  intros [Hv _ _]. eapply recorded_with_keys; [done|apply own_file_key_quiet|]. intros sk Hs.
  eapply recorded_quiet_bind; [apply shell_command_target_quiet|]. intros [[tk dn] em] Ht. cbn in Ht.
  eapply recorded_quiet_bind; [by apply quiet_append_raw_target_diagnostic|]. intros _ _. relates.
Qed.

Lemma shell_source_recorded o n :
  typed_observation o -> recorded o n unicode_failure (_canonicalize_shell_source_observation o n).
Proof.
  intros [Hv _ _]. eapply recorded_with_keys; [done|apply own_file_key_quiet|]. intros sk Hs.
  eapply recorded_quiet_bind; [apply shell_source_target_quiet|]. intros tk Ht. relates.
Qed.

Lemma shell_host_mutation_recorded o n :
  typed_observation o -> recorded o n unicode_failure (_canonicalize_shell_host_mutation_observation o n).
Proof.
  intros [Hv _ _]. eapply recorded_with_keys; [done|apply own_file_key_quiet|]. intros sk Hs.
  eapply recorded_quiet_bind; [apply shell_host_mutation_target_quiet|]. intros tk Ht. relates.
Qed.

Lemma shell_env_recorded o n :
  typed_observation o -> recorded o n unicode_failure (_canonicalize_shell_env_observation o n).
Proof.
  intros [Hv _ _]. eapply recorded_with_keys; [done|apply own_file_key_quiet|]. intros sk Hs. cbv zeta.
  destruct (is_none _); [by apply recorded_diagnose|].
  destruct (negb _); [by apply recorded_diagnose; [|apply str_nonempty_app_l]|].
  eapply recorded_quiet_bind; [apply shell_env_target_quiet|]. intros tk Ht.
  eapply (recorded_quiet_bind _ _ _ _ _ _ (fun _ => True)).
  { destruct (env_secret_redacted _ _); [by apply quiet_diagnose|by apply quiet_ret]. }
  intros _ _. destruct (val_is _ "read"); relates.
Qed.

Lemma static_file_target_quiet o n :
  quiet n (static_file_target o) (fun r => forall k, r = Some k -> key_in "file" k) key_failure.
Proof.
  unfold static_file_target. destruct (negb _); [by apply quiet_ret|].
  destruct (_metadata_text _ _); [|by apply quiet_ret]. destruct (_safe_relative_shell_target _ _); [|by apply quiet_ret].
  eapply quiet_bind; [eapply quiet_built_key; apply file_key_builds|]. intros k Hk. apply quiet_ret.
  by intros ? [= <-].
Qed.

Lemma target_starts_quiet o n prefix X :
  typed_observation o -> quiet n (target_starts o prefix) (fun _ => True) X.
Proof.
  intros [_ _ Ht]. unfold target_starts. destruct (obs_target o); try done; by apply quiet_ret.
Qed.

(** A target that starts with [file:] and parses is a file. *)
Lemma starts_file_key k p :
  startswith (lit "file:") k = true -> parse_key (PyStr k) = Ok p -> key_in "file" k.
Proof.
  intros (r & ->)%startswith_spec Hp. exists p. split; [exact Hp|].
  change (lit "file:" ++ r) with (lit "file" ++ COLON :: r) in Hp. unfold parse_key in Hp.
  destruct (lit "file" ++ COLON :: r) as [|c0 k0] eqn:Ek; [done|].
  rewrite <- Ek in Hp. rewrite str_partition_app in Hp by (by decide_closed). cbn [negb] in Hp.
  rewrite bool_decide_true in Hp by done. destruct (_parse_file_segments r); [|done]. by injection Hp as <-.
Qed.

Definition file_target_known (o : RawObservation) (b : bool) : Prop :=
  b = true -> forall n, quiet n (own_target_key o) (key_in "file") key_failure.

Lemma target_starts_file_quiet o n X :
  typed_observation o -> quiet n (target_starts o "file:") (file_target_known o) X.
Proof.
  intros [_ _ Ht]. unfold target_starts. destruct (obs_target o) as [| | | |t| | |] eqn:Et; try done; apply quiet_ret; [done|].
  intros Hs n'. unfold own_target_key. rewrite Et. eapply quiet_bind; [apply quiet_parse_value|].
  intros p (k & [= <-] & Hp). apply quiet_ret. by eapply starts_file_key.
Qed.

Lemma file_node_ok o sk : key_in "file" sk -> arg_ok (file_node o sk).
Proof. apply edge_node_ok. Qed.

Lemma command_name_of_quiet o n keys accept :
  typed_observation o -> quiet n (command_name_of o keys accept) (fun _ => True) unicode_failure.
Proof.
  intros [_ _ Ht]. unfold command_name_of. destruct (first_text _ _); [by apply quiet_ret|].
  destruct (truthy (obs_name o)); [by apply quiet_ret|].
  destruct (obs_target o) as [| | | |t| | |]; try done; [by apply quiet_ret|].
  destruct (truthy (VStr t)); [|by apply quiet_ret]. cbn [val_startswith].
  eapply quiet_bind; [by apply (quiet_ret _ _ (fun _ => True))|]. intros b _. destruct b; [|by apply quiet_ret].
  eapply quiet_bind; [apply quiet_try; [done|apply quiet_parse_value]|]. intros [] _; by apply quiet_ret.
Qed.

Lemma named_file_target_quiet o n :
  typed_observation o ->
  quiet n (named_file_target o) (fun r => forall k, r = Some k -> parsed_key k) key_failure.
Proof.
  intros Ho. unfold named_file_target.
  eapply quiet_bind; [by apply target_starts_quiet|]. intros [] _.
  - eapply quiet_bind; [apply quiet_parse_value|]. intros p (k & -> & Hp). apply quiet_ret. intros ? [= <-]. by exists p.
  - destruct (_metadata_text _ _); [|by apply quiet_ret].
    eapply quiet_bind; [eapply quiet_built_key; apply file_key_builds|]. intros k Hk. apply quiet_ret.
    intros ? [= <-]. eauto with canon.
Qed.

(** A value known to be a text or [None] is hashable. *)
Lemma val_in_set_quiet n v l X : text_or_none v = true -> quiet n (val_in_set v l) (fun _ => True) X.
Proof. by destruct v; try done; intros _; apply quiet_ret. Qed.

Lemma value_or_text o t : typed_observation o -> text_or_none (value_or (obs_name o) t) = true.
Proof. intros [_ Hn _]. unfold value_or. destruct (truthy (obs_name o)); [done|]. by destruct t. Qed.

End ShellFacts.

#[export] Hint Resolve file_node_ok : canon.

(** ** What may escape a handler *)

(** The kinds whose handlers call [parse_key] or [file_key] outside any [try]. *)
Definition UNGUARDED_KINDS : list string :=
  ["feed.author"; "feed.category"; "awk.file_read"; "awk.file_write"; "awk.include"; "shell.source";
   "shell.file_read"; "shell.file_write"; "shell.network_call"; "shell.package_manager"].

Definition unguarded (o : RawObservation) : bool := one_of (obs_kind o) UNGUARDED_KINDS.

(** The exceptions the handler of an observation may raise. *)
Definition escapes (o : RawObservation) (e : cexn) : Prop :=
  unicode_failure e \/ unguarded o = true /\ key_failure e.

Lemma escapes_unicode o e : unicode_failure e -> escapes o e.
Proof. by left. Qed.

Lemma one_of_sub s l m : forallb (fun t => existsb (String.eqb t) m) l = true -> one_of s l = true -> one_of s m = true.
Proof.
  unfold one_of. intros Hl (t & Ht & Hs)%existsb_exists.
  rewrite forallb_forall in Hl. specialize (Hl t Ht). apply existsb_exists in Hl as (t' & Ht' & ->%String.eqb_eq).
  apply existsb_exists. eauto.
Qed.

Lemma escapes_key o l e :
  one_of (obs_kind o) l = true -> forallb (fun t => existsb (String.eqb t) UNGUARDED_KINDS) l = true ->
  key_failure e -> escapes o e.
Proof. intros Ho Hl He. right. split; [|done]. by eapply one_of_sub. Qed.

Lemma kind_is_one_of o k : kind_is o k = true -> one_of (obs_kind o) [k] = true.
Proof. unfold kind_is, one_of. cbn. by intros ->. Qed.

(** A handler whose [try] covers every key it computes, and one whose does not. *)
Lemma recorded_guarded many {U : Unicode} o n m : recorded_as many o n unicode_failure m -> recorded_as many o n (escapes o) m.
Proof. apply recorded_allow, escapes_unicode. Qed.

Lemma recorded_unguarded {U : Unicode} many o n l m :
  one_of (obs_kind o) l = true -> forallb (fun t => existsb (String.eqb t) UNGUARDED_KINDS) l = true ->
  recorded_as many o n key_failure m -> recorded_as many o n (escapes o) m.
Proof. intros Ho Hl. apply recorded_allow. intros e. by apply (escapes_key o l). Qed.

(** A key that was computed before, parsed again. *)
Lemma quiet_then_parse {U : Unicode} n (m : CM pystr) P k :
  quiet n m P key_failure -> quiet n (a ← m; _ ← parse_text k; mret a) P key_failure.
Proof.
  intros Hm. eapply quiet_bind; [exact Hm|intros a Ha]. eapply quiet_bind; [apply quiet_parse_text|].
  intros _ _. by apply quiet_ret.
Qed.

(** A handler whose target was computed before its [try]. *)
Ltac shell_target_handler target_quiet :=
  let Ho := fresh "Ho" in intros Ho; pose proof (ty_valid _ Ho);
  eapply recorded_quiet_bind; [apply target_quiet; assumption|];
  let tk := fresh "tk" in let Ht := fresh in let sk := fresh "sk" in let Hs := fresh in
  intros [tk|] Ht; [|apply recorded_evidence]; specialize (Ht _ eq_refl);
  eapply recorded_with_keys; [allowed|apply quiet_then_parse; quiet_go|intros sk Hs];
  unfold _append_two_node_edge;
  repeat match goal with |- context [relate _ _ _ _ (if ?b then _ else _) _] => destruct b end; relates.

(** A handler that computes the two keys of a relation inside its [try]. *)
Ltac shell_relation :=
  eapply recorded_with_keys; [allowed|apply quiet_pair; quiet_go|];
  let sk := fresh "sk" in let tk := fresh "tk" in let Hs := fresh in let Ht := fresh in
  intros [sk tk] [Hs Ht];
  repeat match goal with p : _ * _ |- _ => destruct p end; cbn [fst snd] in *; open_keys;
  repeat match goal with |- context [relate _ _ _ _ (if ?b then _ else _) _] => destruct b end; relates.

(** A handler that first decides whether the observation is kept as evidence only. *)
Ltac shell_handler :=
  intros [Hv _ _]; cbv zeta;
  repeat match goal with
  | |- recorded_as _ _ _ _ (append_evidence _) => apply recorded_evidence
  | |- recorded_as _ _ _ _ (diagnose _ _ _ _ _ _ _ _) => apply recorded_diagnose; [reflexivity|nonempty]
  | |- recorded_as _ _ _ _ (if ?b then _ else _) => destruct b eqn:?
  | |- recorded_as _ _ _ _ (match ?x with _ => _ end) => destruct x eqn:?
  end;
  unfold _append_two_node_edge;
  try shell_relation.

(** A handler of a target that has to start with [file:]. *)
Ltac file_target_handler :=
  let Ho := fresh "Ho" in intros Ho; pose proof (ty_valid _ Ho);
  eapply recorded_quiet_bind; [by apply target_starts_file_quiet|];
  let is_file := fresh "is_file" in let Hf := fresh "Hf" in intros is_file Hf;
  match goal with |- recorded_as _ _ _ _ (if ?c then _ else _) => destruct c eqn:? end;
  [apply recorded_evidence|];
  assert (is_file = true) as -> by (destruct is_file; cbn [negb orb] in *; congruence);
  specialize (Hf eq_refl); revert Ho; shell_handler.

(** The branches of a family's dispatch, by the rules of its handlers in [handlers]. *)
Create HintDb handlers discriminated.
#[export] Hint Constants Opaque : handlers.

Ltac handled :=
  first [ solve [eauto with handlers]
        | apply recorded_guarded; solve [eauto with handlers]
        | eapply recorded_unguarded;
          [first [eassumption|apply kind_is_one_of; eassumption]|reflexivity|solve [eauto with handlers]]
        | apply recorded_evidence ].

Ltac dispatches :=
  repeat match goal with
  | |- (if ?b then _ else _) = Some _ -> _ => destruct b eqn:?
  | |- None = Some _ -> _ => done
  | |- Some _ = Some _ -> _ => intros [= <-]; first [handled | apply recorded_more; handled]
  end.
