(* ===== verification/CanonAwk.v ===== *)
(** AWK: [canonicalization/shell_awk_family.py]. *)
From S2P Require Import Prelude Utf8 PyVal Json PyRepr PyDictFacts GraphKeys GraphKeysFacts KeyBuilders.
From S2P Require Import Observations ObservationsFacts CanonCore CanonState CanonInvariant CanonLogic.
From S2P Require Import CanonShared CanonShell.
Open Scope Z_scope.

(** [evidence_helpers.py] and [dispatch_helpers.py] *)
Definition AWK_EVIDENCE_OMIT_KEYS : list string :=
  ["raw"; "value"; "values"; "source"; "source_text"; "raw_source"; "pattern_summary"; "value_summary";
   "target_display"; "command_summary"; "include_target"; "resolved_path"].

Definition AWK_RAW_ONLY_KINDS : list string :=
  ["awk.begin"; "awk.end"; "awk.pattern_action"; "awk.variable_assignment"; "awk.field_reference";
   "awk.record_reference"; "awk.dynamic_expression"; "awk.redirect"; "awk.secret_like"].

Section Awk.
Context {U : Unicode}.

Definition _is_awk_observation (o : RawObservation) : bool :=
  kind_starts o "awk." || meta_is (obs_metadata o) "language" "awk".

Definition _awk_evidence_from_observation (o : RawObservation) (ordinal : Z) : CanonicalEvidence :=
  _shell_evidence o ordinal AWK_EVIDENCE_OMIT_KEYS.

(** ** Metadata *)

Definition _awk_base_metadata (metadata : pydict) : pydict :=
  [(lit "language", VStr (lit "awk"));
   (lit "dialect", VStr (default (lit "awk") (_metadata_text metadata "dialect")));
   (lit "static_only", VBool true); (lit "awk_executed", VBool false); (lit "shell_executed", VBool false)].

Definition _awk_container_node_metadata (metadata : pydict) : pydict :=
  set_str (_awk_base_metadata metadata) "node_role" "program".

Definition _awk_program_node_metadata (metadata : pydict) : pydict :=
  set_bool (copy_present (_awk_container_node_metadata metadata) metadata
              ["file_type"; "classification_evidence"; "parser"])
    "shebang_present" (shebang_present metadata).

Definition _awk_function_node_metadata (metadata : pydict) : pydict :=
  let summary := set_str (_awk_base_metadata metadata) "node_role" "function" in
  let summary := set_count summary metadata "parameters" "parameter_count" in
  let summary := set_count summary metadata "local_parameters" "local_parameter_count" in
  set_bool summary "body_modeled" false.

Definition _awk_base_edge_metadata (metadata : pydict) : pydict := _awk_base_metadata metadata.

Definition _awk_builtin_edge_metadata (metadata : pydict) (builtin_name : pyval) : pydict :=
  let summary := set_one (_awk_base_edge_metadata metadata) "builtins" builtin_name in
  let summary := set_bool summary "builtin_executed" false in
  let summary := append_metadata_texts summary metadata
    [("builtin_family", "builtin_families"); ("call_context", "call_contexts")] in
  list_int summary metadata "argument_count" "argument_counts".

Definition _awk_user_function_edge_metadata (metadata : pydict) (function_name : pyval) : pydict :=
  let summary := set_one (_awk_base_edge_metadata metadata) "functions" function_name in
  let summary := set_bool summary "function_executed" false in
  let summary := _append_metadata_text summary metadata "call_context" "call_contexts" in
  list_int summary metadata "argument_count" "argument_counts".

Definition _awk_runtime_edge_metadata (metadata : pydict) : pydict :=
  let summary := dict_update (_awk_base_edge_metadata metadata)
    (flags [("runtime_intent", true); ("awk_executed", false); ("shell_executed", false);
            ("command_executed", false); ("filesystem_checked", false); ("file_opened", false);
            ("host_mutation_proven", false)]) in
  let summary := append_metadata_texts summary metadata
    [("redirect_operator", "redirect_operators"); ("target_kind", "target_kinds");
     ("command_text_kind", "command_text_kinds")] in
  copy_bool summary metadata "pipe_opened" "pipe_opened".

Definition _awk_file_edge_metadata (metadata : pydict) (observation_kind : pystr) : pydict :=
  let effect := if bool_decide (observation_kind = lit "awk.file_read") then lit "read" else lit "write" in
  let summary := set_one (_awk_runtime_edge_metadata metadata) "file_effects" (VStr effect) in
  append_metadata_texts summary metadata
    [("target_kind", "target_kinds"); ("redirect_operator", "redirect_operators");
     ("write_mode", "write_modes")].

Definition _awk_command_intent_edge_metadata (metadata : pydict) (observation_kind : pystr) : pydict :=
  _append_metadata_text (set_one (_awk_runtime_edge_metadata metadata) "observation_kinds" (VStr observation_kind))
    metadata "command_text_kind" "command_text_kinds".

Definition _awk_include_edge_metadata (metadata : pydict) : pydict :=
  let summary := set_bool (_awk_base_edge_metadata metadata) "file_read" false in
  let summary := set_bool summary "include_loaded" false in
  _append_metadata_text summary metadata "target_kind" "target_kinds".

Definition _awk_extension_edge_metadata (metadata : pydict) : pydict :=
  append_metadata_texts (set_bool (_awk_base_edge_metadata metadata) "extension_loaded" false) metadata
    [("target_kind", "target_kinds"); ("extension_name", "extensions")].

(** ** Targets *)

Definition _awk_file_target_key (o : RawObservation) : CM (option pystr) := static_file_target o.

Definition _awk_include_target_key (o : RawObservation) : CM (option pystr) :=
  if negb (target_is_static o) then mret None
  else
    match _metadata_text (obs_metadata o) "resolved_path" with
    | None => mret None
    | Some resolved_path =>
        if starts_with_any resolved_path ["/"; "~"] || startswith (lit "../") resolved_path then mret None
        else
          key ← lift_key (file_key (PathStr resolved_path));
          mret (Some key)
    end.

Definition _awk_static_command_summary (o : RawObservation) : option pystr :=
  if negb (text_is (_metadata_text (obs_metadata o) "command_text_kind") "static") then None
  else
    match _metadata_text (obs_metadata o) "command_summary" with
    | Some command_summary =>
        if bool_decide (command_summary = lit "[dynamic]") || char_in 10 command_summary
           || (80 <? Z.of_nat (length command_summary)) then None
        else Some command_summary
    | None => None
    end.

(** ** Handlers *)

(** The program of the observation. *)
Definition awk_program_node (o : RawObservation) (source_key : pystr) : node_arg :=
  edge_node source_key "awk.program" (VStr (obs_path o)) (_awk_container_node_metadata (obs_metadata o)).

Definition awk_program (o : RawObservation) : CM pystr := lift_key (awk_program_key (PathStr (obs_path o))).

Definition _canonicalize_awk_program_observation (o : RawObservation) (ordinal : Z) : CM unit :=
  shell_keys o ordinal
    (source_key ← own_file_key o; target_key ← awk_program o; mret (source_key, target_key))
    (fun '(source_key, target_key) =>
       relate o (_awk_evidence_from_observation o ordinal)
         (edge_node source_key "file" (VStr (obs_path o)) [(lit "language", VStr (lit "awk"))])
         (NodeArg target_key (lit "awk.program") (VStr (obs_path o))
            (_awk_program_node_metadata (obs_metadata o)) "observed")
         "defines" (_awk_base_edge_metadata (obs_metadata o))).

Definition _canonicalize_awk_function_observation (o : RawObservation) (ordinal : Z) : CM unit :=
  let function_name := value_or (obs_name o) (_metadata_text (obs_metadata o) "function_name") in
  if is_none function_name then append_evidence (_awk_evidence_from_observation o ordinal)
  else
    shell_keys o ordinal
      (source_key ← awk_program o;
       target_key ← lift_key (awk_function_key (PathStr (obs_path o)) (val_text function_name));
       mret (source_key, target_key))
      (fun '(source_key, target_key) =>
         _append_two_node_edge o (_awk_evidence_from_observation o ordinal)
           (awk_program_node o source_key)
           (edge_node target_key "awk.function" function_name (_awk_function_node_metadata (obs_metadata o)))
           "defines" (_awk_base_edge_metadata (obs_metadata o))).

Definition _canonicalize_awk_builtin_call_observation (o : RawObservation) (ordinal : Z) : CM unit :=
  let builtin_name := value_or (obs_name o) (_metadata_text (obs_metadata o) "builtin_name") in
  if is_none builtin_name then append_evidence (_awk_evidence_from_observation o ordinal)
  else
    shell_keys o ordinal
      (source_key ← awk_program o;
       target_key ← lift_key (external_key (lit "awk.builtin") (val_text builtin_name));
       mret (source_key, target_key))
      (fun '(source_key, target_key) =>
         _append_two_node_edge o (_awk_evidence_from_observation o ordinal)
           (awk_program_node o source_key)
           (edge_node target_key "external" builtin_name [(lit "domain", VStr (lit "awk.builtin"))])
           "uses_builtin" (_awk_builtin_edge_metadata (obs_metadata o) builtin_name)).

Definition _canonicalize_awk_user_function_call_observation (o : RawObservation) (ordinal : Z) : CM unit :=
  let function_name := value_or (obs_name o) (_metadata_text (obs_metadata o) "function_name") in
  if is_none function_name then append_evidence (_awk_evidence_from_observation o ordinal)
  else
    shell_keys o ordinal
      (source_key ← awk_program o;
       target_key ← lift_key (awk_function_key (PathStr (obs_path o)) (val_text function_name));
       mret (source_key, target_key))
      (fun '(source_key, target_key) =>
         _append_two_node_edge o (_awk_evidence_from_observation o ordinal)
           (awk_program_node o source_key)
           (edge_node target_key "awk.function" function_name
              (_awk_function_node_metadata [(lit "function_name", function_name)]))
           "calls" (_awk_user_function_edge_metadata (obs_metadata o) function_name)).

Definition _canonicalize_awk_file_reference_observation (o : RawObservation) (ordinal : Z) : CM unit :=
  target ← _awk_file_target_key o;
  match target with
  | None => append_evidence (_awk_evidence_from_observation o ordinal)
  | Some target_key =>
      shell_keys o ordinal
        (source_key ← awk_program o; _ ← parse_text target_key; mret source_key)
        (fun source_key =>
           _append_two_node_edge o (_awk_evidence_from_observation o ordinal)
             (awk_program_node o source_key)
             (edge_node target_key "file" (VStr (_display_name_from_key target_key)) [])
             (if kind_is o "awk.file_read" then "reads" else "writes")
             (_awk_file_edge_metadata (obs_metadata o) (obs_kind o)))
  end.

Definition _canonicalize_awk_command_intent_observation (o : RawObservation) (ordinal : Z) : CM unit :=
  match _awk_static_command_summary o with
  | None => append_evidence (_awk_evidence_from_observation o ordinal)
  | Some command_summary =>
      shell_keys o ordinal
        (source_key ← awk_program o;
         target_key ← lift_key (external_key (lit "awk.command_intent") command_summary);
         mret (source_key, target_key))
        (fun '(source_key, target_key) =>
           _append_two_node_edge o (_awk_evidence_from_observation o ordinal)
             (awk_program_node o source_key)
             (edge_node target_key "external" (VStr command_summary)
                [(lit "domain", VStr (lit "awk.command_intent"))])
             (if kind_is o "awk.system_call" then "system_command_intent" else "pipe_command_intent")
             (_awk_command_intent_edge_metadata (obs_metadata o) (obs_kind o)))
  end.

Definition _canonicalize_awk_include_observation (o : RawObservation) (ordinal : Z) : CM unit :=
  target ← _awk_include_target_key o;
  match target with
  | None => append_evidence (_awk_evidence_from_observation o ordinal)
  | Some target_key =>
      shell_keys o ordinal
        (source_key ← awk_program o; _ ← parse_text target_key; mret source_key)
        (fun source_key =>
           _append_two_node_edge o (_awk_evidence_from_observation o ordinal)
             (awk_program_node o source_key)
             (edge_node target_key "file" (VStr (_display_name_from_key target_key)) [])
             "includes" (_awk_include_edge_metadata (obs_metadata o)))
  end.

Definition _canonicalize_awk_extension_observation (o : RawObservation) (ordinal : Z) : CM unit :=
  let extension_name := value_or (obs_name o) (_metadata_text (obs_metadata o) "extension_name") in
  if is_none extension_name || negb (target_is_static o) then
    append_evidence (_awk_evidence_from_observation o ordinal)
  else
    shell_keys o ordinal
      (source_key ← awk_program o;
       target_key ← lift_key (external_key (lit "awk.extension") (val_text extension_name));
       mret (source_key, target_key))
      (fun '(source_key, target_key) =>
         _append_two_node_edge o (_awk_evidence_from_observation o ordinal)
           (awk_program_node o source_key)
           (edge_node target_key "external" extension_name [(lit "domain", VStr (lit "awk.extension"))])
           "depends_on" (_awk_extension_edge_metadata (obs_metadata o))).

(** Whether the observation was handled. *)
Definition _try_canonicalize_awk_observation (o : RawObservation) (ordinal : Z) : option (CM unit) :=
  if negb (_is_awk_observation o) then None
  else if kind_is o "awk.program" then Some (_canonicalize_awk_program_observation o ordinal)
  else if kind_is o "awk.function" then Some (_canonicalize_awk_function_observation o ordinal)
  else if kind_is o "awk.builtin_call" then Some (_canonicalize_awk_builtin_call_observation o ordinal)
  else if kind_is o "awk.user_function_call" then
    Some (_canonicalize_awk_user_function_call_observation o ordinal)
  else if one_of (obs_kind o) ["awk.file_read"; "awk.file_write"] then
    Some (_canonicalize_awk_file_reference_observation o ordinal)
  else if one_of (obs_kind o) ["awk.pipe_read"; "awk.pipe_write"; "awk.system_call"] then
    Some (_canonicalize_awk_command_intent_observation o ordinal)
  else if kind_is o "awk.include" then Some (_canonicalize_awk_include_observation o ordinal)
  else if kind_is o "awk.extension" then Some (_canonicalize_awk_extension_observation o ordinal)
  else if one_of (obs_kind o) AWK_RAW_ONLY_KINDS then
    Some (append_evidence (_awk_evidence_from_observation o ordinal))
  else None.

(** ** The handlers keep the invariant *)

Lemma awk_program_quiet o n : quiet n (awk_program o) (key_in "awk.program") key_failure.
Proof. unfold awk_program. quiet_go. Qed.
#[local] Hint Resolve awk_program_quiet : canon.

Lemma awk_program_node_ok o sk : key_in "awk.program" sk -> arg_ok (awk_program_node o sk).
Proof. apply edge_node_ok. Qed.
#[local] Hint Resolve awk_program_node_ok : canon.

Lemma awk_include_target_quiet o n :
  quiet n (_awk_include_target_key o) (fun r => forall k, r = Some k -> key_in "file" k) key_failure.
Proof.
  unfold _awk_include_target_key. destruct (negb _); [by apply quiet_ret|].
  destruct (_metadata_text _ _); [|by apply quiet_ret]. destruct (_ || _); [by apply quiet_ret|].
  eapply quiet_bind; [eapply quiet_built_key; apply file_key_builds|]. intros k Hk. apply quiet_ret.
  by intros ? [= <-].
Qed.

Lemma awk_program_recorded o n :
  typed_observation o -> recorded o n unicode_failure (_canonicalize_awk_program_observation o n).
Proof. shell_handler. Qed.

Lemma awk_function_recorded o n :
  typed_observation o -> recorded o n unicode_failure (_canonicalize_awk_function_observation o n).
Proof. unfold _canonicalize_awk_function_observation. shell_handler. Qed.

Lemma awk_builtin_call_recorded o n :
  typed_observation o -> recorded o n unicode_failure (_canonicalize_awk_builtin_call_observation o n).
Proof. unfold _canonicalize_awk_builtin_call_observation. shell_handler. Qed.

Lemma awk_user_function_call_recorded o n :
  typed_observation o -> recorded o n unicode_failure (_canonicalize_awk_user_function_call_observation o n).
Proof. unfold _canonicalize_awk_user_function_call_observation. shell_handler. Qed.

Lemma awk_command_intent_recorded o n :
  typed_observation o -> recorded o n unicode_failure (_canonicalize_awk_command_intent_observation o n).
Proof. unfold _canonicalize_awk_command_intent_observation. shell_handler. Qed.

Lemma awk_extension_recorded o n :
  typed_observation o -> recorded o n unicode_failure (_canonicalize_awk_extension_observation o n).
Proof. unfold _canonicalize_awk_extension_observation. shell_handler. Qed.

Lemma awk_file_reference_recorded o n :
  typed_observation o -> recorded o n key_failure (_canonicalize_awk_file_reference_observation o n).
Proof. shell_target_handler static_file_target_quiet. Qed.

Lemma awk_include_recorded o n :
  typed_observation o -> recorded o n key_failure (_canonicalize_awk_include_observation o n).
Proof. shell_target_handler awk_include_target_quiet. Qed.

#[local] Hint Resolve awk_program_recorded awk_function_recorded awk_builtin_call_recorded
  awk_user_function_call_recorded awk_command_intent_recorded awk_extension_recorded
  awk_file_reference_recorded awk_include_recorded : handlers.

Lemma awk_recorded o n m :
  typed_observation o -> _try_canonicalize_awk_observation o n = Some m -> recorded o n (escapes o) m.
Proof. intros Ho. unfold _try_canonicalize_awk_observation. dispatches. Qed.

End Awk.
