(* ===== verification/CanonBash.v ===== *)
(** Bash: [canonicalization/shell_bash_family.py]. *)
From S2P Require Import Prelude Utf8 PyVal Json PyRepr PyDictFacts GraphKeys GraphKeysFacts KeyBuilders.
From S2P Require Import Observations ObservationsFacts CanonCore CanonState CanonInvariant CanonLogic.
From S2P Require Import CanonShared CanonShell.
Open Scope Z_scope.

(** [evidence_helpers.py] and [dispatch_helpers.py] *)
Definition BASH_EVIDENCE_OMIT_KEYS : list string :=
  ["raw"; "value"; "values"; "source"; "source_token"; "target_display"; "target_summary"; "values_summary";
   "handler_summary"; "expression_summary"; "pattern"; "resolved_path"].

Definition BASH_RAW_ONLY_KINDS : list string :=
  ["bash.shell_option"; "bash.shopt"; "bash.alias"; "bash.array_assignment";
   "bash.associative_array_assignment"; "bash.trap"; "bash.arithmetic"; "bash.test_expression";
   "bash.case_pattern"; "shell.assignment"; "shell.export"; "shell.command_argument"; "shell.pipeline";
   "shell.command_chain"; "shell.redirect"; "shell.heredoc"; "shell.process_substitution";
   "shell.command_substitution"; "shell.dynamic_invocation"; "shell.secret_like"].

Section Bash.
Context {U : Unicode}.

Definition _is_bash_observation (o : RawObservation) : bool :=
  kind_starts o "bash." || meta_is (obs_metadata o) "dialect" "bash".

Definition _bash_evidence_from_observation (o : RawObservation) (ordinal : Z) : CanonicalEvidence :=
  _shell_evidence o ordinal BASH_EVIDENCE_OMIT_KEYS.

(** ** Metadata *)

Definition _bash_container_node_metadata : pydict :=
  [(lit "language", VStr (lit "bash")); (lit "dialect", VStr (lit "bash"));
   (lit "static_only", VBool true); (lit "shell_executed", VBool false)].

Definition _bash_script_node_metadata (metadata : pydict) : pydict :=
  set_bool (copy_present _bash_container_node_metadata metadata ["file_type"; "classification_evidence"])
    "shebang_present" (shebang_present metadata).

Definition _bash_function_node_metadata (metadata : pydict) : pydict :=
  set_text _bash_container_node_metadata "syntax" (_metadata_text metadata "syntax").

(** [{"static_only": True, "shell_executed": False}] *)
Definition bash_static : pydict := flags [("static_only", true); ("shell_executed", false)].

Definition _bash_define_edge_metadata (metadata : pydict) : pydict :=
  let summary := _append_metadata_text bash_static metadata "syntax" "syntaxes" in
  let summary := match _metadata_text metadata "file_type" with
                 | Some file_type => set_one summary "file_types" (VStr file_type)
                 | None => summary
                 end in
  copy_sequence summary metadata "classification_evidence" "classification_evidence".

Definition _bash_command_edge_metadata (metadata : pydict) (command_name : pyval) : pydict :=
  let summary := dict_update [(lit "commands", VList [command_name])] bash_static in
  let summary := append_metadata_texts summary metadata
    [("original_token", "original_tokens"); ("command_family", "command_families");
     ("wrapper_command", "wrapper_commands"); ("wrapped_command", "wrapped_commands");
     ("pipeline_id", "pipeline_ids"); ("chain_id", "chain_ids")] in
  list_ints summary metadata
    [("argument_count", "argument_counts"); ("assignment_overlay_count", "assignment_overlay_counts");
     ("pipeline_index", "pipeline_indexes"); ("chain_index", "chain_indexes")].

Definition _bash_env_edge_metadata (metadata : pydict) (observation_kind : pystr) : pydict :=
  let operation := if bool_decide (observation_kind = lit "shell.env_read") then lit "read" else lit "write" in
  let summary := dict_update [(lit "operations", VList [VStr operation])] bash_static in
  let summary := append_metadata_texts summary metadata [("scope", "scopes"); ("operation", "raw_operations")] in
  copy_bool summary metadata "redacted" "redacted_observed".

Definition _bash_host_mutation_edge_metadata (metadata : pydict) : pydict :=
  let summary := append_metadata_texts bash_static metadata
    [("mutation_category", "mutation_categories"); ("operation", "operations"); ("command_name", "commands");
     ("original_token", "original_tokens"); ("target_kind", "target_kinds")] in
  copy_bools summary metadata
    [("destructive", "destructive_observed"); ("privileged", "privileged_observed");
     ("target_redacted", "target_redacted_observed")].

Definition _bash_reference_edge_metadata (metadata : pydict) (observation_kind : pystr) : pydict :=
  let summary := dict_update [(lit "observation_kinds", VList [VStr observation_kind])] bash_static in
  let summary := append_metadata_texts summary metadata
    [("syntax", "syntaxes"); ("command_name", "commands"); ("operation", "operations");
     ("target_kind", "target_kinds")] in
  copy_bool summary metadata "network_executed" "network_executed".

Definition _bash_file_effect_edge_metadata (metadata : pydict) (observation_kind : pystr) : pydict :=
  let effect := if bool_decide (observation_kind = lit "shell.file_read") then lit "read" else lit "write" in
  _append_metadata_text
    (set_one (_bash_reference_edge_metadata metadata observation_kind) "file_effects" (VStr effect))
    metadata "via" "vias".

Definition _bash_package_manager_edge_metadata (metadata : pydict) : pydict :=
  let summary := append_metadata_texts bash_static metadata
    [("manager", "managers"); ("operation", "operations"); ("package_kind", "package_kinds")] in
  let summary := match _metadata_text metadata "package" with
                 | Some package =>
                     if text_is (_metadata_text metadata "package_kind") "static"
                     then set_one summary "packages" (VStr package) else summary
                 | None => summary
                 end in
  copy_bool summary metadata "privileged" "privileged_observed".

(** ** Targets *)

Definition _bash_command_name (o : RawObservation) : CM pyval :=
  command_name_of o ["normalized_command"; "command_name"; "original_token"] (fun _ => true).

Definition _bash_source_target_key (o : RawObservation) : CM (option pystr) := named_file_target o.

Definition _bash_file_effect_target_key (o : RawObservation) : CM (option pystr) := static_file_target o.

Definition _bash_network_target_key (o : RawObservation) : CM (option pystr) :=
  if negb (target_is_static o) then mret None
  else
    match _metadata_text (obs_metadata o) "target_display" with
    | None => mret None
    | Some target_display =>
        if bool_decide (target_display = lit "[dynamic]") then mret None
        else if starts_with_any target_display ["http://"; "https://"] then
          key ← lift_key (external_url_key target_display);
          mret (Some key)
        else
          key ← lift_key (external_key (lit "shell.network") target_display);
          mret (Some key)
    end.

(** Source, target, kind of the edge and its metadata; outside any [try]. *)
Definition _bash_reference_parts (o : RawObservation) : CM (option (pystr * pystr * string * pydict)) :=
  let metadata := obs_metadata o in
  source_key ← own_file_key o;
  if one_of (obs_kind o) ["shell.file_read"; "shell.file_write"] then
    target ← _bash_file_effect_target_key o;
    mret (target_key ← target;
          Some (source_key, target_key, "references"%string,
                _bash_file_effect_edge_metadata metadata (obs_kind o)))
  else if kind_is o "shell.network_call" then
    target ← _bash_network_target_key o;
    mret (target_key ← target;
          Some (source_key, target_key, "references"%string,
                _bash_reference_edge_metadata metadata (obs_kind o)))
  else if kind_is o "shell.package_manager" then
    let manager := text_or (_metadata_text metadata "manager") (obs_name o) in
    if is_none manager then mret None
    else
      target_key ← lift_key (tool_key (val_text manager));
      mret (Some (source_key, target_key, "uses_package_manager"%string,
                  _bash_package_manager_edge_metadata metadata))
  else key_error (lit "unsupported Bash reference kind: " ++ obs_kind o).

(** ** Handlers *)

Definition bash_script (o : RawObservation) : CM pystr := lift_key (bash_script_key (PathStr (obs_path o))).

Definition bash_script_node (o : RawObservation) (source_key : pystr) : node_arg :=
  edge_node source_key "bash.script" (VStr (obs_path o)) _bash_container_node_metadata.

Definition _canonicalize_bash_script_observation (o : RawObservation) (ordinal : Z) : CM unit :=
  shell_keys o ordinal
    (source_key ← own_file_key o; target_key ← bash_script o; mret (source_key, target_key))
    (fun '(source_key, target_key) =>
       relate o (_bash_evidence_from_observation o ordinal)
         (edge_node source_key "file" (VStr (obs_path o)) [(lit "language", VStr (lit "bash"))])
         (NodeArg target_key (lit "bash.script") (VStr (obs_path o))
            (_bash_script_node_metadata (obs_metadata o)) "observed")
         "defines" (_bash_define_edge_metadata (obs_metadata o))).

Definition _canonicalize_bash_function_observation (o : RawObservation) (ordinal : Z) : CM unit :=
  let function_name := value_or (obs_name o) (_metadata_text (obs_metadata o) "function") in
  if is_none function_name then
    diagnose o ordinal "warning" "missing_required_metadata"
      (lit "Bash function observation requires a function name") "name" (obs_name o) None
  else
    shell_keys o ordinal
      (source_key ← bash_script o;
       target_key ← lift_key (bash_function_key (PathStr (obs_path o)) (val_text function_name));
       mret (source_key, target_key))
      (fun '(source_key, target_key) =>
         relate o (_bash_evidence_from_observation o ordinal)
           (bash_script_node o source_key)
           (NodeArg target_key (lit "bash.function") function_name
              (_bash_function_node_metadata (obs_metadata o)) "observed")
           "defines" (_bash_define_edge_metadata (obs_metadata o))).

Definition _canonicalize_bash_command_observation (o : RawObservation) (ordinal : Z) : CM unit :=
  command_name ← _bash_command_name o;
  if is_none command_name then
    diagnose o ordinal "warning" "missing_required_metadata"
      (lit "Bash command observation requires a command name") "metadata.normalized_command" VNone None
  else
    shell_keys o ordinal
      (source_key ← own_file_key o;
       target_key ← lift_key (tool_key (val_text command_name));
       mret (source_key, target_key))
      (fun '(source_key, target_key) =>
         _append_two_node_edge o (_bash_evidence_from_observation o ordinal)
           (file_node o source_key) (edge_node target_key "tool" command_name [])
           "executes" (_bash_command_edge_metadata (obs_metadata o) command_name)).

Definition _canonicalize_bash_source_observation (o : RawObservation) (ordinal : Z) : CM unit :=
  target ← _bash_source_target_key o;
  match target with
  | None => append_evidence (_bash_evidence_from_observation o ordinal)
  | Some target_key =>
      shell_keys o ordinal
        (source_key ← bash_script o; _ ← parse_text target_key; mret source_key)
        (fun source_key =>
           _append_two_node_edge o (_bash_evidence_from_observation o ordinal)
             (bash_script_node o source_key) (keyed_node target_key [] "inferred_from_edge")
             "sources" (_bash_reference_edge_metadata (obs_metadata o) (obs_kind o)))
  end.

Definition _canonicalize_bash_env_observation (o : RawObservation) (ordinal : Z) : CM unit :=
  let variable := value_or (obs_name o) (_metadata_text (obs_metadata o) "variable") in
  if is_none variable then
    diagnose o ordinal "warning" "missing_required_metadata"
      (lit "Bash environment observation requires variable metadata") "metadata.variable" VNone None
  else
    shell_keys o ordinal
      (source_key ← own_file_key o;
       target_key ← lift_key (env_key (val_text variable));
       mret (source_key, target_key))
      (fun '(source_key, target_key) =>
         _append_two_node_edge o (_bash_evidence_from_observation o ordinal)
           (file_node o source_key) (edge_node target_key "env" variable [])
           (if kind_is o "shell.env_read" then "reads_env" else "writes_env")
           (_bash_env_edge_metadata (obs_metadata o) (obs_kind o))).

Definition _canonicalize_bash_host_mutation_observation (o : RawObservation) (ordinal : Z) : CM unit :=
  match _metadata_text (obs_metadata o) "mutation_category" with
  | None =>
      diagnose o ordinal "warning" "missing_required_metadata"
        (lit "Bash host mutation observation requires mutation category") "metadata.mutation_category" VNone None
  | Some category =>
      let display_category := underscores_to_dashes category in
      shell_keys o ordinal
        (source_key ← own_file_key o;
         target_key ← lift_key (host_category_key display_category);
         mret (source_key, target_key))
        (fun '(source_key, target_key) =>
           _append_two_node_edge o (_bash_evidence_from_observation o ordinal)
             (file_node o source_key) (edge_node target_key "host.category" (VStr display_category) [])
             "mutates_host" (_bash_host_mutation_edge_metadata (obs_metadata o)))
  end.

Definition _canonicalize_bash_reference_observation (o : RawObservation) (ordinal : Z) : CM unit :=
  parts ← _bash_reference_parts o;
  match parts with
  | None => append_evidence (_bash_evidence_from_observation o ordinal)
  | Some (source_key, target_key, edge_kind, edge_metadata) =>
      shell_keys o ordinal (_ ← parse_text source_key; _ ← parse_text target_key; mret tt)
        (fun _ =>
           _append_two_node_edge o (_bash_evidence_from_observation o ordinal)
             (NodeArg source_key (_node_kind_from_key source_key) (VStr (obs_path o)) [] "inferred_from_edge")
             (keyed_node target_key [] "inferred_from_edge") edge_kind edge_metadata)
  end.

(** Whether the observation was handled. *)
Definition _try_canonicalize_bash_observation (o : RawObservation) (ordinal : Z) : option (CM unit) :=
  if negb (_is_bash_observation o) then None
  else if kind_is o "shell.script" then Some (_canonicalize_bash_script_observation o ordinal)
  else if kind_is o "shell.function" then Some (_canonicalize_bash_function_observation o ordinal)
  else if one_of (obs_kind o) ["shell.command"; "shell.external_command"] then
    Some (_canonicalize_bash_command_observation o ordinal)
  else if kind_is o "shell.source" then Some (_canonicalize_bash_source_observation o ordinal)
  else if one_of (obs_kind o) ["shell.env_read"; "shell.env_write"] then
    Some (_canonicalize_bash_env_observation o ordinal)
  else if kind_is o "shell.host_mutation" then Some (_canonicalize_bash_host_mutation_observation o ordinal)
  else if one_of (obs_kind o) ["shell.file_read"; "shell.file_write"; "shell.network_call"; "shell.package_manager"]
  then Some (_canonicalize_bash_reference_observation o ordinal)
  else if one_of (obs_kind o) BASH_RAW_ONLY_KINDS then
    Some (append_evidence (_bash_evidence_from_observation o ordinal))
  else None.

(** ** The handlers keep the invariant *)

Lemma bash_script_quiet o n : quiet n (bash_script o) (key_in "bash.script") key_failure.
Proof. unfold bash_script. quiet_go. Qed.

Lemma bash_script_node_ok o sk : key_in "bash.script" sk -> arg_ok (bash_script_node o sk).
Proof. apply edge_node_ok. Qed.
#[local] Hint Resolve bash_script_quiet bash_script_node_ok : canon.

Lemma bash_network_target_quiet o n :
  quiet n (_bash_network_target_key o) (fun r => forall k, r = Some k -> parsed_key k) key_failure.
Proof.
  unfold _bash_network_target_key. destruct (negb _); [by apply quiet_ret|].
  destruct (_metadata_text _ _); [|by apply quiet_ret]. destruct (bool_decide _); [by apply quiet_ret|].
  destruct (starts_with_any _ _).
  all: eapply quiet_bind; [eapply quiet_built_key; prove_builds|]; intros k Hk; apply quiet_ret;
    intros ? [= <-]; eauto with canon.
Qed.

(** What [_bash_reference_parts] returns can be recorded. *)
Definition reference_parts_ok (r : option (pystr * pystr * string * pydict)) : Prop :=
  match r with
  | Some (sk, tk, kind, _) => key_in "file" sk /\ parsed_key tk /\ kind ∈ CANONICAL_EDGE_KINDS
  | None => True
  end.

Lemma bash_reference_parts_quiet o n : quiet n (_bash_reference_parts o) reference_parts_ok key_failure.
Proof.
  unfold _bash_reference_parts. cbv zeta. eapply quiet_bind; [apply own_file_key_quiet|]. intros sk Hs.
  destruct (one_of _ _).
  { eapply quiet_bind; [apply static_file_target_quiet|]. intros [tk|] Ht; apply quiet_ret; [|done].
    cbn. specialize (Ht _ eq_refl). eauto 6 with canon. }
  destruct (kind_is o "shell.network_call").
  { eapply quiet_bind; [apply bash_network_target_quiet|]. intros [tk|] Ht; apply quiet_ret; [|done].
    cbn. specialize (Ht _ eq_refl). eauto 6 with canon. }
  destruct (kind_is o "shell.package_manager"); [|apply quiet_key_error; nonempty].
  destruct (is_none _); [by apply quiet_ret|].
  eapply quiet_bind; [eapply quiet_built_key; prove_builds|]. intros k Hk. apply quiet_ret. cbn. eauto 6 with canon.
Qed.

Lemma bash_script_recorded o n :
  typed_observation o -> recorded o n unicode_failure (_canonicalize_bash_script_observation o n).
Proof. shell_handler. Qed.

Lemma bash_function_recorded o n :
  typed_observation o -> recorded o n unicode_failure (_canonicalize_bash_function_observation o n).
Proof. unfold _canonicalize_bash_function_observation. shell_handler. Qed.

Lemma bash_command_recorded o n :
  typed_observation o -> recorded o n unicode_failure (_canonicalize_bash_command_observation o n).
Proof.
  intros Ho. eapply recorded_quiet_bind; [by apply command_name_of_quiet|]. intros c _.
  revert Ho. shell_handler.
Qed.

Lemma bash_source_recorded o n :
  typed_observation o -> recorded o n key_failure (_canonicalize_bash_source_observation o n).
Proof. shell_target_handler named_file_target_quiet. Qed.

Lemma bash_env_recorded o n :
  typed_observation o -> recorded o n unicode_failure (_canonicalize_bash_env_observation o n).
Proof. unfold _canonicalize_bash_env_observation. shell_handler. Qed.

Lemma bash_host_mutation_recorded o n :
  typed_observation o -> recorded o n unicode_failure (_canonicalize_bash_host_mutation_observation o n).
Proof. unfold _canonicalize_bash_host_mutation_observation. shell_handler. Qed.

Lemma bash_reference_recorded o n :
  typed_observation o -> recorded o n key_failure (_canonicalize_bash_reference_observation o n).
Proof.
  intros [Hv _ _]. eapply recorded_quiet_bind; [apply bash_reference_parts_quiet|].
  intros [[[[sk tk] kind] md]|] Hp; [|apply recorded_evidence]. destruct Hp as (Hs & Ht & Hk).
  eapply recorded_with_keys; [allowed| |intros _ _; unfold _append_two_node_edge; relates].
  eapply quiet_bind; [apply quiet_parse_text|]. intros _ _.
  eapply quiet_bind; [apply quiet_parse_text|]. intros _ _. by apply (quiet_ret _ _ (fun _ => True)).
Qed.

#[local] Hint Resolve bash_script_recorded bash_function_recorded bash_command_recorded bash_source_recorded
  bash_env_recorded bash_host_mutation_recorded bash_reference_recorded : handlers.

Lemma bash_recorded o n m :
  typed_observation o -> _try_canonicalize_bash_observation o n = Some m -> recorded o n (escapes o) m.
Proof. intros Ho. unfold _try_canonicalize_bash_observation. dispatches. Qed.

End Bash.
