(* ===== verification/CanonBats.v ===== *)
(** Bats: [canonicalization/shell_bats_family.py]. *)
From S2P Require Import Prelude Utf8 PyVal Json PyRepr PyDictFacts GraphKeys GraphKeysFacts KeyBuilders.
From S2P Require Import Observations ObservationsFacts CanonCore CanonState CanonInvariant CanonLogic.
From S2P Require Import CanonShared CanonShell.
Open Scope Z_scope.

(** [evidence_helpers.py] and [dispatch_helpers.py] *)
Definition BATS_EVIDENCE_OMIT_KEYS : list string :=
  ["raw"; "value"; "values"; "source"; "target_token"; "target_display"; "expected_value_summary";
   "reason_summary"; "path_token"; "resolved_path"].

Definition BATS_RAW_ONLY_KINDS : list string :=
  ["bats.setup"; "bats.teardown"; "bats.setup_file"; "bats.teardown_file"; "bats.skip";
   "bats.output_expectation"; "bats.status_expectation"; "shell.dynamic_invocation"; "shell.secret_like"].

Section Bats.
Context {U : Unicode}.

Definition _is_bats_observation (o : RawObservation) : bool :=
  kind_starts o "bats." || meta_is (obs_metadata o) "dialect" "bats".

Definition _bats_evidence_from_observation (o : RawObservation) (ordinal : Z) : CanonicalEvidence :=
  _shell_evidence o ordinal BATS_EVIDENCE_OMIT_KEYS.

(** ** Metadata *)

Definition _bats_base_metadata : pydict :=
  [(lit "dialect", VStr (lit "bats")); (lit "test_framework", VStr (lit "bats"));
   (lit "static_only", VBool true); (lit "shell_executed", VBool false); (lit "bats_executed", VBool false)].

Definition _bats_file_node_metadata (metadata : pydict) : pydict :=
  set_bool (copy_present (set_str _bats_base_metadata "language" "bats") metadata
              ["file_type"; "classification_evidence"])
    "shebang_present" (shebang_present metadata).

Definition _bats_test_case_node_metadata (metadata : pydict) : pydict :=
  let summary := set_bool (set_str _bats_base_metadata "node_role" "test_case") "body_modeled" false in
  let summary := _append_metadata_text summary metadata "test_name_kind" "test_name_kinds" in
  list_int summary metadata "command_count" "command_counts".

(** The texts that describe an assertion. *)
Definition bats_assertion_texts : list (string * string) :=
  [("assertion_name", "assertion_names"); ("assertion_family", "assertion_families"); ("mode", "modes");
   ("expected_value_kind", "expected_value_kinds")].

Definition _bats_expectation_node_metadata (metadata : pydict) : pydict :=
  set_bool (append_metadata_texts (set_str _bats_base_metadata "node_role" "expectation") metadata
              bats_assertion_texts)
    "assertion_executed" false.

Definition _bats_base_edge_metadata (metadata : pydict) : pydict :=
  copy_bools _bats_base_metadata metadata
    [("test_intent", "test_intent"); ("command_executed", "command_executed")].

Definition _bats_load_edge_metadata (metadata : pydict) : pydict :=
  append_metadata_texts (set_bool (_bats_base_edge_metadata metadata) "helper_executed" false) metadata
    [("resolution", "resolutions"); ("target_kind", "target_kinds")].

Definition _bats_library_edge_metadata (metadata : pydict) : pydict :=
  append_metadata_texts (set_bool (_bats_base_edge_metadata metadata) "library_executed" false) metadata
    [("library_name", "libraries"); ("resolution", "resolutions")].

Definition _bats_run_edge_metadata (metadata : pydict) (command_name : pyval) : pydict :=
  let summary := dict_update (_bats_base_edge_metadata metadata)
    ((lit "commands", VList [command_name]) ::
     flags [("test_intent", true); ("command_under_test", true); ("command_executed", false)]) in
  let summary := append_metadata_texts summary metadata
    [("command_kind", "command_kinds"); ("test_context", "test_contexts")] in
  let summary := list_ints summary metadata
    [("argument_count", "argument_counts"); ("expected_status", "expected_statuses")] in
  copy_bools summary metadata
    [("negated", "negated_observed"); ("separate_stderr", "separate_stderr_observed")].

Definition _bats_assertion_edge_metadata (metadata : pydict) : pydict :=
  let summary := set_bool (_bats_base_edge_metadata metadata) "assertion_executed" false in
  list_int (append_metadata_texts summary metadata bats_assertion_texts) metadata
    "argument_count" "argument_counts".

Definition _bats_fixture_edge_metadata (metadata : pydict) : pydict :=
  let summary := set_bool (_bats_base_edge_metadata metadata) "filesystem_checked" false in
  append_metadata_texts (set_bool summary "file_created" false) metadata
    [("fixture_kind", "fixture_kinds"); ("resolution", "resolutions"); ("source_kind", "source_kinds")].

Definition _bats_helper_edge_metadata (metadata : pydict) : pydict :=
  append_metadata_texts (set_bool (_bats_base_edge_metadata metadata) "helper_executed" false) metadata
    [("reference_kind", "reference_kinds"); ("resolution", "resolutions")].

(** ** Identities *)

(** [None] when the name is not static or was redacted. *)
Definition _bats_static_test_identity (o : RawObservation) : pyval :=
  let metadata := obs_metadata o in
  if negb (text_is (_metadata_text metadata "test_name_kind") "static") then VNone
  else if truthy (meta_get metadata "test_name_redacted") then VNone
  else text_or (_metadata_text metadata "test_name") (obs_name o).

Definition bats_file (o : RawObservation) : CM pystr := lift_key (bats_file_key (PathStr (obs_path o))).

Definition bats_file_node (o : RawObservation) (source_key : pystr) : node_arg :=
  edge_node source_key "bats.file" (VStr (obs_path o)) (_bats_file_node_metadata []).

(** The test case the observation is in, or else its file. *)
Definition _bats_context_source (o : RawObservation) : CM node_arg :=
  let metadata := obs_metadata o in
  let in_file := source_key ← bats_file o; mret (bats_file_node o source_key) in
  match _metadata_text metadata "test_case_name" with
  | Some test_name =>
      if text_is (_metadata_text metadata "test_context") "test_case"
         && negb (truthy (meta_get metadata "test_case_name_redacted"))
      then
        source_key ← lift_key (bats_test_case_key (PathStr (obs_path o)) test_name);
        mret (edge_node source_key "bats.test_case" (VStr test_name)
                (_bats_test_case_node_metadata [(lit "test_name", VStr test_name)]))
      else in_file
  | None => in_file
  end.

(** ** Handlers *)

Definition _canonicalize_bats_file_observation (o : RawObservation) (ordinal : Z) : CM unit :=
  shell_keys o ordinal
    (source_key ← own_file_key o; target_key ← bats_file o; mret (source_key, target_key))
    (fun '(source_key, target_key) =>
       relate o (_bats_evidence_from_observation o ordinal)
         (edge_node source_key "file" (VStr (obs_path o)) [(lit "language", VStr (lit "bats"))])
         (NodeArg target_key (lit "bats.file") (VStr (obs_path o))
            (_bats_file_node_metadata (obs_metadata o)) "observed")
         "defines" (_bats_base_edge_metadata (obs_metadata o))).

Definition _canonicalize_bats_test_case_observation (o : RawObservation) (ordinal : Z) : CM unit :=
  let test_identity := _bats_static_test_identity o in
  if is_none test_identity then append_evidence (_bats_evidence_from_observation o ordinal)
  else
    shell_keys o ordinal
      (source_key ← bats_file o;
       target_key ← lift_key (bats_test_case_key (PathStr (obs_path o)) (val_text test_identity));
       mret (source_key, target_key))
      (fun '(source_key, target_key) =>
         _append_two_node_edge o (_bats_evidence_from_observation o ordinal)
           (bats_file_node o source_key)
           (edge_node target_key "bats.test_case" test_identity (_bats_test_case_node_metadata (obs_metadata o)))
           "contains" (_bats_base_edge_metadata (obs_metadata o))).

(** The file a [file:] target names. *)
Definition file_target_node (target_key : pystr) : node_arg :=
  edge_node target_key "file" (VStr (_display_name_from_key target_key)) [].

Definition _canonicalize_bats_load_observation (o : RawObservation) (ordinal : Z) : CM unit :=
  is_file ← target_starts o "file:";
  if negb is_file then append_evidence (_bats_evidence_from_observation o ordinal)
  else
    shell_keys o ordinal
      (source_key ← bats_file o; target_key ← own_target_key o; mret (source_key, target_key))
      (fun '(source_key, target_key) =>
         _append_two_node_edge o (_bats_evidence_from_observation o ordinal)
           (bats_file_node o source_key) (file_target_node target_key)
           "loads" (_bats_load_edge_metadata (obs_metadata o))).

Definition _canonicalize_bats_library_load_observation (o : RawObservation) (ordinal : Z) : CM unit :=
  match _metadata_text (obs_metadata o) "library_name" with
  | Some library_name =>
      if negb (target_is_static o) then append_evidence (_bats_evidence_from_observation o ordinal)
      else
        shell_keys o ordinal
          (source_key ← bats_file o;
           target_key ← lift_key (external_key (lit "bats.library") library_name);
           mret (source_key, target_key))
          (fun '(source_key, target_key) =>
             _append_two_node_edge o (_bats_evidence_from_observation o ordinal)
               (bats_file_node o source_key)
               (edge_node target_key "external" (VStr library_name) [(lit "domain", VStr (lit "bats.library"))])
               "depends_on" (_bats_library_edge_metadata (obs_metadata o)))
  | None => append_evidence (_bats_evidence_from_observation o ordinal)
  end.

Definition _canonicalize_bats_run_observation (o : RawObservation) (ordinal : Z) : CM unit :=
  let command_name := text_or (_metadata_text (obs_metadata o) "command_token") (obs_name o) in
  if is_none command_name || val_is command_name "[dynamic]"
     || negb (text_is (_metadata_text (obs_metadata o) "command_kind") "static")
  then append_evidence (_bats_evidence_from_observation o ordinal)
  else
    shell_keys o ordinal
      (source ← _bats_context_source o;
       target_key ← lift_key (tool_key (val_text command_name));
       mret (source, target_key))
      (fun '(source, target_key) =>
         _append_two_node_edge o (_bats_evidence_from_observation o ordinal)
           source (edge_node target_key "tool" command_name [])
           "tests_command" (_bats_run_edge_metadata (obs_metadata o) command_name)).

Definition _canonicalize_bats_assertion_observation (o : RawObservation) (ordinal : Z) : CM unit :=
  let assertion_name := text_or (_metadata_text (obs_metadata o) "assertion_name") (obs_name o) in
  match _metadata_text (obs_metadata o) "test_case_name" with
  | Some test_identity =>
      if is_none assertion_name then append_evidence (_bats_evidence_from_observation o ordinal)
      else
        shell_keys o ordinal
          (source ← _bats_context_source o;
           target_key ← lift_key (bats_expectation_key (PathStr (obs_path o)) test_identity
                                    (start_line_arg o) (val_text assertion_name));
           mret (source, target_key))
          (fun '(source, target_key) =>
             _append_two_node_edge o (_bats_evidence_from_observation o ordinal)
               source
               (edge_node target_key "bats.expectation" assertion_name
                  (_bats_expectation_node_metadata (obs_metadata o)))
               (if kind_is o "bats.assertion" then "asserts" else "refutes")
               (_bats_assertion_edge_metadata (obs_metadata o)))
  | None => append_evidence (_bats_evidence_from_observation o ordinal)
  end.

Definition _canonicalize_bats_fixture_reference_observation (o : RawObservation) (ordinal : Z) : CM unit :=
  is_file ← target_starts o "file:";
  if negb is_file || negb (text_is (_metadata_text (obs_metadata o) "fixture_kind") "repo_fixture")
  then append_evidence (_bats_evidence_from_observation o ordinal)
  else
    shell_keys o ordinal
      (source ← _bats_context_source o; target_key ← own_target_key o; mret (source, target_key))
      (fun '(source, target_key) =>
         _append_two_node_edge o (_bats_evidence_from_observation o ordinal)
           source (file_target_node target_key)
           "references" (_bats_fixture_edge_metadata (obs_metadata o))).

Definition _canonicalize_bats_helper_reference_observation (o : RawObservation) (ordinal : Z) : CM unit :=
  let helper_name := text_or (_metadata_text (obs_metadata o) "helper_name") (obs_name o) in
  if is_none helper_name then append_evidence (_bats_evidence_from_observation o ordinal)
  else
    shell_keys o ordinal
      (source ← _bats_context_source o;
       target_key ← lift_key (external_key (lit "bats.helper") (val_text helper_name));
       mret (source, target_key))
      (fun '(source, target_key) =>
         _append_two_node_edge o (_bats_evidence_from_observation o ordinal)
           source
           (edge_node target_key "external" helper_name [(lit "domain", VStr (lit "bats.helper"))])
           "references" (_bats_helper_edge_metadata (obs_metadata o))).

(** Whether the observation was handled. *)
Definition _try_canonicalize_bats_observation (o : RawObservation) (ordinal : Z) : option (CM unit) :=
  if negb (_is_bats_observation o) then None
  else if kind_is o "bats.file" then Some (_canonicalize_bats_file_observation o ordinal)
  else if kind_is o "bats.test_case" then Some (_canonicalize_bats_test_case_observation o ordinal)
  else if kind_is o "bats.load" then Some (_canonicalize_bats_load_observation o ordinal)
  else if kind_is o "bats.library_load" then Some (_canonicalize_bats_library_load_observation o ordinal)
  else if kind_is o "bats.run" then Some (_canonicalize_bats_run_observation o ordinal)
  else if one_of (obs_kind o) ["bats.assertion"; "bats.refutation"] then
    Some (_canonicalize_bats_assertion_observation o ordinal)
  else if kind_is o "bats.fixture_reference" then
    Some (_canonicalize_bats_fixture_reference_observation o ordinal)
  else if kind_is o "bats.helper_reference" then
    Some (_canonicalize_bats_helper_reference_observation o ordinal)
  else if one_of (obs_kind o) BATS_RAW_ONLY_KINDS then
    Some (append_evidence (_bats_evidence_from_observation o ordinal))
  else None.

(** ** The handlers keep the invariant *)

Lemma bats_file_quiet o n : quiet n (bats_file o) (key_in "bats.file") key_failure.
Proof. unfold bats_file. quiet_go. Qed.

Lemma bats_file_node_ok o sk : key_in "bats.file" sk -> arg_ok (bats_file_node o sk).
Proof. apply edge_node_ok. Qed.

Lemma file_target_node_ok tk : key_in "file" tk -> arg_ok (file_target_node tk).
Proof. apply edge_node_ok. Qed.
#[local] Hint Resolve bats_file_quiet bats_file_node_ok file_target_node_ok : canon.

Lemma bats_test_case_key_safe p s : safe (bats_test_case_key p s).
Proof.
  intros E. assert (builds (lit "bats.test_case") (bats_test_case_key p s)) as Hb by prove_builds.
  rewrite E in Hb. by apply Hb.
Qed.
#[local] Hint Resolve bats_test_case_key_safe : keybuild.

Lemma bats_context_source_quiet o n : quiet n (_bats_context_source o) arg_ok key_failure.
Proof. unfold _bats_context_source. quiet_go. Qed.
#[local] Hint Resolve bats_context_source_quiet : canon.

Lemma bats_file_recorded o n :
  typed_observation o -> recorded o n unicode_failure (_canonicalize_bats_file_observation o n).
Proof. shell_handler. Qed.

Lemma bats_test_case_recorded o n :
  typed_observation o -> recorded o n unicode_failure (_canonicalize_bats_test_case_observation o n).
Proof. unfold _canonicalize_bats_test_case_observation. shell_handler. Qed.

Lemma bats_load_recorded o n :
  typed_observation o -> recorded o n unicode_failure (_canonicalize_bats_load_observation o n).
Proof. file_target_handler. Qed.

Lemma bats_library_load_recorded o n :
  typed_observation o -> recorded o n unicode_failure (_canonicalize_bats_library_load_observation o n).
Proof. unfold _canonicalize_bats_library_load_observation. shell_handler. Qed.

Lemma bats_run_recorded o n :
  typed_observation o -> recorded o n unicode_failure (_canonicalize_bats_run_observation o n).
Proof. unfold _canonicalize_bats_run_observation. shell_handler. Qed.

Lemma bats_assertion_recorded o n :
  typed_observation o -> recorded o n unicode_failure (_canonicalize_bats_assertion_observation o n).
Proof. unfold _canonicalize_bats_assertion_observation. shell_handler. Qed.

Lemma bats_fixture_reference_recorded o n :
  typed_observation o -> recorded o n unicode_failure (_canonicalize_bats_fixture_reference_observation o n).
Proof. file_target_handler. Qed.

Lemma bats_helper_reference_recorded o n :
  typed_observation o -> recorded o n unicode_failure (_canonicalize_bats_helper_reference_observation o n).
Proof. unfold _canonicalize_bats_helper_reference_observation. shell_handler. Qed.

#[local] Hint Resolve bats_file_recorded bats_test_case_recorded bats_load_recorded bats_library_load_recorded
  bats_run_recorded bats_assertion_recorded bats_fixture_reference_recorded
  bats_helper_reference_recorded : handlers.

Lemma bats_recorded o n m :
  typed_observation o -> _try_canonicalize_bats_observation o n = Some m -> recorded o n (escapes o) m.
Proof. intros Ho. unfold _try_canonicalize_bats_observation. dispatches. Qed.

End Bats.
