(* ===== verification/CanonZunit.v ===== *)
(** ZUnit: [canonicalization/shell_zunit_family.py] and [shell_zunit_metadata.py]. *)
From S2P Require Import Prelude Utf8 PyVal Json PyRepr PyDictFacts GraphKeys GraphKeysFacts KeyBuilders.
From S2P Require Import Observations ObservationsFacts CanonCore CanonState CanonInvariant CanonLogic.
From S2P Require Import CanonShared CanonShell.
Open Scope Z_scope.

(** [evidence_helpers.py] and [dispatch_helpers.py] *)
Definition ZUNIT_EVIDENCE_OMIT_KEYS : list string :=
  ["raw"; "value"; "values"; "source"; "source_token"; "target_token"; "target_display";
   "expected_value_summary"; "reason_summary"; "path_token"; "helper_path"; "fixture_path"; "resolved_path"].

Definition ZUNIT_RAW_ONLY_KINDS : list string :=
  ["zunit.test_name"; "zunit.dynamic_test"; "zunit.parameterized_case"; "zunit.skip"; "zunit.todo";
   "zunit.secret_like"].

Section Zunit.
Context {U : Unicode}.

Definition _is_zunit_observation (o : RawObservation) : bool :=
  kind_starts o "zunit." || meta_is (obs_metadata o) "test_framework" "zunit".

Definition _zunit_evidence_from_observation (o : RawObservation) (ordinal : Z) : CanonicalEvidence :=
  _shell_evidence o ordinal ZUNIT_EVIDENCE_OMIT_KEYS.

(** ** Metadata *)

Definition _zunit_base_metadata : pydict :=
  [(lit "language", VStr (lit "zsh")); (lit "dialect", VStr (lit "zsh"));
   (lit "test_framework", VStr (lit "zunit"))] ++
  flags [("static_only", true); ("shell_executed", false); ("zsh_executed", false); ("zunit_executed", false);
         ("tests_executed", false); ("assertions_executed", false); ("commands_executed", false);
         ("fixtures_loaded", false); ("mocks_applied", false)].

(** A role and flags on top of the base. *)
Definition zunit_node_metadata (role : string) (fs : list (string * bool)) : pydict :=
  dict_update (set_str _zunit_base_metadata "node_role" role) (flags fs).

Definition _zunit_file_node_metadata (metadata : pydict) : pydict :=
  copy_present (zunit_node_metadata "test_file" []) metadata ["file_type"; "classification_evidence"; "parser"].

Definition _zunit_suite_node_metadata (metadata : pydict) : pydict :=
  append_metadata_texts (zunit_node_metadata "suite" [("body_modeled", false); ("suite_executed", false)])
    metadata [("suite_kind", "suite_kinds"); ("suite_name_kind", "suite_name_kinds")].

Definition _zunit_test_case_node_metadata (metadata : pydict) : pydict :=
  append_metadata_texts
    (zunit_node_metadata "test_case" [("body_modeled", false); ("test_intent", true); ("test_executed", false)])
    metadata [("test_name_kind", "test_name_kinds"); ("syntax", "syntaxes")].

Definition _zunit_hook_node_metadata (metadata : pydict) : pydict :=
  append_metadata_texts (zunit_node_metadata "hook" [("body_modeled", false); ("hook_executed", false)])
    metadata [("hook_kind", "hook_kinds"); ("hook_scope", "hook_scopes")].

Definition _zunit_command_node_metadata (metadata : pydict) : pydict :=
  let summary := append_metadata_texts
    (zunit_node_metadata "command_under_test"
       [("test_intent", true); ("command_under_test", true); ("command_executed", false)])
    metadata [("command_kind", "command_kinds"); ("argument_summary_kind", "argument_kinds")] in
  list_int summary metadata "argument_count" "argument_counts".

Definition zunit_assertion_texts : list (string * string) :=
  [("assertion_name", "assertion_names"); ("assertion_family", "assertion_families"); ("mode", "modes")].

Definition _zunit_assertion_node_metadata (metadata : pydict) : pydict :=
  let summary := append_metadata_texts
    (zunit_node_metadata "assertion" [("assertion_executed", false); ("test_passed_known", false)])
    metadata zunit_assertion_texts in
  list_int summary metadata "argument_count" "argument_counts".

Definition zunit_expectation_texts : list (string * string) :=
  [("expectation_kind", "expectation_kinds"); ("matcher", "matchers");
   ("expected_value_kind", "expected_value_kinds")].
Definition zunit_expectation_flags : list (string * bool) :=
  [("expectation_checked", false); ("assertion_executed", false); ("test_passed_known", false)].

Definition _zunit_expectation_node_metadata (metadata : pydict) : pydict :=
  append_metadata_texts (zunit_node_metadata "expectation" zunit_expectation_flags) metadata
    zunit_expectation_texts.

Definition zunit_mock_or_stub_texts : list (string * string) :=
  [("target_kind", "target_kinds"); ("behavior_kind", "behavior_kinds")].
Definition zunit_mock_or_stub_flags : list (string * bool) :=
  [("command_executed", false); ("target_executed", false); ("mocks_applied", false); ("stubs_applied", false)].

Definition _zunit_mock_or_stub_node_metadata (metadata : pydict) : pydict :=
  append_metadata_texts (zunit_node_metadata "mock_or_stub" zunit_mock_or_stub_flags) metadata
    zunit_mock_or_stub_texts.

Definition _zunit_base_edge_metadata (metadata : pydict) : pydict :=
  copy_bools _zunit_base_metadata metadata
    [("test_intent", "test_intent_observed"); ("command_under_test", "command_under_test_observed");
     ("command_executed", "command_executed_observed"); ("filesystem_checked", "filesystem_checked_observed")].

(** Flags and texts on top of the base of an edge. *)
Definition zunit_edge_metadata (metadata : pydict) (fs : list (string * bool)) (texts : list (string * string)) :
    pydict :=
  append_metadata_texts (dict_update (_zunit_base_edge_metadata metadata) (flags fs)) metadata texts.

Definition _zunit_helper_edge_metadata (metadata : pydict) : pydict :=
  zunit_edge_metadata metadata
    [("helper_loaded", false); ("file_read", false); ("filesystem_checked", false)]
    [("reference_kind", "reference_kinds"); ("resolution", "resolutions")].

Definition _zunit_fixture_edge_metadata (metadata : pydict) : pydict :=
  zunit_edge_metadata metadata
    [("fixture_loaded", false); ("file_read", false); ("filesystem_checked", false)]
    [("reference_kind", "reference_kinds"); ("resolution", "resolutions")].

Definition _zunit_command_edge_metadata (metadata : pydict) (command_name : pyval) : pydict :=
  let summary := set_one (_zunit_base_edge_metadata metadata) "commands" command_name in
  let summary := dict_update summary
    (flags [("test_intent", true); ("command_under_test", true); ("command_executed", false);
            ("commands_executed", false); ("stdout_known", false); ("stderr_known", false);
            ("status_known", false)]) in
  let summary := append_metadata_texts summary metadata
    [("command_kind", "command_kinds"); ("argument_summary_kind", "argument_kinds")] in
  list_int summary metadata "argument_count" "argument_counts".

Definition _zunit_assertion_edge_metadata (metadata : pydict) : pydict :=
  zunit_edge_metadata metadata [("assertion_executed", false); ("test_passed_known", false)]
    zunit_assertion_texts.

Definition _zunit_expectation_edge_metadata (metadata : pydict) : pydict :=
  zunit_edge_metadata metadata zunit_expectation_flags zunit_expectation_texts.

Definition _zunit_mock_or_stub_edge_metadata (metadata : pydict) : pydict :=
  zunit_edge_metadata metadata zunit_mock_or_stub_flags zunit_mock_or_stub_texts.

(** ** Identities *)

(** [None] when the name is not static or was redacted. *)
Definition zunit_static_identity (o : RawObservation) (name_kind redacted name : string) : pyval :=
  let metadata := obs_metadata o in
  if negb (text_is (_metadata_text metadata name_kind) "static") then VNone
  else if truthy (meta_get metadata redacted) then VNone
  else text_or (_metadata_text metadata name) (obs_name o).

Definition _zunit_static_suite_identity (o : RawObservation) : pyval :=
  zunit_static_identity o "suite_name_kind" "suite_name_redacted" "suite_name".

Definition _zunit_static_test_identity (o : RawObservation) : pyval :=
  zunit_static_identity o "test_name_kind" "test_name_redacted" "test_name".

Definition zunit_file (o : RawObservation) : CM pystr := lift_key (zunit_file_key (PathStr (obs_path o))).

Definition zunit_file_node (o : RawObservation) (source_key : pystr) : node_arg :=
  edge_node source_key "zunit.file" (VStr (obs_path o)) (_zunit_file_node_metadata []).

Definition zunit_in_file (o : RawObservation) : CM node_arg :=
  source_key ← zunit_file o; mret (zunit_file_node o source_key).

Definition zunit_in_suite (o : RawObservation) (suite_name : pystr) : CM node_arg :=
  source_key ← lift_key (zunit_suite_key (PathStr (obs_path o)) suite_name);
  mret (edge_node source_key "zunit.suite" (VStr suite_name)
          (_zunit_suite_node_metadata [(lit "suite_name", VStr suite_name)])).

Definition zunit_in_test (o : RawObservation) (test_name : pystr) : CM node_arg :=
  source_key ← lift_key (zunit_test_case_key (PathStr (obs_path o)) test_name);
  mret (edge_node source_key "zunit.test_case" (VStr test_name)
          (_zunit_test_case_node_metadata [(lit "test_name", VStr test_name)])).

Definition _zunit_test_owner (o : RawObservation) : CM node_arg :=
  match _metadata_text (obs_metadata o) "enclosing_suite" with
  | Some suite_name =>
      if negb (truthy (meta_get (obs_metadata o) "suite_name_redacted")) then zunit_in_suite o suite_name
      else zunit_in_file o
  | None => zunit_in_file o
  end.

Definition zunit_suite_or_file (o : RawObservation) : CM node_arg :=
  match _metadata_text (obs_metadata o) "enclosing_suite" with
  | Some suite_name => zunit_in_suite o suite_name
  | None => zunit_in_file o
  end.

Definition _zunit_context_source (o : RawObservation) : CM node_arg :=
  match _metadata_text (obs_metadata o) "enclosing_test" with
  | Some test_name =>
      if negb (bool_decide (test_name = lit "[dynamic]")) then zunit_in_test o test_name
      else zunit_suite_or_file o
  | None => zunit_suite_or_file o
  end.

(** ** Handlers *)

Definition _canonicalize_zunit_file_observation (o : RawObservation) (ordinal : Z) : CM unit :=
  shell_keys o ordinal
    (source_key ← own_file_key o; target_key ← zunit_file o; mret (source_key, target_key))
    (fun '(source_key, target_key) =>
       relate o (_zunit_evidence_from_observation o ordinal)
         (edge_node source_key "file" (VStr (obs_path o)) [(lit "language", VStr (lit "zunit"))])
         (NodeArg target_key (lit "zunit.file") (VStr (obs_path o))
            (_zunit_file_node_metadata (obs_metadata o)) "observed")
         "defines" (_zunit_base_edge_metadata (obs_metadata o))).

Definition _canonicalize_zunit_suite_observation (o : RawObservation) (ordinal : Z) : CM unit :=
  let suite_identity := _zunit_static_suite_identity o in
  if is_none suite_identity then append_evidence (_zunit_evidence_from_observation o ordinal)
  else
    shell_keys o ordinal
      (source_key ← zunit_file o;
       target_key ← lift_key (zunit_suite_key (PathStr (obs_path o)) (val_text suite_identity));
       mret (source_key, target_key))
      (fun '(source_key, target_key) =>
         _append_two_node_edge o (_zunit_evidence_from_observation o ordinal)
           (zunit_file_node o source_key)
           (edge_node target_key "zunit.suite" suite_identity (_zunit_suite_node_metadata (obs_metadata o)))
           "contains" (_zunit_base_edge_metadata (obs_metadata o))).

Definition _canonicalize_zunit_test_case_observation (o : RawObservation) (ordinal : Z) : CM unit :=
  let test_identity := _zunit_static_test_identity o in
  if is_none test_identity then append_evidence (_zunit_evidence_from_observation o ordinal)
  else
    shell_keys o ordinal
      (source ← _zunit_test_owner o;
       target_key ← lift_key (zunit_test_case_key (PathStr (obs_path o)) (val_text test_identity));
       mret (source, target_key))
      (fun '(source, target_key) =>
         _append_two_node_edge o (_zunit_evidence_from_observation o ordinal)
           source
           (edge_node target_key "zunit.test_case" test_identity
              (_zunit_test_case_node_metadata (obs_metadata o)))
           (if bool_decide (na_kind source = lit "zunit.suite") then "has_test_case" else "contains")
           (_zunit_base_edge_metadata (obs_metadata o))).

Definition _canonicalize_zunit_hook_observation (o : RawObservation) (ordinal : Z) : CM unit :=
  let hook_name := text_or (_metadata_text (obs_metadata o) "hook_name") (obs_name o) in
  if is_none hook_name || val_is hook_name "[dynamic]" then
    append_evidence (_zunit_evidence_from_observation o ordinal)
  else
    shell_keys o ordinal
      (source_key ← zunit_file o;
       target_key ← lift_key (zunit_hook_key (PathStr (obs_path o)) (val_text hook_name) (start_line_arg o));
       mret (source_key, target_key))
      (fun '(source_key, target_key) =>
         _append_two_node_edge o (_zunit_evidence_from_observation o ordinal)
           (zunit_file_node o source_key)
           (edge_node target_key "zunit.hook" hook_name (_zunit_hook_node_metadata (obs_metadata o)))
           "has_hook" (_zunit_base_edge_metadata (obs_metadata o))).

Definition _canonicalize_zunit_helper_observation (o : RawObservation) (ordinal : Z) : CM unit :=
  match _metadata_text (obs_metadata o) "resolved_path" with
  | Some target_path =>
      if negb (target_is_static o) then append_evidence (_zunit_evidence_from_observation o ordinal)
      else
        shell_keys o ordinal
          (source_key ← zunit_file o;
           target_key ← lift_key (file_key (PathStr target_path));
           mret (source_key, target_key))
          (fun '(source_key, target_key) =>
             _append_two_node_edge o (_zunit_evidence_from_observation o ordinal)
               (zunit_file_node o source_key) (edge_node target_key "file" (VStr target_path) [])
               "uses_helper" (_zunit_helper_edge_metadata (obs_metadata o)))
  | None => append_evidence (_zunit_evidence_from_observation o ordinal)
  end.

Definition _canonicalize_zunit_fixture_reference_observation (o : RawObservation) (ordinal : Z) : CM unit :=
  match _metadata_text (obs_metadata o) "resolved_path" with
  | Some target_path =>
      if negb (target_is_static o) then append_evidence (_zunit_evidence_from_observation o ordinal)
      else
        shell_keys o ordinal
          (source ← _zunit_context_source o;
           target_key ← lift_key (file_key (PathStr target_path));
           mret (source, target_key))
          (fun '(source, target_key) =>
             _append_two_node_edge o (_zunit_evidence_from_observation o ordinal)
               source (edge_node target_key "file" (VStr target_path) [])
               "uses_fixture" (_zunit_fixture_edge_metadata (obs_metadata o)))
  | None => append_evidence (_zunit_evidence_from_observation o ordinal)
  end.

(** Three nodes, linked in order, and an edge from the first to the last. *)
Definition relate_through (o : RawObservation) (evidence : CanonicalEvidence) (source middle target : node_arg)
    (kind : string) (metadata : pydict) : CM unit :=
  let evidence_key := v_evidence_key evidence in
  _ ← append_evidence evidence;
  _ ← upsert_arg o source;
  _ ← upsert_arg o middle;
  _ ← upsert_arg o target;
  _ ← link_arg evidence_key source;
  _ ← link_arg evidence_key middle;
  _ ← link_arg evidence_key target;
  support_edge o evidence_key (na_key source) kind (na_key target) metadata.

Definition _canonicalize_zunit_command_under_test_observation (o : RawObservation) (ordinal : Z) : CM unit :=
  let command_name := text_or (_metadata_text (obs_metadata o) "command_name") (obs_name o) in
  if is_none command_name || val_is command_name "[dynamic]"
     || negb (text_is (_metadata_text (obs_metadata o) "target_kind") "command")
  then append_evidence (_zunit_evidence_from_observation o ordinal)
  else
    shell_keys o ordinal
      (source ← _zunit_context_source o;
       command_key ← lift_key (zunit_command_under_test_key (PathStr (obs_path o)) (start_line_arg o)
                                 (val_text command_name));
       tool_target_key ← lift_key (tool_key (val_text command_name));
       mret (source, command_key, tool_target_key))
      (fun '(source, command_key, tool_target_key) =>
         relate_through o (_zunit_evidence_from_observation o ordinal)
           source
           (NodeArg command_key (lit "zunit.command_under_test") command_name
              (_zunit_command_node_metadata (obs_metadata o)) "observed")
           (edge_node tool_target_key "tool" command_name [])
           "command_under_test" (_zunit_command_edge_metadata (obs_metadata o) command_name)).

Definition _canonicalize_zunit_assertion_observation (o : RawObservation) (ordinal : Z) : CM unit :=
  let assertion_name := text_or (_metadata_text (obs_metadata o) "assertion_name") (obs_name o) in
  if is_none assertion_name || val_is assertion_name "[dynamic]" then
    append_evidence (_zunit_evidence_from_observation o ordinal)
  else
    shell_keys o ordinal
      (source ← _zunit_context_source o;
       target_key ← lift_key (zunit_assertion_key (PathStr (obs_path o)) (start_line_arg o)
                                (val_text assertion_name));
       mret (source, target_key))
      (fun '(source, target_key) =>
         _append_two_node_edge o (_zunit_evidence_from_observation o ordinal)
           source
           (edge_node target_key "zunit.assertion" assertion_name
              (_zunit_assertion_node_metadata (obs_metadata o)))
           "has_assertion" (_zunit_assertion_edge_metadata (obs_metadata o))).

Definition _canonicalize_zunit_expectation_observation (o : RawObservation) (ordinal : Z) : CM unit :=
  match _metadata_text (obs_metadata o) "expectation_kind" with
  | Some expectation_kind =>
      if one_of expectation_kind ["dynamic"; "redacted"] then
        append_evidence (_zunit_evidence_from_observation o ordinal)
      else
        shell_keys o ordinal
          (source ← _zunit_context_source o;
           target_key ← lift_key (zunit_expectation_key (PathStr (obs_path o)) (start_line_arg o)
                                    expectation_kind);
           mret (source, target_key))
          (fun '(source, target_key) =>
             _append_two_node_edge o (_zunit_evidence_from_observation o ordinal)
               source
               (edge_node target_key "zunit.expectation" (VStr expectation_kind)
                  (_zunit_expectation_node_metadata (obs_metadata o)))
               "expects" (_zunit_expectation_edge_metadata (obs_metadata o)))
  | None => append_evidence (_zunit_evidence_from_observation o ordinal)
  end.

(** The mock or the stub of a command. *)
Definition zunit_replacement (o : RawObservation) (command_name : pyval) : CM node_arg :=
  let metadata := _zunit_mock_or_stub_node_metadata (obs_metadata o) in
  if kind_is o "zunit.mock" then
    target_key ← lift_key (zunit_mock_key (PathStr (obs_path o)) (start_line_arg o) (val_text command_name));
    mret (edge_node target_key "zunit.mock" command_name metadata)
  else
    target_key ← lift_key (zunit_stub_key (PathStr (obs_path o)) (start_line_arg o) (val_text command_name));
    mret (edge_node target_key "zunit.stub" command_name metadata).

Definition _canonicalize_zunit_mock_or_stub_observation (o : RawObservation) (ordinal : Z) : CM unit :=
  let command_name :=
    text_or (first_text (obs_metadata o) ["target_command"; "command_name"]) (obs_name o) in
  if is_none command_name || negb (text_is (_metadata_text (obs_metadata o) "target_kind") "command") then
    append_evidence (_zunit_evidence_from_observation o ordinal)
  else
    shell_keys o ordinal
      (source_key ← zunit_file o;
       target ← zunit_replacement o command_name;
       mret (source_key, target))
      (fun '(source_key, target) =>
         _append_two_node_edge o (_zunit_evidence_from_observation o ordinal)
           (zunit_file_node o source_key) target
           (if kind_is o "zunit.mock" then "uses_mock" else "uses_stub")
           (_zunit_mock_or_stub_edge_metadata (obs_metadata o))).

(** Whether the observation was handled. *)
Definition _try_canonicalize_zunit_observation (o : RawObservation) (ordinal : Z) : option (CM unit) :=
  if negb (_is_zunit_observation o) then None
  else if kind_is o "zunit.file" then Some (_canonicalize_zunit_file_observation o ordinal)
  else if kind_is o "zunit.suite" then Some (_canonicalize_zunit_suite_observation o ordinal)
  else if kind_is o "zunit.test_case" then Some (_canonicalize_zunit_test_case_observation o ordinal)
  else if one_of (obs_kind o)
            ["zunit.setup"; "zunit.teardown"; "zunit.before_each"; "zunit.after_each"; "zunit.hook"] then
    Some (_canonicalize_zunit_hook_observation o ordinal)
  else if kind_is o "zunit.helper" then Some (_canonicalize_zunit_helper_observation o ordinal)
  else if kind_is o "zunit.fixture_reference" then
    Some (_canonicalize_zunit_fixture_reference_observation o ordinal)
  else if kind_is o "zunit.command_under_test" then
    Some (_canonicalize_zunit_command_under_test_observation o ordinal)
  else if kind_is o "zunit.assertion" then Some (_canonicalize_zunit_assertion_observation o ordinal)
  else if kind_is o "zunit.expectation" then Some (_canonicalize_zunit_expectation_observation o ordinal)
  else if one_of (obs_kind o) ["zunit.mock"; "zunit.stub"] then
    Some (_canonicalize_zunit_mock_or_stub_observation o ordinal)
  else if one_of (obs_kind o) ZUNIT_RAW_ONLY_KINDS then
    Some (append_evidence (_zunit_evidence_from_observation o ordinal))
  else None.

(** ** The handlers keep the invariant *)

Lemma zunit_file_quiet o n : quiet n (zunit_file o) (key_in "zunit.file") key_failure.
Proof. unfold zunit_file. quiet_go. Qed.

Lemma zunit_file_node_ok o sk : key_in "zunit.file" sk -> arg_ok (zunit_file_node o sk).
Proof. apply edge_node_ok. Qed.
#[local] Hint Resolve zunit_file_quiet zunit_file_node_ok : canon.

Lemma zunit_test_owner_quiet o n : quiet n (_zunit_test_owner o) arg_ok key_failure.
Proof. unfold _zunit_test_owner, zunit_in_suite, zunit_in_file. quiet_go. Qed.

Lemma zunit_context_source_quiet o n : quiet n (_zunit_context_source o) arg_ok key_failure.
Proof.
  unfold _zunit_context_source, zunit_suite_or_file, zunit_in_suite, zunit_in_test, zunit_in_file. quiet_go.
Qed.
#[local] Hint Resolve zunit_test_owner_quiet zunit_context_source_quiet : canon.

Lemma zunit_replacement_quiet o n v : quiet n (zunit_replacement o v) arg_ok key_failure.
Proof. unfold zunit_replacement. quiet_go. Qed.
#[local] Hint Resolve zunit_replacement_quiet : canon.

Lemma wf_relate_through es s o ev source middle target kind metadata :
  wf [] [] es s -> arg_ok source -> arg_ok middle -> arg_ok target -> kind ∈ CANONICAL_EDGE_KINDS ->
  obs_confidence o ∈ VALID_CONFIDENCES ->
  exists s', relate_through o ev source middle target kind metadata s = (Ok tt, s') /\
             wf [] [] (es ++ [ev]) s' /\ cs_diagnostics s' = cs_diagnostics s.
Proof.
  intros Hwf Hs Hm Ht Hk Hc.
  assert (He : v_evidence_key ev ∈ v_evidence_key <$> es ++ [ev])
    by (rewrite fmap_app; apply elem_of_app; right; by apply list_elem_of_singleton).
  destruct (wf_append_evidence _ _ _ _ ev Hwf) as (s1 & E1 & W1 & _ & D1).
  destruct (wf_upsert_arg _ _ _ _ o _ W1 Hs Hc) as (s2 & E2 & W2 & K2 & _ & D2).
  destruct (wf_upsert_arg _ _ _ _ o _ W2 Hm Hc) as (s3 & E3 & W3 & K3 & M3 & D3).
  destruct (wf_upsert_arg _ _ _ _ o _ W3 Ht Hc) as (s4 & E4 & W4 & K4 & M4 & D4).
  destruct (wf_link_arg _ _ _ _ _ source W4 ltac:(auto) He) as (s5 & E5 & W5 & L5 & _ & N5 & D5).
  destruct (wf_link_arg _ _ _ _ _ middle W5 ltac:(rewrite N5; auto) He) as (s6 & E6 & W6 & L6 & M6 & N6 & D6).
  destruct (wf_link_arg _ _ _ _ _ target W6 ltac:(rewrite N6, N5; auto) He)
    as (s7 & E7 & W7 & L7 & M7 & N7 & D7).
  destruct (wf_support_edge _ _ _ _ o _ (na_key source) kind (na_key target) metadata W7 Hk
              ltac:(rewrite N7, N6, N5; auto) ltac:(rewrite N7, N6, N5; auto) Hc He)
    as (s8 & E8 & W8 & _ & D8 & L8).
  exists s8. unfold relate_through, mbind, cm_bind. rewrite E1, E2, E3, E4, E5, E6, E7, E8.
  split_and!; [done| |congruence].
  assert (Hl : forall k, node_linked s7 k -> node_linked s8 k) by (unfold node_linked; by rewrite L8).
  eapply wf_node_done, Hl, M7, M6, L5. eapply wf_node_done, Hl, M7, L6. eapply wf_node_done, Hl, L7. exact W8.
Qed.

Lemma recorded_relate_through o n X md source middle target kind metadata :
  arg_ok source -> arg_ok middle -> arg_ok target -> kind ∈ CANONICAL_EDGE_KINDS ->
  obs_confidence o ∈ VALID_CONFIDENCES ->
  recorded o n X (relate_through o (_evidence_from_observation o n md) source middle target kind metadata).
Proof.
  intros Hs Hm Ht Hk Hc es s Hwf.
  destruct (wf_relate_through _ _ o (_evidence_from_observation o n md) _ _ _ _ metadata Hwf Hs Hm Ht Hk Hc)
    as (s1 & E1 & W1 & D1). unfold wp. rewrite E1.
  eapply (accounted_one _ _ _ _ _ _ []); [by rewrite app_nil_r|by apply Forall_nil| |exact W1].
  apply evidence_from_observation_for.
Qed.

Lemma zunit_file_recorded o n :
  typed_observation o -> recorded o n unicode_failure (_canonicalize_zunit_file_observation o n).
Proof. shell_handler. Qed.

Lemma zunit_suite_recorded o n :
  typed_observation o -> recorded o n unicode_failure (_canonicalize_zunit_suite_observation o n).
Proof. unfold _canonicalize_zunit_suite_observation. shell_handler. Qed.

Lemma zunit_test_case_recorded o n :
  typed_observation o -> recorded o n unicode_failure (_canonicalize_zunit_test_case_observation o n).
Proof. unfold _canonicalize_zunit_test_case_observation. shell_handler. Qed.

Lemma zunit_hook_recorded o n :
  typed_observation o -> recorded o n unicode_failure (_canonicalize_zunit_hook_observation o n).
Proof. unfold _canonicalize_zunit_hook_observation. shell_handler. Qed.

Lemma zunit_helper_recorded o n :
  typed_observation o -> recorded o n unicode_failure (_canonicalize_zunit_helper_observation o n).
Proof. unfold _canonicalize_zunit_helper_observation. shell_handler. Qed.

Lemma zunit_fixture_reference_recorded o n :
  typed_observation o -> recorded o n unicode_failure (_canonicalize_zunit_fixture_reference_observation o n).
Proof. unfold _canonicalize_zunit_fixture_reference_observation. shell_handler. Qed.

Lemma zunit_command_under_test_recorded o n :
  typed_observation o -> recorded o n unicode_failure (_canonicalize_zunit_command_under_test_observation o n).
Proof.
  intros [Hv _ _]. unfold _canonicalize_zunit_command_under_test_observation. cbv zeta.
  destruct (_ || _ || _); [apply recorded_evidence|].
  eapply recorded_with_keys with
    (P := fun r => arg_ok r.1.1 /\ key_in "zunit.command_under_test" r.1.2 /\ key_in "tool" r.2); [done| |].
  - eapply quiet_bind; [apply zunit_context_source_quiet|intros source Hs].
    eapply quiet_bind; [eapply quiet_built_key; prove_builds|intros ck Hk].
    eapply quiet_bind; [eapply quiet_built_key; prove_builds|intros tk Ht]. by apply quiet_ret.
  - intros [[source ck] tk] (Hs & Hk & Ht). cbn [fst snd] in *. apply recorded_relate_through; eauto with canon.
Qed.

Lemma zunit_assertion_recorded o n :
  typed_observation o -> recorded o n unicode_failure (_canonicalize_zunit_assertion_observation o n).
Proof. unfold _canonicalize_zunit_assertion_observation. shell_handler. Qed.

Lemma zunit_expectation_recorded o n :
  typed_observation o -> recorded o n unicode_failure (_canonicalize_zunit_expectation_observation o n).
Proof. unfold _canonicalize_zunit_expectation_observation. shell_handler. Qed.

Lemma zunit_mock_or_stub_recorded o n :
  typed_observation o -> recorded o n unicode_failure (_canonicalize_zunit_mock_or_stub_observation o n).
Proof. unfold _canonicalize_zunit_mock_or_stub_observation. shell_handler. Qed.

#[local] Hint Resolve zunit_file_recorded zunit_suite_recorded zunit_test_case_recorded zunit_hook_recorded
  zunit_helper_recorded zunit_fixture_reference_recorded zunit_command_under_test_recorded
  zunit_assertion_recorded zunit_expectation_recorded zunit_mock_or_stub_recorded : handlers.

Lemma zunit_recorded o n m :
  typed_observation o -> _try_canonicalize_zunit_observation o n = Some m -> recorded o n (escapes o) m.
Proof. intros Ho. unfold _try_canonicalize_zunit_observation. dispatches. Qed.

End Zunit.
