(* ===== verification/CanonZsh.v ===== *)
(** Zsh: [canonicalization/shell_zsh_family.py], [_shell_zsh_intents.py],
    [shell_zsh_metadata.py] and [shell_zsh_support.py]. *)
From S2P Require Import Prelude Utf8 PyVal Json PyRepr PyDictFacts GraphKeys GraphKeysFacts KeyBuilders.
From S2P Require Import Observations ObservationsFacts CanonCore CanonState CanonInvariant CanonLogic.
From S2P Require Import CanonShared CanonShell.
Open Scope Z_scope.

(** [evidence_helpers.py] and [dispatch_helpers.py] *)
Definition ZSH_EVIDENCE_OMIT_KEYS : list string :=
  ["raw"; "value"; "values"; "source"; "source_text"; "raw_source"; "target_token"; "target_display";
   "argument_display"; "value_summary"; "context_pattern"; "path_display"; "pattern_summary"; "resolved_path";
   "theme_name"; "compdef_target"; "completion_name"; "plugin_name"; "module_name"; "function_names"].

Definition ZSH_RAW_ONLY_KINDS : list string :=
  ["zsh.option"; "zsh.fpath"; "zsh.zstyle"; "zsh.bindkey"; "zsh.compinit"; "zsh.theme"; "zsh.prompt";
   "zsh.array_assignment"; "zsh.associative_array_assignment"; "zsh.parameter_expansion";
   "zsh.glob_qualifier"; "zsh.extended_glob"; "zsh.path_reference"; "zsh.dynamic_invocation";
   "shell.assignment"; "shell.export"; "shell.command_argument"; "shell.pipeline"; "shell.command_chain";
   "shell.redirect"; "shell.heredoc"; "shell.process_substitution"; "shell.command_substitution";
   "shell.dynamic_invocation"; "shell.secret_like"].

Section Zsh.
Context {U : Unicode}.

Definition _is_zsh_observation (o : RawObservation) : bool :=
  if meta_is (obs_metadata o) "test_framework" "zunit" then false
  else kind_starts o "zsh." || meta_is (obs_metadata o) "language" "zsh"
       || meta_is (obs_metadata o) "dialect" "zsh".

Definition _zsh_evidence_from_observation (o : RawObservation) (ordinal : Z) : CanonicalEvidence :=
  _shell_evidence o ordinal ZSH_EVIDENCE_OMIT_KEYS.

(** ** Metadata *)

Definition _zsh_base_metadata : pydict :=
  [(lit "language", VStr (lit "zsh")); (lit "dialect", VStr (lit "zsh"))] ++
  flags [("static_only", true); ("shell_executed", false); ("zsh_executed", false);
         ("startup_executed", false); ("plugins_loaded", false)].

Definition _zsh_container_node_metadata : pydict := set_str _zsh_base_metadata "node_role" "script".

Definition _zsh_script_node_metadata (metadata : pydict) : pydict :=
  set_bool (copy_present _zsh_container_node_metadata metadata
              ["file_type"; "classification_evidence"; "parser"])
    "shebang_present" (shebang_present metadata).

Definition _zsh_function_node_metadata (metadata : pydict) : pydict :=
  append_metadata_texts (set_bool (set_str _zsh_base_metadata "node_role" "function") "body_modeled" false)
    metadata [("syntax", "syntaxes"); ("zsh_function_kind", "zsh_function_kinds")].

Definition _zsh_define_edge_metadata (metadata : pydict) : pydict :=
  copy_sequence
    (append_metadata_texts _zsh_base_metadata metadata [("syntax", "syntaxes"); ("file_type", "file_types")])
    metadata "classification_evidence" "classification_evidence".

Definition _zsh_startup_edge_metadata (metadata : pydict) : pydict :=
  append_metadata_texts (set_bool _zsh_base_metadata "profile_loaded" false) metadata
    [("startup_file_kind", "startup_file_kinds"); ("startup_order", "startup_orders")].

Definition _zsh_source_edge_metadata (metadata : pydict) : pydict :=
  append_metadata_texts (set_bool (set_bool _zsh_base_metadata "source_executed" false) "file_read" false)
    metadata [("syntax", "syntaxes"); ("target_kind", "target_kinds")].

Definition _zsh_command_edge_metadata (metadata : pydict) (command_name : pyval) : pydict :=
  let summary := set_bool (set_one _zsh_base_metadata "commands" command_name) "command_executed" false in
  let summary := append_metadata_texts summary metadata
    [("command_family", "command_families"); ("wrapper_command", "wrapper_commands");
     ("wrapped_command", "wrapped_commands")] in
  let summary := list_ints summary metadata
    [("argument_count", "argument_counts"); ("pipeline_index", "pipeline_indexes");
     ("chain_index", "chain_indexes")] in
  copy_bool summary metadata "configuration_intent" "configuration_intent".

Definition _zsh_autoload_edge_metadata (metadata : pydict) (function_name : pystr) : pydict :=
  let summary := set_one _zsh_base_metadata "functions" (VStr function_name) in
  let summary := dict_update summary
    (flags [("autoload_executed", false); ("function_loaded", false); ("filesystem_checked", false)]) in
  _append_metadata_text (copy_sequence summary metadata "flags" "flags") metadata "target_kind" "target_kinds".

Definition _zsh_module_edge_metadata (metadata : pydict) (module_name : pyval) : pydict :=
  append_metadata_texts (set_bool (set_one _zsh_base_metadata "modules" module_name) "module_loaded" false)
    metadata [("operation", "operations"); ("target_kind", "target_kinds")].

Definition _zsh_completion_edge_metadata (metadata : pydict) (completion_name : pyval) : pydict :=
  let summary := set_one _zsh_base_metadata "completions" completion_name in
  let summary := dict_update summary (flags [("completion_loaded", false); ("compinit_executed", false)]) in
  copy_bool summary metadata "uses_arguments" "uses_arguments".

Definition _zsh_plugin_edge_base_metadata : pydict :=
  dict_update _zsh_base_metadata
    (flags [("configuration_intent", true); ("plugin_loaded", false); ("plugin_installed", false);
            ("network_called", false); ("plugins_loaded", false)]).

Definition _zsh_plugin_manager_edge_metadata (metadata : pydict) (manager : pyval) : pydict :=
  _append_metadata_text (set_one _zsh_plugin_edge_base_metadata "managers" manager) metadata
    "declaration_kind" "declaration_kinds".

Definition _zsh_plugin_edge_metadata (metadata : pydict) (manager : pystr) (plugin_name : pyval) : pydict :=
  _append_metadata_text
    (set_one (set_one _zsh_plugin_edge_base_metadata "managers" (VStr manager)) "plugins" plugin_name) metadata
    "declaration_kind" "declaration_kinds".

Definition _zsh_runtime_intent_edge_metadata (metadata : pydict) : pydict :=
  _append_metadata_text
    (dict_update _zsh_base_metadata
       (flags [("configuration_intent", true); ("runtime_intent", true); ("command_executed", false);
               ("network_called", false); ("package_manager_executed", false); ("filesystem_checked", false);
               ("file_opened", false); ("file_mutated", false); ("host_mutation_proven", false);
               ("plugin_loaded", false); ("plugin_installed", false); ("plugins_loaded", false)]))
    metadata "startup_file_kind" "startup_file_kinds".

Definition _zsh_env_edge_metadata (metadata : pydict) (observation_kind : pystr) : pydict :=
  let operation := if bool_decide (observation_kind = lit "shell.env_read") then lit "read" else lit "write" in
  _append_metadata_text (set_one (_zsh_runtime_intent_edge_metadata metadata) "operations" (VStr operation))
    metadata "operation" "raw_operations".

Definition _zsh_file_intent_edge_metadata (metadata : pydict) (observation_kind : pystr) : pydict :=
  let effect := if bool_decide (observation_kind = lit "shell.file_read") then lit "read" else lit "write" in
  append_metadata_texts (set_one (_zsh_runtime_intent_edge_metadata metadata) "file_effects" (VStr effect))
    metadata [("operation", "operations"); ("target_kind", "target_kinds")].

Definition _zsh_network_edge_metadata (metadata : pydict) : pydict :=
  append_metadata_texts (set_bool (_zsh_runtime_intent_edge_metadata metadata) "network_called" false) metadata
    [("command_name", "commands"); ("operation", "operations"); ("target_kind", "target_kinds")].

Definition _zsh_package_edge_metadata (metadata : pydict) (manager : pyval) : pydict :=
  append_metadata_texts
    (set_bool (set_one (_zsh_runtime_intent_edge_metadata metadata) "package_managers" manager)
       "package_manager_executed" false)
    metadata [("operation", "operations"); ("target_kind", "target_kinds")].

Definition _zsh_host_mutation_edge_metadata (metadata : pydict) : pydict :=
  copy_bool
    (append_metadata_texts (_zsh_runtime_intent_edge_metadata metadata) metadata
       [("mutation_category", "mutation_categories"); ("operation", "operations");
        ("command_name", "commands"); ("target_kind", "target_kinds")])
    metadata "destructive" "destructive_observed".

(** ** Targets *)

Definition _zsh_command_name (o : RawObservation) : CM pyval :=
  command_name_of o ["command_name"; "normalized_command"; "original_token"]
    (fun parsed => bool_decide (namespace parsed = lit "tool")).

Definition _zsh_source_target_key (o : RawObservation) : CM (option pystr) :=
  if negb (target_is_static o) then mret None else named_file_target o.

Definition _zsh_file_intent_target_key (o : RawObservation) : CM (option pystr) := static_file_target o.

(** The command, with its target when it is safe to show. *)
Definition _zsh_network_target_name (o : RawObservation) : pyval :=
  if negb (target_is_static o) then VNone
  else
    let command_name := value_or (obs_name o) (_metadata_text (obs_metadata o) "command_name") in
    if is_none command_name then VNone
    else
      match _metadata_text (obs_metadata o) "target_display" with
      | None => command_name
      | Some target_display =>
          if one_of target_display ["[dynamic]"; "[redacted]"; "[unknown]"] then command_name
          else if char_in 10 target_display || (120 <? Z.of_nat (length target_display)) then VNone
          else VStr (str_of_val command_name ++ [COLON] ++ target_display)
      end.

(** ** Handlers *)

Definition zsh_script (o : RawObservation) : CM pystr := lift_key (zsh_script_key (PathStr (obs_path o))).

Definition zsh_script_node (o : RawObservation) (source_key : pystr) : node_arg :=
  edge_node source_key "zsh.script" (VStr (obs_path o)) _zsh_container_node_metadata.

(** An edge from the script to another node. *)
Definition zsh_edge (o : RawObservation) (ordinal : Z) (source_key : pystr) (target : node_arg)
    (edge_kind : string) (edge_metadata : pydict) : CM unit :=
  _append_two_node_edge o (_zsh_evidence_from_observation o ordinal)
    (zsh_script_node o source_key) target edge_kind edge_metadata.

(** An external node of a domain. *)
Definition zsh_external_node (target_key : pystr) (domain : string) (display : pyval) : node_arg :=
  edge_node target_key "external" display [(lit "domain", VStr (lit domain))].

Definition _canonicalize_zsh_script_observation (o : RawObservation) (ordinal : Z) : CM unit :=
  shell_keys o ordinal
    (source_key ← own_file_key o; target_key ← zsh_script o; mret (source_key, target_key))
    (fun '(source_key, target_key) =>
       relate o (_zsh_evidence_from_observation o ordinal)
         (edge_node source_key "file" (VStr (obs_path o)) [(lit "language", VStr (lit "zsh"))])
         (NodeArg target_key (lit "zsh.script") (VStr (obs_path o))
            (_zsh_script_node_metadata (obs_metadata o)) "observed")
         "defines" (_zsh_define_edge_metadata (obs_metadata o))).

Definition _canonicalize_zsh_startup_file_observation (o : RawObservation) (ordinal : Z) : CM unit :=
  let startup_kind := value_or (obs_name o)
    (Some (default (lit "unknown") (_metadata_text (obs_metadata o) "startup_file_kind"))) in
  shell_keys o ordinal
    (source_key ← zsh_script o;
     target_key ← lift_key (external_key (lit "zsh.startup_file") (val_text startup_kind));
     mret (source_key, target_key))
    (fun '(source_key, target_key) =>
       zsh_edge o ordinal source_key (zsh_external_node target_key "zsh.startup_file" startup_kind)
         "configures" (_zsh_startup_edge_metadata (obs_metadata o))).

Definition _canonicalize_zsh_function_observation (o : RawObservation) (ordinal : Z) : CM unit :=
  let function_name := value_or (obs_name o) (_metadata_text (obs_metadata o) "function_name") in
  if is_none function_name then append_evidence (_zsh_evidence_from_observation o ordinal)
  else
    shell_keys o ordinal
      (source_key ← zsh_script o;
       target_key ← lift_key (zsh_function_key (PathStr (obs_path o)) (val_text function_name));
       mret (source_key, target_key))
      (fun '(source_key, target_key) =>
         zsh_edge o ordinal source_key
           (edge_node target_key "zsh.function" function_name (_zsh_function_node_metadata (obs_metadata o)))
           "defines" (_zsh_define_edge_metadata (obs_metadata o))).

Definition _canonicalize_zsh_command_observation (o : RawObservation) (ordinal : Z) : CM unit :=
  command_name ← _zsh_command_name o;
  if is_none command_name then append_evidence (_zsh_evidence_from_observation o ordinal)
  else
    shell_keys o ordinal
      (source_key ← zsh_script o;
       target_key ← lift_key (tool_key (val_text command_name));
       mret (source_key, target_key))
      (fun '(source_key, target_key) =>
         zsh_edge o ordinal source_key (edge_node target_key "tool" command_name [])
           "command_intent" (_zsh_command_edge_metadata (obs_metadata o) command_name)).

Definition _canonicalize_zsh_source_observation (o : RawObservation) (ordinal : Z) : CM unit :=
  target ← _zsh_source_target_key o;
  match target with
  | None => append_evidence (_zsh_evidence_from_observation o ordinal)
  | Some target_key =>
      shell_keys o ordinal
        (source_key ← zsh_script o; _ ← parse_text target_key; mret source_key)
        (fun source_key =>
           zsh_edge o ordinal source_key (keyed_node target_key [] "inferred_from_edge")
             "includes" (_zsh_source_edge_metadata (obs_metadata o)))
  end.

(** The loop over the function names; each of them appends the evidence of the
    observation again. *)
Fixpoint zsh_autoload_loop (o : RawObservation) (ordinal : Z) (function_names : list pyval) (appended : bool) :
    CM unit :=
  match function_names with
  | [] => if appended then mret tt else append_evidence (_zsh_evidence_from_observation o ordinal)
  | value :: rest =>
      match nonblank_text value with
      | None => zsh_autoload_loop o ordinal rest appended
      | Some function_name =>
          shell_keys o ordinal
            (source_key ← zsh_script o;
             target_key ← lift_key (external_key (lit "zsh.autoload") function_name);
             mret (source_key, target_key))
            (fun '(source_key, target_key) =>
               _ ← zsh_edge o ordinal source_key
                     (zsh_external_node target_key "zsh.autoload" (VStr function_name))
                     "configures" (_zsh_autoload_edge_metadata (obs_metadata o) function_name);
               zsh_autoload_loop o ordinal rest true)
      end
  end.

Definition _canonicalize_zsh_autoload_observation (o : RawObservation) (ordinal : Z) : CM unit :=
  if negb (target_is_static o) then append_evidence (_zsh_evidence_from_observation o ordinal)
  else
    match seq_items (meta_get (obs_metadata o) "function_names") with
    | None => append_evidence (_zsh_evidence_from_observation o ordinal)
    | Some function_names => zsh_autoload_loop o ordinal function_names false
    end.

Definition _canonicalize_zsh_zmodload_observation (o : RawObservation) (ordinal : Z) : CM unit :=
  let module_name := value_or (obs_name o) (_metadata_text (obs_metadata o) "module_name") in
  excluded ← val_in_set module_name ["list"; "[dynamic]"; "[redacted]"; "[unknown]"];
  if is_none module_name || excluded || negb (target_is_static o) then
    append_evidence (_zsh_evidence_from_observation o ordinal)
  else
    shell_keys o ordinal
      (source_key ← zsh_script o;
       target_key ← lift_key (external_key (lit "zsh.module") (val_text module_name));
       mret (source_key, target_key))
      (fun '(source_key, target_key) =>
         zsh_edge o ordinal source_key (zsh_external_node target_key "zsh.module" module_name)
           "uses_zsh_module" (_zsh_module_edge_metadata (obs_metadata o) module_name)).

Definition _canonicalize_zsh_completion_function_observation (o : RawObservation) (ordinal : Z) : CM unit :=
  let completion_name := value_or (obs_name o) (_metadata_text (obs_metadata o) "completion_name") in
  if is_none completion_name then append_evidence (_zsh_evidence_from_observation o ordinal)
  else
    shell_keys o ordinal
      (source_key ← zsh_script o;
       target_key ← lift_key (external_key (lit "zsh.completion") (val_text completion_name));
       mret (source_key, target_key))
      (fun '(source_key, target_key) =>
         zsh_edge o ordinal source_key (zsh_external_node target_key "zsh.completion" completion_name)
           "completion_for" (_zsh_completion_edge_metadata (obs_metadata o) completion_name)).

Definition _canonicalize_zsh_plugin_manager_observation (o : RawObservation) (ordinal : Z) : CM unit :=
  let manager := value_or (obs_name o) (_metadata_text (obs_metadata o) "manager") in
  excluded ← val_in_set manager ["[dynamic]"; "[redacted]"; "[unknown]"];
  if is_none manager || excluded then append_evidence (_zsh_evidence_from_observation o ordinal)
  else
    shell_keys o ordinal
      (source_key ← zsh_script o;
       target_key ← lift_key (external_key (lit "zsh.plugin_manager") (val_text manager));
       mret (source_key, target_key))
      (fun '(source_key, target_key) =>
         zsh_edge o ordinal source_key (zsh_external_node target_key "zsh.plugin_manager" manager)
           "uses_plugin_manager" (_zsh_plugin_manager_edge_metadata (obs_metadata o) manager)).

Definition _canonicalize_zsh_plugin_observation (o : RawObservation) (ordinal : Z) : CM unit :=
  let plugin_name := value_or (obs_name o) (_metadata_text (obs_metadata o) "plugin_name") in
  let manager := default (lit "unknown") (_metadata_text (obs_metadata o) "manager") in
  excluded ← val_in_set plugin_name ["[dynamic]"; "[redacted]"; "[unknown]"];
  if is_none plugin_name || excluded then append_evidence (_zsh_evidence_from_observation o ordinal)
  else
    shell_keys o ordinal
      (source_key ← zsh_script o;
       target_key ← lift_key (external_key (lit "zsh.plugin") (manager ++ [COLON] ++ str_of_val plugin_name));
       mret (source_key, target_key))
      (fun '(source_key, target_key) =>
         zsh_edge o ordinal source_key
           (edge_node target_key "external" plugin_name
              [(lit "domain", VStr (lit "zsh.plugin")); (lit "manager", VStr manager)])
           "uses_plugin" (_zsh_plugin_edge_metadata (obs_metadata o) manager plugin_name)).

(** *** Intents *)

Definition _canonicalize_zsh_env_observation (o : RawObservation) (ordinal : Z) : CM unit :=
  let variable := value_or (obs_name o) (_metadata_text (obs_metadata o) "variable") in
  if is_none variable then append_evidence (_zsh_evidence_from_observation o ordinal)
  else
    shell_keys o ordinal
      (source_key ← zsh_script o;
       target_key ← lift_key (env_key (val_text variable));
       mret (source_key, target_key))
      (fun '(source_key, target_key) =>
         zsh_edge o ordinal source_key (edge_node target_key "env" variable [])
           (if kind_is o "shell.env_read" then "reads_env" else "writes_env")
           (_zsh_env_edge_metadata (obs_metadata o) (obs_kind o))).

Definition _canonicalize_zsh_file_intent_observation (o : RawObservation) (ordinal : Z) : CM unit :=
  target ← _zsh_file_intent_target_key o;
  match target with
  | None => append_evidence (_zsh_evidence_from_observation o ordinal)
  | Some target_key =>
      shell_keys o ordinal
        (source_key ← zsh_script o; _ ← parse_text target_key; mret source_key)
        (fun source_key =>
           zsh_edge o ordinal source_key
             (edge_node target_key "file" (VStr (_display_name_from_key target_key)) [])
             (if kind_is o "shell.file_read" then "reads" else "writes")
             (_zsh_file_intent_edge_metadata (obs_metadata o) (obs_kind o)))
  end.

Definition _canonicalize_zsh_network_intent_observation (o : RawObservation) (ordinal : Z) : CM unit :=
  let target_name := _zsh_network_target_name o in
  if is_none target_name then append_evidence (_zsh_evidence_from_observation o ordinal)
  else
    shell_keys o ordinal
      (source_key ← zsh_script o;
       target_key ← lift_key (external_key (lit "zsh.network_intent") (val_text target_name));
       mret (source_key, target_key))
      (fun '(source_key, target_key) =>
         zsh_edge o ordinal source_key (zsh_external_node target_key "zsh.network_intent" target_name)
           "network_intent" (_zsh_network_edge_metadata (obs_metadata o))).

Definition _canonicalize_zsh_package_intent_observation (o : RawObservation) (ordinal : Z) : CM unit :=
  let manager := value_or (obs_name o) (_metadata_text (obs_metadata o) "command_name") in
  if is_none manager then append_evidence (_zsh_evidence_from_observation o ordinal)
  else
    shell_keys o ordinal
      (source_key ← zsh_script o;
       target_key ← lift_key (external_key (lit "zsh.package_manager") (val_text manager));
       mret (source_key, target_key))
      (fun '(source_key, target_key) =>
         zsh_edge o ordinal source_key (zsh_external_node target_key "zsh.package_manager" manager)
           "package_intent" (_zsh_package_edge_metadata (obs_metadata o) manager)).

Definition _canonicalize_zsh_host_mutation_intent_observation (o : RawObservation) (ordinal : Z) : CM unit :=
  match _metadata_text (obs_metadata o) "mutation_category" with
  | None => append_evidence (_zsh_evidence_from_observation o ordinal)
  | Some category =>
      let display_category := underscores_to_dashes category in
      shell_keys o ordinal
        (source_key ← zsh_script o;
         target_key ← lift_key (host_category_key display_category);
         mret (source_key, target_key))
        (fun '(source_key, target_key) =>
           zsh_edge o ordinal source_key (edge_node target_key "host.category" (VStr display_category) [])
             "host_mutation_intent" (_zsh_host_mutation_edge_metadata (obs_metadata o)))
  end.

(** Whether the observation was handled. *)
Definition _try_canonicalize_zsh_observation (o : RawObservation) (ordinal : Z) : option (CM unit) :=
  if negb (_is_zsh_observation o) then None
  else if kind_is o "zsh.script" then Some (_canonicalize_zsh_script_observation o ordinal)
  else if kind_is o "zsh.startup_file" then Some (_canonicalize_zsh_startup_file_observation o ordinal)
  else if kind_is o "shell.function" then Some (_canonicalize_zsh_function_observation o ordinal)
  else if one_of (obs_kind o) ["shell.command"; "shell.external_command"] then
    Some (_canonicalize_zsh_command_observation o ordinal)
  else if kind_is o "shell.source" then Some (_canonicalize_zsh_source_observation o ordinal)
  else if kind_is o "zsh.autoload" then Some (_canonicalize_zsh_autoload_observation o ordinal)
  else if kind_is o "zsh.zmodload" then Some (_canonicalize_zsh_zmodload_observation o ordinal)
  else if kind_is o "zsh.completion_function" then
    Some (_canonicalize_zsh_completion_function_observation o ordinal)
  else if kind_is o "zsh.plugin_manager" then Some (_canonicalize_zsh_plugin_manager_observation o ordinal)
  else if kind_is o "zsh.plugin" then Some (_canonicalize_zsh_plugin_observation o ordinal)
  else if one_of (obs_kind o) ["shell.env_read"; "shell.env_write"] then
    Some (_canonicalize_zsh_env_observation o ordinal)
  else if one_of (obs_kind o) ["shell.file_read"; "shell.file_write"] then
    Some (_canonicalize_zsh_file_intent_observation o ordinal)
  else if kind_is o "shell.network_call" then Some (_canonicalize_zsh_network_intent_observation o ordinal)
  else if kind_is o "shell.package_manager" then Some (_canonicalize_zsh_package_intent_observation o ordinal)
  else if kind_is o "shell.host_mutation" then
    Some (_canonicalize_zsh_host_mutation_intent_observation o ordinal)
  else if one_of (obs_kind o) ZSH_RAW_ONLY_KINDS then
    Some (append_evidence (_zsh_evidence_from_observation o ordinal))
  else None.

(** ** The handlers keep the invariant *)

Lemma zsh_script_quiet o n : quiet n (zsh_script o) (key_in "zsh.script") key_failure.
Proof. unfold zsh_script. quiet_go. Qed.

Lemma zsh_script_node_ok o sk : key_in "zsh.script" sk -> arg_ok (zsh_script_node o sk).
Proof. apply edge_node_ok. Qed.

Lemma zsh_external_node_ok tk domain display : key_in "external" tk -> arg_ok (zsh_external_node tk domain display).
Proof. apply edge_node_ok. Qed.
#[local] Hint Resolve zsh_script_quiet zsh_script_node_ok zsh_external_node_ok : canon.

Lemma zsh_source_target_quiet o n :
  typed_observation o ->
  quiet n (_zsh_source_target_key o) (fun r => forall k, r = Some k -> parsed_key k) key_failure.
Proof.
  intros Ho. unfold _zsh_source_target_key. destruct (negb _); [by apply quiet_ret|].
  by apply named_file_target_quiet.
Qed.

(** A handler that excludes some names. *)
#[local] Ltac excluding_handler :=
  intros Ho; eapply recorded_quiet_bind; [apply val_in_set_quiet, value_or_text, Ho|]; intros excluded _;
  revert Ho; unfold zsh_edge; shell_handler.

Lemma zsh_script_recorded o n :
  typed_observation o -> recorded o n unicode_failure (_canonicalize_zsh_script_observation o n).
Proof. shell_handler. Qed.

Lemma zsh_startup_file_recorded o n :
  typed_observation o -> recorded o n unicode_failure (_canonicalize_zsh_startup_file_observation o n).
Proof. unfold _canonicalize_zsh_startup_file_observation, zsh_edge. shell_handler. Qed.

Lemma zsh_function_recorded o n :
  typed_observation o -> recorded o n unicode_failure (_canonicalize_zsh_function_observation o n).
Proof. unfold _canonicalize_zsh_function_observation, zsh_edge. shell_handler. Qed.

Lemma zsh_command_recorded o n :
  typed_observation o -> recorded o n unicode_failure (_canonicalize_zsh_command_observation o n).
Proof.
  intros Ho. eapply recorded_quiet_bind; [by apply command_name_of_quiet|]. intros c _.
  revert Ho. unfold zsh_edge. shell_handler.
Qed.

Lemma zsh_source_recorded o n :
  typed_observation o -> recorded o n key_failure (_canonicalize_zsh_source_observation o n).
Proof. unfold _canonicalize_zsh_source_observation, zsh_edge. shell_target_handler zsh_source_target_quiet. Qed.

Lemma zsh_zmodload_recorded o n :
  typed_observation o -> recorded o n unicode_failure (_canonicalize_zsh_zmodload_observation o n).
Proof. excluding_handler. Qed.

Lemma zsh_completion_function_recorded o n :
  typed_observation o -> recorded o n unicode_failure (_canonicalize_zsh_completion_function_observation o n).
Proof. unfold _canonicalize_zsh_completion_function_observation, zsh_edge. shell_handler. Qed.

Lemma zsh_plugin_manager_recorded o n :
  typed_observation o -> recorded o n unicode_failure (_canonicalize_zsh_plugin_manager_observation o n).
Proof. excluding_handler. Qed.

Lemma zsh_plugin_recorded o n :
  typed_observation o -> recorded o n unicode_failure (_canonicalize_zsh_plugin_observation o n).
Proof. excluding_handler. Qed.

Lemma zsh_env_recorded o n :
  typed_observation o -> recorded o n unicode_failure (_canonicalize_zsh_env_observation o n).
Proof. unfold _canonicalize_zsh_env_observation, zsh_edge. shell_handler. Qed.

Lemma zsh_file_intent_recorded o n :
  typed_observation o -> recorded o n key_failure (_canonicalize_zsh_file_intent_observation o n).
Proof. unfold _canonicalize_zsh_file_intent_observation, zsh_edge. shell_target_handler static_file_target_quiet. Qed.

Lemma zsh_network_intent_recorded o n :
  typed_observation o -> recorded o n unicode_failure (_canonicalize_zsh_network_intent_observation o n).
Proof. unfold _canonicalize_zsh_network_intent_observation, zsh_edge. shell_handler. Qed.

Lemma zsh_package_intent_recorded o n :
  typed_observation o -> recorded o n unicode_failure (_canonicalize_zsh_package_intent_observation o n).
Proof. unfold _canonicalize_zsh_package_intent_observation, zsh_edge. shell_handler. Qed.

Lemma zsh_host_mutation_intent_recorded o n :
  typed_observation o -> recorded o n unicode_failure (_canonicalize_zsh_host_mutation_intent_observation o n).
Proof. unfold _canonicalize_zsh_host_mutation_intent_observation, zsh_edge. shell_handler. Qed.

(** *** The loop of [zsh.autoload] *)

(** More evidence of the observation, or none. *)
Definition extends (o : RawObservation) (n : Z) (X : cexn -> Prop) (m : CM unit) : Prop :=
  forall es s, wf [] [] es s ->
    wp m s (fun _ s' => exists ds vs, cs_diagnostics s' = cs_diagnostics s ++ ds /\ Forall (diag_for n) ds /\
                          wf [] [] (es ++ vs) s' /\ Forall (evidence_for o n) vs) X.

Lemma recorded_extends o n X m : recorded_as true o n X m -> extends o n X m.
Proof.
  intros H es s Hwf. specialize (H es s Hwf). unfold wp in *. destruct (m s) as [[u|e] s']; [|done].
  destruct H as (ds & vs & ? & ? & ? & ? & _). eauto 7.
Qed.

Lemma recorded_extended o n X m rest :
  recorded_as true o n X m -> extends o n X rest -> recorded_as true o n X (_ ← m; rest).
Proof.
  intros Hm Hr es s Hwf. apply wp_bind. specialize (Hm es s Hwf). unfold wp at 1. unfold wp in Hm.
  destruct (m s) as [[u|e] s1]; [|done]. destruct Hm as (ds & vs & D & Hds & W & Hvs & Hne & _).
  specialize (Hr _ s1 W). unfold wp in *. destruct (rest s1) as [[u'|e] s2]; [|done].
  destruct Hr as (ds' & vs' & D' & Hds' & W' & Hvs'). exists (ds ++ ds'), (vs ++ vs').
  split_and!; [by rewrite D', D, app_assoc|by apply Forall_app|by rewrite app_assoc|by apply Forall_app| |done].
  destruct Hne as [Hne|Hne]; [left|right]; by intros [??]%app_nil.
Qed.

Lemma zsh_autoload_loop_recorded o n names :
  valid_observation o ->
  extends o n unicode_failure (zsh_autoload_loop o n names true) /\
  recorded_as true o n unicode_failure (zsh_autoload_loop o n names false).
Proof.
  intros Hv. induction names as [|v rest [IHe IHr]]; cbn [zsh_autoload_loop].
  - split; [|apply recorded_more, recorded_evidence]. intros es s Hwf. exists [], [].
    rewrite !app_nil_r. auto using Forall_nil.
  - destruct (nonblank_text v) as [name|] eqn:E; [|done].
    assert (forall m : CM unit, extends o n unicode_failure m ->
              recorded_as true o n unicode_failure
                (shell_keys o n
                   (source_key ← zsh_script o;
                    target_key ← lift_key (external_key (lit "zsh.autoload") name);
                    mret (source_key, target_key))
                   (fun '(source_key, target_key) =>
                      _ ← zsh_edge o n source_key (zsh_external_node target_key "zsh.autoload" (VStr name))
                            "configures" (_zsh_autoload_edge_metadata (obs_metadata o) name);
                      m))) as Hone; [|by split; [apply recorded_extends|]; apply Hone].
    intros m Hm. eapply recorded_with_keys; [done|apply quiet_pair; quiet_go|]. intros [sk tk] [Hs Ht].
    cbn [fst snd] in *. apply recorded_extended; [apply recorded_more|done].
    unfold zsh_edge, _append_two_node_edge. relates.
Qed.

Lemma zsh_autoload_recorded o n :
  typed_observation o -> recorded_as true o n unicode_failure (_canonicalize_zsh_autoload_observation o n).
Proof.
  intros [Hv _ _]. unfold _canonicalize_zsh_autoload_observation.
  destruct (negb _); [apply recorded_more, recorded_evidence|].
  destruct (seq_items _); [by apply zsh_autoload_loop_recorded|apply recorded_more, recorded_evidence].
Qed.

#[local] Hint Resolve zsh_script_recorded zsh_startup_file_recorded zsh_function_recorded zsh_command_recorded
  zsh_source_recorded zsh_autoload_recorded zsh_zmodload_recorded zsh_completion_function_recorded
  zsh_plugin_manager_recorded zsh_plugin_recorded zsh_env_recorded zsh_file_intent_recorded
  zsh_network_intent_recorded zsh_package_intent_recorded zsh_host_mutation_intent_recorded : handlers.

Lemma zsh_recorded o n m :
  typed_observation o -> _try_canonicalize_zsh_observation o n = Some m ->
  recorded_as (kind_is o "zsh.autoload") o n (escapes o) m.
Proof. intros Ho. unfold _try_canonicalize_zsh_observation. dispatches. Qed.

End Zsh.
