(* ===== verification/CanonPowershell.v ===== *)
(** PowerShell: [canonicalization/shell_powershell_family.py] and
    [_shell_powershell_metadata.py]. *)
From S2P Require Import Prelude Utf8 PyVal Json PyRepr PyDictFacts GraphKeys GraphKeysFacts KeyBuilders.
From S2P Require Import Observations ObservationsFacts CanonCore CanonState CanonInvariant CanonLogic.
From S2P Require Import CanonShared CanonShell.
Open Scope Z_scope.

(** [dispatch_helpers.py] *)
Definition POWERSHELL_FILE_KINDS : list string := ["powershell.script"; "powershell.module"; "powershell.manifest"].

Definition POWERSHELL_REFERENCE_KINDS : list string :=
  ["powershell.import_module"; "powershell.using_module"; "powershell.dot_source";
   "powershell.manifest_dependency"; "powershell.manifest_file_reference"; "powershell.manifest_export";
   "powershell.network_call"; "powershell.remoting"].

Definition POWERSHELL_RAW_ONLY_KINDS : list string :=
  ["powershell.param"; "powershell.requires"; "powershell.command_argument"; "powershell.pipeline";
   "powershell.alias_command"; "powershell.splat"; "powershell.alias_definition"; "powershell.splat_assignment";
   "powershell.dynamic_invocation"; "powershell.secret_like"; "powershell.manifest_field";
   "powershell.manifest_private_data"; "powershell.file_read"; "powershell.file_write";
   "powershell.registry_read"; "powershell.registry_write"].

(** [text.endswith(suffix)] *)
Definition endswith (suffix s : pystr) : bool := startswith (reverse suffix) (reverse s).

Section Powershell.
Context {U : Unicode}.

(** [path.lower().endswith(suffix)] *)
Definition lower_endswith (path : pystr) (suffix : string) : bool :=
  endswith (lit suffix) (path ≫= lower_char).

(** ** Metadata *)

(** [{"static_only": True, "powershell_executed": False}] *)
Definition powershell_static : pydict := flags [("static_only", true); ("powershell_executed", false)].

Definition _powershell_file_node_metadata (o : RawObservation) : pydict :=
  set_text ((lit "language", VStr (lit "powershell")) :: powershell_static) "file_type"
    (_metadata_text (obs_metadata o) "file_type").

Definition _powershell_container_node_metadata (path : pystr) : pydict :=
  let file_type := if lower_endswith path ".psm1" then "module"%string else "script"%string in
  let file_type := if lower_endswith path ".psd1" then "manifest"%string else file_type in
  [(lit "language", VStr (lit "powershell")); (lit "file_type", VStr (lit file_type))] ++ powershell_static.

Definition _powershell_function_node_metadata (metadata : pydict) : pydict :=
  copy_texts powershell_static metadata ["scope_prefix"; "function"].

Definition _powershell_define_edge_metadata (metadata : pydict) : pydict :=
  let summary := append_metadata_texts powershell_static metadata
    [("file_type", "file_types"); ("scope_prefix", "scope_prefixes"); ("function", "functions");
     ("export_kind", "export_kinds")] in
  copy_bool summary metadata "wildcard" "wildcard_observed".

Definition _powershell_command_edge_metadata (metadata : pydict) (command_name : pyval) : pydict :=
  let summary := (lit "commands", VList [command_name]) :: powershell_static in
  let summary := append_metadata_texts summary metadata
    [("original_token", "original_tokens"); ("command_family", "command_families");
     ("alias_expansion", "alias_expansions"); ("alias_source", "alias_sources")] in
  let summary := list_int summary metadata "argument_count" "argument_counts" in
  let summary := list_plain_text summary metadata "pipeline_id" "pipeline_ids" in
  list_int summary metadata "pipeline_index" "pipeline_indexes".

Definition _powershell_env_edge_metadata (metadata : pydict) (observation_kind : pystr) : pydict :=
  let operation :=
    if bool_decide (observation_kind = lit "powershell.env_read") then lit "read" else lit "write" in
  copy_bool ((lit "operations", VList [VStr operation]) :: powershell_static) metadata
    "redacted" "redacted_observed".

Definition _powershell_host_mutation_edge_metadata (metadata : pydict) : pydict :=
  let summary := append_metadata_texts powershell_static metadata
    [("mutation_category", "mutation_categories"); ("operation", "operations"); ("command_name", "commands");
     ("original_token", "original_tokens"); ("manager", "managers");
     ("package_operation", "package_operations"); ("target_kind", "target_kinds")] in
  copy_bools summary metadata
    [("destructive", "destructive_observed"); ("target_redacted", "target_redacted_observed")].

Definition _powershell_reference_edge_metadata (metadata : pydict) (observation_kind : pystr) : pydict :=
  let summary := (lit "observation_kinds", VList [VStr observation_kind]) :: powershell_static in
  let summary := append_metadata_texts summary metadata
    [("module_name", "module_names"); ("field", "fields"); ("reference", "references");
     ("resolved_path", "resolved_paths"); ("command_name", "commands"); ("target_kind", "target_kinds");
     ("method", "methods")] in
  copy_bools summary metadata
    [("network_executed", "network_executed"); ("remoting_executed", "remoting_executed")].

Definition _powershell_manifest_dependency_edge_metadata (metadata : pydict) : pydict :=
  append_metadata_texts
    (_powershell_reference_edge_metadata metadata (lit "powershell.manifest_dependency")) metadata
    [("dependency_kind", "dependency_kinds"); ("module_version", "module_versions");
     ("required_version", "required_versions"); ("maximum_version", "maximum_versions"); ("guid", "guids")].

Definition _powershell_reference_source_metadata (source_key path : pystr) : pydict :=
  if startswith (lit "powershell.") source_key then _powershell_container_node_metadata path else [].

Definition _powershell_display_name (source_key path : pystr) : pystr :=
  if startswith (lit "powershell.") source_key then path else _display_name_from_key source_key.

(** ** Keys *)

Definition powershell_manifest (o : RawObservation) : CM pystr :=
  lift_key (powershell_manifest_key (PathStr (obs_path o))).

Definition _powershell_file_target_key (o : RawObservation) : CM pystr :=
  if kind_is o "powershell.module" then lift_key (powershell_module_key (PathStr (obs_path o)))
  else if kind_is o "powershell.manifest" then powershell_manifest o
  else lift_key (powershell_script_key (PathStr (obs_path o))).

Definition _powershell_container_key (path : pystr) : CM pystr :=
  if lower_endswith path ".psm1" then lift_key (powershell_module_key (PathStr path))
  else if lower_endswith path ".psd1" then lift_key (powershell_manifest_key (PathStr path))
  else lift_key (powershell_script_key (PathStr path)).

Definition _powershell_command_name (o : RawObservation) : CM pyval :=
  command_name_of o ["normalized_command"; "command_name"; "original_token"] (fun _ => true).

(** [isinstance(target, str) and target.startswith(prefix)] *)
Definition text_target (o : RawObservation) (prefix : string) : option pystr :=
  match obs_target o with
  | VStr target => if startswith (lit prefix) target then Some target else None
  | _ => None
  end.

(** A target that has to be a file. *)
Definition powershell_file_key (target : pystr) : CM pystr :=
  parsed ← parse_text target;
  if negb (bool_decide (namespace parsed = lit "file")) then
    key_error (lit "PowerShell file target must use file namespace")
  else mret target.

Definition _powershell_module_or_file_target_key (o : RawObservation) : CM pystr :=
  match text_target o "file:" with
  | Some target => powershell_file_key target
  | None =>
      let module_name := value_or (obs_name o) (_metadata_text (obs_metadata o) "module_name") in
      let module_name :=
        if is_none module_name then
          match text_target o "module:" with
          | Some target => VStr (str_partition COLON target).2
          | None => VStr (lit "missing-module")
          end
        else module_name in
      lift_key (external_key (lit "powershell.module") (val_text module_name))
  end.

Definition _powershell_file_target_key_from_observation (o : RawObservation) : CM pystr :=
  match text_target o "file:" with
  | Some target => powershell_file_key target
  | None =>
      match _metadata_text (obs_metadata o) "resolved_path" with
      | Some resolved_path => lift_key (file_key (PathStr resolved_path))
      | None =>
          match _metadata_text (obs_metadata o) "reference" with
          | Some reference => lift_key (file_key (PathStr reference))
          | None =>
              match _metadata_text (obs_metadata o) "dynamic_reason" with
              | Some dynamic_reason => lift_key (dynamic_key (lit "file") dynamic_reason)
              | None => lift_key (unknown_key (lit "file") (lit "missing-powershell-file-reference"))
              end
          end
      end
  end.

(** [text or name or fallback] *)
Definition text_name_or (o : RawObservation) (key fallback : string) : pyval :=
  match _metadata_text (obs_metadata o) key with
  | Some text => VStr text
  | None => if truthy (obs_name o) then obs_name o else VStr (lit fallback)
  end.

Definition _powershell_manifest_dependency_target_key (o : RawObservation) : CM pystr :=
  let dependency_kind := default (lit "module") (_metadata_text (obs_metadata o) "dependency_kind") in
  if bool_decide (dependency_kind = lit "assembly") then
    lift_key (external_key (lit "powershell.assembly") (val_text (text_name_or o "assembly_name" "missing-assembly")))
  else lift_key (external_key (lit "powershell.module") (val_text (text_name_or o "module_name" "missing-module"))).

Definition _powershell_network_target_key (o : RawObservation) : CM pystr :=
  match _metadata_text (obs_metadata o) "target_display" with
  | Some target_display =>
      if starts_with_any target_display ["http://"; "https://"] then lift_key (external_url_key target_display)
      else if negb (bool_decide (target_display = lit "[dynamic]")) then
        lift_key (external_key (lit "powershell.network") target_display)
      else lift_key (dynamic_key (lit "external.url") (lit "powershell-network-target"))
  | None => lift_key (dynamic_key (lit "external.url") (lit "powershell-network-target"))
  end.

Definition _powershell_remoting_target_key (o : RawObservation) : CM pystr :=
  let unresolved := lift_key (dynamic_key (lit "powershell.remoting") (lit "dynamic-target")) in
  match _metadata_text (obs_metadata o) "target_display" with
  | Some target_display =>
      if negb (bool_decide (target_display = lit "[dynamic]")) && target_is_static o then
        lift_key (external_key (lit "powershell.remoting") target_display)
      else unresolved
  | None => unresolved
  end.

Definition powershell_export_key (o : RawObservation) (source_key : pystr) : CM pystr :=
  let export_kind := default (lit "unknown") (_metadata_text (obs_metadata o) "export_kind") in
  let export_name := value_or (obs_name o) (_metadata_text (obs_metadata o) "name") in
  let export_name := if is_none export_name then VStr (lit "unknown") else export_name in
  lift_key (powershell_manifest_export_key source_key export_kind (val_text export_name)).

(** Source, target, kind of the edge and its metadata. *)
Definition _powershell_reference_parts (o : RawObservation) : CM (pystr * pystr * string * pydict) :=
  let reference_metadata := _powershell_reference_edge_metadata (obs_metadata o) (obs_kind o) in
  if one_of (obs_kind o) ["powershell.import_module"; "powershell.using_module"] then
    source_key ← _powershell_container_key (obs_path o);
    target_key ← _powershell_module_or_file_target_key o;
    mret (source_key, target_key, "imports"%string, reference_metadata)
  else if kind_is o "powershell.dot_source" then
    source_key ← _powershell_container_key (obs_path o);
    target_key ← _powershell_file_target_key_from_observation o;
    mret (source_key, target_key, "sources"%string, reference_metadata)
  else if kind_is o "powershell.manifest_dependency" then
    source_key ← powershell_manifest o;
    target_key ← _powershell_manifest_dependency_target_key o;
    mret (source_key, target_key, "depends_on"%string,
          _powershell_manifest_dependency_edge_metadata (obs_metadata o))
  else if kind_is o "powershell.manifest_file_reference" then
    source_key ← powershell_manifest o;
    target_key ← _powershell_file_target_key_from_observation o;
    mret (source_key, target_key, "references"%string, reference_metadata)
  else if kind_is o "powershell.manifest_export" then
    source_key ← powershell_manifest o;
    target_key ← powershell_export_key o source_key;
    mret (source_key, target_key, "defines"%string, _powershell_define_edge_metadata (obs_metadata o))
  else if kind_is o "powershell.network_call" then
    source_key ← own_file_key o;
    target_key ← _powershell_network_target_key o;
    mret (source_key, target_key, "references"%string, reference_metadata)
  else if kind_is o "powershell.remoting" then
    source_key ← own_file_key o;
    target_key ← _powershell_remoting_target_key o;
    mret (source_key, target_key, "references"%string, reference_metadata)
  else key_error (lit "unsupported PowerShell reference kind: " ++ obs_kind o).

(** ** Handlers *)

Definition powershell_evidence (o : RawObservation) (ordinal : Z) : CanonicalEvidence :=
  _evidence_from_observation o ordinal None.

Definition _canonicalize_powershell_file_observation (o : RawObservation) (ordinal : Z) : CM unit :=
  shell_keys o ordinal
    (source_key ← own_file_key o; target_key ← _powershell_file_target_key o; mret (source_key, target_key))
    (fun '(source_key, target_key) =>
       relate o (powershell_evidence o ordinal)
         (edge_node source_key "file" (VStr (obs_path o)) [(lit "language", VStr (lit "powershell"))])
         (NodeArg target_key (_node_kind_from_key target_key) (VStr (obs_path o))
            (_powershell_file_node_metadata o) "observed")
         "defines" (_powershell_define_edge_metadata (obs_metadata o))).

Definition _canonicalize_powershell_function_observation (o : RawObservation) (ordinal : Z) : CM unit :=
  let function_name := value_or (obs_name o) (_metadata_text (obs_metadata o) "function") in
  if is_none function_name then
    diagnose o ordinal "warning" "missing_required_metadata"
      (lit "powershell.function observation requires a function name") "name" (obs_name o) None
  else
    with_keys o ordinal "target" (obs_target o)
      (source_key ← _powershell_container_key (obs_path o);
       target_key ← lift_key (powershell_function_key (PathStr (obs_path o)) (val_text function_name));
       mret (source_key, target_key))
      (fun '(source_key, target_key) =>
         relate o (powershell_evidence o ordinal)
           (NodeArg source_key (_node_kind_from_key source_key) (VStr (obs_path o))
              (_powershell_container_node_metadata (obs_path o)) "inferred_from_edge")
           (NodeArg target_key (lit "powershell.function") function_name
              (_powershell_function_node_metadata (obs_metadata o)) "observed")
           "defines" (_powershell_define_edge_metadata (obs_metadata o))).

Definition _canonicalize_powershell_command_observation (o : RawObservation) (ordinal : Z) : CM unit :=
  command_name ← _powershell_command_name o;
  if is_none command_name then
    diagnose o ordinal "warning" "missing_required_metadata"
      (lit "PowerShell command observation requires a command name") "metadata.normalized_command" VNone None
  else
    shell_keys o ordinal
      (source_key ← own_file_key o;
       target_key ← lift_key (tool_key (val_text command_name));
       mret (source_key, target_key))
      (fun '(source_key, target_key) =>
         relate o (powershell_evidence o ordinal)
           (file_node o source_key) (edge_node target_key "tool" command_name [])
           "executes" (_powershell_command_edge_metadata (obs_metadata o) command_name)).

Definition _canonicalize_powershell_env_observation (o : RawObservation) (ordinal : Z) : CM unit :=
  let variable := value_or (obs_name o) (_metadata_text (obs_metadata o) "variable") in
  if is_none variable then
    diagnose o ordinal "warning" "missing_required_metadata"
      (lit "PowerShell environment observation requires variable metadata") "metadata.variable" VNone None
  else
    shell_keys o ordinal
      (source_key ← own_file_key o;
       target_key ← lift_key (env_key (val_text variable));
       mret (source_key, target_key))
      (fun '(source_key, target_key) =>
         relate o (powershell_evidence o ordinal)
           (file_node o source_key) (edge_node target_key "env" variable [])
           (if kind_is o "powershell.env_read" then "reads_env" else "writes_env")
           (_powershell_env_edge_metadata (obs_metadata o) (obs_kind o))).

Definition _canonicalize_powershell_host_mutation_observation (o : RawObservation) (ordinal : Z) : CM unit :=
  match _metadata_text (obs_metadata o) "mutation_category" with
  | None =>
      diagnose o ordinal "warning" "missing_required_metadata"
        (lit "PowerShell host mutation observation requires mutation category") "metadata.mutation_category"
        VNone None
  | Some category =>
      shell_keys o ordinal
        (source_key ← own_file_key o;
         target_key ← lift_key (host_category_key (underscores_to_dashes category));
         mret (source_key, target_key))
        (fun '(source_key, target_key) =>
           relate o (powershell_evidence o ordinal)
             (file_node o source_key)
             (edge_node target_key "host.category" (VStr (underscores_to_dashes category)) [])
             "mutates_host" (_powershell_host_mutation_edge_metadata (obs_metadata o)))
  end.

Definition _canonicalize_powershell_reference_observation (o : RawObservation) (ordinal : Z) : CM unit :=
  with_keys o ordinal "target" (obs_target o) (_powershell_reference_parts o)
    (fun '(source_key, target_key, edge_kind, metadata) =>
       relate o (powershell_evidence o ordinal)
         (NodeArg source_key (_node_kind_from_key source_key)
            (VStr (_powershell_display_name source_key (obs_path o)))
            (_powershell_reference_source_metadata source_key (obs_path o)) "inferred_from_edge")
         (keyed_node target_key [] "inferred_from_edge") edge_kind metadata).

(** Whether the observation was handled. *)
Definition _try_canonicalize_powershell_observation (o : RawObservation) (ordinal : Z) : option (CM unit) :=
  if one_of (obs_kind o) POWERSHELL_FILE_KINDS then Some (_canonicalize_powershell_file_observation o ordinal)
  else if kind_is o "powershell.function" then Some (_canonicalize_powershell_function_observation o ordinal)
  else if one_of (obs_kind o) ["powershell.command"; "powershell.external_command"] then
    Some (_canonicalize_powershell_command_observation o ordinal)
  else if one_of (obs_kind o) ["powershell.env_read"; "powershell.env_write"] then
    Some (_canonicalize_powershell_env_observation o ordinal)
  else if kind_is o "powershell.host_mutation" then
    Some (_canonicalize_powershell_host_mutation_observation o ordinal)
  else if one_of (obs_kind o) POWERSHELL_REFERENCE_KINDS then
    Some (_canonicalize_powershell_reference_observation o ordinal)
  else if one_of (obs_kind o) POWERSHELL_RAW_ONLY_KINDS then
    Some (append_evidence (powershell_evidence o ordinal))
  else None.

(** ** The handlers keep the invariant *)

Lemma powershell_manifest_quiet o n : quiet n (powershell_manifest o) parsed_key key_failure.
Proof. unfold powershell_manifest. quiet_go. Qed.
#[local] Hint Resolve powershell_manifest_quiet : canon.

Lemma powershell_file_target_quiet o n : quiet n (_powershell_file_target_key o) parsed_key key_failure.
Proof. unfold _powershell_file_target_key. quiet_go. Qed.

Lemma powershell_container_quiet p n : quiet n (_powershell_container_key p) parsed_key key_failure.
Proof. unfold _powershell_container_key. quiet_go. Qed.

Lemma powershell_file_key_quiet t n : quiet n (powershell_file_key t) parsed_key key_failure.
Proof. unfold powershell_file_key. quiet_go. Qed.
#[local] Hint Resolve powershell_file_target_quiet powershell_container_quiet powershell_file_key_quiet : canon.

Lemma powershell_module_target_quiet o n :
  quiet n (_powershell_module_or_file_target_key o) parsed_key key_failure.
Proof. unfold _powershell_module_or_file_target_key. quiet_go. Qed.

Lemma powershell_file_reference_quiet o n :
  quiet n (_powershell_file_target_key_from_observation o) parsed_key key_failure.
Proof. unfold _powershell_file_target_key_from_observation. quiet_go. Qed.

Lemma powershell_dependency_quiet o n :
  quiet n (_powershell_manifest_dependency_target_key o) parsed_key key_failure.
Proof. unfold _powershell_manifest_dependency_target_key. quiet_go. Qed.

Lemma powershell_network_quiet o n : quiet n (_powershell_network_target_key o) parsed_key key_failure.
Proof. unfold _powershell_network_target_key. quiet_go. Qed.

Lemma powershell_remoting_quiet o n : quiet n (_powershell_remoting_target_key o) parsed_key key_failure.
Proof. unfold _powershell_remoting_target_key. quiet_go. Qed.

Lemma powershell_export_quiet o sk n : quiet n (powershell_export_key o sk) parsed_key key_failure.
Proof. unfold powershell_export_key. quiet_go. Qed.
#[local] Hint Resolve powershell_module_target_quiet powershell_file_reference_quiet powershell_dependency_quiet
  powershell_network_quiet powershell_remoting_quiet powershell_export_quiet : canon.

Definition powershell_parts_ok (r : pystr * pystr * string * pydict) : Prop :=
  parsed_key r.1.1.1 /\ parsed_key r.1.1.2 /\ r.1.2 ∈ CANONICAL_EDGE_KINDS.

Lemma powershell_reference_parts_quiet o n :
  quiet n (_powershell_reference_parts o) powershell_parts_ok key_failure.
Proof. unfold _powershell_reference_parts, powershell_parts_ok. quiet_go. Qed.

Lemma powershell_file_recorded o n :
  typed_observation o -> recorded o n unicode_failure (_canonicalize_powershell_file_observation o n).
Proof. shell_handler. Qed.

Lemma powershell_function_recorded o n :
  typed_observation o -> recorded o n unicode_failure (_canonicalize_powershell_function_observation o n).
Proof. unfold _canonicalize_powershell_function_observation. shell_handler. Qed.

Lemma powershell_command_recorded o n :
  typed_observation o -> recorded o n unicode_failure (_canonicalize_powershell_command_observation o n).
Proof.
  intros Ho. eapply recorded_quiet_bind; [by apply command_name_of_quiet|]. intros c _.
  revert Ho. shell_handler.
Qed.

Lemma powershell_env_recorded o n :
  typed_observation o -> recorded o n unicode_failure (_canonicalize_powershell_env_observation o n).
Proof. unfold _canonicalize_powershell_env_observation. shell_handler. Qed.

Lemma powershell_host_mutation_recorded o n :
  typed_observation o -> recorded o n unicode_failure (_canonicalize_powershell_host_mutation_observation o n).
Proof. unfold _canonicalize_powershell_host_mutation_observation. shell_handler. Qed.

Lemma powershell_reference_recorded o n :
  typed_observation o -> recorded o n unicode_failure (_canonicalize_powershell_reference_observation o n).
Proof.
  intros [Hv _ _]. eapply recorded_with_keys; [done|apply powershell_reference_parts_quiet|].
  intros [[[sk tk] kind] md] (Hs & Ht & Hk). cbn [fst snd] in *. relates.
Qed.

#[local] Hint Resolve powershell_file_recorded powershell_function_recorded powershell_command_recorded
  powershell_env_recorded powershell_host_mutation_recorded powershell_reference_recorded : handlers.

Lemma powershell_recorded o n m :
  typed_observation o -> _try_canonicalize_powershell_observation o n = Some m -> recorded o n (escapes o) m.
Proof. intros Ho. unfold _try_canonicalize_powershell_observation. dispatches. Qed.

End Powershell.
