(* ===== verification/CanonGoModel.v ===== *)
(** Go context: records and path helpers ([canonicalization/_go_context_model.py]),
    the state of the builder and its primitives ([_go_context_finalize.py]).

    Names are passed to the key builders by their text, as in the other families. *)
From S2P Require Import Prelude Utf8 PyVal Json PyRepr GraphKeys GoSourceKeys Observations.
From S2P Require Import CanonCore CanonState CanonShared CanonShell.
Open Scope Z_scope.

Definition MAX_GO_CANONICAL_DIAGNOSTICS : Z := 64.

Definition GO_DECLARATION_KINDS : list string :=
  ["go.type"; "go.type_alias"; "go.function"; "go.method"; "go.const"; "go.var"].
Definition GO_SUPPORTING_KINDS : list string :=
  ["go.struct"; "go.interface"; "go.test"; "go.benchmark"; "go.fuzz"; "go.example"; "go.test_main"].
Definition GO_UNRESOLVED_RELATIONSHIP_KINDS : list string :=
  ["go.reference"; "go.selector"; "go.select"; "go.call"; "go.dynamic"; "go.method_expression"; "go.construct";
   "go.instantiation"; "go.embedded_field"; "go.goroutine"; "go.defer"; "go.send"; "go.receive"; "go.panic";
   "go.recover"; "go.return"].

(** ** Records *)

Record GoModuleIdentity := {
  gm_root : pystr;
  gm_module_path : pystr;
  gm_semantic_key : pystr;
  gm_source_key : pystr;
  gm_repository_scope : pystr
}.

Record GoPackageIdentity := {
  gp_directory : pystr;
  gp_import_path : option pystr;
  gp_package_name : pystr;
  gp_canonical_key : pystr;
  gp_source_module_key : option pystr;
  gp_semantic_module_key : option pystr;
  gp_module_path : option pystr;
  gp_module_root : option pystr;
  gp_repository_scope : pystr;
  gp_identity_source : pystr;
  gp_external_test_package : bool;
  gp_vendor : bool
}.

Record GoNodeClaim := {
  nc_canonical_key : pystr;
  nc_kind : pystr;
  nc_display_name : pyval;
  nc_metadata : pydict
}.

Record GoEdgeClaim := {
  ec_source_key : pystr;
  ec_kind : string;
  ec_target_key : pystr;
  ec_identity_metadata : pydict;
  ec_metadata : pydict
}.

Record GoCanonicalContext := {
  gc_node_claims : list (pystr * GoNodeClaim);
  gc_node_keys_by_source_id : list (pystr * list pystr);
  gc_edge_claims_by_source_id : list (pystr * list GoEdgeClaim);
  gc_diagnostics : list CanonicalizationDiagnostic;
  gc_duplicate_declaration_evidence : Z;
  gc_identity_collisions : Z;
  gc_unresolved_relationships : Z;
  gc_invalid_source_ids : list pystr
}.

Record GoNodeClaimInput := {
  ni_kind : string;
  ni_display_name : pyval;
  ni_metadata : pydict;
  ni_source_id : pystr;
  ni_primary : bool
}.

(** ** [pathlib.PurePosixPath] *)

(** The root: exactly two leading slashes are kept. *)
Definition posix_root (path : pystr) : pystr :=
  if startswith (lit "//") path && negb (startswith (lit "///") path) then lit "//"
  else if startswith [SLASH] path then [SLASH] else [].

(** [str] of the path with the given root and tail *)
Definition posix_format (root : pystr) (tail : list pystr) : pystr :=
  match root ++ str_join SLASH tail with [] => lit "." | s => s end.

(** [PurePosixPath(path).parts] *)
Definition posix_all_parts (path : pystr) : list pystr :=
  match posix_root path with [] => posix_parts path | root => root :: posix_parts path end.

Definition parent (path : pystr) : pystr := posix_format (posix_root path) (removelast (posix_parts path)).

Definition is_repository_relative_path (path : pystr) : bool :=
  negb (bool_decide (path = [])) && negb (char_in 0 path) && negb (char_in BACKSLASH path)
  && bool_decide (posix_root path = []) && negb (windows_drive path)
  && negb (bool_decide (lit ".." ∈ posix_all_parts path))
  && bool_decide (posix_format (posix_root path) (posix_parts path) = path).

Definition is_vendor_path (path : pystr) : bool := bool_decide (lit "vendor" ∈ posix_all_parts path).

Definition normalize_directory (path : pystr) : pystr := posix_format (posix_root path) (posix_parts path).

(** [() if directory == "." else PurePosixPath(directory).parts] *)
Definition directory_parts (directory : pystr) : list pystr :=
  if bool_decide (directory = lit ".") then [] else posix_all_parts directory.

Definition is_directory_ancestor (root directory : pystr) : bool :=
  bool_decide (take (length (directory_parts root)) (directory_parts directory) = directory_parts root).

Definition relative_directory (directory root : pystr) : pystr :=
  match drop (length (directory_parts root)) (directory_parts directory) with
  | [] => lit "."
  | relative => str_join SLASH relative
  end.

(** [location_key]: the elements of the tuple *)
Definition location_key (o : RawObservation) : list pyval :=
  [VStr (obs_path o); obs_name o; meta_get (obs_metadata o) "start_offset"; meta_get (obs_metadata o) "end_offset"].

(** ** The builder *)

(** What identifies modules and packages. *)
Record go_identities := {
  gi_modules_by_root : list (pystr * GoModuleIdentity);
  gi_module_keys_by_path : list (pystr * pystr);
  gi_ambiguous_module_roots : list pystr;
  gi_invalid_module_roots : list pystr;
  gi_packages_by_directory_name : list (pystr * pystr * GoPackageIdentity);
  gi_package_by_source_id : list (pystr * GoPackageIdentity);
  gi_deferred_vendor_directories : list pystr
}.

(** What is claimed of nodes and edges. *)
Record go_claims := {
  gl_node_inputs : list (pystr * list GoNodeClaimInput);
  gl_node_keys_by_source_id : list (pystr * list pystr);
  gl_edge_claims_by_source_id : list (pystr * list GoEdgeClaim);
  gl_declaration_key_by_source_id : list (pystr * pystr);
  gl_function_keys_by_location : list (list pyval * list pystr)
}.

(** What is reported. *)
Record go_report := {
  gr_diagnostics : list CanonicalizationDiagnostic;
  gr_invalid_keys : list pystr;
  gr_invalid_source_ids : list pystr;
  gr_identity_collisions : Z;
  gr_unresolved_relationships : Z
}.

Record go_builder := {
  gb_identities : go_identities;
  gb_claims : go_claims;
  gb_report : go_report
}.

Definition GM (A : Type) : Type := go_builder -> cres A * go_builder.

#[export] Instance gm_ret : MRet GM := fun A a s => (Ok a, s).
#[export] Instance gm_bind : MBind GM := fun A B f m s =>
  match m s with
  | (Ok a, s') => f a s'
  | (Err e, s') => (Err e, s')
  end.

Definition graise {A} (e : cexn) : GM A := fun s => (Err e, s).
Definition gget {A} (f : go_builder -> A) : GM A := fun s => (Ok (f s), s).

Section GoModel.
Context {U : Unicode}.

(** The outcome of a call that builds keys. *)
Definition key_res {A} (r : kres A) : cres A :=
  match r with Ok a => Ok a | Err e => Err (key_cexn e) end.

(** [inr] is a [GraphKeyError] caught. *)
Definition go_try {A} (r : cres A) : GM (A + pystr) := fun s =>
  match r with
  | Ok a => (Ok (inl a), s)
  | Err (CGraphKeyError message) => (Ok (inr message), s)
  | Err e => (Err e, s)
  end.

(** A call outside any [try]. *)
Definition go_lift {A} (r : cres A) : GM A := fun s => (r, s).

Definition on_identities (f : go_identities -> go_identities) : GM unit := fun s =>
  (Ok tt, {| gb_identities := f (gb_identities s); gb_claims := gb_claims s; gb_report := gb_report s |}).
Definition on_claims (f : go_claims -> go_claims) : GM unit := fun s =>
  (Ok tt, {| gb_identities := gb_identities s; gb_claims := f (gb_claims s); gb_report := gb_report s |}).
Definition on_report (f : go_report -> go_report) : GM unit := fun s =>
  (Ok tt, {| gb_identities := gb_identities s; gb_claims := gb_claims s; gb_report := f (gb_report s) |}).

Fixpoint go_each {A} (l : list A) (f : A -> GM unit) : GM unit :=
  match l with
  | [] => mret tt
  | x :: rest => _ ← f x; go_each rest f
  end.

Fixpoint go_fold {A S} (l : list A) (acc : S) (f : S -> A -> GM S) : GM S :=
  match l with
  | [] => mret acc
  | x :: rest => acc ← f acc x; go_fold rest acc f
  end.

(** [s.add(x)] of a set kept as a list *)
Definition set_add (x : pystr) (s : list pystr) : list pystr := if bool_decide (x ∈ s) then s else s ++ [x].
Definition set_union (s t : list pystr) : list pystr := foldl (fun s x => set_add x s) s t.

(** [d.setdefault(k, v)], [d[k].append(v)] and [d[k].add(x)] of a [defaultdict] *)
Definition dict_default {A} (k : pystr) (v : A) (d : list (pystr * A)) : list (pystr * A) :=
  if dict_has k d then d else dict_set k v d.
Definition dict_append {A} (k : pystr) (v : A) (d : list (pystr * list A)) : list (pystr * list A) :=
  dict_set k (default [] (dict_get k d) ++ [v]) d.
Definition dict_add (k x : pystr) (d : list (pystr * list pystr)) : list (pystr * list pystr) :=
  dict_set k (set_add x (default [] (dict_get k d))) d.

(** *** Reports *)

Definition add_collision : GM unit := on_report (fun r =>
  {| gr_diagnostics := gr_diagnostics r; gr_invalid_keys := gr_invalid_keys r;
     gr_invalid_source_ids := gr_invalid_source_ids r;
     gr_identity_collisions := gr_identity_collisions r + 1;
     gr_unresolved_relationships := gr_unresolved_relationships r |}).

Definition add_unresolved : GM unit := on_report (fun r =>
  {| gr_diagnostics := gr_diagnostics r; gr_invalid_keys := gr_invalid_keys r;
     gr_invalid_source_ids := gr_invalid_source_ids r; gr_identity_collisions := gr_identity_collisions r;
     gr_unresolved_relationships := gr_unresolved_relationships r + 1 |}).

Definition invalidate_source (source_id : pystr) : GM unit := on_report (fun r =>
  {| gr_diagnostics := gr_diagnostics r; gr_invalid_keys := gr_invalid_keys r;
     gr_invalid_source_ids := set_add source_id (gr_invalid_source_ids r);
     gr_identity_collisions := gr_identity_collisions r;
     gr_unresolved_relationships := gr_unresolved_relationships r |}).

Definition invalidate_keys (keys : list pystr) : GM unit := on_report (fun r =>
  {| gr_diagnostics := gr_diagnostics r; gr_invalid_keys := set_union (gr_invalid_keys r) keys;
     gr_invalid_source_ids := gr_invalid_source_ids r; gr_identity_collisions := gr_identity_collisions r;
     gr_unresolved_relationships := gr_unresolved_relationships r |}).

Definition add_go_diagnostic (d : CanonicalizationDiagnostic) : GM unit := on_report (fun r =>
  {| gr_diagnostics := gr_diagnostics r ++ [d]; gr_invalid_keys := gr_invalid_keys r;
     gr_invalid_source_ids := gr_invalid_source_ids r; gr_identity_collisions := gr_identity_collisions r;
     gr_unresolved_relationships := gr_unresolved_relationships r |}).

(** A diagnostic with no observation of its own. *)
Definition go_diagnostic (severity category : string) (message : pystr) (source_id path : option pystr) :
    CanonicalizationDiagnostic :=
  {| d_severity := lit severity; d_category := lit category; d_message := message;
     d_raw_observation_ordinal := None; d_raw_source_id := source_id; d_path := path; d_field := None;
     d_value := VNone; d_placeholder_key := None |}.

(** [CanonicalizationDiagnostic] refuses an empty message. *)
Definition append_go_diagnostic (d : CanonicalizationDiagnostic) : GM unit :=
  if valid_diagnostic d then add_go_diagnostic d else graise CValueError.

Definition _append_diagnostic (severity category : string) (message : pystr) (o : RawObservation) : GM unit :=
  let safe_path := is_repository_relative_path (obs_path o) in
  match utf8_encode (obs_source_id o) with
  | None => graise CUnicodeEncodeError
  | Some bytes =>
      let safe_source_id := if Z.of_nat (length bytes) <=? 512 then Some (obs_source_id o) else None in
      count ← gget (fun s => Z.of_nat (length (gr_diagnostics (gb_report s))));
      if count <? MAX_GO_CANONICAL_DIAGNOSTICS - 1 then
        append_go_diagnostic (go_diagnostic severity category message
          (if safe_path then safe_source_id else None) (if safe_path then Some (obs_path o) else None))
      else if count =? MAX_GO_CANONICAL_DIAGNOSTICS - 1 then
        append_go_diagnostic (go_diagnostic "error" "go_canonical_diagnostics_truncated"
          (lit "additional Go canonical diagnostics omitted") None None)
      else mret tt
  end.

Definition _error (o : RawObservation) (category : string) (message : pystr) : GM unit :=
  _append_diagnostic "error" category message o.
Definition _warning (o : RawObservation) (category : string) (message : pystr) : GM unit :=
  _append_diagnostic "warning" category message o.

Definition _collision (o : RawObservation) (message : pystr) : GM unit :=
  _ ← add_collision; _error o "go_canonical_identity_collision" message.

Definition _identity_error (o : RawObservation) (message : pystr) : GM unit :=
  _ ← invalidate_source (obs_source_id o);
  _ ← add_collision;
  _error o "go_canonical_identity_invalid" message.

(** *** Identities *)

Definition record_module (identity : GoModuleIdentity) : GM unit := on_identities (fun i =>
  {| gi_modules_by_root := dict_default (gm_root identity) identity (gi_modules_by_root i);
     gi_module_keys_by_path :=
       dict_set (gm_module_path identity) (gm_semantic_key identity) (gi_module_keys_by_path i);
     gi_ambiguous_module_roots := gi_ambiguous_module_roots i;
     gi_invalid_module_roots := gi_invalid_module_roots i;
     gi_packages_by_directory_name := gi_packages_by_directory_name i;
     gi_package_by_source_id := gi_package_by_source_id i;
     gi_deferred_vendor_directories := gi_deferred_vendor_directories i |}).

Definition reject_module_root (root : pystr) : GM unit := on_identities (fun i =>
  {| gi_modules_by_root := gi_modules_by_root i; gi_module_keys_by_path := gi_module_keys_by_path i;
     gi_ambiguous_module_roots := set_add root (gi_ambiguous_module_roots i);
     gi_invalid_module_roots := set_add root (gi_invalid_module_roots i);
     gi_packages_by_directory_name := gi_packages_by_directory_name i;
     gi_package_by_source_id := gi_package_by_source_id i;
     gi_deferred_vendor_directories := gi_deferred_vendor_directories i |}).

(** [self.packages_by_directory_name.get((directory, name))] *)
Fixpoint package_get (directory name : pystr) (d : list (pystr * pystr * GoPackageIdentity)) :
    option GoPackageIdentity :=
  match d with
  | [] => None
  | (dir, nm, p) :: rest =>
      if bool_decide (dir = directory) && bool_decide (nm = name) then Some p else package_get directory name rest
  end.

Definition record_package (o : RawObservation) (identity : GoPackageIdentity) : GM unit :=
  on_identities (fun i =>
    let packages := gi_packages_by_directory_name i in
    {| gi_modules_by_root := gi_modules_by_root i; gi_module_keys_by_path := gi_module_keys_by_path i;
       gi_ambiguous_module_roots := gi_ambiguous_module_roots i;
       gi_invalid_module_roots := gi_invalid_module_roots i;
       gi_packages_by_directory_name :=
         match package_get (gp_directory identity) (gp_package_name identity) packages with
         | Some _ => packages
         | None => packages ++ [(gp_directory identity, gp_package_name identity, identity)]
         end;
       gi_package_by_source_id := dict_set (obs_source_id o) identity (gi_package_by_source_id i);
       gi_deferred_vendor_directories := gi_deferred_vendor_directories i |}).

Definition defer_vendor_directory (directory : pystr) : GM unit := on_identities (fun i =>
  {| gi_modules_by_root := gi_modules_by_root i; gi_module_keys_by_path := gi_module_keys_by_path i;
     gi_ambiguous_module_roots := gi_ambiguous_module_roots i;
     gi_invalid_module_roots := gi_invalid_module_roots i;
     gi_packages_by_directory_name := gi_packages_by_directory_name i;
     gi_package_by_source_id := gi_package_by_source_id i;
     gi_deferred_vendor_directories := set_add directory (gi_deferred_vendor_directories i) |}).

(** *** Claims *)

Definition _add_node_input (key : pystr) (kind : string) (display_name : pyval) (metadata : pydict)
    (o : RawObservation) (primary : bool) : GM unit := on_claims (fun c =>
  {| gl_node_inputs :=
       dict_append key {| ni_kind := kind; ni_display_name := display_name; ni_metadata := metadata;
                          ni_source_id := obs_source_id o; ni_primary := primary |} (gl_node_inputs c);
     gl_node_keys_by_source_id := dict_add (obs_source_id o) key (gl_node_keys_by_source_id c);
     gl_edge_claims_by_source_id := gl_edge_claims_by_source_id c;
     gl_declaration_key_by_source_id := gl_declaration_key_by_source_id c;
     gl_function_keys_by_location := gl_function_keys_by_location c |}).

(** [self.node_keys_by_source_id[source_id].add(key)] *)
Definition add_node_key (o : RawObservation) (key : pystr) : GM unit := on_claims (fun c =>
  {| gl_node_inputs := gl_node_inputs c;
     gl_node_keys_by_source_id := dict_add (obs_source_id o) key (gl_node_keys_by_source_id c);
     gl_edge_claims_by_source_id := gl_edge_claims_by_source_id c;
     gl_declaration_key_by_source_id := gl_declaration_key_by_source_id c;
     gl_function_keys_by_location := gl_function_keys_by_location c |}).

Definition _add_edge (o : RawObservation) (source_key : pystr) (kind : string) (target_key : pystr)
    (identity_metadata metadata : pydict) : GM unit := on_claims (fun c =>
  {| gl_node_inputs := gl_node_inputs c;
     gl_node_keys_by_source_id := gl_node_keys_by_source_id c;
     gl_edge_claims_by_source_id :=
       dict_append (obs_source_id o)
         {| ec_source_key := source_key; ec_kind := kind; ec_target_key := target_key;
            ec_identity_metadata := identity_metadata; ec_metadata := metadata |}
         (gl_edge_claims_by_source_id c);
     gl_declaration_key_by_source_id := gl_declaration_key_by_source_id c;
     gl_function_keys_by_location := gl_function_keys_by_location c |}).

Definition set_declaration_key (o : RawObservation) (key : pystr) : GM unit := on_claims (fun c =>
  {| gl_node_inputs := gl_node_inputs c;
     gl_node_keys_by_source_id := gl_node_keys_by_source_id c;
     gl_edge_claims_by_source_id := gl_edge_claims_by_source_id c;
     gl_declaration_key_by_source_id :=
       dict_set (obs_source_id o) key (gl_declaration_key_by_source_id c);
     gl_function_keys_by_location := gl_function_keys_by_location c |}).

(** A dict keyed by tuples of values; equality is Python's. *)
Fixpoint location_get (k : list pyval) (d : list (list pyval * list pystr)) : option (list pystr) :=
  match d with
  | [] => None
  | (k', v) :: rest => if all2 py_eq k' k then Some v else location_get k rest
  end.
Fixpoint location_add (k : list pyval) (x : pystr) (d : list (list pyval * list pystr)) :
    list (list pyval * list pystr) :=
  match d with
  | [] => [(k, [x])]
  | (k', v) :: rest => if all2 py_eq k' k then (k', set_add x v) :: rest else (k', v) :: location_add k x rest
  end.

(** A tuple with an unhashable element is no key. *)
Definition hashed (k : list pyval) : GM unit := if forallb hashable k then mret tt else graise CTypeError.

Definition add_function_location (o : RawObservation) (key : pystr) : GM unit :=
  _ ← hashed (location_key o);
  on_claims (fun c =>
    {| gl_node_inputs := gl_node_inputs c;
       gl_node_keys_by_source_id := gl_node_keys_by_source_id c;
       gl_edge_claims_by_source_id := gl_edge_claims_by_source_id c;
       gl_declaration_key_by_source_id := gl_declaration_key_by_source_id c;
       gl_function_keys_by_location := location_add (location_key o) key (gl_function_keys_by_location c) |}).

(** ** Lookups *)

(** [0 if root == "." else len(root.split("/"))] *)
Definition root_depth (root : pystr) : Z :=
  if bool_decide (root = lit ".") then 0 else Z.of_nat (length (str_split SLASH root)).

(** [max(candidates, key=...)]: the first of the deepest. *)
Definition deepest (best : option GoModuleIdentity) (m : GoModuleIdentity) : option GoModuleIdentity :=
  match best with
  | Some b => if root_depth (gm_root b) <? root_depth (gm_root m) then Some m else best
  | None => Some m
  end.

Definition _module_for_directory (i : go_identities) (directory : pystr) : option GoModuleIdentity :=
  foldl deepest None
    (snd <$> filter (fun e : pystr * GoModuleIdentity => is_directory_ancestor e.1 directory = true)
               (gi_modules_by_root i)).

Definition _package_for_observation (i : go_identities) (o : RawObservation) : option GoPackageIdentity :=
  match plain_text (meta_get (obs_metadata o) "package_name") with
  | Some package_name => package_get (parent (obs_path o)) package_name (gi_packages_by_directory_name i)
  | None => None
  end.

(** [source_id in self.invalid_source_ids] *)
Definition source_invalid (o : RawObservation) : GM bool :=
  gget (fun s => bool_decide (obs_source_id o ∈ gr_invalid_source_ids (gb_report s))).

End GoModel.
