(* ===== verification/CanonGoContext.v ===== *)
(** Building the Go context: [canonicalization/_go_context.py],
    [_go_context_sources.py], [_go_context_relationships.py] and
    [_go_context_finalize.py]. *)
From S2P Require Import Prelude Utf8 GraphKeys GoSourceKeys PyVal Json PyRepr Observations CanonCore CanonState.
From S2P Require Import CanonShared CanonShell CanonGoModel.
Open Scope Z_scope.

Section GoContext.
Context {U : Unicode}.

Definition text_value (key : string) (value : pystr) : pystr * pyval := (lit key, VStr value).
(** [bool(metadata.get(key))] *)
Definition meta_true (o : RawObservation) (key : string) : bool := truthy (meta_get (obs_metadata o) key).

(** The name of an observation, as text. *)
Definition name_text (o : RawObservation) : pystr := val_text (obs_name o).

(** What identifies a declaration: key, kind of the node and display name. *)
Definition declaration_identity (o : RawObservation) (package : GoPackageIdentity) :
    cres (pystr * string * pystr) :=
  let key := gp_canonical_key package in
  let name := name_text o in
  let named (r : kres pystr) (kind : string) :=
    match key_res r with Ok k => Ok (k, kind, name) | Err e => Err e end in
  if is_none (obs_name o) then Err (CGraphKeyError (lit "Go declaration name is required"))
  else if kind_is o "go.type" then named (go_source_type_key key name) "go.source_type"%string
  else if kind_is o "go.type_alias" then named (go_source_type_key key name) "go.source_type_alias"%string
  else if kind_is o "go.function" then named (go_source_function_key key name) "go.source_function"%string
  else if kind_is o "go.method" then
    match plain_text (meta_get (obs_metadata o) "receiver_base") with
    | None => Err (CGraphKeyError (lit "Go method receiver base is required"))
    | Some receiver =>
        match key_res (go_source_method_key key receiver name) with
        | Ok k => Ok (k, "go.source_method"%string, receiver ++ lit "." ++ name)
        | Err e => Err e
        end
    end
  else if kind_is o "go.const" then named (go_source_const_key key name) "go.source_const"%string
  else if kind_is o "go.var" then named (go_source_var_key key name) "go.source_var"%string
  else Err (CGraphKeyError (lit "unsupported Go declaration kind")).

Section Builder.
(** The Go observations, the repository scope and why it is refused. *)
Variable observations : list RawObservation.
Variable repository_scope : option pystr.
Variable repository_scope_error : option pystr.

(** [self.observation_by_source_id[source_id]]: the last one *)
Definition observation_by_source_id (source_id : pystr) : GM RawObservation :=
  match list_find (fun o => obs_source_id o = source_id) (reverse observations) with
  | Some (_, o) => mret o
  | None => graise CKeyError
  end.

(** [next(item for item in self.observations if ...)] *)
Definition first_observation (p : RawObservation -> bool) : GM RawObservation :=
  match list_find (fun o => p o = true) observations with
  | Some (_, o) => mret o
  | None => graise CValueError
  end.

(** ** Errors of the input *)

Definition _collect_repository_scope_error : GM unit :=
  match repository_scope_error, observations with
  | Some error, first :: _ =>
      _ ← go_each observations (fun o => invalidate_source (obs_source_id o));
      _ ← add_collision;
      _error first "go_repository_scope_invalid" error
  | _, _ => mret tt
  end.

(** [Counter(item.source_id ...)], in the order of the source ids *)
Definition source_id_counts : list (pystr * Z) :=
  sort_items (foldl (fun d o => dict_set (obs_source_id o) (default 0 (dict_get (obs_source_id o) d) + 1) d)
                [] observations).

Definition _collect_input_path_errors : GM unit :=
  _ ← go_each source_id_counts (fun '(source_id, count) =>
        if count <=? 1 then mret tt
        else
          _ ← invalidate_source source_id;
          item ← first_observation (fun o => bool_decide (obs_source_id o = source_id));
          _ ← add_collision;
          _error item "go_duplicate_source_id" (lit "Go evidence source identifier is not unique"));
  go_each observations (fun o =>
    if is_repository_relative_path (obs_path o) then mret tt
    else
      _ ← invalidate_source (obs_source_id o);
      _identity_error o (lit "Go evidence path must be repository-relative")).

(** ** Modules *)

Definition _add_module_claims (o : RawObservation) (identity : GoModuleIdentity) (scope : pystr) : GM unit :=
  let name := obs_name o in
  _ ← _add_node_input (gm_semantic_key identity) "go.module" name
        [text_value "identity_format" (lit "go-v1"); (lit "module_path", name);
         (lit "declaration_observed", VBool true)] o true;
  _ ← _add_node_input (gm_source_key identity) "go.source_module" name
        [text_value "identity_format" (lit "go-source-v2"); text_value "repository_scope" scope;
         text_value "repository_relative_module_root" (gm_root identity); (lit "module_path", name);
         text_value "semantic_module_key" (gm_semantic_key identity);
         (lit "declaration_observed", VBool true)] o true;
  path_key ← go_lift (key_res (file_key (PathStr (obs_path o))));
  _ ← _add_edge o path_key "declares" (gm_source_key identity) []
        [text_value "resolution" (lit "exact"); text_value "declaration_kind" (lit "go.source_module")];
  _add_edge o (gm_source_key identity) "instance_of" (gm_semantic_key identity) []
    [text_value "resolution" (lit "exact")].

(** The module paths and source keys seen at each root. *)
Definition module_roots : Type := (list (pystr * list pystr) * list (pystr * list pystr))%type.

Definition collect_module (scope : pystr) (acc : module_roots) (o : RawObservation) : GM module_roots :=
  invalid ← source_invalid o;
  if negb (kind_is o "go.module") || negb (truthy (obs_name o)) || invalid then mret acc
  else
    let root := parent (obs_path o) in
    let name := name_text o in
    keys ← go_try (semantic_key ← key_res (go_module_key name);
                   source_key ← key_res (go_source_module_key scope root name);
                   Ok (semantic_key, source_key));
    match keys with
    | inr message => _ ← _identity_error o message; mret acc
    | inl (semantic_key, source_key) =>
        let identity := {| gm_root := root; gm_module_path := name; gm_semantic_key := semantic_key;
                           gm_source_key := source_key; gm_repository_scope := scope |} in
        _ ← record_module identity;
        _ ← _add_module_claims o identity scope;
        mret (dict_add root name acc.1, dict_add root source_key acc.2)
    end.

Definition _collect_modules : GM unit :=
  match repository_scope with
  | None => mret tt
  | Some scope =>
      '(module_paths_by_root, source_keys_by_root) ← go_fold observations (([], []) : module_roots) (collect_module scope);
      go_each (sort_items module_paths_by_root) (fun '(root, module_paths) =>
        if Z.of_nat (length module_paths) <=? 1 then mret tt
        else
          _ ← reject_module_root root;
          _ ← invalidate_keys (default [] (dict_get root source_keys_by_root));
          item ← first_observation (fun o => kind_is o "go.module" && bool_decide (parent (obs_path o) = root));
          _collision item (lit "one repository root declares multiple Go module identities"))
  end.

(** ** Packages *)

Definition _package_import_path (module : option GoModuleIdentity) (relative : pystr) : option pystr :=
  match module with
  | None => None
  | Some m => Some (if bool_decide (relative = lit ".") then gm_module_path m
                    else gm_module_path m ++ [SLASH] ++ relative)
  end.

Definition _add_package_claims (o : RawObservation) (identity : GoPackageIdentity) (relative scope : pystr) :
    GM unit :=
  let key := gp_canonical_key identity in
  _ ← _add_node_input key "go.source_package" (obs_name o)
        [text_value "identity_format" (lit "go-source-v2"); text_value "repository_scope" scope;
         text_value "repository_relative_directory" (gp_directory identity);
         (lit "module_relative_directory",
          match gp_source_module_key identity with Some _ => VStr relative | None => VNone end);
         (lit "import_path", opt_str (gp_import_path identity)); (lit "package_name", obs_name o);
         text_value "identity_source" (gp_identity_source identity);
         (lit "module_path", opt_str (gp_module_path identity));
         (lit "external_test_package", VBool (gp_external_test_package identity));
         (lit "vendor", VBool (gp_vendor identity))] o true;
  path_key ← go_lift (key_res (file_key (PathStr (obs_path o))));
  _ ← _add_edge o path_key "declares" key []
        [text_value "resolution" (lit "exact"); text_value "declaration_kind" (lit "go.source_package")];
  match gp_source_module_key identity with
  | Some source_module_key =>
      _add_edge o source_module_key "contains" key [] [text_value "resolution" (lit "exact")]
  | None => mret tt
  end.

Definition package_identity (o : RawObservation) (module : option GoModuleIdentity)
    (directory relative key scope : pystr) : GoPackageIdentity :=
  {| gp_directory := directory; gp_import_path := _package_import_path module relative;
     gp_package_name := name_text o; gp_canonical_key := key;
     gp_source_module_key := gm_source_key <$> module; gp_semantic_module_key := gm_semantic_key <$> module;
     gp_module_path := gm_module_path <$> module; gp_module_root := gm_root <$> module;
     gp_repository_scope := scope;
     gp_identity_source := lit (match module with Some _ => "module" | None => "repository_relative" end);
     gp_external_test_package := meta_true o "external_test_package"; gp_vendor := meta_true o "vendor" |}.

(** The first vendored package of a directory is reported. *)
Definition defer_vendor_package (o : RawObservation) (directory : pystr) : GM unit :=
  first_in_directory ←
    gget (fun s => negb (bool_decide (directory ∈ gi_deferred_vendor_directories (gb_identities s))));
  _ ← defer_vendor_directory directory;
  if (first_in_directory : bool) then
    _warning o "go_vendor_package_identity_deferred"
      (lit "vendored Go package identity is deferred pending a dedicated design phase")
  else mret tt.

(** The module of a directory, and whether its root was refused. *)
Definition module_and_validity (directory : pystr) (s : go_builder) : option GoModuleIdentity * bool :=
  let module := _module_for_directory (gb_identities s) directory in
  (module, match module with
           | Some m => bool_decide (gm_root m ∈ gi_invalid_module_roots (gb_identities s))
           | None => false
           end).

Definition collect_package (scope : pystr) (directories_by_key : list (pystr * list pystr)) (o : RawObservation) :
    GM (list (pystr * list pystr)) :=
  invalid ← source_invalid o;
  if negb (kind_is o "go.package") || negb (truthy (obs_name o)) || invalid then mret directories_by_key
  else
    let directory := parent (obs_path o) in
    if is_vendor_path (obs_path o) || meta_true o "vendor" then
      _ ← defer_vendor_package o directory; mret directories_by_key
    else
      '(module, refused) ← gget (module_and_validity directory);
      if (refused : bool) then mret directories_by_key
      else
        let relative := match module with
                        | None => directory
                        | Some m => CanonGoModel.relative_directory directory (gm_root m)
                        end in
        key ← go_try (key_res match module with
                              | Some m => go_source_package_key (gm_source_key m) relative (name_text o)
                              | None => go_source_package_fallback_key scope directory (name_text o)
                              end);
        match key with
        | inr message => _ ← _identity_error o message; mret directories_by_key
        | inl key =>
            let identity := package_identity o module directory relative key scope in
            _ ← record_package o identity;
            _ ← _add_package_claims o identity relative scope;
            mret (dict_add key directory directories_by_key)
        end.

Definition _collect_package_collisions (directories_by_key : list (pystr * list pystr)) : GM unit :=
  go_each (sort_items directories_by_key) (fun '(key, directories) =>
    if Z.of_nat (length directories) <=? 1 then mret tt
    else
      _ ← invalidate_keys [key];
      found ← gget (fun s => list_find (fun e : pystr * GoPackageIdentity => gp_canonical_key e.2 = key)
                               (gi_package_by_source_id (gb_identities s)));
      match found with
      | Some (_, (source_id, _)) =>
          item ← observation_by_source_id source_id;
          _collision item (lit "one Go package identity is derived from multiple directories")
      | None => graise CValueError
      end).

Definition _collect_packages : GM unit :=
  match repository_scope with
  | None => mret tt
  | Some scope =>
      directories_by_key ← go_fold observations [] (collect_package scope);
      _collect_package_collisions directories_by_key
  end.

(** ** Declarations *)

Definition declaration_metadata (o : RawObservation) (package : GoPackageIdentity) (node_kind : string) : pydict :=
  [text_value "identity_format" (lit "go-source-v2");
   text_value "source_package_key" (gp_canonical_key package); (lit "declaration_name", obs_name o);
   text_value "declaration_kind" (lit node_kind); (lit "exported", VBool (meta_true o "exported"));
   (lit "generic", VBool (meta_true o "generic" || meta_true o "type_parameter_count"));
   (lit "generated", VBool (meta_true o "generated")); (lit "vendor", VBool (meta_true o "vendor"))] ++
  (if kind_is o "go.method" then
     [(lit "receiver_base", meta_get (obs_metadata o) "receiver_base");
      (lit "receiver_pointer", VBool (meta_true o "receiver_pointer"))]
   else []).

Definition declare (o : RawObservation) (package : GoPackageIdentity) (key : pystr) (node_kind : string)
    (display_name : pystr) : GM unit :=
  _ ← set_declaration_key o key;
  _ ← _add_node_input key node_kind (VStr display_name) (declaration_metadata o package node_kind) o true;
  _ ← _add_edge o (gp_canonical_key package) "declares" key []
        [text_value "resolution" (lit "exact"); text_value "declaration_kind" (lit node_kind)];
  if kind_is o "go.function" then add_function_location o key else mret tt.

Definition collect_declaration (o : RawObservation) : GM unit :=
  invalid ← source_invalid o;
  if negb (one_of (obs_kind o) GO_DECLARATION_KINDS) || negb (truthy (obs_name o)) || invalid then mret tt
  else
    package ← gget (fun s => _package_for_observation (gb_identities s) o);
    match package with
    | None =>
        deferred ← gget (fun s =>
          bool_decide (parent (obs_path o) ∈ gi_deferred_vendor_directories (gb_identities s)));
        if (deferred : bool) then mret tt
        else _warning o "go_package_context_missing" (lit "Go declaration has no package context")
    | Some package =>
        identity ← go_try (declaration_identity o package);
        match identity with
        | inr message => _identity_error o message
        | inl (key, node_kind, display_name) => declare o package key node_kind display_name
        end
    end.

Definition _collect_declarations : GM unit := go_each observations collect_declaration.

(** The declaration an observation supports. *)
Definition supported_key (o : RawObservation) : GM (option pystr) :=
  by_parent ← gget (fun s =>
    match meta_get (obs_metadata o) "parent_source_id" with
    | VStr parent_source_id => dict_get parent_source_id (gl_declaration_key_by_source_id (gb_claims s))
    | _ => None
    end);
  match by_parent with
  | Some key => mret (Some key)
  | None =>
      if one_of (obs_kind o) ["go.test"; "go.benchmark"; "go.fuzz"; "go.example"; "go.test_main"] then
        _ ← hashed (location_key o);
        candidates ← gget (fun s =>
          default [] (location_get (location_key o) (gl_function_keys_by_location (gb_claims s))));
        mret match candidates with [key] => Some key | _ => None end
      else mret None
  end.

Definition input_sort_key (i : GoNodeClaimInput) : list skey := [SText (ni_source_id i)].

Definition collect_support (o : RawObservation) : GM unit :=
  invalid ← source_invalid o;
  if negb (one_of (obs_kind o) GO_SUPPORTING_KINDS) || invalid then mret tt
  else
    target ← supported_key o;
    match target with
    | None => mret tt
    | Some target_key =>
        inputs ← gget (fun s => default [] (dict_get target_key (gl_node_inputs (gb_claims s))));
        match sorted_by input_sort_key inputs with
        | [] => mret tt
        | first :: _ =>
            _add_node_input target_key (ni_kind first) (ni_display_name first) (ni_metadata first) o false
        end
    end.

Definition _collect_supporting_evidence : GM unit := go_each observations collect_support.

(** ** Relationships *)

Definition _ensure_module_reference (module_path : pystr) (o : RawObservation) : GM (option pystr) :=
  key ← go_try (key_res (go_module_key module_path));
  match key with
  | inr message => _ ← _identity_error o message; mret None
  | inl key =>
      declared ← gget (fun s => dict_has module_path (gi_module_keys_by_path (gb_identities s)));
      _ ← _add_node_input key "go.module" (VStr module_path)
            [text_value "identity_format" (lit "go-v1"); text_value "module_path" module_path;
             (lit "declaration_observed", VBool declared)] o false;
      mret (Some key)
  end.

(** The edge between two module references, when both have keys. *)
Definition relate_modules (o : RawObservation) (source target : pystr) (kind : string)
    (identity_metadata metadata : pydict) : GM unit :=
  source ← _ensure_module_reference source o;
  target ← _ensure_module_reference target o;
  match source, target with
  | Some source, Some target => _add_edge o source kind target identity_metadata metadata
  | _, _ => mret tt
  end.

Definition _collect_replacement (o : RawObservation) : GM unit :=
  if negb (meta_is (obs_metadata o) "replacement_kind" "module") then add_unresolved
  else
    match meta_get (obs_metadata o) "owner_module_path" with
    | VStr owner =>
        match plain_text (meta_get (obs_metadata o) "replacement") with
        | Some replacement =>
            relate_modules o owner replacement "replaces_module"
              [(lit "replaced_module", if truthy (obs_name o) then obs_name o else VStr []);
               (lit "old_version", meta_get (obs_metadata o) "old_version")]
              [text_value "resolution" (lit "exact");
               (lit "replacement_version", meta_get (obs_metadata o) "replacement_version")]
        | None => add_unresolved
        end
    | _ => add_unresolved
    end.

Definition collect_requirement (o : RawObservation) : GM unit :=
  match meta_get (obs_metadata o) "owner_module_path" with
  | VStr owner =>
      if truthy (obs_name o) then
        relate_modules o owner (name_text o) "requires_module" []
          [text_value "resolution" (lit "exact"); (lit "version", meta_get (obs_metadata o) "version");
           (lit "indirect", VBool (meta_true o "indirect"))]
      else add_unresolved
  | _ => add_unresolved
  end.

Definition collect_workspace_use (o : RawObservation) : GM unit :=
  module ← gget (fun s => dict_get (normalize_directory (name_text o)) (gi_modules_by_root (gb_identities s)));
  match module with
  | Some module =>
      if meta_true o "resolved_under_root" then
        path_key ← go_lift (key_res (file_key (PathStr (obs_path o))));
        _ ← _add_edge o path_key "workspace_uses" (gm_source_key module) []
              [text_value "resolution" (lit "bounded_local")];
        add_node_key o (gm_source_key module)
      else add_unresolved
  | None => add_unresolved
  end.

Definition collect_module_relationship (o : RawObservation) : GM unit :=
  invalid ← source_invalid o;
  if (invalid : bool) then mret tt
  else if kind_is o "go.module_require" then collect_requirement o
  else if one_of (obs_kind o) ["go.module_replace"; "go.workspace_replace"] then _collect_replacement o
  else if kind_is o "go.workspace_use" then collect_workspace_use o
  else mret tt.

Definition _collect_module_relationships : GM unit := go_each observations collect_module_relationship.

(** The local packages an import path may mean, by key. *)
Definition local_identities (i : go_identities) (import_path : pystr) : list (pystr * GoPackageIdentity) :=
  foldl (fun d e => dict_set (gp_canonical_key e.2) e.2 d) []
    (filter (fun e : pystr * pystr * GoPackageIdentity =>
               gp_external_test_package e.2 = false /\ gp_import_path e.2 = Some import_path)
       (gi_packages_by_directory_name i)).

(** The targets of an import: the packages of the same module instance, or the
    only candidate when it belongs to another module. *)
Definition import_targets (source : option GoPackageIdentity) (locals : list (pystr * GoPackageIdentity)) :
    list pystr :=
  match source with
  | None => []
  | Some source =>
      let same := filter (fun e : pystr * GoPackageIdentity =>
                            gp_source_module_key source <> None /\
                            gp_source_module_key e.2 = gp_source_module_key source) locals in
      match same, locals with
      | [], [(key, candidate)] =>
          if bool_decide (gp_module_path candidate = gp_module_path source) then [] else [key]
      | _, _ => same.*1
      end
  end.

Definition collect_import (o : RawObservation) : GM unit :=
  invalid ← source_invalid o;
  if invalid || negb (kind_is o "go.import") || negb (truthy (obs_name o)) then mret tt
  else
    source ← gget (fun s => _package_for_observation (gb_identities s) o);
    targets ← gget (fun s => import_targets source (local_identities (gb_identities s) (name_text o)));
    match source, targets with
    | Some source, [target] =>
        _ ← _add_edge o (gp_canonical_key source) "imports" target []
              [text_value "resolution" (lit "bounded_local"); (lit "alias", meta_get (obs_metadata o) "alias");
               (lit "blank_import", VBool (meta_true o "blank_import"));
               (lit "dot_import", VBool (meta_true o "dot_import"))];
        add_node_key o target
    | _, _ :: _ :: _ =>
        _ ← _collision o (lit "local Go import resolves to multiple package identities");
        add_unresolved
    | _, _ => add_unresolved
    end.

Definition _collect_import_relationships : GM unit := go_each observations collect_import.

(** The kinds claimed for each type. *)
Definition type_kinds_by_key (c : go_claims) : list (pystr * list string) :=
  (fun e : pystr * list GoNodeClaimInput => (e.1, ni_kind <$> e.2)) <$>
  filter (fun e : pystr * list GoNodeClaimInput => startswith (lit "go.source-type.v2:") e.1 = true)
    (gl_node_inputs c).

Definition relate_method (o : RawObservation) (kinds : list string) (method_key type_key : pystr) : GM unit :=
  if negb (bool_decide (kinds = [])) && forallb (String.eqb "go.source_type") kinds then
    _ ← _add_edge o method_key "method_of" type_key [] [text_value "resolution" (lit "exact")];
    add_node_key o type_key
  else if existsb (String.eqb "go.source_type_alias") kinds then
    _ ← add_collision;
    _error o "go_method_receiver_alias_unsupported" (lit "Go method receiver resolves only to a type alias")
  else add_unresolved.

Definition collect_method (type_kinds : list (pystr * list string)) (o : RawObservation) : GM unit :=
  invalid ← source_invalid o;
  if invalid || negb (kind_is o "go.method") then mret tt
  else
    method_key ← gget (fun s => dict_get (obs_source_id o) (gl_declaration_key_by_source_id (gb_claims s)));
    package ← gget (fun s => _package_for_observation (gb_identities s) o);
    match method_key, package, meta_get (obs_metadata o) "receiver_base" with
    | Some method_key, Some package, VStr receiver =>
        type_key ← go_try (key_res (go_source_type_key (gp_canonical_key package) receiver));
        match type_key with
        | inr message => _identity_error o message
        | inl type_key => relate_method o (default [] (dict_get type_key type_kinds)) method_key type_key
        end
    | _, _, _ => add_unresolved
    end.

Definition _collect_method_relationships : GM unit :=
  type_kinds ← gget (fun s => type_kinds_by_key (gb_claims s));
  go_each observations (collect_method type_kinds).

Definition _collect_relationships : GM unit :=
  _ ← _collect_module_relationships;
  _ ← _collect_import_relationships;
  _collect_method_relationships.

(** ** Finalization *)

Definition merged_flags : list string :=
  ["declaration_observed"; "exported"; "generic"; "generated"; "vendor"; "external_test_package"].

(** The metadata of the first input, with the flags of all of them. *)
Definition merge_flag (ordered : list GoNodeClaimInput) (metadata : pydict) (field : string) : pydict :=
  if existsb (fun i => dict_has (lit field) (ni_metadata i)) ordered then
    set_bool metadata field (existsb (fun i => truthy (meta_get (ni_metadata i) field)) ordered)
  else metadata.

Definition claim_sort_key (i : GoNodeClaimInput) : list skey :=
  [SText (ni_source_id i); SNum (if ni_primary i then 0 else 1)].

Definition count_primary (inputs : list GoNodeClaimInput) : Z :=
  Z.of_nat (length (filter (fun i => ni_primary i = true) inputs)).

Definition node_claim (key : pystr) (ordered : list GoNodeClaimInput) : GoNodeClaim :=
  let primary_count := count_primary ordered in
  let first_metadata := match ordered with first :: _ => ni_metadata first | [] => [] end in
  let metadata := foldl (merge_flag ordered) first_metadata merged_flags in
  let metadata := dict_update metadata
    [(lit "identity_format", default (VStr (lit "go-v1")) (dict_get (lit "identity_format") metadata));
     (lit "declaration_evidence_count", VInt primary_count);
     (lit "supporting_evidence_count", VInt (Z.of_nat (length ordered) - primary_count));
     (lit "duplicate_declaration_evidence_count", VInt (Z.max (primary_count - 1) 0))] in
  {| nc_canonical_key := key;
     nc_kind := match ordered with first :: _ => lit (ni_kind first) | [] => [] end;
     nc_display_name := match ordered with first :: _ => ni_display_name first | [] => VNone end;
     nc_metadata := metadata |}.

(** The claims, the keys of conflicting families, and the number of duplicates. *)
Definition node_claims_acc : Type := (list (pystr * GoNodeClaim) * list pystr * Z)%type.

(** [len({item.kind for item in inputs}) == 1] *)
Definition one_kind (inputs : list GoNodeClaimInput) : bool :=
  match inputs with
  | [] => false
  | first :: rest => forallb (fun i => String.eqb (ni_kind i) (ni_kind first)) rest
  end.

Definition finalize_node (acc : node_claims_acc) (entry : pystr * list GoNodeClaimInput) : GM node_claims_acc :=
  let '(claims, invalid_keys, duplicates) := acc in
  inputs ← gget (fun s =>
    filter (fun i => ni_source_id i ∉ gr_invalid_source_ids (gb_report s)) entry.2);
  match sorted_by input_sort_key inputs with
  | [] => mret acc
  | first :: _ =>
      if negb (one_kind inputs) then
        item ← observation_by_source_id (ni_source_id first);
        _ ← _collision item (lit "one Go canonical identity has incompatible declaration families");
        mret (claims, set_add entry.1 invalid_keys, duplicates)
      else
        let ordered := sorted_by claim_sort_key inputs in
        mret (dict_set entry.1 (node_claim entry.1 ordered) claims, invalid_keys,
              duplicates + Z.max (count_primary ordered - 1) 0)
  end.

Definition _finalize_node_claims : GM node_claims_acc :=
  inputs ← gget (fun s => sort_items (gl_node_inputs (gb_claims s)));
  go_fold inputs ([], [], 0) finalize_node.

Definition edge_order (e : GoEdgeClaim) : list skey :=
  [SText (ec_source_key e); SText (lit (ec_kind e)); SText (ec_target_key e);
   SText (py_repr (VList ((fun kv : pystr * pyval => VTuple [VStr kv.1; kv.2]) <$>
                          sort_items (ec_identity_metadata e))))].

(** Both ends of the edge are valid. *)
Definition edge_valid (invalid_keys : list pystr) (e : GoEdgeClaim) : bool :=
  negb (bool_decide (ec_source_key e ∈ invalid_keys)) && negb (bool_decide (ec_target_key e ∈ invalid_keys)).

Definition _finalize_edge_claims (invalid_keys invalid_source_ids : list pystr)
    (claims : list (pystr * list GoEdgeClaim)) : list (pystr * list GoEdgeClaim) :=
  (fun e : pystr * list GoEdgeClaim =>
     (e.1, sorted_by edge_order (filter (fun c => edge_valid invalid_keys c = true) e.2))) <$>
  filter (fun e : pystr * list GoEdgeClaim =>
            (e.1 ∉ invalid_source_ids) /\ existsb (edge_valid invalid_keys) e.2 = true) claims.

(** [tuple(sorted(keys - invalid_keys))] for each source, when there are any *)
Definition valid_node_keys (invalid_keys : list pystr) (node_keys : list (pystr * list pystr)) :
    list (pystr * list pystr) :=
  filter (fun e : pystr * list pystr => e.2 <> [])
    ((fun e : pystr * list pystr =>
        (e.1, sorted_by (fun k => [SText k]) (filter (fun k => k ∉ invalid_keys) e.2))) <$> node_keys).

Definition build_steps : GM GoCanonicalContext :=
  _ ← _collect_repository_scope_error;
  _ ← _collect_input_path_errors;
  _ ← _collect_modules;
  _ ← _collect_packages;
  _ ← _collect_declarations;
  _ ← _collect_supporting_evidence;
  _ ← _collect_relationships;
  '(node_claims, conflicting, duplicate_count) ← _finalize_node_claims;
  gget (fun s =>
    let r := gb_report s in
    let invalid_keys := set_union conflicting (gr_invalid_keys r) in
    {| gc_node_claims := filter (fun e : pystr * GoNodeClaim => e.1 ∉ invalid_keys) node_claims;
       gc_node_keys_by_source_id := valid_node_keys invalid_keys (gl_node_keys_by_source_id (gb_claims s));
       gc_edge_claims_by_source_id :=
         _finalize_edge_claims invalid_keys (gr_invalid_source_ids r)
           (gl_edge_claims_by_source_id (gb_claims s));
       gc_diagnostics := gr_diagnostics r;
       gc_duplicate_declaration_evidence := duplicate_count;
       gc_identity_collisions := gr_identity_collisions r;
       gc_unresolved_relationships := gr_unresolved_relationships r;
       gc_invalid_source_ids := gr_invalid_source_ids r |}).

End Builder.

(** [_ContextBuilder.__init__]: the empty builder, with the relationships that are
    never resolved counted. *)
Definition empty_builder (observations : list RawObservation) : go_builder :=
  {| gb_identities :=
       {| gi_modules_by_root := []; gi_module_keys_by_path := []; gi_ambiguous_module_roots := [];
          gi_invalid_module_roots := []; gi_packages_by_directory_name := []; gi_package_by_source_id := [];
          gi_deferred_vendor_directories := [] |};
     gb_claims :=
       {| gl_node_inputs := []; gl_node_keys_by_source_id := []; gl_edge_claims_by_source_id := [];
          gl_declaration_key_by_source_id := []; gl_function_keys_by_location := [] |};
     gb_report :=
       {| gr_diagnostics := []; gr_invalid_keys := []; gr_invalid_source_ids := [];
          gr_identity_collisions := 0;
          gr_unresolved_relationships :=
            Z.of_nat (length (filter (fun o => one_of (obs_kind o) GO_UNRESOLVED_RELATIONSHIP_KINDS = true)
                                observations)) |} |}.

(** The repository scope, or why it is refused. *)
Definition checked_scope (observations : list RawObservation) (repository_scope : option pystr) :
    cres (option pystr * option pystr) :=
  match observations with
  | [] => Ok (None, None)
  | _ =>
      match key_res (validate_go_repository_scope (default [] repository_scope)) with
      | Ok scope => Ok (Some scope, None)
      | Err (CGraphKeyError message) => Ok (None, Some message)
      | Err e => Err e
      end
  end.

Definition is_go_observation (o : RawObservation) : bool := kind_starts o "go.".

Definition build_go_canonical_context (observations : list RawObservation) (repository_scope : option pystr) :
    cres GoCanonicalContext :=
  let observations := filter (fun o => is_go_observation o = true) observations in
  '(scope, scope_error) ← checked_scope observations repository_scope;
  (build_steps observations scope scope_error (empty_builder observations)).1.

End GoContext.

(** Go observations: [canonicalization/_go_family.py]. *)


Definition GO_EVIDENCE_OMIT_KEYS : list string :=
  ["raw"; "raw_source"; "resolved_path"; "owner_module_path"; "owner_workspace_path"; "source"; "source_text";
   "text"].

(** Mappings at any depth lose the omitted keys. *)
Fixpoint _sanitize_go_metadata_value (value : pyval) : pyval :=
  match value with
  | VDict d =>
      VDict (filter (fun kv : pystr * pyval => one_of kv.1 GO_EVIDENCE_OMIT_KEYS = false)
               ((fun kv : pystr * pyval => (kv.1, _sanitize_go_metadata_value kv.2)) <$> d))
  | VTuple l => VTuple (_sanitize_go_metadata_value <$> l)
  | VList l => VList (_sanitize_go_metadata_value <$> l)
  | _ => value
  end.

Definition _sanitize_go_metadata (metadata : pydict) : pydict :=
  filter (fun kv : pystr * pyval => one_of kv.1 GO_EVIDENCE_OMIT_KEYS = false)
    ((fun kv : pystr * pyval => (kv.1, _sanitize_go_metadata_value kv.2)) <$> metadata).

(** Sequences in the order of the text of their elements, mappings of their keys. *)
Definition _stable_go_metadata_sort_key (value : pyval) : list skey :=
  [SText (dumps compact_style value)].

Fixpoint _stable_go_metadata (value : pyval) : pyval :=
  match value with
  | VDict d => VDict (sort_items ((fun kv : pystr * pyval => (kv.1, _stable_go_metadata kv.2)) <$> d))
  | VTuple l => VTuple (sorted_by _stable_go_metadata_sort_key (_stable_go_metadata <$> l))
  | VList l => VList (sorted_by _stable_go_metadata_sort_key (_stable_go_metadata <$> l))
  | _ => value
  end.

Section Go.
Context {U : Unicode}.

(** [replace(stored_edge, metadata=_stable_go_metadata(stored_edge.metadata))] *)
Definition stabilize_edge (edge_key : pystr) : CM unit :=
  edges ← get_edges;
  match dict_get edge_key edges with
  | None => craise CKeyError
  | Some e =>
      set_edge edge_key
        {| e_edge_key := e_edge_key e; e_graph_key_version := e_graph_key_version e;
           e_source_key := e_source_key e; e_kind := e_kind e; e_target_key := e_target_key e;
           e_identity_metadata := e_identity_metadata e;
           e_metadata := match _stable_go_metadata (VDict (e_metadata e)) with VDict d => d | _ => [] end;
           e_confidence := e_confidence e; e_conflict := e_conflict e |}
  end.

Definition claim_edge_key (claim : GoEdgeClaim) : pystr :=
  canonical_edge_key GRAPH_KEY_VERSION (ec_source_key claim) (lit (ec_kind claim)) (ec_target_key claim)
    (ec_identity_metadata claim).

Definition go_node (context : GoCanonicalContext) (o : RawObservation) (evidence_key canonical_key : pystr) :
    CM unit :=
  match dict_get canonical_key (gc_node_claims context) with
  | None => mret tt
  | Some claim =>
      _ ← _upsert_node (nc_canonical_key claim) (nc_kind claim) (nc_display_name claim) (nc_metadata claim)
            (obs_confidence o);
      append_node_link {| nl_canonical_key := canonical_key; nl_evidence_key := evidence_key;
                          nl_link_kind := lit "observed" |}
  end.

(** Each edge is linked once per observation. *)
Fixpoint go_edges (o : RawObservation) (evidence_key : pystr) (claims : list GoEdgeClaim)
    (observed_edge_keys : list pystr) : CM unit :=
  match claims with
  | [] => mret tt
  | claim :: rest =>
      let edge_key := claim_edge_key claim in
      _ ← _upsert_edge edge_key (ec_source_key claim) (lit (ec_kind claim)) (ec_target_key claim)
            (ec_identity_metadata claim) (ec_metadata claim) (obs_confidence o);
      _ ← stabilize_edge edge_key;
      if bool_decide (edge_key ∈ observed_edge_keys) then go_edges o evidence_key rest observed_edge_keys
      else
        _ ← append_edge_link {| el_edge_key := edge_key; el_evidence_key := evidence_key;
                                el_link_kind := lit "observed" |};
        go_edges o evidence_key rest (set_add edge_key observed_edge_keys)
  end.

(** Whether the observation was handled. *)
Definition canonicalize_go_observation (context : GoCanonicalContext) (o : RawObservation) (ordinal : Z) :
    option (CM unit) :=
  if negb (is_go_observation o) then None
  else if negb (is_repository_relative_path (obs_path o)) then Some (mret tt)
  else if bool_decide (obs_source_id o ∈ gc_invalid_source_ids context) then Some (mret tt)
  else
    let evidence := _evidence_from_observation o ordinal (Some (_sanitize_go_metadata (obs_metadata o))) in
    Some (_ ← append_evidence evidence;
          _ ← for_each (default [] (dict_get (obs_source_id o) (gc_node_keys_by_source_id context)))
                (go_node context o (v_evidence_key evidence));
          go_edges o (v_evidence_key evidence)
            (default [] (dict_get (obs_source_id o) (gc_edge_claims_by_source_id context))) []).

(** ** Accounting *)

Definition is_go_evidence (v : CanonicalEvidence) : bool := startswith (lit "go.") (v_raw_kind v).

(** The Go nodes and edges that are in the state. *)
Definition go_node_keys (context : GoCanonicalContext) (s : CanonicalizationState) : list pystr :=
  filter (fun k => dict_has k (cs_nodes s) = true) (gc_node_claims context).*1.
Definition go_edge_keys (context : GoCanonicalContext) (s : CanonicalizationState) : list pystr :=
  filter (fun k => dict_has k (cs_edges s) = true)
    (foldl (fun ks c => set_add (claim_edge_key c) ks) []
       (concat (gc_edge_claims_by_source_id context).*2)).
Definition go_evidence_keys (s : CanonicalizationState) : list pystr :=
  v_evidence_key <$> filter (fun v => is_go_evidence v = true) (cs_evidence s).

Definition evidence_link_count (context : GoCanonicalContext) (s : CanonicalizationState) : Z :=
  Z.of_nat (length (filter (fun l => nl_canonical_key l ∈ go_node_keys context s /\
                                     nl_evidence_key l ∈ go_evidence_keys s) (cs_node_evidence_links s))) +
  Z.of_nat (length (filter (fun l => el_edge_key l ∈ go_edge_keys context s /\
                                     el_evidence_key l ∈ go_evidence_keys s) (cs_edge_evidence_links s))).

Definition go_accounting (context : GoCanonicalContext) (s : CanonicalizationState) : CanonicalizationDiagnostic :=
  {| d_severity := lit "info"; d_category := lit "go_canonical_accounting";
     d_message := lit "bounded Go canonicalization accounting"; d_raw_observation_ordinal := None;
     d_raw_source_id := None; d_path := None; d_field := None;
     d_value := VDict
       [(lit "canonical_nodes", len (go_node_keys context s));
        (lit "canonical_edges", len (go_edge_keys context s));
        (lit "evidence_links", VInt (evidence_link_count context s));
        (lit "duplicate_declaration_evidence", VInt (gc_duplicate_declaration_evidence context));
        (lit "identity_collisions", VInt (gc_identity_collisions context));
        (lit "unresolved_relationships", VInt (gc_unresolved_relationships context))];
     d_placeholder_key := None |}.

Definition finalize_go_canonicalization (context : GoCanonicalContext) : CM unit := fun s =>
  if bool_decide (gc_node_claims context = []) && bool_decide (gc_diagnostics context = [])
     && negb (existsb is_go_evidence (cs_evidence s))
  then (Ok tt, s)
  else append_diagnostic (go_accounting context s) s.

End Go.
