(* ===== verification/CanonGoFacts.v ===== *)
(** The Go context is bounded: what the builder reports stays within its limit and
    names only public paths. *)
From S2P Require Import Prelude Utf8 PyVal Json PyRepr GraphKeys GoSourceKeys Observations.
From S2P Require Import CanonCore CanonState CanonShared CanonShell CanonGoModel CanonGoContext.
Open Scope Z_scope.

Section Bounds.
Context {U : Unicode}.

(** A diagnostic shows a path only when it is repository-relative, and a source
    identifier only of at most 512 bytes, next to such a path. *)
Definition public_diagnostic (d : CanonicalizationDiagnostic) : Prop :=
  (forall path, d_path d = Some path -> is_repository_relative_path path = true) /\
  (forall source_id, d_raw_source_id d = Some source_id ->
     (exists path, d_path d = Some path) /\
     exists bytes, utf8_encode source_id = Some bytes /\ Z.of_nat (length bytes) <= 512).

Definition truncation_notice : CanonicalizationDiagnostic :=
  go_diagnostic "error" "go_canonical_diagnostics_truncated" (lit "additional Go canonical diagnostics omitted")
    None None.

Record bounded_diagnostics (ds : list CanonicalizationDiagnostic) : Prop := {
  bd_length : Z.of_nat (length ds) <= MAX_GO_CANONICAL_DIAGNOSTICS;
  bd_public : Forall public_diagnostic ds;
  bd_last : Z.of_nat (length ds) = MAX_GO_CANONICAL_DIAGNOSTICS -> last ds = Some truncation_notice
}.

Definition bounded (s : go_builder) : Prop := bounded_diagnostics (gr_diagnostics (gb_report s)).

(** A step of the builder keeps the bound, whether it returns or raises. *)
Definition keeps {A} (m : GM A) : Prop := forall s, bounded s -> bounded (m s).2.

Lemma keeps_ret {A} (a : A) : keeps (mret a : GM A).
Proof. by intros s. Qed.
Lemma keeps_raise {A} e : keeps (graise e : GM A).
Proof. by intros s. Qed.
Lemma keeps_get {A} (f : go_builder -> A) : keeps (gget f).
Proof. by intros s. Qed.
Lemma keeps_lift {A} (r : cres A) : keeps (go_lift r).
Proof. by intros s. Qed.
Lemma keeps_try {A} (r : cres A) : keeps (go_try r).
Proof. intros s Hs. unfold go_try. by repeat case_match. Qed.
Lemma keeps_identities f : keeps (on_identities f).
Proof. by intros s. Qed.
Lemma keeps_claims f : keeps (on_claims f).
Proof. by intros s. Qed.
Lemma keeps_report f : (forall r, gr_diagnostics (f r) = gr_diagnostics r) -> keeps (on_report f).
Proof. intros Hf s Hs. unfold bounded. cbn. by rewrite Hf. Qed.

Lemma keeps_bind {A B} (m : GM A) (f : A -> GM B) : keeps m -> (forall a, keeps (f a)) -> keeps (a ← m; f a).
Proof.
  intros Hm Hf s Hs. unfold mbind, gm_bind. specialize (Hm s Hs). destruct (m s) as [[a|e] s']; [by apply Hf|done].
Qed.

Lemma keeps_each {A} (l : list A) f : (forall x, keeps (f x)) -> keeps (go_each l f).
Proof. intros Hf. induction l as [|x l IH]; [apply keeps_ret|]. by apply keeps_bind. Qed.

Lemma keeps_fold {A S} (l : list A) (f : S -> A -> GM S) acc :
  (forall acc x, keeps (f acc x)) -> keeps (go_fold l acc f).
Proof. intros Hf. revert acc. induction l as [|x l IH]; intros acc; [apply keeps_ret|]. by apply keeps_bind. Qed.

End Bounds.

Create HintDb keeps.
#[export] Hint Resolve keeps_ret keeps_raise keeps_get keeps_lift keeps_try keeps_identities keeps_claims : keeps.

(** Walks through the binds, loops and branches of a step. *)
Ltac keeps :=
  cbv zeta;
  repeat first
    [ solve [auto with keeps]
    | apply keeps_bind; [|intros ?]
    | apply keeps_each; intros ?
    | apply keeps_fold; intros ? ?
    | apply keeps_report; reflexivity
    | case_match ].

Section Steps.
Context {U : Unicode}.

Lemma keeps_append_diagnostic severity category message o : keeps (_append_diagnostic severity category message o).
Proof.
  unfold _append_diagnostic. cbv zeta. destruct (utf8_encode _) as [bytes|] eqn:E; [|apply keeps_raise].
  intros s [Hl Hp Hn]. unfold mbind, gm_bind, gget, append_go_diagnostic, MAX_GO_CANONICAL_DIAGNOSTICS in *.
  destruct (Z.ltb_spec (Z.of_nat (length (gr_diagnostics (gb_report s)))) (64 - 1)) as [Hlt|Hge];
    [|destruct (Z.eqb_spec (Z.of_nat (length (gr_diagnostics (gb_report s)))) (64 - 1)) as [Heq|Hne]; [|by split]];
    (destruct (valid_diagnostic _); [|by split]); unfold bounded; cbn; split;
    rewrite ?length_app, ?Forall_app, ?last_snoc; cbn; unfold MAX_GO_CANONICAL_DIAGNOSTICS; try lia; try done.
  - split; [done|]. constructor; [|constructor]. split; cbn.
    + intros path. by case_match; intros [= <-].
    + intros source_id. case_match; [|done]. destruct (Z.leb_spec (Z.of_nat (length bytes)) 512); [|done].
      intros [= <-]. eauto.
  - split; [done|]. by repeat constructor.
Qed.

#[local] Hint Resolve keeps_append_diagnostic : keeps.

Lemma keeps_error o category message : keeps (_error o category message).
Proof. unfold _error. keeps. Qed.
Lemma keeps_warning o category message : keeps (_warning o category message).
Proof. unfold _warning. keeps. Qed.
Lemma keeps_add_collision : keeps add_collision.
Proof. unfold add_collision. keeps. Qed.
Lemma keeps_add_unresolved : keeps add_unresolved.
Proof. unfold add_unresolved. keeps. Qed.
Lemma keeps_invalidate_source source_id : keeps (invalidate_source source_id).
Proof. unfold invalidate_source. keeps. Qed.
Lemma keeps_invalidate_keys keys : keeps (invalidate_keys keys).
Proof. unfold invalidate_keys. keeps. Qed.
#[local] Hint Resolve keeps_error keeps_warning keeps_add_collision keeps_add_unresolved keeps_invalidate_source
  keeps_invalidate_keys : keeps.

Lemma keeps_collision o message : keeps (_collision o message).
Proof. unfold _collision. keeps. Qed.
Lemma keeps_identity_error o message : keeps (_identity_error o message).
Proof. unfold _identity_error. keeps. Qed.
Lemma keeps_hashed k : keeps (hashed k).
Proof. unfold hashed. keeps. Qed.
#[local] Hint Resolve keeps_collision keeps_identity_error keeps_hashed : keeps.
#[local] Hint Unfold record_module reject_module_root record_package defer_vendor_directory _add_node_input
  add_node_key _add_edge set_declaration_key source_invalid : keeps.

Variable observations : list RawObservation.

Lemma keeps_observation_by_source_id source_id : keeps (observation_by_source_id observations source_id).
Proof. unfold observation_by_source_id. keeps. Qed.
Lemma keeps_first_observation p : keeps (first_observation observations p).
Proof. unfold first_observation. keeps. Qed.
#[local] Hint Resolve keeps_observation_by_source_id keeps_first_observation : keeps.

Lemma keeps_input_errors error :
  keeps (_collect_repository_scope_error observations error) /\ keeps (_collect_input_path_errors observations).
Proof. split; unfold _collect_repository_scope_error, _collect_input_path_errors; keeps. Qed.

Lemma keeps_modules scope : keeps (_collect_modules observations scope).
Proof. unfold _collect_modules, collect_module, _add_module_claims. keeps. Qed.

Lemma keeps_packages scope : keeps (_collect_packages observations scope).
Proof.
  unfold _collect_packages, collect_package, defer_vendor_package, _add_package_claims, _collect_package_collisions.
  keeps.
Qed.

Lemma keeps_declarations : keeps (_collect_declarations observations).
Proof. unfold _collect_declarations, collect_declaration, declare, add_function_location. keeps. Qed.

Lemma keeps_support : keeps (_collect_supporting_evidence observations).
Proof. unfold _collect_supporting_evidence, collect_support, supported_key. keeps. Qed.

Lemma keeps_module_reference path o : keeps (_ensure_module_reference path o).
Proof. unfold _ensure_module_reference. keeps. Qed.
#[local] Hint Resolve keeps_module_reference : keeps.
Lemma keeps_relate_modules o source target kind identity metadata :
  keeps (relate_modules o source target kind identity metadata).
Proof. unfold relate_modules. keeps. Qed.
#[local] Hint Resolve keeps_relate_modules : keeps.

Lemma keeps_relationships : keeps (_collect_relationships observations).
Proof.
  unfold _collect_relationships, _collect_module_relationships, _collect_import_relationships,
    _collect_method_relationships, collect_module_relationship, collect_requirement, _collect_replacement,
    collect_workspace_use, collect_import, collect_method, relate_method.
  keeps.
Qed.

Lemma keeps_finalize : keeps (_finalize_node_claims observations).
Proof. unfold _finalize_node_claims, finalize_node. keeps. Qed.

(** What holds of the result of a step from a bounded state. *)
Definition go_yields {A} (m : GM A) (Q : A -> Prop) : Prop :=
  forall s a, bounded s -> (m s).1 = Ok a -> Q a.

Lemma go_yields_bind {A B} (m : GM A) (f : A -> GM B) Q : keeps m -> (forall a, go_yields (f a) Q) -> go_yields (a ← m; f a) Q.
Proof.
  intros Hm Hf s b Hs. unfold mbind, gm_bind. specialize (Hm s Hs).
  destruct (m s) as [[a|e] s']; [|done]. by apply Hf.
Qed.

Lemma build_steps_bounded scope error :
  go_yields (build_steps observations scope error) (fun context => bounded_diagnostics (gc_diagnostics context)).
Proof.
  pose proof (keeps_input_errors error) as [H1 H2]. unfold build_steps.
  repeat (apply go_yields_bind; [auto using keeps_modules, keeps_packages, keeps_declarations, keeps_support,
                                keeps_relationships, keeps_finalize|intros ?]).
  case_match. case_match. intros s context Hs [= <-]. exact Hs.
Qed.

End Steps.

(** However many Go observations there are and whatever they hold, the context
    built from them reports at most sixty-four diagnostics; the last of
    sixty-four is the notice that more were omitted; and a diagnostic shows a
    path only if it is repository-relative, and a source identifier only next to
    such a path and of at most 512 bytes. *)
Theorem go_diagnostics_bounded {U : Unicode} observations scope context :
  build_go_canonical_context observations scope = Ok context ->
  Z.of_nat (length (gc_diagnostics context)) <= MAX_GO_CANONICAL_DIAGNOSTICS /\
  (Z.of_nat (length (gc_diagnostics context)) = MAX_GO_CANONICAL_DIAGNOSTICS ->
     last (gc_diagnostics context) = Some truncation_notice) /\
  Forall public_diagnostic (gc_diagnostics context).
Proof.
  unfold build_go_canonical_context. destruct (checked_scope _ _) as [[s error]|e]; cbn; [|done].
  intros H. apply build_steps_bounded in H as [Hl Hp Hn]; [done|]. split; [by vm_compute|constructor|by vm_compute].
Qed.

(** A hundred declarations without a package, the first of them at an absolute
    path: the limit is reached. *)
Definition many_declarations : list RawObservation :=
  (fun i => {| obs_kind := lit "go.type"; obs_source_id := lit "s" ++ str_of_int (Z.of_nat i);
               obs_path := if Nat.eqb i 0 then lit "/a.go" else lit "a.go"; obs_confidence := lit "extracted";
               obs_extractor := lit "go"; obs_extractor_version := lit "1"; obs_start_line := VNone;
               obs_end_line := VNone; obs_name := VStr (lit "T"); obs_target := VNone; obs_metadata := [];
               obs_schema_version := VInt 1 |}) <$> seq 0 100.

Lemma go_diagnostics_bounded_witness :
  exists context, build_go_canonical_context (U := ascii_only) many_declarations (Some (lit "repo")) = Ok context /\
    length (gc_diagnostics context) = 64%nat /\ last (gc_diagnostics context) = Some truncation_notice.
Proof.
  destruct (build_go_canonical_context (U := ascii_only) many_declarations (Some (lit "repo"))) as [context|e] eqn:E;
    [|exfalso; vm_compute in E; discriminate E].
  exists context. pose proof (go_diagnostics_bounded (U := ascii_only) _ _ _ E) as (_ & Hlast & _).
  assert (length (gc_diagnostics context) = 64%nat) as Hl.
  { revert E. vm_compute. intros [= <-]. reflexivity. }
  split; [reflexivity|]. split; [exact Hl|]. apply Hlast. by rewrite Hl.
Defined.
