(* ===== verification/CanonDispatch.v ===== *)
(** The whole of canonicalization: [canonicalization/main.py]
    ([canonicalize_observations]), [_document_dispatch.py] and the kinds of
    [dispatch_helpers.py]. *)
From S2P Require Import Prelude Utf8 PyVal Json PyRepr PyDictFacts GraphKeys GraphKeysFacts KeyBuilders.
From S2P Require Import Observations ObservationsFacts CanonCore CanonState CanonInvariant CanonLogic CanonShared.
From S2P Require Import CanonConfig CanonLanguage CanonEmail CanonWeb CanonDocument.
From S2P Require Import CanonShell CanonAwk CanonBash CanonBats CanonZunit CanonZsh CanonPowershell.
From S2P Require Import CanonGoModel CanonGoContext.
Open Scope Z_scope.

(** ** Kinds ([dispatch_helpers.py]) *)

Definition TFJSON_PROFILE_RAW_OBSERVATION_KINDS : list string :=
  ["ecosystem.config_profile"; "ecosystem.package"; "ecosystem.script"; "ecosystem.dependency";
   "ecosystem.tool"; "ecosystem.framework_hint"; "ecosystem.reference"; "ecosystem.redaction";
   "ecosystem.parse_error"; "npm.package"; "npm.script"; "npm.dependency"; "typescript.config";
   "typescript.reference"; "angular.project"; "angular.target"; "jest.config"; "nest.config";
   "playwright.config"; "terraform.file"; "terraform.block"; "terraform.provider"; "terraform.resource";
   "terraform.data_source"; "terraform.module"; "terraform.variable"; "terraform.output"; "terraform.local";
   "terraform.backend"; "terraform.required_provider"; "terraform.required_version"; "terraform.reference";
   "terraform.moved"; "terraform.import"; "terraform.check"; "terraform.removed"; "terraform.parse_error";
   "terraform.redaction"; "kubernetes.resource"; "argocd.application"; "liquibase.changelog";
   "liquibase.changeset"; "docker.reference"].

Definition JS5_FRAMEWORK_RAW_OBSERVATION_KINDS : list string :=
  ["js.framework_profile"; "js.runtime_profile"; "js.package_context"; "js.route_handler"; "js.middleware";
   "js.controller"; "js.provider"; "js.module_binding"; "js.test_config"; "js.dom_selector"; "js.dom_event";
   "js.ajax_reference"; "js.server_entrypoint"; "js.client_entrypoint"; "js.framework_reference";
   "node.entrypoint"; "node.export"; "node.require"; "express.app"; "express.router"; "express.route";
   "express.middleware"; "express.error_handler"; "nest.module"; "nest.controller"; "nest.provider";
   "nest.route"; "nest.decorator"; "next.route"; "next.page"; "next.api_route"; "next.app_route";
   "next.component"; "jest.suite"; "jest.test"; "jest.expectation"; "jest.mock"; "jquery.selector";
   "jquery.event"; "jquery.ajax"; "jquery.plugin_reference"].

Section Dispatch.
Context {U : Unicode}.

(** Evidence of the observation and nothing else. *)
Definition evidence_only (o : RawObservation) (ordinal : Z) : CM unit :=
  append_evidence (_evidence_from_observation o ordinal None).

Definition _try_canonicalize_document_observation (o : RawObservation) (ordinal : Z) : option (CM unit) :=
  let kind := obs_kind o in
  if one_of kind ["markdown.document"; "markdown.heading"; "markdown.adr_metadata"; "markdown.skill_metadata"] then
    Some (_canonicalize_markdown_definition_observation o ordinal)
  else if kind_is o "markdown.link" then Some (_canonicalize_markdown_link_observation o ordinal)
  else if one_of kind ["markdown.frontmatter"; "markdown.code_fence"] then
    Some (_canonicalize_markdown_page_evidence_observation o ordinal)
  else if one_of kind ["config.document"; "config.path"] then
    Some (_canonicalize_config_definition_observation o ordinal)
  else if kind_is o "config.reference" then Some (_canonicalize_config_reference_observation o ordinal)
  else if one_of kind ["config.jsonl_record"; "config.parse_error"] then Some (evidence_only o ordinal)
  else if one_of kind TFJSON_PROFILE_RAW_OBSERVATION_KINDS then Some (evidence_only o ordinal)
  else if one_of kind JS5_FRAMEWORK_RAW_OBSERVATION_KINDS then Some (evidence_only o ordinal)
  else if one_of kind ["html.document"; "html.element"; "html.heading"] then
    Some (_canonicalize_html_definition_observation o ordinal)
  else if one_of kind ["html.link"; "html.asset"; "html.form"] then
    Some (_canonicalize_html_reference_observation o ordinal)
  else if kind_is o "html.parse_error" then Some (evidence_only o ordinal)
  else if one_of kind ["xml.document"; "xml.element"; "xml.attribute"] then
    Some (_canonicalize_xml_definition_observation o ordinal)
  else if kind_is o "xml.reference" then Some (_canonicalize_xml_reference_observation o ordinal)
  else if kind_is o "xml.parse_error" then Some (evidence_only o ordinal)
  else if one_of kind ["css.document"; "css.rule"; "css.selector"; "css.custom_property"] then
    Some (_canonicalize_css_definition_observation o ordinal)
  else if kind_is o "css.reference" then Some (_canonicalize_css_reference_observation o ordinal)
  else if kind_is o "css.selector_match" then Some (_canonicalize_css_selector_match_observation o ordinal)
  else if one_of kind ["css.declaration"; "css.parse_error"] then Some (evidence_only o ordinal)
  else if one_of kind ["feed.document"; "feed.channel"; "feed.item"; "feed.author"; "feed.category"] then
    Some (_canonicalize_feed_definition_observation o ordinal)
  else if one_of kind ["feed.link"; "feed.enclosure"] then
    Some (_canonicalize_feed_reference_observation o ordinal)
  else if one_of kind ["feed.content"; "feed.parse_error"] then Some (evidence_only o ordinal)
  else if one_of kind ["warc.document"; "warc.record"] then
    Some (_canonicalize_warc_definition_observation o ordinal)
  else if kind_is o "warc.reference" then Some (_canonicalize_warc_reference_observation o ordinal)
  else if one_of kind ["warc.header"; "warc.payload"; "warc.parse_error"] then Some (evidence_only o ordinal)
  else if one_of kind
            ["document.text_document"; "document.text_section"; "document.table_document";
             "document.table_column"; "document.latex_document"; "document.latex_section";
             "document.latex_command"; "document.odf_document"; "document.odf_text"; "document.odf_table";
             "document.odf_sheet"; "document.odf_column"] then
    Some (_canonicalize_document_definition_observation o ordinal)
  else if kind_is o "document.reference" then Some (_canonicalize_document_reference_observation o ordinal)
  else if kind_is o "document.parse_error" then Some (evidence_only o ordinal)
  else None.

(** ** The loop of [canonicalize_observations] *)

(** The generic shell observations. *)
Definition shell_dispatch (o : RawObservation) (ordinal : Z) : option (CM unit) :=
  if kind_is o "shell.command" then Some (_canonicalize_shell_command_observation o ordinal)
  else if kind_is o "shell.source" then Some (_canonicalize_shell_source_observation o ordinal)
  else if kind_is o "shell.env" then Some (_canonicalize_shell_env_observation o ordinal)
  else if kind_is o "shell.host_mutation" then Some (_canonicalize_shell_host_mutation_observation o ordinal)
  else None.

(** Python, Ruby, JavaScript, mail and Nix. *)
Definition language_dispatch (o : RawObservation) (ordinal : Z) : option (CM unit) :=
  let kind := obs_kind o in
  if one_of kind ["python.module"; "python.class"; "python.function"; "python.method"] then
    Some (_canonicalize_python_definition_observation o ordinal)
  else if kind_is o "python.import" then Some (_canonicalize_python_import_observation o ordinal)
  else if one_of kind
            ["ruby.file"; "ruby.module"; "ruby.class"; "ruby.method"; "ruby.singleton_method"; "ruby.constant";
             "ruby.test_case"; "ruby.test_method"; "ruby.route"] then
    Some (_canonicalize_ruby_definition_observation o ordinal)
  else if kind_is o "ruby.reference" then Some (_canonicalize_ruby_reference_observation o ordinal)
  else if one_of kind
            ["ruby.require"; "ruby.include"; "ruby.extend"; "ruby.dsl"; "ruby.gem_dependency";
             "ruby.vagrant_config"; "ruby.parse_error"] then Some (evidence_only o ordinal)
  else if one_of kind
            ["js.file"; "js.module"; "js.function"; "js.class"; "js.method"; "js.variable"; "js.component";
             "js.test_suite"; "js.test_case"; "js.route"] then
    Some (_canonicalize_js_definition_observation o ordinal)
  else if kind_is o "js.reference" then Some (_canonicalize_js_reference_observation o ordinal)
  else if one_of kind
            ["js.import"; "js.export"; "js.hook"; "js.test_expectation"; "js.interface"; "js.type_alias";
             "js.enum"; "js.parse_error"] then Some (evidence_only o ordinal)
  else if one_of kind
            ["email.mailbox"; "email.message"; "email.part"; "email.attachment_stub"; "email.thread_hint"] then
    Some (_canonicalize_email_definition_observation o ordinal)
  else if kind_is o "email.address" then Some (_canonicalize_email_address_observation o ordinal)
  else if kind_is o "email.reference" then Some (_canonicalize_email_reference_observation o ordinal)
  else if one_of kind ["email.header"; "email.parse_error"] then Some (evidence_only o ordinal)
  else if kind_is o "nix.import" then Some (_canonicalize_nix_import_observation o ordinal)
  else if kind_is o "nix.output_section" then Some (_canonicalize_nix_output_section_observation o ordinal)
  else if one_of kind ["nix.app"; "nix.package"; "nix.devShell"; "nix.check"] then
    Some (_canonicalize_nix_output_observation o ordinal)
  else None.

(** The first of several handlers that takes the observation. *)
Definition first_handled (l : list (option (CM unit))) : option (CM unit) :=
  foldr (fun h rest => match h with Some m => Some m | None => rest end) None l.

Definition file_dispatch (o : RawObservation) (ordinal : Z) : option (CM unit) :=
  if kind_is o "file" then Some (_canonicalize_file_observation o ordinal) else None.

(** The body of the loop. *)
Definition canonicalize_observation (go_context : GoCanonicalContext) (o : RawObservation) (ordinal : Z) : CM unit :=
  default (append_unsupported_observation_diagnostic o ordinal)
    (first_handled
       [file_dispatch o ordinal;
        canonicalize_go_observation go_context o ordinal;
        _try_canonicalize_awk_observation o ordinal;
        _try_canonicalize_zunit_observation o ordinal;
        _try_canonicalize_zsh_observation o ordinal;
        _try_canonicalize_bats_observation o ordinal;
        _try_canonicalize_bash_observation o ordinal;
        shell_dispatch o ordinal;
        _try_canonicalize_powershell_observation o ordinal;
        language_dispatch o ordinal;
        _try_canonicalize_document_observation o ordinal]).

(** [for ordinal, observation in enumerate(observations)] *)
Fixpoint canonicalize_from (go_context : GoCanonicalContext) (ordinal : Z) (observations : list RawObservation) :
    CM unit :=
  match observations with
  | [] => mret tt
  | o :: rest =>
      _ ← canonicalize_observation go_context o ordinal;
      canonicalize_from go_context (ordinal + 1) rest
  end.

Definition canonicalize_observations (observations : list RawObservation) (repository_scope : option pystr) :
    cres CanonicalizationResult :=
  go_context ← build_go_canonical_context observations repository_scope;
  let steps :=
    _ ← canonicalize_from go_context 0 observations;
    finalize_go_canonicalization go_context in
  match steps (add_diagnostics (gc_diagnostics go_context) empty_state) with
  | (Ok _, state) =>
      Ok (canonicalization_result_from_state state (Z.of_nat (length observations)))
  | (Err e, _) => Err e
  end.

End Dispatch.
