(* ===== verification/CanonTheorems.v ===== *)
(** What canonicalization guarantees: every observation is accounted for, the
    graph is closed, and only the known exceptions escape. *)
From S2P Require Import Prelude Utf8 PyVal Json PyRepr PyDictFacts GraphKeys GraphKeysFacts KeyBuilders.
From S2P Require Import Observations ObservationsFacts CanonCore CanonState CanonInvariant CanonLogic CanonShared.
From S2P Require Import CanonConfig CanonLanguage CanonEmail CanonWeb CanonDocument.
From S2P Require Import CanonShell CanonAwk CanonBash CanonBats CanonZunit CanonZsh CanonPowershell.
From S2P Require Import CanonGoModel CanonGoContext CanonDispatch.
Open Scope Z_scope.

Section Theorems.
Context {U : Unicode}.

#[local] Hint Resolve file_recorded config_definition_recorded config_reference_recorded nix_import_recorded
  nix_output_section_recorded nix_output_recorded python_definition_recorded python_import_recorded
  ruby_definition_recorded ruby_reference_recorded js_definition_recorded js_reference_recorded
  email_definition_recorded email_address_recorded email_reference_recorded feed_reference_recorded
  css_definition_recorded css_reference_recorded css_selector_match_recorded html_definition_recorded
  html_reference_recorded xml_definition_recorded xml_reference_recorded markdown_definition_recorded
  markdown_link_recorded markdown_page_evidence_recorded warc_definition_recorded warc_reference_recorded
  document_definition_recorded document_reference_recorded shell_command_recorded shell_source_recorded
  shell_env_recorded shell_host_mutation_recorded : handlers.

(** ** One observation *)

Lemma feed_definition_escapes o n :
  typed_observation o -> recorded o n (escapes o) (_canonicalize_feed_definition_observation o n).
Proof.
  intros Ho. apply feed_definition_recorded; [done|apply escapes_unicode|].
  intros Hk e. by eapply escapes_key.
Qed.
#[local] Hint Resolve feed_definition_escapes : handlers.

Lemma evidence_only_recorded o n X : recorded o n X (evidence_only o n).
Proof. apply recorded_evidence. Qed.
#[local] Hint Resolve evidence_only_recorded : handlers.

Lemma document_recorded o n m :
  typed_observation o -> _try_canonicalize_document_observation o n = Some m -> recorded o n (escapes o) m.
Proof. intros Ho. unfold _try_canonicalize_document_observation. cbv zeta. dispatches. Qed.

Lemma shell_recorded o n m :
  typed_observation o -> shell_dispatch o n = Some m -> recorded o n (escapes o) m.
Proof. intros Ho. unfold shell_dispatch. dispatches. Qed.

Lemma language_recorded o n m :
  typed_observation o -> language_dispatch o n = Some m -> recorded o n (escapes o) m.
Proof. intros Ho. unfold language_dispatch. cbv zeta. dispatches. Qed.

Lemma file_dispatch_recorded o n m :
  typed_observation o -> file_dispatch o n = Some m -> recorded o n (escapes o) m.
Proof. intros Ho. unfold file_dispatch. dispatches. Qed.

Lemma first_handled_Some l m : first_handled l = Some m -> Some m ∈ l.
Proof.
  induction l as [|[m'|] l IH]; cbn; [done| |intros H; right; auto]. intros [= <-]. by left.
Qed.

(** The kind whose observations may leave several pieces of evidence. *)
Definition repeats (o : RawObservation) : bool := kind_is o "zsh.autoload".

Lemma observation_recorded ctx o n :
  typed_observation o -> is_go_observation o = false ->
  recorded_as (repeats o) o n (escapes o) (canonicalize_observation ctx o n).
Proof.
  intros Ho Hgo. unfold canonicalize_observation. destruct (first_handled _) as [m|] eqn:E; cbn [default].
  - apply first_handled_Some in E.
    assert (canonicalize_go_observation ctx o n = None) as Hg
      by (unfold canonicalize_go_observation; by rewrite Hgo).
    rewrite Hg in E.
    repeat (apply elem_of_cons in E as [E|E]; [symmetry in E|]); try discriminate E; try by apply elem_of_nil in E.
    all: first [by apply zsh_recorded | apply recorded_more].
    all: eauto using file_dispatch_recorded, awk_recorded, zunit_recorded, bats_recorded, bash_recorded,
           shell_recorded, powershell_recorded, language_recorded, document_recorded.
  - apply recorded_diagnose; [reflexivity|]. apply str_nonempty_app_l. by apply lit_nonempty.
Qed.

(** ** The loop *)

(** The evidence and the diagnostics of a run, observation by observation. *)
Inductive accounted_run : Z -> list RawObservation -> list CanonicalEvidence -> list CanonicalizationDiagnostic -> Prop :=
| run_done n : accounted_run n [] [] []
| run_step n o rest vs ds vs' ds' :
    Forall (evidence_for o n) vs -> Forall (diag_for n) ds -> (vs <> [] \/ ds <> []) ->
    (repeats o = false -> (length vs <= 1)%nat) ->
    accounted_run (n + 1) rest vs' ds' -> accounted_run n (o :: rest) (vs ++ vs') (ds ++ ds').

(** An exception that the handler of one of the observations lets through. *)
Definition escaped (observations : list RawObservation) (e : cexn) : Prop :=
  exists o, o ∈ observations /\ escapes o e.

Definition plain_observation (o : RawObservation) : Prop := typed_observation o /\ is_go_observation o = false.

Lemma run_accounted ctx obs : forall n es s,
  Forall plain_observation obs -> wf [] [] es s ->
  wp (canonicalize_from ctx n obs) s
    (fun _ s' => exists vs ds, accounted_run n obs vs ds /\ wf [] [] (es ++ vs) s' /\
                   cs_diagnostics s' = cs_diagnostics s ++ ds) (escaped obs).
Proof.
  induction obs as [|o rest IH]; intros n es s Hobs Hwf; cbn [canonicalize_from].
  - exists [], []. rewrite !app_nil_r. split_and!; [constructor|done|done].
  - apply Forall_cons in Hobs as [[Ho Hgo] Hrest]. apply wp_bind.
    pose proof (observation_recorded ctx o n Ho Hgo es s Hwf) as H1. unfold wp in *.
    destruct (canonicalize_observation ctx o n s) as [[u|e] s1]; [|by exists o; split; [left|]].
    destruct H1 as (ds & vs & D1 & Hds & W1 & Hvs & Hne & Hl).
    specialize (IH (n + 1) _ s1 Hrest W1). destruct (canonicalize_from ctx (n + 1) rest s1) as [[u'|e] s2].
    + destruct IH as (vs' & ds' & Hrun & W2 & D2). exists (vs ++ vs'), (ds ++ ds').
      split_and!; [by econstructor|by rewrite app_assoc|by rewrite D2, D1, app_assoc].
    + destruct IH as (o' & Ho' & He). exists o'. split; [by right|done].
Qed.

(** *** What a run's records say of each observation *)

Lemma run_ordinals n obs vs ds :
  accounted_run n obs vs ds ->
  Forall (fun v => n <= v_raw_observation_ordinal v) vs /\
  Forall (fun d => exists i, d_raw_observation_ordinal d = Some i /\ n <= i) ds.
Proof.
  induction 1 as [n|n o rest vs ds vs' ds' Hv Hd _ _ _ [IHv IHd]]; [done|]. rewrite !Forall_app. split_and!.
  - eapply Forall_impl; [exact Hv|]. intros v [md ->]. cbn. lia.
  - eapply Forall_impl; [exact IHv|]. cbn. lia.
  - eapply Forall_impl; [exact Hd|]. intros d [_ Hn]. eauto with lia.
  - eapply Forall_impl; [exact IHd|]. intros d (i & ? & ?). exists i. split; [done|lia].
Qed.

Lemma run_evidence n obs vs ds v :
  accounted_run n obs vs ds -> v ∈ vs -> exists i o, obs !! i = Some o /\ evidence_for o (n + Z.of_nat i) v.
Proof.
  induction 1 as [n|n o rest vs ds vs' ds' Hv _ _ _ _ IH]; [by intros ?%elem_of_nil|].
  intros [H|H]%elem_of_app.
  - exists 0%nat, o. rewrite Z.add_0_r. split; [done|]. rewrite Forall_forall in Hv. auto.
  - destruct (IH H) as (i & o' & Hi & He). exists (S i), o'. split; [done|].
    replace (n + Z.of_nat (S i)) with (n + 1 + Z.of_nat i) by lia. done.
Qed.

(** The records of an ordinal that comes later are not among those of this one. *)
Lemma filter_later n k (vs : list CanonicalEvidence) :
  k < n -> Forall (fun v => n <= v_raw_observation_ordinal v) vs ->
  filter (fun v => v_raw_observation_ordinal v = k) vs = [].
Proof.
  intros Hk H. induction H as [|v vs Hv _ IH]; [done|]. rewrite filter_cons. case_decide; [lia|done].
Qed.

Lemma filter_earlier n k o (vs : list CanonicalEvidence) :
  k <> n -> Forall (evidence_for o n) vs -> filter (fun v => v_raw_observation_ordinal v = k) vs = [].
Proof.
  intros Hk H. induction H as [|v vs [md ->] _ IH]; [done|]. rewrite filter_cons. cbn. case_decide; [lia|done].
Qed.

(** An observation has evidence or a diagnostic, and one piece of evidence at
    most unless its kind repeats. *)
Definition accounted_for (n : Z) (o : RawObservation) (vs : list CanonicalEvidence)
    (ds : list CanonicalizationDiagnostic) : Prop :=
  ((exists v, v ∈ vs /\ evidence_for o n v) \/ (exists d, d ∈ ds /\ d_raw_observation_ordinal d = Some n)) /\
  (repeats o = false -> (length (filter (fun v => v_raw_observation_ordinal v = n) vs) <= 1)%nat).

Lemma run_each n obs vs ds i o :
  accounted_run n obs vs ds -> obs !! i = Some o -> accounted_for (n + Z.of_nat i) o vs ds.
Proof.
  intros H. revert i. induction H as [n|n o' rest vs ds vs' ds' Hv Hd Hne Hl Hrun IH]; [done|].
  intros [|i] Hi; cbn in Hi.
  - injection Hi as ->. rewrite Z.add_0_r. split.
    + destruct Hne as [Hne|Hne]; [left|right].
      * destruct vs as [|v vs]; [done|]. apply Forall_cons in Hv as [Hv _]. exists v. split; [by left|done].
      * destruct ds as [|d ds]; [done|]. apply Forall_cons in Hd as [[_ Hd] _]. exists d. split; [by left|done].
    + intros Hr. rewrite filter_app. destruct (run_ordinals _ _ _ _ Hrun) as [Ho _].
      rewrite (filter_later (n + 1) n vs') by (lia || done). rewrite app_nil_r.
      etransitivity; [apply length_filter|]. auto.
  - destruct (IH i Hi) as [Hone Hmost]. replace (n + Z.of_nat (S i)) with (n + 1 + Z.of_nat i) by lia. split.
    + destruct Hone as [(v & Hin & He)|(d & Hin & He)]; [left; exists v|right; exists d];
        (split; [apply elem_of_app; by right|done]).
    + intros Hr. rewrite filter_app. rewrite (filter_earlier n _ o' vs) by (lia || done). auto.
Qed.

(** ** The whole function *)

Definition empty_context : GoCanonicalContext :=
  {| gc_node_claims := []; gc_node_keys_by_source_id := []; gc_edge_claims_by_source_id := [];
     gc_diagnostics := []; gc_duplicate_declaration_evidence := 0; gc_identity_collisions := 0;
     gc_unresolved_relationships := 0; gc_invalid_source_ids := [] |}.

Lemma no_go_context obs scope :
  Forall (fun o => is_go_observation o = false) obs -> build_go_canonical_context obs scope = Ok empty_context.
Proof.
  intros H. unfold build_go_canonical_context.
  assert (filter (fun o => is_go_observation o = true) obs = []) as ->; [|reflexivity].
  induction H as [|o obs Ho _ IH]; [done|]. rewrite filter_cons, Ho. by case_decide.
Qed.

Lemma no_go_evidence n obs vs ds :
  Forall plain_observation obs -> accounted_run n obs vs ds -> existsb is_go_evidence vs = false.
Proof.
  intros Hobs Hrun. destruct (existsb is_go_evidence vs) eqn:E; [|done].
  apply existsb_exists in E as (v & Hin & Hv). apply list_elem_of_In in Hin.
  destruct (run_evidence _ _ _ _ _ Hrun Hin) as (i & o & Hi & md & ->).
  rewrite Forall_forall in Hobs. destruct (Hobs o) as [_ Hgo]; [by eapply list_elem_of_lookup_2|].
  change (is_go_observation o = true) in Hv. congruence.
Qed.

(** The state a run ends in. *)
Lemma canonicalize_spec obs scope :
  Forall plain_observation obs ->
  match canonicalize_observations obs scope with
  | Ok r => exists s, r = canonicalization_result_from_state s (Z.of_nat (length obs)) /\
              accounted_run 0 obs (cs_evidence s) (cs_diagnostics s) /\ wf [] [] (cs_evidence s) s
  | Err e => escaped obs e
  end.
Proof.
  intros Hobs. unfold canonicalize_observations.
  rewrite no_go_context by (eapply Forall_impl; [exact Hobs|]; by intros o []). cbn [mbind result_bind].
  unfold mbind at 1, result_bind.
  pose proof (run_accounted empty_context obs 0 [] empty_state Hobs wf_empty) as H. unfold wp in H.
  change (add_diagnostics (gc_diagnostics empty_context) empty_state) with empty_state.
  unfold mbind, cm_bind. destruct (canonicalize_from empty_context 0 obs empty_state) as [[u|e] s]; [|done].
  destruct H as (vs & ds & Hrun & Hwf & Hd). cbn in Hd. pose proof (wf_evidence _ _ _ _ Hwf) as Hev. cbn in Hev.
  unfold finalize_go_canonicalization. cbn [gc_node_claims gc_diagnostics empty_context].
  rewrite Hev, (no_go_evidence _ _ _ _ Hobs Hrun). cbn. exists s. rewrite Hev, Hd. done.
Qed.

(** A canonical graph: its keys are unique and name what they should, the ends of
    its edges and of its links exist, and everything in it has evidence. *)
Record closed_graph (g : CanonicalGraph) : Prop := {
  cg_nodes_once : NoDup (n_canonical_key <$> g_nodes g);
  cg_edges_once : NoDup (e_edge_key <$> g_edges g);
  cg_nodes : forall n, n ∈ g_nodes g ->
    node_key_ok (n_canonical_key n) /\ n_kind n = _node_kind_from_key (n_canonical_key n);
  cg_edges : forall e, e ∈ g_edges g ->
    e_edge_key e = canonical_edge_key GRAPH_KEY_VERSION (e_source_key e) (e_kind e) (e_target_key e)
                     (e_identity_metadata e) /\
    e_source_key e ∈ n_canonical_key <$> g_nodes g /\ e_target_key e ∈ n_canonical_key <$> g_nodes g;
  cg_node_links : forall l, l ∈ g_node_evidence_links g ->
    nl_canonical_key l ∈ n_canonical_key <$> g_nodes g /\
    nl_evidence_key l ∈ v_evidence_key <$> g_evidence g;
  cg_edge_links : forall l, l ∈ g_edge_evidence_links g ->
    el_edge_key l ∈ e_edge_key <$> g_edges g /\ el_evidence_key l ∈ v_evidence_key <$> g_evidence g;
  cg_nodes_evident : forall n, n ∈ g_nodes g -> n_canonical_key n ∈ nl_canonical_key <$> g_node_evidence_links g;
  cg_edges_evident : forall e, e ∈ g_edges g -> e_edge_key e ∈ el_edge_key <$> g_edge_evidence_links g
}.

Lemma keys_of_values {A} (key : A -> pystr) (d : list (pystr * A)) :
  Forall (fun kv => key kv.2 = kv.1) d -> key <$> d.*2 = d.*1.
Proof. induction 1 as [|[k v] d Hk _ IH]; [done|]. cbn in *. by rewrite Hk, IH. Qed.

Lemma wf_closed es s count : wf [] [] es s -> closed_graph (r_graph (canonicalization_result_from_state s count)).
Proof.
  intros [Hn1 He1 Hn2 He2 <- Hnl Hel Hnk Hek _].
  assert (Hn : n_canonical_key <$> (cs_nodes s).*2 = (cs_nodes s).*1)
    by (apply keys_of_values; eapply Forall_impl; [exact Hn2|]; by intros kv []).
  assert (He : e_edge_key <$> (cs_edges s).*2 = (cs_edges s).*1)
    by (apply keys_of_values; eapply Forall_impl; [exact He2|]; by intros kv []).
  rewrite Forall_forall in Hn2. rewrite Forall_forall in He2. rewrite Forall_forall in Hnl.
  rewrite Forall_forall in Hel. rewrite Forall_forall in Hnk. rewrite Forall_forall in Hek.
  constructor; cbn [r_graph canonicalization_result_from_state g_nodes g_edges g_evidence
                    g_node_evidence_links g_edge_evidence_links]; rewrite ?Hn, ?He; auto.
  - intros n ([k n'] & -> & H)%list_elem_of_fmap. destruct (Hn2 _ H) as [<- _ ? _ ?]. done.
  - intros e ([k e'] & -> & H)%list_elem_of_fmap. destruct (He2 _ H) as [Hk _ ? _ ? ? _]. cbn in *. by subst.
  - intros n H. destruct (Hnk (n_canonical_key n)) as [Hx|Hx]; [|by apply elem_of_nil in Hx|done].
    rewrite <- Hn. by apply list_elem_of_fmap_2.
  - intros e H. destruct (Hek (e_edge_key e)) as [Hx|Hx]; [|by apply elem_of_nil in Hx|done].
    rewrite <- He. by apply list_elem_of_fmap_2.
Qed.

(** C21. Canonicalizing observations other than Go's gives a closed graph: the keys
    of nodes and edges are unique, every node's kind is the namespace of its key,
    every edge's key is the digest of what it relates and both its ends are nodes
    of the graph, every link names an existing node or edge and existing evidence,
    and every node and edge is linked to some evidence. *)
Theorem canonical_graph_closed obs scope r :
  Forall plain_observation obs -> canonicalize_observations obs scope = Ok r -> closed_graph (r_graph r).
Proof.
  intros Hobs Hr. pose proof (canonicalize_spec obs scope Hobs) as H. rewrite Hr in H.
  destruct H as (s & -> & _ & Hwf). by eapply wf_closed.
Qed.

(** C22. Of well-typed observations other than Go's, none is lost: each has evidence or a diagnostic
    under its own ordinal, one piece of evidence at most unless it is a
    [zsh.autoload]; and all evidence is that of an observation of the input. *)
Theorem observations_accounted obs scope r :
  Forall plain_observation obs -> canonicalize_observations obs scope = Ok r ->
  g_raw_observation_count (r_graph r) = Z.of_nat (length obs) /\
  (forall i o, obs !! i = Some o ->
     accounted_for (Z.of_nat i) o (g_evidence (r_graph r)) (r_diagnostics r)) /\
  (forall v, v ∈ g_evidence (r_graph r) ->
     exists i o md, obs !! i = Some o /\ v = _evidence_from_observation o (Z.of_nat i) md).
Proof.
  intros Hobs Hr. pose proof (canonicalize_spec obs scope Hobs) as H. rewrite Hr in H.
  destruct H as (s & -> & Hrun & _). split_and!; [done| |].
  - intros i o Hi. exact (run_each _ _ _ _ _ _ Hrun Hi).
  - intros v Hv. destruct (run_evidence _ _ _ _ _ Hrun Hv) as (i & o & Hi & md & ->). by exists i, o, md.
Qed.

(** C24. Only two exceptions leave canonicalization of well-typed observations other
    than Go's ([plain_observation]): the [UnicodeEncodeError] of a text that has no encoding, and a
    [GraphKeyError] that the handler of one of ten kinds lets through; every other
    key error has become a diagnostic. *)
Theorem canonicalization_errors obs scope e :
  Forall plain_observation obs -> canonicalize_observations obs scope = Err e ->
  exists o, o ∈ obs /\
    (e = CUnicodeEncodeError \/ (one_of (obs_kind o) UNGUARDED_KINDS = true /\ exists msg, e = CGraphKeyError msg)).
Proof.
  intros Hobs Hr. pose proof (canonicalize_spec obs scope Hobs) as H. rewrite Hr in H.
  destruct H as (o & Ho & He). exists o. split; [done|].
  destruct He as [->|[Hu [->|(msg & -> & _)]]]; [by left|by left|right]. eauto.
Qed.

End Theorems.

(** *** Witnesses *)

Definition sample_of (kind path : string) (name target : pyval) (metadata : pydict) : RawObservation :=
  {| obs_kind := lit kind; obs_source_id := lit "s"; obs_path := lit path; obs_confidence := lit "extracted";
     obs_extractor := lit "x"; obs_extractor_version := lit "1"; obs_start_line := VNone; obs_end_line := VNone;
     obs_name := name; obs_target := target; obs_metadata := metadata; obs_schema_version := VInt 1 |}.

(** A file, a secret written, an autoload of two functions, a kind no handler knows. *)
Definition sample_observations : list RawObservation :=
  [sample_of "file" "run.sh" VNone VNone [];
   sample_of "shell.env" "run.sh" VNone VNone
     [(lit "operation", VStr (lit "write")); (lit "variable", VStr (lit "API_TOKEN"));
      (lit "value", VStr (lit "hunter2"))];
   sample_of "zsh.autoload" "init.zsh" VNone VNone
     [(lit "target_kind", VStr (lit "static"));
      (lit "function_names", VList [VStr (lit "compinit"); VStr (lit "colors")])];
   sample_of "weather.report" "run.sh" VNone VNone []].

Lemma sample_plain (U : Unicode) kind path name target metadata :
  nonblank (lit kind) -> nonblank (lit path) -> text_or_none name = true -> text_or_none target = true ->
  startswith (lit "go.") (lit kind) = false -> plain_observation (sample_of kind path name target metadata).
Proof.
  intros Hk Hp Hn Ht Hg. split; [|done]. constructor; [|done|done].
  constructor; try done; cbn; [decide_closed|by left].
Qed.

Lemma sample_observations_plain : Forall (plain_observation (U := ascii_only)) sample_observations.
Proof. repeat (apply Forall_cons; split; [apply sample_plain; by vm_compute|]). by apply Forall_nil. Qed.

Definition result_sizes (r : cres CanonicalizationResult) : option (nat * nat * nat * nat) :=
  match r with
  | Ok r => Some (length (g_nodes (r_graph r)), length (g_edges (r_graph r)), length (g_evidence (r_graph r)),
                  length (r_diagnostics r))
  | Err _ => None
  end.

#[local] Abbreviation sample_result := (canonicalize_observations (U := ascii_only) sample_observations None).

(** Two records of evidence for the autoload, a diagnostic for the redacted value
    and one for the unknown kind. *)
Example sample_sizes : result_sizes sample_result = Some (5, 3, 4, 2)%nat.
Proof. vm_compute. reflexivity. Qed.

Lemma sample_Ok : exists r, sample_result = Ok r.
Proof. pose proof sample_sizes as H. destruct sample_result; [eauto|discriminate H]. Qed.

Lemma canonical_graph_closed_witness : exists r, sample_result = Ok r /\ closed_graph (U := ascii_only) (r_graph r).
Proof.
  destruct sample_Ok as [r Hr]. exists r. split; [exact Hr|].
  exact (canonical_graph_closed (U := ascii_only) sample_observations None r sample_observations_plain Hr).
Defined.

Lemma observations_accounted_witness :
  exists r, sample_result = Ok r /\
    accounted_for (U := ascii_only) 3 (sample_of "weather.report" "run.sh" VNone VNone [])
      (g_evidence (r_graph r)) (r_diagnostics r).
Proof.
  destruct sample_Ok as [r Hr]. exists r. split; [exact Hr|].
  destruct (observations_accounted (U := ascii_only) sample_observations None r sample_observations_plain Hr)
    as (_ & H & _). exact (H 3%nat _ eq_refl).
Defined.

(** For each kind of [UNGUARDED_KINDS], an observation whose handler raises. *)
Definition texts (l : list (string * string)) : pydict := (fun kv => (lit kv.1, VStr (lit kv.2))) <$> l.

Definition raising_observations : list RawObservation :=
  let channel := ("channel_key", "feed.channel:feed.document%3Afile%253Af.xml:c")%string in
  let outside := [("target_kind", "static"); ("target_display", "..")]%string in
  [sample_of "feed.author" "f.xml" VNone
     (VStr (lit "feed.author:feed.channel%3Afeed.document%253Afile%25253Af.xml%3Ac:a"))
     (texts [channel; ("item_key", "x")]);
   sample_of "feed.category" "f.xml" VNone
     (VStr (lit "feed.category:feed.channel%3Afeed.document%253Afile%25253Af.xml%3Ac:a"))
     (texts [channel; ("item_key", "x")]);
   sample_of "awk.file_read" "a.awk" VNone VNone (texts outside);
   sample_of "awk.file_write" "a.awk" VNone VNone (texts outside);
   sample_of "awk.include" "a.awk" VNone VNone (texts [("target_kind", "static"); ("resolved_path", "a/../..")]);
   sample_of "shell.source" "a.sh" VNone (VStr (lit "file:")) (texts [("dialect", "bash")]);
   sample_of "shell.file_read" "a.sh" VNone VNone (texts (("dialect", "bash")%string :: outside));
   sample_of "shell.file_write" "a.sh" VNone VNone (texts (("dialect", "zsh")%string :: outside));
   sample_of "shell.network_call" "../a.sh" VNone VNone (texts [("dialect", "bash")]);
   sample_of "shell.package_manager" "a.sh" (VStr []) VNone (texts [("dialect", "bash")])].

Definition raises_key_error (o : RawObservation) : bool :=
  match canonicalize_observations (U := ascii_only) [o] None with Err (CGraphKeyError _) => true | _ => false end.

(** Each of the ten kinds does let a [GraphKeyError] through, for a valid
    observation: the whole call fails and nothing of the other observations is
    returned. *)
Theorem unguarded_kinds_raise :
  obs_kind <$> raising_observations = lit <$> UNGUARDED_KINDS /\
  Forall (plain_observation (U := ascii_only)) raising_observations /\
  forallb raises_key_error raising_observations = true.
Proof.
  split_and!; [vm_compute; reflexivity| |vm_compute; reflexivity].
  unfold raising_observations. repeat (apply Forall_cons; split; [apply sample_plain; by vm_compute|]).
  by apply Forall_nil.
Qed.

Lemma canonicalization_errors_witness :
  exists e, canonicalize_observations (U := ascii_only) raising_observations None = Err e /\
    exists o, o ∈ raising_observations /\
      (e = CUnicodeEncodeError \/
       (one_of (obs_kind o) UNGUARDED_KINDS = true /\ exists msg, e = CGraphKeyError msg)).
Proof.
  destruct (canonicalize_observations (U := ascii_only) raising_observations None) as [r|e] eqn:E.
  - exfalso. vm_compute in E. discriminate E.
  - exists e. split; [reflexivity|].
    exact (canonicalization_errors (U := ascii_only) raising_observations None e
             (proj1 (proj2 unguarded_kinds_raise)) E).
Defined.

(** A [zsh.autoload] of two functions leaves two records of evidence with one
    evidence key. *)
Theorem autoload_repeats_evidence :
  match sample_result with
  | Ok r => bool_decide (NoDup (v_evidence_key <$> g_evidence (r_graph r))) = false
  | Err _ => False
  end.
Proof. vm_compute. reflexivity. Qed.

(** A relation into another source that is not exact. *)
Definition cross_source_import : RawObservation :=
  sample_of "nix.import" "flake.nix" VNone VNone
    (texts [("binding_id", "b"); ("snapshot_id", "s"); ("resolution_outcome", "ambiguous")]).

Definition accepted_key (k : pystr) : bool :=
  match validate_key (U := ascii_only) (PyStr k) with Ok v => valid v | Err _ => false end.

(** The target of such a relation is a node whose key [validate_key] refuses. *)
Theorem opaque_target_not_a_key :
  match canonicalize_observations (U := ascii_only) [cross_source_import] None with
  | Ok r => (accepted_key ∘ n_canonical_key <$> g_nodes (r_graph r)) = [true; false] /\
            accepted_key ∘ e_target_key <$> g_edges (r_graph r) = [false]
  | Err _ => False
  end.
Proof. vm_compute. split; reflexivity. Qed.
