(* ===== verification/CanonSecrets.v ===== *)
(** The value a [shell.env] observation carries of a write to a secret-prone variable never
    reaches the graph. *)
From S2P Require Import Prelude Utf8 PyVal Json PyRepr PyDictFacts GraphKeys.
From S2P Require Import Observations CanonCore CanonState CanonInvariant CanonLogic CanonShared CanonShell.
From S2P Require Import CanonAwk CanonBash CanonBats CanonZunit CanonZsh CanonPowershell.
From S2P Require Import CanonGoModel CanonGoContext CanonDispatch CanonTheorems.
Open Scope Z_scope.

(** The observation with another value in its metadata. *)
Definition with_value (o : RawObservation) (v : pyval) : RawObservation :=
  {| obs_kind := obs_kind o; obs_source_id := obs_source_id o; obs_path := obs_path o;
     obs_confidence := obs_confidence o; obs_extractor := obs_extractor o;
     obs_extractor_version := obs_extractor_version o; obs_start_line := obs_start_line o;
     obs_end_line := obs_end_line o; obs_name := obs_name o; obs_target := obs_target o;
     obs_metadata := dict_set (lit "value") v (obs_metadata o); obs_schema_version := obs_schema_version o |}.

Lemma meta_get_value md key v :
  lit key <> lit "value" -> meta_get (dict_set (lit "value") v md) key = meta_get md key.
Proof. intros H. unfold meta_get. by rewrite dict_get_set_ne. Qed.

Lemma metadata_text_value md key v :
  lit key <> lit "value" -> _metadata_text (dict_set (lit "value") v md) key = _metadata_text md key.
Proof. intros H. unfold _metadata_text. by rewrite meta_get_value. Qed.

Lemma dict_pop_set k v w d : dict_pop k (dict_set k v d) = dict_pop k (dict_set k w d).
Proof.
  unfold dict_pop. induction d as [|[k' u] d IH]; cbn [dict_set].
  - rewrite !filter_cons. by repeat case_decide.
  - case_bool_decide; rewrite !filter_cons; repeat case_decide; cbn in *; congruence.
Qed.

Section Secrets.
Context {U : Unicode}.

(** The observation writes a variable that is prone to hold a secret. *)
Definition writes_secret (o : RawObservation) : bool :=
  kind_is o "shell.env" && val_is (meta_get (obs_metadata o) "operation") "write" &&
  match _shell_env_variable (obs_metadata o) with
  | Some variable => _is_secret_prone_env_variable variable
  | None => false
  end.

Lemma env_value_redacted o v :
  writes_secret o = true ->
  env_secret_redacted (obs_metadata (with_value o v)) (VStr (lit "write")) = true.
Proof.
  intros [_ Hs]%andb_true_iff. unfold env_secret_redacted. cbn [obs_metadata with_value].
  unfold _shell_env_variable in *. rewrite metadata_text_value by decide_closed. rewrite Hs. cbn [andb].
  apply bool_decide_eq_true_2. eexists. apply dict_get_set_eq.
Qed.

Lemma env_handler_blind o v w n :
  writes_secret o = true ->
  _canonicalize_shell_env_observation (with_value o v) n = _canonicalize_shell_env_observation (with_value o w) n.
Proof.
  intros Ho. pose proof (env_value_redacted o v Ho) as Hv. pose proof (env_value_redacted o w Ho) as Hw.
  apply andb_true_iff in Ho as [[_ Hop%bool_decide_eq_true]%andb_true_iff _].
  unfold _canonicalize_shell_env_observation, _shell_env_target_key, _shell_env_variable,
    _shell_env_evidence_metadata, _shell_env_edge_metadata.
  cbn [obs_metadata with_value] in *.
  rewrite !meta_get_value by decide_closed. rewrite Hop, Hv, Hw. rewrite !metadata_text_value by decide_closed.
  unfold list_plain_text. rewrite !meta_get_value by decide_closed.
  rewrite (dict_pop_set (lit "value") v w). reflexivity.
Qed.

(** [shell.env] is no other family's. *)
Lemma env_dispatch ctx o n :
  kind_is o "shell.env" = true -> canonicalize_observation ctx o n = _canonicalize_shell_env_observation o n.
Proof.
  intros Hk%bool_decide_eq_true.
  unfold canonicalize_observation, first_handled, file_dispatch, canonicalize_go_observation, is_go_observation,
    _try_canonicalize_awk_observation, _try_canonicalize_zunit_observation, _try_canonicalize_zsh_observation,
    _try_canonicalize_bats_observation, _try_canonicalize_bash_observation, shell_dispatch, kind_is, kind_starts.
  rewrite Hk. cbn [foldr].
  repeat match goal with |- context [one_of (lit "shell.env") ?l] =>
    replace (one_of (lit "shell.env") l) with false by (by vm_compute) end.
  repeat match goal with |- context [bool_decide (lit "shell.env" = lit ?k)] =>
    replace (bool_decide (lit "shell.env" = lit k)) with (String.eqb "shell.env" k) by (by vm_compute) end.
  cbn [String.eqb Ascii.eqb Bool.eqb].
  replace (startswith (lit "go.") (lit "shell.env")) with false by (by vm_compute). cbn [negb].
  repeat match goal with |- context [if negb ?b then None else None] => destruct (negb b) end; reflexivity.
Qed.

Lemma canonicalize_from_replace ctx l1 a b l2 : forall n s,
  (forall k, canonicalize_observation ctx a k = canonicalize_observation ctx b k) ->
  canonicalize_from ctx n (l1 ++ a :: l2) s = canonicalize_from ctx n (l1 ++ b :: l2) s.
Proof.
  induction l1 as [|o l1 IH]; intros n s H; cbn [canonicalize_from app]; [by rewrite H|].
  unfold mbind, cm_bind. destruct (canonicalize_observation ctx o n s) as [[]]; [by apply IH|done].
Qed.

(** C23. The value in a [shell.env] observation of a write to a secret-prone variable has
    no influence on canonicalization: replacing it by any other value, in any list of
    observations, gives the same graph and the same diagnostics (or the same
    error).  The observations of writes of other kinds ([shell.env_write],
    [powershell.env_write]) have handlers of their own, which it says nothing of; that of
    PowerShell copies the value it is given. *)
Theorem secret_value_not_recorded l1 o l2 scope v w :
  writes_secret o = true ->
  canonicalize_observations (l1 ++ with_value o v :: l2) scope =
  canonicalize_observations (l1 ++ with_value o w :: l2) scope.
Proof.
  intros Ho.
  assert (Hk : kind_is o "shell.env" = true) by (unfold writes_secret in Ho; by do 2 apply andb_true_iff in Ho as [Ho _]).
  assert (Hgo : is_go_observation o = false).
  { apply bool_decide_eq_true in Hk. unfold is_go_observation, kind_starts. rewrite Hk. by vm_compute. }
  assert (Hctx : forall u, build_go_canonical_context (l1 ++ with_value o u :: l2) scope =
                           build_go_canonical_context (l1 ++ l2) scope).
  { intros u. unfold build_go_canonical_context. rewrite !filter_app, filter_cons.
    case_decide as Hd; [|done]. change (is_go_observation o = true) in Hd. congruence. }
  unfold canonicalize_observations. rewrite !Hctx, !length_app. cbn [length].
  unfold mbind, result_bind. destruct (build_go_canonical_context (l1 ++ l2) scope) as [ctx|e]; [|done].
  unfold cm_bind. erewrite canonicalize_from_replace; [reflexivity|].
  intros k. rewrite !env_dispatch by exact Hk. by apply env_handler_blind.
Qed.

End Secrets.

Lemma secret_value_not_recorded_witness :
  canonicalize_observations (U := ascii_only)
    [sample_of "file" "run.sh" VNone VNone [];
     sample_of "shell.env" "run.sh" VNone VNone
       [(lit "operation", VStr (lit "write")); (lit "variable", VStr (lit "API_TOKEN"));
        (lit "value", VStr (lit "hunter2"))]] None =
  canonicalize_observations (U := ascii_only)
    [sample_of "file" "run.sh" VNone VNone [];
     sample_of "shell.env" "run.sh" VNone VNone
       [(lit "operation", VStr (lit "write")); (lit "variable", VStr (lit "API_TOKEN"));
        (lit "value", VStr [])]] None.
Proof.
  exact (secret_value_not_recorded (U := ascii_only) [sample_of "file" "run.sh" VNone VNone []]
           (sample_of "shell.env" "run.sh" VNone VNone
              [(lit "operation", VStr (lit "write")); (lit "variable", VStr (lit "API_TOKEN"))]) [] None
           (VStr (lit "hunter2")) (VStr []) ltac:(vm_compute; reflexivity)).
Defined.

(** The handler of PowerShell's writes copies the value it is given. *)
Example powershell_value_recorded :
  canonicalize_observations (U := ascii_only)
    [sample_of "powershell.env_write" "run.ps1" VNone VNone
       [(lit "variable", VStr (lit "API_TOKEN")); (lit "value", VStr (lit "hunter2"))]] None <>
  canonicalize_observations (U := ascii_only)
    [sample_of "powershell.env_write" "run.ps1" VNone VNone
       [(lit "variable", VStr (lit "API_TOKEN")); (lit "value", VStr [])]] None.
Proof. intros H. vm_compute in H. discriminate H. Qed.
