(* ===== verification/CanonMerge.v ===== *)
(** Merging metadata ([canonicalization/core.py]): the indexed list of distinct
    values is the list a membership test gives. *)
From S2P Require Import Prelude PyVal Json PyDictFacts Observations CanonCore CanonState.
Open Scope Z_scope.

(** The keys of every dict in the value are unique, as those of a [dict] are. *)
Fixpoint unique_keys (v : pyval) : bool :=
  match v with
  | VList l | VTuple l => forallb unique_keys l
  | VDict d => bool_decide (NoDup d.*1) && forallb (fun kv : pystr * pyval => unique_keys kv.2) d
  | _ => true
  end.

Lemma unique_keys_dict d :
  unique_keys (VDict d) = true -> NoDup d.*1 /\ forall k v, (k, v) ∈ d -> unique_keys v = true.
Proof.
  cbn. intros [Hn%bool_decide_eq_true Hd]%andb_true_iff. split; [done|]. intros k v Hin.
  rewrite forallb_forall in Hd. apply (Hd (k, v)). by apply list_elem_of_In.
Qed.

Lemma all2_spec {A B} (f : A -> B -> bool) l m : all2 f l m = true <-> Forall2 (fun x y => f x y = true) l m.
Proof.
  revert m. induction l as [|x l IH]; intros [|y m]; cbn.
  - split; [constructor|done].
  - split; [done|intros H; inversion H].
  - split; [done|intros H; inversion H].
  - rewrite andb_true_iff, IH, Forall2_cons. done.
Qed.

Lemma py_eq_list l m : py_eq (VList l) (VList m) = true <-> Forall2 (fun x y => py_eq x y = true) l m.
Proof. apply all2_spec. Qed.
Lemma py_eq_tuple l m : py_eq (VTuple l) (VTuple m) = true <-> Forall2 (fun x y => py_eq x y = true) l m.
Proof. apply all2_spec. Qed.

(** [d == e]: as many keys, and the values under each key are equal. *)
Lemma py_eq_dict d e :
  py_eq (VDict d) (VDict e) = true <->
  length d = length e /\ forall k v, (k, v) ∈ d -> exists w, dict_get k e = Some w /\ py_eq v w = true.
Proof.
  cbn. rewrite andb_true_iff, Nat.eqb_eq, forallb_forall. split; intros [Hl H]; (split; [done|]).
  - intros k v Hin%list_elem_of_In. specialize (H _ Hin). cbn in H. destruct (dict_get k e) as [w|]; [eauto|done].
  - intros [k v] Hin%list_elem_of_In. destruct (H k v Hin) as (w & E & Hw). cbn. by rewrite E.
Qed.

Lemma same_keys_of_subset {A B} (d : list (pystr * A)) (e : list (pystr * B)) :
  NoDup d.*1 -> length d = length e -> d.*1 ⊆ e.*1 -> e.*1 ⊆ d.*1.
Proof.
  intros Hd Hl Hs. apply (NoDup_submseteq _ _ Hd) in Hs.
  apply submseteq_length_Permutation in Hs; [|by rewrite !length_fmap, Hl].
  intros x Hx. by rewrite Hs.
Qed.

Lemma elem_of_keys {A} (d : list (pystr * A)) k : k ∈ d.*1 <-> exists v, (k, v) ∈ d.
Proof.
  rewrite list_elem_of_fmap. split; [intros ([k' v] & -> & H); by exists v|intros [v H]; by exists (k, v)].
Qed.

Lemma dict_values_unique {A} (d : list (pystr * A)) k v w : NoDup d.*1 -> (k, v) ∈ d -> (k, w) ∈ d -> v = w.
Proof. intros Hn Hv%dict_get_Some Hw%dict_get_Some; [|done..]. congruence. Qed.

(** Scalars that are equal as numbers or as texts. *)
Ltac scalars :=
  solve [cbn; repeat case_match; rewrite ?bool_decide_eq_true; congruence || done].

Lemma Forall2_sym_in {A B} (P : A -> B -> Prop) (Q : B -> A -> Prop) l m :
  (forall x y, x ∈ l -> y ∈ m -> P x y -> Q y x) -> Forall2 P l m -> Forall2 Q m l.
Proof.
  intros H HF. induction HF as [|x y l m Hxy _ IH]; [done|]. constructor.
  - apply H; [by left|by left|done].
  - apply IH. intros x' y' Hx Hy. apply H; by right.
Qed.

Lemma unique_keys_list l x : forallb unique_keys l = true -> x ∈ l -> unique_keys x = true.
Proof. rewrite forallb_forall. intros H Hx%list_elem_of_In. auto. Qed.

Lemma py_eq_sym a : forall b,
  unique_keys a = true -> unique_keys b = true -> py_eq a b = true -> py_eq b a = true.
Proof.
  induction a as [|x|n|t i|s|l IH|l IH|d IH] using pyval_ind'; intros b Ha Hb.
  1-5: destruct b; scalars.
  1-2: destruct b as [| | | | |m|m|]; try scalars; rewrite ?py_eq_list, ?py_eq_tuple; apply Forall2_sym_in;
    intros x y Hx Hy;
    rewrite Forall_forall in IH; eauto using unique_keys_list.
  destruct b as [| | | | | | |e]; try scalars. rewrite !py_eq_dict. intros [Hl H]. split; [done|].
  apply unique_keys_dict in Ha as [Hd Had]. apply unique_keys_dict in Hb as [He Hbe].
  intros k w Hw. assert (k ∈ d.*1) as [v Hv]%elem_of_keys.
  { apply (same_keys_of_subset d e Hd Hl); [|apply elem_of_keys; eauto].
    intros k' [v Hv]%elem_of_keys. destruct (H k' v Hv) as (w' & E & _). apply dict_get_is_Some. eauto. }
  destruct (H k v Hv) as (w' & E & Hvw). apply dict_get_elem in E.
  assert (w' = w) as -> by (by eapply dict_values_unique).
  exists v. split; [by apply dict_get_Some|]. rewrite Forall_forall in IH. apply (IH (k, v)); eauto.
Qed.

Lemma Forall2_trans_in {A} (P : A -> A -> Prop) l m n :
  (forall x y z, x ∈ l -> P x y -> P y z -> P x z) -> Forall2 P l m -> Forall2 P m n -> Forall2 P l n.
Proof.
  intros H HF. revert n. induction HF as [|x y l m Hxy _ IH]; intros n Hn; [done|].
  apply Forall2_cons_inv_l in Hn as (z & n' & Hyz & Hn & ->). constructor.
  - eapply H; [by left|done..].
  - apply IH; [|done]. intros x' y' z' Hx'. apply H. by right.
Qed.

Lemma py_eq_trans a : forall b c, py_eq a b = true -> py_eq b c = true -> py_eq a c = true.
Proof.
  induction a as [|x|n|t i|s|l IH|l IH|d IH] using pyval_ind'; intros b c.
  1-5: destruct b, c; scalars.
  1-2: destruct b as [| | | | |m|m|]; try scalars; destruct c as [| | | | |o|o|]; try scalars;
    rewrite ?py_eq_list, ?py_eq_tuple; apply Forall2_trans_in; rewrite Forall_forall in IH; eauto.
  destruct b as [| | | | | | |e]; try scalars; destruct c as [| | | | | | |g]; try scalars.
  rewrite !py_eq_dict. intros [Hl H] [Hl' H']. split; [congruence|]. intros k v Hv.
  destruct (H k v Hv) as (w & E & Hvw). destruct (H' k w (dict_get_elem _ _ _ E)) as (x & E' & Hwx).
  exists x. split; [done|]. rewrite Forall_forall in IH. by apply (IH (k, v) Hv w).
Qed.

(** ** Keys of values *)

Lemma list_max_in {A} (f : A -> nat) l n x : (list_max (f <$> l) <= n)%nat -> x ∈ l -> (f x <= n)%nat.
Proof.
  intros H%list_max_le Hx. rewrite List.Forall_forall in H. apply H, list_elem_of_In, list_elem_of_fmap. eauto.
Qed.

Lemma key_depth_pos v : (1 <= hkey_depth (_json_value_key v))%nat.
Proof. destruct v; cbn; lia. Qed.

(** One of the two keys is no deeper than the fuel. *)
Definition shallow (f : nat) (a b : pyval) : Prop :=
  (hkey_depth (_json_value_key a) <= f \/ hkey_depth (_json_value_key b) <= f)%nat.

Lemma shallow_items f (l m : list pyval) x y :
  (S (list_max (hkey_depth <$> (_json_value_key <$> l))) <= S f \/
   S (list_max (hkey_depth <$> (_json_value_key <$> m))) <= S f)%nat ->
  x ∈ l -> y ∈ m -> shallow f x y.
Proof.
  rewrite <- !list_fmap_compose. intros [H|H] Hx Hy; [left|right];
    (eapply (list_max_in (hkey_depth ∘ _json_value_key)); [by apply le_S_n in H|done]).
Qed.

Lemma shallow_entries f (d e : pydict) k v k' w :
  shallow (S f) (VDict d) (VDict e) -> (k, v) ∈ d -> (k', w) ∈ e -> shallow f v w.
Proof.
  intros H Hv Hw. unfold shallow in *. cbn in H. rewrite <- !list_fmap_compose in H.
  destruct H as [H%le_S_n|H%le_S_n]; [left|right].
  - apply (list_max_in _ _ _ _ H) in Hv. cbn in Hv. lia.
  - apply (list_max_in _ _ _ _ H) in Hw. cbn in Hw. lia.
Qed.

Lemma shallow_pos f v w : shallow f v w -> exists f', f = S f'.
Proof. intros H. pose proof (key_depth_pos v). pose proof (key_depth_pos w). destruct f; [destruct H; lia|eauto]. Qed.

(** Every entry of the first dict has an equal one in the second. *)
Definition included (d e : pydict) : Prop :=
  forall k v, (k, v) ∈ d -> exists w, (k, w) ∈ e /\ py_eq v w = true.

Lemma included_keys d e : included d e -> d.*1 ⊆ e.*1.
Proof. intros H k [v Hv]%elem_of_keys. destruct (H k v Hv) as (w & Hw & _). apply elem_of_keys. eauto. Qed.

Lemma py_eq_dict_included d e : unique_keys (VDict d) = true -> unique_keys (VDict e) = true ->
  py_eq (VDict d) (VDict e) = true <-> included d e /\ included e d.
Proof.
  intros Hd He. pose proof (unique_keys_dict _ Hd) as [Nd _]. pose proof (unique_keys_dict _ He) as [Ne _].
  assert (forall a b, py_eq (VDict a) (VDict b) = true -> included a b) as Hincl.
  { intros a b [_ H]%py_eq_dict k v Hv. destruct (H k v Hv) as (w & E%dict_get_elem & Hw). eauto. }
  split; [intros H; split; apply Hincl; [done|by apply py_eq_sym]|].
  intros [Hde Hed]. apply py_eq_dict. split.
  - rewrite <- (length_fmap fst d), <- (length_fmap fst e).
    apply Nat.le_antisymm; apply submseteq_length, NoDup_submseteq; solve [done|by apply included_keys].
  - intros k v Hv. destruct (Hde k v Hv) as (w & Hw & Heq). exists w. split; [by apply dict_get_Some|done].
Qed.

(** The comparison of the entries of two mapping keys, under the hypothesis that
    the comparison of their values agrees with [==]. *)
Lemma mapping_half f (d e : pydict) :
  (forall k v k' w, (k, v) ∈ d -> (k', w) ∈ e ->
     shallow f v w /\ hkey_eq f (_json_value_key v) (_json_value_key w) = py_eq v w) ->
  let items (x : pydict) := (fun kv : pystr * pyval => (KScalar (VStr kv.1), _json_value_key kv.2)) <$> x in
  forallb (fun x => existsb (fun y : hkey * hkey => hkey_eq f x.1 y.1 && hkey_eq f x.2 y.2) (items e)) (items d) = true
  <-> included d e.
Proof.
  intros H items. rewrite forallb_forall. split.
  - intros Hall k v Hv. assert (In (KScalar (VStr k), _json_value_key v) (items d)) as Hin.
    { apply list_elem_of_In, list_elem_of_fmap. by exists (k, v). }
    apply Hall, existsb_exists in Hin as (y & Hy & Heq). apply list_elem_of_In, list_elem_of_fmap in Hy as ([k' w] & -> & Hw).
    destruct (H k v k' w Hv Hw) as [Hs E]. destruct (shallow_pos _ _ _ Hs) as [f' ->].
    apply andb_true_iff in Heq as [Hk Hvw]. apply bool_decide_eq_true in Hk as [= ->].
    exists w. split; [done|]. rewrite <- E. exact Hvw.
  - intros Hincl x Hx%list_elem_of_In. apply list_elem_of_fmap in Hx as ([k v] & -> & Hv).
    destruct (Hincl k v Hv) as (w & Hw & Heq). destruct (H k v k w Hv Hw) as [Hs E]. destruct (shallow_pos _ _ _ Hs) as [f' ->].
    apply existsb_exists. exists (KScalar (VStr k), _json_value_key w). split.
    + apply list_elem_of_In, list_elem_of_fmap. by exists (k, w).
    + apply andb_true_iff. split; [by apply bool_decide_eq_true|]. rewrite <- Heq. exact E.
Qed.

Lemma all2_fmap_ext {A B} (g : A -> B) (h : B -> B -> bool) (p : A -> A -> bool) l m :
  (forall x y, x ∈ l -> y ∈ m -> h (g x) (g y) = p x y) -> all2 h (g <$> l) (g <$> m) = all2 p l m.
Proof.
  revert m. induction l as [|x l IH]; intros [|y m] H; [done..|]. cbn. rewrite H by (by left). f_equal.
  apply IH. intros; apply H; by right.
Qed.

(** Two keys are equal exactly when the values are. *)
Lemma hkey_eq_spec f : forall a b, unique_keys a = true -> unique_keys b = true -> shallow f a b ->
  hkey_eq f (_json_value_key a) (_json_value_key b) = py_eq a b.
Proof.
  induction f as [|f IH]; intros a b Ha Hb Hs; [by destruct (shallow_pos _ _ _ Hs)|].
  destruct a as [| | |r [i|]| |l|l|d], b as [| | |r' [j|]| |m|m|e]; try reflexivity.
  1-2: apply all2_fmap_ext; intros x y Hx Hy; apply IH;
    [by apply (unique_keys_list l)|by apply (unique_keys_list m)|by apply (shallow_items f l m)].
  apply eq_true_iff_eq. rewrite py_eq_dict_included by done.
  apply unique_keys_dict in Ha as [_ Ha], Hb as [_ Hb].
  cbn [hkey_eq _json_value_key]. rewrite andb_true_iff, mapping_half, mapping_half; [done| |].
  - intros k v k' w Hv Hw. assert (shallow f w v) by (by eapply shallow_entries).
    assert (shallow f v w) by (unfold shallow in *; tauto). eauto.
  - intros k v k' w Hv Hw. assert (shallow f v w) by (by eapply shallow_entries). eauto.
Qed.

Lemma hkey_eqb_spec a b : unique_keys a = true -> unique_keys b = true ->
  hkey_eqb (_json_value_key a) (_json_value_key b) = py_eq a b.
Proof. intros Ha Hb. apply hkey_eq_spec; [done..|]. left. done. Qed.

(** ** The index of a list *)

(** The keys of the index are those of such values. *)
Definition indexed (index : list (hkey * list pyval)) : Prop :=
  Forall (fun kb => exists u, kb.1 = _json_value_key u /\ unique_keys u = true) index.

Lemma py_eq_congr a b c :
  unique_keys a = true -> unique_keys b = true -> py_eq a b = true -> py_eq a c = py_eq b c.
Proof.
  intros Ha Hb Hab. apply eq_true_iff_eq. split; intros H.
  - apply (py_eq_trans b a c); [by apply py_eq_sym|done].
  - by apply (py_eq_trans a b c).
Qed.

Lemma bucket_append_spec index u v : indexed index -> unique_keys u = true -> unique_keys v = true ->
  bucket_of (_json_value_key v) (bucket_append (_json_value_key u) u index)
  = bucket_of (_json_value_key v) index ++ (if py_eq u v then [u] else []).
Proof.
  intros Hi Hu Hv. induction Hi as [|[k b] index (w & Hk & Hw) _ IH]; cbn [fst] in *; subst; cbn.
  - rewrite hkey_eqb_spec by done. by destruct (py_eq u v).
  - rewrite hkey_eqb_spec by done. destruct (py_eq w u) eqn:E; cbn; rewrite !hkey_eqb_spec by done.
    + rewrite (py_eq_congr w u v) by done. destruct (py_eq u v); by rewrite ?app_nil_r.
    + destruct (py_eq w v) eqn:E'; [|done]. destruct (py_eq u v) eqn:E''; [|by rewrite app_nil_r].
      exfalso. rewrite (py_eq_trans w v u) in E; [done..|by apply py_eq_sym].
Qed.

Lemma bucket_append_indexed index u :
  indexed index -> unique_keys u = true -> indexed (bucket_append (_json_value_key u) u index).
Proof.
  intros Hi Hu. induction Hi as [|[k b] index Hk Hi IH]; cbn; [by repeat constructor; eauto|].
  destruct (hkey_eqb k _); by constructor.
Qed.

(** The index is the list's: a bucket holds the members equal to the value. *)
Definition index_of (l : list pyval) (index : list (hkey * list pyval)) : Prop :=
  indexed index /\ forall v, unique_keys v = true ->
    bucket_of (_json_value_key v) index = filter (fun u => py_eq u v = true) l.

Lemma index_of_append l index u : unique_keys u = true -> index_of l index ->
  index_of (l ++ [u]) (bucket_append (_json_value_key u) u index).
Proof.
  intros Hu [Hi H]. split; [by apply bucket_append_indexed|]. intros v Hv.
  rewrite bucket_append_spec, H by done. rewrite filter_app. f_equal. cbn.
  by destruct (py_eq u v) eqn:E; case_decide.
Qed.

Lemma index_values_app l seen index : Forall (fun v => unique_keys v = true) l -> index_of seen index ->
  index_of (seen ++ l) (foldl (fun index v => bucket_append (_json_value_key v) v index) index l).
Proof.
  intros Hl. revert seen index. induction Hl as [|u l Hu _ IH]; intros seen index H; cbn; [by rewrite app_nil_r|].
  rewrite cons_middle, app_assoc. by apply IH, index_of_append.
Qed.

Lemma index_values_of l : Forall (fun v => unique_keys v = true) l -> index_of l (index_values l).
Proof. intros Hl. apply (index_values_app l []); [done|]. split; [constructor|done]. Qed.

(** The reference definition: a value joins the list unless it is in it. *)
Definition add_distinct (l : list pyval) (v : pyval) : list pyval := if py_in v l then l else l ++ [v].

Lemma existsb_filter (f : pyval -> bool) l : existsb f (filter (fun u => f u = true) l) = existsb f l.
Proof.
  apply eq_true_iff_eq. rewrite !existsb_exists. setoid_rewrite <- list_elem_of_In.
  setoid_rewrite list_elem_of_filter. naive_solver.
Qed.

Lemma append_if_distinct_spec dv v : unique_keys v = true -> index_of (dv_values dv) (dv_by_key dv) ->
  dv_values (append_if_distinct dv v) = add_distinct (dv_values dv) v /\
  index_of (dv_values (append_if_distinct dv v)) (dv_by_key (append_if_distinct dv v)).
Proof.
  intros Hv Hi. unfold append_if_distinct, add_distinct, py_in. pose proof (proj2 Hi v Hv) as H.
  rewrite H, (existsb_filter (fun u => py_eq u v)) by done. destruct (existsb _ _); cbn; [done|].
  split; [done|]. by apply index_of_append.
Qed.

(** Merging lists of metadata values goes through an index by hashable keys; the
    list it gives is the one that adds each value unless [==] finds it there
    already: first occurrences, in order, whatever mixture of numbers, booleans
    and nested dicts the values hold. *)
Theorem distinct_merge_is_membership existing incoming :
  Forall (fun v => unique_keys v = true) (existing ++ incoming) ->
  _append_distinct_json_values existing incoming = foldl add_distinct existing incoming.
Proof.
  rewrite Forall_app. intros [He Hi]. unfold _append_distinct_json_values.
  assert (index_of existing (dv_by_key (distinct_json_values existing))) as H by (by apply index_values_of).
  change existing with (dv_values (distinct_json_values existing)) in H at 1.
  change existing with (dv_values (distinct_json_values existing)) at 2.
  revert H. generalize (distinct_json_values existing). clear He.
  induction Hi as [|v l Hv _ IH]; intros dv H; cbn; [done|].
  destruct (append_if_distinct_spec dv v Hv H) as [E H']. rewrite IH by done. by rewrite E.
Qed.

(** [1], [True] and [1.0] are one value; two dicts are equal whatever their order. *)
Lemma distinct_merge_is_membership_witness :
  let a := VDict [(lit "a", VInt 1); (lit "b", VList [])] in
  let b := VDict [(lit "b", VList []); (lit "a", VBool true)] in
  _append_distinct_json_values [VInt 1; VStr (lit "x")] [a; VBool true; VStr (lit "x"); VFloat (lit "1.0") (Some 1); b; VTuple []]
  = [VInt 1; VStr (lit "x"); a; VTuple []].
Proof. cbv zeta. rewrite distinct_merge_is_membership by (repeat constructor). vm_compute. reflexivity. Defined.
