(* ===== verification/Limits.v ===== *)
(** Resource limits of the coordinator: [coordinator/limits.py], and the
    exceptions the coordinator's code raises. *)
From S2P Require Import Prelude PyVal.
Open Scope Z_scope.

(** ** Exceptions *)

(** The kinds of constraint of the control schema. *)
Inductive constraint := CheckConstraint | UniqueConstraint (name : string) | ForeignKeyConstraint.

Inductive exn :=
| ValueError (msg : string)
| TypeError (msg : string)
| LookupError (msg : string)          (** Python's [KeyError] *)
| RuntimeError (msg : string)
| OSError (msg : string)
| PermissionError (msg : string)
| SingletonActiveError (msg : string)
| MaintenanceUnavailableError
| AdmissionTimeout
| ControlStoreError (msg : string)
| StaleDurableAuthorityError (msg : string)
| FencingContentionError
| PublicationRouteChangedError
| OperationalError                     (** psycopg's: the connection failed *)
| ProgrammingError                     (** psycopg's: a parameter of the wrong type *)
| IntegrityError (c : constraint).    (** psycopg's [IntegrityError] family *)

#[export] Instance constraint_eq_dec : EqDecision constraint.
Proof. solve_decision. Defined.
#[export] Instance exn_eq_dec : EqDecision exn.
Proof. solve_decision. Defined.

Abbreviation res := (result exn).

(** ** Limits *)

Record CoordinatorLimits := {
  max_nonterminal_jobs : Z;
  max_queued_manual_jobs_per_graph : Z;
  manual_claim_burst : Z;
  max_running_workers : Z;
  max_running_mutating_workers : Z;
  max_running_read_operations : Z;
  max_client_connections : Z;
  max_in_flight_requests : Z;
  watcher_hint_buffer_size : Z;
  progress_counter_delta : Z;
  progress_min_interval_seconds : Z;
  heartbeat_seconds : Z;
  claim_deadline_seconds : Z;
  graph_lease_duration_seconds : Z;
  lease_renewal_interval_seconds : Z;
  cancel_deadline_seconds : Z;
  process_deadline_seconds : Z;
  refresh_attempt_deadline_seconds : Z;
  max_retry_attempts : Z;
  max_retry_backoff_seconds : Z;
  terminal_retention_seconds : Z;
  cleanup_batch_size : Z;
  max_protocol_line_bytes : Z;
  max_diagnostic_bytes : Z;
  max_array_items : Z;
  max_identifier_chars : Z;
  max_summary_chars : Z;
  max_counter : Z
}.

(** [fields(self)], each with its value. *)
Definition limit_fields (l : CoordinatorLimits) : list (string * Z) :=
  (fun nf : string * (CoordinatorLimits -> Z) => (nf.1, nf.2 l)) <$>
  [("max_nonterminal_jobs", max_nonterminal_jobs);
   ("max_queued_manual_jobs_per_graph", max_queued_manual_jobs_per_graph);
   ("manual_claim_burst", manual_claim_burst);
   ("max_running_workers", max_running_workers);
   ("max_running_mutating_workers", max_running_mutating_workers);
   ("max_running_read_operations", max_running_read_operations);
   ("max_client_connections", max_client_connections);
   ("max_in_flight_requests", max_in_flight_requests);
   ("watcher_hint_buffer_size", watcher_hint_buffer_size);
   ("progress_counter_delta", progress_counter_delta);
   ("progress_min_interval_seconds", progress_min_interval_seconds);
   ("heartbeat_seconds", heartbeat_seconds);
   ("claim_deadline_seconds", claim_deadline_seconds);
   ("graph_lease_duration_seconds", graph_lease_duration_seconds);
   ("lease_renewal_interval_seconds", lease_renewal_interval_seconds);
   ("cancel_deadline_seconds", cancel_deadline_seconds);
   ("process_deadline_seconds", process_deadline_seconds);
   ("refresh_attempt_deadline_seconds", refresh_attempt_deadline_seconds);
   ("max_retry_attempts", max_retry_attempts);
   ("max_retry_backoff_seconds", max_retry_backoff_seconds);
   ("terminal_retention_seconds", terminal_retention_seconds);
   ("cleanup_batch_size", cleanup_batch_size);
   ("max_protocol_line_bytes", max_protocol_line_bytes);
   ("max_diagnostic_bytes", max_diagnostic_bytes);
   ("max_array_items", max_array_items);
   ("max_identifier_chars", max_identifier_chars);
   ("max_summary_chars", max_summary_chars);
   ("max_counter", max_counter)].

Definition _is_positive_int (value : Z) : bool := 0 <? value.

(** The relationships [validate] requires, with their messages. *)
Definition relationships (l : CoordinatorLimits) : list (bool * string) :=
  [(max_running_mutating_workers l <=? max_running_workers l,
    "mutating workers cannot exceed all running workers");
   (max_running_read_operations l <=? max_running_workers l,
    "read operations cannot exceed all running workers");
   (max_client_connections l <=? max_in_flight_requests l,
    "in-flight requests cannot be below client connections");
   (max_diagnostic_bytes l <=? max_protocol_line_bytes l,
    "diagnostics cannot exceed a protocol line");
   (heartbeat_seconds l <=? max_retry_backoff_seconds l,
    "maximum retry backoff cannot be below the heartbeat interval");
   (cleanup_batch_size l <=? max_nonterminal_jobs l,
    "cleanup batch cannot exceed the bounded working set");
   (heartbeat_seconds l <=? claim_deadline_seconds l,
    "claim deadline cannot be below the heartbeat interval");
   (lease_renewal_interval_seconds l <? graph_lease_duration_seconds l,
    "lease renewal interval must be below the lease duration");
   (cancel_deadline_seconds l <=? process_deadline_seconds l,
    "process deadline cannot be below the cancel deadline");
   (process_deadline_seconds l <? refresh_attempt_deadline_seconds l,
    "refresh attempt deadline must be greater than the process deadline")].

Fixpoint validate_fields (own hard : list (string * Z)) : res unit :=
  match own, hard with
  | (name, value) :: own', (_, maximum) :: hard' =>
      _ ← raise_if (negb (_is_positive_int value)) (ValueError (name +:+ " must be a positive integer"));
      _ ← raise_if (negb (_is_positive_int maximum) || (maximum <? value))
            (ValueError (name +:+ " exceeds its hard maximum"));
      validate_fields own' hard'
  | _, _ => Ok tt
  end.

Fixpoint validate_relationships (rs : list (bool * string)) : res unit :=
  match rs with
  | [] => Ok tt
  | (valid, message) :: rest =>
      _ ← raise_if (negb valid) (ValueError message); validate_relationships rest
  end.

(** [CoordinatorLimits.validate] *)
Definition validate (self hard_maxima : CoordinatorLimits) : res unit :=
  _ ← validate_fields (limit_fields self) (limit_fields hard_maxima);
  validate_relationships (relationships self).

Definition DEFAULT_LIMITS : CoordinatorLimits :=
  {| max_nonterminal_jobs := 256;
     max_queued_manual_jobs_per_graph := 8;
     manual_claim_burst := 3;
     max_running_workers := 4;
     max_running_mutating_workers := 2;
     max_running_read_operations := 4;
     max_client_connections := 32;
     max_in_flight_requests := 64;
     watcher_hint_buffer_size := 256;
     progress_counter_delta := 10;
     progress_min_interval_seconds := 1;
     heartbeat_seconds := 10;
     claim_deadline_seconds := 30;
     graph_lease_duration_seconds := 60;
     lease_renewal_interval_seconds := 10;
     cancel_deadline_seconds := 10;
     process_deadline_seconds := 600;
     refresh_attempt_deadline_seconds := 3600;
     max_retry_attempts := 3;
     max_retry_backoff_seconds := 300;
     terminal_retention_seconds := 7 * 24 * 60 * 60;
     cleanup_batch_size := 64;
     max_protocol_line_bytes := 1024 * 1024;
     max_diagnostic_bytes := 16 * 1024;
     max_array_items := 32;
     max_identifier_chars := 128;
     max_summary_chars := 512;
     max_counter := 2^31 - 1 |}.

Definition HARD_MAX_LIMITS : CoordinatorLimits :=
  {| max_nonterminal_jobs := 4096;
     max_queued_manual_jobs_per_graph := 64;
     manual_claim_burst := 32;
     max_running_workers := 32;
     max_running_mutating_workers := 16;
     max_running_read_operations := 32;
     max_client_connections := 256;
     max_in_flight_requests := 1024;
     watcher_hint_buffer_size := 4096;
     progress_counter_delta := 10000;
     progress_min_interval_seconds := 60;
     heartbeat_seconds := 60;
     claim_deadline_seconds := 300;
     graph_lease_duration_seconds := 600;
     lease_renewal_interval_seconds := 60;
     cancel_deadline_seconds := 120;
     process_deadline_seconds := 3600;
     refresh_attempt_deadline_seconds := 86400;
     max_retry_attempts := 10;
     max_retry_backoff_seconds := 3600;
     terminal_retention_seconds := 90 * 24 * 60 * 60;
     cleanup_batch_size := 4096;
     max_protocol_line_bytes := 1024 * 1024;
     max_diagnostic_bytes := 64 * 1024;
     max_array_items := 256;
     max_identifier_chars := 256;
     max_summary_chars := 4096;
     max_counter := 2^63 - 1 |}.

(** [valid_counter]: an [int] that is no [bool], in range. *)
Definition valid_counter (value : pyval) (limits : CoordinatorLimits) : bool :=
  match value with
  | VInt n => (0 <=? n) && (n <=? max_counter limits)
  | _ => false
  end.

(** ** Facts *)

Lemma validate_fields_Ok own hard u :
  length own = length hard ->
  validate_fields own hard = Ok u <->
  Forall2 (fun o h => 0 < o.2 <= h.2) own hard.
Proof.
  revert hard. induction own as [|[n v] own IH]; intros [|[m h] hard] Hl; try discriminate Hl.
  - destruct u. split; [constructor|done].
  - cbn [validate_fields]. rewrite Forall2_cons. cbn. injection Hl as Hl.
    rewrite <- (IH hard Hl). unfold _is_positive_int. split.
    + intros H. unbind H. rewrite orb_false_iff, negb_false_iff in *. split; [lia|done].
    + intros [Hv H]. replace (0 <? v) with true by lia. replace (0 <? h) with true by lia.
      replace (h <? v) with false by lia. exact H.
Qed.

Lemma validate_relationships_Ok rs u :
  validate_relationships rs = Ok u <-> Forall (fun r => r.1 = true) rs.
Proof.
  induction rs as [|[b m] rs IH]; cbn [validate_relationships].
  - destruct u. split; [constructor|done].
  - rewrite Forall_cons, <- IH. cbn. destruct b; cbn; [tauto|].
    split; [done|]. by intros [? _].
Qed.

(** What validated limits guarantee to the rest of the coordinator. *)
Definition limits_sound (l : CoordinatorLimits) : Prop :=
  Forall (fun f => 0 < f.2) (limit_fields l) /\
  max_running_mutating_workers l <= max_running_workers l /\
  max_running_read_operations l <= max_running_workers l /\
  max_client_connections l <= max_in_flight_requests l /\
  max_diagnostic_bytes l <= max_protocol_line_bytes l /\
  heartbeat_seconds l <= max_retry_backoff_seconds l /\
  cleanup_batch_size l <= max_nonterminal_jobs l /\
  heartbeat_seconds l <= claim_deadline_seconds l /\
  lease_renewal_interval_seconds l < graph_lease_duration_seconds l /\
  cancel_deadline_seconds l <= process_deadline_seconds l /\
  process_deadline_seconds l < refresh_attempt_deadline_seconds l.

(**  [validate] accepts exactly the sound limits within the hard maxima:
    every field positive and at most its maximum, and all ten relationships
    between them hold.  Both limit sets of the module pass at import time. *)
Theorem validate_limits_exact (l hard : CoordinatorLimits) :
  (validate l hard = Ok tt <->
   limits_sound l /\ Forall2 (fun o h => o.2 <= h.2) (limit_fields l) (limit_fields hard)) /\
  validate DEFAULT_LIMITS HARD_MAX_LIMITS = Ok tt /\
  validate HARD_MAX_LIMITS HARD_MAX_LIMITS = Ok tt.
Proof.
  split; [|split; vm_compute; reflexivity].
  unfold validate. transitivity (Forall2 (fun o h : string * Z => 0 < o.2 <= h.2) (limit_fields l) (limit_fields hard)
    /\ Forall (fun r => r.1 = true) (relationships l)).
  - rewrite bind_Ok. split.
    + intros ([] & Hf & Hr). by rewrite validate_fields_Ok, validate_relationships_Ok in *.
    + intros [Hf Hr]. exists tt. by rewrite validate_fields_Ok, validate_relationships_Ok.
  - unfold limits_sound, relationships. repeat rewrite Forall_cons. cbn [fst].
    rewrite Forall_nil. rewrite <- !Z.ltb_lt, <- !Z.leb_le.
    transitivity ((Forall (fun f : string * Z => 0 < f.2) (limit_fields l) /\
      Forall2 (fun o h : string * Z => o.2 <= h.2) (limit_fields l) (limit_fields hard))
      /\ Forall (fun r => r.1 = true) (relationships l)); [|unfold relationships;
        repeat rewrite Forall_cons; cbn [fst]; rewrite Forall_nil; tauto].
    assert (Forall2 (fun o h : string * Z => 0 < o.2 <= h.2) (limit_fields l) (limit_fields hard) <->
      Forall (fun f : string * Z => 0 < f.2) (limit_fields l) /\
      Forall2 (fun o h : string * Z => o.2 <= h.2) (limit_fields l) (limit_fields hard)) as ->.
    { assert (forall a b : list (string * Z), length a = length b ->
        Forall2 (fun o h => 0 < o.2 <= h.2) a b <->
        Forall (fun f => 0 < f.2) a /\ Forall2 (fun o h => o.2 <= h.2) a b) as Hgen; [|by apply Hgen].
      induction a as [|x a IH]; intros [|y b] Hl; try discriminate Hl;
        [by split; [split|]; constructor|].
      rewrite !Forall2_cons, Forall_cons, IH by (by injection Hl). tauto. }
    unfold relationships. repeat rewrite Forall_cons. cbn [fst]. rewrite Forall_nil. tauto.
Qed.
