(* ===== verification/Regex.v ===== *)
(** Python's [re] as far as the repository uses it: sequences and alternatives
    of character classes, bounded and unbounded repetition of a class, [^], [\b]
    and the case folding of [re.IGNORECASE].

    A match is a pair of positions.  [matches] says declaratively when a pattern
    matches between two positions; [ends] computes all ends of the matches that
    start at a position, and [search] and [fullmatch] are its two uses. *)
From S2P Require Import Prelude.
Open Scope Z_scope.

Inductive re :=
| Eps
| Cls (p : Z -> bool)                       (** one character of a class *)
| Rep (p : Z -> bool) (maximum : option nat)  (** [p*], or [p{0,maximum}] *)
| Cat (a b : re)
| Or (a b : re)
| Bol                                       (** [^] *)
| WordB.                                    (** [\b] *)

Definition Opt (r : re) : re := Or r Eps.
Fixpoint Times (n : nat) (r : re) : re :=
  match n with O => Eps | S n => Cat r (Times n r) end.
Definition Cats (l : list re) : re := foldr Cat Eps l.

(** The alternatives of a non-empty list. *)
Fixpoint Ors (r : re) (l : list re) : re :=
  match l with [] => r | r' :: l => Or r (Ors r' l) end.

Section Unicode.
Context {U : Unicode}.

(** [\w] *)
Definition is_word (c : Z) : bool :=
  if c <? 128 then is_alnum c || (c =? 95) else uni_alnum c.

(** [\d] *)
Definition is_decimal (c : Z) : bool :=
  if c <? 128 then is_digit c else uni_decimal c.

(** The ASCII letter a character folds to under [re.IGNORECASE], or the character
    itself: the Kelvin sign folds to k, the long s to s, and both the dotted
    capital and the dotless small i to i. *)
Definition fold_case (c : Z) : Z :=
  if is_upper c then c + 32
  else if c =? 0x212a then 107
  else if c =? 0x17f then 115
  else if (c =? 0x130) || (c =? 0x131) then 105
  else c.

Definition lit_ci (c : Z) : re := Cls (fun x => fold_case x =? c).

(** A lower-case word under [re.IGNORECASE]. *)
Definition word_ci (s : string) : re := Cats (lit_ci <$> lit s).

(** [[A-Za-z]] under [re.IGNORECASE]. *)
Definition letter_ci (c : Z) : bool := is_lower (fold_case c).

Definition one_of (s : pystr) : re := Cls (fun c => char_in c s).

Definition word_at (s : pystr) (i : nat) : bool :=
  match s !! i with Some c => is_word c | None => false end.

(** Whether position [i] is a word boundary. *)
Definition word_boundary (s : pystr) (i : nat) : bool :=
  xorb (match i with O => false | S i => word_at s i end) (word_at s i).

(** ** Matching, declaratively *)

Inductive matches (s : pystr) : re -> nat -> nat -> Prop :=
| M_eps i : matches s Eps i i
| M_cls p i c : s !! i = Some c -> p c = true -> matches s (Cls p) i (S i)
| M_rep_stop p m i : matches s (Rep p m) i i
| M_rep_step p m i j c :
    s !! i = Some c -> p c = true -> m <> Some O ->
    matches s (Rep p (pred <$> m)) (S i) j -> matches s (Rep p m) i j
| M_cat a b i j k : matches s a i j -> matches s b j k -> matches s (Cat a b) i k
| M_or_l a b i j : matches s a i j -> matches s (Or a b) i j
| M_or_r a b i j : matches s b i j -> matches s (Or a b) i j
| M_bol : matches s Bol 0 0
| M_wordb i : word_boundary s i = true -> matches s WordB i i.

(** ** Matching, computed *)

Fixpoint rep_ends (s : pystr) (p : Z -> bool) (fuel i : nat) : list nat :=
  i :: match fuel, s !! i with
       | S fuel, Some c => if p c then rep_ends s p fuel (S i) else []
       | _, _ => []
       end.

Fixpoint ends (s : pystr) (r : re) (i : nat) : list nat :=
  match r with
  | Eps => [i]
  | Cls p => match s !! i with Some c => if p c then [S i] else [] | None => [] end
  | Rep p m => rep_ends s p (default (length s) m) i
  | Cat a b => ends s a i ≫= ends s b
  | Or a b => ends s a i ++ ends s b i
  | Bol => match i with O => [O] | S _ => [] end
  | WordB => if word_boundary s i then [i] else []
  end.

(** [r.search(s) is not None] *)
Definition search (r : re) (s : pystr) : bool :=
  existsb (fun i => match ends s r i with [] => false | _ => true end) (seq 0 (S (length s))).

(** [r.fullmatch(s) is not None] *)
Definition fullmatch (r : re) (s : pystr) : bool :=
  bool_decide (length s ∈ ends s r 0).

(** ** The computation is the declarative matching *)

Lemma rep_ends_bounded s p fuel i j :
  j ∈ rep_ends s p fuel i <-> matches s (Rep p (Some fuel)) i j.
Proof.
  revert i. induction fuel as [|fuel IH]; intros i; cbn [rep_ends]; rewrite elem_of_cons.
  - split.
    + intros [->|H]; [constructor|by apply elem_of_nil in H].
    + inversion 1; subst; [by left|done].
  - split.
    + intros [->|H]; [constructor|]. destruct (s !! i) as [c|] eqn:Hc; [|by apply elem_of_nil in H].
      destruct (p c) eqn:Hp; [|by apply elem_of_nil in H].
      eapply M_rep_step; [done..|]. by apply IH.
    + inversion 1 as [| | |? ? ? ? c Hc Hp Hm Hr| | | | |]; subst; [by left|].
      right. rewrite Hc, Hp. by apply IH.
Qed.

(** Enough fuel: a repetition never runs past the end of the text. *)
Lemma rep_unbounded s p n i j :
  (length s <= n + i)%nat ->
  matches s (Rep p None) i j <-> matches s (Rep p (Some n)) i j.
Proof.
  revert i. induction n as [|n IH]; intros i Hn; split; intros H.
  - inversion H as [| | |? ? ? ? c Hc| | | | |]; subst; [constructor|].
    apply lookup_lt_Some in Hc. lia.
  - inversion H; subst; [constructor|done].
  - inversion H as [| | |? ? ? ? c Hc Hp Hm Hr| | | | |]; subst; [constructor|].
    eapply M_rep_step; [done..|]. apply IH; [lia|done].
  - inversion H as [| | |? ? ? ? c Hc Hp Hm Hr| | | | |]; subst; [constructor|].
    eapply M_rep_step; [done..|]. cbn. apply IH; [lia|done].
Qed.

Lemma ends_matches s r i j : j ∈ ends s r i <-> matches s r i j.
Proof.
  revert i j. induction r as [|p|p m|a IHa b IHb|a IHa b IHb| |]; intros i j; cbn [ends].
  - rewrite list_elem_of_singleton. split; [intros ->; constructor|by inversion 1].
  - split.
    + destruct (s !! i) as [c|] eqn:Hc; [|by intros ?%elem_of_nil].
      destruct (p c) eqn:Hp; [|by intros ?%elem_of_nil].
      intros ->%list_elem_of_singleton. by econstructor.
    + inversion 1 as [|? ? c Hc Hp| | | | | | |]; subst. rewrite Hc, Hp. set_solver.
  - rewrite rep_ends_bounded. destruct m as [m|]; cbn; [done|].
    symmetry. apply rep_unbounded. lia.
  - rewrite list_elem_of_bind. split.
    + intros (k & Hj%IHb & Hk%IHa). by econstructor.
    + inversion 1; subst. eexists. split; [by apply IHb|by apply IHa].
  - rewrite elem_of_app, IHa, IHb. split; [intros []; by constructor|inversion 1; eauto].
  - split.
    + destruct i; [|by intros ?%elem_of_nil]. intros ->%list_elem_of_singleton. constructor.
    + inversion 1; subst. set_solver.
  - split.
    + destruct (word_boundary s i) eqn:Hb; [|by intros ?%elem_of_nil].
      intros ->%list_elem_of_singleton. by constructor.
    + inversion 1 as [| | | | | | | |? Hb]; subst. rewrite Hb. set_solver.
Qed.

Lemma search_spec r s :
  search r s = true <-> exists i j, (i <= length s)%nat /\ matches s r i j.
Proof.
  unfold search. rewrite existsb_exists. split.
  - intros (i & Hi & He). apply list_elem_of_In, elem_of_seq in Hi.
    destruct (ends s r i) as [|j js] eqn:E; [done|].
    exists i, j. split; [lia|]. apply ends_matches. rewrite E. set_solver.
  - intros (i & j & Hi & Hm). exists i. split.
    + apply list_elem_of_In, elem_of_seq. lia.
    + apply ends_matches in Hm. destruct (ends s r i); [by apply elem_of_nil in Hm|done].
Qed.

Lemma fullmatch_spec r s : fullmatch r s = true <-> matches s r 0 (length s).
Proof. unfold fullmatch. by rewrite bool_decide_eq_true, ends_matches. Qed.

(** ** Derived facts *)

Lemma matches_or s a b i j : matches s (Or a b) i j <-> matches s a i j \/ matches s b i j.
Proof. split; [inversion 1; eauto|intros []; by constructor]. Qed.

Lemma matches_cat s a b i k :
  matches s (Cat a b) i k <-> exists j, matches s a i j /\ matches s b j k.
Proof. split; [inversion 1; eauto|intros (j & ? & ?); by econstructor]. Qed.

Lemma matches_cls s p i j :
  matches s (Cls p) i j <-> j = S i /\ exists c, s !! i = Some c /\ p c = true.
Proof. split; [inversion 1; subst; eauto|intros (-> & c & ? & ?); by econstructor]. Qed.

(** Every character a repetition matched is of its class. *)
Lemma matches_rep_class s p m i j k c :
  matches s (Rep p m) i j -> (i <= k < j)%nat -> s !! k = Some c -> p c = true.
Proof.
  intros H. remember (Rep p m) as r eqn:Er. revert p m Er.
  induction H as [| |p' m' i|p' m' i j c' Hc Hp Hm H IH| | | | |]; intros q m Er Hk Hs;
    try discriminate Er; injection Er as <- <-; [lia|].
  destruct (decide (k = i)) as [->|Hne].
  - congruence.
  - eapply IH; [done| |done]. lia.
Qed.

Lemma matches_rep_bound s p m i j :
  matches s (Rep p (Some m)) i j -> (i <= j <= i + m)%nat.
Proof.
  intros H. remember (Rep p (Some m)) as r eqn:Er. revert p m Er.
  induction H as [| |p' m' i|p' m' i j c' Hc Hp Hm H IH| | | | |]; intros q m Er;
    try discriminate Er; injection Er as <- ->; [lia|].
  cbn in IH. specialize (IH _ _ eq_refl). destruct m; [done|]. cbn in IH. lia.
Qed.

(** Searching a class finds a character of it. *)
Lemma search_cls p s : search (Cls p) s = true <-> exists c, c ∈ s /\ p c = true.
Proof.
  rewrite search_spec. split.
  - intros (i & j & _ & (_ & c & Hc & Hp)%matches_cls). exists c. split; [|done].
    by eapply list_elem_of_lookup_2.
  - intros (c & [i Hc]%list_elem_of_lookup & Hp). exists i, (S i). split.
    + apply lookup_lt_Some in Hc. lia.
    + by econstructor.
Qed.

Lemma search_or a b s : search (Or a b) s = search a s || search b s.
Proof.
  apply eq_true_iff_eq. rewrite orb_true_iff, !search_spec.
  setoid_rewrite matches_or. naive_solver.
Qed.

End Unicode.
