(* ===== verification/Contracts.v ===== *)
(** Durable contracts of the coordinator: [coordinator/contracts.py].

    The job-state machine, the request envelope and its validation, and the
    projections of status and errors a client may see. *)
From S2P Require Import Prelude Utf8 PyVal Json Limits Regex.
Open Scope Z_scope.

(** ** Vocabularies *)

Inductive JobState :=
| QUEUED | CLAIMED | STARTING | RUNNING | CANCEL_REQUESTED | CANCELLING
| SUCCEEDED | FAILED | CANCELLED | SUPERSEDED | QUARANTINED | RECONCILIATION_REQUIRED.

Inductive PublicationState :=
| NOT_APPLICABLE | NOT_STARTED | PREPARED | TRANSACTION_STARTED
| COMMITTED | ROLLED_BACK | COMMIT_UNKNOWN.

#[export] Instance JobState_eq_dec : EqDecision JobState.
Proof. solve_decision. Defined.
#[export] Instance PublicationState_eq_dec : EqDecision PublicationState.
Proof. solve_decision. Defined.

Definition all_job_states : list JobState :=
  [QUEUED; CLAIMED; STARTING; RUNNING; CANCEL_REQUESTED; CANCELLING;
   SUCCEEDED; FAILED; CANCELLED; SUPERSEDED; QUARANTINED; RECONCILIATION_REQUIRED].

(** [JobState.value] *)
Definition job_state_value (s : JobState) : string :=
  match s with
  | QUEUED => "queued" | CLAIMED => "claimed" | STARTING => "starting" | RUNNING => "running"
  | CANCEL_REQUESTED => "cancel_requested" | CANCELLING => "cancelling"
  | SUCCEEDED => "succeeded" | FAILED => "failed" | CANCELLED => "cancelled"
  | SUPERSEDED => "superseded" | QUARANTINED => "quarantined"
  | RECONCILIATION_REQUIRED => "reconciliation_required"
  end.

(** [PublicationState.value] *)
Definition publication_value (s : PublicationState) : string :=
  match s with
  | NOT_APPLICABLE => "not_applicable" | NOT_STARTED => "not_started" | PREPARED => "prepared"
  | TRANSACTION_STARTED => "transaction_started" | COMMITTED => "committed"
  | ROLLED_BACK => "rolled_back" | COMMIT_UNKNOWN => "commit_unknown"
  end.

(** [JobState(value)] *)
Definition job_state_of (value : pystr) : option JobState :=
  List.find (fun s => bool_decide (lit (job_state_value s) = value)) all_job_states.

Definition TERMINAL_JOB_STATES : list JobState :=
  [SUCCEEDED; FAILED; CANCELLED; SUPERSEDED; QUARANTINED].

Definition is_terminal (s : JobState) : bool := bool_decide (s ∈ TERMINAL_JOB_STATES).

Definition LEGAL_TRANSITIONS (s : JobState) : list JobState :=
  match s with
  | QUEUED => [CLAIMED; CANCELLED; SUPERSEDED; QUARANTINED]
  | CLAIMED => [STARTING; CANCEL_REQUESTED; RECONCILIATION_REQUIRED]
  | STARTING => [RUNNING; FAILED; QUEUED; CANCEL_REQUESTED; RECONCILIATION_REQUIRED]
  | RUNNING => [SUCCEEDED; FAILED; QUEUED; CANCEL_REQUESTED; RECONCILIATION_REQUIRED]
  | CANCEL_REQUESTED => [CANCELLING; CANCELLED; RECONCILIATION_REQUIRED]
  | CANCELLING => [CANCELLED; FAILED; RECONCILIATION_REQUIRED]
  | RECONCILIATION_REQUIRED => [SUCCEEDED; FAILED; CANCELLED; QUEUED; QUARANTINED]
  | SUCCEEDED | FAILED | CANCELLED | SUPERSEDED | QUARANTINED => []
  end.

Definition validate_transition (current target : pystr) : res JobState :=
  match job_state_of current, job_state_of target with
  | Some current_state, Some target_state =>
      if bool_decide (target_state ∈ LEGAL_TRANSITIONS current_state) then Ok target_state
      else Err (ValueError "illegal job transition")
  | _, _ => Err (ValueError "illegal job transition")
  end.

(** ** Patterns *)

Definition is_lower_alnum (c : Z) : bool := is_lower c || is_digit c.
Definition word_cs (s : string) : re := Cats ((fun c => Cls (fun x => x =? c)) <$> lit s).

Definition _REQUEST_FIELDS : list pystr :=
  lit <$> ["schema_version"; "job_kind"; "graph_id"; "request_id"; "idempotency_key";
           "priority"; "operation_options"].
Definition _PRIORITIES : list pystr := [lit "automatic"; lit "manual"].

Definition _GRAPH_ID_PATTERN : re :=
  Cat (word_cs "synthetic-")
    (Cat (Cls is_lower_alnum)
       (Opt (Cat (Rep (fun c => is_lower_alnum c || (c =? 45)) None) (Cls is_lower_alnum)))).

Definition _CONFIGURED_GRAPH_ID_PATTERN : re :=
  Cat (Cls is_lower) (Rep (fun c => is_lower_alnum c || char_in c (lit "._-")) (Some 127%nat)).

Definition _GENERATION_DIGEST_PATTERN : re :=
  Cat (Cls is_alnum) (Rep (fun c => is_alnum c || char_in c (lit "._-")) None).

Definition _PUBLIC_IDENTIFIER_PATTERN : re :=
  Cat (Cls is_alnum) (Rep (fun c => is_alnum c || char_in c (lit "._:-")) None).

Section Unicode.
Context {U : Unicode}.

Definition digits (n : nat) : re := Times n (Cls is_decimal).

Definition _UTC_TIMESTAMP_PATTERN : re :=
  Cats [digits 4; word_cs "-"; digits 2; word_cs "-"; digits 2; word_cs "T";
        digits 2; word_cs ":"; digits 2; word_cs ":"; digits 2;
        Opt (Cats [word_cs "."; Cls is_decimal; Rep is_decimal (Some 5%nat)]); word_cs "Z"].

Definition slashes : re := one_of [47; 92].

(** A path at the start of the text or after a space, a quote or an equals sign. *)
Definition path_start : re :=
  Cat (Or Bol (Cls (fun c => isspace c || char_in c [34; 39; 61])))
      (Ors (one_of [47])
         [Cat (one_of [126]) slashes;
          Cats [one_of [46]; Opt (one_of [46]); slashes];
          Cats [Cls letter_ci; one_of [58]; slashes]]).

Definition words (w : string) (ws : list string) : re := Ors (word_ci w) (word_ci <$> ws).

Definition spaces : re := Rep isspace None.
Definition spaces1 : re := Cat (Cls isspace) spaces.

Definition secret_assignment : re :=
  Cats [WordB;
        Ors (words "password" ["passwd"; "secret"; "token"])
          [Cats [word_ci "api"; Opt (one_of (lit "_-")); word_ci "key"];
           words "credential" ["bearer"]];
        WordB; spaces; one_of (lit ":=")].

Definition sql_statement : re :=
  Cats [WordB;
        words "select" ["insert"; "update"; "delete"; "drop"; "alter"; "create"; "truncate";
                        "grant"; "revoke"];
        WordB; spaces1; Cat (Cls is_word) (Rep is_word None)].

Definition shell_invocation : re :=
  Cats [WordB; words "sh" ["bash"; "zsh"; "pwsh"; "powershell"; "cmd"]; spaces1;
        words "-c" ["/c"]; WordB].

Definition private_noun : re :=
  Cats [WordB; words "database" ["backup"; "command"; "connector"]; WordB].

Definition raw_content : re :=
  Cats [WordB; word_ci "raw"; Opt (one_of (lit "_ -"));
        words "payload" ["observation"; "source"]; WordB].

Definition _PROHIBITED_CONTENT : re :=
  Ors path_start
    [one_of [92];
     secret_assignment;
     sql_statement;
     shell_invocation;
     private_noun;
     one_of (lit ";|`");
     word_ci "$(";
     one_of (lit "{}[]<>");
     raw_content].

(** ** Requests *)

Record JobRequest := {
  schema_version : Z;
  job_kind : pystr;
  graph_id : pystr;
  request_id : pystr;
  idempotency_key : pystr;
  priority : pystr;
  operation_options : list (pystr * pystr);
  source_generation : pystr;
  config_generation : pystr;
  extractor_generation : pystr;
  canonicalizer_generation : pystr
}.

Definition semantic_payload (r : JobRequest) : json :=
  JObj [(lit "config_generation", JStr (config_generation r));
        (lit "canonicalizer_generation", JStr (canonicalizer_generation r));
        (lit "extractor_generation", JStr (extractor_generation r));
        (lit "graph_id", JStr (graph_id r));
        (lit "job_kind", JStr (job_kind r));
        (lit "operation_options", JObj ((fun kv => (kv.1, JStr kv.2)) <$> operation_options r));
        (lit "priority", JStr (priority r));
        (lit "request_id", JStr (request_id r));
        (lit "schema_version", JInt (schema_version r));
        (lit "source_generation", JStr (source_generation r))].

Definition str_len (s : pystr) : Z := Z.of_nat (length s).

Definition validate_generation (token : pyval) (prefix : pystr) (limits : CoordinatorLimits)
    : res pystr :=
  match token with
  | VStr token =>
      if negb (bool_decide (prefix ∈ lit <$> ["sg1:"; "cg1:"; "eg1:"; "kg1:"]))
      then Err (ValueError "invalid generation")
      else if (max_identifier_chars limits <? str_len token) || negb (startswith prefix token)
      then Err (ValueError "invalid generation")
      else
        let digest := drop (length prefix) token in
        if negb (fullmatch _GENERATION_DIGEST_PATTERN digest)
        then Err (ValueError "invalid generation")
        else Ok token
  | _ => Err (ValueError "invalid generation")
  end.

Definition is_public_safe_text (value : pyval) (maximum : Z) : bool :=
  match value with
  | VStr value =>
      (0 <? str_len value) && (str_len value <=? maximum)
      && negb (search _PROHIBITED_CONTENT value)
      && bool_decide (is_Some (utf8_encode value))
  | _ => false
  end.

Definition _bounded_string (value : pyval) (name : string) (limits : CoordinatorLimits) : res pystr :=
  match value with
  | VStr value =>
      if bool_decide (value = []) || (max_identifier_chars limits <? str_len value)
      then Err (ValueError ("invalid " +:+ name))
      else if existsb (fun c => (c <? 0x20) || (c =? 0x7f)) value
      then Err (ValueError ("invalid " +:+ name))
      else Ok value
  | _ => Err (ValueError ("invalid " +:+ name))
  end.

(** [payload["schema_version"] != 1 or isinstance(..., bool)], negated. *)
Definition is_version_one (v : pyval) : bool :=
  match v with
  | VInt n | VFloat _ (Some n) => n =? 1
  | _ => false
  end.

Definition is_str_value (v : pyval) (s : pystr) : bool :=
  match v with VStr t => bool_decide (t = s) | _ => false end.

(** [d[k]] where the key is known to be present. *)
Definition dict_item (k : string) (d : list (pystr * pyval)) : pyval :=
  default VNone (dict_get (lit k) d).

Definition normalize_request (payload : pyval)
    (source_generation config_generation extractor_generation canonicalizer_generation : pyval)
    (require_synthetic_graph : bool) (limits : CoordinatorLimits) : res JobRequest :=
  match payload with
  | VDict payload =>
      _ ← raise_if (negb (same_keys payload _REQUEST_FIELDS))
            (ValueError "request fields do not match the version-1 schema");
      _ ← raise_if (negb (is_version_one (dict_item "schema_version" payload)))
            (ValueError "unsupported schema_version");
      _ ← raise_if (negb (is_str_value (dict_item "job_kind" payload) (lit "refresh_graph")))
            (ValueError "unsupported job_kind");
      graph_id ← _bounded_string (dict_item "graph_id" payload) "graph_id" limits;
      _ ← raise_if (negb (fullmatch (if require_synthetic_graph then _GRAPH_ID_PATTERN
                                     else _CONFIGURED_GRAPH_ID_PATTERN) graph_id))
            (ValueError "graph_id is invalid");
      request_id ← _bounded_string (dict_item "request_id" payload) "request_id" limits;
      idempotency_key ←
        _bounded_string (dict_item "idempotency_key" payload) "idempotency_key" limits;
      priority ←
        match dict_item "priority" payload with
        | VStr p => if bool_decide (p ∈ _PRIORITIES) then Ok p
                    else Err (ValueError "unsupported priority")
        | _ => Err (ValueError "unsupported priority")
        end;
      raw_options ←
        match dict_item "operation_options" payload with
        | VDict o => if same_keys o [lit "reason"] then Ok o
                     else Err (ValueError "unsupported operation_options")
        | _ => Err (ValueError "unsupported operation_options")
        end;
      reason ← _bounded_string (dict_item "reason" raw_options) "reason" limits;
      _ ← raise_if (existsb (search _PROHIBITED_CONTENT) [request_id; idempotency_key; reason])
            (ValueError "request value contains prohibited content");
      sg ← validate_generation source_generation (lit "sg1:") limits;
      cg ← validate_generation config_generation (lit "cg1:") limits;
      eg ← validate_generation extractor_generation (lit "eg1:") limits;
      kg ← validate_generation canonicalizer_generation (lit "kg1:") limits;
      Ok {| schema_version := 1; job_kind := lit "refresh_graph"; graph_id := graph_id;
            request_id := request_id; idempotency_key := idempotency_key; priority := priority;
            operation_options := [(lit "reason", reason)];
            source_generation := sg; config_generation := cg;
            extractor_generation := eg; canonicalizer_generation := kg |}
  | _ => Err (ValueError "request fields do not match the version-1 schema")
  end.

(** ** Public projections *)

Definition _PUBLIC_STATUS_FIELDS : list string :=
  ["job_id"; "request_id"; "job_kind"; "graph_id"; "priority"; "submitted_at"; "started_at";
   "finished_at"; "state"; "attempt_count"; "phase"; "files"; "observations"; "canonical_nodes";
   "canonical_edges"; "source_generation_match"; "config_generation_match";
   "extractor_generation_match"; "canonicalizer_generation_match"].
Definition _PUBLIC_COUNTER_FIELDS : list string :=
  ["attempt_count"; "files"; "observations"; "canonical_nodes"; "canonical_edges"].
Definition _PUBLIC_IDENTIFIER_FIELDS : list string := ["job_id"; "request_id"].
Definition _PUBLIC_TIMESTAMP_FIELDS : list string := ["submitted_at"; "started_at"; "finished_at"].
Definition _PUBLIC_BOOLEAN_FIELDS : list string :=
  ["source_generation_match"; "config_generation_match"; "extractor_generation_match";
   "canonicalizer_generation_match"].
Definition _PUBLIC_PHASES : list pystr :=
  lit <$> ["waiting"; "starting"; "preflight"; "discovery"; "extraction"; "canonicalization";
           "storage_prepare"; "storage_publish"; "verification"; "cleanup"; "complete"].
Definition _PUBLIC_ERROR_FIELDS : list string := ["error_category"; "retryable"; "summary"].
Definition _PUBLIC_ERROR_SUMMARIES : list (string * string) :=
  [("cancelled", "operation cancelled");
   ("authorization", "request is unauthorized");
   ("cancel_failed", "worker cancellation failed");
   ("configuration", "configuration is invalid");
   ("generation_changed", "requested generation changed");
   ("internal", "internal coordinator failure");
   ("permanent", "permanent failure");
   ("privacy", "privacy policy violation");
   ("protocol", "worker protocol failure");
   ("publication_unknown", "publication outcome is unknown");
   ("source_unavailable", "source is unavailable");
   ("source_capture", "source capture failed");
   ("storage_unavailable", "storage is unavailable");
   ("superseded", "job was superseded");
   ("transient", "transient failure");
   ("transient_database", "transient database failure");
   ("worker_crash", "worker crashed");
   ("worker_launch", "worker failed to launch");
   ("worker_timeout", "worker timed out")].

Definition error_summary (category : pystr) : option pystr :=
  (fun cs => lit cs.2) <$>
    List.find (fun cs => bool_decide (lit cs.1 = category)) _PUBLIC_ERROR_SUMMARIES.

(** The value of decimal digits. *)
Definition int_of_digits (s : pystr) : Z := foldl (fun acc c => 10 * acc + (c - 48)) 0 s.

Definition leap_year (y : Z) : bool :=
  (y mod 4 =? 0) && (negb (y mod 100 =? 0) || (y mod 400 =? 0)).

Definition days_in_month (y mo : Z) : Z :=
  if mo =? 2 then (if leap_year y then 29 else 28)
  else if bool_decide (mo ∈ [4; 6; 9; 11]) then 30 else 31.

(** Whether [datetime.fromisoformat] accepts a text of the timestamp pattern: its
    digits are ASCII and its fields are in range.  Hour 24 is refused, as CPython
    3.12 and 3.13 refuse it. *)
Definition fromisoformat_accepts (value : pystr) : bool :=
  let field i n := int_of_digits (take n (drop i value)) in
  forallb (fun c => c <? 128) value
  && (1 <=? field 0%nat 4%nat)
  && (1 <=? field 5%nat 2%nat) && (field 5%nat 2%nat <=? 12)
  && (1 <=? field 8%nat 2%nat)
  && (field 8%nat 2%nat <=? days_in_month (field 0%nat 4%nat) (field 5%nat 2%nat))
  && (field 11%nat 2%nat <=? 23) && (field 14%nat 2%nat <=? 59) && (field 17%nat 2%nat <=? 59).

Definition _valid_utc_timestamp (value : pyval) (limits : CoordinatorLimits) : bool :=
  match value with
  | VStr value =>
      (str_len value <=? max_identifier_chars limits)
      && fullmatch _UTC_TIMESTAMP_PATTERN value
      && fromisoformat_accepts value
  | _ => false
  end.

Definition str_in (value : pyval) (l : list pystr) : bool :=
  match value with VStr s => bool_decide (s ∈ l) | _ => false end.

Definition _valid_public_status_value (key : string) (value : pyval) (limits : CoordinatorLimits)
    : bool :=
  if bool_decide (key ∈ _PUBLIC_COUNTER_FIELDS) then valid_counter value limits
  else if bool_decide (key ∈ _PUBLIC_IDENTIFIER_FIELDS) then
    match value with
    | VStr value =>
        (str_len value <=? max_identifier_chars limits)
        && fullmatch _PUBLIC_IDENTIFIER_PATTERN value
        && negb (search _PROHIBITED_CONTENT value)
    | _ => false
    end
  else if bool_decide (key = "job_kind") then is_str_value value (lit "refresh_graph")
  else if bool_decide (key = "graph_id") then
    match value with
    | VStr value =>
        (str_len value <=? max_identifier_chars limits) && fullmatch _GRAPH_ID_PATTERN value
    | _ => false
    end
  else if bool_decide (key = "priority") then str_in value _PRIORITIES
  else if bool_decide (key ∈ _PUBLIC_TIMESTAMP_FIELDS) then _valid_utc_timestamp value limits
  else if bool_decide (key = "state") then
    str_in value ((fun s => lit (job_state_value s)) <$> all_job_states)
  else if bool_decide (key = "phase") then str_in value _PUBLIC_PHASES
  else if bool_decide (key ∈ _PUBLIC_BOOLEAN_FIELDS) then
    match value with VBool _ => true | _ => false end
  else false.

(** [{key: d[key] for key in sorted(fields & d.keys())}], each key with the field
    it is. *)
Definition public_items (fields : list string) (d : list (pystr * pyval))
    : list (pystr * (string * pyval)) :=
  sort_items (omap (fun f => (fun v => (lit f, (f, v))) <$> dict_get (lit f) d) fields).

Fixpoint check_status (items : list (pystr * (string * pyval))) (limits : CoordinatorLimits)
    : res unit :=
  match items with
  | [] => Ok tt
  | (_, (key, value)) :: rest =>
      _ ← raise_if (negb (_valid_public_status_value key value limits))
            (ValueError ("invalid public status field: " +:+ key));
      check_status rest limits
  end.

Definition project_public_status (status : list (pystr * pyval)) (limits : CoordinatorLimits)
    : res (list (pystr * pyval)) :=
  let public := public_items _PUBLIC_STATUS_FIELDS status in
  _ ← check_status public limits;
  Ok ((fun kv => (kv.1, kv.2.2)) <$> public).

Definition project_public_error (error : list (pystr * pyval)) : res (list (pystr * pyval)) :=
  let public := (fun kv => (kv.1, kv.2.2)) <$> public_items _PUBLIC_ERROR_FIELDS error in
  category ←
    match dict_get (lit "error_category") public with
    | None | Some VNone => Ok None
    | Some (VStr category) =>
        match error_summary category with
        | Some summary => Ok (Some summary)
        | None => Err (ValueError "invalid public error category")
        end
    | Some _ => Err (ValueError "invalid public error category")
    end;
  _ ← raise_if (match dict_get (lit "retryable") public with
                | None | Some (VBool _) => false | Some _ => true end)
        (ValueError "invalid retryable");
  _ ← raise_if (match dict_get (lit "summary") public with
                | None | Some (VStr _) => false | Some _ => true end)
        (ValueError "invalid summary");
  match category with
  | Some summary => Ok (dict_set (lit "summary") (VStr summary) public)
  | None =>
      if bool_decide (is_Some (dict_get (lit "summary") public))
      then Err (ValueError "invalid public error category")
      else Ok public
  end.

End Unicode.

(** ** Examples *)

#[local] Existing Instance ascii_only.

Example prohibited_examples :
  search _PROHIBITED_CONTENT <$>
    [lit "see /etc/passwd"; lit "api-key = x"; lit "SELECT name"; lit "bash  -c x"; lit "a;b";
     lit "echo $(id)"; lit "raw_payload"; lit "refresh after edit"; lit "a/b"; lit "tokens: 3"] =
  [true; true; true; true; true; true; true; false; false; false].
Proof. vm_compute. reflexivity. Qed.

Example timestamp_examples :
  (fun t => _valid_utc_timestamp (VStr (lit t)) DEFAULT_LIMITS) <$>
    ["2024-02-29T23:59:59.5Z"; "2023-02-29T00:00:00Z"; "2024-01-01T24:00:00Z"; "0000-01-01T00:00:00Z"] =
  [true; false; false; false].
Proof. vm_compute. reflexivity. Qed.
