(* ===== verification/ContractsFacts.v ===== *)
(** Theorems about the durable contracts: the job-state machine, what a
    normalised request guarantees, and what the public error projection hides. *)
From S2P Require Import Prelude Utf8 PyVal Json PyDictFacts Limits Regex Contracts.
Open Scope Z_scope.

(** ** The job-state machine *)

(** One legal step. *)
Definition legal (s t : JobState) : Prop := t ∈ LEGAL_TRANSITIONS s.

#[export] Instance legal_dec s t : Decision (legal s t).
Proof. unfold legal. apply _. Defined.

Lemma job_state_of_value s : job_state_of (lit (job_state_value s)) = Some s.
Proof. destruct s; vm_compute; reflexivity. Qed.

Lemma job_state_of_Some v s : job_state_of v = Some s -> v = lit (job_state_value s).
Proof.
  unfold job_state_of. intros H. apply find_some in H as [_ H]. by apply bool_decide_eq_true in H.
Qed.

Lemma terminal_iff_final s : is_terminal s = true <-> LEGAL_TRANSITIONS s = [].
Proof. destruct s; vm_compute; split; congruence. Qed.

(** The states met on the way of a list of legal steps. *)
Fixpoint legal_path (s : JobState) (path : list JobState) : bool :=
  match path with
  | [] => true
  | t :: rest => bool_decide (legal s t) && legal_path t rest
  end.

Lemma legal_path_rtc s path t : legal_path s path = true -> last (s :: path) = Some t -> rtc legal s t.
Proof.
  revert s. induction path as [|u path IH]; intros s H Hl; cbn in *.
  - injection Hl as ->. done.
  - apply andb_true_iff in H as [Hu%bool_decide_eq_true H]. eapply rtc_l; [done|]. by apply IH.
Qed.

(** A way to end each job, and a way to get to each state from submission. *)
Definition way_out (s : JobState) : list JobState :=
  match s with
  | QUEUED => [CANCELLED]
  | CLAIMED => [CANCEL_REQUESTED; CANCELLED]
  | STARTING => [FAILED]
  | RUNNING => [SUCCEEDED]
  | CANCEL_REQUESTED => [CANCELLED]
  | CANCELLING => [CANCELLED]
  | RECONCILIATION_REQUIRED => [QUARANTINED]
  | _ => []
  end.

Definition way_in (s : JobState) : list JobState :=
  match s with
  | QUEUED => []
  | CLAIMED => [CLAIMED]
  | STARTING => [CLAIMED; STARTING]
  | RUNNING => [CLAIMED; STARTING; RUNNING]
  | CANCEL_REQUESTED => [CLAIMED; CANCEL_REQUESTED]
  | CANCELLING => [CLAIMED; CANCEL_REQUESTED; CANCELLING]
  | SUCCEEDED => [CLAIMED; STARTING; RUNNING; SUCCEEDED]
  | FAILED => [CLAIMED; STARTING; FAILED]
  | CANCELLED => [CANCELLED]
  | SUPERSEDED => [SUPERSEDED]
  | QUARANTINED => [QUARANTINED]
  | RECONCILIATION_REQUIRED => [CLAIMED; RECONCILIATION_REQUIRED]
  end.

(**  The transition table is the job-state machine: [validate_transition]
    accepts exactly the legal steps between states named by their values and
    raises [ValueError] on every other pair of texts; the terminal states are
    exactly the ones no step leaves; every state is reached from submission
    ([queued]) and reaches a terminal state by legal steps. *)
Theorem job_state_machine :
  (forall current target t,
     validate_transition current target = Ok t <->
     target = lit (job_state_value t) /\
     exists s, current = lit (job_state_value s) /\ legal s t) /\
  (forall current target e,
     validate_transition current target = Err e -> e = ValueError "illegal job transition") /\
  (forall s, is_terminal s = true <-> forall t, ~ legal s t) /\
  (forall s, rtc legal QUEUED s) /\
  (forall s, exists t, rtc legal s t /\ is_terminal t = true).
Proof.
  unfold validate_transition. split_and!.
  - intros current target t. split.
    + destruct (job_state_of current) as [s|] eqn:Hs; [|done].
      destruct (job_state_of target) as [t'|] eqn:Ht; [|done].
      case_bool_decide as Hl; [|done]. intros [= <-].
      split; [by apply job_state_of_Some|]. exists s. split; [by apply job_state_of_Some|done].
    + intros (-> & s & -> & Hl). rewrite !job_state_of_value. by rewrite bool_decide_true.
  - intros current target e. destruct (job_state_of current), (job_state_of target); try congruence.
    case_bool_decide; congruence.
  - intros s. rewrite terminal_iff_final. unfold legal. split.
    + intros -> t Ht. by apply elem_of_nil in Ht.
    + destruct (LEGAL_TRANSITIONS s) as [|t l]; [done|]. intros H. destruct (H t). set_solver.
  - intros s. apply legal_path_rtc with (path := way_in s); destruct s; vm_compute; reflexivity.
  - intros s. destruct (last (s :: way_out s)) as [t|] eqn:Ht; [|by destruct s].
    exists t. split.
    + apply legal_path_rtc with (path := way_out s); [destruct s; vm_compute; reflexivity|done].
    + destruct s; cbn in Ht; injection Ht as <-; vm_compute; reflexivity.
Qed.

Section Requests.
Context {U : Unicode}.

(** ** What validation guarantees *)

Definition control_free (s : pystr) : Prop := Forall (fun c => 0x20 <= c /\ c <> 0x7f) s.

(** A text [_bounded_string] accepts. *)
Definition bounded_text (limits : CoordinatorLimits) (s : pystr) : Prop :=
  s <> [] /\ str_len s <= max_identifier_chars limits /\ control_free s.

Lemma bounded_string_Ok v name limits s :
  _bounded_string v name limits = Ok s <-> v = VStr s /\ bounded_text limits s.
Proof.
  unfold bounded_text, control_free. split.
  - destruct v as [| | | |t| | |]; cbn; try discriminate.
    destruct (_ || _) eqn:Hb; [discriminate|]. destruct (existsb _ t) eqn:He; [discriminate|].
    intros [= ->]. apply orb_false_iff in Hb as [Hne%bool_decide_eq_false Hl].
    split_and!; [done|done|lia|]. apply Forall_forall. intros c Hc.
    destruct (decide (0x20 <= c /\ c <> 0x7f)) as [|Hn]; [done|]. exfalso.
    apply not_true_iff_false in He. apply He. apply existsb_exists. exists c.
    split; [by apply list_elem_of_In|]. lia.
  - intros (-> & Hne & Hl & Hc). cbn. rewrite bool_decide_false by done.
    replace (max_identifier_chars limits <? str_len s) with false by lia. cbn.
    destruct (existsb _ s) eqn:He; [|done]. apply existsb_exists in He as (c & Hin & Hb).
    apply list_elem_of_In in Hin. rewrite Forall_forall in Hc. specialize (Hc c Hin). lia.
Qed.

(** A text in which the prohibited-content pattern matches nowhere. *)
Definition content_free (s : pystr) : Prop :=
  forall i j, (i <= length s)%nat -> ~ matches s _PROHIBITED_CONTENT i j.

Lemma content_free_search s : content_free s <-> search _PROHIBITED_CONTENT s = false.
Proof.
  rewrite <- not_true_iff_false, search_spec. unfold content_free. naive_solver.
Qed.

(** The characters no public text contains. *)
Definition prohibited_char (c : Z) : bool := char_in c (92 :: lit ";|`{}[]<>").

Lemma content_free_chars s : content_free s -> Forall (fun c => prohibited_char c = false) s.
Proof.
  rewrite content_free_search. unfold _PROHIBITED_CONTENT. cbn [Ors].
  rewrite !search_or, !orb_false_iff. intros H. destruct_and! H.
  apply Forall_forall. intros c Hc. apply not_true_iff_false. unfold prohibited_char.
  intros [Hb|Hb]%bool_decide_eq_true%elem_of_cons.
  - cut (search (one_of [92]) s = true); [congruence|].
    apply search_cls. exists c. split; [done|]. subst c. vm_compute. reflexivity.
  - assert (c ∈ lit ";|`" \/ c ∈ lit "{}[]<>") as [Hc'|Hc'] by (revert Hb; vm_compute; set_solver).
    + cut (search (one_of (lit ";|`")) s = true); [congruence|].
      apply search_cls. exists c. split; [done|]. by apply bool_decide_eq_true.
    + cut (search (one_of (lit "{}[]<>")) s = true); [congruence|].
      apply search_cls. exists c. split; [done|]. by apply bool_decide_eq_true.
Qed.

Lemma content_free_not_absolute s : content_free (47 :: s) -> False.
Proof.
  intros H. apply (H 0%nat 1%nat); [lia|]. unfold _PROHIBITED_CONTENT. cbn [Ors].
  apply M_or_l. unfold path_start. eapply M_cat.
  - apply M_or_l. constructor.
  - cbn [Ors]. apply M_or_l. by eapply M_cls.
Qed.

(** A versioned generation token. *)
Definition generation_of (limits : CoordinatorLimits) (prefix : string) (t : pystr) : Prop :=
  str_len t <= max_identifier_chars limits /\
  exists digest, t = lit prefix ++ digest /\ matches digest _GENERATION_DIGEST_PATTERN 0 (length digest).

Lemma validate_generation_Ok v prefix limits t :
  prefix ∈ ["sg1:"; "cg1:"; "eg1:"; "kg1:"] ->
  validate_generation v (lit prefix) limits = Ok t <-> v = VStr t /\ generation_of limits prefix t.
Proof.
  intros Hp.
  assert (lit prefix ∈ lit <$> ["sg1:"; "cg1:"; "eg1:"; "kg1:"]) as Hp'
    by (by apply list_elem_of_fmap_2).
  unfold generation_of. split.
  - destruct v as [| | | |s| | |]; cbn [validate_generation]; try discriminate.
    rewrite bool_decide_true by done. cbn.
    destruct (_ || _) eqn:Hb; [discriminate|]. apply orb_false_iff in Hb as [Hl Hs].
    destruct (negb (fullmatch _ _)) eqn:Hf; [discriminate|]. intros [= ->].
    apply negb_false_iff in Hs, Hf. apply startswith_spec in Hs as (d & ->).
    rewrite drop_app_length in Hf. apply fullmatch_spec in Hf.
    split; [done|]. split; [lia|]. by exists d.
  - intros (-> & Hl & d & -> & Hm). cbn [validate_generation]. rewrite bool_decide_true by done.
    replace (max_identifier_chars limits <? str_len (lit prefix ++ d)) with false by lia.
    rewrite startswith_app, drop_app_length. cbn [negb orb].
    by rewrite (proj2 (fullmatch_spec _ _) Hm).
Qed.

Definition graph_pattern (synthetic : bool) : re :=
  if synthetic then _GRAPH_ID_PATTERN else _CONFIGURED_GRAPH_ID_PATTERN.

Definition reason_of (r : JobRequest) : pystr :=
  default [] (dict_get (lit "reason") (operation_options r)).

(** The requests normalisation produces. *)
Definition request_ok (synthetic : bool) (limits : CoordinatorLimits) (r : JobRequest) : Prop :=
  schema_version r = 1 /\ job_kind r = lit "refresh_graph" /\
  bounded_text limits (graph_id r) /\ bounded_text limits (request_id r) /\
  bounded_text limits (idempotency_key r) /\ bounded_text limits (reason_of r) /\
  fullmatch (graph_pattern synthetic) (graph_id r) = true /\
  priority r ∈ _PRIORITIES /\
  operation_options r = [(lit "reason", reason_of r)] /\
  content_free (request_id r) /\ content_free (idempotency_key r) /\ content_free (reason_of r) /\
  generation_of limits "sg1:" (source_generation r) /\
  generation_of limits "cg1:" (config_generation r) /\
  generation_of limits "eg1:" (extractor_generation r) /\
  generation_of limits "kg1:" (canonicalizer_generation r).

(** The payload a client sends for a request. *)
Definition payload_of (r : JobRequest) : pyval :=
  VDict [(lit "schema_version", VInt (schema_version r)); (lit "job_kind", VStr (job_kind r));
         (lit "graph_id", VStr (graph_id r)); (lit "request_id", VStr (request_id r));
         (lit "idempotency_key", VStr (idempotency_key r)); (lit "priority", VStr (priority r));
         (lit "operation_options", VDict ((fun kv => (kv.1, VStr kv.2)) <$> operation_options r))].

Lemma existsb_content_free a b c :
  existsb (search _PROHIBITED_CONTENT) [a; b; c] = false <->
  content_free a /\ content_free b /\ content_free c.
Proof. cbn [existsb]. rewrite !orb_false_iff, !content_free_search. tauto. Qed.

Lemma normalize_request_Ok payload sg cg eg kg synthetic limits r :
  normalize_request payload sg cg eg kg synthetic limits = Ok r ->
  request_ok synthetic limits r /\
  sg = VStr (source_generation r) /\ cg = VStr (config_generation r) /\
  eg = VStr (extractor_generation r) /\ kg = VStr (canonicalizer_generation r).
Proof.
  destruct payload as [| | | | | | |d]; try discriminate. cbn [normalize_request].
  intros H. unbind H.
  repeat match goal with
         | G : _bounded_string _ _ _ = Ok _ |- _ => apply bounded_string_Ok in G as [_ G]
         | G : negb _ = false |- _ => apply negb_false_iff in G
         | G : existsb _ _ = false |- _ => apply existsb_content_free in G
         | G : validate_generation _ _ _ = Ok _ |- _ =>
             apply validate_generation_Ok in G as [-> G]; [|set_solver]
         end.
  injection H as <-. unfold request_ok, reason_of. cbn. split_and!; try done.
  - destruct (dict_item "priority" d) as [| | | |p| | |]; try discriminate.
    match goal with G : (if bool_decide _ then _ else _) = Ok _ |- _ =>
      case_bool_decide; [by injection G as <-|discriminate G] end.
  - tauto.
  - tauto.
  - tauto.
Qed.

Lemma normalize_payload_of r synthetic limits :
  request_ok synthetic limits r ->
  normalize_request (payload_of r) (VStr (source_generation r)) (VStr (config_generation r))
    (VStr (extractor_generation r)) (VStr (canonicalizer_generation r)) synthetic limits = Ok r.
Proof.
  destruct r as [sv jk gid rid ik pr oo sg cg eg kg]. unfold request_ok, payload_of.
  cbn [Contracts.schema_version Contracts.job_kind Contracts.graph_id Contracts.request_id
       Contracts.idempotency_key Contracts.priority Contracts.operation_options
       Contracts.source_generation Contracts.config_generation Contracts.extractor_generation
       Contracts.canonicalizer_generation].
  intros (-> & -> & Hg & Hr & Hi & Hre & Hpat & Hp & Ho & Cr & Ci & Cre & Hs & Hc & He & Hk).
  revert Hre Cre Ho. unfold reason_of. cbn [Contracts.operation_options]. intros Hre Cre Ho.
  revert Ho Hre Cre. generalize (default [] (dict_get (lit "reason") oo)). intros reason -> Hre Cre.
  cbn [normalize_request].
  assert (forall v name s, v = VStr s -> bounded_text limits s -> _bounded_string v name limits = Ok s)
    as Hb by (intros; by apply bounded_string_Ok).
  assert (forall p t, p ∈ ["sg1:"; "cg1:"; "eg1:"; "kg1:"] -> generation_of limits p t ->
    validate_generation (VStr t) (lit p) limits = Ok t) as Hgen
    by (intros; by apply validate_generation_Ok).
  set (d := [_; _; _; _; _; _; _]).
  assert (same_keys d _REQUEST_FIELDS = true) as -> by (vm_compute; reflexivity).
  change (is_version_one (dict_item "schema_version" d)) with true.
  change (is_str_value (dict_item "job_kind" d) (lit "refresh_graph")) with true. cbn [negb raise_if mbind result_bind].
  rewrite (Hb (dict_item "graph_id" d) "graph_id" gid eq_refl Hg). cbn [mbind result_bind].
  unfold graph_pattern in Hpat. rewrite Hpat. cbn [negb raise_if mbind result_bind].
  rewrite (Hb (dict_item "request_id" d) "request_id" rid eq_refl Hr). cbn [mbind result_bind].
  rewrite (Hb (dict_item "idempotency_key" d) "idempotency_key" ik eq_refl Hi). cbn [mbind result_bind].
  change (dict_item "priority" d) with (VStr pr). cbv beta iota. rewrite bool_decide_true by done. cbn [mbind result_bind].
  change (dict_item "operation_options" d) with (VDict [(lit "reason", VStr reason)]). cbv beta iota.
  change (same_keys [(lit "reason", VStr reason)] [lit "reason"]) with true. cbn [mbind result_bind].
  rewrite (Hb (dict_item "reason" [(lit "reason", VStr reason)]) "reason" reason eq_refl Hre).
  cbn [mbind result_bind].
  rewrite (proj2 (existsb_content_free rid ik reason)) by done. cbn [raise_if mbind result_bind].
  by rewrite !Hgen by (done || set_solver).
Qed.

(**  A normalised request is safe to store and to show: every text is
    non-empty, within the identifier bound and free of control characters; the
    request id, the idempotency key and the reason match the prohibited-content
    pattern nowhere, hence hold no backslash, shell or markup character and are
    no absolute path; the graph id has the demanded shape; all four generations
    are versioned tokens of their kind. *)
Theorem normalize_request_safe payload sg cg eg kg synthetic limits r :
  normalize_request payload sg cg eg kg synthetic limits = Ok r ->
  request_ok synthetic limits r /\
  Forall (fun s => Forall (fun c => prohibited_char c = false) s /\ head s <> Some 47)
    [request_id r; idempotency_key r; reason_of r] /\
  (synthetic = false -> str_len (graph_id r) <= 128).
Proof.
  intros [Hok _]%normalize_request_Ok. split; [done|].
  destruct Hok as (_ & _ & _ & _ & _ & _ & Hpat & _ & _ & Cr & Ci & Cre & _).
  assert (forall s, content_free s ->
    Forall (fun c => prohibited_char c = false) s /\ head s <> Some 47) as Hs.
  { intros s Hc. split; [by apply content_free_chars|].
    destruct s as [|c s]; [done|]. intros [= ->]. by eapply content_free_not_absolute. }
  split; [by repeat constructor; apply Hs|].
  intros ->. apply fullmatch_spec in Hpat. unfold graph_pattern, _CONFIGURED_GRAPH_ID_PATTERN in Hpat.
  apply matches_cat in Hpat as (j & (-> & _)%matches_cls & H%matches_rep_bound).
  unfold str_len. lia.
Qed.

(**  Normalisation is idempotent: sending the payload of a normalised request
    again, with its generations, gives the same request. *)
Theorem normalize_request_roundtrip payload sg cg eg kg synthetic limits r :
  normalize_request payload sg cg eg kg synthetic limits = Ok r ->
  normalize_request (payload_of r) (VStr (source_generation r)) (VStr (config_generation r))
    (VStr (extractor_generation r)) (VStr (canonicalizer_generation r)) synthetic limits = Ok r.
Proof. intros [Hok _]%normalize_request_Ok. by apply normalize_payload_of. Qed.

(** ** Public errors *)

Definition opt_item (f : string) (d : list (pystr * pyval)) : list (pystr * pyval) :=
  match dict_get (lit f) d with Some v => [(lit f, v)] | None => [] end.

Lemma public_error_items error :
  (fun kv : pystr * (string * pyval) => (kv.1, kv.2.2)) <$> public_items _PUBLIC_ERROR_FIELDS error =
  opt_item "error_category" error ++ opt_item "retryable" error ++ opt_item "summary" error.
Proof.
  unfold public_items, opt_item, _PUBLIC_ERROR_FIELDS. cbn [omap list_omap].
  destruct (dict_get (lit "error_category") error), (dict_get (lit "retryable") error),
    (dict_get (lit "summary") error); vm_compute; reflexivity.
Qed.

Lemma dict_get_error_category error :
  dict_get (lit "error_category")
    (opt_item "error_category" error ++ opt_item "retryable" error ++ opt_item "summary" error) =
  dict_get (lit "error_category") error.
Proof.
  unfold opt_item. destruct (dict_get (lit "error_category") error), (dict_get (lit "retryable") error),
    (dict_get (lit "summary") error); vm_compute; reflexivity.
Qed.

Lemma opt_items_public error :
  Forall (fun kv => kv.1 ∈ lit <$> _PUBLIC_ERROR_FIELDS)
    (opt_item "error_category" error ++ opt_item "retryable" error ++ opt_item "summary" error).
Proof.
  unfold opt_item. destruct (dict_get (lit "error_category") error), (dict_get (lit "retryable") error),
    (dict_get (lit "summary") error); repeat constructor; cbn [fst]; decide_closed.
Qed.

(**  The public error projection never passes caller text through: whatever
    the summary of the error was, the projected summary is the fixed text of
    the error's category, a category outside the table is refused, and no
    field but the three public ones survives. *)
Theorem public_error_summary_fixed error public :
  project_public_error error = Ok public ->
  Forall (fun kv => kv.1 ∈ lit <$> _PUBLIC_ERROR_FIELDS) public /\
  (forall v, dict_get (lit "summary") public = Some v ->
     exists category summary,
       dict_get (lit "error_category") error = Some (VStr category) /\
       error_summary category = Some summary /\ v = VStr summary) /\
  (forall category, dict_get (lit "error_category") error = Some (VStr category) ->
     is_Some (error_summary category)).
Proof.
  unfold project_public_error. rewrite public_error_items, dict_get_error_category.
  pose proof (opt_items_public error) as Hpub. revert Hpub. generalize (opt_item "error_category" error ++
    opt_item "retryable" error ++ opt_item "summary" error). intros items Hpub H.
  apply bind_Ok in H as (cat & Hcat & H). unbind H. destruct cat as [text|].
  - injection H as <-.
    destruct (dict_get (lit "error_category") error) as [[| | | |c| | |]|]; try discriminate Hcat.
    destruct (error_summary c) as [t|] eqn:Ht; [|discriminate Hcat]. injection Hcat as <-. split_and!.
    + apply Forall_dict_set; [done|decide_closed].
    + intros v. rewrite dict_get_set_eq. intros [= <-]. eauto.
    + intros c' [= <-]. eauto.
  - case_bool_decide as Hs; [discriminate H|]. injection H as <-. split_and!; [done| |].
    + intros v Hv. destruct Hs. eauto.
    + intros c Hc. rewrite Hc in Hcat. destruct (error_summary c); [eauto|discriminate Hcat].
Qed.

End Requests.

(** ** Witnesses *)

#[local] Existing Instance ascii_only.

Definition example_request : JobRequest :=
  {| schema_version := 1; job_kind := lit "refresh_graph"; graph_id := lit "main.graph";
     request_id := lit "req-1"; idempotency_key := lit "key 1"; priority := lit "manual";
     operation_options := [(lit "reason", lit "operator asked")];
     source_generation := lit "sg1:a"; config_generation := lit "cg1:b";
     extractor_generation := lit "eg1:c"; canonicalizer_generation := lit "kg1:d" |}.

Lemma normalize_request_safe_witness :
  Forall (fun s => Forall (fun c => prohibited_char c = false) s /\ head s <> Some 47)
    [lit "req-1"; lit "key 1"; lit "operator asked"].
Proof.
  apply (normalize_request_safe (payload_of example_request) (VStr (lit "sg1:a")) (VStr (lit "cg1:b"))
    (VStr (lit "eg1:c")) (VStr (lit "kg1:d")) false DEFAULT_LIMITS example_request).
  vm_compute. reflexivity.
Defined.

Lemma normalize_request_roundtrip_witness :
  normalize_request (payload_of example_request) (VStr (lit "sg1:a")) (VStr (lit "cg1:b"))
    (VStr (lit "eg1:c")) (VStr (lit "kg1:d")) false DEFAULT_LIMITS = Ok example_request.
Proof.
  apply (normalize_request_roundtrip (payload_of example_request) (VStr (lit "sg1:a"))
    (VStr (lit "cg1:b")) (VStr (lit "eg1:c")) (VStr (lit "kg1:d")) false DEFAULT_LIMITS example_request).
  vm_compute. reflexivity.
Defined.

Lemma public_error_summary_fixed_witness :
  exists category summary,
    Some (VStr (lit "privacy")) = Some (VStr category) /\
    error_summary category = Some summary /\
    VStr (lit "privacy policy violation") = VStr summary.
Proof.
  apply (public_error_summary_fixed
    [(lit "summary", VStr (lit "secret path /home/x")); (lit "error_category", VStr (lit "privacy"))]
    [(lit "error_category", VStr (lit "privacy"));
     (lit "summary", VStr (lit "privacy policy violation"))]); vm_compute; reflexivity.
Defined.
