(* ===== verification/Semantics.v ===== *)
(** Pure coalescing, retry, reconciliation and progress rules:
    [coordinator/semantics.py].

    Seconds are rationals; instants and intervals count microseconds, the
    resolution of [datetime] and [timedelta]. *)
From S2P Require Import Prelude PyVal Limits Contracts ContractsFacts.
From Stdlib Require Import QArith.
Open Scope Z_scope.

(** [(source, config, extractor, canonicalizer)] *)
Record GenerationTuple := {
  gen_source : pystr; gen_config : pystr; gen_extractor : pystr; gen_canonicalizer : pystr
}.

#[export] Instance GenerationTuple_eq_dec : EqDecision GenerationTuple.
Proof. solve_decision. Defined.

(** The four generation fields are kept as the tuple [generations] returns. *)
Record AutomaticIntent := {
  intent_graph : pystr;
  generations : GenerationTuple;
  queued_job_id : option pystr;
  running_job_id : option pystr;
  dirty : bool;
  follow_up_pending : bool
}.

Inductive CoalescingAction := Unchanged | ReplaceQueued | FollowUp | Enqueue.

#[export] Instance CoalescingAction_eq_dec : EqDecision CoalescingAction.
Proof. solve_decision. Defined.

Record CoalescingDecision := {
  action : CoalescingAction;
  intent : AutomaticIntent;
  replaced_job_id : option pystr;
  manual_jobs_affected : Z
}.

Definition coalesce_automatic_hint (current : option AutomaticIntent) (gens : GenerationTuple)
    (graph : option pystr) : res CoalescingDecision :=
  match current with
  | None =>
      match graph with
      | None => Err (ValueError "graph id is required for new automatic intent")
      | Some g =>
          Ok {| action := Enqueue;
                intent := {| intent_graph := g; generations := gens; queued_job_id := None;
                             running_job_id := None; dirty := true; follow_up_pending := false |};
                replaced_job_id := None; manual_jobs_affected := 0 |}
      end
  | Some current =>
      if bool_decide (generations current = gens) then
        Ok {| action := Unchanged; intent := current; replaced_job_id := None;
              manual_jobs_affected := 0 |}
      else
        let updated queued follow_up :=
          {| intent_graph := intent_graph current; generations := gens; queued_job_id := queued;
             running_job_id := running_job_id current; dirty := true;
             follow_up_pending := follow_up |} in
        match running_job_id current, queued_job_id current with
        | Some _, queued =>
            if follow_up_pending current then
              Ok {| action := Unchanged; intent := updated queued (follow_up_pending current);
                    replaced_job_id := None; manual_jobs_affected := 0 |}
            else
              Ok {| action := FollowUp; intent := updated queued true;
                    replaced_job_id := None; manual_jobs_affected := 0 |}
        | None, Some queued =>
            Ok {| action := ReplaceQueued; intent := updated None (follow_up_pending current);
                  replaced_job_id := Some queued; manual_jobs_affected := 0 |}
        | None, None =>
            Ok {| action := Enqueue; intent := updated None (follow_up_pending current);
                  replaced_job_id := None; manual_jobs_affected := 0 |}
        end
  end.

Definition publication_is_current (expected actual : GenerationTuple) : bool :=
  bool_decide (expected = actual).

Definition str_among (s : string) (l : list string) : bool := bool_decide (s ∈ l).

(** The returned text is the value of the job state it names. *)
Definition reconcile_publication (publication_state marker : string) (cancel_requested : bool)
    (absence_proof : string) : res JobState :=
  if negb (str_among absence_proof ["unproved"; "fenced_absence"])
  then Err (ValueError "invalid absence proof state")
  else if bool_decide (marker = "matching_committed") then Ok SUCCEEDED
  else if bool_decide (marker = "conflicting") then Ok QUARANTINED
  else if bool_decide (absence_proof = "fenced_absence")
          && negb (bool_decide (publication_state = "not_started"))
  then Ok RECONCILIATION_REQUIRED
  else if bool_decide (marker = "unknown")
          || str_among publication_state ["transaction_started"; "commit_unknown"]
  then Ok RECONCILIATION_REQUIRED
  else if bool_decide (marker = "absent")
          && str_among publication_state ["not_started"; "prepared"; "rolled_back"]
  then
    if negb cancel_requested then Ok QUEUED
    else if bool_decide (publication_state = "rolled_back")
            || (bool_decide (publication_state = "not_started")
                && bool_decide (absence_proof = "fenced_absence"))
    then Ok CANCELLED
    else Ok RECONCILIATION_REQUIRED
  else Ok RECONCILIATION_REQUIRED.

Definition _RETRYABLE : list string :=
  ["transient"; "transient_database"; "source_unavailable"; "storage_unavailable"; "worker_launch";
   "worker_crash"; "worker_timeout"].

(** ** Retry *)

Record RetryPolicy := { max_attempts : Z; base_seconds : Q; maximum_seconds : Q }.

(** [RetryPolicy(...)], with its [__post_init__]. *)
Definition make_RetryPolicy (max_attempts : Z) (base_seconds maximum_seconds : Q) : res RetryPolicy :=
  _ ← raise_if ((max_attempts <=? 0) || Qle_bool base_seconds 0 || Qle_bool maximum_seconds 0)
        (ValueError "retry policy is invalid");
  _ ← raise_if (negb (Qle_bool base_seconds maximum_seconds)) (ValueError "retry policy is invalid");
  Ok {| max_attempts := max_attempts; base_seconds := base_seconds;
        maximum_seconds := maximum_seconds |}.

Definition may_retry (self : RetryPolicy) (attempt : Z) (category publication_state : string) : bool :=
  (0 <? attempt) && (attempt <? max_attempts self)
  && str_among category _RETRYABLE
  && str_among publication_state ["not_started"; "prepared"; "rolled_back"].

(** [min(a, b)] *)
Definition qmin (a b : Q) : Q := if Qle_bool a b then a else b.

(** [max(a, b)] *)
Definition qmax (a b : Q) : Q := if Qle_bool b a then a else b.

(** [timedelta.total_seconds()] of an interval in microseconds. *)
Definition seconds_of (microseconds : Z) : Q := Qmake microseconds 1000000.

Definition retry_cap (self : RetryPolicy) (attempt : Z) : Q :=
  qmin (maximum_seconds self) (base_seconds self * inject_Z (2 ^ (attempt - 1))).

(** [uniform] is the method of the [random.Random] the caller passes. *)
Definition delay_seconds (self : RetryPolicy) (attempt : Z) (category : string)
    (uniform : Q -> Q -> Q) : res Q :=
  _ ← raise_if (negb (may_retry self attempt category "rolled_back"))
        (ValueError "retry is not permitted");
  Ok (uniform 0%Q (retry_cap self attempt)).

(** ** Progress *)

Record ProgressSnapshot := {
  phase : pystr; completed : Z; total : option Z; recorded_at : Z
}.

(** The check of [ProgressSnapshot.__post_init__] on integer counters. *)
Definition progress_valid (completed : Z) (total : option Z) : bool :=
  negb ((completed <? 0) || (max_counter DEFAULT_LIMITS <? completed)
        || match total with
           | None => false
           | Some t => (t <? completed) || (max_counter DEFAULT_LIMITS <? t)
           end).

Definition make_ProgressSnapshot (phase : pystr) (completed : Z) (total : option Z) (recorded_at : Z)
    : res ProgressSnapshot :=
  _ ← raise_if (negb (progress_valid completed total)) (ValueError "progress is invalid");
  Ok {| phase := phase; completed := completed; total := total; recorded_at := recorded_at |}.

Definition should_persist_progress (previous current : ProgressSnapshot)
    (minimum_interval minimum_counter_delta : Z) : res bool :=
  _ ← raise_if ((minimum_interval <? 0) || (minimum_counter_delta <? 0))
        (ValueError "progress policy is invalid");
  Ok (if negb (bool_decide (phase current = phase previous))
         || negb (bool_decide (total current = total previous)) then true
      else if minimum_counter_delta <=? completed current - completed previous then true
      else minimum_interval <=? recorded_at current - recorded_at previous).

(** ** Coalescing collapses bursts *)

(** The decisions of a sequence of hints, and the intent after it. *)
Fixpoint coalesce_hints (current : AutomaticIntent) (hints : list GenerationTuple)
    : res (list CoalescingAction * AutomaticIntent) :=
  match hints with
  | [] => Ok ([], current)
  | gens :: rest =>
      d ← coalesce_automatic_hint (Some current) gens None;
      r ← coalesce_hints (intent d) rest;
      Ok (action d :: r.1, r.2)
  end.

(** How often a decision was taken. *)
Definition decided (a : CoalescingAction) (l : list CoalescingAction) : nat :=
  length (filter (fun b => b = a) l).

Lemma coalesce_current_Ok current gens g :
  exists d, coalesce_automatic_hint (Some current) gens g = Ok d /\
    generations (intent d) = gens /\
    intent_graph (intent d) = intent_graph current /\
    running_job_id (intent d) = running_job_id current /\
    manual_jobs_affected d = 0 /\
    (follow_up_pending current = true -> follow_up_pending (intent d) = true) /\
    (action d = FollowUp -> follow_up_pending current = false /\ follow_up_pending (intent d) = true) /\
    (is_Some (running_job_id current) ->
       action d ∈ [Unchanged; FollowUp] /\ queued_job_id (intent d) = queued_job_id current /\
       (generations current <> gens -> follow_up_pending (intent d) = true)) /\
    (replaced_job_id d = if bool_decide (action d = ReplaceQueued) then queued_job_id current else None).
Proof.
  cbn. case_bool_decide as Hg.
  { eexists. split; [done|]. cbn. split_and!; try done; set_solver. }
  destruct (running_job_id current) eqn:Hr, (queued_job_id current) eqn:Hq,
    (follow_up_pending current) eqn:Hf;
    eexists; (split; [done|]); cbn; rewrite ?Hr, ?Hq, ?Hf; split_and!;
    try done; try (by intros [? ?]); set_solver.
Qed.

(** A pending follow-up stays pending. *)
Lemma follow_up_persists current hints actions final :
  coalesce_hints current hints = Ok (actions, final) ->
  follow_up_pending current = true -> follow_up_pending final = true.
Proof.
  revert current actions. induction hints as [|g hints IH]; intros current actions H Hp.
  - by injection H as <- <-.
  - cbn [coalesce_hints] in H.
    destruct (coalesce_current_Ok current g None) as (d & Hd & _ & _ & _ & _ & Hk & _).
    rewrite Hd in H. cbn [mbind result_bind] in H.
    apply bind_Ok in H as ([as' f'] & Hc & [= _ <-]). eapply IH; [done|]. by apply Hk.
Qed.

(**  However many hints arrive while a job runs, they cost at most one
    follow-up: no queued job is replaced or enqueued, at most one decision is
    [follow_up], the intent left behind carries the generations of the last
    hint, and a follow-up is pending if any hint differed from the intent. *)
Theorem running_burst_one_follow_up current hints :
  is_Some (running_job_id current) ->
  exists actions final,
    coalesce_hints current hints = Ok (actions, final) /\
    Forall (fun a => a = Unchanged \/ a = FollowUp) actions /\
    (decided FollowUp actions <= 1)%nat /\
    (follow_up_pending current = true -> decided FollowUp actions = 0%nat) /\
    generations final = default (generations current) (last hints) /\
    (Exists (fun g => g <> generations current) hints -> follow_up_pending final = true) /\
    queued_job_id final = queued_job_id current.
Proof.
  revert current. induction hints as [|gens hints IH]; intros current Hrun.
  { exists [], current. cbn. split_and!; try done; [lia|]. inversion 1. }
  destruct (coalesce_current_Ok current gens None)
    as (d & Hd & Hgen & Hgraph & Hr & _ & Hkeep & Hfu & Hrunning & _).
  specialize (Hrunning Hrun) as (Hact & Hq & Hdiff).
  destruct (IH (intent d)) as (actions & final & Hc & Hall & Hone & Hnone & Hlast & Hpend & Hqf);
    [by rewrite Hr|].
  exists (action d :: actions), final. cbn [coalesce_hints]. rewrite Hd. cbn [mbind result_bind].
  rewrite Hc. cbn [mbind result_bind fst snd].
  unfold decided in *. rewrite filter_cons.
  split_and!; [done| |case_decide; cbn| | | |congruence].
  - constructor; [set_solver|done].
  - destruct (Hfu ltac:(done)) as [_ Hf]. rewrite (Hnone Hf). lia.
  - done.
  - intros Hf. rewrite decide_False; [by apply Hnone, Hkeep|]. intros Ha.
    destruct (Hfu Ha). congruence.
  - rewrite Hlast, Hgen. destruct hints; [done|]. cbn.
    by destruct (last (_ :: hints)) eqn:E; [|apply last_None in E].
  - intros Hex. destruct (decide (generations current = gens)) as [He|Hne].
    + apply Hpend. apply Exists_cons in Hex as [Hh|Hh]; [done|].
      by rewrite Hgen, <- He.
    + eapply follow_up_persists; [done|]. auto.
Qed.

Definition idle_intent : AutomaticIntent :=
  {| intent_graph := lit "g";
     generations := {| gen_source := lit "sg1:a"; gen_config := lit "cg1:a";
                       gen_extractor := lit "eg1:a"; gen_canonicalizer := lit "kg1:a" |};
     queued_job_id := None; running_job_id := Some (lit "job-1"); dirty := false;
     follow_up_pending := false |}.

Lemma running_burst_one_follow_up_witness :
  exists actions final,
    coalesce_hints idle_intent
      [{| gen_source := lit "sg1:b"; gen_config := lit "cg1:a"; gen_extractor := lit "eg1:a";
          gen_canonicalizer := lit "kg1:a" |};
       {| gen_source := lit "sg1:c"; gen_config := lit "cg1:a"; gen_extractor := lit "eg1:a";
          gen_canonicalizer := lit "kg1:a" |}] = Ok (actions, final) /\
    (decided FollowUp actions <= 1)%nat.
Proof.
  destruct (running_burst_one_follow_up idle_intent
    [{| gen_source := lit "sg1:b"; gen_config := lit "cg1:a"; gen_extractor := lit "eg1:a";
        gen_canonicalizer := lit "kg1:a" |};
     {| gen_source := lit "sg1:c"; gen_config := lit "cg1:a"; gen_extractor := lit "eg1:a";
        gen_canonicalizer := lit "kg1:a" |}]) as (actions & final & Hc & _ & Hone & _);
    [by eexists|].
  exists actions, final. split; assumption.
Defined.

(** ** Reconciliation decides only on evidence *)

(**  What each reconciliation outcome is evidence of.  A valid absence-proof
    argument always gives a decision, which is [reconciliation_required] or a
    legal transition out of it; success is decided exactly on a matching
    committed marker and quarantine exactly on a conflicting one; a retry needs
    an absent marker, a state that is certainly not committed and no pending
    cancellation; a cancellation needs a proved rollback or a fenced absence;
    and a started or unknown transaction is never retried or cancelled. *)
Theorem reconcile_publication_evidence pub marker cancel proof :
  (proof = "unproved" \/ proof = "fenced_absence"
   <-> exists s, reconcile_publication pub marker cancel proof = Ok s) /\
  forall s, reconcile_publication pub marker cancel proof = Ok s ->
    (s = RECONCILIATION_REQUIRED \/ legal RECONCILIATION_REQUIRED s) /\
    (s = SUCCEEDED <-> marker = "matching_committed") /\
    (s = QUARANTINED <-> marker = "conflicting") /\
    (s = QUEUED -> marker = "absent" /\ cancel = false /\
                   pub ∈ ["not_started"; "prepared"; "rolled_back"]) /\
    (s = CANCELLED -> marker = "absent" /\ cancel = true /\
                      (pub = "rolled_back" /\ proof = "unproved" \/
                       pub = "not_started" /\ proof = "fenced_absence")) /\
    (pub ∈ ["transaction_started"; "commit_unknown"] -> s <> QUEUED /\ s <> CANCELLED).
Proof.
  unfold reconcile_publication, str_among, legal.
  destruct (decide (proof = "unproved" \/ proof = "fenced_absence")) as [Hp|Hp].
  2: { rewrite (bool_decide_false (proof ∈ _)) by set_solver. cbn. split; [|done].
       split; [done|]. by intros (s & ?). }
  rewrite (bool_decide_true (proof ∈ _)) by set_solver. cbn [negb].
  split.
  - split; [|done]. intros _.
    repeat match goal with |- exists s, (if ?b then _ else _) = _ => destruct b; [by eexists|] end.
    destruct (_ && _); [|by eexists]. destruct (negb cancel); [by eexists|].
    destruct (_ || _); by eexists.
  - intros s.
    repeat case_bool_decide; subst; cbn [andb orb negb]; try (destruct cancel; cbn [negb]);
      intros [= <-]; split_and!; set_solver.
Qed.

(** ** Retry delays are bounded *)

Lemma qmin_le_l a b : (qmin a b <= a)%Q.
Proof.
  unfold qmin. destruct (Qle_bool a b) eqn:H; [apply Qle_refl|].
  apply Qlt_le_weak, Qnot_le_lt. by rewrite <- Qle_bool_iff, H.
Qed.

Lemma qmin_glb x a b : (x <= a -> x <= b -> x <= qmin a b)%Q.
Proof. unfold qmin. by destruct (Qle_bool a b). Qed.

Lemma make_RetryPolicy_Ok n base maximum p :
  make_RetryPolicy n base maximum = Ok p ->
  p = {| max_attempts := n; base_seconds := base; maximum_seconds := maximum |} /\
  0 < n /\ (0 < base)%Q /\ (base <= maximum)%Q.
Proof.
  unfold make_RetryPolicy. intros H. unbind H. injection H as <-.
  rewrite !orb_false_iff, negb_false_iff in *.
  match goal with G : _ /\ _ |- _ => destruct G as [[Hn Hb] _] end.
  split_and!; [done|lia| |by apply Qle_bool_iff].
  apply Qnot_le_lt. by rewrite <- Qle_bool_iff, Hb.
Qed.

(**  Retries back off within their bounds: a delay is given exactly for the
    attempts and categories that may be retried, at most [max_attempts - 1] times;
    it is never negative, never above the policy's maximum nor above the base
    doubled per attempt, and the cap never shrinks from one attempt to the next.
    [uniform a b] returns a value between [a] and [b], as documented. *)
Theorem retry_delay_bounded n base maximum p (uniform : Q -> Q -> Q) attempt category :
  make_RetryPolicy n base maximum = Ok p ->
  (forall a b, a <= b -> a <= uniform a b <= b)%Q ->
  (is_ok (delay_seconds p attempt category uniform) = true <->
   0 < attempt < n /\ category ∈ _RETRYABLE) /\
  forall d, delay_seconds p attempt category uniform = Ok d ->
    (0 <= d)%Q /\ (d <= maximum)%Q /\ (d <= base * inject_Z (2 ^ (attempt - 1)))%Q /\
    (retry_cap p attempt <= retry_cap p (attempt + 1))%Q.
Proof.
  intros (-> & Hn & Hb & Hm)%make_RetryPolicy_Ok Hu.
  unfold delay_seconds, may_retry, str_among. cbn [max_attempts].
  rewrite (bool_decide_true ("rolled_back" ∈ _)) by set_solver. rewrite andb_true_r. split.
  - destruct (_ && _) eqn:E; cbn; rewrite !andb_true_iff, ?andb_false_iff, bool_decide_eq_true,
      ?bool_decide_eq_false in E || rewrite !andb_false_iff, bool_decide_eq_false in E;
      (split; [|try done]); intros; try done; [split; [lia|tauto]|].
    destruct H as [? ?]. destruct E as [[?|?]|?]; [lia|lia|done].
  - intros d H. unbind H. injection H as <-.
    match goal with G : negb _ = false |- _ => apply negb_false_iff in G;
      rewrite !andb_true_iff in G; destruct G as [[? ?] _] end.
    assert (forall k, (0 <= k)%Z -> (0 <= inject_Z (2 ^ k))%Q) as Hpow.
    { intros k Hk. change 0%Q with (inject_Z 0). rewrite <- Zle_Qle. lia. }
    assert (0 <= base)%Q as Hb0 by (by apply Qlt_le_weak).
    unfold retry_cap. cbn [base_seconds maximum_seconds].
    set (cap := qmin maximum (base * inject_Z (2 ^ (attempt - 1)))).
    assert (0 <= cap)%Q as Hcap.
    { apply qmin_glb; [by eapply Qle_trans|]. apply Qmult_le_0_compat; [done|]. apply Hpow. lia. }
    destruct (Hu 0%Q cap Hcap) as [Hlo Hhi].
    assert (cap <= base * inject_Z (2 ^ (attempt - 1)))%Q as Hr.
    { unfold cap, qmin. destruct (Qle_bool _ _) eqn:E; [by apply Qle_bool_iff|apply Qle_refl]. }
    split_and!; [done|eapply Qle_trans; [done|apply qmin_le_l]|by eapply Qle_trans|].
    apply qmin_glb; [apply qmin_le_l|]. eapply Qle_trans; [exact Hr|].
    rewrite !(Qmult_comm base). apply Qmult_le_compat_r; [|done].
    rewrite <- Zle_Qle. apply Z.pow_le_mono_r; lia.
Qed.

Lemma retry_delay_bounded_witness :
  (0 <= 4)%Q /\ (4 <= 5)%Q.
Proof.
  pose proof (retry_delay_bounded 3 2%Q 5%Q
    {| max_attempts := 3; base_seconds := 2%Q; maximum_seconds := 5%Q |} (fun a b => b) 2 "transient"
    eq_refl (fun a b H => conj H (Qle_refl b))) as [_ H].
  specialize (H 4%Q ltac:(vm_compute; reflexivity)). destruct H as (H0 & H1 & _). split; assumption.
Defined.
