(* ===== verification/ControlDb.v ===== *)
(** The coordinator's control database: the tables of
    [resources/coordinator-rdbms], their constraints, and transactions.

    Each table is a finite map from its primary key.  A transaction is a function
    of the environment ([env]: what the database and the process supply to it) and
    the database; an exception rolls it back ([commit]).  Transactions are taken to
    be serial, and every row lock the code asks for is obtained unless the
    environment says otherwise.  Instants and intervals count microseconds. *)
From S2P Require Import Prelude PyVal Ordering Limits Contracts Semantics.
Open Scope Z_scope.

(** ** Rows *)

(** The columns of [jobs] that no statement updates. *)
Record job_spec := MkJobSpec {
  j_schema_version : Z;
  j_kind : pystr;
  j_graph : pystr;   (** [graph_id] *)
  j_request : pystr;
  j_requester : pystr;
  j_digest : pystr;   (** [idempotency_digest] *)
  j_fingerprint : pystr;   (** [request_fingerprint] *)
  j_class : pystr;   (** [priority_class] *)
  j_priority : Z;   (** [priority_value] *)
  j_gens : GenerationTuple;   (** the four generation columns *)
  j_options : list (pystr * pystr);   (** [operation_options] *)
  j_submitted_at : Z;
  j_parent : option pystr
}.


(** A row of [jobs]; the key is [job_id]. *)
Record job := MkJob {
  j_spec : job_spec;
  j_state : JobState;
  j_pub : PublicationState;   (** [publication_state] *)
  j_attempt : Z;   (** [current_attempt] *)
  j_next_eligible : Z;
  j_phase : pystr;
  j_completed : Z;
  j_total : option Z;
  j_error : option pystr;   (** [error_category] *)
  j_cancel_at : option Z;   (** [cancel_requested_at] *)
  j_updated : Z;
  j_finished : option Z;
  j_replacement : option pystr
}.

Definition set_j_state (v : JobState) (j : job) : job :=
  MkJob (j_spec j) v (j_pub j) (j_attempt j) (j_next_eligible j) (j_phase j) (j_completed j)
    (j_total j) (j_error j) (j_cancel_at j) (j_updated j) (j_finished j) (j_replacement j).
Definition set_j_pub (v : PublicationState) (j : job) : job :=
  MkJob (j_spec j) (j_state j) v (j_attempt j) (j_next_eligible j) (j_phase j) (j_completed j)
    (j_total j) (j_error j) (j_cancel_at j) (j_updated j) (j_finished j) (j_replacement j).
Definition set_j_attempt (v : Z) (j : job) : job :=
  MkJob (j_spec j) (j_state j) (j_pub j) v (j_next_eligible j) (j_phase j) (j_completed j)
    (j_total j) (j_error j) (j_cancel_at j) (j_updated j) (j_finished j) (j_replacement j).
Definition set_j_next_eligible (v : Z) (j : job) : job :=
  MkJob (j_spec j) (j_state j) (j_pub j) (j_attempt j) v (j_phase j) (j_completed j)
    (j_total j) (j_error j) (j_cancel_at j) (j_updated j) (j_finished j) (j_replacement j).
Definition set_j_phase (v : pystr) (j : job) : job :=
  MkJob (j_spec j) (j_state j) (j_pub j) (j_attempt j) (j_next_eligible j) v (j_completed j)
    (j_total j) (j_error j) (j_cancel_at j) (j_updated j) (j_finished j) (j_replacement j).
Definition set_j_completed (v : Z) (j : job) : job :=
  MkJob (j_spec j) (j_state j) (j_pub j) (j_attempt j) (j_next_eligible j) (j_phase j) v
    (j_total j) (j_error j) (j_cancel_at j) (j_updated j) (j_finished j) (j_replacement j).
Definition set_j_total (v : option Z) (j : job) : job :=
  MkJob (j_spec j) (j_state j) (j_pub j) (j_attempt j) (j_next_eligible j) (j_phase j)
    (j_completed j) v (j_error j) (j_cancel_at j) (j_updated j) (j_finished j)
    (j_replacement j).
Definition set_j_error (v : option pystr) (j : job) : job :=
  MkJob (j_spec j) (j_state j) (j_pub j) (j_attempt j) (j_next_eligible j) (j_phase j)
    (j_completed j) (j_total j) v (j_cancel_at j) (j_updated j) (j_finished j)
    (j_replacement j).
Definition set_j_cancel_at (v : option Z) (j : job) : job :=
  MkJob (j_spec j) (j_state j) (j_pub j) (j_attempt j) (j_next_eligible j) (j_phase j)
    (j_completed j) (j_total j) (j_error j) v (j_updated j) (j_finished j) (j_replacement j).
Definition set_j_updated (v : Z) (j : job) : job :=
  MkJob (j_spec j) (j_state j) (j_pub j) (j_attempt j) (j_next_eligible j) (j_phase j)
    (j_completed j) (j_total j) (j_error j) (j_cancel_at j) v (j_finished j) (j_replacement j).
Definition set_j_finished (v : option Z) (j : job) : job :=
  MkJob (j_spec j) (j_state j) (j_pub j) (j_attempt j) (j_next_eligible j) (j_phase j)
    (j_completed j) (j_total j) (j_error j) (j_cancel_at j) (j_updated j) v (j_replacement j).
Definition set_j_replacement (v : option pystr) (j : job) : job :=
  MkJob (j_spec j) (j_state j) (j_pub j) (j_attempt j) (j_next_eligible j) (j_phase j)
    (j_completed j) (j_total j) (j_error j) (j_cancel_at j) (j_updated j) (j_finished j) v.

(** A row of [job_attempts]; the key is [(job_id, attempt)]. *)
Record attempt := MkAttempt {
  a_instance : pystr;   (** [coordinator_instance_id] *)
  a_epoch : Z;   (** [fencing_epoch] *)
  a_current : bool;   (** [is_current] *)
  a_started : Z;
  a_heartbeat : Z;
  a_finished : option Z;
  a_gens : GenerationTuple;
  a_result : option pystr;   (** [result_category] *)
  a_pub : PublicationState;
  a_diagnostic : option pystr;   (** [diagnostic_summary] *)
  a_lease_epoch : Z;   (** [graph_lease_fencing_epoch] *)
  a_registration : option pystr;   (** [supervisor_registration_digest] *)
  a_consumed : bool   (** [supervisor_registration_consumed] *)
}.

Definition set_a_current (v : bool) (a : attempt) : attempt :=
  MkAttempt (a_instance a) (a_epoch a) v (a_started a) (a_heartbeat a) (a_finished a)
    (a_gens a) (a_result a) (a_pub a) (a_diagnostic a) (a_lease_epoch a) (a_registration a)
    (a_consumed a).
Definition set_a_heartbeat (v : Z) (a : attempt) : attempt :=
  MkAttempt (a_instance a) (a_epoch a) (a_current a) (a_started a) v (a_finished a) (a_gens a)
    (a_result a) (a_pub a) (a_diagnostic a) (a_lease_epoch a) (a_registration a)
    (a_consumed a).
Definition set_a_finished (v : option Z) (a : attempt) : attempt :=
  MkAttempt (a_instance a) (a_epoch a) (a_current a) (a_started a) (a_heartbeat a) v (a_gens a)
    (a_result a) (a_pub a) (a_diagnostic a) (a_lease_epoch a) (a_registration a)
    (a_consumed a).
Definition set_a_result (v : option pystr) (a : attempt) : attempt :=
  MkAttempt (a_instance a) (a_epoch a) (a_current a) (a_started a) (a_heartbeat a)
    (a_finished a) (a_gens a) v (a_pub a) (a_diagnostic a) (a_lease_epoch a) (a_registration a)
    (a_consumed a).
Definition set_a_pub (v : PublicationState) (a : attempt) : attempt :=
  MkAttempt (a_instance a) (a_epoch a) (a_current a) (a_started a) (a_heartbeat a)
    (a_finished a) (a_gens a) (a_result a) v (a_diagnostic a) (a_lease_epoch a)
    (a_registration a) (a_consumed a).
Definition set_a_diagnostic (v : option pystr) (a : attempt) : attempt :=
  MkAttempt (a_instance a) (a_epoch a) (a_current a) (a_started a) (a_heartbeat a)
    (a_finished a) (a_gens a) (a_result a) (a_pub a) v (a_lease_epoch a) (a_registration a)
    (a_consumed a).
Definition set_a_registration (v : option pystr) (a : attempt) : attempt :=
  MkAttempt (a_instance a) (a_epoch a) (a_current a) (a_started a) (a_heartbeat a)
    (a_finished a) (a_gens a) (a_result a) (a_pub a) (a_diagnostic a) (a_lease_epoch a) v
    (a_consumed a).
Definition set_a_consumed (v : bool) (a : attempt) : attempt :=
  MkAttempt (a_instance a) (a_epoch a) (a_current a) (a_started a) (a_heartbeat a)
    (a_finished a) (a_gens a) (a_result a) (a_pub a) (a_diagnostic a) (a_lease_epoch a)
    (a_registration a) v.

(** A row of [graph_leases]; the key is [graph_id]. *)
Record lease := MkLease {
  l_job : pystr;
  l_attempt : Z;
  l_instance : pystr;
  l_epoch : Z;   (** [fencing_epoch] *)
  l_acquired : Z;
  l_heartbeat : Z;
  l_expires : Z;
  l_lease_epoch : Z   (** [graph_lease_fencing_epoch] *)
}.

Definition set_l_heartbeat (v : Z) (l : lease) : lease :=
  MkLease (l_job l) (l_attempt l) (l_instance l) (l_epoch l) (l_acquired l) v (l_expires l)
    (l_lease_epoch l).
Definition set_l_expires (v : Z) (l : lease) : lease :=
  MkLease (l_job l) (l_attempt l) (l_instance l) (l_epoch l) (l_acquired l) (l_heartbeat l) v
    (l_lease_epoch l).

(** A row of [coalescing_state]; the key is [graph_id], the only job-kind family is [refresh_graph]. *)
Record coalescing := MkCoalescing {
  c_desired : GenerationTuple;   (** the four desired generations *)
  c_dirty : bool;
  c_paused : bool;
  c_reasons : list pystr;   (** [reason_categories] *)
  c_queued : option pystr;   (** [queued_job_id] *)
  c_running : option pystr;   (** [running_job_id] *)
  c_next_reconcile : option Z;
  c_last_hint : Z
}.

Definition set_c_desired (v : GenerationTuple) (c : coalescing) : coalescing :=
  MkCoalescing v (c_dirty c) (c_paused c) (c_reasons c) (c_queued c) (c_running c)
    (c_next_reconcile c) (c_last_hint c).
Definition set_c_dirty (v : bool) (c : coalescing) : coalescing :=
  MkCoalescing (c_desired c) v (c_paused c) (c_reasons c) (c_queued c) (c_running c)
    (c_next_reconcile c) (c_last_hint c).
Definition set_c_paused (v : bool) (c : coalescing) : coalescing :=
  MkCoalescing (c_desired c) (c_dirty c) v (c_reasons c) (c_queued c) (c_running c)
    (c_next_reconcile c) (c_last_hint c).
Definition set_c_reasons (v : list pystr) (c : coalescing) : coalescing :=
  MkCoalescing (c_desired c) (c_dirty c) (c_paused c) v (c_queued c) (c_running c)
    (c_next_reconcile c) (c_last_hint c).
Definition set_c_queued (v : option pystr) (c : coalescing) : coalescing :=
  MkCoalescing (c_desired c) (c_dirty c) (c_paused c) (c_reasons c) v (c_running c)
    (c_next_reconcile c) (c_last_hint c).
Definition set_c_running (v : option pystr) (c : coalescing) : coalescing :=
  MkCoalescing (c_desired c) (c_dirty c) (c_paused c) (c_reasons c) (c_queued c) v
    (c_next_reconcile c) (c_last_hint c).
Definition set_c_next_reconcile (v : option Z) (c : coalescing) : coalescing :=
  MkCoalescing (c_desired c) (c_dirty c) (c_paused c) (c_reasons c) (c_queued c) (c_running c)
    v (c_last_hint c).
Definition set_c_last_hint (v : Z) (c : coalescing) : coalescing :=
  MkCoalescing (c_desired c) (c_dirty c) (c_paused c) (c_reasons c) (c_queued c) (c_running c)
    (c_next_reconcile c) v.

Inductive MarkerOutcome := MarkerCommitted | MarkerConflicting.

(** A row of [synthetic_publication_markers]; the key is [(job_id, attempt)]. *)
Record marker := MkMarker {
  m_graph : pystr;
  m_run : pystr;   (** [run_identity] *)
  m_gens : GenerationTuple;
  m_outcome : MarkerOutcome;
  m_published : Z
}.


(** The row of [coordinator_instances] of the scope [control]. *)
Record instance := MkInstance {
  s_instance : pystr;   (** [instance_id] *)
  s_epoch : Z;   (** [fencing_epoch] *)
  s_started : Z;
  s_heartbeat : Z;
  s_expires : Z;
  s_stopped : option Z;
  s_active : bool   (** [status = 'active'] *)
}.

Definition set_s_instance (v : pystr) (i : instance) : instance :=
  MkInstance v (s_epoch i) (s_started i) (s_heartbeat i) (s_expires i) (s_stopped i)
    (s_active i).
Definition set_s_epoch (v : Z) (i : instance) : instance :=
  MkInstance (s_instance i) v (s_started i) (s_heartbeat i) (s_expires i) (s_stopped i)
    (s_active i).
Definition set_s_started (v : Z) (i : instance) : instance :=
  MkInstance (s_instance i) (s_epoch i) v (s_heartbeat i) (s_expires i) (s_stopped i)
    (s_active i).
Definition set_s_heartbeat (v : Z) (i : instance) : instance :=
  MkInstance (s_instance i) (s_epoch i) (s_started i) v (s_expires i) (s_stopped i)
    (s_active i).
Definition set_s_expires (v : Z) (i : instance) : instance :=
  MkInstance (s_instance i) (s_epoch i) (s_started i) (s_heartbeat i) v (s_stopped i)
    (s_active i).
Definition set_s_stopped (v : option Z) (i : instance) : instance :=
  MkInstance (s_instance i) (s_epoch i) (s_started i) (s_heartbeat i) (s_expires i) v
    (s_active i).
Definition set_s_active (v : bool) (i : instance) : instance :=
  MkInstance (s_instance i) (s_epoch i) (s_started i) (s_heartbeat i) (s_expires i)
    (s_stopped i) v.

(** The control database. *)
Record db := MkDb {
  jobs : gmap pystr job;
  attempts : gmap (pystr * Z) attempt;
  leases : gmap pystr lease;
  intents : gmap pystr coalescing;
  markers : gmap (pystr * Z) marker;
  singleton : option instance
}.

Definition set_jobs (v : gmap pystr job) (d : db) : db :=
  MkDb v (attempts d) (leases d) (intents d) (markers d) (singleton d).
Definition set_attempts (v : gmap (pystr * Z) attempt) (d : db) : db :=
  MkDb (jobs d) v (leases d) (intents d) (markers d) (singleton d).
Definition set_leases (v : gmap pystr lease) (d : db) : db :=
  MkDb (jobs d) (attempts d) v (intents d) (markers d) (singleton d).
Definition set_intents (v : gmap pystr coalescing) (d : db) : db :=
  MkDb (jobs d) (attempts d) (leases d) v (markers d) (singleton d).
Definition set_markers (v : gmap (pystr * Z) marker) (d : db) : db :=
  MkDb (jobs d) (attempts d) (leases d) (intents d) v (singleton d).
Definition set_singleton (v : option instance) (d : db) : db :=
  MkDb (jobs d) (attempts d) (leases d) (intents d) (markers d) v.

#[export] Instance MarkerOutcome_eq_dec : EqDecision MarkerOutcome.
Proof. solve_decision. Defined.

Definition empty_db : db := MkDb ∅ ∅ ∅ ∅ ∅ None.

(** The idempotency key of a job: the columns of its UNIQUE constraint. *)
Definition idempotency (s : job_spec) : pystr * pystr * pystr * pystr :=
  (j_requester s, j_kind s, j_graph s, j_digest s).

Abbreviation job_graph j := (j_graph (j_spec j)).
Abbreviation job_class j := (j_class (j_spec j)).
Abbreviation job_gens j := (j_gens (j_spec j)).

Definition SAFE_UNPUBLISHED : list PublicationState := [NOT_STARTED; PREPARED; ROLLED_BACK].
Definition is_safe_unpublished (p : PublicationState) : bool := bool_decide (p ∈ SAFE_UNPUBLISHED).

(** ** Constraints *)

(** The CHECK constraints of a row of [jobs]. *)
Definition state_publication_check (s : JobState) (p : PublicationState) : bool :=
  (negb (bool_decide (s = SUCCEEDED)) || bool_decide (p = COMMITTED))
  && (negb (bool_decide (s ∈ [FAILED; CANCELLED; SUPERSEDED])) || is_safe_unpublished p)
  && (negb (bool_decide (s = QUEUED)) || negb (bool_decide (p = COMMIT_UNKNOWN))).

Definition job_check (j : job) : bool :=
  let s := j_spec j in
  (j_schema_version s =? 1) && bool_decide (j_kind s = lit "refresh_graph")
  && (Z.of_nat (length (j_digest s)) =? 64) && (Z.of_nat (length (j_fingerprint s)) =? 64)
  && bool_decide (j_class s ∈ _PRIORITIES)
  && (0 <=? j_priority s) && (j_priority s <=? 100)
  && state_publication_check (j_state j) (j_pub j)
  && (0 <=? j_attempt j)
  && bool_decide (j_phase j ∈ _PUBLIC_PHASES)
  && (0 <=? j_completed j)
  && match j_total j with None => true | Some t => j_completed j <=? t end.

Definition is_hex64 (s : pystr) : bool :=
  bool_decide (length s = 64%nat)
  && forallb (fun c => is_digit c || ((97 <=? c) && (c <=? 102))) s.

(** The CHECK constraints of a row of [job_attempts] with its key's attempt. *)
Definition attempt_check (n : Z) (a : attempt) : bool :=
  (0 <? n) && (0 <? a_epoch a) && (0 <=? a_lease_epoch a)
  && match a_registration a with None => true | Some r => is_hex64 r end.

(** [job_id] is NULL or a key of [jobs]. *)
Definition job_ref (d : db) (r : option pystr) : bool :=
  match r with None => true | Some jid => bool_decide (is_Some (jobs d !! jid)) end.

(** ** Transactions *)

Record env := MkEnv {
  now : Z;                          (** [now()]: the transaction's start *)
  clock : Z;                        (** [clock_timestamp()] *)
  collate : pystr -> pystr -> bool; (** [<=] of the database's text collation *)
  admitted : bool;                  (** the shared maintenance lock was obtained *)
  contended : bool;                 (** a fencing lock was not obtained in time *)
  locked : gset pystr;              (** jobs whose rows other transactions lock *)
  uuid : pystr;                     (** [str(uuid.uuid4())] *)
  xid : Z                           (** the transaction's number *)
}.

Definition tx (A : Type) : Type := env -> db -> res (A * db).

#[export] Instance tx_ret : MRet tx := fun A a e d => Ok (a, d).
#[export] Instance tx_bind : MBind tx := fun A B f m e d =>
  match m e d with Ok (a, d') => f a e d' | Err x => Err x end.

Definition throw {A} (x : exn) : tx A := fun e d => Err x.
Definition get_env : tx env := fun e d => Ok (e, d).
Definition get_db : tx db := fun e d => Ok (d, d).
Definition put_db (d : db) : tx unit := fun e _ => Ok (tt, d).
Definition lift {A} (r : res A) : tx A := fun e d =>
  match r with Ok a => Ok (a, d) | Err x => Err x end.
Definition check (b : bool) (x : exn) : tx unit := if b then throw x else mret tt.

(** [with connect() as connection]: commits on a normal exit, rolls back when an
    exception leaves the block. *)
Definition commit {A} (m : tx A) (e : env) (d : db) : res A * db :=
  match m e d with Ok (a, d') => (Ok a, d') | Err x => (Err x, d) end.

(** ** Statements *)

(** [UPDATE jobs SET f WHERE job_id = jid AND p]; whether a row was updated. *)
Definition update_job (jid : pystr) (p : job -> bool) (f : job -> job) : tx bool :=
  d ← get_db;
  match jobs d !! jid with
  | Some j =>
      if p j then
        _ ← check (negb (job_check (f j))) (IntegrityError CheckConstraint);
        _ ← check (negb (job_ref d (j_replacement (f j)))) (IntegrityError ForeignKeyConstraint);
        _ ← put_db (set_jobs (<[jid := f j]> (jobs d)) d);
        mret true
      else mret false
  | None => mret false
  end.

Definition update_attempt (k : pystr * Z) (p : attempt -> bool) (f : attempt -> attempt) : tx bool :=
  d ← get_db;
  match attempts d !! k with
  | Some a =>
      if p a then
        _ ← check (negb (attempt_check k.2 (f a))) (IntegrityError CheckConstraint);
        _ ← put_db (set_attempts (<[k := f a]> (attempts d)) d);
        mret true
      else mret false
  | None => mret false
  end.

Definition update_lease (g : pystr) (p : lease -> bool) (f : lease -> lease) : tx bool :=
  d ← get_db;
  match leases d !! g with
  | Some l => if p l then _ ← put_db (set_leases (<[g := f l]> (leases d)) d); mret true
              else mret false
  | None => mret false
  end.

Definition delete_lease (g : pystr) (p : lease -> bool) : tx bool :=
  d ← get_db;
  match leases d !! g with
  | Some l => if p l then _ ← put_db (set_leases (delete g (leases d)) d); mret true
              else mret false
  | None => mret false
  end.

Definition update_intent (g : pystr) (p : coalescing -> bool) (f : coalescing -> coalescing)
    : tx bool :=
  d ← get_db;
  match intents d !! g with
  | Some c =>
      if p c then
        _ ← check (negb (job_ref d (c_queued (f c)) && job_ref d (c_running (f c))))
              (IntegrityError ForeignKeyConstraint);
        _ ← put_db (set_intents (<[g := f c]> (intents d)) d);
        mret true
      else mret false
  | None => mret false
  end.

(** [INSERT INTO coalescing_state ... ON CONFLICT DO UPDATE]: the row to insert
    and the update of an existing one. *)
Definition upsert_intent (g : pystr) (fresh : coalescing) (f : coalescing -> coalescing) : tx unit :=
  d ← get_db;
  let c := match intents d !! g with Some c => f c | None => fresh end in
  _ ← check (negb (job_ref d (c_queued c) && job_ref d (c_running c)))
        (IntegrityError ForeignKeyConstraint);
  put_db (set_intents (<[g := c]> (intents d)) d).

(** Whether a job of the table has the idempotency key of [s]. *)
Definition idempotency_taken (d : db) (s : job_spec) : bool :=
  existsb (fun kj => bool_decide (idempotency (j_spec kj.2) = idempotency s)) (map_to_list (jobs d)).

Definition insert_job (jid : pystr) (j : job) : tx unit :=
  d ← get_db;
  _ ← check (negb (job_check j)) (IntegrityError CheckConstraint);
  _ ← check (bool_decide (is_Some (jobs d !! jid))) (IntegrityError (UniqueConstraint "jobs_pkey"));
  _ ← check (idempotency_taken d (j_spec j))
        (IntegrityError
           (UniqueConstraint "jobs_requester_job_kind_graph_id_idempotency_digest_key"));
  put_db (set_jobs (<[jid := j]> (jobs d)) d).

(** Whether some attempt of the job is current. *)
Definition has_current_attempt (d : db) (jid : pystr) : bool :=
  existsb (fun ka => bool_decide (ka.1.1 = jid) && a_current ka.2) (map_to_list (attempts d)).

Definition insert_attempt (jid : pystr) (n : Z) (a : attempt) : tx unit :=
  d ← get_db;
  _ ← check (negb (attempt_check n a)) (IntegrityError CheckConstraint);
  _ ← check (bool_decide (is_Some (attempts d !! (jid, n))))
        (IntegrityError (UniqueConstraint "job_attempts_pkey"));
  _ ← check (a_current a && has_current_attempt d jid)
        (IntegrityError (UniqueConstraint "uq_job_attempts_current"));
  _ ← check (negb (job_ref d (Some jid))) (IntegrityError ForeignKeyConstraint);
  put_db (set_attempts (<[(jid, n) := a]> (attempts d)) d).

(** Whether a lease names the attempt. *)
Definition attempt_leased (d : db) (jid : pystr) (n : Z) : bool :=
  existsb (fun gl => bool_decide (l_job gl.2 = jid) && (l_attempt gl.2 =? n)) (map_to_list (leases d)).

Definition insert_lease (g : pystr) (l : lease) : tx unit :=
  d ← get_db;
  _ ← check (bool_decide (is_Some (leases d !! g)))
        (IntegrityError (UniqueConstraint "graph_leases_pkey"));
  _ ← check (attempt_leased d (l_job l) (l_attempt l))
        (IntegrityError (UniqueConstraint "graph_leases_job_id_attempt_key"));
  _ ← check (bool_decide (attempts d !! (l_job l, l_attempt l) = None))
        (IntegrityError ForeignKeyConstraint);
  put_db (set_leases (<[g := l]> (leases d)) d).

(** The rows of [jobs] that satisfy [p], in the order [le]. *)
Definition select_jobs (d : db) (p : pystr -> job -> bool)
    (le : pystr * job -> pystr * job -> bool) : list (pystr * job) :=
  merge_sort (fun x y => Is_true (le x y))
    (List.filter (fun kj => p kj.1 kj.2) (map_to_list (jobs d))).

(** Comparison of texts in the collation. *)
Definition text_compare (e : env) (s t : pystr) : comparison := compare_by (collate e) s t.

(** ** Claims *)

Record JobClaim := MkClaim {
  k_job : pystr;
  k_graph : pystr;
  k_attempt : Z;
  k_instance : pystr;
  k_epoch : Z;               (** [fencing_epoch] *)
  k_class : pystr;           (** [priority_class] *)
  k_gens : GenerationTuple;
  k_lease_epoch : Z          (** [graph_lease_fencing_epoch] *)
}.

(** One second, in microseconds. *)
Definition second : Z := 1000000.

(** Whether the row of [coordinator_instances] is an active, unexpired instance. *)
Definition live_at (d : db) (t : Z) (instance_id : pystr) (epoch : Z) : bool :=
  match singleton d with
  | Some s => bool_decide (s_instance s = instance_id) && (s_epoch s =? epoch)
              && s_active s && (t <? s_expires s)
  | None => false
  end.

(** The attempt is current and owned as stated. *)
Definition owned_current (instance_id : pystr) (epoch : Z) (a : attempt) : bool :=
  a_current a && bool_decide (a_instance a = instance_id) && (a_epoch a =? epoch).

(** [COALESCE(new, old)] *)
Definition coalesce {A} (new old : option A) : option A :=
  match new with Some _ => new | None => old end.
