(* ===== verification/ControlDbFacts.v ===== *)
(** Inversion lemmas for transactions and statements of the control database. *)
From S2P Require Import Prelude PyVal Limits Contracts Semantics ControlDb.
Open Scope Z_scope.

(** ** Transactions *)

Lemma tx_bind_Ok {A B} (m : tx A) (f : A -> tx B) e d b d' :
  (m ≫= f) e d = Ok (b, d') <-> exists a d1, m e d = Ok (a, d1) /\ f a e d1 = Ok (b, d').
Proof.
  unfold mbind, tx_bind. destruct (m e d) as [[a d1]|x]; split.
  - eauto.
  - by intros (? & ? & [= <- <-] & ?).
  - done.
  - by intros (? & ? & ? & _).
Qed.

Lemma check_Ok b x e d u d' : check b x e d = Ok (u, d') <-> b = false /\ d' = d.
Proof.
  unfold check, throw, mret, tx_ret. destruct b, u; split.
  - done.
  - by intros [? _].
  - by intros [= <-].
  - by intros [_ ->].
Qed.

Lemma lift_Ok {A} (r : res A) e d a d' : lift r e d = Ok (a, d') <-> r = Ok a /\ d' = d.
Proof.
  unfold lift. destruct r; split.
  - by intros [= <- <-].
  - by intros [[= <-] ->].
  - done.
  - by intros [? _].
Qed.

Lemma commit_Ok {A} (m : tx A) e d a d' :
  m e d = Ok (a, d') -> commit m e d = (Ok a, d').
Proof. intros H. unfold commit. by rewrite H. Qed.

(** ** Statements *)

Lemma update_job_Ok jid p f e d b d' :
  update_job jid p f e d = Ok (b, d') ->
  (b = false /\ d' = d) \/
  (b = true /\ exists j, jobs d !! jid = Some j /\ p j = true /\ job_check (f j) = true /\
               d' = set_jobs (<[jid := f j]> (jobs d)) d).
Proof.
  unfold update_job. intros (d0 & ? & [= <- <-] & H)%tx_bind_Ok.
  destruct (jobs d !! jid) as [j|]; [|injection H as <- <-; by left].
  destruct (p j) eqn:Hp; [|injection H as <- <-; by left].
  apply tx_bind_Ok in H as (? & ? & [Hc ->]%check_Ok & H).
  apply tx_bind_Ok in H as (? & ? & [_ ->]%check_Ok & H). injection H as <- <-.
  right. apply negb_false_iff in Hc. eauto 10.
Qed.

(** A guarded update of a row that satisfies the guard happens, or a constraint
    refuses it. *)
Lemma update_job_hit jid p f e d b d' j :
  update_job jid p f e d = Ok (b, d') -> jobs d !! jid = Some j -> p j = true ->
  b = true /\ job_check (f j) = true /\ d' = set_jobs (<[jid := f j]> (jobs d)) d.
Proof.
  unfold update_job. intros (d0 & ? & [= <- <-] & H)%tx_bind_Ok Hj Hp. rewrite Hj, Hp in H.
  apply tx_bind_Ok in H as (? & ? & [Hc ->]%check_Ok & H).
  apply tx_bind_Ok in H as (? & ? & [_ ->]%check_Ok & H). injection H as <- <-.
  by apply negb_false_iff in Hc.
Qed.

Lemma update_attempt_Ok k p f e d b d' :
  update_attempt k p f e d = Ok (b, d') ->
  (b = false /\ d' = d) \/
  (b = true /\ exists a, attempts d !! k = Some a /\ p a = true /\
               d' = set_attempts (<[k := f a]> (attempts d)) d).
Proof.
  unfold update_attempt. intros (d0 & ? & [= <- <-] & H)%tx_bind_Ok.
  destruct (attempts d !! k) as [a|]; [|injection H as <- <-; by left].
  destruct (p a) eqn:Hp; [|injection H as <- <-; by left].
  apply tx_bind_Ok in H as (? & ? & [_ ->]%check_Ok & H). injection H as <- <-. right. eauto 10.
Qed.

Lemma update_attempt_hit k p f e d b d' a :
  update_attempt k p f e d = Ok (b, d') -> attempts d !! k = Some a -> p a = true ->
  b = true /\ d' = set_attempts (<[k := f a]> (attempts d)) d.
Proof.
  unfold update_attempt. intros (d0 & ? & [= <- <-] & H)%tx_bind_Ok Ha Hp. rewrite Ha, Hp in H.
  apply tx_bind_Ok in H as (? & ? & [_ ->]%check_Ok & H). by injection H as <- <-.
Qed.

Lemma update_lease_Ok g p f e d b d' :
  update_lease g p f e d = Ok (b, d') ->
  (b = false /\ d' = d) \/
  (b = true /\ exists l, leases d !! g = Some l /\ p l = true /\
               d' = set_leases (<[g := f l]> (leases d)) d).
Proof.
  unfold update_lease. intros (d0 & ? & [= <- <-] & H)%tx_bind_Ok.
  destruct (leases d !! g) as [l|]; [|injection H as <- <-; by left].
  destruct (p l) eqn:Hp; injection H as <- <-; [right; eauto 10|by left].
Qed.

Lemma delete_lease_Ok g p e d b d' :
  delete_lease g p e d = Ok (b, d') ->
  (b = false /\ d' = d /\ (forall l, leases d !! g = Some l -> p l = false)) \/
  (b = true /\ exists l, leases d !! g = Some l /\ p l = true /\
               d' = set_leases (delete g (leases d)) d).
Proof.
  unfold delete_lease. intros (d0 & ? & [= <- <-] & H)%tx_bind_Ok.
  destruct (leases d !! g) as [l|]; [|injection H as <- <-; by left].
  destruct (p l) eqn:Hp; injection H as <- <-; [right; eauto 10|left; naive_solver].
Qed.

Lemma update_intent_Ok g p f e d b d' :
  update_intent g p f e d = Ok (b, d') -> exists m, d' = set_intents m d.
Proof.
  unfold update_intent. intros (d0 & ? & [= <- <-] & H)%tx_bind_Ok.
  assert (d = set_intents (intents d) d) as Hid by (by destruct d).
  destruct (intents d !! g) as [c|]; [|injection H as _ <-; eauto].
  destruct (p c); [|injection H as _ <-; eauto].
  apply tx_bind_Ok in H as (? & ? & [_ ->]%check_Ok & H). injection H as _ <-. eauto.
Qed.

Lemma maybe_intent_Ok (c : bool) g p f e d b d' :
  (if c then update_intent g p f else mret false) e d = Ok (b, d') -> exists m, d' = set_intents m d.
Proof.
  destruct c; [apply update_intent_Ok|]. intros [= <- <-]. exists (intents d). by destruct d.
Qed.

Lemma upsert_intent_Ok g c f e d b d' :
  upsert_intent g c f e d = Ok (b, d') -> exists m, d' = set_intents m d.
Proof.
  unfold upsert_intent. intros (d0 & ? & [= <- <-] & H)%tx_bind_Ok.
  apply tx_bind_Ok in H as (? & ? & [_ ->]%check_Ok & H). injection H as _ <-. eauto.
Qed.

Lemma existsb_map_false {K V} `{Countable K} (m : gmap K V) (q : K * V -> bool) :
  existsb q (map_to_list m) = false <-> forall k v, m !! k = Some v -> q (k, v) = false.
Proof.
  split.
  - intros He k v Hv. apply not_true_iff_false. intros Hq. apply not_true_iff_false in He. apply He.
    apply existsb_exists. exists (k, v). split; [|done].
    by apply list_elem_of_In, elem_of_map_to_list.
  - intros Hall. apply not_true_iff_false. intros ([k v] & Hin & Hq)%existsb_exists.
    apply list_elem_of_In, elem_of_map_to_list in Hin. by rewrite (Hall _ _ Hin) in Hq.
Qed.

Lemma insert_job_Ok jid j e d u d' :
  insert_job jid j e d = Ok (u, d') ->
  d' = set_jobs (<[jid := j]> (jobs d)) d /\ jobs d !! jid = None /\ job_check j = true /\
  (forall jid' j', jobs d !! jid' = Some j' -> idempotency (j_spec j') <> idempotency (j_spec j)).
Proof.
  unfold insert_job. intros (d0 & ? & [= <- <-] & H)%tx_bind_Ok.
  apply tx_bind_Ok in H as (? & ? & [Hc ->]%check_Ok & H).
  apply tx_bind_Ok in H as (? & ? & [Hn%bool_decide_eq_false ->]%check_Ok & H).
  apply tx_bind_Ok in H as (? & ? & [Hu ->]%check_Ok & H). injection H as _ <-.
  apply negb_false_iff in Hc. split_and!; [done|by apply eq_None_not_Some|done|].
  intros jid' j' Hj'. unfold idempotency_taken in Hu. rewrite existsb_map_false in Hu.
  by apply Hu in Hj' as Hb%bool_decide_eq_false.
Qed.

Lemma insert_attempt_Ok jid n a e d u d' :
  insert_attempt jid n a e d = Ok (u, d') ->
  d' = set_attempts (<[(jid, n) := a]> (attempts d)) d /\ attempts d !! (jid, n) = None.
Proof.
  unfold insert_attempt. intros (d0 & ? & [= <- <-] & H)%tx_bind_Ok.
  apply tx_bind_Ok in H as (? & ? & [_ ->]%check_Ok & H).
  apply tx_bind_Ok in H as (? & ? & [Hn%bool_decide_eq_false ->]%check_Ok & H).
  apply tx_bind_Ok in H as (? & ? & [_ ->]%check_Ok & H).
  apply tx_bind_Ok in H as (? & ? & [_ ->]%check_Ok & H). injection H as _ <-.
  split; [done|by apply eq_None_not_Some].
Qed.

Lemma insert_lease_Ok g l e d u d' :
  insert_lease g l e d = Ok (u, d') ->
  d' = set_leases (<[g := l]> (leases d)) d /\ leases d !! g = None.
Proof.
  unfold insert_lease. intros (d0 & ? & [= <- <-] & H)%tx_bind_Ok.
  apply tx_bind_Ok in H as (? & ? & [Hn%bool_decide_eq_false ->]%check_Ok & H).
  apply tx_bind_Ok in H as (? & ? & [_ ->]%check_Ok & H).
  apply tx_bind_Ok in H as (? & ? & [_ ->]%check_Ok & H). injection H as _ <-.
  split; [done|by apply eq_None_not_Some].
Qed.

(** ** Queries *)

Lemma elem_of_take_sub {A} (x : A) n l : x ∈ take n l -> x ∈ l.
Proof. intros (i & Hi & _)%elem_of_take. by eapply list_elem_of_lookup_2. Qed.

Lemma filter_all {K V} `{Countable K} (P : K * V -> Prop) `{forall x, Decision (P x)} (m : gmap K V) :
  (forall k x, P (k, x)) -> filter P m = m.
Proof.
  intros HP. apply map_eq. intros k. apply option_eq. intros x. rewrite map_lookup_filter_Some.
  naive_solver.
Qed.

Lemma elem_of_select_jobs d p le jid j :
  (jid, j) ∈ select_jobs d p le <-> jobs d !! jid = Some j /\ p jid j = true.
Proof.
  unfold select_jobs. rewrite merge_sort_Permutation, list_elem_of_In, filter_In, <- list_elem_of_In,
    elem_of_map_to_list. done.
Qed.

Lemma NoDup_select_jobs d p le : NoDup (select_jobs d p le).*1.
Proof.
  unfold select_jobs. rewrite merge_sort_Permutation.
  pose proof (NoDup_fst_map_to_list (jobs d)) as Hn. revert Hn.
  generalize (map_to_list (jobs d)). induction l as [|kj l IH]; [done|].
  cbn [List.filter fmap list_fmap]. rewrite NoDup_cons. intros [Hni Hn].
  destruct (p kj.1 kj.2); [|by apply IH]. cbn. apply NoDup_cons. split; [|by apply IH].
  intros (kj' & Heq & Hin)%list_elem_of_fmap. apply Hni. rewrite Heq. apply list_elem_of_fmap_2.
  apply list_elem_of_In, filter_In in Hin as [Hin _]. by apply list_elem_of_In.
Qed.

(** ** Automation *)

(** Splits one bind of a successful transaction. *)
Ltac tx_step H :=
  let a := fresh "r" in let d := fresh "d" in let G := fresh "Hstep" in
  apply tx_bind_Ok in H as (a & d & G & H);
  match type of G with
  | lift _ _ _ = Ok _ => apply lift_Ok in G as [G ->]
  | check _ _ _ _ = Ok _ => apply check_Ok in G as [G ->]
  | get_env _ _ = Ok _ => injection G as <- <-
  | get_db _ _ = Ok _ => injection G as <- <-
  | mret _ _ _ = Ok _ => injection G as <- <-
  | _ => idtac
  end.

Ltac tx_steps H :=
  repeat match type of H with
         | mbind _ _ _ _ = Ok _ => tx_step H
         end.

(** The result of a [return]. *)
Ltac tx_ret H := injection H as <- <-.
