(* ===== verification/ControlOwnership.v ===== *)
(** Singleton ownership, claims and lease release:
    [coordinator/_control_ownership.py] and the claim retry loop of
    [ControlStore.claim_next] in [coordinator/storage.py]. *)
From S2P Require Import Prelude PyVal Ordering Limits Contracts Semantics ControlDb.
Open Scope Z_scope.

(** A [timedelta] is its microseconds. *)
Definition positive_seconds (value : Z) : res Z :=
  if value <=? 0 then Err (ValueError "duration must be positive") else Ok value.

Definition acquire_singleton (instance_id : pystr) (ttl : Z) : tx Z :=
  seconds ← lift (positive_seconds ttl);
  e ← get_env;
  d ← get_db;
  match singleton d with
  | None =>
      _ ← put_db (set_singleton (Some (MkInstance instance_id 1 (now e) (now e) (now e + seconds)
                                         None true)) d);
      mret 1
  | Some owner =>
      if s_active owner && (now e <? s_expires owner)
      then throw (SingletonActiveError "coordinator singleton is active")
      else
        let epoch := s_epoch owner + 1 in
        _ ← put_db (set_singleton (Some (MkInstance instance_id epoch (now e) (now e)
                                           (now e + seconds) None true)) d);
        mret epoch
  end.

Definition heartbeat_singleton (instance_id : pystr) (fencing_epoch ttl : Z) : tx bool :=
  seconds ← lift (positive_seconds ttl);
  e ← get_env;
  d ← get_db;
  match singleton d with
  | Some s =>
      if live_at d (now e) instance_id fencing_epoch then
        _ ← put_db (set_singleton (Some (set_s_heartbeat (now e)
                                           (set_s_expires (now e + seconds) s))) d);
        mret true
      else mret false
  | None => mret false
  end.

Definition stop_singleton (instance_id : pystr) (fencing_epoch : Z) : tx bool :=
  e ← get_env;
  d ← get_db;
  match singleton d with
  | Some s =>
      if bool_decide (s_instance s = instance_id) && (s_epoch s =? fencing_epoch) && s_active s then
        _ ← put_db (set_singleton (Some (set_s_active false (set_s_stopped (Some (now e))
                                           (set_s_expires (now e) s)))) d);
        mret true
      else mret false
  | None => mret false
  end.

Definition require_live_owner (instance_id : pystr) (epoch : Z) : tx unit :=
  e ← get_env;
  d ← get_db;
  check (negb (live_at d (now e) instance_id epoch))
    (SingletonActiveError "coordinator singleton is not owned").

(** [require_transaction_admission] of [runtime/maintenance.py]. *)
Definition require_transaction_admission : tx unit :=
  e ← get_env; check (negb (admitted e)) MaintenanceUnavailableError.

(** Whether the graph's automatic intent is paused. *)
Definition graph_paused (d : db) (g : pystr) : bool :=
  match intents d !! g with Some c => c_paused c | None => false end.

(** The WHERE clause of the claim query. *)
Definition claimable (e : env) (d : db) (max_attempts : Z) (automatic_only : bool) (jid : pystr)
    (j : job) : bool :=
  bool_decide (j_state j = QUEUED) && (j_next_eligible j <=? now e) && (j_attempt j <? max_attempts)
  && (negb automatic_only || bool_decide (job_class j = lit "automatic"))
  && (bool_decide (job_class j = lit "manual") || negb (graph_paused d (job_graph j)))
  && bool_decide (leases d !! job_graph j = None)
  && negb (bool_decide (jid ∈ locked e)).

(** Its ORDER BY: priority descending, then eligibility, submission and id. *)
Definition claim_order (e : env) (x y : pystr * job) : bool :=
  not_gt (lex [j_priority (j_spec y.2) ?= j_priority (j_spec x.2);
               j_next_eligible x.2 ?= j_next_eligible y.2;
               j_submitted_at (j_spec x.2) ?= j_submitted_at (j_spec y.2);
               text_compare e x.1 y.1]).

Definition claim_once (instance_id : pystr) (fencing_epoch lease_seconds max_attempts : Z)
    (automatic_only : bool) : tx (option JobClaim) :=
  _ ← require_transaction_admission;
  _ ← require_live_owner instance_id fencing_epoch;
  e ← get_env;
  d ← get_db;
  match select_jobs d (claimable e d max_attempts automatic_only) (claim_order e) with
  | [] => mret None
  | (jid, j) :: _ =>
      let n := j_attempt j + 1 in
      _ ← insert_attempt jid n
            (MkAttempt instance_id fencing_epoch true (now e) (now e) None (job_gens j) None
               NOT_STARTED None (xid e) None false);
      _ ← insert_lease (job_graph j)
            (MkLease jid n instance_id fencing_epoch (now e) (now e) (now e + lease_seconds) (xid e));
      _ ← update_job jid (fun j => bool_decide (j_state j = QUEUED))
            (fun j => set_j_state CLAIMED (set_j_attempt n (set_j_updated (now e) j)));
      _ ← (if bool_decide (job_class j = lit "automatic") then
             update_intent (job_graph j) (fun c => bool_decide (c_queued c = Some jid))
               (fun c => set_c_queued None (set_c_running (Some jid) (set_c_dirty false c)))
           else mret false);
      mret (Some (MkClaim jid (job_graph j) n instance_id fencing_epoch (job_class j) (job_gens j)
                    (xid e)))
  end.

(** Whether the job's terminal state lets its lease go. *)
Definition releasable (j : job) : bool :=
  (bool_decide (j_state j = SUCCEEDED) && bool_decide (j_pub j = COMMITTED))
  || (bool_decide (j_state j ∈ [FAILED; CANCELLED; SUPERSEDED; QUARANTINED])
      && is_safe_unpublished (j_pub j)).

(** The lease is the claim's. *)
Definition lease_of (jid : pystr) (n : Z) (instance_id : pystr) (epoch : Z) (l : lease) : bool :=
  bool_decide (l_job l = jid) && (l_attempt l =? n) && bool_decide (l_instance l = instance_id)
  && (l_epoch l =? epoch).

Definition release_graph_lease (graph jid : pystr) (n : Z) (owner_instance_id : pystr)
    (owner_epoch : Z) (reconciler_instance_id : pystr) (reconciler_epoch : Z) : tx bool :=
  e ← get_env;
  d ← get_db;
  released ← delete_lease graph (fun l =>
    lease_of jid n owner_instance_id owner_epoch l
    && live_at d (now e) reconciler_instance_id reconciler_epoch
    && match jobs d !! l_job l with Some j => releasable j | None => false end);
  _ ← (if released : bool then
         update_intent graph (fun c => bool_decide (c_running c = Some jid)) (set_c_running None)
       else mret false);
  mret released.

Definition is_expected_graph_lease_race (c : constraint) : bool :=
  bool_decide (c = UniqueConstraint "graph_leases_pkey").

(** [ControlStore.claim_next]: up to three transactions, each with the environment
    it meets; a lost race for the lease retries, another uniqueness violation is
    reported. *)
Fixpoint claim_loop (tries : list env) (instance_id : pystr)
    (fencing_epoch seconds max_attempts : Z) (automatic_only : bool) (d : db)
    : res (option JobClaim) * db :=
  match tries with
  | [] => (Ok None, d)
  | e :: rest =>
      match commit (claim_once instance_id fencing_epoch seconds max_attempts automatic_only) e d with
      | (Err (IntegrityError (UniqueConstraint name)), d') =>
          if is_expected_graph_lease_race (UniqueConstraint name)
          then claim_loop rest instance_id fencing_epoch seconds max_attempts automatic_only d'
          else (Err (ControlStoreError "unexpected control-store uniqueness violation"), d')
      | outcome => outcome
      end
  end.

Definition claim_next (limits : CoordinatorLimits) (e1 e2 e3 : env) (instance_id : pystr)
    (fencing_epoch lease_ttl : Z) (automatic_only : bool) (d : db) : res (option JobClaim) * db :=
  match positive_seconds lease_ttl with
  | Err x => (Err x, d)
  | Ok seconds =>
      claim_loop [e1; e2; e3] instance_id fencing_epoch seconds (max_retry_attempts limits)
        automatic_only d
  end.
