(* ===== verification/ControlState.v ===== *)
(** Job-state operations of the control store: [coordinator/_control_state.py],
    and the state operations [ControlStore] builds on them in
    [coordinator/storage.py]. *)
From S2P Require Import Prelude PyVal Limits Contracts Semantics ControlDb ControlOwnership.
From Stdlib Require Import QArith.
Open Scope Z_scope.

(** [f"{state} requires safely unpublished state"] *)
Definition validate_state_publication (new_state : JobState)
    (publication_state : option PublicationState) : res unit :=
  _ ← raise_if (bool_decide (new_state = SUCCEEDED)
                && negb (bool_decide (publication_state = Some COMMITTED)))
        (ValueError "succeeded mutating job requires committed publication");
  _ ← raise_if (bool_decide (new_state ∈ [FAILED; CANCELLED; SUPERSEDED])
                && negb (match publication_state with
                         | Some p => is_safe_unpublished p | None => false end))
        (ValueError (job_state_value new_state +:+ " requires safely unpublished state"));
  raise_if (bool_decide (new_state = QUEUED)
            && bool_decide (publication_state = Some COMMIT_UNKNOWN))
    (ValueError "commit_unknown publication cannot be retried").

(** The marker of an attempt proves its publication: committed, for the job's
    graph and for the generations of both the attempt and the job. *)
Definition marker_proves (d : db) (jid : pystr) (n : Z) (j : job) (a : attempt) : bool :=
  match markers d !! (jid, n) with
  | Some m => bool_decide (m_graph m = job_graph j) && bool_decide (m_gens m = a_gens a)
              && bool_decide (a_gens a = job_gens j) && bool_decide (m_outcome m = MarkerCommitted)
  | None => false
  end.

(** The WHERE clause of the compare-and-set. *)
Definition cas_guard (e : env) (d : db) (jid : pystr) (expected_state new_state : JobState) (n : Z)
    (instance_id : pystr) (epoch : Z) (j : job) : bool :=
  bool_decide (j_state j = expected_state) && (j_attempt j =? n)
  && match attempts d !! (jid, n) with
     | Some a => owned_current instance_id epoch a
                 && (negb (bool_decide (new_state = SUCCEEDED)) || marker_proves d jid n j a)
     | None => false
     end
  && live_at d (now e) instance_id epoch.

Definition compare_and_set_state (jid : pystr) (expected_state new_state : JobState) (n : Z)
    (instance_id : pystr) (epoch : Z) (publication_state : option PublicationState)
    (error_category diagnostic_summary : option pystr) : tx bool :=
  _ ← lift (validate_transition (lit (job_state_value expected_state))
              (lit (job_state_value new_state)));
  _ ← lift (validate_state_publication new_state publication_state);
  let terminal := is_terminal new_state in
  e ← get_env;
  d ← get_db;
  updated ← update_job jid (cas_guard e d jid expected_state new_state n instance_id epoch)
    (fun j => set_j_state new_state (set_j_pub (default (j_pub j) publication_state)
       (set_j_error error_category (set_j_updated (now e)
          (if terminal then set_j_finished (Some (now e)) j else j)))));
  if negb updated then mret false
  else if terminal then
    closed ← update_attempt (jid, n) (owned_current instance_id epoch)
      (fun a => set_a_current false (set_a_finished (Some (now e)) (set_a_result error_category
         (set_a_pub (default (a_pub a) publication_state)
            (set_a_diagnostic (coalesce diagnostic_summary (a_diagnostic a)) a)))));
    _ ← check (negb closed) (RuntimeError "current attempt closure failed");
    mret true
  else if bool_decide (is_Some publication_state) || bool_decide (is_Some error_category)
          || bool_decide (is_Some diagnostic_summary) then
    changed ← update_attempt (jid, n) (owned_current instance_id epoch)
      (fun a => set_a_pub (default (a_pub a) publication_state)
         (set_a_result (coalesce error_category (a_result a))
            (set_a_diagnostic (coalesce diagnostic_summary (a_diagnostic a)) a)));
    _ ← check (negb changed) (RuntimeError "current attempt publication update failed");
    mret true
  else mret true.

Definition _validate_progress (completed : option Z) (total : option Z) (max_counter : Z) : res unit :=
  match completed with
  | None => Err (ValueError "completed progress is invalid")
  | Some completed =>
      _ ← raise_if (negb ((0 <=? completed) && (completed <=? max_counter)))
            (ValueError "completed progress is invalid");
      match total with
      | None => Ok tt
      | Some total => raise_if (negb ((completed <=? total) && (total <=? max_counter)))
                        (ValueError "total progress is invalid")
      end
  end.

Definition heartbeat_attempt (claim : JobClaim) (lease_ttl : Z) (phase : option pystr)
    (completed total : option Z) (limits : CoordinatorLimits) : tx bool :=
  seconds ← lift (positive_seconds lease_ttl);
  _ ← require_live_owner (k_instance claim) (k_epoch claim);
  e ← get_env;
  renewed ← update_lease (k_graph claim)
    (lease_of (k_job claim) (k_attempt claim) (k_instance claim) (k_epoch claim))
    (fun l => set_l_heartbeat (now e) (set_l_expires (now e + seconds) l));
  if negb renewed then mret false
  else
    _ ← update_attempt (k_job claim, k_attempt claim) (owned_current (k_instance claim) (k_epoch claim))
          (set_a_heartbeat (now e));
    match phase with
    | None => mret true
    | Some phase =>
        _ ← lift (_validate_progress completed total (max_counter limits));
        let done := default 0 completed in
        _ ← update_job (k_job claim)
              (fun j => (j_attempt j =? k_attempt claim)
                 && (negb (bool_decide (j_phase j = phase)) || negb (bool_decide (j_total j = total))
                     || (progress_counter_delta limits <=? done - j_completed j)
                     || (j_updated j <=? now e - second * progress_min_interval_seconds limits)))
              (fun j => set_j_phase phase (set_j_completed done (set_j_total total
                          (set_j_updated (now e) j))));
        mret true
    end.

Definition request_cancellation (jid : pystr) : tx JobState :=
  e ← get_env;
  d ← get_db;
  updated ← update_job jid
    (fun j => bool_decide (j_state j ∈ [QUEUED; CLAIMED; STARTING; RUNNING]))
    (fun j => set_j_cancel_at (Some (now e)) (set_j_updated (now e)
       (if bool_decide (j_state j = QUEUED)
        then set_j_state CANCELLED (set_j_finished (Some (now e)) j)
        else set_j_state CANCEL_REQUESTED j)));
  if negb updated then throw (ValueError "job cannot be cancelled")
  else
    d' ← get_db;
    mret (match jobs d' !! jid with Some j => j_state j | None => CANCELLED end).

Definition mark_attempt_terminated (claim : JobClaim) (process_cleanup_proved : bool)
    (reconciler_instance_id : pystr) (reconciler_epoch : Z) (diagnostic_summary : option pystr)
    : tx bool :=
  _ ← check (negb process_cleanup_proved) (ValueError "process cleanup proof is required");
  _ ← require_live_owner reconciler_instance_id reconciler_epoch;
  e ← get_env;
  d ← get_db;
  update_attempt (k_job claim, k_attempt claim)
    (fun a => owned_current (k_instance claim) (k_epoch claim) a
       && match jobs d !! k_job claim with
          | Some j => bool_decide (j_state j = RECONCILIATION_REQUIRED)
                      && (j_attempt j =? k_attempt claim)
          | None => false
          end)
    (fun a => set_a_finished (Some (now e))
       (set_a_diagnostic (coalesce diagnostic_summary (a_diagnostic a)) a)).

(** The category as the policy compares it: the name of a retryable one, or none. *)
Definition category_name (category : pystr) : string :=
  default "" (List.find (fun s => bool_decide (lit s = category)) _RETRYABLE).

Definition schedule_retry (claim : JobClaim) (expected_state : JobState) (delay : Z)
    (category : pystr) (max_attempts : Z) (diagnostic_summary : option pystr) : tx bool :=
  _ ← lift (validate_transition (lit (job_state_value expected_state)) (lit "queued"));
  _ ← check (delay <? 0) (ValueError "retry delay is invalid");
  _ ← require_live_owner (k_instance claim) (k_epoch claim);
  e ← get_env;
  d ← get_db;
  match jobs d !! k_job claim, attempts d !! (k_job claim, k_attempt claim) with
  | Some j, Some a =>
      if negb (bool_decide (j_state j = expected_state) && (j_attempt j =? k_attempt claim)
               && owned_current (k_instance claim) (k_epoch claim) a)
      then mret false
      else
        policy ← lift (make_RetryPolicy max_attempts 1%Q
                         (qmax 1%Q (if delay =? 0 then 1%Q else seconds_of delay)));
        _ ← check (negb (is_safe_unpublished (j_pub j)))
              (ValueError (publication_value (j_pub j) +:+ " publication cannot be retried"));
        _ ← check (negb (may_retry policy (j_attempt j) (category_name category)
                           (publication_value (j_pub j))))
              (ValueError "retry is not permitted");
        _ ← update_job (k_job claim)
              (fun j => bool_decide (j_state j = expected_state) && (j_attempt j =? k_attempt claim))
              (fun j => set_j_state QUEUED (set_j_pub NOT_STARTED (set_j_error (Some category)
                 (set_j_next_eligible (now e + delay) (set_j_updated (now e) j)))));
        _ ← update_attempt (k_job claim, k_attempt claim)
              (owned_current (k_instance claim) (k_epoch claim))
              (fun a => set_a_current false (set_a_finished (Some (now e))
                 (set_a_result (Some category)
                    (set_a_diagnostic (coalesce diagnostic_summary (a_diagnostic a)) a))));
        _ ← delete_lease (k_graph claim)
              (lease_of (k_job claim) (k_attempt claim) (k_instance claim) (k_epoch claim));
        mret true
  | _, _ => mret false
  end.

Record JobStatus := MkStatus {
  status_job : pystr; status_graph : pystr; status_state : JobState; status_attempt : Z;
  status_pub : PublicationState; status_phase : pystr; status_completed : Z;
  status_total : option Z; status_error : option pystr; status_diagnostic : option pystr
}.

Definition status (jid : pystr) : tx JobStatus :=
  d ← get_db;
  match jobs d !! jid with
  | None => throw (LookupError "unknown job")
  | Some j =>
      mret (MkStatus jid (job_graph j) (j_state j) (j_attempt j) (j_pub j) (j_phase j)
              (j_completed j) (j_total j) (j_error j)
              (attempts d !! (jid, j_attempt j) ≫= a_diagnostic))
  end.

(** ** [ControlStore]'s uses of the compare-and-set *)

Definition mark_reconciliation_required (claim : JobClaim) (expected_state : JobState)
    (category : pystr) (diagnostic_summary : option pystr) (publication_state : PublicationState)
    : tx bool :=
  _ ← check (negb (bool_decide (publication_state ∈ [NOT_STARTED; COMMIT_UNKNOWN])))
        (ValueError "invalid reconciliation publication state");
  compare_and_set_state (k_job claim) expected_state RECONCILIATION_REQUIRED (k_attempt claim)
    (k_instance claim) (k_epoch claim) (Some publication_state) (Some category) diagnostic_summary.

Definition mark_quarantined (claim : JobClaim) (expected_state : JobState) (category : pystr)
    : tx bool :=
  compare_and_set_state (k_job claim) expected_state QUARANTINED (k_attempt claim)
    (k_instance claim) (k_epoch claim) None (Some category) None.
