(* ===== verification/ControlSubmission.v ===== *)
(** Job submission and automatic-intent coalescing:
    [coordinator/_control_submission.py] and
    [coordinator/_control_coalescing.py]. *)
From S2P Require Import Prelude Utf8 Sha256 PyVal Limits Regex Contracts ContractsFacts.
From S2P Require Import Semantics ControlDb ControlOwnership.
Open Scope Z_scope.

(** [[a-z][a-z0-9_-]{0,63}\Z] *)
Definition _SAFE_CATEGORY : re :=
  Cat (Cls is_lower) (Rep (fun c => is_lower_alnum c || char_in c (lit "_-")) (Some 63%nat)).

Record SubmissionResult := MkSubmission {
  sub_job : pystr; sub_state : JobState; sub_replayed : bool
}.

#[export] Instance JobRequest_eq_dec : EqDecision JobRequest.
Proof. solve_decision. Defined.

(** [AdmissionDeadline.remaining()] at the successive calls of one submission, in
    microseconds. *)
Abbreviation Deadline := (nat -> Z).

Definition remaining (deadline : option Deadline) (i : nat) : res unit :=
  match deadline with
  | None => Ok tt
  | Some budget => if budget i <=? 0 then Err AdmissionTimeout else Ok tt
  end.

Section Submission.
Context {U : Unicode}.

Definition _safe_category (value : pystr) (field : string) : res pystr :=
  if fullmatch _SAFE_CATEGORY value then Ok value
  else Err (ValueError (field +:+ " must be a public-safe category")).

Definition validate_request (request : JobRequest) : res JobRequest :=
  normalized ← normalize_request (payload_of request)
    (VStr (source_generation request)) (VStr (config_generation request))
    (VStr (extractor_generation request)) (VStr (canonicalizer_generation request))
    false DEFAULT_LIMITS;
  _ ← raise_if (negb (bool_decide (normalized = request)))
        (ValueError "request is not canonically normalized");
  _ ← _safe_category (reason_of request) "operation_options reason";
  Ok request.

(** [hashlib.sha256(text.encode()).hexdigest()]; a text that is no valid Unicode
    raises. *)
Definition digest_of (text : pystr) : res pystr :=
  match utf8_encode text with
  | Some bytes => Ok (sha256_hex bytes)
  | None => Err (ValueError "surrogates not allowed")
  end.

Definition fingerprint_of (request : JobRequest) : res pystr :=
  digest_of (json_dumps (semantic_payload request)).

Definition generations_of (request : JobRequest) : GenerationTuple :=
  {| gen_source := source_generation request; gen_config := config_generation request;
     gen_extractor := extractor_generation request;
     gen_canonicalizer := canonicalizer_generation request |}.

(** The row INSERT INTO jobs writes, with the columns' defaults. *)
Definition new_job (e : env) (request : JobRequest) (requester digest fingerprint : pystr)
    (priority_value : Z) : job :=
  MkJob (MkJobSpec (schema_version request) (job_kind request) (graph_id request)
           (request_id request) requester digest fingerprint (priority request) priority_value
           (generations_of request) (operation_options request) (now e) None)
        QUEUED NOT_STARTED 0 (now e) (lit "waiting") 0 None None None (now e) None None.

(** The job a SELECT by the idempotency columns finds. *)
Definition _find_existing (d : db) (requester : pystr) (request : JobRequest) (digest : pystr)
    : option (pystr * job) :=
  List.find (fun kj => bool_decide (idempotency (j_spec kj.2) =
                         (requester, job_kind request, graph_id request, digest)))
    (map_to_list (jobs d)).

(** [SELECT count( * ) FROM jobs WHERE p] *)
Definition count_jobs (d : db) (p : job -> bool) : Z :=
  Z.of_nat (length (List.filter (fun kj => p kj.2) (map_to_list (jobs d)))).

Definition _enforce_admission (request : JobRequest) (limits : CoordinatorLimits) : tx unit :=
  d ← get_db;
  _ ← check (max_nonterminal_jobs limits <=? count_jobs d (fun j => negb (is_terminal (j_state j))))
        (ValueError "nonterminal job limit reached");
  if bool_decide (priority request = lit "manual") then
    check (max_queued_manual_jobs_per_graph limits <=?
             count_jobs d (fun j => bool_decide (job_graph j = graph_id request)
                                    && bool_decide (job_class j = lit "manual")
                                    && bool_decide (j_state j = QUEUED)))
      (ValueError "manual queue limit reached")
  else mret tt.

(** [_admission_transaction]: the deadline is checked before connecting, before the
    timeouts are set (at least one millisecond must be left), and before the commit;
    [submit] checks it once more when it has the table lock. *)
Definition _admission_transaction {A} (deadline : option Deadline) (body : tx A) : tx A :=
  _ ← lift (remaining deadline 0);
  _ ← lift (remaining deadline 1);
  _ ← lift (match deadline with
            | Some budget => raise_if (budget 1%nat / 1000 <? 1) AdmissionTimeout
            | None => Ok tt
            end);
  a ← body;
  _ ← lift (remaining deadline 3);
  mret a.

Definition submit (request : JobRequest) (requester : pystr) (limits : CoordinatorLimits)
    (admission_deadline : option Deadline) : tx SubmissionResult :=
  request ← lift (validate_request request);
  requester ← lift (_safe_category requester "requester");
  digest ← lift (digest_of (idempotency_key request));
  fingerprint ← lift (fingerprint_of request);
  e ← get_env;
  let priority_value := if bool_decide (priority request = lit "manual") then 100 else 50 in
  _admission_transaction admission_deadline (
    _ ← require_transaction_admission;
    _ ← lift (remaining admission_deadline 2);
    d ← get_db;
    match _find_existing d requester request digest with
    | Some (jid, existing) =>
        _ ← check (negb (bool_decide (j_fingerprint (j_spec existing) = fingerprint)))
              (ValueError "idempotency conflict");
        mret (MkSubmission jid (j_state existing) true)
    | None =>
        _ ← _enforce_admission request limits;
        _ ← insert_job (uuid e) (new_job e request requester digest fingerprint priority_value);
        mret (MkSubmission (uuid e) QUEUED false)
    end).

(** ** Coalescing *)

(** [queued_job_id or running_job_id]: a job id is never the empty text. *)
Definition existing_id (c : coalescing) : option pystr := coalesce (c_queued c) (c_running c).

(** The automatic job the intent already has for these generations. *)
Definition live_automatic (d : db) (current : option coalescing) (gens : GenerationTuple)
    : option (pystr * JobState) :=
  match current with
  | Some c =>
      if bool_decide (c_desired c = gens) then
        match existing_id c with
        | Some jid =>
            match jobs d !! jid with
            | Some j => if is_terminal (j_state j) then None else Some (jid, j_state j)
            | None => None
            end
        | None => None
        end
      else None
  | None => None
  end.

Definition _upsert_intent (e : env) (request : JobRequest) (jid : pystr) (gens : GenerationTuple)
    : tx unit :=
  upsert_intent (graph_id request)
    (MkCoalescing gens true false [reason_of request] (Some jid) None None (now e))
    (fun c => set_c_desired gens (set_c_dirty true (set_c_reasons [reason_of request]
       (set_c_queued (Some jid) (set_c_last_hint (now e) c))))).

Definition coalesce_automatic (request : JobRequest) (requester : pystr) (limits : CoordinatorLimits)
    : tx SubmissionResult :=
  request ← lift (validate_request request);
  _ ← check (negb (bool_decide (priority request = lit "automatic")))
        (ValueError "coalescing requires automatic priority");
  requester ← lift (_safe_category requester "requester");
  fingerprint ← lift (fingerprint_of request);
  digest ← lift (digest_of (idempotency_key request));
  _ ← require_transaction_admission;
  e ← get_env;
  d ← get_db;
  let current := intents d !! graph_id request in
  _ ← check (match current with Some c => c_paused c | None => false end)
        (ValueError "graph intent is paused");
  let gens := generations_of request in
  match live_automatic d current gens with
  | Some (jid, state) => mret (MkSubmission jid state true)
  | None =>
      let replaced := current ≫= c_queued in
      _ ← match replaced with
          | Some old =>
              update_job old
                (fun j => bool_decide (j_state j = QUEUED)
                          && bool_decide (job_class j = lit "automatic"))
                (fun j => set_j_state SUPERSEDED (set_j_finished (Some (now e))
                            (set_j_updated (now e) j)))
          | None => mret false
          end;
      _ ← _enforce_admission request limits;
      _ ← insert_job (uuid e) (new_job e request requester digest fingerprint 50);
      _ ← match replaced with
          | Some old => update_job old (fun _ => true) (set_j_replacement (Some (uuid e)))
          | None => mret false
          end;
      _ ← _upsert_intent e request (uuid e) gens;
      mret (MkSubmission (uuid e) QUEUED false)
  end.

End Submission.
