(* ===== verification/ControlReconciliation.v ===== *)
(** Publication reconciliation, startup recovery and polling updates:
    [coordinator/_control_reconciliation.py], [coordinator/_control_startup.py]
    and [coordinator/_control_polling.py]. *)
From S2P Require Import Prelude PyVal Ordering Limits Regex Contracts Semantics ControlDb.
From S2P Require Import ControlOwnership ControlSubmission.
Open Scope Z_scope.

(** ** Reconciliation *)

(** The row [_lock_evidence] selects. *)
Record evidence := MkEvidence {
  ev_job : job; ev_attempt : attempt; ev_marker : option marker
}.

Definition _lock_evidence (d : db) (claim : JobClaim) : option evidence :=
  match jobs d !! k_job claim with
  | Some j =>
      match attempts d !! (k_job claim, j_attempt j) with
      | Some a =>
          if bool_decide (j_state j = RECONCILIATION_REQUIRED) && (j_attempt j =? k_attempt claim)
             && owned_current (k_instance claim) (k_epoch claim) a
          then Some (MkEvidence j a (markers d !! (k_job claim, j_attempt j)))
          else None
      | None => None
      end
  | None => None
  end.

Inductive MarkerClass := MatchingCommitted | Absent | Conflicting.

#[export] Instance MarkerClass_eq_dec : EqDecision MarkerClass.
Proof. solve_decision. Defined.

Definition _marker_classification (row : evidence) : MarkerClass :=
  match ev_marker row with
  | None => Absent
  | Some m =>
      if bool_decide (m_outcome m = MarkerCommitted)
         && bool_decide (m_graph m = job_graph (ev_job row))
         && bool_decide (m_gens m = job_gens (ev_job row))
         && bool_decide (m_gens m = a_gens (ev_attempt row))
      then MatchingCommitted else Conflicting
  end.

Definition _close_attempt (claim : JobClaim) (publication : PublicationState)
    (category diagnostic_summary : option pystr) : tx unit :=
  e ← get_env;
  closed ← update_attempt (k_job claim, k_attempt claim)
    (owned_current (k_instance claim) (k_epoch claim))
    (fun a => set_a_current false (set_a_finished (coalesce (a_finished a) (Some (now e)))
       (set_a_pub publication (set_a_result category
          (set_a_diagnostic (coalesce diagnostic_summary (a_diagnostic a))
             (set_a_registration None a))))));
  check (negb closed) (RuntimeError "reconciliation attempt closure failed").

Definition clear_running (graph jid : pystr) : tx bool :=
  update_intent graph (fun c => bool_decide (c_running c = Some jid)) (set_c_running None).

Definition _delete_lease (claim : JobClaim) : tx unit :=
  released ← delete_lease (k_graph claim)
    (lease_of (k_job claim) (k_attempt claim) (k_instance claim) (k_epoch claim));
  _ ← check (negb released) (RuntimeError "reconciliation lease release failed");
  _ ← clear_running (k_graph claim) (k_job claim);
  mret tt.

(** The WHERE clause of the updates of the reconciled job. *)
Definition reconciling (claim : JobClaim) (j : job) : bool :=
  bool_decide (j_state j = RECONCILIATION_REQUIRED) && (j_attempt j =? k_attempt claim).

Definition _close_terminal (claim : JobClaim) (target : JobState) (publication : PublicationState)
    (category diagnostic_summary : option pystr) : tx unit :=
  e ← get_env;
  _ ← update_job (k_job claim) (reconciling claim)
        (fun j => set_j_state target (set_j_pub publication (set_j_error category
           (set_j_finished (Some (now e)) (set_j_updated (now e) j)))));
  _ ← _close_attempt claim publication category diagnostic_summary;
  _delete_lease claim.

Definition _pause_graph_intent (claim : JobClaim) : tx unit :=
  e ← get_env;
  d ← get_db;
  match jobs d !! k_job claim with
  | Some j =>
      upsert_intent (job_graph j)
        (MkCoalescing (job_gens j) true true [lit "publication_unknown"] None None None (now e))
        (fun c => set_c_paused true (set_c_dirty true (set_c_queued None
                    (set_c_reasons [lit "publication_unknown"] c))))
  | None => mret tt
  end.

Definition _queue_retry (claim : JobClaim) (publication : PublicationState) : tx unit :=
  e ← get_env;
  _ ← update_job (k_job claim) (reconciling claim)
        (fun j => set_j_state QUEUED (set_j_pub NOT_STARTED (set_j_error (Some (lit "transient"))
           (set_j_next_eligible (now e + second) (set_j_updated (now e) j)))));
  _ ← _close_attempt claim publication (Some (lit "transient")) None;
  _delete_lease claim.

(** What [reconcile_publication] returns: the state it decided, or that the claim
    is no longer the job's current attempt. *)
Inductive Reconciled := Decided (s : JobState) | OwnershipLost.

Definition reconcile_publication (claim : JobClaim) (max_attempts : Z)
    (reconciler_instance_id : pystr) (reconciler_epoch : Z) (unpublished_proved : bool)
    : tx Reconciled :=
  _ ← require_live_owner reconciler_instance_id reconciler_epoch;
  d ← get_db;
  match _lock_evidence d claim with
  | None => mret OwnershipLost
  | Some row =>
      let job_pub := j_pub (ev_job row) in
      let attempt_pub := a_pub (ev_attempt row) in
      if bool_decide (a_finished (ev_attempt row) = None) then mret (Decided RECONCILIATION_REQUIRED)
      else
        match _marker_classification row with
        | MatchingCommitted =>
            _ ← _close_terminal claim SUCCEEDED COMMITTED None
                  (if bool_decide (is_Some (j_cancel_at (ev_job row)))
                   then Some (lit "cancellation_not_applied") else None);
            mret (Decided SUCCEEDED)
        | Conflicting =>
            _ ← _pause_graph_intent claim;
            _ ← _close_terminal claim QUARANTINED job_pub (Some (lit "publication_unknown")) None;
            mret (Decided QUARANTINED)
        | Absent =>
            if bool_decide (j_error (ev_job row) = Some (lit "protocol")) then
              _ ← _pause_graph_intent claim;
              _ ← _close_terminal claim QUARANTINED job_pub (Some (lit "protocol")) None;
              mret (Decided QUARANTINED)
            else if a_lease_epoch (ev_attempt row) <=? 0 then mret (Decided RECONCILIATION_REQUIRED)
            else if unpublished_proved
                    && (negb (bool_decide (job_pub = NOT_STARTED))
                        || negb (bool_decide (attempt_pub = NOT_STARTED)))
            then mret (Decided RECONCILIATION_REQUIRED)
            else if bool_decide (job_pub = COMMIT_UNKNOWN) || bool_decide (attempt_pub = COMMIT_UNKNOWN)
            then mret (Decided RECONCILIATION_REQUIRED)
            else if bool_decide (is_Some (j_cancel_at (ev_job row))) then
              let proved_absence :=
                unpublished_proved && bool_decide (job_pub = NOT_STARTED)
                && bool_decide (attempt_pub = NOT_STARTED) in
              let proved_rollback :=
                bool_decide (job_pub ∈ [NOT_STARTED; ROLLED_BACK])
                && bool_decide (attempt_pub ∈ [NOT_STARTED; ROLLED_BACK])
                && (bool_decide (job_pub = ROLLED_BACK) || bool_decide (attempt_pub = ROLLED_BACK)) in
              if proved_absence || proved_rollback then
                _ ← _close_terminal claim CANCELLED ROLLED_BACK (Some (lit "cancelled")) None;
                mret (Decided CANCELLED)
              else mret (Decided RECONCILIATION_REQUIRED)
            else if max_attempts <=? j_attempt (ev_job row) then
              _ ← _close_terminal claim FAILED ROLLED_BACK (Some (lit "permanent")) None;
              mret (Decided FAILED)
            else
              _ ← _queue_retry claim (if bool_decide (job_pub = NOT_STARTED) then NOT_STARTED
                                      else ROLLED_BACK);
              mret (Decided QUEUED)
        end
  end.

(** ** Startup *)

Definition _ABANDONED_STATES : list JobState :=
  [CLAIMED; STARTING; RUNNING; CANCEL_REQUESTED; CANCELLING].

Definition submission_order (e : env) (x y : pystr * job) : bool :=
  not_gt (lex [j_submitted_at (j_spec x.2) ?= j_submitted_at (j_spec y.2); text_compare e x.1 y.1]).

(** The current attempt of the job, where it belongs to another owner. *)
Definition abandoned (d : db) (instance_id : pystr) (epoch : Z) (jid : pystr) (j : job) : bool :=
  bool_decide (j_state j ∈ _ABANDONED_STATES)
  && match attempts d !! (jid, j_attempt j) with
     | Some a => a_current a
                 && negb (bool_decide (a_instance a = instance_id) && (a_epoch a =? epoch))
     | None => false
     end.

Definition fence_abandoned (jid : pystr) (n : Z) : tx unit :=
  e ← get_env;
  fenced ← update_job jid (fun j => j_attempt j =? n)
    (fun j => set_j_state RECONCILIATION_REQUIRED (set_j_pub COMMIT_UNKNOWN
       (set_j_error (Some (lit "publication_unknown")) (set_j_updated (now e) j))));
  _ ← check (negb fenced) (RuntimeError "abandoned job fencing failed");
  closed ← update_attempt (jid, n) a_current
    (fun a => set_a_finished (coalesce (a_finished a) (Some (now e))) (set_a_registration None
       (set_a_consumed true (set_a_pub COMMIT_UNKNOWN
          (set_a_result (Some (lit "publication_unknown")) a)))));
  check (negb closed) (RuntimeError "abandoned attempt closure failed").

Fixpoint fence_all (rows : list (pystr * job)) : tx unit :=
  match rows with
  | [] => mret tt
  | (jid, j) :: rest => _ ← fence_abandoned jid (j_attempt j); fence_all rest
  end.

Definition recover_abandoned_attempts (instance_id : pystr) (fencing_epoch limit : Z) : tx Z :=
  _ ← check (limit <=? 0) (ValueError "abandoned-attempt limit must be positive");
  e ← get_env;
  d ← get_db;
  _ ← check (negb (live_at d (now e) instance_id fencing_epoch))
        (RuntimeError "replacement coordinator is not the live owner");
  let rows := take (Z.to_nat limit)
                (select_jobs d (abandoned d instance_id fencing_epoch) (submission_order e)) in
  _ ← fence_all rows;
  mret (Z.of_nat (length rows)).

(** The claim of the job's current attempt. *)
Definition current_claim (d : db) (kj : pystr * job) : option JobClaim :=
  a ← attempts d !! (kj.1, j_attempt kj.2);
  mret (MkClaim kj.1 (job_graph kj.2) (j_attempt kj.2) (a_instance a) (a_epoch a) (job_class kj.2)
          (job_gens kj.2) (a_lease_epoch a)).

Definition reconciliation_claims (limit : Z) : tx (list JobClaim) :=
  _ ← check (limit <=? 0) (ValueError "reconciliation limit must be positive");
  e ← get_env;
  d ← get_db;
  mret (omap (current_claim d)
    (take (Z.to_nat limit)
       (select_jobs d (fun jid j =>
          bool_decide (j_state j = RECONCILIATION_REQUIRED)
          && match attempts d !! (jid, j_attempt j) with
             | Some a => a_current a | None => false end)
        (submission_order e)))).

(** ** Polling *)

Section Polling.
Context {U : Unicode}.

Definition _safe_graph_id (value : pystr) : res pystr :=
  if fullmatch _CONFIGURED_GRAPH_ID_PATTERN value then Ok value
  else Err (ValueError "graph_id is invalid").

(** [next_reconcile] is the interval in microseconds. *)
Definition record_current (graph : pystr) (gens : GenerationTuple) (next_reconcile : Z) : tx bool :=
  graph ← lift (_safe_graph_id graph);
  _ ← check (next_reconcile <=? 0) (ValueError "reconciliation delay is invalid");
  e ← get_env;
  update_intent graph (fun _ => true)
    (fun c => set_c_desired gens (set_c_dirty false (set_c_reasons [lit "current"]
       (set_c_next_reconcile (Some (now e + next_reconcile)) (set_c_last_hint (now e) c))))).

Definition record_condition (graph category : pystr) (next_reconcile : Z) : tx bool :=
  graph ← lift (_safe_graph_id graph);
  category ← lift (_safe_category category "condition");
  _ ← check (next_reconcile <=? 0) (ValueError "reconciliation delay is invalid");
  e ← get_env;
  update_intent graph (fun _ => true)
    (fun c => set_c_reasons [category]
       (set_c_next_reconcile (Some (now e + next_reconcile)) (set_c_last_hint (now e) c))).

End Polling.
