(* ===== verification/ControlMaintenance.v ===== *)
(** Publication markers and terminal cleanup ([coordinator/_control_maintenance.py]),
    launch registration ([coordinator/_supervisor_registration.py]) and the fencing
    of replaced attempts ([coordinator/_restart_fencing.py]).

    What the fencing code calls outside the control database is a parameter: the
    callback that fences the graph's storage and the closer of the publication
    file return whether they succeeded. *)
From S2P Require Import Prelude PyVal Ordering Limits Contracts Semantics ControlDb ControlOwnership.
From S2P Require Import ControlReconciliation.
Open Scope Z_scope.

(** ** Markers *)

(** Whether another marker has the graph's run identity. *)
Definition run_taken (d : db) (graph run : pystr) : bool :=
  existsb (fun km => bool_decide (m_graph km.2 = graph) && bool_decide (m_run km.2 = run))
    (map_to_list (markers d)).

Definition record_publication_marker (claim : JobClaim) (run_identity : pystr)
    (gens : GenerationTuple) (outcome : MarkerOutcome) : tx bool :=
  e ← get_env;
  d ← get_db;
  match markers d !! (k_job claim, k_attempt claim) with
  | None =>
      _ ← check (run_taken d (k_graph claim) run_identity)
            (IntegrityError (UniqueConstraint "synthetic_publication_markers_graph_id_run_identity_key"));
      _ ← check (bool_decide (attempts d !! (k_job claim, k_attempt claim) = None))
            (IntegrityError ForeignKeyConstraint);
      _ ← put_db (set_markers
            (<[(k_job claim, k_attempt claim) :=
                 MkMarker (k_graph claim) run_identity gens outcome (now e)]> (markers d)) d);
      mret true
  | Some m =>
      _ ← check (negb (bool_decide (m_graph m = k_graph claim) && bool_decide (m_run m = run_identity)
                       && bool_decide (m_gens m = gens) && bool_decide (m_outcome m = outcome)))
            (ValueError "publication marker conflict");
      mret false
  end.

(** ** Cleanup *)

Record CleanupReport := MkReport { deleted_job_ids : list pystr; residuals : list pystr }.

(** [raise] of the retirer: the exceptions cleanup distinguishes. *)
Inductive retire_error :=
| RetirePermission | RetireNotFound | RetireOs | RetireValue
| RetireOther (x : exn).   (** not caught *)

Definition _sanitize_error_category (err : retire_error) : pystr :=
  match err with
  | RetirePermission => lit "permission_denied"
  | RetireNotFound => lit "not_found"
  | RetireOs => lit "os_error"
  | RetireValue => lit "validation_error"
  | RetireOther _ => lit "unknown_error"
  end.

(** Whether a lease or another job refers to the job. *)
Definition job_leased (d : db) (jid : pystr) : bool :=
  existsb (fun gl => bool_decide (l_job gl.2 = jid)) (map_to_list (leases d)).

Definition job_linked (d : db) (jid : pystr) : bool :=
  existsb (fun kj => bool_decide (j_replacement kj.2 = Some jid)
                     || bool_decide (j_parent (j_spec kj.2) = Some jid)) (map_to_list (jobs d)).

Definition cleanable (e : env) (d : db) (minimum_age : Z) (jid : pystr) (j : job) : bool :=
  is_terminal (j_state j)
  && match j_finished j with Some t => t <=? now e - minimum_age | None => false end
  && negb (bool_decide (j_pub j = COMMIT_UNKNOWN))
  && negb (job_leased d jid) && negb (job_linked d jid)
  && negb (bool_decide (jid ∈ locked e)).

Definition finished_order (e : env) (x y : pystr * job) : bool :=
  not_gt (lex [default 0 (j_finished x.2) ?= default 0 (j_finished y.2); text_compare e x.1 y.1]).

(** The attempts of a job in attempt order, as claims: the SELECT reads neither the
    priority class nor the lease epoch, which keep the defaults of [JobClaim]. *)
Definition attempt_claims (d : db) (jid : pystr) : list JobClaim :=
  match jobs d !! jid with
  | None => []
  | Some j =>
      (fun ka => MkClaim jid (job_graph j) ka.1.2 (a_instance ka.2) (a_epoch ka.2)
                   (lit "automatic") (a_gens ka.2) 0) <$>
        merge_sort (fun x y => Is_true (x.1.2 <=? y.1.2))
          (List.filter (fun ka => bool_decide (ka.1.1 = jid)) (map_to_list (attempts d)))
  end.

(** [f"{job_id}:{attempt}:{category}"] *)
Definition residual_token (claim : JobClaim) (err : retire_error) : pystr :=
  k_job claim ++ [58] ++ str_of_int (k_attempt claim) ++ [58] ++ _sanitize_error_category err.

(** Retires the evidence of every attempt; the residuals of those that failed. *)
Fixpoint retire_claims (retirer : JobClaim -> option retire_error) (claims : list JobClaim)
    : res (list pystr) :=
  match claims with
  | [] => Ok []
  | claim :: rest =>
      match retirer claim with
      | Some (RetireOther x) => Err x
      | Some err => tokens ← retire_claims retirer rest; Ok (residual_token claim err :: tokens)
      | None => retire_claims retirer rest
      end
  end.

(** The jobs whose evidence is retired, at most [limit], and the residuals. *)
Fixpoint retire_jobs (d : db) (retirer : JobClaim -> option retire_error) (limit : nat)
    (candidates : list pystr) : res (list pystr * list pystr) :=
  match limit, candidates with
  | S limit', jid :: rest =>
      tokens ← retire_claims retirer (attempt_claims d jid);
      match tokens with
      | [] => r ← retire_jobs d retirer limit' rest; Ok (jid :: r.1, r.2)
      | _ => r ← retire_jobs d retirer limit rest; Ok (r.1, tokens ++ r.2)
      end
  | _, _ => Ok ([], [])
  end.

(** Whether a remaining row refers to the job. *)
Definition job_referenced (d : db) (jid : pystr) : bool :=
  job_linked d jid
  || existsb (fun gc => bool_decide (c_queued gc.2 = Some jid) || bool_decide (c_running gc.2 = Some jid))
       (map_to_list (intents d))
  || existsb (fun ka => bool_decide (ka.1.1 = jid)) (map_to_list (attempts d)).

(** The three DELETE statements. *)
Definition delete_jobs (ids : list pystr) : tx unit :=
  d ← get_db;
  let d1 := set_markers (filter (fun km : (pystr * Z) * marker => km.1.1 ∉ ids) (markers d)) d in
  _ ← check (existsb (fun gl => bool_decide (l_job gl.2 ∈ ids)) (map_to_list (leases d1)))
        (IntegrityError ForeignKeyConstraint);
  let d2 := set_attempts (filter (fun ka : (pystr * Z) * attempt => ka.1.1 ∉ ids) (attempts d1)) d1 in
  let d3 := set_jobs (filter (fun kj : pystr * job => kj.1 ∉ ids) (jobs d2)) d2 in
  _ ← check (existsb (job_referenced d3) ids) (IntegrityError ForeignKeyConstraint);
  put_db d3.

Definition cleanup_terminal (minimum_age limit : Z) (dry_run : bool)
    (publication_retirer : option (JobClaim -> option retire_error)) : tx CleanupReport :=
  _ ← check ((minimum_age <? 0) || (limit <=? 0)) (ValueError "cleanup bounds are invalid");
  let scan_limit := if bool_decide (is_Some (publication_retirer)) then Z.max (limit * 4) (limit + 64)
                    else limit in
  e ← get_env;
  d ← get_db;
  let candidates := take (Z.to_nat scan_limit)
        (fst <$> select_jobs d (cleanable e d minimum_age) (finished_order e)) in
  match candidates with
  | [] => mret (MkReport [] [])
  | _ =>
      if dry_run then mret (MkReport (take (Z.to_nat limit) candidates) [])
      else
        r ← lift (match publication_retirer with
                  | None => Ok (take (Z.to_nat limit) candidates, [])
                  | Some retirer => retire_jobs d retirer (Z.to_nat limit) candidates
                  end);
        _ ← (if bool_decide (r.1 = []) then mret tt else delete_jobs r.1);
        mret (MkReport r.1 r.2)
  end.

(** ** Current durable authority *)

(** The row [lock_and_validate_current_durable] returns: the attempt with its job. *)
Definition lock_and_validate_current_durable (claim : JobClaim) (reconciler_instance_id : pystr)
    (reconciler_epoch : Z) (restart allow_legacy : bool) (expected_registration : option pystr)
    : tx (option (attempt * job)) :=
  e ← get_env;
  _ ← check (contended e) FencingContentionError;
  d ← get_db;
  mret (
    if negb (live_at d (clock e) reconciler_instance_id reconciler_epoch) then None
    else
      match attempts d !! (k_job claim, k_attempt claim), jobs d !! k_job claim with
      | Some a, Some j =>
          if negb (a_current a && (j_attempt j =? k_attempt claim)) then None
          else if negb (bool_decide (job_graph j = k_graph claim)
                        && bool_decide (a_instance a = k_instance claim)
                        && (a_epoch a =? k_epoch claim) && bool_decide (a_gens a = k_gens claim))
          then None
          else if match expected_registration with
                  | None => false
                  | Some expected => negb (bool_decide (a_registration a = Some expected)
                                           && negb (bool_decide (expected = []))
                                           && negb (a_consumed a))
                  end
          then None
          else if (if allow_legacy
                   then negb (a_lease_epoch a =? 0) || negb (k_lease_epoch claim =? 0)
                        || (reconciler_epoch <=? k_epoch claim)
                   else (a_lease_epoch a <=? 0) || negb (a_lease_epoch a =? k_lease_epoch claim))
          then None
          else if (if restart
                   then negb (bool_decide (j_state j = RECONCILIATION_REQUIRED))
                        || (reconciler_epoch <=? k_epoch claim)
                   else negb (bool_decide (reconciler_instance_id = k_instance claim))
                        || negb (reconciler_epoch =? k_epoch claim)
                        || negb (bool_decide (j_state j ∈ [STARTING; RUNNING; CANCEL_REQUESTED;
                                                             CANCELLING])))
          then None
          else
            match leases d !! k_graph claim with
            | None => None
            | Some l =>
                if negb (lease_of (k_job claim) (k_attempt claim) (k_instance claim) (k_epoch claim) l)
                then None
                else if (if allow_legacy then negb (l_lease_epoch l =? 0)
                         else negb (l_lease_epoch l =? k_lease_epoch claim))
                then None
                else if Bool.eqb (clock e <? l_expires l) restart then None
                else Some (a, j)
            end
      | _, _ => None
      end).

Definition stale_authority : exn :=
  StaleDurableAuthorityError "current durable attempt or lease authority has turned over".

Definition _require_currency (claim : JobClaim) (reconciler_instance_id : pystr)
    (reconciler_epoch : Z) (restart allow_legacy : bool) (expected_registration : option pystr)
    : tx unit :=
  row ← lock_and_validate_current_durable claim reconciler_instance_id reconciler_epoch restart
          allow_legacy expected_registration;
  check (bool_decide (row = None)) stale_authority.

(** [try: m except ...]: the handler's value after the rollback. *)
Definition handling {A} (m : tx A) (handler : exn -> option A) : tx A := fun e d =>
  match m e d with
  | Ok r => Ok r
  | Err x => match handler x with Some a => Ok (a, d) | None => Err x end
  end.

(** ** Launch registration *)

Definition validate_supervisor_registration (claim : JobClaim) (registration_digest : pystr) : tx unit :=
  _require_currency claim (k_instance claim) (k_epoch claim) false false (Some registration_digest).

Definition persist_supervisor_registration (claim : JobClaim) (registration_digest : pystr) : tx unit :=
  _ ← check (negb (is_hex64 registration_digest))
        (PermissionError "invalid supervisor registration digest");
  row ← lock_and_validate_current_durable claim (k_instance claim) (k_epoch claim) false false None;
  match row with
  | None => throw stale_authority
  | Some (a, _) =>
      _ ← check (bool_decide (is_Some (a_registration a)) || a_consumed a)
            (PermissionError "supervisor registration already exists or was consumed for this attempt");
      recorded ← update_attempt (k_job claim, k_attempt claim)
        (owned_current (k_instance claim) (k_epoch claim))
        (set_a_registration (Some registration_digest));
      check (negb recorded)
        (StaleDurableAuthorityError "failed to record supervisor registration digest")
  end.

(** The durable effect of [in_process_currency_context]: the registration is consumed
    and committed whatever the file decision inside it does. *)
Definition in_process_currency_context (claim : JobClaim) (registration_digest : option pystr)
    : tx unit :=
  match registration_digest with
  | None => throw (StaleDurableAuthorityError "durable launch registration is required")
  | Some digest =>
      _ ← check (negb (is_hex64 digest))
            (StaleDurableAuthorityError "durable launch registration is required");
      _ ← _require_currency claim (k_instance claim) (k_epoch claim) false false (Some digest);
      consumed ← update_attempt (k_job claim, k_attempt claim)
        (owned_current (k_instance claim) (k_epoch claim)) (set_a_consumed true);
      check (negb consumed)
        (StaleDurableAuthorityError "failed to consume supervisor registration digest")
  end.

(** ** Replacement fencing *)

(** [make_store_closure_context_factory]'s context up to its [yield]: currency before
    and after the graph's storage is fenced. *)
Definition closure_context (claim : JobClaim) (reconciler_instance_id : pystr)
    (reconciler_epoch : Z) (fence_callback : option (res bool)) : tx unit :=
  match fence_callback with
  | None => throw (StaleDurableAuthorityError "durable graph fencing is unavailable")
  | Some fence =>
      _ ← _require_currency claim reconciler_instance_id reconciler_epoch true false None;
      fenced ← lift fence;
      _ ← check (negb fenced)
            (StaleDurableAuthorityError "durable graph fence installation was not verified");
      _require_currency claim reconciler_instance_id reconciler_epoch true false None
  end.

(** Whether a fencing proof is issued. *)
Definition build_store_fencing_proof (claim : JobClaim) (reconciler_instance_id : pystr)
    (reconciler_epoch : Z) (fence_callback : option (res bool)) : tx bool :=
  match fence_callback with
  | None => mret false
  | Some _ =>
      handling
        (row ← lock_and_validate_current_durable claim reconciler_instance_id reconciler_epoch true
                 false None;
         mret (bool_decide (is_Some row)))
        (fun x => if bool_decide (x = FencingContentionError) then Some false else None)
  end.

Definition durable_closure (claim : JobClaim) (reconciler_instance_id : pystr)
    (reconciler_epoch : Z) (fence_callback : option (res bool)) (closer : res bool) : tx bool :=
  d ← get_db;
  _ ← closure_context claim reconciler_instance_id reconciler_epoch fence_callback;
  closed ← lift closer;
  if negb closed then _ ← put_db d; mret false
  else
    e ← get_env;
    job_closed ← update_job (k_job claim) (reconciling claim)
      (fun j => set_j_pub NOT_STARTED (set_j_updated (now e) j));
    _ ← check (negb job_closed) (StaleDurableAuthorityError "current job closure failed");
    attempt_closed ← update_attempt (k_job claim, k_attempt claim) a_current
      (fun a => set_a_pub NOT_STARTED (set_a_registration None a));
    _ ← check (negb attempt_closed) (StaleDurableAuthorityError "current attempt closure failed");
    mret true.

Definition is_permission_error (x : exn) : bool :=
  match x with
  | PermissionError _ | FencingContentionError => true
  | _ => false
  end.

Definition execute_durable_closure (claim : JobClaim) (reconciler_instance_id : pystr)
    (reconciler_epoch : Z) (fence_callback : option (res bool)) (file_closer : option (res bool))
    : tx bool :=
  match fence_callback, file_closer with
  | Some _, Some closer =>
      handling (durable_closure claim reconciler_instance_id reconciler_epoch fence_callback closer)
        (fun x => if is_permission_error x then Some false else None)
  | _, _ => mret false
  end.

Definition quarantine_legacy (claim : JobClaim) (reconciler_instance_id : pystr)
    (reconciler_epoch : Z) (fence : res bool) : tx bool :=
  row ← lock_and_validate_current_durable claim reconciler_instance_id reconciler_epoch true true None;
  match row with
  | None => mret false
  | Some _ =>
      e ← get_env;
      _ ← check (xid e <=? 0) (RuntimeError "durable replacement epoch allocation failed");
      fenced ← lift fence;
      _ ← check (negb fenced)
            (StaleDurableAuthorityError "durable graph fence installation was not verified");
      _ ← _require_currency claim reconciler_instance_id reconciler_epoch true true None;
      job_closed ← update_job (k_job claim) (reconciling claim)
        (fun j => set_j_state QUARANTINED (set_j_pub COMMIT_UNKNOWN
           (set_j_error (Some (lit "legacy_zero_epoch")) (set_j_finished (Some (now e))
              (set_j_updated (now e) j)))));
      _ ← check (negb job_closed) (StaleDurableAuthorityError "legacy attempt quarantine failed");
      attempt_closed ← update_attempt (k_job claim, k_attempt claim)
        (owned_current (k_instance claim) (k_epoch claim))
        (fun a => set_a_current false (set_a_finished (coalesce (a_finished a) (Some (now e)))
           (set_a_pub COMMIT_UNKNOWN (set_a_result (Some (lit "legacy_zero_epoch"))
              (set_a_registration None a)))));
      _ ← check (negb attempt_closed) (StaleDurableAuthorityError "legacy attempt closure failed");
      released ← delete_lease (k_graph claim) (fun l =>
        lease_of (k_job claim) (k_attempt claim) (k_instance claim) (k_epoch claim) l
        && (l_lease_epoch l =? 0));
      _ ← check (negb released) (StaleDurableAuthorityError "legacy lease deletion failed");
      _ ← clear_running (k_graph claim) (k_job claim);
      mret true
  end.

Definition is_stale_or_contended (x : exn) : bool :=
  match x with
  | StaleDurableAuthorityError _ | FencingContentionError => true
  | _ => false
  end.

Definition quarantine_legacy_attempt (claim : JobClaim) (reconciler_instance_id : pystr)
    (reconciler_epoch : Z) (fence_callback : option (res bool)) : tx bool :=
  match fence_callback with
  | Some fence =>
      if negb (k_lease_epoch claim =? 0) then mret false
      else handling (quarantine_legacy claim reconciler_instance_id reconciler_epoch fence)
             (fun x => if is_stale_or_contended x then Some false else None)
  | None => mret false
  end.
