(* ===== verification/Protocol.v ===== *)
(** The abstract job protocol the control store implements, and its invariants.

    The state keeps of each table only the columns the protocol is about.  Six kinds
    of step change it: a submission, a claim, an update of one job (with the closing
    of its attempt and the release of its lease where the job leaves its active
    states), the release of a finished job's lease, the recording of a publication
    marker, and a takeover of the singleton.  Cleanup forgets finished jobs.  The
    store's operations are shown to be sequences of such steps in [ControlRefinement];
    here the invariants are proved by induction over the steps. *)
From S2P Require Import Prelude Limits Contracts ContractsFacts Semantics ControlDb.
Open Scope Z_scope.

(** ** State *)

Record jview := MkJView {
  v_spec : job_spec; v_state : JobState; v_pub : PublicationState; v_attempt : Z
}.

Record aview := MkAView {
  v_instance : pystr; v_epoch : Z; v_current : bool; v_gens : GenerationTuple; v_lease_epoch : Z
}.

Record lview := MkLView {
  w_job : pystr; w_attempt : Z; w_instance : pystr; w_epoch : Z; w_lease_epoch : Z
}.

Record proto := MkProto {
  p_jobs : gmap pystr jview;
  p_attempts : gmap (pystr * Z) aview;
  p_leases : gmap pystr lview;
  p_markers : gmap (pystr * Z) marker;
  p_owner : option (pystr * Z)      (** the singleton's instance and epoch *)
}.

Definition empty_proto : proto := MkProto ∅ ∅ ∅ ∅ None.

Abbreviation v_graph j := (j_graph (v_spec j)).

(** A job some attempt is responsible for. *)
Definition is_active (s : JobState) : bool :=
  bool_decide (s ∈ [CLAIMED; STARTING; RUNNING; CANCEL_REQUESTED; CANCELLING;
                    RECONCILIATION_REQUIRED]).

Definition close_view (a : aview) : aview :=
  MkAView (v_instance a) (v_epoch a) false (v_gens a) (v_lease_epoch a).

(** The publication states a job may have in a state. *)
Definition pub_ok (s : JobState) (p : PublicationState) : Prop :=
  (s = QUEUED -> p = NOT_STARTED) /\ (s = SUCCEEDED -> p = COMMITTED) /\
  (s ∈ [FAILED; CANCELLED; SUPERSEDED] -> p ∈ SAFE_UNPUBLISHED).

(** A committed marker of the job's last attempt, for its graph and generations. *)
Definition proved (p : proto) (jid : pystr) (j : jview) : Prop :=
  exists m, p_markers p !! (jid, v_attempt j) = Some m /\ m_outcome m = MarkerCommitted /\
            m_graph m = v_graph j /\ m_gens m = j_gens (v_spec j).

Definition nonterminal (kj : pystr * jview) : Prop := is_terminal (v_state kj.2) = false.
#[export] Instance nonterminal_dec kj : Decision (nonterminal kj).
Proof. unfold nonterminal. apply _. Defined.

Definition nonterminal_count (p : proto) : Z := Z.of_nat (size (filter nonterminal (p_jobs p))).

(** ** Steps *)

Section Steps.
(** The retry bound and the bound on nonterminal jobs. *)
Variables max_attempts max_jobs : Z.

Inductive pstep (p : proto) : proto -> Prop :=
| S_submit jid spec :
    p_jobs p !! jid = None ->
    (forall jid' j, p_jobs p !! jid' = Some j -> idempotency (v_spec j) <> idempotency spec) ->
    nonterminal_count p < max_jobs ->
    pstep p (MkProto (<[jid := MkJView spec QUEUED NOT_STARTED 0]> (p_jobs p)) (p_attempts p)
               (p_leases p) (p_markers p) (p_owner p))
| S_claim jid j instance epoch lease_epoch :
    p_owner p = Some (instance, epoch) ->
    p_jobs p !! jid = Some j -> v_state j = QUEUED -> v_attempt j < max_attempts ->
    p_leases p !! v_graph j = None -> p_attempts p !! (jid, v_attempt j + 1) = None ->
    pstep p (MkProto
      (<[jid := MkJView (v_spec j) CLAIMED (v_pub j) (v_attempt j + 1)]> (p_jobs p))
      (<[(jid, v_attempt j + 1) := MkAView instance epoch true (j_gens (v_spec j)) lease_epoch]>
         (p_attempts p))
      (<[v_graph j := MkLView jid (v_attempt j + 1) instance epoch lease_epoch]> (p_leases p))
      (p_markers p) (p_owner p))
| S_update jid j s' pub' drop :
    p_jobs p !! jid = Some j ->
    s' = v_state j \/ legal (v_state j) s' ->
    (is_active s' = true -> is_active (v_state j) = true) ->
    (drop = true -> is_active s' = false /\
       exists l, p_leases p !! v_graph j = Some l /\ w_job l = jid) ->
    (s' = SUCCEEDED -> v_state j = SUCCEEDED \/ proved p jid j) ->
    pub_ok s' pub' ->
    pstep p (MkProto
      (<[jid := MkJView (v_spec j) s' pub' (v_attempt j)]> (p_jobs p))
      (if is_active (v_state j) && negb (is_active s')
       then alter close_view (jid, v_attempt j) (p_attempts p) else p_attempts p)
      (if drop : bool then delete (v_graph j) (p_leases p) else p_leases p)
      (p_markers p) (p_owner p))
| S_release g l j :
    p_leases p !! g = Some l -> p_jobs p !! w_job l = Some j -> is_terminal (v_state j) = true ->
    pstep p (MkProto (p_jobs p) (p_attempts p) (delete g (p_leases p)) (p_markers p) (p_owner p))
| S_mark jid n m :
    p_markers p !! (jid, n) = None -> is_Some (p_attempts p !! (jid, n)) ->
    pstep p (MkProto (p_jobs p) (p_attempts p) (p_leases p) (<[(jid, n) := m]> (p_markers p))
               (p_owner p))
| S_acquire instance epoch :
    epoch = match p_owner p with Some (_, e) => e + 1 | None => 1 end ->
    pstep p (MkProto (p_jobs p) (p_attempts p) (p_leases p) (p_markers p) (Some (instance, epoch))).

(** Cleanup forgets a finished job with its attempts and markers. *)
Inductive pforget (p : proto) : proto -> Prop :=
| S_forget jid j :
    p_jobs p !! jid = Some j -> is_terminal (v_state j) = true ->
    (forall g l, p_leases p !! g = Some l -> w_job l <> jid) ->
    pforget p (MkProto (delete jid (p_jobs p))
               (filter (fun ka : (pystr * Z) * aview => ka.1.1 <> jid) (p_attempts p)) (p_leases p)
               (filter (fun km : (pystr * Z) * marker => km.1.1 <> jid) (p_markers p)) (p_owner p)).

(** ** Invariant *)

Record pinv (p : proto) : Prop := {
  (** an attempt belongs to a job, numbered up to its current attempt *)
  inv_attempt : forall jid n a, p_attempts p !! (jid, n) = Some a ->
    exists j, p_jobs p !! jid = Some j /\ 1 <= n <= v_attempt j /\ v_gens a = j_gens (v_spec j);
  (** a current attempt is the job's last one, and the job is active *)
  inv_current : forall jid n a j, p_attempts p !! (jid, n) = Some a -> v_current a = true ->
    p_jobs p !! jid = Some j -> n = v_attempt j /\ is_active (v_state j) = true;
  (** an active job has a current attempt, which holds the lease of its graph *)
  inv_active : forall jid j, p_jobs p !! jid = Some j -> is_active (v_state j) = true ->
    exists a, p_attempts p !! (jid, v_attempt j) = Some a /\ v_current a = true /\
      p_leases p !! v_graph j =
        Some (MkLView jid (v_attempt j) (v_instance a) (v_epoch a) (v_lease_epoch a));
  (** a lease is on the graph of its job, held by the job's last attempt *)
  inv_lease : forall g l, p_leases p !! g = Some l ->
    exists j a, p_jobs p !! w_job l = Some j /\ v_graph j = g /\ w_attempt l = v_attempt j /\
      p_attempts p !! (w_job l, w_attempt l) = Some a /\
      l = MkLView (w_job l) (w_attempt l) (v_instance a) (v_epoch a) (v_lease_epoch a);
  (** success is proved by a marker *)
  inv_success : forall jid j, p_jobs p !! jid = Some j -> v_state j = SUCCEEDED -> proved p jid j;
  inv_bound : forall jid j, p_jobs p !! jid = Some j -> 0 <= v_attempt j <= max_attempts;
  inv_count : nonterminal_count p <= max_jobs;
  inv_unique : forall jid1 jid2 j1 j2, p_jobs p !! jid1 = Some j1 -> p_jobs p !! jid2 = Some j2 ->
    idempotency (v_spec j1) = idempotency (v_spec j2) -> jid1 = jid2;
  inv_pub : forall jid j, p_jobs p !! jid = Some j -> pub_ok (v_state j) (v_pub j);
  (** an attempt's epoch is one of the singleton's, and the latest is its owner's *)
  inv_epoch : forall k a, p_attempts p !! k = Some a ->
    exists instance epoch, p_owner p = Some (instance, epoch) /\ 1 <= v_epoch a <= epoch /\
      (v_epoch a = epoch -> v_instance a = instance);
  inv_owner : forall instance epoch, p_owner p = Some (instance, epoch) -> 1 <= epoch;
  inv_marker : forall k m, p_markers p !! k = Some m -> is_Some (p_attempts p !! k)
}.

(** ** Lemmas *)

Lemma active_cases s : is_active s = true <-> s <> QUEUED /\ is_terminal s = false.
Proof. destruct s; vm_compute; split; naive_solver. Qed.

Lemma legal_from s t : legal s t -> is_terminal s = false.
Proof.
  intros H. apply not_true_iff_false. intros Ht%terminal_iff_final. unfold legal in H.
  rewrite Ht in H. by apply elem_of_nil in H.
Qed.

Lemma count_insert_new p jid j :
  p_jobs p !! jid = None ->
  Z.of_nat (size (filter nonterminal (<[jid := j]> (p_jobs p)))) <= nonterminal_count p + 1.
Proof.
  intros Hn. unfold nonterminal_count. destruct (decide (nonterminal (jid, j))) as [H|H].
  - rewrite map_filter_insert_True by done. rewrite map_size_insert_None; [lia|].
    apply map_lookup_filter_None. by left.
  - rewrite map_filter_insert_False, map_filter_delete by done.
    pose proof (map_subseteq_size _ _ (delete_subseteq (filter nonterminal (p_jobs p)) jid)). lia.
Qed.

Lemma count_insert_old p jid j j' :
  p_jobs p !! jid = Some j ->
  (is_terminal (v_state j) = true -> is_terminal (v_state j') = true) ->
  Z.of_nat (size (filter nonterminal (<[jid := j']> (p_jobs p)))) <= nonterminal_count p.
Proof.
  intros Hj Ht. unfold nonterminal_count. destruct (decide (nonterminal (jid, j'))) as [H|H].
  - rewrite map_filter_insert_True by done.
    assert (filter nonterminal (p_jobs p) !! jid = Some j) as Hf.
    { apply map_lookup_filter_Some. split; [done|]. unfold nonterminal in *. cbn in *.
      destruct (is_terminal (v_state j)); [|done]. rewrite Ht in H; done. }
    rewrite map_size_insert_Some; [lia|by eexists].
  - rewrite map_filter_insert_False, map_filter_delete by done.
    pose proof (map_subseteq_size _ _ (delete_subseteq (filter nonterminal (p_jobs p)) jid)). lia.
Qed.

(** A job keeps its proof when only its state and publication change. *)
Lemma proved_same p p' jid j j' :
  p_markers p' = p_markers p -> v_attempt j' = v_attempt j -> v_spec j' = v_spec j ->
  proved p jid j -> proved p' jid j'.
Proof. intros Hm Ha Hs (m & ? & ? & ? & ?). exists m. by rewrite Hm, Ha, Hs. Qed.

Ltac views :=
  cbn [p_jobs p_attempts p_leases p_markers p_owner v_spec v_state v_pub v_attempt
       v_instance v_epoch v_current v_gens v_lease_epoch w_job w_attempt w_instance w_epoch
       w_lease_epoch close_view fst snd] in *.

Ltac lookups :=
  views;
  repeat (
    match goal with
    | H : <[_ := _]> _ !! _ = Some _ |- _ => apply lookup_insert_Some in H as [[? ?]|[? H]]; simplify_eq
    | H : delete _ _ !! _ = Some _ |- _ => apply lookup_delete_Some in H as [? H]
    | H : filter _ _ !! _ = Some _ |- _ => apply map_lookup_filter_Some in H as [H ?]
    | H1 : ?m !! ?k = Some ?x, H2 : ?m !! ?k = Some ?y |- _ =>
        assert (x = y) by congruence; clear H2; subst
    end; views).

Lemma pinv_submit p jid spec :
  pinv p -> p_jobs p !! jid = None ->
  (forall jid' j, p_jobs p !! jid' = Some j -> idempotency (v_spec j) <> idempotency spec) ->
  nonterminal_count p < max_jobs -> 0 <= max_attempts ->
  pinv (MkProto (<[jid := MkJView spec QUEUED NOT_STARTED 0]> (p_jobs p)) (p_attempts p)
          (p_leases p) (p_markers p) (p_owner p)).
Proof.
  intros [Iatt Icur Iact Ilease Isucc Ibound Icount Iuniq Ipub Iep Iown Imark] Hn Hfresh Hcount Hmax.
  split.
  - intros jid' n a Ha. lookups. destruct (Iatt _ _ _ Ha) as (j & Hj & ?).
    exists j. split; [|done]. rewrite lookup_insert_ne by congruence. done.
  - intros jid' n a j Ha Hc Hj. lookups; [|eauto].
    destruct (Iatt _ _ _ Ha) as (j & Hj & ?). congruence.
  - intros jid' j Hj Hact. lookups; eauto.
  - intros g l Hl. lookups. destruct (Ilease _ _ Hl) as (j & a & Hj & ?).
    exists j, a. split; [|done]. rewrite lookup_insert_ne by congruence. done.
  - intros jid' j Hj Hs. lookups; try done. eapply proved_same; [..|by eauto]; done.
  - intros jid' j Hj. lookups; [lia|eauto].
  - pose proof (count_insert_new p jid (MkJView spec QUEUED NOT_STARTED 0) Hn).
    unfold nonterminal_count in *. cbn. lia.
  - intros jid1 jid2 j1 j2 H1 H2 He. views.
    apply lookup_insert_Some in H1 as [[<- <-]|[? H1]], H2 as [[<- <-]|[? H2]]; [done|..].
    + by destruct (Hfresh _ _ H2).
    + by destruct (Hfresh _ _ H1).
    + by eapply Iuniq.
  - intros jid' j Hj. lookups; [|eauto]. unfold pub_ok. cbn. split_and!; try done. set_solver.
  - done.
  - done.
  - done.
Qed.

Lemma pinv_claim p jid j instance epoch lease_epoch :
  pinv p -> p_owner p = Some (instance, epoch) ->
  p_jobs p !! jid = Some j -> v_state j = QUEUED -> v_attempt j < max_attempts ->
  p_leases p !! v_graph j = None -> p_attempts p !! (jid, v_attempt j + 1) = None ->
  pinv (MkProto
    (<[jid := MkJView (v_spec j) CLAIMED (v_pub j) (v_attempt j + 1)]> (p_jobs p))
    (<[(jid, v_attempt j + 1) := MkAView instance epoch true (j_gens (v_spec j)) lease_epoch]>
       (p_attempts p))
    (<[v_graph j := MkLView jid (v_attempt j + 1) instance epoch lease_epoch]> (p_leases p))
    (p_markers p) (p_owner p)).
Proof.
  intros [Iatt Icur Iact Ilease Isucc Ibound Icount Iuniq Ipub Iep Iown Imark]
    Ho Hj Hq Hlt Hfree Hnew.
  pose proof (Ibound _ _ Hj) as Hb.
  split.
  - intros jid' n a Ha. cbn in *. apply lookup_insert_Some in Ha as [[[= <- <-] <-]|[Hne Ha]].
    + eexists. rewrite lookup_insert_eq. split; [done|]. cbn. split; [lia|done].
    + destruct (Iatt _ _ _ Ha) as (j' & Hj' & Hr & Hg). destruct (decide (jid' = jid)) as [->|Hd].
      * eexists. rewrite lookup_insert_eq. split; [done|]. cbn.
        assert (j' = j) as -> by congruence. split; [lia|done].
      * exists j'. by rewrite lookup_insert_ne.
  - intros jid' n a j' Ha Hc Hj'. cbn in *.
    apply lookup_insert_Some in Ha as [[[= <- <-] <-]|[Hne Ha]]; lookups; try done.
    + destruct (Icur _ _ _ _ Ha Hc Hj) as [_ Hact]. rewrite Hq in Hact. by vm_compute in Hact.
    + eauto.
  - intros jid' j' Hj' Hact. lookups.
    + eexists. rewrite lookup_insert_eq. split; [done|]. cbn. split; [done|]. by rewrite lookup_insert_eq.
    + destruct (Iact _ _ Hj' Hact) as (a & Ha & Hc & Hl). exists a.
      rewrite lookup_insert_ne by congruence. split_and!; [done|done|].
      rewrite lookup_insert_ne by congruence. done.
  - intros g l Hl. lookups.
    + eexists _, _. rewrite lookup_insert_eq. split; [done|]. cbn. split_and!; [done|done| |].
      { by rewrite lookup_insert_eq. }
      done.
    + destruct (Ilease _ _ Hl) as (j' & a & Hj' & Hg & Hat & Ha & Heq).
      assert (w_job l <> jid) as Hd by congruence.
      exists j', a. rewrite lookup_insert_ne by done. split_and!; try done.
      rewrite lookup_insert_ne by congruence. done.
  - intros jid' j' Hj' Hs. lookups; try done. eapply proved_same; [..|by eauto]; done.
  - intros jid' j' Hj'. lookups; [lia|eauto].
  - etransitivity; [|exact Icount]. apply count_insert_old with j; [done|].
    intros Ht. rewrite Hq in Ht. by vm_compute in Ht.
  - intros jid1 jid2 j1 j2 H1 H2 He. views.
    apply lookup_insert_Some in H1 as [[<- <-]|[? H1]], H2 as [[<- <-]|[? H2]]; eauto.
  - intros jid' j' Hj'. lookups; [|eauto]. unfold pub_ok. split_and!; set_solver.
  - intros k a Ha. cbn in *. apply lookup_insert_Some in Ha as [[<- <-]|[Hne Ha]]; [|eauto].
    exists instance, epoch. cbn. specialize (Iown _ _ Ho). split_and!; [done|lia|lia|done].
  - done.
  - intros k m Hm. lookups. destruct (Imark _ _ Hm) as [a Ha].
    destruct (decide (k = (jid, v_attempt j + 1))) as [->|]; [by rewrite lookup_insert_eq|].
    rewrite lookup_insert_ne by done. by eexists.
Qed.

(** The attempts after an update that closes the job's attempt if [c]. *)
Lemma closed_lookup p jid n (c : bool) k a :
  (if c then alter close_view (jid, n) (p_attempts p) else p_attempts p) !! k = Some a ->
  exists a0, p_attempts p !! k = Some a0 /\
    v_instance a = v_instance a0 /\ v_epoch a = v_epoch a0 /\ v_gens a = v_gens a0 /\
    v_lease_epoch a = v_lease_epoch a0 /\
    (v_current a = true -> v_current a0 = true /\ (c = true -> k <> (jid, n))).
Proof.
  destruct c; [|by eauto 10]. intros [[<- (a0 & ? & ->)]|[? ?]]%lookup_alter_Some.
  - exists a0. by cbn.
  - exists a. naive_solver.
Qed.

Lemma closed_keep p jid n (c : bool) k a :
  p_attempts p !! k = Some a ->
  exists a', (if c then alter close_view (jid, n) (p_attempts p) else p_attempts p) !! k = Some a' /\
    v_instance a' = v_instance a /\ v_epoch a' = v_epoch a /\ v_lease_epoch a' = v_lease_epoch a /\
    (c = false \/ k <> (jid, n) -> a' = a).
Proof.
  intros Ha. destruct c; [|by eauto 10]. destruct (decide (k = (jid, n))) as [->|Hne].
  - exists (close_view a). rewrite lookup_alter_eq, Ha. naive_solver.
  - exists a. by rewrite lookup_alter_ne by congruence.
Qed.

Lemma pinv_update p jid j s' pub' (drop : bool) :
  pinv p -> p_jobs p !! jid = Some j -> s' = v_state j \/ legal (v_state j) s' ->
  (is_active s' = true -> is_active (v_state j) = true) ->
  (drop = true -> is_active s' = false /\
     exists l, p_leases p !! v_graph j = Some l /\ w_job l = jid) ->
  (s' = SUCCEEDED -> v_state j = SUCCEEDED \/ proved p jid j) -> pub_ok s' pub' ->
  pinv (MkProto
    (<[jid := MkJView (v_spec j) s' pub' (v_attempt j)]> (p_jobs p))
    (if is_active (v_state j) && negb (is_active s')
     then alter close_view (jid, v_attempt j) (p_attempts p) else p_attempts p)
    (if drop then delete (v_graph j) (p_leases p) else p_leases p)
    (p_markers p) (p_owner p)).
Proof.
  intros [Iatt Icur Iact Ilease Isucc Ibound Icount Iuniq Ipub Iep Iown Imark]
    Hj Hlegal Hact Hdrop Hproof Hpub.
  set (c := is_active (v_state j) && negb (is_active s')).
  split.
  - intros jid' n a Ha. views. destruct (closed_lookup _ _ _ _ _ _ Ha) as (a0 & Ha0 & _ & _ & Hg & _).
    destruct (Iatt _ _ _ Ha0) as (j' & Hj' & Hr & Hg').
    destruct (decide (jid' = jid)) as [->|Hne].
    + eexists. rewrite lookup_insert_eq. split; [done|]. views. assert (j' = j) as -> by congruence.
      split; [done|congruence].
    + exists j'. rewrite lookup_insert_ne by done. split_and!; [done|lia|lia|congruence].
  - intros jid' n a j' Ha Hc Hj'. views.
    destruct (closed_lookup _ _ _ _ _ _ Ha) as (a0 & Ha0 & _ & _ & _ & _ & Hcur).
    destruct (Hcur Hc) as [Hc0 Hk]. apply lookup_insert_Some in Hj' as [[<- <-]|[Hne Hj']].
    + destruct (Icur _ _ _ _ Ha0 Hc0 Hj) as [-> Hja]. views. split; [done|].
      destruct (is_active s') eqn:Es; [done|]. unfold c in Hk. rewrite Hja in Hk. by destruct (Hk eq_refl).
    + eauto.
  - intros jid' j' Hj' Hact'. views. apply lookup_insert_Some in Hj' as [[<- <-]|[Hne Hj']]; views.
    + destruct (Iact _ _ Hj (Hact Hact')) as (a & Ha & Hc & Hl).
      exists a. unfold c. rewrite Hact', andb_false_r. split_and!; [done|done|].
      destruct drop; [|done]. destruct (Hdrop eq_refl) as [? _]. congruence.
    + destruct (Iact _ _ Hj' Hact') as (a & Ha & Hc & Hl).
      destruct (closed_keep p jid (v_attempt j) c _ _ Ha) as (a' & Ha' & _ & _ & _ & Hsame).
      rewrite Hsame in Ha' by (right; congruence). exists a. split_and!; [done|done|].
      destruct drop; [|done]. destruct (Hdrop eq_refl) as (_ & l & Hl' & Hw).
      rewrite lookup_delete_ne; [done|]. intros Hg. rewrite Hg, Hl in Hl'. naive_solver.
  - intros g l Hl. views.
    assert (p_leases p !! g = Some l) as Hl0 by (destruct drop; [by lookups|done]).
    destruct (Ilease _ _ Hl0) as (j' & a & Hj' & Hg & Hat & Ha & Heq).
    destruct (closed_keep p jid (v_attempt j) c _ _ Ha) as (a' & Ha' & Hi & He & Hle & _).
    destruct (decide (w_job l = jid)) as [Hw|Hne].
    + subst jid. assert (j' = j) as -> by congruence.
      eexists _, a'. rewrite lookup_insert_eq. split; [done|]. views.
      split_and!; [done|done|done|congruence].
    + exists j', a'. rewrite lookup_insert_ne by done. split_and!; try done. congruence.
  - intros jid' j' Hj' Hs. views. apply lookup_insert_Some in Hj' as [[<- <-]|[Hne Hj']]; views.
    + destruct (Hproof Hs) as [Hold|Hp].
      * eapply proved_same; [..|by eapply Isucc]; done.
      * eapply proved_same; [..|exact Hp]; done.
    + eapply proved_same; [..|by eapply Isucc]; done.
  - intros jid' j' Hj'. lookups; [by eapply Ibound|eauto].
  - etransitivity; [|exact Icount]. apply count_insert_old with j; [done|]. views.
    intros Ht. destruct Hlegal as [->|Hl]; [done|]. apply legal_from in Hl. congruence.
  - intros jid1 jid2 j1 j2 H1 H2 He. views.
    apply lookup_insert_Some in H1 as [[<- <-]|[? H1]], H2 as [[<- <-]|[? H2]]; eauto.
  - intros jid' j' Hj'. views. apply lookup_insert_Some in Hj' as [[<- <-]|[Hne Hj']]; [done|eauto].
  - intros k a Ha. views. destruct (closed_lookup _ _ _ _ _ _ Ha) as (a0 & Ha0 & -> & -> & _). eauto.
  - done.
  - intros k m Hm. views. destruct (Imark _ _ Hm) as [a Ha].
    destruct (closed_keep p jid (v_attempt j) c _ _ Ha) as (a' & Ha' & _). by exists a'.
Qed.

Lemma pinv_release p g l j :
  pinv p -> p_leases p !! g = Some l -> p_jobs p !! w_job l = Some j ->
  is_terminal (v_state j) = true ->
  pinv (MkProto (p_jobs p) (p_attempts p) (delete g (p_leases p)) (p_markers p) (p_owner p)).
Proof.
  intros [Iatt Icur Iact Ilease Isucc Ibound Icount Iuniq Ipub Iep Iown Imark] Hl Hj Ht.
  split; try done.
  - intros jid' j' Hj' Hact. views. destruct (Iact _ _ Hj' Hact) as (a & Ha & Hc & Hl').
    exists a. split_and!; [done|done|]. rewrite lookup_delete_ne; [done|].
    intros ->. assert (l = MkLView jid' (v_attempt j') (v_instance a) (v_epoch a) (v_lease_epoch a))
      as -> by congruence. views. apply active_cases in Hact as [_ Hact]. congruence.
  - intros g' l' Hl'. lookups. eauto.
Qed.

Lemma pinv_mark p jid n m :
  pinv p -> p_markers p !! (jid, n) = None -> is_Some (p_attempts p !! (jid, n)) ->
  pinv (MkProto (p_jobs p) (p_attempts p) (p_leases p) (<[(jid, n) := m]> (p_markers p)) (p_owner p)).
Proof.
  intros [Iatt Icur Iact Ilease Isucc Ibound Icount Iuniq Ipub Iep Iown Imark] Hm Ha.
  split; try done.
  - intros jid' j Hj Hs. destruct (Isucc _ _ Hj Hs) as (m' & Hm' & ?). exists m'. views.
    split; [|done]. rewrite lookup_insert_ne by congruence. done.
  - intros k m' Hm'. lookups; [done|eauto].
Qed.

Lemma pinv_forget p jid j :
  pinv p -> p_jobs p !! jid = Some j -> is_terminal (v_state j) = true ->
  (forall g l, p_leases p !! g = Some l -> w_job l <> jid) ->
  pinv (MkProto (delete jid (p_jobs p))
    (filter (fun ka : (pystr * Z) * aview => ka.1.1 <> jid) (p_attempts p)) (p_leases p)
    (filter (fun km : (pystr * Z) * marker => km.1.1 <> jid) (p_markers p)) (p_owner p)).
Proof.
  intros [Iatt Icur Iact Ilease Isucc Ibound Icount Iuniq Ipub Iep Iown Imark] Hj Ht Hfree.
  split.
  - intros jid' n a Ha. lookups. destruct (Iatt _ _ _ Ha) as (j' & Hj' & ?). exists j'.
    by rewrite lookup_delete_ne.
  - intros jid' n a j' Ha Hc Hj'. lookups. eauto.
  - intros jid' j' Hj' Hact. lookups. destruct (Iact _ _ Hj' Hact) as (a & Ha & ? & ?).
    exists a. split_and!; [|done|done]. by apply map_lookup_filter_Some.
  - intros g l Hl. lookups. destruct (Ilease _ _ Hl) as (j' & a & Hj' & ? & ? & Ha & ?).
    specialize (Hfree _ _ Hl). exists j', a. rewrite lookup_delete_ne by done.
    split_and!; try done. by apply map_lookup_filter_Some.
  - intros jid' j' Hj' Hs. lookups. destruct (Isucc _ _ Hj' Hs) as (m & Hm & ?). exists m.
    split; [|done]. views. by apply map_lookup_filter_Some.
  - intros jid' j' Hj'. lookups. eauto.
  - etransitivity; [|exact Icount]. unfold nonterminal_count. views. rewrite map_filter_delete.
    pose proof (map_subseteq_size _ _ (delete_subseteq (filter nonterminal (p_jobs p)) jid)). lia.
  - intros jid1 jid2 j1 j2 H1 H2 He. views. apply lookup_delete_Some in H1 as [_ H1], H2 as [_ H2]. eauto.
  - intros jid' j' Hj'. lookups. eauto.
  - intros k a Ha. lookups. eauto.
  - done.
  - intros k m Hm. lookups. destruct (Imark _ _ Hm) as [a Ha]. exists a. by apply map_lookup_filter_Some.
Qed.

Lemma pinv_acquire p instance epoch :
  pinv p -> epoch = match p_owner p with Some (_, e) => e + 1 | None => 1 end ->
  pinv (MkProto (p_jobs p) (p_attempts p) (p_leases p) (p_markers p) (Some (instance, epoch))).
Proof.
  intros [Iatt Icur Iact Ilease Isucc Ibound Icount Iuniq Ipub Iep Iown Imark] ->.
  split; try done.
  - intros k a Ha. views. destruct (Iep _ _ Ha) as (i & e & He & Hr & _). rewrite He.
    exists instance, (e + 1). split_and!; [done|lia|lia|lia].
  - intros i e [= <- <-]. destruct (p_owner p) as [[i' e']|] eqn:Eo; [|lia].
    specialize (Iown _ _ eq_refl). lia.
Qed.

Lemma pinv_step p p' : 0 <= max_attempts -> pinv p -> pstep p p' -> pinv p'.
Proof.
  intros Hmax Hinv Hstep. destruct Hstep.
  - by apply pinv_submit.
  - by apply pinv_claim.
  - by apply pinv_update.
  - by eapply pinv_release.
  - by apply pinv_mark.
  - by apply pinv_acquire.
Qed.

Lemma pinv_steps p p' : 0 <= max_attempts -> pinv p -> rtc pstep p p' -> pinv p'.
Proof. intros Hmax Hinv. induction 1; [done|]. eauto using pinv_step. Qed.

Lemma pinv_forgets p p' : pinv p -> rtc pforget p p' -> pinv p'.
Proof. intros Hinv. induction 1 as [|p1 p2 p3 Hstep _ IH]; [done|]. apply IH. destruct Hstep. by eapply pinv_forget. Qed.

(** Protocol steps keep every job, its columns and its legal course. *)
Lemma pstep_lineage p p' jid j :
  pstep p p' -> p_jobs p !! jid = Some j ->
  exists j', p_jobs p' !! jid = Some j' /\ v_spec j' = v_spec j /\ rtc legal (v_state j) (v_state j') /\
    v_attempt j <= v_attempt j'.
Proof.
  intros Hstep Hj. destruct Hstep as [jid' spec Hn|jid' j0 i e le _ Hj0 Hq|jid' j0 s' pub' drop Hj0 Hl| | |];
    cbn [p_jobs]; [| | |by exists j..].
  - exists j. by rewrite lookup_insert_ne by congruence.
  - destruct (decide (jid' = jid)) as [->|Hne].
    + eexists. rewrite lookup_insert_eq. split; [done|]. assert (j0 = j) as -> by congruence. cbn.
      split_and!; [done| |lia]. apply rtc_once. rewrite Hq. unfold legal. set_solver.
    + exists j. by rewrite lookup_insert_ne.
  - destruct (decide (jid' = jid)) as [->|Hne].
    + eexists. rewrite lookup_insert_eq. split; [done|]. assert (j0 = j) as -> by congruence. cbn.
      split_and!; [done| |lia]. destruct Hl as [->|Hl]; [done|by apply rtc_once].
    + exists j. by rewrite lookup_insert_ne.
Qed.

Lemma psteps_lineage p p' jid j :
  rtc pstep p p' -> p_jobs p !! jid = Some j ->
  exists j', p_jobs p' !! jid = Some j' /\ v_spec j' = v_spec j /\ rtc legal (v_state j) (v_state j') /\
    v_attempt j <= v_attempt j'.
Proof.
  intros H. revert j. induction H as [|p1 p2 p3 Hstep _ IH]; intros j Hj; [by exists j|].
  destruct (pstep_lineage _ _ _ _ Hstep Hj) as (j2 & Hj2 & Hs2 & Hl2 & Ha2).
  destruct (IH _ Hj2) as (j3 & Hj3 & Hs3 & Hl3 & Ha3). exists j3.
  split_and!; [done|congruence|by etransitivity|lia].
Qed.

Lemma forgets_lineage p p' jid j :
  rtc pforget p p' -> p_jobs p !! jid = Some j ->
  p_jobs p' !! jid = Some j \/ p_jobs p' !! jid = None /\ is_terminal (v_state j) = true.
Proof.
  intros H Hj. induction H as [|p1 p2 p3 Hstep Hrest IH]; [by left|].
  destruct Hstep as [jid' j' Hj' Ht Hf]. destruct (decide (jid' = jid)) as [->|Hne].
  - right. assert (j' = j) as -> by congruence. split; [|done].
    clear IH. assert (delete jid (p_jobs p1) !! jid = None) as Hn by apply lookup_delete_eq.
    remember (MkProto (delete jid (p_jobs p1)) _ _ _ _) as q eqn:Hq in Hrest.
    assert (p_jobs q !! jid = None) as Hnq by (by subst q). clear Hq Hn.
    induction Hrest as [|q1 q2 q3 Hs _ IH]; [done|]. apply IH. destruct Hs as [k jk Hk _ _]. cbn.
    rewrite lookup_delete_None. by right.
  - apply IH. cbn. by rewrite lookup_delete_ne.
Qed.

(** The singleton's epoch never decreases. *)
Definition owner_epoch (p : proto) : Z := match p_owner p with Some (_, e) => e | None => 0 end.

Lemma psteps_epoch p p' : rtc pstep p p' -> owner_epoch p <= owner_epoch p'.
Proof.
  induction 1 as [|p1 p2 p3 Hs _ IH]; [done|]. etransitivity; [|exact IH]. clear IH.
  destruct Hs as [| | | | |i e He]; try done. unfold owner_epoch. cbn. rewrite He.
  destruct (p_owner p1) as [[? ?]|]; lia.
Qed.

Lemma pinv_empty : 0 <= max_jobs -> pinv empty_proto.
Proof.
  intros Hj. unfold empty_proto. split; views; intros *; rewrite ?lookup_empty; try done.
Qed.

End Steps.
