(* ===== verification/ControlRefinement.v ===== *)
(** The control store refines the job protocol: every operation of the store, from
    a database whose view satisfies the protocol's invariant, is a sequence of
    protocol steps. *)
From S2P Require Import Prelude PyVal Limits Contracts ContractsFacts Semantics ControlDb.
From S2P Require Import ControlDbFacts ControlOwnership ControlState ControlSubmission.
From S2P Require Import ControlReconciliation ControlMaintenance Protocol.
Open Scope Z_scope.

(** ** The view of a database *)

Definition job_view (j : job) : jview := MkJView (j_spec j) (j_state j) (j_pub j) (j_attempt j).
Definition attempt_view (a : attempt) : aview :=
  MkAView (a_instance a) (a_epoch a) (a_current a) (a_gens a) (a_lease_epoch a).
Definition lease_view (l : lease) : lview :=
  MkLView (l_job l) (l_attempt l) (l_instance l) (l_epoch l) (l_lease_epoch l).
Definition owner_view (s : instance) : pystr * Z := (s_instance s, s_epoch s).

Definition view (d : db) : proto :=
  MkProto (job_view <$> jobs d) (attempt_view <$> attempts d) (lease_view <$> leases d) (markers d)
    (owner_view <$> singleton d).

Lemma view_job d jid j : jobs d !! jid = Some j -> p_jobs (view d) !! jid = Some (job_view j).
Proof. intros H. cbn. by rewrite lookup_fmap, H. Qed.

Lemma view_attempt d k a :
  attempts d !! k = Some a -> p_attempts (view d) !! k = Some (attempt_view a).
Proof. intros H. cbn. by rewrite lookup_fmap, H. Qed.

Lemma view_lease d g l : leases d !! g = Some l -> p_leases (view d) !! g = Some (lease_view l).
Proof. intros H. cbn. by rewrite lookup_fmap, H. Qed.

Lemma view_job_inv d jid v :
  p_jobs (view d) !! jid = Some v -> exists j, jobs d !! jid = Some j /\ v = job_view j.
Proof. cbn. rewrite lookup_fmap. intros (j & ? & ->)%fmap_Some. eauto. Qed.

Lemma view_attempt_inv d k v :
  p_attempts (view d) !! k = Some v -> exists a, attempts d !! k = Some a /\ v = attempt_view a.
Proof. cbn. rewrite lookup_fmap. intros (a & ? & ->)%fmap_Some. eauto. Qed.

Lemma view_lease_inv d g v :
  p_leases (view d) !! g = Some v -> exists l, leases d !! g = Some l /\ v = lease_view l.
Proof. cbn. rewrite lookup_fmap. intros (l & ? & ->)%fmap_Some. eauto. Qed.

(** Rewriting a row without changing its view changes no view. *)
Lemma fmap_insert_same {K A B} `{Countable K} (f : A -> B) (m : gmap K A) k x y :
  m !! k = Some x -> f y = f x -> f <$> <[k := y]> m = f <$> m.
Proof. intros Hx Hf. rewrite fmap_insert, Hf. apply insert_id. by rewrite lookup_fmap, Hx. Qed.

Lemma view_set_intents m d : view (set_intents m d) = view d.
Proof. done. Qed.

Section Refinement.
Context {U : Unicode}.
Variable limits : CoordinatorLimits.

Abbreviation pstep_limits := (pstep (max_retry_attempts limits) (max_nonterminal_jobs limits)).
Abbreviation pinv_limits := (pinv (max_retry_attempts limits) (max_nonterminal_jobs limits)).
Abbreviation psteps d d' := (rtc pstep_limits (view d) (view d')).

(** A transaction whose effect is a sequence of protocol steps. *)
Definition refines {A} (m : tx A) : Prop :=
  forall e d r d', pinv_limits (view d) -> m e d = Ok (r, d') -> psteps d d'.

(** One job's row, its attempt and its lease change. *)
Lemma step_update d d' jid j j' (drop : bool) :
  jobs d !! jid = Some j -> jobs d' = <[jid := j']> (jobs d) ->
  j_spec j' = j_spec j -> j_attempt j' = j_attempt j ->
  attempt_view <$> attempts d' =
    (if is_active (j_state j) && negb (is_active (j_state j'))
     then alter close_view (jid, j_attempt j) (attempt_view <$> attempts d)
     else attempt_view <$> attempts d) ->
  lease_view <$> leases d' = lease_view <$> (if drop then delete (job_graph j) (leases d) else leases d) ->
  markers d' = markers d -> singleton d' = singleton d ->
  j_state j' = j_state j \/ legal (j_state j) (j_state j') ->
  (is_active (j_state j') = true -> is_active (j_state j) = true) ->
  (drop = true -> is_active (j_state j') = false /\
     exists l, leases d !! job_graph j = Some l /\ l_job l = jid) ->
  (j_state j' = SUCCEEDED -> j_state j = SUCCEEDED \/ proved (view d) jid (job_view j)) ->
  pub_ok (j_state j') (j_pub j') ->
  psteps d d'.
Proof.
  intros Hj Hjobs Hspec Hatt Hatts Hleases Hm Hs Hlegal Hact Hdrop Hproof Hpub.
  apply rtc_once.
  assert (view d' = MkProto (<[jid := MkJView (v_spec (job_view j)) (j_state j') (j_pub j')
                                        (v_attempt (job_view j))]> (p_jobs (view d)))
    (if is_active (v_state (job_view j)) && negb (is_active (j_state j'))
     then alter close_view (jid, v_attempt (job_view j)) (p_attempts (view d)) else p_attempts (view d))
    (if drop then delete (v_graph (job_view j)) (p_leases (view d)) else p_leases (view d))
    (p_markers (view d)) (p_owner (view d))) as ->.
  { unfold view. rewrite Hjobs, Hatts, Hleases, Hm, Hs, fmap_insert. f_equal.
    - f_equal. unfold job_view. cbn. by rewrite Hspec, Hatt.
    - cbn. destruct drop; [|done]. by rewrite fmap_delete. }
  apply S_update with (drop := drop); try done.
  - by apply view_job.
  - intros Hd. destruct (Hdrop Hd) as (? & l & Hl & Hw). split; [done|].
    exists (lease_view l). split; [by apply view_lease|done].
Qed.

(** No column of the protocol changes. *)
Lemma step_none d d' : view d' = view d -> psteps d d'.
Proof. by intros ->. Qed.

(** The facts about a job and its current attempt an operation finds. *)
Lemma current_facts d jid n j a :
  pinv_limits (view d) -> jobs d !! jid = Some j -> attempts d !! (jid, n) = Some a ->
  a_current a = true ->
  n = j_attempt j /\ is_active (j_state j) = true /\
  exists l, leases d !! job_graph j = Some l /\
    lease_view l = MkLView jid n (a_instance a) (a_epoch a) (a_lease_epoch a).
Proof.
  intros Hinv Hj Ha Hc.
  destruct (inv_current _ _ _ Hinv jid n (attempt_view a) (job_view j)) as [-> Hact];
    [by apply view_attempt|done|by apply view_job|].
  destruct (inv_active _ _ _ Hinv jid (job_view j)) as (a' & Ha' & _ & Hl); [by apply view_job|done|].
  apply view_attempt_inv in Ha' as (a0 & Ha0 & ->). apply view_lease_inv in Hl as (l & Hl & Hlv).
  assert (a0 = a) as -> by (rewrite Ha in Ha0; congruence).
  split_and!; [done|done|]. exists l. split; [done|]. rewrite <- Hlv. done.
Qed.

(** ** Ownership *)

Lemma refines_acquire instance_id ttl : refines (acquire_singleton instance_id ttl).
Proof.
  intros e d r d' _ H. unfold acquire_singleton in H. tx_steps H.
  destruct (singleton d) as [s|] eqn:Es.
  - destruct (_ && _); [discriminate H|]. tx_steps H. injection Hstep0 as _ <-. injection H as _ <-.
    apply rtc_once.
    assert (view (set_singleton (Some (MkInstance instance_id (s_epoch s + 1) (now e) (now e)
      (now e + r0) None true)) d) = MkProto (p_jobs (view d)) (p_attempts (view d)) (p_leases (view d))
      (p_markers (view d)) (Some (instance_id, s_epoch s + 1))) as -> by done.
    apply S_acquire. cbn. by rewrite Es.
  - tx_steps H. injection Hstep0 as _ <-. injection H as _ <-. apply rtc_once.
    assert (view (set_singleton (Some (MkInstance instance_id 1 (now e) (now e)
      (now e + r0) None true)) d) = MkProto (p_jobs (view d)) (p_attempts (view d)) (p_leases (view d))
      (p_markers (view d)) (Some (instance_id, 1))) as -> by done.
    apply S_acquire. cbn. by rewrite Es.
Qed.

Lemma refines_heartbeat_singleton instance_id epoch ttl :
  refines (heartbeat_singleton instance_id epoch ttl).
Proof.
  intros e d r d' _ H. unfold heartbeat_singleton in H. tx_steps H.
  destruct (singleton d) as [s|] eqn:Es; [|by tx_ret H].
  destruct (live_at _ _ _ _); [|by tx_ret H]. tx_steps H. injection Hstep0 as _ <-. tx_ret H.
  apply step_none. unfold view. cbn. by rewrite Es.
Qed.

Lemma refines_stop instance_id epoch : refines (stop_singleton instance_id epoch).
Proof.
  intros e d r d' _ H. unfold stop_singleton in H. tx_steps H.
  destruct (singleton d) as [s|] eqn:Es; [|by tx_ret H].
  destruct (_ && _); [|by tx_ret H]. tx_steps H. injection Hstep as _ <-. tx_ret H.
  apply step_none. unfold view. cbn. by rewrite Es.
Qed.

Lemma live_owner d t instance_id epoch :
  live_at d t instance_id epoch = true -> p_owner (view d) = Some (instance_id, epoch).
Proof.
  unfold live_at. destruct (singleton d) as [s|] eqn:Es; [|done].
  rewrite !andb_true_iff. intros [[[Hi%bool_decide_eq_true He] _] _].
  cbn. rewrite Es. cbn. unfold owner_view. rewrite Hi. f_equal. f_equal. lia.
Qed.

Lemma require_live_owner_Ok instance_id epoch e d u d' :
  require_live_owner instance_id epoch e d = Ok (u, d') ->
  live_at d (now e) instance_id epoch = true /\ d' = d.
Proof.
  unfold require_live_owner. intros H. tx_steps H. apply check_Ok in H as [H ->].
  by apply negb_false_iff in H.
Qed.

Lemma require_admission_Ok e d u d' :
  require_transaction_admission e d = Ok (u, d') -> admitted e = true /\ d' = d.
Proof.
  unfold require_transaction_admission. intros H. tx_steps H. apply check_Ok in H as [H ->].
  by apply negb_false_iff in H.
Qed.

(** What a successful claim did. *)
Lemma claim_once_Ok instance_id epoch seconds max_attempts automatic_only e d r d' :
  claim_once instance_id epoch seconds max_attempts automatic_only e d = Ok (r, d') ->
  admitted e = true /\ live_at d (now e) instance_id epoch = true /\
  (r = None /\ d' = d /\ select_jobs d (claimable e d max_attempts automatic_only) (claim_order e) = []
   \/ exists jid j rest m,
     select_jobs d (claimable e d max_attempts automatic_only) (claim_order e) = (jid, j) :: rest /\
     jobs d !! jid = Some j /\ claimable e d max_attempts automatic_only jid j = true /\
     attempts d !! (jid, j_attempt j + 1) = None /\
     r = Some (MkClaim jid (job_graph j) (j_attempt j + 1) instance_id epoch (job_class j)
                 (job_gens j) (xid e)) /\
     d' = MkDb
       (<[jid := set_j_state CLAIMED (set_j_attempt (j_attempt j + 1) (set_j_updated (now e) j))]> (jobs d))
       (<[(jid, j_attempt j + 1) :=
            MkAttempt instance_id epoch true (now e) (now e) None (job_gens j) None NOT_STARTED None
              (xid e) None false]> (attempts d))
       (<[job_graph j := MkLease jid (j_attempt j + 1) instance_id epoch (now e) (now e)
                           (now e + seconds) (xid e)]> (leases d))
       m (markers d) (singleton d)).
Proof.
  unfold claim_once. intros H. tx_step H. apply require_admission_Ok in Hstep as [Hadm ->].
  tx_step H. apply require_live_owner_Ok in Hstep as [Hlive ->]. tx_steps H.
  split; [done|]. split; [done|].
  destruct (select_jobs _ _ _) as [|[jid j] rest] eqn:Hsel; [tx_ret H; by left|]. right.
  assert ((jid, j) ∈ (jid, j) :: rest) as Hin by set_solver.
  rewrite <- Hsel, elem_of_select_jobs in Hin. destruct Hin as [Hj Hc].
  assert (j_state j = QUEUED) as Hq.
  { unfold claimable in Hc. rewrite !andb_true_iff in Hc. by destruct Hc as [[[[[[?%bool_decide_eq_true _] _] _] _] _] _]. }
  tx_step H. apply insert_attempt_Ok in Hstep as [-> Hnew].
  tx_step H. apply insert_lease_Ok in Hstep as [-> _].
  tx_step H. destruct (update_job_hit _ _ _ _ _ _ _ _ Hstep Hj (bool_decide_eq_true_2 _ Hq)) as (_ & _ & ->).
  clear Hstep.
  tx_step H. apply maybe_intent_Ok in Hstep as [m ->]. tx_ret H.
  exists jid, j, rest, m. by destruct d.
Qed.

Lemma claimable_spec e d max_attempts automatic_only jid j :
  claimable e d max_attempts automatic_only jid j = true ->
  j_state j = QUEUED /\ j_next_eligible j <= now e /\ j_attempt j < max_attempts /\
  leases d !! job_graph j = None.
Proof.
  unfold claimable. rewrite !andb_true_iff.
  intros [[[[[[Hq%bool_decide_eq_true He] Ha] _] _] Hl%bool_decide_eq_true] _].
  split_and!; [done|lia|lia|done].
Qed.

Lemma refines_claim_once instance_id epoch seconds automatic_only :
  refines (claim_once instance_id epoch seconds (max_retry_attempts limits) automatic_only).
Proof.
  intros e d r d' Hinv H. apply claim_once_Ok in H as (_ & Hlive & [(_ & -> & _)|H]); [done|].
  destruct H as (jid & j & rest & m & _ & Hj & (Hq & _ & Ha & Hl)%claimable_spec & Hnew & _ & ->).
  apply rtc_once. unfold view at 2. cbn [jobs attempts leases intents markers singleton].
  rewrite !fmap_insert.
  apply (S_claim _ _ (view d) jid (job_view j) instance_id epoch (xid e)); try done.
  - by eapply live_owner.
  - by apply view_job.
  - cbn. by rewrite lookup_fmap, Hl.
  - cbn. by rewrite lookup_fmap, Hnew.
Qed.

Lemma releasable_terminal j : releasable j = true -> is_terminal (j_state j) = true.
Proof.
  unfold releasable. rewrite orb_true_iff, !andb_true_iff.
  intros [[->%bool_decide_eq_true _]|[Hs%bool_decide_eq_true _]]; [done|].
  unfold is_terminal. apply bool_decide_eq_true. set_solver.
Qed.

Lemma refines_release graph jid n owner owner_epoch reconciler epoch :
  refines (release_graph_lease graph jid n owner owner_epoch reconciler epoch).
Proof.
  intros e d r d' Hinv H. unfold release_graph_lease in H. tx_steps H. tx_ret H.
  apply maybe_intent_Ok in Hstep0 as [m ->]. rewrite view_set_intents.
  apply delete_lease_Ok in Hstep as [(-> & -> & _)|(-> & l & Hl & Hp & ->)]; [done|].
  rewrite !andb_true_iff in Hp. destruct Hp as [_ Hj].
  destruct (jobs d !! l_job l) as [j|] eqn:Ej; [|done].
  apply rtc_once. unfold view at 2. cbn [jobs attempts leases intents markers singleton set_leases].
  rewrite fmap_delete. apply (S_release _ _ (view d) graph (lease_view l) (job_view j)).
  - by apply view_lease.
  - by apply view_job.
  - by apply releasable_terminal.
Qed.

(** ** Job state *)

Lemma view_close d k a a' :
  attempts d !! k = Some a -> attempt_view a' = close_view (attempt_view a) ->
  attempt_view <$> <[k := a']> (attempts d) = alter close_view k (attempt_view <$> attempts d).
Proof.
  intros Ha Hc. rewrite fmap_insert, Hc. symmetry. apply alter_alt_Some. by rewrite lookup_fmap, Ha.
Qed.

Lemma validate_transition_legal s t u :
  validate_transition (lit (job_state_value s)) (lit (job_state_value t)) = Ok u -> legal s t.
Proof.
  unfold validate_transition. rewrite !job_state_of_value. case_bool_decide; [|done]. done.
Qed.

(** A legal step out of an active state that does not requeue. *)
Lemma active_step s t :
  is_active s = true -> legal s t -> t <> QUEUED -> is_active t = negb (is_terminal t).
Proof. intros _ _. by destruct t. Qed.

Lemma validate_state_publication_Ok s p q u :
  validate_state_publication s p = Ok u -> s <> QUEUED -> pub_ok s (default q p).
Proof.
  unfold validate_state_publication, pub_ok. intros H Hq. unbind H.
  repeat match goal with G : _ && _ = false |- _ => apply andb_false_iff in G end.
  split_and!; [done| |].
  - intros ->. destruct H0 as [?%bool_decide_eq_false|Hp]; [done|].
    apply negb_false_iff, bool_decide_eq_true in Hp. by subst p.
  - intros Hs. destruct H1 as [?%bool_decide_eq_false|Hp]; [done|].
    apply negb_false_iff in Hp. destruct p as [p|]; [|done]. by apply bool_decide_eq_true in Hp.
Qed.

Lemma owned_current_spec instance_id epoch a :
  owned_current instance_id epoch a = true <->
  a_current a = true /\ a_instance a = instance_id /\ a_epoch a = epoch.
Proof.
  unfold owned_current. rewrite !andb_true_iff, bool_decide_eq_true, Z.eqb_eq. tauto.
Qed.

Lemma marker_proves_spec d jid j a :
  marker_proves d jid (j_attempt j) j a = true -> proved (view d) jid (job_view j).
Proof.
  unfold marker_proves, proved. destruct (markers d !! (jid, j_attempt j)) as [m|] eqn:Hm; [|done].
  rewrite !andb_true_iff, !bool_decide_eq_true. intros [[[Hg Hma] Haj] Ho].
  exists m. cbn. split_and!; [done|done|done|congruence].
Qed.

(** What the guard of the compare-and-set establishes. *)
Lemma cas_guard_spec e d jid expected new n instance_id epoch j :
  cas_guard e d jid expected new n instance_id epoch j = true ->
  j_state j = expected /\ j_attempt j = n /\ live_at d (now e) instance_id epoch = true /\
  exists a, attempts d !! (jid, n) = Some a /\ owned_current instance_id epoch a = true /\
    (new = SUCCEEDED -> marker_proves d jid n j a = true).
Proof.
  unfold cas_guard. rewrite !andb_true_iff, bool_decide_eq_true, Z.eqb_eq.
  intros [[[Hs Ha] Hatt] Hlive]. split_and!; [done|done|done|].
  destruct (attempts d !! (jid, n)) as [a|]; [|done]. exists a.
  apply andb_true_iff in Hatt as [Ho Hm]. split_and!; [done|done|].
  intros ->. by rewrite bool_decide_true in Hm.
Qed.

(** What a successful compare-and-set did. *)
Lemma compare_and_set_Ok jid expected new n instance_id epoch pub err diag e d r d' :
  compare_and_set_state jid expected new n instance_id epoch pub err diag e d = Ok (r, d') ->
  legal expected new /\
  (r = false /\ d' = d \/
   r = true /\ exists j a a',
     jobs d !! jid = Some j /\ cas_guard e d jid expected new n instance_id epoch j = true /\
     attempts d !! (jid, n) = Some a /\ owned_current instance_id epoch a = true /\
     (new <> QUEUED -> pub_ok new (default (j_pub j) pub)) /\
     d' = set_attempts (<[(jid, n) := a']> (attempts d)) (set_jobs
       (<[jid := set_j_state new (set_j_pub (default (j_pub j) pub) (set_j_error err
            (set_j_updated (now e) (if is_terminal new then set_j_finished (Some (now e)) j else j))))]>
          (jobs d)) d) /\
     attempt_view a' = (if is_terminal new then close_view else id) (attempt_view a)).
Proof.
  unfold compare_and_set_state. intros H. tx_steps H. apply validate_transition_legal in Hstep.
  split; [done|].
  apply update_job_Ok in Hstep1 as [[-> ->]|(-> & j & Hj & Hg & _ & ->)]; [tx_ret H; by left|].
  right. destruct (cas_guard_spec _ _ _ _ _ _ _ _ _ Hg) as (_ & _ & _ & a & Ha & Ho & _).
  cbn [negb] in H.
  assert (new <> QUEUED -> pub_ok new (default (j_pub j) pub)) as Hpub
    by (by eapply validate_state_publication_Ok).
  destruct (is_terminal new) eqn:Ht.
  - tx_steps H. tx_ret H.
    destruct (update_attempt_hit _ _ _ _ _ _ _ _ Hstep1 Ha Ho) as [-> ->].
    split; [done|]. eexists j, a, _. by split_and!; [done|done|done|done|done|reflexivity|].
  - destruct (_ || _).
    + tx_steps H. tx_ret H.
      destruct (update_attempt_hit _ _ _ _ _ _ _ _ Hstep1 Ha Ho) as [-> ->].
      split; [done|]. eexists j, a, _. by split_and!; [done|done|done|done|done|reflexivity|].
    + tx_ret H. split; [done|]. exists j, a, a. split_and!; try done.
      unfold set_attempts. cbn. by rewrite (insert_id (attempts d)).
Qed.

Lemma refines_compare_and_set jid expected new n instance_id epoch pub err diag :
  new <> QUEUED ->
  refines (compare_and_set_state jid expected new n instance_id epoch pub err diag).
Proof.
  intros Hnq e d r d' Hinv H.
  apply compare_and_set_Ok in H as (Hlegal & [[_ ->]|(_ & j & a & a' & Hj & Hg & Ha & Ho & Hpub & -> & Hav)]);
    [done|].
  destruct (cas_guard_spec _ _ _ _ _ _ _ _ _ Hg) as (<- & <- & _ & a0 & Ha0 & _ & Hsucc).
  assert (a0 = a) as -> by congruence.
  apply owned_current_spec in Ho as (Hc & _ & _).
  destruct (current_facts _ _ _ _ _ Hinv Hj Ha Hc) as (_ & Hact & l & Hl & Hlv).
  eapply (step_update d _ jid j) with (drop := false); try done; cbn; try (by destruct (is_terminal new)).
  - rewrite Hact, (active_step _ _ Hact Hlegal Hnq), negb_involutive.
    destruct (is_terminal new); [by apply view_close with a|].
    cbn. by apply fmap_insert_same with a.
  - by right.
  - intros Hs. right. apply marker_proves_spec with a. auto.
  - by destruct (is_terminal new); auto.
Qed.

(** An update of columns outside the protocol. *)
Lemma update_job_none jid p f e d b d' :
  update_job jid p f e d = Ok (b, d') -> (forall j, job_view (f j) = job_view j) -> view d' = view d.
Proof.
  intros [[_ ->]|(_ & j & Hj & _ & _ & ->)]%update_job_Ok Hf; [done|].
  unfold view. cbn. by rewrite (fmap_insert_same job_view (jobs d) jid j).
Qed.

Lemma update_attempt_none k p f e d b d' :
  update_attempt k p f e d = Ok (b, d') -> (forall a, attempt_view (f a) = attempt_view a) ->
  view d' = view d.
Proof.
  intros [[_ ->]|(_ & a & Ha & _ & ->)]%update_attempt_Ok Hf; [done|].
  unfold view. cbn. by rewrite (fmap_insert_same attempt_view (attempts d) k a).
Qed.

Lemma update_lease_none g p f e d b d' :
  update_lease g p f e d = Ok (b, d') -> (forall l, lease_view (f l) = lease_view l) ->
  view d' = view d.
Proof.
  intros [[_ ->]|(_ & l & Hl & _ & ->)]%update_lease_Ok Hf; [done|].
  unfold view. cbn. by rewrite (fmap_insert_same lease_view (leases d) g l).
Qed.

Lemma refines_heartbeat claim ttl phase completed total :
  refines (heartbeat_attempt claim ttl phase completed total limits).
Proof.
  intros e d r d' _ H. apply step_none. unfold heartbeat_attempt in H.
  tx_step H. tx_step H. apply require_live_owner_Ok in Hstep0 as [_ ->]. tx_steps H.
  apply update_lease_none in Hstep0; [|done]. rewrite <- Hstep0. clear Hstep0.
  destruct (negb _); [by tx_ret H|]. tx_step H. apply update_attempt_none in Hstep0; [|done].
  rewrite <- Hstep0. clear Hstep0. destruct phase; [|by tx_ret H].
  tx_steps H. tx_ret H. by apply update_job_none in Hstep1.
Qed.

Lemma refines_cancellation jid : refines (request_cancellation jid).
Proof.
  intros e d r d' Hinv H. unfold request_cancellation in H. tx_steps H.
  apply update_job_Ok in Hstep as [[-> ->]|(-> & j & Hj & Hs & _ & ->)]; [discriminate H|].
  cbn [negb] in H. tx_steps H. tx_ret H. apply bool_decide_eq_true in Hs.
  pose proof (inv_pub _ _ _ Hinv _ _ (view_job _ _ _ Hj)) as (Hpq & _ & _).
  case_bool_decide as Hq.
  - eapply (step_update d _ jid j) with (drop := false); try done; cbn.
    + by rewrite Hq.
    + right. rewrite Hq. unfold legal. set_solver.
    + unfold pub_ok. split_and!; try done. intros _. cbn in Hpq. rewrite (Hpq Hq). set_solver.
  - assert (is_active (j_state j) = true) as Ha.
    { apply bool_decide_eq_true. set_solver. }
    eapply (step_update d _ jid j) with (drop := false); try done; cbn.
    + by rewrite andb_false_r.
    + right. unfold legal. repeat (apply elem_of_cons in Hs as [Hs|Hs]); [done| | | |by apply elem_of_nil in Hs];
        rewrite Hs; set_solver.
    + unfold pub_ok. split_and!; try done. set_solver.
Qed.

Lemma refines_mark_terminated claim proved_cleanup instance_id epoch diag :
  refines (mark_attempt_terminated claim proved_cleanup instance_id epoch diag).
Proof.
  intros e d r d' _ H. apply step_none. unfold mark_attempt_terminated in H.
  tx_step H. tx_step H. apply require_live_owner_Ok in Hstep0 as [_ ->]. tx_steps H.
  by apply update_attempt_none in H.
Qed.

Lemma lease_of_spec jid n instance_id epoch l :
  lease_of jid n instance_id epoch l = true <->
  l_job l = jid /\ l_attempt l = n /\ l_instance l = instance_id /\ l_epoch l = epoch.
Proof.
  unfold lease_of. rewrite !andb_true_iff, !bool_decide_eq_true, !Z.eqb_eq. tauto.
Qed.

(** A lease of a job is on the job's graph. *)
Lemma lease_on_graph d g l j :
  pinv_limits (view d) -> leases d !! g = Some l -> jobs d !! l_job l = Some j -> job_graph j = g.
Proof.
  intros Hinv Hl Hj.
  destruct (inv_lease _ _ _ Hinv g (lease_view l)) as (j' & _ & Hj' & Hg & _); [by apply view_lease|].
  apply view_job in Hj. cbn in *. by simplify_eq.
Qed.

Lemma refines_schedule_retry claim expected delay category max_attempts diag :
  refines (schedule_retry claim expected delay category max_attempts diag).
Proof.
  intros e d r d' Hinv H. unfold schedule_retry in H.
  tx_step H. tx_step H. tx_step H. apply require_live_owner_Ok in Hstep1 as [_ ->]. tx_steps H.
  destruct (jobs d !! k_job claim) as [j|] eqn:Hj; [|by tx_ret H].
  destruct (attempts d !! (k_job claim, k_attempt claim)) as [a|] eqn:Ha; [|by tx_ret H].
  destruct (negb _) eqn:Hg; [by tx_ret H|].
  apply negb_false_iff in Hg. rewrite !andb_true_iff in Hg. destruct Hg as [[Hs Hn] Ho].
  apply (validate_transition_legal _ QUEUED) in Hstep.
  tx_steps H. tx_ret H.
  assert (bool_decide (j_state j = expected) && (j_attempt j =? k_attempt claim) = true) as Hp
    by (by rewrite Hs, Hn).
  destruct (update_job_hit _ _ _ _ _ _ _ _ Hstep4 Hj Hp) as (_ & _ & ->). clear Hstep4 Hp.
  destruct (update_attempt_hit _ _ _ _ _ _ _ _ Hstep5 Ha Ho) as (_ & ->). clear Hstep5.
  apply bool_decide_eq_true in Hs. apply Z.eqb_eq in Hn. apply owned_current_spec in Ho as (Hc & _ & _).
  destruct (current_facts _ _ _ _ _ Hinv Hj Ha Hc) as (_ & Hact & l & Hl & Hlv).
  assert (attempt_view <$> <[(k_job claim, k_attempt claim) := set_a_current false
      (set_a_finished (Some (now e)) (set_a_result (Some category)
         (set_a_diagnostic (coalesce diag (a_diagnostic a)) a)))]> (attempts d) =
    alter close_view (k_job claim, j_attempt j) (attempt_view <$> attempts d)) as Hav
    by (rewrite Hn; by apply view_close with a).
  assert (pub_ok QUEUED NOT_STARTED) as Hpub by (unfold pub_ok; split_and!; [done..|set_solver]).
  apply delete_lease_Ok in Hstep6 as [(_ & -> & _)|(_ & l' & Hl' & Hlo & ->)].
  - eapply (step_update d _ (k_job claim) j) with (drop := false); try done; cbn.
    + rewrite Hact. exact Hav.
    + right. by rewrite Hs.
  - apply lease_of_spec in Hlo as (Hjob & _). cbn in Hl'.
    assert (k_graph claim = job_graph j) as Hgr.
    { symmetry. eapply (lease_on_graph d); [done|exact Hl'|by rewrite Hjob]. }
    eapply (step_update d _ (k_job claim) j) with (drop := true); try done; cbn.
    + rewrite Hact. exact Hav.
    + by rewrite Hgr.
    + right. by rewrite Hs.
    + intros _. split; [done|]. exists l'. by rewrite <- Hgr.
Qed.

(** ** Submission *)

Lemma count_jobs_nonterminal d :
  count_jobs d (fun j => negb (is_terminal (j_state j))) = nonterminal_count (view d).
Proof.
  unfold count_jobs, nonterminal_count. f_equal. cbn [view p_jobs].
  rewrite map_filter_fmap, map_size_fmap. rewrite <- length_map_to_list.
  apply Permutation_length. apply NoDup_Permutation.
  - apply NoDup_ListNoDup, List.NoDup_filter, NoDup_ListNoDup, NoDup_map_to_list.
  - apply NoDup_map_to_list.
  - intros [k j]. rewrite list_elem_of_In, filter_In, <- list_elem_of_In, !elem_of_map_to_list,
      map_lookup_filter_Some. unfold nonterminal. cbn. by rewrite negb_true_iff.
Qed.

Lemma enforce_admission_Ok request e d u d' :
  _enforce_admission request limits e d = Ok (u, d') ->
  d' = d /\ nonterminal_count (view d) < max_nonterminal_jobs limits.
Proof.
  unfold _enforce_admission. intros H. tx_steps H. rewrite count_jobs_nonterminal in Hstep.
  destruct (bool_decide _); [apply check_Ok in H as [_ ->]|tx_ret H]; (split; [done|lia]).
Qed.

(** The insertion of a fresh queued job. *)
Lemma step_submit d jid e request requester digest fingerprint priority u d' :
  insert_job jid (new_job e request requester digest fingerprint priority) e d = Ok (u, d') ->
  nonterminal_count (view d) < max_nonterminal_jobs limits -> psteps d d'.
Proof.
  intros (-> & Hn & _ & Hu)%insert_job_Ok Hc. apply rtc_once.
  unfold view at 2. cbn [jobs attempts leases intents markers singleton set_jobs]. rewrite fmap_insert.
  apply (S_submit _ _ (view d)); [by cbn; rewrite lookup_fmap, Hn| |done].
  intros jid' v (j & Hj & ->)%view_job_inv. by apply Hu in Hj.
Qed.

Lemma refines_submit request requester deadline : refines (submit request requester limits deadline).
Proof.
  intros e d r d' Hinv H. unfold submit, _admission_transaction in H. tx_steps H. tx_ret H.
  apply tx_bind_Ok in Hstep6 as (? & ? & [_ ->]%require_admission_Ok & Hstep6). tx_steps Hstep6.
  destruct (_find_existing _ _ _ _) as [[jid j]|].
  - tx_steps Hstep6. by tx_ret Hstep6.
  - tx_steps Hstep6. tx_ret Hstep6. apply enforce_admission_Ok in Hstep9 as [-> Hc].
    by eapply step_submit.
Qed.

(** Superseding a queued automatic job, if there is one. *)
Lemma step_supersede (old : option pystr) t e d b d' :
  pinv_limits (view d) ->
  match old with
  | Some old => update_job old
      (fun j => bool_decide (j_state j = QUEUED) && bool_decide (job_class j = lit "automatic"))
      (fun j => set_j_state SUPERSEDED (set_j_finished (Some t) (set_j_updated t j)))
  | None => mret false
  end e d = Ok (b, d') -> psteps d d'.
Proof.
  intros Hinv H. destruct old as [old|]; [|by tx_ret H].
  apply update_job_Ok in H as [[_ ->]|(_ & j & Hj & Hg & _ & ->)]; [done|].
  apply andb_true_iff in Hg as [Hq%bool_decide_eq_true _].
  pose proof (inv_pub _ _ _ Hinv _ _ (view_job _ _ _ Hj)) as (Hpq & _ & _). cbn in Hpq.
  eapply (step_update d _ old j) with (drop := false); try done; cbn.
  - by rewrite Hq.
  - right. rewrite Hq. unfold legal. set_solver.
  - unfold pub_ok. split_and!; try done. intros _. rewrite (Hpq Hq). set_solver.
Qed.

Lemma refines_coalesce request requester : refines (coalesce_automatic request requester limits).
Proof.
  intros e d r d' Hinv H. unfold coalesce_automatic in H.
  do 5 tx_step H. tx_step H. apply require_admission_Ok in Hstep4 as [_ ->]. tx_steps H.
  destruct (live_automatic _ _ _) as [[jid s]|]; [by tx_ret H|].
  tx_step H. apply step_supersede in Hstep5; [|done].
  tx_step H. apply enforce_admission_Ok in Hstep6 as [-> Hc].
  tx_step H. apply step_submit in Hstep6; [|done].
  tx_step H. tx_step H. tx_ret H.
  apply upsert_intent_Ok in Hstep8 as [m ->]. rewrite view_set_intents.
  etransitivity; [exact Hstep5|]. etransitivity; [exact Hstep6|]. apply step_none.
  destruct (intents d !! graph_id r0 ≫= c_queued); [|by injection Hstep7 as _ <-].
  by apply update_job_none in Hstep7.
Qed.

(** ** Reconciliation *)

Lemma lock_evidence_spec d claim row :
  _lock_evidence d claim = Some row ->
  jobs d !! k_job claim = Some (ev_job row) /\
  attempts d !! (k_job claim, k_attempt claim) = Some (ev_attempt row) /\
  j_state (ev_job row) = RECONCILIATION_REQUIRED /\ j_attempt (ev_job row) = k_attempt claim /\
  owned_current (k_instance claim) (k_epoch claim) (ev_attempt row) = true /\
  ev_marker row = markers d !! (k_job claim, k_attempt claim).
Proof.
  unfold _lock_evidence. destruct (jobs d !! k_job claim) as [j|] eqn:Hj; [|done].
  destruct (attempts d !! (k_job claim, j_attempt j)) as [a|] eqn:Ha; [|done].
  destruct (_ && _) eqn:Hg; [|done]. rewrite !andb_true_iff in Hg.
  destruct Hg as [[Hs%bool_decide_eq_true Hn%Z.eqb_eq] Ho]. intros [= <-]. cbn.
  rewrite <- Hn. by split_and!.
Qed.

Lemma close_attempt_Ok claim pub cat diag e d u d' a :
  _close_attempt claim pub cat diag e d = Ok (u, d') ->
  attempts d !! (k_job claim, k_attempt claim) = Some a ->
  owned_current (k_instance claim) (k_epoch claim) a = true ->
  exists a', attempt_view a' = close_view (attempt_view a) /\
    d' = set_attempts (<[(k_job claim, k_attempt claim) := a']> (attempts d)) d.
Proof.
  unfold _close_attempt. intros H Ha Ho. tx_steps H. apply check_Ok in H as [_ ->].
  destruct (update_attempt_hit _ _ _ _ _ _ _ _ Hstep Ha Ho) as (_ & ->).
  eexists. split; [|reflexivity]. done.
Qed.

Lemma delete_claim_lease_Ok claim e d u d' :
  _delete_lease claim e d = Ok (u, d') ->
  exists l m, leases d !! k_graph claim = Some l /\ l_job l = k_job claim /\
    d' = set_intents m (set_leases (delete (k_graph claim) (leases d)) d).
Proof.
  unfold _delete_lease. intros H. tx_steps H. tx_ret H. apply negb_false_iff in Hstep0. subst.
  apply update_intent_Ok in Hstep1 as [m ->].
  apply delete_lease_Ok in Hstep as [(? & _)|(_ & l & Hl & (Hjob & _)%lease_of_spec & ->)]; [done|].
  eauto 10.
Qed.

(** The reconciled job leaves the active states: its row is updated by [f], its
    attempt closed and its lease released. *)
Lemma step_close_release claim (f : job -> job) pub cat diag e d u d' row :
  pinv_limits (view d) -> _lock_evidence d claim = Some row ->
  (_ ← update_job (k_job claim) (reconciling claim) f;
   _ ← _close_attempt claim pub cat diag;
   _delete_lease claim) e d = Ok (u, d') ->
  j_spec (f (ev_job row)) = j_spec (ev_job row) -> j_attempt (f (ev_job row)) = j_attempt (ev_job row) ->
  legal RECONCILIATION_REQUIRED (j_state (f (ev_job row))) ->
  is_active (j_state (f (ev_job row))) = false ->
  (j_state (f (ev_job row)) = SUCCEEDED -> proved (view d) (k_job claim) (job_view (ev_job row))) ->
  pub_ok (j_state (f (ev_job row))) (j_pub (f (ev_job row))) ->
  psteps d d'.
Proof.
  intros Hinv (Hj & Ha & Hs & Hn & Ho & _)%lock_evidence_spec H Hspec Hatt Hlegal Hact Hproof Hpub.
  tx_step H.
  assert (reconciling claim (ev_job row) = true) as Hp.
  { unfold reconciling. rewrite Hs, Hn. by rewrite bool_decide_true, Z.eqb_refl. }
  destruct (update_job_hit _ _ _ _ _ _ _ _ Hstep Hj Hp) as (_ & _ & ->). clear Hstep.
  tx_step H. eapply close_attempt_Ok in Hstep as (a' & Hav & ->); [|exact Ha|done].
  apply delete_claim_lease_Ok in H as (l & m & Hl & Hjob & ->). rewrite view_set_intents. cbn in Hl.
  assert (k_graph claim = job_graph (ev_job row)) as Hg.
  { symmetry. eapply (lease_on_graph d); [done|exact Hl|by rewrite Hjob]. }
  eapply (step_update d _ (k_job claim) (ev_job row)) with (drop := true); try done; cbn.
  - rewrite Hs, Hact. cbn. rewrite Hn. by eapply view_close.
  - by rewrite Hg.
  - right. by rewrite Hs.
  - by rewrite Hact.
  - intros _. split; [done|]. exists l. by rewrite <- Hg.
  - auto.
Qed.

Lemma marker_class_proves d claim row :
  _lock_evidence d claim = Some row -> _marker_classification row = MatchingCommitted ->
  proved (view d) (k_job claim) (job_view (ev_job row)).
Proof.
  intros (Hj & Ha & Hs & Hn & Ho & Hm)%lock_evidence_spec. unfold _marker_classification.
  rewrite Hm. destruct (markers d !! _) as [m|] eqn:Em; [|done].
  destruct (_ && _) eqn:Hg; [|done]. rewrite !andb_true_iff, !bool_decide_eq_true in Hg.
  intros _. exists m. cbn. rewrite Hn. split_and!; [done|tauto..].
Qed.

Lemma pause_Ok claim e d u d' :
  _pause_graph_intent claim e d = Ok (u, d') -> exists m, d' = set_intents m d.
Proof.
  unfold _pause_graph_intent. intros H. tx_steps H. destruct (jobs d !! k_job claim).
  - by apply upsert_intent_Ok in H.
  - tx_ret H. exists (intents d). by destruct d.
Qed.

Lemma step_close_terminal claim target pub cat diag e d u d' row :
  pinv_limits (view d) -> _lock_evidence d claim = Some row ->
  _close_terminal claim target pub cat diag e d = Ok (u, d') ->
  target ∈ [SUCCEEDED; FAILED; CANCELLED; QUARANTINED] ->
  (target = SUCCEEDED -> proved (view d) (k_job claim) (job_view (ev_job row))) ->
  pub_ok target pub -> psteps d d'.
Proof.
  intros Hinv Hrow H Ht Hproof Hpub. unfold _close_terminal in H.
  apply tx_bind_Ok in H as (? & ? & [= <- <-] & H).
  eapply step_close_release; [done|done|exact H|done|done| | |done|done]; cbn.
  - unfold legal. set_solver.
  - set_unfold. naive_solver.
Qed.

Lemma refines_reconcile claim instance_id epoch unpublished :
  refines (reconcile_publication claim (max_retry_attempts limits) instance_id epoch unpublished).
Proof.
  intros e d r d' Hinv H. unfold reconcile_publication in H.
  tx_step H. apply require_live_owner_Ok in Hstep as [_ ->]. tx_steps H.
  destruct (_lock_evidence d claim) as [row|] eqn:Hrow; [|by tx_ret H].
  case_bool_decide; [by tx_ret H|].
  assert (forall m, _lock_evidence (set_intents m d) claim = Some row) as Hrow' by done.
  destruct (_marker_classification row) eqn:Hm.
  - tx_step H. tx_ret H. eapply step_close_terminal in Hstep; [done..|set_solver| |].
    + intros _. by apply marker_class_proves.
    + unfold pub_ok. split_and!; try done; set_solver.
  - destruct (bool_decide (j_error _ = _)).
    + tx_step H. apply pause_Ok in Hstep as [m ->]. tx_step H. tx_ret H.
      eapply step_close_terminal in Hstep; [exact Hstep|done|apply Hrow'|set_solver|done|].
      unfold pub_ok. split_and!; try done; set_solver.
    + repeat (match type of H with (if ?b then mret _ else _) _ _ = _ =>
        destruct b; [by tx_ret H|] end).
      destruct (bool_decide (is_Some _)).
      * destruct (_ || _); [|by tx_ret H]. tx_step H. tx_ret H.
        eapply step_close_terminal in Hstep; [exact Hstep|done|done|set_solver|done|].
        unfold pub_ok. split_and!; try done; set_solver.
      * destruct (_ <=? _).
        -- tx_step H. tx_ret H.
           eapply step_close_terminal in Hstep; [exact Hstep|done|done|set_solver|done|].
           unfold pub_ok. split_and!; try done; set_solver.
        -- tx_step H. tx_ret H. unfold _queue_retry in Hstep.
           apply tx_bind_Ok in Hstep as (? & ? & [= <- <-] & Hstep).
           eapply step_close_release; [done|done|exact Hstep|done|done| |done|done|].
           ++ unfold legal. cbn. set_solver.
           ++ unfold pub_ok. cbn. split_and!; try done; set_solver.
  - tx_step H. apply pause_Ok in Hstep as [m ->]. tx_step H. tx_ret H.
    eapply step_close_terminal in Hstep; [exact Hstep|done|apply Hrow'|set_solver|done|].
    unfold pub_ok. split_and!; try done; set_solver.
Qed.

(** ** Startup *)

Lemma abandoned_legal s : s ∈ _ABANDONED_STATES -> legal s RECONCILIATION_REQUIRED.
Proof. unfold legal. destruct s; set_solver. Qed.

Lemma fence_abandoned_Ok jid n e d u d' j :
  fence_abandoned jid n e d = Ok (u, d') -> jobs d !! jid = Some j -> j_attempt j = n ->
  j_state j ∈ _ABANDONED_STATES ->
  psteps d d' /\ (forall jid', jid' <> jid -> jobs d' !! jid' = jobs d !! jid').
Proof.
  unfold fence_abandoned. intros H Hj Hn Hs. tx_steps H. apply check_Ok in H as [Hclosed ->].
  assert ((j_attempt j =? n) = true) as Hp by lia.
  destruct (update_job_hit _ _ _ _ _ _ _ _ Hstep Hj Hp) as (_ & _ & ->). clear Hstep.
  apply update_attempt_Ok in Hstep1 as [[-> _]|(_ & a & Ha & _ & ->)]; [done|]. cbn in Ha.
  assert (is_active (j_state j) = true) as Hact by (apply bool_decide_eq_true; set_solver).
  split.
  - eapply (step_update d _ jid j) with (drop := false); try done; cbn.
    + rewrite andb_false_r. by apply fmap_insert_same with a.
    + right. by apply abandoned_legal.
    + unfold pub_ok. split_and!; try done; set_solver.
  - intros jid' Hne. cbn. by rewrite lookup_insert_ne.
Qed.

Lemma fence_all_steps rows e d u d' :
  fence_all rows e d = Ok (u, d') -> NoDup rows.*1 ->
  (forall jid j, (jid, j) ∈ rows -> jobs d !! jid = Some j /\ j_state j ∈ _ABANDONED_STATES) ->
  psteps d d'.
Proof.
  revert d. induction rows as [|[jid j] rows IH]; intros d H Hnd Hall; [by tx_ret H|].
  cbn [fence_all] in H. tx_step H. cbn in Hnd. apply NoDup_cons in Hnd as [Hni Hnd].
  destruct (Hall jid j) as [Hj Hs]; [set_solver|].
  destruct (fence_abandoned_Ok _ _ _ _ _ _ _ Hstep Hj eq_refl Hs) as [Hsteps Hother].
  etransitivity; [exact Hsteps|]. apply IH; [done|done|].
  intros jid' j' Hin. destruct (Hall jid' j') as [Hj' Hs']; [set_solver|]. split; [|done].
  rewrite Hother; [done|]. intros ->. apply Hni. by apply (list_elem_of_fmap_2 fst _ (jid, j')).
Qed.

Lemma refines_recover instance_id epoch limit :
  refines (recover_abandoned_attempts instance_id epoch limit).
Proof.
  intros e d r d' Hinv H. unfold recover_abandoned_attempts in H. tx_steps H. tx_ret H.
  eapply fence_all_steps; [done| |].
  - rewrite fmap_take. eapply sublist_NoDup; [apply NoDup_select_jobs|]. apply sublist_take.
  - intros jid j Hin%elem_of_take_sub.
    apply elem_of_select_jobs in Hin as [Hj Hp]. split; [done|].
    unfold abandoned in Hp. apply andb_true_iff in Hp as [Hs%bool_decide_eq_true _]. done.
Qed.

(** ** Markers and cleanup *)

Lemma refines_marker claim run gens outcome : refines (record_publication_marker claim run gens outcome).
Proof.
  intros e d r d' Hinv H. unfold record_publication_marker in H. tx_steps H.
  destruct (markers d !! _) as [m|] eqn:Hm.
  - tx_steps H. by tx_ret H.
  - tx_steps H. injection Hstep1 as _ <-. tx_ret H. apply bool_decide_eq_false in Hstep0.
    apply rtc_once. apply (S_mark _ _ (view d)); [done|]. cbn. rewrite lookup_fmap.
    destruct (attempts d !! _); [by eexists|done].
Qed.

(** The protocol state without the jobs of [ids]. *)
Definition forget_all (ids : list pystr) (p : proto) : proto :=
  MkProto (filter (fun kj : pystr * jview => kj.1 ∉ ids) (p_jobs p))
    (filter (fun ka : (pystr * Z) * aview => ka.1.1 ∉ ids) (p_attempts p)) (p_leases p)
    (filter (fun km : (pystr * Z) * marker => km.1.1 ∉ ids) (p_markers p)) (p_owner p).

Lemma forget_all_steps ids p :
  (forall jid, jid ∈ ids -> exists j, p_jobs p !! jid = Some j /\ is_terminal (v_state j) = true) ->
  (forall g l, p_leases p !! g = Some l -> w_job l ∉ ids) ->
  rtc pforget p (forget_all ids p).
Proof.
  induction ids as [|jid ids IH]; intros Hjobs Hleases.
  - replace (forget_all [] p) with p; [done|]. unfold forget_all. destruct p. cbn.
    f_equal; symmetry; apply filter_all; intros; cbn; set_solver.
  - etransitivity; [apply IH; [set_solver|]|].
    { intros g l Hl Hin. apply (Hleases _ _ Hl). set_solver. }
    destruct (decide (jid ∈ ids)) as [Hin|Hni].
    + replace (forget_all (jid :: ids) p) with (forget_all ids p); [done|]. unfold forget_all.
      f_equal; apply map_filter_ext; intros; set_solver.
    + destruct (Hjobs jid) as (j & Hj & Ht); [set_solver|]. apply rtc_once.
      replace (forget_all (jid :: ids) p) with (MkProto (delete jid (p_jobs (forget_all ids p)))
        (filter (fun ka : (pystr * Z) * aview => ka.1.1 <> jid) (p_attempts (forget_all ids p)))
        (p_leases (forget_all ids p))
        (filter (fun km : (pystr * Z) * marker => km.1.1 <> jid) (p_markers (forget_all ids p)))
        (p_owner (forget_all ids p))).
      * apply (S_forget _ jid j); [|done|].
        -- by apply map_lookup_filter_Some.
        -- intros g l Hl Hw. apply (Hleases _ _ Hl). set_solver.
      * unfold forget_all. cbn [p_jobs p_attempts p_leases p_markers p_owner]. f_equal.
        -- apply map_eq. intros k. apply option_eq. intros x.
           rewrite lookup_delete_Some, !map_lookup_filter_Some. cbn. set_solver.
        -- rewrite map_filter_filter. apply map_filter_ext. intros. cbn. set_solver.
        -- rewrite map_filter_filter. apply map_filter_ext. intros. cbn. set_solver.
Qed.

Lemma retire_jobs_subset d retirer limit ids r :
  retire_jobs d retirer limit ids = Ok r -> forall jid, jid ∈ r.1 -> jid ∈ ids.
Proof.
  revert limit r. induction ids as [|jid ids IH]; intros [|limit] r H jid' Hin; cbn in H;
    try (injection H as <-; by apply elem_of_nil in Hin).
  apply bind_Ok in H as (tokens & _ & H). destruct tokens; apply bind_Ok in H as (r' & Hr & [= <-]);
    cbn in Hin; set_solver.
Qed.

Lemma delete_jobs_Ok ids e d u d' :
  delete_jobs ids e d = Ok (u, d') ->
  view d' = forget_all ids (view d) /\ (forall g l, leases d !! g = Some l -> l_job l ∉ ids) /\
  jobs d' = filter (fun kj : pystr * job => kj.1 ∉ ids) (jobs d).
Proof.
  unfold delete_jobs. intros H. tx_steps H. injection H as _ <-.
  rewrite existsb_map_false in Hstep. split_and!; [| |done].
  - unfold view, forget_all. cbn. rewrite !map_filter_fmap.
    f_equal; f_equal; apply map_filter_ext; by intros [].
  - intros g l Hl. by apply Hstep in Hl as ?%bool_decide_eq_false.
Qed.

Lemma cleanup_forgets minimum_age limit dry_run retirer e d r d' :
  cleanup_terminal minimum_age limit dry_run retirer e d = Ok (r, d') ->
  rtc pforget (view d) (view d').
Proof.
  intros H. unfold cleanup_terminal in H. tx_steps H.
  set (cands := take _ _) in H.
  assert (forall jid, jid ∈ cands -> exists j, jobs d !! jid = Some j /\ is_terminal (j_state j) = true)
    as Hcands.
  { intros jid Hin%elem_of_take_sub. apply list_elem_of_fmap in Hin as ([jid' j] & -> & Hin).
    apply elem_of_select_jobs in Hin as [Hj Hp]. exists j. split; [done|].
    unfold cleanable in Hp. rewrite !andb_true_iff in Hp. tauto. }
  clearbody cands. destruct cands as [|c cands]; [by tx_ret H|].
  destruct dry_run; [by tx_ret H|]. tx_steps H. tx_ret H.
  destruct (bool_decide (r1.1 = [])); [by tx_ret Hstep1|].
  apply delete_jobs_Ok in Hstep1 as (Hv & Hfree & _). rewrite Hv. apply forget_all_steps.
  - intros jid Hin. destruct (Hcands jid) as (j & Hj & Ht).
    { destruct retirer as [retirer|].
      - by eapply retire_jobs_subset.
      - injection Hstep0 as <-. by apply elem_of_take_sub in Hin. }
    exists (job_view j). split; [by apply view_job|done].
  - intros g v (l & Hl & ->)%view_lease_inv. by apply Hfree in Hl.
Qed.

(** ** Registration and fencing *)

(** What a validated current durable attempt is. *)
Lemma current_durable_Ok claim instance_id epoch restart legacy reg e d r d' :
  lock_and_validate_current_durable claim instance_id epoch restart legacy reg e d = Ok (r, d') ->
  d' = d /\ contended e = false /\
  forall a j, r = Some (a, j) ->
    live_at d (clock e) instance_id epoch = true /\
    jobs d !! k_job claim = Some j /\ attempts d !! (k_job claim, k_attempt claim) = Some a /\
    a_current a = true /\ j_attempt j = k_attempt claim /\ job_graph j = k_graph claim /\
    a_instance a = k_instance claim /\ a_epoch a = k_epoch claim /\
    (restart = true -> j_state j = RECONCILIATION_REQUIRED /\ k_epoch claim < epoch) /\
    (legacy = true -> a_lease_epoch a = 0 /\ k_epoch claim < epoch) /\
    (legacy = false -> 0 < a_lease_epoch a) /\
    (forall digest, reg = Some digest -> a_registration a = Some digest /\ a_consumed a = false) /\
    exists l, leases d !! k_graph claim = Some l /\
      lease_of (k_job claim) (k_attempt claim) (k_instance claim) (k_epoch claim) l = true /\
      (restart = true <-> l_expires l <= clock e).
Proof.
  unfold lock_and_validate_current_durable. intros H. tx_steps H. tx_ret H.
  split; [done|]. split; [done|]. intros a j H.
  repeat match type of H with
         | (if negb ?b then None else _) = _ => destruct b eqn:?; cbn [negb] in H; [|discriminate H]
         | (if ?b then None else _) = _ => destruct b eqn:?; [discriminate H|]
         | match ?x with _ => _ end = _ => destruct x eqn:?; [|discriminate H]
         end.
  injection H as -> ->. destruct restart, legacy; cbn [Bool.eqb] in *;
  repeat match goal with
         | G : _ && _ = true |- _ => apply andb_true_iff in G as [? ?]
         | G : _ || _ = false |- _ => apply orb_false_iff in G as [? ?]
         | G : negb _ = false |- _ => apply negb_false_iff in G
         | G : negb _ = true |- _ => apply negb_true_iff in G
         | G : bool_decide _ = true |- _ => apply bool_decide_eq_true in G
         | G : (_ =? _) = true |- _ => apply Z.eqb_eq in G
         end;
  split_and!; try done; try (intros; lia); try (by intros _; split; [|lia]);
  try (intros digest ->; repeat match goal with
         | G : negb _ = false |- _ => apply negb_false_iff in G
         | G : _ && _ = true |- _ => apply andb_true_iff in G as [? ?]
         | G : negb _ = true |- _ => apply negb_true_iff in G
         | G : bool_decide _ = true |- _ => apply bool_decide_eq_true in G
         end; by split);
  eexists; (split; [done|]); (split; [done|]);
  match goal with G : Bool.eqb ?b _ = false |- _ => destruct b eqn:?; try discriminate G end;
  split; intros; done || lia.
Qed.

Lemma require_currency_Ok claim instance_id epoch restart legacy reg e d u d' :
  _require_currency claim instance_id epoch restart legacy reg e d = Ok (u, d') ->
  d' = d /\ exists a j,
    lock_and_validate_current_durable claim instance_id epoch restart legacy reg e d = Ok (Some (a, j), d).
Proof.
  unfold _require_currency. intros H. tx_step H. apply check_Ok in H as [Hn%bool_decide_eq_false ->].
  destruct (current_durable_Ok _ _ _ _ _ _ _ _ _ _ Hstep) as (-> & _ & _).
  split; [done|]. destruct r as [[a j]|]; [eauto|done].
Qed.

Lemma refines_validate_registration claim digest :
  refines (validate_supervisor_registration claim digest).
Proof. intros e d r d' _ [-> _]%require_currency_Ok. done. Qed.

Lemma refines_persist_registration claim digest :
  refines (persist_supervisor_registration claim digest).
Proof.
  intros e d r d' _ H. apply step_none. unfold persist_supervisor_registration in H. tx_steps H.
  destruct (current_durable_Ok _ _ _ _ _ _ _ _ _ _ Hstep0) as (-> & _ & _).
  destruct r1 as [[a j]|]; [|discriminate H]. tx_steps H. apply check_Ok in H as [_ ->].
  by apply update_attempt_none in Hstep2.
Qed.

Lemma refines_consume_registration claim digest :
  refines (in_process_currency_context claim digest).
Proof.
  intros e d r d' _ H. apply step_none. unfold in_process_currency_context in H.
  destruct digest; [|discriminate H]. tx_steps H. apply check_Ok in H as [_ ->].
  apply require_currency_Ok in Hstep0 as [-> _]. by apply update_attempt_none in Hstep1.
Qed.

Lemma handling_Ok {A} (m : tx A) h e d r d' :
  handling m h e d = Ok (r, d') -> m e d = Ok (r, d') \/ d' = d /\ exists x, m e d = Err x /\ h x = Some r.
Proof.
  unfold handling. destruct (m e d) as [[r0 d0]|x]; [by left|].
  destruct (h x) eqn:Hh; [|done]. intros [= -> ->]. right. eauto.
Qed.

Lemma refines_handling {A} (m : tx A) h : refines m -> refines (handling m h).
Proof. intros Hm e d r d' Hinv [H|[-> _]]%handling_Ok; [by eapply Hm|done]. Qed.

Lemma refines_build_proof claim instance_id epoch fence :
  refines (build_store_fencing_proof claim instance_id epoch fence).
Proof.
  unfold build_store_fencing_proof. destruct fence; [|intros e d r d' _ H; by tx_ret H].
  apply refines_handling. intros e d r' d' _ H. tx_step H. tx_ret H.
  by destruct (current_durable_Ok _ _ _ _ _ _ _ _ _ _ Hstep) as (-> & _ & _).
Qed.

Lemma closure_context_Ok claim instance_id epoch fence e d u d' :
  closure_context claim instance_id epoch fence e d = Ok (u, d') ->
  d' = d /\ fence = Some (Ok true) /\ exists a j,
    lock_and_validate_current_durable claim instance_id epoch true false None e d = Ok (Some (a, j), d).
Proof.
  unfold closure_context. destruct fence as [fence|]; [|done]. intros H. tx_steps H.
  apply require_currency_Ok in Hstep as [-> _].
  apply require_currency_Ok in H as [-> Hc]. apply negb_false_iff in Hstep1. subst. done.
Qed.

Lemma reconciling_hit claim j :
  j_state j = RECONCILIATION_REQUIRED -> j_attempt j = k_attempt claim -> reconciling claim j = true.
Proof. intros Hs Hn. unfold reconciling. by rewrite Hs, Hn, bool_decide_true, Z.eqb_refl. Qed.

(** What a durable closure did: the reconciled job and its attempt are unpublished. *)
Lemma durable_closure_Ok claim instance_id epoch fence closer e d r d' :
  durable_closure claim instance_id epoch fence closer e d = Ok (r, d') ->
  r = false /\ d' = d \/
  r = true /\ fence = Some (Ok true) /\ closer = Ok true /\ exists a j,
    jobs d !! k_job claim = Some j /\ attempts d !! (k_job claim, k_attempt claim) = Some a /\
    a_current a = true /\ j_state j = RECONCILIATION_REQUIRED /\ k_epoch claim < epoch /\
    d' = set_attempts (<[(k_job claim, k_attempt claim) :=
                           set_a_pub NOT_STARTED (set_a_registration None a)]> (attempts d))
           (set_jobs (<[k_job claim := set_j_pub NOT_STARTED (set_j_updated (now e) j)]> (jobs d)) d).
Proof.
  unfold durable_closure. intros H. tx_steps H.
  apply closure_context_Ok in Hstep as (-> & -> & a & j & Hdur).
  destruct (current_durable_Ok _ _ _ _ _ _ _ _ _ _ Hdur) as (_ & _ & Hfacts).
  destruct (Hfacts a j eq_refl) as (_ & Hj & Ha & Hc & Hn & _ & _ & _ & Hre & _).
  destruct (Hre eq_refl) as [Hs Hep].
  destruct r1; cbn [negb] in H; tx_steps H.
  - tx_ret H. right.
    destruct (update_job_hit _ _ _ _ _ _ _ _ Hstep Hj (reconciling_hit _ _ Hs Hn)) as (_ & _ & ->).
    destruct (update_attempt_hit _ _ _ _ _ _ _ _ Hstep2 Ha Hc) as (_ & ->).
    split_and!; [done..|]. exists a, j. by split_and!.
  - injection Hstep as _ <-. tx_ret H. by left.
Qed.

Lemma refines_closure claim instance_id epoch fence closer :
  refines (execute_durable_closure claim instance_id epoch fence closer).
Proof.
  unfold execute_durable_closure.
  destruct fence as [fence|]; [|intros e d r d' _ H; by tx_ret H].
  destruct closer as [closer|]; [|intros e d r d' _ H; by tx_ret H].
  apply refines_handling. intros e d r d' Hinv H.
  apply durable_closure_Ok in H as [[_ ->]|(_ & _ & _ & a & j & Hj & Ha & Hc & Hs & _ & ->)]; [done|].
  eapply (step_update d _ (k_job claim) j) with (drop := false); try done; cbn.
  - rewrite andb_negb_r. by apply fmap_insert_same with a.
  - by left.
  - by left.
  - rewrite Hs. unfold pub_ok. split_and!; try done; set_solver.
Qed.

Lemma refines_quarantine claim instance_id epoch fence :
  refines (quarantine_legacy_attempt claim instance_id epoch fence).
Proof.
  unfold quarantine_legacy_attempt.
  destruct fence as [fence|]; [|intros e d r d' _ H; by tx_ret H].
  destruct (negb _); [intros e d r d' _ H; by tx_ret H|].
  apply refines_handling. intros e d r d' Hinv H. unfold quarantine_legacy in H. tx_step H.
  destruct (current_durable_Ok _ _ _ _ _ _ _ _ _ _ Hstep) as (-> & _ & Hfacts).
  destruct r0 as [[a j]|]; [|by tx_ret H].
  destruct (Hfacts a j eq_refl) as (_ & Hj & Ha & Hc & Hn & Hg & Hi & He & Hre & _).
  destruct (Hre eq_refl) as [Hs _]. clear Hstep. tx_steps H. tx_ret H.
  apply require_currency_Ok in Hstep2 as [-> _].
  destruct (update_job_hit _ _ _ _ _ _ _ _ Hstep3 Hj (reconciling_hit _ _ Hs Hn)) as (_ & _ & ->).
  assert (owned_current (k_instance claim) (k_epoch claim) a = true) as Ho
    by (by apply owned_current_spec).
  destruct (update_attempt_hit _ _ _ _ _ _ _ _ Hstep5 Ha Ho) as (_ & ->).
  apply negb_false_iff in Hstep8. subst.
  apply delete_lease_Ok in Hstep7 as [(? & _)|(_ & l & Hl & Hlo & ->)]; [done|]. cbn in Hl.
  apply andb_true_iff in Hlo as [(Hjob & _)%lease_of_spec _].
  apply update_intent_Ok in Hstep9 as [m ->]. rewrite view_set_intents.
  eapply (step_update d _ (k_job claim) j) with (drop := true); try done; cbn.
  - rewrite Hs. cbn. rewrite Hn. by apply view_close with a.
  - by rewrite Hg.
  - right. rewrite Hs. unfold legal. set_solver.
  - intros _. split; [done|]. exists l. by rewrite Hg.
  - unfold pub_ok. split_and!; try done; set_solver.
Qed.

(** ** Polling *)

Lemma refines_record_current graph gens next : refines (record_current graph gens next).
Proof.
  intros e d r d' _ H. unfold record_current in H. tx_steps H.
  apply update_intent_Ok in H as [m ->]. by apply step_none.
Qed.

Lemma refines_record_condition graph category next : refines (record_condition graph category next).
Proof.
  intros e d r d' _ H. unfold record_condition in H. tx_steps H.
  apply update_intent_Ok in H as [m ->]. by apply step_none.
Qed.

End Refinement.
