(* ===== verification/ControlStore.v ===== *)
(** The control store as a whole: the operations of [ControlStore]
    ([coordinator/storage.py]) in any order, and what every reachable database
    guarantees. *)
From S2P Require Import Prelude PyVal Limits Contracts ContractsFacts Semantics ControlDb.
From S2P Require Import ControlDbFacts ControlOwnership ControlState ControlSubmission.
From S2P Require Import ControlReconciliation ControlMaintenance Protocol ControlRefinement.
Open Scope Z_scope.

(** The operations that write the database. *)
Inductive op :=
| OpSubmit (request : JobRequest) (requester : pystr) (deadline : option Deadline)
| OpCoalesce (request : JobRequest) (requester : pystr)
| OpRecordCurrent (graph : pystr) (gens : GenerationTuple) (next : Z)
| OpRecordCondition (graph category : pystr) (next : Z)
| OpAcquire (instance_id : pystr) (ttl : Z)
| OpHeartbeatSingleton (instance_id : pystr) (epoch ttl : Z)
| OpStop (instance_id : pystr) (epoch : Z)
| OpClaim (instance_id : pystr) (epoch seconds : Z) (automatic_only : bool)
| OpRelease (graph jid : pystr) (n : Z) (owner : pystr) (owner_epoch : Z) (instance_id : pystr)
    (epoch : Z)
| OpRecover (instance_id : pystr) (epoch limit : Z)
| OpCompareAndSet (jid : pystr) (expected new : JobState) (n : Z) (instance_id : pystr) (epoch : Z)
    (pub : option PublicationState) (error diagnostic : option pystr)
| OpHeartbeat (claim : JobClaim) (ttl : Z) (phase : option pystr) (completed total : option Z)
| OpCancel (jid : pystr)
| OpTerminated (claim : JobClaim) (proved : bool) (instance_id : pystr) (epoch : Z)
    (diagnostic : option pystr)
| OpReconcile (claim : JobClaim) (instance_id : pystr) (epoch : Z) (unpublished : bool)
| OpRetry (claim : JobClaim) (expected : JobState) (delay : Z) (category : pystr)
    (diagnostic : option pystr)
| OpMarker (claim : JobClaim) (run : pystr) (gens : GenerationTuple) (outcome : MarkerOutcome)
| OpCleanup (minimum_age limit : Z) (dry_run : bool) (retirer : option (JobClaim -> option retire_error))
| OpRegister (claim : JobClaim) (digest : pystr)
| OpConsume (claim : JobClaim) (digest : option pystr)
| OpClosure (claim : JobClaim) (instance_id : pystr) (epoch : Z) (fence closer : option (res bool))
| OpQuarantine (claim : JobClaim) (instance_id : pystr) (epoch : Z) (fence : option (res bool)).

Definition void {A} (m : tx A) : tx unit := _ ← m; mret tt.

Section Store.
Context {U : Unicode}.
Variable limits : CoordinatorLimits.

Definition exec (o : op) : tx unit :=
  match o with
  | OpSubmit request requester deadline => void (submit request requester limits deadline)
  | OpCoalesce request requester => void (coalesce_automatic request requester limits)
  | OpRecordCurrent graph gens next => void (record_current graph gens next)
  | OpRecordCondition graph category next => void (record_condition graph category next)
  | OpAcquire i ttl => void (acquire_singleton i ttl)
  | OpHeartbeatSingleton i e ttl => void (heartbeat_singleton i e ttl)
  | OpStop i e => void (stop_singleton i e)
  | OpClaim i e seconds auto => void (claim_once i e seconds (max_retry_attempts limits) auto)
  | OpRelease g jid n oi oe i e => void (release_graph_lease g jid n oi oe i e)
  | OpRecover i e limit => void (recover_abandoned_attempts i e limit)
  | OpCompareAndSet jid expected new n i e pub err diag =>
      void (compare_and_set_state jid expected new n i e pub err diag)
  | OpHeartbeat claim ttl phase completed total =>
      void (heartbeat_attempt claim ttl phase completed total limits)
  | OpCancel jid => void (request_cancellation jid)
  | OpTerminated claim p i e diag => void (mark_attempt_terminated claim p i e diag)
  | OpReconcile claim i e unpublished =>
      void (reconcile_publication claim (max_retry_attempts limits) i e unpublished)
  | OpRetry claim expected delay category diag =>
      void (schedule_retry claim expected delay category (max_retry_attempts limits) diag)
  | OpMarker claim run gens outcome => void (record_publication_marker claim run gens outcome)
  | OpCleanup age limit dry retirer => void (cleanup_terminal age limit dry retirer)
  | OpRegister claim digest => void (persist_supervisor_registration claim digest)
  | OpConsume claim digest => void (in_process_currency_context claim digest)
  | OpClosure claim i e fence closer => void (execute_durable_closure claim i e fence closer)
  | OpQuarantine claim i e fence => void (quarantine_legacy_attempt claim i e fence)
  end.

(** The coordinator requeues a job only by [schedule_retry] and reconciliation, which
    close its attempt; it never asks the compare-and-set for [queued]. *)
Definition op_ok (o : op) : Prop :=
  match o with OpCompareAndSet _ _ new _ _ _ _ _ _ => new <> QUEUED | _ => True end.

Definition is_cleanup (o : op) : bool := match o with OpCleanup _ _ _ _ => true | _ => false end.

(** One transaction, committed or rolled back, in any environment. *)
Inductive store_step (d d' : db) : Prop :=
| Store_step o e : op_ok o -> (commit (exec o) e d).2 = d' -> store_step d d'.

Definition reachable (d : db) : Prop := rtc store_step empty_db d.

Abbreviation Inv d := (pinv (max_retry_attempts limits) (max_nonterminal_jobs limits) (view d)).
Abbreviation steps p p' := (rtc (pstep (max_retry_attempts limits) (max_nonterminal_jobs limits)) p p').

Lemma void_Ok {A} (m : tx A) e d u d' : void m e d = Ok (u, d') -> exists a, m e d = Ok (a, d').
Proof. unfold void. intros (a & ? & H & [= <- <-])%tx_bind_Ok. eauto. Qed.

Lemma exec_refines o e d u d' :
  op_ok o -> Inv d -> exec o e d = Ok (u, d') ->
  (is_cleanup o = false /\ steps (view d) (view d')) \/
  (is_cleanup o = true /\ rtc pforget (view d) (view d')).
Proof.
  intros Hok Hinv H.
  destruct o; cbn [exec is_cleanup] in *; apply void_Ok in H as [r H];
    try (right; split; [done|]; by eapply cleanup_forgets); left; (split; [done|]); revert H; revert Hinv.
  all: first
    [ apply refines_submit | apply refines_coalesce | apply refines_record_current
    | apply refines_record_condition | apply refines_acquire | apply refines_heartbeat_singleton
    | apply refines_stop | apply refines_claim_once | apply refines_release | apply refines_recover
    | by apply refines_compare_and_set | apply refines_heartbeat | apply refines_cancellation
    | apply refines_mark_terminated | apply refines_reconcile | apply refines_schedule_retry
    | apply refines_marker | apply refines_persist_registration | apply refines_consume_registration
    | apply refines_closure | apply refines_quarantine ].
Qed.

Lemma commit_cases o e d :
  (exists u d', exec o e d = Ok (u, d') /\ commit (exec o) e d = (Ok u, d')) \/
  (exists x, exec o e d = Err x /\ commit (exec o) e d = (Err x, d)).
Proof.
  unfold commit. destruct (exec o e d) as [[u d']|x]; [left; eauto|right; eauto].
Qed.

(** ** Credentials *)

(** The singleton credential an operation presents. *)
Definition credential (o : op) : option (pystr * Z) :=
  match o with
  | OpHeartbeatSingleton i e _ | OpStop i e | OpClaim i e _ _ | OpRelease _ _ _ _ _ i e | OpRecover i e _
  | OpCompareAndSet _ _ _ _ i e _ _ _ | OpTerminated _ _ i e _ | OpReconcile _ i e _
  | OpClosure _ i e _ _ | OpQuarantine _ i e _ => Some (i, e)
  | OpHeartbeat claim _ _ _ _ | OpRetry claim _ _ _ _ | OpMarker claim _ _ _ | OpRegister claim _ | OpConsume claim _ =>
      Some (k_instance claim, k_epoch claim)
  | _ => None
  end.

Lemma not_live_durable claim i epoch restart legacy reg e d r d' :
  live_at d (clock e) i epoch = false ->
  lock_and_validate_current_durable claim i epoch restart legacy reg e d = Ok (r, d') -> r = None /\ d' = d.
Proof.
  intros Hl H. unfold lock_and_validate_current_durable in H. tx_steps H. rewrite Hl in H. by tx_ret H.
Qed.

Lemma not_live_currency claim i epoch restart legacy reg e d u d' :
  live_at d (clock e) i epoch = false ->
  _require_currency claim i epoch restart legacy reg e d = Ok (u, d') -> False.
Proof.
  intros Hl [_ (a & j & H)]%require_currency_Ok. by destruct (not_live_durable _ _ _ _ _ _ _ _ _ _ Hl H).
Qed.

Lemma not_live_owner i epoch e d u d' :
  live_at d (now e) i epoch = false -> require_live_owner i epoch e d = Ok (u, d') -> False.
Proof. intros Hl [H _]%require_live_owner_Ok. congruence. Qed.

(** C4.  A stale owner cannot write.  An operation that presents a singleton credential
    which is not that of the active, unexpired owner leaves the database exactly as it
    was, whatever its other arguments, but for two operations that do not ask for a live
    owner: an owner whose time ran out while nobody took over may still mark itself stopped,
    and a publication marker is recorded for any attempt that has none. *)
Theorem stale_owner_cannot_write o e d i epoch :
  credential o = Some (i, epoch) ->
  live_at d (now e) i epoch = false -> live_at d (clock e) i epoch = false ->
  let d' := (commit (exec o) e d).2 in
  d' = d \/
  match o with
  | OpStop _ _ => exists s, singleton d = Some s /\ s_instance s = i /\ s_epoch s = epoch /\ s_active s = true /\
      s_expires s <= now e /\
      d' = set_singleton (Some (set_s_active false (set_s_stopped (Some (now e)) (set_s_expires (now e) s)))) d
  | OpMarker claim run gens outcome =>
      markers d !! (k_job claim, k_attempt claim) = None /\ is_Some (attempts d !! (k_job claim, k_attempt claim)) /\
      d' = set_markers (<[(k_job claim, k_attempt claim) := MkMarker (k_graph claim) run gens outcome (now e)]> (markers d)) d
  | _ => False
  end.
Proof.
  intros Hcred Hnow Hclock. cbn zeta.
  destruct (commit_cases o e d) as [(u & d' & Hx & ->)|(x & _ & ->)]; [|by left]. cbn [snd].
  destruct o; cbn [credential exec] in *; try discriminate Hcred; injection Hcred as <- <-;
    apply void_Ok in Hx as [r H];
    cbv iota beta; lazymatch goal with |- _ \/ False => left | |- _ => idtac end.
  - unfold heartbeat_singleton in H. tx_steps H. rewrite Hnow in H. destruct (singleton d); by tx_ret H.
  - unfold stop_singleton in H. tx_steps H. unfold live_at in Hnow. destruct (singleton d) as [s|]; [|tx_ret H; by left].
    destruct (_ && _ && s_active s) eqn:Eb; [|tx_ret H; by left]. tx_steps H. tx_ret H. right. exists s.
    rewrite !andb_true_iff, bool_decide_eq_true, Z.eqb_eq in Eb. destruct Eb as [[Ei Ee] Ea]. split_and!; try done.
    + cbn in Hnow. by apply Z.ltb_ge.
    + by injection Hstep as _ <-.
  - apply claim_once_Ok in H as (_ & Hl & _). congruence.
  - unfold release_graph_lease in H. tx_steps H. tx_ret H.
    apply delete_lease_Ok in Hstep as [(-> & -> & _)|(_ & l & _ & Hp & _)]; [by tx_ret Hstep0|].
    rewrite Hnow, andb_false_r in Hp. done.
  - unfold recover_abandoned_attempts in H. tx_steps H. rewrite Hnow in *. done.
  - apply compare_and_set_Ok in H as (_ & [[_ ->]|(_ & j & a & a' & _ & Hg & _)]); [done|].
    apply cas_guard_spec in Hg as (_ & _ & Hl & _). congruence.
  - unfold heartbeat_attempt in H. tx_step H. tx_step H. by destruct (not_live_owner _ _ _ _ _ _ Hnow Hstep0).
  - unfold mark_attempt_terminated in H. tx_step H. tx_step H.
    by destruct (not_live_owner _ _ _ _ _ _ Hnow Hstep0).
  - unfold reconcile_publication in H. tx_step H. by destruct (not_live_owner _ _ _ _ _ _ Hnow Hstep).
  - unfold schedule_retry in H. do 3 tx_step H. by destruct (not_live_owner _ _ _ _ _ _ Hnow Hstep1).
  - unfold record_publication_marker in H. tx_steps H. destruct (markers d !! _) as [m|] eqn:Em; tx_steps H; tx_ret H; [by left|right].
    injection Hstep1 as _ <-. split_and!; [done| |done]. apply bool_decide_eq_false in Hstep0. by apply not_eq_None_Some.
  - unfold persist_supervisor_registration in H. tx_step H. tx_step H.
    by destruct (not_live_durable _ _ _ _ _ _ _ _ _ _ Hclock Hstep0) as [-> ->].
  - unfold in_process_currency_context in H. destruct digest; [|discriminate H]. tx_step H. tx_step H.
    by destruct (not_live_currency _ _ _ _ _ _ _ _ _ _ Hclock Hstep0).
  - unfold execute_durable_closure in H. destruct fence as [f|]; [|by tx_ret H].
    destruct closer as [c|]; [|by tx_ret H]. apply handling_Ok in H as [H|[-> _]]; [|done].
    unfold durable_closure in H. tx_step H. tx_step H. unfold closure_context in Hstep. tx_step Hstep.
    by destruct (not_live_currency _ _ _ _ _ _ _ _ _ _ Hclock Hstep0).
  - unfold quarantine_legacy_attempt in H. destruct fence as [f|]; [|by tx_ret H].
    destruct (negb _); [by tx_ret H|]. apply handling_Ok in H as [H|[-> _]]; [|done].
    unfold quarantine_legacy in H. tx_step H.
    destruct (not_live_durable _ _ _ _ _ _ _ _ _ _ Hclock Hstep) as [-> ->]. by tx_ret H.
Qed.


Section Reachable.
Hypothesis limits_ok : validate limits HARD_MAX_LIMITS = Ok tt.

Lemma limits_positive : 0 <= max_retry_attempts limits /\ 0 <= max_nonterminal_jobs limits.
Proof.
  unfold validate in limits_ok. apply bind_Ok in limits_ok as ([] & Hf & _).
  rewrite validate_fields_Ok in Hf by done. unfold limit_fields in Hf. cbn in Hf.
  repeat (apply Forall2_cons in Hf as [? Hf]). cbn in *. lia.
Qed.

Lemma step_inv d d' : store_step d d' -> Inv d -> Inv d'.
Proof.
  intros [o e Hok <-] Hinv. destruct (commit_cases o e d) as [(u & d' & H & ->)|(x & _ & ->)]; [|done].
  cbn. destruct (exec_refines _ _ _ _ _ Hok Hinv H) as [[_ Hs]|[_ Hs]].
  - eapply pinv_steps; [apply limits_positive|done|done].
  - by eapply pinv_forgets.
Qed.

Lemma reachable_inv d : reachable d -> Inv d.
Proof.
  intros H. apply (rtc_ind_r (R := store_step) (fun d => Inv d) empty_db); [| |done].
  - unfold view, empty_db. cbn. rewrite !fmap_empty. apply pinv_empty, limits_positive.
  - intros d1 d2 _ Hs Hi. by eapply step_inv.
Qed.

(** ** What every reachable database guarantees *)

(** What a compare-and-set to [queued] does when it takes effect: the job waits again, but its
    attempt stays current and keeps the graph's lease, which no step of the protocol leaves so. *)
Lemma requeue_in_place jid expected n i epoch pub err diag e d r d' :
  Inv d -> compare_and_set_state jid expected QUEUED n i epoch pub err diag e d = Ok (r, d') ->
  d' = d \/
  exists j' a l, jobs d' !! jid = Some j' /\ j_state j' = QUEUED /\ j_attempt j' = n /\
    attempts d' !! (jid, n) = Some a /\ a_current a = true /\
    leases d' !! job_graph j' = Some l /\ l_job l = jid /\ l_attempt l = n /\ ~ steps (view d) (view d').
Proof.
  intros Hinv H. apply compare_and_set_Ok in H as (_ & [[_ ->]|(_ & j & a & a' & Hj & Hg & Ha & Ho & _ & -> & Hv)]); [by left|right].
  apply cas_guard_spec in Hg as (_ & Hn & _). cbn in Hv. injection Hv as _ _ Hcur _ _.
  assert (a_current a = true) as Hc by (unfold owned_current in Ho; by apply andb_true_iff in Ho as [[Ho _]%andb_true_iff _]).
  destruct (current_facts _ _ _ _ _ _ Hinv Hj Ha Hc) as (_ & _ & l & Hl & Hlv). injection Hlv as Hl1 Hl2 _ _ _.
  eexists _, a', l. cbn [jobs attempts leases set_attempts set_jobs]. rewrite !lookup_insert_eq.
  assert (a_current a' = true) as Hc' by congruence. split_and!; try done. intros Hs. apply pinv_steps in Hs; [|apply limits_positive|done].
  eapply (inv_current _ _ _ Hs jid n (attempt_view a')) in Hc' as [_ Hact]; [|by apply view_attempt, lookup_insert_eq|by apply view_job, lookup_insert_eq].
  done.
Qed.

(** C1.  The store implements the job protocol: from every reachable database, an
    operation that commits takes protocol steps only (cleanup only forgets finished
    jobs), and one that raises changes nothing.  The one exception is a compare-and-set
    to [queued], which the table of transitions allows and the coordinator does not use:
    where it takes effect, the job is queued while its attempt stays current and holds the
    lease of the graph, and no sequence of protocol steps does that. *)
Theorem store_refines_protocol o e d r d' :
  reachable d -> commit (exec o) e d = (r, d') ->
  (is_ok r = false -> d' = d) /\
  match o with
  | OpCompareAndSet jid _ QUEUED n _ _ _ _ _ =>
      d' = d \/
      exists j' a l, jobs d' !! jid = Some j' /\ j_state j' = QUEUED /\ j_attempt j' = n /\
        attempts d' !! (jid, n) = Some a /\ a_current a = true /\
        leases d' !! job_graph j' = Some l /\ l_job l = jid /\ l_attempt l = n /\ ~ steps (view d) (view d')
  | OpCleanup _ _ _ _ => rtc pforget (view d) (view d')
  | _ => steps (view d) (view d')
  end.
Proof.
  intros Hr H. pose proof (reachable_inv _ Hr) as Hinv.
  destruct (commit_cases o e d) as [(u & d1 & Hx & Hc)|(x & Hx & Hc)]; rewrite Hc in H; injection H as <- <-;
    (split; [done|]); [|repeat case_match; first [by left | done]].
  assert (op_ok o -> if is_cleanup o then rtc pforget (view d) (view d1) else steps (view d) (view d1)) as Hok.
  { intros Hok. by destruct (exec_refines _ _ _ _ _ Hok Hinv Hx) as [[-> ?]|[-> ?]]. }
  destruct o; try exact (Hok I). destruct new; try by apply Hok.
  cbn [exec] in Hx. apply void_Ok in Hx as [a Hx].
  by eapply requeue_in_place.
Qed.

(** C2.  Mutual exclusion.  In every reachable database, an active job (claimed,
    starting, running, being cancelled or awaiting reconciliation) has exactly one
    current attempt, its last one, and that attempt holds the lease of the job's
    graph under the attempt's owner and epochs; so no two active jobs work on one
    graph. *)
Theorem active_job_holds_lease d jid j :
  reachable d -> jobs d !! jid = Some j -> is_active (j_state j) = true ->
  (exists a l,
     attempts d !! (jid, j_attempt j) = Some a /\ a_current a = true /\
     leases d !! job_graph j = Some l /\ l_job l = jid /\ l_attempt l = j_attempt j /\
     l_instance l = a_instance a /\ l_epoch l = a_epoch a /\ l_lease_epoch l = a_lease_epoch a) /\
  (forall n a, attempts d !! (jid, n) = Some a -> a_current a = true -> n = j_attempt j) /\
  (forall jid' j', jobs d !! jid' = Some j' -> is_active (j_state j') = true ->
     job_graph j' = job_graph j -> jid' = jid).
Proof.
  intros Hr Hj Hact. pose proof (reachable_inv _ Hr) as Hinv.
  destruct (inv_active _ _ _ Hinv jid (job_view j) (view_job _ _ _ Hj) Hact) as (v & Ha & Hc & Hl).
  pose proof Hl as Hl0.
  apply view_attempt_inv in Ha as (a & Ha & ->). apply view_lease_inv in Hl as (l & Hl & Hlv).
  injection Hlv as H1 H2 H3 H4 H5. split_and!.
  - exists a, l. by split_and!.
  - intros n a' Ha' Hc'. by destruct (current_facts _ _ _ _ _ _ Hinv Hj Ha' Hc').
  - intros jid' j' Hj' Hact' Hg.
    destruct (inv_active _ _ _ Hinv jid' (job_view j') (view_job _ _ _ Hj') Hact') as (v' & _ & _ & Hl').
    cbn [v_spec job_view] in *. rewrite Hg, Hl0 in Hl'. by injection Hl' as ->.
Qed.

(** C3.  Success is proved.  A job of a reachable database is [succeeded] only with a
    committed publication marker of its last attempt, for the job's own graph and
    generations, and its publication state is [committed]. *)
Theorem succeeded_job_published d jid j :
  reachable d -> jobs d !! jid = Some j -> j_state j = SUCCEEDED ->
  j_pub j = COMMITTED /\
  exists m, markers d !! (jid, j_attempt j) = Some m /\ m_outcome m = MarkerCommitted /\
    m_graph m = job_graph j /\ m_gens m = job_gens j.
Proof.
  intros Hr Hj Hs. pose proof (reachable_inv _ Hr) as Hinv. apply view_job in Hj. split.
  - by apply (inv_pub _ _ _ Hinv _ _ Hj).
  - exact (inv_success _ _ _ Hinv _ _ Hj Hs).
Qed.

(** C7.  Work is bounded.  In every reachable database no job has more attempts than
    the retry limit, every attempt row is numbered between one and its job's current
    attempt, and at most the configured number of jobs is unfinished. *)
Theorem store_work_bounded d :
  reachable d ->
  (forall jid j, jobs d !! jid = Some j -> 0 <= j_attempt j <= max_retry_attempts limits) /\
  (forall jid n a, attempts d !! (jid, n) = Some a ->
     exists j, jobs d !! jid = Some j /\ 1 <= n <= j_attempt j) /\
  count_jobs d (fun j => negb (is_terminal (j_state j))) <= max_nonterminal_jobs limits.
Proof.
  intros Hr. pose proof (reachable_inv _ Hr) as Hinv. split_and!.
  - intros jid j Hj%view_job. exact (inv_bound _ _ _ Hinv _ _ Hj).
  - intros jid n a Ha%view_attempt. destruct (inv_attempt _ _ _ Hinv _ _ _ Ha) as (v & Hv & Hn & _).
    apply view_job_inv in Hv as (j & Hj & ->). by exists j.
  - rewrite count_jobs_nonterminal. exact (inv_count _ _ _ Hinv).
Qed.

(** C6.  Jobs run their legal course.  Whatever transaction is executed on a reachable
    database, a job it held keeps its submitted columns, never loses an attempt, and
    moves along legal transitions only, so that a terminal state is final; only a
    finished job disappears. *)
Theorem job_course_legal d d' jid j :
  reachable d -> store_step d d' -> jobs d !! jid = Some j ->
  (exists j', jobs d' !! jid = Some j' /\ j_spec j' = j_spec j /\ j_attempt j <= j_attempt j' /\
     rtc legal (j_state j) (j_state j') /\ (is_terminal (j_state j) = true -> j_state j' = j_state j)) \/
  (jobs d' !! jid = None /\ is_terminal (j_state j) = true).
Proof.
  intros Hr [o e Hok Hc] Hj. pose proof (view_job _ _ _ Hj) as Hv.
  assert (forall s t, rtc legal s t -> is_terminal s = true -> t = s) as Hfinal.
  { intros s t [|s1 s2 s3 Hl _] Ht; [done|]. apply legal_from in Hl. congruence. }
  destruct (commit_cases o e d) as [(u & d1 & Hx & Hcc)|(x & Hx & Hcc)];
    rewrite Hcc in Hc; cbn in Hc; subst d'.
  - destruct (exec_refines _ _ _ _ _ Hok (reachable_inv _ Hr) Hx) as [[_ Hs]|[_ Hs]].
    + left. destruct (psteps_lineage _ _ _ _ _ _ Hs Hv) as (v' & Hv' & Hspec & Hl & Ha).
      apply view_job_inv in Hv' as (j' & Hj' & ->). exists j'. split_and!; try done. by apply Hfinal.
    + destruct (forgets_lineage _ _ _ _ Hs Hv) as [Hv'|[Hn Ht]].
      * left. apply view_job_inv in Hv' as (j' & Hj' & [= Hspec Hst _ Hat]). exists j'.
        split_and!; [done|done|lia|by rewrite Hst|done].
      * right. split; [|done]. cbn in Hn. rewrite lookup_fmap in Hn. by apply fmap_None in Hn.
  - left. exists j. by split_and!.
Qed.

(** A takeover finds no live owner and counts the epoch on. *)
Lemma acquire_Ok instance_id ttl e d epoch d' :
  acquire_singleton instance_id ttl e d = Ok (epoch, d') ->
  (forall i k, live_at d (now e) i k = false) /\ epoch = owner_epoch (view d) + 1 /\
  live_at d' (now e) instance_id epoch = true.
Proof.
  unfold acquire_singleton. intros H. tx_steps H. unfold positive_seconds in Hstep.
  destruct (Z.leb_spec ttl 0); [discriminate Hstep|]. injection Hstep as <-.
  unfold owner_epoch, live_at, view. cbn. destruct (singleton d) as [s|]; cbn.
  - destruct (_ && _) eqn:El; [discriminate H|]. tx_steps H. tx_ret H. injection Hstep as _ <-. split_and!; [|done|].
    + intros i k. apply andb_false_iff in El as [->| ->]; by rewrite ?andb_false_r.
    + cbn. rewrite bool_decide_true, Z.eqb_refl by done. cbn. lia.
  - tx_steps H. tx_ret H. injection Hstep as _ <-. split_and!; [done|done|]. cbn. rewrite bool_decide_true by done. cbn. lia.
Qed.

(** C5.  Takeovers fence.  A takeover of a reachable store succeeds only when no owner is
    live, and makes the new owner live under an epoch above that of the owner before, of
    every attempt and of every lease; no operation ever lowers the singleton's epoch; and
    attempts of the singleton's own epoch are its present owner's. *)
Theorem takeover_fences d :
  reachable d ->
  (forall instance_id ttl e epoch d',
     acquire_singleton instance_id ttl e d = Ok (epoch, d') ->
     (forall i k, live_at d (now e) i k = false) /\ live_at d' (now e) instance_id epoch = true /\
     (forall s, singleton d = Some s -> s_epoch s < epoch) /\
     (forall k a, attempts d !! k = Some a -> a_epoch a < epoch) /\
     (forall g l, leases d !! g = Some l -> l_epoch l < epoch)) /\
  (forall d', store_step d d' -> owner_epoch (view d) <= owner_epoch (view d')) /\
  (forall k a s, attempts d !! k = Some a -> singleton d = Some s -> a_epoch a = s_epoch s ->
     a_instance a = s_instance s).
Proof.
  intros Hr. pose proof (reachable_inv _ Hr) as Hinv. split_and!.
  - intros i ttl e epoch d' (Hnone & He & Hlive)%acquire_Ok.
    assert (forall k a, attempts d !! k = Some a -> a_epoch a < epoch) as Hatt.
    { intros k a Ha%view_attempt. destruct (inv_epoch _ _ _ Hinv _ _ Ha) as (i' & e' & Ho & Hle & _).
      unfold owner_epoch in He. rewrite Ho in He. cbn in Hle. lia. }
    split_and!; [done|done| |done|].
    + intros s Hs. unfold owner_epoch in He. cbn in He. rewrite Hs in He. cbn in He. lia.
    + intros g l Hl%view_lease. destruct (inv_lease _ _ _ Hinv _ _ Hl) as (_ & v & _ & _ & _ & Ha & Heq).
      apply view_attempt_inv in Ha as (a & Ha & ->). injection Heq as _ Hep _. apply Hatt in Ha. cbn in Hep. lia.
  - intros d' [o e Hok Hc].
    destruct (commit_cases o e d) as [(u & d1 & Hx & Hcc)|(x & Hx & Hcc)];
      rewrite Hcc in Hc; cbn in Hc; subst d'; [|lia].
    destruct (exec_refines _ _ _ _ _ Hok Hinv Hx) as [[_ Hs]|[_ Hs]]; [by eapply psteps_epoch|].
    clear - Hs. induction Hs as [|p1 p2 p3 Hs _ IH]; [lia|]. by destruct Hs.
  - intros k a s Ha%view_attempt Hs He. destruct (inv_epoch _ _ _ Hinv _ _ Ha) as (i & e & Ho & _ & Hi).
    cbn in Ho. rewrite Hs in Ho. injection Ho as <- <-. by apply Hi.
Qed.

End Reachable.
End Store.
