(* ===== verification/ControlFacts.v ===== *)
(** Functional behaviour of the store's operations: which job a claim takes, replay of
    submissions, the decision of a reconciliation against the pure rules, one-use launch
    registration, complete recovery after a takeover, and the two ways a leftover row blocks
    the store. *)
From S2P Require Import Prelude Utf8 PyVal Ordering Limits Contracts ContractsFacts Semantics ControlDb.
From S2P Require Import ControlDbFacts ControlOwnership ControlState ControlSubmission.
From S2P Require Import ControlReconciliation ControlMaintenance Protocol ControlRefinement.
From S2P Require Import ControlStore.
Open Scope Z_scope.

(** ** Orders *)

(** The collation is a total order, as a deterministic collation of the database is. *)
Definition collation_ok (e : env) : Prop :=
  (forall s t, collate e s t = true \/ collate e t s = true) /\
  (forall s t u, collate e s t = true -> collate e t u = true -> collate e s u = true) /\
  (forall s t, collate e s t = true -> collate e t s = true -> s = t).

(** The order by code point is such a collation. *)
Lemma str_leb_collation (e : env) : collate e = str_leb -> collation_ok e.
Proof. unfold collation_ok. intros ->. apply str_leb_order. Qed.

Lemma ordering_text {A} (e : env) (f : A -> pystr) :
  collation_ok e -> ordering (fun x y => text_compare e (f x) (f y)).
Proof. apply ordering_by. Qed.

Lemma claim_order_ordering e :
  collation_ok e ->
  (forall x y, Is_true (claim_order e x y) \/ Is_true (claim_order e y x)) /\
  (forall x y z, Is_true (claim_order e x y) -> Is_true (claim_order e y z) -> Is_true (claim_order e x z)).
Proof.
  intros Hc. unfold claim_order. cbn [lex].
  apply (ordering_not_gt (fun x y : pystr * job =>
    lex2 (j_priority (j_spec y.2) ?= j_priority (j_spec x.2))
      (lex2 (j_next_eligible x.2 ?= j_next_eligible y.2)
         (lex2 (j_submitted_at (j_spec x.2) ?= j_submitted_at (j_spec y.2))
            (lex2 (text_compare e x.1 y.1) Eq))))).
  apply ordering_lex; [apply (ordering_flip _ (ordering_Z (fun x : pystr * job => j_priority (j_spec x.2))))|].
  apply ordering_lex; [apply (ordering_Z (fun x : pystr * job => j_next_eligible x.2))|].
  apply ordering_lex; [apply (ordering_Z (fun x : pystr * job => j_submitted_at (j_spec x.2)))|].
  apply (ordering_lex (fun x y => text_compare e x.1 y.1) (fun _ _ => Eq)); [by apply ordering_text|].
  split; done.
Qed.

(** The first row of an ordered query comes before every other row. *)
Lemma select_head_min d p le jid j rest :
  (forall x y, Is_true (le x y) \/ Is_true (le y x)) ->
  (forall x y z, Is_true (le x y) -> Is_true (le y z) -> Is_true (le x z)) ->
  select_jobs d p le = (jid, j) :: rest ->
  forall jid' j', jobs d !! jid' = Some j' -> p jid' j' = true -> Is_true (le (jid, j) (jid', j')).
Proof.
  intros Htot Htr Hsel jid' j' Hj' Hp.
  assert (Transitive (fun x y => Is_true (le x y))) as Ht by (intros x y z; apply Htr).
  assert (Total (fun x y => Is_true (le x y))) as Hto by (intros x y; apply Htot).
  assert (StronglySorted (fun x y => Is_true (le x y)) (select_jobs d p le)) as Hs
    by (apply Sorted_StronglySorted, Sorted_merge_sort; apply _).
  assert ((jid', j') ∈ select_jobs d p le) as Hin by (by apply elem_of_select_jobs).
  rewrite Hsel in Hs, Hin. apply elem_of_cons in Hin as [[= -> ->]|Hin].
  - by destruct (Htot (jid, j) (jid, j)).
  - apply StronglySorted_inv in Hs as [_ Hall]. rewrite Forall_forall in Hall. by apply Hall.
Qed.

Section Facts.
Context {U : Unicode}.
Variable limits : CoordinatorLimits.

(** What makes a queued job eligible for a claim. *)
Definition eligible (e : env) (d : db) (automatic_only : bool) (jid : pystr) (j : job) : Prop :=
  j_state j = QUEUED /\ j_next_eligible j <= now e /\ j_attempt j < max_retry_attempts limits /\
  (automatic_only = true -> job_class j = lit "automatic") /\
  (job_class j <> lit "manual" -> forall c, intents d !! job_graph j = Some c -> c_paused c = false) /\
  leases d !! job_graph j = None /\ jid ∉ locked e.

Lemma claimable_eligible e d automatic_only jid j :
  claimable e d (max_retry_attempts limits) automatic_only jid j = true <-> eligible e d automatic_only jid j.
Proof.
  unfold claimable, eligible, graph_paused.
  rewrite !andb_true_iff, !orb_true_iff, !negb_true_iff, !bool_decide_eq_true, bool_decide_eq_false.
  rewrite Z.leb_le, Z.ltb_lt.
  assert (((automatic_only = false \/ job_class j = lit "automatic") <->
          (automatic_only = true -> job_class j = lit "automatic"))) as -> by (destruct automatic_only; naive_solver).
  assert ((job_class j = lit "manual" \/
             match intents d !! job_graph j with Some c => c_paused c | None => false end = false) <->
          (job_class j <> lit "manual" -> forall c, intents d !! job_graph j = Some c -> c_paused c = false)) as ->.
  { destruct (decide (job_class j = lit "manual")); [naive_solver|].
    destruct (intents d !! job_graph j); naive_solver. }
  tauto.
Qed.

(** The higher priority first; then the earlier time of eligibility, the earlier
    submission, and the smaller id. *)
Definition comes_first (e : env) (jid : pystr) (j : job) (jid' : pystr) (j' : job) : Prop :=
  j_priority (j_spec j') < j_priority (j_spec j) \/
  j_priority (j_spec j') = j_priority (j_spec j) /\
  (j_next_eligible j < j_next_eligible j' \/
   j_next_eligible j = j_next_eligible j' /\
   (j_submitted_at (j_spec j) < j_submitted_at (j_spec j') \/
    j_submitted_at (j_spec j) = j_submitted_at (j_spec j') /\ (jid = jid' \/ collate e jid jid' = true))).

Lemma claim_order_spec e jid j jid' j' :
  Is_true (claim_order e (jid, j) (jid', j')) -> comes_first e jid j jid' j'.
Proof.
  unfold claim_order, comes_first, text_compare, compare_by. cbn.
  destruct (Z.compare_spec (j_priority (j_spec j')) (j_priority (j_spec j))); [|by auto|done].
  intros H1. right. split; [done|]. revert H1.
  destruct (Z.compare_spec (j_next_eligible j) (j_next_eligible j')); [|by auto|done].
  intros H2. right. split; [done|]. revert H2.
  destruct (Z.compare_spec (j_submitted_at (j_spec j)) (j_submitted_at (j_spec j'))); [|by auto|done].
  intros H3. right. split; [done|]. revert H3.
  case_bool_decide; [by auto|]. destruct (collate e jid jid'); [by auto|done].
Qed.

(** C10.  A claim takes the best eligible job.  The job a successful claim returns was
    queued, due, under the attempt limit, of an unleased graph and unlocked; it was not
    automatic work of a paused graph; and no other eligible job comes before it in the
    order of priority, eligibility, submission and id.  Without an eligible job the
    claim returns nothing and changes nothing. *)
Theorem claim_takes_best i epoch seconds automatic_only e d r d' :
  collation_ok e ->
  claim_once i epoch seconds (max_retry_attempts limits) automatic_only e d = Ok (r, d') ->
  match r with
  | Some claim =>
      exists j, jobs d !! k_job claim = Some j /\
        eligible e d automatic_only (k_job claim) j /\
        k_attempt claim = j_attempt j + 1 /\ k_graph claim = job_graph j /\
        (forall jid' j', jobs d !! jid' = Some j' ->
           eligible e d automatic_only jid' j' -> comes_first e (k_job claim) j jid' j')
  | None =>
      d' = d /\ forall jid j, jobs d !! jid = Some j -> ~ eligible e d automatic_only jid j
  end.
Proof.
  intros Hc H. destruct (claim_order_ordering e Hc) as [Htot Htr].
  apply claim_once_Ok in H as (_ & _ & [(-> & -> & Hsel)|(jid & j & rest & m & Hsel & Hj & Hcl & _ & -> & _)]).
  - split; [done|]. intros jid j Hj Hcl%claimable_eligible.
    assert ((jid, j) ∈ select_jobs d (claimable e d (max_retry_attempts limits) automatic_only) (claim_order e))
      as Hin by (by apply elem_of_select_jobs).
    rewrite Hsel in Hin. by apply elem_of_nil in Hin.
  - exists j. cbn. split_and!; try done; [by apply claimable_eligible|].
    intros jid' j' Hj' Hcl'%claimable_eligible. apply claim_order_spec. eapply select_head_min; [exact Htot|exact Htr|exact Hsel|done|done].
Qed.

(** ** Replay *)

Lemma find_existing_spec d requester request digest jid j :
  _find_existing d requester request digest = Some (jid, j) ->
  jobs d !! jid = Some j /\
  idempotency (j_spec j) = (requester, job_kind request, graph_id request, digest).
Proof.
  unfold _find_existing. intros [Hin Hb]%find_some.
  apply list_elem_of_In, elem_of_map_to_list in Hin. by apply bool_decide_eq_true in Hb.
Qed.

(** What an accepted submission established. *)
Lemma submit_Ok request requester deadline e d r d' :
  submit request requester limits deadline e d = Ok (r, d') ->
  exists digest fingerprint j,
    validate_request request = Ok request /\ _safe_category requester "requester" = Ok requester /\
    digest_of (idempotency_key request) = Ok digest /\ fingerprint_of request = Ok fingerprint /\
    jobs d' !! sub_job r = Some j /\
    idempotency (j_spec j) = (requester, job_kind request, graph_id request, digest) /\
    j_fingerprint (j_spec j) = fingerprint /\ sub_state r = j_state j.
Proof.
  unfold submit, _admission_transaction. intros H.
  apply tx_bind_Ok in H as (request' & ? & [Hv ->]%lift_Ok & H). assert (request' = request) as ->.
  { unfold validate_request in Hv. unbind Hv. by injection Hv. }
  apply tx_bind_Ok in H as (requester' & ? & [Hr ->]%lift_Ok & H). assert (requester' = requester) as ->.
  { unfold _safe_category in Hr. destruct (Regex.fullmatch _ _); [by injection Hr|done]. }
  apply tx_bind_Ok in H as (digest & ? & [Hd ->]%lift_Ok & H).
  apply tx_bind_Ok in H as (fingerprint & ? & [Hf0 ->]%lift_Ok & H).
  tx_steps H. tx_ret H. exists digest, fingerprint.
  match goal with G : mbind _ require_transaction_admission _ _ = Ok _ |- _ => rename G into H end.
  apply tx_bind_Ok in H as (? & ? & [_ ->]%require_admission_Ok & H). tx_steps H.
  destruct (_find_existing d requester request digest) as [[jid j]|] eqn:Hf.
  - apply tx_bind_Ok in H as (? & ? & [Hfp ->]%check_Ok & H). tx_ret H.
    apply find_existing_spec in Hf as [Hj Hi].
    apply negb_false_iff, bool_decide_eq_true in Hfp. exists j. by split_and!.
  - apply tx_bind_Ok in H as (? & ? & [-> _]%enforce_admission_Ok & H).
    apply tx_bind_Ok in H as (? & ? & (-> & _)%insert_job_Ok & H). tx_ret H.
    eexists. do 4 (split; [done|]). split; [cbn; by rewrite lookup_insert_eq|]. by split_and!.
Qed.

(** Submitting when a job of the idempotency key exists. *)
Lemma submit_existing request requester digest fingerprint e d jid j :
  pinv (max_retry_attempts limits) (max_nonterminal_jobs limits) (view d) ->
  validate_request request = Ok request -> _safe_category requester "requester" = Ok requester ->
  digest_of (idempotency_key request) = Ok digest -> fingerprint_of request = Ok fingerprint ->
  admitted e = true -> jobs d !! jid = Some j ->
  idempotency (j_spec j) = (requester, job_kind request, graph_id request, digest) ->
  submit request requester limits None e d =
    if bool_decide (j_fingerprint (j_spec j) = fingerprint)
    then Ok (MkSubmission jid (j_state j) true, d) else Err (ValueError "idempotency conflict").
Proof.
  intros Hinv Hv Hr Hd Hf Hadm Hj Hi. unfold submit.
  unfold mbind, tx_bind. rewrite Hv. cbn [lift]. rewrite Hr. cbn [lift]. rewrite Hd. cbn [lift].
  rewrite Hf. cbn [lift get_env]. unfold _admission_transaction, mbind, tx_bind. cbn [remaining lift].
  unfold require_transaction_admission, mbind, tx_bind. cbn [get_env]. rewrite Hadm. cbn [negb check].
  unfold mret, tx_ret. cbn [get_db].
  destruct (_find_existing d requester request digest) as [[jid' j']|] eqn:Hfind.
  - apply find_existing_spec in Hfind as [Hj' Hi'].
    assert (jid' = jid) as ->.
    { eapply (inv_unique _ _ _ Hinv); [by apply view_job|by apply view_job|]. cbn. congruence. }
    assert (j' = j) as -> by congruence. unfold check, throw, mret, tx_ret.
    by case_bool_decide.
  - exfalso. unfold _find_existing in Hfind. eapply find_none in Hfind.
    2: { apply list_elem_of_In, elem_of_map_to_list. exact Hj. }
    cbn in Hfind. by apply bool_decide_eq_false in Hfind.
Qed.

(** C29.  Submission is idempotent.  After a submission was accepted, and in any later
    reachable database that still holds its job, submitting the same request again for
    the same requester returns the same job in its present state, marked as a replay,
    and changes nothing; another request under the same idempotency key and graph is
    refused as a conflict. *)
Theorem submit_idempotent request requester deadline e0 d0 r d1 d j :
  validate limits HARD_MAX_LIMITS = Ok tt ->
  submit request requester limits deadline e0 d0 = Ok (r, d1) ->
  reachable limits d -> jobs d !! sub_job r = Some j ->
  j_spec j = default (j_spec j) (j_spec <$> jobs d1 !! sub_job r) ->
  (forall e, admitted e = true ->
     submit request requester limits None e d = Ok (MkSubmission (sub_job r) (j_state j) true, d)) /\
  (forall e request' fingerprint', admitted e = true ->
     validate_request request' = Ok request' -> fingerprint_of request' = Ok fingerprint' ->
     idempotency_key request' = idempotency_key request -> graph_id request' = graph_id request ->
     j_fingerprint (j_spec j) <> fingerprint' ->
     submit request' requester limits None e d = Err (ValueError "idempotency conflict")).
Proof.
  intros Hlim Hsub Hreach Hj Hspec. pose proof (reachable_inv _ Hlim _ Hreach) as Hinv.
  apply submit_Ok in Hsub as (digest & fingerprint & j1 & Hv & Hr & Hd & Hf & Hj1 & Hi & Hfp & _).
  rewrite Hj1 in Hspec. cbn in Hspec. split.
  - intros e Hadm. erewrite submit_existing; [|done..|by rewrite Hspec].
    by rewrite bool_decide_true by congruence.
  - intros e request' fingerprint' Hadm Hv' Hf' Hk Hg Hne.
    assert (forall q, validate_request q = Ok q -> job_kind q = lit "refresh_graph") as Hkind.
    { intros q Hq. unfold validate_request in Hq. unbind Hq.
      match goal with G : normalize_request _ _ _ _ _ _ _ = Ok ?n |- _ =>
        apply normalize_request_Ok in G as [(_ & Hn & _) _];
        match goal with G2 : negb (bool_decide (n = q)) = false |- _ =>
          apply negb_false_iff, bool_decide_eq_true in G2; by subst end end. }
    rewrite (submit_existing request' requester digest fingerprint' e d (sub_job r) j);
      [by rewrite bool_decide_false|done|done|done|by rewrite Hk|done|done|done|].
    by rewrite Hspec, Hi, Hg, (Hkind _ Hv), (Hkind _ Hv').
Qed.

(** ** Reconciliation *)

(** The argument of the pure rules for a marker. *)
Definition marker_name (c : MarkerClass) : string :=
  match c with MatchingCommitted => "matching_committed" | Absent => "absent" | Conflicting => "conflicting" end.

(** C30.  What the store decides, next to what the pure rules of [semantics.reconcile_publication]
    decide on the same evidence.  An attempt not seen to end waits; with a marker the decision
    is that of the rules.  Without one, a protocol error quarantines and an attempt claimed
    under no lease epoch waits.  Else, where job and attempt agree on a publication state that
    is not started, prepared, rolled back or of unknown commit, the decision is that of the
    rules, but that a job without attempts left fails where they would queue it.  In the other
    states, such as a started transaction, they disagree: the rules wait for reconciliation,
    and the store does so only for a cancelled job or a proof of absence, and else queues the
    job again or fails it. *)
Theorem reconcile_decides_as_specified claim i epoch unpublished e d s d' row :
  reconcile_publication claim (max_retry_attempts limits) i epoch unpublished e d = Ok (Decided s, d') ->
  _lock_evidence d claim = Some row ->
  let cancelled := bool_decide (is_Some (j_cancel_at (ev_job row))) in
  let rules := Semantics.reconcile_publication (publication_value (j_pub (ev_job row)))
    (marker_name (_marker_classification row)) cancelled (if unpublished then "fenced_absence" else "unproved") in
  let exhausted := max_retry_attempts limits <=? j_attempt (ev_job row) in
  match a_finished (ev_attempt row), _marker_classification row with
  | None, _ => s = RECONCILIATION_REQUIRED
  | Some _, (MatchingCommitted | Conflicting) => rules = Ok s
  | Some _, Absent =>
      if bool_decide (j_error (ev_job row) = Some (lit "protocol")) then s = QUARANTINED
      else if a_lease_epoch (ev_attempt row) <=? 0 then s = RECONCILIATION_REQUIRED
      else a_pub (ev_attempt row) = j_pub (ev_job row) ->
        if bool_decide (j_pub (ev_job row) ∈ [NOT_STARTED; PREPARED; ROLLED_BACK; COMMIT_UNKNOWN])
        then exists t, rules = Ok t /\ s = (if bool_decide (t = QUEUED) && exhausted then FAILED else t)
        else rules = Ok RECONCILIATION_REQUIRED /\
             s = (if unpublished || cancelled then RECONCILIATION_REQUIRED else if exhausted then FAILED else QUEUED)
  end.
Proof.
  intros H Hrow. cbn zeta. unfold reconcile_publication in H.
  tx_step H. apply require_live_owner_Ok in Hstep as [_ ->]. tx_steps H. rewrite Hrow in H.
  destruct (a_finished (ev_attempt row)) as [fin|]; [|by injection H as <- _].
  rewrite bool_decide_false in H by done.
  destruct (_marker_classification row).
  - tx_steps H. injection H as <- _. by destruct unpublished.
  - destruct (bool_decide (j_error _ = _)); [tx_steps H; by injection H as <- _|].
    destruct (a_lease_epoch _ <=? 0); [by injection H as <- _|]. intros Hpub.
    rewrite Hpub in H. cbn [marker_name]. clear Hpub Hrow. revert H.
    generalize (j_pub (ev_job row)) (bool_decide (is_Some (j_cancel_at (ev_job row))))
      (max_retry_attempts limits <=? j_attempt (ev_job row)). intros pub cancelled exhausted H.
    destruct pub;
      repeat match goal with
      | |- context [bool_decide ?P] => let b := eval vm_compute in (bool_decide P) in change (bool_decide P) with b
      end;
      repeat match type of H with
      | context [bool_decide ?P] => let b := eval vm_compute in (bool_decide P) in change (bool_decide P) with b in H
      end;
      destruct unpublished, cancelled, exhausted; cbn [orb andb negb] in H |- *; tx_steps H; injection H as <- _;
      first [split; reflexivity | eexists; split; reflexivity].
  - tx_steps H. injection H as <- _. by destruct unpublished.
Qed.

(** ** Registration *)


(** ** Leftover rows *)

Lemma existsb_In {A} (p : A -> bool) l x : x ∈ l -> p x = true -> existsb p l = true.
Proof. intros Hin Hp. apply existsb_exists. exists x. by rewrite <- list_elem_of_In. Qed.

(** A job an intent still points to cannot be deleted. *)
Lemma delete_jobs_referenced ids jid g c e d :
  jid ∈ ids -> intents d !! g = Some c -> c_queued c = Some jid \/ c_running c = Some jid ->
  delete_jobs ids e d = Err (IntegrityError ForeignKeyConstraint).
Proof.
  intros Hin Hc Hr. destruct (delete_jobs ids e d) as [[u d']|x] eqn:H.
  - exfalso. unfold delete_jobs in H. tx_steps H. revert Hstep0.
    rewrite (existsb_In _ ids jid Hin); [done|]. unfold job_referenced. cbn.
    apply orb_true_iff. left. apply orb_true_iff. right.
    apply (existsb_In _ _ (g, c)); [by apply elem_of_map_to_list|].
    cbn. apply orb_true_iff. by rewrite !bool_decide_eq_true.
  - unfold delete_jobs in H. revert H. cbn. unfold mbind, tx_bind, get_db, check. cbn.
    by repeat case_match; intros [= <-].
Qed.

(**  Cleanup stops at a job an intent still names.  The rows cleanup selects exclude
    jobs with a lease or a linked job but not jobs a coalescing intent refers to, so when
    the selected batch holds such a job the whole batch is refused by the foreign key and
    nothing is deleted, whatever else is in it. *)
Theorem cleanup_blocked_by_intent minimum_age limit e d jid g c :
  0 <= minimum_age -> 0 < limit ->
  jid ∈ take (Z.to_nat limit) (fst <$> select_jobs d (cleanable e d minimum_age) (finished_order e)) ->
  intents d !! g = Some c -> c_queued c = Some jid \/ c_running c = Some jid ->
  commit (cleanup_terminal minimum_age limit false None) e d = (Err (IntegrityError ForeignKeyConstraint), d).
Proof.
  intros Ha Hl Hin Hc Hr. unfold cleanup_terminal, commit. cbn.
  replace ((minimum_age <? 0) || (limit <=? 0)) with false by lia. cbn.
  unfold mbind, tx_bind, mret, tx_ret, get_env, get_db, lift. cbn -[take delete_jobs bool_decide].
  rewrite take_take, Nat.min_id.
  destruct (take _ _) as [|x ids]; [by apply elem_of_nil in Hin|].
  rewrite bool_decide_false by done.
  by rewrite (delete_jobs_referenced _ jid g c e d Hin Hc Hr).
Qed.

Lemma update_job_spec jid p f e d b d' jid' j :
  (forall j, j_spec (f j) = j_spec j) ->
  update_job jid p f e d = Ok (b, d') -> jobs d !! jid' = Some j ->
  exists j', jobs d' !! jid' = Some j' /\ j_spec j' = j_spec j.
Proof.
  intros Hf H Hj. apply update_job_Ok in H as [[_ ->]|(_ & j0 & Hj0 & _ & _ & ->)]; [by exists j|].
  cbn. destruct (decide (jid = jid')) as [->|Hne].
  - rewrite lookup_insert_eq. exists (f j0). split; [done|]. rewrite Hf. congruence.
  - rewrite lookup_insert_ne by done. by exists j.
Qed.

(**  An automatic request is not repeated.  When some job, finished or not, already
    holds the requester's idempotency key for the graph, coalescing creates no job: it
    returns the intent's live job for the same generations as a replay and changes
    nothing, or it raises.  In particular it raises when that earlier job has finished
    and the intent has no live job, so the same generations cannot be asked for again
    before cleanup removes the finished job. *)
Theorem coalesce_cannot_repeat request requester digest e d jid j :
  digest_of (idempotency_key request) = Ok digest ->
  jobs d !! jid = Some j ->
  idempotency (j_spec j) = (requester, job_kind request, graph_id request, digest) ->
  (forall r d', coalesce_automatic request requester limits e d = Ok (r, d') ->
     d' = d /\ sub_replayed r = true /\
     live_automatic d (intents d !! graph_id request) (generations_of request)
       = Some (sub_job r, sub_state r)) /\
  (live_automatic d (intents d !! graph_id request) (generations_of request) = None ->
     is_ok (coalesce_automatic request requester limits e d) = false).
Proof.
  intros Hdig Hj Hkey.
  assert (forall r d', coalesce_automatic request requester limits e d = Ok (r, d') ->
     d' = d /\ sub_replayed r = true /\
     live_automatic d (intents d !! graph_id request) (generations_of request)
       = Some (sub_job r, sub_state r)) as Hok; cycle 1.
  { split; [done|]. intros Hnone.
    destruct (coalesce_automatic request requester limits e d) as [[r d']|]; [|done].
    destruct (Hok _ _ eq_refl) as (_ & _ & ?). congruence. }
  intros r d' H. unfold coalesce_automatic in H. tx_step H.
  assert (r0 = request) as ->. { unfold validate_request in Hstep. unbind Hstep. by injection Hstep as <-. }
  tx_step H. tx_step H.
  assert (r1 = requester) as ->. { unfold _safe_category in Hstep1. unbind Hstep1. by injection Hstep1 as <-. }
  do 2 tx_step H. tx_step H. apply require_admission_Ok in Hstep4 as [_ ->]. tx_steps H.
  destruct (live_automatic _ _ _) as [[jid' s]|] eqn:Hlive; [by tx_ret H|].
  exfalso. tx_step H.
  assert (exists j', jobs d0 !! jid = Some j' /\ j_spec j' = j_spec j) as (j' & Hj' & Hs').
  { destruct (_ ≫= c_queued); [by eapply update_job_spec in Hstep5|].
    injection Hstep5 as _ <-. by exists j. }
  tx_step H. apply enforce_admission_Ok in Hstep6 as [-> _]. tx_step H.
  apply insert_job_Ok in Hstep6 as (_ & _ & _ & Hu). destruct (Hu _ _ Hj'). rewrite Hs', Hkey.
  unfold idempotency. cbn. congruence.
Qed.


(** ** Takeover *)

Lemma fence_abandoned_other jid n e d u d' jid' :
  fence_abandoned jid n e d = Ok (u, d') -> jid' <> jid ->
  jobs d' !! jid' = jobs d !! jid' /\ forall m, attempts d' !! (jid', m) = attempts d !! (jid', m).
Proof.
  unfold fence_abandoned. intros H Hne. tx_steps H. apply check_Ok in H as [_ ->].
  apply update_job_Ok in Hstep as [[_ ->]|(_ & j & _ & _ & _ & ->)];
    (apply update_attempt_Ok in Hstep1 as [[_ ->]|(_ & a & _ & _ & ->)]); cbn;
    (split; [|intros m]); by rewrite ?lookup_insert_ne by congruence.
Qed.

Lemma fence_abandoned_state jid n e d u d' :
  fence_abandoned jid n e d = Ok (u, d') ->
  exists j, jobs d' !! jid = Some j /\ j_state j = RECONCILIATION_REQUIRED.
Proof.
  unfold fence_abandoned. intros H. tx_steps H. apply check_Ok in H as [_ ->].
  apply negb_false_iff in Hstep0. subst.
  apply update_job_Ok in Hstep as [[? _]|(_ & j & _ & _ & _ & ->)]; [done|].
  eexists. split; [|shelve].
  apply update_attempt_Ok in Hstep1 as [[_ ->]|(_ & a & _ & _ & ->)]; apply lookup_insert_eq.
  Unshelve. done.
Qed.

Lemma fence_all_effect rows e d u d' :
  fence_all rows e d = Ok (u, d') -> NoDup rows.*1 ->
  (forall jid, jid ∈ rows.*1 -> exists j, jobs d' !! jid = Some j /\ j_state j = RECONCILIATION_REQUIRED) /\
  (forall jid, jid ∉ rows.*1 ->
     jobs d' !! jid = jobs d !! jid /\ forall m, attempts d' !! (jid, m) = attempts d !! (jid, m)).
Proof.
  revert d. induction rows as [|[jid0 j0] rows IH]; intros d H Hnd.
  { tx_ret H. split; [intros jid Hin; by apply elem_of_nil in Hin|done]. }
  cbn [fence_all] in H. tx_step H. cbn in Hnd. apply NoDup_cons in Hnd as [Hni Hnd].
  destruct (IH _ H Hnd) as [Hin Hout]. split; intros jid.
  - cbn. rewrite elem_of_cons. intros [->|Hr]; [|by apply Hin].
    destruct (fence_abandoned_state _ _ _ _ _ _ Hstep) as (j & Hj & Hs). exists j.
    by destruct (Hout jid0 Hni) as [-> _].
  - cbn. rewrite not_elem_of_cons. intros [Hne Hr]. destruct (Hout jid Hr) as [-> Ha].
    destruct (fence_abandoned_other _ _ _ _ _ _ jid Hstep Hne) as [-> Ha']. split; [done|].
    intros m. by rewrite Ha, Ha'.
Qed.

(** A query for some of the unfinished jobs returns no more rows than there are. *)
Lemma select_nonterminal_length d p le :
  (forall jid j, p jid j = true -> is_terminal (j_state j) = false) ->
  Z.of_nat (length (select_jobs d p le)) <= count_jobs d (fun j => negb (is_terminal (j_state j))).
Proof.
  intros Hp. unfold select_jobs, count_jobs. rewrite merge_sort_Permutation. apply inj_le.
  induction (map_to_list (jobs d)) as [|[jid j] l IH]; [done|]. cbn.
  destruct (p jid j) eqn:E; [rewrite (Hp _ _ E); cbn; lia|]. destruct (negb _); cbn; lia.
Qed.

(**  A takeover recovers everything.  In a reachable database a recovery whose limit
    is the bound on unfinished jobs leaves no job claimed, starting, running or being
    cancelled under another owner: each such job that remains has a current attempt of
    the recovering owner and epoch. *)
Theorem recovery_complete i epoch limit e d n d' :
  validate limits HARD_MAX_LIMITS = Ok tt -> reachable limits d -> max_nonterminal_jobs limits <= limit ->
  recover_abandoned_attempts i epoch limit e d = Ok (n, d') ->
  forall jid j, jobs d' !! jid = Some j ->
    j_state j ∈ [CLAIMED; STARTING; RUNNING; CANCEL_REQUESTED; CANCELLING] ->
    exists a, attempts d' !! (jid, j_attempt j) = Some a /\ a_current a = true /\
      a_instance a = i /\ a_epoch a = epoch.
Proof.
  intros Hlim Hr Hle H jid j Hj Hs. pose proof (reachable_inv _ Hlim _ Hr) as Hinv.
  unfold recover_abandoned_attempts in H. tx_steps H. injection H as _ ->.
  set (rows := select_jobs d (abandoned d i epoch) (submission_order e)) in *.
  assert (take (Z.to_nat limit) rows = rows) as Htake.
  { apply take_ge. apply Nat2Z.inj_le.
    enough (Z.of_nat (length rows) <= max_nonterminal_jobs limits) by lia.
    transitivity (count_jobs d (fun j => negb (is_terminal (j_state j))));
      [|rewrite count_jobs_nonterminal; exact (inv_count _ _ _ Hinv)].
    apply select_nonterminal_length.
    intros jid' j' [Hst%bool_decide_eq_true _]%andb_true_iff. unfold _ABANDONED_STATES in Hst.
    destruct (j_state j'); set_solver. }
  rewrite Htake in *.
  destruct (fence_all_effect _ _ _ _ _ Hstep1 (NoDup_select_jobs _ _ _)) as [Hin Hout].
  destruct (decide (jid ∈ rows.*1)) as [Hrow|Hrow].
  { destruct (Hin jid Hrow) as (j' & Hj' & Hs'). rewrite Hj in Hj'. injection Hj' as <-.
    rewrite Hs' in Hs. exfalso. clear - Hs. set_solver. }
  destruct (Hout jid Hrow) as [Hsame Hatt]. rewrite Hsame in Hj. rewrite Hatt.
  assert (is_active (j_state j) = true) as Hact by (apply bool_decide_eq_true; set_solver).
  destruct (inv_active _ _ _ Hinv jid (job_view j) (view_job _ _ _ Hj) Hact) as (v & Ha & Hc & _).
  apply view_attempt_inv in Ha as (a & Ha & ->). exists a. cbn in Hc, Ha. split; [done|]. split; [done|].
  assert (abandoned d i epoch jid j = false) as Hno.
  { apply not_true_iff_false. intros Hab. apply Hrow.
    apply (list_elem_of_fmap_2 fst _ (jid, j)). by apply elem_of_select_jobs. }
  unfold abandoned in Hno. rewrite bool_decide_true in Hno by exact Hs. rewrite Ha, Hc in Hno. cbn in Hno.
  apply negb_false_iff, andb_true_iff in Hno as [? ?%Z.eqb_eq]. split; [by eapply bool_decide_eq_true|done].
Qed.


End Facts.
