(* ===== verification/ControlRuns.v ===== *)
(** Concrete runs of the control store: the databases the theorems' witnesses use, and
    two runs in which the store gets stuck. *)
From S2P Require Import Prelude PyVal Limits Contracts ContractsFacts Semantics ControlDb.
From S2P Require Import ControlDbFacts ControlOwnership ControlState ControlSubmission.
From S2P Require Import ControlReconciliation ControlMaintenance Protocol ControlRefinement.
From S2P Require Import ControlStore ControlFacts.
Open Scope Z_scope.

#[local] Existing Instance ascii_only.

Abbreviation L := DEFAULT_LIMITS.

(** The environment at an instant (in seconds), with the id the next job gets. *)
Definition at_time (t : Z) (id : string) : env :=
  MkEnv (t * second) (t * second) str_leb true false ∅ (lit id) (t + 1).

Definition request_for (graph source key priority : string) : JobRequest :=
  {| schema_version := 1; job_kind := lit "refresh_graph"; graph_id := lit graph;
     request_id := lit "request"; idempotency_key := lit key; priority := lit priority;
     operation_options := [(lit "reason", lit "poll")];
     source_generation := lit "sg1:" ++ lit source; config_generation := lit "cg1:a";
     extractor_generation := lit "eg1:a"; canonicalizer_generation := lit "kg1:a" |}.

Definition gens_for (source : string) : GenerationTuple :=
  {| gen_source := lit "sg1:" ++ lit source; gen_config := lit "cg1:a"; gen_extractor := lit "eg1:a";
     gen_canonicalizer := lit "kg1:a" |}.

Definition run (l : list (op * env)) (d : db) : db :=
  foldl (fun d oe => (commit (exec L oe.1) oe.2 d).2) d l.

Lemma run_reachable l : Forall (fun oe => op_ok oe.1) l -> reachable L (run l empty_db).
Proof.
  unfold reachable, run. generalize empty_db. induction l as [|[o e] l IH]; intros d Hl; cbn; [done|].
  apply Forall_cons in Hl as [Ho Hl]. eapply rtc_l; [|by apply IH]. by apply (Store_step L d _ o e).
Qed.

Definition c1 : pystr := lit "c1".

(** The claim of the first attempt of job [id] made at [t]. *)
Definition claim_at (t : Z) (id : string) : JobClaim :=
  MkClaim (lit id) (lit "g") 1 c1 1 (lit "automatic") (gens_for "a") (t + 1).

Definition cas (id : string) (s s' : JobState) : op :=
  OpCompareAndSet (lit id) s s' 1 c1 1 None None None.

(** An owner takes the singleton, an automatic job is queued, claimed and runs. *)
Definition running_ops : list (op * env) :=
  [(OpAcquire c1 (1000 * second), at_time 0 "x");
   (OpCoalesce (request_for "g" "a" "key" "automatic") (lit "watcher"), at_time 1 "job-1");
   (OpClaim c1 1 (60 * second) false, at_time 2 "x");
   (cas "job-1" CLAIMED STARTING, at_time 3 "x");
   (cas "job-1" STARTING RUNNING, at_time 4 "x")].

Definition claimed_db : db := Eval vm_compute in run (take 3 running_ops) empty_db.
Definition running_db : db := Eval vm_compute in run running_ops empty_db.

(** It publishes, and reconciliation finds the marker. *)
Definition succeeded_ops : list (op * env) :=
  running_ops ++
  [(OpMarker (claim_at 2 "job-1") (lit "run-1") (gens_for "a") MarkerCommitted, at_time 5 "x");
   (OpCompareAndSet (lit "job-1") RUNNING RECONCILIATION_REQUIRED 1 c1 1 (Some COMMIT_UNKNOWN)
      (Some (lit "publication_unknown")) None, at_time 6 "x");
   (OpTerminated (claim_at 2 "job-1") true c1 1 None, at_time 7 "x");
   (OpReconcile (claim_at 2 "job-1") c1 1 false, at_time 8 "x")].

Definition succeeded_db : db := Eval vm_compute in run succeeded_ops empty_db.

Lemma running_reachable : reachable L running_db.
Proof. change running_db with (run running_ops empty_db). apply run_reachable. by repeat constructor. Qed.

Example runs_as_expected :
  (j_state <$> jobs running_db !! lit "job-1") = Some RUNNING /\
  (j_state <$> jobs succeeded_db !! lit "job-1") = Some SUCCEEDED /\
  leases succeeded_db !! lit "g" = None.
Proof. vm_compute. done. Qed.

Lemma succeeded_reachable : reachable L succeeded_db.
Proof.
  change succeeded_db with (run succeeded_ops empty_db). apply run_reachable. by repeat constructor.
Qed.

Definition the_job (d : db) (id : string) : job :=
  match jobs d !! lit id with Some j => j | None => new_job (at_time 0 id) (request_for "" "" "" "") [] [] [] 0 end.

(** ** Witnesses *)

Lemma store_refines_protocol_witness :
  rtc (pstep (max_retry_attempts L) (max_nonterminal_jobs L)) (view running_db)
    (view (commit (exec L (OpCancel (lit "job-1"))) (at_time 9 "x") running_db).2).
Proof.
  apply (store_refines_protocol L eq_refl (OpCancel (lit "job-1")) (at_time 9 "x") running_db
    (commit (exec L (OpCancel (lit "job-1"))) (at_time 9 "x") running_db).1
    (commit (exec L (OpCancel (lit "job-1"))) (at_time 9 "x") running_db).2).
  - exact running_reachable.
  - vm_compute. reflexivity.
Defined.

(** A running job is requeued by the compare-and-set: its attempt stays current and holds the
    lease, so that no claim takes it again. *)
Example requeued_in_place :
  let d := (commit (exec L (cas "job-1" RUNNING QUEUED)) (at_time 9 "x") running_db).2 in
  (j_state <$> jobs d !! lit "job-1") = Some QUEUED /\ (a_current <$> attempts d !! (lit "job-1", 1)) = Some true /\
  (l_job <$> leases d !! lit "g") = Some (lit "job-1") /\
  (commit (claim_once c1 1 (60 * second) 3 false) (at_time 10 "x") d).1 = Ok None.
Proof. vm_compute. done. Qed.

Lemma active_job_holds_lease_witness :
  exists a l, attempts running_db !! (lit "job-1", 1) = Some a /\ leases running_db !! lit "g" = Some l /\
    l_job l = lit "job-1" /\ l_epoch l = a_epoch a.
Proof.
  destruct (active_job_holds_lease L eq_refl running_db (lit "job-1") (the_job running_db "job-1")
    running_reachable) as ((a & l & Ha & _ & Hl & Hj & _ & _ & He & _) & _).
  - vm_compute. reflexivity.
  - vm_compute. reflexivity.
  - exists a, l. split; [exact Ha|]. split; [exact Hl|]. split; assumption.
Defined.

Lemma succeeded_job_published_witness :
  exists m, markers succeeded_db !! (lit "job-1", 1) = Some m /\ m_graph m = lit "g".
Proof.
  destruct (succeeded_job_published L eq_refl succeeded_db (lit "job-1") (the_job succeeded_db "job-1")
    succeeded_reachable) as (_ & m & Hm & _ & Hg & _).
  - vm_compute. reflexivity.
  - vm_compute. reflexivity.
  - exists m. split; [exact Hm|exact Hg].
Defined.

Lemma store_work_bounded_witness :
  count_jobs running_db (fun j => negb (is_terminal (j_state j))) <= 256.
Proof. apply (store_work_bounded L eq_refl running_db running_reachable). Defined.

Lemma job_course_legal_witness :
  exists j', jobs (commit (exec L (OpCancel (lit "job-1"))) (at_time 9 "x") running_db).2 !! lit "job-1"
               = Some j' /\ rtc legal RUNNING (j_state j').
Proof.
  destruct (job_course_legal L eq_refl running_db
    (commit (exec L (OpCancel (lit "job-1"))) (at_time 9 "x") running_db).2 (lit "job-1")
    (the_job running_db "job-1") running_reachable) as [(j' & Hj' & _ & _ & Hl & _)|[Hn _]].
  - apply (Store_step L _ _ (OpCancel (lit "job-1")) (at_time 9 "x")); [exact I|reflexivity].
  - vm_compute. reflexivity.
  - exists j'. split; [exact Hj'|exact Hl].
  - vm_compute in Hn. discriminate Hn.
Defined.

(** The run in which the owner has stopped. *)
Definition stopped_ops : list (op * env) := running_ops ++ [(OpStop c1 1, at_time 9 "x")].
Definition stopped_db : db := Eval vm_compute in run stopped_ops empty_db.

Lemma stopped_reachable : reachable L stopped_db.
Proof.
  change stopped_db with (run stopped_ops empty_db). apply run_reachable. by repeat constructor.
Qed.

Lemma takeover_fences_witness :
  exists a, attempts stopped_db !! (lit "job-1", 1) = Some a /\ a_epoch a < 2.
Proof.
  destruct (attempts stopped_db !! (lit "job-1", 1)) as [a|] eqn:Ha; [|vm_compute in Ha; discriminate Ha].
  exists a. split; [reflexivity|].
  destruct (takeover_fences L eq_refl stopped_db stopped_reachable) as (H & _ & _).
  assert (acquire_singleton (lit "c2") second (at_time 10 "x") stopped_db =
    Ok (2, (commit (acquire_singleton (lit "c2") second) (at_time 10 "x") stopped_db).2)) as Hacq
    by (vm_compute; reflexivity).
  destruct (H _ _ _ _ _ Hacq) as (_ & _ & _ & Hatt & _). exact (Hatt _ _ Ha).
Defined.

Lemma stale_owner_cannot_write_witness :
  (commit (exec L (cas "job-1" RUNNING FAILED)) (at_time 10 "x") stopped_db).2 = stopped_db.
Proof.
  destruct (stale_owner_cannot_write L (cas "job-1" RUNNING FAILED) (at_time 10 "x") stopped_db c1 1) as [H|H].
  - reflexivity.
  - vm_compute. reflexivity.
  - vm_compute. reflexivity.
  - exact H.
  - destruct H.
Defined.

(** Whereas it still records a publication marker. *)
Example stale_owner_marks :
  (m_outcome <$> markers (commit (exec L (OpMarker (claim_at 2 "job-1") (lit "run-1") (gens_for "a") MarkerCommitted))
                            (at_time 10 "x") stopped_db).2 !! (lit "job-1", 1)) = Some MarkerCommitted.
Proof. vm_compute. reflexivity. Qed.

(** ** Witnesses of the functional theorems *)

(** An automatic job of one graph and a manual job of another are queued. *)
Definition queued_ops : list (op * env) :=
  [(OpAcquire c1 (1000 * second), at_time 0 "x");
   (OpCoalesce (request_for "g" "a" "key" "automatic") (lit "watcher"), at_time 1 "job-1");
   (OpSubmit (request_for "h" "b" "key" "manual") (lit "operator") None, at_time 2 "job-2")].
Definition queued_db : db := Eval vm_compute in run queued_ops empty_db.

Lemma queued_reachable : reachable L queued_db.
Proof. change queued_db with (run queued_ops empty_db). apply run_reachable. by repeat constructor. Qed.

Lemma claim_takes_best_witness :
  exists claim, (commit (claim_once c1 1 (60 * second) 3 false) (at_time 3 "x") queued_db).1
                  = Ok (Some claim) /\ k_job claim = lit "job-2" /\
    comes_first (at_time 3 "x") (lit "job-2") (the_job queued_db "job-2")
      (lit "job-1") (the_job queued_db "job-1").
Proof.
  destruct (claim_once c1 1 (60 * second) 3 false (at_time 3 "x") queued_db) as [[[claim|] d']|] eqn:E;
    [|vm_compute in E; discriminate E..].
  destruct (claim_takes_best L c1 1 (60 * second) false (at_time 3 "x") queued_db (Some claim) d')
    as (j & Hj & _ & _ & _ & Hbest); [by apply str_leb_collation|exact E|].
  exists claim. unfold commit. rewrite E. split; [reflexivity|].
  assert (k_job claim = lit "job-2") as Hk by (vm_compute in E; injection E as <- _; reflexivity).
  split; [exact Hk|]. rewrite Hk in *.
  assert (j = the_job queued_db "job-2") as -> by (vm_compute in Hj; injection Hj as <-; reflexivity).
  apply Hbest; [vm_compute; reflexivity|apply claimable_eligible; vm_compute; reflexivity].
Defined.

(** What the manual submission of the run returned, and the row it wrote. *)
Definition manual_request : JobRequest := request_for "h" "b" "key" "manual".

Lemma submit_idempotent_witness :
  submit manual_request (lit "operator") L None (at_time 9 "x") queued_db
    = Ok (MkSubmission (lit "job-2") QUEUED true, queued_db) /\
  submit (request_for "h" "c" "key" "manual") (lit "operator") L None (at_time 9 "x") queued_db
    = Err (ValueError "idempotency conflict").
Proof.
  set (d0 := run (take 2 queued_ops) empty_db).
  destruct (submit_idempotent L manual_request (lit "operator") None (at_time 2 "job-2") d0
    (MkSubmission (lit "job-2") QUEUED false) queued_db queued_db (the_job queued_db "job-2"))
    as [Hsame Hother].
  - vm_compute. reflexivity.
  - vm_compute. reflexivity.
  - exact queued_reachable.
  - vm_compute. reflexivity.
  - vm_compute. reflexivity.
  - split; [apply (Hsame (at_time 9 "x")); reflexivity|].
    eapply (Hother (at_time 9 "x") (request_for "h" "c" "key" "manual"));
      [reflexivity|vm_compute; reflexivity|vm_compute; reflexivity|reflexivity|reflexivity|].
    intros H. vm_compute in H. discriminate H.
Defined.

(** An attempt of the run that ended without a marker. *)
Definition ended_ops : list (op * env) :=
  running_ops ++
  [(OpCompareAndSet (lit "job-1") RUNNING RECONCILIATION_REQUIRED 1 c1 1 (Some NOT_STARTED)
      (Some (lit "publication_unknown")) None, at_time 6 "x");
   (OpTerminated (claim_at 2 "job-1") true c1 1 None, at_time 7 "x")].
Definition ended_db : db := Eval vm_compute in run ended_ops empty_db.

Lemma reconcile_decides_as_specified_witness :
  Semantics.reconcile_publication "not_started" "absent" false "unproved" = Ok QUEUED.
Proof.
  destruct (_lock_evidence ended_db (claim_at 2 "job-1")) as [row|] eqn:Hrow;
    [|vm_compute in Hrow; discriminate Hrow].
  pose proof Hrow as Hr. vm_compute in Hr. injection Hr as Hr.
  assert (exists d', reconcile_publication (claim_at 2 "job-1") 3 c1 1 false (at_time 8 "x") ended_db
            = Ok (Decided QUEUED, d')) as [d' Hd'] by (eexists; vm_compute; reflexivity).
  pose proof (reconcile_decides_as_specified L (claim_at 2 "job-1") c1 1 false (at_time 8 "x") ended_db
    QUEUED d' row Hd' Hrow) as H.
  rewrite <- Hr in H. destruct (H eq_refl) as (t & Ht & Hq). assert (t = QUEUED) as ->.
  { destruct t; try reflexivity; vm_compute in Ht; discriminate Ht. }
  exact Ht.
Defined.

(** An attempt that had started its transaction ends without a marker: the job is queued again,
    where the pure rules wait for reconciliation. *)
Example started_transaction_requeued :
  let d := run (running_ops ++
    [(OpCompareAndSet (lit "job-1") RUNNING RECONCILIATION_REQUIRED 1 c1 1 (Some TRANSACTION_STARTED)
        (Some (lit "publication_unknown")) None, at_time 6 "x");
     (OpTerminated (claim_at 2 "job-1") true c1 1 None, at_time 7 "x")]) empty_db in
  (commit (reconcile_publication (claim_at 2 "job-1") 3 c1 1 false) (at_time 8 "x") d).1 = Ok (Decided QUEUED) /\
  Semantics.reconcile_publication "transaction_started" "absent" false "unproved" = Ok RECONCILIATION_REQUIRED.
Proof. vm_compute. done. Qed.

(** The launch of the running attempt is registered. *)
Definition launch_digest : pystr := replicate 64 97.
Definition registered_db : db :=
  Eval vm_compute in run (running_ops ++ [(OpRegister (claim_at 2 "job-1") launch_digest, at_time 5 "x")])
    empty_db.


(** The automatic job is cancelled while it waits: the intent keeps naming it. *)
Definition cancelled_db : db :=
  Eval vm_compute in run
    [(OpAcquire c1 (1000 * second), at_time 0 "x");
     (OpCoalesce (request_for "g" "a" "key" "automatic") (lit "watcher"), at_time 1 "job-1");
     (OpCancel (lit "job-1"), at_time 2 "x")] empty_db.

Lemma cleanup_blocked_by_intent_witness :
  (j_state <$> jobs cancelled_db !! lit "job-1") = Some CANCELLED /\
  commit (cleanup_terminal (60 * second) 100 false None) (at_time 1000 "x") cancelled_db
    = (Err (IntegrityError ForeignKeyConstraint), cancelled_db).
Proof.
  split; [vm_compute; reflexivity|].
  destruct (intents cancelled_db !! lit "g") as [c|] eqn:Hc; [|vm_compute in Hc; discriminate Hc].
  apply (cleanup_blocked_by_intent (60 * second) 100 (at_time 1000 "x") cancelled_db (lit "job-1") (lit "g") c).
  - unfold second. lia.
  - lia.
  - assert (take (Z.to_nat 100) (select_jobs cancelled_db
      (cleanable (at_time 1000 "x") cancelled_db (60 * second)) (finished_order (at_time 1000 "x"))).*1
      = [lit "job-1"]) as -> by (vm_compute; reflexivity). apply elem_of_cons. left. reflexivity.
  - exact Hc.
  - left. vm_compute in Hc. injection Hc as <-. reflexivity.
Defined.

(** After the automatic job has succeeded, the same generations are wanted again (the
    source went to another state and back): the request is refused by the unique key. *)
Lemma coalesce_cannot_repeat_witness :
  (j_state <$> jobs succeeded_db !! lit "job-1") = Some SUCCEEDED /\
  is_ok (coalesce_automatic (request_for "g" "a" "key" "automatic") (lit "watcher") L (at_time 20 "job-3")
           succeeded_db) = false /\
  (commit (coalesce_automatic (request_for "g" "a" "key" "automatic") (lit "watcher") L) (at_time 20 "job-3")
     succeeded_db).1 = Err (IntegrityError
       (UniqueConstraint "jobs_requester_job_kind_graph_id_idempotency_digest_key")).
Proof.
  split; [vm_compute; reflexivity|].
  split; [|vm_compute; reflexivity].
  apply (coalesce_cannot_repeat L (request_for "g" "a" "key" "automatic") (lit "watcher")
    (j_digest (j_spec (the_job succeeded_db "job-1"))) (at_time 20 "job-3") succeeded_db (lit "job-1")
    (the_job succeeded_db "job-1")); vm_compute; reflexivity.
Defined.

Lemma recovery_complete_witness :
  exists a, attempts running_db !! (lit "job-1", 1) = Some a /\ a_instance a = c1 /\ a_epoch a = 1.
Proof.
  assert (recover_abandoned_attempts c1 1 256 (at_time 9 "x") running_db = Ok (0, running_db)) as H
    by (vm_compute; reflexivity).
  destruct (recovery_complete L c1 1 256 (at_time 9 "x") running_db 0 running_db eq_refl running_reachable)
    with (jid := lit "job-1") (j := the_job running_db "job-1") as (a & Ha & _ & Hi & He).
  - vm_compute. discriminate.
  - exact H.
  - vm_compute. reflexivity.
  - change (RUNNING ∈ [CLAIMED; STARTING; RUNNING; CANCEL_REQUESTED; CANCELLING]). clear. set_solver.
  - exists a. split; [exact Ha|]. split; assumption.
Defined.
