(* ===== verification/StoreInterface.v ===== *)
(** What the coordinator process asks of its store: the operations of the protocol
    classes [CoordinatorStore] and [RecoveryStore]
    ([coordinator/_coordinator_protocols.py], [startup_recovery.py]) as a type class, the
    laws the process relies on, and the control store as an instance. *)
From S2P Require Import Prelude PyVal Limits Contracts ContractsFacts Semantics ControlDb.
From S2P Require Import ControlDbFacts ControlOwnership ControlState ControlSubmission.
From S2P Require Import ControlReconciliation ControlMaintenance Protocol ControlRefinement.
From S2P Require Import ControlStore.
Open Scope Z_scope.

(** A call of the store: one transaction in the environment it meets. *)
Abbreviation call_of S A := (env -> S -> res A * S).

Class CoordinatorStore (S : Type) := {
  st_activity : call_of S unit;      (** entering [maintenance_activity] *)
  st_claim : pystr -> Z -> Z -> bool -> call_of S (option JobClaim);   (** one try of [claim_next] *)
  st_mark_reconciliation : JobClaim -> JobState -> pystr -> option pystr -> PublicationState ->
    call_of S bool;
  st_mark_terminated : JobClaim -> pystr -> Z -> option pystr -> call_of S bool;
  st_schedule_retry : JobClaim -> JobState -> Z -> pystr -> option pystr -> call_of S bool;
  st_heartbeat_singleton : pystr -> Z -> Z -> call_of S bool;
  st_request_cancellation : pystr -> call_of S JobState;
  st_compare_and_set : JobClaim -> JobState -> JobState -> option PublicationState ->
    option pystr -> option pystr -> call_of S bool;
  st_release : JobClaim -> pystr -> Z -> call_of S bool;
  st_cleanup : Z -> Z -> bool -> option (JobClaim -> option retire_error) -> call_of S CleanupReport;
  st_status : pystr -> call_of S JobStatus;
  st_record_marker : JobClaim -> pystr -> GenerationTuple -> call_of S bool;
  st_reconciliation_claims : Z -> call_of S (list JobClaim);
  st_reconcile : JobClaim -> pystr -> Z -> bool -> call_of S Reconciled;
  st_acquire_singleton : pystr -> Z -> call_of S Z;
  st_stop_singleton : pystr -> Z -> call_of S bool;
  st_recover_abandoned : pystr -> Z -> Z -> call_of S Z;
  st_quarantine_legacy : JobClaim -> pystr -> Z -> option (res bool) -> call_of S bool;
  st_close_unpublished : JobClaim -> pystr -> Z -> option (res bool) -> res bool -> call_of S bool
}.

(** The steps a store takes, with a step or not on each path of a call. *)
Definition stays {S A} (moves : S -> S -> Prop) (c : call_of S A) : Prop := forall e s, moves s (c e s).2.

(** What a store promises.  [moves] is what any client's calls do to it; the process
    never asks the compare-and-set for [queued].  [settled] is a job in a state with no
    lease left for the claim, [job_in] the claim's job in a state, if there is one. *)
Class CoordinatorStoreLaws (S : Type) `{CoordinatorStore S} := {
  moves : S -> S -> Prop;
  moves_refl s : moves s s;
  moves_trans s1 s2 s3 : moves s1 s2 -> moves s2 s3 -> moves s1 s3;
  settled : S -> JobClaim -> (JobState -> Prop) -> Prop;
  job_in : S -> JobClaim -> (JobState -> Prop) -> Prop;
  job_in_when s c (Phi : Prop) (P : JobState -> Prop) : (Phi -> job_in s c P) -> job_in s c (fun t => Phi -> P t);
  settled_mono s c (P Q : JobState -> Prop) : (forall t, P t -> Q t) -> settled s c P -> settled s c Q;

  activity_moves : stays moves st_activity;
  claim_moves i ep t b : stays moves (st_claim i ep t b);
  mark_reconciliation_moves c s cat dg p : stays moves (st_mark_reconciliation c s cat dg p);
  mark_terminated_moves c i ep dg : stays moves (st_mark_terminated c i ep dg);
  schedule_retry_moves c s t cat dg : stays moves (st_schedule_retry c s t cat dg);
  heartbeat_moves i ep t : stays moves (st_heartbeat_singleton i ep t);
  cancellation_moves jid : stays moves (st_request_cancellation jid);
  compare_and_set_moves c s s' p cat dg : s' <> QUEUED -> stays moves (st_compare_and_set c s s' p cat dg);
  release_moves c i ep : stays moves (st_release c i ep);
  cleanup_moves t n b r : stays moves (st_cleanup t n b r);
  status_moves jid : stays moves (st_status jid);
  record_marker_moves c run g : stays moves (st_record_marker c run g);
  reconciliation_claims_moves n : stays moves (st_reconciliation_claims n);
  reconcile_moves c i ep b : stays moves (st_reconcile c i ep b);
  acquire_moves i t : stays moves (st_acquire_singleton i t);
  stop_moves i ep : stays moves (st_stop_singleton i ep);
  recover_moves i ep n : stays moves (st_recover_abandoned i ep n);
  quarantine_moves c i ep f : stays moves (st_quarantine_legacy c i ep f);
  close_moves c i ep f cl : stays moves (st_close_unpublished c i ep f cl);

  (** a decision of the reconciliation other than to wait is carried out *)
  reconcile_settles c i ep b e s t s' :
    st_reconcile c i ep b e s = (Ok (Decided t), s') -> t <> RECONCILIATION_REQUIRED ->
    settled s' c (fun t' => t' = t);
  retry_settles c s0 t cat dg e s s' :
    st_schedule_retry c s0 t cat dg e s = (Ok true, s') -> settled s' c (fun t' => t' = QUEUED);
  transition_sets c s0 t p cat dg e s s' :
    st_compare_and_set c s0 t p cat dg e s = (Ok true, s') -> job_in s' c (fun t' => t' = t);
  release_settles c (P : JobState -> Prop) i ep e s s' :
    job_in s c P -> st_release c i ep e s = (Ok true, s') -> settled s' c (fun t' => P t' /\ is_terminal t' = true);
  automatic_claims i ep t e s c s' :
    st_claim i ep t true e s = (Ok (Some c), s') -> k_class c = lit "automatic"
}.

(** ** The control store *)

Section ControlStoreInstance.
Context {U : Unicode}.
Variable limits : CoordinatorLimits.

#[export] Instance control_store : CoordinatorStore db := {|
  st_activity := fun e d => (raise_if (negb (admitted e)) MaintenanceUnavailableError, d);
  st_claim i ep seconds auto := commit (claim_once i ep seconds (max_retry_attempts limits) auto);
  st_mark_reconciliation c s category diag pub :=
    commit (mark_reconciliation_required c s category diag pub);
  st_mark_terminated c i ep diag := commit (mark_attempt_terminated c true i ep diag);
  st_schedule_retry c s delay category diag :=
    commit (schedule_retry c s delay category (max_retry_attempts limits) diag);
  st_heartbeat_singleton i ep ttl := commit (heartbeat_singleton i ep ttl);
  st_request_cancellation jid := commit (request_cancellation jid);
  st_compare_and_set c s s' pub category diag :=
    commit (compare_and_set_state (k_job c) s s' (k_attempt c) (k_instance c) (k_epoch c) pub category diag);
  st_release c i ep :=
    commit (release_graph_lease (k_graph c) (k_job c) (k_attempt c) (k_instance c) (k_epoch c) i ep);
  st_cleanup age n dry retirer := commit (cleanup_terminal age n dry retirer);
  st_status jid := commit (status jid);
  st_record_marker c run gens := commit (record_publication_marker c run gens MarkerCommitted);
  st_reconciliation_claims n := commit (reconciliation_claims n);
  st_reconcile c i ep unpublished :=
    commit (reconcile_publication c (max_retry_attempts limits) i ep unpublished);
  st_acquire_singleton i ttl := commit (acquire_singleton i ttl);
  st_stop_singleton i ep := commit (stop_singleton i ep);
  st_recover_abandoned i ep n := commit (recover_abandoned_attempts i ep n);
  st_quarantine_legacy c i ep fence := commit (quarantine_legacy_attempt c i ep fence);
  st_close_unpublished c i ep fence closer := commit (execute_durable_closure c i ep fence (Some closer))
|}.

Definition store_moves (d d' : db) : Prop := rtc (store_step limits) d d'.

(** The claim's job is in a state of [P], and the claim's lease is gone. *)
Definition db_settled (d : db) (c : JobClaim) (P : JobState -> Prop) : Prop :=
  (exists j, jobs d !! k_job c = Some j /\ P (j_state j)) /\
  (forall l, leases d !! k_graph c = Some l ->
     lease_of (k_job c) (k_attempt c) (k_instance c) (k_epoch c) l = false).

(** The claim's job is in a state of [P], if it is there. *)
Definition db_job_in (d : db) (c : JobClaim) (P : JobState -> Prop) : Prop :=
  forall j, jobs d !! k_job c = Some j -> P (j_state j).

(** A call that is an operation of the store takes a step. *)
Lemma exec_moves {A} (m : tx A) o :
  op_ok o -> exec limits o = void m -> stays store_moves (commit m).
Proof.
  intros Hok Ho e d. apply rtc_once. apply (Store_step limits _ _ o e); [done|]. rewrite Ho.
  unfold commit, void, mbind, tx_bind. by destruct (m e d) as [[a d']|x].
Qed.

Lemma read_moves {A} (m : tx A) :
  (forall e d a d', m e d = Ok (a, d') -> d' = d) -> stays store_moves (commit m).
Proof.
  intros Hm e d. unfold commit. destruct (m e d) as [[a d']|x] eqn:E; [|apply rtc_refl].
  rewrite (Hm _ _ _ _ E). apply rtc_refl.
Qed.

Lemma close_release_settles claim (f : job -> job) pub cat diag e d u d' row :
  _lock_evidence d claim = Some row ->
  (_ ← update_job (k_job claim) (reconciling claim) f;
   _ ← _close_attempt claim pub cat diag;
   _delete_lease claim) e d = Ok (u, d') ->
  db_settled d' claim (fun t => t = j_state (f (ev_job row))).
Proof.
  intros (Hj & Ha & Hs & Hn & Ho & _)%lock_evidence_spec H. tx_step H.
  assert (reconciling claim (ev_job row) = true) as Hp.
  { unfold reconciling. rewrite Hs, Hn. by rewrite bool_decide_true, Z.eqb_refl. }
  destruct (update_job_hit _ _ _ _ _ _ _ _ Hstep Hj Hp) as (_ & _ & ->).
  tx_step H. eapply close_attempt_Ok in Hstep0 as (a' & _ & ->); [|exact Ha|done].
  apply delete_claim_lease_Ok in H as (l & m & _ & _ & ->). split; cbn.
  - rewrite lookup_insert_eq. eauto.
  - intros l'. by rewrite lookup_delete_eq.
Qed.

Lemma close_terminal_settles claim target pub cat diag e d u d' row :
  _lock_evidence d claim = Some row -> _close_terminal claim target pub cat diag e d = Ok (u, d') ->
  db_settled d' claim (fun t => t = target).
Proof.
  intros Hrow H. unfold _close_terminal in H. apply tx_bind_Ok in H as (? & ? & [= <- <-] & H).
  by eapply close_release_settles in H.
Qed.

Lemma db_reconcile_settles claim i ep b e d t d' :
  reconcile_publication claim (max_retry_attempts limits) i ep b e d = Ok (Decided t, d') ->
  t <> RECONCILIATION_REQUIRED -> db_settled d' claim (fun t' => t' = t).
Proof.
  intros H Ht. unfold reconcile_publication in H.
  tx_step H. apply require_live_owner_Ok in Hstep as [_ ->]. tx_steps H.
  destruct (_lock_evidence d claim) as [row|] eqn:Hrow; [|done].
  assert (forall m, _lock_evidence (set_intents m d) claim = Some row) as Hrow' by done.
  repeat match type of H with
         | (if ?b then _ else _) _ _ = _ => destruct b
         | match ?x with _ => _ end _ _ = _ => destruct x
         | mret (Decided RECONCILIATION_REQUIRED) _ _ = _ => injection H as <- _; done
         end; tx_steps H; injection H as <- <-.
  all: repeat match goal with G : _pause_graph_intent _ _ _ = Ok _ |- _ => apply pause_Ok in G as [? ->] end.
  all: repeat match goal with
         | G : _close_terminal _ _ _ _ _ _ _ = Ok _ |- _ => by eapply close_terminal_settles in G
         end.
  unfold _queue_retry in *.
  match goal with G : mbind _ _ _ _ = Ok _ |- _ =>
    apply tx_bind_Ok in G as (? & ? & [= <- <-] & G); by eapply close_release_settles in G end.
Qed.

Lemma db_retry_settles claim s0 delay cat diag e d d' :
  schedule_retry claim s0 delay cat (max_retry_attempts limits) diag e d = Ok (true, d') ->
  db_settled d' claim (fun t => t = QUEUED).
Proof.
  intros H. unfold schedule_retry in H.
  tx_step H. tx_step H. tx_step H. apply require_live_owner_Ok in Hstep1 as [_ ->]. tx_steps H.
  destruct (jobs d !! k_job claim) as [j|] eqn:Hj; [|done].
  destruct (attempts d !! (k_job claim, k_attempt claim)) as [a|] eqn:Ha; [|done].
  destruct (negb _) eqn:Hg; [done|].
  apply negb_false_iff in Hg. rewrite !andb_true_iff in Hg. destruct Hg as [[Hs Hn] Ho].
  tx_steps H. injection H as <-.
  assert (bool_decide (j_state j = s0) && (j_attempt j =? k_attempt claim) = true) as Hp
    by (by rewrite Hs, Hn).
  destruct (update_job_hit _ _ _ _ _ _ _ _ Hstep4 Hj Hp) as (_ & _ & ->).
  destruct (update_attempt_hit _ _ _ _ _ _ _ _ Hstep5 Ha Ho) as (_ & ->).
  apply delete_lease_Ok in Hstep6 as [(_ & -> & Hno)|(_ & l & _ & _ & ->)]; (split; cbn in *;
    [rewrite lookup_insert_eq; by eauto|]).
  - exact Hno.
  - intros l'. by rewrite lookup_delete_eq.
Qed.

Lemma db_transition_sets claim s0 t pub cat diag e d d' :
  compare_and_set_state (k_job claim) s0 t (k_attempt claim) (k_instance claim) (k_epoch claim) pub cat diag e d
    = Ok (true, d') -> db_job_in d' claim (fun t' => t' = t).
Proof.
  intros (_ & [[? _]|(_ & j & a & a' & _ & _ & _ & _ & _ & -> & _)])%compare_and_set_Ok; [done|].
  intros j'. cbn. rewrite lookup_insert_eq. intros [= <-]. done.
Qed.

Lemma db_release_settles claim (P : JobState -> Prop) i ep e d d' :
  db_job_in d claim P -> release_graph_lease (k_graph claim) (k_job claim) (k_attempt claim) (k_instance claim) (k_epoch claim)
    i ep e d = Ok (true, d') ->
  db_settled d' claim (fun t => P t /\ is_terminal t = true).
Proof.
  intros HP H. unfold release_graph_lease in H. tx_steps H. injection H as -> ->.
  apply update_intent_Ok in Hstep0 as [m ->].
  apply delete_lease_Ok in Hstep as [(? & _)|(_ & l & Hl & Hp & ->)]; [done|].
  rewrite !andb_true_iff in Hp. destruct Hp as [[(Hjob & _)%lease_of_spec _] Hj].
  rewrite Hjob in Hj. destruct (jobs d !! k_job claim) as [j|] eqn:Ej; [|done]. split; cbn.
  - exists j. split; [done|]. split; [by apply HP|]. by apply releasable_terminal.
  - intros l'. by rewrite lookup_delete_eq.
Qed.

Lemma db_automatic_claims i ep t e d c d' :
  claim_once i ep t (max_retry_attempts limits) true e d = Ok (Some c, d') -> k_class c = lit "automatic".
Proof.
  intros H. apply claim_once_Ok in H as (_ & _ & [(? & _)|(jid & j & rest & m & _ & _ & Hcl & _ & [= ->] & _)]);
    [done|].
  unfold claimable in Hcl. rewrite !andb_true_iff in Hcl.
  destruct Hcl as [[[[[[_ _] _] Ha] _] _] _]. cbn in Ha. by apply bool_decide_eq_true in Ha.
Qed.

Lemma commit_inv {A} (m : tx A) e d a d' : commit m e d = (Ok a, d') -> m e d = Ok (a, d').
Proof. unfold commit. destruct (m e d) as [[a0 d0]|x]; by intros [= <- <-]. Qed.

(** The call is the operation [o] of the store. *)
Ltac moves_by o := apply (exec_moves _ o); [done|reflexivity].

#[export] Instance control_store_laws : CoordinatorStoreLaws db.
Proof.
  unshelve econstructor.
  - exact store_moves.
  - exact db_settled.
  - exact db_job_in.
  - intros s. apply rtc_refl.
  - intros s1 s2 s3 H1 H2. unfold store_moves in *; by etransitivity.
  - intros s c Phi P HP j Hj Hphi. exact (HP Hphi j Hj).
  - intros s c P Q HPQ [(j & Hj & HP) Hl]. split; [exists j; auto|done].
  - intros e d. apply rtc_refl.
  - intros i ep t b. moves_by (OpClaim i ep t b).
  - intros c s cat dg p e d. cbn. unfold mark_reconciliation_required, commit, mbind, tx_bind.
    destruct (check _ _ e d) as [[? d1]|] eqn:E; [|apply rtc_refl]. apply check_Ok in E as [_ ->].
    apply (exec_moves _ (OpCompareAndSet (k_job c) s RECONCILIATION_REQUIRED (k_attempt c) (k_instance c)
      (k_epoch c) (Some p) (Some cat) dg)); done.
  - intros c i ep dg. moves_by (OpTerminated c true i ep dg).
  - intros c s t cat dg. moves_by (OpRetry c s t cat dg).
  - intros i ep t. moves_by (OpHeartbeatSingleton i ep t).
  - intros jid. moves_by (OpCancel jid).
  - intros c s s' p cat dg Hs. moves_by (OpCompareAndSet (k_job c) s s' (k_attempt c) (k_instance c) (k_epoch c) p cat dg).
  - intros c i ep. moves_by (OpRelease (k_graph c) (k_job c) (k_attempt c) (k_instance c) (k_epoch c) i ep).
  - intros t n b r. moves_by (OpCleanup t n b r).
  - intros jid. apply read_moves. intros e d a d' H. unfold status in H. tx_steps H.
    destruct (jobs d !! jid); [by tx_ret H|done].
  - intros c run g. moves_by (OpMarker c run g MarkerCommitted).
  - intros n. apply read_moves. intros e d a d' H. unfold reconciliation_claims in H. tx_steps H. by tx_ret H.
  - intros c i ep b. moves_by (OpReconcile c i ep b).
  - intros i t. moves_by (OpAcquire i t).
  - intros i ep. moves_by (OpStop i ep).
  - intros i ep n. moves_by (OpRecover i ep n).
  - intros c i ep f. moves_by (OpQuarantine c i ep f).
  - intros c i ep f cl. moves_by (OpClosure c i ep f (Some cl)).
  - intros c i ep b e s t s' H Ht. apply commit_inv in H. exact (db_reconcile_settles _ _ _ _ _ _ _ _ H Ht).
  - intros c s0 t cat dg e s s' H. apply commit_inv in H. by apply db_retry_settles in H.
  - intros c s0 t p cat dg e s s' H. apply commit_inv in H. by apply db_transition_sets in H.
  - intros c P i ep e s s' HP H. apply commit_inv in H. exact (db_release_settles _ _ _ _ _ _ _ HP H).
  - intros i ep t e s c s' H. apply commit_inv in H. by apply db_automatic_claims in H.
Defined.

End ControlStoreInstance.
