(* ===== verification/Coordinator.v ===== *)
(** The coordinator process: [coordinator/core.py], [coordinator/_core_disposition.py]
    and [coordinator/startup_recovery.py].

    The process is a client of any store of the class [CoordinatorStore].  Its
    operations are written in a monad that keeps the store and the process's own fields
    when an exception leaves them.  A [host] supplies what the process does not
    determine: the environment of each call, what other threads and processes did to the
    store before it, whether the connection failed before or after the call's commit,
    what workers and callbacks answer, and whether another thread has asked to cancel
    the running job.  One thread claims work, as in [service.py]. *)
From S2P Require Import Prelude Utf8 PyVal Limits Regex Contracts ContractsFacts Semantics.
From S2P Require Import ControlDb ControlOwnership ControlState ControlReconciliation.
From S2P Require Import ControlMaintenance StoreInterface.
From Stdlib Require Import QArith Qround.
Open Scope Z_scope.

Section Coordinator.
Context {U : Unicode}.

(** ** Exceptions by class *)

Definition is_value_error (x : exn) : bool :=
  match x with ValueError _ | AdmissionTimeout | PublicationRouteChangedError => true | _ => false end.

Definition is_os_error (x : exn) : bool :=
  match x with
  | OSError _ | PermissionError _ | StaleDurableAuthorityError _ | FencingContentionError => true
  | _ => false
  end.

Definition is_runtime_error (x : exn) : bool :=
  match x with
  | RuntimeError _ | SingletonActiveError _ | ControlStoreError _ | MaintenanceUnavailableError => true
  | _ => false
  end.

(** [type(error).__name__] *)
Definition type_name (x : exn) : pystr :=
  lit match x with
      | ValueError _ => "ValueError"
      | TypeError _ => "TypeError"
      | LookupError _ => "KeyError"
      | RuntimeError _ => "RuntimeError"
      | OSError _ => "OSError"
      | PermissionError _ => "PermissionError"
      | SingletonActiveError _ => "SingletonActiveError"
      | MaintenanceUnavailableError => "MaintenanceUnavailableError"
      | AdmissionTimeout => "AdmissionTimeout"
      | ControlStoreError _ => "ControlStoreError"
      | StaleDurableAuthorityError _ => "StaleDurableAuthorityError"
      | FencingContentionError => "FencingContentionError"
      | PublicationRouteChangedError => "PublicationRouteChangedError"
      | OperationalError => "OperationalError"
      | ProgrammingError => "ProgrammingError"
      | IntegrityError CheckConstraint => "CheckViolation"
      | IntegrityError ForeignKeyConstraint => "ForeignKeyViolation"
      | IntegrityError (UniqueConstraint _) => "UniqueViolation"
      end.

(** [[A-Za-z_][A-Za-z_0-9]{0,63}] *)
Definition is_name_start (c : Z) : bool := is_upper c || is_lower c || (c =? 95).
Definition _NAME : re :=
  Cat (Cls is_name_start) (Rep (fun c => is_name_start c || is_digit c) (Some 63%nat)).

Definition _format_unexpected_diagnostic (error : exn) : pystr :=
  if fullmatch _NAME (type_name error) then type_name error else lit "Exception".

(** A lock not obtained in time is [FencingContentionError] in the store's model. *)
Definition _expected_refusal (error : exn) : bool := is_stale_or_contended error.

(** ** Values of a worker's terminal message *)



(** [d.get(k)] *)
Definition get (k : string) (d : pydict) : pyval := default VNone (dict_get (lit k) d).
Definition is_str (v : pyval) (s : string) : bool :=
  match v with VStr t => bool_decide (t = lit s) | _ => false end.
(** [v in {...}] hashes [v]: a list or dict raises, also inside a tuple. *)
Definition in_set (v : pyval) (l : list string) : res bool :=
  if hashable v then Ok (existsb (is_str v) l) else Err (TypeError "unhashable type").
(** [str(v)]; [repr] prints floats and containers. *)
Definition py_str (repr : pyval -> pystr) (v : pyval) : pystr :=
  match v with
  | VStr s => s
  | VNone => lit "None"
  | VBool b => lit (if b then "True" else "False")
  | VInt n => str_of_int n
  | VFloat _ _ | VList _ | VTuple _ | VDict _ => repr v
  end.

(** [timedelta(seconds=q)] in microseconds, to the nearest, ties to even. *)
Definition timedelta_seconds (q : Q) : Z :=
  let x := (q * inject_Z second)%Q in
  let f := Qfloor x in
  match Qcompare (x - inject_Z f) (1 # 2) with
  | Lt => f
  | Gt => f + 1
  | Eq => if Z.even f then f else f + 1
  end.

(** ** State *)

Record StartupRecoveryReport := MkRecovery {
  rr_scanned : Z; rr_resolved : Z; rr_pending : Z; rr_route_changed : Z; rr_unavailable : Z;
  rr_residuals : Z; rr_refused : Z; rr_unexpected : list pystr
}.

Record RecoveryDiagnostic := MkDiagnostic {
  dg_sequence : Z; dg_error_type : pystr; dg_category : pystr; dg_summary : pystr
}.

Record coordinator := MkCoordinator {
  co_epoch : option Z;
  co_active_workers : Z;
  co_manual_claims : Z;
  co_cancellations : gmap pystr bool;     (** the [Event] of each active job: set or not *)
  co_residuals : list pystr;
  co_report : option StartupRecoveryReport;
  co_diagnostics : list RecoveryDiagnostic;
  co_sequence : Z
}.

Definition set_co_epoch x c := MkCoordinator x (co_active_workers c) (co_manual_claims c)
  (co_cancellations c) (co_residuals c) (co_report c) (co_diagnostics c) (co_sequence c).
Definition set_co_active x c := MkCoordinator (co_epoch c) x (co_manual_claims c)
  (co_cancellations c) (co_residuals c) (co_report c) (co_diagnostics c) (co_sequence c).
Definition set_co_manual x c := MkCoordinator (co_epoch c) (co_active_workers c) x
  (co_cancellations c) (co_residuals c) (co_report c) (co_diagnostics c) (co_sequence c).
Definition set_co_cancellations x c := MkCoordinator (co_epoch c) (co_active_workers c)
  (co_manual_claims c) x (co_residuals c) (co_report c) (co_diagnostics c) (co_sequence c).
Definition set_co_residuals x c := MkCoordinator (co_epoch c) (co_active_workers c)
  (co_manual_claims c) (co_cancellations c) x (co_report c) (co_diagnostics c) (co_sequence c).
Definition set_co_report x c := MkCoordinator (co_epoch c) (co_active_workers c)
  (co_manual_claims c) (co_cancellations c) (co_residuals c) x (co_diagnostics c) (co_sequence c).
Definition set_co_diagnostics x n c := MkCoordinator (co_epoch c) (co_active_workers c)
  (co_manual_claims c) (co_cancellations c) (co_residuals c) (co_report c) x n.

(** A coordinator just constructed. *)
Definition new_coordinator : coordinator := MkCoordinator None 0 0 ∅ [] None [] 0.

(** ** Host and monad *)

Context {S : Type} `{CoordinatorStore S}.

(** What happens to the connection during a call. *)
Inductive fault := NoFault | LostBefore | LostAfter.

Inductive worker_result :=
| Finished (terminal : pydict)
| LaunchError                     (** [WorkerLaunchError] *)
| Raised (error : exn).

Record host := MkHost {
  h_instance : pystr; h_max_workers : Z; h_singleton_ttl : Z; h_lease_ttl : Z;
  h_env : nat -> env;                       (** of the call with this number *)
  h_others : nat -> S -> S;                 (** done by others before the call *)
  h_fault : nat -> fault;
  h_cancel : nat -> bool;                   (** another thread has set the cancel event by then *)
  h_worker : JobClaim -> worker_result;
  h_reader : option (nat -> JobClaim -> res (option pydict));
  h_retirer : option (JobClaim -> option retire_error);
  h_closer : option (nat -> JobClaim -> res bool);
  h_fence : option (nat -> JobClaim -> res bool);   (** the store's fence callback *)
  h_uniform : Q -> Q -> Q;
  h_repr : pyval -> pystr;
  h_diagnostic : exn -> pystr               (** [_coordinator_exception_diagnostic] *)
}.

Record world := MkWorld { w_calls : nat; w_store : S; w_self : coordinator }.

Definition co (A : Type) : Type := host -> world -> res A * world.

#[export] Instance co_ret : MRet co := fun A a h w => (Ok a, w).
#[export] Instance co_bind : MBind co := fun A B f m h w =>
  match m h w with (Ok a, w') => f a h w' | (Err x, w') => (Err x, w') end.

Definition raise {A} (x : exn) : co A := fun h w => (Err x, w).
Definition liftc {A} (r : res A) : co A := fun h w => (r, w).
Definition ask : co host := fun h w => (Ok h, w).
Definition tick : co nat := fun h w => (Ok (w_calls w), w).
Definition self : co coordinator := fun h w => (Ok (w_self w), w).
Definition modify (f : coordinator -> coordinator) : co unit :=
  fun h w => (Ok tt, MkWorld (w_calls w) (w_store w) (f (w_self w))).

(** [try: m except ...: handler]; [None] re-raises. *)
Definition catch {A} (m : co A) (handler : exn -> option (co A)) : co A := fun h w =>
  match m h w with
  | (Err x, w') => match handler x with Some k => k h w' | None => (Err x, w') end
  | r => r
  end.

(** [try: m finally: f], for an [f] that does not raise. *)
Definition finally {A} (m : co A) (f : coordinator -> coordinator) : co A := fun h w =>
  let (r, w') := m h w in (r, MkWorld (w_calls w') (w_store w') (f (w_self w'))).

(** A call of the store, after what others did. *)
Definition call {A} (c : call_of S A) : co A := fun h w =>
  let n := w_calls w in
  let s := h_others h n (w_store w) in
  match h_fault h n with
  | NoFault => let (r, s') := c (h_env h n) s in (r, MkWorld (n + 1) s' (w_self w))
  | LostBefore => (Err OperationalError, MkWorld (n + 1) s (w_self w))
  | LostAfter => (Err OperationalError, MkWorld (n + 1) (c (h_env h n) s).2 (w_self w))
  end.

Definition _require_started : co Z :=
  c ← self; match co_epoch c with Some e => mret e | None => raise (RuntimeError "coordinator is not started") end.

(** What [run_once] returns. *)
Inductive outcome := Idle | Saturated | LostOwnership | Reports (s : JobState).

Definition outcome_value (o : outcome) : string :=
  match o with
  | Idle => "idle" | Saturated => "saturated" | LostOwnership => "ownership_lost"
  | Reports s => job_state_value s
  end.

(** ** Disposition ([_core_disposition.py]) *)

Definition _transition (claim : JobClaim) (expected_state new_state : JobState)
    (publication_state : option PublicationState) (error_category diagnostic_summary : option pystr)
    : co bool :=
  call (st_compare_and_set claim expected_state new_state publication_state error_category
          diagnostic_summary).

(** Whether the event of the running job is set. *)
Definition cancel_is_set (jid : pystr) : co bool :=
  h ← ask; n ← tick; c ← self;
  mret (default false (co_cancellations c !! jid) || h_cancel h n).

Definition set_event (jid : pystr) : co unit :=
  modify (fun c => set_co_cancellations
    (alter (fun _ => true) jid (co_cancellations c)) c).

Definition _active_expected_state (claim : JobClaim) : co JobState :=
  st ← call (st_status (k_job claim));
  _ ← (if bool_decide (status_state st = CANCEL_REQUESTED) then set_event (k_job claim) else mret tt);
  set ← cancel_is_set (k_job claim);
  mret (if set : bool then CANCEL_REQUESTED else RUNNING).

Definition _release_terminal_lease (claim : JobClaim) : co unit :=
  epoch ← _require_started;
  h ← ask;
  released ← call (st_release claim (h_instance h) epoch);
  if released : bool then mret tt else raise (RuntimeError "terminal graph lease release failed").

Definition append_residual (token : pystr) (c : coordinator) : coordinator :=
  if Z.of_nat (length (co_residuals c)) <? max_array_items DEFAULT_LIMITS
  then set_co_residuals (co_residuals c ++ [token]) c else c.

Definition _retire_evidence (claim : JobClaim) : co unit :=
  h ← ask;
  match h_retirer h with
  | None => mret tt
  | Some retirer =>
      match retirer claim with
      | None => mret tt
      | Some (RetireOther x) => raise x
      | Some err => modify (append_residual (residual_token claim err))
      end
  end.

Definition _finish_prestart_cancel (claim : JobClaim) : co outcome :=
  st ← call (st_status (k_job claim));
  if negb (bool_decide (status_state st = CANCEL_REQUESTED)) then mret LostOwnership
  else
    stopping ← _transition claim CANCEL_REQUESTED CANCELLING None None None;
    if negb stopping then mret LostOwnership
    else
      cancelled ← _transition claim CANCELLING CANCELLED (Some NOT_STARTED) (Some (lit "cancelled")) None;
      if negb cancelled then mret LostOwnership
      else
        _ ← _release_terminal_lease claim;
        _ ← _retire_evidence claim;
        mret (Reports CANCELLED).

(** The values of the marker's columns; a value that is no text is refused by the
    database. *)
Definition marker_texts (m : pydict) : option (pystr * GenerationTuple) :=
  match get "latest_run_identity" m, get "source_generation" m, get "config_generation" m,
        get "extractor_generation" m, get "canonicalizer_generation" m with
  | VStr run, VStr sg, VStr cg, VStr eg, VStr kg =>
      Some (run, {| gen_source := sg; gen_config := cg; gen_extractor := eg; gen_canonicalizer := kg |})
  | _, _, _, _, _ => None
  end.

Definition marker_incomplete (m : pydict) : bool :=
  existsb (fun field => is_none (get field m))
    ["latest_run_identity"; "source_generation"; "config_generation"; "extractor_generation";
     "canonicalizer_generation"].

Definition _record_marker_if_available (claim : JobClaim) (terminal : pydict) : co bool :=
  if marker_incomplete terminal then mret false
  else
    match marker_texts terminal with
    | None => raise ProgrammingError
    | Some (run, gens) => _ ← call (st_record_marker claim run gens); mret true
    end.

Definition _reconcile_current (claim : JobClaim) : co outcome :=
  h ← ask; n ← tick;
  unpublished_proved ←
    match h_reader h with
    | None => mret false
    | Some reader =>
        marker ← match reader n claim with
                 | Ok m => mret m
                 | Err x => if is_os_error x || is_runtime_error x || is_value_error x
                            then mret None else raise x
                 end;
        match marker with
        | None => mret false
        | Some m =>
            _ ← catch (_ ← _record_marker_if_available claim m; mret tt)
                  (fun x => if is_value_error x then Some (mret tt) else None);
            mret (is_str (get "publication_state" m) "not_started")
        end
    end;
  epoch ← _require_started;
  r ← call (st_reconcile claim (h_instance h) epoch unpublished_proved);
  mret (match r with Decided s => Reports s | OwnershipLost => LostOwnership end).

(** [if outcome in {"succeeded", "failed", "cancelled", "queued"}: retire]. *)
Definition reconcile_and_retire (claim : JobClaim) : co outcome :=
  o ← _reconcile_current claim;
  _ ← match o with
      | Reports s => if bool_decide (s ∈ [SUCCEEDED; FAILED; CANCELLED; QUEUED])
                     then _retire_evidence claim else mret tt
      | _ => mret tt
      end;
  mret o.

(** Marks the attempt for reconciliation; [k] goes on when the process still owns it. *)
Definition when_marked (claim : JobClaim) (expected : JobState) (category : pystr)
    (diagnostic : option pystr) (publication : PublicationState) (k : co outcome) : co outcome :=
  marked ← call (st_mark_reconciliation claim expected category diagnostic publication);
  if negb marked then mret LostOwnership else k.

(** Records the proved end of the worker's process. *)
Definition when_terminated (claim : JobClaim) (i : pystr) (epoch : Z) (diagnostic : option pystr)
    (k : co outcome) : co outcome :=
  terminated ← call (st_mark_terminated claim i epoch diagnostic);
  if negb terminated then mret LostOwnership else k.

Definition _retry_policy : RetryPolicy :=
  {| max_attempts := max_retry_attempts DEFAULT_LIMITS; base_seconds := 1;
     maximum_seconds := inject_Z (max_retry_backoff_seconds DEFAULT_LIMITS) |}.

(** A transition to an end state, then the lease and the evidence are let go. *)
Definition end_with (claim : JobClaim) (expected target : JobState) (publication : PublicationState)
    (category : pystr) (diagnostic : option pystr) : co outcome :=
  ended ← _transition claim expected target (Some publication) (Some category) diagnostic;
  if negb ended then mret LostOwnership
  else
    _ ← _release_terminal_lease claim;
    _ ← _retire_evidence claim;
    mret (Reports target).

Definition dispose_failed (claim : JobClaim) (expected : JobState) (publication : PublicationState)
    (category : pystr) (diagnostic_summary : option pystr) : co outcome :=
  if bool_decide (expected = CANCEL_REQUESTED) then
    stopping ← _transition claim CANCEL_REQUESTED CANCELLING None None None;
    if negb stopping then mret LostOwnership
    else end_with claim CANCELLING FAILED publication (lit "cancel_failed") diagnostic_summary
  else
    retried ←
      (if may_retry _retry_policy (k_attempt claim) (category_name category)
            (publication_value publication) then
         h ← ask;
         delay ← liftc (delay_seconds _retry_policy (k_attempt claim) (category_name category)
                          (h_uniform h));
         call (st_schedule_retry claim RUNNING (timedelta_seconds delay) category diagnostic_summary)
       else mret false);
    if retried : bool then _ ← _retire_evidence claim; mret (Reports QUEUED)
    else end_with claim RUNNING FAILED publication category diagnostic_summary.

(** The publication states of the terminal message the failed and cancelled branches
    accept. *)
Definition publication_of (v : pyval) : option PublicationState :=
  if is_str v "not_started" then Some NOT_STARTED
  else if is_str v "prepared" then Some PREPARED
  else if is_str v "rolled_back" then Some ROLLED_BACK
  else None.

(** The remaining messages: the attempt is marked, its end recorded, and what is known
    of its publication decides.  Reached with the end of the process proved. *)
Definition dispose_unclear (claim : JobClaim) (expected : JobState) (supervised_category : pyval)
    (diagnostic_summary : option pystr) (publication : pyval) : co outcome :=
  h ← ask;
  let effective_diagnostic :=
    if is_str supervised_category "worker_crash" && bool_decide (diagnostic_summary = None)
    then Some (lit "worker_crash:unproved_termination") else diagnostic_summary in
  when_marked claim expected (py_str (h_repr h) supervised_category) effective_diagnostic
    (if is_str publication "not_started" then NOT_STARTED else COMMIT_UNKNOWN)
    (epoch ← _require_started;
     when_terminated claim (h_instance h) epoch effective_diagnostic (reconcile_and_retire claim)).

Definition _dispose_terminal (claim : JobClaim) (expected : JobState) (terminal : pydict) : co outcome :=
  h ← ask;
  let termination_proved := match dict_get (lit "_termination_proved") terminal with
                            | Some (VBool true) => true | _ => false end in
  let supervised_category := default (VStr (lit "publication_unknown"))
                               (dict_get (lit "_error_category") terminal) in
  let diagnostic_summary := match get "_diagnostic_summary" terminal with
                            | VStr s => Some s | _ => None end in
  let publication := get "publication_state" terminal in
  let status := get "status" terminal in
  let terminated diagnostic k :=
    if termination_proved then when_terminated claim (k_instance claim) (k_epoch claim) diagnostic k
    else k in
  if is_str status "succeeded" && is_str publication "committed" then
    marker_recorded ← catch (_record_marker_if_available claim terminal)
                        (fun x => if is_value_error x then Some (mret true) else None);
    if negb marker_recorded then
      when_marked claim expected (lit "protocol") diagnostic_summary COMMIT_UNKNOWN
        (if negb termination_proved then mret (Reports RECONCILIATION_REQUIRED)
         else when_terminated claim (k_instance claim) (k_epoch claim) None (reconcile_and_retire claim))
    else
      when_marked claim expected (lit "publication_unknown") diagnostic_summary COMMIT_UNKNOWN
        (terminated None (reconcile_and_retire claim))
  else if negb termination_proved then
    when_marked claim expected (lit "worker_crash") diagnostic_summary COMMIT_UNKNOWN
      (mret (Reports RECONCILIATION_REQUIRED))
  else
    uncertain ← liftc (in_set publication ["transaction_started"; "commit_unknown"]);
    if uncertain : bool then
      when_marked claim expected (py_str (h_repr h) supervised_category) diagnostic_summary COMMIT_UNKNOWN
        (terminated None
           (if bool_decide (is_Some (h_reader h)) then reconcile_and_retire claim
            else mret (Reports RECONCILIATION_REQUIRED)))
    else
      match publication_of publication with
      | Some pub =>
          if is_str status "failed" && negb (bool_decide (pub = PREPARED)) then
            let category := if truthy (get "error_category" terminal)
                            then py_str (h_repr h) (get "error_category" terminal)
                            else lit "permanent" in
            dispose_failed claim expected pub category diagnostic_summary
          else if is_str status "cancelled" && bool_decide (expected = CANCEL_REQUESTED) then
            stopping ← _transition claim CANCEL_REQUESTED CANCELLING None None None;
            if negb stopping then mret LostOwnership
            else end_with claim CANCELLING CANCELLED pub (lit "cancelled") None
          else dispose_unclear claim expected supervised_category diagnostic_summary publication
      | None => dispose_unclear claim expected supervised_category diagnostic_summary publication
      end.

(** ** Running ([core.py]) *)

Definition _worker_finished (c : coordinator) : coordinator :=
  set_co_active (co_active_workers c - 1) c.

(** [ControlStore.claim_next]: up to [tries] transactions; a lost race for the lease
    retries, another uniqueness violation is reported. *)
Fixpoint claim_tries (tries : nat) (epoch seconds : Z) (automatic_only : bool) : co (option JobClaim) :=
  match tries with
  | O => mret None
  | Datatypes.S tries' =>
      h ← ask;
      catch (call (st_claim (h_instance h) epoch seconds automatic_only))
        (fun x => match x with
                  | IntegrityError (UniqueConstraint name) =>
                      Some (if is_expected_graph_lease_race (UniqueConstraint name)
                            then claim_tries tries' epoch seconds automatic_only
                            else raise (ControlStoreError "unexpected control-store uniqueness violation"))
                  | _ => None
                  end)
  end.

Definition store_claim_next (epoch : Z) (automatic_only : bool) : co (option JobClaim) :=
  h ← ask;
  seconds ← liftc (positive_seconds (h_lease_ttl h));
  claim_tries 3 epoch seconds automatic_only.

(** The claim of one run, with the slot taken; an exception gives the slot back. *)
Definition claim_for_run (epoch : Z) (automatic_only : bool) : co (option JobClaim) :=
  catch
    (claim ← store_claim_next epoch automatic_only;
     match claim with
     | None =>
         if automatic_only then
           _ ← modify (set_co_manual 0);
           store_claim_next epoch false
         else mret None
     | Some c => mret (Some c)
     end)
    (fun x => Some (_ ← modify _worker_finished; raise x)).

(** The worker runs and its terminal message is disposed of. *)
Definition run_worker (claim : JobClaim) : co outcome :=
  h ← ask;
  let dispose terminal :=
    expected ← _active_expected_state claim; _dispose_terminal claim expected terminal in
  match h_worker h claim with
  | Finished terminal => dispose terminal
  | LaunchError =>
      dispose [(lit "status", VStr (lit "failed")); (lit "publication_state", VStr (lit "not_started"));
               (lit "error_category", VStr (lit "worker_launch")); (lit "_termination_proved", VBool true)]
  | Raised error =>
      expected ← _active_expected_state claim;
      when_marked claim expected
        (if _expected_refusal error then lit "publication_unknown" else lit "worker_crash")
        (Some (h_diagnostic h error)) COMMIT_UNKNOWN (mret (Reports RECONCILIATION_REQUIRED))
  end.

Definition run_claim (claim : JobClaim) : co outcome :=
  _ ← modify (fun c => set_co_manual
        (if bool_decide (k_class claim = lit "manual") then co_manual_claims c + 1 else 0) c);
  starting ← _transition claim CLAIMED STARTING None None None;
  if negb starting then
    _ ← modify _worker_finished;
    _finish_prestart_cancel claim
  else
    running ← _transition claim STARTING RUNNING None None None;
    if negb running then
      _ ← modify _worker_finished;
      cancelled ← _finish_prestart_cancel claim;
      match cancelled with
      | LostOwnership =>
          _ ← call (st_mark_reconciliation claim STARTING (lit "publication_unknown") None COMMIT_UNKNOWN);
          mret (Reports RECONCILIATION_REQUIRED)
      | o => mret o
      end
    else
      _ ← modify (fun c => set_co_cancellations (<[k_job claim := false]> (co_cancellations c)) c);
      st ← call (st_status (k_job claim));
      _ ← (if bool_decide (status_state st = CANCEL_REQUESTED) then set_event (k_job claim) else mret tt);
      finally (run_worker claim)
        (fun c => _worker_finished (set_co_cancellations (delete (k_job claim) (co_cancellations c)) c)).

Definition _run_once_admitted (epoch : Z) : co outcome :=
  h ← ask;
  c ← self;
  if h_max_workers h <=? co_active_workers c then mret Saturated
  else
    let automatic_only := manual_claim_burst DEFAULT_LIMITS <=? co_manual_claims c in
    _ ← modify (set_co_active (co_active_workers c + 1));
    claim ← claim_for_run epoch automatic_only;
    match claim with
    | None => _ ← modify _worker_finished; mret Idle
    | Some claim => run_claim claim
    end.

Definition run_once : co outcome :=
  epoch ← _require_started;
  _ ← call st_activity;
  _run_once_admitted epoch.

Definition request_cancel (jid : pystr) : co JobState :=
  _ ← _require_started;
  state ← call (st_request_cancellation jid);
  _ ← (if bool_decide (state = CANCEL_REQUESTED) then set_event jid else mret tt);
  mret state.

(** After [self._executor.shutdown(wait=True)]. *)
Definition shutdown : co unit :=
  c ← self;
  if negb (co_active_workers c =? 0) then raise (RuntimeError "workers are still active")
  else
    epoch ← _require_started;
    h ← ask;
    stopped ← call (st_stop_singleton (h_instance h) epoch);
    if negb stopped then raise (RuntimeError "coordinator singleton ownership was lost")
    else modify (set_co_epoch None).

Definition reconcile_claim (claim : JobClaim) : co outcome :=
  _ ← _require_started; _reconcile_current claim.

Definition coordinator_cleanup (minimum_age limit : option Z) (dry_run : bool) : co CleanupReport :=
  _ ← _require_started;
  h ← ask;
  report ← call (st_cleanup (default (terminal_retention_seconds DEFAULT_LIMITS * second) minimum_age)
             (default (cleanup_batch_size DEFAULT_LIMITS) limit) dry_run (h_retirer h));
  _ ← modify (fun c => foldl (fun c token => append_residual token c) c (residuals report));
  mret report.

(** ** Startup recovery ([startup_recovery.py]) *)

(** [deque.append] with the ring's bound of 32. *)
Definition push_diagnostic (l : list RecoveryDiagnostic) (x : RecoveryDiagnostic) : list RecoveryDiagnostic :=
  let l' := l ++ [x] in if Nat.ltb 32 (length l') then tail l' else l'.

Definition record_unexpected (c : coordinator) (name : pystr) : coordinator :=
  let safe_name := if fullmatch _NAME name then name else lit "Exception" in
  let n := co_sequence c + 1 in
  set_co_diagnostics
    (push_diagnostic (co_diagnostics c)
       (MkDiagnostic n safe_name (lit "unexpected_recovery_error") safe_name)) n c.

Definition _record_startup_recovery_report (report : StartupRecoveryReport) (c : coordinator) : coordinator :=
  foldl record_unexpected (set_co_report (Some report) c) (rr_unexpected report).

Definition acknowledge_recovery_diagnostics (through_sequence : Z) : co unit :=
  if through_sequence <? 0
  then raise (ValueError "diagnostic acknowledgement must be a nonnegative sequence")
  else
    modify (fun c => set_co_diagnostics
      ((fix popleft (l : list RecoveryDiagnostic) := match l with
        | x :: rest => if dg_sequence x <=? through_sequence then popleft rest else l
        | [] => [] end) (co_diagnostics c)) (co_sequence c) c).

Definition _renew_singleton : co bool :=
  c ← self;
  match co_epoch c with
  | Some epoch => h ← ask; call (st_heartbeat_singleton (h_instance h) epoch (h_singleton_ttl h))
  | None => mret true
  end.

(** The counters of one recovery pass. *)
Record tally := MkTally {
  t_resolved : Z; t_pending : Z; t_route_changed : Z; t_unavailable : Z; t_residuals : Z;
  t_refused : Z; t_unexpected : list pystr
}.
Definition no_tally : tally := MkTally 0 0 0 0 0 0 [].
Definition add_resolved (t : tally) := MkTally (t_resolved t + 1) (t_pending t) (t_route_changed t)
  (t_unavailable t) (t_residuals t) (t_refused t) (t_unexpected t).
Definition add_pending (n : Z) (t : tally) := MkTally (t_resolved t) (t_pending t + n) (t_route_changed t)
  (t_unavailable t) (t_residuals t) (t_refused t) (t_unexpected t).
Definition add_route_changed (t : tally) := MkTally (t_resolved t) (t_pending t) (t_route_changed t + 1)
  (t_unavailable t) (t_residuals t) (t_refused t) (t_unexpected t).
Definition add_unavailable (t : tally) := MkTally (t_resolved t) (t_pending t) (t_route_changed t)
  (t_unavailable t + 1) (t_residuals t) (t_refused t) (t_unexpected t).
Definition add_residual (t : tally) := MkTally (t_resolved t) (t_pending t) (t_route_changed t)
  (t_unavailable t) (t_residuals t + 1) (t_refused t) (t_unexpected t).
Definition add_refused (t : tally) := MkTally (t_resolved t) (t_pending t) (t_route_changed t)
  (t_unavailable t) (t_residuals t) (t_refused t + 1) (t_unexpected t).
Definition add_unexpected (x : exn) (t : tally) := MkTally (t_resolved t) (t_pending t) (t_route_changed t)
  (t_unavailable t) (t_residuals t) (t_refused t) (t_unexpected t ++ [_format_unexpected_diagnostic x]).

(** [except Exception as error]: an expected refusal or an unexpected error. *)
Definition refuse_or_report (x : exn) (t : tally) : tally :=
  if _expected_refusal x then add_refused t else add_unexpected x t.

(** What the publication reader says of the claim, and the counters. *)
Definition read_publication (claim : JobClaim) (t : tally) : co (option pydict * tally) :=
  h ← ask; n ← tick;
  mret (match h_reader h with
        | None => (None, t)
        | Some reader =>
            match reader n claim with
            | Ok marker => (marker, t)
            | Err PublicationRouteChangedError => (None, add_route_changed t)
            | Err x => (None, if is_os_error x then add_unavailable t
                              else refuse_or_report x (add_unavailable t))
            end
        end).

Definition is_unresolved (marker : option pydict) : bool :=
  match marker with None => true | Some m => is_str (get "publication_state" m) "commit_unknown" end.

(** Where nothing resolves the claim, the store fences it and closes its publication. *)
Definition close_unresolved (claim : JobClaim) (epoch : Z) (marker : option pydict) (t : tally)
    : co (option pydict * tally) :=
  h ← ask; n ← tick;
  match h_closer h with
  | Some closer =>
      if negb (is_unresolved marker) then mret (marker, t)
      else
        catch
          (closed ← call (st_close_unpublished claim (h_instance h) epoch
                            ((fun fence => fence n claim) <$> h_fence h) (closer n claim));
           mret (if closed : bool
                 then (Some [(lit "publication_state", VStr (lit "not_started"))], t)
                 else (marker, add_refused t)))
          (fun x => Some (mret (None, match x with
                                      | PublicationRouteChangedError => add_route_changed t
                                      | _ => refuse_or_report x t
                                      end)))
  | None => mret (marker, t)
  end.

Definition _record_marker (claim : JobClaim) (marker : pydict) : co unit :=
  _ ← _record_marker_if_available claim marker; mret tt.

(** One claim of the pass; a claim of a lease without epoch is quarantined. *)
Definition recover_claim (claim : JobClaim) (epoch : Z) (t : tally) : co tally :=
  h ← ask; n ← tick;
  if k_lease_epoch claim =? 0 then
    catch
      (done ← call (st_quarantine_legacy claim (h_instance h) epoch
                      ((fun fence => fence n claim) <$> h_fence h));
       mret (if done : bool then add_resolved t else add_pending 1 (add_refused t)))
      (fun x => Some (mret (add_pending 1 match x with
                                          | PublicationRouteChangedError => add_route_changed t
                                          | _ => refuse_or_report x t
                                          end)))
  else
    read ← read_publication claim t;
    closed ← close_unresolved claim epoch read.1 read.2;
    t ← match closed.1 with
        | None => mret closed.2
        | Some marker =>
            catch (_ ← _record_marker claim marker; mret closed.2)
              (fun x => if is_value_error x then Some (mret (add_refused closed.2)) else None)
        end;
    let unpublished := match closed.1 with
                       | Some m => is_str (get "publication_state" m) "not_started"
                       | None => false end in
    r ← call (st_reconcile claim (h_instance h) epoch unpublished);
    match r with
    | Decided s =>
        if bool_decide (s ∈ [SUCCEEDED; QUEUED; FAILED; CANCELLED; QUARANTINED]) then
          let t := add_resolved t in
          match h_retirer h with
          | Some retirer =>
              if bool_decide (s = QUARANTINED) then mret t
              else match retirer claim with
                   | None => mret t
                   | Some (RetireOther x) => raise x
                   | Some _ => mret (add_residual t)
                   end
          | None => mret t
          end
        else mret (add_pending 1 t)
    | OwnershipLost => mret (add_pending 1 t)
    end.

(** The claims in order; the pass stops when the singleton cannot be renewed. *)
Fixpoint recover_claims (claims : list JobClaim) (epoch : Z) (t : tally) : co tally :=
  match claims with
  | [] => mret t
  | claim :: rest =>
      renewed ← _renew_singleton;
      if negb renewed then mret (add_refused (add_pending (Z.of_nat (length claims)) t))
      else
        t ← recover_claim claim epoch t;
        renewed ← _renew_singleton;
        if negb renewed then mret (add_refused (add_pending (Z.of_nat (length rest)) t))
        else recover_claims rest epoch t
  end.

Definition recover_startup_pass (epoch limit : Z) : co StartupRecoveryReport :=
  claims ← call (st_reconciliation_claims limit);
  t ← recover_claims claims epoch no_tally;
  mret (MkRecovery (Z.of_nat (length claims)) (t_resolved t) (t_pending t) (t_route_changed t)
          (t_unavailable t) (t_residuals t) (t_refused t) (t_unexpected t)).

Definition recover_startup : co StartupRecoveryReport :=
  catch (epoch ← _require_started; recover_startup_pass epoch (max_nonterminal_jobs DEFAULT_LIMITS))
    (fun x => Some (_ ← modify (_record_startup_recovery_report
                         (MkRecovery 0 0 0 0 0 0 0 [_format_unexpected_diagnostic x]));
                    raise x)).

Definition startup (reconcile_startup : co StartupRecoveryReport) : co Z :=
  h ← ask;
  epoch ← call (st_acquire_singleton (h_instance h) (h_singleton_ttl h));
  _ ← modify (set_co_epoch (Some epoch));
  _ ← catch
        (_ ← call (st_recover_abandoned (h_instance h) epoch (max_nonterminal_jobs DEFAULT_LIMITS));
         report ← reconcile_startup;
         modify (_record_startup_recovery_report report))
        (fun x => Some (_ ← call (st_stop_singleton (h_instance h) epoch);
                        _ ← modify (set_co_epoch None);
                        raise x));
  mret epoch.

Definition heartbeat : co bool :=
  epoch ← _require_started;
  h ← ask;
  renewed ← call (st_heartbeat_singleton (h_instance h) epoch (h_singleton_ttl h));
  c ← self;
  _ ← (if renewed && match co_report c with Some r => negb (rr_pending r =? 0) | None => false end
       then report ← recover_startup; modify (_record_startup_recovery_report report)
       else mret tt);
  mret renewed.

End Coordinator.

Arguments host S : clear implicits.
Arguments world S : clear implicits.
Arguments co S A : clear implicits.
