(* ===== verification/CoordinatorFacts.v ===== *)
(** What the coordinator process does to its store and to itself.

    [preserves R m] is the rule used throughout: whatever the host does, the operation
    [m] relates the world before to the world after by the preorder [R], also when an
    exception leaves it.  With [R] the store's moves it shows that the process is a
    client any store theorem covers; with [R] an equality of fields it shows which
    fields an operation leaves alone. *)
From S2P Require Import Prelude PyVal Limits Regex Contracts Semantics ControlDb ControlState.
From S2P Require Import ControlOwnership ControlReconciliation ControlMaintenance StoreInterface.
From S2P Require Import Coordinator.
Open Scope Z_scope.

Create HintDb co.

Section Preserves.
Context {U : Unicode} {S : Type} `{CoordinatorStore S}.
Variable ok : host S -> Prop.
Variable R : world S -> world S -> Prop.
Context `{!PreOrder R}.

Definition preserves {A} (m : co S A) : Prop := forall h w, ok h -> R w (m h w).2.

Lemma pres_ret {A} (a : A) : preserves (mret a).
Proof. intros h w _. reflexivity. Qed.
Lemma pres_raise {A} x : preserves (raise (A := A) x).
Proof. intros h w _. reflexivity. Qed.
Lemma pres_liftc {A} (r : res A) : preserves (liftc r).
Proof. intros h w _. reflexivity. Qed.
Lemma pres_ask : preserves ask.
Proof. intros h w _. reflexivity. Qed.
Lemma pres_tick : preserves tick.
Proof. intros h w _. reflexivity. Qed.
Lemma pres_self : preserves self.
Proof. intros h w _. reflexivity. Qed.

Lemma pres_bind {A B} (m : co S A) (f : A -> co S B) :
  preserves m -> (forall a, preserves (f a)) -> preserves (m ≫= f).
Proof.
  intros Hm Hf h w Hok. unfold mbind, co_bind. specialize (Hm h w Hok).
  destruct (m h w) as [[a|x] w']; cbn in *; [|done]. etransitivity; [exact Hm|]. by apply Hf.
Qed.

Lemma pres_catch {A} (m : co S A) handler :
  preserves m -> (forall x k, handler x = Some k -> preserves k) -> preserves (catch m handler).
Proof.
  intros Hm Hk h w Hok. unfold catch. specialize (Hm h w Hok).
  destruct (m h w) as [[a|x] w']; cbn in *; [done|]. destruct (handler x) as [k|] eqn:E; [|done].
  etransitivity; [exact Hm|]. by eapply Hk.
Qed.

Lemma pres_finally {A} (m : co S A) f : preserves m -> preserves (modify f) -> preserves (finally m f).
Proof.
  intros Hm Hf h w Hok. unfold finally. specialize (Hm h w Hok). destruct (m h w) as [r w']; cbn in *.
  etransitivity; [exact Hm|]. exact (Hf h w' Hok).
Qed.

Lemma pres_if {A} (b : bool) (m1 m2 : co S A) : preserves m1 -> preserves m2 -> preserves (if b then m1 else m2).
Proof. by destruct b. Qed.

End Preserves.

(** Takes an operation apart down to its calls and field updates. *)
Ltac pres_step :=
  match goal with
  | |- preserves _ _ (mret _) => apply pres_ret, _
  | |- preserves _ _ (raise _) => apply pres_raise, _
  | |- preserves _ _ (liftc _) => apply pres_liftc, _
  | |- preserves _ _ ask => apply pres_ask, _
  | |- preserves _ _ tick => apply pres_tick, _
  | |- preserves _ _ self => apply pres_self, _
  | |- preserves _ _ (mbind _ _) => apply pres_bind; [apply _| |intros ?]
  | |- preserves _ _ (catch _ _) => apply pres_catch; [apply _| |intros ?x ?k ?Hk]
  | |- preserves _ _ (finally _ _) => apply pres_finally; [apply _| |]
  | |- preserves _ _ (match ?x with _ => _ end) => destruct x
  | |- preserves _ _ (let _ := _ in _) => cbv zeta
  | Hk : Some _ = Some ?k |- preserves _ _ ?k => injection Hk as <-
  | Hk : None = Some _ |- _ => discriminate Hk
  | Hk : (if ?b then _ else _) = Some _ |- _ => destruct b
  | Hk : match ?x with _ => _ end = Some _ |- _ => destruct x
  end.
Ltac pres := repeat (pres_step || (progress eauto with co)).

(** ** Operations that leave the counters and the epoch alone *)

(** An update that changes neither the slots, the manual claims nor the epoch. *)
Definition harmless (f : coordinator -> coordinator) : Prop :=
  forall c, co_active_workers (f c) = co_active_workers c /\ co_manual_claims (f c) = co_manual_claims c /\
            co_epoch (f c) = co_epoch c.

Lemma harmless_append token : harmless (append_residual token).
Proof. intros c. unfold append_residual. by destruct (_ <? _). Qed.

Lemma harmless_fold {A} (f : coordinator -> A -> coordinator) (l : list A) :
  (forall a, harmless (fun c => f c a)) -> harmless (fun c => foldl f c l).
Proof.
  intros Hf. induction l as [|a l IH]; intros c; [done|]. cbn.
  destruct (IH (f c a)) as (-> & -> & ->). apply Hf.
Qed.

Lemma harmless_report {U : Unicode} report : harmless (_record_startup_recovery_report report).
Proof.
  intros c. unfold _record_startup_recovery_report.
  destruct (harmless_fold record_unexpected (rr_unexpected report)) with (c := set_co_report (Some report) c)
    as (-> & -> & ->); [|done]. by intros name c'.
Qed.

#[export] Hint Resolve harmless_append harmless_report : co.
#[export] Hint Extern 2 (harmless _) => by intros ? : co.
#[export] Hint Resolve activity_moves claim_moves mark_reconciliation_moves mark_terminated_moves
  schedule_retry_moves heartbeat_moves cancellation_moves release_moves cleanup_moves status_moves
  record_marker_moves reconciliation_claims_moves reconcile_moves acquire_moves stop_moves
  recover_moves quarantine_moves close_moves : co.

Section Harmless.
Context {U : Unicode} {S : Type} `{CoordinatorStoreLaws S}.
Variable ok : host S -> Prop.
Variable R : world S -> world S -> Prop.
Context `{!PreOrder R}.
Hypothesis R_call : forall A (c : call_of S A), stays moves c -> preserves ok R (call c).
Hypothesis R_modify : forall f, harmless f -> preserves ok R (modify f).
#[local] Hint Resolve R_call R_modify : co.
Abbreviation safe := (preserves ok R).

Lemma safe_transition claim s s' pub cat dg : s' <> QUEUED -> safe (_transition claim s s' pub cat dg).
Proof. intros Hs. unfold _transition. apply R_call, compare_and_set_moves, Hs. Qed.
#[local] Hint Extern 1 (safe (_transition _ _ _ _ _ _)) => apply safe_transition; discriminate : co.

Lemma safe_started : safe _require_started.
Proof. unfold _require_started. pres. Qed.
#[local] Hint Resolve safe_started : co.

Lemma safe_set_event jid : safe (set_event jid).
Proof. unfold set_event. pres. Qed.
#[local] Hint Resolve safe_set_event : co.

Lemma safe_retire claim : safe (_retire_evidence claim).
Proof. unfold _retire_evidence. pres. Qed.
Lemma safe_release claim : safe (_release_terminal_lease claim).
Proof. unfold _release_terminal_lease. pres. Qed.
Lemma safe_expected claim : safe (_active_expected_state claim).
Proof. unfold _active_expected_state, cancel_is_set. pres. Qed.
Lemma safe_record claim m : safe (_record_marker_if_available claim m).
Proof. unfold _record_marker_if_available. pres. Qed.
#[local] Hint Resolve safe_retire safe_release safe_expected safe_record : co.

Lemma safe_prestart claim : safe (_finish_prestart_cancel claim).
Proof. unfold _finish_prestart_cancel. pres. Qed.
Lemma safe_reconcile claim : safe (_reconcile_current claim).
Proof. unfold _reconcile_current. pres. Qed.
#[local] Hint Resolve safe_reconcile : co.
Lemma safe_reconcile_retire claim : safe (reconcile_and_retire claim).
Proof. unfold reconcile_and_retire. pres. Qed.
#[local] Hint Resolve safe_reconcile_retire : co.

Lemma safe_end_with claim s s' pub cat dg : s' <> QUEUED -> safe (end_with claim s s' pub cat dg).
Proof. intros Hs. unfold end_with. pres. by apply safe_transition. Qed.
#[local] Hint Extern 1 (safe (end_with _ _ _ _ _ _)) => apply safe_end_with; discriminate : co.

Lemma safe_dispose claim s terminal : safe (_dispose_terminal claim s terminal).
Proof. unfold _dispose_terminal, dispose_failed, dispose_unclear, when_marked, when_terminated. pres. Qed.
#[local] Hint Resolve safe_dispose : co.

Lemma safe_run_worker claim : safe (run_worker claim).
Proof. unfold run_worker, when_marked. pres. Qed.

Lemma safe_claim_next epoch auto : safe (store_claim_next epoch auto).
Proof.
  assert (forall n seconds, safe (claim_tries n epoch seconds auto)) as Htries.
  { induction n as [|n IH]; intros seconds; cbn [claim_tries]; pres. }
  unfold store_claim_next. pres.
Qed.

Lemma safe_renew : safe _renew_singleton.
Proof. unfold _renew_singleton. pres. Qed.
#[local] Hint Resolve safe_renew : co.

Lemma safe_recover_claims claims epoch t : safe (recover_claims claims epoch t).
Proof.
  revert t. induction claims as [|c claims IH]; intros t; cbn [recover_claims];
    unfold recover_claim, read_publication, close_unresolved, _record_marker; pres.
Qed.
#[local] Hint Resolve safe_recover_claims : co.

Lemma safe_recover : safe recover_startup.
Proof. unfold recover_startup, recover_startup_pass. pres. Qed.

End Harmless.

(** A harmless operation, for a relation the calls and harmless updates respect. *)
Ltac safe_op side :=
  first [apply safe_transition | apply safe_started | apply safe_set_event | apply safe_retire
        | apply safe_prestart | apply safe_reconcile | apply safe_run_worker | apply safe_claim_next
        | apply safe_renew | apply safe_recover];
  first [apply _ | discriminate | intros; side].

(** ** The store *)

Section Process.
Context {U : Unicode} {S : Type} `{CoordinatorStoreLaws S}.

(** Others do to the store what its operations do. *)
Definition others_ok (h : host S) : Prop := forall n s, moves s (h_others h n s).
Definition store_moves_to (w w' : world S) : Prop := moves (w_store w) (w_store w').

#[export] Instance store_moves_preorder : PreOrder store_moves_to.
Proof. split; [intros w; apply moves_refl|intros w1 w2 w3; apply moves_trans]. Qed.

Abbreviation keeps := (preserves others_ok store_moves_to).

Lemma keeps_call {A} (c : call_of S A) : stays moves c -> keeps (call c).
Proof.
  intros Hc h w Hok. unfold call, store_moves_to.
  destruct (h_fault h (w_calls w)); cbn; [|by apply Hok|].
  - specialize (Hc (h_env h (w_calls w)) (h_others h (w_calls w) (w_store w))).
    destruct (c _ _) as [r s']. cbn in *. eapply moves_trans; [apply Hok|done].
  - eapply moves_trans; [apply Hok|apply Hc].
Qed.

Lemma keeps_modify f : keeps (modify f).
Proof. intros h w _. apply moves_refl. Qed.

#[local] Hint Resolve keeps_call keeps_modify : co.
#[local] Hint Extern 1 (keeps _) => safe_op ltac:(auto with co) : co.

Lemma keeps_run_claim claim : keeps (run_claim claim).
Proof. unfold run_claim. pres. Qed.
#[local] Hint Resolve keeps_run_claim : co.

Lemma keeps_run_once : keeps run_once.
Proof. unfold run_once, _run_once_admitted, claim_for_run. pres. Qed.

(** ** Requests *)

(** What the service asks of the process. *)
Inductive request :=
| RqStartup                              (** with its own recovery as the startup's *)
| RqRunOnce | RqHeartbeat | RqCancel (jid : pystr) | RqShutdown
| RqReconcile (claim : JobClaim)
| RqCleanup (minimum_age limit : option Z) (dry_run : bool)
| RqAcknowledge (through_sequence : Z).

Definition ignore {A} (m : co S A) : co S unit := _ ← m; mret tt.

Definition perform (r : request) : co S unit :=
  match r with
  | RqStartup => ignore (startup recover_startup)
  | RqRunOnce => ignore run_once
  | RqHeartbeat => ignore heartbeat
  | RqCancel jid => ignore (request_cancel jid)
  | RqShutdown => shutdown
  | RqReconcile claim => ignore (reconcile_claim claim)
  | RqCleanup age limit dry => ignore (coordinator_cleanup age limit dry)
  | RqAcknowledge n => acknowledge_recovery_diagnostics n
  end.

Lemma keeps_perform r : keeps (perform r).
Proof.
  pose proof keeps_run_once.
  destruct r; cbn [perform]; unfold ignore, startup, heartbeat, request_cancel, shutdown, reconcile_claim,
    coordinator_cleanup, acknowledge_recovery_diagnostics; pres.
Qed.

End Process.

(** ** What a finished run leaves behind *)

Section Settles.
Context {U : Unicode} {S : Type} `{CoordinatorStoreLaws S}.

Lemma co_bind_Ok {A B} (m : co S A) (f : A -> co S B) h w b w' :
  (m ≫= f) h w = (Ok b, w') <-> exists a w1, m h w = (Ok a, w1) /\ f a h w1 = (Ok b, w').
Proof.
  unfold mbind, co_bind. destruct (m h w) as [[a|x] w1]; split.
  - eauto.
  - by intros (a' & w1' & [= <- <-] & ?).
  - done.
  - by intros (a' & w1' & ? & _).
Qed.

Lemma call_Ok {A} (c : call_of S A) h w a w' :
  call c h w = (Ok a, w') -> exists e s, c e s = (Ok a, w_store w').
Proof.
  unfold call. destruct (h_fault h (w_calls w)); [|done..].
  destruct (c _ _) as [r s'] eqn:E. intros [= <- <-]. eauto.
Qed.

Lemma retire_store claim (h : host S) (w : world S) r (w' : world S) :
  _retire_evidence claim h w = (r, w') -> w_store w' = w_store w.
Proof.
  unfold _retire_evidence, mbind, co_bind, ask, mret, co_ret, raise, modify. cbn.
  repeat case_match; intros [= <- <-]; done.
Qed.

(** The other clients leave the claim's job in its end state. *)
Definition undisturbed (h : host S) (claim : JobClaim) : Prop :=
  forall n s t, is_terminal t = true -> job_in s claim (fun t' => t' = t) -> job_in (h_others h n s) claim (fun t' => t' = t).

(** The state [t] a report of [s] stands for: [s] itself; a failure or cancellation the
    process has ended itself is an end state, and [s] unless others change it. *)
Definition reported (h : host S) (claim : JobClaim) (s t : JobState) : Prop :=
  (undisturbed h claim -> t = s) /\ (t = s \/ (s ∈ [FAILED; CANCELLED] /\ is_terminal t = true)).

Lemma reported_self h claim s : reported h claim s s.
Proof. split; [done|by left]. Qed.

Definition settles (h : host S) (claim : JobClaim) (o : outcome) (w : world S) : Prop :=
  forall s, o = Reports s -> s <> RECONCILIATION_REQUIRED -> settled (w_store w) claim (reported h claim s).

Definition yields (claim : JobClaim) (m : co S outcome) : Prop :=
  forall h w o w', m h w = (Ok o, w') -> settles h claim o w'.

Lemma yields_bind {A} claim (m : co S A) f : (forall a, yields claim (f a)) -> yields claim (m ≫= f).
Proof. intros Hf h w o w' (a & w1 & _ & H1)%co_bind_Ok. by eapply Hf. Qed.

Lemma yields_lost claim : yields claim (mret LostOwnership).
Proof. intros h w o w' [= <- <-] s. done. Qed.
Lemma yields_uncertain claim : yields claim (mret (Reports RECONCILIATION_REQUIRED)).
Proof. intros h w o w' [= <- <-] s [= <-]. done. Qed.
Lemma yields_raise claim x : yields claim (raise x).
Proof. by intros h w o w' [=]. Qed.

Lemma yields_finally claim (m : co S outcome) f : yields claim m -> yields claim (finally m f).
Proof.
  intros Hm h w o w'. unfold finally. destruct (m h w) as [r w1] eqn:E. intros [= -> <-].
  exact (Hm _ _ _ _ E).
Qed.

Lemma yields_reconcile claim : yields claim (_reconcile_current claim).
Proof.
  unfold _reconcile_current. do 4 (apply yields_bind; intros ?).
  intros h w o w' (r & w1 & Hr & [= <- <-])%co_bind_Ok s Hs Hne.
  apply call_Ok in Hr as (e & s0 & Hr). destruct r as [t|]; [injection Hs as ->|done].
  eapply settled_mono; [|by eapply reconcile_settles]. intros t' ->. apply reported_self.
Qed.

Lemma yields_reconcile_retire claim : yields claim (reconcile_and_retire claim).
Proof.
  intros h w o w'. unfold reconcile_and_retire.
  intros (o1 & w1 & H1 & (u & w2 & H2 & [= <- <-])%co_bind_Ok)%co_bind_Ok.
  apply yields_reconcile in H1. intros s Hs Hne. specialize (H1 s Hs Hne).
  assert (w_store w2 = w_store w1) as ->; [|done].
  destruct o1; try by injection H2 as _ <-. case_bool_decide; [by eapply retire_store|by injection H2 as _ <-].
Qed.

(** The job was moved to an end state, the release granted, and the evidence retired. *)
Lemma yields_ended claim s0 s pub cat dg :
  s ∈ [FAILED; CANCELLED] ->
  yields claim (ended ← _transition claim s0 s pub cat dg;
    if negb ended then mret LostOwnership
    else _ ← _release_terminal_lease claim; _ ← _retire_evidence claim; mret (Reports s)).
Proof.
  intros Hs h w o w' (b & w0 & Htr & Hrest)%co_bind_Ok. destruct b; [|by injection Hrest as <- _].
  apply call_Ok in Htr as (e0 & s1 & Htr). apply transition_sets in Htr.
  apply co_bind_Ok in Hrest as (u & w1 & H1 & (u' & w2 & H2 & [= <- <-])%co_bind_Ok). intros s' [= <-] _.
  rewrite (retire_store _ _ _ _ _ H2). unfold _release_terminal_lease in H1.
  apply co_bind_Ok in H1 as (ep & w3 & H3 & (h' & w4 & [= <- <-] & (b & w5 & Hb & H1)%co_bind_Ok)%co_bind_Ok).
  assert (w3 = w0) as -> by (revert H3; unfold _require_started, mbind, co_bind, self; cbn; by destruct (co_epoch _); intros [=]).
  destruct b; [|done]. injection H1 as _ <-. unfold call in Hb.
  destruct (h_fault h (w_calls w0)); [|done..].
  set (s2 := h_others h (w_calls w0) (w_store w0)) in *. destruct (st_release _ _ _ _ s2) as [r s3] eqn:Er. injection Hb as -> <-.
  assert (is_terminal s = true) as Ht by (clear - Hs; set_solver).
  assert (job_in s2 claim (fun t => undisturbed h claim -> t = s)) as Hin by (apply job_in_when; intros Hq; by apply Hq).
  eapply settled_mono; [|eapply (release_settles claim _ _ _ _ _ _ Hin Er)]. intros t [Hq Htt]. split; [done|by right].
Qed.

Lemma yields_end_with claim s s' pub cat dg :
  s' ∈ [FAILED; CANCELLED] -> yields claim (end_with claim s s' pub cat dg).
Proof. apply yields_ended. Qed.

Lemma yields_failed claim s pub cat dg : yields claim (dispose_failed claim s pub cat dg).
Proof.
  unfold dispose_failed. case_bool_decide.
  - apply yields_bind. intros [|]; [|apply yields_lost]. apply yields_end_with. set_solver.
  - intros h w o w' (b & w1 & Hb & Hk)%co_bind_Ok.
    destruct b; [|eapply (yields_end_with claim RUNNING FAILED); [set_solver|exact Hk]].
    apply co_bind_Ok in Hk as (u & w2 & H2 & [= <- <-]). intros s' [= <-] _.
    rewrite (retire_store _ _ _ _ _ H2). destruct (may_retry _ _ _ _); [|done].
    apply co_bind_Ok in Hb as (h' & w3 & [= <- <-] & (q & w4 & _ & Hb)%co_bind_Ok).
    apply call_Ok in Hb as (e & s0 & Hb).
    eapply settled_mono; [|by eapply retry_settles]. intros t' ->. apply reported_self.
Qed.

(** Goes into an operation that ends in one of the settled ways. *)
Ltac yields_step :=
  match goal with
  | |- yields _ (mret LostOwnership) => apply yields_lost
  | |- yields _ (mret (Reports RECONCILIATION_REQUIRED)) => apply yields_uncertain
  | |- yields _ (raise _) => apply yields_raise
  | |- yields _ (reconcile_and_retire _) => apply yields_reconcile_retire
  | |- yields _ (end_with _ _ _ _ _ _) => apply yields_end_with; set_solver
  | |- yields _ (dispose_failed _ _ _ _ _) => apply yields_failed
  | |- yields _ (finally _ _) => apply yields_finally
  | |- yields _ (mbind _ (_transition _ CANCELLING _ _ _ _)) => apply yields_ended; set_solver
  | |- yields _ (mbind _ _) => apply yields_bind; intros ?
  | |- yields _ (match ?x with _ => _ end) => destruct x
  | |- yields _ (let _ := _ in _) => cbv zeta
  end.

Lemma yields_dispose claim s terminal : yields claim (_dispose_terminal claim s terminal).
Proof. unfold _dispose_terminal, dispose_unclear, when_marked, when_terminated. repeat yields_step. Qed.

Lemma yields_prestart claim : yields claim (_finish_prestart_cancel claim).
Proof. unfold _finish_prestart_cancel. repeat yields_step. Qed.

Lemma yields_run_worker claim : yields claim (run_worker claim).
Proof.
  unfold run_worker, when_marked. repeat yields_step; apply yields_dispose.
Qed.

Lemma yields_run_claim claim : yields claim (run_claim claim).
Proof.
  unfold run_claim. apply yields_bind. intros _. apply yields_bind. intros [|]; cbn [negb]; cycle 1.
  { repeat yields_step. apply yields_prestart. }
  apply yields_bind. intros [|]; cbn [negb]; [repeat yields_step; apply yields_run_worker|].
  apply yields_bind. intros _.
  intros h w o w' (o1 & w1 & H1%yields_prestart & H2)%co_bind_Ok. destruct o1.
  1, 2, 4: injection H2 as <- <-; exact H1.
  apply co_bind_Ok in H2 as (b & w2 & _ & H2). by eapply yields_uncertain.
Qed.

End Settles.

(** ** Slots and counters *)

Section Counters.
Context {U : Unicode} {S : Type} `{CoordinatorStoreLaws S}.

Definition same_counters (w w' : world S) : Prop :=
  co_active_workers (w_self w') = co_active_workers (w_self w) /\
  co_manual_claims (w_self w') = co_manual_claims (w_self w) /\
  co_epoch (w_self w') = co_epoch (w_self w).

#[export] Instance same_counters_preorder : PreOrder same_counters.
Proof.
  split; [by intros w|]. intros w1 w2 w3 (E1 & E2 & E3) (F1 & F2 & F3).
  unfold same_counters. rewrite F1, F2, F3. done.
Qed.

Abbreviation any_host := (fun _ : host S => True).
Abbreviation frame := (preserves any_host same_counters).

Lemma frame_call {A} (c : call_of S A) : stays moves c -> frame (call c).
Proof.
  intros _ h w _. unfold call. destruct (h_fault h (w_calls w)); [|done..].
  by destruct (c _ _).
Qed.

Lemma frame_modify f : harmless f -> frame (modify f).
Proof. intros Hf h w _. exact (Hf (w_self w)). Qed.

#[local] Hint Resolve frame_call frame_modify : co.
#[local] Hint Extern 1 (frame _) => safe_op ltac:(auto with co) : co.

(** The counters after an operation that leaves them alone. *)
Lemma frame_run {A} (m : co S A) h w r w' : frame m -> m h w = (r, w') -> same_counters w w'.
Proof. intros Hm E. specialize (Hm h w I). by rewrite E in Hm. Qed.

(** How a claimed run changes the counters: it gives one slot back and counts a manual
    claim, or restarts the count. *)
Definition counts_run (claim : JobClaim) (w w' : world S) : Prop :=
  co_active_workers (w_self w') = co_active_workers (w_self w) - 1 /\
  co_manual_claims (w_self w') =
    (if bool_decide (k_class claim = lit "manual") then co_manual_claims (w_self w) + 1 else 0) /\
  co_epoch (w_self w') = co_epoch (w_self w).

Lemma run_claim_counts claim h w o w' : run_claim claim h w = (Ok o, w') -> counts_run claim w w'.
Proof.
  unfold run_claim. intros (u & w1 & [= _ <-] & (b & w2 & H1 & H2)%co_bind_Ok)%co_bind_Ok.
  apply (frame_run (_transition _ _ _ _ _ _)) in H1 as (A1 & M1 & E1); [|auto with co]. cbn in *.
  unfold counts_run. destruct b; cbn [negb] in H2; cycle 1.
  { apply co_bind_Ok in H2 as (u1 & w3 & [= _ <-] & H2).
    apply frame_run in H2 as (A3 & M3 & E3); [|auto with co]. cbn in *. split_and!; congruence. }
  apply co_bind_Ok in H2 as (b & w3 & H2 & H3).
  apply (frame_run (_transition _ _ _ _ _ _)) in H2 as (A2 & M2 & E2); [|auto with co].
  destruct b; cbn [negb] in H3; cycle 1.
  - apply co_bind_Ok in H3 as (u1 & w4 & [= _ <-] & (o1 & w5 & H3 & H4)%co_bind_Ok).
    apply (frame_run (_finish_prestart_cancel _)) in H3 as (A3 & M3 & E3); [|auto with co]. cbn in *.
    assert (same_counters w5 w') as (A4 & M4 & E4); [|split_and!; congruence].
    destruct o1; try (by injection H4 as _ <-). eapply frame_run; [|exact H4]. pres.
  - apply co_bind_Ok in H3 as (u1 & w4 & [= _ <-] & (st & w5 & H3 & H4)%co_bind_Ok).
    apply (frame_run (call _)) in H3 as (A3 & M3 & E3); [|auto with co].
    apply co_bind_Ok in H4 as (u2 & w6 & H4 & H5).
    assert (same_counters w5 w6) as (A4 & M4 & E4).
    { eapply frame_run; [|exact H4]. pres. }
    unfold finally in H5. destruct (run_worker claim h w6) as [r w7] eqn:H6. injection H5 as -> <-.
    apply frame_run in H6 as (A6 & M6 & E6); [|auto with co]. cbn in *. split_and!; congruence.
Qed.

Lemma claim_tries_automatic n epoch seconds h w c w' :
  claim_tries n epoch seconds true h w = (Ok (Some c), w') -> k_class c = lit "automatic".
Proof.
  revert w. induction n as [|n IH]; intros w; cbn [claim_tries]; [done|].
  intros (h' & w1 & [= <- <-] & H1)%co_bind_Ok. unfold catch in H1.
  destruct (call _ h w) as [[r|x] w1] eqn:E.
  - injection H1 as -> <-. apply call_Ok in E as (e & s & E). by eapply automatic_claims.
  - destruct x; try done. destruct c0; try done. by destruct (is_expected_graph_lease_race _); [eapply IH|].
Qed.

Lemma claim_next_automatic epoch h w c w' :
  store_claim_next epoch true h w = (Ok (Some c), w') -> k_class c = lit "automatic".
Proof.
  intros (h' & w1 & _ & (s & w2 & _ & H1)%co_bind_Ok)%co_bind_Ok. by eapply claim_tries_automatic.
Qed.

(** A claim made for a run: the slot and the epoch stay, and the count of manual claims
    restarts when automatic work was asked for first and there was none. *)
Lemma claim_for_run_counts epoch auto h w c w' :
  claim_for_run epoch auto h w = (Ok c, w') ->
  co_active_workers (w_self w') = co_active_workers (w_self w) /\ co_epoch (w_self w') = co_epoch (w_self w) /\
  (co_manual_claims (w_self w') = co_manual_claims (w_self w) \/ co_manual_claims (w_self w') = 0) /\
  (auto = true -> forall claim, c = Some claim -> k_class claim = lit "manual" ->
     co_manual_claims (w_self w') = 0).
Proof.
  unfold claim_for_run, catch. match goal with |- match ?m h w with _ => _ end = _ -> _ => destruct (m h w) as [[r|x] w1] eqn:E end;
    [|done]. intros [= -> ->].
  apply co_bind_Ok in E as (c1 & w2 & H1 & H2). pose proof H1 as H1'.
  apply (frame_run (store_claim_next _ _)) in H1' as (A1 & M1 & E1); [|auto with co].
  destruct c1 as [c1|].
  - injection H2 as <- <-. split_and!; [done|done|by left|].
    intros -> claim [= <-] Hm. apply claim_next_automatic in H1. rewrite H1 in Hm. done.
  - destruct auto.
    + apply co_bind_Ok in H2 as (u & w3 & [= _ <-] & H2).
      apply (frame_run (store_claim_next _ _)) in H2 as (A2 & M2 & E2); [|auto with co]. cbn in *.
      split_and!; [congruence|congruence|by right|done].
    + injection H2 as <- <-. split_and!; [done|done|by left|done].
Qed.

End Counters.

(** ** Recovery counts *)

Section Recovery.
Context {U : Unicode} {S : Type} `{CoordinatorStoreLaws S}.

(** A pass over one claim counts it once, resolved or pending, and no counter goes
    down. *)
Definition counted (n : Z) (t t' : tally) : Prop :=
  t_resolved t' + t_pending t' = t_resolved t + t_pending t + n /\
  t_resolved t <= t_resolved t' /\ t_pending t <= t_pending t' /\
  t_residuals t' - t_residuals t <= t_resolved t' - t_resolved t.

Lemma counted_trans n m t1 t2 t3 : counted n t1 t2 -> counted m t2 t3 -> counted (n + m) t1 t3.
Proof. unfold counted. lia. Qed.

Lemma counted_refuse x t : counted 0 t (refuse_or_report x t).
Proof. unfold refuse_or_report, counted. destruct (_expected_refusal x); cbn; lia. Qed.

Lemma read_publication_counted claim t h w r w' :
  read_publication (S := S) claim t h w = (Ok r, w') -> counted 0 t r.2.
Proof.
  intros (h' & w1 & _ & (n & w2 & _ & [= <- <-])%co_bind_Ok)%co_bind_Ok.
  destruct (h_reader h') as [reader|]; [|unfold counted; cbn; lia].
  destruct (reader n claim) as [m|x]; [unfold counted; cbn; lia|].
  pose proof (counted_refuse x (add_unavailable t)) as Hr.
  destruct x; revert Hr; unfold counted; cbn; lia.
Qed.

Lemma close_unresolved_counted claim epoch marker t h w r w' :
  close_unresolved claim epoch marker t h w = (Ok r, w') -> counted 0 t r.2.
Proof.
  assert (counted 0 t t) as Hz by (unfold counted; lia).
  intros (h' & w1 & _ & (n & w2 & _ & H1)%co_bind_Ok)%co_bind_Ok.
  destruct (h_closer h') as [closer|]; [|by injection H1 as <- _].
  destruct (negb _); [by injection H1 as <- _|].
  unfold catch in H1.
  match type of H1 with (match ?m h w2 with _ => _ end = _) => destruct (m h w2) as [[r1|x] w3] eqn:E end.
  - injection H1 as <- <-. apply co_bind_Ok in E as (b & w4 & _ & [= <- <-]).
    destruct b; [done|unfold counted; cbn; lia].
  - injection H1 as <- <-. pose proof (counted_refuse x t).
    destruct x; cbn [snd]; (done || (unfold counted; cbn; lia)).
Qed.

Lemma recover_claim_counted claim epoch t h w t' w' :
  recover_claim claim epoch t h w = (Ok t', w') -> counted 1 t t'.
Proof.
  intros (h' & w1 & _ & (n & w2 & _ & H1)%co_bind_Ok)%co_bind_Ok.
  destruct (k_lease_epoch claim =? 0).
  - unfold catch in H1.
    match type of H1 with (match ?m h w2 with _ => _ end = _) => destruct (m h w2) as [[r1|x] w3] eqn:E end.
    + injection H1 as <- <-. apply co_bind_Ok in E as (b & w4 & _ & [= <- <-]).
      destruct b; unfold counted; cbn; lia.
    + injection H1 as <- <-. pose proof (counted_refuse x t) as Hr.
      destruct x; revert Hr; unfold counted; cbn; lia.
  - apply co_bind_Ok in H1 as (rd & w3 & Hrd%read_publication_counted & H1).
    apply co_bind_Ok in H1 as (cl & w4 & Hcl%close_unresolved_counted & H1).
    apply co_bind_Ok in H1 as (t1 & w5 & Ht1 & H1).
    assert (counted 0 cl.2 t1) as H01.
    { destruct cl.1 as [m|]; [|injection Ht1 as <- _; unfold counted; lia].
      unfold catch in Ht1.
      match type of Ht1 with (match ?m h w4 with _ => _ end = _) => destruct (m h w4) as [[r1|x] w6] eqn:E end.
      - injection Ht1 as <- <-. apply co_bind_Ok in E as (u & w7 & _ & [= <- <-]). unfold counted. lia.
      - destruct (is_value_error x); [|done]. injection Ht1 as <- _. unfold counted. cbn. lia. }
    apply co_bind_Ok in H1 as (r & w7 & _ & H1).
    assert (counted 1 t1 t') as H11.
    { destruct r as [s|]; [|injection H1 as <- _; unfold counted; cbn; lia].
      case_bool_decide; [|injection H1 as <- _; unfold counted; cbn; lia].
      destruct (h_retirer h') as [retirer|]; [|injection H1 as <- _; unfold counted; cbn; lia].
      case_bool_decide; [injection H1 as <- _; unfold counted; cbn; lia|].
      destruct (retirer claim) as [[]|]; try done; injection H1 as <- _; unfold counted; cbn; lia. }
    revert Hrd Hcl H01 H11. unfold counted. lia.
Qed.

Lemma recover_claims_counted claims epoch t h w t' w' :
  recover_claims claims epoch t h w = (Ok t', w') -> counted (Z.of_nat (length claims)) t t'.
Proof.
  revert t w. induction claims as [|c claims IH]; intros t w; cbn [recover_claims length].
  - intros [= <- <-]. unfold counted. lia.
  - intros (b & w1 & _ & H1)%co_bind_Ok. destruct b; cbn [negb] in H1;
      [|injection H1 as <- _; unfold counted; cbn [add_refused add_pending t_resolved t_pending t_residuals length]; lia].
    apply co_bind_Ok in H1 as (t1 & w2 & Ht1%recover_claim_counted & H1).
    apply co_bind_Ok in H1 as (b & w3 & _ & H1). destruct b; cbn [negb] in H1.
    + apply IH in H1. revert Ht1 H1. unfold counted. lia.
    + injection H1 as <- _. revert Ht1. unfold counted. cbn. lia.
Qed.

End Recovery.
