(* ===== verification/CoordinatorTheorems.v ===== *)
(** The coordinator process and the control store together: theorems about any sequence
    of requests, under any interference of other clients and any failure of the
    connection, with the runs their witnesses use. *)
From S2P Require Import Prelude PyVal Limits Regex Contracts ContractsFacts Semantics ControlDb.
From S2P Require Import ControlDbFacts ControlOwnership ControlState ControlSubmission.
From S2P Require Import ControlReconciliation ControlMaintenance Protocol ControlRefinement.
From S2P Require Import ControlStore ControlFacts ControlRuns StoreInterface Coordinator.
From S2P Require Import CoordinatorFacts.
Open Scope Z_scope.

Section Theorems.
Context {U : Unicode}.
Variable limits : CoordinatorLimits.
#[local] Existing Instance control_store.
#[local] Existing Instance control_store_laws.
#[local] Instance the_store : CoordinatorStore db := control_store limits.
#[local] Instance the_store_laws : CoordinatorStoreLaws db := control_store_laws limits.

(** The requests in order, each with what the host does during it. *)
Definition perform_all (l : list (request * host db)) (w : world db) : world db :=
  foldl (fun w rh => (perform rh.1 rh.2 w).2) w l.

(** The process is a lawful client.  Whatever sequence of requests it serves, with
    other clients of the store acting in between, calls failing before or after their
    commit, and workers and callbacks answering anything, the database stays one that
    the store's operations reach: the theorems about reachable databases hold
    throughout.  In particular the process never requeues a job by the compare-and-set. *)
Theorem coordinator_keeps_store l w :
  Forall (fun rh => forall n d, rtc (store_step limits) d (h_others rh.2 n d)) l ->
  reachable limits (w_store w) -> reachable limits (w_store (perform_all l w)).
Proof.
  intros Hl. revert w. induction l as [|[r h] l IH]; intros w Hw; [done|].
  apply Forall_cons in Hl as [Hh Hl]. apply (IH Hl). unfold reachable in *.
  etransitivity; [exact Hw|]. exact (keeps_perform r h w Hh).
Qed.

(** The other clients do not change the claim's job once it has ended, nor give its id to
    another: what [job_course_legal] says of every transaction, with ids that are not repeated. *)
Definition others_keep_finished (h : host db) (claim : JobClaim) : Prop :=
  forall n d j', jobs (h_others h n d) !! k_job claim = Some j' ->
    exists j, jobs d !! k_job claim = Some j /\ (is_terminal (j_state j) = true -> j_state j' = j_state j).

(** C8.  A finished run leaves nothing held.  When the run of a claimed job reports a
    state other than [reconciliation_required], then in the store as the run left it the
    claim's lease on the graph is gone and the job is in that state; a job the run itself
    failed or cancelled is in an end state even if other clients interfere, and in the one
    reported if they leave a finished job alone. *)
Theorem finished_run_settles claim h w s w' :
  run_claim claim h w = (Ok (Reports s), w') -> s <> RECONCILIATION_REQUIRED ->
  (exists j, jobs (w_store w') !! k_job claim = Some j /\
     (others_keep_finished h claim -> j_state j = s) /\
     (j_state j = s \/ s ∈ [FAILED; CANCELLED] /\ is_terminal (j_state j) = true)) /\
  (forall l, leases (w_store w') !! k_graph claim = Some l ->
     ~ (l_job l = k_job claim /\ l_attempt l = k_attempt claim /\
        l_instance l = k_instance claim /\ l_epoch l = k_epoch claim)).
Proof.
  intros Hrun Hs. destruct (yields_run_claim claim h w _ w' Hrun s eq_refl Hs) as [(j & Hj & Hsame & Hend) Hl].
  split.
  - exists j. split; [exact Hj|]. split; [|exact Hend]. intros Hk. apply Hsame.
    intros n d t Ht Hin j' (j0 & Hj0 & Hfin)%Hk. specialize (Hin j0 Hj0). cbn in Hin. rewrite Hfin; congruence.
  - intros l Hlook Heq. specialize (Hl l Hlook). apply lease_of_spec in Heq. congruence.
Qed.

(** C9.  A run gives its slot back.  When [run_once] returns, as many worker slots are
    taken as before and the epoch is the same; and the number of manual claims in a row
    stays within the burst limit, so that automatic work is asked for first after a
    full burst. *)
Theorem run_once_frees_slot h w o w' :
  run_once h w = (Ok o, w') ->
  0 <= co_manual_claims (w_self w) <= manual_claim_burst DEFAULT_LIMITS ->
  co_active_workers (w_self w') = co_active_workers (w_self w) /\
  co_epoch (w_self w') = co_epoch (w_self w) /\
  0 <= co_manual_claims (w_self w') <= manual_claim_burst DEFAULT_LIMITS.
Proof.
  intros (epoch & w0 & Hst & (u & w1 & Hact & H)%co_bind_Ok)%co_bind_Ok Hm.
  apply (frame_run _require_started) in Hst as (A0 & M0 & E0); [|safe_op ltac:(auto using frame_call, frame_modify)].
  apply (frame_run (call _)) in Hact as (A1 & M1 & E1); [|apply frame_call, activity_moves].
  rewrite <- M0, <- M1 in Hm. rewrite <- A0, <- A1, <- E0, <- E1. clear A0 M0 E0 A1 M1 E1.
  apply co_bind_Ok in H as (h' & w2 & [= <- <-] & (c & w2 & [= <- <-] & H)%co_bind_Ok).
  destruct (h_max_workers h <=? co_active_workers (w_self w1)); [by injection H as _ <-|].
  apply co_bind_Ok in H as (u1 & w2 & [= _ <-] & (c & w3 & Hc & H)%co_bind_Ok).
  apply claim_for_run_counts in Hc as (A2 & E2 & M2 & M2').
  cbn [w_self set_co_active co_active_workers co_manual_claims co_epoch] in *.
  assert (1 <= manual_claim_burst DEFAULT_LIMITS) as Hone by (by vm_compute).
  destruct c as [claim|].
  - apply run_claim_counts in H as (A3 & M3 & E3).
    split; [lia|]. split; [congruence|]. rewrite M3. case_bool_decide as Hcl; [|lia].
    destruct (Z.leb_spec (manual_claim_burst DEFAULT_LIMITS) (co_manual_claims (w_self w1))) as [Hb|Hb].
    + rewrite (M2' eq_refl _ eq_refl Hcl). lia.
    + lia.
  - apply co_bind_Ok in H as (u2 & w4 & [= _ <-] & [= _ <-]).
    cbn [w_self _worker_finished set_co_active co_active_workers co_manual_claims co_epoch].
    split; [lia|]. split; [congruence|lia].
Qed.

(** C39.  An interrupted start keeps its slot.  When the connection fails during the first
    transition of a claimed job, the exception leaves [run_claim] without giving back the
    slot [run_once] took.  From then on [shutdown] raises before it stops the singleton,
    and with the default of one worker every later [run_once] that returns reports
    saturation: only a new process goes on. *)
Theorem interrupted_start_keeps_slot claim h w :
  h_fault h (w_calls w) <> NoFault ->
  exists w', run_claim claim h w = (Err OperationalError, w') /\
    co_active_workers (w_self w') = co_active_workers (w_self w) /\
    (forall h' w2, co_active_workers (w_self w2) = co_active_workers (w_self w) ->
       (co_active_workers (w_self w) <> 0 ->
          shutdown h' w2 = (Err (RuntimeError "workers are still active"), w2)) /\
       (forall o w3, h_max_workers h' <= co_active_workers (w_self w) -> run_once h' w2 = (Ok o, w3) ->
          o = Saturated /\ co_active_workers (w_self w3) = co_active_workers (w_self w))).
Proof.
  intros Hf.
  assert (exists w', run_claim claim h w = (Err OperationalError, w') /\
    co_active_workers (w_self w') = co_active_workers (w_self w)) as (w' & Hrun & Ha).
  { unfold run_claim, mbind, co_bind, modify, _transition, call. cbn.
    destruct (h_fault h (w_calls w)); [done|eauto..]. }
  exists w'. split; [done|]. split; [done|]. intros h' w2 H2. split.
  - intros Hne. unfold shutdown, mbind, co_bind, self. cbn. rewrite H2.
    replace (co_active_workers (w_self w) =? 0) with false by lia. done.
  - intros o w3 Hmax (epoch & w0 & Hst & (u & w1 & Hact & H)%co_bind_Ok)%co_bind_Ok.
    apply (frame_run _require_started) in Hst as (A0 & _); [|safe_op ltac:(auto using frame_call, frame_modify)].
    apply (frame_run (call _)) in Hact as (A1 & _); [|apply frame_call, activity_moves].
    apply co_bind_Ok in H as (h2 & w4 & [= <- <-] & (c & w4 & [= <- <-] & H)%co_bind_Ok).
    rewrite A1, A0, H2 in H. replace (h_max_workers h' <=? co_active_workers (w_self w)) with true in H by lia.
    injection H as <- <-. split; [done|congruence].
Qed.

(**  A recovery pass accounts for every claim.  When the pass ends, each claim it
    scanned is counted once, as resolved or as pending, also when it stops early because
    the singleton was lost; and evidence is left over for resolved claims only. *)
Theorem recovery_accounts h w report w' :
  recover_startup h w = (Ok report, w') ->
  rr_scanned report = rr_resolved report + rr_pending report /\
  0 <= rr_resolved report /\ 0 <= rr_pending report /\ rr_residuals report <= rr_resolved report.
Proof.
  unfold recover_startup, catch.
  match goal with |- match ?m h w with _ => _ end = _ -> _ => destruct (m h w) as [[r|x] w1] eqn:E end; [|done].
  intros [= -> ->]. apply co_bind_Ok in E as (epoch & w2 & _ & E).
  apply co_bind_Ok in E as (claims & w3 & _ & (t & w4 & Ht & [= <- <-])%co_bind_Ok).
  apply recover_claims_counted in Ht. revert Ht. unfold counted. cbn. lia.
Qed.

End Theorems.

(** ** Runs *)

#[local] Existing Instance ascii_only.
#[local] Instance L_store : CoordinatorStore db := control_store L.

(** A host with the given worker and connection, and nobody else at the store; the
    clock advances a second with each call. *)
Definition host_with (worker : JobClaim -> worker_result) (conn : nat -> fault) : host db :=
  {| h_instance := c1; h_max_workers := 1; h_singleton_ttl := 1000 * second; h_lease_ttl := 60 * second;
     h_env n := at_time (10 + Z.of_nat n) "x"; h_others _ d := d; h_fault := conn; h_cancel _ := false;
     h_worker := worker; h_reader := None; h_retirer := None; h_closer := None; h_fence := None;
     h_uniform _ b := b; h_repr _ := []; h_diagnostic _ := [] |}.

Definition calm : nat -> fault := fun _ => NoFault.

(** A worker that failed for good before it published anything. *)
Definition failed_terminal : list (pystr * pyval) :=
  [(lit "status", VStr (lit "failed")); (lit "publication_state", VStr (lit "not_started"));
   (lit "error_category", VStr (lit "permanent")); (lit "_termination_proved", VBool true)].
Definition failing_host : host db := host_with (fun _ => Finished failed_terminal) calm.

(** The process has started as owner [c1] of epoch one. *)
Definition started : coordinator := set_co_epoch (Some 1) new_coordinator.

Lemma coordinator_keeps_store_witness :
  reachable L (w_store (perform_all L [(RqStartup, failing_host); (RqRunOnce, failing_host)]
    (MkWorld 0 empty_db new_coordinator))).
Proof.
  apply (coordinator_keeps_store L).
  - repeat constructor.
  - apply rtc_refl.
Defined.

Lemma finished_run_settles_witness :
  exists w', run_claim (claim_at 2 "job-1") failing_host (MkWorld 0 claimed_db started)
               = (Ok (Reports FAILED), w') /\
    exists j, jobs (w_store w') !! lit "job-1" = Some j /\ j_state j = FAILED.
Proof.
  destruct (run_claim (claim_at 2 "job-1") failing_host (MkWorld 0 claimed_db started)) as [r w'] eqn:E.
  assert (r = Ok (Reports FAILED)) as -> by (vm_compute in E; injection E as <- _; reflexivity).
  exists w'. split; [reflexivity|].
  destruct (finished_run_settles L (claim_at 2 "job-1") failing_host _ FAILED w' E) as [(j & Hj & Hsame & _) _];
    [discriminate|]. exists j. split; [exact Hj|]. apply Hsame. intros n d j' Hj'. exists j'. split; [exact Hj'|]. intros _. reflexivity.
Defined.

Lemma run_once_frees_slot_witness :
  exists o w', run_once failing_host (MkWorld 0 queued_db started) = (Ok o, w') /\
    o = Reports FAILED /\ co_active_workers (w_self w') = 0.
Proof.
  destruct (run_once failing_host (MkWorld 0 queued_db started)) as [r w'] eqn:E.
  assert (r = Ok (Reports FAILED)) as -> by (vm_compute in E; injection E as <- _; reflexivity).
  exists (Reports FAILED), w'. split; [reflexivity|]. split; [reflexivity|].
  destruct (run_once_frees_slot L failing_host _ _ w' E) as [Ha _]; [vm_compute; split; discriminate|exact Ha].
Defined.

(** The connection fails at the third call: admission and the claim went through. *)
Definition lossy_host : host db :=
  host_with (fun _ => Finished failed_terminal) (fun n => if Nat.eqb n 2 then LostBefore else NoFault).
Definition leaked : world db := (run_once lossy_host (MkWorld 0 queued_db started)).2.

Lemma interrupted_start_keeps_slot_witness :
  (run_once lossy_host (MkWorld 0 queued_db started)).1 = Err OperationalError /\
  co_active_workers (w_self leaked) = 1 /\ (run_once failing_host leaked).1 = Ok Saturated /\
  (shutdown failing_host leaked).1 = Err (RuntimeError "workers are still active").
Proof.
  destruct (interrupted_start_keeps_slot L (claim_at 2 "job-2") lossy_host
    (MkWorld 2 queued_db (set_co_active 1 started))) as (w' & _ & _ & Hlater); [discriminate|].
  split; [vm_compute; reflexivity|]. split; [vm_compute; reflexivity|]. split; [vm_compute; reflexivity|].
  destruct (Hlater failing_host leaked) as [Hstop _]; [vm_compute; reflexivity|].
  assert (co_active_workers (set_co_active 1 started) <> 0) as Hne by discriminate.
  exact (f_equal fst (Hstop Hne)).
Defined.

Lemma recovery_accounts_witness :
  exists report w', recover_startup failing_host (MkWorld 0 ended_db started) = (Ok report, w') /\
    rr_scanned report = 1 /\ rr_scanned report = rr_resolved report + rr_pending report.
Proof.
  destruct (recover_startup failing_host (MkWorld 0 ended_db started)) as [[report|x] w'] eqn:E;
    [|vm_compute in E; discriminate E].
  exists report, w'. split; [reflexivity|].
  split; [vm_compute in E; injection E as <- _; reflexivity|].
  destruct (recovery_accounts L failing_host _ report w' E) as [Hsum _]. exact Hsum.
Defined.
