(* ===== verification/DesiredState.v ===== *)
(** Polling-first reconciliation of a graph: [coordinator/desired_state.py].

    One poll compares what the configuration asks for (a snapshot of the source and of the
    generations that would be built from it) with what was last published, and asks the
    store for an automatic refresh when they differ.  The reconciler is a client of any
    store of the class [ReconcilerStore]; the control store is an instance. *)
From S2P Require Import Prelude Utf8 PyVal Json Limits Regex Contracts ContractsFacts Semantics.
From S2P Require Import ControlDb ControlDbFacts ControlOwnership ControlSubmission.
From S2P Require Import ControlReconciliation ControlRefinement ControlStore StoreInterface Coordinator.
Open Scope Z_scope.

(** ** Data *)

Record SourceSnapshot := MkSource {
  src_category : pystr; src_generation : option pystr; src_file_count : Z; src_total_bytes : Z
}.

Record PollingSnapshot := MkSnapshot {
  snap_source : SourceSnapshot;
  snap_config : pystr; snap_extractor : pystr; snap_canonicalizer : pystr
}.

Record PollOutcome := MkOutcome {
  po_category : pystr; po_refresh_requested : bool; po_file_count : Z; po_total_bytes : Z
}.

Definition poll_outcome_to_public (o : PollOutcome) : pydict :=
  [(lit "category", VStr (po_category o)); (lit "refresh_requested", VBool (po_refresh_requested o));
   (lit "file_count", VInt (po_file_count o)); (lit "total_bytes", VInt (po_total_bytes o))].

Record WatcherHint := MkWatcherHint {
  wh_graph_id : pystr; wh_category : pystr; wh_observed_at : pystr; wh_overflow : bool
}.

Definition watcher_hint_to_public (h : WatcherHint) : pydict :=
  [(lit "graph_id", VStr (wh_graph_id h)); (lit "category", VStr (wh_category h));
   (lit "observed_at", VStr (wh_observed_at h)); (lit "overflow", VBool (wh_overflow h))].

(** [DesiredStateReconciler]'s timing, in microseconds. *)
Record reconciler := MkReconciler { rc_next_reconcile : Z; rc_retry : Z }.

Definition new_reconciler (next_reconcile retry : Z) : res reconciler :=
  if (next_reconcile <=? 0) || (retry <=? 0) then Err (ValueError "reconciliation timing is invalid")
  else Ok (MkReconciler next_reconcile retry).

(** ** The store a reconciler writes to *)

Class ReconcilerStore (S : Type) := {
  rs_coalesce : JobRequest -> pystr -> call_of S SubmissionResult;
  (** [getattr(store, ..., None)]: a store may lack the two recorders *)
  rs_record_current : option (pystr -> GenerationTuple -> Z -> call_of S bool);
  rs_record_condition : option (pystr -> pystr -> Z -> call_of S bool)
}.

(** [rs_moves] is what the calls of any client do to the store. *)
Class ReconcilerStoreLaws (S : Type) `{ReconcilerStore S} := {
  rs_moves : S -> S -> Prop;
  rs_moves_refl s : rs_moves s s;
  rs_moves_trans s1 s2 s3 : rs_moves s1 s2 -> rs_moves s2 s3 -> rs_moves s1 s3;
  rs_coalesce_moves r q : stays rs_moves (rs_coalesce r q);
  rs_current_moves f g t n : rs_record_current = Some f -> stays rs_moves (f g t n);
  rs_condition_moves f g c n : rs_record_condition = Some f -> stays rs_moves (f g c n)
}.

Section DesiredState.
Context {U : Unicode}.

(** [\d{4}-\d{2}-\d{2}T\d{2}:\d{2}:\d{2}Z\Z] *)
Definition _TIMESTAMP : re :=
  let two := Times 2 (Cls is_decimal) in
  Cats [Times 4 (Cls is_decimal); one_of (lit "-"); two; one_of (lit "-"); two; one_of (lit "T");
        two; one_of (lit ":"); two; one_of (lit ":"); two; one_of (lit "Z")].

(** [WatcherHint(...)] with its [__post_init__]. *)
Definition watcher_hint (graph_id category observed_at : pystr) (overflow : pyval) : res WatcherHint :=
  match overflow with
  | VBool b =>
      if fullmatch _CONFIGURED_GRAPH_ID_PATTERN graph_id && fullmatch _SAFE_CATEGORY category
         && fullmatch _TIMESTAMP observed_at
      then Ok (MkWatcherHint graph_id category observed_at b)
      else Err (ValueError "watcher hint is invalid")
  | _ => Err (ValueError "watcher hint is invalid")
  end.

(** ** Pure parts *)

Definition _automatic_request (graph_id : pystr) (generations : GenerationTuple) : res JobRequest :=
  digest ← digest_of (join_with (lit "|")
             [graph_id; gen_source generations; gen_config generations; gen_extractor generations;
              gen_canonicalizer generations]);
  normalize_request
    (VDict [(lit "schema_version", VInt 1); (lit "job_kind", VStr (lit "refresh_graph"));
            (lit "graph_id", VStr graph_id); (lit "request_id", VStr (lit "poll-" ++ digest));
            (lit "idempotency_key", VStr (lit "poll-" ++ digest));
            (lit "priority", VStr (lit "automatic"));
            (lit "operation_options", VDict [(lit "reason", VStr (lit "polling"))])])
    (VStr (gen_source generations)) (VStr (gen_config generations))
    (VStr (gen_extractor generations)) (VStr (gen_canonicalizer generations))
    false DEFAULT_LIMITS.

(** A generation of a receipt: a text that is not empty. *)
Definition receipt_value (v : pyval) : option pystr :=
  match v with VStr (c :: s) => Some (c :: s) | _ => None end.

Definition _publication_generations (publication : option pydict) : res (option GenerationTuple) :=
  match publication with
  | None => Ok None
  | Some p =>
      match receipt_value (get "source_generation" p), receipt_value (get "config_generation" p),
            receipt_value (get "extractor_generation" p),
            receipt_value (get "canonicalizer_generation" p) with
      | Some sg, Some cg, Some eg, Some kg =>
          Ok (Some {| gen_source := sg; gen_config := cg; gen_extractor := eg; gen_canonicalizer := kg |})
      | _, _, _, _ => Err (ValueError "publication receipt is incomplete")
      end
  end.

(** What the snapshot asks for, once the source has a generation. *)
Definition desired_generations (source_generation : pystr) (s : PollingSnapshot) : GenerationTuple :=
  {| gen_source := source_generation; gen_config := snap_config s; gen_extractor := snap_extractor s;
     gen_canonicalizer := snap_canonicalizer s |}.

(** ** One poll *)

Context {S : Type} `{ReconcilerStore S}.

(** What the reconciler does not determine during one poll: the answers of the resolver
    (with or without its [cancel_event] argument), whether the cancel event is set at
    each of the three looks at it, and for each call of the store its environment, what
    others did to the store before it, and what happened to the connection. *)
Record visit := MkVisit {
  v_cancelled : nat -> bool;
  v_snapshot : res PollingSnapshot;
  v_publication : res (option pydict);
  v_env : nat -> env;
  v_others : nat -> S -> S;
  v_fault : nat -> fault
}.

(** The number of calls made so far, and the store: kept when an exception is raised. *)
Definition poll (A : Type) : Type := visit -> nat * S -> res A * (nat * S).

#[export] Instance poll_ret : MRet poll := fun A a v w => (Ok a, w).
#[export] Instance poll_bind : MBind poll := fun A B f m v w =>
  match m v w with (Ok a, w') => f a v w' | (Err x, w') => (Err x, w') end.

Definition cancelled_at (i : nat) : poll bool := fun v w => (Ok (v_cancelled v i), w).
Definition observe {A} (f : visit -> res A) : poll A := fun v w => (f v, w).

Definition ask_store {A} (c : call_of S A) : poll A := fun v w =>
  let n := w.1 in
  let s := v_others v n w.2 in
  match v_fault v n with
  | NoFault => let (r, s') := c (v_env v n) s in (r, ((n + 1)%nat, s'))
  | LostBefore => (Err OperationalError, ((n + 1)%nat, s))
  | LostAfter => (Err OperationalError, ((n + 1)%nat, (c (v_env v n) s).2))
  end.

(** [try: m except ...: return handler; k on what m gave]. *)
Definition try_else {A B} (m : poll A) (caught : exn -> bool) (handler : poll B) (k : A -> poll B)
    : poll B := fun v w =>
  match m v w with
  | (Ok a, w') => k a v w'
  | (Err x, w') => if caught x then handler v w' else (Err x, w')
  end.

Variable self : reconciler.

Definition _record_current (graph : pystr) (generations : GenerationTuple) : poll unit :=
  match rs_record_current with
  | Some recorder => _ ← ask_store (recorder graph generations (rc_next_reconcile self)); mret tt
  | None => mret tt
  end.

Definition _record_condition (graph category : pystr) : poll unit :=
  match rs_record_condition with
  | Some recorder => _ ← ask_store (recorder graph category (rc_retry self)); mret tt
  | None => mret tt
  end.

Definition is_key_or_type_error (x : exn) : bool :=
  match x with TypeError _ | LookupError _ => true | _ => false end.

(** [StorageSchemaError] is a [ValueError]. *)
Definition reconcile_graph (graph : pystr) : poll PollOutcome :=
  stop ← cancelled_at 0;
  if stop : bool then mret (MkOutcome (lit "cancelled") false 0 0) else
  try_else (observe v_snapshot) (fun x => is_os_error x || is_value_error x)
    (_ ← _record_condition graph (lit "configuration_invalid");
     mret (MkOutcome (lit "configuration_invalid") false 0 0))
  (fun snapshot =>
  let source := snap_source snapshot in
  let outcome category requested :=
    MkOutcome category requested (src_file_count source) (src_total_bytes source) in
  match src_generation source with
  | None =>
      _ ← _record_condition graph (src_category source);
      mret (outcome (src_category source) false)
  | Some source_generation =>
      stop ← cancelled_at 1;
      if stop : bool then mret (outcome (lit "cancelled") false) else
      try_else (publication ← observe v_publication; observe (fun _ => _publication_generations publication))
        (fun x => is_os_error x || is_value_error x || is_key_or_type_error x)
        (_ ← _record_condition graph (lit "publication_unavailable");
         mret (outcome (lit "publication_unavailable") false))
      (fun actual =>
      let desired := desired_generations source_generation snapshot in
      if bool_decide (actual = Some desired) then
        _ ← _record_current graph desired;
        mret (outcome (lit "current") false)
      else
        stop ← cancelled_at 2;
        if stop : bool then mret (outcome (lit "cancelled") false) else
        try_else (request ← observe (fun _ => _automatic_request graph desired);
                  ask_store (rs_coalesce request (lit "polling")))
          is_value_error
          (_ ← _record_condition graph (lit "automatic_intent_blocked");
           mret (outcome (lit "automatic_intent_blocked") false))
        (fun result =>
           let replayed := sub_replayed result in
           mret (outcome (if replayed then lit "refresh_coalesced" else lit "refresh_requested")
                         (negb replayed))))
  end).

End DesiredState.

(** ** The control store *)

Section ControlInstance.
Context {U : Unicode}.
Variable limits : CoordinatorLimits.

#[export] Instance control_reconciler_store : ReconcilerStore db := {|
  rs_coalesce request requester := commit (coalesce_automatic request requester limits);
  rs_record_current := Some (fun graph gens next => commit (record_current graph gens next));
  rs_record_condition := Some (fun graph category next => commit (record_condition graph category next))
|}.

End ControlInstance.
