(* ===== verification/DesiredStateFacts.v ===== *)
(** What a poll does: to any store, from the laws alone; and to the control store, where
    a request for a refresh leaves the wanted job queued, repeating it changes nothing,
    and two situations in which the wanted job is never created. *)
From S2P Require Import Prelude Utf8 PyVal Json Limits Regex Contracts ContractsFacts Semantics.
From S2P Require Import ControlDb ControlDbFacts ControlOwnership ControlSubmission.
From S2P Require Import ControlReconciliation ControlRefinement ControlStore ControlFacts ControlRuns.
From S2P Require Import StoreInterface Coordinator DesiredState.
Open Scope Z_scope.

(** ** Any store *)

Section Lawful.
Context {U : Unicode} {S : Type} `{ReconcilerStoreLaws S}.

(** The others are clients of the store too. *)
Definition others_lawful (v : visit (S := S)) : Prop := forall n s, rs_moves s (v_others v n s).

(** A part of a poll that moves the store as its clients do, with at most [k] calls. *)
Definition lawful {A} (k : nat) (m : poll A) : Prop :=
  forall v w, others_lawful v -> rs_moves w.2 (m v w).2.2 /\ ((m v w).2.1 <= w.1 + k)%nat.

Lemma lawful_pure {A} k (f : visit (S := S) -> res A) : lawful k (fun v w => (f v, w)).
Proof. intros v w _. cbn. split; [apply rs_moves_refl|lia]. Qed.

Lemma lawful_bind {A B} k1 k2 (m : poll A) (f : A -> poll B) :
  lawful k1 m -> (forall a, lawful k2 (f a)) -> lawful (k1 + k2) (m ≫= f).
Proof.
  intros Hm Hf v w Hv. unfold mbind, poll_bind. destruct (Hm v w Hv) as [H1 H2].
  destruct (m v w) as [[a|x] w']; cbn in *; [|split; [done|lia]].
  destruct (Hf a v w' Hv) as [H3 H4]. split; [by eapply rs_moves_trans|lia].
Qed.

Lemma lawful_try {A B} k1 k2 (m : poll A) caught (h : poll B) (f : A -> poll B) :
  lawful k1 m -> lawful k2 h -> (forall a, lawful k2 (f a)) -> lawful (k1 + k2) (try_else m caught h f).
Proof.
  intros Hm Hh Hf v w Hv. unfold try_else. destruct (Hm v w Hv) as [H1 H2].
  destruct (m v w) as [[a|x] w']; cbn in *; [|destruct (caught x)].
  - destruct (Hf a v w' Hv) as [H3 H4]. split; [by eapply rs_moves_trans|lia].
  - destruct (Hh v w' Hv) as [H3 H4]. split; [by eapply rs_moves_trans|lia].
  - split; [done|cbn; lia].
Qed.

Lemma lawful_le {A} k k' (m : poll A) : (k <= k')%nat -> lawful k m -> lawful k' m.
Proof. intros Hk Hm v w Hv. destruct (Hm v w Hv). split; [done|lia]. Qed.

Lemma lawful_ask {A} (c : call_of S A) : stays rs_moves c -> lawful 1 (ask_store c).
Proof.
  intros Hc v w Hv. unfold ask_store.
  pose proof (Hv w.1 w.2) as Ho. pose proof (Hc (v_env v w.1) (v_others v w.1 w.2)) as Hs.
  destruct (v_fault v w.1); [|cbn; split; [done|lia]|cbn; split; [by eapply rs_moves_trans|lia]].
  destruct (c _ _) as [r s']; cbn in *. split; [by eapply rs_moves_trans|lia].
Qed.

Variable self : reconciler.

Lemma lawful_condition graph category : lawful 1 (_record_condition self graph category).
Proof.
  unfold _record_condition. destruct rs_record_condition as [f|] eqn:E; [|apply (lawful_pure 1 (fun _ => Ok tt))].
  apply (lawful_bind 1 0); [|intros b; apply (lawful_pure 0 (fun _ => Ok tt))].
  apply lawful_ask. by apply rs_condition_moves.
Qed.

Lemma lawful_current graph gens : lawful 1 (_record_current self graph gens).
Proof.
  unfold _record_current. destruct rs_record_current as [f|] eqn:E; [|apply (lawful_pure 1 (fun _ => Ok tt))].
  apply (lawful_bind 1 0); [|intros b; apply (lawful_pure 0 (fun _ => Ok tt))].
  apply lawful_ask. by apply rs_current_moves.
Qed.

Lemma lawful_ret {A} k (a : A) : lawful k (mret a).
Proof. apply (lawful_pure k (fun _ => Ok a)). Qed.

Lemma lawful_noted graph category (o : PollOutcome) :
  lawful 1 (_ ← _record_condition self graph category; mret o).
Proof. apply (lawful_bind 1 0); [apply lawful_condition|intros _; apply lawful_ret]. Qed.

Lemma lawful_reconcile graph : lawful 2 (reconcile_graph self graph).
Proof.
  unfold reconcile_graph. apply (lawful_bind 0 2); [apply lawful_pure|]. intros [].
  { apply lawful_ret. }
  apply (lawful_try 0 2); [apply lawful_pure|eapply lawful_le; [|apply lawful_noted]; lia|]. intros snap.
  destruct (src_generation _); [|eapply lawful_le; [|apply lawful_noted]; lia].
  apply (lawful_bind 0 2); [apply lawful_pure|]. intros []; [apply lawful_ret|].
  apply (lawful_try 0 2).
  { apply (lawful_bind 0 0); [apply lawful_pure|]. intros a. apply lawful_pure. }
  { eapply lawful_le; [|apply lawful_noted]; lia. }
  intros actual. case_bool_decide.
  { eapply lawful_le; [|apply (lawful_bind 1 0); [apply lawful_current|intros _; apply lawful_ret]]. lia. }
  apply (lawful_bind 0 2); [apply lawful_pure|]. intros []; [apply lawful_ret|].
  apply (lawful_try 1 1); [|apply lawful_noted|intros r; apply lawful_ret].
  apply (lawful_bind 0 1); [apply lawful_pure|]. intros r. apply lawful_ask, rs_coalesce_moves.
Qed.

End Lawful.

(** ** The control store *)

Section Control.
Context {U : Unicode}.
Variable limits : CoordinatorLimits.
#[local] Instance polled_store : ReconcilerStore db := control_reconciler_store limits.

#[export] Instance control_reconciler_laws : ReconcilerStoreLaws db.
Proof.
  unshelve refine {| rs_moves := store_moves limits |}.
  - intros s. apply rtc_refl.
  - intros s1 s2 s3. apply rtc_trans.
  - intros r q. by apply (exec_moves limits _ (OpCoalesce r q)).
  - intros f g t n [= <-]. by apply (exec_moves limits _ (OpRecordCurrent g t n)).
  - intros f g c n [= <-]. by apply (exec_moves limits _ (OpRecordCondition g c n)).
Defined.

(** The intent of a graph has a queued automatic job for these generations. *)
Definition awaits (d : db) (graph : pystr) (gens : GenerationTuple) (jid : pystr) : Prop :=
  (exists j, jobs d !! jid = Some j /\ j_state j = QUEUED /\ job_class j = lit "automatic" /\
     job_graph j = graph /\ job_gens j = gens) /\
  (exists c, intents d !! graph = Some c /\ c_desired c = gens /\ c_queued c = Some jid /\
     c_paused c = false).

(** The job an update leaves under another id, or under its own when the update keeps
    the columns [awaits] looks at. *)
Lemma awaits_replacement old x e d b d' jid j :
  update_job old (fun _ => true) (set_j_replacement x) e d = Ok (b, d') ->
  jobs d !! jid = Some j ->
  exists j', jobs d' !! jid = Some j' /\ j_state j' = j_state j /\ j_spec j' = j_spec j.
Proof.
  intros H Hj. apply update_job_Ok in H as [[_ ->]|(_ & j0 & Hj0 & _ & _ & ->)]; [by exists j|].
  cbn. destruct (decide (old = jid)) as [->|Hne].
  - rewrite lookup_insert_eq. exists (set_j_replacement x j0). split; [done|].
    rewrite Hj in Hj0. injection Hj0 as ->. by destruct j0.
  - rewrite lookup_insert_ne by done. by exists j.
Qed.

Lemma upsert_intent_row g c f e d b d' :
  upsert_intent g c f e d = Ok (b, d') ->
  jobs d' = jobs d /\ intents d' !! g = Some (default c (f <$> intents d !! g)).
Proof.
  unfold upsert_intent. intros H. tx_steps H. tx_ret H. cbn. split; [done|].
  rewrite lookup_insert_eq. by destruct (intents d !! g).
Qed.

Lemma maybe_update_intents (old : option pystr) p f e d b d' :
  (match old with Some k => update_job k p f | None => mret false end) e d = Ok (b, d') ->
  intents d' = intents d.
Proof.
  destruct old; [|by intros [= _ <-]].
  intros H. by apply update_job_Ok in H as [[_ ->]|(_ & j & _ & _ & _ & ->)].
Qed.

(** A request that is not a replay leaves its job queued and awaited. *)
Lemma coalesce_new request requester e d r d' :
  coalesce_automatic request requester limits e d = Ok (r, d') -> sub_replayed r = false ->
  awaits d' (graph_id request) (generations_of request) (uuid e).
Proof.
  unfold coalesce_automatic. intros H Hr. tx_step H.
  assert (r0 = request) as ->. { unfold validate_request in Hstep. unbind Hstep. by injection Hstep as <-. }
  tx_step H. apply negb_false_iff, bool_decide_eq_true in Hstep0.
  tx_step H. do 2 tx_step H. tx_step H. apply require_admission_Ok in Hstep4 as [_ ->]. tx_steps H.
  destruct (live_automatic _ _ _) as [[jid' s]|]; [tx_ret H; done|]. tx_steps H. tx_ret H.
  apply maybe_update_intents in Hstep5. pose proof (maybe_update_intents _ _ _ _ _ _ _ Hstep8) as Hi.
  apply enforce_admission_Ok in Hstep6 as [-> _]. apply insert_job_Ok in Hstep7 as (-> & _ & _ & _).
  apply upsert_intent_row in Hstep9 as [Hjobs Hintent]. cbn in Hi. split.
  - assert (exists j, jobs d3 !! uuid e = Some j /\ j_state j = QUEUED /\
      j_spec j = j_spec (new_job e request r1 r3 r2 50)) as (j & Hj & Hs & Hspec).
    { destruct (_ ≫= c_queued).
      - eapply awaits_replacement in Hstep8; [|apply lookup_insert_eq]. done.
      - injection Hstep8 as _ <-. eexists. split; [apply lookup_insert_eq|done]. }
    exists j. rewrite Hjobs. unfold job_class, job_graph, job_gens. rewrite Hspec. by split_and!.
  - rewrite Hi, Hstep5 in Hintent. eexists. split; [exact Hintent|].
    destruct (intents d !! graph_id request) as [c|]; cbn; [by destruct c|done].
Qed.

(** ** Polls of the control store *)

Variable self : reconciler.

(** What a poll reads: the generations the snapshot asks for, and the published ones. *)
Definition visit_reads (v : visit (S := db)) (snap : PollingSnapshot) (desired : GenerationTuple)
    (actual : option GenerationTuple) : Prop :=
  v_snapshot v = Ok snap /\
  (exists sg, src_generation (snap_source snap) = Some sg /\ desired = desired_generations sg snap) /\
  (p ← v_publication v; _publication_generations p) = Ok actual.

Lemma automatic_request_Ok graph gens request :
  _automatic_request graph gens = Ok request ->
  graph_id request = graph /\ generations_of request = gens /\ job_kind request = lit "refresh_graph".
Proof.
  unfold _automatic_request. intros H. apply bind_Ok in H as (digest & _ & H).
  pose proof (normalize_request_Ok _ _ _ _ _ _ _ _ H) as (_ & Hs & Hc & He & Hk).
  injection Hs as Hs. injection Hc as Hc. injection He as He. injection Hk as Hk.
  unfold generations_of. rewrite <- Hs, <- Hc, <- He, <- Hk.
  cbn [normalize_request] in H. unbind H. injection H as <-. cbn. split_and!; [|by destruct gens|done].
  by match goal with G : _bounded_string _ "graph_id" _ = Ok _ |- _ =>
    apply bounded_string_Ok in G as [G _]; injection G as -> end.
Qed.

(** The steps of a poll that gets as far as the store's coalescing. *)
Lemma reconcile_at_coalesce graph v d snap desired actual :
  visit_reads v snap desired actual -> actual <> Some desired -> (forall i, v_cancelled v i = false) ->
  let outcome category requested := MkOutcome category requested (src_file_count (snap_source snap))
    (src_total_bytes (snap_source snap)) in
  reconcile_graph self graph v (0%nat, d) =
  try_else (request ← observe (fun _ => _automatic_request graph desired);
            ask_store (rs_coalesce request (lit "polling")))
    is_value_error
    (_ ← _record_condition self graph (lit "automatic_intent_blocked");
     mret (outcome (lit "automatic_intent_blocked") false))
  (fun result => mret (outcome (if sub_replayed result then lit "refresh_coalesced"
                                else lit "refresh_requested") (negb (sub_replayed result))))
  v (0%nat, d).
Proof.
  intros (Hs & (sg & Hg & ->) & Hp) Hne Hc. unfold reconcile_graph, mbind, poll_bind at 1, cancelled_at.
  rewrite Hc. unfold try_else at 1, observe at 1. rewrite Hs, Hg.
  unfold poll_bind at 1. rewrite Hc. unfold try_else at 1, poll_bind at 1, observe at 1.
  destruct (v_publication v) as [p|x]; [|done]. cbn in Hp. unfold observe at 1. rewrite Hp.
  rewrite bool_decide_eq_false_2 by done. unfold poll_bind at 1. by rewrite Hc.
Qed.

Lemma poll_bind_Ok {A B} (m : poll (S := db) A) (f : A -> poll (S := db) B) v w b w' :
  (m ≫= f) v w = (Ok b, w') -> exists a w1, m v w = (Ok a, w1) /\ f a v w1 = (Ok b, w').
Proof. unfold mbind, poll_bind. destruct (m v w) as [[a|x] w1]; [eauto|done]. Qed.

Lemma try_else_Ok {A B} (m : poll (S := db) A) caught (h : poll (S := db) B) (k : A -> poll (S := db) B) v w b w' :
  try_else m caught h k v w = (Ok b, w') ->
  (exists a w1, m v w = (Ok a, w1) /\ k a v w1 = (Ok b, w')) \/ (exists w1, h v w1 = (Ok b, w')).
Proof.
  unfold try_else. destruct (m v w) as [[a|x] w1]; [eauto|]. destruct (caught x); [eauto|done].
Qed.

Lemma ask_store_Ok {A} (c : call_of db A) v w a w' :
  ask_store c v w = (Ok a, w') -> c (v_env v w.1) (v_others v w.1 w.2) = (Ok a, w'.2).
Proof.
  unfold ask_store. destruct (v_fault v w.1); [|done|done].
  destruct (c _ _) as [r s']. by intros [= -> <-].
Qed.

(** No request comes from a poll that notes a condition. *)
Lemma noted_not_requested {A} (m : poll (S := db) A) fc tb cat v w o w' :
  (_ ← m; mret (MkOutcome cat false fc tb)) v w = (Ok o, w') -> po_refresh_requested o = false.
Proof. intros (a & w1 & _ & [= <- _])%poll_bind_Ok. done. Qed.

(** Where a request for a refresh comes from. *)
Lemma reconcile_requested graph v d o n d' :
  reconcile_graph self graph v (0%nat, d) = (Ok o, (n, d')) -> po_refresh_requested o = true ->
  exists snap desired actual request r,
    visit_reads v snap desired actual /\ actual <> Some desired /\
    _automatic_request graph desired = Ok request /\
    coalesce_automatic request (lit "polling") limits (v_env v 0%nat) (v_others v 0%nat d) = Ok (r, d') /\
    sub_replayed r = false.
Proof.
  unfold reconcile_graph. intros (stop & w & [= _ <-] & H)%poll_bind_Ok Hr.
  destruct stop; [by injection H as <-|].
  apply try_else_Ok in H as [(snap & w & [= Hs <-] & H)|[w1 H]];
    [|apply noted_not_requested in H; congruence].
  destruct (src_generation _) as [sg|] eqn:Hg; [|apply noted_not_requested in H; congruence].
  apply poll_bind_Ok in H as (stop & w & [= _ <-] & H). destruct stop; [by injection H as <-|].
  apply try_else_Ok in H as [(actual & w & Ha & H)|[w1 H]]; [|apply noted_not_requested in H; congruence].
  apply poll_bind_Ok in Ha as (p & w1 & [= Hp <-] & [= Ha <-]).
  case_bool_decide as Hne; [apply noted_not_requested in H; congruence|].
  apply poll_bind_Ok in H as (stop & w & [= _ <-] & H). destruct stop; [by injection H as <-|].
  apply try_else_Ok in H as [(r & w & Hc & H)|[w1 H]]; [|apply noted_not_requested in H; congruence].
  injection H as <- ->. apply poll_bind_Ok in Hc as (request & w1 & [= Hq <-] & Hc).
  apply ask_store_Ok in Hc. cbn in Hc, Hr. apply commit_inv in Hc.
  exists snap, (desired_generations sg snap), actual, request, r. split_and!; try done.
  - split; [done|]. split; [by exists sg|]. by rewrite Hp.
  - by apply negb_true_iff in Hr.
Qed.

(** C15.  Polls ask for what is missing, and are lawful.  From a reachable database, however
    the resolver answers, whatever others do in between and wherever the connection fails,
    a poll leaves a reachable database after at most two calls.  When it reports a requested
    refresh, the snapshot and the receipt were read and their generations differ, and the
    database holds a queued automatic job for exactly the wanted generations, which the
    graph's intent awaits. *)
Theorem poll_requests_what_is_missing graph v d r n d' :
  reachable limits d -> (forall i s, store_moves limits s (v_others v i s)) ->
  reconcile_graph self graph v (0%nat, d) = (r, (n, d')) ->
  reachable limits d' /\ (n <= 2)%nat /\
  (forall o, r = Ok o -> po_refresh_requested o = true ->
     exists snap desired actual jid,
       visit_reads v snap desired actual /\ actual <> Some desired /\ awaits d' graph desired jid).
Proof.
  intros Hd Ho H. change (others_lawful v) in Ho.
  destruct (lawful_reconcile self graph v (0%nat, d) Ho) as [Hm Hn].
  rewrite H in Hm, Hn. cbn in Hm, Hn. split_and!; [|done|].
  - unfold reachable in *. by transitivity d.
  - intros o -> Hr.
    destruct (reconcile_requested _ _ _ _ _ _ H Hr) as (snap & des & act & q & s & Hreads & Hne & Hq & Hc & Hs).
    exists snap, des, act, (uuid (v_env v 0%nat)). split_and!; [done|done|].
    apply automatic_request_Ok in Hq as (<- & <- & _). by eapply coalesce_new.
Qed.

(** Coalescing again, when the job is still awaited. *)
Lemma coalesce_again request requester e e' d r d' :
  coalesce_automatic request requester limits e d = Ok (r, d') -> sub_replayed r = false ->
  admitted e' = true ->
  coalesce_automatic request requester limits e' d' = Ok (MkSubmission (uuid e) QUEUED true, d').
Proof.
  intros H Hr Ha. destruct (coalesce_new _ _ _ _ _ _ H Hr) as [(j & Hj & Hs & _) (c & Hc & Hg & Hq & Hp)].
  unfold coalesce_automatic in H. tx_step H.
  assert (r0 = request) as ->. { unfold validate_request in Hstep. unbind Hstep. by injection Hstep as <-. }
  tx_step H. tx_step H. do 2 tx_step H. clear H.
  unfold coalesce_automatic, mbind, tx_bind, lift, check. rewrite Hstep, Hstep0, Hstep1, Hstep2, Hstep3.
  unfold require_transaction_admission, mbind, tx_bind, get_env, check. rewrite Ha. cbn. rewrite Hc, Hp.
  unfold live_automatic, existing_id. rewrite Hg, bool_decide_eq_true_2, Hq by done. cbn.
  by rewrite Hj, Hs.
Qed.

(**  A burst of polls asks once.  After a poll that requested a refresh, a poll that
    reads the same snapshot and the same receipt, with nothing done in between, reports a
    coalesced refresh and leaves the database as it was. *)
Theorem repeated_poll_coalesces graph v v' d o n d' :
  reconcile_graph self graph v (0%nat, d) = (Ok o, (n, d')) -> po_refresh_requested o = true ->
  v_snapshot v' = v_snapshot v -> v_publication v' = v_publication v ->
  (forall i, v_cancelled v' i = false) -> v_others v' 0%nat d' = d' -> v_fault v' 0%nat = NoFault ->
  admitted (v_env v' 0%nat) = true ->
  exists o', reconcile_graph self graph v' (0%nat, d') = (Ok o', (1%nat, d')) /\
    po_category o' = lit "refresh_coalesced" /\ po_refresh_requested o' = false.
Proof.
  intros H Hr Hsn Hpu Hca Hot Hfa Had.
  destruct (reconcile_requested _ _ _ _ _ _ H Hr) as (snap & des & act & q & s & Hreads & Hne & Hq & Hc & Hs).
  assert (visit_reads v' snap des act) as Hreads'.
  { unfold visit_reads in *. by rewrite Hsn, Hpu. }
  rewrite (reconcile_at_coalesce _ _ _ _ _ _ Hreads' Hne Hca).
  unfold try_else, mbind, poll_bind, observe. rewrite Hq.
  unfold ask_store. cbn [fst snd]. rewrite Hfa, Hot. cbn [rs_coalesce polled_store control_reconciler_store].
  unfold commit. rewrite (coalesce_again _ _ _ _ _ _ _ Hc Hs Had). cbn. eexists. split; [done|]. done.
Qed.

(** A note leaves the jobs as they are. *)
Lemma record_condition_jobs graph category next e d :
  jobs (commit (record_condition graph category next) e d).2 = jobs d.
Proof.
  unfold commit. destruct (record_condition _ _ _ _ _) as [[b d']|] eqn:H; [|done]. cbn.
  unfold record_condition in H. tx_steps H. apply update_intent_Ok in H as [m ->]. done.
Qed.

Lemma noted_jobs graph category (o : PollOutcome) v w r w' :
  (forall i s, v_others v i s = s) ->
  (_ ← _record_condition self graph category; mret o) v w = (r, w') -> jobs w'.2 = jobs w.2.
Proof.
  intros Ho. unfold _record_condition, ask_store, mbind, poll_bind. cbn. rewrite Ho.
  pose proof (record_condition_jobs graph category (rc_retry self) (v_env v w.1) w.2) as Hj.
  destruct (v_fault v w.1); [|by intros [= _ <-]|by intros [= _ <-]].
  destruct (commit _ _ _) as [[b|x] d1]; by intros [= _ <-].
Qed.

(** A refused request: what the poll then reports and leaves. *)
Lemma refused_poll graph v d desired request (x : exn) (fc tb : Z) k r n d' :
  (forall i s, v_others v i s = s) -> _automatic_request graph desired = Ok request ->
  commit (coalesce_automatic request (lit "polling") limits) (v_env v 0%nat) d = (Err x, d) ->
  try_else (request ← observe (fun _ => _automatic_request graph desired);
            ask_store (rs_coalesce request (lit "polling")))
    is_value_error
    (_ ← _record_condition self graph (lit "automatic_intent_blocked");
     mret (MkOutcome (lit "automatic_intent_blocked") false fc tb)) k v (0%nat, d) = (r, (n, d')) ->
  jobs d' = jobs d /\ forall o, r = Ok o -> po_category o = lit "automatic_intent_blocked".
Proof.
  intros Hot Hq Hx H.
  assert (exists y, (request ← observe (fun _ => _automatic_request graph desired);
    ask_store (rs_coalesce request (lit "polling"))) v (0%nat, d) = (Err y, (1%nat, d))) as [y Hy].
  { unfold mbind, poll_bind, observe, ask_store. rewrite Hq.
    cbn [fst snd rs_coalesce polled_store control_reconciler_store]. rewrite Hot, Hx.
    destruct (v_fault v 0%nat); eauto. }
  unfold try_else in H. rewrite Hy in H. destruct (is_value_error y); [|by injection H as <- _ <-].
  pose proof (noted_jobs _ _ _ _ _ _ _ Hot H) as Hj. split; [done|].
  intros o ->. apply poll_bind_Ok in H as (a & w1 & _ & [= <- _]). done.
Qed.

(**  Generations that were asked for once cannot be asked for again.  Suppose polling
    already has a job, finished say, for the generations a snapshot wants, and the graph's
    intent has no live job for them (the source went to another state and came back).
    Then a poll creates no job, whatever happens to its calls: it never reports a requested
    or a coalesced refresh, and the jobs stay as they are, until cleanup removes the old
    one. *)
Theorem reverted_generations_not_requested graph v d snap desired actual request digest jid j r n d' :
  visit_reads v snap desired actual -> actual <> Some desired -> (forall i, v_cancelled v i = false) ->
  (forall i s, v_others v i s = s) ->
  _automatic_request graph desired = Ok request -> digest_of (idempotency_key request) = Ok digest ->
  jobs d !! jid = Some j ->
  idempotency (j_spec j) = (lit "polling", lit "refresh_graph", graph, digest) ->
  live_automatic d (intents d !! graph) desired = None ->
  reconcile_graph self graph v (0%nat, d) = (r, (n, d')) ->
  jobs d' = jobs d /\ forall o, r = Ok o -> po_category o = lit "automatic_intent_blocked".
Proof.
  intros Hreads Hne Hca Hot Hq Hdig Hj Hkey Hlive.
  rewrite (reconcile_at_coalesce _ _ _ _ _ _ Hreads Hne Hca).
  pose proof (automatic_request_Ok _ _ _ Hq) as (Hg & Hgens & Hkind).
  rewrite <- Hg, <- Hkind in Hkey. rewrite <- Hg, <- Hgens in Hlive.
  assert (exists x, commit (coalesce_automatic request (lit "polling") limits) (v_env v 0%nat) d = (Err x, d))
    as [x Hx].
  { destruct (coalesce_cannot_repeat limits _ _ _ (v_env v 0%nat) _ _ _ Hdig Hj Hkey) as [_ Hno].
    specialize (Hno Hlive). unfold commit. destruct (coalesce_automatic _ _ _ _ _) as [[]|]; [done|eauto]. }
  by eapply refused_poll.
Qed.
End Control.

(** ** Runs *)

Section Runs.
#[local] Existing Instance ascii_only.
#[local] Hint Extern 0 (ReconcilerStore db) => exact (polled_store L) : typeclass_instances.

Definition every_minute : reconciler := MkReconciler (60 * second) (15 * second).

Definition snapshot_of (source : string) : PollingSnapshot :=
  MkSnapshot (MkSource (lit "stable") (Some (lit "sg1:" ++ lit source)) 3 100) (lit "cg1:a") (lit "eg1:a")
    (lit "kg1:a").

Definition receipt_of (source : string) : pydict :=
  [(lit "source_generation", VStr (lit "sg1:" ++ lit source)); (lit "config_generation", VStr (lit "cg1:a"));
   (lit "extractor_generation", VStr (lit "eg1:a")); (lit "canonicalizer_generation", VStr (lit "kg1:a"))].

(** An undisturbed poll at an instant, with the id a new job gets. *)
Definition quiet_visit (wanted : string) (published : option string) (t : Z) (id : string) : visit (S := db) :=
  MkVisit (fun _ => false) (Ok (snapshot_of wanted)) (Ok (receipt_of <$> published)) (fun _ => at_time t id)
    (fun _ s => s) (fun _ => NoFault).

Definition polled_request (source : string) : JobRequest :=
  match _automatic_request (lit "g") (gens_for source) with Ok r => r | Err _ => request_for "" "" "" "" end.

(** A first poll of a graph that has no publication. *)
Definition polled : res PollOutcome * (nat * db) :=
  Eval vm_compute in reconcile_graph every_minute (lit "g") (quiet_visit "a" None 1 "job-1") (0%nat, empty_db).

Lemma poll_requests_what_is_missing_witness :
  reachable L polled.2.2 /\ exists desired jid, awaits polled.2.2 (lit "g") desired jid.
Proof.
  destruct (poll_requests_what_is_missing L every_minute (lit "g") (quiet_visit "a" None 1 "job-1") empty_db
    polled.1 polled.2.1 polled.2.2) as (Hr & _ & Ho).
  - apply rtc_refl.
  - intros i s. apply rtc_refl.
  - vm_compute. reflexivity.
  - split; [exact Hr|].
    destruct (Ho _ eq_refl eq_refl) as (snap & desired & actual & jid & _ & _ & Ha). exists desired, jid. exact Ha.
Defined.

Lemma repeated_poll_coalesces_witness :
  exists o', reconcile_graph every_minute (lit "g") (quiet_visit "a" None 61 "job-2") (0%nat, polled.2.2)
               = (Ok o', (1%nat, polled.2.2)) /\
    po_category o' = lit "refresh_coalesced" /\ po_refresh_requested o' = false.
Proof.
  destruct polled as [[o|x] [n d]] eqn:E; [|vm_compute in E; discriminate E].
  apply (repeated_poll_coalesces L every_minute (lit "g") (quiet_visit "a" None 1 "job-1")
    (quiet_visit "a" None 61 "job-2") empty_db o n d).
  - rewrite <- E. vm_compute. reflexivity.
  - vm_compute in E. injection E as <- _ _. reflexivity.
  - reflexivity.
  - reflexivity.
  - reflexivity.
  - reflexivity.
  - reflexivity.
  - reflexivity.
Defined.

(** The job polling asked for has published its generations. *)
Definition published_ops : list (op * env) :=
  [(OpAcquire c1 (1000 * second), at_time 0 "x");
   (OpCoalesce (polled_request "a") (lit "polling"), at_time 1 "job-1");
   (OpClaim c1 1 (60 * second) false, at_time 2 "x");
   (cas "job-1" CLAIMED STARTING, at_time 3 "x");
   (cas "job-1" STARTING RUNNING, at_time 4 "x")] ++ drop 5 succeeded_ops.

Definition published_db : db := Eval vm_compute in run published_ops empty_db.

(** Then the source changed and was published otherwise, and came back. *)
Lemma reverted_generations_not_requested_witness :
  jobs (reconcile_graph every_minute (lit "g") (quiet_visit "a" (Some "b") 30 "job-9") (0%nat, published_db)).2.2
    = jobs published_db /\
  (j_state <$> jobs published_db !! lit "job-1") = Some SUCCEEDED.
Proof.
  split; [|vm_compute; reflexivity].
  destruct (reconcile_graph every_minute (lit "g") (quiet_visit "a" (Some "b") 30 "job-9") (0%nat, published_db))
    as [r [n d']] eqn:E.
  apply (reverted_generations_not_requested L every_minute (lit "g") (quiet_visit "a" (Some "b") 30 "job-9")
    published_db (snapshot_of "a") (gens_for "a") (Some (gens_for "b")) (polled_request "a")
    (j_digest (j_spec (the_job published_db "job-1"))) (lit "job-1") (the_job published_db "job-1") r n d').
  - split; [reflexivity|]. split; [|vm_compute; reflexivity]. exists (lit "sg1:" ++ lit "a"). split; reflexivity.
  - vm_compute. discriminate.
  - reflexivity.
  - reflexivity.
  - vm_compute. reflexivity.
  - vm_compute. reflexivity.
  - vm_compute. reflexivity.
  - vm_compute. reflexivity.
  - vm_compute. reflexivity.
  - exact E.
Defined.

(** A job for other generations is queued, then the graph is found current. *)
Definition current_ops : list (op * env) :=
  [(OpCoalesce (polled_request "b") (lit "polling"), at_time 1 "job-1");
   (OpRecordCurrent (lit "g") (gens_for "a") (60 * second), at_time 2 "x")].

(** C40.  A poll may take a job for other generations as its own.  Recording a graph as
    current overwrites the generations of its intent and keeps the intent's queued job.
    In a database reachable this way a poll that wants the recorded generations again
    reports a coalesced refresh and changes nothing, though no job of the database has the
    generations it wants. *)
Theorem coalesced_onto_other_generations :
  let d := run current_ops empty_db in
  let v := quiet_visit "a" (Some "c") 3 "job-2" in
  reachable L d /\ visit_reads v (snapshot_of "a") (gens_for "a") (Some (gens_for "c")) /\
  (exists o, reconcile_graph every_minute (lit "g") v (0%nat, d) = (Ok o, (1%nat, d)) /\
     po_category o = lit "refresh_coalesced") /\
  (forall jid j, jobs d !! jid = Some j -> job_gens j <> gens_for "a").
Proof.
  cbv zeta. split_and!.
  - apply run_reachable. by repeat constructor.
  - split; [done|]. split; [|by vm_compute]. exists (lit "sg1:" ++ lit "a"). done.
  - eexists. split; [vm_compute; reflexivity|done].
  - assert (existsb (fun kj => bool_decide (job_gens kj.2 = gens_for "a"))
      (map_to_list (jobs (run current_ops empty_db))) = false) as E by (vm_compute; reflexivity).
    intros jid j Hj. rewrite existsb_map_false in E. by apply E, bool_decide_eq_false in Hj.
Qed.

End Runs.
