(* ===== verification/Polling.v ===== *)
(** The polling scheduler: [coordinator/polling.py].

    One thread runs the loop; its turns see a clock, the resolver's answer, which of the
    submitted polls have finished and with what, and whether a submission is refused.
    The polls themselves are [DesiredState.reconcile_graph].  Times are rational numbers of
    seconds; [None] is minus infinity. *)
From S2P Require Import Prelude Utf8 Sha256 PyVal Ordering Limits Semantics Coordinator DesiredState.
From Stdlib Require Import QArith Qround Qpower.
Open Scope Z_scope.

Definition _SUCCESS_CATEGORIES : list string := ["current"; "refresh_requested"; "refresh_coalesced"].
Definition _RETRY_CATEGORIES : list string :=
  ["source_unavailable"; "source_invalid"; "source_unstable"; "source_limit_exceeded"; "source_timeout";
   "configuration_invalid"; "publication_unavailable"; "automatic_intent_blocked"; "poll_failed"; "cancelled"].
Definition _UNAVAILABLE_CATEGORIES : list string :=
  ["source_unavailable"; "publication_unavailable"; "poll_failed"].
Definition _MAX_HEALTH_COUNTER : Z := 2147483647.

Definition category_in (category : pystr) (l : list string) : bool :=
  existsb (fun s => bool_decide (category = lit s)) l.

(** ** The constructor's parameters *)

Record policy := MkPolicy {
  p_interval : Q; p_retry : Q; p_jitter : Q; p_max_concurrent : Z; p_startup_batch : Z;
  p_max_retry : Q; p_multiplier : Q; p_wake : Q; p_shutdown : Q
}.

Definition make_policy (interval retry jitter : Q) (max_concurrent startup_batch : Z)
    (max_retry multiplier wake shutdown : Q) : res policy :=
  if Qle_bool interval 0 || Qle_bool retry 0 || negb (Qle_bool 0 jitter) || (max_concurrent <=? 0)
     || (startup_batch <=? 0) || negb (Qle_bool retry max_retry) || negb (Qle_bool 1 multiplier)
     || Qle_bool wake 0 || Qle_bool shutdown 0
  then Err (ValueError "polling limits are invalid")
  else Ok (MkPolicy interval retry jitter max_concurrent (Z.min startup_batch max_concurrent)
             max_retry multiplier wake shutdown).

(** ** State *)

Inductive counter :=
| polls_started | polls_completed | polls_succeeded | polls_current | polls_changed | polls_unstable
| polls_unavailable | polls_invalid | polls_timed_out | polls_cancelled | refreshes_requested
| refreshes_coalesced.
#[export] Instance counter_eq_dec : EqDecision counter.
Proof. solve_decision. Defined.

Inductive scheduler_status := Stopped | Running | Degraded.
#[export] Instance scheduler_status_eq_dec : EqDecision scheduler_status.
Proof. solve_decision. Defined.

Record scheduler := MkScheduler {
  sc_started : bool;
  sc_status : scheduler_status;
  sc_next_due : gmap pystr Q;
  sc_running : gset pystr;
  sc_futures : list pystr;                  (** the keys of the dict, in order *)
  sc_failures : gmap pystr Z;
  sc_last : gmap pystr (option Q);
  sc_startup : gset pystr;
  sc_eligible : Z;
  sc_due : Z;
  sc_count : counter -> Z;
  sc_category : option pystr
}.

Definition new_scheduler : scheduler :=
  MkScheduler false Stopped ∅ ∅ [] ∅ ∅ ∅ 0 0 (fun _ => 0) None.

Definition set_schedule next failures last startup st :=
  MkScheduler (sc_started st) (sc_status st) next (sc_running st) (sc_futures st) failures last startup
    (sc_eligible st) (sc_due st) (sc_count st) (sc_category st).
Definition set_work running futures st :=
  MkScheduler (sc_started st) (sc_status st) (sc_next_due st) running futures (sc_failures st) (sc_last st)
    (sc_startup st) (sc_eligible st) (sc_due st) (sc_count st) (sc_category st).
Definition set_startup startup st :=
  set_schedule (sc_next_due st) (sc_failures st) (sc_last st) startup st.
Definition set_eligible n st :=
  MkScheduler (sc_started st) (sc_status st) (sc_next_due st) (sc_running st) (sc_futures st)
    (sc_failures st) (sc_last st) (sc_startup st) n (sc_due st) (sc_count st) (sc_category st).
Definition set_due n st :=
  MkScheduler (sc_started st) (sc_status st) (sc_next_due st) (sc_running st) (sc_futures st)
    (sc_failures st) (sc_last st) (sc_startup st) (sc_eligible st) n (sc_count st) (sc_category st).
Definition set_counts f st :=
  MkScheduler (sc_started st) (sc_status st) (sc_next_due st) (sc_running st) (sc_futures st)
    (sc_failures st) (sc_last st) (sc_startup st) (sc_eligible st) (sc_due st) f (sc_category st).
Definition set_category c st :=
  MkScheduler (sc_started st) (sc_status st) (sc_next_due st) (sc_running st) (sc_futures st)
    (sc_failures st) (sc_last st) (sc_startup st) (sc_eligible st) (sc_due st) (sc_count st) c.
Definition set_status started s st :=
  MkScheduler started s (sc_next_due st) (sc_running st) (sc_futures st) (sc_failures st) (sc_last st)
    (sc_startup st) (sc_eligible st) (sc_due st) (sc_count st) (sc_category st).

(** The state is kept when an exception is raised. *)
Definition sched (A : Type) : Type := scheduler -> res A * scheduler.
#[export] Instance sched_ret : MRet sched := fun A a st => (Ok a, st).
#[export] Instance sched_bind : MBind sched := fun A B f m st =>
  match m st with (Ok a, st') => f a st' | (Err x, st') => (Err x, st') end.
Definition get_sched : sched scheduler := fun st => (Ok st, st).
Definition modify_sched (f : scheduler -> scheduler) : sched unit := fun st => (Ok tt, f st).
Definition lift_sched {A} (r : res A) : sched A := fun st => (r, st).

(** [for x in l: body]. *)
Fixpoint each_graph {A} (l : list A) (body : A -> sched unit) : sched unit :=
  match l with [] => mret tt | x :: rest => _ ← body x; each_graph rest body end.

Section Polling.
Variable self : policy.

(** ** Targets *)

Definition wanted_policy (target : pyval * pyval) : res (list pystr) :=
  match target.1 with
  | VStr graph_id => b ← in_set target.2 ["polling"; "continuous"]; Ok (if b : bool then [graph_id] else [])
  | _ => Ok []
  end.

(** [tuple(sorted({...}))]. *)
Definition wanted_ids (targets : list (pyval * pyval)) : res (list pystr) :=
  ids ← mapM wanted_policy targets; Ok (merge_sort str_leb (remove_dups (mjoin ids))).

Definition _target_ids (configured : res (list (pyval * pyval))) : sched (list pystr) :=
  match configured with
  | Err x =>
      if is_os_error x || is_value_error x then
        _ ← modify_sched (fun st => set_category (Some (lit "configuration_invalid")) (set_eligible 0 st));
        mret []
      else lift_sched (Err x)
  | Ok targets => lift_sched (wanted_ids targets)
  end.

Definition add_target (now : Q) (st : scheduler) (graph_id : pystr) : scheduler :=
  if bool_decide (is_Some (sc_next_due st !! graph_id)) then st
  else set_schedule (<[graph_id := now]> (sc_next_due st))
         (<[graph_id := default 0 (sc_failures st !! graph_id)]> (sc_failures st))
         (<[graph_id := default None (sc_last st !! graph_id)]> (sc_last st))
         ({[graph_id]} ∪ sc_startup st) st.

Definition drop_target (target_ids : list pystr) (st : scheduler) (graph_id : pystr) : scheduler :=
  if bool_decide (graph_id ∈ target_ids) then st
  else set_schedule (delete graph_id (sc_next_due st)) (delete graph_id (sc_failures st))
         (delete graph_id (sc_last st)) (sc_startup st ∖ {[graph_id]}) st.

Definition _sync_targets (target_ids : list pystr) (now : Q) : sched unit :=
  modify_sched (fun st =>
    let st := foldl (add_target now) st target_ids in
    let st := foldl (drop_target target_ids) st (map_to_list (sc_next_due st)).*1 in
    set_eligible (Z.of_nat (length target_ids)) st).

(** ** Outcomes *)

Definition _increment (c : counter) (st : scheduler) : scheduler :=
  set_counts (fun c' => if bool_decide (c' = c) then Z.min _MAX_HEALTH_COUNTER (sc_count st c + 1)
                       else sc_count st c') st.

(** [if b: self._increment(c)]. *)
Definition bump (b : bool) (c : counter) (st : scheduler) : scheduler := if b then _increment c st else st.

Definition _record_outcome (outcome : PollOutcome) (st : scheduler) : scheduler :=
  let category := po_category outcome in
  let cat s := bool_decide (category = lit s) in
  let st := set_category (Some category) st in
  let st := bump (category_in category _SUCCESS_CATEGORIES) polls_succeeded st in
  let st := bump (cat "current") polls_current st in
  let st := bump (cat "refresh_requested") polls_changed st in
  let st := bump (cat "refresh_coalesced") refreshes_coalesced st in
  let st := bump (cat "source_unstable") polls_unstable st in
  let st := bump (category_in category _UNAVAILABLE_CATEGORIES) polls_unavailable st in
  let st := bump (cat "source_invalid" || cat "configuration_invalid") polls_invalid st in
  let st := bump (cat "source_timeout") polls_timed_out st in
  let st := bump (cat "cancelled") polls_cancelled st in
  bump (po_refresh_requested outcome) refreshes_requested st.

(** [int.from_bytes(digest[:4], "big") / 2**32 * jitter] of the graph id's digest. *)
Definition _deterministic_jitter (graph_id : pystr) : res Q :=
  if Qeq_bool (p_jitter self) 0 then Ok 0%Q
  else
    match utf8_encode graph_id with
    | None => Err (ValueError "surrogates not allowed")
    | Some bytes => Ok (Qmake (word_of (take 4 (sha256 bytes))) (2 ^ 32) * p_jitter self)%Q
    end.

Definition retry_delay (failures : Z) : Q :=
  qmin (p_max_retry self) (p_retry self * Qpower (p_multiplier self) (failures - 1))%Q.

Definition _finish_poll (graph_id : pystr) (outcome : PollOutcome) (now : Q) : sched unit :=
  _ ← modify_sched (_record_outcome outcome);
  _ ← modify_sched (fun st =>
        set_startup (sc_startup st ∖ {[graph_id]})
          (_increment polls_completed
             (set_work (sc_running st ∖ {[graph_id]})
                (List.filter (fun g => negb (bool_decide (g = graph_id))) (sc_futures st)) st)));
  st ← get_sched;
  if bool_decide (sc_next_due st !! graph_id = None) then mret tt
  else
    let failed := category_in (po_category outcome) _RETRY_CATEGORIES in
    let failures := if failed then Z.min (default 0 (sc_failures st !! graph_id) + 1) 31 else 0 in
    let delay := if failed then retry_delay failures else p_interval self in
    _ ← modify_sched (fun st =>
          set_schedule (sc_next_due st) (<[graph_id := failures]> (sc_failures st))
            (<[graph_id := Some now]> (sc_last st)) (sc_startup st) st);
    jitter ← lift_sched (_deterministic_jitter graph_id);
    modify_sched (fun st =>
      set_schedule (<[graph_id := (now + delay + jitter)%Q]> (sc_next_due st)) (sc_failures st) (sc_last st)
        (sc_startup st) st).

Definition poll_failed : PollOutcome := MkOutcome (lit "poll_failed") false 0 0.

(** [_poll_one], in a worker thread, on what [reconcile_graph] returned. *)
Definition _poll_one (reconciled : res PollOutcome) : res PollOutcome :=
  match reconciled with
  | Ok o => Ok o
  | Err x => if is_os_error x || is_runtime_error x || is_value_error x then Ok poll_failed else Err x
  end.

(** [finished g] is what the poll of [g] returned, if it is done. *)
Definition _collect_completed (finished : pystr -> option (res PollOutcome)) (now : Q) : sched unit :=
  st ← get_sched;
  each_graph (List.filter (fun g => bool_decide (is_Some (finished g))) (sc_futures st)) (fun graph_id =>
    let outcome := match _poll_one <$> finished graph_id with Some (Ok o) => o | _ => poll_failed end in
    _finish_poll graph_id outcome now).

(** ** Admission *)

Definition is_due (st : scheduler) (now : Q) (graph_id : pystr) (due_at : Q) : bool :=
  negb (bool_decide (graph_id ∈ sc_running st)) && Qle_bool due_at now.

Definition due_graphs (st : scheduler) (now : Q) : list pystr :=
  (List.filter (fun kv => is_due st now kv.1 kv.2) (map_to_list (sc_next_due st))).*1.

(** Comparison of last completions: [None] is [float("-inf")]. *)
Definition last_compare (x y : option Q) : comparison :=
  match x, y with
  | None, None => Eq
  | None, Some _ => Lt
  | Some _, None => Gt
  | Some a, Some b => Qcompare a b
  end.

Definition _priority_compare (st : scheduler) (g h : pystr) : comparison :=
  let due g := default 0%Q (sc_next_due st !! g) in
  let failures g := default 0 (sc_failures st !! g) in
  let failing g := if failures g =? 0 then 0 else 1 in
  let last g := default None (sc_last st !! g) in
  lex [Qcompare (due g) (due h); failing g ?= failing h; failures g ?= failures h;
       last_compare (last g) (last h); compare_by str_leb g h].

Definition by_priority (st : scheduler) : list pystr -> list pystr :=
  merge_sort (fun g h => Is_true (not_gt (_priority_compare st g h))).

(** [refused g] is the exception [executor.submit] raises for [g], if any. *)
Definition admit_poll (refused : pystr -> option exn) (graph_id : pystr) : sched unit :=
  _ ← modify_sched (fun st => _increment polls_started (set_work ({[graph_id]} ∪ sc_running st) (sc_futures st) st));
  _ ← lift_sched (match refused graph_id with Some x => Err x | None => Ok tt end);
  modify_sched (fun st => set_work (sc_running st)
    (if bool_decide (graph_id ∈ sc_futures st) then sc_futures st else sc_futures st ++ [graph_id]) st).

Definition _admit_due (refused : pystr -> option exn) (now : Q) : sched unit :=
  st ← get_sched;
  let capacity := p_max_concurrent self - Z.of_nat (size (sc_running st)) in
  let due := due_graphs st now in
  _ ← modify_sched (set_due (Z.of_nat (length due)));
  if capacity <=? 0 then mret tt
  else
    let capacity := if bool_decide (sc_startup st = ∅) then capacity else Z.min capacity (p_startup_batch self) in
    each_graph (take (Z.to_nat capacity) (by_priority st due)) (admit_poll refused).

Definition least (l : list Q) : option Q :=
  match l with [] => None | x :: rest => Some (foldl qmin x rest) end.

(** The due times that are still to come. *)
Definition coming (st : scheduler) (now : Q) : list Q :=
  List.filter (fun due => negb (Qle_bool due now)) (map_to_list (sc_next_due st)).*2.

Definition _wait_seconds (st : scheduler) (now : Q) : Q :=
  if p_max_concurrent self <=? Z.of_nat (size (sc_running st)) then p_wake self
  else
    match least (coming st now) with
    | None => p_wake self
    | Some next => qmin (p_wake self) (qmax (1 # 100) (next - now))
    end.

(** ** The loop *)

Record turn := MkTurn {
  t_stop : bool;                                 (** the stop event at the head of the loop *)
  t_now : Q;
  t_configured : res (list (pyval * pyval));
  t_finished : pystr -> option (res PollOutcome);
  t_refused : pystr -> option exn
}.

Definition run_turn (t : turn) : sched Q :=
  target_ids ← _target_ids (t_configured t);
  _ ← _sync_targets target_ids (t_now t);
  _ ← _collect_completed (t_finished t) (t_now t);
  _ ← _admit_due (t_refused t) (t_now t);
  st ← get_sched;
  mret (_wait_seconds st (t_now t)).

Fixpoint run_turns (turns : list turn) : sched unit :=
  match turns with
  | [] => mret tt
  | t :: rest => if t_stop t then mret tt else _ ← run_turn t; run_turns rest
  end.

Definition _run (turns : list turn) (st : scheduler) : scheduler :=
  let st := match run_turns turns st with
            | (Ok _, st') => st'
            | (Err _, st') => set_category (Some (lit "scheduler_failed")) (set_status (sc_started st') Degraded st')
            end in
  set_startup ∅ (set_work ∅ [] st).

Definition start (thread_alive : bool) (st : scheduler) : res scheduler :=
  if thread_alive then Err (RuntimeError "polling scheduler is already started")
  else if sc_started st then Err (RuntimeError "polling scheduler cannot be restarted")
  else Ok (set_status true Running st).

(** [joined]: the thread ended within the shutdown timeout. *)
Definition stop (joined : bool) (st : scheduler) : res scheduler :=
  if negb joined then Err (RuntimeError "polling scheduler did not stop")
  else Ok (if bool_decide (sc_status st = Degraded) then st else set_status (sc_started st) Stopped st).

(** ** Health *)

(** [round(q, 3)]: to the nearest thousandth, ties to even. *)
Definition round3 (q : Q) : Q :=
  let x := (q * 1000)%Q in
  let f := Qfloor x in
  let n := match Qcompare (x - inject_Z f) (1 # 2) with
           | Lt => f
           | Gt => f + 1
           | Eq => if Z.even f then f else f + 1
           end in
  Qmake n 1000.

Record health_report := MkHealth {
  hr_status : scheduler_status; hr_eligible : Z; hr_due : Z; hr_running : Z; hr_capacity : Z;
  hr_hash_budget : Z; hr_open_files : Z; hr_startup_backlog : Z; hr_count : counter -> Z;
  hr_in_backoff : Z; hr_oldest_due : option Q; hr_next_poll : option Q; hr_category : option pystr
}.

(** [max_total_bytes] is that of [DEFAULT_SOURCE_GENERATION_LIMITS]. *)
Definition health (max_total_bytes : Z) (now : Q) (st : scheduler) : health_report :=
  let due_values := (List.filter (fun kv => is_due st now kv.1 kv.2) (map_to_list (sc_next_due st))).*2 in
  let backoff := List.filter (fun gf => negb (gf.2 =? 0) &&
    negb (Qle_bool (default now (sc_next_due st !! gf.1)) now)) (map_to_list (sc_failures st)) in
  MkHealth (sc_status st) (sc_eligible st) (Z.of_nat (length due_values)) (Z.of_nat (size (sc_running st)))
    (p_max_concurrent self) (p_max_concurrent self * max_total_bytes) (p_max_concurrent self)
    (Z.of_nat (size (sc_startup st))) (sc_count st) (Z.of_nat (length backoff))
    (match least due_values with None => None | Some d => Some (round3 (qmax 0 (now - d))) end)
    (match due_values with
     | _ :: _ => Some 0%Q
     | [] => match least (coming st now) with None => None | Some d => Some (round3 (d - now)) end
     end)
    (sc_category st).

End Polling.
