(* ===== verification/PollingFacts.v ===== *)
(** What the polling scheduler guarantees: its bookkeeping is consistent and bounded,
    polls are spaced and not starved. *)
From S2P Require Import Prelude Utf8 Sha256 PyVal Ordering Limits Semantics Coordinator DesiredState Polling.
From S2P Require Import ControlDb ControlDbFacts.
From Stdlib Require Import QArith Qround Qpower Lqa.
Open Scope Z_scope.

(** ** Jitter *)

Lemma lor_bound a b n : 0 <= a < 2 ^ n -> 0 <= b < 2 ^ n -> 0 <= Z.lor a b < 2 ^ n.
Proof.
  intros Ha Hb. destruct (Z.eq_dec (Z.lor a b) 0) as [->|Hne]; [lia|].
  assert (0 <= Z.lor a b) as H0 by (apply Z.lor_nonneg; lia). split; [done|].
  apply Z.log2_lt_pow2; [lia|]. rewrite Z.log2_lor by lia.
  destruct (Z.eq_dec a 0) as [->|]; [|destruct (Z.eq_dec b 0) as [->|]].
  - rewrite Z.lor_0_l in *. apply Z.max_lub_lt; [|apply Z.log2_lt_pow2; lia].
    apply (Z.le_lt_trans _ (Z.log2 b)); [apply Z.log2_nonneg|apply Z.log2_lt_pow2; lia].
  - rewrite Z.lor_0_r in *. apply Z.max_lub_lt; [apply Z.log2_lt_pow2; lia|].
    apply (Z.le_lt_trans _ (Z.log2 a)); [apply Z.log2_nonneg|apply Z.log2_lt_pow2; lia].
  - apply Z.max_lub_lt; apply Z.log2_lt_pow2; lia.
Qed.

Lemma word_of_bound b : Forall is_byte b -> 0 <= word_of b < 2 ^ (8 * Z.of_nat (length b)).
Proof.
  unfold word_of. intros Hb.
  assert (forall acc k, 0 <= k -> 0 <= acc < 2 ^ k ->
    0 <= foldl (fun acc x => Z.lor (Z.shiftl acc 8) x) acc b < 2 ^ (k + 8 * Z.of_nat (length b))) as H.
  { induction Hb as [|x b Hx Hb IH]; intros acc k Hk Hacc; cbn [foldl length].
    - by rewrite Z.add_0_r.
    - replace (k + 8 * Z.of_nat (S (length b))) with ((k + 8) + 8 * Z.of_nat (length b)) by lia.
      apply IH; [lia|]. unfold is_byte in Hx. rewrite Z.shiftl_mul_pow2 by lia. rewrite Z.pow_add_r by lia.
      rewrite <- Z.pow_add_r by lia. apply lor_bound; rewrite Z.pow_add_r by lia.
      + change (2 ^ 8) with 256. nia.
      + change (2 ^ 8) with 256. assert (0 < 2 ^ k) by (apply Z.pow_pos_nonneg; lia). nia. }
  apply (H 0 0); lia.
Qed.

Lemma sha256_bytes data : Forall is_byte (sha256 data).
Proof.
  unfold sha256. apply Forall_bind. apply Forall_forall. intros x _. unfold big_endian.
  apply Forall_fmap, Forall_forall. intros i _. cbn. unfold is_byte.
  change 255 with (Z.ones 8). rewrite Z.land_ones by lia. apply Z.mod_pos_bound. done.
Qed.

Section Facts.
Variable self : policy.

(** What [make_policy] checks. *)
Definition policy_ok : Prop :=
  (0 < p_interval self)%Q /\ (0 < p_retry self)%Q /\ (0 <= p_jitter self)%Q /\ 0 < p_max_concurrent self /\
  0 < p_startup_batch self /\ (p_retry self <= p_max_retry self)%Q /\ (1 <= p_multiplier self)%Q /\
  (0 < p_wake self)%Q.

Lemma jitter_bound g j : (0 <= p_jitter self)%Q -> _deterministic_jitter self g = Ok j -> (0 <= j <= p_jitter self)%Q.
Proof.
  intros Hp. unfold _deterministic_jitter. destruct (Qeq_bool _ _); [intros [= <-]; split; [apply Qle_refl|done]|].
  destruct (utf8_encode g) as [bytes|]; [|done]. intros [= <-].
  assert (0 <= word_of (take 4 (sha256 bytes)) < 2 ^ 32) as [H0 H1].
  { pose proof (word_of_bound (take 4 (sha256 bytes)) (Forall_take _ _ _ (sha256_bytes bytes))) as H.
    split; [apply H|]. eapply Z.lt_le_trans; [apply H|]. apply Z.pow_le_mono_r; [lia|].
    rewrite length_take. lia. }
  revert H0 H1. generalize (word_of (take 4 (sha256 bytes))). intros w H0 H1.
  assert (0 <= w # 2 ^ 32 <= 1)%Q as [Hl Hu].
  { unfold Qle. cbn [Qnum Qden]. change (Z.pos (2 ^ 32)) with (2 ^ 32). lia. }
  revert Hl Hu Hp. generalize (w # 2 ^ 32) (p_jitter self). intros x y. nra.
Qed.

(** ** The invariant *)

Definition spaced (last : option Q) (due : Q) : Prop :=
  match last with
  | None => True
  | Some t => (t + qmin (p_interval self) (p_retry self) <= due)%Q /\
              (due <= t + qmax (p_interval self) (p_max_retry self) + p_jitter self)%Q
  end.

Record sched_ok (st : scheduler) : Prop := {
  ok_failures_dom : dom (sc_failures st) = dom (sc_next_due st);
  ok_last_dom : dom (sc_last st) = dom (sc_next_due st);
  ok_startup : sc_startup st ⊆ dom (sc_next_due st);
  ok_failures : map_Forall (fun _ n => 0 <= n <= 31) (sc_failures st);
  ok_futures : NoDup (sc_futures st);
  ok_running : sc_running st = list_to_set (sc_futures st);
  ok_capacity : Z.of_nat (size (sc_running st)) <= p_max_concurrent self;
  ok_counts c : 0 <= sc_count st c <= _MAX_HEALTH_COUNTER;
  ok_started : sc_count st polls_completed + Z.of_nat (size (sc_running st)) <= sc_count st polls_started \/
               sc_count st polls_started = _MAX_HEALTH_COUNTER;
  ok_completed c : c <> polls_started -> sc_count st c <= sc_count st polls_completed;
  ok_spaced g last due : sc_last st !! g = Some last -> sc_next_due st !! g = Some due -> spaced last due
}.

(** A step that, when it ends normally, keeps a property of the state. *)
Definition keeps_of (I : scheduler -> Prop) {A} (m : sched A) : Prop :=
  forall st a st', I st -> m st = (Ok a, st') -> I st'.
Abbreviation keeps m := (keeps_of sched_ok m).

Lemma sched_bind_Ok {A B} (m : sched A) (f : A -> sched B) st b st' :
  (m ≫= f) st = (Ok b, st') -> exists a st1, m st = (Ok a, st1) /\ f a st1 = (Ok b, st').
Proof. unfold mbind, sched_bind. destruct (m st) as [[a|x] st1]; [eauto|done]. Qed.

Lemma kept_bind I {A B} (m : sched A) (f : A -> sched B) :
  keeps_of I m -> (forall a, keeps_of I (f a)) -> keeps_of I (m ≫= f).
Proof. intros Hm Hf st b st' Hi (a & st1 & H1 & H2)%sched_bind_Ok. exact (Hf a _ _ _ (Hm _ _ _ Hi H1) H2). Qed.

Lemma kept_modify (I : scheduler -> Prop) f : (forall st, I st -> I (f st)) -> keeps_of I (modify_sched f).
Proof. intros Hf st a st' Hi [= _ <-]. auto. Qed.

Lemma kept_lift (I : scheduler -> Prop) {A} (r : res A) : keeps_of I (lift_sched r).
Proof. by intros st a st' Hi [= _ <-]. Qed.

Lemma kept_ret (I : scheduler -> Prop) {A} (a : A) : keeps_of I (mret a).
Proof. by intros st b st' Hi [= _ <-]. Qed.

Lemma kept_get (I : scheduler -> Prop) : keeps_of I get_sched.
Proof. by intros st a st' Hi [= _ <-]. Qed.

Lemma kept_each (I : scheduler -> Prop) {A} (l : list A) body :
  (forall x, keeps_of I (body x)) -> keeps_of I (each_graph l body).
Proof.
  intros Hb. induction l as [|x l IH]; [apply kept_ret|]. cbn. apply kept_bind; [apply Hb|]. by intros _.
Qed.

Lemma keeps_target_ids configured : keeps (_target_ids configured).
Proof.
  unfold _target_ids. destruct configured as [targets|x]; [apply kept_lift|].
  destruct (_ || _); [|apply kept_lift]. apply kept_bind; [|intros; apply kept_ret].
  apply kept_modify. intros st []. by split.
Qed.

Lemma add_target_ok now st g : sched_ok st -> sched_ok (add_target now st g).
Proof.
  intros [H1 H2 H3 H4 H5 H6 H7 H8 H9 H10 H11]. unfold add_target. case_bool_decide as Hg; [by split|].
  assert (sc_next_due st !! g = None) as Hn by (by apply eq_None_not_Some).
  assert (sc_last st !! g = None) as Hl by (apply not_elem_of_dom; rewrite H2; by apply not_elem_of_dom).
  assert (sc_failures st !! g = None) as Hf by (apply not_elem_of_dom; rewrite H1; by apply not_elem_of_dom).
  rewrite Hl, Hf. cbn. split; cbn; try done.
  - rewrite !dom_insert_L. by rewrite H1.
  - rewrite !dom_insert_L. by rewrite H2.
  - rewrite dom_insert_L. set_solver.
  - apply map_Forall_insert_2; [lia|done].
  - intros g' last due. destruct (decide (g = g')) as [<-|Hne].
    + rewrite !lookup_insert_eq. by intros [= <-].
    + rewrite !lookup_insert_ne by done. apply H11.
Qed.

Lemma drop_target_ok ids st g : sched_ok st -> sched_ok (drop_target ids st g).
Proof.
  intros [H1 H2 H3 H4 H5 H6 H7 H8 H9 H10 H11]. unfold drop_target. case_bool_decide as Hg; [by split|].
  split; cbn; try done.
  - rewrite !dom_delete_L. by rewrite H1.
  - rewrite !dom_delete_L. by rewrite H2.
  - rewrite dom_delete_L. set_solver.
  - by apply map_Forall_delete.
  - intros g' last due [_ Hl]%lookup_delete_Some [_ Hd]%lookup_delete_Some. eauto.
Qed.

Lemma foldl_keeps {A} (I : scheduler -> Prop) (f : scheduler -> A -> scheduler) l st :
  (forall st x, I st -> I (f st x)) -> I st -> I (foldl f st l).
Proof. intros Hf. revert st. induction l as [|x l IH]; intros st Hi; cbn; auto. Qed.

Lemma keeps_sync ids now : keeps (_sync_targets ids now).
Proof.
  apply kept_modify. intros st Hst. cbv zeta.
  pose proof (foldl_keeps sched_ok (drop_target ids)
    (map_to_list (sc_next_due (foldl (add_target now) st ids))).*1 (foldl (add_target now) st ids)) as H.
  destruct H as [H1 H2 H3 H4 H5 H6 H7 H8 H9 H10 H11].
  - intros; by apply drop_target_ok.
  - apply foldl_keeps; [intros; by apply add_target_ok|done].
  - by split.
Qed.

(** ** Outcomes *)

Lemma bump_other b c st c' : c' <> c -> sc_count (bump b c st) c' = sc_count st c'.
Proof. intros Hne. destruct b; [|done]. cbn. by rewrite bool_decide_eq_false_2. Qed.

Lemma bump_same b c st :
  sc_count (bump b c st) c = if b then Z.min _MAX_HEALTH_COUNTER (sc_count st c + 1) else sc_count st c.
Proof. destruct b; [|done]. cbn. by rewrite bool_decide_eq_true_2. Qed.

Lemma bump_rest f b c st : set_counts f (bump b c st) = set_counts f st.
Proof. by destruct b. Qed.

(** An outcome changes counters and the category only. *)
Lemma record_outcome_rest o st :
  exists f, _record_outcome o st = set_counts f (set_category (Some (po_category o)) st).
Proof.
  exists (sc_count (_record_outcome o st)).
  transitivity (set_counts (sc_count (_record_outcome o st)) (_record_outcome o st)).
  - by destruct (_record_outcome o st).
  - generalize (sc_count (_record_outcome o st)). intros f. unfold _record_outcome. cbv zeta. by rewrite !bump_rest.
Qed.

Lemma record_outcome_counts o st c :
  sc_count (_record_outcome o st) c = sc_count st c \/
  (c <> polls_started /\ c <> polls_completed /\
   sc_count (_record_outcome o st) c = Z.min _MAX_HEALTH_COUNTER (sc_count st c + 1)).
Proof.
  unfold _record_outcome. cbv zeta.
  destruct c; repeat rewrite bump_other by done; rewrite ?bump_same; repeat rewrite bump_other by done;
    first [by left | by (case_match; [right|left])].
Qed.

Lemma size_remove (X : gset pystr) g : g ∈ X -> Z.of_nat (size (X ∖ {[g]})) = Z.of_nat (size X) - 1.
Proof.
  intros Hg. rewrite size_difference by set_solver. rewrite size_singleton.
  assert (size ({[g]} : gset pystr) <= size X)%nat as Hs by (apply subseteq_size; set_solver).
  rewrite size_singleton in Hs. lia.
Qed.

Lemma filter_neq_set (l : list pystr) g :
  list_to_set (List.filter (fun h => negb (bool_decide (h = g))) l) = (list_to_set l : gset pystr) ∖ {[g]}.
Proof.
  apply set_eq. intros x. rewrite elem_of_difference, !elem_of_list_to_set, elem_of_singleton, !list_elem_of_In.
  by rewrite filter_In, negb_true_iff, bool_decide_eq_false.
Qed.

(** The first half of [_finish_poll]. *)
Definition finished_work (g : pystr) (o : PollOutcome) (st : scheduler) : scheduler :=
  let st := _record_outcome o st in
  set_startup (sc_startup st ∖ {[g]})
    (_increment polls_completed
       (set_work (sc_running st ∖ {[g]})
          (List.filter (fun h => negb (bool_decide (h = g))) (sc_futures st)) st)).

Lemma finished_counts g o st c :
  sched_ok st ->
  let n := sc_count (finished_work g o st) in
  sc_count st c <= n c <= _MAX_HEALTH_COUNTER /\
  n polls_started = sc_count st polls_started /\
  n polls_completed = Z.min _MAX_HEALTH_COUNTER (sc_count st polls_completed + 1) /\
  (c <> polls_started -> n c <= n polls_completed).
Proof.
  intros Hok. pose proof (ok_counts _ Hok) as Hc. pose proof (ok_completed _ Hok) as Hle.
  cbv zeta. unfold finished_work. cbv zeta. cbn [sc_count set_startup set_schedule _increment set_counts set_work].
  pose proof (record_outcome_counts o st polls_started) as [E1|(? & _)]; [|done].
  pose proof (record_outcome_counts o st polls_completed) as [E2|(_ & ? & _)]; [|done].
  rewrite !(bool_decide_eq_true_2 (polls_completed = polls_completed)), (bool_decide_eq_false_2 (polls_started = polls_completed)) by done.
  rewrite E1, E2. specialize (Hle c). pose proof (Hc c). pose proof (Hc polls_completed).
  case_bool_decide as Hcc; [subst c; split_and!; lia|].
  destruct (record_outcome_counts o st c) as [->|(? & ? & ->)]; split_and!; try lia; intros Hs;
    specialize (Hle Hs); lia.
Qed.

Lemma finished_work_ok g o st : sched_ok st -> g ∈ sc_futures st -> sched_ok (finished_work g o st).
Proof.
  intros Hok Hg. pose proof (fun c => finished_counts g o st c Hok) as Hn. cbv zeta in Hn.
  destruct (record_outcome_rest o st) as [f Hf]. destruct Hok as [H1 H2 H3 H4 H5 H6 H7 H8 H9 H10 H11].
  assert (g ∈ sc_running st) as Hr by (rewrite H6; by apply elem_of_list_to_set).
  pose proof (size_remove _ _ Hr) as Hsz.
  split; [..|intros c; destruct (Hn c); pose proof (H8 c); lia| |intros c Hc; by apply (Hn c)|];
    unfold finished_work; cbv zeta; rewrite Hf; cbn; try done.
  - set_solver.
  - by apply NoDup_ListNoDup, List.NoDup_filter, NoDup_ListNoDup.
  - by rewrite filter_neq_set, H6.
  - lia.
  - destruct (Hn polls_started) as (_ & Hs & Hc & _). unfold finished_work in Hs, Hc. cbv zeta in Hs, Hc.
    rewrite Hf in Hs, Hc. cbn in Hs, Hc. rewrite Hs, Hc.
    pose proof (H8 polls_started). destruct H9; [left|right]; lia.
Qed.

Lemma delay_bounds (failed : bool) n :
  policy_ok -> 1 <= n ->
  let delay := if failed then retry_delay self n else p_interval self in
  (qmin (p_interval self) (p_retry self) <= delay)%Q /\ (delay <= qmax (p_interval self) (p_max_retry self))%Q.
Proof.
  intros (Hi & Hr & _ & _ & _ & Hm & Hmul & _) Hn. cbv zeta.
  assert (forall a b, qmin a b <= b)%Q as Hminr.
  { intros a b. unfold qmin. destruct (Qle_bool a b) eqn:E; [by apply Qle_bool_iff|apply Qle_refl]. }
  assert (forall a b, a <= qmax a b)%Q as Hmaxl.
  { intros a b. unfold qmax. destruct (Qle_bool b a) eqn:E; [apply Qle_refl|].
    apply Qlt_le_weak, Qnot_le_lt. by rewrite <- Qle_bool_iff, E. }
  assert (forall a b, b <= qmax a b)%Q as Hmaxr.
  { intros a b. unfold qmax. destruct (Qle_bool b a) eqn:E; [by apply Qle_bool_iff|apply Qle_refl]. }
  destruct failed; [|split; [apply qmin_le_l|apply Hmaxl]]. unfold retry_delay. split.
  - apply qmin_glb; [eapply Qle_trans; [apply Hminr|done]|].
    eapply Qle_trans; [apply Hminr|].
    assert (1 <= p_multiplier self ^ (n - 1))%Q as Hp.
    { apply Qpower_1_le; [done|lia]. }
    revert Hp Hr. generalize (p_multiplier self ^ (n - 1))%Q (p_retry self). intros x y. nra.
  - eapply Qle_trans; [apply qmin_le_l|apply Hmaxr].
Qed.

(** What a finished poll leaves: the work is done, and a graph still polled is due later. *)
Definition rescheduled (g : pystr) (o : PollOutcome) (now : Q) (st : scheduler) (jitter : Q) : scheduler :=
  let failed := category_in (po_category o) _RETRY_CATEGORIES in
  let failures := if failed then Z.min (default 0 (sc_failures st !! g) + 1) 31 else 0 in
  let delay := if failed then retry_delay self failures else p_interval self in
  set_schedule (<[g := (now + delay + jitter)%Q]> (sc_next_due st)) (<[g := failures]> (sc_failures st))
    (<[g := Some now]> (sc_last st)) (sc_startup st) st.

Lemma finish_poll_Ok g o now st u st' :
  _finish_poll self g o now st = (Ok u, st') ->
  let st1 := finished_work g o st in
  (sc_next_due st1 !! g = None /\ st' = st1) \/
  (is_Some (sc_next_due st1 !! g) /\
   exists jitter, _deterministic_jitter self g = Ok jitter /\ st' = rescheduled g o now st1 jitter).
Proof.
  unfold _finish_poll. intros (u1 & st1 & [= _ <-] & (u2 & st2 & [= _ Hw] & H)%sched_bind_Ok)%sched_bind_Ok.
  apply sched_bind_Ok in H as (st3 & st4 & [= <- <-] & H). cbv zeta.
  change (finished_work g o st = st2) in Hw. rewrite Hw.
  case_bool_decide as Hn; [injection H as _ <-; by left|]. right. split; [by apply not_eq_None_Some|].
  apply sched_bind_Ok in H as (u3 & st3 & [= _ <-] & H).
  apply sched_bind_Ok in H as (jitter & st4 & [= Hj <-] & [= _ <-]). by exists jitter.
Qed.

Lemma rescheduled_ok g o now st jitter :
  policy_ok -> sched_ok st -> is_Some (sc_next_due st !! g) -> _deterministic_jitter self g = Ok jitter ->
  sched_ok (rescheduled g o now st jitter).
Proof.
  intros Hp [H1 H2 H3 H4 H5 H6 H7 H8 H9 H10 H11] Hg Hj.
  apply jitter_bound in Hj as [Hj0 Hj1]; [|apply Hp]. assert (g ∈ dom (sc_next_due st)) as Hd by (by apply elem_of_dom).
  assert (0 <= default 0 (sc_failures st !! g) <= 31) as Hf0.
  { destruct (sc_failures st !! g) as [n|] eqn:E; cbn; [by apply (H4 g)|lia]. }
  unfold rescheduled. cbv zeta. generalize (category_in (po_category o) _RETRY_CATEGORIES). intros failed.
  split; cbn; try done.
  - rewrite !dom_insert_L. by rewrite H1.
  - rewrite !dom_insert_L. by rewrite H2.
  - rewrite dom_insert_L. set_solver.
  - apply map_Forall_insert_2; [destruct failed; lia|done].
  - intros g' last due. destruct (decide (g = g')) as [<-|Hne]; cycle 1.
    { rewrite !lookup_insert_ne by done. apply H11. }
    rewrite !lookup_insert_eq. intros [= <-] [= <-]. cbn.
    destruct failed; [pose proof (delay_bounds true (Z.min (default 0 (sc_failures st !! g) + 1) 31) Hp)
      as [Hlo Hhi]; [lia|]|pose proof (delay_bounds false 1 Hp) as [Hlo Hhi]; [lia|]]; lra.
Qed.

Lemma finish_poll_ok g o now st u st' :
  policy_ok -> sched_ok st -> g ∈ sc_futures st -> _finish_poll self g o now st = (Ok u, st') ->
  sched_ok st' /\ sc_futures st' = List.filter (fun h => negb (bool_decide (h = g))) (sc_futures st).
Proof.
  intros Hp Hok Hg H. pose proof (finished_work_ok g o st Hok Hg) as Hok1.
  assert (sc_futures (finished_work g o st) = List.filter (fun h => negb (bool_decide (h = g))) (sc_futures st)) as Hf.
  { unfold finished_work. cbv zeta. destruct (record_outcome_rest o st) as [f ->]. done. }
  apply finish_poll_Ok in H as [[_ ->]|[Hs (jitter & Hj & ->)]]; [done|].
  split; [by apply rescheduled_ok|done].
Qed.

Lemma keeps_collect finished now : policy_ok -> keeps (_collect_completed self finished now).
Proof.
  intros Hp st u st' Hok H. unfold _collect_completed in H.
  apply sched_bind_Ok in H as (st1 & st2 & [= <- <-] & H).
  set (l := List.filter _ (sc_futures st)) in H.
  assert (NoDup l) as Hl by (apply NoDup_ListNoDup, List.NoDup_filter, NoDup_ListNoDup, ok_futures, Hok).
  assert (forall g, g ∈ l -> g ∈ sc_futures st) as Hin.
  { intros g. unfold l. rewrite !list_elem_of_In, filter_In. by intros [? _]. }
  clearbody l. revert st u st' Hok H Hin. induction Hl as [|g l Hg Hl IH]; intros st u st' Hok H Hin; cbn in H.
  { by injection H as _ <-. }
  apply sched_bind_Ok in H as (u1 & st1 & H1 & H2).
  apply finish_poll_ok in H1 as [Hok1 Hf]; [|done|done|apply Hin; set_solver].
  eapply IH; [exact Hok1|exact H2|]. intros h Hh. rewrite Hf, list_elem_of_In, filter_In, <- list_elem_of_In.
  split; [apply Hin; set_solver|]. rewrite bool_decide_eq_false_2; [done|]. by intros ->.
Qed.

(** ** Admission *)

Definition admitted_one (g : pystr) (st : scheduler) : scheduler :=
  let st1 := _increment polls_started (set_work ({[g]} ∪ sc_running st) (sc_futures st) st) in
  set_work (sc_running st1)
    (if bool_decide (g ∈ sc_futures st1) then sc_futures st1 else sc_futures st1 ++ [g]) st1.

Lemma admit_Ok refused g st u st' : admit_poll refused g st = (Ok u, st') -> st' = admitted_one g st.
Proof.
  unfold admit_poll. intros (u1 & st1 & [= _ <-] & (u2 & st2 & [= _ <-] & [= _ <-])%sched_bind_Ok)%sched_bind_Ok. done.
Qed.

Lemma admitted_one_ok g st :
  sched_ok st -> g ∉ sc_running st -> Z.of_nat (size (sc_running st)) < p_max_concurrent self ->
  sched_ok (admitted_one g st).
Proof.
  intros [H1 H2 H3 H4 H5 H6 H7 H8 H9 H10 H11] Hg Hc.
  assert (g ∉ sc_futures st) as Hf by (rewrite H6 in Hg; set_solver).
  assert (size ({[g]} ∪ sc_running st) = S (size (sc_running st))) as Hsz.
  { by rewrite size_union, size_singleton by set_solver. }
  unfold admitted_one. cbv zeta. cbn [sc_futures _increment set_counts set_work sc_running].
  rewrite bool_decide_eq_false_2 by done.
  split; cbn; try done.
  - apply NoDup_app. split_and!; [done|set_solver|apply NoDup_singleton].
  - rewrite list_to_set_app_L, H6. set_solver.
  - lia.
  - intros c. pose proof (H8 c). pose proof (H8 polls_started). case_bool_decide; unfold _MAX_HEALTH_COUNTER in *; lia.
  - rewrite bool_decide_eq_false_2, bool_decide_eq_true_2 by done. pose proof (H8 polls_started).
    destruct H9; [|right; lia].
    destruct (decide (sc_count st polls_started = _MAX_HEALTH_COUNTER)); [right; lia|left; lia].
  - intros c Hne. rewrite bool_decide_eq_false_2 by done. by apply H10.
Qed.

Lemma admit_all refused l st u st' :
  sched_ok st -> NoDup l -> (forall g, g ∈ l -> g ∉ sc_running st) ->
  Z.of_nat (size (sc_running st)) + Z.of_nat (length l) <= p_max_concurrent self ->
  each_graph l (admit_poll refused) st = (Ok u, st') ->
  sched_ok st' /\ sc_running st' = list_to_set l ∪ sc_running st /\ sc_next_due st' = sc_next_due st.
Proof.
  intros Hok Hl. revert st u st' Hok. induction Hl as [|g l Hg Hl IH]; intros st u st' Hok Hin Hc H; cbn in H.
  { injection H as _ <-. split_and!; [done|set_solver|done]. }
  apply sched_bind_Ok in H as (u1 & st1 & ->%admit_Ok & H). cbn [length] in Hc.
  assert (g ∉ sc_running st) as Hg' by (apply Hin; set_solver).
  assert (size (sc_running (admitted_one g st)) = S (size (sc_running st))) as Hsz.
  { cbn. by rewrite size_union, size_singleton by set_solver. }
  apply IH in H as (Hok' & Hr & Hn).
  - split_and!; [done| |done]. rewrite Hr. cbn. set_solver.
  - apply admitted_one_ok; [done|done|lia].
  - intros h Hh. cbn. rewrite not_elem_of_union, not_elem_of_singleton. split; [by intros ->|apply Hin; set_solver].
  - rewrite Hsz. lia.
Qed.

Lemma elem_of_due st now g :
  g ∈ due_graphs st now <-> exists d, sc_next_due st !! g = Some d /\ g ∉ sc_running st /\ (d <= now)%Q.
Proof.
  unfold due_graphs, is_due. rewrite list_elem_of_fmap. split.
  - intros ([g' d] & -> & H). rewrite list_elem_of_In, filter_In, <- list_elem_of_In, elem_of_map_to_list in H.
    destruct H as [Hd [Hr Hq]%andb_true_iff]. exists d. cbn in *. apply Qle_bool_iff in Hq.
    apply negb_true_iff, bool_decide_eq_false in Hr. done.
  - intros (d & Hd & Hr & Hq). exists (g, d). split; [done|].
    rewrite list_elem_of_In, filter_In, <- list_elem_of_In, elem_of_map_to_list. split; [done|].
    cbn. rewrite bool_decide_eq_false_2 by done. by apply Qle_bool_iff.
Qed.

Lemma NoDup_due st now : NoDup (due_graphs st now).
Proof.
  unfold due_graphs. eapply sublist_NoDup; [apply (NoDup_fst_map_to_list (sc_next_due st))|].
  apply fmap_sublist. induction (map_to_list (sc_next_due st)) as [|x l IH]; cbn; [constructor|].
  destruct (is_due _ _ _ _); by constructor.
Qed.

(** The graphs a turn with room admits. *)
Definition room (st : scheduler) : Z :=
  let capacity := p_max_concurrent self - Z.of_nat (size (sc_running st)) in
  if bool_decide (sc_startup st = ∅) then capacity else Z.min capacity (p_startup_batch self).

Definition selected (st : scheduler) (now : Q) : list pystr :=
  take (Z.to_nat (room st)) (by_priority st (due_graphs st now)).

Lemma selected_due st now g : g ∈ selected st now -> g ∈ due_graphs st now.
Proof.
  unfold selected, by_priority. intros H%elem_of_take_sub. by rewrite merge_sort_Permutation in H.
Qed.

Lemma NoDup_selected st now : NoDup (selected st now).
Proof.
  unfold selected, by_priority. eapply sublist_NoDup; [|apply sublist_take].
  rewrite merge_sort_Permutation. apply NoDup_due.
Qed.

Lemma admit_due_Ok refused now st u st' :
  policy_ok -> sched_ok st -> _admit_due self refused now st = (Ok u, st') ->
  sched_ok st' /\ sc_next_due st' = sc_next_due st /\
  sc_running st' = (if Z.of_nat (size (sc_running st)) <? p_max_concurrent self
                    then list_to_set (selected st now) else ∅) ∪ sc_running st.
Proof.
  unfold _admit_due. intros (_ & _ & _ & _ & Hb & _) Hok (st0 & st0' & [= <- <-] & (u1 & st1 & [= _ Hst1] & H)%sched_bind_Ok)%sched_bind_Ok.
  assert (sched_ok st1) as Hok1 by (subst st1; destruct Hok; by split).
  destruct (_ <=? 0) eqn:Hc.
  { injection H as _ <-. assert (Z.of_nat (size (sc_running st)) <? p_max_concurrent self = false) as -> by lia.
    subst st1. split_and!; [done|done|set_solver]. }
  assert (Z.of_nat (size (sc_running st)) <? p_max_concurrent self = true) as -> by lia.
  fold (room st) in H. change (each_graph (selected st now) (admit_poll refused) st1 = (Ok u, st')) in H.
  apply admit_all in H as (Hok' & Hr & Hn); [subst st1; done|done|apply NoDup_selected| |].
  - intros g (d & _ & Hg & _)%selected_due%elem_of_due. by subst st1.
  - assert (Z.of_nat (length (selected st now)) <= room st) as Hlen.
    { unfold selected. rewrite length_take. unfold room. destruct (bool_decide _); lia. }
    subst st1. cbn [sc_running set_due]. unfold room in Hlen. destruct (bool_decide _); lia.
Qed.

(** ** Turns *)

(** A turn up to the admission. *)
Definition before_admission (t : turn) : sched unit :=
  target_ids ← _target_ids (t_configured t);
  _ ← _sync_targets target_ids (t_now t);
  _collect_completed self (t_finished t) (t_now t).

Lemma run_turn_Ok t st w st' :
  run_turn self t st = (Ok w, st') ->
  exists st1, before_admission t st = (Ok tt, st1) /\ _admit_due self (t_refused t) (t_now t) st1 = (Ok tt, st').
Proof.
  unfold run_turn, before_admission. intros (ids & s1 & H1 & H)%sched_bind_Ok.
  apply sched_bind_Ok in H as (u2 & s2 & H2 & H). apply sched_bind_Ok in H as (u3 & s3 & H3 & H).
  apply sched_bind_Ok in H as (u4 & s4 & H4 & H). apply sched_bind_Ok in H as (s5 & s6 & [= <- <-] & [= _ <-]).
  exists s3. destruct u3, u4. split; [|done]. unfold mbind, sched_bind. by rewrite H1, H2.
Qed.

Lemma keeps_before t : policy_ok -> keeps (before_admission t).
Proof.
  intros Hp. unfold before_admission. apply kept_bind; [apply keeps_target_ids|]. intros ids.
  apply kept_bind; [apply keeps_sync|]. intros _. by apply keeps_collect.
Qed.

Lemma keeps_turn t : policy_ok -> keeps (run_turn self t).
Proof.
  intros Hp st w st' Hok (st1 & H1 & H2)%run_turn_Ok.
  apply (keeps_before t Hp) in H1; [|done]. by apply admit_due_Ok in H2 as [? _].
Qed.

Lemma keeps_turns turns : policy_ok -> keeps (run_turns self turns).
Proof.
  intros Hp. induction turns as [|t rest IH]; [apply kept_ret|]. cbn. destruct (t_stop t); [apply kept_ret|].
  apply kept_bind; [by apply keeps_turn|]. by intros _.
Qed.

Lemma start_ok : policy_ok -> sched_ok (set_status true Running new_scheduler).
Proof.
  intros (_ & _ & _ & Hm & _). split; cbn; try done.
  - constructor.
  - rewrite size_empty. lia.
  - left. rewrite size_empty. lia.
Qed.

(** ** Priorities *)

Lemma ordering_Q {A} (f : A -> Q) : ordering (fun x y => Qcompare (f x) (f y)).
Proof.
  split; intros x y *.
  - symmetry. apply Qcompare_antisym.
  - intros H%Qeq_alt. apply Qcompare_comp; [done|reflexivity].
  - rewrite <- !Qlt_alt. apply Qlt_trans.
Qed.

Lemma ordering_last {A} (f : A -> option Q) : ordering (fun x y => last_compare (f x) (f y)).
Proof.
  pose proof (ordering_Q (fun x : Q => x)) as [Ho He Hl]. split; intros x y *; unfold last_compare.
  - destruct (f x), (f y); first [done|apply Ho].
  - destruct (f x), (f y), (f z); first [done|apply He].
  - destruct (f x), (f y), (f z); first [done|apply Hl].
Qed.

Lemma priority_ordering st :
  let le g h := Is_true (not_gt (_priority_compare st g h)) in
  (forall g h, le g h \/ le h g) /\ (forall g h k, le g h -> le h k -> le g k).
Proof.
  cbv zeta. unfold _priority_compare. cbn [lex].
  apply (ordering_not_gt (fun g h =>
    lex2 (Qcompare (default 0%Q (sc_next_due st !! g)) (default 0%Q (sc_next_due st !! h)))
      (lex2 ((if default 0 (sc_failures st !! g) =? 0 then 0 else 1) ?=
             (if default 0 (sc_failures st !! h) =? 0 then 0 else 1))
         (lex2 (default 0 (sc_failures st !! g) ?= default 0 (sc_failures st !! h))
            (lex2 (last_compare (default None (sc_last st !! g)) (default None (sc_last st !! h)))
               (lex2 (compare_by str_leb g h) Eq)))))).
  apply ordering_lex; [apply (ordering_Q (fun g => default 0%Q (sc_next_due st !! g)))|].
  apply ordering_lex; [apply (ordering_Z (fun g => if default 0 (sc_failures st !! g) =? 0 then 0 else 1))|].
  apply ordering_lex; [apply (ordering_Z (fun g => default 0 (sc_failures st !! g)))|].
  apply ordering_lex; [apply (ordering_last (fun g => default None (sc_last st !! g)))|].
  apply (ordering_lex (fun g h => compare_by str_leb g h) (fun _ _ => Eq));
    [apply (ordering_by str_leb (fun g => g)), str_leb_order|by split].
Qed.

(** What is taken from an ordered list comes before what is left. *)
Lemma take_before {A} (R : relation A) `{!Transitive R} l n x y :
  StronglySorted R l -> x ∈ take n l -> y ∈ drop n l -> R x y.
Proof.
  intros Hs. revert n. induction Hs as [|z l Hs IH Hall]; intros n Hx Hy.
  { rewrite take_nil in Hx. set_solver. }
  destruct n as [|n]; cbn in *; [set_solver|]. apply elem_of_cons in Hx as [->|Hx]; [|by eapply IH].
  rewrite Forall_forall in Hall. apply Hall. rewrite <- (take_drop n l). set_solver.
Qed.

(** A due graph that is not selected is overtaken only by graphs due no later. *)
Lemma overtaken st now g d h :
  sc_next_due st !! g = Some d -> g ∈ due_graphs st now -> g ∉ selected st now -> h ∈ selected st now ->
  exists d', sc_next_due st !! h = Some d' /\ (d' <= d)%Q.
Proof.
  intros Hg Hdue Hns Hh. pose proof (priority_ordering st) as [Htot Htr]. cbv zeta in Htot, Htr.
  set (R := fun g h => Is_true (not_gt (_priority_compare st g h))) in *.
  assert (Total R) by (intros x y; apply Htot). assert (Transitive R) by (intros x y z; apply Htr).
  assert (StronglySorted R (by_priority st (due_graphs st now))) as Hs.
  { apply Sorted_StronglySorted, Sorted_merge_sort; apply _. }
  assert (R h g) as Hhg.
  { apply (take_before R _ (Z.to_nat (room st)) h g Hs Hh).
    assert (g ∈ by_priority st (due_graphs st now)) as Hin by (unfold by_priority; by rewrite merge_sort_Permutation).
    rewrite <- (take_drop (Z.to_nat (room st)) (by_priority st _)), elem_of_app in Hin.
    destruct Hin as [?|?]; [by destruct Hns|done]. }
  apply selected_due, elem_of_due in Hh as (d' & Hd' & _). exists d'. split; [done|].
  unfold R, _priority_compare in Hhg. rewrite Hd', Hg in Hhg. cbn [lex from_option id] in Hhg.
  apply Qle_alt. intros E. by rewrite E in Hhg.
Qed.

(** ** Progress *)

(** What the turn does to due times: they stay, or lie after [d]. *)
Definition only_later (d : Q) (st st' : scheduler) : Prop :=
  forall h d', sc_next_due st' !! h = Some d' -> sc_next_due st !! h = Some d' \/ (d < d')%Q.

Lemma only_later_trans d st1 st2 st3 : only_later d st1 st2 -> only_later d st2 st3 -> only_later d st1 st3.
Proof. intros H1 H2 h d' Hd. destruct (H2 _ _ Hd) as [Hd'|?]; [by apply H1|by right]. Qed.

(** A step of the synchronisation: nothing about running polls changes, the targets keep
    their due times, and others are later or gone. *)
Definition sync_step (d : Q) (ids : list pystr) (st st' : scheduler) : Prop :=
  only_later d st st' /\ sc_running st' = sc_running st /\ sc_futures st' = sc_futures st /\
  forall h d', h ∈ ids -> sc_next_due st !! h = Some d' -> sc_next_due st' !! h = Some d'.

Lemma sync_step_foldl {A} d ids (f : scheduler -> A -> scheduler) l st :
  (forall st x, sync_step d ids st (f st x)) -> sync_step d ids st (foldl f st l).
Proof.
  intros Hf. revert st. induction l as [|x l IH]; intros st; cbn [foldl].
  { split_and!; [by left|done|done|done]. }
  destruct (Hf st x) as (H1 & H2 & H3 & H4), (IH (f st x)) as (H5 & H6 & H7 & H8).
  split_and!; [by eapply only_later_trans|congruence|congruence|auto].
Qed.

Lemma sync_step_add d ids now st x : (d < now)%Q -> sync_step d ids st (add_target now st x).
Proof.
  intros Hd. unfold add_target. case_bool_decide as Hx; [split_and!; first [by left|done]|].
  apply eq_None_not_Some in Hx. split_and!; [|done|done|]; cbn.
  - intros h d'. cbn. destruct (decide (x = h)) as [->|Hne].
    + rewrite lookup_insert_eq. intros [= <-]. by right.
    + rewrite lookup_insert_ne by done. by left.
  - intros h d' _ Hh. rewrite lookup_insert_ne by (intros ->; congruence). done.
Qed.

Lemma sync_step_drop d ids st x : sync_step d ids st (drop_target ids st x).
Proof.
  unfold drop_target. case_bool_decide as Hx; [split_and!; first [by left|done]|]. split_and!; [|done|done|]; cbn.
  - intros h d'. cbn. intros [_ H]%lookup_delete_Some. by left.
  - intros h d' Hin Hh. rewrite lookup_delete_ne by (intros ->; done). done.
Qed.

Lemma sync_targets_step d ids now st u st' :
  (d < now)%Q -> _sync_targets ids now st = (Ok u, st') -> sync_step d ids st st'.
Proof.
  intros Hd [= _ <-].
  destruct (sync_step_foldl d ids (add_target now) ids st) as (H1 & H2 & H3 & H4).
  { intros. by apply sync_step_add. }
  destruct (sync_step_foldl d ids (drop_target ids) (map_to_list (sc_next_due (foldl (add_target now) st ids))).*1
    (foldl (add_target now) st ids)) as (H5 & H6 & H7 & H8).
  { intros. by apply sync_step_drop. }
  split_and!; cbn; [by eapply only_later_trans|congruence|congruence|auto].
Qed.

Lemma target_ids_same configured st ids st' :
  _target_ids configured st = (Ok ids, st') ->
  sc_next_due st' = sc_next_due st /\ sc_running st' = sc_running st /\ sc_futures st' = sc_futures st.
Proof.
  unfold _target_ids. destruct configured as [targets|x]; [by intros [= _ <-]|].
  destruct (_ || _); [|done]. by intros [= _ <-].
Qed.

Lemma rescheduled_later d g o now st jitter d' :
  policy_ok -> (d < now)%Q -> _deterministic_jitter self g = Ok jitter ->
  sc_next_due (rescheduled g o now st jitter) !! g = Some d' -> (d < d')%Q.
Proof.
  intros (Hi & Hr & Hj & _ & _ & Hm & Hmul & _) Hd [Hj0 _]%jitter_bound; [|done].
  unfold rescheduled. cbv zeta. generalize (category_in (po_category o) _RETRY_CATEGORIES). intros failed.
  cbn. rewrite lookup_insert_eq. intros [= <-].
  assert (0 < (if failed then retry_delay self (if failed then Z.min (default 0%Z (sc_failures st !! g) + 1) 31 else 0)
               else p_interval self))%Q as Hpos; [|lra].
  destruct failed; [|done]. unfold retry_delay, qmin. destruct (Qle_bool _ _); [lra|].
  assert (0 < p_multiplier self ^ (Z.min (default 0%Z (sc_failures st !! g) + 1) 31 - 1))%Q as Hp.
  { apply Qpower_0_lt. lra. }
  revert Hp Hr. generalize (p_multiplier self ^ (Z.min (default 0%Z (sc_failures st !! g) + 1) 31 - 1))%Q (p_retry self).
  intros x y. nra.
Qed.

(** Collecting a poll of another graph: its own due time is later, the rest stays. *)
Lemma finish_step d g h o now st u st' :
  policy_ok -> (d < now)%Q -> h <> g -> _finish_poll self h o now st = (Ok u, st') ->
  only_later d st st' /\ sc_next_due st' !! g = sc_next_due st !! g /\
  sc_running st' = sc_running st ∖ {[h]} /\ (forall x, x ∈ sc_futures st' -> x ∈ sc_futures st) /\
  forall d', sc_next_due st' !! h = Some d' -> (d < d')%Q.
Proof.
  intros Hp Hd Hne H. apply finish_poll_Ok in H. cbv zeta in H.
  assert (sc_next_due (finished_work h o st) = sc_next_due st /\
    sc_running (finished_work h o st) = sc_running st ∖ {[h]} /\
    forall x, x ∈ sc_futures (finished_work h o st) -> x ∈ sc_futures st) as (Hn & Hr & Hf).
  { unfold finished_work. cbv zeta. destruct (record_outcome_rest o st) as [f ->]. split_and!; [done|done|].
    intros x. cbn. rewrite !list_elem_of_In, filter_In. by intros [? _]. }
  destruct H as [[Hnone ->]|[Hs (jitter & Hj & ->)]].
  { split_and!; [unfold only_later; rewrite Hn; by left|by rewrite Hn|done|done|]. intros d'. congruence. }
  pose proof (fun d' => rescheduled_later d h o now (finished_work h o st) jitter d' Hp Hd Hj) as Hlater.
  assert (forall x, x <> h -> sc_next_due (rescheduled h o now (finished_work h o st) jitter) !! x =
    sc_next_due st !! x) as Hrest.
  { intros x Hx. unfold rescheduled. cbv zeta. cbn [sc_next_due set_schedule].
    by rewrite lookup_insert_ne, Hn by done. }
  split_and!; [|by apply Hrest|done|done|done].
  intros x d' Hx. destruct (decide (x = h)) as [->|Hxh]; [right; by apply Hlater|left].
  by rewrite Hrest in Hx.
Qed.

(** Collecting: the graphs that wait at [d] do not become more. *)
Lemma collect_step d g finished now st u st' :
  policy_ok -> (d < now)%Q -> g ∉ sc_futures st -> _collect_completed self finished now st = (Ok u, st') ->
  sc_next_due st' !! g = sc_next_due st !! g /\ sc_running st' ⊆ sc_running st /\
  forall x, x ∈ due_graphs st' d -> x ∈ due_graphs st d.
Proof.
  intros Hp Hd Hg H. unfold _collect_completed in H. apply sched_bind_Ok in H as (st1 & st2 & [= <- <-] & H).
  set (l := List.filter _ (sc_futures st)) in H.
  assert (g ∉ l) as Hl. { unfold l. rewrite list_elem_of_In, filter_In, <- list_elem_of_In. tauto. }
  clearbody l. clear Hg. revert st u st' H. induction l as [|h l IH]; intros st u st' H; cbn in H.
  { injection H as _ <-. done. }
  apply sched_bind_Ok in H as (u1 & st1 & H1 & H2).
  apply (finish_step d g) in H1 as (Hol & Hgd & Hr & _ & Hlater); [|done|done|set_solver].
  apply IH in H2 as (Hgd2 & Hr2 & Hw2); [|set_solver].
  split_and!; [congruence|set_solver|]. intros x (d' & Hd' & Hxr & Hq)%Hw2%elem_of_due.
  destruct (Hol _ _ Hd') as [Hold|?]; [|lra].
  apply elem_of_due. exists d'. split_and!; [done| |done]. intros Hin. apply Hxr. rewrite Hr.
  apply elem_of_difference. split; [done|]. rewrite elem_of_singleton. intros ->.
  specialize (Hlater _ Hd'). lra.
Qed.

(** The resolver names the graph as one to poll. *)
Definition wants (t : turn) (g : pystr) : Prop :=
  exists targets ids, t_configured t = Ok targets /\ wanted_ids targets = Ok ids /\ g ∈ ids.

(** A turn in which, once finished polls are collected, another poll may start. *)
Definition has_room (t : turn) (st : scheduler) : bool :=
  Z.of_nat (size (sc_running (before_admission t st).2)) <? p_max_concurrent self.

(** Up to the admission, the graph keeps its due time and the queue before it does not grow. *)
Lemma before_step d g t st u st1 :
  policy_ok -> sched_ok st -> (d < t_now t)%Q -> wants t g ->
  sc_next_due st !! g = Some d -> g ∉ sc_running st -> before_admission t st = (Ok u, st1) ->
  sc_next_due st1 !! g = Some d /\ g ∉ sc_running st1 /\
  forall x, x ∈ due_graphs st1 d -> x ∈ due_graphs st d.
Proof.
  intros Hp Hok Hd (targets & ids & Ht & Hids & Hg) Hdue Hnr H.
  unfold before_admission in H. rewrite Ht in H.
  apply sched_bind_Ok in H as (ids' & sa & Ha & H). cbn in Ha. unfold lift_sched in Ha.
  rewrite Hids in Ha. injection Ha as <- <-.
  apply sched_bind_Ok in H as (u2 & sb & Hb & H).
  apply (sync_targets_step d) in Hb as (Hol & Hrun & Hfut & Hkeep); [|done].
  assert (g ∉ sc_futures sb) as Hnf.
  { rewrite Hfut. rewrite (ok_running _ Hok) in Hnr. by rewrite elem_of_list_to_set in Hnr. }
  apply (collect_step d g) in H as (Hgd & Hr & Hw); [|done|done|done].
  split_and!; [rewrite Hgd; by apply Hkeep|rewrite <- Hrun in Hnr; set_solver|].
  intros x (d' & Hd' & Hxr & Hq)%Hw%elem_of_due. apply elem_of_due.
  destruct (Hol _ _ Hd') as [?|?]; [|lra]. exists d'. split_and!; [done|by rewrite <- Hrun|done].
Qed.

Lemma selected_nonempty st now g :
  policy_ok -> Z.of_nat (size (sc_running st)) < p_max_concurrent self -> g ∈ due_graphs st now ->
  exists h, h ∈ selected st now.
Proof.
  intros (_ & _ & _ & _ & Hb & _) Hc Hg. unfold selected.
  destruct (by_priority st (due_graphs st now)) as [|h l] eqn:E.
  { assert (g ∈ by_priority st (due_graphs st now)) as Hin by (unfold by_priority; by rewrite merge_sort_Permutation).
    rewrite E in Hin. set_solver. }
  exists h. destruct (Z.to_nat (room st)) as [|n] eqn:Hn; [|cbn; set_solver].
  unfold room in Hn. destruct (bool_decide _); lia.
Qed.

Lemma turn_progress d g t st w st' :
  policy_ok -> sched_ok st -> (d < t_now t)%Q -> wants t g ->
  sc_next_due st !! g = Some d -> g ∉ sc_running st -> run_turn self t st = (Ok w, st') ->
  g ∈ sc_running st' \/
  (sc_next_due st' !! g = Some d /\
   (length (due_graphs st' d) + (if has_room t st then 1 else 0) <= length (due_graphs st d))%nat).
Proof.
  intros Hp Hok Hd Hw Hg Hnr (st1 & Hb & Ha)%run_turn_Ok.
  pose proof (keeps_before t Hp _ _ _ Hok Hb) as Hok1.
  destruct (before_step _ _ _ _ _ _ Hp Hok Hd Hw Hg Hnr Hb) as (Hg1 & Hnr1 & Hw1).
  unfold has_room. rewrite Hb. cbn [snd].
  apply admit_due_Ok in Ha as (_ & Hn & Hr); [|done|done].
  destruct (_ <? _) eqn:Hroom; cycle 1.
  { right. split; [by rewrite Hn|]. rewrite Nat.add_0_r. apply submseteq_length, NoDup_submseteq; [apply NoDup_due|].
    intros x (d' & Hd' & Hx & Hq)%elem_of_due. apply Hw1, elem_of_due. exists d'.
    rewrite Hn in Hd'. rewrite Hr in Hx. split_and!; [done|set_solver|done]. }
  destruct (decide (g ∈ selected st1 (t_now t))) as [Hsel|Hsel].
  { left. rewrite Hr. apply elem_of_union_l, elem_of_list_to_set, Hsel. }
  right. split; [by rewrite Hn|].
  assert (g ∈ due_graphs st1 (t_now t)) as Hgd by (apply elem_of_due; exists d; split_and!; [done|done|lra]).
  destruct (selected_nonempty st1 (t_now t) g Hp ltac:(lia) Hgd) as [h Hh].
  destruct (overtaken st1 (t_now t) g d h Hg1 Hgd Hsel Hh) as (dh & Hdh & Hle).
  assert (length (h :: due_graphs st' d) <= length (due_graphs st d))%nat as Hlen; [|cbn in Hlen; lia].
  apply submseteq_length, NoDup_submseteq.
  - apply NoDup_cons. split; [|apply NoDup_due]. intros (d' & _ & Hx & _)%elem_of_due. apply Hx. rewrite Hr.
    apply elem_of_union_l, elem_of_list_to_set, Hh.
  - intros x [->|(d' & Hd' & Hx & Hq)%elem_of_due]%elem_of_cons; apply Hw1, elem_of_due.
    + apply selected_due, elem_of_due in Hh as (d' & Hd' & Hx & _). exists dh. done.
    + exists d'. rewrite Hn in Hd'. rewrite Hr in Hx. split_and!; [done|set_solver|done].
Qed.

(** How many of the turns have room, run from a state. *)
Fixpoint open_turns (turns : list turn) (st : scheduler) : nat :=
  match turns with
  | [] => O
  | t :: rest => ((if has_room t st then 1 else 0) + open_turns rest (run_turn self t st).2)%nat
  end.

Lemma progress_run d g turns st u st' :
  policy_ok -> sched_ok st -> Forall (fun t => t_stop t = false /\ (d < t_now t)%Q /\ wants t g) turns ->
  sc_next_due st !! g = Some d -> g ∉ sc_running st -> run_turns self turns st = (Ok u, st') ->
  (length (due_graphs st d) <= open_turns turns st)%nat ->
  exists pre post, turns = pre ++ post /\ exists w st1, run_turns self pre st = (Ok w, st1) /\ g ∈ sc_running st1.
Proof.
  intros Hp Hok Hts. revert st u st' Hok. induction Hts as [|t rest (Hs & Hd & Hw) Hts IH];
    intros st u st' Hok Hg Hnr H Hopen; cbn [open_turns] in Hopen.
  - assert (g ∈ due_graphs st d) as Hin by (apply elem_of_due; exists d; split_and!; [done|done|apply Qle_refl]).
    destruct (due_graphs st d); [set_solver|cbn in Hopen; lia].
  - cbn in H. rewrite Hs in H. apply sched_bind_Ok in H as (w & st1 & Ht & H). rewrite Ht in Hopen. cbn [snd] in Hopen.
    pose proof (keeps_turn t Hp _ _ _ Hok Ht) as Hok1.
    assert (run_turns self [t] st = (Ok tt, st1)) as Hone.
    { cbn. rewrite Hs. unfold mbind, sched_bind. by rewrite Ht. }
    destruct (decide (g ∈ sc_running st1)) as [Hr1|Hr1].
    { exists [t], rest. split; [done|]. by exists tt, st1. }
    destruct (turn_progress d g t st w st1 Hp Hok Hd Hw Hg Hnr Ht) as [?|[Hg1 Hlen]]; [done|].
    destruct (IH st1 u st' Hok1 Hg1 Hr1 H) as (pre & post & -> & w1 & st2 & Hpre & Hin); [lia|].
    exists (t :: pre), post. split; [done|]. exists w1, st2. split; [|done].
    cbn. rewrite Hs. unfold mbind, sched_bind. by rewrite Ht.
Qed.
End Facts.

(** ** The theorems *)

Lemma make_policy_Ok interval retry jitter conc batch max_retry multiplier wake shutdown self :
  make_policy interval retry jitter conc batch max_retry multiplier wake shutdown = Ok self -> policy_ok self.
Proof.
  unfold make_policy. destruct (_ || _) eqn:E; [done|]. intros [= <-].
  repeat apply orb_false_iff in E as [E ?]. rewrite ?negb_false_iff, ?Qle_bool_iff in *.
  assert (forall a b, Qle_bool a b = false -> (b < a)%Q) as Hlt.
  { intros a b Hab. apply Qnot_le_lt. by rewrite <- Qle_bool_iff, Hab. }
  unfold policy_ok. cbn. split_and!; try (by apply Hlt); try done; lia.
Qed.

(** The state of a started scheduler after some turns. *)
Definition after_turns (self : policy) (turns : list turn) (st : scheduler) : Prop :=
  run_turns self turns (set_status true Running new_scheduler) = (Ok tt, st).

Lemma after_turns_ok self turns st : policy_ok self -> after_turns self turns st -> sched_ok self st.
Proof. intros Hp H. eapply keeps_turns; [done|by apply start_ok|exact H]. Qed.

(** C16.  The scheduler's books balance.  Whatever the resolver answers and the polls return,
    after any number of turns: at most the configured number of polls runs, exactly those
    that were submitted and not collected; failure counts stay between 0 and 31; every
    health counter stays within 32 bits, no more polls are completed than started, and no
    outcome counter exceeds the completed polls; start-up graphs are scheduled ones. *)
Theorem scheduler_bookkeeping interval retry jitter conc batch max_retry multiplier wake shutdown self turns st :
  make_policy interval retry jitter conc batch max_retry multiplier wake shutdown = Ok self ->
  after_turns self turns st ->
  Z.of_nat (size (sc_running st)) <= conc /\
  NoDup (sc_futures st) /\ sc_running st = list_to_set (sc_futures st) /\
  (forall g n, sc_failures st !! g = Some n -> 0 <= n <= 31 /\ is_Some (sc_next_due st !! g)) /\
  (forall c, 0 <= sc_count st c <= _MAX_HEALTH_COUNTER) /\
  sc_count st polls_completed <= sc_count st polls_started /\
  (forall c, c <> polls_started -> sc_count st c <= sc_count st polls_completed) /\
  sc_startup st ⊆ dom (sc_next_due st).
Proof.
  intros Hm Hst. pose proof (after_turns_ok _ _ _ (make_policy_Ok _ _ _ _ _ _ _ _ _ _ Hm) Hst) as Hok.
  assert (p_max_concurrent self = conc) as <-.
  { unfold make_policy in Hm. destruct (_ || _); [done|]. by injection Hm as <-. }
  destruct Hok as [H1 H2 H3 H4 H5 H6 H7 H8 H9 H10 H11]. split_and!; try done.
  - intros g n Hn. split; [exact (H4 g n Hn)|]. apply elem_of_dom. rewrite <- H1. apply elem_of_dom. eauto.
  - pose proof (H8 polls_completed). lia.
Qed.

(**  Polls of a graph are spaced.  A graph whose last poll was collected at [t] is next
    due after the shorter of the polling interval and the first retry delay, and before the
    longer of the interval and the longest retry delay, plus the jitter, have passed. *)
Theorem polls_spaced interval retry jitter conc batch max_retry multiplier wake shutdown self turns st g t due :
  make_policy interval retry jitter conc batch max_retry multiplier wake shutdown = Ok self ->
  after_turns self turns st ->
  sc_last st !! g = Some (Some t) -> sc_next_due st !! g = Some due ->
  (t + qmin interval retry <= due)%Q /\ (due <= t + qmax interval max_retry + jitter)%Q.
Proof.
  intros Hm Hst Hl Hd. pose proof (after_turns_ok _ _ _ (make_policy_Ok _ _ _ _ _ _ _ _ _ _ Hm) Hst) as Hok.
  pose proof (ok_spaced _ _ Hok _ _ _ Hl Hd) as Hs.
  unfold make_policy in Hm. destruct (_ || _); [done|]. by injection Hm as <-.
Qed.

(** C14.  A due graph is polled.  Take a scheduler after any turns, with a graph due at [d]
    that is not being polled, and later turns after [d] in which the graph stays a target.
    If as many of these turns have room for another poll as there are waiting graphs due no
    later than [d], then at the end of one of them the graph is being polled: no
    re-scheduling of other graphs can starve it. *)
Theorem due_graph_polled interval retry jitter conc batch max_retry multiplier wake shutdown self before st
    g d turns st' :
  make_policy interval retry jitter conc batch max_retry multiplier wake shutdown = Ok self ->
  after_turns self before st ->
  sc_next_due st !! g = Some d -> g ∉ sc_running st ->
  Forall (fun t => t_stop t = false /\ (d < t_now t)%Q /\ wants t g) turns ->
  run_turns self turns st = (Ok tt, st') ->
  (length (due_graphs st d) <= open_turns self turns st)%nat ->
  exists pre post, turns = pre ++ post /\
    exists w st1, run_turns self pre st = (Ok w, st1) /\ g ∈ sc_running st1.
Proof.
  intros Hm%make_policy_Ok Hb Hg Hnr Hts H Hopen.
  eapply progress_run; [done|by eapply after_turns_ok|exact Hts|exact Hg|done|exact H|done].
Qed.

(** ** A run: two graphs and room for one poll *)

Definition one_at_a_time : policy :=
  MkPolicy 60 15 5 1 1 900 2 (1 # 4) 35.

Definition two_graphs : res (list (pyval * pyval)) :=
  Ok [(VStr (lit "b"), VStr (lit "polling")); (VStr (lit "a"), VStr (lit "continuous"));
      (VStr (lit "c"), VStr (lit "manual"))].

Definition a_turn (now : Q) (finished : list pystr) : turn :=
  MkTurn false now two_graphs
    (fun g => if bool_decide (g ∈ finished) then Some (Ok (MkOutcome (lit "current") false 1 1)) else None)
    (fun _ => None).

Definition first_turns : list turn := [a_turn 10 []].
Definition first_state : scheduler := (run_turns one_at_a_time first_turns (set_status true Running new_scheduler)).2.
Definition later_turns : list turn := [a_turn 11 []; a_turn 12 [lit "a"]].
Definition later_state : scheduler := (run_turns one_at_a_time later_turns first_state).2.

Lemma first_after : after_turns one_at_a_time first_turns first_state.
Proof. vm_compute. reflexivity. Qed.

Lemma scheduler_bookkeeping_witness :
  Z.of_nat (size (sc_running first_state)) <= 1 /\ sc_running first_state = list_to_set (sc_futures first_state) /\
  elements (sc_running first_state) = [lit "a"].
Proof.
  destruct (scheduler_bookkeeping 60 15 5 1 2 900 2 (1 # 4) 35 one_at_a_time first_turns first_state eq_refl
    first_after) as (H1 & _ & H2 & _).
  split; [exact H1|]. split; [exact H2|]. vm_compute. reflexivity.
Defined.

Lemma polls_spaced_witness :
  exists due, sc_next_due later_state !! lit "a" = Some due /\ (12 + 15 <= due)%Q /\ (due <= 12 + 900 + 5)%Q.
Proof.
  destruct (sc_next_due later_state !! lit "a") as [due|] eqn:E; [|vm_compute in E; discriminate E].
  exists due. split; [reflexivity|].
  apply (polls_spaced 60 15 5 1 2 900 2 (1 # 4) 35 one_at_a_time (first_turns ++ later_turns) later_state
    (lit "a") 12 due eq_refl).
  - vm_compute. reflexivity.
  - vm_compute. reflexivity.
  - exact E.
Defined.

Lemma due_graph_polled_witness :
  exists pre post, later_turns = pre ++ post /\
    exists w st1, run_turns one_at_a_time pre first_state = (Ok w, st1) /\ lit "b" ∈ sc_running st1.
Proof.
  apply (due_graph_polled 60 15 5 1 2 900 2 (1 # 4) 35 one_at_a_time first_turns first_state (lit "b") 10
    later_turns later_state eq_refl first_after).
  - vm_compute. reflexivity.
  - apply (bool_decide_unpack _). vm_compute. exact I.
  - assert (forall now finished, wants (a_turn now finished) (lit "b")) as Hw.
    { intros now finished. eexists _, [lit "a"; lit "b"]. split; [reflexivity|]. split; [vm_compute; reflexivity|].
      apply elem_of_cons. right. apply elem_of_cons. left. reflexivity. }
    repeat constructor; apply Hw.
  - vm_compute. reflexivity.
  - vm_compute. lia.
Defined.
