(* ===== verification/ExternalSort.v ===== *)
(** Ordering rows with bounded memory: [storage/external_row_sort.py],
    [storage/_external_row_sort_helpers.py] and [storage/structural_digest_encoding.py].

    Rows are encoded as canonical JSON, collected into runs of bounded size, the runs
    sorted and written to temporary files, files merged a fan-in at a time on four levels,
    and the last files merged into the result.  The code is a generator; here a generator
    takes the body of the loop that consumes it.  The callbacks that may raise (the
    cancellation check, the observers) are parameters of the model.  [key_types] is given,
    as at the only call. *)
From S2P Require Import Prelude Utf8 PyVal Ordering Json JsonFacts Limits Observations.
Open Scope Z_scope.

(** ** Exceptions *)

Inductive sort_exn :=
| ExternalRowSortError (message : string)
| StructuralDigestError (message : string)
| InvalidConfiguration                       (** [ValueError] *)
| Raised (x : exn).                          (** from a callback *)

Abbreviation sres := (result sort_exn).

(** ** World *)

(** The consumer's state: the bytes it has been given, and whether no row has come yet. *)
Record sink := MkSink { sk_bytes : list Z; sk_first : bool }.

(** The number of cancellation checks so far, what the artifact observer was told, the
    tracker's sizes and the texts of the temporary files (by number), the consumer's state
    and what the chunk observer was told. *)
Record world := MkWorld {
  w_checks : nat;
  w_published : list (Z * Z);
  w_sizes : gmap nat Z;
  w_files : gmap nat pystr;
  w_next : nat;
  w_sink : sink;
  w_chunks : list Z
}.

Definition set_checks n w := MkWorld n (w_published w) (w_sizes w) (w_files w) (w_next w) (w_sink w) (w_chunks w).
Definition set_published l w := MkWorld (w_checks w) l (w_sizes w) (w_files w) (w_next w) (w_sink w) (w_chunks w).
Definition set_sizes m w := MkWorld (w_checks w) (w_published w) m (w_files w) (w_next w) (w_sink w) (w_chunks w).
Definition set_files m w := MkWorld (w_checks w) (w_published w) (w_sizes w) m (w_next w) (w_sink w) (w_chunks w).
Definition set_next n w := MkWorld (w_checks w) (w_published w) (w_sizes w) (w_files w) n (w_sink w) (w_chunks w).
Definition set_sink b c w := MkWorld (w_checks w) (w_published w) (w_sizes w) (w_files w) (w_next w) b c.

(** The world is kept when an exception is raised. *)
Definition io (A : Type) : Type := world -> sres A * world.
#[export] Instance io_ret : MRet io := fun A a w => (Ok a, w).
#[export] Instance io_bind : MBind io := fun A B f m w =>
  match m w with (Ok a, w') => f a w' | (Err x, w') => (Err x, w') end.
Definition io_raise {A} (x : sort_exn) : io A := fun w => (Err x, w).
Definition io_lift {A} (r : sres A) : io A := fun w => (r, w).
Definition io_get : io world := fun w => (Ok w, w).
Definition io_modify (f : world -> world) : io unit := fun w => (Ok tt, f w).

(** [try: m except BaseException: handler; raise]. *)
Definition on_error {A} (m : io A) (handler : io unit) : io A := fun w =>
  match m w with
  | (Err x, w') => match handler w' with (Ok _, w2) => (Err x, w2) | (Err y, w2) => (Err y, w2) end
  | r => r
  end.

(** [try: m finally: f]. *)
Definition finally_do {A} (m : io A) (f : io unit) : io A := fun w =>
  let (r, w') := m w in
  match f w' with (Ok _, w2) => (r, w2) | (Err y, w2) => (Err y, w2) end.

(** [for x in l: body(x)]. *)
Fixpoint for_all {A} (l : list A) (body : A -> io unit) : io unit :=
  match l with [] => mret tt | x :: rest => _ ← body x; for_all rest body end.

(** ** Callbacks *)

(** What the callbacks raise: the [n]-th cancellation check; the artifact observer on a
    number of bytes and files; the chunk observer on a length. *)
Record callbacks := MkCallbacks {
  cancellation_check : option (nat -> option exn);
  artifact_observer : option (Z -> Z -> option exn);
  chunk_observer : option (Z -> option exn)
}.

Definition raise_option (o : option exn) : io unit :=
  match o with Some x => io_raise (Raised x) | None => mret tt end.

Section Sort.
Variable float_of : pystr -> pyval.
(** [JSONEncoder.iterencode]: the parts in which the interpreter gives the text. *)
Variable iterencode : pyval -> list pystr.
Variable cb : callbacks.

Definition _check_cancellation : io unit :=
  match cancellation_check cb with
  | None => mret tt
  | Some f => w ← io_get; _ ← io_modify (set_checks (S (w_checks w))); raise_option (f (w_checks w))
  end.

(** ** [_ArtifactTracker] *)

Definition total_size (sizes : gmap nat Z) : Z := foldr Z.add 0 (map_to_list sizes).*2.

Definition _publish : io unit :=
  match artifact_observer cb with
  | None => mret tt
  | Some f =>
      w ← io_get;
      let bytes := total_size (w_sizes w) in
      let files := Z.of_nat (size (w_sizes w)) in
      _ ← io_modify (set_published (w_published w ++ [(bytes, files)]));
      raise_option (f bytes files)
  end.

Definition tracker_begin (path : nat) : io unit :=
  w ← io_get; _ ← io_modify (set_sizes (<[path := 0]> (w_sizes w))); _publish.

Definition tracker_resize (path : nat) (byte_count : Z) : io unit :=
  w ← io_get;
  match w_sizes w !! path with
  | Some n =>
      if byte_count <? n then io_raise (ExternalRowSortError "external structural digest artifact state is invalid")
      else _ ← io_modify (set_sizes (<[path := byte_count]> (w_sizes w))); _publish
  | None => io_raise (ExternalRowSortError "external structural digest artifact state is invalid")
  end.

Definition tracker_remove (path : nat) : io unit :=
  w ← io_get; _ ← io_modify (set_sizes (delete path (w_sizes w))); _publish.

Definition tracker_clear : io unit :=
  w ← io_get;
  if bool_decide (w_sizes w = ∅) then mret tt else _ ← io_modify (set_sizes ∅); _publish.

(** ** Encoding *)

(** Every integer of the value is within the interpreter's digit limit. *)
Fixpoint writable (v : pyval) : bool :=
  match v with
  | VInt n => int_readable n
  | VList l | VTuple l => forallb writable l
  | VDict d => forallb (fun kv : pystr * pyval => writable kv.2) d
  | _ => true
  end.

Definition ENCODE_TEXT_CHUNK_CHARACTERS : nat := Z.to_nat 16384.

(** The pieces of a text, in order. *)
Fixpoint text_chunks (fuel : nat) (text : pystr) : list pystr :=
  match fuel, text with
  | S fuel, _ :: _ => take ENCODE_TEXT_CHUNK_CHARACTERS text
                      :: text_chunks fuel (drop ENCODE_TEXT_CHUNK_CHARACTERS text)
  | _, _ => []
  end.

Definition iter_text_chunks (encoded_text : pystr) (body : pystr -> io unit) : io unit :=
  for_all (text_chunks (length encoded_text) encoded_text) (fun chunk => _ ← _check_cancellation; body chunk).

(** [refusal] is what the callers make of [CanonicalJsonEncodingError]. *)
Definition iter_canonical_json_chunks (refusal : sort_exn) (value : pyval) (body : pystr -> io unit) : io unit :=
  if negb (writable value) then io_raise refusal
  else
    _ ← for_all (iterencode value) (fun text => iter_text_chunks text body);
    _check_cancellation.

(** ** Rows *)

Inductive key_type := KeyInt | KeyStr.
Inductive key_value := KInt (n : Z) | KText (s : pystr).

Definition bad_key : sort_exn := ExternalRowSortError "external structural digest sort key is invalid".

Definition key_of (value : pyval) (expected : key_type) : sres key_value :=
  match value, expected with
  | VInt n, KeyInt => Ok (KInt n)
  | VStr s, KeyStr => Ok (KText s)
  | _, _ => Err bad_key
  end.

Definition _sort_key (row : list pyval) (key_indexes : list nat) (key_types : list key_type)
    : sres (list key_value) :=
  values ← mapM (fun i => match row !! i with Some v => Ok v | None => Err bad_key end) key_indexes;
  mapM (fun vt : pyval * key_type => key_of vt.1 vt.2) (zip values key_types).

Definition row_values (row : pyval) : option (list pyval) :=
  match row with VList l | VTuple l => Some l | _ => None end.

(** Characters collected by the [join] over the chunks. *)
Definition encoded_text (value : pyval) : pystr := concat (iterencode value).

Section Configured.
Variables (key_indexes : list nat) (key_types : list key_type) (field_count : nat).
Variables (run_byte_limit : Z) (merge_fan_in : nat).

Definition _encode_row (row : pyval) : io (list key_value * pystr) :=
  match row_values row with
  | Some values =>
      if negb (Nat.eqb (length values) field_count)
      then io_raise (ExternalRowSortError "external structural digest row is invalid")
      else
        key ← io_lift (_sort_key values key_indexes key_types);
        _ ← iter_canonical_json_chunks (ExternalRowSortError "external structural digest row value is invalid")
              row (fun _ => mret tt);
        mret (key, encoded_text row)
  | None => io_raise (ExternalRowSortError "external structural digest row is invalid")
  end.

Definition bad_run : sort_exn := ExternalRowSortError "external structural digest run is invalid".

(** An over-long integer raises a [ValueError] that is no [JSONDecodeError]. *)
Definition _decode_row (encoded : pystr) : sres (list pyval) :=
  match loads float_of encoded with
  | Ok (VList row) => if Nat.eqb (length row) field_count then Ok row else Err bad_run
  | Ok _ => Err bad_run
  | Err IntegerTooLong => Err (Raised (ValueError "Exceeds the limit for integer string conversion"))
  | Err _ => Err bad_run
  end.

(** [line.removesuffix] of the line feed *)
Definition remove_newline (line : pystr) : pystr :=
  match last line with Some c => if c =? 10 then take (length line - 1) line else line | None => line end.

(** One step of [_iter_encoded_run]. *)
Definition decode_line (line : pystr) : sres (list key_value * pystr) :=
  let encoded := remove_newline line in
  row ← _decode_row encoded;
  key ← _sort_key row key_indexes key_types;
  Ok (key, encoded).

(** ** Order *)

Definition key_value_compare (x y : key_value) : comparison :=
  match x, y with
  | KInt m, KInt n => m ?= n
  | KText s, KText t => compare_by str_leb s t
  | KInt _, KText _ => Lt
  | KText _, KInt _ => Gt
  end.

(** Order of tuples. *)
Fixpoint key_compare (x y : list key_value) : comparison :=
  match x, y with
  | [], [] => Eq
  | [], _ :: _ => Lt
  | _ :: _, [] => Gt
  | a :: x, b :: y => lex2 (key_value_compare a b) (key_compare x y)
  end.

Abbreviation item := (list key_value * pystr)%type.

Definition item_compare (x y : item) : comparison :=
  lex2 (key_compare x.1 y.1) (compare_by str_leb x.2 y.2).

(** [buffered.sort(key=lambda item: (item[0], item[1]))] *)
Definition sort_items_by_key : list item -> list item :=
  merge_sort (fun x y => Is_true (not_gt (item_compare x y))).

(** ** Runs *)

(** [mkstemp], the writing of the lines, and the removal of the file on an error. *)
Definition write_line (path : nat) (encoded : pystr) : io unit :=
  w ← io_get;
  let text := default [] (w_files w !! path) in
  _ ← tracker_resize path (Z.of_nat (length text) + Z.of_nat (length encoded) + 1);
  io_modify (fun w => set_files (<[path := text ++ encoded ++ [10]]> (w_files w)) w).

Definition unlink (path : nat) : io unit := io_modify (fun w => set_files (delete path (w_files w)) w).

Definition _write_encoded_rows (rows : (pystr -> io unit) -> io unit) : io nat :=
  w ← io_get;
  let path := w_next w in
  _ ← io_modify (fun w => set_next (S path) (set_files (<[path := []]> (w_files w)) w));
  _ ← on_error (_ ← tracker_begin path; rows (write_line path)) (_ ← tracker_remove path; unlink path);
  mret path.

Definition _write_run (rows : list item) : io nat :=
  _write_encoded_rows (for_all (sort_items_by_key rows).*2).

(** [next(iterator)]: the first line and the rest of the run. *)
Definition next_item (lines : list pystr) : sres (option (item * list pystr)) :=
  match lines with
  | [] => Ok None
  | line :: rest => x ← decode_line line; Ok (Some (x, rest))
  end.

Definition open_run (path : nat) : io (list pystr) :=
  w ← io_get;
  match w_files w !! path with
  | Some text => mret (file_lines text)
  | None => io_raise (ExternalRowSortError "external structural digest run is unavailable")
  end.

(** The first element of every run, numbered from [i]. *)
Fixpoint fill_heap (i : nat) (runs : list nat) (heap : list (item * nat)) (iterators : list (list pystr))
    : io (list (item * nat) * list (list pystr)) :=
  match runs with
  | [] => mret (heap, iterators)
  | path :: rest =>
      lines ← open_run path;
      first ← io_lift (next_item lines);
      match first with
      | None => fill_heap (S i) rest heap (iterators ++ [[]])
      | Some (x, more) => fill_heap (S i) rest (heappush item_compare (x, i) heap) (iterators ++ [more])
      end
  end.

(** The loop takes an entry a turn; [fuel] is the number of lines. *)
Fixpoint merge_steps (fuel : nat) (heap : list (item * nat)) (iterators : list (list pystr))
    (body : pystr -> io unit) : io unit :=
  match fuel, heap with
  | S fuel, (x, i) :: heap =>
      _ ← _check_cancellation;
      _ ← body x.2;
      next ← io_lift (next_item (default [] (iterators !! i)));
      match next with
      | None => merge_steps fuel heap iterators body
      | Some (y, more) => merge_steps fuel (heappush item_compare (y, i) heap) (<[i := more]> iterators) body
      end
  | _, _ => mret tt
  end.

Definition _merge_encoded_runs (runs : list nat) (body : pystr -> io unit) : io unit :=
  '(heap, iterators) ← fill_heap 0 runs [] [];
  merge_steps (length heap + length (concat iterators)) heap iterators body.

Definition _write_merged_run (runs : list nat) : io nat := _write_encoded_rows (_merge_encoded_runs runs).

Definition _remove_runs (runs : list nat) : io unit :=
  for_all runs (fun path => _ ← unlink path; tracker_remove path).

Definition _DEFAULT_RUN_BYTE_LIMIT : Z := 4 * 1024 * 1024.
Definition _DEFAULT_MERGE_FAN_IN : nat := 32.
Definition _MAX_RUN_LEVELS : nat := 4.

(** [levels[level:]] with a run added at the first of them. *)
Fixpoint _add_run (levels : list (list nat)) (path : nat) : io (list (list nat)) :=
  match levels with
  | [] => io_raise (ExternalRowSortError "external structural digest run bound is exceeded")
  | group :: rest =>
      let group := group ++ [path] in
      if Nat.ltb (length group) merge_fan_in then mret (group :: rest)
      else
        output ← _write_merged_run group;
        _ ← _remove_runs group;
        rest ← _add_run rest output;
        mret ([] :: rest)
  end.

Fixpoint _finalize_run_levels (levels : list (list nat)) : io (list nat) :=
  match levels with
  | [] => mret []
  | group :: rest =>
      first ← match group with
              | [] => mret []
              | [path] => mret [path]
              | _ => output ← _write_merged_run group; _ ← _remove_runs group; mret [output]
              end;
      final ← _finalize_run_levels rest;
      mret (first ++ final)
  end.

(** ** The sort *)

Record sort_state := MkSort {
  ss_buffered : list item; ss_bytes : Z; ss_levels : list (list nat); ss_has_runs : bool
}.

Definition spill (s : sort_state) : io sort_state :=
  path ← _write_run (ss_buffered s);
  levels ← _add_run (ss_levels s) path;
  mret (MkSort [] 0 levels true).

Definition sort_step (s : sort_state) (row : sres pyval) : io sort_state :=
  row ← io_lift row;
  _ ← _check_cancellation;
  x ← _encode_row row;
  let encoded_bytes := Z.of_nat (length x.2) in
  s ← (if negb (bool_decide (ss_buffered s = [])) && (run_byte_limit <? ss_bytes s + encoded_bytes)
       then spill s else mret s);
  let s := MkSort (ss_buffered s ++ [x]) (ss_bytes s + encoded_bytes) (ss_levels s) (ss_has_runs s) in
  if run_byte_limit <=? ss_bytes s then spill s else mret s.

Fixpoint sort_loop (s : sort_state) (rows : list (sres pyval)) : io sort_state :=
  match rows with [] => mret s | row :: rest => s ← sort_step s row; sort_loop s rest end.

Definition sort_body (rows : list (sres pyval)) (body : pystr -> io unit) : io unit :=
  s ← sort_loop (MkSort [] 0 (replicate _MAX_RUN_LEVELS []) false) rows;
  if negb (ss_has_runs s) then
    for_all (sort_items_by_key (ss_buffered s)).*2 (fun encoded => _ ← _check_cancellation; body encoded)
  else
    levels ← (match ss_buffered s with
              | [] => mret (ss_levels s)
              | _ => path ← _write_run (ss_buffered s); _add_run (ss_levels s) path
              end);
    runs ← _finalize_run_levels levels;
    _merge_encoded_runs runs body.

(** [rows] yields rows or raises; the temporary directory goes with its files. *)
Definition external_sort_encoded_rows (rows : list (sres pyval)) (body : pystr -> io unit) : io unit :=
  if (run_byte_limit <=? 0) || Nat.ltb merge_fan_in 2 || negb (Nat.eqb (length key_types) (length key_indexes))
  then io_raise InvalidConfiguration
  else finally_do (finally_do (sort_body rows body) (io_modify (set_files ∅))) tracker_clear.

Definition external_sort_rows (rows : list (sres pyval)) (body : list pyval -> io unit) : io unit :=
  external_sort_encoded_rows rows (fun encoded => row ← io_lift (_decode_row encoded); body row).

End Configured.
End Sort.
