(* ===== verification/ExternalSortFacts.v ===== *)
(** The external sort is a sort: what it hands to its consumer is the list of the rows'
    encodings in order, whatever the memory limit and the fan-in, and it fails only when a
    callback raises or when the runs exceed the levels. *)
From S2P Require Import Prelude Utf8 PyVal Ordering Json JsonFacts Observations ObservationsFacts Limits.
From S2P Require Import ExternalSort.
Open Scope Z_scope.

(** ** Weakest preconditions *)

Definition bound_exceeded : sort_exn := ExternalRowSortError "external structural digest run bound is exceeded".

Section Wp.
Variable cb : callbacks.

(** An exception of one of the callbacks. *)
Definition callback_raises (y : exn) : Prop :=
  (exists f n, cancellation_check cb = Some f /\ f n = Some y) \/
  (exists f a b, artifact_observer cb = Some f /\ f a b = Some y) \/
  (exists f n, chunk_observer cb = Some f /\ f n = Some y).

(** [m] ends with [Q], or raises what a callback raises, or an exception of [E]. *)
Definition wp (E : sort_exn -> Prop) {A} (m : io A) (Q : A -> world -> Prop) (w : world) : Prop :=
  match m w with
  | (Ok a, w') => Q a w'
  | (Err x, _) => (exists y, x = Raised y /\ callback_raises y) \/ E x
  end.

Variable E : sort_exn -> Prop.

Lemma wp_ret {A} (a : A) Q w : Q a w -> wp E (mret a) Q w.
Proof. done. Qed.

Lemma iwp_bind {A B} (m : io A) (f : A -> io B) Q w :
  wp E m (fun a w' => wp E (f a) Q w') w -> wp E (m ≫= f) Q w.
Proof. unfold wp, mbind, io_bind. destruct (m w) as [[a|x] w']; done. Qed.

Lemma iwp_bind_inv {A B} (m : io A) (f : A -> io B) Q w :
  wp E (m ≫= f) Q w -> wp E m (fun a w' => wp E (f a) Q w') w.
Proof. unfold wp, mbind, io_bind. destruct (m w) as [[a|x] w']; done. Qed.

Lemma wp_conseq {A} (m : io A) (Q Q' : A -> world -> Prop) w :
  wp E m Q w -> (forall a w', Q a w' -> Q' a w') -> wp E m Q' w.
Proof. unfold wp. destruct (m w) as [[a|x] w']; auto. Qed.

Lemma wp_get Q w : Q w w -> wp E io_get Q w.
Proof. done. Qed.

Lemma wp_modify f Q w : Q tt (f w) -> wp E (io_modify f) Q w.
Proof. done. Qed.

Lemma wp_lift {A} (r : sres A) a Q w : r = Ok a -> Q a w -> wp E (io_lift r) Q w.
Proof. by intros ->. Qed.

Lemma wp_weaken (F : sort_exn -> Prop) {A} (m : io A) Q w :
  (forall x, F x -> E x) -> wp F m Q w -> wp E m Q w.
Proof. unfold wp. destruct (m w) as [[a|x] w']; [done|]. naive_solver. Qed.

(** A loop with an invariant on what is done. *)
Lemma wp_for_all {A} (l : list A) body (I : list A -> world -> Prop) Q w :
  (forall done x w, x ∈ l -> I done w -> wp E (body x) (fun _ w' => I (done ++ [x]) w') w) ->
  I [] w -> (forall w', I l w' -> Q tt w') -> wp E (for_all l body) Q w.
Proof.
  intros Hb Hi HQ.
  assert (forall done rest w, (forall x, x ∈ rest -> x ∈ l) -> I done w ->
    wp E (for_all rest body) (fun _ w' => I (done ++ rest) w') w) as H.
  { intros done rest. revert done. induction rest as [|x rest IH]; intros done w0 Hin Hd; cbn [for_all].
    - apply wp_ret. by rewrite app_nil_r.
    - apply iwp_bind. eapply wp_conseq; [apply Hb; [set_solver|exact Hd]|]. intros [] w1 H1. cbn in H1.
      eapply wp_conseq; [apply IH; [set_solver|exact H1]|]. intros [] w2. cbn. by rewrite <- app_assoc. }
  eapply wp_conseq; [apply (H [] l w); [done|exact Hi]|]. intros [] w'. apply HQ.
Qed.

Lemma wp_on_error {A} (m : io A) h Q w :
  (forall w', exists w2, h w' = (Ok tt, w2) \/ exists y, h w' = (Err (Raised y), w2) /\ callback_raises y) ->
  wp E m Q w -> wp E (on_error m h) Q w.
Proof.
  intros Hh. unfold wp, on_error. destruct (m w) as [[a|x] w']; [done|].
  destruct (Hh w') as [w2 [->|(y & -> & Hy)]]; [done|eauto].
Qed.

Lemma wp_finally {A} (m : io A) f Q w :
  (forall w', match f w' with (Err x, _) => exists y, x = Raised y /\ callback_raises y | _ => True end) ->
  wp E m (fun a w' => wp E f (fun _ w2 => Q a w2) w') w -> wp E (finally_do m f) Q w.
Proof.
  intros Hf. unfold wp, finally_do. destruct (m w) as [[a|x] w']; specialize (Hf w').
  - by destruct (f w') as [[[]|y] w2].
  - destruct (f w') as [[[]|y] w2]; [done|]. by left.
Qed.

(** ** Callbacks and the tracker *)

(** Worlds that differ in checks and publications only. *)
Definition still (w w' : world) : Prop :=
  w_sizes w' = w_sizes w /\ w_files w' = w_files w /\ w_next w' = w_next w /\ w_sink w' = w_sink w /\
  w_chunks w' = w_chunks w.

Lemma wp_raise_option o Q w :
  (forall y, o = Some y -> callback_raises y) -> Q tt w -> wp E (raise_option o) Q w.
Proof. intros Hy HQ. destruct o as [y|]; [|done]. left. eauto. Qed.

Lemma wp_check Q w : (forall w', still w w' -> Q tt w') -> wp E (_check_cancellation cb) Q w.
Proof.
  intros HQ. unfold _check_cancellation. destruct (cancellation_check cb) as [f|] eqn:Hc; [|by apply HQ].
  apply iwp_bind, wp_get, iwp_bind, wp_modify, wp_raise_option; [|by apply HQ].
  intros y Hy. left. eauto.
Qed.

Lemma wp_publish Q w : (forall w', still w w' -> Q tt w') -> wp E (_publish cb) Q w.
Proof.
  intros HQ. unfold _publish. destruct (artifact_observer cb) as [f|] eqn:Hc; [|by apply HQ].
  apply iwp_bind, wp_get, iwp_bind, wp_modify, wp_raise_option; [|by apply HQ].
  intros y Hy. right. left. eauto.
Qed.

(** Worlds that have the sizes [m] and the files [g], and else agree. *)
Definition becomes (m : gmap nat Z) (g : gmap nat pystr) (w w' : world) : Prop :=
  w_sizes w' = m /\ w_files w' = g /\ w_next w' = w_next w /\ w_sink w' = w_sink w /\ w_chunks w' = w_chunks w.

Lemma wp_begin path Q w :
  (forall w', becomes (<[path := 0]> (w_sizes w)) (w_files w) w w' -> Q tt w') -> wp E (tracker_begin cb path) Q w.
Proof.
  intros HQ. unfold tracker_begin. apply iwp_bind, wp_get, iwp_bind, wp_modify, wp_publish.
  intros w' (H1 & H2 & H3 & H4 & H5). apply HQ. by split_and!.
Qed.

Lemma wp_resize path n k Q w :
  w_sizes w !! path = Some n -> n <= k ->
  (forall w', becomes (<[path := k]> (w_sizes w)) (w_files w) w w' -> Q tt w') -> wp E (tracker_resize cb path k) Q w.
Proof.
  intros Hn Hk HQ. unfold tracker_resize. apply iwp_bind, wp_get. rewrite Hn.
  destruct (k <? n) eqn:Hlt; [lia|]. apply iwp_bind, wp_modify, wp_publish.
  intros w' (H1 & H2 & H3 & H4 & H5). apply HQ. by split_and!.
Qed.

Lemma wp_remove path Q w :
  (forall w', becomes (delete path (w_sizes w)) (w_files w) w w' -> Q tt w') -> wp E (tracker_remove cb path) Q w.
Proof.
  intros HQ. unfold tracker_remove. apply iwp_bind, wp_get, iwp_bind, wp_modify, wp_publish.
  intros w' (H1 & H2 & H3 & H4 & H5). apply HQ. by split_and!.
Qed.

(** Removing a run on an error raises what the observer raises, if anything. *)
Lemma remove_outcome path w' :
  exists w2, (_ ← tracker_remove cb path; unlink path) w' = (Ok tt, w2) \/
    exists y, (_ ← tracker_remove cb path; unlink path) w' = (Err (Raised y), w2) /\ callback_raises y.
Proof.
  unfold tracker_remove, unlink, _publish, mbind, io_bind, io_get, io_modify.
  destruct (artifact_observer cb) as [f|] eqn:Hc; [|eauto].
  unfold raise_option, io_raise. destruct (f _ _) as [y|] eqn:Hf; [|eauto].
  eexists. right. exists y. split; [done|]. right. left. eauto.
Qed.

(** ** Writing a run *)

Definition line_text (encoded : pystr) : pystr := encoded ++ [10].

Lemma wp_write_line path encoded text Q w :
  w_files w !! path = Some text -> w_sizes w !! path = Some (Z.of_nat (length text)) ->
  (forall w', becomes (<[path := Z.of_nat (length (text ++ line_text encoded))]> (w_sizes w))
     (<[path := text ++ line_text encoded]> (w_files w)) w w' -> Q tt w') ->
  wp E (write_line cb path encoded) Q w.
Proof.
  intros Ht Hs HQ. unfold write_line. apply iwp_bind, wp_get. rewrite Ht. cbn [default from_option id].
  apply iwp_bind. eapply wp_resize; [exact Hs|lia|]. intros w1 (H1 & H2 & H3 & H4 & H5). apply wp_modify, HQ.
  unfold becomes. cbn. rewrite H1, H2. split_and!; try done. f_equal. unfold line_text. rewrite !length_app. cbn. lia.
Qed.

(** A producer that hands over a list, with quiet steps between. *)
Definition produces (l : list pystr) (g : (pystr -> io unit) -> io unit) (w : world) : Prop :=
  forall body (I : list pystr -> world -> Prop) Q,
    (forall done w w', still w w' -> I done w -> I done w') ->
    (forall done x w, x ∈ l -> I done w -> wp E (body x) (fun _ w' => I (done ++ [x]) w') w) ->
    I [] w -> (forall w', I l w' -> Q tt w') -> wp E (g body) Q w.

Lemma produces_list l w : produces l (for_all l) w.
Proof. intros body I Q _ Hb Hi HQ. by apply (wp_for_all _ _ I). Qed.

Lemma produces_checked l w : produces l (fun body => for_all l (fun x => _ ← _check_cancellation cb; body x)) w.
Proof.
  intros body I Q Hst Hb Hi HQ. apply (wp_for_all _ _ I); [|done|done].
  intros done x w0 Hx Hd. apply iwp_bind, wp_check. intros w1 H1. apply Hb; [done|]. by eapply Hst.
Qed.

(** [yield from] in a loop. *)
Lemma produces_nested {A} (l : list A) (f : A -> list pystr) g w :
  (forall x w, produces (f x) (g x) w) -> produces (l ≫= f) (fun body => for_all l (fun x => g x body)) w.
Proof.
  intros Hg body I Q Hst Hb Hi HQ. apply wp_for_all with (I := fun done w => I (done ≫= f) w); [|done|done].
  intros done x w0 Hx Hd. apply (Hg x w0 body (fun d w => I ((done ≫= f) ++ d) w)).
  - intros d w1 w2. apply Hst.
  - intros d y w1 Hy Hd'. rewrite app_assoc. apply Hb; [|done]. apply list_elem_of_bind. eauto.
  - by rewrite app_nil_r.
  - intros w' H. rewrite bind_app. cbn [mbind list_bind]. by rewrite app_nil_r.
Qed.

Lemma produces_then_check l g w :
  produces l g w -> produces l (fun body => _ ← g body; _check_cancellation cb) w.
Proof.
  intros Hg body I Q Hst Hb Hi HQ. apply iwp_bind. apply (Hg body I); [done|done|done|].
  intros w1 H1. apply wp_check. intros w2 H2. apply HQ. by eapply Hst.
Qed.

(** A producer no one listens to. *)
Lemma produces_unheard l g Q w :
  produces l g w -> (forall w', still w w' -> Q tt w') -> wp E (g (fun _ => mret tt)) Q w.
Proof.
  intros Hg HQ. apply (Hg _ (fun _ w' => still w w')).
  - intros _ w1 w2 (A1 & A2 & A3 & A4 & A5) (B1 & B2 & B3 & B4 & B5). split_and!; congruence.
  - intros done x w1 _ H. by apply wp_ret.
  - by split_and!.
  - done.
Qed.

(** ** Encoding *)

Lemma text_chunks_concat fuel text : (length text <= fuel)%nat -> concat (text_chunks fuel text) = text.
Proof.
  revert text. induction fuel as [|fuel IH]; intros [|c text] Hl; cbn [text_chunks concat] in *; try done; [cbn in Hl; lia|].
  rewrite IH; [apply take_drop|]. rewrite length_drop. unfold ENCODE_TEXT_CHUNK_CHARACTERS. cbn in *. lia.
Qed.

Definition chunks (text : pystr) : list pystr := text_chunks (length text) text.

Lemma concat_chunks text : concat (chunks text) = text.
Proof. by apply text_chunks_concat. Qed.

Lemma concat_bind_chunks parts : concat (parts ≫= chunks) = concat parts.
Proof. induction parts as [|p ps IH]; [done|]. cbn. by rewrite concat_app, concat_chunks, IH. Qed.

Lemma text_produces text w : produces (chunks text) (iter_text_chunks cb text) w.
Proof. apply produces_checked. Qed.

Lemma json_produces iterencode refusal value w :
  writable value = true ->
  produces (iterencode value ≫= chunks) (iter_canonical_json_chunks iterencode cb refusal value) w.
Proof.
  intros Hw. unfold iter_canonical_json_chunks. rewrite Hw. cbn [negb]. apply produces_then_check.
  apply (produces_nested _ chunks (iter_text_chunks cb)). intros x w'. apply text_produces.
Qed.
End Wp.

(** ** Order of the items *)

Lemma compare_by_eq leb s t : compare_by leb s t = Eq -> s = t.
Proof. unfold compare_by. case_bool_decide; [done|]. by destruct (leb s t). Qed.

Lemma key_value_eq x y : key_value_compare x y = Eq -> x = y.
Proof.
  destruct x as [m|s], y as [n|t]; cbn; try done; [by intros ->%Z.compare_eq|].
  by intros ->%compare_by_eq.
Qed.

Lemma key_value_ordering : ordering key_value_compare.
Proof.
  destruct (ordering_by str_leb id str_leb_order) as [Ho He Hl]. split.
  - intros [m|s] [n|t]; cbn; [apply Z.compare_antisym|done|done|apply Ho].
  - intros x y z ->%key_value_eq. done.
  - intros [m|s] [n|t] [k|u]; cbn; try done; [rewrite !Z.compare_lt_iff; lia|apply Hl].
Qed.

Lemma key_eq x y : key_compare x y = Eq -> x = y.
Proof.
  revert y. induction x as [|a x IH]; intros [|b y]; cbn; try done. unfold lex2.
  destruct (key_value_compare a b) eqn:E; try done. intros H%IH. apply key_value_eq in E. by subst.
Qed.

Lemma key_ordering : ordering key_compare.
Proof.
  destruct key_value_ordering as [Ho He Hl]. split.
  - induction x as [|a x IH]; intros [|b y]; cbn; try done. rewrite (Ho a b), (IH y).
    by destruct (key_value_compare a b).
  - intros x y z ->%key_eq. done.
  - induction x as [|a x IH]; intros [|b y] [|c z]; cbn; try done. unfold lex2.
    destruct (key_value_compare a b) eqn:E1; [apply key_value_eq in E1 as -> | |done].
    + destruct (key_value_compare b c); [apply IH|done|done].
    + intros _. destruct (key_value_compare b c) eqn:E2; [apply key_value_eq in E2 as <-| |done].
      * by rewrite E1.
      * by rewrite (Hl _ _ _ E1 E2).
Qed.

Lemma item_eq x y : item_compare x y = Eq -> x = y.
Proof.
  unfold item_compare, lex2. destruct x as [k e], y as [l f]; cbn.
  destruct (key_compare k l) eqn:E; try done. apply key_eq in E as ->. by intros ->%compare_by_eq.
Qed.

Lemma item_ordering : ordering item_compare.
Proof.
  apply (ordering_lex (fun x y : list key_value * pystr => key_compare x.1 y.1)
           (fun x y : list key_value * pystr => compare_by str_leb x.2 y.2)).
  - destruct key_ordering as [Ho He Hl]. split; intros x y *; [apply Ho|apply He|apply Hl].
  - apply ordering_by, str_leb_order.
Qed.

Abbreviation item := (list key_value * pystr)%type.
Abbreviation item_le := (cle item_compare).

Lemma sort_items_perm_key l : sort_items_by_key l ≡ₚ l.
Proof. apply merge_sort_Permutation. Qed.

Lemma sort_items_sorted l : StronglySorted item_le (sort_items_by_key l).
Proof.
  assert (StronglySorted (fun x y => Is_true (not_gt (item_compare x y))) (sort_items_by_key l)) as H.
  { destruct (ordering_not_gt _ item_ordering) as [Ht Htr]. apply StronglySorted_merge_sort; [exact Htr|exact Ht]. }
  induction H as [|x l' Hs IH Hall]; constructor; [done|].
  eapply Forall_impl; [exact Hall|]. intros y Hy. by apply not_gt_iff.
Qed.

(** A sorted list of the items is the list the sort gives. *)
Lemma sorted_is_sort l l' : StronglySorted item_le l -> l ≡ₚ l' -> l = sort_items_by_key l'.
Proof.
  intros Hs Hp. apply (cle_antisymm_unique item_compare item_ordering); [apply item_eq|done|apply sort_items_sorted|].
  by rewrite sort_items_perm_key.
Qed.

(** ** Runs *)

Section Runs.
Variable float_of : pystr -> pyval.
Variable cb : callbacks.
Variables (key_indexes : list nat) (key_types : list key_type) (field_count : nat).
Variable E : sort_exn -> Prop.

Abbreviation decode := (decode_line float_of key_indexes key_types field_count).

(** An item whose line reads back as the item. *)
Definition good (x : item) : Prop := is_line (line_text x.2) /\ decode (line_text x.2) = Ok x.

Definition decodes : list pystr -> list item -> Prop := Forall2 (fun line x => decode line = Ok x).

(** Worlds in which file [path] holds the run [l]. *)
Definition run_holds (w : world) (path : nat) (l : list item) : Prop :=
  w_files w !! path = Some (l.*2 ≫= line_text) /\ StronglySorted item_le l /\ Forall good l.

Lemma good_lines l : Forall good l -> decodes (file_lines (l.*2 ≫= line_text)) l.
Proof.
  intros Hg. assert (Hl : file_lines (l.*2 ≫= line_text) = line_text <$> l.*2).
  { rewrite <- (file_lines_join (line_text <$> l.*2)).
    - f_equal. induction l.*2 as [|t ts IH]; cbn; [done|by rewrite IH].
    - apply Forall_fmap, Forall_fmap. eapply Forall_impl; [exact Hg|]. by intros x [H _]. }
  rewrite Hl. clear Hl. induction Hg as [|x l [_ Hx] _ IH]; constructor; [exact Hx|exact IH].
Qed.

Lemma next_item_nil xs : decodes [] xs -> xs = [].
Proof. by inversion 1. Qed.

Lemma io_bind_eq {A B} (m : io A) (f : A -> io B) w :
  (m ≫= f) w = match m w with (Ok a, w') => f a w' | (Err x, w') => (Err x, w') end.
Proof. done. Qed.

(** Taking lines from the iterators is taking items from the runs. *)
Lemma merge_steps_eq fuel heap iterators rests body w :
  Forall2 decodes iterators rests ->
  merge_steps float_of cb key_indexes key_types field_count fuel heap iterators body w =
  for_all (merge_loop item_compare fuel heap rests).*2 (fun x => _ ← _check_cancellation cb; body x) w.
Proof.
  revert heap iterators rests w. induction fuel as [|fuel IH]; intros heap iterators rests w Hit; [done|].
  destruct heap as [|[x i] heap]; [done|]. cbn [merge_steps merge_loop fmap list_fmap for_all].
  rewrite !io_bind_eq. destruct (_check_cancellation cb w) as [[[]|e] w1]; [|done].
  rewrite io_bind_eq. destruct (body x.2 w1) as [[[]|e] w2]; [|done].
  rewrite io_bind_eq. unfold io_lift, refill.
  destruct (iterators !! i) as [lines|] eqn:Ei; cbn [default from_option id].
  - destruct (Forall2_lookup_l _ _ _ _ _ Hit Ei) as (xs & Er & Hd). rewrite Er.
    destruct Hd as [|line y lines ys Hy Hd]; cbn [next_item]; [by apply IH|].
    rewrite Hy. cbn. apply IH. by apply Forall2_insert.
  - assert (rests !! i = None) as ->
      by (apply lookup_ge_None; rewrite <- (Forall2_length _ _ _ Hit); by apply lookup_ge_None). cbn [next_item]. by apply IH.
Qed.
Lemma fill_heap_eq i runs ls heap iterators rests w :
  Forall2 (run_holds w) runs ls -> Forall2 decodes iterators rests ->
  exists iterators',
    fill_heap float_of key_indexes key_types field_count i runs heap iterators w =
      (Ok ((fill item_compare i ls heap rests).1, iterators'), w) /\
    Forall2 decodes iterators' (fill item_compare i ls heap rests).2.
Proof.
  intros Hr. revert i heap iterators rests. induction Hr as [|path l runs ls (Hf & _ & Hg) _ IH];
    intros i heap iterators rests Hit; cbn [fill_heap fill]; [by exists iterators|].
  rewrite io_bind_eq. unfold open_run. rewrite io_bind_eq. cbn [io_get]. rewrite Hf. cbn.
  rewrite io_bind_eq. unfold io_lift. destruct (good_lines l Hg) as [|line y lines ys Hy Hd]; cbn [next_item].
  - apply IH, Forall2_app; [done|]. repeat constructor.
  - rewrite Hy. cbn. apply IH, Forall2_app; [done|]. by repeat constructor.
Qed.

Lemma decodes_concat iterators rests :
  Forall2 decodes iterators rests -> length (concat iterators) = length (concat rests).
Proof.
  induction 1 as [|x y xs ys H _ IH]; [done|]. cbn. rewrite !length_app, IH. f_equal. by eapply Forall2_length.
Qed.

(** The merge of the files hands over the merge of the runs. *)
Lemma merge_produces runs ls w :
  Forall2 (run_holds w) runs ls ->
  produces cb E (merge_runs item_compare ls).*2 (_merge_encoded_runs float_of cb key_indexes key_types field_count runs) w.
Proof.
  intros Hr body I Q Hst Hb Hi HQ. unfold _merge_encoded_runs, wp. rewrite io_bind_eq.
  destruct (fill_heap_eq 0 runs ls [] [] [] w Hr) as (its & -> & Hd); [constructor|].
  rewrite (merge_steps_eq _ _ _ _ _ _ Hd), (decodes_concat _ _ Hd).
  pose proof (produces_checked cb E (merge_runs item_compare ls).*2 w body I Q Hst Hb Hi HQ) as H.
  unfold merge_runs in H. unfold wp in H. destruct (fill item_compare 0 ls [] []) as [heap rests]. exact H.
Qed.

Lemma merge_runs_sorted ls :
  Forall (StronglySorted item_le) ls -> merge_runs item_compare ls = sort_items_by_key (concat ls).
Proof.
  intros H. destruct (merge_runs_correct item_compare item_ordering ls H) as [Hp Hs]. by apply sorted_is_sort.
Qed.

(** Nothing is given to the digest. *)
Definition quiet (w w' : world) : Prop := w_sink w' = w_sink w /\ w_chunks w' = w_chunks w.

#[export] Instance quiet_trans : Transitive quiet.
Proof. intros w1 w2 w3 [] []. split; congruence. Qed.

(** A new file has the text produced. *)
Lemma wp_write_rows l g Q w :
  (forall w1, (forall p, (p < w_next w)%nat -> w_files w1 !! p = w_files w !! p) -> produces cb E l g w1) ->
  (forall w', w_files w' = <[w_next w := l ≫= line_text]> (w_files w) -> w_next w' = S (w_next w) ->
     quiet w w' -> Q (w_next w) w') ->
  wp cb E (_write_encoded_rows cb g) Q w.
Proof.
  intros Hg HQ. unfold _write_encoded_rows. apply iwp_bind, wp_get, iwp_bind, wp_modify, iwp_bind.
  apply wp_on_error; [apply remove_outcome|]. apply iwp_bind, wp_begin. intros w1 (H1 & H2 & H3 & H4 & H5).
  cbn in H1, H2, H3, H4, H5. set (path := w_next w) in *.
  apply (Hg w1) with (I := fun done w' => w_files w' = <[path := done ≫= line_text]> (w_files w) /\
    w_sizes w' !! path = Some (Z.of_nat (length (done ≫= line_text))) /\ w_next w' = S path /\ quiet w w').
  - intros p Hp. rewrite H2, lookup_insert_ne by (unfold path; lia). done.
  - intros done w2 w3 (S1 & S2 & S3 & S4 & S5) (I1 & I2 & I3 & I4 & I5).
    rewrite S1, S2, S3. split_and!; try done. unfold quiet. by rewrite S4, S5.
  - intros done x w2 _ (I1 & I2 & I3 & I4 & I5). eapply wp_write_line; [rewrite I1; apply lookup_insert_eq|done|].
    intros w3 (B1 & B2 & B3 & B4 & B5). rewrite bind_app. cbn [mbind list_bind]. rewrite app_nil_r.
    rewrite B1, B2, B3, I1, insert_insert_eq, lookup_insert_eq. split_and!; try done. split; congruence.
  - rewrite H1, H2, H3. cbn. rewrite lookup_insert_eq. split_and!; try done; by rewrite ?H4, ?H5.
  - intros w' (I1 & I2 & I3 & I4). apply wp_ret. by apply HQ.
Qed.

Lemma wp_remove_runs runs Q w :
  (forall w', (forall p, p ∉ runs -> w_files w' !! p = w_files w !! p) -> w_next w' = w_next w -> quiet w w' ->
     Q tt w') ->
  wp cb E (_remove_runs cb runs) Q w.
Proof.
  intros HQ. apply wp_for_all with (I := fun _ w' => (forall p, p ∉ runs -> w_files w' !! p = w_files w !! p) /\
    w_next w' = w_next w /\ quiet w w').
  - intros done x w1 Hx (I1 & I2 & I3). apply iwp_bind, wp_modify, wp_remove.
    intros w2 (_ & B2 & B3 & B4 & B5). cbn in *. split_and!; [|congruence|].
    + intros p Hp. rewrite B2, lookup_delete_ne by (intros ->; done). by apply I1.
    + transitivity w1; [done|]. by split.
  - done.
  - naive_solver.
Qed.

(** Runs that are in files of their own. *)
Record runs_ok (w : world) (runs : list nat) (ls : list (list item)) : Prop := {
  ro_hold : Forall2 (run_holds w) runs ls;
  ro_nodup : NoDup runs;
  ro_below : Forall (fun p => (p < w_next w)%nat) runs
}.

Lemma run_holds_frame w w' p l : w_files w' !! p = w_files w !! p -> run_holds w p l -> run_holds w' p l.
Proof. unfold run_holds. by intros ->. Qed.

Lemma holds_frame w w' runs ls :
  (forall p, p ∈ runs -> w_files w' !! p = w_files w !! p) ->
  Forall2 (run_holds w) runs ls -> Forall2 (run_holds w') runs ls.
Proof.
  intros Hf. induction 1 as [|p l runs ls Hl _ IH]; constructor.
  - eapply run_holds_frame; [|exact Hl]. apply Hf. set_solver.
  - apply IH. set_solver.
Qed.

Lemma runs_ok_frame w w' runs ls :
  (forall p, p ∈ runs -> w_files w' !! p = w_files w !! p) -> (w_next w <= w_next w')%nat ->
  runs_ok w runs ls -> runs_ok w' runs ls.
Proof.
  intros Hf Hn [Hh Hd Hb]. split; [by eapply holds_frame|done|eapply Forall_impl; [exact Hb|]; cbn; lia].
Qed.

Lemma runs_ok_sorted w runs ls : runs_ok w runs ls -> Forall (StronglySorted item_le) ls /\ Forall (Forall good) ls.
Proof.
  intros [Hh _ _]. induction Hh as [|p l runs ls (_ & Hs & Hg) _ [IH1 IH2]]; [done|]. split; by constructor.
Qed.

Lemma runs_ok_app w r1 l1 r2 l2 :
  length r1 = length l1 -> runs_ok w (r1 ++ r2) (l1 ++ l2) -> runs_ok w r1 l1 /\ runs_ok w r2 l2.
Proof.
  intros Hl [Hh (H1 & _ & H2)%NoDup_app [Hb1 Hb2]%Forall_app].
  apply Forall2_app_inv in Hh as [Hh1 Hh2]; [|done]. by split; split.
Qed.

(** Merging runs into a new file and removing their files. *)
Lemma wp_merge_group {A} group ls (k : nat -> io A) Q w :
  runs_ok w group ls ->
  (forall w', run_holds w' (w_next w) (sort_items_by_key (concat ls)) ->
     (forall p, (p < w_next w)%nat -> p ∉ group -> w_files w' !! p = w_files w !! p) ->
     w_next w' = S (w_next w) -> quiet w w' -> wp cb E (k (w_next w)) Q w') ->
  wp cb E (output ← _write_merged_run float_of cb key_indexes key_types field_count group;
           _ ← _remove_runs cb group; k output) Q w.
Proof.
  intros Hok HQ. destruct (runs_ok_sorted _ _ _ Hok) as [Hs Hg]. destruct Hok as [Hh Hd Hb].
  apply iwp_bind. unfold _write_merged_run.
  apply (wp_write_rows (sort_items_by_key (concat ls)).*2).
  - intros w1 Hw1. rewrite <- merge_runs_sorted by done. apply merge_produces.
    eapply holds_frame; [|exact Hh]. intros p Hp. apply Hw1. rewrite Forall_forall in Hb. by apply Hb.
  - intros w1 F1 N1 Q1. apply iwp_bind, wp_remove_runs. intros w2 F2 N2 Q2.
    assert (w_next w ∉ group) as Hfresh.
    { intros Hin. rewrite Forall_forall in Hb. apply Hb in Hin. lia. }
    apply HQ; [|intros p Hp Hin|congruence|by transitivity w1].
    + split_and!; [rewrite F2, F1 by done; apply lookup_insert_eq|apply sort_items_sorted|].
      rewrite sort_items_perm_key. by apply Forall_concat.
    + rewrite F2, F1, lookup_insert_ne by (done || lia). done.
Qed.

(** ** Levels *)

Lemma runs_ok_middle w path l r1 l1 r2 l2 :
  length r1 = length l1 -> runs_ok w (path :: r1 ++ r2) (l :: l1 ++ l2) ->
  runs_ok w ((r1 ++ [path]) ++ r2) ((l1 ++ [l]) ++ l2).
Proof.
  intros Hl [Hh Hd Hb]. rewrite <- !app_assoc. cbn [app]. rewrite Permutation_middle in Hd.
  rewrite Permutation_middle in Hb. split; [|done|done].
  apply Forall2_cons_1 in Hh as [Hp Hh]. apply Forall2_app_inv in Hh as [Hh1 Hh2]; [|done].
  by apply Forall2_app; [|constructor].
Qed.

Definition levels_ok (w : world) (levels : list (list nat)) (lss : list (list (list item))) : Prop :=
  Forall2 (fun group ls => length group = length ls) levels lss /\ runs_ok w (concat levels) (concat lss).

(** What merging some of the runs [runs] leaves: the items are the same, other files are
    as they were, and the files are old or new. *)
Record collapsed (w : world) (runs : list nat) (ls : list (list item)) (w' : world) (runs' : list nat)
    (ls' : list (list item)) : Prop := {
  co_ok : runs_ok w' runs' ls';
  co_items : concat ls' ≡ₚ concat ls;
  co_frame : forall p, (p < w_next w)%nat -> p ∉ runs -> w_files w' !! p = w_files w !! p;
  co_next : (w_next w <= w_next w')%nat;
  co_paths : forall p, p ∈ runs' -> p ∈ runs \/ (w_next w <= p)%nat;
  co_quiet : quiet w w'
}.

Lemma collapsed_refl w runs ls : runs_ok w runs ls -> collapsed w runs ls w runs ls.
Proof. intros Hok. split; try done. by left. Qed.

Lemma wp_collapse group ls Q w :
  runs_ok w group ls ->
  (forall runs' ls' w', collapsed w group ls w' runs' ls' -> Q runs' w') ->
  wp cb E (match group with
           | [] => mret []
           | [path] => mret [path]
           | _ => output ← _write_merged_run float_of cb key_indexes key_types field_count group;
                  _ ← _remove_runs cb group; mret [output]
           end) Q w.
Proof.
  intros Hok HQ.
  assert (forall a b rest, group = a :: b :: rest ->
    wp cb E (output ← _write_merged_run float_of cb key_indexes key_types field_count group;
             _ ← _remove_runs cb group; mret [output]) Q w) as Hmerge.
  { intros a b rest _. eapply wp_merge_group; [exact Hok|]. intros w1 Hrun Hframe Hnext Hq.
    apply wp_ret, (HQ _ [sort_items_by_key (concat ls)]). split; [|cbn|done|lia| |done].
    - split; [by apply Forall2_cons; split; [|constructor]|apply NoDup_singleton|repeat constructor; lia].
    - by rewrite app_nil_r, sort_items_perm_key.
    - intros p ->%list_elem_of_singleton. by right. }
  pose proof (collapsed_refl _ _ _ Hok) as Hsame.
  destruct group as [|a [|b rest]]; [by eapply HQ|by eapply HQ|by eapply Hmerge].
Qed.

Lemma wp_finalize levels lss Q w :
  levels_ok w levels lss ->
  (forall runs' ls' w', collapsed w (concat levels) (concat lss) w' runs' ls' -> Q runs' w') ->
  wp cb E (_finalize_run_levels float_of cb key_indexes key_types field_count levels) Q w.
Proof.
  intros [Hlen Hok]. revert Q w Hok.
  induction Hlen as [|group ls levels lss Hg Hlen IH]; intros Q w Hok HQ; cbn [_finalize_run_levels].
  { apply wp_ret, (HQ _ []). by apply collapsed_refl. }
  cbn [concat] in *. pose proof (ro_nodup _ _ _ Hok) as (_ & Hdisj & _)%NoDup_app.
  pose proof (ro_below _ _ _ Hok) as Hb. rewrite Forall_forall in Hb.
  apply runs_ok_app in Hok as [Hok1 Hok2]; [|done].
  apply iwp_bind, (wp_collapse _ _ _ _ Hok1). intros r1 l1 w1 [Ho1 Hi1 Hf1 Hn1 Hp1 Hq1].
  apply iwp_bind, IH.
  { apply (runs_ok_frame w); [|done|done]. intros p Hp. apply Hf1; [apply Hb; set_solver|].
    intros Hin. by eapply Hdisj. }
  intros r2 l2 w2 [Ho2 Hi2 Hf2 Hn2 Hp2 Hq2].
  pose proof (ro_below _ _ _ Ho1) as Hb1. rewrite Forall_forall in Hb1.
  apply wp_ret, (HQ _ (l1 ++ l2)). split.
  - assert (forall p, p ∈ r1 -> p ∉ concat levels) as Hd1.
    { intros p Hp Hin. destruct (Hp1 p Hp) as [Hp'|Hp']; [by eapply Hdisj|].
      assert (p < w_next w)%nat by (apply Hb; set_solver). lia. }
    apply (runs_ok_frame w1 w2) in Ho1 as [A1 A2 A3]; [|intros p Hp; apply Hf2; auto|done].
    destruct Ho2 as [B1 B2 B3]. split; [by apply Forall2_app| |by apply Forall_app].
    apply NoDup_app. split_and!; [done| |done]. intros p Hp Hin. apply Hp2 in Hin as [Hin|Hin]; [by eapply Hd1|].
    apply Hb1 in Hp. lia.
  - by rewrite !concat_app, Hi1, Hi2.
  - intros p Hp Hin. rewrite Hf2 by (lia || set_solver). apply Hf1; set_solver.
  - lia.
  - intros p [Hp|Hp]%elem_of_app; [destruct (Hp1 p Hp)|destruct (Hp2 p Hp)]; [set_solver|by right|set_solver|right; lia].
  - by transitivity w1.
Qed.

Section Fan.
Variable fan : nat.

(** The groups are the digits, base [fan], of the number of runs. *)
Fixpoint weight (levels : list (list nat)) : nat :=
  match levels with [] => 0 | group :: rest => length group + fan * weight rest end.

Definition digits (levels : list (list nat)) : Prop := Forall (fun group => length group < fan)%nat levels.

Lemma wp_add_run levels lss path l Q w :
  Forall2 (fun group ls => length group = length ls) levels lss ->
  runs_ok w (path :: concat levels) (l :: concat lss) -> digits levels -> (1 < fan)%nat ->
  ((fan ^ length levels <= S (weight levels))%nat -> E bound_exceeded) ->
  (forall levels' lss' w', levels_ok w' levels' lss' -> concat (concat lss') ≡ₚ l ++ concat (concat lss) ->
     digits levels' -> length levels' = length levels -> weight levels' = S (weight levels) -> quiet w w' ->
     Q levels' w') ->
  wp cb E (_add_run float_of cb key_indexes key_types field_count fan levels path) Q w.
Proof.
  intros Hlen. revert path l Q w.
  induction Hlen as [|group ls levels lss Hg Hlen IH]; intros path l Q w Hok Hdig Hfan HE HQ; cbn [_add_run].
  { right. apply HE. cbn. lia. }
  apply Forall_cons in Hdig as [Hd Hdig]. cbn [concat] in Hok.
  apply runs_ok_middle in Hok; [|done].
  pose proof (ro_nodup _ _ _ Hok) as (_ & Hdisj & _)%NoDup_app.
  assert (length (group ++ [path]) = S (length group)) as Hsz by (rewrite length_app; cbn; lia).
  destruct (Nat.ltb_spec (length (group ++ [path])) fan) as [Hlt|Hge].
  - apply wp_ret, (HQ _ ((ls ++ [l]) :: lss)); [| |by constructor|done|cbn; lia|done].
    + split; [constructor; [rewrite !length_app, Hg|]; done|exact Hok].
    + cbn. rewrite !concat_app. cbn. rewrite app_nil_r, <- !app_assoc. apply Permutation_app_swap_app.
  - apply runs_ok_app in Hok as [Hok1 Hok2]; [|rewrite !length_app, Hg; done].
    eapply wp_merge_group; [exact Hok1|]. intros w1 Hrun Hframe Hnext Hq.
    pose proof (ro_below _ _ _ Hok2) as Hb. rewrite Forall_forall in Hb.
    assert (runs_ok w1 (concat levels) (concat lss)) as [Hh2 Hd2 Hb2].
    { apply (runs_ok_frame w); [|lia|exact Hok2]. intros p Hp. apply Hframe; [by apply Hb|]. intros Hin. by eapply Hdisj. }
    apply iwp_bind. eapply IH; [|done|done| |].
    + split; [by constructor|apply NoDup_cons; split; [|done]|constructor; [lia|done]].
      intros Hin%Hb. lia.
    + intros Hw. apply HE. cbn. nia.
    + intros levels' lss' w' [Hl' Hok'] Hp Hdig' Hlen' Hw' Hq'. apply wp_ret, (HQ _ ([] :: lss')).
      * split; [by constructor|exact Hok'].
      * cbn. rewrite Hp, sort_items_perm_key, !concat_app. cbn. rewrite app_nil_r, <- app_assoc. apply Permutation_app_swap_app.
      * constructor; [cbn; lia|done].
      * cbn. by rewrite Hlen'.
      * cbn. rewrite Hw'. lia.
      * by transitivity w1.
Qed.
End Fan.
End Runs.

(** ** The loop *)

Section Loop.
Variable float_of : pystr -> pyval.
Variable iterencode : pyval -> list pystr.
(** The parts [iterencode] gives are those of the text [encode] gives. *)
Hypothesis iterencode_text : forall v, writable v = true -> concat (iterencode v) = dumps compact_style v.
Variable cb : callbacks.
Variables (key_indexes : list nat) (key_types : list key_type) (field_count : nat).
Variables (limit : Z) (fan : nat).
Hypothesis fan_in : (1 < fan)%nat.
Variable E : sort_exn -> Prop.

Abbreviation good := (good float_of key_indexes key_types field_count).
Abbreviation levels_ok := (levels_ok float_of key_indexes key_types field_count).

(** What a row becomes: its key and its text. *)
Definition row_item (row : pyval) : sres item :=
  match row_values row with
  | Some values =>
      if Nat.eqb (length values) field_count
      then key ← _sort_key values key_indexes key_types; Ok (key, dumps compact_style row)
      else Err (ExternalRowSortError "external structural digest row is invalid")
  | None => Err (ExternalRowSortError "external structural digest row is invalid")
  end.

Lemma json_clean_writable v : json_clean v = true -> writable v = true.
Proof.
  induction v as [|b|n|t i|s|l IH|l IH|d IH] using pyval_ind'; cbn [json_clean writable]; try done.
  1, 2: rewrite !forallb_forall; rewrite Forall_forall in IH; intros H x Hx;
    apply IH; [by apply list_elem_of_In|auto].
  intros [H _]%andb_true_iff. rewrite forallb_forall in H |- *. rewrite Forall_forall in IH.
  intros kv Hkv. pose proof (H kv Hkv) as [_ Hv]%andb_true_iff. apply IH; [by apply list_elem_of_In|done].
Qed.

Lemma key_of_norm v t k : key_of v t = Ok k -> key_of (json_norm v) t = Ok k.
Proof. destruct v, t; cbn; try done. Qed.

Lemma sort_key_norm values key :
  _sort_key values key_indexes key_types = Ok key -> _sort_key (json_norm <$> values) key_indexes key_types = Ok key.
Proof.
  unfold _sort_key. intros H. unbind H. rename x into vs. apply mapM_Ok in H0. apply mapM_Ok in H.
  apply bind_Ok. exists (json_norm <$> vs). split; apply mapM_Ok.
  - clear H. induction H0 as [|i v ixs vs Hv _ IH]; [constructor|]. constructor; [|exact IH].
    rewrite list_lookup_fmap. destruct (values !! i) as [u|]; [|done]. cbn. by injection Hv as ->.
  - clear H0. revert key H. generalize key_types. induction vs as [|v vs IH]; intros [|t ts] key H;
      [inversion H; constructor..|]. cbn in *. apply Forall2_cons_inv_l in H as (k & key' & Hk & H & ->).
    constructor; [by apply key_of_norm|by apply IH].
Qed.

Lemma remove_newline_line s : remove_newline (line_text s) = s.
Proof.
  unfold remove_newline, line_text. rewrite last_snoc. cbn. rewrite length_app. cbn.
  replace (length s + 1 - 1)%nat with (length s) by lia. by rewrite take_app_length.
Qed.

Lemma row_item_good row x : json_clean row = true -> row_item row = Ok x -> good x.
Proof.
  intros Hc Hr. unfold row_item in Hr. destruct (row_values row) as [values|] eqn:Hv; [|done].
  destruct (Nat.eqb_spec (length values) field_count) as [Hl|]; [|done]. unbind Hr. injection Hr as <-.
  split; cbn [snd].
  - exists (dumps compact_style row). split; [done|]. split.
    + apply printable_unbroken, json_text_printable; [apply compact_one_line|done].
    + destruct (json_text_starts compact_style 0 row Hc) as (c & r & E' & _). unfold dumps. by rewrite E'.
  - unfold decode_line. rewrite remove_newline_line. unfold _decode_row.
    pose proof (loads_dumps float_of compact_style eq_refl row [] Hc eq_refl) as Hload.
    rewrite app_nil_r in Hload. rewrite Hload.
    assert (json_norm row = VList (json_norm <$> values)) as ->.
    { destruct row; try discriminate Hv; by injection Hv as ->. }
    rewrite length_fmap, Hl, Nat.eqb_refl. cbn. by rewrite (sort_key_norm _ _ H).
Qed.

Lemma wp_encode_row row x Q w :
  json_clean row = true -> row_item row = Ok x -> (forall w', still w w' -> Q x w') ->
  wp cb E (_encode_row iterencode cb key_indexes key_types field_count row) Q w.
Proof.
  intros Hc Hr HQ. unfold _encode_row. unfold row_item in Hr. destruct (row_values row) as [values|]; [|done].
  destruct (Nat.eqb (length values) field_count); [|done]. unbind Hr. injection Hr as <-. cbn [negb].
  apply json_clean_writable in Hc. apply iwp_bind. eapply wp_lift; [done|]. apply iwp_bind.
  eapply produces_unheard; [by apply json_produces|]. intros w' Hst. apply wp_ret.
  unfold encoded_text. rewrite iterencode_text by done. by apply HQ.
Qed.

(** A state of the loop that has taken the items [seen]. *)
Record sort_ok (seen : list item) (s : sort_state) (lss : list (list (list item))) (w0 w : world) : Prop := {
  so_levels : levels_ok w (ss_levels s) lss;
  so_digits : digits fan (ss_levels s);
  so_length : length (ss_levels s) = _MAX_RUN_LEVELS;
  so_items : seen ≡ₚ ss_buffered s ++ concat (concat lss);
  so_weight : (weight fan (ss_levels s) + length (ss_buffered s) <= length seen)%nat;
  so_runs : ss_has_runs s = false -> concat (concat lss) = [];
  so_good : Forall good (ss_buffered s);
  so_quiet : quiet w0 w
}.

Definition within_bound (total : nat) : Prop := (fan ^ _MAX_RUN_LEVELS <= total)%nat -> E bound_exceeded.

Lemma wp_write_run l Q w :
  Forall good l ->
  (forall w', run_holds float_of key_indexes key_types field_count w' (w_next w) (sort_items_by_key l) ->
     (forall p, (p < w_next w)%nat -> w_files w' !! p = w_files w !! p) -> w_next w' = S (w_next w) -> quiet w w' ->
     Q (w_next w) w') ->
  wp cb E (_write_run cb l) Q w.
Proof.
  intros Hg HQ. apply (wp_write_rows cb E (sort_items_by_key l).*2); [intros; apply produces_list|].
  intros w' Hf Hn Hq. apply HQ; [|intros p Hp|done|done].
  - split_and!; [rewrite Hf; apply lookup_insert_eq|apply sort_items_sorted|by rewrite sort_items_perm_key].
  - rewrite Hf, lookup_insert_ne by lia. done.
Qed.

(** A full buffer becomes a run. *)
Lemma wp_flush seen s lss w0 Q w :
  sort_ok seen s lss w0 w -> ss_buffered s <> [] -> within_bound (length seen) ->
  (forall levels lss' w', sort_ok seen (MkSort [] 0 levels true) lss' w0 w' -> Q levels w') ->
  wp cb E (path ← _write_run cb (ss_buffered s);
           _add_run float_of cb key_indexes key_types field_count fan (ss_levels s) path) Q w.
Proof.
  intros [[Hlen Hok] Hdig Hlv Hitems Hw _ Hg Hq] Hne HE HQ. apply iwp_bind, wp_write_run; [done|].
  intros w1 Hrun Hframe Hn Hq1. pose proof (ro_below _ _ _ _ _ _ _ Hok) as Hb. rewrite Forall_forall in Hb.
  eapply wp_add_run; [exact Hlen| |done|done| |].
  - apply (runs_ok_frame _ _ _ _ w w1) in Hok as [Hh Hd Hbl]; [|intros p Hp; apply Hframe; auto|lia].
    split; [by constructor|apply NoDup_cons; split; [intros Hin%Hb; lia|done]|constructor; [lia|done]].
  - rewrite Hlv. intros Hle. apply HE. destruct (ss_buffered s); [done|]. cbn in Hw. lia.
  - intros levels' lss' w' Hok' Hp Hdig' Hlen' Hw' Hq'. apply (HQ _ lss'). split; cbn; try done.
    + congruence.
    + rewrite Hp, sort_items_perm_key. exact Hitems.
    + destruct (ss_buffered s); [done|]. cbn in Hw. lia.
    + transitivity w; [done|]. by transitivity w1.
Qed.

Lemma wp_spill seen s lss w0 Q w :
  sort_ok seen s lss w0 w -> ss_buffered s <> [] -> within_bound (length seen) ->
  (forall levels lss' w', sort_ok seen (MkSort [] 0 levels true) lss' w0 w' -> Q (MkSort [] 0 levels true) w') ->
  wp cb E (spill float_of cb key_indexes key_types field_count fan s) Q w.
Proof.
  intros Hs Hne HE HQ. unfold spill. apply iwp_bind. eapply wp_conseq.
  - apply iwp_bind_inv, (wp_flush seen s lss w0 (fun levels w' => Q (MkSort [] 0 levels true) w') w Hs Hne HE HQ).
  - intros path w1 H. apply iwp_bind. eapply wp_conseq; [exact H|]. intros levels w2 HQ'. by apply wp_ret.
Qed.

Lemma still_quiet w w' : still w w' -> quiet w w'.
Proof. by intros (_ & _ & _ & ? & ?). Qed.

Lemma sort_ok_still seen s lss w0 w w' : still w w' -> sort_ok seen s lss w0 w -> sort_ok seen s lss w0 w'.
Proof.
  intros Hst [[Hl Hr] H2 H3 H4 H5 H6 H7 H8]. split; try done.
  - split; [done|]. apply (runs_ok_frame _ _ _ _ w); destruct Hst as (_ & Hf & Hn & _); [by rewrite Hf|lia|done].
  - transitivity w; [done|]. by apply still_quiet.
Qed.

Lemma sort_ok_push seen s lss w0 w x bytes :
  sort_ok seen s lss w0 w -> good x ->
  sort_ok (seen ++ [x]) (MkSort (ss_buffered s ++ [x]) bytes (ss_levels s) (ss_has_runs s)) lss w0 w.
Proof.
  intros [H1 H2 H3 H4 H5 H6 H7 H8] Hx. split; cbn; try done.
  - rewrite H4, <- !app_assoc. apply Permutation_app_head, Permutation_app_comm.
  - rewrite !length_app. cbn. lia.
  - apply Forall_app_2; [done|by apply Forall_singleton].
Qed.

Abbreviation step := (sort_step float_of iterencode cb key_indexes key_types field_count limit fan).
Abbreviation loop := (sort_loop float_of iterencode cb key_indexes key_types field_count limit fan).

Lemma wp_sort_step seen s lss w0 row x Q w :
  sort_ok seen s lss w0 w -> json_clean row = true -> row_item row = Ok x -> within_bound (S (length seen)) ->
  (forall s' lss' w', sort_ok (seen ++ [x]) s' lss' w0 w' -> Q s' w') ->
  wp cb E (step s (Ok row)) Q w.
Proof.
  intros Hs Hc Hr HE HQ. pose proof (row_item_good row x Hc Hr) as Hx. unfold sort_step.
  apply iwp_bind. eapply wp_lift; [done|]. apply iwp_bind, wp_check. intros w1 S1.
  apply iwp_bind. eapply wp_encode_row; [done|done|]. intros w2 S2.
  pose proof (sort_ok_still _ _ _ _ _ _ S2 (sort_ok_still _ _ _ _ _ _ S1 Hs)) as Hs2.
  assert (Hlast : forall s1 lss1 w3, sort_ok seen s1 lss1 w0 w3 ->
    wp cb E (let s := MkSort (ss_buffered s1 ++ [x]) (ss_bytes s1 + Z.of_nat (length x.2)) (ss_levels s1) (ss_has_runs s1) in
             if limit <=? ss_bytes s then spill float_of cb key_indexes key_types field_count fan s else mret s) Q w3).
  { intros s1 lss1 w3 Hs1.
    pose proof (sort_ok_push _ _ _ _ _ x (ss_bytes s1 + Z.of_nat (length x.2)) Hs1 Hx) as Hs4. cbn zeta.
    destruct (limit <=? _); [|apply wp_ret; by eapply HQ].
    eapply wp_spill; [exact Hs4|cbn; by destruct (ss_buffered s1)| |].
    - rewrite length_app, Nat.add_1_r. exact HE.
    - intros levels lss' w' H. by eapply HQ. }
  apply iwp_bind. destruct (negb (bool_decide (ss_buffered s = [])) && _) eqn:Hb; [|by apply wp_ret, (Hlast s lss w2)].
  apply andb_true_iff in Hb as [Hb%negb_true_iff%bool_decide_eq_false _].
  eapply wp_spill; [exact Hs2|done| |].
  - intros Hle. apply HE. lia.
  - intros levels lss' w3 H. by eapply Hlast.
Qed.

Lemma wp_sort_loop rows items seen s lss w0 Q w :
  sort_ok seen s lss w0 w -> forallb json_clean rows = true -> mapM row_item rows = Ok items ->
  within_bound (length seen + length items) ->
  (forall s' lss' w', sort_ok (seen ++ items) s' lss' w0 w' -> Q s' w') ->
  wp cb E (loop s (Ok <$> rows)) Q w.
Proof.
  intros Hs Hc Hm%mapM_Ok. revert seen s lss w Hs Hc.
  induction Hm as [|row x rows items Hr _ IH]; intros seen s lss w Hs Hc HE HQ; cbn [sort_loop fmap list_fmap].
  { apply wp_ret. eapply HQ. by rewrite app_nil_r. }
  apply andb_true_iff in Hc as [Hc1 Hc2]. cbn [length] in HE. apply iwp_bind.
  eapply wp_sort_step; [exact Hs|done|done|intros Hle; apply HE; lia|].
  intros s1 lss1 w1 Hs1. eapply IH; [exact Hs1|done| |].
  - rewrite length_app. cbn. intros Hle. apply HE. lia.
  - intros s' lss' w' H. eapply HQ. by rewrite <- app_assoc in H.
Qed.

(** ** The sort *)

Lemma initial_ok w : sort_ok [] (MkSort [] 0 (replicate _MAX_RUN_LEVELS []) false) (replicate _MAX_RUN_LEVELS []) w w.
Proof.
  split; cbn; try done.
  - split; [by repeat constructor|]. split; [constructor|constructor|constructor].
  - repeat constructor; cbn; lia.
  - lia.
Qed.

(** A body the files do not matter to. *)
Definition heedless (I : list pystr -> world -> Prop) : Prop :=
  forall done w w', quiet w w' -> I done w -> I done w'.

Lemma wp_merge_last runs ls body (I : list pystr -> world -> Prop) Q w :
  runs_ok float_of key_indexes key_types field_count w runs ls -> heedless I ->
  (forall done x w, x ∈ (sort_items_by_key (concat ls)).*2 -> I done w -> wp cb E (body x) (fun _ w' => I (done ++ [x]) w') w) ->
  I [] w -> (forall w', I (sort_items_by_key (concat ls)).*2 w' -> Q tt w') ->
  wp cb E (_merge_encoded_runs float_of cb key_indexes key_types field_count runs body) Q w.
Proof.
  intros Hok HI Hb Hi HQ. destruct (runs_ok_sorted _ _ _ _ _ _ _ Hok) as [Hs _].
  rewrite <- merge_runs_sorted in HQ, Hb by done.
  apply (merge_produces float_of cb key_indexes key_types field_count E runs ls w (ro_hold _ _ _ _ _ _ _ Hok) body I);
    [|done|done|done].
  intros done w1 w2 Hst. apply HI. by apply still_quiet.
Qed.

Lemma sort_items_cong l l' : l ≡ₚ l' -> sort_items_by_key l = sort_items_by_key l'.
Proof. intros H. apply sorted_is_sort; [apply sort_items_sorted|by rewrite sort_items_perm_key]. Qed.

Lemma wp_sort_body rows items body (I : list pystr -> world -> Prop) Q w :
  forallb json_clean rows = true -> mapM row_item rows = Ok items -> within_bound (length items) -> heedless I ->
  (forall done x w, x ∈ (sort_items_by_key items).*2 -> I done w -> wp cb E (body x) (fun _ w' => I (done ++ [x]) w') w) ->
  I [] w -> (forall w', I (sort_items_by_key items).*2 w' -> Q tt w') ->
  wp cb E (sort_body float_of iterencode cb key_indexes key_types field_count limit fan (Ok <$> rows) body) Q w.
Proof.
  intros Hc Hm HE HI Hb Hi HQ. unfold sort_body. apply iwp_bind.
  eapply wp_sort_loop; [apply initial_ok|done|done|done|]. intros s lss w1 Hs. cbn [app] in Hs.
  pose proof (HI _ _ _ (so_quiet _ _ _ _ _ Hs) Hi) as Hi1.
  destruct (ss_has_runs s) eqn:Hruns; cbn [negb].
  - assert (forall levels lss' w2, sort_ok items (MkSort [] 0 levels true) lss' w w2 ->
      wp cb E (runs ← _finalize_run_levels float_of cb key_indexes key_types field_count levels;
               _merge_encoded_runs float_of cb key_indexes key_types field_count runs body) Q w2) as Hend.
    { intros levels lss' w2 [Hl _ _ Hp _ _ _ Hq]. apply iwp_bind. eapply wp_finalize; [exact Hl|].
      intros runs ls w3 [Ho Hit _ _ _ Hq3]. cbn in Hp. rewrite <- Hit in Hp.
      eapply (wp_merge_last _ _ _ I); [exact Ho|done|by rewrite <- (sort_items_cong _ _ Hp)| |by rewrite <- (sort_items_cong _ _ Hp)].
      eapply HI; [|exact Hi]. by transitivity w2. }
    apply iwp_bind. destruct (ss_buffered s) as [|x xs] eqn:Hbuf.
    + apply wp_ret, (Hend _ lss). destruct Hs as [H1 H2 H3 H4 H5 H6 H7 H8]. rewrite Hbuf in *. by split.
    + rewrite <- Hbuf. eapply wp_flush; [exact Hs|by rewrite Hbuf|done|]. intros levels lss' w2 H2. by eapply Hend.
  - destruct Hs as [_ _ _ Hp _ Hno _ _]. rewrite (Hno Hruns), app_nil_r in Hp.
    apply (produces_checked cb E _ w1 body I); [|by rewrite <- (sort_items_cong _ _ Hp)|done|by rewrite <- (sort_items_cong _ _ Hp)].
    intros done w2 w3 Hst. apply HI. by apply still_quiet.
Qed.

Lemma clear_outcome w :
  match tracker_clear cb w with
  | (Err x, w') => (exists y, x = Raised y /\ callback_raises cb y) /\ w_sizes w' = ∅ /\ w_files w' = w_files w
  | (Ok _, w') => w_sizes w' = ∅ /\ w_files w' = w_files w /\ quiet w w'
  end.
Proof.
  unfold tracker_clear. rewrite io_bind_eq. cbn [io_get]. case_bool_decide as He; [done|].
  rewrite io_bind_eq. cbn [io_modify]. unfold _publish. destruct (artifact_observer cb) as [f|] eqn:Ho; [|done].
  rewrite io_bind_eq. cbn [io_get]. rewrite io_bind_eq. cbn [io_modify].
  unfold raise_option. destruct (f _ _) as [y|] eqn:Hf; cbn; [|done].
  split; [|done]. exists y. split; [done|]. right. left. eauto.
Qed.

Abbreviation external_sort := (external_sort_encoded_rows float_of iterencode cb key_indexes key_types field_count limit fan).

Lemma wp_external_sort rows items body (I : list pystr -> world -> Prop) Q w :
  0 < limit -> length key_types = length key_indexes ->
  forallb json_clean rows = true -> mapM row_item rows = Ok items -> within_bound (length items) -> heedless I ->
  (forall done x w, x ∈ (sort_items_by_key items).*2 -> I done w -> wp cb E (body x) (fun _ w' => I (done ++ [x]) w') w) ->
  I [] w -> (forall w', I (sort_items_by_key items).*2 w' -> Q tt w') ->
  wp cb E (external_sort (Ok <$> rows) body) Q w.
Proof.
  intros Hlim Hlen Hc Hm HE HI Hb Hi HQ. unfold external_sort_encoded_rows.
  rewrite (proj2 (Z.leb_gt limit 0) Hlim), (proj2 (Nat.ltb_ge fan 2) fan_in), Hlen, Nat.eqb_refl. cbn [orb negb].
  apply wp_finally.
  { intros w'. pose proof (clear_outcome w') as H. destruct (tracker_clear cb w') as [[[]|x] w2]; [done|apply H]. }
  apply wp_finally; [done|]. eapply (wp_sort_body _ _ _ I); [done|done|done|done|done|done|].
  intros w1 H1. apply wp_modify. unfold wp. pose proof (clear_outcome (set_files ∅ w1)) as H.
  destruct (tracker_clear cb (set_files ∅ w1)) as [[[]|x] w2]; [|left; apply H].
  apply HQ. eapply HI; [|exact H1]. destruct H as (_ & _ & Hq). exact Hq.
Qed.

(** Whatever happens, the temporary files and what is known of them are gone. *)
Lemma external_sort_clean rows body w r w' :
  0 < limit -> length key_types = length key_indexes ->
  external_sort rows body w = (r, w') -> w_files w' = ∅ /\ w_sizes w' = ∅.
Proof.
  clear E. intros Hlim Hlen. unfold external_sort_encoded_rows.
  rewrite (proj2 (Z.leb_gt limit 0) Hlim), (proj2 (Nat.ltb_ge fan 2) fan_in), Hlen, Nat.eqb_refl. cbn [orb negb].
  unfold finally_do. destruct (sort_body _ _ _ _ _ _ _ _ _ _ w) as [r1 w1]. cbn [io_modify].
  pose proof (clear_outcome (set_files ∅ w1)) as H.
  destruct (tracker_clear cb (set_files ∅ w1)) as [[[]|x] w2]; intros [= <- <-]; cbn in H; naive_solver.
Qed.
End Loop.

(** What the external sort promises: its consumer sees the encodings of the rows in order,
    whatever the memory limit and the fan-in; it fails only when a callback raises or when
    there are more runs than its levels hold; and the rows in memory stay below the limit. *)


(** A consumer that keeps the lines it is given. *)
Definition collect (encoded : pystr) : io unit :=
  io_modify (fun w => set_sink (MkSink (sk_bytes (w_sink w) ++ line_text encoded) false) (w_chunks w) w).

Lemma bind_snoc (l : list pystr) x : (l ++ [x]) ≫= line_text = (l ≫= line_text) ++ line_text x.
Proof. rewrite bind_app. cbn. by rewrite app_nil_r. Qed.

(** C19. The external sort is a sort: for clean rows with valid keys, whatever the memory limit and
    the fan-in, the consumer is given the rows' encodings ordered by key, then by text; the only
    failures are an exception of a callback, and, with at least [fan ^ 4] rows, the bound on the
    runs; and no temporary file is left in any case. *)
Theorem external_sort_is_sort float_of iterencode cb key_indexes key_types field_count limit fan rows items w :
  (forall v, writable v = true -> concat (iterencode v) = dumps compact_style v) ->
  0 < limit -> (1 < fan)%nat -> length key_types = length key_indexes ->
  forallb json_clean rows = true -> mapM (row_item key_indexes key_types field_count) rows = Ok items ->
  let '(r, w') := external_sort_encoded_rows float_of iterencode cb key_indexes key_types field_count limit fan
                    (Ok <$> rows) collect w in
  w_files w' = ∅ /\ w_sizes w' = ∅ /\
  match r with
  | Ok _ => sk_bytes (w_sink w') = sk_bytes (w_sink w) ++ ((sort_items_by_key items).*2 ≫= line_text)
  | Err x => (exists y, x = Raised y /\ callback_raises cb y) \/
             x = bound_exceeded /\ (fan ^ _MAX_RUN_LEVELS <= length rows)%nat
  end.
Proof.
  intros Hit Hlim Hfan Hlen Hc Hm.
  pose proof (wp_external_sort float_of iterencode Hit cb key_indexes key_types field_count limit fan Hfan
    (fun x => x = bound_exceeded /\ (fan ^ _MAX_RUN_LEVELS <= length rows)%nat) rows items collect
    (fun done w' => sk_bytes (w_sink w') = sk_bytes (w_sink w) ++ (done ≫= line_text))
    (fun _ w' => sk_bytes (w_sink w') = sk_bytes (w_sink w) ++ ((sort_items_by_key items).*2 ≫= line_text)) w Hlim Hlen Hc Hm) as H.
  destruct (external_sort_encoded_rows _ _ _ _ _ _ _ _ _ _ w) as [r w'] eqn:Hrun.
  edestruct external_sort_clean as [Hf Hs]; [exact Hfan|exact Hlim|exact Hlen|exact Hrun|]. split_and!; [done|done|].
  unfold wp in H. rewrite Hrun in H. apply H.
  - intros Hle. split; [done|]. apply mapM_Ok, Forall2_length in Hm. lia.
  - intros done w1 w2 [Hb _]. congruence.
  - intros done x w1 _ H1. apply wp_modify. cbn. rewrite H1, bind_snoc. by rewrite app_assoc.
  - cbn. by rewrite app_nil_r.
  - done.
Qed.

Definition world0 : world := MkWorld 0 [] ∅ ∅ 0 (MkSink [] true) [].
Definition no_callbacks : callbacks := MkCallbacks None None None.

(** Three rows, sorted in runs of one row merged two at a time. *)
Definition sample_rows : list pyval :=
  [VTuple [VStr (lit "b"); VInt 2]; VTuple [VStr (lit "c"); VNone]; VTuple [VStr (lit "a"); VBool true]].

Definition sample_items : list (list key_value * pystr) :=
  (fun r => ([KText (lit r.1)], dumps compact_style r.2)) <$> combine ["b"; "c"; "a"]%string sample_rows.

Definition whole_text (v : pyval) : list pystr := [dumps compact_style v].

Lemma external_sort_is_sort_witness :
  let '(r, w') := external_sort_encoded_rows (fun _ => VNone) whole_text no_callbacks
                    [0%nat] [KeyStr] 2 5 2 (Ok <$> sample_rows) collect world0 in
  r = Ok tt /\
  sk_bytes (w_sink w') = [VTuple [VStr (lit "a"); VBool true]; VTuple [VStr (lit "b"); VInt 2]; VTuple [VStr (lit "c"); VNone]]
                 ≫= (fun row => line_text (dumps compact_style row)).
Proof.
  pose proof (external_sort_is_sort (fun _ => VNone) whole_text no_callbacks
    [0%nat] [KeyStr] 2 5 2 sample_rows sample_items world0
    ltac:(intros v _; apply app_nil_r) eq_refl ltac:(lia) eq_refl eq_refl eq_refl) as H.
  destruct (external_sort_encoded_rows _ _ _ _ _ _ _ _ _ _ _) as [r w'] eqn:Hrun.
  assert (r = Ok tt) as -> by (apply (f_equal fst) in Hrun; vm_compute in Hrun; congruence).
  split; [done|]. destruct H as (_ & _ & ->). vm_compute. reflexivity.
Defined.

(** ** Memory *)

Section Memory.
Variables (float_of : pystr -> pyval) (iterencode : pyval -> list pystr) (cb : callbacks).
Variables (key_indexes : list nat) (key_types : list key_type) (field_count : nat) (limit : Z) (fan : nat).

Lemma bind_io_Ok {A B} (m : io A) (f : A -> io B) w b w2 :
  (m ≫= f) w = (Ok b, w2) -> exists a w1, m w = (Ok a, w1) /\ f a w1 = (Ok b, w2).
Proof. unfold mbind, io_bind. destruct (m w) as [[a|x] w1]; [eauto|done]. Qed.

Lemma add_run_digits levels path w levels' w' :
  (1 < fan)%nat -> digits fan levels ->
  _add_run float_of cb key_indexes key_types field_count fan levels path w = (Ok levels', w') -> digits fan levels'.
Proof.
  intros Hfan Hd. revert path w levels' w'. induction Hd as [|group rest Hg Hd IH]; intros path w levels' w'; [done|].
  cbn [_add_run]. destruct (Nat.ltb_spec (length (group ++ [path])) fan) as [Hlt|_].
  { intros [= <- _]. by constructor. }
  intros (out & w1 & _ & (u & w2 & _ & (rest' & w3 & Hr & [= <- _])%bind_io_Ok)%bind_io_Ok)%bind_io_Ok.
  constructor; [cbn; lia|by eapply IH].
Qed.

(** The buffer is counted, and below the limit; a level has less than a fan-in of runs. *)
Definition bounded (s : sort_state) : Prop :=
  ss_bytes s = foldr (fun x n => Z.of_nat (length x.2) + n) 0 (ss_buffered s) /\
  ss_bytes s < limit /\ digits fan (ss_levels s).

Lemma spill_bounded s w s' w' :
  0 < limit -> (1 < fan)%nat -> digits fan (ss_levels s) ->
  spill float_of cb key_indexes key_types field_count fan s w = (Ok s', w') -> bounded s'.
Proof.
  intros Hl Hf Hd (path & w1 & _ & (levels & w2 & Ha & [= <- _])%bind_io_Ok)%bind_io_Ok.
  split_and!; [done|done|]. by eapply add_run_digits.
Qed.

Lemma foldr_length_snoc (l : list (list key_value * pystr)) x :
  foldr (fun y n => Z.of_nat (length y.2) + n) 0 (l ++ [x]) =
  foldr (fun y n => Z.of_nat (length y.2) + n) 0 l + Z.of_nat (length x.2).
Proof. induction l as [|y l IH]; cbn; [lia|rewrite IH; lia]. Qed.

Lemma step_bounded s row w s' w' :
  0 < limit -> (1 < fan)%nat -> bounded s ->
  sort_step float_of iterencode cb key_indexes key_types field_count limit fan s row w = (Ok s', w') -> bounded s'.
Proof.
  intros Hl Hf Hb (r & w1 & _ & (u & w2 & _ & (x & w3 & _ & H)%bind_io_Ok)%bind_io_Ok)%bind_io_Ok.
  apply bind_io_Ok in H as (s1 & w4 & H1 & H2).
  assert (bounded s1) as (Hs & Hlt & Hd).
  { destruct (negb _ && _); [|by injection H1 as <- _]. eapply spill_bounded; [done|done|apply Hb|exact H1]. }
  cbn zeta in H2. destruct (limit <=? _) eqn:E; [by eapply spill_bounded; [..|exact H2]|].
  injection H2 as <- _. cbn in E. split_and!; cbn; [rewrite foldr_length_snoc; lia|lia|done].
Qed.
End Memory.

(** C37. Memory stays bounded: after any rows, with any callbacks, the texts buffered are those
    counted and shorter together than the limit, and every level has fewer runs than the
    fan-in, so that no merge opens more files than that. *)
Theorem sort_memory_bounded float_of iterencode cb key_indexes key_types field_count limit fan rows w s w' :
  0 < limit -> (1 < fan)%nat ->
  sort_loop float_of iterencode cb key_indexes key_types field_count limit fan
    (MkSort [] 0 (replicate _MAX_RUN_LEVELS []) false) rows w = (Ok s, w') ->
  bounded limit fan s.
Proof.
  intros Hl Hf. assert (bounded limit fan (MkSort [] 0 (replicate _MAX_RUN_LEVELS []) false)) as Hb.
  { split_and!; [done|done|]. repeat constructor; cbn; lia. }
  revert Hb. generalize (MkSort [] 0 (replicate _MAX_RUN_LEVELS []) false). revert w.
  induction rows as [|row rows IH]; intros w s0 Hb; cbn [sort_loop].
  - by intros [= <- _].
  - intros (s1 & w1 & H1 & H2)%bind_io_Ok. eapply IH; [|exact H2]. by eapply step_bounded.
Qed.

Lemma sort_memory_bounded_witness :
  exists s w', sort_loop (fun _ => VNone) whole_text no_callbacks [0%nat] [KeyStr] 2 5 2
    (MkSort [] 0 (replicate _MAX_RUN_LEVELS []) false) (Ok <$> sample_rows) world0 = (Ok s, w') /\ bounded 5 2 s.
Proof.
  destruct (sort_loop (fun _ => VNone) whole_text no_callbacks [0%nat] [KeyStr] 2 5 2
    (MkSort [] 0 (replicate _MAX_RUN_LEVELS []) false) (Ok <$> sample_rows) world0) as [[s|x] w'] eqn:E;
    [|apply (f_equal fst) in E; vm_compute in E; discriminate E].
  exists s, w'. split; [done|]. eapply sort_memory_bounded; [lia|lia|exact E].
Defined.
