(* ===== verification/StructuralDigest.v ===== *)
(** The digest of the seven families of stored rows: [storage/structural_digest.py].

    The rows of every family are ordered by the external sort and the canonical JSON of the
    whole graph is given to SHA-256 a chunk at a time, without being built. *)
From S2P Require Import Prelude Utf8 Sha256 PyVal Ordering Json Limits ExternalSort.
Open Scope Z_scope.

(** ** Families *)

Definition STRUCTURAL_DIGEST_FIELDS : list (pystr * list pystr) :=
  [(lit "files", lit <$> ["path"; "language"; "role"; "content_hash"; "executable"; "generated"; "metadata_json"]%string);
   (lit "raw_observations",
     lit <$> ["source_ordinal"; "schema_version"; "kind"; "source_id"; "path"; "payload_json"; "payload_hash"]%string);
   (lit "canonical_nodes",
     lit <$> ["graph_key_version"; "canonical_key"; "kind"; "display_name"; "metadata_json"; "confidence"; "conflict"]%string);
   (lit "canonical_edges",
     lit <$> ["graph_key_version"; "source_canonical_key"; "edge_kind"; "target_canonical_key"; "identity_metadata_json";
              "identity_metadata_hash"; "metadata_json"; "confidence"; "conflict"]%string);
   (lit "canonical_evidence",
     lit <$> ["graph_key_version"; "evidence_key"; "raw_observation_ordinal"; "raw_schema_version"; "raw_kind";
              "raw_source_id"; "path"; "start_line"; "end_line"; "extractor"; "extractor_version"; "confidence";
              "metadata_json"]%string);
   (lit "canonical_node_evidence", lit <$> ["canonical_key"; "evidence_key"; "link_kind"]%string);
   (lit "canonical_edge_evidence",
     lit <$> ["source_canonical_key"; "edge_kind"; "target_canonical_key"; "identity_metadata_hash"; "evidence_key";
              "link_kind"]%string)].

(** [tuple(sorted(STRUCTURAL_DIGEST_FIELDS))] *)
Definition STRUCTURAL_DIGEST_FAMILY_CODES : list pystr :=
  merge_sort (fun s t => Is_true (str_leb s t)) STRUCTURAL_DIGEST_FIELDS.*1.

Definition _STRUCTURAL_DIGEST_ORDER_INDEXES : list (pystr * list nat) :=
  [(lit "files", [0]);
   (lit "raw_observations", [0]);
   (lit "canonical_nodes", [0; 1]);
   (lit "canonical_edges", [0; 1; 2; 3; 5]);
   (lit "canonical_evidence", [0; 1]);
   (lit "canonical_node_evidence", [0; 1; 2]);
   (lit "canonical_edge_evidence", [0; 1; 2; 3; 4; 5])]%nat.

Definition _STRUCTURAL_DIGEST_ORDER_TYPES : list (pystr * list key_type) :=
  [(lit "files", [KeyStr]);
   (lit "raw_observations", [KeyInt]);
   (lit "canonical_nodes", [KeyInt; KeyStr]);
   (lit "canonical_edges", [KeyInt; KeyStr; KeyStr; KeyStr; KeyStr]);
   (lit "canonical_evidence", [KeyInt; KeyStr]);
   (lit "canonical_node_evidence", [KeyStr; KeyStr; KeyStr]);
   (lit "canonical_edge_evidence", [KeyStr; KeyStr; KeyStr; KeyStr; KeyStr; KeyStr])].

(** A row of a family, already encoded or not, and a family with the generator of its rows. *)
Inductive digest_row :=
| EncodedStructuralDigestRow (text : pystr)
| PlainRow (row : pyval).

Record StructuralDigestFamily := MkFamily {
  family_code : pystr;
  ordered_rows : (digest_row -> io unit) -> io unit
}.

Section Digest.
Variable float_of : pystr -> pyval.
Variable iterencode : pyval -> list pystr.
Variable cb : callbacks.

Definition _update (payload : list Z) : io unit :=
  _ ← _check_cancellation cb;
  _ ← io_modify (fun w => set_sink (MkSink (sk_bytes (w_sink w) ++ payload) (sk_first (w_sink w))) (w_chunks w) w);
  match chunk_observer cb with
  | None => mret tt
  | Some f =>
      let n := Z.of_nat (length payload) in
      _ ← io_modify (fun w => set_sink (w_sink w) (w_chunks w ++ [n]) w);
      raise_option (f n)
  end.

(** [text.encode("ascii")] *)
Definition encode_ascii (text : pystr) : sres (list Z) :=
  if forallb (fun c => (0 <=? c) && (c <? 128)) text then Ok text
  else Err (Raised (ValueError "'ascii' codec can't encode character: ordinal not in range(128)")).

Definition update_text (text : pystr) : io unit := payload ← io_lift (encode_ascii text); _update payload.

Definition _encode_json (value : pyval) : io unit :=
  iter_canonical_json_chunks iterencode cb (StructuralDigestError "structural digest row value is invalid") value
    update_text.

Definition _encode_canonical_row (encoded : pystr) : io unit := iter_text_chunks cb encoded update_text.

Definition set_first (b : bool) : io unit :=
  io_modify (fun w => set_sink (MkSink (sk_bytes (w_sink w)) b) (w_chunks w) w).

Definition encode_row (expected_fields : nat) (row : digest_row) : io unit :=
  _ ← _check_cancellation cb;
  w ← io_get;
  _ ← (if sk_first (w_sink w) then mret tt else _update (lit ","));
  _ ← match row with
      | EncodedStructuralDigestRow text => _encode_canonical_row text
      | PlainRow row =>
          match row_values row with
          | Some values =>
              if Nat.eqb (length values) expected_fields then _encode_json row
              else io_raise (StructuralDigestError "structural digest row is invalid")
          | None => io_raise (StructuralDigestError "structural digest row is invalid")
          end
      end;
  set_first false.

(** [family_code] is one of the seven. *)
Definition _encode_rows (family : StructuralDigestFamily) : io unit :=
  let expected_fields := length (default [] (dict_get (family_code family) STRUCTURAL_DIGEST_FIELDS)) in
  _ ← set_first true;
  ordered_rows family (encode_row expected_fields).

(** The families not yet taken; [None] is an object that is no family. *)
Fixpoint digest_families (index : nat) (codes : list pystr) (families : list (option StructuralDigestFamily)) : io unit :=
  match codes with
  | [] =>
      match families with
      | [] => mret tt
      | _ :: _ => io_raise (StructuralDigestError "structural digest family is unexpected")
      end
  | expected_family :: codes =>
      match families with
      | [] => io_raise (StructuralDigestError "structural digest family is missing")
      | family :: families =>
          match family with
          | Some family =>
              if bool_decide (family_code family = expected_family) then
                _ ← (if Nat.eqb index 0 then mret tt else _update (lit ","));
                _ ← _encode_json (VStr expected_family);
                _ ← _update (lit ":[");
                _ ← _encode_rows family;
                _ ← _update (lit "]");
                digest_families (S index) codes families
              else io_raise (StructuralDigestError "structural digest family order is invalid")
          | None => io_raise (StructuralDigestError "structural digest family order is invalid")
          end
      end
  end.

Definition structural_digest (families : list (option StructuralDigestFamily)) : io pystr :=
  _ ← io_modify (fun w => set_sink (MkSink [] true) (w_chunks w) w);
  _ ← _update (lit "{");
  _ ← digest_families 0 STRUCTURAL_DIGEST_FAMILY_CODES families;
  _ ← _update (lit "}");
  _ ← _check_cancellation cb;
  w ← io_get;
  mret (sha256_hex (sk_bytes (w_sink w))).

(** ** Prepared rows *)

Definition bad_prepared_row : sort_exn := StructuralDigestError "prepared structural digest row is invalid".

(** [tuple(row[field] for field in fields)]; what the rows' iterator raises passes through. *)
Definition _project_prepared_rows (rows : list (sres pyval)) (fields : list pystr) : list (sres pyval) :=
  (fun r : sres pyval =>
     row ← r;
     match row with
     | VDict d =>
         values ← mapM (fun field => match dict_get field d with Some v => Ok v | None => Err bad_prepared_row end) fields;
         Ok (VTuple values)
     | _ => Err bad_prepared_row
     end) <$> rows.

(** [except ExternalRowSortError] *)
Definition ordering_failed : sort_exn := StructuralDigestError "prepared structural digest ordering failed".
Definition catch_sort_error (m : io unit) : io unit := fun w =>
  match m w with (Err (ExternalRowSortError _), w') => (Err ordering_failed, w') | r => r end.

Definition _ordered_prepared_rows (rows : list (sres pyval)) (family : pystr) (fields : list pystr)
    (body : digest_row -> io unit) : io unit :=
  catch_sort_error (external_sort_encoded_rows float_of iterencode cb
    (default [] (dict_get family _STRUCTURAL_DIGEST_ORDER_INDEXES))
    (default [] (dict_get family _STRUCTURAL_DIGEST_ORDER_TYPES))
    (length fields) _DEFAULT_RUN_BYTE_LIMIT _DEFAULT_MERGE_FAN_IN
    (_project_prepared_rows rows fields) (fun encoded => body (EncodedStructuralDigestRow encoded))).

(** [prepared.family_rows]: the iterables of the rows by family. *)
Definition prepared_rows := list (pystr * list (sres pyval)).

Definition digest_prepared_stage_rows (family_rows : prepared_rows) : io pystr :=
  if negb (bool_decide (list_to_set family_rows.*1 =@{gset pystr} list_to_set STRUCTURAL_DIGEST_FAMILY_CODES))
  then io_raise (StructuralDigestError "prepared structural digest families are invalid")
  else
    structural_digest ((fun family =>
      Some (MkFamily family (_ordered_prepared_rows (default [] (dict_get family family_rows)) family
        (default [] (dict_get family STRUCTURAL_DIGEST_FIELDS))))) <$> STRUCTURAL_DIGEST_FAMILY_CODES).
End Digest.
