(* ===== verification/StructuralDigestFacts.v ===== *)
(** The streaming digest is the digest of the canonical JSON of the whole graph, with the
    rows of every family in order. *)
From S2P Require Import Prelude Utf8 Sha256 PyVal Ordering Json JsonFacts Observations ObservationsFacts Limits.
From S2P Require Import ExternalSort ExternalSortFacts StructuralDigest.
Open Scope Z_scope.

(** ** JSON on one line *)

Lemma bracketed_level st n m o c parts : indent st = None -> bracketed st n o c parts = bracketed st m o c parts.
Proof. intros H. unfold bracketed, newline. by rewrite H. Qed.

Lemma json_text_level st n m v : indent st = None -> json_text st n v = json_text st m v.
Proof.
  intros Hst. revert n m.
  induction v as [|b|k|t i|s|l IH|l IH|d IH] using pyval_ind'; intros n m; cbn [json_text]; try done.
  1, 2: rewrite (bracketed_level st n m) by done; f_equal; apply list_fmap_ext; intros i x Hx;
    rewrite Forall_forall in IH; apply IH; by eapply list_elem_of_lookup_2.
  rewrite (bracketed_level st n m) by done. do 3 f_equal. apply list_fmap_ext. intros i x Hx. f_equal.
  rewrite Forall_forall in IH. apply IH. by eapply list_elem_of_lookup_2.
Qed.

Lemma dumps_list l : dumps compact_style (VList l) = lit "[" ++ join_with (lit ",") (dumps compact_style <$> l) ++ lit "]".
Proof.
  unfold dumps. cbn [json_text].
  assert (forall n, (json_text compact_style n <$> l) = (json_text compact_style 0 <$> l)) as ->.
  { intros n. apply list_fmap_ext. intros i x _. by apply json_text_level. }
  by destruct l.
Qed.

Lemma join_with_snoc sep l x : join_with sep (l ++ [x]) = join_with sep l ++ match l with [] => [] | _ => sep end ++ x.
Proof.
  induction l as [|p [|q l] IH]; [done|done|]. cbn [app join_with] in *. rewrite IH. by rewrite <- !app_assoc.
Qed.

Lemma mapM_id_Ok {E A} (l : list (result E A)) k : mapM id l = Ok k -> l = Ok <$> k.
Proof.
  intros H%mapM_Ok. induction H as [|r x l k Hr _ IH]; [done|]. cbn. unfold id in Hr. by rewrite Hr, IH.
Qed.

(** ** The reference *)

Section Reference.
Variable family_rows : prepared_rows.

Definition fields_of (code : pystr) : list pystr := default [] (dict_get code STRUCTURAL_DIGEST_FIELDS).
Definition rows_of (code : pystr) : list (sres pyval) := default [] (dict_get code family_rows).

Definition item_of_row (code : pystr) : pyval -> sres item :=
  row_item (default [] (dict_get code _STRUCTURAL_DIGEST_ORDER_INDEXES))
    (default [] (dict_get code _STRUCTURAL_DIGEST_ORDER_TYPES)) (length (fields_of code)).

(** The rows of a family as tuples of its fields. *)
Definition projected (code : pystr) : sres (list pyval) :=
  mapM id (_project_prepared_rows (rows_of code) (fields_of code)).

(** Every row has its fields, with values JSON keeps and a key of the right types. *)
Definition family_valid (code : pystr) : bool :=
  match projected code with
  | Ok rows => forallb json_clean rows &&
               match mapM (item_of_row code) rows with Ok _ => true | Err _ => false end
  | Err _ => false
  end.

Definition sort_item (code : pystr) (row : pyval) : item :=
  match item_of_row code row with Ok x => x | Err _ => ([], []) end.

(** The rows sorted by their key, then by their text. *)
Definition canonical_order (code : pystr) : list pyval :=
  match projected code with
  | Ok rows => merge_sort (fun x y => Is_true (not_gt (item_compare (sort_item code x) (sort_item code y)))) rows
  | Err _ => []
  end.

Definition whole_graph : pyval :=
  VDict ((fun code => (code, VList (canonical_order code))) <$> STRUCTURAL_DIGEST_FAMILY_CODES).

Definition family_text (code : pystr) : pystr :=
  json_str code ++ lit ":[" ++ join_with (lit ",") (dumps compact_style <$> canonical_order code) ++ lit "]".

Lemma codes_sorted {A} (f : pystr -> A) :
  sort_items ((fun code => (code, f code)) <$> STRUCTURAL_DIGEST_FAMILY_CODES) =
  (fun code => (code, f code)) <$> STRUCTURAL_DIGEST_FAMILY_CODES.
Proof. vm_compute. reflexivity. Qed.

Lemma whole_graph_text :
  dumps compact_style whole_graph =
  lit "{" ++ join_with (lit ",") (family_text <$> STRUCTURAL_DIGEST_FAMILY_CODES) ++ lit "}".
Proof.
  unfold whole_graph, dumps. cbn [json_text]. rewrite <- list_fmap_compose. unfold compose. cbn [fst snd].
  rewrite (codes_sorted (fun code => json_text compact_style 1 (VList (canonical_order code)))).
  rewrite <- list_fmap_compose. unfold compose. cbn [fst snd].
  assert (forall code, json_str code ++ key_separator compact_style ++ json_text compact_style 1 (VList (canonical_order code))
    = family_text code) as Ht.
  { intros code. rewrite (json_text_level _ 1 0) by done. change (json_text compact_style 0) with (dumps compact_style).
    by rewrite dumps_list. }
  rewrite (list_fmap_ext _ family_text) by (intros; apply Ht).
  assert (STRUCTURAL_DIGEST_FAMILY_CODES <> []) as Hne by done.
  by destruct STRUCTURAL_DIGEST_FAMILY_CODES.
Qed.

(** A valid family: its rows, their items, and the order of both. *)
Lemma family_valid_items code :
  family_valid code = true ->
  exists rows items,
    _project_prepared_rows (rows_of code) (fields_of code) = Ok <$> rows /\ forallb json_clean rows = true /\
    mapM (item_of_row code) rows = Ok items /\
    (sort_items_by_key items).*2 = dumps compact_style <$> canonical_order code /\ canonical_order code ≡ₚ rows.
Proof.
  unfold family_valid, canonical_order. destruct (projected code) as [rows|] eqn:Hp; [|done].
  intros [Hc Hm]%andb_true_iff. destruct (mapM (item_of_row code) rows) as [items|] eqn:Hi; [|done].
  exists rows, items. split_and!; [|done|done| |apply merge_sort_Permutation].
  - by apply mapM_id_Ok.
  - apply mapM_Ok in Hi.
    assert (items = sort_item code <$> rows) as ->.
    { clear Hp Hc. induction Hi as [|r x rs xs Hx _ IH]; [done|]. cbn. f_equal; [|done]. unfold sort_item. by rewrite Hx. }
    set (R := fun x y => Is_true (not_gt (item_compare (sort_item code x) (sort_item code y)))).
    destruct (ordering_not_gt _ item_ordering) as [Ht Htr].
    assert (StronglySorted R (merge_sort R rows)) as Hs.
    { apply StronglySorted_merge_sort; [intros x y z; apply Htr|intros x y; apply Ht]. }
    rewrite <- (sorted_is_sort (sort_item code <$> merge_sort R rows)).
    + rewrite <- list_fmap_compose. apply list_fmap_ext. intros i row Hrow. cbn.
      assert (row ∈ rows) as Hin.
      { rewrite <- (merge_sort_Permutation R). by eapply list_elem_of_lookup_2. }
      apply list_elem_of_lookup in Hin as [j Hj]. apply list_lookup_fmap_Some_2 with (f := sort_item code) in Hj as Hj'.
      pose proof (Forall2_lookup_lr _ _ _ _ _ _ Hi Hj Hj') as Hx. unfold item_of_row, row_item in Hx.
      destruct (row_values row) as [values|]; [|done]. destruct (Nat.eqb _ _); [|done]. unbind Hx. by injection Hx as <-.
    + induction Hs as [|x l Hs IH Hall]; constructor; [done|]. apply Forall_fmap. eapply Forall_impl; [exact Hall|].
      intros y Hy. by apply not_gt_iff.
    + by rewrite (merge_sort_Permutation R).
Qed.
End Reference.

(** ** Feeding the digest *)

Abbreviation fed w := (sk_bytes (w_sink w)).
Abbreviation first_row w := (sk_first (w_sink w)).

Section Feed.
Variable float_of : pystr -> pyval.
Variable iterencode : pyval -> list pystr.
Hypothesis iterencode_text : forall v, writable v = true -> concat (iterencode v) = dumps compact_style v.
Variable cb : callbacks.
Variable E : sort_exn -> Prop.

Lemma wp_update payload Q w :
  (forall w', fed w' = fed w ++ payload -> first_row w' = first_row w -> Q tt w') -> wp cb E (_update cb payload) Q w.
Proof.
  intros HQ. unfold _update. apply iwp_bind, wp_check. intros w1 (_ & _ & _ & Hs & _). apply iwp_bind, wp_modify.
  assert (forall w', w_sink w' = MkSink (fed w1 ++ payload) (first_row w1) -> Q tt w') as HQ'.
  { intros w' H. apply HQ; rewrite H; cbn; by rewrite Hs. }
  destruct (chunk_observer cb) as [f|] eqn:Hf; [|by apply wp_ret, HQ'].
  apply iwp_bind, wp_modify, wp_raise_option; [|by apply HQ'].
  intros y Hy. right. right. eauto.
Qed.

Lemma printable_chunk l x : printable (concat l) -> x ∈ l -> printable x.
Proof.
  intros Hp Hx. unfold printable in *. rewrite Forall_forall in Hp |- *. intros c Hc. apply Hp.
  apply list_elem_of_In, in_concat. exists x. by rewrite <- !list_elem_of_In.
Qed.

Lemma wp_update_text text Q w :
  printable text -> (forall w', fed w' = fed w ++ text -> first_row w' = first_row w -> Q tt w') ->
  wp cb E (update_text cb text) Q w.
Proof.
  intros Hp HQ. unfold update_text. apply iwp_bind. eapply wp_lift; [|by apply wp_update].
  unfold encode_ascii. replace (forallb _ text) with true; [done|]. symmetry. apply forallb_forall.
  intros c Hc%list_elem_of_In. unfold printable in Hp. rewrite Forall_forall in Hp. apply Hp in Hc. lia.
Qed.

(** The chunks of a text are fed one after the other. *)
Lemma wp_feed l g text Q w :
  produces cb E l g w -> concat l = text -> printable text ->
  (forall w', fed w' = fed w ++ text -> first_row w' = first_row w -> Q tt w') -> wp cb E (g (update_text cb)) Q w.
Proof.
  intros Hg <- Hp HQ. apply (Hg _ (fun done w' => fed w' = fed w ++ concat done /\ first_row w' = first_row w)).
  - intros done w1 w2 (_ & _ & _ & Hs & _). by rewrite Hs.
  - intros done x w1 Hx [H1 H2]. apply wp_update_text; [by eapply printable_chunk|]. intros w2 F1 F2.
    rewrite F1, F2, H1, concat_app. cbn. by rewrite app_nil_r, app_assoc.
  - cbn. by rewrite app_nil_r.
  - intros w' [H1 H2]. by apply HQ.
Qed.

Lemma wp_encode_code code Q w :
  forallb is_scalar code = true ->
  (forall w', fed w' = fed w ++ json_str code -> Q tt w') ->
  wp cb E (_encode_json iterencode cb (VStr code)) Q w.
Proof.
  intros Hc HQ. unfold _encode_json.
  eapply (wp_feed _ (iter_canonical_json_chunks iterencode cb _ (VStr code))); [by apply json_produces| | |].
  - rewrite concat_bind_chunks. by apply iterencode_text.
  - by apply json_str_printable.
  - intros w' H _. by apply HQ.
Qed.

(** Rows that come encoded. *)
Lemma wp_encode_encoded n text Q w :
  printable text ->
  (forall w', fed w' = fed w ++ (if first_row w then [] else lit ",") ++ text -> first_row w' = false -> Q tt w') ->
  wp cb E (encode_row iterencode cb n (EncodedStructuralDigestRow text)) Q w.
Proof.
  intros Hp HQ. unfold encode_row. apply iwp_bind, wp_check. intros w1 (_ & _ & _ & Hs & _).
  apply iwp_bind, wp_get, iwp_bind. rewrite Hs.
  assert (forall w2, fed w2 = fed w ++ (if first_row w then [] else lit ",") ->
    wp cb E (_ ← _encode_canonical_row cb text; set_first false) Q w2) as Hrest.
  { intros w2 H2. apply iwp_bind.
    eapply (wp_feed _ (iter_text_chunks cb text)); [apply text_produces|apply concat_chunks|done|].
    intros w3 H3 _. apply wp_modify. apply HQ; [|done]. cbn. by rewrite H3, H2, app_assoc. }
  destruct (first_row w).
  - apply wp_ret, Hrest. by rewrite Hs, app_nil_r.
  - apply wp_update. intros w2 H2 _. apply Hrest. by rewrite H2, Hs.
Qed.

Lemma wp_catch F m Q w :
  (forall x, F x -> E (match x with ExternalRowSortError _ => ordering_failed | _ => x end)) ->
  wp cb F m Q w -> wp cb E (catch_sort_error m) Q w.
Proof.
  intros HF. unfold wp, catch_sort_error. destruct (m w) as [[a|x] w'].
  - by destruct a.
  - intros [(y & -> & Hy)|Hx]; [cbn; left; eauto|]. apply HF in Hx. destruct x; by right.
Qed.
End Feed.

(** ** Families *)

Section Families.
Variable float_of : pystr -> pyval.
Variable iterencode : pyval -> list pystr.
Hypothesis iterencode_text : forall v, writable v = true -> concat (iterencode v) = dumps compact_style v.
Variable cb : callbacks.
Variable E : sort_exn -> Prop.
Variable family_rows : prepared_rows.

(** Failing is allowed when a family has too many rows for the sort. *)
Hypothesis too_many : forall code, code ∈ STRUCTURAL_DIGEST_FAMILY_CODES ->
  (_DEFAULT_MERGE_FAN_IN ^ _MAX_RUN_LEVELS <= length (rows_of family_rows code))%nat -> E ordering_failed.

Definition prepared_family (code : pystr) : StructuralDigestFamily :=
  MkFamily code (_ordered_prepared_rows float_of iterencode cb (rows_of family_rows code) code (fields_of code)).

Lemma code_facts code :
  code ∈ STRUCTURAL_DIGEST_FAMILY_CODES ->
  forallb is_scalar code = true /\
  length (default [] (dict_get code _STRUCTURAL_DIGEST_ORDER_TYPES)) =
  length (default [] (dict_get code _STRUCTURAL_DIGEST_ORDER_INDEXES)).
Proof.
  revert code. apply Forall_forall.
  repeat (apply Forall_cons; split; [split; vm_compute; reflexivity|]). apply Forall_nil. done.
Qed.

Lemma wp_encode_rows code Q w :
  code ∈ STRUCTURAL_DIGEST_FAMILY_CODES -> family_valid family_rows code = true ->
  (forall w', fed w' = fed w ++ join_with (lit ",") (dumps compact_style <$> canonical_order family_rows code) -> Q tt w') ->
  wp cb E (_encode_rows iterencode cb (prepared_family code)) Q w.
Proof.
  intros Hcode Hv HQ. destruct (family_valid_items _ _ Hv) as (rows & items & Hproj & Hc & Hm & Htext & Hperm).
  unfold _encode_rows. apply iwp_bind, wp_modify. cbn [ordered_rows prepared_family]. unfold _ordered_prepared_rows.
  rewrite Hproj.
  apply (wp_catch cb E (fun x => x = bound_exceeded /\
    (_DEFAULT_MERGE_FAN_IN ^ _MAX_RUN_LEVELS <= length (rows_of family_rows code))%nat)).
  { intros x [-> Hx]. by eapply too_many. }
  assert (Hlen : length items = length (rows_of family_rows code)).
  { apply mapM_Ok, Forall2_length in Hm. apply (f_equal length) in Hproj. unfold _project_prepared_rows in Hproj.
    rewrite !length_fmap in Hproj. lia. }
  eapply wp_external_sort with (I := fun done w' => Forall printable done /\
    fed w' = fed w ++ join_with (lit ",") done /\ first_row w' = bool_decide (done = [])).
  - exact iterencode_text.
  - unfold _DEFAULT_MERGE_FAN_IN. lia.
  - done.
  - by apply code_facts.
  - exact Hc.
  - exact Hm.
  - intros Hle. split; [done|]. by rewrite <- Hlen.
  - intros done w1 w2 [Hs _]. by rewrite Hs.
  - intros done x w1 Hx (Hp & H1 & H2). rewrite Htext in Hx. apply list_elem_of_fmap in Hx as (row & -> & Hrow).
    assert (printable (dumps compact_style row)) as Hpr.
    { apply json_text_printable; [apply compact_one_line|]. rewrite Hperm in Hrow.
      rewrite forallb_forall in Hc. by apply Hc, list_elem_of_In. }
    apply wp_encode_encoded; [exact Hpr|]. intros w2 F1 F2. split_and!.
    + apply Forall_app_2; [done|by apply Forall_singleton].
    + rewrite F1, H1, H2, join_with_snoc, <- !app_assoc. by destruct done.
    + rewrite F2. symmetry. apply bool_decide_eq_false. by destruct done.
  - cbn. split_and!; [constructor|by rewrite app_nil_r|done].
  - intros w' (_ & H & _). apply HQ. by rewrite H, Htext.
Qed.

Lemma digest_families_cons index code codes families :
  digest_families iterencode cb index (code :: codes) (Some (prepared_family code) :: families) =
  (_ ← (if Nat.eqb index 0 then mret tt else _update cb (lit ","));
   _ ← _encode_json iterencode cb (VStr code);
   _ ← _update cb (lit ":[");
   _ ← _encode_rows iterencode cb (prepared_family code);
   _ ← _update cb (lit "]");
   digest_families iterencode cb (S index) codes families).
Proof.
  generalize (prepared_family code) (eq_refl : family_code (prepared_family code) = code). intros f Hf.
  cbn [digest_families]. by rewrite bool_decide_eq_true_2.
Qed.

Lemma wp_families index codes Q w :
  (forall code, code ∈ codes -> code ∈ STRUCTURAL_DIGEST_FAMILY_CODES /\ family_valid family_rows code = true) ->
  codes <> [] ->
  (forall w', fed w' = fed w ++ (if Nat.eqb index 0 then [] else lit ",") ++
       join_with (lit ",") (family_text family_rows <$> codes) -> Q tt w') ->
  wp cb E (digest_families iterencode cb index codes ((fun code => Some (prepared_family code)) <$> codes)) Q w.
Proof.
  revert index Q w. induction codes as [|code codes IH]; intros index Q w Hall Hne HQ; [done|].
  rewrite fmap_cons, digest_families_cons by done.
  destruct (Hall code) as [Hin Hv]; [apply elem_of_cons; by left|]. destruct (code_facts code Hin) as [Hsc _].
  assert (forall w1, fed w1 = fed w ++ (if Nat.eqb index 0 then [] else lit ",") ->
    wp cb E (_ ← _encode_json iterencode cb (VStr code); _ ← _update cb (lit ":[");
             _ ← _encode_rows iterencode cb (prepared_family code); _ ← _update cb (lit "]");
             digest_families iterencode cb (S index) codes ((fun code => Some (prepared_family code)) <$> codes)) Q w1) as Hrest.
  { intros w1 H1. apply iwp_bind, wp_encode_code; [done|done|]. intros w2 H2.
    apply iwp_bind, wp_update. intros w3 H3 _. apply iwp_bind, wp_encode_rows; [done|done|]. intros w4 H4.
    apply iwp_bind, wp_update. intros w5 H5 _.
    assert (fed w5 = (fed w ++ (if Nat.eqb index 0 then [] else lit ",")) ++ family_text family_rows code) as H6.
    { rewrite H5, H4, H3, H2, H1. unfold family_text. by rewrite <- !app_assoc. }
    destruct codes as [|code' codes]; [apply wp_ret, HQ; by rewrite H6, <- app_assoc|].
    apply IH; [intros c Hc; apply Hall, elem_of_cons; by right|done|]. intros w' H7. apply HQ.
    rewrite H7, H6, <- !app_assoc. done. }
  apply iwp_bind. destruct (Nat.eqb index 0); [apply wp_ret, Hrest; by rewrite app_nil_r|].
  apply wp_update. intros w1 H1 _. by apply Hrest.
Qed.

Lemma wp_digest Q w :
  list_to_set family_rows.*1 =@{gset pystr} list_to_set STRUCTURAL_DIGEST_FAMILY_CODES ->
  (forall code, code ∈ STRUCTURAL_DIGEST_FAMILY_CODES -> family_valid family_rows code = true) ->
  (forall w', Q (sha256_hex (dumps compact_style (whole_graph family_rows))) w') ->
  wp cb E (digest_prepared_stage_rows float_of iterencode cb family_rows) Q w.
Proof.
  intros Hset Hv HQ. unfold digest_prepared_stage_rows. rewrite bool_decide_eq_true_2 by done. cbn [negb].
  unfold structural_digest. apply iwp_bind, wp_modify, iwp_bind, wp_update. intros w1 H1 _.
  apply iwp_bind, (wp_families 0); [intros code Hcode; split; [done|by apply Hv]|done|]. intros w2 H2.
  apply iwp_bind, wp_update. intros w3 H3 _. apply iwp_bind, wp_check. intros w4 (_ & _ & _ & H4 & _).
  apply iwp_bind, wp_get, wp_ret. rewrite H4, H3, H2, H1. cbn [sk_bytes w_sink set_sink app Nat.eqb].
  rewrite whole_graph_text in HQ. rewrite <- !app_assoc. apply HQ.
Qed.
End Families.

(** What the structural digest promises. *)


(** The seven families are there, and their rows are valid. *)
Definition prepared_valid (family_rows : prepared_rows) : bool :=
  bool_decide (list_to_set family_rows.*1 =@{gset pystr} list_to_set STRUCTURAL_DIGEST_FAMILY_CODES) &&
  forallb (family_valid family_rows) STRUCTURAL_DIGEST_FAMILY_CODES.

Lemma prepared_valid_spec family_rows :
  prepared_valid family_rows = true ->
  list_to_set family_rows.*1 =@{gset pystr} list_to_set STRUCTURAL_DIGEST_FAMILY_CODES /\
  forall code, code ∈ STRUCTURAL_DIGEST_FAMILY_CODES -> family_valid family_rows code = true.
Proof.
  intros [H1%bool_decide_eq_true H2]%andb_true_iff. split; [done|]. rewrite forallb_forall in H2.
  intros code Hc. by apply H2, list_elem_of_In.
Qed.

Lemma sort_capacity n :
  (_DEFAULT_MERGE_FAN_IN ^ _MAX_RUN_LEVELS <= n)%nat -> 32 ^ 4 <= Z.of_nat n.
Proof.
  intros H%Nat2Z.inj_le. rewrite Nat2Z.inj_pow in H. exact H.
Qed.

(** The outcome for valid rows. *)
Lemma digest_outcome float_of iterencode cb family_rows w :
  (forall v, writable v = true -> concat (iterencode v) = dumps compact_style v) ->
  prepared_valid family_rows = true ->
  match (digest_prepared_stage_rows float_of iterencode cb family_rows w).1 with
  | Ok digest => digest = sha256_hex (dumps compact_style (whole_graph family_rows))
  | Err x => (exists y, x = Raised y /\ callback_raises cb y) \/
             x = ordering_failed /\ exists code, code ∈ STRUCTURAL_DIGEST_FAMILY_CODES /\
               32 ^ 4 <= Z.of_nat (length (rows_of family_rows code))
  end.
Proof.
  intros Hit [Hset Hv]%prepared_valid_spec.
  pose proof (wp_digest float_of iterencode Hit cb
    (fun x => x = ordering_failed /\ exists code, code ∈ STRUCTURAL_DIGEST_FAMILY_CODES /\
       32 ^ 4 <= Z.of_nat (length (rows_of family_rows code))) family_rows) as H.
  specialize (H ltac:(intros code Hc Hn%sort_capacity; split; [reflexivity|by exists code])
    (fun d _ => d = sha256_hex (dumps compact_style (whole_graph family_rows))) w Hset Hv ltac:(done)).
  unfold wp in H. by destruct (digest_prepared_stage_rows _ _ _ _ w) as [[d|x] w'].
Qed.

(** C18. The streaming digest is the digest of the whole graph: for the seven families with valid
    rows, what is returned is the SHA-256 of the canonical JSON of the object that maps every
    family to the list of its rows in order, though neither is ever built; the only failures
    are an exception of a callback, and a family of at least [32 ^ 4] rows. *)
Theorem streaming_digest_of_whole_graph float_of iterencode cb family_rows w :
  (forall v, writable v = true -> concat (iterencode v) = dumps compact_style v) ->
  prepared_valid family_rows = true ->
  match (digest_prepared_stage_rows float_of iterencode cb family_rows w).1 with
  | Ok digest => digest = sha256_hex (dumps compact_style (whole_graph family_rows))
  | Err x => (exists y, x = Raised y /\ callback_raises cb y) \/
             x = ordering_failed /\ exists code, code ∈ STRUCTURAL_DIGEST_FAMILY_CODES /\
               32 ^ 4 <= Z.of_nat (length (rows_of family_rows code))
  end.
Proof. apply digest_outcome. Qed.

(** Without callbacks the digest of few enough rows is returned. *)
Lemma digest_without_callbacks float_of iterencode h w :
  (forall v, writable v = true -> concat (iterencode v) = dumps compact_style v) -> prepared_valid h = true ->
  (forall code, code ∈ STRUCTURAL_DIGEST_FAMILY_CODES -> Z.of_nat (length (rows_of h code)) < 32 ^ 4) ->
  (digest_prepared_stage_rows float_of iterencode (MkCallbacks None None None) h w).1 =
  Ok (sha256_hex (dumps compact_style (whole_graph h))).
Proof.
  intros Hit Hh Hlt. pose proof (digest_outcome float_of iterencode (MkCallbacks None None None) h w Hit Hh) as H.
  generalize dependent (sha256_hex (dumps compact_style (whole_graph h))). intros digest.
  destruct (digest_prepared_stage_rows _ _ _ h w) as [[d|x] w1]; cbn [fst]; [by intros ->|].
  intros [(y & _ & Hy)|(_ & code & Hc & Hge)]; exfalso; [|apply Hlt in Hc; revert Hge; by apply Z.lt_nge].
  destruct Hy as [(? & ? & [=] & _)|[(? & ? & ? & [=] & _)|(? & ? & [=] & _)]].
Qed.

(** ** Order *)

(** The values of the successful results. *)
Definition results (l : list (sres pyval)) : list pyval :=
  l ≫= (fun r => match r with Ok x => [x] | Err _ => [] end).

Lemma results_fmap l : results (Ok <$> l) = l.
Proof. induction l as [|x l IH]; [done|]. unfold results in *. cbn in *. by rewrite IH. Qed.

#[local] Instance results_Permutation : Proper ((≡ₚ) ==> (≡ₚ)) results.
Proof. intros l k H. unfold results. by rewrite H. Qed.

Lemma canonical_order_perm f g code :
  family_valid f code = true -> family_valid g code = true -> rows_of f code ≡ₚ rows_of g code ->
  dumps compact_style <$> canonical_order f code = dumps compact_style <$> canonical_order g code.
Proof.
  intros Hf Hg Hp.
  destruct (family_valid_items f code Hf) as (rf & xf & Pf & _ & Mf & <- & _).
  destruct (family_valid_items g code Hg) as (rg & xg & Pg & _ & Mg & <- & _).
  rewrite (sort_items_cong xf xg); [done|].
  assert (rf ≡ₚ rg) as Hr.
  { rewrite <- (results_fmap rf), <- (results_fmap rg), <- Pf, <- Pg. unfold _project_prepared_rows. by rewrite Hp. }
  apply mapM_Ok in Mf. apply mapM_Ok in Mg.
  assert (forall rs xs, Forall2 (fun r x => item_of_row code r = Ok x) rs xs -> xs = sort_item code <$> rs) as Hx.
  { induction 1 as [|r x rs xs Hx _ IH]; [done|]. cbn. rewrite <- IH. unfold sort_item. by rewrite Hx. }
  by rewrite (Hx _ _ Mf), (Hx _ _ Mg), Hr.
Qed.

Lemma whole_graph_perm f g :
  prepared_valid f = true -> prepared_valid g = true ->
  (forall code, code ∈ STRUCTURAL_DIGEST_FAMILY_CODES -> rows_of f code ≡ₚ rows_of g code) ->
  dumps compact_style (whole_graph f) = dumps compact_style (whole_graph g).
Proof.
  intros [_ Hf]%prepared_valid_spec [_ Hg]%prepared_valid_spec Hp. rewrite !whole_graph_text. do 3 f_equal.
  apply list_fmap_ext. intros i code Hc%list_elem_of_lookup_2. unfold family_text.
  by rewrite (canonical_order_perm f g) by auto.
Qed.

(** The digest does not depend on the order in which the rows were prepared: two valid
    preparations with the same rows in every family, of less than [32 ^ 4] rows each, have
    the same digest, and without callbacks both digests are returned. *)
Theorem digest_order_independent float_of iterencode f g w w' :
  (forall v, writable v = true -> concat (iterencode v) = dumps compact_style v) ->
  prepared_valid f = true -> prepared_valid g = true ->
  (forall code, code ∈ STRUCTURAL_DIGEST_FAMILY_CODES ->
     rows_of f code ≡ₚ rows_of g code /\ Z.of_nat (length (rows_of f code)) < 32 ^ 4) ->
  exists digest,
    (digest_prepared_stage_rows float_of iterencode (MkCallbacks None None None) f w).1 = Ok digest /\
    (digest_prepared_stage_rows float_of iterencode (MkCallbacks None None None) g w').1 = Ok digest.
Proof.
  intros Hit Hf Hg Hp. exists (sha256_hex (dumps compact_style (whole_graph f))). split.
  - apply digest_without_callbacks; [done|done|]. intros code Hc. by apply Hp.
  - rewrite (whole_graph_perm f g) by (done || (intros code Hc; by apply Hp)). apply digest_without_callbacks; [done|done|].
    intros code Hc. destruct (Hp code Hc) as [Hperm Hlt]. by rewrite <- Hperm.
Qed.

(** ** Witnesses *)

Definition whole (v : pyval) : list pystr := [dumps compact_style v].
Definition quiet_world : world := MkWorld 0 [] ∅ ∅ 0 (MkSink [] true) [].

Definition link_row (key evidence : string) : pyval :=
  VDict [(lit "canonical_key", VStr (lit key)); (lit "evidence_key", VStr (lit evidence));
         (lit "link_kind", VStr (lit "supports"))].

(** Two links between nodes and evidence, in some order; the other families empty. *)
Definition sample_prepared (rows : list pyval) : prepared_rows :=
  (fun code => (code, if bool_decide (code = lit "canonical_node_evidence") then Ok <$> rows else [])) <$>
  STRUCTURAL_DIGEST_FAMILY_CODES.

Lemma streaming_digest_of_whole_graph_witness :
  let rows := sample_prepared [link_row "b" "2"; link_row "a" "1"] in
  match (digest_prepared_stage_rows (fun _ => VNone) whole (MkCallbacks None None None) rows quiet_world).1 with
  | Ok d => d = sha256_hex (dumps compact_style (whole_graph rows))
  | Err _ => False
  end.
Proof.
  cbn zeta.
  pose proof (streaming_digest_of_whole_graph (fun _ => VNone) whole (MkCallbacks None None None)
    (sample_prepared [link_row "b" "2"; link_row "a" "1"]) quiet_world
    ltac:(intros v _; apply app_nil_r) ltac:(vm_compute; reflexivity)) as H.
  destruct (digest_prepared_stage_rows _ _ _ _ _) as [[d|x] w']; [exact H|].
  destruct H as [(y & _ & [(? & ? & [=] & _)|[(? & ? & ? & [=] & _)|(? & ? & [=] & _)]])|(_ & code & Hc & Hge)].
  exfalso. revert Hge. apply Z.lt_nge. revert code Hc. apply Forall_forall.
  repeat (apply Forall_cons; split; [vm_compute; reflexivity|]). by apply Forall_nil.
Defined.

Lemma digest_order_independent_witness :
  exists digest,
    (digest_prepared_stage_rows (fun _ => VNone) whole (MkCallbacks None None None)
       (sample_prepared [link_row "b" "2"; link_row "a" "1"]) quiet_world).1 = Ok digest /\
    (digest_prepared_stage_rows (fun _ => VNone) whole (MkCallbacks None None None)
       (sample_prepared [link_row "a" "1"; link_row "b" "2"]) quiet_world).1 = Ok digest.
Proof.
  apply digest_order_independent; [intros v _; apply app_nil_r|vm_compute; reflexivity|vm_compute; reflexivity|].
  apply Forall_forall.
  repeat (apply Forall_cons; split; [split; [vm_compute; reflexivity || apply Permutation_swap|vm_compute; reflexivity]|]).
  by apply Forall_nil.
Defined.
