(* ===== verification/StagingChecksums.v ===== *)
(** Receipts of staged families: [storage/staging_checksums.py].

    A family's receipt counts its rows and bytes and adds up, modulo [2^256], the digests of
    the rows, so that it does not depend on their order. *)
From S2P Require Import Prelude Utf8 Sha256 PyVal Ordering Json JsonFacts Limits.
Open Scope Z_scope.

(** What preparing rows may raise; [Observed] is an exception of an observer. *)
Inductive stage_exn :=
| StageValueError (message : string)
| StageOverflowError
| StageKeyError
| StageRuntimeError (message : string)
| UnicodeEncodeError
| StorageSchemaError (message : pystr)
| Observed (x : exn).

Abbreviation stres := (result stage_exn).

Definition unsupported : stage_exn := StageValueError "unsupported checksum value".

(** [math.isfinite], by the text of [repr]. *)
Definition finite_repr (r : pystr) : bool :=
  negb (bool_decide (r = lit "nan") || bool_decide (r = lit "inf") || bool_decide (r = lit "-inf")).

(** [str(value)] refuses more digits than the interpreter's limit. *)
Definition int_text (n : Z) : stres pystr :=
  if int_readable n then Ok (str_of_int n)
  else Err (StageValueError "Exceeds the limit for integer string conversion").

Definition tagged (tag : string) (l : list pyval) : pyval := VList (VStr (lit tag) :: l).

(** The items of a dict are visited in the order of their keys. *)
Fixpoint _typed_value (value : pyval) : stres pyval :=
  match value with
  | VNone => Ok (tagged "null" [])
  | VBool b => Ok (tagged "bool" [VBool b])
  | VInt n => text ← int_text n; Ok (tagged "int" [VStr text])
  | VFloat r _ => if finite_repr r then Ok (tagged "float" [VStr r]) else Err unsupported
  | VStr s => Ok (tagged "str" [VStr s])
  | VDict d =>
      items ← mapM (fun kv : pystr * stres pyval => t ← kv.2; Ok (VList [VStr kv.1; t]))
                (sort_items ((fun kv : pystr * pyval => (kv.1, _typed_value kv.2)) <$> d));
      Ok (tagged "object" [VList items])
  | VList l | VTuple l => items ← mapM id (_typed_value <$> l); Ok (tagged "list" [VList items])
  end.

(** The text is ASCII, which [encode] leaves as it is. *)
Definition _canonical_json (value : pyval) : list Z := dumps compact_style value.

Record FamilyChecksum := MkChecksum {
  fc_row_count : Z;
  fc_normalized_byte_count : Z;
  fc_stable_key_digest : pystr;
  fc_payload_digest : pystr
}.

(** [_DIGEST_PATTERN.fullmatch] *)
Definition is_digest (s : pystr) : bool :=
  Nat.eqb (length s) 64 && forallb (fun c => (48 <=? c) && (c <=? 57) || (97 <=? c) && (c <=? 102)) s.

Definition validate (c : FamilyChecksum) : stres FamilyChecksum :=
  if (0 <=? fc_row_count c) && (0 <=? fc_normalized_byte_count c) &&
     is_digest (fc_stable_key_digest c) && is_digest (fc_payload_digest c)
  then Ok c
  else Err (StageValueError "invalid family checksum").

(** [_FamilyChecksumAccumulator] *)
Record accumulator := MkAccumulator {
  ac_identity_names : list pystr;
  ac_key_sum : Z;
  ac_payload_sum : Z;
  ac_row_count : Z;
  ac_normalized_byte_count : Z
}.

Definition missing_identity : stage_exn := StageValueError "checksum identity field is missing".

Definition new_accumulator (identity_fields : list pystr) : stres accumulator :=
  match identity_fields with
  | [] => Err missing_identity
  | _ => Ok (MkAccumulator identity_fields 0 0 0 0)
  end.

(** [int.from_bytes(b, "big")] and [n.to_bytes(k, "big")] of a natural number. *)
Definition from_bytes (b : list Z) : Z := foldl (fun acc x => acc * 256 + x) 0 b.
Definition to_bytes (k : nat) (n : Z) : stres (list Z) :=
  if n <? 256 ^ Z.of_nat k then Ok (big_endian k n) else Err StageOverflowError.

Definition nul (s : string) : list Z := lit s ++ [0].
Definition prefix (name : string) : list Z := nul "repomap-staging-checksum-v2" ++ nul name.

Definition modulus : Z := Z.shiftl 1 256.

(** [{name: row[name] for name in names}] *)
Definition identity_of (names : list pystr) (row : pydict) : stres pydict :=
  foldl (fun acc name =>
    d ← acc;
    match dict_get name row with Some v => Ok (dict_set name v d) | None => Err missing_identity end) (Ok []) names.

(** The texts a row is hashed by. *)
Definition row_texts (names : list pystr) (row : pyval) : stres (list Z * list Z) :=
  match row with
  | VDict d =>
      if negb (forallb (fun name => dict_has name d) names) then Err missing_identity
      else
        identity ← identity_of names d;
        typed_identity ← _typed_value (VDict identity);
        typed_row ← _typed_value (VDict d);
        Ok (_canonical_json typed_identity,
            _canonical_json (VDict [(lit "identity", typed_identity); (lit "payload", typed_row)]))
  | _ => Err (StageValueError "checksum row is invalid")
  end.

Definition add (a : accumulator) (row : pyval) : stres accumulator :=
  texts ← row_texts (ac_identity_names a) row;
  let '(encoded_identity, encoded_payload) := texts in
  Ok (MkAccumulator (ac_identity_names a)
        ((ac_key_sum a + from_bytes (sha256 (prefix "key" ++ encoded_identity))) mod modulus)
        ((ac_payload_sum a + from_bytes (sha256 (prefix "payload" ++ encoded_payload))) mod modulus)
        (ac_row_count a + 1)
        (ac_normalized_byte_count a + Z.of_nat (length encoded_payload) + 1)).

Definition finish (a : accumulator) : stres FamilyChecksum :=
  count_bytes ← to_bytes 8 (ac_row_count a);
  normalized_bytes ← to_bytes 16 (ac_normalized_byte_count a);
  key_bytes ← to_bytes 32 (ac_key_sum a);
  payload_bytes ← to_bytes 32 (ac_payload_sum a);
  validate (MkChecksum (ac_row_count a) (ac_normalized_byte_count a)
    (sha256_hex (prefix "key-stream" ++ count_bytes ++ normalized_bytes ++ key_bytes))
    (sha256_hex (prefix "payload-stream" ++ count_bytes ++ normalized_bytes ++ payload_bytes))).

(** [for row in rows: accumulator.add(row)]; the rows' iterator may raise. *)
Fixpoint add_all (a : accumulator) (rows : list (stres pyval)) : stres accumulator :=
  match rows with
  | [] => Ok a
  | row :: rest => row ← row; a ← add a row; add_all a rest
  end.

Definition checksum_family (rows : list (stres pyval)) (identity_fields : list pystr) : stres FamilyChecksum :=
  a ← new_accumulator identity_fields;
  a ← add_all a rows;
  finish a.

(** ** The receipt as a sum *)

Definition key_digest (texts : list Z * list Z) : Z := from_bytes (sha256 (prefix "key" ++ texts.1)).
Definition payload_digest (texts : list Z * list Z) : Z := from_bytes (sha256 (prefix "payload" ++ texts.2)).
Definition zsum (l : list Z) : Z := foldr Z.add 0 l.

(** The state after rows of the texts given. *)
Definition totals (names : list pystr) (texts : list (list Z * list Z)) : accumulator :=
  MkAccumulator names (zsum (key_digest <$> texts) mod modulus) (zsum (payload_digest <$> texts) mod modulus)
    (Z.of_nat (length texts)) (zsum ((fun t => Z.of_nat (length t.2) + 1) <$> texts)).

Lemma zsum_snoc l x : zsum (l ++ [x]) = zsum l + x.
Proof. unfold zsum. induction l as [|y l IH]; cbn in *; lia. Qed.

Lemma zsum_perm l k : l ≡ₚ k -> zsum l = zsum k.
Proof. unfold zsum. induction 1; cbn; lia. Qed.

Lemma totals_snoc names texts t row :
  row_texts names row = Ok t -> add (totals names texts) row = Ok (totals names (texts ++ [t])).
Proof.
  intros H. unfold add. cbn [ac_identity_names totals]. rewrite H. destruct t as [k p]. cbn [mbind result_bind].
  unfold totals. rewrite !fmap_app. cbn [fmap list_fmap]. rewrite !zsum_snoc, length_app.
  cbn [ac_key_sum ac_payload_sum ac_row_count ac_normalized_byte_count].
  rewrite !Zplus_mod_idemp_l. do 2 f_equal; cbn [length snd]; lia.
Qed.

Lemma add_all_totals names rows texts done :
  mapM (row_texts names) rows = Ok texts ->
  add_all (totals names done) (Ok <$> rows) = Ok (totals names (done ++ texts)).
Proof.
  intros H%mapM_Ok. revert done. induction H as [|row t rows texts Ht _ IH]; intros done; cbn [fmap list_fmap add_all].
  { by rewrite app_nil_r. }
  cbn [mbind result_bind]. rewrite (totals_snoc _ _ _ _ Ht). cbn [mbind result_bind]. rewrite IH.
  by rewrite <- app_assoc.
Qed.

Lemma add_names a row a' : add a row = Ok a' -> ac_identity_names a' = ac_identity_names a.
Proof. unfold add. intros H. unbind H. destruct x. by injection H as <-. Qed.

Lemma add_all_Ok a rows a' :
  add_all a rows = Ok a' -> exists rs texts, rows = Ok <$> rs /\ mapM (row_texts (ac_identity_names a)) rs = Ok texts.
Proof.
  revert a. induction rows as [|r rows IH]; intros a; cbn [add_all]; [intros _; by exists [], []|].
  destruct r as [row|e]; cbn [mbind result_bind]; [|done]. destruct (add a row) as [a1|e] eqn:Ha; [|done].
  intros (rs & texts & -> & Hm)%IH. rewrite (add_names _ _ _ Ha) in Hm. unfold add in Ha. unbind Ha.
  exists (row :: rs), (x :: texts). split; [done|]. apply mapM_Ok. apply mapM_Ok in Hm. by constructor.
Qed.

(** What the receipt is. *)
Definition receipt (names : list pystr) (texts : list (list Z * list Z)) : stres FamilyChecksum := finish (totals names texts).

Lemma checksum_family_receipt names rows texts :
  names <> [] -> mapM (row_texts names) rows = Ok texts ->
  checksum_family (Ok <$> rows) names = receipt names texts.
Proof.
  intros Hn Hm. unfold checksum_family, new_accumulator. destruct names as [|n names]; [done|].
  cbn [mbind result_bind]. change (MkAccumulator (n :: names) 0 0 0 0) with (totals (n :: names) []).
  by rewrite (add_all_totals _ _ _ [] Hm).
Qed.

Lemma checksum_family_inv rows names c :
  checksum_family rows names = Ok c ->
  names <> [] /\ exists rs texts, rows = Ok <$> rs /\ mapM (row_texts names) rs = Ok texts /\ receipt names texts = Ok c.
Proof.
  intros H. assert (names <> []) as Hn by (intros ->; done). split; [done|].
  pose proof H as H'. unfold checksum_family, new_accumulator in H'. destruct names as [|n names]; [done|].
  cbn [mbind result_bind] in H'. destruct (add_all _ rows) as [a|e] eqn:Ha; [|done].
  destruct (add_all_Ok _ _ _ Ha) as (rs & texts & -> & Hm). exists rs, texts. split_and!; [done|done|].
  by rewrite <- (checksum_family_receipt _ _ _ Hn Hm).
Qed.

Lemma totals_perm names l k : l ≡ₚ k -> totals names l = totals names k.
Proof.
  intros H. unfold totals. rewrite (Permutation_length H).
  rewrite (zsum_perm (key_digest <$> l) (key_digest <$> k)) by by rewrite H.
  rewrite (zsum_perm (payload_digest <$> l) (payload_digest <$> k)) by by rewrite H.
  by rewrite (zsum_perm ((fun t => Z.of_nat (length t.2) + 1) <$> l) ((fun t => Z.of_nat (length t.2) + 1) <$> k))
    by by rewrite H.
Qed.
