(* ===== verification/StagingChecksumsFacts.v ===== *)
(** What the receipts promise: they do not depend on the order of the rows, nor on whether
    the rows went through a file; and the text a row is hashed by determines the row. *)
From S2P Require Import Prelude Utf8 Sha256 PyVal Ordering Json PyDictFacts JsonFacts Limits StagingChecksums.
Open Scope Z_scope.

(** ** Sorting items *)

Definition item_before {A} (x y : pystr * A) : Prop := str_leb x.1 y.1 = true.

Lemma insert_item_sorted {A} (x : pystr * A) l : StronglySorted item_before l -> StronglySorted item_before (insert_item x l).
Proof.
  destruct str_leb_order as (Htot & Htr & _).
  induction 1 as [|y l Hs IH Hall]; cbn; [repeat constructor|]. destruct (str_leb x.1 y.1) eqn:E.
  - constructor; [by constructor|]. constructor; [done|]. eapply Forall_impl; [exact Hall|]. intros z Hz.
    unfold item_before in *. eauto.
  - assert (item_before y x) as Hyx by (unfold item_before; destruct (Htot x.1 y.1); congruence).
    constructor; [done|]. apply Forall_forall. intros z Hz.
    assert (insert_item x l ≡ₚ x :: l) as Hp.
    { clear. induction l as [|w l IH]; cbn; [done|]. destruct (str_leb _ _); [done|]. rewrite IH. apply Permutation_swap. }
    rewrite Hp in Hz. apply elem_of_cons in Hz as [->|Hz]; [done|]. rewrite Forall_forall in Hall. by apply Hall.
Qed.

Lemma sort_items_strongly {A} (d : list (pystr * A)) : StronglySorted item_before (sort_items d).
Proof. unfold sort_items. induction d as [|x d IH]; cbn; [constructor|]. by apply insert_item_sorted. Qed.

Lemma sort_items_id {A} (l : list (pystr * A)) : StronglySorted item_before l -> sort_items l = l.
Proof.
  unfold sort_items. induction 1 as [|x l Hs IH Hall]; cbn; [done|]. rewrite IH.
  destruct l as [|y l]; cbn; [done|]. apply Forall_cons in Hall as [Hy _]. unfold item_before in Hy. by rewrite Hy.
Qed.

Lemma sort_items_idem {A} (d : list (pystr * A)) : sort_items (sort_items d) = sort_items d.
Proof. apply sort_items_id, sort_items_strongly. Qed.

(** ** The typed form *)

(** The typed form does not see what JSON does not keep. *)
Lemma typed_norm v : _typed_value (json_norm v) = _typed_value v.
Proof.
  induction v as [|b|n|t i|s|l IH|l IH|d IH] using pyval_ind'; cbn [json_norm]; try done.
  1, 2: cbn [_typed_value]; f_equal; f_equal; rewrite <- list_fmap_compose; apply list_fmap_ext; intros i x Hx;
    rewrite Forall_forall in IH; apply IH; by eapply list_elem_of_lookup_2.
  cbn [_typed_value]. f_equal. f_equal. rewrite !sort_items_map, sort_items_idem.
  rewrite <- list_fmap_compose. apply list_fmap_ext. intros i x Hx. cbn. f_equal.
  rewrite Forall_forall in IH. apply IH. rewrite <- (sort_items_perm d). by eapply list_elem_of_lookup_2.
Qed.

Lemma str_of_int_inj n m :
  int_readable n = true -> int_readable m = true -> str_of_int n = str_of_int m -> n = m.
Proof.
  intros Hn Hm E.
  pose proof (loads_dumps (fun _ => VNone) compact_style eq_refl (VInt n) [] Hn eq_refl) as H1.
  pose proof (loads_dumps (fun _ => VNone) compact_style eq_refl (VInt m) [] Hm eq_refl) as H2.
  unfold dumps in *. cbn [json_text] in *. rewrite E in H1. rewrite H1 in H2. by injection H2.
Qed.

Lemma mapM_id_Forall2 {A} (f : A -> stres pyval) l ts :
  mapM id (f <$> l) = Ok ts <-> Forall2 (fun x t => f x = Ok t) l ts.
Proof. rewrite mapM_Ok, Forall2_fmap_l. done. Qed.

(** The items of a typed object. *)
Definition typed_item (kv : pystr * pyval) (t : pyval) : Prop :=
  exists u, _typed_value kv.2 = Ok u /\ t = VList [VStr kv.1; u].

Lemma typed_dict d t :
  _typed_value (VDict d) = Ok t <->
  exists ts, t = tagged "object" [VList ts] /\ Forall2 typed_item (sort_items d) ts.
Proof.
  cbn [_typed_value]. rewrite sort_items_map. split.
  - intros H. unbind H. injection H as <-. exists x. split; [done|]. apply mapM_Ok in H0.
    rewrite Forall2_fmap_l in H0. eapply Forall2_impl; [exact H0|]. intros kv u H. cbn in H.
    destruct (_typed_value kv.2) as [t'|] eqn:E; [|done]. cbn in H. injection H as <-. by exists t'.
  - intros (ts & -> & H). apply bind_Ok. exists ts. split; [|done]. apply mapM_Ok. rewrite Forall2_fmap_l.
    eapply Forall2_impl; [exact H|]. intros kv u (t' & E & ->). cbn. by rewrite E.
Qed.

Lemma Forall2_zip {A B C} (P : A -> C -> Prop) (Q : B -> C -> Prop) (R : A -> B -> Prop) l k ts :
  Forall2 P l ts -> Forall2 Q k ts -> (forall x y t, x ∈ l -> y ∈ k -> P x t -> Q y t -> R x y) -> Forall2 R l k.
Proof.
  intros H. revert k. induction H as [|x t l ts Hp _ IH]; intros k Hk HR.
  - apply Forall2_nil_inv_r in Hk as ->. constructor.
  - apply Forall2_cons_inv_r in Hk as (y & k' & Hq & Hk & ->). constructor.
    + apply (HR x y t); [set_solver|set_solver|done|done].
    + apply IH; [done|]. intros. eapply HR; [| |done|done]; set_solver.
Qed.

Lemma Forall2_fmap_eq {A B} (f : A -> B) l k : Forall2 (fun x y => f x = f y) l k -> f <$> l = f <$> k.
Proof. induction 1 as [|x y l k H _ IH]; [done|]. cbn. by rewrite H, IH. Qed.

Lemma clean_elements l : forallb json_clean l = true -> forall v, v ∈ l -> json_clean v = true.
Proof. rewrite forallb_forall. intros H v Hv. by apply H, list_elem_of_In. Qed.

Lemma clean_items d :
  json_clean (VDict d) = true -> forall kv, kv ∈ sort_items d -> kv ∈ d /\ json_clean kv.2 = true /\ forallb is_scalar kv.1 = true.
Proof.
  cbn [json_clean]. intros [H _]%andb_true_iff kv Hkv. rewrite sort_items_perm in Hkv. split; [done|].
  rewrite forallb_forall in H. apply list_elem_of_In, H, andb_true_iff in Hkv. tauto.
Qed.

Definition list_of (v : pyval) : option (list pyval) := match v with VList l | VTuple l => Some l | _ => None end.

Lemma typed_list v l t :
  list_of v = Some l -> _typed_value v = Ok t ->
  exists ts, t = tagged "list" [VList ts] /\ Forall2 (fun x u => _typed_value x = Ok u) l ts.
Proof.
  destruct v; try done; intros [= ->] H; cbn [_typed_value] in H; unbind H; injection H as <-; exists x; split;
    [done|by apply mapM_id_Forall2|done|by apply mapM_id_Forall2].
Qed.

Lemma list_of_norm v l : list_of v = Some l -> json_norm v = VList (json_norm <$> l).
Proof. by destruct v; try done; intros [= ->]. Qed.

(** The tag of the typed form tells the constructor. *)
Lemma typed_tag v t :
  _typed_value v = Ok t ->
  match v with
  | VNone => t = tagged "null" []
  | VBool b => t = tagged "bool" [VBool b]
  | VInt n => t = tagged "int" [VStr (str_of_int n)]
  | VFloat r _ => t = tagged "float" [VStr r]
  | VStr s => t = tagged "str" [VStr s]
  | VList _ | VTuple _ => exists ts, t = tagged "list" [VList ts]
  | VDict _ => exists ts, t = tagged "object" [VList ts]
  end.
Proof.
  destruct v; cbn [_typed_value]; intros H; try (by injection H as <-); try (unbind H; injection H as <-; by eauto).
  unbind H. unfold int_text in H0. destruct (int_readable n); [|done]. injection H0 as <-. by injection H as <-.
Qed.

Lemma typed_list_injective (l k : list pyval) ts :
  Forall (fun v => forall v' t, json_clean v = true -> json_clean v' = true -> _typed_value v = Ok t ->
            _typed_value v' = Ok t -> json_norm v = json_norm v') l ->
  forallb json_clean l = true -> forallb json_clean k = true ->
  Forall2 (fun x u => _typed_value x = Ok u) l ts -> Forall2 (fun x u => _typed_value x = Ok u) k ts ->
  json_norm <$> l = json_norm <$> k.
Proof.
  intros IH Hl Hk H1 H2. apply Forall2_fmap_eq. eapply Forall2_zip; [exact H1|exact H2|].
  intros x y t Hx Hy Hpx Hpy. rewrite Forall_forall in IH.
  exact (IH x Hx y t (clean_elements l Hl x Hx) (clean_elements k Hk y Hy) Hpx Hpy).
Qed.

Lemma typed_dict_injective (d e : pydict) ts :
  Forall (fun kv => forall v' t, json_clean kv.2 = true -> json_clean v' = true -> _typed_value kv.2 = Ok t ->
            _typed_value v' = Ok t -> json_norm kv.2 = json_norm v') d ->
  json_clean (VDict d) = true -> json_clean (VDict e) = true ->
  Forall2 typed_item (sort_items d) ts -> Forall2 typed_item (sort_items e) ts ->
  json_norm (VDict d) = json_norm (VDict e).
Proof.
  intros IH Hd He H1 H2. cbn [json_norm]. f_equal. rewrite !sort_items_map. apply Forall2_fmap_eq.
  eapply Forall2_zip; [exact H1|exact H2|]. intros x y t Hx Hy (u & Hu & ->) (u' & Hu' & [= Hk ->]).
  destruct (clean_items d Hd x Hx) as (Hin & Hcx & _). destruct (clean_items e He y Hy) as (_ & Hcy & _).
  rewrite Forall_forall in IH. rewrite Hk. f_equal. exact (IH x Hin y.2 u' Hcx Hcy Hu Hu').
Qed.

(** The tag of the typed form; lists and tuples have the same. *)
Definition tag_of (v : pyval) : nat :=
  match v with
  | VNone => 0 | VBool _ => 1 | VInt _ => 2 | VFloat _ _ => 3 | VStr _ => 4 | VList _ | VTuple _ => 5 | VDict _ => 6
  end.

Lemma typed_tags_agree v v' t : _typed_value v = Ok t -> _typed_value v' = Ok t -> tag_of v = tag_of v'.
Proof.
  intros H%typed_tag H'%typed_tag. destruct v, v'; try done; exfalso;
    repeat match goal with G : exists _, _ |- _ => destruct G as [? G] end; rewrite H in H'; discriminate H'.
Qed.

Lemma typed_seq_injective v l v' t :
  list_of v = Some l ->
  Forall (fun v => forall v' t, json_clean v = true -> json_clean v' = true -> _typed_value v = Ok t ->
            _typed_value v' = Ok t -> json_norm v = json_norm v') l ->
  json_clean v = true -> json_clean v' = true -> tag_of v = tag_of v' ->
  _typed_value v = Ok t -> _typed_value v' = Ok t -> json_norm v = json_norm v'.
Proof.
  intros Hl IH Hc Hc' Htag Ht Ht'.
  assert (exists k, list_of v' = Some k) as [k Hk] by (destruct v, v'; try done; eauto).
  destruct (typed_list v l _ Hl Ht) as (ts & -> & H1). destruct (typed_list v' k _ Hk Ht') as (ts' & [= <-] & H2).
  rewrite (list_of_norm v l Hl), (list_of_norm v' k Hk). f_equal.
  eapply typed_list_injective; [exact IH| | |exact H1|exact H2].
  - destruct v; try done; by injection Hl as ->.
  - destruct v'; try done; by injection Hk as ->.
Qed.

(** Clean values with the same typed form are the same JSON value. *)
Lemma typed_injective v v' t :
  json_clean v = true -> json_clean v' = true -> _typed_value v = Ok t -> _typed_value v' = Ok t ->
  json_norm v = json_norm v'.
Proof.
  revert v' t. induction v as [|b|n|r i|s|l IH|l IH|d IH] using pyval_ind'; intros v' t Hc Hc' Ht Ht';
    pose proof (typed_tags_agree _ _ _ Ht Ht') as Htag;
    pose proof (typed_tag _ _ Ht) as H; pose proof (typed_tag _ _ Ht') as H'.
  - by destruct v'.
  - destruct v'; try done. rewrite H in H'. by injection H' as ->.
  - destruct v'; try done. rewrite H in H'. injection H' as H'. by rewrite (str_of_int_inj _ _ Hc Hc' H').
  - done.
  - destruct v'; try done. rewrite H in H'. by injection H' as ->.
  - eapply (typed_seq_injective (VList l)); [reflexivity|done|done|done|done|exact Ht|exact Ht'].
  - eapply (typed_seq_injective (VTuple l)); [reflexivity|done|done|done|done|exact Ht|exact Ht'].
  - destruct v' as [| | | | | | |e]; try done. apply typed_dict in Ht as (ts & -> & H1).
    apply typed_dict in Ht' as (ts' & [= <-] & H2). by eapply typed_dict_injective.
Qed.

(** ** The text of the typed form *)

(** Typed forms are lists, truth values and clean texts. *)
Fixpoint plain (t : pyval) : bool :=
  match t with
  | VBool _ => true
  | VStr s => forallb is_scalar s
  | VList l => forallb plain l
  | _ => false
  end.

Lemma plain_clean t : plain t = true -> json_clean t = true /\ json_norm t = t.
Proof.
  induction t as [|b|n|r i|s|l IH|l IH|d IH] using pyval_ind'; cbn; try done. rewrite forallb_forall. intros H.
  rewrite Forall_forall in IH. split.
  - apply forallb_forall. intros x Hx. apply IH; [by apply list_elem_of_In|auto].
  - f_equal. rewrite <- (list_fmap_id l) at 2. apply list_fmap_ext. intros i x Hx%list_elem_of_lookup_2.
    apply IH; [done|]. by apply H, list_elem_of_In.
Qed.

Lemma str_of_int_scalar n : forallb is_scalar (str_of_int n) = true.
Proof.
  assert (forall m, 0 <= m -> forallb is_scalar (str_of_int m) = true) as Hnat.
  { intros m Hm. destruct (str_of_nat_digits m Hm) as (ds & -> & Hd & _). apply forallb_forall.
    intros c Hc%list_elem_of_In. unfold is_decimal in Hd. rewrite Forall_forall in Hd. apply Hd in Hc. unfold is_digit in Hc.
    apply is_scalar_spec. lia. }
  destruct (Z_lt_le_dec n 0); [|by apply Hnat]. rewrite str_of_neg by done. cbn. by rewrite Hnat by lia.
Qed.

Lemma plain_tagged tag l : forallb is_scalar (lit tag) = true -> plain (tagged tag l) = forallb plain l.
Proof. intros H. unfold tagged. cbn [plain forallb]. by rewrite H. Qed.

Lemma typed_seq_plain v l t :
  list_of v = Some l -> Forall (fun v => forall t, json_clean v = true -> _typed_value v = Ok t -> plain t = true) l ->
  json_clean v = true -> _typed_value v = Ok t -> plain t = true.
Proof.
  intros Hl IH Hc Ht. assert (forallb json_clean l = true) as Hcl by (destruct v; try done; by injection Hl as ->).
  destruct (typed_list v l _ Hl Ht) as (ts & -> & H). rewrite plain_tagged by done. cbn [forallb plain]. rewrite andb_true_r. rewrite Forall_forall in IH.
  apply forallb_forall. intros u Hu%list_elem_of_In. apply list_elem_of_lookup in Hu as [j Hj].
  destruct (Forall2_lookup_r _ _ _ _ _ H Hj) as (x & Hx%list_elem_of_lookup_2 & Hxu).
  exact (IH x Hx u (clean_elements l Hcl x Hx) Hxu).
Qed.

Lemma typed_plain v t : json_clean v = true -> _typed_value v = Ok t -> plain t = true.
Proof.
  revert t. induction v as [|b|n|r i|s|l IH|l IH|d IH] using pyval_ind'; intros t Hc Ht;
    try (pose proof (typed_tag _ _ Ht) as ->; rewrite plain_tagged by done; cbn [forallb plain];
      by rewrite ?str_of_int_scalar, ?Hc).
  { pose proof (typed_tag _ _ Ht) as ->. rewrite plain_tagged by done. cbn [forallb plain]. cbn in Hc. by rewrite Hc. }
  1, 2: eapply typed_seq_plain; [|exact IH|exact Hc|exact Ht]; reflexivity.
  apply typed_dict in Ht as (ts & -> & H). rewrite plain_tagged by done. cbn [forallb plain]. rewrite andb_true_r. rewrite Forall_forall in IH.
  apply forallb_forall. intros u Hu%list_elem_of_In. apply list_elem_of_lookup in Hu as [j Hj].
  destruct (Forall2_lookup_r _ _ _ _ _ H Hj) as (kv & Hkv%list_elem_of_lookup_2 & (u' & Hu' & ->)).
  destruct (clean_items d Hc kv Hkv) as (Hin & Hcv & Hck). cbn [forallb plain]. rewrite Hck, andb_true_r. by apply (IH kv Hin).
Qed.

Lemma plain_text_inj t t' :
  plain t = true -> plain t' = true -> dumps compact_style t = dumps compact_style t' -> t = t'.
Proof.
  intros [H1 N1]%plain_clean [H2 N2]%plain_clean E.
  pose proof (loads_dumps (fun _ => VNone) compact_style eq_refl t [] H1 eq_refl) as L1.
  pose proof (loads_dumps (fun _ => VNone) compact_style eq_refl t' [] H2 eq_refl) as L2.
  rewrite E in L1. rewrite L1 in L2. injection L2. congruence.
Qed.

(** The object of two typed forms is read back from its text. *)
Lemma payload_text_inj i p i' p' :
  plain i = true -> plain p = true -> plain i' = true -> plain p' = true ->
  dumps compact_style (VDict [(lit "identity", i); (lit "payload", p)]) =
  dumps compact_style (VDict [(lit "identity", i'); (lit "payload", p')]) -> i = i' /\ p = p'.
Proof.
  assert (forall j q, plain j = true -> plain q = true ->
    loads (fun _ => VNone) (dumps compact_style (VDict [(lit "identity", j); (lit "payload", q)])) =
    Ok (VDict [(lit "identity", j); (lit "payload", q)])) as Hread.
  { intros j q [Hj Nj]%plain_clean [Hq Nq]%plain_clean.
    pose proof (loads_dumps (fun _ => VNone) compact_style eq_refl (VDict [(lit "identity", j); (lit "payload", q)]) []) as L.
    rewrite app_nil_r in L. rewrite L; [|cbn [json_clean forallb fst snd]; rewrite Hj, Hq; vm_compute; reflexivity|done].
    cbn [json_norm fmap list_fmap fst snd]. rewrite Nj, Nq. reflexivity. }
  intros Hi Hp Hi' Hp' E. pose proof (Hread i p Hi Hp) as L. rewrite E, Hread in L by done.
  by injection L as -> ->.
Qed.

(** ** Rows *)

Definition norm_item (kv : pystr * pyval) : pystr * pyval := (kv.1, json_norm kv.2).

Lemma clean_dict d :
  json_clean (VDict d) = true <->
  Forall (fun kv => forallb is_scalar kv.1 = true /\ json_clean kv.2 = true) d /\ NoDup d.*1.
Proof.
  cbn [json_clean]. rewrite andb_true_iff, bool_decide_eq_true, forallb_forall, Forall_forall.
  split; intros [H1 H2]; (split; [|done]); intros kv Hkv.
  - apply andb_true_iff, H1. by apply list_elem_of_In.
  - apply andb_true_iff, H1. by apply list_elem_of_In.
Qed.

Lemma json_clean_norm v : json_clean v = true -> json_clean (json_norm v) = true.
Proof.
  induction v as [|b|n|r i|s|l IH|l IH|d IH] using pyval_ind'; try done; intros Hc.
  1, 2: cbn [json_norm json_clean] in *; rewrite forallb_forall in Hc |- *; rewrite Forall_forall in IH;
    intros x Hx%list_elem_of_In; apply list_elem_of_fmap in Hx as (y & -> & Hy); apply IH; [done|];
    by apply Hc, list_elem_of_In.
  apply clean_dict in Hc as [Hd Hn]. cbn [json_norm]. apply clean_dict. split.
  - rewrite sort_items_perm. apply Forall_fmap, Forall_forall. intros kv Hkv. rewrite Forall_forall in Hd, IH.
    destruct (Hd kv Hkv). split; [done|]. by apply IH.
  - rewrite sort_items_perm, <- list_fmap_compose. exact Hn.
Qed.

Definition pick (row : pydict) (acc : stres pydict) (name : pystr) : stres pydict :=
  d ← acc; match dict_get name row with Some v => Ok (dict_set name v d) | None => Err missing_identity end.

Lemma identity_of_pick names d : identity_of names d = foldl (pick d) (Ok []) names.
Proof. done. Qed.

Lemma pick_error d names e : foldl (pick d) (Err e) names = Err e.
Proof. induction names as [|n names IH]; [done|exact IH]. Qed.

Lemma identity_clean names d e :
  json_clean (VDict d) = true -> identity_of names d = Ok e -> json_clean (VDict e) = true.
Proof.
  intros [Hd _]%clean_dict. rewrite identity_of_pick.
  assert (forall acc, json_clean (VDict acc) = true -> foldl (pick d) (Ok acc) names = Ok e ->
    json_clean (VDict e) = true) as H; [|by apply (H [])].
  induction names as [|n names IH]; intros acc Hacc; cbn [foldl]; [by intros [= <-]|].
  cbn [pick mbind result_bind]. destruct (dict_get n d) as [v|] eqn:Hv; [|by rewrite pick_error].
  apply IH, clean_dict. apply clean_dict in Hacc as [Ha Hn]. split; [|by apply NoDup_dict_set].
  apply Forall_dict_set; [done|]. rewrite Forall_forall in Hd. by apply (Hd (n, v)), dict_get_elem.
Qed.

Lemma dict_get_norm d k :
  NoDup d.*1 -> dict_get k (sort_items (norm_item <$> d)) = json_norm <$> dict_get k d.
Proof.
  intros Hn. rewrite (dict_get_perm _ (norm_item <$> d)); [| |apply sort_items_perm].
  - clear Hn. induction d as [|[k' v] d IH]; cbn; [done|]. case_bool_decide; [done|exact IH].
  - rewrite sort_items_perm, <- list_fmap_compose. exact Hn.
Qed.

Lemma dict_set_norm k v (d : pydict) : dict_set k (json_norm v) (norm_item <$> d) = norm_item <$> dict_set k v d.
Proof.
  induction d as [|[k' v'] d IH]; [done|]. cbn. case_bool_decide; [done|]. cbn. by rewrite IH.
Qed.

Definition norm_items (d : pydict) : pydict := norm_item <$> (d : list (pystr * pyval)).
Definition norm_result (r : stres pydict) : stres pydict := match r with Ok e => Ok (norm_items e) | Err x => Err x end.

Lemma identity_norm names d :
  NoDup d.*1 -> identity_of names (sort_items (norm_items d)) = norm_result (identity_of names d).
Proof.
  intros Hn. rewrite !identity_of_pick.
  assert (forall acc, foldl (pick (sort_items (norm_items d))) (Ok (norm_items acc)) names =
    norm_result (foldl (pick d) (Ok acc) names)) as H; [|exact (H [])].
  induction names as [|n names IH]; intros acc; cbn [foldl]; [done|]. cbn [pick mbind result_bind].
  unfold norm_items at 1. rewrite dict_get_norm by done. destruct (dict_get n d) as [v|]; cbn [fmap option_fmap option_map].
  - unfold norm_items. rewrite dict_set_norm. apply IH.
  - by rewrite !pick_error.
Qed.

Lemma typed_norm_items (d : pydict) : _typed_value (VDict (norm_items d)) = _typed_value (VDict d).
Proof.
  unfold norm_items. cbn [_typed_value]. rewrite <- list_fmap_compose. do 3 f_equal. apply list_fmap_ext. intros i x _. cbn.
  by rewrite typed_norm.
Qed.

(** The texts of a row do not see what JSON does not keep. *)
Lemma row_texts_norm names row : json_clean row = true -> row_texts names (json_norm row) = row_texts names row.
Proof.
  intros Hc. destruct row as [| | | | | | |d]; try done. apply clean_dict in Hc as [_ Hn].
  pose proof (typed_norm (VDict d)) as Ht. cbn [json_norm] in *. unfold row_texts.
  change ((fun kv : pystr * pyval => (kv.1, json_norm kv.2)) <$> d) with (norm_items d) in *.
  rewrite identity_norm by done.
  replace (forallb (fun name => dict_has name (sort_items (norm_items d))) names)
    with (forallb (fun name => dict_has name d) names).
  2:{ induction names as [|n names IH]; [done|]. cbn. rewrite IH. f_equal. unfold dict_has, norm_items. rewrite dict_get_norm by done.
      apply bool_decide_ext. by destruct (dict_get n d); cbn. }
  destruct (negb _); [done|]. destruct (identity_of names d) as [e|]; cbn [norm_result mbind result_bind]; [|done].
  by rewrite typed_norm_items, Ht.
Qed.

Lemma row_texts_Ok names row k p :
  row_texts names row = Ok (k, p) ->
  exists d e i t, row = VDict d /\ identity_of names d = Ok e /\ _typed_value (VDict e) = Ok i /\
    _typed_value row = Ok t /\ k = _canonical_json i /\
    p = _canonical_json (VDict [(lit "identity", i); (lit "payload", t)]).
Proof.
  intros H. destruct row as [| | | | | | |d]; try done. unfold row_texts in H. unbind H.
  apply (f_equal (fun r => match r with Ok x => x | Err _ => ([], []) end)) in H. cbn beta iota in H.
  exists d, x, x0, x1. pose proof (f_equal fst H) as Hk. pose proof (f_equal snd H) as Hp. cbn [fst snd] in Hk, Hp.
  by split_and!.
Qed.

(** The text a row is hashed by determines the row. *)
Lemma row_texts_inj names row row' k k' p :
  json_clean row = true -> json_clean row' = true ->
  row_texts names row = Ok (k, p) -> row_texts names row' = Ok (k', p) -> json_norm row = json_norm row'.
Proof.
  intros Hc Hc' (d & e & i & t & -> & He & Hi & Ht & _ & Hp)%row_texts_Ok
    (d' & e' & i' & t' & -> & He' & Hi' & Ht' & _ & Hp')%row_texts_Ok.
  rewrite Hp in Hp'. apply payload_text_inj in Hp' as [_ <-].
  - by eapply typed_injective.
  - exact (typed_plain _ _ (identity_clean names d e Hc He) Hi).
  - exact (typed_plain _ _ Hc Ht).
  - exact (typed_plain _ _ (identity_clean names d' e' Hc' He') Hi').
  - exact (typed_plain _ _ Hc' Ht').
Qed.

(** ** The receipt *)

Lemma hex_digest_valid data : is_digest (sha256_hex data) = true.
Proof.
  unfold is_digest. rewrite sha256_hex_length. cbn [Nat.eqb andb]. apply forallb_forall.
  intros c Hc%list_elem_of_In. unfold sha256_hex in Hc. apply list_elem_of_bind in Hc as (b & Hc & Hb).
  assert (0 <= b < 256) as Hr.
  { unfold sha256 in Hb. apply list_elem_of_bind in Hb as (x & Hb & _). unfold big_endian in Hb.
    apply list_elem_of_fmap in Hb as (i & -> & _). change 255 with (Z.ones 8). rewrite Z.land_ones by lia.
    apply Z.mod_pos_bound. lia. }
  assert (forall d, 0 <= d < 16 -> (48 <=? hex_lower d) && (hex_lower d <=? 57) || (97 <=? hex_lower d) && (hex_lower d <=? 102) = true) as Hd.
  { intros d Hd. unfold hex_lower. destruct (d <? 10) eqn:E; lia. }
  assert (0 <= b / 16 < 16) by (split; [apply Z.div_pos|apply Z.div_lt_upper_bound]; lia).
  pose proof (Z.mod_pos_bound b 16 ltac:(lia)). set_unfold in Hc. destruct Hc as [->|[->|[]]]; by apply Hd.
Qed.

Lemma sums_in_range names texts :
  0 <= ac_key_sum (totals names texts) < 256 ^ 32 /\ 0 <= ac_payload_sum (totals names texts) < 256 ^ 32.
Proof. split; apply Z.mod_pos_bound; done. Qed.

Lemma byte_count_nonneg texts : 0 <= ac_normalized_byte_count (totals [] texts).
Proof. cbn. unfold zsum. induction texts as [|t l IH]; cbn in *; lia. Qed.

(** Up to [2^64] rows and [2^128] bytes there is a receipt, with the true counts. *)
Lemma receipt_exists names texts :
  Z.of_nat (length texts) < 2 ^ 64 -> zsum ((fun t => Z.of_nat (length t.2) + 1) <$> texts) < 2 ^ 128 ->
  exists c, receipt names texts = Ok c /\ fc_row_count c = Z.of_nat (length texts) /\
    fc_normalized_byte_count c = zsum ((fun t => Z.of_nat (length t.2) + 1) <$> texts).
Proof.
  intros Hn Hb. unfold receipt, finish. destruct (sums_in_range names texts) as [[_ Hk] [_ Hp]].
  pose proof (byte_count_nonneg texts) as H0. cbn in H0.
  unfold to_bytes. change (256 ^ Z.of_nat 8) with (2 ^ 64). change (256 ^ Z.of_nat 16) with (2 ^ 128).
  change (256 ^ Z.of_nat 32) with (256 ^ 32).
  rewrite (proj2 (Z.ltb_lt _ _) Hk), (proj2 (Z.ltb_lt _ _) Hp).
  change (ac_row_count (totals names texts)) with (Z.of_nat (length texts)).
  change (ac_normalized_byte_count (totals names texts)) with (zsum ((fun t => Z.of_nat (length t.2) + 1) <$> texts)).
  rewrite (proj2 (Z.ltb_lt _ _) Hn), (proj2 (Z.ltb_lt _ _) Hb). cbn [mbind result_bind].
  match goal with |- exists c, validate ?x = Ok c /\ _ => exists x end. split; [|split; reflexivity]. unfold validate.
  cbn [fc_row_count fc_normalized_byte_count fc_stable_key_digest fc_payload_digest].
  rewrite !hex_digest_valid, (proj2 (Z.leb_le 0 _) (Nat2Z.is_nonneg _)), (proj2 (Z.leb_le 0 _) H0). reflexivity.
Qed.

(** ** Clean rows have receipts *)

Lemma typed_elements (l : list pyval) :
  Forall (fun v => json_clean v = true -> exists t, _typed_value v = Ok t) l -> forallb json_clean l = true ->
  exists ts, Forall2 (fun x u => _typed_value x = Ok u) l ts.
Proof.
  induction 1 as [|v l Hv _ IH]; cbn [forallb]; [intros _; by exists []|]. intros [Hc Hl]%andb_true_iff.
  destruct (Hv Hc) as [t Ht]. destruct (IH Hl) as [ts Hts]. exists (t :: ts). by constructor.
Qed.

Lemma typed_total v : json_clean v = true -> exists t, _typed_value v = Ok t.
Proof.
  induction v as [|b|n|r i|s|l IH|l IH|d IH] using pyval_ind'; intros Hc; try done.
  - by exists (tagged "null" []).
  - by exists (tagged "bool" [VBool b]).
  - cbn [_typed_value]. unfold int_text. cbn [json_clean] in Hc. rewrite Hc. eexists. reflexivity.
  - by exists (tagged "str" [VStr s]).
  - destruct (typed_elements l IH Hc) as [ts H]. cbn [_typed_value]. rewrite (proj2 (mapM_id_Forall2 _ _ _) H). eexists. reflexivity.
  - destruct (typed_elements l IH Hc) as [ts H]. cbn [_typed_value]. rewrite (proj2 (mapM_id_Forall2 _ _ _) H). eexists. reflexivity.
  - assert (Forall (fun kv => exists t, typed_item kv t) (sort_items d)) as H.
    { apply Forall_forall. intros kv Hkv. destruct (clean_items d Hc kv Hkv) as (Hin & Hcv & _).
      rewrite Forall_forall in IH. destruct (IH kv Hin Hcv) as [t Ht]. exists (VList [VStr kv.1; t]). by exists t. }
    assert (exists ts, Forall2 typed_item (sort_items d) ts) as [ts Hts].
    { clear IH Hc. induction H as [|kv l [t Ht] _ [ts IHts]]; [by exists []|]. exists (t :: ts). by constructor. }
    exists (tagged "object" [VList ts]). apply typed_dict. by exists ts.
Qed.

Lemma identity_total names d :
  (forall name, name ∈ names -> is_Some (dict_get name d)) -> exists e, identity_of names d = Ok e.
Proof.
  rewrite identity_of_pick. assert (forall acc, (forall name, name ∈ names -> is_Some (dict_get name d)) ->
    exists e, foldl (pick d) (Ok acc) names = Ok e) as H; [|apply H].
  induction names as [|n names IH]; intros acc Hn; cbn [foldl]; [by eexists|].
  cbn [pick mbind result_bind]. destruct (Hn n) as [v ->]; [set_solver|]. apply IH. intros name Hin. apply Hn. set_solver.
Qed.

Lemma row_texts_total names d :
  json_clean (VDict d) = true -> (forall name, name ∈ names -> name ∈ d.*1) -> exists t, row_texts names (VDict d) = Ok t.
Proof.
  intros Hc Hn. assert (forall name, name ∈ names -> is_Some (dict_get name d)) as Hs
    by (intros name Hin; by apply dict_get_is_Some, Hn).
  unfold row_texts. replace (forallb (fun name => dict_has name d) names) with true.
  2:{ symmetry. apply forallb_forall. intros name Hin%list_elem_of_In. unfold dict_has. by apply bool_decide_eq_true, Hs. }
  destruct (identity_total names d Hs) as [e He]. rewrite He. cbn [negb mbind result_bind].
  destruct (typed_total _ (identity_clean _ _ _ Hc He)) as [i ->]. cbn [mbind result_bind].
  destruct (typed_total _ Hc) as [t ->]. by eexists.
Qed.

(** What the receipts of staged families promise. *)


(** Rows that JSON does not tell apart. *)
Definition same_json (row row' : pyval) : Prop := json_clean row = true /\ json_clean row' = true /\ json_norm row = json_norm row'.

Lemma same_json_texts names row row' : same_json row row' -> row_texts names row = row_texts names row'.
Proof.
  intros (H & H' & E). rewrite <- (row_texts_norm names row H), <- (row_texts_norm names row' H'). by rewrite E.
Qed.

(** A family's receipt depends on the rows only, not on their order nor on how they were kept:
    rows in another order, and each replaced by one JSON does not tell from it, have the
    same receipt; and the receipt of at most [2^64] rows counts them. *)
Theorem receipt_of_the_rows names rows rows' perm c :
  checksum_family (Ok <$> rows) names = Ok c -> rows ≡ₚ perm -> Forall2 same_json perm rows' ->
  checksum_family (Ok <$> rows') names = Ok c /\ fc_row_count c = Z.of_nat (length rows').
Proof.
  intros H Hp Hs. destruct (checksum_family_inv _ _ _ H) as (Hn & rs & texts & Hrs & Hm & Hr).
  assert (rs = rows) as ->.
  { clear -Hrs. revert rs Hrs. induction rows as [|x rows IH]; intros [|y rs]; try done. cbn. intros [= -> E]. f_equal.
    by apply IH. }
  assert (exists texts', mapM (row_texts names) perm = Ok texts' /\ texts ≡ₚ texts') as (texts' & Hm' & Hpt).
  { apply mapM_Ok in Hm. destruct (Permutation_Forall2 Hp Hm) as (texts' & Hp' & Hm').
    exists texts'. split; [by apply mapM_Ok|done]. }
  assert (mapM (row_texts names) rows' = Ok texts') as Hm2.
  { apply mapM_Ok in Hm'. apply mapM_Ok. clear -Hm' Hs. revert texts' Hm'.
    induction Hs as [|row row' perm rows' E _ IH]; intros texts' Hm'; [by inversion Hm'; constructor|].
    apply Forall2_cons_inv_l in Hm' as (t & ts & Ht & Hts & ->). constructor; [|by apply IH].
    by rewrite <- (same_json_texts _ _ _ E). }
  assert (receipt names texts' = Ok c) as Hr' by (unfold receipt in *; by rewrite <- (totals_perm names _ _ Hpt)).
  split; [by rewrite (checksum_family_receipt _ _ _ Hn Hm2)|].
  apply mapM_Ok, Forall2_length in Hm2. rewrite Hm2. unfold receipt, finish in Hr'. unbind Hr'. unfold validate in Hr'.
  destruct (_ && _); [|done]. injection Hr' as <-. done.
Qed.

(** The text a row is hashed by tells rows apart: clean rows have the same text exactly when
    they are the same JSON value, so that [1], [true] and ["1"] are told apart. *)
Theorem row_text_determines_row names row row' k k' p p' :
  json_clean row = true -> json_clean row' = true ->
  row_texts names row = Ok (k, p) -> row_texts names row' = Ok (k', p') ->
  p = p' <-> json_norm row = json_norm row'.
Proof.
  intros Hc Hc' H H'. split.
  - intros ->. by eapply row_texts_inj.
  - intros E. assert (same_json row row') as Hs by done. rewrite (same_json_texts names _ _ Hs), H' in H. congruence.
Qed.

(** ** Witnesses *)

Definition sample_row (k : string) (v : pyval) : pyval := VDict [(lit "path", VStr (lit k)); (lit "n", v)].

Lemma receipt_of_the_rows_witness :
  exists c, checksum_family (Ok <$> [sample_row "a" (VTuple [VInt 1]); sample_row "b" (VBool true)]) [lit "path"] = Ok c /\
    checksum_family (Ok <$> [sample_row "b" (VBool true); sample_row "a" (VList [VInt 1])]) [lit "path"] = Ok c /\
    fc_row_count c = 2.
Proof.
  destruct (checksum_family (Ok <$> [sample_row "a" (VTuple [VInt 1]); sample_row "b" (VBool true)]) [lit "path"]) as [c|e] eqn:E;
    [|vm_compute in E; discriminate E].
  exists c. split; [done|].
  eapply (receipt_of_the_rows [lit "path"] _ [sample_row "b" (VBool true); sample_row "a" (VList [VInt 1])]
    [sample_row "b" (VBool true); sample_row "a" (VTuple [VInt 1])] c E).
  - apply Permutation_swap.
  - repeat constructor; vm_compute; reflexivity.
Defined.

Lemma row_text_determines_row_witness :
  exists k p k' p', row_texts [lit "path"] (sample_row "a" (VInt 1)) = Ok (k, p) /\
    row_texts [lit "path"] (sample_row "a" (VBool true)) = Ok (k', p') /\ p <> p'.
Proof.
  destruct (row_texts [lit "path"] (sample_row "a" (VInt 1))) as [[k p]|] eqn:E; [|vm_compute in E; discriminate E].
  destruct (row_texts [lit "path"] (sample_row "a" (VBool true))) as [[k' p']|] eqn:E'; [|vm_compute in E'; discriminate E'].
  exists k, p, k', p'. split; [done|]. split; [done|]. intros Hp.
  apply (row_text_determines_row [lit "path"] (sample_row "a" (VInt 1)) (sample_row "a" (VBool true)) k k' p p'
    ltac:(vm_compute; reflexivity) ltac:(vm_compute; reflexivity) E E') in Hp.
  vm_compute in Hp. discriminate Hp.
Defined.
