(* ===== verification/RowSpool.v ===== *)
(** Rows kept in a private file between preparation and loading: [storage/row_spool.py].

    The disk is explicit: files by number, as bytes.  The observer that may refuse a growing
    file is a parameter, as are the number of blocks the file system reports of a file, or the
    error it reports instead, and what the timing observer raises; times are not modelled. *)
From S2P Require Import Prelude Utf8 PyVal Ordering Json JsonFacts Observations ObservationsFacts Limits.
From S2P Require Import StagingChecksums.
Open Scope Z_scope.

Record disk := MkDisk { dk_files : gmap nat (list Z); dk_next : nat }.

(** The disk is kept when an exception is raised. *)
Definition dio (A : Type) : Type := disk -> stres A * disk.
#[export] Instance dio_ret : MRet dio := fun A a k => (Ok a, k).
#[export] Instance dio_bind : MBind dio := fun A B f m k =>
  match m k with (Ok a, k') => f a k' | (Err x, k') => (Err x, k') end.
Definition dio_raise {A} (x : stage_exn) : dio A := fun k => (Err x, k).
Definition dio_lift {A} (r : stres A) : dio A := fun k => (r, k).
Definition dio_get : dio disk := fun k => (Ok k, k).
Definition set_file (path : nat) (content : list Z) : dio unit :=
  fun k => (Ok tt, MkDisk (<[path := content]> (dk_files k)) (dk_next k)).
(** [path.unlink(missing_ok=True)] *)
Definition unlink_file (path : nat) : dio unit := fun k => (Ok tt, MkDisk (delete path (dk_files k)) (dk_next k)).
(** [tempfile.mkstemp] *)
Definition mkstemp : dio nat := fun k => (Ok (dk_next k), MkDisk (<[dk_next k := []]> (dk_files k)) (S (dk_next k))).
(** [try: m except BaseException: handler; raise], for a handler that does not raise. *)
Definition dio_on_error {A} (m : dio A) (handler : dio unit) : dio A := fun k =>
  match m k with (Err x, k') => (Err x, (handler k').2) | r => r end.

Section Spool.
Variable float_of : pystr -> pyval.
(** [path.stat().st_blocks], or what [stat] raises. *)
Variable st_blocks : list Z -> stres Z.

(** [RowSpool] *)
Record row_spool := MkSpool {
  rs_path : nat;
  rs_count : Z;
  rs_byte_count : Z;
  rs_allocated_byte_count : Z;
  rs_closed : bool
}.

(** [json.dumps(dict(row), ensure_ascii=False, ...)] as UTF-8: a surrogate is refused, and so is
    an integer above the interpreter's digit limit. *)
Fixpoint digits_ok (v : pyval) : bool :=
  match v with
  | VInt n => int_readable n
  | VList l | VTuple l => forallb digits_ok l
  | VDict d => forallb (fun kv : pystr * pyval => digits_ok kv.2) d
  | _ => true
  end.

Definition encode_staged_row (row : pyval) : stres (list Z) :=
  match row with
  | VDict _ =>
      if digits_ok row
      then match utf8_encode (dumps raw_style row) with Some b => Ok b | None => Err UnicodeEncodeError end
      else Err (StageValueError "Exceeds the limit for integer string conversion")
  | _ => Err (StageValueError "staged row is invalid")
  end.

(** What the observer makes of a number of bytes. *)
Definition observe (observer : option (Z -> option exn)) (n : Z) : stres unit :=
  match observer with
  | None => Ok tt
  | Some f => match f n with Some x => Err (Observed x) | None => Ok tt end
  end.

(** One turn of the loop of [from_rows], which is also [write_row]: the new counts. *)
Definition append_row (artifact_observer : option (Z -> option exn)) (path : nat) (counts : Z * Z) (row : pyval)
    : dio (Z * Z) :=
  let '(count, byte_count) := counts in
  encoded ← dio_lift (encode_staged_row row);
  let projected_bytes := byte_count + Z.of_nat (length encoded) + 1 in
  _ ← dio_lift (observe artifact_observer projected_bytes);
  k ← dio_get;
  _ ← set_file path (default [] (dk_files k !! path) ++ encoded ++ [10]);
  mret (count + 1, projected_bytes).

Fixpoint append_rows (artifact_observer : option (Z -> option exn)) (path : nat) (counts : Z * Z)
    (rows : list (stres pyval)) : dio (Z * Z) :=
  match rows with
  | [] => mret counts
  | row :: rest =>
      row ← dio_lift row;
      counts ← append_row artifact_observer path counts row;
      append_rows artifact_observer path counts rest
  end.

Definition stat_spool (path : nat) (counts : Z * Z) : dio row_spool :=
  k ← dio_get;
  blocks ← dio_lift (st_blocks (default [] (dk_files k !! path)));
  mret (MkSpool path counts.1 counts.2 (blocks * 512) false).

(** The file is removed when a row cannot be written; the timing observer and [stat] come after. *)
Definition from_rows (rows : list (stres pyval)) (artifact_observer : option (Z -> option exn))
    (timing_observer : stres unit) : dio row_spool :=
  path ← mkstemp;
  counts ← dio_on_error (append_rows artifact_observer path (0, 0) rows) (unlink_file path);
  _ ← dio_lift timing_observer;
  stat_spool path counts.

(** One line of the file. *)
Definition decode_row (line : pystr) : stres pyval :=
  match loads float_of line with
  | Ok (VDict d) => Ok (VDict d)
  | Ok _ => Err (StageValueError "staged row spool is invalid")
  | Err IntegerTooLong => Err (StageValueError "Exceeds the limit for integer string conversion")
  | Err _ => Err (StageValueError "staged row spool is invalid")
  end.

(** [__iter__]: what the iterator yields, or what opening the file raises. *)
Definition iter_spool (s : row_spool) : dio (list (stres pyval)) :=
  if rs_closed s then dio_raise (StageRuntimeError "row spool is closed")
  else
    k ← dio_get;
    match dk_files k !! rs_path s with
    | None => dio_raise (Observed (OSError "No such file or directory"))
    | Some content =>
        match utf8_decode content with
        | None => dio_raise (StageValueError "'utf-8' codec can't decode")
        | Some text => mret (decode_row <$> file_lines text)
        end
    end.

Definition close_spool (s : row_spool) : dio row_spool :=
  if rs_closed s then mret s
  else
    _ ← unlink_file (rs_path s);
    mret (MkSpool (rs_path s) (rs_count s) (rs_byte_count s) (rs_allocated_byte_count s) true).

(** ** [RowSpoolWriter] *)

Record writer := MkWriter {
  wr_path : nat;
  wr_count : Z;
  wr_byte_count : Z;
  wr_finished : bool
}.

Definition open_writer : dio writer := path ← mkstemp; mret (MkWriter path 0 0 false).

Definition write_row (artifact_observer : option (Z -> option exn)) (wr : writer) (row : pyval) : dio writer :=
  if wr_finished wr then dio_raise (StageRuntimeError "writer already finished")
  else
    counts ← append_row artifact_observer (wr_path wr) (wr_count wr, wr_byte_count wr) row;
    mret (MkWriter (wr_path wr) counts.1 counts.2 false).

Definition finish_writer (wr : writer) : dio (writer * row_spool) :=
  if wr_finished wr then dio_raise (StageRuntimeError "writer already finished")
  else
    s ← stat_spool (wr_path wr) (wr_count wr, wr_byte_count wr);
    mret (MkWriter (wr_path wr) (wr_count wr) (wr_byte_count wr) true, s).

Definition abort_writer (wr : writer) : dio writer :=
  _ ← unlink_file (wr_path wr);
  mret (MkWriter (wr_path wr) (wr_count wr) (wr_byte_count wr) true).
End Spool.

(** A spool gives back the rows it was given, up to what JSON does not keep, and a spool that
    could not be written leaves no file. *)


(** ** Text *)

Lemma utf8_encode_app s t a b : utf8_encode s = Some a -> utf8_encode t = Some b -> utf8_encode (s ++ t) = Some (a ++ b).
Proof.
  revert a. induction s as [|c s IH]; intros a Hs Ht; cbn in Hs |- *; [by injection Hs as <-|].
  destruct (utf8_encode_char c) as [x|]; [|done]. destruct (utf8_encode s) as [y|]; [|done]. cbn in Hs.
  injection Hs as <-. rewrite (IH y eq_refl Ht). cbn. by rewrite app_assoc.
Qed.

Definition row_char (c : Z) : Prop := 32 <= c /\ is_scalar c = true.

Lemma row_char_ascii c : 32 <= c < 127 -> row_char c.
Proof. intros H. split; [lia|]. apply is_scalar_spec. lia. Qed.

Lemma raw_writes : writes_with row_char raw_style.
Proof.
  assert (forall s, printable s -> Forall row_char s) as Hp by (intros s; apply printable_P, row_char_ascii).
  split; [done|by apply Hp, printable_lit|by apply Hp, printable_lit|].
  intros c Hc. change (style_char raw_style c) with (raw_char c). unfold raw_char.
  do 7 (destruct (c =? _); [by apply Hp, printable_lit|]).
  destruct (c <? 32) eqn:E; [|apply Forall_singleton; split; [lia|done]].
  apply Hp, printable_app; [by apply printable_lit|]. apply hex4_printable. apply is_scalar_spec in Hc. lia.
Qed.

Lemma raw_text_chars v : json_clean v = true -> Forall row_char (dumps raw_style v).
Proof. intros Hc. unfold dumps. apply (json_text_P row_char row_char_ascii _ 0 v raw_writes Hc). Qed.

Lemma raw_text_encodes v : json_clean v = true -> is_Some (utf8_encode (dumps raw_style v)).
Proof.
  intros Hc%raw_text_chars. apply utf8_encode_scalar. eapply Forall_impl; [exact Hc|]. by intros c [_ H].
Qed.

Lemma raw_text_unbroken v : json_clean v = true -> unbroken (dumps raw_style v).
Proof. intros Hc%raw_text_chars. eapply Forall_impl; [exact Hc|]. by intros c [H _]. Qed.

Lemma raw_text_line v : json_clean v = true -> is_line (dumps raw_style v ++ [10]).
Proof.
  intros Hc. exists (dumps raw_style v). split; [done|]. split; [by apply raw_text_unbroken|].
  destruct (json_text_starts raw_style 0 v Hc) as (c & r & E & _). unfold dumps. by rewrite E.
Qed.

Lemma clean_digits v : json_clean v = true -> digits_ok v = true.
Proof.
  induction v as [|b|n|t i|s|l IH|l IH|d IH] using pyval_ind'; cbn [json_clean digits_ok]; try done.
  1, 2: rewrite !forallb_forall; rewrite Forall_forall in IH; intros H x Hx;
    apply IH; [by apply list_elem_of_In|auto].
  intros [H _]%andb_true_iff. rewrite forallb_forall in H |- *. rewrite Forall_forall in IH.
  intros kv Hkv. pose proof (H kv Hkv) as [_ Hv]%andb_true_iff. apply IH; [by apply list_elem_of_In|done].
Qed.

(** ** Rows *)

(** A mapping JSON keeps. *)
Definition clean_row (row : pyval) : bool := match row with VDict _ => json_clean row | _ => false end.

Lemma clean_row_dict row : clean_row row = true -> json_clean row = true /\ exists d, row = VDict d.
Proof. destruct row; try done. eauto. Qed.

Lemma encode_clean row : clean_row row = true -> exists b, encode_staged_row row = Ok b /\ utf8_encode (dumps raw_style row) = Some b.
Proof.
  intros [Hc [d ->]]%clean_row_dict. unfold encode_staged_row. rewrite (clean_digits _ Hc).
  destruct (raw_text_encodes _ Hc) as [b Hb]. rewrite Hb. eauto.
Qed.

(** The text of the file after the rows. *)
Definition spool_text (rows : list pyval) : pystr := rows ≫= (fun row => dumps raw_style row ++ [10]).

Section Facts.
Variable float_of : pystr -> pyval.

Lemma decode_clean row : clean_row row = true -> decode_row float_of (dumps raw_style row ++ [10]) = Ok (json_norm row).
Proof.
  intros [Hc [d ->]]%clean_row_dict. unfold decode_row.
  rewrite (loads_dumps float_of raw_style eq_refl (VDict d) [10] Hc eq_refl). done.
Qed.

Lemma spool_lines rows :
  forallb clean_row rows = true -> decode_row float_of <$> file_lines (spool_text rows) = Ok <$> (json_norm <$> rows).
Proof.
  intros Hc. rewrite forallb_forall in Hc.
  assert (file_lines (spool_text rows) = (fun row => dumps raw_style row ++ [10]) <$> rows) as ->.
  { rewrite <- (file_lines_join ((fun row => dumps raw_style row ++ [10]) <$> rows)).
    - f_equal. unfold spool_text. induction rows as [|r rows IH]; [done|]. cbn. f_equal. apply IH.
      intros x Hx. apply Hc. by right.
    - apply Forall_fmap, Forall_forall. intros row Hrow%list_elem_of_In. apply raw_text_line.
      by destruct (clean_row_dict row (Hc row Hrow)). }
  rewrite <- !list_fmap_compose. apply list_fmap_ext. intros i row Hrow%list_elem_of_lookup_2. cbn.
  by apply decode_clean, Hc, list_elem_of_In.
Qed.

Lemma dio_bind_eq {A B} (m : dio A) (f : A -> dio B) k :
  (m ≫= f) k = match m k with (Ok a, k') => f a k' | (Err x, k') => (Err x, k') end.
Proof. done. Qed.

Lemma append_row_eq observer path n b row k :
  append_row observer path (n, b) row k =
  match encode_staged_row row with
  | Err e => (Err e, k)
  | Ok enc =>
      match observe observer (b + Z.of_nat (length enc) + 1) with
      | Err e => (Err e, k)
      | Ok _ => (Ok (n + 1, b + Z.of_nat (length enc) + 1),
                 MkDisk (<[path := default [] (dk_files k !! path) ++ enc ++ [10]]> (dk_files k)) (dk_next k))
      end
  end.
Proof.
  unfold append_row. rewrite dio_bind_eq. unfold dio_lift at 1. destruct (encode_staged_row row) as [enc|]; [|done].
  cbn zeta. rewrite dio_bind_eq. unfold dio_lift. by destruct (observe observer _).
Qed.

(** Appending rows to a file that holds a text: the file holds the rows' text, and the
    counts are the numbers of rows and of bytes. *)
Lemma append_rows_text observer path rows counts bytes k counts' k' :
  forallb clean_row rows = true -> dk_files k !! path = Some bytes -> counts.2 = Z.of_nat (length bytes) ->
  append_rows observer path counts (Ok <$> rows) k = (Ok counts', k') ->
  exists more, utf8_encode (spool_text rows) = Some more /\
    k' = MkDisk (<[path := bytes ++ more]> (dk_files k)) (dk_next k) /\
    counts' = (counts.1 + Z.of_nat (length rows), Z.of_nat (length (bytes ++ more))).
Proof.
  revert counts bytes k. induction rows as [|row rows IH]; intros [n b] bytes k Hc Hf Hb; cbn [fmap list_fmap append_rows].
  { intros [= <- <-]. exists []. rewrite app_nil_r, insert_id by done. split; [done|]. split; [by destruct k|].
    cbn in *. f_equal; lia. }
  cbn [forallb] in Hc. apply andb_true_iff in Hc as [Hrow Hc]. destruct (encode_clean row Hrow) as (enc & He & Hu).
  cbn in Hb. rewrite dio_bind_eq. cbn [dio_lift]. rewrite dio_bind_eq, append_row_eq, He.
  destruct (observe observer (b + Z.of_nat (length enc) + 1)) as [[]|e]; [|done]. rewrite Hf. cbn [default from_option id].
  intros H. apply (IH _ (bytes ++ enc ++ [10])) in H; [|done|by cbn; rewrite lookup_insert_eq|].
  2:{ cbn [snd]. rewrite !length_app. cbn. lia. }
  destruct H as (more & Hm & -> & ->). exists ((enc ++ [10]) ++ more). cbn [fst dk_files dk_next].
  rewrite insert_insert_eq, <- !app_assoc. split_and!; [|done|f_equal; cbn [length]; lia].
  change (spool_text (row :: rows)) with ((dumps raw_style row ++ [10]) ++ spool_text rows).
  rewrite !app_assoc, <- (app_assoc _ _ more), <- app_assoc. apply utf8_encode_app; [done|].
  by apply (utf8_encode_app [10] _ [10]).
Qed.

Variable st_blocks : list Z -> stres Z.

(** Without an observer clean rows are all appended. *)
Lemma append_rows_total path rows counts k :
  forallb clean_row rows = true -> exists counts' k', append_rows None path counts (Ok <$> rows) k = (Ok counts', k').
Proof.
  revert counts k. induction rows as [|row rows IH]; intros [n b] k Hc; cbn [fmap list_fmap append_rows]; [by eexists _, _|].
  cbn [forallb] in Hc. apply andb_true_iff in Hc as [Hrow Hc]. destruct (encode_clean row Hrow) as (enc & He & _).
  rewrite dio_bind_eq. cbn [dio_lift]. rewrite dio_bind_eq, append_row_eq, He. cbn [observe]. by apply IH.
Qed.

(** Appending changes no other file, and no file is made. *)
Lemma append_rows_frame observer path rows counts k r k' :
  append_rows observer path counts rows k = (r, k') ->
  dk_next k' = dk_next k /\ forall p, p <> path -> dk_files k' !! p = dk_files k !! p.
Proof.
  revert counts k. induction rows as [|row rows IH]; intros [n b] k; cbn [append_rows]; [by intros [= <- <-]|].
  rewrite dio_bind_eq. destruct row as [row|e]; cbn [dio_lift]; [|by intros [= <- <-]].
  rewrite dio_bind_eq, append_row_eq. destruct (encode_staged_row row) as [enc|e]; [|by intros [= <- <-]].
  destruct (observe observer _) as [[]|e]; [|by intros [= <- <-]]. intros H%IH. cbn in H. destruct H as [H1 H2].
  split; [done|]. intros p Hp. rewrite H2 by done. by rewrite lookup_insert_ne.
Qed.

(** Something raised after the rows were written. *)
Definition late_error (timing : stres unit) : Prop := is_ok timing = false \/ exists content, is_ok (st_blocks content) = false.

(** What [from_rows] leaves on the disk: an open spool; or the files there were, but for the
    new file when what raised came after the rows. *)
Lemma from_rows_outcome rows observer timing k r k' :
  dk_files k !! dk_next k = None -> from_rows st_blocks rows observer timing k = (r, k') ->
  dk_next k' = S (dk_next k) /\ (forall p, p <> dk_next k -> dk_files k' !! p = dk_files k !! p) /\
  match r with
  | Err _ => dk_files k' = dk_files k \/ late_error timing
  | Ok s => rs_path s = dk_next k /\ rs_closed s = false
  end.
Proof.
  intros Hnone. unfold from_rows. rewrite dio_bind_eq. cbn [mkstemp]. rewrite dio_bind_eq. unfold dio_on_error.
  destruct (append_rows observer (dk_next k) (0, 0) rows _) as [[counts|e] k1] eqn:E;
    destruct (append_rows_frame _ _ _ _ _ _ _ E) as [Hn Hf]; cbn in Hn.
  - assert (forall p, p <> dk_next k -> dk_files k1 !! p = dk_files k !! p) as Hold.
    { intros p Hp. rewrite Hf by done. cbn. by rewrite lookup_insert_ne. }
    rewrite dio_bind_eq. unfold dio_lift at 1. destruct timing as [[]|x] eqn:Et; [|intros [= <- <-]; split_and!; [done|done|by right; left]].
    unfold stat_spool. rewrite dio_bind_eq. cbn [dio_get]. rewrite dio_bind_eq. unfold dio_lift.
    destruct (st_blocks _) as [blocks|x] eqn:Es; intros [= <- <-]; split_and!; try done.
    right. right. eexists. by rewrite Es.
  - intros [= <- <-]. cbn in *. split; [done|]. split.
    + intros p Hp. rewrite lookup_delete_ne, Hf by done. by rewrite lookup_insert_ne.
    + left. apply map_eq. intros p. destruct (decide (p = dk_next k)) as [->|Hp]; [by rewrite lookup_delete_eq|].
      rewrite lookup_delete_ne, Hf by done. by rewrite lookup_insert_ne.
Qed.

(** A spool that is returned holds all the rows. *)
Lemma from_rows_written rows observer timing k s k' :
  from_rows st_blocks rows observer timing k = (Ok s, k') ->
  exists counts blocks, append_rows observer (dk_next k) (0, 0) rows (MkDisk (<[dk_next k := []]> (dk_files k)) (S (dk_next k)))
    = (Ok counts, k') /\ s = MkSpool (dk_next k) counts.1 counts.2 blocks false.
Proof.
  unfold from_rows. rewrite dio_bind_eq. cbn [mkstemp]. rewrite dio_bind_eq. unfold dio_on_error.
  destruct (append_rows observer _ _ _ _) as [[counts|e] k1]; [|done]. rewrite dio_bind_eq. unfold dio_lift at 1.
  destruct timing; [|done]. unfold stat_spool. rewrite dio_bind_eq. cbn [dio_get]. rewrite dio_bind_eq. unfold dio_lift.
  destruct (st_blocks _); [|done]. intros [= <- <-]. by eexists _, _.
Qed.
End Facts.

Lemma spool_reads float_of st_blocks rows observer timing k s k' :
  forallb clean_row rows = true ->
  from_rows st_blocks (Ok <$> rows) observer timing k = (Ok s, k') ->
  iter_spool float_of s k' = (Ok (Ok <$> (json_norm <$> rows)), k') /\
  rs_count s = Z.of_nat (length rows) /\
  exists content, dk_files k' !! rs_path s = Some content /\ rs_byte_count s = Z.of_nat (length content).
Proof.
  intros Hc (counts & blocks & E & ->)%from_rows_written. apply (append_rows_text _ _ _ _ []) in E; [|done|cbn; by rewrite lookup_insert_eq|done].
  destruct E as (more & Hm & -> & ->). cbn [dk_files dk_next app fst]. rewrite insert_insert_eq.
  split; [|split; [done|]].
  - unfold iter_spool. cbn [rs_closed rs_path]. rewrite dio_bind_eq. cbn [dio_get dk_files]. rewrite lookup_insert_eq.
    rewrite (utf8_decode_encode _ _ Hm). by rewrite spool_lines.
  - exists more. cbn. by rewrite lookup_insert_eq.
Qed.

(** A spool gives back its rows: rows that were written are read back in order, each as JSON
    keeps it (tuples as lists, keys in order), and the spool's counts are the number of the
    rows and of the bytes in the file. *)
Theorem spool_roundtrip float_of st_blocks rows observer timing k s k' :
  forallb clean_row rows = true ->
  from_rows st_blocks (Ok <$> rows) observer timing k = (Ok s, k') ->
  iter_spool float_of s k' = (Ok (Ok <$> (json_norm <$> rows)), k') /\
  rs_count s = Z.of_nat (length rows) /\
  exists content, dk_files k' !! rs_path s = Some content /\ rs_byte_count s = Z.of_nat (length content).
Proof. apply spool_reads. Qed.

Definition sample_spool_rows : list pyval :=
  [VDict [(lit "path", VStr (lit "a.py" ++ [233; 10])); (lit "n", VInt 3)]; VDict [(lit "l", VTuple [VNone; VBool true])]].

Lemma spool_roundtrip_witness :
  exists s k', from_rows (fun _ => Ok 8) (Ok <$> sample_spool_rows) None (Ok tt) (MkDisk ∅ 0) = (Ok s, k') /\
    iter_spool (fun _ => VNone) s k' = (Ok (Ok <$> (json_norm <$> sample_spool_rows)), k').
Proof.
  destruct (from_rows (fun _ => Ok 8) (Ok <$> sample_spool_rows) None (Ok tt) (MkDisk ∅ 0)) as [[s|e] k'] eqn:E;
    [|apply (f_equal fst) in E; vm_compute in E; discriminate E].
  exists s, k'. split; [done|]. refine (proj1 (spool_roundtrip _ _ _ _ _ _ _ _ _ E)). vm_compute. reflexivity.
Defined.

(** ** The writer *)

(** Writing rows one by one. *)
Fixpoint write_all (observer : option (Z -> option exn)) (wr : writer) (rows : list pyval) : dio writer :=
  match rows with [] => mret wr | row :: rest => wr ← write_row observer wr row; write_all observer wr rest end.

Lemma write_all_append observer wr rows k :
  wr_finished wr = false ->
  write_all observer wr rows k =
  match append_rows observer (wr_path wr) (wr_count wr, wr_byte_count wr) (Ok <$> rows) k with
  | (Ok counts, k') => (Ok (MkWriter (wr_path wr) counts.1 counts.2 false), k')
  | (Err x, k') => (Err x, k')
  end.
Proof.
  revert wr k. induction rows as [|row rows IH]; intros [p n b f] k Hf; cbn in Hf; subst f; [done|].
  cbn [write_all fmap list_fmap append_rows]. rewrite !dio_bind_eq. unfold write_row. cbn [wr_finished dio_lift].
  rewrite !dio_bind_eq. cbn [wr_path wr_count wr_byte_count].
  destruct (append_row observer p (n, b) row k) as [[[n' b']|x] k1]; [|done]. cbn [mret dio_ret fst snd]. by rewrite IH.
Qed.

(** Writing rows one at a time and finishing gives the spool that [from_rows] gives, on the
    same disk, also when [stat] fails and both leave the file; when a row cannot be written,
    aborting leaves the disk as [from_rows] does. *)
Theorem writer_is_from_rows st_blocks observer rows k :
  match (wr ← open_writer; write_all observer wr rows) k with
  | (Ok wr, k1) =>
      from_rows st_blocks (Ok <$> rows) observer (Ok tt) k =
      match finish_writer st_blocks wr k1 with
      | (Ok (_, s), k') => (Ok s, k')
      | (Err x, k') => (Err x, k')
      end
  | (Err x, k1) =>
      from_rows st_blocks (Ok <$> rows) observer (Ok tt) k =
      (Err x, (abort_writer (MkWriter (dk_next k) 0 0 false) k1).2)
  end.
Proof.
  rewrite dio_bind_eq. unfold open_writer. rewrite dio_bind_eq. cbn [mkstemp mret dio_ret].
  rewrite write_all_append by done. cbn [wr_path wr_count wr_byte_count].
  unfold from_rows. rewrite dio_bind_eq. cbn [mkstemp]. rewrite dio_bind_eq. unfold dio_on_error.
  destruct (append_rows observer (dk_next k) (0, 0) _ _) as [[[n b]|x] k1]; [|done].
  rewrite dio_bind_eq. cbn [dio_lift]. unfold finish_writer. cbn [wr_finished wr_path wr_count wr_byte_count fst snd].
  rewrite dio_bind_eq. by destruct (stat_spool _ _ _ _) as [[]].
Qed.

(** The file is gone when a row cannot be written, and stays when the timing observer or [stat]
    raises. *)
Example late_error_leaves_file :
  let fresh := MkDisk ∅ 0 in
  dk_files (from_rows (fun _ => Ok 8) [Ok VNone] None (Ok tt) fresh).2 = ∅ /\
  dk_files (from_rows (fun _ => Ok 8) [Ok (VDict [])] None (Err (Observed MaintenanceUnavailableError)) fresh).2
    = {[ 0%nat := lit "{}" ++ [10] ]} /\
  dk_files (from_rows (fun _ => Err (Observed (OSError "stat"))) [Ok (VDict [])] None (Ok tt) fresh).2
    = {[ 0%nat := lit "{}" ++ [10] ]}.
Proof. vm_compute. done. Qed.
