(* ===== verification/StagingFamilies.v ===== *)
(** The closed descriptors of the staging families: [storage/staging_family_rows.py],
    [staging_merge_operations.py], [staging_family_contracts.py] and
    [staging_family_catalog.py]. *)
From S2P Require Import Prelude Utf8 PyVal Ordering Json.
Open Scope Z_scope.

(** ** Row types *)

(** The annotations of the row types, in order. *)
Definition StageFileRow : list string :=
  ["stage_id"; "family_ordinal"; "path"; "language"; "role"; "confidence"; "content_hash"; "executable"; "generated";
   "metadata_json"].
Definition StageRawObservationRow : list string :=
  ["stage_id"; "source_ordinal"; "schema_version"; "kind"; "source_id"; "path"; "payload_json"; "payload_hash"].
Definition StageCanonicalNodeRow : list string :=
  ["stage_id"; "family_ordinal"; "graph_key_version"; "canonical_key"; "kind"; "display_name"; "metadata_json";
   "confidence"; "conflict"].
Definition StageCanonicalEdgeRow : list string :=
  ["stage_id"; "family_ordinal"; "graph_key_version"; "source_canonical_key"; "edge_kind"; "target_canonical_key";
   "identity_metadata_json"; "identity_metadata_hash"; "metadata_json"; "confidence"; "conflict"].
Definition StageCanonicalEvidenceRow : list string :=
  ["stage_id"; "family_ordinal"; "graph_key_version"; "evidence_key"; "raw_observation_ordinal"; "raw_schema_version";
   "raw_kind"; "raw_source_id"; "path"; "start_line"; "end_line"; "extractor"; "extractor_version"; "confidence";
   "metadata_json"].
Definition StageCanonicalNodeEvidenceRow : list string :=
  ["stage_id"; "family_ordinal"; "graph_key_version"; "canonical_key"; "evidence_key"; "link_kind"].
Definition StageCanonicalEdgeEvidenceRow : list string :=
  ["stage_id"; "family_ordinal"; "graph_key_version"; "source_canonical_key"; "edge_kind"; "target_canonical_key";
   "identity_metadata_hash"; "evidence_key"; "link_kind"].

(** ** Merge operations *)

Inductive MergeScope := SOURCE_INDEX | CANONICAL.

Inductive MergeOperation :=
| FILES | RAW_OBSERVATIONS | CANONICAL_RAW_REFERENCE | CANONICAL_NODES | CANONICAL_EVIDENCE | CANONICAL_EDGE_REFERENCE
| CANONICAL_EDGES | CANONICAL_NODE_EVIDENCE_REFERENCE | CANONICAL_NODE_EVIDENCE | CANONICAL_EDGE_EVIDENCE_REFERENCE
| CANONICAL_EDGE_EVIDENCE.

#[export] Instance MergeScope_eq_dec : EqDecision MergeScope.
Proof. solve_decision. Defined.
#[export] Instance MergeOperation_eq_dec : EqDecision MergeOperation.
Proof. solve_decision. Defined.

Definition operation_value (o : MergeOperation) : MergeScope * Z :=
  match o with
  | FILES => (SOURCE_INDEX, 10)
  | RAW_OBSERVATIONS => (SOURCE_INDEX, 20)
  | CANONICAL_RAW_REFERENCE => (CANONICAL, 10)
  | CANONICAL_NODES => (CANONICAL, 20)
  | CANONICAL_EVIDENCE => (CANONICAL, 30)
  | CANONICAL_EDGE_REFERENCE => (CANONICAL, 40)
  | CANONICAL_EDGES => (CANONICAL, 50)
  | CANONICAL_NODE_EVIDENCE_REFERENCE => (CANONICAL, 60)
  | CANONICAL_NODE_EVIDENCE => (CANONICAL, 70)
  | CANONICAL_EDGE_EVIDENCE_REFERENCE => (CANONICAL, 80)
  | CANONICAL_EDGE_EVIDENCE => (CANONICAL, 90)
  end.

Definition scope (o : MergeOperation) : MergeScope := (operation_value o).1.
Definition order (o : MergeOperation) : Z := (operation_value o).2.

(** ** Contracts *)

Inductive ChecksumStrategy := TRUSTED_CANONICAL_JSON_SHA256.
Inductive DuplicatePolicy := IDENTICAL_ONLY | LATEST_PROPOSAL | SOURCE_ORDINAL_IDEMPOTENT | SET_DEDUPLICATED.
Inductive ProposalPolicy := IDENTITY_COLLAPSE | LATEST_BY_ORDINAL | SOURCE_ORDER | LOGICAL_SET.
Inductive ValidationRule :=
| ROW_COUNT | DDL_CONSTRAINTS | IDENTITY_CONFLICT | EXISTING_PAYLOAD_HASH | RAW_OBSERVATION_REFERENCE | NODE_REFERENCE
| EDGE_REFERENCE | EVIDENCE_REFERENCE.
Inductive RetentionPolicy := STAGE_LIFETIME.
Inductive PrivacyClassification :=
| PUBLIC | PRIVACY_SOURCE_INDEX | LEGACY_GRAPH | RAW_SOURCE | CANONICAL_GRAPH | CANONICAL_PROVENANCE.

#[export] Instance ValidationRule_eq_dec : EqDecision ValidationRule.
Proof. solve_decision. Defined.

Record StageFamilyDescriptor := MkDescriptor {
  family : string;
  row_type : list string;
  stage_table : string;
  copy_columns : list string;
  technical_ordinal : string;
  semantic_ordinal : option string;
  identity_columns : list string;
  payload_columns : list string;
  nullable_columns : list string;
  checksum_strategy : ChecksumStrategy;
  duplicate_policy : DuplicatePolicy;
  proposal_policy : ProposalPolicy;
  validation_rules : list ValidationRule;
  merge_dependencies : list string;
  merge_operations : list MergeOperation;
  retention_policy : RetentionPolicy;
  privacy_classification : PrivacyClassification
}.

(** [len(set(l)) == len(l)] and [set(l) <= set(k)] *)
Definition distinct {A} `{EqDecision A} (l : list A) : bool := bool_decide (NoDup l).
Definition included {A} `{EqDecision A} (l k : list A) : bool := forallb (fun x => bool_decide (x ∈ k)) l.

Definition expected_payload (columns identity : list string) : list string :=
  List.filter (fun c => negb (bool_decide (c = "stage_id"%string)) && negb (bool_decide (c ∈ identity))) columns.

(** [__post_init__]: the first complaint, if any. *)
Definition descriptor_error (d : StageFamilyDescriptor) : option string :=
  let columns := copy_columns d in
  if negb (bool_decide (head columns = Some "stage_id"%string)) || negb (distinct columns)
  then Some "invalid staging family columns"%string
  else if negb (bool_decide (row_type d = columns)) then Some "staging row type does not match COPY columns"%string
  else if negb (bool_decide (technical_ordinal d ∈ columns)) then Some "staging technical ordinal is missing"%string
  else if match semantic_ordinal d with Some o => negb (bool_decide (o ∈ columns)) | None => false end
  then Some "staging semantic ordinal is missing"%string
  else if negb (included (identity_columns d) columns) then Some "staging identity columns are invalid"%string
  else if negb (bool_decide (payload_columns d = expected_payload columns (identity_columns d)))
  then Some "staging payload columns are invalid"%string
  else if negb (included (nullable_columns d) columns) then Some "staging nullable columns are invalid"%string
  else if negb (distinct (merge_dependencies d)) then Some "staging merge dependencies are invalid"%string
  else if bool_decide (family d ∈ merge_dependencies d) then Some "staging family cannot depend on itself"%string
  else if bool_decide (merge_operations d = []) || negb (distinct (merge_operations d))
  then Some "staging merge operations are invalid"%string
  else if negb (included [ROW_COUNT; DDL_CONSTRAINTS] (validation_rules d))
  then Some "staging validation rules are incomplete"%string
  else None.

Definition _descriptor (family : string) (row_type : list string) (stage_table technical_ordinal : string)
    (semantic_ordinal : option string) (identity_columns nullable_columns : list string)
    (duplicate_policy : DuplicatePolicy) (proposal_policy : ProposalPolicy) (validation_rules : list ValidationRule)
    (merge_dependencies : list string) (merge_operations : list MergeOperation)
    (privacy_classification : PrivacyClassification) : StageFamilyDescriptor :=
  {| family := family; row_type := row_type; stage_table := stage_table; copy_columns := row_type;
     technical_ordinal := technical_ordinal; semantic_ordinal := semantic_ordinal; identity_columns := identity_columns;
     payload_columns := expected_payload row_type identity_columns; nullable_columns := nullable_columns;
     checksum_strategy := TRUSTED_CANONICAL_JSON_SHA256; duplicate_policy := duplicate_policy;
     proposal_policy := proposal_policy; validation_rules := validation_rules; merge_dependencies := merge_dependencies;
     merge_operations := merge_operations; retention_policy := STAGE_LIFETIME;
     privacy_classification := privacy_classification |}.

Definition _BASE_VALIDATION : list ValidationRule := [ROW_COUNT; DDL_CONSTRAINTS].
Definition _IDENTITY_VALIDATION : list ValidationRule := _BASE_VALIDATION ++ [IDENTITY_CONFLICT].

#[local] Open Scope string_scope.

Definition files_family := _descriptor "files" StageFileRow "stage_files" "family_ordinal" None ["path"] ["content_hash"]
  IDENTICAL_ONLY IDENTITY_COLLAPSE _IDENTITY_VALIDATION [] [FILES] PRIVACY_SOURCE_INDEX.

Definition raw_observations_family := _descriptor "raw_observations" StageRawObservationRow "stage_raw_observations"
  "source_ordinal" (Some "source_ordinal") ["source_ordinal"] [] SOURCE_ORDINAL_IDEMPOTENT SOURCE_ORDER
  (_BASE_VALIDATION ++ [EXISTING_PAYLOAD_HASH]) [] [RAW_OBSERVATIONS] RAW_SOURCE.

Definition canonical_nodes_family := _descriptor "canonical_nodes" StageCanonicalNodeRow "stage_canonical_nodes"
  "family_ordinal" None ["graph_key_version"; "canonical_key"] [] IDENTICAL_ONLY IDENTITY_COLLAPSE _IDENTITY_VALIDATION
  [] [CANONICAL_NODES] CANONICAL_GRAPH.

Definition canonical_edges_family := _descriptor "canonical_edges" StageCanonicalEdgeRow "stage_canonical_edges"
  "family_ordinal" None
  ["graph_key_version"; "source_canonical_key"; "edge_kind"; "target_canonical_key"; "identity_metadata_hash"] []
  IDENTICAL_ONLY IDENTITY_COLLAPSE (_IDENTITY_VALIDATION ++ [NODE_REFERENCE]) ["canonical_nodes"]
  [CANONICAL_EDGE_REFERENCE; CANONICAL_EDGES] CANONICAL_GRAPH.

Definition canonical_evidence_family := _descriptor "canonical_evidence" StageCanonicalEvidenceRow
  "stage_canonical_evidence" "family_ordinal" (Some "raw_observation_ordinal") ["graph_key_version"; "evidence_key"]
  ["start_line"; "end_line"] IDENTICAL_ONLY IDENTITY_COLLAPSE (_IDENTITY_VALIDATION ++ [RAW_OBSERVATION_REFERENCE])
  ["raw_observations"] [CANONICAL_RAW_REFERENCE; CANONICAL_EVIDENCE] CANONICAL_PROVENANCE.

Definition canonical_node_evidence_family := _descriptor "canonical_node_evidence" StageCanonicalNodeEvidenceRow
  "stage_canonical_node_evidence" "family_ordinal" None
  ["graph_key_version"; "canonical_key"; "evidence_key"; "link_kind"] [] SET_DEDUPLICATED LOGICAL_SET
  (_BASE_VALIDATION ++ [NODE_REFERENCE; EVIDENCE_REFERENCE]) ["canonical_nodes"; "canonical_evidence"]
  [CANONICAL_NODE_EVIDENCE_REFERENCE; CANONICAL_NODE_EVIDENCE] CANONICAL_GRAPH.

Definition canonical_edge_evidence_family := _descriptor "canonical_edge_evidence" StageCanonicalEdgeEvidenceRow
  "stage_canonical_edge_evidence" "family_ordinal" None
  ["graph_key_version"; "source_canonical_key"; "edge_kind"; "target_canonical_key"; "identity_metadata_hash";
   "evidence_key"; "link_kind"] [] SET_DEDUPLICATED LOGICAL_SET
  (_BASE_VALIDATION ++ [EDGE_REFERENCE; EVIDENCE_REFERENCE]) ["canonical_edges"; "canonical_evidence"]
  [CANONICAL_EDGE_EVIDENCE_REFERENCE; CANONICAL_EDGE_EVIDENCE] CANONICAL_GRAPH.

Definition STAGING_FAMILY_DESCRIPTORS : list StageFamilyDescriptor :=
  [files_family; raw_observations_family; canonical_nodes_family; canonical_edges_family; canonical_evidence_family;
   canonical_node_evidence_family; canonical_edge_evidence_family].

(** ** Catalog *)

Record StageMergeBinding := MkBinding { mb_descriptor : StageFamilyDescriptor; mb_operation : MergeOperation }.

(** [sorted(bindings, key=...)] is stable. *)
Fixpoint insert_binding (b : StageMergeBinding) (l : list StageMergeBinding) : list StageMergeBinding :=
  match l with
  | [] => [b]
  | c :: rest => if (order (mb_operation b) <=? order (mb_operation c))%Z then b :: l else c :: insert_binding b rest
  end.

Definition merge_operations_for_scope (s : MergeScope) : list StageMergeBinding :=
  foldr insert_binding [] (STAGING_FAMILY_DESCRIPTORS ≫= (fun d =>
    MkBinding d <$> List.filter (fun o => bool_decide (scope o = s)) (merge_operations d))).

Definition descriptors_for_merge_scope (s : MergeScope) : list StageFamilyDescriptor :=
  List.filter (fun d => existsb (fun o => bool_decide (scope o = s)) (merge_operations d)) STAGING_FAMILY_DESCRIPTORS.

Definition family_privacy_classifications : list (string * PrivacyClassification) :=
  (fun d => (family d, privacy_classification d)) <$> STAGING_FAMILY_DESCRIPTORS.

(** ** The catalog is sound *)

Lemma descriptors_valid : Forall (fun d => descriptor_error d = None) STAGING_FAMILY_DESCRIPTORS.
Proof. repeat (apply Forall_cons; split; [vm_compute; reflexivity|]). by apply Forall_nil. Qed.

(** Within a scope, the operations of a family come after all operations of the families it
    depends on. *)
Definition dependencies_first (l : list StageMergeBinding) : bool :=
  forallb (fun '(i, b) =>
    forallb (fun '(j, c) =>
      negb (bool_decide (family (mb_descriptor c) ∈ merge_dependencies (mb_descriptor b))) || Nat.ltb j i)
      (imap pair l)) (imap pair l).

Definition all_operations : list MergeOperation :=
  [FILES; RAW_OBSERVATIONS; CANONICAL_RAW_REFERENCE; CANONICAL_NODES; CANONICAL_EVIDENCE; CANONICAL_EDGE_REFERENCE;
   CANONICAL_EDGES; CANONICAL_NODE_EVIDENCE_REFERENCE; CANONICAL_NODE_EVIDENCE; CANONICAL_EDGE_EVIDENCE_REFERENCE;
   CANONICAL_EDGE_EVIDENCE].

(** The closed catalog is sound: every descriptor satisfies its contract; the operations of a
    scope come after those of the families they depend on in that scope; and every operation
    is bound to exactly one family in exactly one scope. *)
Theorem merge_catalog_sound :
  Forall (fun d => descriptor_error d = None) STAGING_FAMILY_DESCRIPTORS /\
  (forall s i j b c, merge_operations_for_scope s !! i = Some b -> merge_operations_for_scope s !! j = Some c ->
     family (mb_descriptor c) ∈ merge_dependencies (mb_descriptor b) -> (j < i)%nat) /\
  ((mb_operation <$> merge_operations_for_scope SOURCE_INDEX) ++
   (mb_operation <$> merge_operations_for_scope CANONICAL))%list = all_operations.
Proof.
  split_and!; [exact descriptors_valid| |vm_compute; reflexivity].
  intros s i j b c Hb Hc Hdep.
  assert (dependencies_first (merge_operations_for_scope s) = true) as H by (destruct s; vm_compute; reflexivity).
  unfold dependencies_first in H. rewrite forallb_forall in H.
  assert (Hpair : forall n x, merge_operations_for_scope s !! n = Some x ->
    In (n, x) (imap pair (merge_operations_for_scope s))).
  { intros n x Hx. apply list_elem_of_In, list_elem_of_lookup. exists n. rewrite list_lookup_imap, Hx. done. }
  specialize (H _ (Hpair i b Hb)). cbn in H. rewrite forallb_forall in H. specialize (H _ (Hpair j c Hc)). cbn in H.
  rewrite bool_decide_eq_true_2 in H by done. by apply Nat.ltb_lt.
Qed.
