(* ===== verification/StagedRows.v ===== *)
(** From observations to the rows to load: [storage/canonical_rows.py], [storage/file_rows.py],
    [storage/_staged_row_adapters.py], [storage/staged_rows.py] and the hashes and metadata
    helpers of [storage/row_helpers.py].

    A family's rows are kept in memory up to a threshold and in a spool above it.  The
    measurements of the preparation of families ([staged_row_measurements.py]) matter by what
    they raise; those taken before, of the replays and of the canonicalization, are left out. *)
From S2P Require Import Prelude Utf8 Sha256 PyVal Ordering Json JsonFacts Limits GraphKeys Observations.
From S2P Require Import CanonCore CanonState CanonGoModel CanonGoContext CanonDispatch.
From S2P Require Import StagingChecksums RowSpool StagingFamilies.
Open Scope Z_scope.

(** ** Helpers *)

(** [canonical_json_value] *)
Fixpoint canonical_json_value (value : pyval) : pyval :=
  match value with
  | VDict d => VDict (sort_items ((fun kv : pystr * pyval => (kv.1, canonical_json_value kv.2)) <$> d))
  | VList l | VTuple l => VList (canonical_json_value <$> l)
  | _ => value
  end.

Definition canonical_json_text (value : pyval) : stres pystr :=
  if digits_ok value then Ok (dumps compact_style (canonical_json_value value))
  else Err (StageValueError "Exceeds the limit for integer string conversion").

(** The text is ASCII. *)
Definition sha256_text (value : pystr) : pystr := sha256_hex value.

Definition identity_metadata_hash (metadata : pydict) : stres pystr :=
  text ← canonical_json_text (VDict metadata); Ok (sha256_text text).
Definition raw_observation_payload_hash (o : RawObservation) : stres pystr :=
  text ← canonical_json_text (VDict (to_dict o)); Ok (sha256_text text).

Definition metadata_text (metadata : pydict) (key default_text : string) : pystr :=
  match dict_get (lit key) metadata with
  | Some (VStr (c :: s)) => c :: s
  | _ => lit default_text
  end.
Definition metadata_bool (metadata : pydict) (key : string) : bool :=
  match dict_get (lit key) metadata with Some (VBool b) => b | _ => false end.
Definition optional_text (value : option pyval) : option pystr :=
  match value with Some (VStr (c :: s)) => Some (c :: s) | _ => None end.

(** ** Files *)

Record FileRow := MkFileRow {
  fr_path : pystr; fr_language : pystr; fr_role : pystr; fr_confidence : pystr; fr_content_hash : option pystr;
  fr_executable : bool; fr_generated : bool; fr_metadata_json : pydict
}.

Definition file_row_of (o : RawObservation) : FileRow :=
  let metadata := obs_metadata o in
  {| fr_path := obs_path o;
     fr_language := metadata_text metadata "language" "unknown";
     fr_role := metadata_text metadata "role" "unknown";
     fr_confidence := obs_confidence o;
     fr_content_hash := optional_text (dict_get (lit "content_hash") metadata);
     fr_executable := metadata_bool metadata "executable";
     fr_generated := metadata_bool metadata "generated";
     fr_metadata_json :=
       [(lit "raw_source_id", VStr (obs_source_id o)); (lit "confidence", VStr (obs_confidence o));
        (lit "extractor", VStr (obs_extractor o)); (lit "extractor_version", VStr (obs_extractor_version o));
        (lit "source_metadata", VDict metadata)] |}.

(** [sorted(rows, key=lambda row: row.path)] *)
Definition sort_by_path (rows : list FileRow) : list FileRow := (sort_items ((fun r => (fr_path r, r)) <$> rows)).*2.

Definition file_rows_from_observations (observations : list RawObservation) : list FileRow :=
  sort_by_path (file_row_of <$> List.filter (fun o => bool_decide (obs_kind o = lit "file")) observations).

(** ** Canonical rows *)

Record RawObservationRow := MkRawRow {
  rr_ordinal : Z; rr_schema_version : pyval; rr_kind : pystr; rr_source_id : pystr; rr_path : pystr;
  rr_payload_json : pydict; rr_payload_hash : pystr
}.
Record CanonicalNodeRow := MkNodeRow {
  nr_graph_key_version : Z; nr_canonical_key : pystr; nr_kind : pystr; nr_display_name : pyval; nr_metadata_json : pydict;
  nr_confidence : pystr; nr_conflict : bool
}.
Record CanonicalEdgeRow := MkEdgeRow {
  er_edge_key : pystr; er_graph_key_version : Z; er_source_key : pystr; er_edge_kind : pystr; er_target_key : pystr;
  er_identity_metadata_json : pydict; er_identity_metadata_hash : pystr; er_metadata_json : pydict;
  er_confidence : pystr; er_conflict : bool
}.
Record CanonicalEvidenceRow := MkEvidenceRow {
  vr_evidence_key : pystr; vr_graph_key_version : Z; vr_raw_observation_ordinal : Z; vr_raw_schema_version : pyval;
  vr_raw_kind : pystr; vr_raw_source_id : pystr; vr_path : pystr; vr_start_line : pyval; vr_end_line : pyval;
  vr_extractor : pystr; vr_extractor_version : pystr; vr_confidence : pystr; vr_metadata_json : pydict
}.
Record CanonicalNodeEvidenceLinkRow := MkNodeLinkRow {
  nlr_canonical_key : pystr; nlr_evidence_key : pystr; nlr_link_kind : pystr
}.
Record CanonicalEdgeEvidenceLinkRow := MkEdgeLinkRow {
  elr_graph_key_version : Z; elr_source_key : pystr; elr_edge_kind : pystr; elr_target_key : pystr;
  elr_identity_metadata_hash : pystr; elr_evidence_key : pystr; elr_link_kind : pystr
}.

Definition raw_row_of (ordinal : nat) (o : RawObservation) : stres RawObservationRow :=
  payload_hash ← raw_observation_payload_hash o;
  Ok {| rr_ordinal := Z.of_nat ordinal; rr_schema_version := obs_schema_version o; rr_kind := obs_kind o;
        rr_source_id := obs_source_id o; rr_path := obs_path o; rr_payload_json := to_dict o;
        rr_payload_hash := payload_hash |}.
Definition _iter_raw_observation_rows (observations : list RawObservation) : list (stres RawObservationRow) :=
  imap raw_row_of observations.

Definition node_row_of (n : CanonicalNode) : CanonicalNodeRow :=
  {| nr_graph_key_version := n_graph_key_version n; nr_canonical_key := n_canonical_key n; nr_kind := n_kind n;
     nr_display_name := n_display_name n; nr_metadata_json := n_metadata n; nr_confidence := n_confidence n;
     nr_conflict := n_conflict n |}.
Definition _iter_canonical_node_rows (r : CanonicalizationResult) : list (stres CanonicalNodeRow) :=
  (fun n => Ok (node_row_of n)) <$> g_nodes (r_graph r).

Definition edge_row_of (e : CanonicalEdge) : stres CanonicalEdgeRow :=
  hash ← identity_metadata_hash (e_identity_metadata e);
  Ok {| er_edge_key := e_edge_key e; er_graph_key_version := e_graph_key_version e; er_source_key := e_source_key e;
        er_edge_kind := e_kind e; er_target_key := e_target_key e; er_identity_metadata_json := e_identity_metadata e;
        er_identity_metadata_hash := hash; er_metadata_json := e_metadata e; er_confidence := e_confidence e;
        er_conflict := e_conflict e |}.
Definition _iter_canonical_edge_rows (r : CanonicalizationResult) : list (stres CanonicalEdgeRow) :=
  edge_row_of <$> g_edges (r_graph r).

Definition evidence_row_of (version : Z) (v : CanonicalEvidence) : CanonicalEvidenceRow :=
  {| vr_evidence_key := v_evidence_key v; vr_graph_key_version := version;
     vr_raw_observation_ordinal := v_raw_observation_ordinal v; vr_raw_schema_version := v_raw_schema_version v;
     vr_raw_kind := v_raw_kind v; vr_raw_source_id := v_raw_source_id v; vr_path := v_path v;
     vr_start_line := v_start_line v; vr_end_line := v_end_line v; vr_extractor := v_extractor v;
     vr_extractor_version := v_extractor_version v; vr_confidence := v_confidence v; vr_metadata_json := v_metadata v |}.
Definition _iter_canonical_evidence_rows (r : CanonicalizationResult) : list (stres CanonicalEvidenceRow) :=
  (fun v => Ok (evidence_row_of (g_graph_key_version (r_graph r)) v)) <$> g_evidence (r_graph r).

Definition _iter_canonical_node_evidence_rows (r : CanonicalizationResult) : list (stres CanonicalNodeEvidenceLinkRow) :=
  (fun l => Ok (MkNodeLinkRow (nl_canonical_key l) (nl_evidence_key l) (nl_link_kind l))) <$>
  g_node_evidence_links (r_graph r).

(** [{edge.edge_key: edge for edge in result.graph.edges}] *)
Definition edges_by_key (r : CanonicalizationResult) : list (pystr * CanonicalEdge) :=
  foldl (fun d e => dict_set (e_edge_key e) e d) [] (g_edges (r_graph r)).

Definition canonical_edge_link_row (edges : list (pystr * CanonicalEdge)) (l : CanonicalEdgeEvidenceLink) :
    stres CanonicalEdgeEvidenceLinkRow :=
  match dict_get (el_edge_key l) edges with
  | None => Err StageKeyError
  | Some e =>
      hash ← identity_metadata_hash (e_identity_metadata e);
      Ok {| elr_graph_key_version := e_graph_key_version e; elr_source_key := e_source_key e; elr_edge_kind := e_kind e;
            elr_target_key := e_target_key e; elr_identity_metadata_hash := hash; elr_evidence_key := el_evidence_key l;
            elr_link_kind := el_link_kind l |}
  end.
Definition _iter_canonical_edge_evidence_rows (r : CanonicalizationResult) (edges : list (pystr * CanonicalEdge)) :
    list (stres CanonicalEdgeEvidenceLinkRow) :=
  canonical_edge_link_row edges <$> g_edge_evidence_links (r_graph r).

(** ** Adapters *)

Definition some_text (o : option pystr) : pyval := match o with Some s => VStr s | None => VNone end.
Definition fields (l : list (string * pyval)) : pydict := (fun kv : string * pyval => (lit kv.1, kv.2)) <$> l.

Definition _file_row (r : FileRow) : pydict :=
  fields [("path", VStr (fr_path r)); ("language", VStr (fr_language r)); ("role", VStr (fr_role r));
          ("confidence", VStr (fr_confidence r)); ("content_hash", some_text (fr_content_hash r));
          ("executable", VBool (fr_executable r)); ("generated", VBool (fr_generated r));
          ("metadata_json", VDict (fr_metadata_json r))]%string.

Definition _raw_row (r : RawObservationRow) : pydict :=
  fields [("source_ordinal", VInt (rr_ordinal r)); ("schema_version", rr_schema_version r); ("kind", VStr (rr_kind r));
          ("source_id", VStr (rr_source_id r)); ("path", VStr (rr_path r)); ("payload_json", VDict (rr_payload_json r));
          ("payload_hash", VStr (rr_payload_hash r))]%string.

Definition _canonical_node_row (r : CanonicalNodeRow) : pydict :=
  fields [("graph_key_version", VInt (nr_graph_key_version r)); ("canonical_key", VStr (nr_canonical_key r));
          ("kind", VStr (nr_kind r)); ("display_name", nr_display_name r); ("metadata_json", VDict (nr_metadata_json r));
          ("confidence", VStr (nr_confidence r)); ("conflict", VBool (nr_conflict r))]%string.

Definition _canonical_edge_row (r : CanonicalEdgeRow) : pydict :=
  fields [("graph_key_version", VInt (er_graph_key_version r)); ("source_canonical_key", VStr (er_source_key r));
          ("edge_kind", VStr (er_edge_kind r)); ("target_canonical_key", VStr (er_target_key r));
          ("identity_metadata_json", VDict (er_identity_metadata_json r));
          ("identity_metadata_hash", VStr (er_identity_metadata_hash r)); ("metadata_json", VDict (er_metadata_json r));
          ("confidence", VStr (er_confidence r)); ("conflict", VBool (er_conflict r))]%string.

Definition _canonical_evidence_row (r : CanonicalEvidenceRow) : pydict :=
  fields [("graph_key_version", VInt (vr_graph_key_version r)); ("evidence_key", VStr (vr_evidence_key r));
          ("raw_observation_ordinal", VInt (vr_raw_observation_ordinal r));
          ("raw_schema_version", vr_raw_schema_version r); ("raw_kind", VStr (vr_raw_kind r));
          ("raw_source_id", VStr (vr_raw_source_id r)); ("path", VStr (vr_path r)); ("start_line", vr_start_line r);
          ("end_line", vr_end_line r); ("extractor", VStr (vr_extractor r));
          ("extractor_version", VStr (vr_extractor_version r)); ("confidence", VStr (vr_confidence r));
          ("metadata_json", VDict (vr_metadata_json r))]%string.

Definition _canonical_node_evidence_row (r : CanonicalNodeEvidenceLinkRow) : pydict :=
  fields [("graph_key_version", VInt GRAPH_KEY_VERSION); ("canonical_key", VStr (nlr_canonical_key r));
          ("evidence_key", VStr (nlr_evidence_key r)); ("link_kind", VStr (nlr_link_kind r))]%string.

Definition _canonical_edge_evidence_row (r : CanonicalEdgeEvidenceLinkRow) : pydict :=
  fields [("graph_key_version", VInt (elr_graph_key_version r)); ("source_canonical_key", VStr (elr_source_key r));
          ("edge_kind", VStr (elr_edge_kind r)); ("target_canonical_key", VStr (elr_target_key r));
          ("identity_metadata_hash", VStr (elr_identity_metadata_hash r)); ("evidence_key", VStr (elr_evidence_key r));
          ("link_kind", VStr (elr_link_kind r))]%string.

(** A column set by [{key: value, **rest}]: the rest wins, and keeps the place of the key. *)
Definition dict_under (k : pystr) (v : pyval) (rest : pydict) : pydict :=
  foldl (fun d kv => dict_set kv.1 kv.2 d) [(k, v)] rest.

Definition bad_shape : stage_exn := StorageSchemaError (lit "staged family row shape is invalid").

Definition _stage_row (descriptor : StageFamilyDescriptor) (stage_id : pystr) (proposal_ordinal : nat) (payload : pydict) :
    stres pyval :=
  let ordinal := lit (technical_ordinal descriptor) in
  let values := if dict_has ordinal payload then payload
                else dict_under ordinal (VInt (Z.of_nat proposal_ordinal)) payload in
  let row := dict_under (lit "stage_id") (VStr stage_id) values in
  let columns := lit <$> copy_columns descriptor in
  if negb (bool_decide (list_to_set row.*1 =@{gset pystr} list_to_set columns)) then Err bad_shape
  else
    items ← mapM (fun c => match dict_get c row with Some v => Ok (c, v) | None => Err StageKeyError end) columns;
    Ok (VDict items).

(** The rows an iterator yields, numbered. *)
Definition _indexed {A} (descriptor : StageFamilyDescriptor) (stage_id : pystr) (rows : list (stres A))
    (adapter : A -> pydict) : list (stres pyval) :=
  imap (fun ordinal r => row ← r; _stage_row descriptor stage_id ordinal (adapter row)) rows.

(** ** Families *)

Definition _ROW_SPOOL_THRESHOLD : nat := Z.to_nat 4096.

(** Rows in memory or in a spool. *)
Inductive stored_rows :=
| Materialized (rows : list pyval)
| Spooled (s : row_spool).

(** [_PreparedFamilyRows] *)
Record prepared_family_rows := MkPreparedFamily { pf_rows : stored_rows; pf_checksum : option FamilyChecksum }.

(** [{key: value for key, value in row.items() if key != "stage_id"}] *)
Definition without_stage_id (row : pyval) : pyval :=
  match row with
  | VDict d => VDict (List.filter (fun kv : pystr * pyval => negb (bool_decide (kv.1 = lit "stage_id"))) d)
  | _ => row
  end.

(** [rows_with_checksum]: a row is yielded after it was added; what raises ends the rows. *)
Fixpoint rows_with_checksum (a : accumulator) (rows : list (stres pyval)) : list (stres pyval) :=
  match rows with
  | [] => []
  | Err e :: _ => [Err e]
  | Ok row :: rest =>
      match add a (without_stage_id row) with
      | Ok a' => Ok row :: rows_with_checksum a' rest
      | Err e => [Err e]
      end
  end.

(** The accumulator once all rows were yielded. *)
Definition accumulated (a : accumulator) (rows : list (stres pyval)) : stres accumulator :=
  add_all a ((fun r : stres pyval => row ← r; Ok (without_stage_id row)) <$> rows).

(** ** Measurements *)

(** Where [staging_measurements] is called while rows are prepared. *)
Inductive measure_point :=
| PreparationEntered | PreparationLeft    (** around [measure_family_preparation] *)
| SpoolEntered | SpoolTimed | SpoolLeft   (** the phase around a spool, and its timing observer *)
| ChecksumEntered | ChecksumLeft          (** around [measure_family_checksum] *)
| DurationRecorded | FamilyRecorded.

(** What the rest of the system does: the file system on [stat], and the measurements, if they
    are taken, which may raise (a checkpoint, an interrupt) at any point. *)
Record staging_host := MkHost {
  sg_blocks : list Z -> stres Z;
  sg_measure : option (measure_point -> string -> option exn)
}.

(** No measurements, and a file system that answers. *)
Definition quiet_host (st_blocks : list Z -> Z) : staging_host := MkHost (fun content => Ok (st_blocks content)) None.

Section Build.
Context {U : Unicode}.
Variable float_of : pystr -> pyval.
Variable host : staging_host.
(** [spool_artifact_observer]: what it raises for a family and a number of bytes. *)
Variable spool_artifact_observer : option (string -> Z -> option exn).

Definition measure (point : measure_point) (family : string) : stres unit :=
  match sg_measure host with
  | None => Ok tt
  | Some m => match m point family with Some x => Err (Observed x) | None => Ok tt end
  end.

(** [with measurements...: m]: what leaving raises replaces an exception of the body. *)
Definition measured {A} (enter leave : measure_point) (family : string) (m : dio A) : dio A :=
  fun k =>
    match measure enter family with
    | Err x => (Err x, k)
    | Ok _ => let '(r, k') := m k in (match measure leave family with Ok _ => r | Err x => Err x end, k')
    end.

Definition _materialize_or_spool (descriptor : StageFamilyDescriptor) (rows : list (stres pyval)) :
    dio prepared_family_rows :=
  (** the first rows, up to one more than the threshold *)
  buffered ← dio_lift (mapM id (take (S _ROW_SPOOL_THRESHOLD) rows));
  if Nat.leb (length buffered) _ROW_SPOOL_THRESHOLD then mret (MkPreparedFamily (Materialized buffered) None)
  else
    a ← dio_lift (new_accumulator (lit <$> identity_columns descriptor));
    measured SpoolEntered SpoolLeft (family descriptor)
      (s ← from_rows (sg_blocks host) (rows_with_checksum a rows)
             (match spool_artifact_observer with
              | None => None
              | Some f => Some (f (family descriptor))
              end) (measure SpoolTimed (family descriptor));
       checksum ← dio_on_error (dio_lift (a ← accumulated a rows; finish a)) (_ ← close_spool s; mret tt);
       mret (MkPreparedFamily (Spooled s) (Some checksum))).

(** The rows of every family before they are stored. *)
Definition source_rows (stage_id : pystr) (observations : list RawObservation) (file_rows : list FileRow)
    (result : CanonicalizationResult) : list (StageFamilyDescriptor * list (stres pyval)) :=
  [(files_family, _indexed files_family stage_id (Ok <$> file_rows) _file_row);
   (raw_observations_family,
     _indexed raw_observations_family stage_id (_iter_raw_observation_rows observations) _raw_row);
   (canonical_nodes_family,
     _indexed canonical_nodes_family stage_id (_iter_canonical_node_rows result) _canonical_node_row);
   (canonical_edges_family,
     _indexed canonical_edges_family stage_id (_iter_canonical_edge_rows result) _canonical_edge_row);
   (canonical_evidence_family,
     _indexed canonical_evidence_family stage_id (_iter_canonical_evidence_rows result) _canonical_evidence_row);
   (canonical_node_evidence_family,
     _indexed canonical_node_evidence_family stage_id (_iter_canonical_node_evidence_rows result)
       _canonical_node_evidence_row);
   (canonical_edge_evidence_family,
     _indexed canonical_edge_evidence_family stage_id (_iter_canonical_edge_evidence_rows result (edges_by_key result))
       _canonical_edge_evidence_row)].

(** [_close_family_rows] *)
Fixpoint _close_family_rows (rows : list stored_rows) : dio unit :=
  match rows with
  | [] => mret tt
  | Spooled s :: rest => _ ← close_spool s; _close_family_rows rest
  | Materialized _ :: rest => _close_family_rows rest
  end.

Definition prepared_families := list (StageFamilyDescriptor * prepared_family_rows).

Definition stored (families : prepared_families) : list stored_rows := (fun p => pf_rows p.2) <$> families.

(** [_family_rows]: families already prepared are closed when one fails. *)
Fixpoint _family_rows (done : prepared_families) (sources : list (StageFamilyDescriptor * list (stres pyval))) :
    dio prepared_families :=
  match sources with
  | [] => mret done
  | (descriptor, rows) :: rest =>
      p ← dio_on_error (measured PreparationEntered PreparationLeft (family descriptor) (_materialize_or_spool descriptor rows))
            (_close_family_rows (stored done));
      _family_rows (done ++ [(descriptor, p)]) rest
  end.

(** The receipt of a family: of the rows in memory, or the one taken while spooling. *)
Definition family_checksum (descriptor : StageFamilyDescriptor) (p : prepared_family_rows) : stres FamilyChecksum :=
  match pf_checksum p, pf_rows p with
  | Some c, _ => Ok c
  | None, Materialized rows => checksum_family ((fun row => Ok (without_stage_id row)) <$> rows) (lit <$> identity_columns descriptor)
  | None, Spooled _ => Err bad_shape (** a spool has its receipt *)
  end.

(** The receipt with its measurements. *)
Definition measured_checksum (descriptor : StageFamilyDescriptor) (p : prepared_family_rows) : stres FamilyChecksum :=
  let name := family descriptor in
  c ← match pf_checksum p with
      | Some _ => _ ← measure DurationRecorded name; family_checksum descriptor p
      | None =>
          _ ← measure ChecksumEntered name;
          let r := family_checksum descriptor p in
          _ ← measure ChecksumLeft name; r
      end;
  _ ← measure FamilyRecorded name;
  Ok c.

Record PreparedStageRows := MkPrepared {
  ps_family_rows : list (string * stored_rows);
  ps_checksums : list (string * FamilyChecksum);
  ps_row_counts : list (string * Z);
  ps_normalized_byte_counts : list (string * Z);
  ps_privacy_classifications : list (string * PrivacyClassification);
  ps_files : Z
}.

Definition close_prepared (p : PreparedStageRows) : dio unit := _close_family_rows (ps_family_rows p).*2.

(** What building may raise. *)
Inductive build_exn := Canonicalizing (e : cexn) | Staging (e : stage_exn).

Definition canonicalization_error_message (result : CanonicalizationResult) : pystr :=
  match join_with (lit "; ") (d_message <$>
          List.filter (fun d => bool_decide (d_severity d = lit "error")) (r_diagnostics result)) with
  | [] => lit "unknown canonicalization error"
  | messages => messages
  end.

(** Preparing the families and their receipts; on an error every spool is closed. *)
Definition prepare_families (sources : list (StageFamilyDescriptor * list (stres pyval))) (files : Z) :
    dio PreparedStageRows :=
  families ← _family_rows [] sources;
  checksums ← dio_on_error
    (dio_lift (mapM (fun p : StageFamilyDescriptor * prepared_family_rows =>
                 c ← measured_checksum p.1 p.2; Ok (family p.1, c)) families))
    (_close_family_rows (stored families));
  mret {| ps_family_rows := (fun p : StageFamilyDescriptor * prepared_family_rows => (family p.1, pf_rows p.2)) <$> families;
          ps_checksums := checksums;
          ps_row_counts := (fun kc : string * FamilyChecksum => (kc.1, fc_row_count kc.2)) <$> checksums;
          ps_normalized_byte_counts :=
            (fun kc : string * FamilyChecksum => (kc.1, fc_normalized_byte_count kc.2)) <$> checksums;
          ps_privacy_classifications := family_privacy_classifications;
          ps_files := files |}.

Definition build_staged_rows (observations : list RawObservation) (repository_name stage_id : pystr) (k : disk) :
    result build_exn PreparedStageRows * disk :=
  let file_rows := file_rows_from_observations observations in
  match canonicalize_observations observations (Some repository_name) with
  | Err e => (Err (Canonicalizing e), k)
  | Ok result =>
      if negb (r_ok result)
      then (Err (Staging (StorageSchemaError (lit "canonicalization failed: " ++ canonicalization_error_message result))), k)
      else
        match prepare_families (source_rows stage_id observations file_rows result) (Z.of_nat (length file_rows)) k with
        | (Ok p, k') => (Ok p, k')
        | (Err e, k') => (Err (Staging e), k')
        end
  end.

(** Iterating over the rows of a family. *)
Definition iter_stored (rows : stored_rows) : dio (list (stres pyval)) :=
  match rows with Materialized l => mret (Ok <$> l) | Spooled s => iter_spool float_of s end.
End Build.
