(* ===== verification/StagedRowsFacts.v ===== *)
(** The staged rows: they have the columns of their families and fit the digest; storing them
    in a spool is invisible to the receipts and to the digest; no spool outlives a failure. *)
From S2P Require Import Prelude Utf8 GraphKeys Sha256 PyVal Ordering Json PyDictFacts JsonFacts Observations.
From S2P Require Import ObservationsFacts CanonCore CanonState CanonInvariant CanonLogic CanonShared CanonGoModel.
From S2P Require Import CanonGoContext CanonDispatch CanonTheorems Limits ExternalSort ExternalSortFacts.
From S2P Require Import StructuralDigest StructuralDigestFacts StagingChecksums StagingChecksumsFacts RowSpool.
From S2P Require Import StagingFamilies StagedRows.
Open Scope Z_scope.

(** ** Shape *)

(** The columns before the adapter's. *)
Definition with_stage (sid : pystr) (i : nat) (payload : pydict) : pydict :=
  (lit "stage_id", VStr sid) :: (lit "family_ordinal", VInt (Z.of_nat i)) :: payload.

Lemma stage_file sid i r : _stage_row files_family sid i (_file_row r) = Ok (VDict (with_stage sid i (_file_row r))).
Proof. vm_compute. reflexivity. Qed.
Lemma stage_raw sid i r :
  _stage_row raw_observations_family sid i (_raw_row r) = Ok (VDict ((lit "stage_id", VStr sid) :: _raw_row r)).
Proof. vm_compute. reflexivity. Qed.
Lemma stage_node sid i r :
  _stage_row canonical_nodes_family sid i (_canonical_node_row r) = Ok (VDict (with_stage sid i (_canonical_node_row r))).
Proof. vm_compute. reflexivity. Qed.
Lemma stage_edge sid i r :
  _stage_row canonical_edges_family sid i (_canonical_edge_row r) = Ok (VDict (with_stage sid i (_canonical_edge_row r))).
Proof. vm_compute. reflexivity. Qed.
Lemma stage_evidence sid i r :
  _stage_row canonical_evidence_family sid i (_canonical_evidence_row r) =
  Ok (VDict (with_stage sid i (_canonical_evidence_row r))).
Proof. vm_compute. reflexivity. Qed.
Lemma stage_node_evidence sid i r :
  _stage_row canonical_node_evidence_family sid i (_canonical_node_evidence_row r) =
  Ok (VDict (with_stage sid i (_canonical_node_evidence_row r))).
Proof. vm_compute. reflexivity. Qed.
Lemma stage_edge_evidence sid i r :
  _stage_row canonical_edge_evidence_family sid i (_canonical_edge_evidence_row r) =
  Ok (VDict (with_stage sid i (_canonical_edge_evidence_row r))).
Proof. vm_compute. reflexivity. Qed.

(** ** Rows that fit the digest *)

(** The digest's view of a row: the values of its fields. *)
Definition project_row (code : pystr) (row : pyval) : sres pyval :=
  match row with
  | VDict d =>
      values ← mapM (fun field => match dict_get field d with Some v => Ok v | None => Err bad_prepared_row end)
                 (fields_of code);
      Ok (VTuple values)
  | _ => Err bad_prepared_row
  end.

(** The row has the fields, and a key of the right types. *)
Definition fits (code : pystr) (row : pyval) : Prop :=
  exists values key, project_row code row = Ok (VTuple values) /\
    _sort_key values (default [] (dict_get code _STRUCTURAL_DIGEST_ORDER_INDEXES))
      (default [] (dict_get code _STRUCTURAL_DIGEST_ORDER_TYPES)) = Ok key.

Ltac solve_fits := eexists _, _; split; vm_compute; reflexivity.

Lemma fits_file sid i r : fits (lit "files") (VDict (with_stage sid i (_file_row r))).
Proof. solve_fits. Qed.
Lemma fits_raw sid r : fits (lit "raw_observations") (VDict ((lit "stage_id", VStr sid) :: _raw_row r)).
Proof. solve_fits. Qed.
Lemma fits_node sid i r : fits (lit "canonical_nodes") (VDict (with_stage sid i (_canonical_node_row r))).
Proof. solve_fits. Qed.
Lemma fits_edge sid i r : fits (lit "canonical_edges") (VDict (with_stage sid i (_canonical_edge_row r))).
Proof. solve_fits. Qed.
Lemma fits_evidence sid i r : fits (lit "canonical_evidence") (VDict (with_stage sid i (_canonical_evidence_row r))).
Proof. solve_fits. Qed.
Lemma fits_node_evidence sid i r :
  fits (lit "canonical_node_evidence") (VDict (with_stage sid i (_canonical_node_evidence_row r))).
Proof. solve_fits. Qed.
Lemma fits_edge_evidence sid i r :
  fits (lit "canonical_edge_evidence") (VDict (with_stage sid i (_canonical_edge_evidence_row r))).
Proof. solve_fits. Qed.

(** ** What JSON does not keep *)

Lemma style_keys_norm st level (d : pydict) :
  Forall (fun kv => forall level, json_text st level (json_norm kv.2) = json_text st level kv.2) d ->
  json_text st level (json_norm (VDict d)) = json_text st level (VDict d).
Proof.
  intros IH. cbn [json_norm json_text]. f_equal. f_equal. rewrite !sort_items_map, sort_items_idem.
  rewrite <- list_fmap_compose. apply list_fmap_ext. intros i x Hx%list_elem_of_lookup_2. cbn. f_equal.
  rewrite Forall_forall in IH. apply IH. by rewrite <- (sort_items_perm d).
Qed.

(** Values that are the same JSON have the same text. *)
Lemma json_text_norm st level v : json_text st level (json_norm v) = json_text st level v.
Proof.
  revert level. induction v as [|b|n|t i|s|l IH|l IH|d IH] using pyval_ind'; intros level; try done.
  1, 2: cbn [json_norm json_text]; f_equal; rewrite <- list_fmap_compose; apply list_fmap_ext;
    intros i x Hx%list_elem_of_lookup_2; rewrite Forall_forall in IH; by apply IH.
  by apply style_keys_norm.
Qed.

(** What the digest makes of a row: a key and a text. *)
Definition staged_item (code : pystr) (row : pyval) : sres item := t ← project_row code row; item_of_row code t.

Lemma project_values code row values :
  project_row code row = Ok (VTuple values) ->
  exists d, row = VDict d /\ Forall2 (fun field v => dict_get field d = Some v) (fields_of code) values.
Proof.
  unfold project_row. destruct row as [| | | | | | |d]; try done. intros H. unbind H. injection H as ->.
  exists d. split; [done|]. apply mapM_Ok in H0. eapply Forall2_impl; [exact H0|]. intros field v. cbn.
  destruct (dict_get field d); [|done]. by intros [= ->].
Qed.

Lemma project_intro code d values :
  Forall2 (fun field v => dict_get field d = Some v) (fields_of code) values ->
  project_row code (VDict d) = Ok (VTuple values).
Proof.
  intros H. unfold project_row. apply bind_Ok. exists values. split; [|done]. apply mapM_Ok.
  eapply Forall2_impl; [exact H|]. intros field v. cbn. by intros ->.
Qed.

Lemma fits_item code row : fits code row -> exists x, staged_item code row = Ok x.
Proof.
  intros (values & key & Hp & Hk). exists (key, dumps compact_style (VTuple values)). unfold staged_item. rewrite Hp.
  cbn [mbind result_bind]. unfold item_of_row, row_item. cbn [row_values].
  apply project_values in Hp as (d & _ & Hv). rewrite <- (Forall2_length _ _ _ Hv), Nat.eqb_refl, Hk. done.
Qed.

Lemma project_norm code row values :
  clean_row row = true -> project_row code row = Ok (VTuple values) ->
  project_row code (json_norm row) = Ok (VTuple (json_norm <$> values)).
Proof.
  intros [Hc _]%clean_row_dict (d & -> & Hv)%project_values. apply clean_dict in Hc as [_ Hn]. cbn [json_norm].
  apply project_intro. rewrite Forall2_fmap_r. eapply Forall2_impl; [exact Hv|]. intros field v Hf. cbn.
  change ((fun kv : pystr * pyval => (kv.1, json_norm kv.2)) <$> d) with (norm_item <$> d).
  by rewrite dict_get_norm, Hf.
Qed.

Lemma project_clean code row t : clean_row row = true -> project_row code row = Ok t -> json_clean t = true.
Proof.
  intros [Hc _]%clean_row_dict Hp. assert (exists values, t = VTuple values) as [values ->].
  { unfold project_row in Hp. destruct row; try done. unbind Hp. injection Hp as <-. eauto. }
  apply project_values in Hp as (d & -> & Hv). apply clean_dict in Hc as [Hd _]. cbn [json_clean].
  apply forallb_forall. intros v Hin%list_elem_of_In. apply list_elem_of_lookup in Hin as [i Hi].
  destruct (Forall2_lookup_r _ _ _ _ _ Hv Hi) as (field & _ & Hf). rewrite Forall_forall in Hd.
  exact (proj2 (Hd (field, v) (dict_get_elem _ _ _ Hf))).
Qed.

Lemma staged_item_norm code row :
  clean_row row = true -> fits code row -> staged_item code (json_norm row) = staged_item code row.
Proof.
  intros Hc (values & key & Hp & Hk). unfold staged_item. rewrite (project_norm _ _ _ Hc Hp), Hp.
  cbn [mbind result_bind]. unfold item_of_row, row_item. cbn [row_values]. rewrite length_fmap.
  destruct (Nat.eqb _ _); [|done]. rewrite (sort_key_norm _ _ _ _ Hk), Hk. cbn [mbind result_bind]. do 2 f_equal.
  unfold dumps. cbn [json_text]. f_equal. rewrite <- list_fmap_compose. apply list_fmap_ext. intros i v _.
  apply json_text_norm.
Qed.

Lemma Forall2_impl_elem {A B} (P Q : A -> B -> Prop) l k :
  Forall2 P l k -> (forall x y, x ∈ l -> P x y -> Q x y) -> Forall2 Q l k.
Proof.
  induction 1 as [|x y l k Hp _ IH]; intros H; constructor; [apply H; [set_solver|done]|]. apply IH. set_solver.
Qed.

(** ** Families of the digest *)

(** The rows of a family all fit and are clean: the family is valid, and its texts in order
    are those of the rows' items. *)
Lemma family_of_rows f code rows xs :
  rows_of f code = Ok <$> rows -> forallb clean_row rows = true -> mapM (staged_item code) rows = Ok xs ->
  family_valid f code = true /\
  dumps compact_style <$> canonical_order f code = (sort_items_by_key xs).*2.
Proof.
  intros Hrows Hc Hm. rewrite forallb_forall in Hc.
  assert (exists ts, mapM (project_row code) rows = Ok ts /\ mapM (item_of_row code) ts = Ok xs) as (ts & Ht & Hx).
  { apply mapM_Ok in Hm. clear Hrows Hc. induction Hm as [|row x rows xs Hx _ IH]; [by exists []|].
    destruct IH as (ts & Ht & Hxs). unfold staged_item in Hx. unbind Hx. exists (x0 :: ts).
    rewrite mapM_Ok in Ht |- *. rewrite mapM_Ok in Hxs |- *. split; by constructor. }
  assert (projected f code = Ok ts) as Hp.
  { unfold projected. rewrite Hrows. unfold _project_prepared_rows. rewrite <- list_fmap_compose.
    apply mapM_Ok in Ht. apply mapM_Ok. rewrite Forall2_fmap_l. eapply Forall2_impl; [exact Ht|]. intros row t H. exact H. }
  assert (family_valid f code = true) as Hv.
  { unfold family_valid. rewrite Hp, Hx, andb_true_r. apply forallb_forall. intros t Hin%list_elem_of_In.
    apply list_elem_of_lookup in Hin as [i Hi]. apply mapM_Ok in Ht.
    destruct (Forall2_lookup_r _ _ _ _ _ Ht Hi) as (row & Hrow%list_elem_of_lookup_2 & Hpr).
    eapply project_clean; [|exact Hpr]. by apply Hc, list_elem_of_In. }
  split; [done|]. destruct (family_valid_items f code Hv) as (rs & items & Hpr & _ & Hi & <- & _).
  assert (rs = ts) as ->; [|congruence]. unfold projected in Hp. rewrite Hpr in Hp. apply mapM_id_Ok in Hp.
  clear -Hp. revert ts Hp. induction rs as [|r rs IH]; intros [|t ts] H; try done. cbn in H. injection H as ->.
  f_equal. by apply IH.
Qed.

Lemma staged_items_norm code rows xs :
  forallb clean_row rows = true -> Forall (fits code) rows ->
  mapM (staged_item code) (json_norm <$> rows) = Ok xs <-> mapM (staged_item code) rows = Ok xs.
Proof.
  intros Hc Hf. rewrite !mapM_Ok, Forall2_fmap_l. rewrite forallb_forall in Hc. rewrite Forall_forall in Hf.
  split; intros H; (eapply Forall2_impl_elem; [exact H|]); intros row x Hin Hx; cbn in *;
    [rewrite <- (staged_item_norm code row)|rewrite (staged_item_norm code row)]; auto; by apply Hc, list_elem_of_In.
Qed.

(** ** Storing *)

Section Storing.
Context {U : Unicode}.
Variable float_of : pystr -> pyval.
Variable host : staging_host.
Variable observer : option (string -> Z -> option exn).

(** New files have numbers not used. *)
Definition disk_ok (k : disk) : Prop := forall p, is_Some (dk_files k !! p) -> (p < dk_next k)%nat.

Definition spool_path (st : stored_rows) : list nat :=
  match st with Spooled s => if rs_closed s then [] else [rs_path s] | Materialized _ => [] end.

(** The disk after rows were stored: new files, which are those of open spools. *)
Record grown (k : disk) (paths : list nat) (k' : disk) : Prop := {
  gr_ok : disk_ok k';
  gr_next : (dk_next k <= dk_next k')%nat;
  gr_new p : p ∈ paths -> dk_files k !! p = None /\ (p < dk_next k')%nat;
  gr_old p : p ∉ paths -> dk_files k' !! p = dk_files k !! p
}.

Lemma grown_refl k : disk_ok k -> grown k [] k.
Proof. intros H. split; [done|done|set_solver|done]. Qed.

Lemma fresh_path k : disk_ok k -> dk_files k !! dk_next k = None.
Proof. intros H. destruct (dk_files k !! dk_next k) eqn:E; [|done]. specialize (H (dk_next k) ltac:(eauto)). lia. Qed.

(** Something that comes after the rows of a spool were written can raise. *)
Definition late_failure : Prop :=
  (exists content, is_ok (sg_blocks host content) = false) \/
  exists point f, point ∈ [SpoolTimed; SpoolLeft; PreparationLeft] /\ is_ok (measure host point f) = false.

(** What a failure leaves: nothing new, or one spool. *)
Definition left_over (k k' : disk) : Prop :=
  exists leaked, grown k leaked k' /\ (leaked = [] \/ late_failure /\ exists p, leaked = [p]).

Lemma nothing_left k k' : grown k [] k' -> left_over k k'.
Proof. intros H. exists []. split; [done|by left]. Qed.

Lemma spool_left k st k' : late_failure -> grown k (spool_path st) k' -> left_over k k'.
Proof.
  intros Hl Hg. exists (spool_path st). split; [done|]. destruct st as [|s]; [by left|]. cbn. destruct (rs_closed s); [by left|].
  right. eauto.
Qed.

Lemma measure_late point f x : point ∈ [SpoolTimed; SpoolLeft; PreparationLeft] -> measure host point f = Err x -> late_failure.
Proof. intros Hp E. right. exists point, f. by rewrite E. Qed.

Lemma from_rows_grown rows obs f k r k' :
  disk_ok k -> from_rows (sg_blocks host) rows obs (measure host SpoolTimed f) k = (r, k') ->
  match r with
  | Ok s => grown k [dk_next k] k' /\ rs_path s = dk_next k /\ rs_closed s = false
  | Err _ => left_over k k'
  end.
Proof.
  intros Hok H. pose proof (fresh_path k Hok) as Hfresh.
  destruct (from_rows_outcome (sg_blocks host) rows obs _ k r k' Hfresh H) as (Hnext & Hold & Hr).
  assert (grown k [dk_next k] k') as Hg.
  { split; [|lia| |].
    - intros p [x Hx]. destruct (decide (p = dk_next k)) as [->|Hne]; [lia|]. rewrite Hold in Hx by done.
      assert (p < dk_next k)%nat by (apply Hok; eauto). lia.
    - intros p ->%list_elem_of_singleton. split; [done|lia].
    - intros p Hp'. apply Hold. set_solver. }
  destruct r as [s|e]; [done|]. destruct Hr as [Hr|Hlate].
  - apply nothing_left. split; [|lia|set_solver|by rewrite Hr]. intros p Hp. rewrite Hr in Hp. apply Hok in Hp. lia.
  - exists [dk_next k]. split; [done|]. right. split; [|eauto]. destruct Hlate as [Ht|Hs]; [|by left].
    right. exists SpoolTimed, f. split; [set_solver|done].
Qed.

(** A measured step that fails in its body or when it is left. *)
Lemma measured_outcome {A} enter leave f (m : dio A) k r k' :
  measured host enter leave f m k = (r, k') ->
  match r with
  | Ok a => m k = (Ok a, k')
  | Err _ => k' = k \/ (exists e, m k = (Err e, k')) \/ exists a x, m k = (Ok a, k') /\ measure host leave f = Err x
  end.
Proof.
  unfold measured. destruct (measure host enter f) as [u0|x0]; [|intros [= <- <-]; by left]. destruct (m k) as [[a|e] k1].
  - destruct (measure host leave f) as [|x]; intros [= <- <-]; [done|]. right. right. eauto.
  - destruct (measure host leave f); intros [= <- <-]; right; left; eauto.
Qed.

(** Without the identity of the stage. *)
Lemma mapM_id_fmap {E A} (l : list A) : mapM id (Ok <$> l : list (result E A)) = Ok l.
Proof. apply mapM_Ok. rewrite Forall2_fmap_l. induction l; by constructor. Qed.

Lemma rows_with_checksum_Ok a rows rs :
  rows_with_checksum a rows = Ok <$> rs -> rows = Ok <$> rs.
Proof.
  revert a rs. induction rows as [|[row|e] rows IH]; intros a [|r rs]; try done; cbn [rows_with_checksum].
  - destruct (add a _); done.
  - destruct (add a (without_stage_id row)) as [a'|e]; cbn; [|done]. intros [= -> H]. cbn. by rewrite (IH _ _ H).
Qed.

Lemma append_rows_Ok obs path counts rows k counts' k' :
  append_rows obs path counts rows k = (Ok counts', k') -> exists rs, rows = Ok <$> rs.
Proof.
  revert counts k. induction rows as [|[row|e] rows IH]; intros counts k; cbn [append_rows].
  - intros _. by exists [].
  - rewrite dio_bind_eq. cbn [dio_lift]. rewrite dio_bind_eq.
    destruct (append_row obs path counts row k) as [[c|x] k1]; [|done]. intros [rs ->]%IH. by exists (row :: rs).
  - rewrite dio_bind_eq. done.
Qed.

Lemma from_rows_Ok blocks rows obs timing k s k' : from_rows blocks rows obs timing k = (Ok s, k') -> exists rs, rows = Ok <$> rs.
Proof. intros (c & b & E & _)%from_rows_written. by apply append_rows_Ok in E. Qed.

Lemma accumulated_checksum names a rs :
  new_accumulator names = Ok a ->
  (a ← accumulated a (Ok <$> rs); finish a) = checksum_family (Ok <$> (without_stage_id <$> rs)) names.
Proof.
  intros Ha. unfold checksum_family, accumulated. rewrite Ha. cbn [mbind result_bind]. f_equal. f_equal.
  rewrite <- !list_fmap_compose. done.
Qed.

Lemma grown_unlink k path l k' : grown k (path :: l) k' -> grown k l (unlink_file path k').2.
Proof.
  intros [Hok Hn Hnew Hold]. split; cbn; [|done|intros p Hp; apply Hnew; set_solver|].
  - intros p [x Hx]. apply Hok. cbn in Hx. destruct (decide (p = path)) as [->|Hne]; [by rewrite lookup_delete_eq in Hx|].
    rewrite lookup_delete_ne in Hx by done. eauto.
  - intros p Hp. destruct (decide (p = path)) as [->|Hne].
    + rewrite lookup_delete_eq. symmetry. apply Hnew. set_solver.
    + rewrite lookup_delete_ne by done. apply Hold. set_solver.
Qed.

Lemma close_open s k : rs_closed s = false -> (close_spool s k).2 = (unlink_file (rs_path s) k).2.
Proof. intros H. unfold close_spool. by rewrite H. Qed.

Lemma take_whole {A} n (l : list A) : (length (take (S n) l) <= n)%nat -> take (S n) l = l.
Proof. rewrite length_take. intros H. apply take_ge. lia. Qed.

Abbreviation store := (_materialize_or_spool host observer).

(** The rows a family holds, and its receipt. *)
Record stored_as (d : StageFamilyDescriptor) (rs : list pyval) (p : prepared_family_rows) (k : disk) : Prop := {
  sa_checksum : family_checksum d p = checksum_family (Ok <$> (without_stage_id <$> rs)) (lit <$> identity_columns d);
  sa_rows : forallb clean_row rs = true ->
    exists rs', iter_stored float_of (pf_rows p) k = (Ok (Ok <$> rs'), k) /\ (rs' = rs \/ rs' = json_norm <$> rs)
}.

(** The body of the phase around a spool. *)
Lemma spool_outcome d a rs0 obs k r k' :
  disk_ok k -> new_accumulator (lit <$> identity_columns d) = Ok a ->
  (s ← from_rows (sg_blocks host) (rows_with_checksum a rs0) obs (measure host SpoolTimed (family d));
   checksum ← dio_on_error (dio_lift (a ← accumulated a rs0; finish a)) (_ ← close_spool s; mret tt);
   mret (MkPreparedFamily (Spooled s) (Some checksum))) k = (r, k') ->
  match r with
  | Err _ => left_over k k'
  | Ok p => grown k (spool_path (pf_rows p)) k' /\ exists rs, rs0 = Ok <$> rs /\ stored_as d rs p k'
  end.
Proof.
  intros Hok Ha. rewrite dio_bind_eq.
  destruct (from_rows (sg_blocks host) (rows_with_checksum a rs0) obs _ k) as [[s|e] k1] eqn:Hf.
  2:{ pose proof (from_rows_grown _ _ _ _ _ _ Hok Hf) as Hg. cbn in Hg. by intros [= <- <-]. }
  destruct (from_rows_grown _ _ _ _ _ _ Hok Hf) as (Hg & Hp & Hcl).
  destruct (from_rows_Ok _ _ _ _ _ _ _ Hf) as [rs Hrs]. pose proof (rows_with_checksum_Ok _ _ _ Hrs) as ->.
  rewrite dio_bind_eq. unfold dio_on_error, dio_lift. rewrite (accumulated_checksum _ _ rs Ha).
  destruct (checksum_family (Ok <$> (without_stage_id <$> rs)) _) as [c|e] eqn:Hc.
  - intros [= <- <-]. cbn [pf_rows spool_path]. rewrite Hcl, Hp. split; [done|]. exists rs. split; [done|].
    split; [cbn [family_checksum pf_checksum]; by rewrite Hc|].
    intros Hclean. exists (json_norm <$> rs). split; [|by right]. cbn [iter_stored]. rewrite Hrs in Hf.
    by destruct (spool_reads float_of (sg_blocks host) rs obs _ k s k1 Hclean Hf).
  - intros [= <- <-]. apply nothing_left. rewrite dio_bind_eq. pose proof (close_open s k1 Hcl) as Hcs.
    destruct (close_spool s k1) as [[s'|x] k2]; cbn in Hcs |- *; subst k2; rewrite Hp; by apply grown_unlink.
Qed.

Lemma store_outcome d rows k r k' :
  disk_ok k -> store d rows k = (r, k') ->
  match r with
  | Err _ => left_over k k'
  | Ok p => grown k (spool_path (pf_rows p)) k' /\ exists rs, rows = Ok <$> rs /\ stored_as d rs p k'
  end.
Proof.
  intros Hok. pose proof (nothing_left k k (grown_refl k Hok)) as Hnone.
  unfold _materialize_or_spool. rewrite dio_bind_eq. unfold dio_lift at 1.
  destruct (mapM id (take (S _ROW_SPOOL_THRESHOLD) rows)) as [buffered|e] eqn:Hb; [|by intros [= <- <-]].
  apply mapM_id_Ok in Hb. destruct (Nat.leb_spec (length buffered) _ROW_SPOOL_THRESHOLD) as [Hle|Hgt].
  - intros [= <- <-]. cbn [pf_rows spool_path]. split; [by apply grown_refl|]. exists buffered. split.
    + rewrite <- Hb. symmetry. apply take_whole. by rewrite Hb, length_fmap.
    + split; [cbn [family_checksum pf_checksum pf_rows]; f_equal; by rewrite <- list_fmap_compose|].
      intros _. exists buffered. split; [done|by left].
  - rewrite dio_bind_eq. unfold dio_lift at 1.
    destruct (new_accumulator (lit <$> identity_columns d)) as [a|e] eqn:Ha; [|by intros [= <- <-]].
    intros H%measured_outcome. destruct r as [p|e]; [by apply (spool_outcome _ _ _ _ _ _ _ Hok Ha H)|].
    destruct H as [->|[[x Hx]|(p & x & Hp & Hx)]]; [done|by apply (spool_outcome _ _ _ _ _ _ _ Hok Ha Hx)|].
    destruct (spool_outcome _ _ _ _ _ _ _ Hok Ha Hp) as [Hg _]. eapply spool_left; [|exact Hg].
    eapply measure_late; [|exact Hx]. set_solver.
Qed.

Lemma preparation_outcome d rows k r k' :
  disk_ok k -> measured host PreparationEntered PreparationLeft (family d) (store d rows) k = (r, k') ->
  match r with
  | Err _ => left_over k k'
  | Ok p => grown k (spool_path (pf_rows p)) k' /\ exists rs, rows = Ok <$> rs /\ stored_as d rs p k'
  end.
Proof.
  intros Hok H%measured_outcome. destruct r as [p|e]; [by apply (store_outcome _ _ _ _ _ Hok H)|].
  destruct H as [->|[[x Hx]|(p & x & Hp & Hx)]]; [by apply nothing_left, grown_refl|by apply (store_outcome _ _ _ _ _ Hok Hx)|].
  destruct (store_outcome _ _ _ _ _ Hok Hp) as [Hg _]. eapply spool_left; [|exact Hg].
  eapply measure_late; [|exact Hx]. set_solver.
Qed.

(** ** All families *)

Lemma grown_more k0 l k more k' : grown k0 l k -> grown k more k' -> grown k0 (l ++ more) k'.
Proof.
  intros [O1 N1 W1 D1] [O2 N2 W2 D2]. split; [done|lia| |].
  - intros p [Hp|Hp]%elem_of_app; [destruct (W1 p Hp); split; [done|lia]|].
    destruct (W2 p Hp) as [Hnone Hlt]. split; [|done]. destruct (decide (p ∈ l)) as [Hl|Hl]; [by apply W1|].
    by rewrite <- (D1 p Hl).
  - intros p Hp. rewrite D2, D1 by set_solver. done.
Qed.

Lemma iter_frame st rows k more k' :
  iter_stored float_of st k = (Ok rows, k) -> grown k more k' -> iter_stored float_of st k' = (Ok rows, k').
Proof.
  intros H [_ _ Hnew Hold]. destruct st as [l|s]; cbn [iter_stored] in *; [by injection H as <-|].
  unfold iter_spool in *. destruct (rs_closed s); [done|]. rewrite dio_bind_eq in H |- *. cbn [dio_get] in *.
  destruct (dk_files k !! rs_path s) as [content|] eqn:E; [|done].
  rewrite Hold, E by (intros Hin%Hnew; destruct Hin; congruence).
  destruct (utf8_decode content); [|done]. by injection H as <-.
Qed.

Lemma stored_as_frame d rs p k more k' : stored_as d rs p k -> grown k more k' -> stored_as d rs p k'.
Proof.
  intros [Hc Hr] Hg. split; [done|]. intros Hcl. destruct (Hr Hcl) as (rs' & Hi & H). exists rs'. split; [|done].
  by eapply iter_frame.
Qed.

Lemma close_all_grown k0 sts rest k :
  grown k0 ((sts ≫= spool_path) ++ rest) k -> grown k0 rest (_close_family_rows sts k).2.
Proof.
  revert k. induction sts as [|st sts IH]; intros k Hg; [done|]. cbn [_close_family_rows mbind list_bind] in *.
  destruct st as [l|s]; cbn [spool_path app] in Hg; [by apply IH|].
  rewrite dio_bind_eq. unfold close_spool. destruct (rs_closed s); cbn [app] in Hg; [by apply IH|].
  rewrite dio_bind_eq. cbn [unlink_file]. apply IH. by apply grown_unlink in Hg.
Qed.

(** A family prepared from its source. *)
Definition prepared_from (k : disk) (source : StageFamilyDescriptor * list (stres pyval))
    (p : StageFamilyDescriptor * prepared_family_rows) : Prop :=
  source.1 = p.1 /\ exists rs, source.2 = Ok <$> rs /\ stored_as p.1 rs p.2 k.

Lemma prepared_from_frame k more k' l ps :
  grown k more k' -> Forall2 (prepared_from k) l ps -> Forall2 (prepared_from k') l ps.
Proof.
  intros Hg H. eapply Forall2_impl; [exact H|]. intros s p (E & rs & Hrs & Hst). split; [done|]. exists rs.
  split; [done|]. by eapply stored_as_frame.
Qed.

Lemma stored_snoc done d p : stored (done ++ [(d, p)]) ≫= spool_path = (stored done ≫= spool_path) ++ spool_path (pf_rows p).
Proof. unfold stored. rewrite fmap_app, bind_app. cbn. by rewrite app_nil_r. Qed.

Lemma families_outcome sources before done k0 k r k' :
  grown k0 (stored done ≫= spool_path) k -> Forall2 (prepared_from k) before done ->
  _family_rows host observer done sources k = (r, k') ->
  match r with
  | Err _ => left_over k0 k'
  | Ok families => grown k0 (stored families ≫= spool_path) k' /\ Forall2 (prepared_from k') (before ++ sources) families
  end.
Proof.
  revert before done k. induction sources as [|[d rows] sources IH]; intros before done k Hg Hdone; cbn [_family_rows].
  { intros [= <- <-]. by rewrite app_nil_r. }
  rewrite dio_bind_eq. unfold dio_on_error.
  destruct (measured host _ _ _ (store d rows) k) as [[p|e] k1] eqn:Hs;
    pose proof (preparation_outcome d rows k _ _ (gr_ok _ _ _ Hg) Hs) as Ho.
  - destruct Ho as (Hg1 & rs & Hrs & Hst). intros H.
    apply (IH (before ++ [(d, rows)])) in H.
    + destruct r; [by rewrite <- app_assoc in H|done].
    + rewrite stored_snoc. by eapply grown_more.
    + apply Forall2_app; [by eapply prepared_from_frame|]. constructor; [|constructor]. split; [done|]. by exists rs.
  - intros [= <- <-]. destruct Ho as (leaked & Hl & Hcause). exists leaked. split; [|done]. by eapply close_all_grown, grown_more.
Qed.
End Storing.

(** ** Storing succeeds *)

Section Total.
Context {U : Unicode}.
Variable st_blocks : list Z -> Z.

Lemma measured_quiet {A} enter leave f (m : dio A) k : measured (quiet_host st_blocks) enter leave f m k = m k.
Proof. unfold measured. cbn. by destruct (m k). Qed.

Lemma rows_with_checksum_total a rs a' :
  add_all a (Ok <$> (without_stage_id <$> rs)) = Ok a' -> rows_with_checksum a (Ok <$> rs) = Ok <$> rs.
Proof.
  revert a. induction rs as [|row rs IH]; intros a; [done|]. cbn [fmap list_fmap add_all rows_with_checksum mbind result_bind].
  destruct (add a (without_stage_id row)) as [a1|e]; [|done]. cbn. intros H. f_equal. by apply IH.
Qed.

Lemma store_total d rs c k :
  forallb clean_row rs = true ->
  checksum_family (Ok <$> (without_stage_id <$> rs)) (lit <$> identity_columns d) = Ok c ->
  exists p k', _materialize_or_spool (quiet_host st_blocks) None d (Ok <$> rs) k = (Ok p, k').
Proof.
  intros Hc Hsum. unfold _materialize_or_spool. rewrite dio_bind_eq. unfold dio_lift at 1.
  rewrite <- fmap_take, mapM_id_fmap. destruct (Nat.leb _ _); [by eexists _, _|].
  rewrite dio_bind_eq. unfold dio_lift at 1. pose proof Hsum as Hs. unfold checksum_family in Hs.
  destruct (new_accumulator (lit <$> identity_columns d)) as [a|e] eqn:Ha; [|done]. cbn [mbind result_bind] in Hs.
  destruct (add_all a _) as [a'|e] eqn:Hadd; [|done]. rewrite measured_quiet, dio_bind_eq, (rows_with_checksum_total _ _ _ Hadd).
  unfold from_rows. rewrite dio_bind_eq. cbn [mkstemp]. rewrite dio_bind_eq. unfold dio_on_error at 1.
  destruct (append_rows_total (dk_next k) rs (0, 0) (MkDisk (<[dk_next k := []]> (dk_files k)) (S (dk_next k))) Hc)
    as (counts & k1 & ->).
  rewrite dio_bind_eq. cbn [dio_lift measure quiet_host sg_measure].
  assert (exists s, stat_spool (sg_blocks (quiet_host st_blocks)) (dk_next k) counts k1 = (Ok s, k1)) as [s ->] by by eexists.
  rewrite dio_bind_eq. unfold dio_on_error, dio_lift.
  rewrite (accumulated_checksum _ _ rs Ha), Hsum. by eexists _, _.
Qed.

(** Every row is there and clean, and every family has a receipt. *)
Definition ready_source (s : StageFamilyDescriptor * list (stres pyval)) : Prop :=
  exists rs c, s.2 = Ok <$> rs /\ forallb clean_row rs = true /\
    checksum_family (Ok <$> (without_stage_id <$> rs)) (lit <$> identity_columns s.1) = Ok c.

Lemma families_total sources done k :
  Forall ready_source sources -> exists families k', _family_rows (quiet_host st_blocks) None done sources k = (Ok families, k').
Proof.
  intros H. revert done k. induction H as [|[d rows] sources (rs & c & Hrs & Hc & Hsum) _ IH]; intros done k; [by eexists _, _|].
  cbn in Hrs, Hsum. subst rows. cbn [_family_rows]. rewrite dio_bind_eq. unfold dio_on_error.
  rewrite measured_quiet. destruct (store_total d rs c k Hc Hsum) as (p & k1 & ->). apply IH.
Qed.
End Total.

(** What preparing the rows of a graph promises. *)


(** ** The rows of every family fit *)

Lemma indexed_elem {A} d sid (rs : list (stres A)) adapter row :
  Ok row ∈ _indexed d sid rs adapter -> exists i r, _stage_row d sid i (adapter r) = Ok row.
Proof.
  unfold _indexed. intros [i Hi]%list_elem_of_lookup. rewrite list_lookup_imap in Hi.
  destruct (rs !! i) as [[r|e]|]; try done. injection Hi as Hi. by exists i, r.
Qed.

(** A row with the columns of its family, which fits the digest. *)
Definition well_shaped (d : StageFamilyDescriptor) (row : pyval) : Prop :=
  fits (lit (family d)) row /\ exists items, row = VDict items /\ items.*1 = lit <$> copy_columns d.

Lemma indexed_shaped {A} d sid (rs : list (stres A)) adapter :
  (forall i r, exists row, _stage_row d sid i (adapter r) = Ok row /\ well_shaped d row) ->
  forall row, Ok row ∈ _indexed d sid rs adapter -> well_shaped d row.
Proof.
  intros Hs row (i & r & H)%indexed_elem. destruct (Hs i r) as (row' & H' & Hw). rewrite H in H'. by injection H' as ->.
Qed.

Lemma source_rows_shaped sid obs files r source :
  source ∈ source_rows sid obs files r -> forall row, Ok row ∈ source.2 -> well_shaped source.1 row.
Proof.
  revert source. cut (Forall (fun source => forall row, Ok row ∈ source.2 -> well_shaped source.1 row)
    (source_rows sid obs files r)); [rewrite Forall_forall; auto|]. unfold source_rows.
  repeat (apply Forall_cons; split; [apply indexed_shaped; intros i x|]); [..|by apply Forall_nil].
  - rewrite stage_file. eexists. split; [done|]. split; [apply fits_file|]. eexists. split; [done|]. reflexivity.
  - rewrite stage_raw. eexists. split; [done|]. split; [apply fits_raw|]. eexists. split; [done|]. reflexivity.
  - rewrite stage_node. eexists. split; [done|]. split; [apply fits_node|]. eexists. split; [done|]. reflexivity.
  - rewrite stage_edge. eexists. split; [done|]. split; [apply fits_edge|]. eexists. split; [done|]. reflexivity.
  - rewrite stage_evidence. eexists. split; [done|]. split; [apply fits_evidence|]. eexists. split; [done|]. reflexivity.
  - rewrite stage_node_evidence. eexists. split; [done|]. split; [apply fits_node_evidence|]. eexists. split; [done|]. reflexivity.
  - rewrite stage_edge_evidence. eexists. split; [done|]. split; [apply fits_edge_evidence|]. eexists. split; [done|]. reflexivity.
Qed.

Lemma source_codes sid obs files r code :
  code ∈ STRUCTURAL_DIGEST_FAMILY_CODES -> code ∈ (fun s => lit (family s.1)) <$> source_rows sid obs files r.
Proof.
  change ((fun s => lit (family s.1)) <$> source_rows sid obs files r) with (lit <$> (family <$> STAGING_FAMILY_DESCRIPTORS)).
  assert (forallb (fun code => bool_decide (code ∈ lit <$> (family <$> STAGING_FAMILY_DESCRIPTORS)))
    STRUCTURAL_DIGEST_FAMILY_CODES = true) as H by (vm_compute; reflexivity).
  rewrite forallb_forall in H. intros Hc%list_elem_of_In. by apply H, bool_decide_eq_true in Hc.
Qed.

(** ** Preparing *)

Section Prepare.
Context {U : Unicode}.
Variable float_of : pystr -> pyval.
Variable host : staging_host.
Variable observer : option (string -> Z -> option exn).

Abbreviation prepare := (prepare_families host observer).

Lemma measured_checksum_Ok d p c : measured_checksum host d p = Ok c -> family_checksum d p = Ok c.
Proof.
  unfold measured_checksum. intros (c0 & H & (u & _ & [= <-])%bind_Ok)%bind_Ok.
  destruct (pf_checksum p); apply bind_Ok in H as (u1 & _ & H); [done|]. by apply bind_Ok in H as (u2 & _ & H).
Qed.

Lemma checksums_Ok (families : prepared_families) cs :
  mapM (fun p : StageFamilyDescriptor * prepared_family_rows => c ← measured_checksum host p.1 p.2; Ok (family p.1, c)) families
    = Ok cs ->
  Forall2 (fun p kc => kc.1 = family p.1 /\ family_checksum p.1 p.2 = Ok kc.2) families cs.
Proof.
  intros H%mapM_Ok. eapply Forall2_impl; [exact H|]. intros p kc Hc. cbn in Hc. apply bind_Ok in Hc as (c & Hc%measured_checksum_Ok & [= <-]). done.
Qed.

Lemma prepare_outcome sources files k r k' :
  disk_ok k -> prepare sources files k = (r, k') ->
  match r with
  | Err _ => left_over host k k'
  | Ok p => grown k ((ps_family_rows p).*2 ≫= spool_path) k' /\
      exists families cs,
        Forall2 (prepared_from float_of k') sources families /\ ps_checksums p = cs /\
        Forall2 (fun p kc => kc.1 = family p.1 /\ family_checksum p.1 p.2 = Ok kc.2) families cs /\
        ps_family_rows p = (fun p : StageFamilyDescriptor * prepared_family_rows => (family p.1, pf_rows p.2)) <$> families
  end.
Proof.
  intros Hok. unfold prepare_families. rewrite dio_bind_eq.
  destruct (_family_rows host observer [] sources k) as [[families|e] k1] eqn:Hf;
    pose proof (families_outcome float_of host observer sources [] [] k k _ _ (grown_refl k Hok) (List.Forall2_nil _) Hf) as Ho.
  2:{ by intros [= <- <-]. }
  destruct Ho as [Hg Hfrom]. rewrite dio_bind_eq. unfold dio_on_error, dio_lift.
  destruct (mapM _ families) as [cs|e] eqn:Hm.
  - intros [= <- <-]. cbn. split; [by rewrite <- list_fmap_compose|]. exists families, cs. split_and!; [done|done| |done].
    by apply checksums_Ok.
  - intros [= <- <-]. apply nothing_left, close_all_grown. by rewrite app_nil_r.
Qed.

(** ** Reading back *)

Definition lift_row (r : stres pyval) : sres pyval :=
  match r with Ok v => Ok v | Err _ => Err (Raised (ValueError "staged row spool is invalid")) end.

(** What the digest reads of a family. *)
Definition read_stored (st : stored_rows) (k : disk) : list (sres pyval) :=
  match (iter_stored float_of st k).1 with
  | Ok rows => lift_row <$> rows
  | Err _ => [Err (Raised (RuntimeError "row spool is closed"))]
  end.
Definition read_prepared (p : PreparedStageRows) (k : disk) : prepared_rows :=
  (fun fs : string * stored_rows => (lit fs.1, read_stored fs.2 k)) <$> ps_family_rows p.

(** The rows as they were before they were stored. *)
Definition memory_entry (s : StageFamilyDescriptor * list (stres pyval)) : pystr * list (sres pyval) :=
  (lit (family s.1), lift_row <$> s.2).
Definition memory_rows (sources : list (StageFamilyDescriptor * list (stres pyval))) : prepared_rows :=
  memory_entry <$> sources.

Definition read_entry (k : disk) (p : StageFamilyDescriptor * prepared_family_rows) : pystr * list (sres pyval) :=
  (lit (family p.1), read_stored (pf_rows p.2) k).

Definition clean_sources (sources : list (StageFamilyDescriptor * list (stres pyval))) : bool :=
  forallb (fun s : StageFamilyDescriptor * list (stres pyval) =>
    forallb (fun r : stres pyval => match r with Ok row => clean_row row | Err _ => true end) s.2) sources.

(** Two families in which the digest sees the same items. *)
Definition same_items (code : pystr) (rows rows' : list (sres pyval)) : Prop :=
  exists rs rs' xs, rows = Ok <$> rs /\ rows' = Ok <$> rs' /\ forallb clean_row rs = true /\
    forallb clean_row rs' = true /\ mapM (staged_item code) rs = Ok xs /\ mapM (staged_item code) rs' = Ok xs.

Lemma fits_items code rs : Forall (fits code) rs -> exists xs, mapM (staged_item code) rs = Ok xs.
Proof.
  induction 1 as [|row rs Hf _ [xs IH]]; [by exists []|]. destruct (fits_item _ _ Hf) as [x Hx]. exists (x :: xs).
  apply mapM_Ok. apply mapM_Ok in IH. by constructor.
Qed.

Lemma lift_rows (rs : list pyval) : lift_row <$> (Ok <$> rs) = Ok <$> rs.
Proof. rewrite <- list_fmap_compose. done. Qed.

Lemma clean_row_norm row : clean_row row = true -> clean_row (json_norm row) = true.
Proof.
  intros H. pose proof (clean_row_dict row H) as [Hc [d ->]]. cbn [json_norm clean_row]. apply clean_dict in Hc as [Hd Hn].
  apply clean_dict. split.
  - rewrite sort_items_perm. apply Forall_fmap. eapply Forall_impl; [exact Hd|]. intros kv [H1 H2]. split; [done|].
    by apply json_clean_norm.
  - rewrite sort_items_perm, <- list_fmap_compose. exact Hn.
Qed.

Lemma clean_rows_norm rs : forallb clean_row rs = true -> forallb clean_row (json_norm <$> rs) = true.
Proof.
  rewrite !forallb_forall. intros H x Hx%list_elem_of_In. apply list_elem_of_fmap in Hx as (y & -> & Hy).
  by apply clean_row_norm, H, list_elem_of_In.
Qed.

(** A stored family reads as its source, as far as the digest goes. *)
Lemma stored_same_items k source p :
  (forall row, Ok row ∈ source.2 -> well_shaped source.1 row) ->
  forallb (fun r : stres pyval => match r with Ok row => clean_row row | Err _ => true end) source.2 = true ->
  prepared_from float_of k source p ->
  same_items (lit (family source.1)) (lift_row <$> source.2) (read_stored (pf_rows p.2) k).
Proof.
  intros Hshape Hc (E & rs & Hrs & [_ Hread]). rewrite Hrs in Hshape, Hc |- *.
  assert (forallb clean_row rs = true) as Hcl.
  { rewrite forallb_forall in Hc |- *. intros x Hx%list_elem_of_In. apply (Hc (Ok x)).
    by apply list_elem_of_In, list_elem_of_fmap_2. }
  assert (Forall (fits (lit (family source.1))) rs) as Hfit.
  { apply Forall_forall. intros row Hin. apply Hshape. by apply list_elem_of_fmap_2. }
  destruct (fits_items _ _ Hfit) as [xs Hxs]. destruct (Hread Hcl) as (rs' & Hi & Hrs').
  exists rs, rs', xs. unfold read_stored. rewrite Hi. cbn [fst]. rewrite !lift_rows. split_and!; [done|done|done| |done|].
  - destruct Hrs' as [->| ->]; [done|by apply clean_rows_norm].
  - destruct Hrs' as [->| ->]; [done|]. by apply staged_items_norm.
Qed.

(** Association lists with the same keys and related values. *)
Lemma dict_get_related {A B} (R : pystr -> A -> B -> Prop) (l : list (pystr * A)) (m : list (pystr * B)) code :
  Forall2 (fun x y => x.1 = y.1 /\ R x.1 x.2 y.2) l m ->
  match dict_get code l, dict_get code m with Some a, Some b => R code a b | None, None => True | _, _ => False end.
Proof.
  induction 1 as [|[k a] [k' b] l m [E H] _ IH]; cbn in *; [done|]. subst k'. case_bool_decide; [by subst|exact IH].
Qed.

Lemma same_items_digest f g code :
  code ∈ STRUCTURAL_DIGEST_FAMILY_CODES -> same_items code (rows_of f code) (rows_of g code) ->
  family_valid f code = true /\ family_valid g code = true /\ family_text f code = family_text g code.
Proof.
  intros Hcode (rs & rs' & xs & Hf & Hg & Hc & Hc' & Hx & Hx').
  destruct (family_of_rows f code rs xs Hf Hc Hx) as [Vf Tf]. destruct (family_of_rows g code rs' xs Hg Hc' Hx') as [Vg Tg].
  split_and!; [done|done|]. unfold family_text. by rewrite Tf, Tg.
Qed.

Lemma same_families f g :
  f.*1 = g.*1 -> list_to_set f.*1 =@{gset pystr} list_to_set STRUCTURAL_DIGEST_FAMILY_CODES ->
  (forall code, code ∈ STRUCTURAL_DIGEST_FAMILY_CODES -> same_items code (rows_of f code) (rows_of g code)) ->
  prepared_valid f = true /\ prepared_valid g = true /\
  dumps compact_style (whole_graph f) = dumps compact_style (whole_graph g).
Proof.
  intros Hk Hset Hs.
  assert (forall h, h.*1 = f.*1 -> (forall code, code ∈ STRUCTURAL_DIGEST_FAMILY_CODES -> family_valid h code = true) ->
    prepared_valid h = true) as Hv.
  { intros h Hh Hall. unfold prepared_valid. rewrite Hh, bool_decide_eq_true_2 by done. apply forallb_forall.
    intros code Hc%list_elem_of_In. by apply Hall. }
  split_and!.
  - apply Hv; [done|]. intros code Hc. by apply (same_items_digest f g code Hc), Hs.
  - apply Hv; [done|]. intros code Hc. by apply (same_items_digest f g code Hc), Hs.
  - rewrite !whole_graph_text. do 3 f_equal. apply list_fmap_ext. intros i code Hc%list_elem_of_lookup_2.
    by apply (same_items_digest f g code Hc), Hs.
Qed.

Lemma same_items_length code rows rows' : same_items code rows rows' -> length rows' = length rows.
Proof.
  intros (rs & rs' & xs & -> & -> & _ & _ & Hx & Hx'). apply mapM_Ok, Forall2_length in Hx, Hx'.
  rewrite !length_fmap. congruence.
Qed.

(** Prepared rows read from where they are stored are, to the digest, the rows in memory. *)
Lemma read_is_memory sid obs files r n k p k' :
  disk_ok k -> prepare (source_rows sid obs files r) n k = (Ok p, k') -> clean_sources (source_rows sid obs files r) = true ->
  let f := memory_rows (source_rows sid obs files r) in
  let g := read_prepared p k' in
  f.*1 = g.*1 /\
  (forall code, code ∈ STRUCTURAL_DIGEST_FAMILY_CODES -> same_items code (rows_of f code) (rows_of g code)).
Proof.
  intros Hok Hp Hc. cbn zeta. destruct (prepare_outcome _ _ _ _ _ Hok Hp) as (_ & families & cs & Hfrom & _ & _ & Hrows).
  assert (read_prepared p k' = read_entry k' <$> families) as ->.
  { unfold read_prepared. rewrite Hrows. by rewrite <- list_fmap_compose. }
  unfold memory_rows.
  assert (Forall2 (fun x y : pystr * list (sres pyval) => x.1 = y.1 /\ same_items x.1 x.2 y.2)
    (memory_entry <$> source_rows sid obs files r) (read_entry k' <$> families)) as Hrel.
  { rewrite Forall2_fmap. eapply Forall2_impl_elem; [exact Hfrom|]. intros s q Hin Hq.
    split; [cbn; by rewrite (proj1 Hq)|]. apply stored_same_items; [by eapply source_rows_shaped| |exact Hq].
    unfold clean_sources in Hc. rewrite forallb_forall in Hc. by apply Hc, list_elem_of_In. }
  split.
  - clear -Hrel. induction Hrel as [|x y l m [E _] _ IH]; [done|]. cbn. by rewrite E, IH.
  - intros code Hcode. unfold rows_of. pose proof (dict_get_related _ _ _ code Hrel) as H.
    assert (is_Some (dict_get code (memory_entry <$> source_rows sid obs files r))) as [a Ha].
    { apply dict_get_is_Some. rewrite <- list_fmap_compose. by apply source_codes. }
    rewrite Ha in H |- *. destruct (dict_get code (read_entry k' <$> families)) as [b|]; [exact H|done].
Qed.
End Prepare.

(** ** Rows ready to be staged *)

Section Ready.
Context {U : Unicode}.

(** All rows of a family are there, and JSON keeps them. *)
Definition clean_source (s : StageFamilyDescriptor * list (stres pyval)) : bool :=
  forallb (fun r : stres pyval => match r with Ok row => clean_row row | Err _ => false end) s.2.

Lemma clean_source_rows s : clean_source s = true -> exists rs, s.2 = Ok <$> rs /\ forallb clean_row rs = true.
Proof.
  unfold clean_source. destruct s as [d rows]. cbn [snd]. induction rows as [|[row|e] rows IH]; cbn; [by exists []| |done].
  intros [Hrow Hrows]%andb_true_iff. destruct (IH Hrows) as (rs & -> & Hc). exists (row :: rs). cbn. by rewrite Hrow.
Qed.

(** The texts by which the rows of a family are hashed. *)
Definition source_texts (s : StageFamilyDescriptor * list (stres pyval)) : stres (list (list Z * list Z)) :=
  rows ← mapM id s.2; mapM (row_texts (lit <$> identity_columns s.1)) (without_stage_id <$> rows).

(** The counts of the family fit their fields in the receipt. *)
Definition countable (s : StageFamilyDescriptor * list (stres pyval)) : bool :=
  match source_texts s with
  | Ok texts => (Z.of_nat (length texts) <? 2 ^ 64) &&
                (zsum ((fun t => Z.of_nat (length t.2) + 1) <$> texts) <? 2 ^ 128)
  | Err _ => true
  end.

Lemma without_stage_keys d columns :
  d.*1 = columns -> (List.filter (fun kv : pystr * pyval => negb (bool_decide (kv.1 = lit "stage_id"))) d).*1 =
    List.filter (fun c => negb (bool_decide (c = lit "stage_id"))) columns.
Proof.
  intros <-. generalize (lit "stage_id"). intros name. induction d as [|[k v] d IH]; [done|].
  cbn [List.filter fmap list_fmap fst]. destruct (negb _); cbn [fmap list_fmap fst]; by rewrite IH.
Qed.

Lemma without_stage_clean d : json_clean (VDict d) = true -> json_clean (without_stage_id (VDict d)) = true.
Proof.
  intros [Hd Hn]%clean_dict. apply clean_dict. split.
  - apply Forall_forall. intros kv Hkv%list_elem_of_In. apply filter_In in Hkv as [Hkv _]. rewrite Forall_forall in Hd.
    by apply Hd, list_elem_of_In.
  - rewrite (without_stage_keys d _ eq_refl). apply NoDup_ListNoDup, List.NoDup_filter. by apply NoDup_ListNoDup.
Qed.

Lemma identity_columns_kept d : d ∈ STAGING_FAMILY_DESCRIPTORS ->
  forall name, name ∈ lit <$> identity_columns d ->
  name ∈ List.filter (fun c => negb (bool_decide (c = lit "stage_id"))) (lit <$> copy_columns d).
Proof.
  intros Hd. assert (forallb (fun d => forallb (fun name =>
      bool_decide (name ∈ List.filter (fun c => negb (bool_decide (c = lit "stage_id"))) (lit <$> copy_columns d)))
      (lit <$> identity_columns d)) STAGING_FAMILY_DESCRIPTORS = true) as H by (vm_compute; reflexivity).
  rewrite forallb_forall in H. apply list_elem_of_In, H in Hd. rewrite forallb_forall in Hd.
  intros name Hn%list_elem_of_In. by apply Hd, bool_decide_eq_true in Hn.
Qed.

Lemma identity_columns_some d : d ∈ STAGING_FAMILY_DESCRIPTORS -> lit <$> identity_columns d <> [].
Proof.
  intros Hd. assert (forallb (fun d => negb (bool_decide (lit <$> identity_columns d = []))) STAGING_FAMILY_DESCRIPTORS = true)
    as H by (vm_compute; reflexivity).
  rewrite forallb_forall in H. apply list_elem_of_In, H, negb_true_iff, bool_decide_eq_false in Hd. done.
Qed.

Lemma shaped_texts d row :
  d ∈ STAGING_FAMILY_DESCRIPTORS -> well_shaped d row -> clean_row row = true ->
  exists t, row_texts (lit <$> identity_columns d) (without_stage_id row) = Ok t.
Proof.
  intros Hd (_ & items & -> & Hk) [Hc _]%clean_row_dict. apply row_texts_total; [by apply without_stage_clean|].
  intros name Hn. rewrite (without_stage_keys items _ Hk). by apply identity_columns_kept.
Qed.

Lemma ready s :
  s.1 ∈ STAGING_FAMILY_DESCRIPTORS -> (forall row, Ok row ∈ s.2 -> well_shaped s.1 row) ->
  clean_source s = true -> countable s = true -> ready_source s.
Proof.
  intros Hd Hshape Hc Hn. destruct (clean_source_rows s Hc) as (rs & Hrs & Hcl).
  assert (exists texts, mapM (row_texts (lit <$> identity_columns s.1)) (without_stage_id <$> rs) = Ok texts) as [texts Ht].
  { assert (Forall (fun row => exists t, row_texts (lit <$> identity_columns s.1) (without_stage_id row) = Ok t) rs) as H.
    { apply Forall_forall. intros row Hin. apply shaped_texts; [done| |].
      - apply Hshape. rewrite Hrs. by apply list_elem_of_fmap_2.
      - rewrite forallb_forall in Hcl. by apply Hcl, list_elem_of_In. }
    clear -H. induction H as [|row rs [t Ht] _ [ts IH]]; [by exists []|]. exists (t :: ts). apply mapM_Ok.
    apply mapM_Ok in IH. by constructor. }
  unfold countable, source_texts in Hn. rewrite Hrs, mapM_id_fmap in Hn. cbn [mbind result_bind] in Hn. rewrite Ht in Hn.
  apply andb_true_iff in Hn as [H1%Z.ltb_lt H2%Z.ltb_lt].
  destruct (receipt_exists (lit <$> identity_columns s.1) texts H1 H2) as (c & Hr & _). exists rs, c. split_and!; [done|done|].
  rewrite (checksum_family_receipt _ _ _ (identity_columns_some _ Hd) Ht). done.
Qed.

Lemma source_descriptors sid obs files r s : s ∈ source_rows sid obs files r -> s.1 ∈ STAGING_FAMILY_DESCRIPTORS.
Proof. intros H. apply (list_elem_of_fmap_2 fst) in H. exact H. Qed.
End Ready.

(** ** Building *)

Section Theorems.
Context {U : Unicode}.

(** What is staged of observations and their graph. *)
Definition staged_sources (sid : pystr) (observations : list RawObservation) (r : CanonicalizationResult) :
    list (StageFamilyDescriptor * list (stres pyval)) :=
  source_rows sid observations (file_rows_from_observations observations) r.

(** The rows of all families are there, clean, countable and few enough for the digest. *)
Definition stageable (sources : list (StageFamilyDescriptor * list (stres pyval))) : bool :=
  forallb (fun s => clean_source s && countable s && (Z.of_nat (length s.2) <? 32 ^ 4)) sources.

Lemma stageable_source sources s :
  stageable sources = true -> s ∈ sources ->
  clean_source s = true /\ countable s = true /\ Z.of_nat (length s.2) < 32 ^ 4.
Proof.
  unfold stageable. rewrite forallb_forall. intros H Hs%list_elem_of_In.
  apply H, andb_true_iff in Hs as [[H1 H2]%andb_true_iff H3%Z.ltb_lt]. done.
Qed.

Lemma stageable_clean sources : stageable sources = true -> clean_sources sources = true.
Proof.
  intros H. unfold clean_sources. apply forallb_forall. intros s Hs%list_elem_of_In.
  destruct (stageable_source _ _ H Hs) as (Hc & _ & _). unfold clean_source in Hc. rewrite forallb_forall in Hc |- *.
  intros x Hx. specialize (Hc x Hx). by destruct x.
Qed.

Lemma memory_rows_few sources code :
  stageable sources = true -> Z.of_nat (length (rows_of (memory_rows sources) code)) < 32 ^ 4.
Proof.
  intros H. unfold rows_of, memory_rows. destruct (dict_get code (memory_entry <$> sources)) as [rows|] eqn:E; [|done].
  apply dict_get_elem, list_elem_of_fmap in E as (s & [= _ ->] & Hs). cbn [default from_option id]. rewrite length_fmap.
  by apply (stageable_source _ _ H Hs).
Qed.

Lemma fmap_Ok_inj (l k : list pyval) : (Ok <$> l : list (stres pyval)) = Ok <$> k -> l = k.
Proof. revert k. induction l as [|x l IH]; intros [|y k]; try done. cbn. intros [= -> H]. f_equal. by apply IH. Qed.

Lemma prepare_total st_blocks sources n k :
  disk_ok k -> Forall ready_source sources -> exists p k', prepare_families (quiet_host st_blocks) None sources n k = (Ok p, k').
Proof.
  intros Hok Hr. unfold prepare_families. rewrite dio_bind_eq.
  destruct (families_total st_blocks sources [] k Hr) as (families & k1 & Hf). rewrite Hf.
  destruct (families_outcome (fun _ => VNone) (quiet_host st_blocks) None sources [] [] k k _ _ (grown_refl k Hok) (List.Forall2_nil _) Hf)
    as [_ Hfrom].
  assert (exists cs, mapM (fun p : StageFamilyDescriptor * prepared_family_rows =>
    c ← measured_checksum (quiet_host st_blocks) p.1 p.2; Ok (family p.1, c)) families = Ok cs) as [cs Hcs].
  { cbn [app] in Hfrom. clear Hf. induction Hfrom as [|s p sources families (E & rs & Hrs & Hst) _ IH]; [by exists []|].
    apply Forall_cons in Hr as [(rs' & c & Hrs' & _ & Hc) Hr]. destruct (IH Hr) as [cs Hcs]. exists ((family p.1, c) :: cs).
    apply mapM_Ok. apply mapM_Ok in Hcs. constructor; [|done].
    rewrite Hrs in Hrs'. apply fmap_Ok_inj in Hrs' as <-. unfold measured_checksum. cbn [measure quiet_host sg_measure mbind result_bind].
    assert (family_checksum p.1 p.2 = Ok c) as -> by (by rewrite (sa_checksum _ _ _ _ _ Hst), <- E). by destruct (pf_checksum p.2). }
  rewrite dio_bind_eq. unfold dio_on_error, dio_lift. rewrite Hcs. by eexists _, _.
Qed.

Lemma sources_ready sid obs r :
  stageable (staged_sources sid obs r) = true -> Forall ready_source (staged_sources sid obs r).
Proof.
  intros H. apply Forall_forall. intros s Hs. destruct (stageable_source _ _ H Hs) as (Hc & Hn & _).
  apply ready; [by eapply source_descriptors|by eapply source_rows_shaped|done|done].
Qed.

Lemma memory_codes sid obs r :
  list_to_set (memory_rows (staged_sources sid obs r)).*1 =@{gset pystr} list_to_set STRUCTURAL_DIGEST_FAMILY_CODES.
Proof.
  change ((memory_rows (staged_sources sid obs r)).*1) with (lit <$> (family <$> STAGING_FAMILY_DESCRIPTORS)).
  assert (bool_decide (list_to_set (lit <$> (family <$> STAGING_FAMILY_DESCRIPTORS)) =@{gset pystr}
    list_to_set STRUCTURAL_DIGEST_FAMILY_CODES) = true) as H by (vm_compute; reflexivity).
  by apply bool_decide_eq_true in H.
Qed.

(** C17. Staging a graph preserves it: when observations canonicalize without errors and their rows
    are clean, the rows are prepared, and the digest of the prepared rows, read back from
    memory or from the spools of families above the threshold, is the digest of the whole
    graph of the rows as they were made. *)
Theorem staged_graph_digest float_of iterencode st_blocks obs name sid r k :
  (forall v, writable v = true -> concat (iterencode v) = dumps compact_style v) ->
  canonicalize_observations obs (Some name) = Ok r -> r_ok r = true ->
  stageable (staged_sources sid obs r) = true -> disk_ok k ->
  exists p k', build_staged_rows (quiet_host st_blocks) None obs name sid k = (Ok p, k') /\
    forall w, (digest_prepared_stage_rows float_of iterencode (MkCallbacks None None None) (read_prepared float_of p k') w).1 =
      Ok (sha256_hex (dumps compact_style (whole_graph (memory_rows (staged_sources sid obs r))))).
Proof.
  intros Hit Hr Hrok Hs Hok.
  destruct (prepare_total st_blocks (staged_sources sid obs r) (Z.of_nat (length (file_rows_from_observations obs))) k Hok)
    as (p & k' & Hp); [by apply sources_ready|].
  exists p, k'. unfold build_staged_rows. rewrite Hr, Hrok. cbn [negb]. fold (staged_sources sid obs r). rewrite Hp.
  split; [done|]. intros w. pose proof (read_is_memory float_of (quiet_host st_blocks) None sid obs _ r _ k p k' Hok Hp (stageable_clean _ Hs)) as [Hk Hsame].
  fold (staged_sources sid obs r) in Hk, Hsame.
  destruct (same_families _ _ Hk (memory_codes sid obs r) Hsame) as (_ & Hv & ->).
  apply digest_without_callbacks; [done|done|]. intros code Hc.
  rewrite (same_items_length _ _ _ (Hsame code Hc)). by apply memory_rows_few.
Qed.

(** C20. No spool outlives its use: when rows were prepared, closing them leaves the files there
    were before; and so does a failure, of a row, of an observer or of a receipt.  The one
    exception is a failure that comes after a spool's rows were written, of [stat] or of the
    measurements around the spool: it may leave that one file. *)
Theorem staging_leaves_no_spool host observer obs name sid k r k' :
  disk_ok k -> build_staged_rows host observer obs name sid k = (r, k') ->
  match r with
  | Ok p => dk_files (close_prepared p k').2 = dk_files k
  | Err _ => dk_files k' = dk_files k \/
      late_failure host /\ exists path, dk_files k !! path = None /\ delete path (dk_files k') = dk_files k
  end.
Proof.
  intros Hok. unfold build_staged_rows. destruct (canonicalize_observations obs (Some name)) as [result|e];
    [|intros [= <- <-]; by left]. destruct (negb (r_ok result)); [intros [= <- <-]; by left|].
  destruct (prepare_families host observer _ _ k) as [[p|e] k1] eqn:Hp; intros [= <- <-];
    pose proof (prepare_outcome (fun _ => VNone) host observer _ _ _ _ _ Hok Hp) as Ho.
  - destruct Ho as [Hg _]. apply map_eq. intros q. apply (gr_old k [] _); [|set_solver]. apply close_all_grown. by rewrite app_nil_r.
  - destruct Ho as (leaked & Hg & [->|[Hl [q ->]]]); [left; apply map_eq; intros q; apply (gr_old _ _ _ Hg); set_solver|].
    right. split; [done|]. exists q. destruct (gr_new _ _ _ Hg q ltac:(set_solver)) as [Hq _]. split; [done|].
    apply map_eq. intros q'. destruct (decide (q' = q)) as [->|Hne]; [by rewrite lookup_delete_eq|].
    rewrite lookup_delete_ne by done. apply (gr_old _ _ _ Hg). set_solver.
Qed.
End Theorems.

(** ** Witnesses *)

Definition one_text (v : pyval) : list pystr := [dumps compact_style v].

(** The graph of the sample observations. *)
#[local] Abbreviation sample_graph := (canonicalize_observations (U := ascii_only) sample_observations (Some (lit "repo"))).

Lemma staged_graph_digest_witness :
  exists r p k', sample_graph = Ok r /\
    build_staged_rows (U := ascii_only) (quiet_host (fun _ => 8)) None sample_observations (lit "repo") (lit "stage") (MkDisk ∅ 0) = (Ok p, k') /\
    forall w, (digest_prepared_stage_rows (fun _ => VNone) one_text (MkCallbacks None None None)
                 (read_prepared (fun _ => VNone) p k') w).1 =
      Ok (sha256_hex (dumps compact_style (whole_graph (memory_rows (staged_sources (lit "stage") sample_observations r))))).
Proof.
  assert (match sample_graph with
          | Ok r => r_ok r && stageable (staged_sources (lit "stage") sample_observations r)
          | Err _ => false
          end = true) as H by (vm_compute; reflexivity).
  destruct sample_graph as [r|e] eqn:E; [|discriminate H]. apply andb_true_iff in H as [H1 H2].
  destruct (staged_graph_digest (U := ascii_only) (fun _ => VNone) one_text (fun _ => 8) sample_observations (lit "repo")
    (lit "stage") r (MkDisk ∅ 0) ltac:(intros v _; apply app_nil_r) E H1 H2) as (p & k' & Hp & Hd).
  { intros q [x Hx]. cbn in Hx. by rewrite lookup_empty in Hx. }
  exists r, p, k'. split; [done|]. split; [exact Hp|exact Hd].
Defined.

(** Files that are there before. *)
Definition busy_disk : disk := MkDisk {[ 0%nat := lit "kept" ]} 1.

(** Measurements that are interrupted when the edges have been prepared. *)
Definition interrupted_host : staging_host :=
  MkHost (fun _ => Ok 8) (Some (fun point f =>
    match point with
    | PreparationLeft => if String.eqb f "canonical_edges" then Some MaintenanceUnavailableError else None
    | _ => None
    end)).

#[local] Abbreviation sample_build host :=
  (build_staged_rows (U := ascii_only) host None sample_observations (lit "repo") (lit "stage") busy_disk).

Lemma staging_leaves_no_spool_witness :
  (exists p k', sample_build (quiet_host (fun _ => 8)) = (Ok p, k') /\ dk_files (close_prepared p k').2 = dk_files busy_disk) /\
  (exists e k', sample_build interrupted_host = (Err e, k') /\
     (dk_files k' = dk_files busy_disk \/ exists path, delete path (dk_files k') = dk_files busy_disk)).
Proof.
  assert (disk_ok busy_disk) as Hok.
  { intros q [x Hx]. cbn in *. apply lookup_singleton_Some in Hx as [<- _]. lia. }
  split.
  - destruct (sample_build (quiet_host (fun _ => 8))) as [[p|e] k'] eqn:E.
    + exists p, k'. split; [reflexivity|]. exact (staging_leaves_no_spool _ _ _ _ _ _ (Ok p) k' Hok E).
    + apply (f_equal (fun r => is_ok r.1)) in E. vm_compute in E. discriminate E.
  - destruct (sample_build interrupted_host) as [[p|e] k'] eqn:E.
    + apply (f_equal (fun r => is_ok r.1)) in E. vm_compute in E. discriminate E.
    + exists e, k'. split; [reflexivity|].
      destruct (staging_leaves_no_spool _ _ _ _ _ _ (Err e) k' Hok E) as [H|(_ & path & _ & H)]; [left; exact H|right; exists path; exact H].
Defined.
