(* ===== verification/Artifacts.v ===== *)
(** Canonical JSON and references of artifacts: [artifacts/_canonical.py] and
    [artifacts/references.py].

    A reference names immutable bytes by their digest; its locator says where they are kept
    and is no part of its identity. *)
From S2P Require Import Prelude Utf8 Sha256 PyVal Ordering Json PyDictFacts JsonFacts ObservationsFacts CanonCore Limits Regex.
From S2P Require Import ExternalSort ExternalSortFacts StagingChecksumsFacts StagingFamilies StagedRowsFacts.
Open Scope Z_scope.

(** ** Canonical JSON *)

(** [CanonicalEncodingError] *)
Definition encoding_error (message : string) : exn := ValueError message.

Fixpoint no_floats (value : pyval) : bool :=
  match value with
  | VFloat _ _ => false
  | VList l | VTuple l => forallb no_floats l
  | VDict d => forallb (fun kv : pystr * pyval => no_floats kv.2) d
  | _ => true
  end.

Definition _validate_value (value : pyval) : res unit :=
  if no_floats value then Ok tt else Err (encoding_error "floats are outside the canonical domain").

(** The text is ASCII. *)
Definition canonical_json (value : pyval) : res (list Z) :=
  _ ← _validate_value value;
  if writable value then Ok (dumps compact_style value ++ [10])
  else Err (encoding_error "value is not canonical JSON").

(** [object_pairs_hook], [parse_float] and [parse_constant]. *)
Definition canonical_hooks : json_hooks :=
  {| unique_keys := true; refuse_constants := true; refuse_floats := true |}.

Definition is_ascii (data : list Z) : bool := forallb (fun b => b <? 128) data.

Definition decode_canonical_json (data : list Z) : res pydict :=
  if negb (bool_decide (last data = Some 10)) then Err (encoding_error "canonical JSON must end with one LF")
  else
    let body := take (length data - 1) data in
    if negb (is_ascii body) then Err (encoding_error "canonical JSON is invalid")
    else
      match loads_hooked canonical_hooks (fun _ => VNone) body with
      | Err _ => Err (encoding_error "canonical JSON is invalid")
      | Ok (VDict value) =>
          _ ← _validate_value (VDict value);
          text ← canonical_json (VDict value);
          if bool_decide (text = data) then Ok value else Err (encoding_error "JSON bytes are not canonical")
      | Ok _ => Err (encoding_error "canonical JSON root must be an object")
      end.

Definition sha256_digest (data : list Z) : pystr := lit "sha256:" ++ sha256_hex data.
Definition prefixed_digest (prefix : pystr) (domain data : list Z) : pystr := prefix ++ sha256_hex (domain ++ [0] ++ data).

(** ** Locators *)

Section References.
Context {U : Unicode}.

Definition MAX_ARTIFACT_SIZE : Z := 2 ^ 63 - 1.
Definition MAX_LOCATOR_LENGTH : Z := 512.
Definition MAX_STORE_VERSION_LENGTH : Z := 128.
Definition MAX_MEDIA_TYPE_LENGTH : Z := 256.
Definition MAX_RECORD_FORMAT_LENGTH : Z := 128.

Definition _DIGEST_RE : re :=
  Cat (Cats ((fun c => Cls (fun x => x =? c)) <$> lit "sha256:")) (Times 64 (Cls (fun c => is_digit c || (97 <=? c) && (c <=? 102)))).
Definition _TOKEN_RE : re := Cat (Cls is_alnum) (Rep (fun c => is_alnum c || char_in c (lit "._+/-")) None).
Definition _VERSION_RE : re := Cat (Cls is_alnum) (Rep (fun c => is_alnum c || char_in c (lit "._-")) None).
Definition _LOCATOR_KINDS : list pystr := [lit "filesystem"; lit "object"].

(** [ValueError(f"invalid {field}")] *)
Definition invalid_field (field : string) : exn := ValueError ("invalid " +:+ field).

Definition _require_text (value : pyval) (field : string) (maximum : Z) : res pystr :=
  match value with
  | VStr s =>
      if bool_decide (s = []) || (maximum <? Z.of_nat (length s)) then Err (invalid_field field)
      else if existsb (fun c => (c <? 0x20) || (c =? 0x7f)) s then Err (invalid_field field)
      else Ok s
  | _ => Err (invalid_field field)
  end.

(** [_WINDOWS_ABSOLUTE_RE.match] *)
Definition windows_absolute (value : pystr) : bool :=
  match value with c :: d :: _ => (is_upper c || is_lower c) && (d =? 58) | _ => false end.

(** [casefold] of the six letters, which the Kelvin sign folds to as well. *)
Definition folds_to_bucket (part : pystr) : bool := bool_decide (fold_case <$> part = lit "bucket").

Definition _validate_locator_value (kind : pystr) (value : pystr) : res pystr :=
  value ← _require_text (VStr value) "locator" MAX_LOCATOR_LENGTH;
  if char_in 92 value || startswith (lit "/") value || startswith (lit "~") value || windows_absolute value
     || contains (lit "://") value || existsb (fun c => char_in c (lit ":?#@%")) value
  then Err (invalid_field "locator")
  else
    let parts := str_split 47 value in
    if existsb (fun part => bool_decide (part ∈ [[]; lit "."; lit ".."])) parts then Err (invalid_field "locator")
    else if bool_decide (kind = lit "object") && folds_to_bucket (default [] (head parts)) then Err (invalid_field "locator")
    else if existsb isspace value then Err (invalid_field "locator")
    else Ok value.

Definition _validate_store_version (value : option pystr) : res (option pystr) :=
  match value with
  | None => Ok None
  | Some value =>
      value ← _require_text (VStr value) "store version" MAX_STORE_VERSION_LENGTH;
      if fullmatch _VERSION_RE value then Ok (Some value) else Err (invalid_field "store version")
  end.

(** [ArtifactLocator], and its constructor with [__post_init__]. *)
Record ArtifactLocator := MkLocator { lo_kind : pystr; lo_value : pystr; lo_store_version : option pystr }.

Definition make_locator (kind value : pystr) (store_version : option pystr) : res ArtifactLocator :=
  if negb (bool_decide (kind ∈ _LOCATOR_KINDS)) then Err (invalid_field "locator kind")
  else
    value ← _validate_locator_value kind value;
    store_version ← _validate_store_version store_version;
    Ok (MkLocator kind value store_version).

Definition locator_to_mapping (l : ArtifactLocator) : pydict :=
  [(lit "kind", VStr (lo_kind l)); (lit "value", VStr (lo_value l))] ++
  match lo_store_version l with Some v => [(lit "store_version", VStr v)] | None => [] end.

(** [set(value) - allowed] is empty. *)
Definition only_keys (allowed : list string) (d : pydict) : bool :=
  forallb (fun k => bool_decide (k ∈ lit <$> allowed)) d.*1.

Definition mapping_get (k : string) (d : pydict) : pyval := default VNone (dict_get (lit k) d).

Definition locator_from_mapping (value : pyval) : res ArtifactLocator :=
  match value with
  | VDict d =>
      if negb (only_keys ["kind"; "value"; "store_version"] d) then Err (invalid_field "locator")
      else
        match mapping_get "kind" d, mapping_get "value" d, mapping_get "store_version" d with
        | VStr kind, VStr value, VStr version => make_locator kind value (Some version)
        | VStr kind, VStr value, VNone => make_locator kind value None
        | _, _, _ => Err (invalid_field "locator")
        end
  | _ => Err (invalid_field "locator")
  end.

(** ** References *)

(** [PrivacyClassification.value] *)
Definition privacy_value (p : PrivacyClassification) : pystr :=
  lit (match p with
       | PUBLIC => "public" | PRIVACY_SOURCE_INDEX => "source_index" | LEGACY_GRAPH => "legacy_graph"
       | RAW_SOURCE => "raw_source" | CANONICAL_GRAPH => "canonical_graph"
       | CANONICAL_PROVENANCE => "canonical_provenance"
       end).

Definition all_privacy : list PrivacyClassification :=
  [PUBLIC; PRIVACY_SOURCE_INDEX; LEGACY_GRAPH; RAW_SOURCE; CANONICAL_GRAPH; CANONICAL_PROVENANCE].

Definition _privacy (value : pyval) : res PrivacyClassification :=
  match value with
  | VStr s =>
      match List.find (fun p => bool_decide (privacy_value p = s)) all_privacy with
      | Some p => Ok p
      | None => Err (invalid_field "privacy classification")
      end
  | _ => Err (invalid_field "privacy classification")
  end.

Record ArtifactReference := MkReference {
  ar_content_digest : pystr;
  ar_size_bytes : Z;
  ar_media_type : pystr;
  ar_record_format : pystr;
  ar_privacy : PrivacyClassification;
  ar_locator : ArtifactLocator
}.

Definition digest_text (value : pyval) : res pystr :=
  match value with
  | VStr s => if fullmatch _DIGEST_RE s then Ok s else Err (invalid_field "content digest")
  | _ => Err (invalid_field "content digest")
  end.

Definition artifact_size (value : pyval) : res Z :=
  match value with
  | VInt n => if (n <? 0) || (MAX_ARTIFACT_SIZE <? n) then Err (invalid_field "artifact size") else Ok n
  | _ => Err (invalid_field "artifact size")
  end.

Definition token (value : pyval) (field : string) (maximum : Z) : res pystr :=
  s ← _require_text value field maximum;
  if fullmatch _TOKEN_RE s then Ok s else Err (invalid_field field).

(** The constructor with [__post_init__]. *)
Definition make_reference (content_digest size_bytes media_type record_format : pyval)
    (privacy : PrivacyClassification) (locator : ArtifactLocator) : res ArtifactReference :=
  digest ← digest_text content_digest;
  size ← artifact_size size_bytes;
  media_type ← token media_type "media type" MAX_MEDIA_TYPE_LENGTH;
  record_format ← token record_format "record format" MAX_RECORD_FORMAT_LENGTH;
  Ok (MkReference digest size media_type record_format privacy locator).

Definition ar_store_version (r : ArtifactReference) : option pystr := lo_store_version (ar_locator r).

Definition semantic_mapping (r : ArtifactReference) : pydict :=
  [(lit "content_digest", VStr (ar_content_digest r)); (lit "size_bytes", VInt (ar_size_bytes r));
   (lit "media_type", VStr (ar_media_type r)); (lit "record_format", VStr (ar_record_format r));
   (lit "privacy", VStr (privacy_value (ar_privacy r)))].

Definition reference_eq (r s : ArtifactReference) : bool :=
  py_eq (VDict (semantic_mapping r)) (VDict (semantic_mapping s)).

(** [__lt__] by the tuples. *)
Definition reference_compare (r s : ArtifactReference) : comparison :=
  lex2 (compare_by str_leb (ar_content_digest r) (ar_content_digest s))
    (lex2 (ar_size_bytes r ?= ar_size_bytes s)
      (lex2 (compare_by str_leb (ar_media_type r) (ar_media_type s))
        (lex2 (compare_by str_leb (ar_record_format r) (ar_record_format s))
          (compare_by str_leb (privacy_value (ar_privacy r)) (privacy_value (ar_privacy s)))))).
Definition reference_lt (r s : ArtifactReference) : bool :=
  match reference_compare r s with Lt => true | _ => false end.

Definition to_mapping (r : ArtifactReference) : pydict :=
  semantic_mapping r ++ [(lit "locator", VDict (locator_to_mapping (ar_locator r)))].
Definition to_public_mapping (r : ArtifactReference) : pydict := semantic_mapping r.

Definition SEMANTIC_FIELDS : list string := ["content_digest"; "size_bytes"; "media_type"; "record_format"; "privacy"].

Definition from_mapping (value : pyval) : res ArtifactReference :=
  match value with
  | VDict d =>
      if negb (only_keys (SEMANTIC_FIELDS ++ ["locator"])%list d) || negb (dict_has (lit "locator") d)
      then Err (invalid_field "artifact reference")
      else
        privacy ← _privacy (mapping_get "privacy" d);
        locator ← locator_from_mapping (mapping_get "locator" d);
        make_reference (mapping_get "content_digest" d) (mapping_get "size_bytes" d) (mapping_get "media_type" d) (mapping_get "record_format" d) privacy locator
  | _ => Err (invalid_field "artifact reference")
  end.

Definition _NEUTRAL_OBJECT_PREFIX : pystr := lit "tenant-neutral/".

Definition from_semantic_mapping (value : pyval) : res ArtifactReference :=
  match value with
  | VDict d =>
      if negb (only_keys SEMANTIC_FIELDS d) || negb (forallb (fun k => dict_has (lit k) d) SEMANTIC_FIELDS)
      then Err (invalid_field "semantic artifact reference")
      else
        digest ← digest_text (mapping_get "content_digest" d);
        privacy ← _privacy (mapping_get "privacy" d);
        locator ← make_locator (lit "object") (_NEUTRAL_OBJECT_PREFIX ++ drop 7 digest) None;
        make_reference (VStr digest) (mapping_get "size_bytes" d) (mapping_get "media_type" d) (mapping_get "record_format" d) privacy locator
  | _ => Err (invalid_field "artifact reference")
  end.

(** [dataclasses.replace] runs the constructors again. *)
Definition with_locator (r : ArtifactReference) (locator : ArtifactLocator) : res ArtifactReference :=
  make_reference (VStr (ar_content_digest r)) (VInt (ar_size_bytes r)) (VStr (ar_media_type r)) (VStr (ar_record_format r))
    (ar_privacy r) locator.
Definition with_store_version (r : ArtifactReference) (store_version : option pystr) : res ArtifactReference :=
  locator ← make_locator (lo_kind (ar_locator r)) (lo_value (ar_locator r)) store_version;
  with_locator r locator.

(** ** Facts *)

Lemma clean_no_floats v : json_clean v = true -> no_floats v = true.
Proof.
  induction v as [|b|n|t i|s|l IH|l IH|d IH] using pyval_ind'; cbn [json_clean no_floats]; try done.
  1, 2: rewrite !forallb_forall; rewrite Forall_forall in IH; intros H x Hx;
    apply IH; [by apply list_elem_of_In|auto].
  intros [H _]%andb_true_iff. rewrite forallb_forall in H |- *. rewrite Forall_forall in IH.
  intros kv Hkv. pose proof (H kv Hkv) as [_ Hv]%andb_true_iff. apply IH; [by apply list_elem_of_In|done].
Qed.

Lemma canonical_json_clean v : json_clean v = true -> canonical_json v = Ok (dumps compact_style v ++ [10]).
Proof.
  intros Hc. unfold canonical_json, _validate_value. rewrite (clean_no_floats v Hc), (json_clean_writable v Hc). done.
Qed.

Lemma take_snoc {A} (l : list A) x : take (length (l ++ [x]) - 1) (l ++ [x]) = l.
Proof. rewrite length_app. cbn [length]. replace (length l + 1 - 1)%nat with (length l) by lia. apply take_app_length. Qed.

Lemma decode_clean_json d :
  json_clean (VDict d) = true ->
  exists d', json_norm (VDict d) = VDict d' /\
    decode_canonical_json (dumps compact_style (VDict d) ++ [10]) = Ok d'.
Proof.
  intros Hc. eexists. split; [reflexivity|]. unfold decode_canonical_json. rewrite last_snoc, bool_decide_true by done.
  cbn [negb]. rewrite take_snoc.
  assert (is_ascii (dumps compact_style (VDict d)) = true) as ->.
  { pose proof (json_text_printable _ 0 _ compact_one_line Hc) as Hp. apply forallb_forall. intros b Hb%list_elem_of_In.
    unfold printable in Hp. rewrite Forall_forall in Hp. apply Hp in Hb. lia. }
  pose proof (loads_hooked_dumps canonical_hooks (fun _ => VNone) compact_style eq_refl (VDict d) [] Hc eq_refl) as Hl.
  rewrite app_nil_r in Hl. cbn [negb]. rewrite Hl. pose proof (json_clean_norm _ Hc) as Hn. cbn [json_norm] in Hn |- *.
  unfold _validate_value. rewrite (clean_no_floats _ Hn). cbn [mbind result_bind]. rewrite (canonical_json_clean _ Hn).
  cbn [mbind result_bind]. pose proof (json_text_norm compact_style 0 (VDict d)) as Ht. cbn [json_norm] in Ht.
  by rewrite bool_decide_true by (unfold dumps; by rewrite Ht).
Qed.

(** Every part of an accepted locator names an entry of its own. *)
Definition proper_part (part : pystr) : Prop := part <> [] /\ part <> lit "." /\ part <> lit "..".

Lemma require_text_Ok s field maximum t :
  _require_text (VStr s) field maximum = Ok t -> t = s /\ (0 < length s)%nat /\ Z.of_nat (length s) <= maximum.
Proof.
  unfold _require_text. intros H. unbind H. injection H as <-. apply orb_false_iff in Heqb as [Hn Hm].
  case_bool_decide; [done|]. split_and!; [done| |lia]. destruct s; [done|]. cbn. lia.
Qed.

Lemma locator_value_Ok kind v w :
  _validate_locator_value kind v = Ok w -> w = v /\ Forall proper_part (str_split 47 v).
Proof.
  unfold _validate_locator_value. intros H. unbind H. apply require_text_Ok in H0 as (-> & _ & _). injection H as <-.
  split; [done|]. apply Forall_forall. intros p Hp.
  assert (p ∉ [[]; lit "."; lit ".."]) as Hn.
  { intros Hin. apply not_true_iff_false in Heqb0. apply Heqb0, existsb_exists. exists p.
    split; [by apply list_elem_of_In|by apply bool_decide_eq_true]. }
  unfold proper_part. rewrite !not_elem_of_cons in Hn. naive_solver.
Qed.

Lemma store_version_Ok v w : _validate_store_version v = Ok w -> w = v.
Proof.
  unfold _validate_store_version. destruct v as [v|]; [|by intros [= <-]]. intros H. unbind H.
  apply require_text_Ok in H0 as (-> & _). by injection H as <-.
Qed.

Lemma make_locator_Ok kind value version l :
  make_locator kind value version = Ok l -> l = MkLocator kind value version /\ Forall proper_part (str_split 47 value).
Proof.
  unfold make_locator. intros H. unbind H. injection H as <-. apply locator_value_Ok in H0 as [-> Hp].
  by apply store_version_Ok in H1 as ->.
Qed.

(** A constructed locator and a constructed reference. *)
Definition valid_locator (l : ArtifactLocator) : Prop := make_locator (lo_kind l) (lo_value l) (lo_store_version l) = Ok l.
Definition valid_reference (r : ArtifactReference) : Prop := with_locator r (ar_locator r) = Ok r /\ valid_locator (ar_locator r).

Lemma make_locator_valid kind value version l : make_locator kind value version = Ok l -> valid_locator l.
Proof. intros H. pose proof (make_locator_Ok _ _ _ _ H) as [-> _]. done. Qed.

Lemma token_Ok v field maximum s : token v field maximum = Ok s -> v = VStr s.
Proof. unfold token. intros H. unbind H. destruct v; try done. apply require_text_Ok in H0 as (-> & _). by injection H as <-. Qed.

Lemma make_reference_valid d n t f p l r :
  make_reference d n t f p l = Ok r -> with_locator r (ar_locator r) = Ok r /\ ar_locator r = l.
Proof.
  intros H. pose proof H as H'. unfold make_reference in H. unbind H. injection H as <-. split; [|done].
  assert (d = VStr x) as Hd by (unfold digest_text in H0; destruct d; try done; unbind H0; by injection H0 as ->).
  assert (n = VInt x0) as Hn by (unfold artifact_size in H1; destruct n; try done; unbind H1; by injection H1 as ->).
  apply token_Ok in H2 as Ht, H3 as Hf. subst. exact H'.
Qed.

Lemma locator_from_mapping_valid v l : locator_from_mapping v = Ok l -> valid_locator l.
Proof.
  unfold locator_from_mapping. destruct v; try done. intros H. unbind H.
  destruct (mapping_get "kind" d), (mapping_get "value" d), (mapping_get "store_version" d); try done; by eapply make_locator_valid.
Qed.

Lemma privacy_roundtrip p : _privacy (VStr (privacy_value p)) = Ok p.
Proof. by destruct p. Qed.

Lemma from_mapping_valid v r : from_mapping v = Ok r -> valid_reference r.
Proof.
  unfold from_mapping. destruct v; try done. intros H. unbind H. apply make_reference_valid in H as [Hr Hl].
  split; [done|]. rewrite Hl. by eapply locator_from_mapping_valid.
Qed.

Lemma locator_roundtrip l : valid_locator l -> locator_from_mapping (VDict (locator_to_mapping l)) = Ok l.
Proof. destruct l as [k v [s|]]; intros H; exact H. Qed.

Lemma reference_reads r :
  from_mapping (VDict (to_mapping r)) =
  (privacy ← _privacy (VStr (privacy_value (ar_privacy r)));
   locator ← locator_from_mapping (VDict (locator_to_mapping (ar_locator r)));
   make_reference (VStr (ar_content_digest r)) (VInt (ar_size_bytes r)) (VStr (ar_media_type r)) (VStr (ar_record_format r))
     privacy locator).
Proof. reflexivity. Qed.

Lemma reference_reads_back r : valid_reference r -> from_mapping (VDict (to_mapping r)) = Ok r.
Proof.
  intros [Hr Hl]. rewrite reference_reads, privacy_roundtrip. cbn [mbind result_bind].
  rewrite locator_roundtrip by done. exact Hr.
Qed.

(** *** The neutral locator *)

Definition hex_class (c : Z) : bool := is_digit c || (97 <=? c) && (c <=? 102).

Lemma matches_times s p n i j :
  matches s (Times n (Cls p)) i j -> j = (i + n)%nat /\ Forall (fun c => p c = true) (take n (drop i s)).
Proof.
  revert i. induction n as [|n IH]; intros i; cbn [Times].
  - inversion 1; subst. split; [lia|constructor].
  - inversion 1 as [| | | |? ? ? k ? Ha Hb| | | |]; subst. inversion Ha as [|? ? c Hc Hp| | | | | | |]; subst.
    destruct (IH _ Hb) as [-> Hf]. split; [lia|]. rewrite (drop_S _ _ _ Hc). cbn [take]. by constructor.
Qed.

Lemma digest_shape s :
  fullmatch _DIGEST_RE s = true -> length s = 71%nat /\ Forall (fun c => hex_class c = true) (drop 7 s).
Proof.
  rewrite fullmatch_spec. unfold _DIGEST_RE. rewrite matches_cat. intros (k & Ha & Hb).
  assert (k = 7%nat) as ->.
  { clear -Ha. revert Ha. cbn. intros Ha.
    repeat match goal with
    | H : matches _ (Cat _ _) _ _ |- _ => inversion H; clear H; subst
    | H : matches _ (Cls _) _ _ |- _ => inversion H; clear H; subst
    | H : matches _ Eps _ _ |- _ => inversion H; clear H; subst
    end. reflexivity. }
  apply matches_times in Hb as [Hl Hf]. split; [lia|]. rewrite take_ge in Hf; [done|]. rewrite length_drop. lia.
Qed.

Lemma contains_head c needle s : contains (c :: needle) s = true -> c ∈ s.
Proof.
  induction s as [|d s IH]; cbn [contains startswith]; [done|]. intros [H|H]%orb_true_iff.
  - apply andb_true_iff in H as [->%Z.eqb_eq _]. apply elem_of_cons. by left.
  - apply elem_of_cons. right. auto.
Qed.

Lemma existsb_none {A} (p : A -> bool) l : Forall (fun x => p x = false) l -> existsb p l = false.
Proof. induction 1 as [|x l Hx _ IH]; cbn; [done|]. by rewrite Hx, IH. Qed.

(** Characters without a meaning of their own in a locator. *)
Definition plain_char (c : Z) : bool := (45 <=? c) && (c <=? 122) && negb (char_in c [58; 63; 64; 92]).

Lemma plain_char_facts c :
  plain_char c = true ->
  ((c <? 0x20) || (c =? 0x7f)) = false /\ c <> 92 /\ char_in c (lit ":?#@%") = false /\ isspace c = false.
Proof.
  unfold plain_char. intros [H Hn%negb_true_iff]%andb_true_iff. unfold char_in in *. rewrite bool_decide_eq_false in Hn.
  rewrite !not_elem_of_cons in Hn. split_and!; [lia|naive_solver| |unfold isspace; lia].
  apply bool_decide_eq_false. cbn. rewrite !not_elem_of_cons. split_and!; try lia. apply not_elem_of_nil.
Qed.

Lemma plain_prefix : Forall (fun c => plain_char c = true) _NEUTRAL_OBJECT_PREFIX.
Proof. vm_compute. repeat constructor. Qed.

Lemma hex_plain c : hex_class c = true -> plain_char c = true /\ c <> 47.
Proof.
  unfold hex_class, is_digit, plain_char. intros H. split; [|lia]. rewrite andb_true_iff, negb_true_iff. split; [lia|].
  apply bool_decide_eq_false. rewrite !not_elem_of_cons. split_and!; try lia. apply not_elem_of_nil.
Qed.

Lemma neutral_locator hex :
  length hex = 64%nat -> Forall (fun c => hex_class c = true) hex ->
  make_locator (lit "object") (_NEUTRAL_OBJECT_PREFIX ++ hex) None =
  Ok (MkLocator (lit "object") (_NEUTRAL_OBJECT_PREFIX ++ hex) None).
Proof.
  intros Hlen Hhex.
  assert (Forall (fun c => plain_char c = true) (_NEUTRAL_OBJECT_PREFIX ++ hex)) as Hp.
  { apply Forall_app_2; [apply plain_prefix|]. eapply Forall_impl; [exact Hhex|]. intros c Hc. by apply hex_plain. }
  assert (str_split 47 (_NEUTRAL_OBJECT_PREFIX ++ hex) = [lit "tenant-neutral"; hex]) as Hsplit.
  { change (_NEUTRAL_OBJECT_PREFIX ++ hex) with (lit "tenant-neutral" ++ 47 :: hex).
    rewrite str_split_app_no_sep by (apply (proj1 (bool_decide_eq_false (47 ∈ lit "tenant-neutral"))); vm_compute; reflexivity).
    rewrite str_split_no_sep; [done|]. rewrite Forall_forall in Hhex. intros H%Hhex%hex_plain. naive_solver. }
  unfold make_locator. change (bool_decide (lit "object" ∈ _LOCATOR_KINDS)) with true. cbn [negb].
  assert (_validate_locator_value (lit "object") (_NEUTRAL_OBJECT_PREFIX ++ hex) = Ok (_NEUTRAL_OBJECT_PREFIX ++ hex)) as ->;
    [|done].
  assert (forall p : Z -> bool, (forall c, plain_char c = true -> p c = false) ->
            existsb p (_NEUTRAL_OBJECT_PREFIX ++ hex) = false) as Hnone.
  { intros p Hpc. apply existsb_none. eapply Forall_impl; [exact Hp|]. auto. }
  unfold _validate_locator_value, _require_text.
  rewrite (Hnone _ (fun c Hc => proj1 (plain_char_facts c Hc))), length_app, Hlen.
  change (Z.of_nat (length _NEUTRAL_OBJECT_PREFIX + 64)) with 79. change (MAX_LOCATOR_LENGTH <? 79) with false.
  rewrite (bool_decide_false (_NEUTRAL_OBJECT_PREFIX ++ hex = [])) by done. cbn [orb mbind result_bind].
  rewrite Hsplit, (Hnone _ (fun c Hc => proj1 (proj2 (proj2 (plain_char_facts c Hc))))),
    (Hnone _ (fun c Hc => proj2 (proj2 (proj2 (plain_char_facts c Hc))))).
  assert (char_in 92 (_NEUTRAL_OBJECT_PREFIX ++ hex) = false) as ->.
  { apply bool_decide_eq_false. rewrite Forall_forall in Hp. intros H%Hp%plain_char_facts. naive_solver. }
  assert (contains (lit "://") (_NEUTRAL_OBJECT_PREFIX ++ hex) = false) as ->.
  { apply not_true_iff_false. intros H%contains_head. rewrite Forall_forall in Hp. by apply Hp in H. }
  change (startswith (lit "/") (_NEUTRAL_OBJECT_PREFIX ++ hex)) with false.
  change (startswith (lit "~") (_NEUTRAL_OBJECT_PREFIX ++ hex)) with false.
  change (windows_absolute (_NEUTRAL_OBJECT_PREFIX ++ hex)) with false. cbn [orb].
  rewrite existsb_none; [reflexivity|]. constructor; [reflexivity|]. constructor; [|constructor].
  apply bool_decide_eq_false. rewrite !not_elem_of_cons. split_and!; [intros ->; done..|apply not_elem_of_nil].
Qed.

(** *** Semantic mappings *)

Lemma semantic_reads r :
  from_semantic_mapping (VDict (semantic_mapping r)) =
  (digest ← digest_text (VStr (ar_content_digest r));
   privacy ← _privacy (VStr (privacy_value (ar_privacy r)));
   locator ← make_locator (lit "object") (_NEUTRAL_OBJECT_PREFIX ++ drop 7 digest) None;
   make_reference (VStr digest) (VInt (ar_size_bytes r)) (VStr (ar_media_type r)) (VStr (ar_record_format r)) privacy locator).
Proof. reflexivity. Qed.

Lemma valid_digest r : valid_reference r -> fullmatch _DIGEST_RE (ar_content_digest r) = true.
Proof. intros [H _]. unfold with_locator, make_reference, digest_text in H. unbind H. by unbind H0. Qed.

(** The neutral place of a digest. *)
Definition neutral (r : ArtifactReference) : ArtifactLocator :=
  MkLocator (lit "object") (_NEUTRAL_OBJECT_PREFIX ++ drop 7 (ar_content_digest r)) None.

Definition relocated (r : ArtifactReference) (l : ArtifactLocator) : ArtifactReference :=
  MkReference (ar_content_digest r) (ar_size_bytes r) (ar_media_type r) (ar_record_format r) (ar_privacy r) l.

Lemma with_locator_relocated r l : valid_reference r -> with_locator r l = Ok (relocated r l).
Proof.
  intros [H _]. unfold with_locator, make_reference in *. unbind H. rewrite H0, H1, H2, H3. cbn [mbind result_bind].
  destruct r. injection H as -> -> -> ->. done.
Qed.

Lemma semantic_reads_back r :
  valid_reference r -> from_semantic_mapping (VDict (semantic_mapping r)) = Ok (relocated r (neutral r)).
Proof.
  intros Hv. pose proof (valid_digest r Hv) as Hd. rewrite semantic_reads, privacy_roundtrip. cbn [digest_text].
  rewrite Hd. cbn [mbind result_bind]. destruct (digest_shape _ Hd) as [Hl Hh].
  rewrite neutral_locator; [|rewrite length_drop; lia|done]. cbn [mbind result_bind]. by apply with_locator_relocated.
Qed.

Lemma py_eq_str s : py_eq (VStr s) (VStr s) = true.
Proof. by apply bool_decide_eq_true. Qed.

Lemma reference_eq_iff r s : reference_eq r s = true <-> semantic_mapping r = semantic_mapping s.
Proof.
  assert (reference_eq r s = py_eq (VStr (ar_content_digest r)) (VStr (ar_content_digest s)) &&
    (py_eq (VInt (ar_size_bytes r)) (VInt (ar_size_bytes s)) &&
    (py_eq (VStr (ar_media_type r)) (VStr (ar_media_type s)) &&
    (py_eq (VStr (ar_record_format r)) (VStr (ar_record_format s)) &&
    (py_eq (VStr (privacy_value (ar_privacy r))) (VStr (privacy_value (ar_privacy s))) && true))))) as -> by reflexivity.
  cbn [py_eq number_of]. rewrite !andb_true_iff, !bool_decide_eq_true. unfold semantic_mapping. split.
  - intros (-> & Hn & -> & -> & -> & _). by injection Hn as ->.
  - intros [= -> -> -> -> ->]. done.
Qed.

(** ** Properties *)

(** The place a locator leads to from a directory, as the components of a path. *)
Definition resolve (root : list pystr) (value : pystr) : list pystr :=
  foldl (fun path part =>
    if bool_decide (part ∈ [[]; lit "."]) then path
    else if bool_decide (part = lit "..") then take (length path - 1) path
    else path ++ [part]) (if startswith (lit "/") value then [] else root) (str_split 47 value).

Lemma resolve_proper parts root :
  Forall proper_part parts ->
  foldl (fun path part =>
    if bool_decide (part ∈ [[]; lit "."]) then path
    else if bool_decide (part = lit "..") then take (length path - 1) path
    else path ++ [part]) root parts = root ++ parts.
Proof.
  intros H. revert root. induction H as [|p parts (H1 & H2 & H3) _ IH]; intros root; cbn [foldl]; [by rewrite app_nil_r|].
  rewrite bool_decide_false by (rewrite !elem_of_cons, elem_of_nil; naive_solver). rewrite bool_decide_false by done.
  rewrite IH. by rewrite <- app_assoc.
Qed.

(** C27. A locator stays in its store: from whatever directory, an accepted locator leads to a path
    strictly below it, and two accepted locators with different values lead to different paths. *)
Theorem locator_confined root l l' :
  valid_locator l -> valid_locator l' ->
  (exists below, below <> [] /\ resolve root (lo_value l) = root ++ below) /\
  (resolve root (lo_value l) = resolve root (lo_value l') -> lo_value l = lo_value l').
Proof.
  assert (Hr : forall l, valid_locator l -> resolve root (lo_value l) = root ++ str_split 47 (lo_value l)).
  { intros k Hk. pose proof (make_locator_Ok _ _ _ _ Hk) as [_ Hp]. unfold resolve.
    destruct (startswith (lit "/") (lo_value k)) eqn:Hs; [|by apply resolve_proper].
    exfalso. apply startswith_spec in Hs as (rest & Hs). rewrite Hs in Hp. cbn in Hp.
    inversion Hp as [|? ? [Hn _] _]; subst. by apply Hn. }
  intros Hl Hl'. rewrite (Hr l Hl), (Hr l' Hl'). split; [exists (str_split 47 (lo_value l)); split; [apply str_split_nonempty|done]|].
  intros E%app_inv_head. rewrite <- (str_join_split 47 (lo_value l)), E. apply str_join_split.
Qed.

(** C34. References survive the mappings: what [from_mapping] accepts is a valid reference, a valid
    reference is read back from its mapping, and from its public mapping a reference is read
    that is equal to it, whatever its place was, at the neutral place named by the digest;
    equality means the same public mapping. *)
Theorem reference_roundtrip :
  (forall v r, from_mapping v = Ok r -> valid_reference r) /\
  (forall r, valid_reference r -> from_mapping (VDict (to_mapping r)) = Ok r) /\
  (forall r, valid_reference r -> exists r', from_semantic_mapping (VDict (to_public_mapping r)) = Ok r' /\
     valid_reference r' /\ reference_eq r r' = true /\
     ar_locator r' = MkLocator (lit "object") (lit "tenant-neutral/" ++ drop (length (lit "sha256:")) (ar_content_digest r)) None) /\
  (forall r s, reference_eq r s = true <-> to_public_mapping r = to_public_mapping s).
Proof.
  split_and!; [apply from_mapping_valid|apply reference_reads_back| |apply reference_eq_iff].
  intros r Hr. exists (relocated r (neutral r)). split; [by apply semantic_reads_back|]. split; [|by split; [apply reference_eq_iff|]].
  destruct (digest_shape _ (valid_digest r Hr)) as [Hl Hh]. split.
  - exact (with_locator_relocated r (neutral r) Hr).
  - unfold valid_locator, relocated, neutral. cbn [ar_locator lo_kind lo_value lo_store_version].
    apply neutral_locator; [rewrite length_drop; lia|done].
Qed.

End References.

(** Canonical bytes are exact: what decodes is encoded to the same bytes, so that no two texts
    decode to the same object, and every clean object has an encoding that decodes to it (with
    lists for tuples and the keys in order). *)
Theorem canonical_bytes_exact :
  (forall data d, decode_canonical_json data = Ok d -> canonical_json (VDict d) = Ok data) /\
  (forall d, json_clean (VDict d) = true -> exists data d', canonical_json (VDict d) = Ok data /\
     json_norm (VDict d) = VDict d' /\ decode_canonical_json data = Ok d').
Proof.
  split.
  - intros data d H. unfold decode_canonical_json in H. unbind H. destruct (loads_hooked _ _ _) as [[]|]; try done.
    unbind H. injection H as ->. rewrite H1. apply bool_decide_eq_true in Heqb1. by rewrite Heqb1.
  - intros d Hc. destruct (decode_clean_json d Hc) as (d' & Hn & Hd). exists (dumps compact_style (VDict d) ++ [10]), d'.
    by rewrite canonical_json_clean.
Qed.

(** ** Witnesses *)

#[local] Existing Instance ascii_only.

#[local] Abbreviation sample_locator := (MkLocator (lit "filesystem") (lit "a/b.json") None).
#[local] Abbreviation sample_reference :=
  (MkReference (sha256_digest []) 0 (lit "application/json") (lit "bytes-v1") PUBLIC sample_locator).

Lemma locator_confined_witness :
  valid_locator sample_locator /\
  exists below, below <> [] /\ resolve [lit "srv"] (lo_value sample_locator) = [lit "srv"] ++ below.
Proof.
  assert (valid_locator sample_locator) as H by (vm_compute; reflexivity). split; [exact H|].
  exact (proj1 (locator_confined [lit "srv"] sample_locator sample_locator H H)).
Defined.

Lemma reference_roundtrip_witness :
  exists r', from_semantic_mapping (VDict (to_public_mapping sample_reference)) = Ok r' /\
    reference_eq sample_reference r' = true /\ ar_locator r' <> sample_locator.
Proof.
  assert (valid_reference sample_reference) as Hv by (split; vm_compute; reflexivity).
  destruct (proj1 (proj2 (proj2 reference_roundtrip)) sample_reference Hv) as (r' & Hr & _ & He & _).
  exists r'. split; [exact Hr|]. split; [exact He|]. vm_compute in Hr. injection Hr as <-. discriminate.
Defined.

Lemma canonical_bytes_exact_witness :
  exists data, canonical_json (VDict [(lit "b", VInt 2); (lit "a", VTuple [VNone])]) = Ok data /\
    decode_canonical_json data = Ok [(lit "a", VList [VNone]); (lit "b", VInt 2)].
Proof.
  destruct (proj2 canonical_bytes_exact [(lit "b", VInt 2); (lit "a", VTuple [VNone])]) as (data & d' & H1 & H2 & H3);
    [vm_compute; reflexivity|]. exists data. split; [exact H1|]. vm_compute in H2. injection H2 as <-. exact H3.
Defined.
