(* ===== verification/ArtifactStore.v ===== *)
(** Stores of artifacts: [artifacts/_store_common.py], [artifacts/_store_memory.py] and the
    verifying stream of [artifacts/_store_stream.py].

    An object is kept under the digest of its bytes with a version that is never used again.
    The stream over a file hands out bytes as it reads them and vouches for them only at the
    end; what [fstat] answers there is a parameter. *)
From S2P Require Import Prelude Utf8 Sha256 PyVal Ordering Json JsonFacts ObservationsFacts CanonCore Limits Regex StagingChecksums StagingChecksumsFacts.
From S2P Require Import StagingFamilies Artifacts.
Open Scope Z_scope.

(** ** Errors and content *)

Inductive ArtifactErrorCode :=
| ARTIFACT_MISSING | ARTIFACT_STALE | ARTIFACT_CORRUPT | ARTIFACT_BOUNDS | STORE_UNAVAILABLE | PERMISSION_DENIED
| WRITE_FAILED.

Inductive store_exn :=
| ArtifactIntegrityError (message : string) (code : ArtifactErrorCode)
| StoreError (x : exn).                                (** [ValueError], [TypeError] *)

Abbreviation sres := (result store_exn).

Definition of_res {A} (r : res A) : sres A := match r with Ok a => Ok a | Err x => Err (StoreError x) end.
Definition corrupt (message : string) : store_exn := ArtifactIntegrityError message ARTIFACT_CORRUPT.
Definition out_of_bounds : store_exn := ArtifactIntegrityError "artifact bounds exceeded" ARTIFACT_BOUNDS.

Definition DEFAULT_MAX_OBJECT_BYTES : Z := 4 * 1024 * 1024 * 1024.
Definition _DIGEST_PREFIX : pystr := lit "sha256:".

Definition _max_bytes (value : option Z) : sres Z :=
  let result := default DEFAULT_MAX_OBJECT_BYTES value in
  if result <? 0 then Err (StoreError (ValueError "max_bytes must be a non-negative integer"))
  else Ok (Z.min result MAX_ARTIFACT_SIZE).

(** Bytes; an iterable of chunks, [None] for one that is not bytes; neither. *)
Inductive artifact_content :=
| Bytes (b : list Z)
| ChunksOf (l : list (option (list Z)))
| NotBytes.

(** [_chunks], with an exception where the iterator raises it. *)
Definition _chunks (content : artifact_content) : list (sres (list Z)) :=
  match content with
  | Bytes b => [Ok b]
  | ChunksOf l =>
      l ≫= (fun chunk : option (list Z) =>
        match chunk with
        | None => [Err (StoreError (TypeError "artifact content chunks must be bytes"))]
        | Some [] => []
        | Some b => [Ok b]
        end)
  | NotBytes => [Err (StoreError (TypeError "artifact content must be bytes"))]
  end.

(** The pieces joined so far; the digest is that of the pieces. *)
Fixpoint materialize_loop (bound : Z) (pieces : list Z) (chunks : list (sres (list Z))) : sres (list Z) :=
  match chunks with
  | [] => Ok pieces
  | chunk :: rest =>
      chunk ← chunk;
      let pieces := pieces ++ chunk in
      if bound <? Z.of_nat (length pieces) then Err out_of_bounds else materialize_loop bound pieces rest
  end.

Definition _materialize (content : artifact_content) (max_bytes : option Z) : sres (list Z * pystr * Z) :=
  bound ← _max_bytes max_bytes;
  data ← materialize_loop bound [] (_chunks content);
  Ok (data, _DIGEST_PREFIX ++ sha256_hex data, Z.of_nat (length data)).

Definition _validate_requested_digest (value : option pystr) : sres unit :=
  match value with
  | None => Ok tt
  | Some value =>
      if negb (Nat.eqb (length value) (length _DIGEST_PREFIX + 64)) || negb (startswith _DIGEST_PREFIX value)
         || existsb (fun c => negb (char_in c (lit "0123456789abcdef"))) (drop (length _DIGEST_PREFIX) value)
      then Err (StoreError (ValueError "invalid content digest"))
      else Ok tt
  end.

(** ** [MemoryArtifactStore] *)

Record memory_object := MkObject { mo_content : list Z; mo_store_version : pystr }.
Record memory_store := MkStore { ms_objects : gmap pystr memory_object; ms_version_counter : Z }.

Definition empty_store : memory_store := MkStore ∅ 0.

Section Store.
Context {U : Unicode}.

Definition _locator (reference : ArtifactReference) : sres pystr :=
  let expected := _NEUTRAL_OBJECT_PREFIX ++ drop 7 (ar_content_digest reference) in
  if negb (bool_decide (lo_kind (ar_locator reference) = lit "object")) ||
     negb (bool_decide (lo_value (ar_locator reference) = expected))
  then Err (corrupt "artifact locator does not address its content")
  else Ok expected.

Definition read_object (s : memory_store) (reference : ArtifactReference) (max_bytes : option Z) : sres (list Z) :=
  key ← _locator reference;
  bound ← _max_bytes max_bytes;
  if bound <? ar_size_bytes reference then Err out_of_bounds
  else
    match ms_objects s !! key with
    | None => Err (ArtifactIntegrityError "missing artifact" ARTIFACT_MISSING)
    | Some value =>
        if match ar_store_version reference with
           | Some version => negb (bool_decide (version = mo_store_version value))
           | None => false
           end
        then Err (ArtifactIntegrityError "artifact store version is stale" ARTIFACT_STALE)
        else if negb (Z.of_nat (length (mo_content value)) =? ar_size_bytes reference)
        then Err (corrupt "artifact size does not match reference")
        else if negb (bool_decide (_DIGEST_PREFIX ++ sha256_hex (mo_content value) = ar_content_digest reference))
        then Err (corrupt "artifact digest does not match reference")
        else Ok (mo_content value)
    end.

(** With the store at the time of an exception. *)
Definition put_object (content : artifact_content) (content_digest : option pystr) (media_type record_format : pystr)
    (privacy : PrivacyClassification) (max_bytes : option Z) (s : memory_store) : sres ArtifactReference * memory_store :=
  match (_ ← _validate_requested_digest content_digest; _materialize content max_bytes) with
  | Err x => (Err x, s)
  | Ok (data, digest, length) =>
      if match content_digest with Some d => negb (bool_decide (d = digest)) | None => false end
      then (Err (corrupt "artifact digest does not match supplied digest"), s)
      else
        let key := _NEUTRAL_OBJECT_PREFIX ++ drop 7 digest in
        let existing := ms_objects s !! key in
        if match existing with Some e => negb (bool_decide (mo_content e = data)) | None => false end
        then (Err (corrupt "content-address collision"), s)
        else
          let '(version, counter) :=
            match existing with
            | Some e => (mo_store_version e, ms_version_counter s)
            | None => (lit "object-v" ++ str_of_int (ms_version_counter s + 1), ms_version_counter s + 1)
            end in
          let s1 := MkStore (ms_objects s) counter in
          match (locator ← of_res (make_locator (lit "object") key (Some version));
                 of_res (make_reference (VStr digest) (VInt length) (VStr media_type) (VStr record_format) privacy locator)) with
          | Err x => (Err x, s1)
          | Ok reference =>
              let s2 := match existing with
                        | Some _ => s1
                        | None => MkStore (<[key := MkObject data version]> (ms_objects s1)) counter
                        end in
              match read_object s2 reference max_bytes with
              | Err x => (Err x, s2)
              | Ok read => if bool_decide (read = data) then (Ok reference, s2)
                           else (Err (corrupt "read-after-write verification failed"), s2)
              end
          end
  end.

(** [verify] catches what [read] raises. *)
Definition verify_object (s : memory_store) (reference : ArtifactReference) (max_bytes : option Z) : bool :=
  match read_object s reference max_bytes with Ok _ => true | Err _ => false end.

Definition delete_object (reference : ArtifactReference) (s : memory_store) : sres bool * memory_store :=
  match _locator reference with
  | Err x => (Err x, s)
  | Ok key =>
      match ms_objects s !! key with
      | None => (Ok false, s)
      | Some _ =>
          match read_object s reference (Some (ar_size_bytes reference)) with
          | Err x => (Err x, s)
          | Ok _ => (Ok true, MkStore (delete key (ms_objects s)) (ms_version_counter s))
          end
      end
  end.

(** ** What is done to a store *)

Inductive store_op :=
| Put (content : artifact_content) (content_digest : option pystr) (media_type record_format : pystr)
    (privacy : PrivacyClassification) (max_bytes : option Z)
| Delete (reference : ArtifactReference).

Definition exec_store (o : store_op) (s : memory_store) : memory_store :=
  match o with
  | Put c d t f p m => (put_object c d t f p m s).2
  | Delete r => (delete_object r s).2
  end.

Definition exec_all (ops : list store_op) (s : memory_store) : memory_store := foldl (fun s o => exec_store o s) s ops.

(** ** Invariant *)

Definition object_key (data : list Z) : pystr := _NEUTRAL_OBJECT_PREFIX ++ sha256_hex data.
Definition version_text (n : Z) : pystr := lit "object-v" ++ str_of_int n.

Record store_ok (s : memory_store) : Prop := {
  so_counter : 0 <= ms_version_counter s;
  so_key : forall key o, ms_objects s !! key = Some o -> key = object_key (mo_content o);
  so_version : forall key o, ms_objects s !! key = Some o ->
    exists n, 1 <= n <= ms_version_counter s /\ mo_store_version o = version_text n
}.

(** Objects of a later store are those there were, or have later versions. *)
Record evolves (s s' : memory_store) : Prop := {
  ev_counter : ms_version_counter s <= ms_version_counter s';
  ev_object : forall key o, ms_objects s' !! key = Some o ->
    ms_objects s !! key = Some o \/
    exists n, ms_version_counter s < n <= ms_version_counter s' /\ mo_store_version o = version_text n
}.

Lemma evolves_refl s : evolves s s.
Proof. split; [lia|auto]. Qed.

Lemma evolves_trans s1 s2 s3 : evolves s1 s2 -> evolves s2 s3 -> evolves s1 s3.
Proof.
  intros [H1 H2] [H3 H4]. split; [lia|]. intros key o [Ho|(n & Hn & Hv)]%H4.
  - apply H2 in Ho as [Ho|(n & Hn & Hv)]; [by left|]. right. exists n. split; [lia|done].
  - right. exists n. split; [lia|done].
Qed.

Lemma version_inj n m : 1 <= n -> 1 <= m -> version_text n = version_text m -> n = m.
Proof.
  intros Hn Hm H%app_inv_head. pose proof (str_of_nat_digits n ltac:(lia)) as (ds & Hn1 & _ & Hn2 & _).
  pose proof (str_of_nat_digits m ltac:(lia)) as (es & Hm1 & _ & Hm2 & _). congruence.
Qed.

Lemma bound_self n : 0 <= n <= MAX_ARTIFACT_SIZE -> _max_bytes (Some n) = Ok n.
Proof.
  intros H. unfold _max_bytes. change (default _ (Some n)) with n. cbn zeta. replace (n <? 0) with false by lia. f_equal. lia.
Qed.

Lemma read_object_ok s r data v key :
  _locator r = Ok key -> ar_size_bytes r = Z.of_nat (length data) -> 0 <= ar_size_bytes r <= MAX_ARTIFACT_SIZE ->
  ar_content_digest r = sha256_digest data -> ar_store_version r = Some v ->
  ms_objects s !! key = Some (MkObject data v) -> read_object s r (Some (ar_size_bytes r)) = Ok data.
Proof.
  intros Hk Hs Hb Hd Hv Ho. unfold read_object. rewrite Hk, bound_self by done. cbn [mbind result_bind]. rewrite Z.ltb_irrefl.
  rewrite Ho, Hv. cbn [mo_content mo_store_version]. rewrite bool_decide_true by done. cbn [negb].
  rewrite (proj2 (Z.eqb_eq _ _)) by done. rewrite bool_decide_true by done. done.
Qed.

(** What a reference that names version [v] of [data] reads in a store. *)
Definition names (r : ArtifactReference) (data : list Z) (v : pystr) : Prop :=
  _locator r = Ok (object_key data) /\ ar_size_bytes r = Z.of_nat (length data) /\
  0 <= ar_size_bytes r <= MAX_ARTIFACT_SIZE /\ ar_content_digest r = sha256_digest data /\ ar_store_version r = Some v.

Lemma read_named s r data v :
  names r data v ->
  (forall o, ms_objects s !! object_key data = Some o -> mo_store_version o = v -> o = MkObject data v) ->
  read_object s r (Some (ar_size_bytes r)) =
  match ms_objects s !! object_key data with
  | None => Err (ArtifactIntegrityError "missing artifact" ARTIFACT_MISSING)
  | Some o => if bool_decide (mo_store_version o = v) then Ok data
              else Err (ArtifactIntegrityError "artifact store version is stale" ARTIFACT_STALE)
  end.
Proof.
  intros (Hk & Hs & Hb & Hd & Hv) Hsame. destruct (ms_objects s !! object_key data) as [o|] eqn:Ho.
  - case_bool_decide as E.
    + rewrite (Hsame o eq_refl E) in Ho. by eapply read_object_ok.
    + unfold read_object. rewrite Hk, bound_self by done. cbn [mbind result_bind]. rewrite Z.ltb_irrefl.
      rewrite Ho, Hv. by rewrite bool_decide_false by congruence.
  - unfold read_object. rewrite Hk, bound_self by done. cbn [mbind result_bind]. rewrite Z.ltb_irrefl. by rewrite Ho.
Qed.

(** *** Every operation keeps the store *)

Lemma materialize_Ok c m data digest n :
  _materialize c m = Ok (data, digest, n) -> digest = sha256_digest data /\ n = Z.of_nat (length data).
Proof. unfold _materialize. intros H. unbind H. by injection H as <- <- <-. Qed.

Lemma made_reference data n t f p v loc ref :
  make_locator (lit "object") (object_key data) (Some v) = Ok loc ->
  make_reference (VStr (sha256_digest data)) (VInt n) (VStr t) (VStr f) p loc = Ok ref ->
  n = Z.of_nat (length data) -> names ref data v.
Proof.
  intros Hl Hr ->. apply make_locator_Ok in Hl as [-> _]. unfold make_reference in Hr. unbind Hr. injection Hr as <-.
  cbn [digest_text] in *. unbind H. injection H as <-. unfold artifact_size in H0. unbind H0. injection H0 as <-.
  apply orb_false_iff in Heqb0 as [Hlo Hhi]. split_and!; [|done|cbn; lia|cbn; lia|done|done].
  unfold _locator. cbn [ar_locator lo_kind lo_value ar_content_digest].
  rewrite !bool_decide_true by done. done.
Qed.

Lemma store_ok_count s n : store_ok s -> ms_version_counter s <= n -> store_ok (MkStore (ms_objects s) n).
Proof.
  intros [H1 H2 H3] Hn. split; cbn [ms_objects ms_version_counter]; [lia|done|].
  intros key o Ho. destruct (H3 key o Ho) as (k & Hk & Hv). exists k. split; [lia|done].
Qed.

Lemma evolves_count s n : ms_version_counter s <= n -> evolves s (MkStore (ms_objects s) n).
Proof. intros Hn. split; cbn [ms_objects ms_version_counter]; [lia|auto]. Qed.

(** A new object under the next version. *)
Lemma store_insert s data :
  store_ok s ->
  let n := ms_version_counter s + 1 in
  let s' := MkStore (<[object_key data := MkObject data (version_text n)]> (ms_objects s)) n in
  store_ok s' /\ evolves s s'.
Proof.
  intros [H1 H2 H3] n s'. split; split; cbn [s' ms_objects ms_version_counter]; try lia; intros key o;
    rewrite lookup_insert_Some; intros [[<- <-]|[_ Ho]].
  - done.
  - by apply H2.
  - exists n. split; [lia|done].
  - destruct (H3 key o Ho) as (k & Hk & Hv). exists k. split; [lia|done].
  - right. exists n. split; [lia|done].
  - by left.
Qed.

(** The end of [put]: the reference is made and read back. *)
Lemma put_end data t f p v m s1 s2 r s' :
  match (locator ← of_res (make_locator (lit "object") (object_key data) (Some v));
         of_res (make_reference (VStr (sha256_digest data)) (VInt (Z.of_nat (length data))) (VStr t) (VStr f) p locator)) with
  | Err x => (Err x, s1)
  | Ok reference =>
      match read_object s2 reference m with
      | Err x => (Err x, s2)
      | Ok read => if bool_decide (read = data) then (Ok reference, s2)
                   else (Err (corrupt "read-after-write verification failed"), s2)
      end
  end = (r, s') ->
  (s' = s1 \/ s' = s2) /\ forall ref, r = Ok ref -> s' = s2 /\ names ref data v.
Proof.
  destruct (make_locator _ _ _) as [loc|x] eqn:Hl; cbn [of_res mbind result_bind]; [|intros [= <- <-]; by split; auto].
  destruct (make_reference _ _ _ _ _ _) as [ref|x] eqn:Hr; cbn [of_res]; [|intros [= <- <-]; by split; auto].
  destruct (read_object s2 ref m) as [b|x]; [|intros [= <- <-]; by split; auto].
  case_bool_decide; intros [= <- <-]; [|by split; auto]. split; [auto|]. intros ref' [= <-]. split; [done|].
  by eapply made_reference.
Qed.

Lemma put_outcome c d t f p m s r s' :
  store_ok s -> put_object c d t f p m s = (r, s') ->
  store_ok s' /\ evolves s s' /\
  forall ref, r = Ok ref -> exists data v n, _materialize c m = Ok (data, sha256_digest data, n) /\ names ref data v /\
    ms_objects s' !! object_key data = Some (MkObject data v).
Proof.
  intros Hok. unfold put_object.
  destruct (_ ← _validate_requested_digest d; _materialize c m) as [[[data digest] len]|x] eqn:Hm;
    [|intros [= <- <-]; split_and!; [done|apply evolves_refl|done]].
  assert (_materialize c m = Ok (data, digest, len)) as Hm'
    by (destruct (_validate_requested_digest d); [exact Hm|discriminate Hm]).
  destruct (materialize_Ok _ _ _ _ _ Hm') as [-> ->].
  change (_NEUTRAL_OBJECT_PREFIX ++ drop 7 (sha256_digest data)) with (object_key data).
  destruct (match d with Some d => _ | None => _ end); [intros [= <- <-]; split_and!; [done|apply evolves_refl|done]|].
  destruct (ms_objects s !! object_key data) as [e|] eqn:He.
  - case_bool_decide as Hc; cbn [negb]; [|intros [= <- <-]; split_and!; [done|apply evolves_refl|done]].
    destruct e as [content v]. cbn [mo_content mo_store_version] in *. subst content.
    assert (MkStore (ms_objects s) (ms_version_counter s) = s) as -> by by destruct s.
    intros [Hs' Href]%put_end. assert (s' = s) as -> by by destruct Hs'. split_and!; [done|apply evolves_refl|].
    intros ref Hr. destruct (Href ref Hr) as [_ Hn]. by exists data, v, (Z.of_nat (length data)).
  - change (lit "object-v" ++ str_of_int (ms_version_counter s + 1)) with (version_text (ms_version_counter s + 1)).
    cbn [ms_objects]. intros [Hs' Href]%put_end. pose proof (store_insert s data Hok) as [Hok2 Hev2].
    assert (store_ok s' /\ evolves s s') as [H1 H2].
    { destruct Hs' as [-> | ->]; [|done]. split; [apply store_ok_count; [done|lia]|apply evolves_count; lia]. }
    split_and!; [done|done|]. intros ref Hr. destruct (Href ref Hr) as [-> Hn].
    exists data, (version_text (ms_version_counter s + 1)), (Z.of_nat (length data)). split_and!; [done|done|].
    apply lookup_insert_eq.
Qed.

Lemma delete_outcome r s x s' : store_ok s -> delete_object r s = (x, s') -> store_ok s' /\ evolves s s'.
Proof.
  intros Hok. unfold delete_object. destruct (_locator r) as [key|e]; [|intros [= <- <-]; split; [done|apply evolves_refl]].
  destruct (ms_objects s !! key); [|intros [= <- <-]; split; [done|apply evolves_refl]].
  destruct (read_object _ _ _); intros [= <- <-]; [|split; [done|apply evolves_refl]].
  destruct Hok as [H1 H2 H3]. split; split; cbn [ms_objects ms_version_counter]; try lia; intros k o;
    rewrite lookup_delete_Some; intros [_ Ho]; eauto.
Qed.

Lemma exec_outcome o s : store_ok s -> store_ok (exec_store o s) /\ evolves s (exec_store o s).
Proof.
  intros Hok. destruct o as [c d t f p m|r]; cbn [exec_store].
  - destruct (put_object c d t f p m s) as [x s'] eqn:E. apply put_outcome in E as (H1 & H2 & _); auto.
  - destruct (delete_object r s) as [x s'] eqn:E. by apply delete_outcome in E.
Qed.

Lemma exec_all_outcome ops s : store_ok s -> store_ok (exec_all ops s) /\ evolves s (exec_all ops s).
Proof.
  unfold exec_all. revert s. induction ops as [|o ops IH]; intros s Hok; cbn [foldl]; [split; [done|apply evolves_refl]|].
  destruct (exec_outcome o s Hok) as [H1 H2]. destruct (IH _ H1) as [H3 H4]. split; [done|]. by eapply evolves_trans.
Qed.

Lemma empty_ok : store_ok empty_store.
Proof. split; [done|..]; intros key o H; cbn in H; by rewrite lookup_empty in H. Qed.

(** The version of an object is used for no other. *)
Lemma same_version s s' key data v o :
  store_ok s -> evolves s s' -> ms_objects s !! key = Some (MkObject data v) ->
  ms_objects s' !! key = Some o -> mo_store_version o = v -> o = MkObject data v.
Proof.
  intros Hok Hev Hd Ho Hv. destruct (so_version s Hok _ _ Hd) as (n & Hn & Hvn).
  apply (ev_object _ _ Hev) in Ho as [Ho|(k & Hk & Hvk)]; [congruence|]. cbn [mo_store_version] in Hvn.
  assert (n = k) by (apply version_inj; [lia|lia|]; by rewrite <- Hvn, <- Hvk). lia.
Qed.

(** C25. Artifacts are immutable: after any operations on a store, what a reference got from [put]
    reads is the bytes that were put, whose digest it carries; after any further operations it
    still reads these bytes or is refused as missing or stale, never anything else; and once
    refused, it is refused for ever, also when the same bytes are put again. *)
Theorem artifact_immutable ops c d t f p m r s1 :
  put_object c d t f p m (exec_all ops empty_store) = (Ok r, s1) ->
  exists data n, _materialize c m = Ok (data, ar_content_digest r, n) /\
    read_object s1 r (Some (ar_size_bytes r)) = Ok data /\
    forall more,
      match read_object (exec_all more s1) r (Some (ar_size_bytes r)) with
      | Ok b => b = data
      | Err (ArtifactIntegrityError _ code) => (code = ARTIFACT_MISSING \/ code = ARTIFACT_STALE) /\
          forall later, exists e, read_object (exec_all later (exec_all more s1)) r (Some (ar_size_bytes r)) = Err e
      | Err (StoreError _) => False
      end.
Proof.
  intros Hput. destruct (exec_all_outcome ops _ empty_ok) as [Hok0 _].
  apply put_outcome in Hput as (Hok & _ & Href); [|done]. destruct (Href r eq_refl) as (data & v & n & Hm & Hn & Ho).
  assert (Hsame : forall s o, evolves s1 s -> ms_objects s !! object_key data = Some o -> mo_store_version o = v ->
            o = MkObject data v) by (intros s o He; by apply (same_version s1)).
  assert (Hread : forall s, evolves s1 s -> read_object s r (Some (ar_size_bytes r)) = _)
    by (intros s He; exact (read_named s r data v Hn (fun o => Hsame s o He))).
  exists data, n. destruct Hn as (_ & _ & _ & Hd & _). rewrite Hd. split; [done|].
  split; [rewrite Hread by apply evolves_refl; rewrite Ho; by rewrite bool_decide_true|].
  intros more. destruct (exec_all_outcome more s1 Hok) as [Hok2 Hev2]. rewrite Hread by done.
  assert (Hgone : (forall o, ms_objects (exec_all more s1) !! object_key data = Some o -> mo_store_version o <> v) ->
    forall later, exists e, read_object (exec_all later (exec_all more s1)) r (Some (ar_size_bytes r)) = Err e).
  { intros Hno later. destruct (exec_all_outcome later _ Hok2) as [_ Hev3]. rewrite Hread by by eapply evolves_trans.
    destruct (ms_objects (exec_all later _) !! _) as [o|] eqn:Ho3; [|by eexists]. case_bool_decide as Hv; [|by eexists].
    exfalso. apply (ev_object _ _ Hev3) in Ho3 as [Ho3|(k & Hk & Hvk)]; [by eapply Hno|].
    destruct (so_version _ Hok _ _ Ho) as (i & Hi & Hvi). cbn [mo_store_version] in Hvi. pose proof (ev_counter _ _ Hev2).
    assert (k = i) by (apply version_inj; [lia|lia|]; by rewrite <- Hvi, <- Hvk). lia. }
  destruct (ms_objects (exec_all more s1) !! object_key data) as [o|] eqn:Ho2.
  - case_bool_decide as Hv; [done|]. split; [by right|]. apply Hgone. intros o' [= <-]. done.
  - split; [by left|]. by apply Hgone.
Qed.

End Store.

(** ** [VerifyingArtifactStream] *)

(** What [os.fstat] says of a file, as far as it is compared. *)
Record stat_result := MkStat {
  st_dev : Z; st_ino : Z; st_uid : Z; st_nlink : Z; st_mode : Z; st_mtime_ns : Z; st_size : Z
}.

Definition S_IMODE (mode : Z) : Z := Z.land mode 0xfff.

Definition _same_file_stat (before after : stat_result) : bool :=
  (st_dev before =? st_dev after) && (st_ino before =? st_ino after) && (st_uid before =? st_uid after)
  && (st_nlink before =? st_nlink after) && (S_IMODE (st_mode before) =? S_IMODE (st_mode after)).

(** ["{:x}".format(n)] of a natural number. *)
Fixpoint hex_digits (fuel : nat) (n : Z) (acc : pystr) : pystr :=
  match fuel with
  | O => acc
  | S fuel => let acc := hex_lower (n mod 16) :: acc in if n <? 16 then acc else hex_digits fuel (n / 16) acc
  end.
Definition hex_format (n : Z) : pystr := hex_digits (S (Z.to_nat (Z.log2 n))) n [].

Definition _file_version (details : stat_result) : pystr :=
  lit "fs-" ++ hex_format (st_dev details) ++ lit "-" ++ hex_format (st_ino details) ++ lit "-" ++
  hex_format (st_mtime_ns details) ++ lit "-" ++ hex_format (st_size details).

(** The bytes not yet read of the file, those hashed, and the stream's fields. *)
Record vstream := MkStream {
  vs_rest : list Z;
  vs_hashed : list Z;
  vs_bytes_read : Z;
  vs_eof : bool;
  vs_verified : bool;
  vs_closed : bool
}.

Definition fresh_stream (file : list Z) : vstream := MkStream file [] 0 false false false.

Section Stream.
Variables (reference : ArtifactReference) (bound : Z) (before_stat : stat_result) (expected_version : option pystr).
(** What [fstat] answers at the end; [None] when it raises. *)
Variable after_stat : option stat_result.

Definition vio (A : Type) : Type := vstream -> sres A * vstream.

Definition _verify_eof : vio unit := fun s =>
  if negb (vs_bytes_read s =? ar_size_bytes reference) then (Err (corrupt "artifact size does not match reference"), s)
  else if negb (bool_decide (_DIGEST_PREFIX ++ sha256_hex (vs_hashed s) = ar_content_digest reference))
  then (Err (corrupt "artifact digest does not match reference"), s)
  else
    match after_stat with
    | None => (Err (corrupt "artifact stat failed"), s)
    | Some after =>
        if negb (_same_file_stat before_stat after) then (Err (corrupt "artifact changed during read"), s)
        else if match expected_version with
                | Some v => negb (bool_decide (_file_version after = v))
                | None => false
                end
        then (Err (ArtifactIntegrityError "artifact store version is stale" ARTIFACT_STALE), s)
        else (Ok tt, MkStream (vs_rest s) (vs_hashed s) (vs_bytes_read s) (vs_eof s) true (vs_closed s))
    end.

Definition set_eof (s : vstream) : vstream :=
  MkStream (vs_rest s) (vs_hashed s) (vs_bytes_read s) true (vs_verified s) (vs_closed s).

Definition _check_and_update (chunk : list Z) : vio (list Z) := fun s =>
  match chunk with
  | [] =>
      if vs_eof s then (Ok [], s)
      else match _verify_eof s with
           | (Err x, s) => (Err x, s)
           | (Ok _, s) => (Ok [], set_eof s)
           end
  | _ =>
      let n := vs_bytes_read s + Z.of_nat (length chunk) in
      let s1 := MkStream (vs_rest s) (vs_hashed s) n (vs_eof s) (vs_verified s) (vs_closed s) in
      if bound <? n then (Err out_of_bounds, s1)
      else if ar_size_bytes reference <? n then (Err (corrupt "artifact size does not match reference"), s1)
      else (Ok chunk, MkStream (vs_rest s) (vs_hashed s ++ chunk) n (vs_eof s) (vs_verified s) (vs_closed s))
  end.

(** The file's own [read] and [readline]. *)
Definition advance (n : nat) (s : vstream) : vstream :=
  MkStream (drop n (vs_rest s)) (vs_hashed s) (vs_bytes_read s) (vs_eof s) (vs_verified s) (vs_closed s).
Definition raw_read (n : Z) (s : vstream) : list Z * vstream := (take (Z.to_nat n) (vs_rest s), advance (Z.to_nat n) s).
Fixpoint line_length (b : list Z) : nat :=
  match b with [] => 0 | c :: rest => if c =? 10 then 1 else S (line_length rest) end.
Definition raw_readline (n : Z) (s : vstream) : list Z * vstream :=
  let k := Nat.min (Z.to_nat n) (line_length (vs_rest s)) in (take k (vs_rest s), advance k s).

Definition closed_file : store_exn := StoreError (ValueError "I/O operation on closed file").

(** The loop of [read(-1)]; every turn but the last reads something. *)
Fixpoint read_all (fuel : nat) (chunks : list Z) : vio (list Z) := fun s =>
  match fuel with
  | O => (Ok chunks, s)
  | S fuel =>
      if vs_eof s then (Ok chunks, s)
      else
        let '(chunk, s) := raw_read (Z.max 1 (ar_size_bytes reference - vs_bytes_read s + 1)) s in
        match chunk with
        | [] => match _check_and_update [] s with (Err x, s) => (Err x, s) | (Ok _, s) => (Ok chunks, s) end
        | _ => match _check_and_update chunk s with
               | (Err x, s) => (Err x, s)
               | (Ok c, s) => read_all fuel (chunks ++ c) s
               end
        end
  end.

Definition stream_read (size : Z) : vio (list Z) := fun s =>
  if vs_closed s then (Err closed_file, s)
  else if size =? 0 then (Ok [], s)
  else if size <? 0 then read_all (S (S (length (vs_rest s)))) [] s
  else
    let remaining_bound := Z.max 0 (ar_size_bytes reference - vs_bytes_read s + 1) in
    let '(chunk, s) := raw_read (Z.min size remaining_bound) s in
    _check_and_update chunk s.

Definition stream_readline (size : Z) : vio (list Z) := fun s =>
  if vs_closed s then (Err closed_file, s)
  else
    let remaining_bound := Z.max 0 (ar_size_bytes reference - vs_bytes_read s + 1) in
    let '(chunk, s) := raw_readline (if size <? 0 then remaining_bound else Z.min size remaining_bound) s in
    _check_and_update chunk s.

(** [while self.read(65536): pass] *)
Fixpoint drain (fuel : nat) : vio unit := fun s =>
  match fuel with
  | O => (Ok tt, s)
  | S fuel =>
      match stream_read 65536 s with
      | (Err x, s) => (Err x, s)
      | (Ok [], s) => (Ok tt, s)
      | (Ok _, s) => drain fuel s
      end
  end.

Definition verify_complete : vio unit := fun s =>
  if vs_verified s then (Ok tt, s)
  else
    match drain (S (S (length (vs_rest s)))) s with
    | (Err x, s) => (Err x, s)
    | (Ok _, s) => if vs_verified s then (Ok tt, s) else (Err (corrupt "artifact stream verification incomplete"), s)
    end.

Definition stream_close (s : vstream) : vstream :=
  MkStream (vs_rest s) (vs_hashed s) (vs_bytes_read s) (vs_eof s) (vs_verified s) true.

(** [__exit__] without an exception in the body of the [with]. *)
Definition stream_exit : vio unit := fun s =>
  (if vs_verified s then Ok tt else Err (ArtifactIntegrityError "artifact stream verification incomplete" ARTIFACT_BOUNDS),
   stream_close s).

(** A client that reads, in any sizes, until something is raised. *)
Inductive stream_call := Read (size : Z) | ReadLine (size : Z).
Definition exec_call (c : stream_call) : vio (list Z) :=
  match c with Read n => stream_read n | ReadLine n => stream_readline n end.
Fixpoint exec_calls (calls : list stream_call) (out : list Z) : vio (list Z) := fun s =>
  match calls with
  | [] => (Ok out, s)
  | c :: rest =>
      match exec_call c s with
      | (Err x, s) => (Err x, s)
      | (Ok b, s) => exec_calls rest (out ++ b) s
      end
  end.

(** ** What the stream vouches for *)

Definition vouched (b : list Z) : Prop :=
  Z.of_nat (length b) = ar_size_bytes reference /\ sha256_digest b = ar_content_digest reference /\
  exists after, after_stat = Some after /\ _same_file_stat before_stat after = true /\
    forall v, expected_version = Some v -> _file_version after = v.

Record stream_ok (file out : list Z) (s : vstream) : Prop := {
  sk_file : out ++ vs_rest s = file;
  sk_hashed : vs_hashed s = out;
  sk_count : vs_bytes_read s = Z.of_nat (length out);
  sk_size : Z.of_nat (length out) <= ar_size_bytes reference;
  sk_eof : vs_eof s = vs_verified s;
  sk_open : vs_closed s = false;
  sk_verified : vs_verified s = true -> vouched out
}.

Lemma verify_eof_outcome s :
  vs_bytes_read s = Z.of_nat (length (vs_hashed s)) ->
  (vouched (vs_hashed s) /\
   _verify_eof s = (Ok tt, MkStream (vs_rest s) (vs_hashed s) (vs_bytes_read s) (vs_eof s) true (vs_closed s))) \/
  (~ vouched (vs_hashed s) /\ exists x, _verify_eof s = (Err x, s)).
Proof.
  intros Hn. unfold _verify_eof, vouched. rewrite Hn.
  destruct (Z.eqb_spec (Z.of_nat (length (vs_hashed s))) (ar_size_bytes reference)) as [Hs|Hs]; cbn [negb];
    [|right; split; [naive_solver|eauto]].
  change (_DIGEST_PREFIX ++ sha256_hex (vs_hashed s)) with (sha256_digest (vs_hashed s)).
  case_bool_decide as Hd; cbn [negb]; [|right; split; [naive_solver|eauto]].
  destruct after_stat as [after|]; [|right; split; [naive_solver|eauto]].
  destruct (_same_file_stat before_stat after) eqn:Hst; cbn [negb]; [|right; split; [naive_solver congruence|eauto]].
  destruct expected_version as [v|].
  - case_bool_decide as Hv; cbn [negb]; [|right; split; [naive_solver|eauto]]. left. split; [|done]. naive_solver.
  - left. split; [|done]. naive_solver.
Qed.

(** A chunk just read from the file is checked. *)
Lemma check_outcome file out chunk s :
  stream_ok file out s -> chunk `prefix_of` vs_rest s ->
  match _check_and_update chunk (advance (length chunk) s) with
  | (Ok b, s') => b = chunk /\ stream_ok file (out ++ chunk) s' /\ (chunk = [] -> vs_verified s' = true)
  | (Err _, _) => chunk = [] /\ ~ vouched out \/ chunk <> [] /\
      (bound < Z.of_nat (length (out ++ chunk)) \/ ar_size_bytes reference < Z.of_nat (length (out ++ chunk)))
  end.
Proof.
  intros Hok [rest Hrest]. pose proof Hok as [Hf Hh Hc Hs He Ho Hv]. unfold _check_and_update. destruct chunk as [|b chunk].
  - cbn [length]. unfold advance. cbn [vs_eof]. rewrite drop_0. replace (MkStream _ _ _ _ _ _) with s by by destruct s.
    rewrite app_nil_r. destruct (vs_eof s) eqn:E; [split_and!; [done|exact Hok|by rewrite <- He]|].
    destruct (verify_eof_outcome s) as [[Hg ->]|[Hg [x ->]]]; [by rewrite Hh|..|by left; rewrite <- Hh].
    split_and!; [done| |done]. rewrite Hh in Hg. by split; cbn.
  - set (ch := b :: chunk) in *. cbn [vs_bytes_read advance]. rewrite Hc.
    replace (Z.of_nat (length out) + Z.of_nat (length ch)) with (Z.of_nat (length (out ++ ch))) by (rewrite length_app; lia).
    destruct (Z.ltb_spec bound (Z.of_nat (length (out ++ ch)))); [by right; auto|].
    destruct (Z.ltb_spec (ar_size_bytes reference) (Z.of_nat (length (out ++ ch)))); [by right; auto|].
    assert (vs_verified s = false) as Hnv.
    { destruct (vs_verified s); [|done]. destruct (Hv eq_refl) as [Hl _]. rewrite length_app in *. cbn [ch length] in *. lia. }
    split_and!; [done| |done]. split; cbn [vs_rest vs_hashed vs_bytes_read vs_eof vs_verified vs_closed advance]; try done.
    + rewrite Hrest, drop_app_length, <- app_assoc, <- Hrest. done.
    + by rewrite Hh.
    + congruence.
Qed.

Lemma take_prefix (n : nat) (l : list Z) : take n l `prefix_of` l.
Proof. exists (drop n l). symmetry. apply take_drop. Qed.

Lemma advance_take n s : advance n s = advance (length (take n (vs_rest s))) s.
Proof.
  unfold advance. f_equal. rewrite length_take. destruct (Nat.min_spec n (length (vs_rest s))) as [[_ ->]|[Hl ->]]; [done|].
  rewrite !drop_ge by lia. done.
Qed.

(** A file that may be read to its end. *)
Definition readable_file (file : list Z) : Prop := vouched file /\ Z.of_nat (length file) <= bound.

(** The outcome of a call on a stream that has given out [out]: what it returns follows, and on a
    readable file it returns. *)
Definition continues (file out : list Z) (r : sres (list Z) * vstream) : Prop :=
  match r with
  | (Ok b, s) => stream_ok file (out ++ b) s
  | (Err _, _) => ~ readable_file file
  end.

Lemma within_file file out s chunk :
  stream_ok file out s -> chunk `prefix_of` vs_rest s -> (length (out ++ chunk) <= length file)%nat.
Proof.
  intros Hok [rest Hr]. rewrite <- (sk_file _ _ _ Hok), Hr, !length_app. lia.
Qed.

(** Reading a chunk, empty only at the end of the file. *)
Lemma chunk_continues file out s chunk :
  stream_ok file out s -> chunk `prefix_of` vs_rest s -> (chunk = [] -> vs_rest s = []) ->
  continues file out (_check_and_update chunk (advance (length chunk) s)).
Proof.
  intros Hok Hp He. pose proof (check_outcome file out chunk s Hok Hp) as H. pose proof (within_file _ _ _ _ Hok Hp) as Hw.
  unfold continues. destruct (_check_and_update _ _) as [[b|x] s']; [destruct H as (-> & H & _); exact H|].
  intros [Hv Hb]. destruct H as [[-> Hn]|[_ H]].
  - apply Hn. rewrite <- (sk_file _ _ _ Hok), He, app_nil_r in Hv by done. done.
  - destruct Hv as [Hl _]. lia.
Qed.

Lemma remaining_positive file out s : stream_ok file out s -> 1 <= Z.max 0 (ar_size_bytes reference - vs_bytes_read s + 1).
Proof. intros Hok. rewrite (sk_count _ _ _ Hok). pose proof (sk_size _ _ _ Hok). lia. Qed.

Lemma take_nil (n : nat) (l : list Z) : (0 < n)%nat -> take n l = [] -> l = [].
Proof. destruct n; [lia|]. by destruct l. Qed.

Lemma raw_read_continues file out s n :
  stream_ok file out s -> 1 <= n ->
  continues file out (let '(chunk, s) := raw_read n s in _check_and_update chunk s).
Proof.
  intros Hok Hn. unfold raw_read. rewrite advance_take. apply chunk_continues; [done|apply take_prefix|].
  apply take_nil. lia.
Qed.

Lemma line_length_pos b : b <> [] -> (0 < line_length b)%nat.
Proof. destruct b as [|c b]; [done|]. intros _. cbn. destruct (c =? 10); lia. Qed.

Lemma raw_readline_continues file out s n :
  stream_ok file out s -> 1 <= n ->
  continues file out (let '(chunk, s) := raw_readline n s in _check_and_update chunk s).
Proof.
  intros Hok Hn. unfold raw_readline. rewrite advance_take. apply chunk_continues; [done|apply take_prefix|].
  intros Ht. destruct (decide (vs_rest s = [])) as [|Hne]; [done|]. pose proof (line_length_pos _ Hne).
  apply take_nil in Ht; [done|lia].
Qed.

(** The loop reads on to the end of the file. *)
Lemma read_all_continues fuel file out acc s :
  stream_ok file out s -> (S (length (vs_rest s)) < fuel)%nat ->
  match read_all fuel acc s with
  | (Ok b, s') => exists new, b = acc ++ new /\ stream_ok file (out ++ new) s' /\ vs_verified s' = true
  | (Err _, _) => ~ readable_file file
  end.
Proof.
  revert out acc s. induction fuel as [|fuel IH]; intros out acc s Hok Hf; [lia|]. cbn [read_all].
  destruct (vs_eof s) eqn:E.
  { exists []. rewrite !app_nil_r. split_and!; [done|done|]. by rewrite <- (sk_eof _ _ _ Hok). }
  set (n := Z.max 1 _). unfold raw_read. rewrite advance_take.
  assert (take (Z.to_nat n) (vs_rest s) `prefix_of` vs_rest s) as Hp by apply take_prefix.
  assert (take (Z.to_nat n) (vs_rest s) = [] -> vs_rest s = []) as Hnil by (apply take_nil; lia).
  generalize dependent (take (Z.to_nat n) (vs_rest s)). intros chunk Hp Hnil.
  pose proof (check_outcome file out chunk s Hok Hp) as Hc. pose proof (chunk_continues file out s chunk Hok Hp Hnil) as Hk.
  destruct chunk as [|b0 chunk0] eqn:Hchunk.
  - destruct (_check_and_update [] _) as [[c|x] s']; [|exact Hk]. destruct Hc as (_ & Hs & Hv).
    exists []. rewrite app_nil_r in Hs |- *. split_and!; [done|by rewrite app_nil_r|auto].
  - rewrite <- Hchunk in *. assert (0 < length chunk)%nat as Hpos by (rewrite Hchunk; cbn; lia). clear Hchunk.
    destruct (_check_and_update chunk _) as [[c|x] s']; [|exact Hk]. destruct Hc as (-> & Hs & _).
    specialize (IH (out ++ chunk) (acc ++ chunk) s' Hs).
    pose proof (sk_file _ _ _ Hs) as Hf1. pose proof (sk_file _ _ _ Hok) as Hf2.
    apply (f_equal length) in Hf1, Hf2. rewrite length_app in Hf1, Hf2. rewrite length_app in Hf1. specialize (IH ltac:(lia)).
    destruct (read_all fuel (acc ++ chunk) s') as [[d|x] s2]; [|done]. destruct IH as (new & -> & Hs2 & Hv2).
    exists (chunk ++ new). by rewrite !app_assoc.
Qed.

Lemma read_continues file out s n : stream_ok file out s -> continues file out (stream_read n s).
Proof.
  intros Hok. unfold stream_read. rewrite (sk_open _ _ _ Hok).
  destruct (Z.eqb_spec n 0) as [->|Hn]; [cbn; by rewrite app_nil_r|].
  destruct (Z.ltb_spec n 0) as [Hneg|Hpos].
  - pose proof (read_all_continues (S (S (length (vs_rest s)))) file out [] s Hok ltac:(lia)) as H.
    unfold continues. destruct (read_all _ _ _) as [[b|x] s']; [|done]. by destruct H as (new & -> & H & _).
  - apply raw_read_continues; [done|]. pose proof (remaining_positive _ _ _ Hok). lia.
Qed.

Lemma readline_continues file out s n : stream_ok file out s -> n <> 0 -> continues file out (stream_readline n s).
Proof.
  intros Hok Hn. unfold stream_readline. rewrite (sk_open _ _ _ Hok). pose proof (remaining_positive _ _ _ Hok).
  apply raw_readline_continues; [done|]. destruct (Z.ltb_spec n 0); lia.
Qed.

(** Asking for no line at all is taken for the end of the file. *)
Lemma readline_0_outcome file out s :
  stream_ok file out s ->
  match stream_readline 0 s with (Ok b, s') => stream_ok file (out ++ b) s' | (Err _, _) => True end.
Proof.
  intros Hok. unfold stream_readline. rewrite (sk_open _ _ _ Hok). pose proof (remaining_positive _ _ _ Hok) as Hr.
  change (0 <? 0) with false. cbv iota. rewrite Z.min_l by lia. unfold raw_readline. rewrite advance_take.
  pose proof (check_outcome file out _ s Hok (take_prefix (Nat.min (Z.to_nat 0) (line_length (vs_rest s))) _)) as H.
  destruct (_check_and_update _ _) as [[b|x] s']; [|done]. destruct H as (-> & H & _). exact H.
Qed.

Lemma exec_calls_outcome calls file out s :
  stream_ok file out s ->
  match exec_calls calls out s with
  | (Ok b, s') => stream_ok file b s'
  | (Err _, _) => ReadLine 0 ∉ calls -> ~ readable_file file
  end.
Proof.
  revert out s. induction calls as [|c calls IH]; intros out s Hok; [exact Hok|]. cbn [exec_calls].
  assert (match exec_call c s with
          | (Ok b, s') => stream_ok file (out ++ b) s'
          | (Err _, _) => c <> ReadLine 0 -> ~ readable_file file end) as Hc.
  { destruct c as [n|n]; cbn [exec_call].
    - pose proof (read_continues file out s n Hok) as H. by destruct (stream_read n s) as [[b|x] s'].
    - destruct (decide (n = 0)) as [->|Hn].
      + pose proof (readline_0_outcome file out s Hok) as H. by destruct (stream_readline 0 s) as [[b|x] s'].
      + pose proof (readline_continues file out s n Hok Hn) as H. by destruct (stream_readline n s) as [[b|x] s']. }
  destruct (exec_call c s) as [[b|x] s'].
  - specialize (IH _ _ Hc). destruct (exec_calls _ _ _) as [[d|y] s2]; [done|]. set_solver.
  - intros Hn. apply Hc. set_solver.
Qed.

Lemma exec_calls_app calls more out s :
  exec_calls (calls ++ more) out s =
  match exec_calls calls out s with (Ok b, s') => exec_calls more b s' | (Err x, s') => (Err x, s') end.
Proof.
  revert out s. induction calls as [|c calls IH]; intros out s; [done|]. cbn [exec_calls app].
  destruct (exec_call c s) as [[b|x] s']; [apply IH|done].
Qed.

Lemma fresh_ok file : 0 <= ar_size_bytes reference -> stream_ok file [] (fresh_stream file).
Proof. intros H. by split. Qed.

(** Draining the stream reads on to the end of the file. *)
Lemma drain_continues fuel file out s :
  stream_ok file out s -> (S (length (vs_rest s)) < fuel)%nat ->
  match drain fuel s with
  | (Ok _, s') => exists new, stream_ok file (out ++ new) s' /\ vs_verified s' = true
  | (Err _, _) => ~ readable_file file
  end.
Proof.
  revert out s. induction fuel as [|fuel IH]; intros out s Hok Hf; [lia|]. cbn [drain].
  pose proof (read_continues file out s 65536 Hok) as Hk. unfold stream_read in *. rewrite (sk_open _ _ _ Hok) in *.
  cbn [Z.eqb Z.ltb Z.compare] in *. set (n := Z.min _ _) in *. unfold raw_read in *. rewrite advance_take in *.
  pose proof (check_outcome file out _ s Hok (take_prefix (Z.to_nat n) _)) as Hc.
  generalize dependent (take (Z.to_nat n) (vs_rest s)). intros chunk Hk Hc.
  destruct (_check_and_update chunk _) as [[c|x] s']; [|exact Hk]. destruct Hc as (-> & Hs & Hv).
  destruct chunk as [|b0 chunk0] eqn:Hchunk; [exists []; split; [exact Hs|by apply Hv]|].
  rewrite <- Hchunk in *. specialize (IH (out ++ chunk) s' Hs).
  pose proof (sk_file _ _ _ Hs) as Hf1. pose proof (sk_file _ _ _ Hok) as Hf2.
  apply (f_equal length) in Hf1, Hf2. rewrite length_app in Hf1, Hf2. rewrite length_app in Hf1.
  assert (0 < length chunk)%nat as Hpos by (rewrite Hchunk; cbn; lia). specialize (IH ltac:(lia)).
  destruct (drain fuel s') as [[d|x] s2]; [|done]. destruct IH as (new & Hs2 & Hv2).
  exists (chunk ++ new). by rewrite app_assoc.
Qed.

Lemma verify_complete_outcome file out s :
  stream_ok file out s ->
  match verify_complete s with
  | (Ok _, s') => vs_verified s' = true /\ exists new, vouched (out ++ new) /\ (out ++ new) `prefix_of` file
  | (Err _, _) => ~ readable_file file
  end.
Proof.
  intros Hok. unfold verify_complete. destruct (vs_verified s) eqn:Ev.
  { split; [done|]. exists []. rewrite app_nil_r. split; [by apply (sk_verified _ _ _ Hok)|].
    exists (vs_rest s). by rewrite (sk_file _ _ _ Hok). }
  pose proof (drain_continues (S (S (length (vs_rest s)))) file out s Hok ltac:(lia)) as H.
  destruct (drain _ s) as [[d|x] s']; [|done]. destruct H as (new & Hs & Hv). rewrite Hv. split; [done|].
  exists new. split; [by apply (sk_verified _ _ _ Hs)|]. exists (vs_rest s'). by rewrite (sk_file _ _ _ Hs).
Qed.

(** C26. A verifying stream vouches only for the artifact. Whatever reads and line reads a client
    makes, the bytes it was given are the beginning of the file, and once the stream says it is
    verified they are all of the reference's bytes: its size, its digest, from the same file at the
    version expected. Conversely an untouched file is never refused: whatever was read before,
    provided no line of size 0 was asked for, reading to the end gives the whole file, verified.
    A [with] block is left without an exception only by a verified stream, and
    [verify_complete] returns only when what was read and what it drained is vouched for. *)
Theorem stream_vouches file calls :
  0 <= ar_size_bytes reference ->
  (forall out s, exec_calls calls [] (fresh_stream file) = (Ok out, s) ->
     out `prefix_of` file /\ (vs_verified s = true -> vouched out) /\
     (fst (stream_exit s) = Ok tt -> vouched out) /\ vs_closed (snd (stream_exit s)) = true /\
     forall s', verify_complete s = (Ok tt, s') ->
       vs_verified s' = true /\ exists new, vouched (out ++ new) /\ (out ++ new) `prefix_of` file) /\
  (readable_file file -> ReadLine 0 ∉ calls ->
     exists s, exec_calls (calls ++ [Read (-1)]) [] (fresh_stream file) = (Ok file, s) /\ vs_verified s = true).
Proof.
  intros Hsize. pose proof (exec_calls_outcome calls file [] _ (fresh_ok file Hsize)) as H. split.
  - intros out s E. rewrite E in H. split_and!; [|exact (sk_verified _ _ _ H)| |done|].
    + exists (vs_rest s). symmetry. apply (sk_file _ _ _ H).
    + unfold stream_exit. cbn [fst]. destruct (vs_verified s) eqn:Ev; [intros _; by apply (sk_verified _ _ _ H)|done].
    + intros s' Es. pose proof (verify_complete_outcome file out s H) as Hvc. by rewrite Es in Hvc.
  - intros Hr Hn. rewrite exec_calls_app. destruct (exec_calls calls [] _) as [[out|x] s]; [|by destruct (H Hn)].
    cbn [exec_calls exec_call]. unfold stream_read. rewrite (sk_open _ _ _ H). cbn [Z.eqb Z.ltb Z.compare].
    pose proof (read_all_continues (S (S (length (vs_rest s)))) file out [] s H ltac:(lia)) as Ha.
    destruct (read_all _ _ _) as [[b|x] s']; [|done]. destruct Ha as (new & -> & Hs & Hv). exists s'. split; [|done].
    do 2 f_equal. cbn [app]. pose proof (sk_file _ _ _ Hs) as Hf. destruct (sk_verified _ _ _ Hs Hv) as [Hl _].
    destruct Hr as [[Hl' _] _]. assert (vs_rest s' = []) as Hnil.
    { apply nil_length_inv. apply (f_equal length) in Hf. rewrite length_app in Hf. lia. }
    by rewrite Hnil, app_nil_r in Hf.
Qed.

End Stream.

(** ** Witness *)

#[local] Existing Instance ascii_only.
#[local] Abbreviation sample_put := (put_object (Bytes (lit "hello")) None (lit "text/plain") (lit "bytes-v1") PUBLIC None).

Lemma artifact_immutable_witness :
  exists r s1, sample_put (exec_all [] empty_store) = (Ok r, s1) /\
    read_object s1 r (Some 5) = Ok (lit "hello") /\
    forall later, exists e, read_object (exec_all later (exec_all [Delete r] s1)) r (Some 5) = Err e.
Proof.
  destruct (sample_put (exec_all [] empty_store)) as [[r|x] s1] eqn:E; [|vm_compute in E; discriminate E].
  exists r, s1. split; [reflexivity|]. destruct (artifact_immutable [] _ _ _ _ _ _ _ _ E) as (data & n & _ & Hr & Hm).
  specialize (Hm [Delete r]). vm_compute in E. injection E as <- <-. split; [vm_compute; reflexivity|].
  intros later. destruct (read_object (exec_all [Delete _] _) _ _) as [b|[msg code|x]] eqn:E2 in Hm.
  - vm_compute in E2. discriminate E2.
  - exact (proj2 Hm later).
  - destruct Hm.
Defined.

#[local] Abbreviation hello := (lit "hello" : list Z).
#[local] Abbreviation hello_reference :=
  (MkReference (sha256_digest hello) 5 (lit "text/plain") (lit "bytes-v1") PUBLIC
     (MkLocator (lit "filesystem") (lit "objects/hello") None)).
#[local] Abbreviation sample_stat := (MkStat 1 2 3 1 0x8180 99 5).

Lemma stream_vouches_witness :
  (exists s, exec_calls hello_reference 5 sample_stat None (Some sample_stat) [Read 2; ReadLine 9; Read (-1)] []
               (fresh_stream hello) = (Ok hello, s) /\ vs_verified s = true) /\
  (forall out s, exec_calls hello_reference 5 sample_stat None (Some sample_stat) [Read (-1)] []
                   (fresh_stream (lit "jello")) = (Ok out, s) -> vs_verified s = false).
Proof.
  assert (0 <= ar_size_bytes hello_reference) as H0 by (vm_compute; discriminate).
  split.
  - apply (proj2 (stream_vouches hello_reference 5 sample_stat None (Some sample_stat) hello [Read 2; ReadLine 9] H0)).
    + split; [|vm_compute; discriminate]. split; [vm_compute; reflexivity|]. split; [vm_compute; reflexivity|].
      exists sample_stat. split; [reflexivity|]. split; [vm_compute; reflexivity|discriminate].
    + intros Hin. repeat (apply elem_of_cons in Hin as [Hin|Hin]; [discriminate Hin|]). by apply elem_of_nil in Hin.
  - intros out s E. vm_compute in E. discriminate E.
Defined.

(** [readline(0)] at the start of an untouched file is refused, although [read(0)] gives nothing and
    goes on. *)
Example readline_0_refused :
  (exists s x, stream_readline hello_reference 5 sample_stat None (Some sample_stat) 0 (fresh_stream hello) = (Err x, s)) /\
  exists s, stream_read hello_reference 5 sample_stat None (Some sample_stat) 0 (fresh_stream hello) = (Ok [], s).
Proof. vm_compute. eauto. Qed.
