(* ===== verification/WorkerProtocol.v ===== *)
(** The worker protocol: [coordinator/_protocol_validation.py] and
    [coordinator/_protocol_session.py].

    A worker and the coordinator exchange JSON objects, one a line.  A session checks every
    message of both directions: its fields, the identity of the attempt, its place in the
    conversation and its values.  Text of a message that did not come through a frame may
    have no UTF-8 encoding, and then raises. *)
From S2P Require Import Prelude Utf8 PyVal Ordering Json CanonCore Limits Regex Contracts ExternalSort StagingChecksums StagingFamilies Artifacts.
Open Scope Z_scope.

(** ** Errors *)

(** A [ProtocolError] with its code, and what the code lets through of Python: a [ValueError], a
    [UnicodeEncodeError], and the [RecursionError] of a message nested too deeply. *)
Inductive protocol_exn :=
| ProtocolError (code : string)
| ProtocolValueError (message : string)
| UnicodeEncodeError
| ProtocolRecursionError.

Abbreviation pres := (result protocol_exn).

Abbreviation protocol_error code := (Err (ProtocolError code)).

(** ** Frames *)

Definition PROTOCOL_VERSION : Z := 1.
Definition MAX_JSONL_LINE_BYTES : Z := 1024 * 1024.
Definition MAX_RETAINED_DIAGNOSTIC_BYTES : Z := 64 * 1024.

Definition _validate_line_limit (value : Z) : pres unit :=
  if (0 <? value) && (value <=? MAX_JSONL_LINE_BYTES) then Ok tt
  else Err (ProtocolValueError "max_line_bytes is outside the protocol limit").

(** [allow_nan=False] *)
Fixpoint finite_floats (v : pyval) : bool :=
  match v with
  | VFloat repr _ => negb (bool_decide (repr ∈ [lit "nan"; lit "inf"; lit "-inf"]))
  | VList l | VTuple l => forallb finite_floats l
  | VDict d => forallb (fun kv : pystr * pyval => finite_floats kv.2) d
  | _ => true
  end.

(** [object_pairs_hook] and [parse_constant]. *)
Definition frame_hooks : json_hooks := {| unique_keys := true; refuse_constants := true; refuse_floats := false |}.

(** [_validate_unicode] does not raise. *)
Fixpoint unicode_ok (v : pyval) : bool :=
  match v with
  | VStr s => forallb is_scalar s
  | VList l => forallb unicode_ok l
  | VDict d => forallb (fun kv : pystr * pyval => forallb is_scalar kv.1 && unicode_ok kv.2) d
  | _ => true
  end.

Section Protocol.
Context {U : Unicode}.
Variable py : interpreter.

(** The text is ASCII.  [RecursionError] is not among what is caught; of a message that cannot be
    written for two reasons, it is the one taken. *)
Definition encode_jsonl (message : pyval) (max_line_bytes : Z) : pres (list Z) :=
  match message with
  | VDict d =>
      _ ← _validate_line_limit max_line_bytes;
      if Nat.ltb (py_stack py) (nesting message) then Err ProtocolRecursionError
      else if negb (finite_floats message && writable message) then protocol_error "invalid_message"
      else
        let encoded := dumps compact_style message ++ [10] in
        if max_line_bytes <? Z.of_nat (length encoded) then protocol_error "frame_too_large" else Ok encoded
  | _ => protocol_error "invalid_message"
  end.

Definition decode_jsonl (frame : list Z) (max_line_bytes : Z) : pres pydict :=
  _ ← _validate_line_limit max_line_bytes;
  let body := take (length frame - 1) frame in
  if negb (bool_decide (last frame = Some 10)) || char_in 10 body then protocol_error "invalid_frame"
  else if max_line_bytes <? Z.of_nat (length frame) then protocol_error "frame_too_large"
  else
    match utf8_decode body with
    | None => protocol_error "invalid_json"
    | Some text =>
        match loads_within frame_hooks (py_float py) (Some (py_stack py)) text with
        | Err RecursionLimit => Err ProtocolRecursionError
        | Err _ => protocol_error "invalid_json"
        | Ok decoded =>
            if negb (unicode_ok decoded) then protocol_error "invalid_json"
            else match decoded with VDict d => Ok d | _ => protocol_error "invalid_message" end
        end
    end.

(** ** Vocabularies *)

Definition _COMMON : list string := ["schema_version"; "message_type"].
Definition _IDENTITY : list string := ["job_id"; "attempt"].
Definition _PORTABLE_SNAPSHOT_CAPABILITY : pystr := lit "portable_snapshot_v1".
Definition _PORTABLE_SNAPSHOT_FIELD : string := "portable_snapshot".
Definition _PORTABLE_SNAPSHOT_FIELDS : list string := ["contract_version"; "required"; "snapshot_manifest"].
Definition _PORTABLE_SNAPSHOT_RESULT_FIELDS : list string := ["contract_version"; "outcome"; "receipt"; "bundle"].
Definition _PORTABLE_SNAPSHOT_CURRENT_RESULT_FIELDS : list string :=
  (_PORTABLE_SNAPSHOT_RESULT_FIELDS ++ ["receipt_status"; "receipt_diagnostic"])%list.
Definition _RECEIPT_WRITE_DIAGNOSTICS : list pystr :=
  lit <$> ["store_unavailable"; "permission_denied"; "receipt_bounds"; "write_failed"].
Definition _START_IDENTITY_FIELDS : list string :=
  (_IDENTITY ++ ["job_kind"; "graph_id"; "source_generation"; "config_generation"])%list.
Definition _TERMINAL_FIELDS : list string :=
  (_COMMON ++ _IDENTITY ++
   ["job_kind"; "graph_id"; "status"; "started_at"; "finished_at"; "phase"; "files"; "observations"; "canonical_nodes";
    "canonical_edges"; "warnings"; "diagnostics"; "publication_state"; "latest_run_identity"; "source_generation";
    "config_generation"; "extractor_generation"; "canonicalizer_generation"; "retryable"; "error_category"])%list.

Inductive message_kind :=
| WorkerHello | JobStart | Progress | Heartbeat | Cancel | CancelAck | ResultMessage | ErrorMessage.

Definition all_kinds : list message_kind :=
  [WorkerHello; JobStart; Progress; Heartbeat; Cancel; CancelAck; ResultMessage; ErrorMessage].
Definition kind_name (k : message_kind) : string :=
  match k with
  | WorkerHello => "worker_hello" | JobStart => "job_start" | Progress => "progress" | Heartbeat => "heartbeat"
  | Cancel => "cancel" | CancelAck => "cancel_ack" | ResultMessage => "result" | ErrorMessage => "error"
  end.

Definition _FIELDS (k : message_kind) : list string :=
  match k with
  | WorkerHello => _COMMON ++ ["protocol_versions"; "worker_generation"; "capabilities"; "process_nonce"]
  | JobStart => _COMMON ++ _IDENTITY ++ ["job_kind"; "graph_id"; "source_generation"; "config_generation"]
  | Progress => _COMMON ++ _IDENTITY ++ ["completed"; "total"; "phase"; "unit"; "message_category"; "heartbeat_at"]
  | Heartbeat => _COMMON ++ _IDENTITY ++ ["heartbeat_at"]
  | Cancel => _COMMON ++ _IDENTITY
  | CancelAck => _COMMON ++ _IDENTITY ++ ["status"]
  | ResultMessage | ErrorMessage => _TERMINAL_FIELDS
  end%list.

Inductive direction := FromWorker | FromCoordinator.
#[global] Instance direction_eq_dec : EqDecision direction.
Proof. solve_decision. Defined.

Definition _DIRECTIONS (k : message_kind) : direction :=
  match k with JobStart | Cancel => FromCoordinator | _ => FromWorker end.

Definition _PUBLICATION_STATES : list pystr :=
  lit <$> ["not_applicable"; "not_started"; "prepared"; "transaction_started"; "committed"; "rolled_back"; "commit_unknown"].
Definition _PROGRESS_PHASES : list pystr :=
  lit <$> ["waiting"; "starting"; "preflight"; "discovery"; "extraction"; "canonicalization"; "storage_prepare";
           "storage_publish"; "verification"; "cleanup"; "complete"].
Definition _PROGRESS_UNITS : list pystr := [lit "files"].
Definition _PROGRESS_CATEGORIES : list pystr := [lit "files-discovered"].
Definition _ERROR_CATEGORIES : list pystr :=
  lit <$> ["transient"; "permanent"; "cancelled"; "superseded"; "configuration"; "authorization"; "privacy";
           "source_unavailable"; "source_capture"; "storage_unavailable"; "transient_database"; "worker_launch";
           "worker_crash"; "worker_timeout"; "protocol"; "generation_changed"; "publication_unknown"; "cancel_failed";
           "internal"; "source_changed"; "source_invalid"; "artifact_missing"; "artifact_stale"; "artifact_corrupt";
           "unsupported_contract"; "unsupported_capability"; "contract_validation"; "artifact_bounds"; "manifest_bounds";
           "malformed_protocol"; "identity_mismatch"; "semantic_workload"].
Definition _KNOWN_ARRAY_CATEGORIES : list pystr :=
  lit <$> ["cancellation_not_applied"; "multi-source-refresh-unsupported"; "psql_authority_invalid"; "refresh-failed";
           "source-binding-refresh-unsupported"; "synthetic_warning"; "synthetic_diagnostic"].

Definition protocol_graph_id : re := Cat (Cls is_lower) (Rep (fun c => is_lower_alnum c || (c =? 45)) (Some 127%nat)).
Definition _GENERATION_PATTERN : re := Cat (Cls is_alnum) (Rep (fun c => is_alnum c || char_in c (lit "._-")) None).

(** ** Values *)

Definition _bounded_text (value : pyval) (maximum : Z) : pres bool :=
  match value with
  | VStr s =>
      match utf8_encode s with
      | Some bytes => Ok ((1 <=? Z.of_nat (length bytes)) && (Z.of_nat (length bytes) <=? maximum))
      | None => Err UnicodeEncodeError
      end
  | _ => Ok false
  end.

Definition text_of (value : pyval) : pystr := match value with VStr s => s | _ => [] end.

(** A chain of [and], which stops where one is false or raises. *)
Fixpoint all_hold (checks : list (pres bool)) : pres bool :=
  match checks with
  | [] => Ok true
  | c :: rest => b ← c; if b : bool then all_hold rest else Ok false
  end.

(** [if not condition: raise ProtocolError(code)] *)
Definition require_all (code : string) (checks : list (pres bool)) : pres unit :=
  b ← all_hold checks; if b : bool then Ok tt else protocol_error code.

Definition _public_protocol_text (value : pyval) (maximum : Z) : pres bool :=
  all_hold [_bounded_text value maximum; Ok (negb (char_in 47 (text_of value))); Ok (negb (char_in 92 (text_of value)));
            Ok (negb (search _PROHIBITED_CONTENT (text_of value)))].

Definition _in_vocabulary (value : pyval) (vocabulary : list pystr) : bool := str_in value vocabulary.

Definition _valid_graph_id (value : pyval) : pres bool :=
  all_hold [_public_protocol_text value 128; Ok (fullmatch protocol_graph_id (text_of value))].

Definition _valid_generation (value : pyval) (prefix : pystr) : pres bool :=
  all_hold [_public_protocol_text value 128; Ok (startswith prefix (text_of value));
            Ok (fullmatch _GENERATION_PATTERN (drop (length prefix) (text_of value)))].

Definition utc_timestamp_ok (value : pyval) : pres bool :=
  all_hold [_public_protocol_text value 64; Ok (fullmatch _UTC_TIMESTAMP_PATTERN (text_of value));
            Ok (fromisoformat_accepts (text_of value))].

(** The fields of the [datetime], microseconds last. *)
Definition _parse_utc (value : pystr) : list Z :=
  let field i n := int_of_digits (take n (drop i value)) in
  let fraction := take (length value - 21) (drop 20 value) in
  [field 0%nat 4%nat; field 5%nat 2%nat; field 8%nat 2%nat; field 11%nat 2%nat; field 14%nat 2%nat; field 17%nat 2%nat;
   int_of_digits (take 6 (fraction ++ lit "000000"))].

Definition datetime_leb (a b : list Z) : bool := not_gt (lex (zip_with Z.compare a b)).

Definition is_mapping (v : pyval) : bool := match v with VDict _ => true | _ => false end.
Definition is_int_value (v : pyval) : bool := match v with VInt _ => true | _ => false end.
Definition field_is (k v : string) (d : pydict) : bool := is_str_value (dict_item k d) (lit v).

(** ** The portable extension *)

Definition _validate_portable_snapshot_extension (value : pyval) : pres unit :=
  match value with
  | VDict d =>
      if negb (same_keys d (lit <$> _PORTABLE_SNAPSHOT_FIELDS)) then protocol_error "invalid_extension"
      else if negb (field_is "contract_version" "1.0" d) then protocol_error "unsupported_extension"
      else match dict_item "required" d with
           | VBool true =>
               match from_mapping (dict_item "snapshot_manifest" d) with
               | Ok _ => Ok tt
               | Err _ => protocol_error "invalid_extension"
               end
           | _ => protocol_error "invalid_extension"
           end
  | _ => protocol_error "invalid_extension"
  end.

(** The mapping is a reference of the media type. *)
Definition refers_to (media : string) (value : pyval) : bool :=
  match from_mapping value with Ok r => bool_decide (ar_media_type r = lit media) | Err _ => false end.

Definition outcome_ok (outcome : pystr) (payload : pydict) : bool :=
  if bool_decide (outcome = lit "completed") then field_is "status" "succeeded" payload
  else if bool_decide (outcome = lit "cancelled") then field_is "status" "cancelled" payload
  else field_is "status" "failed" payload && is_str_value (dict_item "error_category" payload) outcome.

Definition receipt_ok (current_shape : bool) (outcome : pystr) (d : pydict) : bool :=
  let receipt := dict_item "receipt" d in
  (if current_shape then
     if field_is "receipt_status" "stored" d then is_none (dict_item "receipt_diagnostic" d) && is_mapping receipt
     else if field_is "receipt_status" "unavailable" d
     then negb (bool_decide (outcome = lit "completed")) && is_none receipt
          && str_in (dict_item "receipt_diagnostic" d) _RECEIPT_WRITE_DIAGNOSTICS
     else false
   else is_mapping receipt)
  && (is_none receipt || refers_to "application/x-repomap-extraction-receipt-v1+json" receipt).

Definition bundle_ok (outcome : pystr) (d : pydict) : bool :=
  let bundle := dict_item "bundle" d in
  if bool_decide (outcome = lit "completed")
  then is_mapping bundle && refers_to "application/x-repomap-publication-bundle-v1+jsonl" bundle
  else is_none bundle.

Definition _validate_portable_snapshot_result_extension (value : pyval) (payload : pydict) : pres unit :=
  match value with
  | VDict d =>
      let current_shape := same_keys d (lit <$> _PORTABLE_SNAPSHOT_CURRENT_RESULT_FIELDS) in
      if negb (same_keys d (lit <$> _PORTABLE_SNAPSHOT_RESULT_FIELDS)) && negb current_shape
      then protocol_error "invalid_extension"
      else if negb (field_is "contract_version" "1.0" d) then protocol_error "unsupported_extension"
      else match dict_item "outcome" d with
           | VStr outcome =>
               if outcome_ok outcome payload && receipt_ok current_shape outcome d && bundle_ok outcome d then Ok tt
               else protocol_error "invalid_extension"
           | _ => protocol_error "invalid_extension"
           end
  | _ => protocol_error "invalid_extension"
  end.

(** ** [ProtocolSession] *)

Inductive session_state := awaiting_hello | awaiting_start | running | cancel_requested | cancelling | terminal_state.
#[global] Instance session_state_eq_dec : EqDecision session_state.
Proof. solve_decision. Defined.
#[global] Instance message_kind_eq_dec : EqDecision message_kind.
Proof. solve_decision. Defined.

Record ProtocolSession := MkSession {
  ps_identity : pydict;
  ps_state : session_state;
  ps_negotiated_version : option Z;
  ps_capability : bool;                        (** [_portable_snapshot_capability] *)
  ps_requested : bool;                         (** [_portable_snapshot_requested] *)
  ps_terminal : option pydict;
  ps_accepted_job_start : option pydict;
  ps_completed : Z
}.

(** The constructor with [__post_init__]. *)
Definition make_session (identity : pydict) : pres ProtocolSession :=
  if negb (same_keys identity (lit <$> _IDENTITY)) then protocol_error "invalid_identity"
  else
    let job_id := dict_item "job_id" identity in
    _ ← require_all "invalid_identity" [_bounded_text job_id 128; Ok (negb (search _PROHIBITED_CONTENT (text_of job_id)))];
    match dict_item "attempt" identity with
    | VInt attempt =>
        if attempt <=? 0 then protocol_error "invalid_identity"
        else Ok (MkSession identity awaiting_hello None false false None None 0)
    | _ => protocol_error "invalid_identity"
    end.

Definition _validate_order (k : message_kind) (s : ProtocolSession) : pres unit :=
  match ps_state s with
  | terminal_state =>
      match k with
      | ResultMessage | ErrorMessage => protocol_error "duplicate_terminal"
      | _ => protocol_error "message_after_terminal"
      end
  | st =>
      let allowed :=
        match st with
        | awaiting_hello => [WorkerHello]
        | awaiting_start => [JobStart]
        | running => [Progress; Heartbeat; Cancel; ResultMessage; ErrorMessage]
        | cancel_requested => [Progress; Heartbeat; CancelAck; ResultMessage; ErrorMessage]
        | _ => [Progress; Heartbeat; ResultMessage; ErrorMessage]
        end in
      if bool_decide (k ∈ allowed) then Ok tt else protocol_error "out_of_order"
  end.

Definition has_extension (payload : pydict) : bool := dict_has (lit _PORTABLE_SNAPSHOT_FIELD) payload.
Definition extension (payload : pydict) : pyval := dict_item _PORTABLE_SNAPSHOT_FIELD payload.

Definition counter_ok (v : pyval) : bool :=
  match v with VInt n => (0 <=? n) && (n <=? max_counter DEFAULT_LIMITS) | _ => false end.

Definition categories_ok (v : pyval) : bool :=
  match v with
  | VList l => Nat.leb (length l) 32 && forallb (fun x => _in_vocabulary x _KNOWN_ARRAY_CATEGORIES) l
  | _ => false
  end.

(** The status, the error category and the publication state agree. *)
Definition status_ok (k : message_kind) (payload : pydict) : bool :=
  let publication w := field_is "publication_state" w payload in
  match k with
  | ResultMessage =>
      (_in_vocabulary (dict_item "status" payload) [lit "succeeded"; lit "cancelled"])
      && is_none (dict_item "error_category" payload)
      && (negb (field_is "status" "succeeded" payload)
          || publication (if has_extension payload then "not_started" else "committed"))
      && (negb (field_is "status" "cancelled" payload) || publication "not_started" || publication "rolled_back")
  | _ =>
      field_is "status" "failed" payload
      && _in_vocabulary (dict_item "error_category" payload) _ERROR_CATEGORIES
      && (if has_extension payload then publication "not_started" else negb (publication "committed"))
  end.

Definition _validate_terminal (k : message_kind) (payload : pydict) : pres unit :=
  let item f := dict_item f payload in
  let invalid := require_all "invalid_value" in
  _ ← invalid [Ok (field_is "job_kind" "refresh_graph" payload)];
  _ ← invalid [_valid_graph_id (item "graph_id"); _valid_generation (item "source_generation") (lit "sg1:");
               _valid_generation (item "config_generation") (lit "cg1:"); Ok (_in_vocabulary (item "phase") _PROGRESS_PHASES);
               utc_timestamp_ok (item "started_at"); utc_timestamp_ok (item "finished_at");
               Ok (datetime_leb (_parse_utc (text_of (item "started_at"))) (_parse_utc (text_of (item "finished_at"))))];
  _ ← invalid [_public_protocol_text (item "extractor_generation") 128; _public_protocol_text (item "canonicalizer_generation") 128];
  _ ← invalid ((fun f => Ok (counter_ok (item f))) <$> ["files"; "observations"; "canonical_nodes"; "canonical_edges"]);
  _ ← invalid [Ok (categories_ok (item "warnings")); Ok (categories_ok (item "diagnostics"))];
  _ ← invalid [Ok (_in_vocabulary (item "publication_state") _PUBLICATION_STATES);
               Ok (match item "retryable" with VBool _ => true | _ => false end)];
  _ ← (if has_extension payload then _validate_portable_snapshot_result_extension (extension payload) payload else Ok tt);
  _ ← invalid [Ok (status_ok k payload)];
  if field_is "publication_state" "committed" payload then invalid [_public_protocol_text (item "latest_run_identity") 128]
  else invalid [Ok (is_none (item "latest_run_identity"))].

Definition set_capability (b : bool) (s : ProtocolSession) : ProtocolSession :=
  MkSession (ps_identity s) (ps_state s) (ps_negotiated_version s) b (ps_requested s) (ps_terminal s)
    (ps_accepted_job_start s) (ps_completed s).

Definition hello_capabilities (portable : bool) : pyval :=
  VList (VStr (lit "refresh_graph") :: if portable then [VStr _PORTABLE_SNAPSHOT_CAPABILITY] else []).

(** A hello whose texts are refused has set the capability. *)
Definition _validate_values (k : message_kind) (payload : pydict) (s : ProtocolSession) : pres unit * ProtocolSession :=
  let item f := dict_item f payload in
  let invalid := require_all "invalid_value" in
  match k with
  | WorkerHello =>
      match (_ ← invalid [Ok (match item "protocol_versions" with VList l => forallb is_int_value l | _ => false end)];
             _ ← require_all "negotiation_failed" [Ok (py_eq (item "protocol_versions") (VList [VInt PROTOCOL_VERSION]))];
             require_all "negotiation_failed"
               [Ok (py_in (item "capabilities") [hello_capabilities false; hello_capabilities true])]) with
      | Err x => (Err x, s)
      | Ok _ =>
          (invalid [_public_protocol_text (item "worker_generation") 128; _public_protocol_text (item "process_nonce") 128],
           set_capability (match item "capabilities" with
                           | VList l => py_in (VStr _PORTABLE_SNAPSHOT_CAPABILITY) l
                           | _ => false
                           end) s)
      end
  | JobStart =>
      ((_ ← invalid [Ok (field_is "job_kind" "refresh_graph" payload); _valid_graph_id (item "graph_id");
                     _valid_generation (item "source_generation") (lit "sg1:");
                     _valid_generation (item "config_generation") (lit "cg1:")];
        if has_extension payload then _validate_portable_snapshot_extension (extension payload) else Ok tt), s)
  | Progress =>
      ((_ ← invalid [Ok (match item "completed" with
                         | VInt n => (ps_completed s <=? n) && (n <=? max_counter DEFAULT_LIMITS)
                         | _ => false end)];
        _ ← invalid [Ok (match item "completed", item "total" with
                         | _, VNone => true
                         | VInt n, VInt t => (n <=? t) && (t <=? max_counter DEFAULT_LIMITS)
                         | _, _ => false end)];
        invalid [Ok (_in_vocabulary (item "phase") _PROGRESS_PHASES); Ok (_in_vocabulary (item "unit") _PROGRESS_UNITS);
                 Ok (_in_vocabulary (item "message_category") _PROGRESS_CATEGORIES); utc_timestamp_ok (item "heartbeat_at")]), s)
  | Heartbeat => (invalid [utc_timestamp_ok (item "heartbeat_at")], s)
  | Cancel => (Ok tt, s)
  | CancelAck => (invalid [Ok (_in_vocabulary (item "status") (lit <$> ["accepted"; "deferred"; "already-complete"]))], s)
  | ResultMessage | ErrorMessage => (_validate_terminal k payload, s)
  end.

Definition start_fields (payload : pydict) : pydict := (fun f => (lit f, dict_item f payload)) <$> _START_IDENTITY_FIELDS.

Definition _advance (k : message_kind) (payload : pydict) (s : ProtocolSession) : ProtocolSession :=
  let '(MkSession identity st version capability requested term start completed) := s in
  match k with
  | WorkerHello => MkSession identity awaiting_start (Some PROTOCOL_VERSION) capability requested term start completed
  | JobStart =>
      MkSession identity running version capability (has_extension payload) term (Some (start_fields payload)) completed
  | Progress =>
      MkSession identity st version capability requested term start
        (match dict_item "completed" payload with VInt n => n | _ => completed end)
  | Heartbeat => s
  | Cancel => MkSession identity cancel_requested version capability requested term start completed
  | CancelAck => MkSession identity cancelling version capability requested term start completed
  | ResultMessage | ErrorMessage =>
      MkSession identity terminal_state version capability requested (Some payload) start completed
  end.

Definition kind_of (message_type : pyval) : option message_kind :=
  List.find (fun k => is_str_value message_type (lit (kind_name k))) all_kinds.

(** The fields the message must have. *)
Definition expected_fields (k : message_kind) (payload : pydict) (s : ProtocolSession) : pres (list string) :=
  match k with
  | JobStart =>
      if has_extension payload then
        if ps_capability s then Ok (_FIELDS k ++ [_PORTABLE_SNAPSHOT_FIELD])%list else protocol_error "negotiation_failed"
      else Ok (_FIELDS k)
  | ResultMessage | ErrorMessage =>
      if has_extension payload then
        if negb (ps_capability s) || negb (ps_requested s) then protocol_error "negotiation_failed"
        else Ok (_FIELDS k ++ [_PORTABLE_SNAPSHOT_FIELD])%list
      else if ps_requested s then protocol_error "negotiation_failed"
      else Ok (_FIELDS k)
  | _ => Ok (_FIELDS k)
  end.

(** [payload[f] == other[f]] for the fields. *)
Definition agree_on (fields : list string) (payload other : pydict) : bool :=
  forallb (fun f => py_eq (dict_item f payload) (dict_item f other)) fields.

(** What is checked before the values. *)
Definition admissible (payload : pydict) (d : direction) (s : ProtocolSession) : pres message_kind :=
  if negb (py_eq (dict_item "schema_version" payload) (VInt PROTOCOL_VERSION)) then protocol_error "unsupported_version"
  else if field_is "message_type" "worker_exit" payload then protocol_error "internal_message"
  else
    match kind_of (dict_item "message_type" payload) with
    | None => protocol_error "unknown_type"
    | Some k =>
        if negb (bool_decide (_DIRECTIONS k = d)) then protocol_error "wrong_direction"
        else
          expected ← expected_fields k payload s;
          if negb (same_keys payload (lit <$> expected)) then protocol_error "invalid_fields"
          else if negb (bool_decide (k = WorkerHello)) && negb (agree_on _IDENTITY payload (ps_identity s))
          then protocol_error "identity_mismatch"
          else
            _ ← _validate_order k s;
            if bool_decide (k ∈ [ResultMessage; ErrorMessage]) &&
               match ps_accepted_job_start s with
               | None => true
               | Some start => negb (agree_on _START_IDENTITY_FIELDS payload start)
               end
            then protocol_error "identity_mismatch"
            else Ok k
    end.

(** A message is offered as a frame or as a value. *)
Inductive offered := Frame (frame : list Z) | Message (message : pyval).

Definition _accept (m : offered) (d : direction) (s : ProtocolSession) : pres pydict * ProtocolSession :=
  match (match m with
         | Frame frame => decode_jsonl frame MAX_JSONL_LINE_BYTES
         | Message (VDict d) => Ok d
         | Message _ => protocol_error "invalid_message"
         end) with
  | Err x => (Err x, s)
  | Ok payload =>
      match admissible payload d s with
      | Err x => (Err x, s)
      | Ok k =>
          match _validate_values k payload s with
          | (Err x, s) => (Err x, s)
          | (Ok _, s) => (Ok payload, _advance k payload s)
          end
      end
  end.

Definition accept_worker (m : offered) : ProtocolSession -> pres pydict * ProtocolSession := _accept m FromWorker.
Definition accept_coordinator (m : offered) : ProtocolSession -> pres pydict * ProtocolSession := _accept m FromCoordinator.

End Protocol.
