(* ===== verification/WorkerProtocolFacts.v ===== *)
(** The worker protocol, proved: frames read back, a session admits only conversations in
    order, and what it refuses leaves no trace. *)
From S2P Require Import Prelude Utf8 PyVal Ordering Json JsonFacts CanonCore Limits Regex Contracts ExternalSort ExternalSortFacts.
From S2P Require Import ObservationsFacts StagingChecksums StagingChecksumsFacts StagingFamilies Artifacts WorkerProtocol.
Open Scope Z_scope.

(** ** Frames *)

Lemma clean_finite v : json_clean v = true -> finite_floats v = true.
Proof.
  induction v as [|b|n|t i|s|l IH|l IH|d IH] using pyval_ind'; cbn [json_clean finite_floats]; try done.
  1, 2: rewrite !forallb_forall; rewrite Forall_forall in IH; intros H x Hx;
    apply IH; [by apply list_elem_of_In|auto].
  intros [H _]%andb_true_iff. rewrite forallb_forall in H |- *. rewrite Forall_forall in IH.
  intros kv Hkv. pose proof (H kv Hkv) as [_ Hv]%andb_true_iff. apply IH; [by apply list_elem_of_In|done].
Qed.

Lemma clean_unicode v : json_clean v = true -> unicode_ok v = true.
Proof.
  induction v as [|b|n|t i|s|l IH|l IH|d IH] using pyval_ind'; cbn [json_clean unicode_ok]; try done.
  - rewrite !forallb_forall; rewrite Forall_forall in IH; intros H x Hx; apply IH; [by apply list_elem_of_In|auto].
  - intros [H _]%andb_true_iff. rewrite forallb_forall in H |- *. rewrite Forall_forall in IH.
    intros kv Hkv. pose proof (H kv Hkv) as [Hk Hv]%andb_true_iff. rewrite Hk. apply IH; [by apply list_elem_of_In|done].
Qed.

Section Facts.
Context {U : Unicode}.
Variable py : interpreter.
Abbreviation accept := (_accept py).

Lemma limit_valid limit : 0 < limit <= MAX_JSONL_LINE_BYTES -> _validate_line_limit limit = Ok tt.
Proof. intros H. unfold _validate_line_limit. by replace ((0 <? limit) && (limit <=? MAX_JSONL_LINE_BYTES)) with true by lia. Qed.

Lemma encode_frame_clean d limit :
  json_clean (VDict d) = true -> 0 < limit <= MAX_JSONL_LINE_BYTES ->
  (nesting (VDict d) <= py_stack py)%nat -> Z.of_nat (length (dumps compact_style (VDict d))) < limit ->
  encode_jsonl py (VDict d) limit = Ok (dumps compact_style (VDict d) ++ [10]).
Proof.
  intros Hc Hl Hd Hn. unfold encode_jsonl. rewrite (limit_valid _ Hl).
  cbn [mbind result_bind]. rewrite (proj2 (Nat.ltb_ge _ _) Hd).
  rewrite (clean_finite _ Hc), (json_clean_writable _ Hc). cbn [andb negb].
  rewrite length_app. cbn [length]. by rewrite (proj2 (Z.ltb_ge _ _)) by lia.
Qed.

Lemma printable_ascii s : printable s -> Forall (fun c => 0 <= c < 128) s.
Proof. intros H. eapply Forall_impl; [exact H|]. intros c. cbn. lia. Qed.

Lemma printable_no_newline s : printable s -> char_in 10 s = false.
Proof.
  intros H. apply bool_decide_eq_false. intros Hin. unfold printable in H. rewrite Forall_forall in H. apply H in Hin. lia.
Qed.

Lemma decode_frame_clean d limit :
  json_clean (VDict d) = true -> 0 < limit <= MAX_JSONL_LINE_BYTES ->
  (nesting (VDict d) <= py_stack py)%nat -> Z.of_nat (length (dumps compact_style (VDict d) ++ [10])) <= limit ->
  decode_jsonl py (dumps compact_style (VDict d) ++ [10]) limit =
  Ok (sort_items ((fun kv : pystr * pyval => (kv.1, json_norm kv.2)) <$> d)).
Proof.
  intros Hc Hl Hd Hn. assert (printable (dumps compact_style (VDict d))) as Hp by by apply json_text_printable; [apply compact_one_line|].
  unfold decode_jsonl. rewrite (limit_valid _ Hl).
  cbn [mbind result_bind]. rewrite last_snoc, bool_decide_true, take_snoc by done. cbn [negb orb].
  rewrite (printable_no_newline _ Hp). rewrite (proj2 (Z.ltb_ge _ _)) by done.
  rewrite (utf8_decode_encode _ _ (utf8_encode_ascii _ (printable_ascii _ Hp))).
  pose proof (loads_within_dumps frame_hooks (py_float py) compact_style eq_refl (Some (py_stack py)) (VDict d) [] Hc Hd eq_refl) as Hld.
  rewrite app_nil_r in Hld. rewrite Hld. rewrite (clean_unicode _ (json_clean_norm _ Hc)). done.
Qed.

Lemma decode_frame_Ok frame limit d : decode_jsonl py frame limit = Ok d ->
  (exists body, frame = body ++ [10] /\ 10 ∉ body) /\ Z.of_nat (length frame) <= limit /\ unicode_ok (VDict d) = true.
Proof.
  intros H. unfold decode_jsonl in H. unbind H. destruct (utf8_decode _) as [text|]; [|done].
  destruct (loads_within _ _ _ _) as [v|[]]; [|done..]. destruct (unicode_ok v) eqn:Hu; [|done]. cbn [negb] in H.
  destruct v; try done. injection H as ->. apply orb_false_iff in Heqb as [Hlast Hno]. split_and!; [|lia|done].
  apply negb_false_iff, bool_decide_eq_true in Hlast. apply last_Some in Hlast as [body ->]. exists body. split; [done|].
  apply bool_decide_eq_false in Hno. by rewrite take_snoc in Hno.
Qed.

(** What refusing a frame raises. *)
Definition frame_error (x : protocol_exn) : Prop := (exists code, x = ProtocolError code) \/ x = ProtocolRecursionError.

Lemma decode_error frame x : decode_jsonl py frame MAX_JSONL_LINE_BYTES = Err x -> frame_error x.
Proof.
  unfold decode_jsonl. change (_validate_line_limit MAX_JSONL_LINE_BYTES) with (Ok tt : pres unit). cbn [mbind result_bind].
  unfold frame_error. repeat case_match; intros [= <-]; eauto.
Qed.

(** C33. Frames read back: a message of clean JSON values is written as one line within the limit or
    refused as too large, unless it nests deeper than the stack, and the line is read back, by a reader with the same limit, as the
    message with its keys in order.  Whatever bytes a reader accepts is a line within its limit,
    whose text is Unicode throughout. *)
Theorem frame_roundtrip :
  (forall d limit, json_clean (VDict d) = true -> 0 < limit <= MAX_JSONL_LINE_BYTES ->
     if Nat.ltb (py_stack py) (nesting (VDict d)) then encode_jsonl py (VDict d) limit = Err ProtocolRecursionError
     else if Z.of_nat (length (dumps compact_style (VDict d))) <? limit
     then exists frame d', encode_jsonl py (VDict d) limit = Ok frame /\ json_norm (VDict d) = VDict d' /\
            decode_jsonl py frame limit = Ok d'
     else encode_jsonl py (VDict d) limit = Err (ProtocolError "frame_too_large")) /\
  (forall frame limit d, decode_jsonl py frame limit = Ok d ->
     (exists body, frame = body ++ [10] /\ 10 ∉ body) /\ Z.of_nat (length frame) <= limit /\ unicode_ok (VDict d) = true).
Proof.
  split.
  - intros d limit Hc Hl. destruct (Nat.ltb_spec (py_stack py) (nesting (VDict d))) as [Hd|Hd].
    { unfold encode_jsonl. rewrite (limit_valid _ Hl), (proj2 (Nat.ltb_lt _ _) Hd). done. }
    destruct (Z.ltb_spec (Z.of_nat (length (dumps compact_style (VDict d)))) limit) as [Hn|Hn].
    + eexists _, _. split; [by apply encode_frame_clean|]. split; [reflexivity|]. apply decode_frame_clean; [done..|]. rewrite length_app. cbn [length]. lia.
    + unfold encode_jsonl. rewrite (limit_valid _ Hl), (proj2 (Nat.ltb_ge _ _) Hd). cbn [mbind result_bind].
      rewrite (clean_finite _ Hc), (json_clean_writable _ Hc). cbn [andb negb].
      rewrite length_app. cbn [length]. by rewrite (proj2 (Z.ltb_lt _ _)) by lia.
  - apply decode_frame_Ok.
Qed.

(** ** Only errors of the protocol *)

(** Only a [ProtocolError] is raised. *)
Definition protocol_quiet {A} (r : pres A) : Prop := match r with Err (ProtocolError _) | Ok _ => True | _ => False end.

Lemma protocol_quiet_bind {A B} (r : pres A) (f : A -> pres B) : protocol_quiet r -> (forall a, protocol_quiet (f a)) -> protocol_quiet (mbind f r).
Proof. destruct r as [a|[]]; cbn; auto. Qed.

Lemma quiet_all checks : Forall protocol_quiet checks -> protocol_quiet (all_hold checks).
Proof. induction 1 as [|c rest Hc _ IH]; [done|]. cbn [all_hold]. apply protocol_quiet_bind; [done|]. by intros []. Qed.

Lemma quiet_require code checks : Forall protocol_quiet checks -> protocol_quiet (require_all code checks).
Proof. intros H. apply protocol_quiet_bind; [by apply quiet_all|]. by intros []. Qed.

Lemma utf8_scalar s : forallb is_scalar s = true -> is_Some (utf8_encode s).
Proof.
  induction s as [|c s IH]; cbn; [eauto|]. intros [Hc [bs Hs]%IH]%andb_true_iff. rewrite Hs.
  assert (is_Some (utf8_encode_char c)) as [b Hb].
  { unfold utf8_encode_char. rewrite Hc. cbn [negb]. repeat case_match; eauto. }
  rewrite Hb. cbn. eauto.
Qed.

Lemma quiet_text v n : unicode_ok v = true -> protocol_quiet (_bounded_text v n).
Proof. intros H. destruct v as [| | | |s| | |]; try done. cbn in *. by destruct (utf8_scalar s H) as [bs ->]. Qed.

Lemma quiet_public v n : unicode_ok v = true -> protocol_quiet (_public_protocol_text v n).
Proof. intros H. apply quiet_all. repeat constructor. by apply quiet_text. Qed.

Lemma quiet_chain (c : pres bool) rest : protocol_quiet c -> Forall (fun r => exists b : bool, r = Ok b) rest -> protocol_quiet (all_hold (c :: rest)).
Proof. intros Hc Hr. apply quiet_all. constructor; [done|]. eapply Forall_impl; [exact Hr|]. by intros r [b ->]. Qed.

Lemma quiet_graph_id v : unicode_ok v = true -> protocol_quiet (_valid_graph_id v).
Proof. intros H. apply quiet_chain; [by apply quiet_public|]. repeat constructor; eauto. Qed.
Lemma quiet_generation v p : unicode_ok v = true -> protocol_quiet (_valid_generation v p).
Proof. intros H. apply quiet_chain; [by apply quiet_public|]. repeat constructor; eauto. Qed.
Lemma quiet_timestamp v : unicode_ok v = true -> protocol_quiet (utc_timestamp_ok v).
Proof. intros H. apply quiet_chain; [by apply quiet_public|]. repeat constructor; eauto. Qed.

Lemma item_unicode payload f : unicode_ok (VDict payload) = true -> unicode_ok (dict_item f payload) = true.
Proof.
  cbn [unicode_ok]. unfold dict_item. induction payload as [|[k v] rest IH]; [done|]. cbn [forallb dict_get fst snd].
  intros [[_ Hv]%andb_true_iff Hr]%andb_true_iff. case_bool_decide; [done|auto].
Qed.

Lemma quiet_if {A} (b : bool) (x y : pres A) : protocol_quiet x -> protocol_quiet y -> protocol_quiet (if b then x else y).
Proof. by destruct b. Qed.
End Facts.

Create HintDb protocol.
#[export] Hint Resolve quiet_graph_id quiet_generation quiet_timestamp quiet_public quiet_text item_unicode quiet_if : protocol.

Section Session.
Context {U : Unicode}.
Variable py : interpreter.

Ltac quiet_checks :=
  repeat first [ apply protocol_quiet_bind; [|intros ?] | apply quiet_require | apply Forall_cons_2 | apply Forall_nil_2 | apply quiet_if
               | exact I | solve [auto with protocol] ].

Lemma quiet_extension v : protocol_quiet (_validate_portable_snapshot_extension v).
Proof. unfold _validate_portable_snapshot_extension. repeat case_match; done. Qed.
Lemma quiet_result_extension v payload : protocol_quiet (_validate_portable_snapshot_result_extension v payload).
Proof. unfold _validate_portable_snapshot_result_extension. repeat case_match; done. Qed.

Lemma quiet_terminal k payload : unicode_ok (VDict payload) = true -> protocol_quiet (_validate_terminal k payload).
Proof.
  intros Hu. unfold _validate_terminal. cbn [fmap list_fmap]. quiet_checks. apply quiet_result_extension.
Qed.

Lemma quiet_values k payload s : unicode_ok (VDict payload) = true -> protocol_quiet (_validate_values k payload s).1.
Proof.
  intros Hu. destruct k; cbn [_validate_values]; cbn [fst]; try (quiet_checks; fail); [|..|by apply quiet_terminal|by apply quiet_terminal].
  - match goal with |- context [match ?r with Ok _ => _ | Err _ => _ end] => assert (protocol_quiet r) as Hq by quiet_checks; destruct r as [[]|x] end;
      cbn [fst]; [quiet_checks|done].
  - quiet_checks. apply quiet_extension.
Qed.

Lemma quiet_admissible payload d s : protocol_quiet (admissible payload d s).
Proof. unfold admissible, expected_fields, _validate_order. repeat case_match; try done; subst; cbn; repeat case_match; done. Qed.

(** A refused message changes nothing, but that a hello refused for its texts may have set the
    capability. *)
Definition close_to (s s' : ProtocolSession) : Prop :=
  s' = s \/ ps_state s = awaiting_hello /\ exists b, s' = set_capability b s.

Lemma order_allowed k s : _validate_order k s = Ok tt ->
  match ps_state s with
  | awaiting_hello => k = WorkerHello
  | awaiting_start => k = JobStart
  | running => k ∈ [Progress; Heartbeat; Cancel; ResultMessage; ErrorMessage]
  | cancel_requested => k ∈ [Progress; Heartbeat; CancelAck; ResultMessage; ErrorMessage]
  | cancelling => k ∈ [Progress; Heartbeat; ResultMessage; ErrorMessage]
  | terminal_state => False
  end.
Proof.
  unfold _validate_order. destruct (ps_state s); try (case_bool_decide as H; [|done]; intros _; set_solver); by destruct k.
Qed.

Record admitted (payload : pydict) (d : direction) (s : ProtocolSession) (k : message_kind) : Prop := {
  ad_kind : kind_of (dict_item "message_type" payload) = Some k;
  ad_direction : _DIRECTIONS k = d;
  ad_fields : exists fields, expected_fields k payload s = Ok fields /\ same_keys payload (lit <$> fields) = true;
  ad_identity : k <> WorkerHello -> agree_on _IDENTITY payload (ps_identity s) = true;
  ad_order : _validate_order k s = Ok tt;
  ad_start : k ∈ [ResultMessage; ErrorMessage] ->
    exists start, ps_accepted_job_start s = Some start /\ agree_on _START_IDENTITY_FIELDS payload start = true
}.

Lemma admissible_iff payload d s k :
  admissible payload d s = Ok k <->
  py_eq (dict_item "schema_version" payload) (VInt PROTOCOL_VERSION) = true /\
  field_is "message_type" "worker_exit" payload = false /\ admitted payload d s k.
Proof.
  unfold admissible. destruct (py_eq _ _); cbn [negb]; [|naive_solver].
  destruct (field_is _ _ _); [naive_solver|]. split.
  - intros H. split_and!; [done..|]. destruct (kind_of _) as [k'|] eqn:Hk; [|done]. unbind H. injection H as <-.
    apply negb_false_iff, bool_decide_eq_true in Heqb. apply negb_false_iff in Heqb0. destruct x0.
    split; [done|done|eauto| |done|].
    + intros Hn. rewrite (bool_decide_false _ Hn) in Heqb1. cbn [negb andb] in Heqb1. by apply negb_false_iff in Heqb1.
    + intros Hf. rewrite (bool_decide_true _ Hf) in Heqb2. cbn [andb] in Heqb2. destruct (ps_accepted_job_start s) as [start|]; [|done].
      apply negb_false_iff in Heqb2. eauto.
  - intros (_ & _ & [Hk Hd (fields & Hf & Hs) Hi Ho Ht]). rewrite Hk, (bool_decide_true _ Hd), Hf. cbn [negb mbind result_bind].
    rewrite Hs. cbn [negb]. rewrite Ho. cbn [mbind result_bind].
    assert (negb (bool_decide (k = WorkerHello)) && negb (agree_on _IDENTITY payload (ps_identity s)) = false) as ->.
    { case_bool_decide as Hw; [done|]. cbn [negb andb]. by rewrite Hi. }
    case_bool_decide as Hf2; [|done]. destruct (Ht Hf2) as (start & -> & ->). done.
Qed.

Lemma values_session k payload s :
  match _validate_values k payload s with
  | (Err _, s') => s' = s \/ k = WorkerHello /\ exists b, s' = set_capability b s
  | (Ok _, s') => if bool_decide (k = WorkerHello) then exists b, s' = set_capability b s else s' = s
  end.
Proof.
  destruct k; cbn [_validate_values]; [|by repeat case_match; auto..].
  match goal with |- context [match ?r with Ok _ => _ | Err _ => _ end] => destruct r as [[]|] end; [|by left].
  rewrite bool_decide_true by done. case_match; [by eexists|]. right. eauto.
Qed.

Lemma accept_outcome m d s :
  match _accept py m d s with
  | (Err x, s') => close_to s s' /\ forall frame, m = Frame frame -> frame_error x
  | (Ok payload, s') => exists k s1, admissible payload d s = Ok k /\ _validate_values k payload s = (Ok tt, s1) /\
      s' = _advance k payload s1 /\ if bool_decide (k = WorkerHello) then exists b, s1 = set_capability b s else s1 = s
  end.
Proof.
  unfold _accept. set (decoded := match m with Frame _ => _ | Message _ => _ end).
  assert (match decoded with Ok p => forall frame, m = Frame frame -> unicode_ok (VDict p) = true
          | Err x => forall frame, m = Frame frame -> frame_error x end) as Hd.
  { subst decoded. destruct m as [frame|v]; [|by destruct v]. destruct (decode_jsonl py frame _) as [p|x] eqn:E.
    - intros _ _. apply decode_frame_Ok in E. naive_solver.
    - intros _ _. by apply decode_error in E. }
  destruct decoded as [payload|x]; [|split; [by left|done]].
  pose proof (quiet_admissible payload d s) as Hq. destruct (admissible payload d s) as [k|x] eqn:Ha.
  - pose proof (values_session k payload s) as Hv. pose proof (quiet_values k payload s) as Hqv.
    destruct (_validate_values k payload s) as [[[]|x] s'] eqn:Ev; [eauto 10|]. split.
    + destruct Hv as [->|[-> Hb]]; [by left|]. apply admissible_iff in Ha as (_ & _ & Ha). pose proof (order_allowed _ _ (ad_order _ _ _ _ Ha)) as Ho.
      right. split; [|done]. destruct (ps_state s); set_solver.
    + intros frame Hm. specialize (Hqv (Hd frame Hm)). cbn in Hqv. destruct x; [by left; eauto|done..].
  - split; [by left|]. intros frame _. cbn in Hq. destruct x; [by left; eauto|done..].
Qed.

(** ** Conversations *)

Definition report (k : message_kind) : Prop := k = Progress \/ k = Heartbeat.
Definition final (k : message_kind) : Prop := k = ResultMessage \/ k = ErrorMessage.

(** Nothing, or a cancel with reports after it, and perhaps its acknowledgement with more. *)
Definition cancellation (l : list message_kind) : Prop :=
  l = [] \/ exists r2 acked, l = Cancel :: r2 ++ acked /\ Forall report r2 /\
    (acked = [] \/ exists r3, acked = CancelAck :: r3 /\ Forall report r3).

(** A whole conversation: hello, start, reports, perhaps a cancellation, one final message. *)
Definition conversation (l : list message_kind) : Prop :=
  exists r1 c k, l = [WorkerHello; JobStart] ++ r1 ++ c ++ [k] /\ Forall report r1 /\ cancellation c /\ final k.

(** What was said when a session is in a state. *)
Definition said (st : session_state) (l : list message_kind) : Prop :=
  match st with
  | awaiting_hello => l = []
  | awaiting_start => l = [WorkerHello]
  | running => exists r1, l = [WorkerHello; JobStart] ++ r1 /\ Forall report r1
  | cancel_requested => exists r1 r2, l = [WorkerHello; JobStart] ++ r1 ++ Cancel :: r2 /\ Forall report r1 /\ Forall report r2
  | cancelling => exists r1 r2 r3, l = [WorkerHello; JobStart] ++ r1 ++ Cancel :: r2 ++ CancelAck :: r3 /\
      Forall report r1 /\ Forall report r2 /\ Forall report r3
  | terminal_state => conversation l
  end.

Definition next_state (st : session_state) (k : message_kind) : session_state :=
  match k with
  | WorkerHello => awaiting_start | JobStart => running | Cancel => cancel_requested | CancelAck => cancelling
  | ResultMessage | ErrorMessage => terminal_state | Progress | Heartbeat => st
  end.

Lemma report_snoc r k : Forall report r -> report k -> Forall report (r ++ [k]).
Proof. intros. apply Forall_app_2; [done|by constructor]. Qed.

Lemma said_final st l k : st ∈ [running; cancel_requested; cancelling] -> said st l -> final k -> conversation (l ++ [k]).
Proof.
  intros Hst Hs Hk. destruct st; try set_solver; cbn in Hs.
  - destruct Hs as (r1 & -> & H1). exists r1, [], k. split_and!; [by list_simplifier|done|by left|done].
  - destruct Hs as (r1 & r2 & -> & H1 & H2). exists r1, (Cancel :: r2), k.
    split_and!; [by list_simplifier|done| |done]. right. exists r2, []. rewrite app_nil_r. eauto.
  - destruct Hs as (r1 & r2 & r3 & -> & H1 & H2 & H3). exists r1, (Cancel :: r2 ++ CancelAck :: r3), k.
    split_and!; [by list_simplifier|done| |done]. right. exists r2, (CancelAck :: r3). eauto 10.
Qed.

Lemma said_report st l k : st ∈ [running; cancel_requested; cancelling] -> said st l -> report k -> said st (l ++ [k]).
Proof.
  intros Hst Hs Hk. destruct st; try set_solver; cbn in Hs |- *.
  - destruct Hs as (r1 & -> & H1). exists (r1 ++ [k]). split; [done|by apply report_snoc].
  - destruct Hs as (r1 & r2 & -> & H1 & H2). exists r1, (r2 ++ [k]).
    split_and!; [by list_simplifier|done|by apply report_snoc].
  - destruct Hs as (r1 & r2 & r3 & -> & H1 & H2 & H3). exists r1, r2, (r3 ++ [k]).
    split_and!; [by list_simplifier|done|done|by apply report_snoc].
Qed.

Lemma said_next l k s : said (ps_state s) l -> _validate_order k s = Ok tt -> said (next_state (ps_state s) k) (l ++ [k]).
Proof.
  intros Hs Ho%order_allowed. destruct (ps_state s) eqn:E; [| | | | |done].
  1: cbn in Hs. 2: cbn in Hs. 1, 2: subst; try done. 1: exists []; split; [done|constructor].
  all: rewrite !elem_of_cons, elem_of_nil in Ho; destruct_or! Ho; subst; cbn [next_state]; try done;
    try (apply said_report; [set_solver|done|]; by (left + right)); try (eapply said_final; [|exact Hs|]; [set_solver|by (left + right)]).
  - cbn in Hs |- *. destruct Hs as (r1 & -> & H1). exists r1, []. split_and!; [by list_simplifier|done|done].
  - cbn in Hs |- *. destruct Hs as (r1 & r2 & -> & H1 & H2). exists r1, r2, [].
    split_and!; [by list_simplifier|done|done|done].
Qed.

(** What was said so far begins a whole conversation. *)
Lemma said_begins st l : said st l -> exists whole, conversation whole /\ l `prefix_of` whole.
Proof.
  intros Hs. assert (forall l', said running (l ++ l') \/ said cancel_requested (l ++ l') \/ said cancelling (l ++ l') ->
    exists whole, conversation whole /\ l `prefix_of` whole) as Hgo.
  { intros l' H. exists ((l ++ l') ++ [ResultMessage]). split; [|exists (l' ++ [ResultMessage]); by rewrite app_assoc].
    destruct H as [H|[H|H]]; (eapply said_final; [|exact H|by left]; set_solver). }
  destruct st; [apply (Hgo [WorkerHello; JobStart])|apply (Hgo [JobStart])|apply (Hgo [])..|].
  - cbn in Hs. subst. left. exists []. split; [done|constructor].
  - cbn in Hs. subst. left. exists []. split; [done|constructor].
  - rewrite app_nil_r. auto.
  - rewrite app_nil_r. auto.
  - rewrite app_nil_r. auto.
  - exists l. by split.
Qed.

(** ** What a session has accepted *)

(** The messages accepted of those offered. *)
Fixpoint converse (offers : list (offered * direction)) (s : ProtocolSession) : list pydict * ProtocolSession :=
  match offers with
  | [] => ([], s)
  | (m, d) :: rest =>
      match _accept py m d s with
      | (Err _, s) => converse rest s
      | (Ok payload, s) => let '(l, s') := converse rest s in (payload :: l, s')
      end
  end.

Definition says (p : pydict) : option message_kind := kind_of (dict_item "message_type" p).
#[local] Arguments says : simpl never.
#[local] Arguments dict_item : simpl never.
Definition kinds (l : list pydict) : list message_kind := omap says l.

(** The counters of the progress messages. *)
Definition counts (l : list pydict) : list Z :=
  omap (fun p => if bool_decide (says p = Some Progress)
                 then match dict_item "completed" p with VInt n => Some n | _ => None end else None) l.

Record spoke (acc : list pydict) (s : ProtocolSession) : Prop := {
  sp_said : said (ps_state s) (kinds acc);
  sp_kind : forall p, p ∈ acc -> is_Some (says p);
  sp_identity : forall p, p ∈ acc -> says p <> Some WorkerHello -> agree_on _IDENTITY p (ps_identity s) = true;
  sp_start : forall start, ps_accepted_job_start s = Some start ->
    exists js, js ∈ acc /\ says js = Some JobStart /\ start = start_fields js;
  sp_terminal : forall t, ps_terminal s = Some t <-> ps_state s = terminal_state /\ last acc = Some t;
  sp_final : forall t k, t ∈ acc -> says t = Some k -> final k -> status_ok k t = true /\
    exists js, js ∈ acc /\ says js = Some JobStart /\ agree_on _START_IDENTITY_FIELDS t (start_fields js) = true;
  sp_sorted : StronglySorted Z.le (counts acc);
  sp_counts : Forall (fun n => 0 <= n <= ps_completed s) (counts acc);
  sp_completed : 0 <= ps_completed s <= max_counter DEFAULT_LIMITS
}.

Lemma all_hold_true checks : all_hold checks = Ok true -> Forall (fun c => c = Ok true) checks.
Proof. induction checks as [|c rest IH]; [by constructor|]. cbn [all_hold]. destruct c as [[]|]; cbn; [auto|done|done]. Qed.

Lemma require_Ok code checks : require_all code checks = Ok tt -> Forall (fun c => c = Ok true) checks.
Proof.
  unfold require_all. destruct (all_hold checks) as [[]|] eqn:E; cbn; [|done|done]. intros _. by apply all_hold_true.
Qed.

Lemma terminal_status k p : _validate_terminal k p = Ok tt -> status_ok k p = true.
Proof.
  unfold _validate_terminal. intros H. unbind H.
  match goal with G : require_all _ [Ok (status_ok k p)] = Ok ?u |- _ => destruct u; apply require_Ok in G end.
  match goal with G : Forall _ [Ok (status_ok k p)] |- _ => inversion G; subst end. congruence.
Qed.

Lemma advance_fields k p s :
  ps_state (_advance k p s) = next_state (ps_state s) k /\ ps_identity (_advance k p s) = ps_identity s /\
  ps_accepted_job_start (_advance k p s) = (if bool_decide (k = JobStart) then Some (start_fields p) else ps_accepted_job_start s) /\
  ps_terminal (_advance k p s) = (if bool_decide (k ∈ [ResultMessage; ErrorMessage]) then Some p else ps_terminal s) /\
  ps_completed (_advance k p s) = (if bool_decide (k = Progress)
                                   then match dict_item "completed" p with VInt n => n | _ => ps_completed s end
                                   else ps_completed s).
Proof. by destruct s, k. Qed.

Lemma progress_completed p s s1 :
  _validate_values Progress p s = (Ok tt, s1) ->
  exists n, dict_item "completed" p = VInt n /\ ps_completed s <= n <= max_counter DEFAULT_LIMITS.
Proof.
  cbn [_validate_values]. intros [= H _]. unbind H. destruct x. apply require_Ok in H0. inversion H0 as [|? ? Hn]; subst.
  injection Hn as Hn. destruct (dict_item "completed" p); try done. cbv iota beta in Hn. eexists. split; [done|]. cbn [max_counter DEFAULT_LIMITS]. lia.
Qed.

Lemma kinds_snoc acc p k : says p = Some k -> kinds (acc ++ [p]) = kinds acc ++ [k].
Proof. intros H. unfold kinds. rewrite omap_app. cbn. by rewrite H. Qed.

Lemma counts_snoc acc p : says p <> Some Progress -> counts (acc ++ [p]) = counts acc.
Proof. intros H. unfold counts. rewrite omap_app. cbn. rewrite bool_decide_false by done. apply app_nil_r. Qed.

Lemma counts_progress acc p n : says p = Some Progress -> dict_item "completed" p = VInt n -> counts (acc ++ [p]) = counts acc ++ [n].
Proof. intros H Hn. unfold counts. rewrite omap_app. cbn. rewrite bool_decide_true by done. by rewrite Hn. Qed.

Lemma sorted_snoc l n : StronglySorted Z.le l -> Forall (fun m => m <= n) l -> StronglySorted Z.le (l ++ [n]).
Proof.
  induction 1 as [|m l Hs IH Hm]; intros Hn; [repeat constructor|]. inversion Hn; subst. cbn. constructor; [auto|].
  apply Forall_app_2; [done|by constructor].
Qed.

Lemma final_in k : k ∈ [ResultMessage; ErrorMessage] <-> final k.
Proof. rewrite !elem_of_cons, elem_of_nil. unfold final. naive_solver. Qed.

(** A refusal keeps what was accepted. *)
Lemma spoke_close acc s s' : spoke acc s -> close_to s s' -> spoke acc s'.
Proof. intros H [->|[_ [b ->]]]; [done|]. destruct H. by split. Qed.

(** An accepted message is counted in. *)
Lemma spoke_counts acc p k s s1 :
  spoke acc s -> says p = Some k -> _validate_values k p s = (Ok tt, s1) -> ps_completed s1 = ps_completed s ->
  StronglySorted Z.le (counts (acc ++ [p])) /\ Forall (fun n => 0 <= n <= ps_completed (_advance k p s1)) (counts (acc ++ [p])) /\
  0 <= ps_completed (_advance k p s1) <= max_counter DEFAULT_LIMITS.
Proof.
  intros [_ _ _ _ _ _ Hs Hc Hm] Hk Hv Hsame. destruct (advance_fields k p s1) as (_ & _ & _ & _ & ->).
  destruct (decide (k = Progress)) as [->|Hn].
  - rewrite bool_decide_true by done. destruct (progress_completed p s s1 Hv) as (n & Hn & Hb). rewrite Hn.
    rewrite (counts_progress acc p n) by done. split_and!; [|apply Forall_app_2|lia|lia].
    + apply sorted_snoc; [done|]. eapply Forall_impl; [exact Hc|]. cbn. lia.
    + eapply Forall_impl; [exact Hc|]. cbn. lia.
    + constructor; [lia|constructor].
  - rewrite bool_decide_false by done. rewrite counts_snoc by congruence. by rewrite Hsame.
Qed.

Lemma spoke_accept acc m d s p s' : spoke acc s -> _accept py m d s = (Ok p, s') -> spoke (acc ++ [p]) s'.
Proof.
  intros Hsp Ha. pose proof (accept_outcome m d s) as H. rewrite Ha in H. destruct H as (k & s1 & Had & Hv & -> & Hs1).
  apply admissible_iff in Had as (_ & _ & [Hk Hd Hf Hid Ho Hst]). change (says p = Some k) in Hk.
  assert (ps_state s1 = ps_state s /\ ps_identity s1 = ps_identity s /\ ps_accepted_job_start s1 = ps_accepted_job_start s /\
          ps_terminal s1 = ps_terminal s /\ ps_completed s1 = ps_completed s) as (E1 & E2 & E3 & E4 & E5).
  { case_bool_decide; [destruct Hs1 as [b ->]|subst s1]; done. }
  destruct (spoke_counts acc p k s s1 Hsp Hk Hv E5) as (C1 & C2 & C3). destruct Hsp as [S1 S0 S2 S3 S4 S5 _ _ _].
  destruct (advance_fields k p s1) as (A1 & A2 & A3 & A4 & _). rewrite E1 in A1. rewrite E2 in A2. rewrite E3 in A3. rewrite E4 in A4.
  assert (forall js, js ∈ acc -> js ∈ acc ++ [p]) as Hmono by set_solver.
  split; [..|exact C1|exact C2|exact C3].
  - rewrite A1, (kinds_snoc acc p k Hk). by apply said_next.
  - intros q [Hq|Hq%list_elem_of_singleton]%elem_of_app; [by apply S0|]. subst q. eauto.
  - rewrite A2. intros q [Hq|Hq%list_elem_of_singleton]%elem_of_app Hn; [by apply S2|]. subst q. apply Hid. congruence.
  - rewrite A3. intros start Hstart. case_bool_decide as Hj.
    + injection Hstart as <-. exists p. subst k. set_solver.
    + destruct (S3 _ Hstart) as (js & Hjs & Hkj & ->). eauto.
  - rewrite A4, A1, last_snoc. intros t. pose proof (order_allowed k s Ho) as Hal. destruct (S4 t) as [St _].
    case_bool_decide as Hfin; rewrite final_in in Hfin.
    + assert (next_state (ps_state s) k = terminal_state) as -> by (by destruct Hfin; subst). naive_solver.
    + split; [intros [Hx _]%St; by rewrite Hx in Hal|]. intros [Hx _]. exfalso. unfold final in Hfin.
      destruct k; cbn in Hx; try done; try (by rewrite Hx in Hal); naive_solver.
  - intros t k' [Ht|Ht%list_elem_of_singleton]%elem_of_app Hkt Hfin.
    + destruct (S5 t k' Ht Hkt Hfin) as [Hok (js & ? & ? & ?)]. split; [done|]. eauto.
    + subst t. assert (k' = k) as -> by congruence.
      pose proof (proj2 (final_in k) Hfin) as Hin.
      split; [destruct Hfin; subst; cbn [_validate_values] in Hv; injection Hv as Hv _; by apply terminal_status|].
      destruct (Hst Hin) as (start & Hstart & Hag). destruct (S3 _ Hstart) as (js & Hjs & Hkj & ->). eauto.
Qed.

Lemma spoke_converse offers acc s : spoke acc s -> spoke (acc ++ (converse offers s).1) (converse offers s).2.
Proof.
  revert acc s. induction offers as [|[m d] rest IH]; intros acc s Hs; cbn [converse]; [by rewrite app_nil_r|].
  destruct (_accept py m d s) as [[p|x] s'] eqn:E.
  - specialize (IH _ _ (spoke_accept _ _ _ _ _ _ Hs E)). destruct (converse rest s') as [l s2]. cbn [fst snd] in *.
    by rewrite <- app_assoc in IH.
  - pose proof (accept_outcome m d s) as H. rewrite E in H. apply IH. by apply (spoke_close acc s), H.
Qed.

Lemma fresh_session identity s : make_session identity = Ok s -> spoke [] s /\ ps_identity s = identity.
Proof.
  unfold make_session. intros H. unbind H. destruct (dict_item "attempt" identity); try done. unbind H. injection H as <-.
  split; [|done]. split; cbn [ps_state ps_accepted_job_start ps_terminal ps_completed]; try done; try set_solver.
  all: repeat constructor; try done.
Qed.

Lemma converse_identity offers s acc s' : converse offers s = (acc, s') -> ps_identity s' = ps_identity s.
Proof.
  revert s acc. induction offers as [|[m d] rest IH]; intros s acc; cbn [converse]; [by intros [= _ <-]|].
  pose proof (accept_outcome m d s) as H. destruct (_accept py m d s) as [[p|x] s1].
  - destruct H as (k & s2 & _ & _ & -> & Hs2). destruct (converse rest _) as [l s3] eqn:E. intros [= _ <-]. apply IH in E as ->.
    destruct (advance_fields k p s2) as (_ & -> & _). case_bool_decide; [by destruct Hs2 as [b ->]|by subst].
  - intros E. apply IH in E as ->. destruct H as [[->|[_ [b ->]]] _]; done.
Qed.

(** The last message of a whole conversation is its final one. *)
Lemma conversation_last acc l t : conversation (kinds acc) -> acc = l ++ [t] -> (forall p, p ∈ acc -> is_Some (says p)) ->
  exists k, says t = Some k /\ final k.
Proof.
  intros (r1 & c & k & E & _ & _ & Hk) -> Hs. destruct (Hs t) as [k' Hk']; [set_solver|].
  rewrite (kinds_snoc l t k' Hk') in E. rewrite !app_assoc in E. apply app_inj_tail in E as [_ ->]. eauto.
Qed.

Lemma field_is_unique k a b t : field_is k a t = true -> field_is k b t = true -> lit a = lit b.
Proof.
  unfold field_is, is_str_value. destruct (dict_item k t); try done. by intros <-%bool_decide_eq_true <-%bool_decide_eq_true.
Qed.

Ltac differ H1 H2 := exfalso; pose proof (field_is_unique _ _ _ _ H1 H2) as Hdiffer; vm_compute in Hdiffer; discriminate Hdiffer.

Lemma in_statuses t a b : _in_vocabulary (dict_item "status" t) [lit a; lit b] = true ->
  field_is "status" a t = true \/ field_is "status" b t = true.
Proof.
  unfold _in_vocabulary, str_in, field_is, is_str_value. destruct (dict_item "status" t); try done.
  rewrite !bool_decide_eq_true, !elem_of_cons, elem_of_nil. naive_solver.
Qed.

(** A message that says it succeeded. *)
Lemma status_succeeded k t : final k -> status_ok k t = true ->
  (field_is "status" "succeeded" t = true ->
     k = ResultMessage /\ field_is "publication_state" (if has_extension t then "not_started" else "committed") t = true) /\
  (field_is "publication_state" "committed" t = true -> field_is "status" "succeeded" t = true).
Proof.
  unfold status_ok. intros [-> | ->].
  - rewrite !andb_true_iff, !orb_true_iff, !negb_true_iff. intros (((Hv & _) & Hs) & Hc). split.
    + intros H. destruct Hs as [Hs|Hs]; [congruence|done].
    + intros H. apply in_statuses in Hv as [Hv|Hv]; [done|]. destruct Hc as [[Hc|Hc]|Hc]; [congruence|..]; differ H Hc.
  - rewrite !andb_true_iff. intros ((Hf & _) & Hp). split; intros H; [differ H Hf|].
    destruct (has_extension t); [differ H Hp|by rewrite H in Hp].
Qed.


(** ** Refusals *)

Lemma hello_admitted payload d s b : ps_state s = awaiting_hello ->
  (exists k, admissible payload d s = Ok k /\ k = WorkerHello /\ admissible payload d (set_capability b s) = Ok k) \/
  (exists x y, admissible payload d s = Err x /\ admissible payload d (set_capability b s) = Err y).
Proof.
  intros Hst. assert (forall c k, admissible payload d (set_capability c s) = Ok k -> k = WorkerHello /\
                        forall c', admissible payload d (set_capability c' s) = Ok k) as Hgo.
  { intros c k (H1 & H2 & [Hk Hd Hf Hi Ho Ht])%admissible_iff. pose proof (order_allowed _ _ Ho) as Hal.
    cbn [ps_state set_capability] in Hal. rewrite Hst in Hal. subst k. split; [done|]. intros c'. apply admissible_iff. by split_and!. }
  assert (s = set_capability (ps_capability s) s) as Hs by by destruct s.
  destruct (admissible payload d s) as [k|x] eqn:E.
  - left. exists k. rewrite Hs in E. apply Hgo in E as [-> E]. naive_solver.
  - right. destruct (admissible payload d (set_capability b s)) as [k|y] eqn:E'; [|eauto].
    apply Hgo in E' as [_ E']. rewrite Hs, E' in E. done.
Qed.

Lemma hello_values payload s b :
  (_validate_values WorkerHello payload (set_capability b s)).1 = (_validate_values WorkerHello payload s).1 /\
  forall u, (_validate_values WorkerHello payload s).1 = Ok u ->
    (_validate_values WorkerHello payload (set_capability b s)).2 = (_validate_values WorkerHello payload s).2.
Proof.
  cbn [_validate_values]. match goal with |- context [match ?r with Ok _ => _ | Err _ => _ end] => destruct r as [[]|x] end;
    cbn [fst snd]; [|done]. split; [done|]. by destruct s.
Qed.

(** Sessions that differ in the capability only, before the hello, accept the same. *)
Lemma accept_close m d s s' : close_to s s' ->
  match _accept py m d s, _accept py m d s' with
  | (Ok p, t), (Ok p', t') => p = p' /\ t' = t
  | (Err _, t), (Err _, t') => close_to t t'
  | _, _ => False
  end.
Proof.
  intros [->|[Hst [b ->]]]; [destruct (_accept py m d s) as [[]]; [done|by left]|].
  pose proof (accept_outcome m d s) as Ho. pose proof (accept_outcome m d (set_capability b s)) as Ho'.
  assert (forall t t', close_to s t -> close_to (set_capability b s) t' -> close_to t t') as Hclose.
  { intros t t' Ht Ht'. right.
    destruct Ht as [->|[_ [c ->]]], Ht' as [->|[_ [c' ->]]]; (split; [done|]; eexists; reflexivity || (by destruct s)). }
  revert Ho Ho'. unfold _accept. destruct (match m with Frame _ => _ | Message _ => _ end) as [payload|x]; [|intros; right; eauto].
  destruct (hello_admitted payload d s b Hst) as [(k & -> & -> & ->)|(x & y & -> & ->)]; [|intros; right; eauto].
  destruct (hello_values payload s b) as [H1 H2].
  destruct (_validate_values WorkerHello payload s) as [r t], (_validate_values WorkerHello payload (set_capability b s)) as [r' t'].
  cbn [fst snd] in *. subst r'. destruct r as [u|x]; intros Ho Ho'; [by rewrite (H2 u)|].
  by apply Hclose; [apply Ho|apply Ho'].
Qed.

(** The accepted messages, offered again. *)
Definition replay (acc : list pydict) : list (offered * direction) :=
  (fun p => (Message (VDict p), match says p with Some k => _DIRECTIONS k | None => FromWorker end)) <$> acc.

Lemma accept_replay m d s p t : _accept py m d s = (Ok p, t) ->
  _accept py (Message (VDict p)) (match says p with Some k => _DIRECTIONS k | None => FromWorker end) s = (Ok p, t).
Proof.
  intros E. pose proof (accept_outcome m d s) as H. rewrite E in H. destruct H as (k & s1 & Ha & Hv & -> & _).
  apply admissible_iff in Ha as Had. destruct Had as (_ & _ & [Hk Hd _ _ _ _]). unfold says. rewrite Hk, Hd.
  unfold _accept. by rewrite Ha, Hv.
Qed.

(** C32. Refusals leave no trace: a frame is refused with an error of the protocol, or with the
    [RecursionError] of the interpreter when it nests too deeply to be read, and then the session
    is untouched; and after any offers the session is what the accepted messages alone make it, up to the
    capability a refused hello announced, which the next hello decides anew. *)
Theorem refusals_leave_no_trace :
  (forall frame d s x s', _accept py (Frame frame) d s = (Err x, s') ->
     (exists code, x = ProtocolError code) \/
     x = ProtocolRecursionError /\ decode_jsonl py frame MAX_JSONL_LINE_BYTES = Err x /\ s' = s) /\
  (forall offers s0 acc s, converse offers s0 = (acc, s) ->
     exists s', converse (replay acc) s0 = (acc, s') /\
       (s = s' \/ ps_state s' = awaiting_hello /\ exists b, s = set_capability b s')).
Proof.
  split.
  - intros frame d s x s' E. pose proof (accept_outcome (Frame frame) d s) as H. rewrite E in H.
    destruct (proj2 H frame eq_refl) as [Hx| ->]; [by left|right]. split; [done|]. unfold _accept in E.
    destruct (decode_jsonl py frame _) as [p|y] eqn:Ed; [|by simplify_eq]. apply decode_frame_Ok in Ed as (_ & _ & Hu).
    pose proof (quiet_admissible p d s) as Hq. destruct (admissible p d s) as [k|]; [|by simplify_eq].
    pose proof (quiet_values k p s Hu) as Hv. destruct (_validate_values k p s) as [[]]; by simplify_eq.
  - intros offers s0 acc s. assert (close_to s0 s0) as Hc by by left. revert Hc. generalize s0 at 2 3. intros s1. revert s0 s1 acc.
    induction offers as [|[m d] rest IH]; intros s0 s1 acc Hc; cbn [converse]; [intros [= <- <-]; by exists s0|].
    pose proof (accept_close m d s0 s1 Hc) as Hk. pose proof (accept_outcome m d s1) as Ho.
    destruct (_accept py m d s0) as [[p|x] t] eqn:E, (_accept py m d s1) as [[p'|x'] t'] eqn:E'; try done.
    + destruct Hk as [<- ->]. destruct (converse rest t) as [l s2] eqn:El. intros [= <- <-].
      destruct (IH t t l ltac:(by left) El) as (s' & Hs' & Hd). exists s'. split; [|done].
      change (replay (p :: l)) with (replay [p] ++ replay l). cbn [replay fmap list_fmap app converse].
      rewrite (accept_replay _ _ _ _ _ E). by rewrite Hs'.
    + intros El. destruct (IH s0 t' acc) as (s' & Hs' & Hd); [|done|by exists s'].
      destruct Ho as [Ho _], Hc as [->|[Hst [b ->]]]; [done|]. right. split; [done|]. destruct Ho as [->|[_ [c ->]]]; eauto.
Qed.

End Session.

(** ** Witnesses *)

#[local] Existing Instance ascii_only.

(** No floats, and room for twenty levels. *)
Definition sample_python : interpreter := {| py_float := fun _ => VNone; py_stack := 20 |}.
Definition sample_identity : pydict := [(lit "job_id", VStr (lit "job-1")); (lit "attempt", VInt 1)].
Definition text_field (k v : string) : pystr * pyval := (lit k, VStr (lit v)).
Definition sample_message (k : string) (rest : pydict) : pydict :=
  ([(lit "schema_version", VInt 1); text_field "message_type" k] ++ rest)%list.
Definition sample_hello : pydict :=
  sample_message "worker_hello"
    [(lit "protocol_versions", VList [VInt 1]); text_field "worker_generation" "w1";
     (lit "capabilities", VList [VStr (lit "refresh_graph")]); text_field "process_nonce" "n1"].
Definition sample_job : pydict :=
  [text_field "job_kind" "refresh_graph"; text_field "graph_id" "g1"; text_field "source_generation" "sg1:a";
   text_field "config_generation" "cg1:b"].
Definition sample_start : pydict := sample_message "job_start" (sample_identity ++ sample_job)%list.
Definition sample_result : pydict :=
  sample_message "result" (sample_identity ++ sample_job ++
    [text_field "status" "succeeded"; text_field "started_at" "2024-01-01T00:00:00Z";
     text_field "finished_at" "2024-01-01T00:00:01.5Z"; text_field "phase" "complete"; (lit "files", VInt 1);
     (lit "observations", VInt 2); (lit "canonical_nodes", VInt 3); (lit "canonical_edges", VInt 4);
     (lit "warnings", VList []); (lit "diagnostics", VList []); text_field "publication_state" "committed";
     text_field "latest_run_identity" "run-1"; text_field "extractor_generation" "eg1:c";
     text_field "canonicalizer_generation" "kg1:d"; (lit "retryable", VBool false); (lit "error_category", VNone)])%list.
Definition sample_frame (d : pydict) : list Z := match encode_jsonl sample_python (VDict d) 4096 with Ok f => f | Err _ => [] end.
Definition sample_offers : list (offered * direction) :=
  [(Frame (lit "noise"), FromWorker); (Frame (sample_frame sample_hello), FromWorker);
   (Message (VDict sample_result), FromWorker); (Message (VDict sample_start), FromCoordinator);
   (Frame (sample_frame sample_result), FromWorker); (Message (VDict sample_result), FromWorker)].

Lemma frame_roundtrip_witness :
  exists frame d', encode_jsonl sample_python (VDict sample_result) 4096 = Ok frame /\ json_norm (VDict sample_result) = VDict d' /\
    decode_jsonl sample_python frame 4096 = Ok d'.
Proof.
  assert (json_clean (VDict sample_result) = true) as Hc by (vm_compute; reflexivity).
  assert (0 < 4096 <= MAX_JSONL_LINE_BYTES) as Hl by (vm_compute; split; [reflexivity|discriminate]).
  pose proof (proj1 (frame_roundtrip sample_python) sample_result 4096 Hc Hl) as H.
  assert (Nat.ltb (py_stack sample_python) (nesting (VDict sample_result)) = false) as Hd by (vm_compute; reflexivity).
  rewrite Hd in H.
  assert ((Z.of_nat (length (dumps compact_style (VDict sample_result))) <? 4096) = true) as Hn by (vm_compute; reflexivity).
  rewrite Hn in H. exact H.
Defined.


Lemma refusals_leave_no_trace_witness :
  exists s0 acc s, make_session sample_identity = Ok s0 /\ converse sample_python sample_offers s0 = (acc, s) /\
    length acc = 3%nat /\ exists s', converse sample_python (replay acc) s0 = (acc, s') /\
       (s = s' \/ ps_state s' = awaiting_hello /\ exists b, s = set_capability b s').
Proof.
  destruct (make_session sample_identity) as [s0|x] eqn:E0; [|vm_compute in E0; discriminate E0].
  destruct (converse sample_python sample_offers s0) as [acc s] eqn:E. exists s0, acc, s.
  pose proof (proj2 (refusals_leave_no_trace sample_python) sample_offers s0 acc s E) as H.
  split; [reflexivity|]. split; [exact E|]. split; [|exact H].
  vm_compute in E0. injection E0 as <-. vm_compute in E. injection E as <- <-. reflexivity.
Defined.
