(* ===== verification/WorkerRun.v ===== *)
(** Running a worker: [coordinator/_protocol_execution.py], the diagnostics of
    [coordinator/_protocol_validation.py] and the process boundary of
    [coordinator/process_supervision.py].

    One thread waits on the process with polls and pauses while two others read its output.
    What the operating system and the other threads do is a sequence of moments, one drawn by
    every call that can see them: the lines and diagnostics read until then, the clock, whether
    the process was seen to have exited, and so on.  The clock is what was slept plus the time
    spent otherwise, in microseconds; the floats of the limits are taken as exact.  Closing a
    pipe that a thread reads may wait for ever, and the model says so; the two messages written
    to the worker are taken to fit its input pipe, whose reader need not be quick. *)
From S2P Require Import Prelude Utf8 PyVal Ordering Json CanonCore Limits Regex Contracts ExternalSort StagingChecksums StagingFamilies Artifacts.
From S2P Require Import WorkerProtocol WorkerProtocolFacts.
Open Scope Z_scope.

(** ** Diagnostics *)

(** The character the bytes begin with, and how many bytes it takes. *)
Definition decode_first (bs : list Z) : option (Z * nat) :=
  let try_len n := match utf8_decode (take n bs) with Some [c] => Some (c, n) | _ => None end in
  foldr (fun n other => match try_len n with Some r => Some r | None => other end) None [1; 2; 3; 4]%nat.

(** [bs.decode("utf-8", errors="ignore")]: what does not begin a character is dropped a byte at a
    time, which drops what the decoder drops at once, whose later bytes begin nothing. *)
Fixpoint decode_ignore (fuel : nat) (bs : list Z) : pystr :=
  match fuel, bs with
  | S fuel, b :: rest =>
      match decode_first bs with
      | Some (c, n) => c :: decode_ignore fuel (drop n bs)
      | None => decode_ignore fuel rest
      end
  | _, _ => []
  end.

Section Diagnostics.
Context {U : Unicode}.

(** At a line's start, where [re.MULTILINE] matches, a search finds the break before it as well. *)
Definition blank_or_start : re := Or Bol (Cls isspace).
Definition not_spaces : re := Cat (Cls (fun c => negb (isspace c))) (Rep (fun c => negb (isspace c)) None).

Definition _SENSITIVE_DIAGNOSTIC : re :=
  Ors (word_ci "traceback")
    [Cats [Ors (words "password" ["token"; "secret"]) [Cats [word_ci "api"; Opt (one_of (lit "_-")); word_ci "key"]];
           spaces; one_of (lit ":=")];
     Cats [word_ci "authorization"; spaces; one_of (lit ":"); spaces; word_ci "bearer"];
     Cats [word_ci "postgres"; Opt (word_ci "ql"); word_ci "://"];
     Cats [WordB; words "select" ["insert"; "update"; "delete"; "drop"; "alter"; "truncate"; "copy"]; WordB];
     Cats [word_ci "raw"; Opt (one_of (lit "_ -")); word_ci "observation"];
     Cats [blank_or_start; one_of (lit "/"); not_spaces];
     Cats [blank_or_start; Cls letter_ci; one_of (lit ":"); one_of [92]; not_spaces]].

Definition decode_text (bs : list Z) : pystr := decode_ignore (length bs) bs.
Definition REDACTED : pystr := lit "worker diagnostic redacted" ++ [10].

(** The retained text, the number of bytes, and whether some were dropped.  The text of decoded
    bytes has an encoding. *)
Definition retain_stderr (chunks : list (list Z)) (max_bytes : Z) : pres (pystr * Z * bool) :=
  if max_bytes <? 0 then Err (ProtocolValueError "max_bytes must be a non-negative integer")
  else if MAX_RETAINED_DIAGNOSTIC_BYTES <? max_bytes
  then Err (ProtocolValueError "max_bytes exceeds the 64 KiB hard ceiling")
  else
    let limit := Z.to_nat max_bytes in
    let retained := foldl (fun kept chunk => kept ++ take (limit - length kept) chunk) [] chunks in
    let total := Z.of_nat (length (concat chunks)) in
    let text := decode_text retained in
    let text := if search _SENSITIVE_DIAGNOSTIC text then REDACTED else text in
    let encoded := take limit (default [] (utf8_encode text)) in
    Ok (decode_text encoded, total, max_bytes <? total).

(** ** The world *)

Record moment := {
  m_lines : list (Z * list Z);          (** lines [readline] gave of the worker's output, with the time *)
  m_stderr : list (list Z);             (** chunks read from its diagnostics *)
  m_elapsed : Z;                        (** the clock, without what was slept *)
  m_exit : option Z;                    (** the exit code, once [poll] or [wait] would see it *)
  m_cancel : bool;                      (** [cancel_event.is_set()] *)
  m_probe : bool;                       (** [_timeout_probe()] *)
  m_input_open : bool;                  (** a write to the worker's input succeeds *)
  m_tree : bool;                        (** [tree_exists()] *)
  m_reading : bool;                     (** one of the reading threads is alive *)
  m_held : bool;                        (** that thread waits for ever on a pipe that a process outside the tree keeps open *)
}.

Inductive action := Wrote (bytes : list Z) | CloseInput | Terminate | Kill | CloseOutput | CloseBoundary.

Record run_state := MkRun {
  rs_moment : nat;
  rs_slept : Z;
  rs_session : ProtocolSession;
  rs_messages : list pydict;
  rs_error : option string;             (** the code in [stdout_state["error"]] *)
  rs_hello : bool;
  rs_heartbeat_at : option Z;
  rs_reading : bool;                    (** nothing else than a [ProtocolError] ended the reader *)
  rs_retained : list Z;
  rs_total : Z;
  rs_returncode : option Z;
  rs_log : list action
}.

Record run_limits := {
  process_deadline : Z; heartbeat_deadline : Z; hello_deadline : Z; cancel_after : Z; cancel_grace : Z;
  termination_grace : Z; diagnostic_limit : Z; line_limit : Z; message_limit : Z
}.

(** ** The reading threads *)

Section Run.
Variable py : interpreter.
Variable limits : run_limits.

(** One line of [_read_worker_stdout]. *)
Definition read_line (at_frame : Z * list Z) (s : run_state) : run_state :=
  let '(MkRun i sl ss ms err h hb rd rt t rc lg) := s in
  if negb rd || bool_decide (is_Some err) then s
  else
    match accept_worker py (Frame at_frame.2) ss with
    | (Err (ProtocolError code), ss) => MkRun i sl ss ms (Some code) h hb rd rt t rc lg
    | (Err _, ss) => MkRun i sl ss ms err h hb false rt t rc lg
    | (Ok message, ss) =>
        let h := if field_is "message_type" "worker_hello" message then true else h in
        let hb := if field_is "message_type" "progress" message || field_is "message_type" "heartbeat" message
                  then Some at_frame.1 else hb in
        if field_is "message_type" "heartbeat" message then MkRun i sl ss ms err h hb rd rt t rc lg
        else if message_limit limits <=? Z.of_nat (length ms) then MkRun i sl ss ms (Some "message_limit") h hb rd rt t rc lg
        else MkRun i sl ss (ms ++ [message]) err h hb rd rt t rc lg
    end.

(** One chunk of [_read_worker_stderr]. *)
Definition read_diagnostics (chunk : list Z) (s : run_state) : run_state :=
  let '(MkRun i sl ss ms err h hb rd rt t rc lg) := s in
  MkRun i sl ss ms err h hb rd (rt ++ take (Z.to_nat (diagnostic_limit limits) - length rt) chunk)
    (t + Z.of_nat (length chunk)) rc lg.

Definition let_threads (m : moment) (s : run_state) : run_state :=
  foldl (fun s c => read_diagnostics c s) (foldl (fun s f => read_line f s) s (m_lines m)) (m_stderr m).

(** ** What the waiting thread does *)

(** Two of them are no exceptions of the code: [Hung], the thread waits and never goes on;
    [OutOfTurns], a loop of the model was given too few turns. *)
Inductive run_exn := Raised (x : protocol_exn) | Hung | OutOfTurns.

Variable world : nat -> moment.

Definition rio (A : Type) : Type := run_state -> result run_exn A * run_state.
#[global] Instance rio_ret : MRet rio := fun A a s => (Ok a, s).
#[global] Instance rio_bind : MBind rio := fun A B f m s =>
  match m s with (Ok a, s) => f a s | (Err x, s) => (Err x, s) end.
Definition rio_raise {A} (x : run_exn) : rio A := fun s => (Err x, s).
Definition rio_modify (f : run_state -> run_state) : rio unit := fun s => (Ok tt, f s).
Definition look {A} (f : run_state -> A) : rio A := fun s => (Ok (f s), s).

Definition next_moment (s : run_state) : run_state :=
  let '(MkRun i sl ss ms err h hb rd rt t rc lg) := s in MkRun (S i) sl ss ms err h hb rd rt t rc lg.
Definition draw : rio moment := fun s => let m := world (rs_moment s) in (Ok m, let_threads m (next_moment s)).

Definition act (a : action) : rio unit :=
  rio_modify (fun '(MkRun i sl ss ms err h hb rd rt t rc lg) => MkRun i sl ss ms err h hb rd rt t rc (lg ++ [a])).

(** A field another thread may change is read at a moment of its own. *)
Definition rio_observe {A} (f : run_state -> A) : rio A := _ ← draw; look f.

Definition monotonic : rio Z := m ← draw; slept ← look rs_slept; mret (slept + m_elapsed m).

Definition sleep (duration : Z) : rio unit :=
  _ ← draw;
  rio_modify (fun '(MkRun i sl ss ms err h hb rd rt t rc lg) => MkRun i (sl + duration) ss ms err h hb rd rt t rc lg).

(** [Popen.poll], which remembers the exit code. *)
Definition poll_exit : rio (option Z) :=
  m ← draw;
  _ ← rio_modify (fun '(MkRun i sl ss ms err h hb rd rt t rc lg) =>
        MkRun i sl ss ms err h hb rd rt t (match rc with Some code => Some code | None => m_exit m end) lg);
  look rs_returncode.
Definition exited : rio bool := code ← poll_exit; mret (bool_decide (is_Some code)).

(** [_wait], [_bounded_wait]: [wait] sees the exit in time or raises [TimeoutExpired]. *)
Definition _bounded_wait (timeout : Z) : rio bool := exited.

(** [_wait_boundary], within the turns its timeout allows. *)
Definition BOUNDARY_PAUSE : Z := 10000.
Fixpoint wait_tree (fuel : nat) (deadline : Z) : rio unit :=
  match fuel with
  | O => rio_raise OutOfTurns
  | S fuel =>
      m ← draw;
      if m_tree m : bool then now ← monotonic;
        if now <? deadline then _ ← sleep BOUNDARY_PAUSE; wait_tree fuel deadline else mret tt
      else mret tt
  end.
Definition turns (duration pause : Z) : nat := Z.to_nat (duration / pause) + 2.
Definition _wait_boundary (timeout : Z) : rio bool :=
  now ← monotonic;
  _ ← wait_tree (turns timeout BOUNDARY_PAUSE) (now + timeout);
  m ← draw; mret (negb (m_tree m)).

(** [ManagedProcess.cleanup] *)
Definition cleanup_process (term_timeout kill_timeout : Z) : rio bool :=
  gone ← exited;
  _ ← (if gone : bool then mret tt
       else _ ← act Terminate;
            waited ← _bounded_wait term_timeout;
            if waited : bool then mret tt else _ ← act Kill; _ ← _bounded_wait kill_timeout; mret tt);
  m ← draw;
  _ ← (if m_tree m : bool then _ ← act Kill; _ ← _wait_boundary kill_timeout; mret tt else mret tt);
  gone ← exited;
  m ← draw;
  _ ← act CloseBoundary;
  mret (gone && negb (m_tree m)).

(** ** Messages of the coordinator *)

Definition sent (k : string) (fields : pydict) : pydict := [(lit "schema_version", VInt 1); (lit "message_type", VStr (lit k))] ++ fields.
Definition DEFAULT_CONTEXT : pydict :=
  [(lit "graph_id", VStr (lit "synthetic-graph")); (lit "source_generation", VStr (lit "sg1:synthetic"));
   (lit "config_generation", VStr (lit "cg1:synthetic"))].

Definition _job_start (identity : pydict) (context : option pydict) : pres pydict :=
  let selected := match context with None | Some [] => DEFAULT_CONTEXT | Some c => c end in
  let base := lit <$> ["graph_id"; "source_generation"; "config_generation"] in
  if negb (same_keys selected base) && negb (same_keys selected (base ++ [lit _PORTABLE_SNAPSHOT_FIELD]))
  then Err (ProtocolError "invalid_job_context")
  else Ok (sent "job_start" (identity ++ [(lit "job_kind", VStr (lit "refresh_graph"))] ++ selected)).

Definition _cancel (identity : pydict) : pydict := sent "cancel" identity.

Definition _worker_exit (identity : pydict) (exit_code : option Z) (reason : string) : pydict :=
  sent "worker_exit" (identity ++ [(lit "exit_code", match exit_code with Some c => VInt c | None => VNone end);
                                   (lit "reason", VStr (lit reason))]).

(** The messages are accepted one by one, then encoded. *)
Fixpoint accept_all (messages : list pydict) (frames : list Z) (session : ProtocolSession) : pres (list Z) * ProtocolSession :=
  match messages with
  | [] => (Ok frames, session)
  | m :: rest =>
      match accept_coordinator py (Message (VDict m)) session with
      | (Err x, session) => (Err x, session)
      | (Ok _, session) =>
          match encode_jsonl py (VDict m) MAX_JSONL_LINE_BYTES with
          | Err x => (Err x, session)
          | Ok frame => accept_all rest (frames ++ frame) session
          end
      end
  end.

Definition set_session (session : ProtocolSession) : rio unit :=
  rio_modify (fun '(MkRun i sl ss ms err h hb rd rt t rc lg) => MkRun i sl session ms err h hb rd rt t rc lg).

(** With the lock held, so that no line is accepted in between. *)
Definition _send_coordinator (message : pydict) (following : list pydict) : rio bool :=
  m ← draw;
  session ← look rs_session;
  if field_is "message_type" "cancel" message && bool_decide (is_Some (ps_terminal session)) then mret false
  else
    let '(frames, session) := accept_all (message :: following) [] session in
    _ ← set_session session;
    match frames with
    | Err x => rio_raise (Raised x)
    | Ok bytes =>
        if m_input_open m : bool then _ ← act (Wrote bytes); mret true
        else rio_raise (Raised (ProtocolError "worker_input_closed"))
    end.

(** ** The loops *)

Record run_outcome := MkOutcome {
  oc_reason : option string; oc_process_timed_out : bool; oc_heartbeat_timed_out : bool; oc_hello_timed_out : bool
}.
Definition undisturbed : run_outcome := MkOutcome None false false false.

Definition PAUSE : Z := 5000.

(** Until the hello. *)
Fixpoint await_hello (fuel : nat) (started_at : Z) : rio run_outcome :=
  match fuel with
  | O => rio_raise OutOfTurns
  | S fuel =>
      gone ← exited;
      hello ← (if gone : bool then mret true else rio_observe rs_hello);
      if hello : bool then mret undisturbed
      else
        error ← rio_observe rs_error;
        if bool_decide (is_Some error) then mret (MkOutcome (Some "protocol") false false false)
        else
          now ← monotonic;
          if hello_deadline limits <=? now - started_at then mret (MkOutcome (Some "hello_timeout") false false true)
          else
            m ← draw;
            if m_probe m : bool then mret (MkOutcome (Some "process_timeout") true false false)
            else _ ← sleep PAUSE; await_hello fuel started_at
  end.

Variables (identity : pydict) (job_context : option pydict) (automatic_cancellation : bool).

(** The variables of the second loop. *)
Record serving := MkServing { sv_heartbeat_at : Z; sv_cancellation_at : option Z; sv_input_closed : bool; sv_cancel_sent : bool }.

Definition cancel_wanted (now started_at : Z) (m : moment) : bool :=
  m_cancel m || (automatic_cancellation && (cancel_after limits <=? now - started_at)).

(** Until the process has exited. *)
Fixpoint serve (fuel : nat) (started_at : Z) (v : serving) : rio run_outcome :=
  match fuel with
  | O => rio_raise OutOfTurns
  | S fuel =>
      gone ← exited;
      if gone : bool then mret undisturbed
      else
        now ← monotonic;
        error ← rio_observe rs_error;
        if bool_decide (is_Some error) then mret (MkOutcome (Some "protocol") false false false)
        else
          m ← draw;
          if m_probe m : bool then mret (MkOutcome (Some "process_timeout") true false false)
          else
            terminal ← rio_observe (fun s => ps_terminal (rs_session s));
            if bool_decide (is_Some terminal) then
              _ ← (if sv_input_closed v then mret tt else act CloseInput);
              if process_deadline limits <=? now - started_at then mret (MkOutcome (Some "completion_timeout") false false false)
              else _ ← sleep PAUSE;
                   serve fuel started_at (MkServing (sv_heartbeat_at v) (sv_cancellation_at v) true (sv_cancel_sent v))
            else
              observed ← rio_observe rs_heartbeat_at;
              let heartbeat_at := default (sv_heartbeat_at v) observed in
              m ← draw;
              if cancel_wanted now started_at m && negb (sv_cancel_sent v) then
                cancel_sent ← _send_coordinator (_cancel identity) [];
                _ ← sleep PAUSE;
                serve fuel started_at (MkServing heartbeat_at (if cancel_sent : bool then Some now else None)
                                         (sv_input_closed v) cancel_sent)
              else if sv_cancel_sent v && match sv_cancellation_at v with
                                          | Some at_ => cancel_grace limits <=? now - at_
                                          | None => false
                                          end
              then mret (MkOutcome (Some "cancelled") false false false)
              else if heartbeat_deadline limits <=? now - heartbeat_at
              then mret (MkOutcome (Some "heartbeat_timeout") false true false)
              else if process_deadline limits <=? now - started_at
              then mret (MkOutcome (Some "process_timeout") true false false)
              else _ ← sleep PAUSE; serve fuel started_at (MkServing heartbeat_at (sv_cancellation_at v) (sv_input_closed v) (sv_cancel_sent v))
  end.

(** ** The run *)

Record SyntheticWorkerResult := {
  wr_messages : list pydict;
  wr_terminal : pydict;
  wr_stderr : pystr;
  wr_stderr_total_bytes : Z;
  wr_stderr_truncated : bool;
  wr_returncode : option Z;
  wr_outcome : run_outcome;                 (** the three timeouts *)
  wr_terminated : bool;
  wr_killed : bool;
  wr_process_group_cleaned : bool;
  wr_waited : bool;
  wr_protocol_error : option string;
  wr_synthesized_terminal : bool;
  wr_original_terminal : option pydict
}.

Definition check_limits : pres unit :=
  if foldr Z.min (process_deadline limits) [heartbeat_deadline limits; hello_deadline limits; cancel_after limits;
                                            cancel_grace limits; termination_grace limits] <=? 0
  then Err (ProtocolValueError "worker time limits must be positive")
  else if negb ((0 <=? diagnostic_limit limits) && (diagnostic_limit limits <=? MAX_RETAINED_DIAGNOSTIC_BYTES))
  then Err (ProtocolValueError "diagnostic limit exceeds the 64 KiB hard ceiling")
  else
    _ ← _validate_line_limit (line_limit limits);
    if message_limit limits <=? 0 then Err (ProtocolValueError "message limit must be positive") else Ok tt.

Definition rio_lift {A} (r : pres A) : rio A := match r with Ok a => mret a | Err x => rio_raise (Raised x) end.

(** What the second loop sets is added to what the first one set. *)
Definition and_then (o later : run_outcome) : run_outcome :=
  MkOutcome (match oc_reason later with Some r => Some r | None => oc_reason o end)
    (oc_process_timed_out o || oc_process_timed_out later) (oc_heartbeat_timed_out later) (oc_hello_timed_out o).

(** From the hello to the end of the second loop. *)
Definition serve_hello (started_at : Z) (o : run_outcome) : rio run_outcome :=
  hello ← rio_observe rs_hello;
  if negb hello then mret o
  else
    gone ← exited;
    if gone : bool then mret o
    else
      job_start ← rio_lift (_job_start identity job_context);
      m ← draw;
      now ← (if m_cancel m || negb automatic_cancellation then mret started_at else monotonic);
      let cancel_sent := m_cancel m || (automatic_cancellation && (cancel_after limits <=? now - started_at)) in
      _ ← _send_coordinator job_start (if cancel_sent then [_cancel identity] else []);
      heartbeat_at ← monotonic;
      later ← serve (turns (process_deadline limits) PAUSE + 2) started_at
                (MkServing heartbeat_at (if cancel_sent then Some heartbeat_at else None) false cancel_sent);
      mret (and_then o later).

(** Whether the process was told to stop, was killed, and was waited for. *)
Definition end_process (reason : option string) : rio (bool * bool * bool) :=
  gone ← exited;
  if negb gone && bool_decide (is_Some reason) then
    _ ← act Terminate;
    waited ← _bounded_wait (cancel_grace limits);
    if waited : bool then mret (true, false, true)
    else _ ← act Kill; waited ← _bounded_wait (termination_grace limits); mret (true, true, waited)
  else
    gone ← exited;
    if gone : bool then waited ← _bounded_wait (termination_grace limits); mret (false, false, waited)
    else mret (false, false, false).

(** [process.stdout.close()] and [process.stderr.close()] take the lock of the stream, which a
    thread that waits in [readline] or [read] holds: they wait for it as long as the pipe is
    open and silent. *)
Definition close_output : rio unit := m ← draw; if m_held m : bool then rio_raise Hung else act CloseOutput.

(** The reading threads end, or their pipes are closed under them. *)
Definition join_readers : rio bool :=
  _ ← draw;
  m ← draw;
  _ ← (if m_reading m : bool then _ ← close_output; _ ← draw; mret tt else mret tt);
  m ← draw;
  mret (negb (m_reading m)).

(** The reason of a run that was not disturbed by anything seen before its end. *)
Definition final_reason (reason protocol_error : option string) (cleaned : bool) (returncode : option Z) : option string :=
  if bool_decide (is_Some protocol_error) then Some "protocol"
  else
    match reason with
    | Some r => Some r
    | None => if negb cleaned then Some "cleanup_failed"
              else if negb (bool_decide (returncode = Some 0)) then Some "process_exit"
              else None
    end.

(** The terminal message reported, and whether it was made up: what the worker said is its claim,
    not the whole outcome. *)
Definition reported_terminal (terminal : option pydict) (protocol_error reason : option string) (returncode : option Z)
    (terminated killed waited : bool) : bool * pydict :=
  let made_up := (true, _worker_exit identity returncode (default "process_exit" reason)) in
  match terminal with
  | None => made_up
  | Some t =>
      let abnormal_completion := (field_is "status" "succeeded" t || field_is "status" "cancelled" t)
                                 && (bool_decide (is_Some reason) || terminated || killed || negb waited) in
      if bool_decide (is_Some protocol_error) || abnormal_completion then made_up else (false, t)
  end.

Definition settle (o : run_outcome) (terminated killed waited cleaned : bool) : rio SyntheticWorkerResult :=
  protocol_error ← rio_observe rs_error;
  terminal ← rio_observe (fun s => ps_terminal (rs_session s));
  returncode ← look rs_returncode;
  let reason := final_reason (oc_reason o) protocol_error cleaned returncode in
  let '(synthesized, terminal) := reported_terminal terminal protocol_error reason returncode terminated killed waited in
  retained ← rio_observe rs_retained;
  '(stderr, _, _) ← rio_lift (retain_stderr [retained] (diagnostic_limit limits));
  total ← rio_observe rs_total;
  messages ← rio_observe rs_messages;
  original ← rio_observe (fun s => ps_terminal (rs_session s));
  mret {| wr_messages := messages; wr_terminal := terminal; wr_stderr := stderr; wr_stderr_total_bytes := total;
          wr_stderr_truncated := diagnostic_limit limits <? total; wr_returncode := returncode; wr_outcome := o;
          wr_terminated := terminated; wr_killed := killed; wr_process_group_cleaned := cleaned; wr_waited := waited;
          wr_protocol_error := protocol_error; wr_synthesized_terminal := synthesized; wr_original_terminal := original |}.

Definition supervise : rio SyntheticWorkerResult :=
  started_at ← monotonic;
  o ← await_hello (turns (hello_deadline limits) PAUSE) started_at;
  o ← serve_hello started_at o;
  '(terminated, killed, waited) ← end_process (oc_reason o);
  group_cleaned ← cleanup_process (cancel_grace limits) (termination_grace limits);
  _ ← act CloseInput;
  joined ← join_readers;
  settle o terminated killed waited (waited && group_cleaned && joined).

Definition fresh_run (session : ProtocolSession) : run_state :=
  MkRun 0 0 session [] None false None true [] 0 None [].

(** [_run_protocol_worker], without a launch ticket; [launched] is whether the process could be started.
    An exception comes with the state it leaves, none before the launch. *)
Definition _run_protocol_worker (launched : bool) : result run_exn SyntheticWorkerResult * option run_state :=
  match (session ← make_session identity; _ ← check_limits;
         if launched then Ok session else Err (ProtocolError "worker_launch_failed")) with
  | Err x => (Err (Raised x), None)
  | Ok session => let '(r, s) := supervise (fresh_run session) in (r, Some s)
  end.

End Run.
End Diagnostics.
