(* ===== verification/WorkerRunFacts.v ===== *)
(** Running a worker, proved: success is reported only for a worker that said so in order and
    then exited well, every run ends but one that closes a pipe held open elsewhere, and no worker is left running by a run that returns. *)
From S2P Require Import Prelude Utf8 PyVal Ordering Json CanonCore Limits Regex Contracts ExternalSort StagingChecksums StagingFamilies Artifacts.
From S2P Require Import WorkerProtocol WorkerProtocolFacts WorkerRun.
Open Scope Z_scope.

(** ** Properties the steps keep *)

Section Keeps.
Context {U : Unicode}.

Definition run_keeps {A} (P : run_state -> Prop) (m : rio A) : Prop := forall s, P s -> P (m s).2.

Lemma keep_bind {A B} P (m : rio A) (f : A -> rio B) : run_keeps P m -> (forall a, run_keeps P (f a)) -> run_keeps P (mbind f m).
Proof.
  intros Hm Hf s Hs. specialize (Hm s Hs). unfold mbind, rio_bind. destruct (m s) as [[a|x] s']; [by apply Hf|done].
Qed.

Lemma keep_ret {A} P (a : A) : run_keeps P (mret a : rio A).
Proof. intros s Hs. exact Hs. Qed.
Lemma keep_raise {A} P x : run_keeps P (rio_raise x : rio A).
Proof. intros s Hs. exact Hs. Qed.
Lemma keeps_look {A} P (f : run_state -> A) : run_keeps P (look f).
Proof. intros s Hs. exact Hs. Qed.
Lemma keeps_if {A} P (b : bool) (m n : rio A) : run_keeps P m -> run_keeps P n -> run_keeps P (if b then m else n).
Proof. by destruct b. Qed.
Lemma keep_lift {A} P (r : pres A) : run_keeps P (rio_lift r).
Proof. destruct r; [apply keep_ret|apply keep_raise]. Qed.

Section Steps.
Variables (py : interpreter) (limits : run_limits) (world : nat -> moment).
Variables (identity : pydict) (job_context : option pydict) (automatic_cancellation : bool).

(** A property is [steady] when no step but a message of the coordinator can end it. *)
Record steady (P : run_state -> Prop) : Prop := {
  st_draw : run_keeps P (draw py limits world);
  st_act : forall a, run_keeps P (act a);
  st_sleep : forall s d, 0 <= d -> P s -> P (MkRun (rs_moment s) (rs_slept s + d) (rs_session s) (rs_messages s) (rs_error s)
      (rs_hello s) (rs_heartbeat_at s) (rs_reading s) (rs_retained s) (rs_total s) (rs_returncode s) (rs_log s));
  st_exit : forall s c, P s -> rs_returncode s = None ->
      P (MkRun (rs_moment s) (rs_slept s) (rs_session s) (rs_messages s) (rs_error s)
      (rs_hello s) (rs_heartbeat_at s) (rs_reading s) (rs_retained s) (rs_total s) c (rs_log s))
}.

Variable P : run_state -> Prop.
Hypothesis HP : steady P.

Lemma keeps_draw : run_keeps P (draw py limits world). Proof. apply HP. Qed.
Lemma keeps_act a : run_keeps P (act a). Proof. apply HP. Qed.

Lemma keeps_observe {A} (f : run_state -> A) : run_keeps P (rio_observe py limits world f).
Proof. apply keep_bind; [apply keeps_draw|]. intros _. apply keeps_look. Qed.

Lemma keeps_monotonic : run_keeps P (monotonic py limits world).
Proof. apply keep_bind; [apply keeps_draw|]. intros m. apply keep_bind; [apply keeps_look|]. intros ?. apply keep_ret. Qed.

Lemma keeps_sleep d : 0 <= d -> run_keeps P (sleep py limits world d).
Proof. intros Hd. apply keep_bind; [apply keeps_draw|]. intros _ s Hs. pose proof (st_sleep P HP s d Hd Hs). by destruct s. Qed.
Lemma keeps_pause : run_keeps P (sleep py limits world PAUSE).
Proof. by apply keeps_sleep. Qed.
Lemma keeps_boundary_pause : run_keeps P (sleep py limits world BOUNDARY_PAUSE).
Proof. by apply keeps_sleep. Qed.

Lemma keeps_poll : run_keeps P (poll_exit py limits world).
Proof.
  apply keep_bind; [apply keeps_draw|]. intros m. apply keep_bind; [|intros _; apply keeps_look].
  intros s Hs. destruct s as [i sl ss ms err h hb rd rt t [c|] lg]; [exact Hs|]. exact (st_exit P HP _ (m_exit m) Hs eq_refl).
Qed.

Lemma keeps_exited : run_keeps P (exited py limits world).
Proof. apply keep_bind; [apply keeps_poll|]. intros ?. apply keep_ret. Qed.
End Steps.
End Keeps.

#[export] Hint Resolve keep_ret keep_raise keeps_look keep_lift keeps_draw keeps_act keeps_observe keeps_monotonic keeps_pause keeps_boundary_pause
  keeps_poll keeps_exited : protocol.

Ltac keeping :=
  repeat match goal with
  | |- run_keeps _ (mbind _ _) => apply keep_bind; [|intros ?]
  | |- run_keeps _ (if _ then _ else _) => apply keeps_if
  | |- run_keeps _ _ => solve [eauto with protocol]
  | |- run_keeps _ _ => progress case_match
  end.

Section Facts.
Context {U : Unicode}.
Variables (py : interpreter) (limits : run_limits) (world : nat -> moment).
Variables (identity : pydict) (job_context : option pydict) (automatic_cancellation : bool).

Abbreviation steady := (steady py limits world).

Lemma keeps_wait_tree P fuel d : steady P -> run_keeps P (wait_tree py limits world fuel d).
Proof. intros HP. induction fuel as [|fuel IH]; cbn [wait_tree]; keeping; done. Qed.

Lemma keeps_cleanup P t k : steady P -> run_keeps P (cleanup_process py limits world t k).
Proof.
  intros HP. unfold cleanup_process, _bounded_wait, _wait_boundary. pose proof (fun f d => keeps_wait_tree P f d HP). keeping; auto.
Qed.

Lemma keeps_await P fuel t : steady P -> run_keeps P (await_hello py limits world fuel t).
Proof. intros HP. induction fuel as [|fuel IH]; cbn [await_hello]; keeping; done. Qed.

Lemma keeps_end P r : steady P -> run_keeps P (end_process py limits world r).
Proof. intros HP. unfold end_process, _bounded_wait. keeping. Qed.

Lemma keeps_join P : steady P -> run_keeps P (join_readers py limits world).
Proof. intros HP. unfold join_readers, close_output. keeping. Qed.

Lemma keeps_settle P o a b c d : steady P -> run_keeps P (settle py limits world identity o a b c d).
Proof. intros HP. unfold settle. keeping. Qed.

(** With the messages of the coordinator kept as well. *)
Definition keeps_sends (P : run_state -> Prop) : Prop :=
  forall cancelling, run_keeps P (_send_coordinator py limits world (_cancel identity) []) /\
    forall js, _job_start identity job_context = Ok js ->
      run_keeps P (_send_coordinator py limits world js (if cancelling : bool then [_cancel identity] else [])).

Lemma keeps_serve P fuel t v : steady P -> keeps_sends P ->
  run_keeps P (serve py limits world identity automatic_cancellation fuel t v).
Proof.
  intros HP HS. pose proof (proj1 (HS false)) as Hc. revert v. induction fuel as [|fuel IH]; intros v; cbn [serve]; keeping; auto.
Qed.

Lemma keeps_serve_hello P t o : steady P -> keeps_sends P ->
  run_keeps P (serve_hello py limits world identity job_context automatic_cancellation t o).
Proof.
  intros HP HS. unfold serve_hello. apply keep_bind; [eauto with protocol|]. intros hello. apply keeps_if; [eauto with protocol|].
  apply keep_bind; [eauto with protocol|]. intros gone. apply keeps_if; [eauto with protocol|].
  destruct (_job_start identity job_context) as [js|x] eqn:E; [|intros s Hs; exact Hs].
  match goal with |- run_keeps P (mbind ?f (rio_lift (Ok js))) => change (run_keeps P (f js)) end. cbv beta.
  keeping; try (by apply keeps_serve); [by apply (HS true)|by apply (HS false)].
Qed.

Lemma keeps_supervise P : steady P -> keeps_sends P ->
  run_keeps P (supervise py limits world identity job_context automatic_cancellation).
Proof.
  intros HP HS. unfold supervise. pose proof (fun f t => keeps_await P f t HP). pose proof (fun t o => keeps_serve_hello P t o HP HS).
  pose proof (fun r => keeps_end P r HP). pose proof (fun a b => keeps_cleanup P a b HP). pose proof (keeps_join P HP).
  pose proof (fun o a b c d => keeps_settle P o a b c d HP). keeping; auto.
Qed.

(** ** What the reading threads leave alone *)

Lemma read_line_frame f s : let s' := read_line py limits f s in
  rs_moment s' = rs_moment s /\ rs_slept s' = rs_slept s /\ rs_returncode s' = rs_returncode s /\ rs_log s' = rs_log s /\
  (rs_hello s = true -> rs_hello s' = true).
Proof. destruct s. unfold read_line. cbn zeta. by repeat case_match. Qed.

Lemma threads_frame m s : let s' := let_threads py limits m s in
  rs_moment s' = rs_moment s /\ rs_slept s' = rs_slept s /\ rs_returncode s' = rs_returncode s /\ rs_log s' = rs_log s /\
  (rs_hello s = true -> rs_hello s' = true).
Proof.
  unfold let_threads. cbn zeta. generalize (m_stderr m). generalize (m_lines m). intros lines chunks.
  assert (forall s, let s' := foldl (fun s c => read_diagnostics limits c s) s chunks in
    rs_moment s' = rs_moment s /\ rs_slept s' = rs_slept s /\ rs_returncode s' = rs_returncode s /\ rs_log s' = rs_log s /\
    rs_hello s' = rs_hello s) as Hd.
  { induction chunks as [|c chunks IH]; [done|]. intros s1. cbn [foldl]. specialize (IH (read_diagnostics limits c s1)). by destruct s1. }
  destruct (Hd (foldl (fun s f => read_line py limits f s) s lines)) as (-> & -> & -> & -> & ->). clear Hd.
  revert s. induction lines as [|f lines IH]; [done|]. intros s. cbn [foldl].
  destruct (IH (read_line py limits f s)) as (-> & -> & -> & -> & H), (read_line_frame f s) as (-> & -> & -> & -> & H'). split_and!; auto.
Qed.

(** A property of the session and the readers' fields is steady when a line and a chunk keep it. *)
Lemma steady_threads (P : run_state -> Prop) :
  (forall f s, P s -> P (read_line py limits f s)) -> (forall c s, P s -> P (read_diagnostics limits c s)) ->
  (forall s i sl rc lg, P s -> P (MkRun i sl (rs_session s) (rs_messages s) (rs_error s) (rs_hello s) (rs_heartbeat_at s)
                                  (rs_reading s) (rs_retained s) (rs_total s) rc lg)) -> steady P.
Proof.
  intros Hl Hd Hf. split.
  - intros s Hs. cbn. unfold let_threads.
    assert (P (next_moment s)) as Hn by (pose proof (Hf s (S (rs_moment s)) (rs_slept s) (rs_returncode s) (rs_log s) Hs); by destruct s).
    assert (forall lines s, P s -> P (foldl (fun s f => read_line py limits f s) s lines)) as Hls.
    { induction lines as [|f lines IH]; [done|]. intros s1 H1. cbn. auto. }
    assert (forall chunks s, P s -> P (foldl (fun s c => read_diagnostics limits c s) s chunks)) as Hds.
    { induction chunks as [|c chunks IH]; [done|]. intros s1 H1. cbn. auto. }
    auto.
  - intros a s Hs. pose proof (Hf s (rs_moment s) (rs_slept s) (rs_returncode s) (rs_log s ++ [a]) Hs). by destruct s.
  - intros s d _ Hs. by apply (Hf s _ _ _ _).
  - intros s c Hs _. by apply (Hf s _ _ _ _).
Qed.

(** ** The session of a run *)

(** Only the coordinator's own start was accepted. *)
Definition talked (session : ProtocolSession) : Prop :=
  exists acc, spoke acc session /\ ps_identity session = identity /\
    forall js, js ∈ acc -> says js = Some JobStart -> _job_start identity job_context = Ok js.

Lemma accept_identity m d session p session' :
  _accept py m d session = (Ok p, session') -> ps_identity session' = ps_identity session.
Proof. intros E. apply (converse_identity py [(m, d)] session [p]). cbn. by rewrite E. Qed.

Lemma refused_identity session session' : close_to session session' -> ps_identity session' = ps_identity session.
Proof. intros [->|[_ [b ->]]]; done. Qed.

Lemma talked_refused session session' : talked session -> close_to session session' -> talked session'.
Proof.
  intros (acc & Hs & Hi & Hj) Hc. exists acc. split; [by apply (spoke_close acc session)|]. by rewrite (refused_identity _ _ Hc).
Qed.

Lemma talked_accept m d session p session' :
  talked session -> _accept py m d session = (Ok p, session') ->
  (says p = Some JobStart -> _job_start identity job_context = Ok p) -> talked session'.
Proof.
  intros (acc & Hs & Hi & Hj) E Hp. exists (acc ++ [p]). split; [by apply (spoke_accept py acc m d session)|].
  split; [by rewrite (accept_identity _ _ _ _ _ E)|]. intros js [H|H%list_elem_of_singleton]%elem_of_app; [auto|by subst js].
Qed.

Lemma accepted_direction m d session p session' :
  _accept py m d session = (Ok p, session') -> exists k, says p = Some k /\ _DIRECTIONS k = d.
Proof.
  intros E. pose proof (accept_outcome py m d session) as H. rewrite E in H. destruct H as (k & s1 & Ha & _).
  apply admissible_iff in Ha as (_ & _ & [Hk Hd _ _ _ _]). eauto.
Qed.

(** A worker's line keeps the conversation, and is kept only within the limit. *)
Definition orderly (s : run_state) : Prop :=
  talked (rs_session s) /\ Z.of_nat (length (rs_messages s)) <= Z.max 0 (message_limit limits) /\
  Z.of_nat (length (rs_retained s)) <= Z.max 0 (diagnostic_limit limits).

Lemma orderly_line f s : orderly s -> orderly (read_line py limits f s).
Proof.
  destruct s as [i sl ss ms err h hb rd rt t rc lg]. intros (Ht & Hm & Hd). unfold read_line, accept_worker.
  destruct (negb rd || _); [by split_and!|].
  pose proof (accept_outcome py (Frame f.2) FromWorker ss) as Ho.
  destruct (_accept py (Frame f.2) FromWorker ss) as [[p|x] ss'] eqn:E.
  - assert (talked ss') as Ht'.
    { apply (talked_accept _ _ _ _ _ Ht E). intros Hs. apply accepted_direction in E as (k & Hk & Hdk). rewrite Hs in Hk. by simplify_eq. }
    repeat case_match; try (by split_and!). all: split_and!; [done| |done]; cbn in *; rewrite length_app; cbn; lia.
  - destruct Ho as [Hc _]. destruct x; (split_and!; [by apply (talked_refused ss)|done|done]).
Qed.

Lemma orderly_chunk c s : orderly s -> orderly (read_diagnostics limits c s).
Proof.
  destruct s as [i sl ss ms err h hb rd rt t rc lg]. intros (Ht & Hm & Hd). split_and!; try done. cbn in *.
  rewrite length_app, length_take. lia.
Qed.

Lemma orderly_steady : steady orderly.
Proof. apply steady_threads; [apply orderly_line|apply orderly_chunk|]. intros s i sl rc lg. destruct s. done. Qed.

Lemma accept_all_talked messages frames session :
  Forall (fun m => says m = Some JobStart -> _job_start identity job_context = Ok m) messages ->
  talked session -> talked (accept_all py messages frames session).2.
Proof.
  intros Hm. revert frames session. induction Hm as [|m rest Hm _ IH]; intros frames session Ht; [done|]. cbn [accept_all].
  unfold accept_coordinator. pose proof (accept_outcome py (Message (VDict m)) FromCoordinator session) as Ho.
  destruct (_accept py _ _ session) as [[p|x] session'] eqn:E.
  - assert (p = m) as ->.
    { unfold _accept in E. repeat case_match; simplify_eq; done. }
    assert (talked session') as Ht' by by apply (talked_accept _ _ _ _ _ Ht E). destruct (encode_jsonl _ _); [by apply IH|done].
  - by apply (talked_refused session), Ho.
Qed.

(** A message of the coordinator is the start or a cancel. *)
Definition own_message (m : pydict) : Prop := _job_start identity job_context = Ok m \/ m = _cancel identity.

(** What the messages of the coordinator keep, if accepting them in the session does. *)
Lemma keeps_send P m following : steady P ->
  (forall s, P s -> P (set_session (accept_all py (m :: following) [] (rs_session s)).2 s).2) ->
  run_keeps P (_send_coordinator py limits world m following).
Proof.
  intros HP Hset. unfold _send_coordinator. apply keep_bind; [by apply keeps_draw|]. intros mo s Hs. specialize (Hset s Hs).
  change (P ((if field_is "message_type" "cancel" m && bool_decide (is_Some (ps_terminal (rs_session s))) then mret false else
    let '(frames, session) := accept_all py (m :: following) [] (rs_session s) in
    _ ← set_session session;
    match frames with
    | Err x => rio_raise (Raised x)
    | Ok bytes =>
        if m_input_open mo : bool then _ ← act (Wrote bytes); mret true
        else rio_raise (Raised (ProtocolError "worker_input_closed"))
    end : rio bool) s).2).
  destruct (_ && _); [exact Hs|]. destruct (accept_all _ _ _ _) as [[bytes|x] session]; [|exact Hset].
  destruct (m_input_open mo); [|exact Hset]. exact (st_act _ _ _ _ HP (Wrote bytes) _ Hset).
Qed.

Lemma own_sends P : steady P ->
  (forall messages s, Forall own_message messages -> P s -> P (set_session (accept_all py messages [] (rs_session s)).2 s).2) ->
  keeps_sends P.
Proof.
  intros HP Hset b. assert (own_message (_cancel identity)) as Hc by by right.
  split; [apply keeps_send; [done|]; intros s Hs; apply Hset; [by repeat constructor|done]|].
  intros js Hjs. apply keeps_send; [done|]. intros s Hs. apply Hset; [|done]. constructor; [by left|]. destruct b; by repeat constructor.
Qed.

Lemma orderly_sends : keeps_sends orderly.
Proof.
  apply own_sends; [apply orderly_steady|]. intros messages s Hm [Ht Hs]. split; [|by destruct s].
  pose proof (accept_all_talked messages [] (rs_session s)) as H. destruct s. apply H; [|done].
  eapply Forall_impl; [exact Hm|]. by intros m [Hj| ->].
Qed.

(** ** The conversation of a run *)

(** What the worker was seen to write before a moment, line by line. *)
Definition lines_until (n : nat) : list (list Z) := seq 0 n ≫= fun i => (m_lines (world i)).*2.
Definition worker_frames (offers : list (offered * direction)) : list (list Z) :=
  omap (fun o => match o with (Frame f, FromWorker) => Some f | _ => None end) offers.
(** A line of the worker, or a message of the coordinator. *)
Definition own_offer (o : offered * direction) : Prop :=
  match o with
  | (Frame _, FromWorker) => True
  | (Message m, FromCoordinator) => exists d, m = VDict d /\ own_message d
  | _ => False
  end.

(** The session has been offered the lines in order, all of them until one was refused, and the
    coordinator's messages. *)
Definition heard (first : ProtocolSession) (lines : list (list Z)) (s : run_state) : Prop :=
  exists offers, (converse py offers first).2 = rs_session s /\ Forall own_offer offers /\
    worker_frames offers `prefix_of` lines /\
    (rs_reading s = true -> rs_error s = None -> worker_frames offers = lines).
Definition tracked (first : ProtocolSession) (s : run_state) : Prop := heard first (lines_until (rs_moment s)) s.

Lemma converse_snoc offers m d first :
  (converse py (offers ++ [(m, d)]) first).2 = (_accept py m d (converse py offers first).2).2.
Proof.
  revert first. induction offers as [|[m' d'] rest IH]; intros first; cbn [app converse].
  - cbn [snd]. by destruct (_accept py m d first) as [[]].
  - destruct (_accept py m' d' first) as [[p|x] s1]; [|apply IH]. specialize (IH s1).
    destruct (converse py (rest ++ _) s1), (converse py rest s1). exact IH.
Qed.

Lemma worker_frames_snoc offers o :
  worker_frames (offers ++ [o]) = worker_frames offers ++ match o with (Frame f, FromWorker) => [f] | _ => [] end.
Proof. unfold worker_frames. rewrite omap_app. cbn. by destruct o as [[] []]. Qed.

Lemma heard_line first lines f s : heard first lines s -> heard first (lines ++ [f.2]) (read_line py limits f s).
Proof.
  intros (offers & Hc & Ho & Hp & He). destruct s as [i sl ss ms err h hb rd rt t rc lg]. unfold read_line, accept_worker.
  cbn [rs_reading rs_error rs_session] in *. destruct (negb rd || _) eqn:Estop.
  - exists offers. split_and!; [done|done|by apply prefix_app_r|]. cbn. intros -> ->. done.
  - apply orb_false_iff in Estop as [->%negb_false_iff Eerr%bool_decide_eq_false]. apply eq_None_not_Some in Eerr as ->.
    assert (worker_frames (offers ++ [(Frame f.2, FromWorker)]) = lines ++ [f.2]) as Hf by (by rewrite worker_frames_snoc, He).
    assert (forall ms' err' h' hb' rd', heard first (lines ++ [f.2]) (MkRun i sl (_accept py (Frame f.2) FromWorker ss).2 ms' err' h' hb' rd' rt t rc lg)) as Hgo.
    { intros. exists (offers ++ [(Frame f.2, FromWorker)]). rewrite converse_snoc, Hc, Hf. split_and!; [done| |done|done].
      apply Forall_app_2; [done|by repeat constructor]. }
    destruct (_accept py (Frame f.2) FromWorker ss) as [[p|x] ss']; [repeat case_match; apply Hgo|]. destruct x; apply Hgo.
Qed.

Lemma heard_threads first lines m s : heard first lines s -> heard first (lines ++ (m_lines m).*2) (let_threads py limits m s).
Proof.
  intros H. unfold let_threads.
  assert (forall chunks s ls, heard first ls s -> heard first ls (foldl (fun s c => read_diagnostics limits c s) s chunks)) as Hd.
  { induction chunks as [|c chunks IH]; intros s1 ls H1; [done|]. cbn. apply IH. by destruct s1. }
  apply Hd. clear Hd. revert lines s H. induction (m_lines m) as [|f fs IH]; intros lines s H; cbn; [by rewrite app_nil_r|].
  rewrite cons_middle, app_assoc. by apply IH, heard_line.
Qed.

Lemma tracked_steady first : steady (tracked first).
Proof.
  split.
  - intros s Hs. cbn. unfold tracked. destruct (threads_frame (world (rs_moment s)) (next_moment s)) as (-> & _).
    assert (lines_until (rs_moment (next_moment s)) = lines_until (rs_moment s) ++ (m_lines (world (rs_moment s))).*2) as ->.
    { destruct s as [i ? ? ? ? ? ? ? ? ? ? ?]. unfold lines_until. cbn [rs_moment next_moment]. rewrite seq_S, bind_app. cbn. by rewrite app_nil_r. }
    apply heard_threads. by destruct s.
  - intros a s Hs. by destruct s.
  - intros s d _ Hs. exact Hs.
  - intros s c Hs _. exact Hs.
Qed.

Lemma accept_all_heard messages first : Forall own_message messages -> forall frames offers,
  Forall own_offer offers -> exists offers', Forall own_offer offers' /\ worker_frames offers' = worker_frames offers /\
    (converse py offers' first).2 = (accept_all py messages frames (converse py offers first).2).2.
Proof.
  induction 1 as [|m rest Hm _ IH]; intros frames offers Ho; [by exists offers|]. cbn [accept_all]. unfold accept_coordinator.
  pose proof (converse_snoc offers (Message (VDict m)) FromCoordinator first) as Hc.
  assert (Forall own_offer (offers ++ [(Message (VDict m), FromCoordinator)])) as Ho'.
  { apply Forall_app_2; [done|]. repeat constructor. by exists m. }
  pose proof (worker_frames_snoc offers (Message (VDict m), FromCoordinator)) as Hw. rewrite app_nil_r in Hw.
  destruct (_accept _ _ _ (converse py offers first).2) as [[p|x] session']; [|by eauto].
  destruct (encode_jsonl _ _ _) as [frame|]; [|by eauto].
  destruct (IH (frames ++ frame) _ Ho') as (offers' & H1 & H2 & H3). exists offers'. cbn [snd] in Hc. rewrite Hc in H3. by rewrite H2.
Qed.

Lemma tracked_sends first : keeps_sends (tracked first).
Proof.
  apply own_sends; [apply tracked_steady|]. intros messages s Hm (offers & Hc & Ho & Hp & He).
  destruct (accept_all_heard messages first Hm [] offers Ho) as (offers' & Ho' & Hw & Hc').
  exists offers'. rewrite Hc', Hc, Hw. by destruct s.
Qed.

(** ** The final message stays *)

Lemma terminal_silent m d session t :
  talked session -> ps_terminal session = Some t ->
  match _accept py m d session with (Ok _, _) => False | (Err _, session') => session' = session end.
Proof.
  intros (acc & Hs & _) Ht. apply (sp_terminal acc session Hs) in Ht as [Ht _].
  pose proof (accept_outcome py m d session) as Ho. destruct (_accept py m d session) as [[p|x] session'].
  - destruct Ho as (k & s1 & Ha & _). apply admissible_iff in Ha as (_ & _ & Ha). pose proof (order_allowed _ _ (ad_order _ _ _ _ Ha)) as Hk.
    by rewrite Ht in Hk.
  - destruct Ho as [[->|[Hst _]] _]; [done|congruence].
Qed.

Definition settled (t : option pydict) (s : run_state) : Prop :=
  orderly s /\ forall x, t = Some x -> ps_terminal (rs_session s) = Some x.

Lemma settled_steady t : steady (settled t).
Proof.
  apply steady_threads.
  - intros f s [Ho Ht]. split; [by apply orderly_line|]. intros x Hx. specialize (Ht x Hx). destruct Ho as [Htalk _].
    destruct s as [i sl ss ms err h hb rd rt tt' rc lg]. pose proof (terminal_silent (Frame f.2) FromWorker ss x Htalk Ht) as Hs.
    unfold read_line, accept_worker. destruct (_ || _); [done|]. destruct (_accept _ _ _ ss) as [[p|y] ss']; [done|]. subst ss'.
    by destruct y.
  - intros c s [Ho Ht]. split; [by apply orderly_chunk|]. by destruct s.
  - intros s i sl rc lg [Ho Ht]. split; [|done]. by destruct s.
Qed.

(** ** Triples *)

Definition triple {A} (P : run_state -> Prop) (m : rio A) (Q : A -> run_state -> Prop) : Prop :=
  forall s, P s -> match m s with (Ok a, s') => Q a s' | (Err _, _) => True end.

Lemma triple_bind {A B} P (m : rio A) (f : A -> rio B) R Q :
  triple P m R -> (forall a, triple (R a) (f a) Q) -> triple P (mbind f m) Q.
Proof.
  intros Hm Hf s Hs. specialize (Hm s Hs). unfold mbind, rio_bind. destruct (m s) as [[a|x] s']; [by apply Hf|done].
Qed.

Lemma triple_keeps {A} P (m : rio A) : run_keeps P m -> triple P m (fun _ => P).
Proof. intros H s Hs. specialize (H s Hs). by destruct (m s) as [[]]. Qed.

Lemma triple_observe {A} P (f : run_state -> A) : steady P -> triple P (rio_observe py limits world f) (fun a s => P s /\ a = f s).
Proof. intros HP s Hs. pose proof (keeps_draw py limits world P HP s Hs) as H. cbn in *. done. Qed.

Lemma triple_ret {A} P (a : A) Q : (forall s, P s -> Q a s) -> triple P (mret a) Q.
Proof. intros H s Hs. by apply H. Qed.

Lemma triple_weaken {A} P P' (m : rio A) Q Q' :
  (forall s, P' s -> P s) -> (forall a s, Q a s -> Q' a s) -> triple P m Q -> triple P' m Q'.
Proof. intros HP HQ H s Hs. specialize (H s (HP s Hs)). destruct (m s) as [[]]; auto. Qed.

(** ** The retained diagnostics *)

Lemma decode_first_Some bs c n : decode_first bs = Some (c, n) -> (0 < n)%nat /\ utf8_encode_char c = Some (take n bs).
Proof.
  assert (forall k : nat, match utf8_decode (take k bs) with Some [c0] => Some (c0, k) | _ => None end = Some (c, n) ->
            k = n /\ utf8_encode_char c = Some (take n bs)) as Hk.
  { intros k H. destruct (utf8_decode (take k bs)) as [[|c0 [|]]|] eqn:E; try done. simplify_eq. split; [done|].
    apply utf8_encode_decode in E. cbn in E. destruct (utf8_encode_char c); [|done]. cbn in E. rewrite app_nil_r in E. by injection E as ->. }
  unfold decode_first. cbn [foldr]. intros H.
  repeat match type of H with
  | match ?r with Some _ => _ | None => _ end = _ =>
      let E := fresh in destruct r eqn:E; [rewrite H in E; apply Hk in E as [<- ?]; split; [lia|done]|]
  end. done.
Qed.

(** The text kept is encoded in no more bytes than it was decoded from. *)
Lemma decode_ignore_bound fuel bs : exists enc, utf8_encode (decode_ignore fuel bs) = Some enc /\ (length enc <= length bs)%nat.
Proof.
  revert bs. induction fuel as [|fuel IH]; intros bs; [by exists []; cbn; split; [done|lia]|].
  destruct bs as [|b rest]; [by exists []|]. cbn [decode_ignore]. destruct (decode_first (b :: rest)) as [[c n]|] eqn:E.
  - apply decode_first_Some in E as [Hn Hc]. destruct (IH (drop n (b :: rest))) as (enc & He & Hl).
    exists (take n (b :: rest) ++ enc). split; [by apply utf8_encode_cons|]. rewrite length_app, length_take. rewrite length_drop in Hl.
    cbn [length] in *. lia.
  - destruct (IH rest) as (enc & He & Hl). exists enc. split; [done|]. cbn. lia.
Qed.

Lemma retained_bound chunks n text total cut : retain_stderr chunks n = Ok (text, total, cut) ->
  exists enc, utf8_encode text = Some enc /\ Z.of_nat (length enc) <= n.
Proof.
  unfold retain_stderr. intros H. unbind H. injection H as <- _ _. unfold decode_text at 1.
  match goal with |- context [decode_ignore ?k (take ?n ?l)] => destruct (decode_ignore_bound k (take n l)) as (enc & He & Hl) end.
  exists enc. split; [exact He|]. rewrite length_take in Hl. lia.
Qed.

(** ** The reported result *)

Definition claims_end (t : pydict) : bool := field_is "status" "succeeded" t || field_is "status" "cancelled" t.

Lemma dict_get_app {A} k (d e : list (pystr * A)) : dict_get k (d ++ e) = match dict_get k d with Some v => Some v | None => dict_get k e end.
Proof. induction d as [|[k' v] d IH]; [done|]. cbn [app dict_get]. by case_bool_decide. Qed.

Lemma same_keys_None {A} k (d : list (pystr * A)) fields : same_keys d fields = true -> k ∉ fields -> dict_get k d = None.
Proof.
  unfold same_keys. intros [H _]%andb_true_iff Hk. induction d as [|[k' v] d IH]; [done|]. cbn [forallb fst] in H.
  apply andb_true_iff in H as [H1 H2]. apply bool_decide_eq_true in H1. cbn [dict_get]. rewrite bool_decide_false by congruence. auto.
Qed.

Lemma exit_claims_nothing code reason : same_keys identity (lit <$> _IDENTITY) = true -> claims_end (_worker_exit identity code reason) = false.
Proof.
  intros Hid. assert (dict_item "status" (_worker_exit identity code reason) = VNone) as E.
  { unfold dict_item, _worker_exit, sent. rewrite !dict_get_app, (same_keys_None _ _ _ Hid); [reflexivity|].
    by apply (proj1 (bool_decide_eq_false (lit "status" ∈ lit <$> _IDENTITY))). }
  unfold claims_end, field_is. by rewrite E.
Qed.

(** What a result that says the job ended as it should stands for. *)
Definition genuine (r : SyntheticWorkerResult) (s : run_state) : Prop :=
  wr_synthesized_terminal r = false /\ ps_terminal (rs_session s) = Some (wr_terminal r) /\
  wr_original_terminal r = Some (wr_terminal r) /\ wr_protocol_error r = None /\ oc_reason (wr_outcome r) = None /\
  wr_terminated r = false /\ wr_killed r = false /\ wr_waited r = true /\ wr_process_group_cleaned r = true /\ wr_returncode r = Some 0.

Definition bounded_result (r : SyntheticWorkerResult) : Prop :=
  Z.of_nat (length (wr_messages r)) <= Z.max 0 (message_limit limits) /\
  exists enc, utf8_encode (wr_stderr r) = Some enc /\ Z.of_nat (length enc) <= diagnostic_limit limits.

Lemma final_reason_None reason error cleaned code :
  final_reason reason error cleaned code = None -> error = None /\ reason = None /\ cleaned = true /\ code = Some 0.
Proof.
  unfold final_reason. destruct error; [by rewrite bool_decide_true by eauto|]. rewrite bool_decide_false by by intros [].
  destruct reason; [done|]. destruct cleaned; [|done]. cbn [negb]. case_bool_decide; [|done]. by intros _.
Qed.

Lemma reported_claims terminal error reason code terminated killed waited made_up t :
  same_keys identity (lit <$> _IDENTITY) = true ->
  reported_terminal identity terminal error reason code terminated killed waited = (made_up, t) -> claims_end t = true ->
  made_up = false /\ terminal = Some t /\ error = None /\ reason = None /\ terminated = false /\ killed = false /\ waited = true.
Proof.
  intros Hid E Hc. unfold reported_terminal in E. destruct terminal as [u|]; [|injection E as <- <-; by rewrite exit_claims_nothing in Hc].
  destruct (bool_decide (is_Some error) || _) eqn:Eb in E; injection E as <- <-; [by rewrite exit_claims_nothing in Hc|].
  apply orb_false_iff in Eb as [He Ha]. fold (claims_end u) in Ha. rewrite Hc in Ha. cbn [andb] in Ha.
  rewrite !orb_false_iff, negb_false_iff in Ha. destruct Ha as [[[Hr ->] ->] ->].
  apply bool_decide_eq_false in He, Hr. destruct error; [by destruct He|]. destruct reason; [by destruct Hr|]. done.
Qed.

Lemma triple_pre {A} P P' (m : rio A) Q : triple P m Q -> (forall s, P' s -> P s) -> triple P' m Q.
Proof. intros H HP s Hs. by apply H, HP. Qed.

Lemma triple_pure {A} P (Phi : Prop) (m : rio A) Q : (Phi -> triple P m Q) -> triple (fun s => P s /\ Phi) m Q.
Proof. intros H s [Hs Hphi]. by apply H. Qed.

Lemma settle_genuine o terminated killed waited cleaned : same_keys identity (lit <$> _IDENTITY) = true ->
  triple orderly (settle py limits world identity o terminated killed waited cleaned)
    (fun r s => orderly s /\ wr_outcome r = o /\ wr_process_group_cleaned r = cleaned /\ bounded_result r /\
                (claims_end (wr_terminal r) = true -> genuine r s)).
Proof.
  intros Hid. unfold settle. eapply triple_bind; [apply triple_keeps, keeps_observe, orderly_steady|]. intros error.
  eapply triple_bind; [apply triple_observe, orderly_steady|]. intros terminal.
  apply (triple_pre (settled terminal)); [|intros s [Ho ->]; by split].
  eapply triple_bind; [apply triple_keeps, keeps_look|]. intros code. cbv zeta.
  destruct (reported_terminal _ _ _ _ _ _ _ _) as [made_up t] eqn:Et.
  eapply triple_bind; [apply triple_keeps, keeps_observe, settled_steady|]. intros retained.
  eapply (triple_bind _ _ _ (fun a s => settled terminal s /\ exists enc, utf8_encode a.1.1 = Some enc /\
      Z.of_nat (length enc) <= diagnostic_limit limits)).
  { unfold rio_lift. destruct (retain_stderr [retained] _) as [[[text total] cut]|x] eqn:E; [|by intros s _].
    apply triple_ret. intros s Hs. split; [done|]. by apply (retained_bound _ _ _ _ _ E). }
  intros [[text total'] cut]. cbn [fst]. apply triple_pure. intros Htext.
  eapply triple_bind; [apply triple_keeps, keeps_observe, settled_steady|]. intros total.
  eapply triple_bind; [apply triple_observe, settled_steady|]. intros messages.
  apply (triple_pre (fun s => settled terminal s /\ Z.of_nat (length messages) <= Z.max 0 (message_limit limits)));
    [|intros s [[Ho Hx] ->]; split; [by split|apply Ho]].
  apply triple_pure. intros Hmessages.
  eapply triple_bind; [apply triple_observe, settled_steady|]. intros original. apply triple_ret. intros s [[Ho Hx] ->].
  split_and!; [done|done|done|by split|]. cbn [wr_terminal]. intros Hc.
  destruct (reported_claims _ _ _ _ _ _ _ _ _ Hid Et Hc) as (-> & -> & -> & Hr & -> & -> & ->).
  apply final_reason_None in Hr as (_ & Hr & -> & ->). unfold genuine. rewrite (Hx t eq_refl). by split_and!.
Qed.

(** ** Outcomes, and the process *)

(** What a computation can return, whatever it starts from. *)
Definition returns {A} (m : rio A) (Q : A -> Prop) : Prop := triple (fun _ => True) m (fun a _ => Q a).

Lemma returns_bind {A B} (m : rio A) (f : A -> rio B) Q : (forall a, returns (f a) Q) -> returns (mbind f m) Q.
Proof. intros Hf. eapply triple_bind; [|intros a; apply (Hf a)]. intros s _. by destruct (m s) as [[]]. Qed.
Lemma returns_ret {A} (a : A) Q : Q a -> returns (mret a) Q.
Proof. intros H s _. exact H. Qed.
Lemma returns_raise {A} x (Q : A -> Prop) : returns (rio_raise x) Q.
Proof. by intros s _. Qed.
Lemma returns_if {A} (b : bool) (m n : rio A) Q : returns m Q -> returns n Q -> returns (if b then m else n) Q.
Proof. by destruct b. Qed.

Ltac returning :=
  repeat lazymatch goal with
  | |- returns (mbind _ (serve _ _ _ _ _ _ _ _)) _ => fail
  | |- returns (mbind _ _) _ => apply returns_bind; intros ?
  | |- returns (if _ then _ else _) _ => apply returns_if
  | |- returns (mret _) _ => apply returns_ret; solve [assumption | done]
  | |- returns (rio_raise _) _ => apply returns_raise
  end.

Definition clean_outcome (o : run_outcome) : Prop := oc_reason o = None -> o = undisturbed.

Lemma await_outcome fuel t : returns (await_hello py limits world fuel t) clean_outcome.
Proof. induction fuel as [|fuel IH]; cbn [await_hello]; returning; done. Qed.

Lemma serve_outcome fuel t v : returns (serve py limits world identity automatic_cancellation fuel t v) clean_outcome.
Proof. revert v. induction fuel as [|fuel IH]; intros v; cbn [serve]; returning; auto. Qed.

Lemma serve_hello_outcome t o : clean_outcome o ->
  returns (serve_hello py limits world identity job_context automatic_cancellation t o) clean_outcome.
Proof.
  intros Ho. unfold serve_hello. returning.
  eapply triple_bind; [apply serve_outcome|]. intros later s Hl. cbn. intros Hr. cbn in Hr.
  destruct (oc_reason later) eqn:El; [done|]. rewrite (Ho Hr), (Hl El). done.
Qed.

(** The exit was seen, or the tree was killed. *)
Definition finished (s : run_state) : Prop := is_Some (rs_returncode s) \/ Kill ∈ rs_log s.

Lemma finished_steady : steady finished.
Proof.
  split.
  - intros s Hs. cbn. destruct (threads_frame (world (rs_moment s)) (next_moment s)) as (_ & _ & E1 & E2 & _).
    unfold finished. rewrite E1, E2. by destruct s.
  - intros a s [H|H]; destruct s; [by left|]. right. cbn in *. set_solver.
  - intros s d _ H. exact H.
  - intros s c [[x Hx]|H] Hn; [congruence|]. by right.
Qed.

Lemma exited_seen P : triple P (exited py limits world) (fun b s => b = true -> is_Some (rs_returncode s)).
Proof.
  intros s _. unfold exited, poll_exit. cbn. destruct (let_threads py limits (world (rs_moment s)) (next_moment s)). cbn. intros H. by apply bool_decide_eq_true in H.
Qed.

Lemma cleanup_finished P t k : triple P (cleanup_process py limits world t k) (fun _ => finished).
Proof.
  unfold cleanup_process, _bounded_wait. eapply triple_bind; [apply exited_seen|]. intros gone.
  eapply (triple_bind _ _ _ (fun _ => finished)).
  - destruct gone; [apply triple_ret; intros s Hs; left; auto|].
    eapply (triple_bind _ _ _ (fun _ _ => True)); [intros s _; by destruct s|]. intros _.
    eapply triple_bind; [apply exited_seen|]. intros [|]; [apply triple_ret; intros s Hs; left; auto|].
    eapply (triple_bind _ _ _ (fun _ => finished)); [intros s _; right; destruct s; cbn; set_solver|]. intros _.
    apply triple_keeps. pose proof finished_steady. keeping.
  - intros _. apply triple_keeps. pose proof finished_steady. unfold _wait_boundary.
    pose proof (fun f d => keeps_wait_tree finished f d finished_steady). keeping; auto.
Qed.

Lemma triple_and {A} P P' (m : rio A) Q Q' :
  triple P m Q -> triple P' m Q' -> triple (fun s => P s /\ P' s) m (fun a s => Q a s /\ Q' a s).
Proof. intros H H' s [Hs Hs']. specialize (H s Hs). specialize (H' s Hs'). by destruct (m s) as [[]]. Qed.

Lemma returns_with {A} P (m : rio A) Q : run_keeps P m -> returns m Q -> triple P m (fun a s => P s /\ Q a).
Proof.
  intros Hk Hr s Hs. specialize (Hk s Hs). specialize (Hr s I). by destruct (m s) as [[]].
Qed.

(** A run that returns. *)
Lemma supervise_outcome : same_keys identity (lit <$> _IDENTITY) = true ->
  triple orderly (supervise py limits world identity job_context automatic_cancellation)
    (fun r s => orderly s /\ finished s /\ clean_outcome (wr_outcome r) /\ bounded_result r /\
                (claims_end (wr_terminal r) = true -> genuine r s)).
Proof.
  intros Hid. pose proof orderly_steady as HP. pose proof orderly_sends as HS. unfold supervise.
  eapply triple_bind; [apply triple_keeps, keeps_monotonic, HP|]. intros t.
  eapply triple_bind; [apply returns_with; [apply keeps_await, HP|apply await_outcome]|]. intros o. apply triple_pure. intros Ho.
  eapply triple_bind; [apply returns_with; [by apply keeps_serve_hello|by apply serve_hello_outcome]|]. intros o'. apply triple_pure. intros Ho'.
  eapply triple_bind; [apply triple_keeps, keeps_end, HP|]. intros [[terminated killed] waited].
  eapply triple_bind.
  { eapply triple_pre; [apply triple_and; [apply triple_keeps, keeps_cleanup, HP|apply (cleanup_finished (fun _ => True))]|intros s Hs; exact (conj Hs I)]. }
  intros cleaned. cbv beta. pose proof finished_steady as HF.
  eapply triple_bind; [apply triple_and; apply triple_keeps, (keeps_act py limits world); eassumption|]. intros u.
  eapply triple_bind; [apply triple_and; apply triple_keeps, keeps_join; eassumption|]. intros joined.
  eapply triple_weaken; [intros s H; exact H| |apply triple_and; [by apply settle_genuine|apply triple_keeps, keeps_settle, HF]].
  intros r s [(Ho1 & Ho2 & _ & Hb & Hg) Hf]. split_and!; [done|done| |done|done]. by rewrite Ho2.
Qed.

Lemma fresh_orderly session : make_session identity = Ok session -> orderly (fresh_run session).
Proof.
  intros H. apply fresh_session in H as [Hs Hi]. split_and!; [|cbn; lia|cbn; lia]. exists []. split_and!; [done|done|set_solver].
Qed.

Lemma session_identity session : make_session identity = Ok session -> same_keys identity (lit <$> _IDENTITY) = true.
Proof. unfold make_session. intros H. unbind H. by apply negb_false_iff. Qed.

(** A final message repeats what a start asked for. *)
Lemma terminal_start acc session t : spoke acc session -> ps_terminal session = Some t ->
  exists js, js ∈ acc /\ says js = Some JobStart /\ agree_on _START_IDENTITY_FIELDS t (start_fields js) = true.
Proof.
  intros Hsp [Hst Hlast]%(sp_terminal acc _ Hsp). pose proof (sp_said acc _ Hsp) as Hsaid. rewrite Hst in Hsaid.
  apply last_Some in Hlast as [l Hacc]. destruct (conversation_last acc l _ Hsaid Hacc (sp_kind acc _ Hsp)) as (k & Hkd & Hfin).
  apply (sp_final acc _ Hsp t k); [rewrite Hacc; set_solver|done|done].
Qed.

(** C11. A worker's success is genuine.  When a run returns a terminal message that says the job
    succeeded or was cancelled, that message is the worker's own: offer a fresh session of the
    attempt the lines the worker wrote, in order from the first one on, with the coordinator's
    own start and cancels between them, and it ends as the run's session did, having accepted a
    whole conversation whose last message is the reported one.  That message is about the attempt
    and the generations the coordinator asked for, and says published exactly if it says
    succeeded (where nothing portable was asked for); and the worker exited with code 0 by
    itself, was waited for, left no process behind, and no error of the protocol was recorded. *)
Theorem worker_success_genuine launched r s :
  _run_protocol_worker py limits world identity job_context automatic_cancellation launched = (Ok r, Some s) ->
  claims_end (wr_terminal r) = true ->
  (wr_returncode r = Some 0 /\ wr_waited r = true /\ wr_process_group_cleaned r = true /\ wr_terminated r = false /\
   wr_killed r = false /\ wr_protocol_error r = None /\ wr_outcome r = undisturbed /\
   wr_original_terminal r = Some (wr_terminal r)) /\
  exists first offers acc js, make_session identity = Ok first /\
    converse py offers first = (acc, rs_session s) /\ Forall own_offer offers /\
    worker_frames offers `prefix_of` lines_until (rs_moment s) /\
    conversation (kinds acc) /\ last acc = Some (wr_terminal r) /\ _job_start identity job_context = Ok js /\
    agree_on _IDENTITY (wr_terminal r) identity = true /\
    agree_on _START_IDENTITY_FIELDS (wr_terminal r) (start_fields js) = true /\
    (has_extension (wr_terminal r) = false ->
       (field_is "publication_state" "committed" (wr_terminal r) = true <-> field_is "status" "succeeded" (wr_terminal r) = true)).
Proof.
  unfold _run_protocol_worker. intros H Hc.
  destruct (session ← make_session identity; _) as [session|x] eqn:E; [|done]. unbind E. injection E as ->.
  pose proof (supervise_outcome (session_identity _ H0) _ (fresh_orderly _ H0)) as Hs.
  assert (tracked session (fresh_run session)) as Htr by (exists []; split_and!; [done|constructor|done|done]).
  apply (keeps_supervise _ (tracked_steady session) (tracked_sends session)) in Htr.
  destruct (supervise _ _ _ _ _ _ (fresh_run session)) as [[r'|x'] s']; [|done]. injection H as -> ->. cbn [snd] in Htr.
  destruct Hs as ((acc_ok & _) & _ & Ho & _ & Hg). destruct (Hg Hc) as (_ & Ht & Horig & Hp & Hr & Hte & Hk & Hw & Hcl & Hrc).
  split; [split_and!; try done; by apply Ho|]. destruct Htr as (offers & Hconv & Hown & Hpre & _).
  destruct (converse py offers session) as [acc s1] eqn:Ec. cbn [snd] in Hconv. subst s1.
  destruct (fresh_session _ _ H0) as [Hfresh _]. pose proof (spoke_converse py offers [] session Hfresh) as Hsp. rewrite Ec in Hsp.
  cbn [app fst snd] in Hsp. destruct acc_ok as (acc' & Hsp' & Hid & Hjs).
  destruct (terminal_start _ _ _ Hsp' Ht) as (js & Hj & Hkj & Hag).
  apply (sp_terminal acc _ Hsp) in Ht as [Hst Hlast]. pose proof (sp_said acc _ Hsp) as Hsaid. rewrite Hst in Hsaid. cbn [said] in Hsaid.
  apply last_Some in Hlast as Hacc. destruct Hacc as [l Hacc]. assert (wr_terminal r ∈ acc) as Hin by (rewrite Hacc; set_solver).
  destruct (conversation_last acc l _ Hsaid Hacc (sp_kind acc _ Hsp)) as (k & Hkd & Hfin).
  destruct (sp_final acc _ Hsp _ k Hin Hkd Hfin) as (Hok & _). exists session, offers, acc, js.
  destruct (status_succeeded k _ Hfin Hok) as [Ha Hb]. split_and!; [done|done|done|done|done|done|by apply Hjs| |done|].
  - rewrite <- Hid. apply (sp_identity acc _ Hsp); [done|]. rewrite Hkd. destruct Hfin; subst; discriminate.
  - intros He. rewrite He in Ha. naive_solver.
Qed.

(** ** What is not raised *)

Definition never (x : run_exn) {A} (m : rio A) : Prop := forall s, (m s).1 <> Err x.

Section Never.
Variable x : run_exn.
Lemma calm_bind {A B} (m : rio A) (f : A -> rio B) : never x m -> (forall a, never x (f a)) -> never x (mbind f m).
Proof. intros Hm Hf s. specialize (Hm s). unfold mbind, rio_bind. destruct (m s) as [[a|y] s']; [apply Hf|]. intros [= ->]. by apply Hm. Qed.
Lemma calm_if {A} (b : bool) (m n : rio A) : never x m -> never x n -> never x (if b then m else n).
Proof. by destruct b. Qed.
Lemma calm_draw : never x (draw py limits world). Proof. by intros s. Qed.
Lemma calm_exited : never x (exited py limits world). Proof. by intros s. Qed.
Lemma calm_observe {A} (f : run_state -> A) : never x (rio_observe py limits world f). Proof. by intros s. Qed.
Lemma calm_monotonic : never x (monotonic py limits world). Proof. by intros s. Qed.
Lemma calm_sleep d : never x (sleep py limits world d). Proof. by intros s. Qed.
Lemma calm_act a : never x (act a). Proof. by intros s. Qed.
Lemma calm_ret {A} (a : A) : never x (mret a : rio A). Proof. by intros s. Qed.
Lemma calm_look {A} (f : run_state -> A) : never x (look f). Proof. by intros s. Qed.
Lemma calm_raise {A} y : y <> x -> never x (rio_raise y : rio A). Proof. intros H s [= ->]. by apply H. Qed.
Lemma calm_lift {A} (r : pres A) : (forall y, Raised y <> x) -> never x (rio_lift r).
Proof. intros H. destruct r; [apply calm_ret|by apply calm_raise]. Qed.
End Never.

Ltac step_calm := apply calm_draw || apply calm_exited || apply calm_observe || apply calm_monotonic || apply calm_sleep || apply calm_act
  || apply calm_ret || apply calm_look || (apply calm_raise; congruence) || (apply calm_lift; congruence).
Ltac calming :=
  repeat match goal with
  | |- never _ (mbind _ _) => apply calm_bind; [|intros ?]
  | |- never _ (if _ then _ else _) => apply calm_if
  | |- never _ _ => step_calm
  | |- never _ _ => progress case_match
  end.

(** The loops raise only what a message of the coordinator does. *)
Section NeverLoops.
Variable x : run_exn.
Hypothesis turns_x : OutOfTurns <> x.

Lemma calm_wait_tree fuel d : never x (wait_tree py limits world fuel d).
Proof. induction fuel as [|fuel IH]; cbn [wait_tree]; calming; done. Qed.
Lemma calm_cleanup t k : never x (cleanup_process py limits world t k).
Proof. unfold cleanup_process, _bounded_wait, _wait_boundary. pose proof calm_wait_tree. calming; auto. Qed.
Lemma calm_await fuel t : never x (await_hello py limits world fuel t).
Proof. induction fuel as [|fuel IH]; cbn [await_hello]; calming; done. Qed.

Hypothesis raised_x : forall y, Raised y <> x.
Lemma calm_send m following : never x (_send_coordinator py limits world m following).
Proof.
  intros s. unfold _send_coordinator, mbind, rio_bind, draw, look. destruct (_ && _); [done|].
  destruct (accept_all _ _ _ _) as [[bytes|y] session]; cbn; [|by intros [= E]; apply (raised_x y)].
  destruct (m_input_open _); cbn; [done|]. intros [= E]. by eapply raised_x.
Qed.
Lemma calm_serve fuel t v : never x (serve py limits world identity automatic_cancellation fuel t v).
Proof. pose proof calm_send. revert v. induction fuel as [|fuel IH]; intros v; cbn [serve]; calming; auto. Qed.
Lemma calm_serve_hello t o : never x (serve_hello py limits world identity job_context automatic_cancellation t o).
Proof. unfold serve_hello. pose proof calm_send. pose proof calm_serve. calming; auto. Qed.
Lemma calm_settle o a b c d : never x (settle py limits world identity o a b c d).
Proof. unfold settle. calming. Qed.
End NeverLoops.

Lemma calm_end x r : never x (end_process py limits world r).
Proof. unfold end_process, _bounded_wait. calming. Qed.

(** ** Where a run hangs *)

(** What holds after a return, and when the thread waits for ever. *)
Definition hang_triple {A} (P : run_state -> Prop) (m : rio A) (Q : A -> run_state -> Prop) (R : run_state -> Prop) : Prop :=
  forall s, P s -> match m s with (Ok a, s') => Q a s' | (Err Hung, s') => R s' | _ => True end.

Lemma hang_bind {A B} P (m : rio A) (f : A -> rio B) M Q R :
  hang_triple P m M R -> (forall a, hang_triple (M a) (f a) Q R) -> hang_triple P (mbind f m) Q R.
Proof.
  intros Hm Hf s Hs. specialize (Hm s Hs). unfold mbind, rio_bind. destruct (m s) as [[a|[]] s']; [by apply Hf|done..].
Qed.

Lemma hang_never {A} P (m : rio A) Q R : triple P m Q -> never Hung m -> hang_triple P m Q R.
Proof. intros H Hn s Hs. specialize (H s Hs). specialize (Hn s). by destruct (m s) as [[|[]]]. Qed.

Lemma hang_any {A} P (m : rio A) R : never Hung m -> hang_triple P m (fun _ _ => True) R.
Proof. intros Hn. apply hang_never; [|done]. intros s _. by destruct (m s) as [[]]. Qed.

(** The worker is gone or killed, a reading thread was alive, and its pipe stays open and silent. *)
Definition hung (s : run_state) : Prop :=
  finished s /\ exists i, rs_moment s = S (S i) /\ m_reading (world i) = true /\ m_held (world (S i)) = true.

Lemma join_hangs : hang_triple finished (join_readers py limits world) (fun _ _ => True) hung.
Proof.
  pose proof finished_steady as HF. unfold join_readers.
  eapply hang_bind; [apply hang_never; [by apply triple_keeps, keeps_draw|apply calm_draw]|]. intros m0.
  intros s Hs. pose proof (keeps_draw py limits world _ HF s Hs) as H1. unfold mbind, rio_bind, draw at 1. unfold draw in H1. cbn [snd] in H1.
  destruct (m_reading (world (rs_moment s))) eqn:Er; [|done]. unfold close_output, mbind, rio_bind, draw at 1.
  destruct (threads_frame (world (rs_moment s)) (next_moment s)) as (E1 & _). set (s1 := let_threads _ _ _ _) in *.
  assert (rs_moment s1 = S (rs_moment s)) as E by (rewrite E1; by destruct s).
  destruct (m_held (world (rs_moment s1))) eqn:Eh; [|done]. pose proof (keeps_draw py limits world _ HF s1 H1) as H2.
  split; [exact H2|]. exists (rs_moment s). cbn in H2 |- *. destruct (threads_frame (world (rs_moment s1)) (next_moment s1)) as (E2 & _).
  rewrite E2. rewrite E in Eh. split_and!; [by destruct s1; cbn in *; f_equal|done|done].
Qed.

Lemma supervise_hangs :
  hang_triple (fun _ => True) (supervise py limits world identity job_context automatic_cancellation) (fun _ _ => True) hung.
Proof.
  pose proof finished_steady as HF. unfold supervise. eapply hang_bind; [apply hang_any, calm_monotonic|]. intros t.
  eapply hang_bind; [by apply hang_any, calm_await|]. intros o. eapply hang_bind; [by apply hang_any, calm_serve_hello|]. intros o'.
  eapply hang_bind; [apply hang_any, calm_end|]. intros [[terminated killed] waited].
  eapply hang_bind; [apply hang_never; [apply cleanup_finished|by apply calm_cleanup]|]. intros cleaned.
  eapply hang_bind; [apply hang_never; [by apply triple_keeps, (keeps_act py limits world)|apply calm_act]|]. intros u.
  eapply hang_bind; [apply join_hangs|]. intros joined. by apply hang_any, calm_settle.
Qed.

(** ** Every run ends *)

Section Ends.
(** The clock never goes back. *)
Hypothesis clock : forall i, m_elapsed (world i) <= m_elapsed (world (S i)).

(** A clock read now says at least [T]. *)
Definition late (T : Z) (s : run_state) : Prop := T <= rs_slept s + m_elapsed (world (rs_moment s)).

(** The session is in order, the clock is past [T], and the final message is in if [b] says so. *)
Definition going (T : Z) (b : bool) (s : run_state) : Prop :=
  (exists t, settled t s /\ (b = true -> is_Some t)) /\ late T s.

Lemma late_draw T s : late T s -> late T (draw py limits world s).2.
Proof.
  intros H. cbn. destruct (threads_frame (world (rs_moment s)) (next_moment s)) as (E1 & E2 & _).
  unfold late in *. rewrite E1, E2. pose proof (clock (rs_moment s)). destruct s. cbn in *. lia.
Qed.

Lemma going_steady T b : steady (going T b).
Proof.
  split.
  - intros s [(t & Hs & Hb) Hl]. split; [|by apply late_draw]. exists t. split; [|done]. by apply (st_draw _ _ _ _ (settled_steady t)).
  - intros a s [(t & Hs & Hb) Hl]. split; [|by destruct s]. exists t. split; [|done]. by apply (st_act _ _ _ _ (settled_steady t)).
  - intros s d Hd [(t & Hs & Hb) Hl]. split; [|unfold late in *; cbn; lia]. exists t. split; [|done].
    by apply (st_sleep _ _ _ _ (settled_steady t)).
  - intros s c [(t & Hs & Hb) Hl] Hn. split; [|done]. exists t. split; [|done]. by apply (st_exit _ _ _ _ (settled_steady t)).
Qed.

Lemma going_terminal T b s : going T b s -> orderly s /\ (b = true -> is_Some (ps_terminal (rs_session s))).
Proof. intros [(t & [Ho Ht] & Hb) _]. split; [done|]. intros [x ->]%Hb. eexists. by apply Ht. Qed.

(** Never out of turns. *)
Definition run_ends {A} (P : run_state -> Prop) (m : rio A) (Q : A -> run_state -> Prop) : Prop :=
  forall s, P s -> match m s with (Ok a, s') => Q a s' | (Err OutOfTurns, _) => False | (Err _, _) => True end.

Lemma ends_bind {A B} P (m : rio A) (f : A -> rio B) R Q :
  run_ends P m R -> (forall a, run_ends (R a) (f a) Q) -> run_ends P (mbind f m) Q.
Proof.
  intros Hm Hf s Hs. specialize (Hm s Hs). unfold mbind, rio_bind. destruct (m s) as [[a|x] s']; [by apply Hf|done].
Qed.

Lemma ends_ret {A} P (a : A) (Q : A -> run_state -> Prop) : (forall s, P s -> Q a s) -> run_ends P (mret a) Q.
Proof. intros H s Hs. by apply H. Qed.

Lemma ends_pre {A} P P' (m : rio A) Q : run_ends P m Q -> (forall s, P' s -> P s) -> run_ends P' m Q.
Proof. intros H HP s Hs. by apply H, HP. Qed.

Lemma ends_triple {A} P (m : rio A) Q : triple P m Q -> (forall s, (m s).1 <> Err OutOfTurns) -> run_ends P m Q.
Proof. intros H Hm s Hs. specialize (H s Hs). specialize (Hm s). by destruct (m s) as [[|[]]]. Qed.

Lemma ends_keeps {A} P (m : rio A) : run_keeps P m -> never OutOfTurns m -> run_ends P m (fun _ => P).
Proof. intros Hk Hc. by apply ends_triple; [apply triple_keeps|]. Qed.

Lemma ends_calm {A} P (m : rio A) : never OutOfTurns m -> run_ends P m (fun _ _ => True).
Proof. intros Hc s _. specialize (Hc s). by destruct (m s) as [[|[]]]. Qed.

Lemma ends_step {A B} P (m : rio A) (f : A -> rio B) Q : run_keeps P m -> never OutOfTurns m -> (forall a, run_ends P (f a) Q) -> run_ends P (mbind f m) Q.
Proof. intros Hk Hc Hf. eapply ends_bind; [by apply ends_keeps|]. exact Hf. Qed.

Lemma ends_monotonic T b :
  run_ends (going T b) (monotonic py limits world) (fun now s => going (Z.max T now) b s /\ T <= now).
Proof.
  intros s Hs. pose proof (keeps_draw py limits world _ (going_steady T b) s Hs) as Hk. pose proof (proj2 Hs) as Hl0.
  unfold monotonic, mbind, rio_bind, draw, look. unfold draw in Hk. cbn [snd] in Hk.
  destruct (threads_frame (world (rs_moment s)) (next_moment s)) as (E1 & E2 & _).
  set (s' := let_threads _ _ _ _) in *. assert (rs_slept s' = rs_slept s) as E3 by (rewrite E2; by destruct s).
  assert (rs_moment s' = S (rs_moment s)) as E4 by (rewrite E1; by destruct s). unfold late in Hl0. cbn. rewrite E3.
  pose proof (clock (rs_moment s)) as Hc. split; [|lia]. split; [apply Hk|]. unfold late. rewrite E3, E4. lia.
Qed.

Lemma ends_sleep T b d : 0 <= d -> run_ends (going T b) (sleep py limits world d) (fun _ => going (T + d) b).
Proof.
  intros Hd s Hs. pose proof (keeps_sleep py limits world _ (going_steady T b) d Hd s Hs) as Hk.
  pose proof (late_draw T s (proj2 Hs)) as Hl. unfold sleep, mbind, rio_bind, draw, rio_modify in *. cbn [snd] in *.
  destruct (let_threads _ _ _ _) as [i sl ss ms err h hb rd rt t rc lg]. split; [apply Hk|]. unfold late in *. cbn in *. lia.
Qed.

(** One step that keeps where the run is. *)
Ltac go := eapply ends_step; [pose proof going_steady; keeping|calming|intros ?].

Lemma ends_any {A} P (a : A) : run_ends P (mret a) (fun _ _ => True).
Proof. by apply ends_ret. Qed.

Lemma wait_tree_ends fuel : forall n T b deadline,
  (n < fuel)%nat -> deadline <= T + Z.of_nat n * BOUNDARY_PAUSE ->
  run_ends (going T b) (wait_tree py limits world fuel deadline) (fun _ _ => True).
Proof.
  induction fuel as [|fuel IH]; intros n T b deadline Hn Hd; [lia|]. cbn [wait_tree]. go. destruct (m_tree _); [|apply ends_any].
  eapply ends_bind; [apply ends_monotonic|]. intros now.
  destruct (Z.ltb_spec now deadline) as [Hlt|Hge]; [|apply ends_any].
  intros s [Hg HT]. revert s Hg. apply (ends_pre (going T b)); [|intros s [Hx Hl]; split; [done|]; unfold late in *; lia].
  eapply ends_bind; [by apply ends_sleep|]. intros u. destruct n as [|n]; [lia|]. apply (IH n); [lia|]. rewrite Nat2Z.inj_succ in Hd. lia.
Qed.

Lemma turns_enough duration pause n : 0 < pause -> n = Z.to_nat (duration / pause + 1) -> duration <= Z.of_nat n * pause.
Proof.
  intros Hp ->. pose proof (Z.div_mod duration pause ltac:(lia)). pose proof (Z.mod_pos_bound duration pause Hp).
  destruct (Z.le_gt_cases 0 (duration / pause + 1)); [rewrite Z2Nat.id by lia; nia|]. assert (duration / pause < 0) by lia. nia.
Qed.

Lemma turns_bound duration pause : 0 <= duration -> 0 < pause -> (Z.to_nat (duration / pause + 1) < turns duration pause)%nat.
Proof. intros H Hp. unfold turns. pose proof (Z.div_pos duration pause H Hp). lia. Qed.

Lemma wait_boundary_ends T b timeout : 0 <= timeout ->
  run_ends (going T b) (_wait_boundary py limits world timeout) (fun _ _ => True).
Proof.
  intros Ht. unfold _wait_boundary. eapply ends_bind; [apply ends_monotonic|]. intros now.
  apply (ends_pre (going (Z.max T now) b)); [|by intros s []].
  eapply ends_bind.
  { apply (wait_tree_ends _ (Z.to_nat (timeout / BOUNDARY_PAUSE + 1))); [by apply turns_bound|].
    pose proof (turns_enough timeout BOUNDARY_PAUSE _ ltac:(done) eq_refl). lia. }
  intros u. intros s _. done.
Qed.

Lemma await_ends fuel : forall n T started,
  (n < fuel)%nat -> started + hello_deadline limits <= T + Z.of_nat n * PAUSE ->
  run_ends (going T false) (await_hello py limits world fuel started) (fun _ _ => True).
Proof.
  induction fuel as [|fuel IH]; intros n T started Hn Hd; [lia|]. cbn [await_hello].
  go. go. destruct a0; [apply ends_any|]. go. case_bool_decide; [apply ends_any|].
  eapply ends_bind; [apply ends_monotonic|]. intros now.
  destruct (Z.leb_spec (hello_deadline limits) (now - started)) as [Hle|Hlt]; [apply ends_any|].
  intros s [Hg HT]. revert s Hg. apply (ends_pre (going T false)); [|intros s [Hx Hl]; split; [done|]; unfold late in *; lia].
  go. destruct (m_probe _); [apply ends_any|]. eapply ends_bind; [by apply ends_sleep|]. intros u.
  destruct n as [|n]; [lia|]. apply (IH n); [lia|]. rewrite Nat2Z.inj_succ in Hd. lia.
Qed.

Lemma late_send T m following : run_keeps (late T) (_send_coordinator py limits world m following).
Proof.
  intros s Hs. apply late_draw in Hs. unfold _send_coordinator, mbind, rio_bind, draw, look in *. cbn [snd] in *.
  destruct (_ && _); [exact Hs|]. destruct (accept_all _ _ _ _) as [frames session].
  destruct (let_threads _ _ _ _). destruct frames as [bytes|x]; [destruct (m_input_open _)|]; exact Hs.
Qed.

(** A cancel is not sent once the final message is in. *)
Lemma send_cancel_ends T :
  run_ends (going T false) (_send_coordinator py limits world (_cancel identity) [])
    (fun sent s => going T (negb sent) s).
Proof.
  intros s Hg. assert (never OutOfTurns (_send_coordinator py limits world (_cancel identity) [])) as Hc by by apply calm_send.
  specialize (Hc s).
  pose proof (late_send T (_cancel identity) [] s (proj2 Hg)) as Hl. destruct (going_terminal _ _ _ Hg) as [Ho _].
  pose proof (proj1 (orderly_sends false) s Ho) as Ho'.
  destruct (_send_coordinator _ _ _ _ _ s) as [[sent|[x| |]] s'] eqn:E; [|done|done|by destruct Hc]. cbn [snd] in *. split; [|done].
  destruct sent; [by exists None; split; [split|]|]. exists (ps_terminal (rs_session s')). split; [by split|]. intros _.
  unfold _send_coordinator, mbind, rio_bind, draw, look in E. destruct (_ && _) eqn:Eb in E.
  - injection E as <-. apply andb_true_iff in Eb as [_ Eb]. by apply bool_decide_eq_true in Eb.
  - destruct (accept_all _ _ _ _) as [[bytes|x] session] in E; [|done]. cbn in E. by destruct (m_input_open _) in E.
Qed.

(** The turns the loop may take besides those before its deadline. *)
Definition extra (v : serving) (b : bool) : nat := (if sv_cancel_sent v then 0 else 1) + (if b then 0 else 1).

Lemma ends_observe {A} P (f : run_state -> A) : steady P -> run_ends P (rio_observe py limits world f) (fun a s => P s /\ a = f s).
Proof. intros HP. by apply ends_triple; [apply triple_observe|]. Qed.

Lemma ends_pure {A} P (Phi : Prop) (m : rio A) Q : (Phi -> run_ends P m Q) -> run_ends (fun s => P s /\ Phi) m Q.
Proof. intros H s [Hs Hphi]. by apply H. Qed.

Lemma serve_ends fuel : forall n T b v started,
  (n + extra v b < fuel)%nat -> started + process_deadline limits <= T + Z.of_nat n * PAUSE ->
  run_ends (going T b) (serve py limits world identity automatic_cancellation fuel started v) (fun _ _ => True).
Proof.
  induction fuel as [|fuel IH]; intros n T b v started Hn Hd; [lia|]. cbn [serve].
  go. destruct a; [apply ends_any|]. eapply ends_bind; [apply ends_monotonic|]. intros now. cbv beta.
  apply ends_pure. intros Hnow. apply (ends_pre (going T b)); [|intros s [Hx Hl]; split; [done|]; unfold late in *; lia].
  assert (forall v' b' n', (n' + extra v' b' < fuel)%nat -> started + process_deadline limits <= T + PAUSE + Z.of_nat n' * PAUSE ->
    run_ends (going T b') (_ ← sleep py limits world PAUSE;
      serve py limits world identity automatic_cancellation fuel started v') (fun _ _ => True)) as Hrec.
  { intros v' b' n' Hn' Hd'. eapply ends_bind; [by apply ends_sleep|]. intros u. by apply (IH n'). }
  assert (now - started < process_deadline limits -> exists n', n = S n') as Hpos by (destruct n as [|n']; [lia|eauto]).
  go. case_bool_decide; [apply ends_any|]. go. destruct (m_probe _); [apply ends_any|].
  eapply ends_bind; [apply ends_observe, going_steady|]. intros terminal. case_bool_decide as Hterm.
  - apply (ends_pre (going T b)); [|by intros s []]. go.
    destruct (Z.leb_spec (process_deadline limits) (now - started)) as [Hle|Hlt]; [apply ends_any|].
    destruct (Hpos Hlt) as [n' ->]. apply (Hrec _ b n'); [unfold extra in *; cbn in *; lia|rewrite Nat2Z.inj_succ in Hd; lia].
  - destruct b; [intros s [Hg ->]; exfalso; apply Hterm; by apply (going_terminal _ _ _ Hg)|].
    apply (ends_pre (going T false)); [|by intros s []]. go. go.
    destruct (cancel_wanted _ _ _ _ _ && negb (sv_cancel_sent v)) eqn:Ec.
    + apply andb_true_iff in Ec as [_ Ec]. apply negb_true_iff in Ec. eapply ends_bind; [apply send_cancel_ends|]. intros sent.
      apply (Hrec _ _ n); [unfold extra in *; rewrite Ec in Hn; cbn [sv_cancel_sent]; destruct sent; cbn in *; lia|]. unfold PAUSE in *. lia.
    + clear Ec. destruct (_ && _); [apply ends_any|]. destruct (heartbeat_deadline limits <=? _); [apply ends_any|].
      destruct (Z.leb_spec (process_deadline limits) (now - started)) as [Hle|Hlt]; [apply ends_any|].
      destruct (Hpos Hlt) as [n' ->]. apply (Hrec _ false n'); [unfold extra in *; cbn in *; lia|rewrite Nat2Z.inj_succ in Hd; lia].
Qed.

Lemma ends_and {A} P P' (m : rio A) Q Q' : run_ends P m Q -> triple P' m Q' -> run_ends (fun s => P s /\ P' s) m (fun a s => Q a s /\ Q' a s).
Proof. intros H H' s [Hs Hs']. specialize (H s Hs). specialize (H' s Hs'). by destruct (m s) as [[|[]]]. Qed.

(** A loop that ends and keeps a property. *)
Lemma ends_keeping {A} P (m : rio A) : run_ends P m (fun _ _ => True) -> run_keeps P m -> run_ends P m (fun _ => P).
Proof. intros H Hk s Hs. specialize (H s Hs). specialize (Hk s Hs). by destruct (m s) as [[|[]]]. Qed.

Lemma going_sends T : keeps_sends (going T false).
Proof.
  assert (forall m following, run_keeps orderly (_send_coordinator py limits world m following) ->
            run_keeps (going T false) (_send_coordinator py limits world m following)) as Hs.
  { intros m following Ho s Hg. destruct (going_terminal _ _ _ Hg) as [Hor _]. split; [|apply late_send, Hg].
    exists None. split; [|done]. split; [by apply Ho|done]. }
  intros b. split; [apply Hs, (orderly_sends b)|]. intros js Hjs. by apply Hs, (orderly_sends b).
Qed.

Hypothesis positive : check_limits limits = Ok tt.

Lemma run_limits_positive : 0 < process_deadline limits /\ 0 < hello_deadline limits /\ 0 < termination_grace limits /\
  0 <= diagnostic_limit limits <= MAX_RETAINED_DIAGNOSTIC_BYTES.
Proof. revert positive. unfold check_limits. cbn [foldr]. intros H. unbind H. lia. Qed.

Lemma serve_hello_ends T o :
  run_ends (going T false) (serve_hello py limits world identity job_context automatic_cancellation T o) (fun _ => going T false).
Proof.
  pose proof (going_sends T) as HS. pose proof (going_steady T false) as HP. apply ends_keeping; [|by apply keeps_serve_hello].
  unfold serve_hello. go. destruct (negb a); [apply ends_any|]. go. destruct a0; [apply ends_any|].
  destruct (_job_start identity job_context) as [js|x] eqn:E; [|by intros s].
  match goal with |- run_ends ?P (mbind ?f (rio_lift (Ok js))) ?Q => change (run_ends P (f js) Q) end. cbv beta. go.
  eapply ends_step; [keeping|calming|]. intros now. cbv zeta.
  eapply ends_step; [case_match; [by apply (HS true)|by apply (HS false)]|by apply calm_send|]. intros u. go.
  eapply ends_bind; [|intros later; apply ends_any].
  eapply (serve_ends _ (Z.to_nat (process_deadline limits / PAUSE + 1))).
  - pose proof (turns_bound (process_deadline limits) PAUSE ltac:(pose proof run_limits_positive; lia) ltac:(done)).
    unfold extra. cbn [sv_cancel_sent]. case_match; lia.
  - pose proof (turns_enough (process_deadline limits) PAUSE _ ltac:(done) eq_refl). lia.
Qed.

Lemma cleanup_ends T t : run_ends (going T false) (cleanup_process py limits world t (termination_grace limits)) (fun _ => going T false).
Proof.
  apply ends_keeping; [|apply keeps_cleanup, going_steady]. unfold cleanup_process, _bounded_wait. go.
  eapply ends_step; [pose proof going_steady; keeping|calming|]. intros ?. go.
  eapply ends_bind; [|intros u; apply ends_calm; calming].
  destruct (m_tree _); [|apply ends_any]. go.
  eapply ends_bind; [apply wait_boundary_ends; pose proof run_limits_positive; lia|]. intros u. apply ends_any.
Qed.

Lemma supervise_ends session : make_session identity = Ok session ->
  match (supervise py limits world identity job_context automatic_cancellation (fresh_run session)).1 with
  | Err OutOfTurns => False
  | _ => True
  end.
Proof.
  intros Hm. set (T0 := m_elapsed (world 0)).
  assert (run_ends (going T0 false) (supervise py limits world identity job_context automatic_cancellation) (fun _ _ => True)) as H.
  { unfold supervise. eapply ends_bind; [apply ends_monotonic|]. intros started.
    apply (ends_pre (going started false)); [|intros s [[Hx Hl] _]; split; [done|]; unfold late in *; lia].
    eapply ends_bind.
    { apply ends_keeping; [|apply keeps_await, going_steady].
      eapply (await_ends _ (Z.to_nat (hello_deadline limits / PAUSE + 1))); [apply turns_bound; [pose proof run_limits_positive; lia|done]|].
      pose proof (turns_enough (hello_deadline limits) PAUSE _ ltac:(done) eq_refl). lia. }
    intros o. eapply ends_bind; [apply serve_hello_ends|]. intros o'.
    eapply ends_step; [apply keeps_end, going_steady|apply calm_end|]. intros [[terminated killed] waited].
    eapply ends_bind; [apply cleanup_ends|]. intros cleaned. go.
    eapply ends_step; [apply keeps_join, going_steady|unfold join_readers, close_output; calming|]. intros joined.
    by apply ends_calm, calm_settle. }
  assert (going T0 false (fresh_run session)) as Hg.
  { split; [|unfold late; cbn; lia]. exists None. split; [|done]. split; [by apply fresh_orderly|done]. }
  specialize (H _ Hg). destruct (supervise _ _ _ _ _ _ _) as [[|[]]]; done.
Qed.

End Ends.

(** ** Runs that return *)

Section Returns.

(** Nothing is raised. *)
Definition sure {A} (P : run_state -> Prop) (m : rio A) (Q : A -> run_state -> Prop) : Prop :=
  forall s, P s -> match m s with (Ok a, s') => Q a s' | (Err (Raised _), _) => False | (Err _, _) => True end.
Definition gentle {A} (m : rio A) : Prop := forall x, never (Raised x) m.

Lemma sure_bind {A B} P (m : rio A) (f : A -> rio B) R Q : sure P m R -> (forall a, sure (R a) (f a) Q) -> sure P (mbind f m) Q.
Proof. intros Hm Hf s Hs. specialize (Hm s Hs). unfold mbind, rio_bind. destruct (m s) as [[a|x] s']; [by apply Hf|done]. Qed.
Lemma sure_pre {A} P P' (m : rio A) Q : sure P m Q -> (forall s, P' s -> P s) -> sure P' m Q.
Proof. intros H HP s Hs. by apply H, HP. Qed.
Lemma sure_ret {A} P (a : A) (Q : A -> run_state -> Prop) : (forall s, P s -> Q a s) -> sure P (mret a) Q.
Proof. intros H s Hs. by apply H. Qed.
Lemma sure_triple {A} P (m : rio A) Q : triple P m Q -> gentle m -> sure P m Q.
Proof. intros H Hm s Hs. specialize (H s Hs). destruct (m s) as [[|[x| |]]] eqn:E; [done| |done|done]. specialize (Hm x s). by rewrite E in Hm. Qed.
Lemma sure_keeps {A} P (m : rio A) : run_keeps P m -> gentle m -> sure P m (fun _ => P).
Proof. intros Hk Hg. by apply sure_triple; [apply triple_keeps|]. Qed.
Lemma sure_step {A B} P (m : rio A) (f : A -> rio B) Q : run_keeps P m -> gentle m -> (forall a, sure P (f a) Q) -> sure P (mbind f m) Q.
Proof. intros Hk Hg Hf. eapply sure_bind; [by apply sure_keeps|exact Hf]. Qed.
Lemma sure_any {A} P (a : A) : sure P (mret a) (fun _ _ => True).
Proof. by apply sure_ret. Qed.
Lemma sure_gentle {A} P (m : rio A) : gentle m -> sure P m (fun _ _ => True).
Proof. intros Hm s _. destruct (m s) as [[|[x| |]]] eqn:E; [done| |done|done]. specialize (Hm x s). by rewrite E in Hm. Qed.

Lemma gentle_bind {A B} (m : rio A) (f : A -> rio B) : gentle m -> (forall a, gentle (f a)) -> gentle (mbind f m).
Proof. intros Hm Hf x. apply calm_bind; [apply Hm|]. intros a. apply Hf. Qed.
Lemma gentle_if {A} (b : bool) (m n : rio A) : gentle m -> gentle n -> gentle (if b then m else n).
Proof. by destruct b. Qed.

Ltac soothe :=
  repeat match goal with
  | |- gentle (mbind _ _) => apply gentle_bind; [|intros ?]
  | |- gentle (if _ then _ else _) => apply gentle_if
  | |- gentle _ => by intros ? ?
  | |- gentle _ => progress case_match
  end.
Ltac proceed H := eapply sure_step; [pose proof H; keeping|soothe|intros ?].

Lemma gentle_cleanup t k : gentle (cleanup_process py limits world t k).
Proof. intros x. by apply calm_cleanup. Qed.
Lemma gentle_await fuel t : gentle (await_hello py limits world fuel t).
Proof. intros x. by apply calm_await. Qed.

(** *** The session before and after the start *)

Lemma line_effect f s : let s' := read_line py limits f s in
  (ps_state (rs_session s') = ps_state (rs_session s) /\ rs_hello s' = rs_hello s) \/
  exists k, _DIRECTIONS k = FromWorker /\ _validate_order k (rs_session s) = Ok tt /\
    ps_state (rs_session s') = next_state (ps_state (rs_session s)) k /\ (final k -> is_Some (ps_terminal (rs_session s'))).
Proof.
  destruct s as [i sl ss ms err h hb rd rt t rc lg]. unfold read_line, accept_worker. cbn zeta. destruct (_ || _); [by left|].
  pose proof (accept_outcome py (Frame f.2) FromWorker ss) as Ho. destruct (_accept _ _ _ ss) as [[p|x] ss'].
  - right. destruct Ho as (k & s1 & Ha & _ & -> & Hs1). apply admissible_iff in Ha as (_ & _ & [_ Hd _ _ Hor _]).
    destruct (advance_fields k p s1) as (A1 & _ & _ & A4 & _). assert (ps_state s1 = ps_state ss) as E.
    { destruct (bool_decide (k = WorkerHello)); [destruct Hs1 as [b ->]|subst s1]; done. }
    assert (final k -> is_Some (ps_terminal (_advance k p s1))) as Hfin.
    { intros Hf%final_in. rewrite A4, (bool_decide_true _ Hf). eauto. }
    exists k. repeat case_match; cbn; rewrite A1, E; split_and!; auto.
  - left. destruct Ho as [[->|[_ [b ->]]] _]; by destruct x.
Qed.

(** No start was sent. *)
Definition unstarted (s : run_state) : Prop :=
  orderly s /\ (ps_state (rs_session s) = awaiting_hello /\ rs_hello s = false \/ ps_state (rs_session s) = awaiting_start).
(** A start but no cancel was sent. *)
Definition started (s : run_state) : Prop := orderly s /\ (ps_state (rs_session s) = running \/ is_Some (ps_terminal (rs_session s))).
(** The hello is in. *)
Definition greeted (s : run_state) : Prop := unstarted s /\ rs_hello s = true.

Lemma unstarted_steady : steady unstarted.
Proof.
  apply steady_threads.
  - intros f s [Ho Hp]. split; [by apply orderly_line|]. destruct (line_effect f s) as [[E1 E2]|(k & Hd & Hk%order_allowed & E & _)]; [by rewrite E1, E2|].
    destruct Hp as [[Hp _]|Hp]; rewrite Hp in Hk; subst k; [right; by rewrite E|done].
  - intros c s [Ho Hp]. split; [by apply orderly_chunk|]. by destruct s.
  - intros s i sl rc lg [Ho Hp]. split; [|done]. by destruct s.
Qed.

Lemma greeted_steady : steady greeted.
Proof.
  apply steady_threads.
  - intros f s [Hu Hh]. pose proof unstarted_steady as _. destruct (read_line_frame f s) as (_ & _ & _ & _ & Hk). split; [|auto].
    destruct Hu as [Ho Hp]. split; [by apply orderly_line|]. destruct Hp as [[_ Hp]|Hp]; [congruence|]. right.
    destruct (line_effect f s) as [[E1 _]|(k & Hd & Hor%order_allowed & _)]; [by rewrite E1|]. rewrite Hp in Hor. by subst k.
  - intros c s [[Ho Hp] Hh]. split; [split; [by apply orderly_chunk|]|]; by destruct s.
  - intros s i sl rc lg [[Ho Hp] Hh]. split; [split; [by destruct s|]|]; done.
Qed.

Lemma started_steady : steady started.
Proof.
  apply steady_threads.
  - intros f s [Ho [Hr|[t Ht]]]; (split; [by apply orderly_line|]).
    + destruct (line_effect f s) as [[E1 _]|(k & Hd & Hk%order_allowed & E & Hf)]; [left; by rewrite E1|]. rewrite Hr in Hk, E.
      rewrite !elem_of_cons, elem_of_nil in Hk. unfold final in Hf. destruct_or! Hk; subst k; try done; try (left; by rewrite E); right; auto.
    + right. destruct Ho as [Htalk Ho]. destruct s as [i sl ss ms err h hb rd rt tt' rc lg].
      pose proof (terminal_silent (Frame f.2) FromWorker ss t Htalk Ht) as Hs. unfold read_line, accept_worker.
      destruct (_ || _); [by eexists|]. destruct (_accept _ _ _ ss) as [[p|y] ss']; [done|]. subst ss'. destruct y; by eexists.
  - intros c s [Ho Hp]. split; [by apply orderly_chunk|]. by destruct s.
  - intros s i sl rc lg [Ho Hp]. split; [|done]. by destruct s.
Qed.

(** A session that has heard a hello without the capability. *)
Definition plain_session : ProtocolSession := MkSession identity awaiting_start (Some PROTOCOL_VERSION) false false None None 0.

(** What a session of the same attempt in the same state accepts from the coordinator. *)
Lemma accept_transfer m ref ref' session p :
  _accept py (Message (VDict m)) FromCoordinator ref = (Ok p, ref') ->
  ps_capability ref = false -> ps_state session = ps_state ref -> ps_identity session = ps_identity ref ->
  p = m /\ ps_capability ref' = false /\ exists session', _accept py (Message (VDict m)) FromCoordinator session = (Ok m, session') /\
    ps_state session' = ps_state ref' /\ ps_identity session' = ps_identity ref'.
Proof.
  intros E Hc Hs Hi. pose proof (accept_outcome py (Message (VDict m)) FromCoordinator ref) as Ho. rewrite E in Ho.
  destruct Ho as (k & ref1 & Ha & Hv & -> & Hr1). assert (p = m) as ->.
  { unfold _accept in E. repeat case_match; simplify_eq; done. }
  apply admissible_iff in Ha as (H1 & H2 & [Hk Hd (fields & Hf & Hsame) Hid Hor Hst]).
  assert (k = JobStart \/ k = Cancel) as Hkind by (destruct k; try discriminate Hd; auto).
  rewrite bool_decide_false in Hr1 by (by destruct Hkind; subst). subst ref1.
  assert (admissible m FromCoordinator session = Ok k) as Ha'.
  { apply admissible_iff. split_and!; [done|done|]. split; [done|done| | | |].
    - exists fields. split; [|done]. destruct Hkind; subst k; cbn [expected_fields] in Hf |- *; [|done].
      destruct (has_extension m); [by rewrite Hc in Hf|done].
    - intros Hn. rewrite Hi. auto.
    - unfold _validate_order in *. by rewrite Hs.
    - intros Hin%final_in. destruct Hkind; subst; by destruct Hin. }
  assert (_validate_values k m session = (Ok tt, session)) as Hv'.
  { destruct Hkind; subst k; cbn [_validate_values] in Hv |- *; [|done]. injection Hv as ->. done. }
  split; [done|]. split; [by destruct Hkind, ref; subst|]. exists (_advance k m session). unfold _accept. rewrite Ha', Hv'.
  split; [done|]. destruct (advance_fields k m session) as (-> & -> & _), (advance_fields k m ref) as (-> & -> & _). by rewrite Hs, Hi.
Qed.

Variable js : pydict.
Hypothesis start_ok : _job_start identity job_context = Ok js.
(** The start and a cancel after it pass such a session, and fit a frame each. *)
Hypothesis messages_ok : exists frames, (accept_all py [js; _cancel identity] [] plain_session).1 = Ok frames.
Hypothesis input_open : forall i, m_input_open (world i) = true.

(** Both messages are sent in a session that waits for the start, and the cancel alone in a running one. *)
Lemma messages_accepted session : ps_identity session = identity ->
  (ps_state session = awaiting_start -> forall cancelling : bool, exists frames session',
     accept_all py (js :: if cancelling then [_cancel identity] else []) [] session = (Ok frames, session') /\
     (cancelling = false -> ps_state session' = running)) /\
  (ps_state session = running -> exists frames session', accept_all py [_cancel identity] [] session = (Ok frames, session')).
Proof.
  intros Hi. destruct messages_ok as [frames Hm]. cbn [accept_all] in Hm. unfold accept_coordinator in Hm.
  destruct (_accept _ _ _ plain_session) as [[p|x] ref1] eqn:E1; [|done].
  destruct (encode_jsonl py (VDict js) _) as [f1|] eqn:F1; [|done].
  destruct (_accept _ (Message (VDict (_cancel identity))) _ ref1) as [[q|x] ref2] eqn:E2; [|done].
  destruct (encode_jsonl py (VDict (_cancel identity)) _) as [f2|] eqn:F2; [|done].
  assert (ps_state ref1 = running /\ ps_identity ref1 = identity) as [Hst Hid1].
  { pose proof (accept_outcome py (Message (VDict js)) FromCoordinator plain_session) as Ho. rewrite E1 in Ho.
    destruct Ho as (k & s1 & Ha & _ & -> & Hs1). apply admissible_iff in Ha as (_ & _ & [_ _ _ _ Hor _]).
    apply order_allowed in Hor. cbn in Hor. subst k. rewrite bool_decide_false in Hs1 by done. subst s1. done. }
  split.
  - intros Hs cancelling. destruct (accept_transfer js plain_session ref1 session p E1 eq_refl Hs Hi) as (-> & Hc1 & s1 & A1 & S1 & I1).
    cbn [accept_all]. unfold accept_coordinator. rewrite A1, F1. destruct cancelling; cbn [accept_all].
    + destruct (accept_transfer (_cancel identity) ref1 ref2 s1 q E2 Hc1 S1 I1) as (-> & _ & s2 & A2 & _).
      unfold accept_coordinator. rewrite A2, F2. by eexists _, _.
    + eexists _, _. split; [done|]. intros _. congruence.
  - intros Hs. assert (ps_capability ref1 = false) as Hc1.
    { destruct (accept_transfer js plain_session ref1 plain_session p E1 eq_refl eq_refl eq_refl) as (_ & Hc1 & _). done. }
    destruct (accept_transfer (_cancel identity) ref1 ref2 session q E2 Hc1) as (-> & _ & s2 & A2 & _); [congruence|congruence|].
    cbn [accept_all]. unfold accept_coordinator. rewrite A2, F2. eauto.
Qed.

(** *** No step raises *)

Lemma send_sure (P : run_state -> Prop) m following (Q : bool -> run_state -> Prop) : steady P ->
  (forall s, P s -> field_is "message_type" "cancel" m && bool_decide (is_Some (ps_terminal (rs_session s))) = true -> Q false s) ->
  (forall s, P s -> ps_terminal (rs_session s) = None \/ field_is "message_type" "cancel" m = false ->
     exists bytes session, accept_all py (m :: following) [] (rs_session s) = (Ok bytes, session) /\
       (forall i sl rc lg, Q true (MkRun i sl session (rs_messages s) (rs_error s) (rs_hello s) (rs_heartbeat_at s) (rs_reading s)
                                    (rs_retained s) (rs_total s) rc lg))) ->
  sure P (_send_coordinator py limits world m following) Q.
Proof.
  intros HP Hf Ht s Hs. pose proof (keeps_draw py limits world P HP s Hs) as Hd.
  unfold _send_coordinator, mbind, rio_bind, draw, look in *. cbn [snd] in Hd. rewrite input_open.
  set (s' := let_threads _ _ _ _) in *. destruct (_ && _) eqn:Ec; [by apply Hf|]. destruct (Ht s' Hd) as (bytes & session & -> & HQ).
  { apply andb_false_iff in Ec as [Ec|Ec%bool_decide_eq_false]; [by right|left]. by apply eq_None_not_Some. }
  unfold set_session, rio_modify, act. destruct s' as [i sl ss ms err h hb rd rt t rc lg]. apply HQ.
Qed.

Lemma cancel_sure :
  sure started (_send_coordinator py limits world (_cancel identity) []) (fun sent s => if sent then orderly s else started s).
Proof.
  apply send_sure; [apply started_steady|by intros s Hs|]. intros s [Ho Hr] [Hn|Hn]; [|by vm_compute in Hn].
  destruct Hr as [Hr|[t Ht]]; [|congruence]. pose proof Ho as [Htalk Hrest]. destruct (Htalk) as (acc & _ & Hi & _).
  destruct (proj2 (messages_accepted _ Hi) Hr) as (bytes & session & E). exists bytes, session. split; [done|]. intros i sl rc lg.
  split; [|exact Hrest]. pose proof (accept_all_talked [_cancel identity] [] (rs_session s)) as H. rewrite E in H. apply H; [|done].
  by repeat constructor.
Qed.

Lemma start_sure (cancelling : bool) :
  sure greeted (_send_coordinator py limits world js (if cancelling then [_cancel identity] else []))
    (fun _ s => if cancelling then orderly s else started s).
Proof.
  pose proof start_ok as Hjs. unfold _job_start in Hjs. unbind Hjs. injection Hjs as Hjs.
  apply send_sure; [apply greeted_steady|intros s _ Hc; rewrite <- Hjs in Hc; by vm_compute in Hc|]. intros s [[Ho Hp] Hh] _.
  destruct Hp as [[_ Hp]|Hp]; [congruence|]. pose proof Ho as [Htalk Hrest]. destruct (Htalk) as (acc & _ & Hi & _).
  destruct (proj1 (messages_accepted _ Hi) Hp cancelling) as (bytes & session & E & Hr). exists bytes, session. split; [done|].
  intros i sl rc lg. assert (talked session) as Ht.
  { pose proof (accept_all_talked (js :: if cancelling then [_cancel identity] else []) [] (rs_session s)) as H. rewrite E in H.
    apply H; [|done]. constructor; [done|]. destruct cancelling; by repeat constructor. }
  destruct cancelling; [by split|]. split; [by split|]. left. by apply Hr.
Qed.

(** Where the second loop is: a cancel was sent, or can still be. *)
Definition serves (cancel_sent : bool) (s : run_state) : Prop := if cancel_sent then orderly s else started s.
Lemma serves_steady b : steady (serves b).
Proof. destruct b; [apply orderly_steady|apply started_steady]. Qed.

Lemma serve_sure fuel : forall started_at v,
  sure (serves (sv_cancel_sent v)) (serve py limits world identity automatic_cancellation fuel started_at v) (fun _ _ => True).
Proof.
  induction fuel as [|fuel IH]; intros started_at v; [done|]. cbn [serve]. pose proof (serves_steady (sv_cancel_sent v)) as HP.
  assert (forall v', sure (serves (sv_cancel_sent v')) (_ ← sleep py limits world PAUSE;
    serve py limits world identity automatic_cancellation fuel started_at v') (fun _ _ => True)) as Hrec.
  { intros v'. pose proof (serves_steady (sv_cancel_sent v')) as HP'. proceed HP'. apply IH. }
  proceed HP. destruct a; [apply sure_any|]. proceed HP. proceed HP. case_bool_decide; [apply sure_any|].
  proceed HP. destruct (m_probe _); [apply sure_any|]. proceed HP. case_bool_decide.
  - proceed HP. destruct (_ <=? _); [apply sure_any|]. apply (Hrec (MkServing _ _ _ _)).
  - proceed HP. proceed HP. destruct (_ && negb (sv_cancel_sent v)) eqn:Ec.
    + apply andb_true_iff in Ec as [_ Ec%negb_true_iff]. rewrite Ec. eapply sure_bind; [apply cancel_sure|]. intros sent. apply (Hrec (MkServing _ _ _ _)).
    + clear Ec. destruct (_ && _); [apply sure_any|]. destruct (_ <=? _); [apply sure_any|]. destruct (_ <=? _); [apply sure_any|]. apply (Hrec (MkServing _ _ _ _)).
Qed.

Lemma serve_hello_sure t o :
  sure unstarted (serve_hello py limits world identity job_context automatic_cancellation t o) (fun _ _ => True).
Proof.
  unfold serve_hello. eapply sure_bind; [apply sure_triple; [apply triple_observe, unstarted_steady|by intros ? ?]|]. intros hello.
  destruct hello; cbn [negb]; [|apply sure_any]. apply (sure_pre greeted); [|by intros s []]. pose proof greeted_steady as HP.
  proceed HP. destruct a; [apply sure_any|]. rewrite start_ok.
  match goal with |- sure ?P (mbind ?f (rio_lift (Ok js))) ?Q => change (sure P (f js) Q) end. cbv beta.
  proceed HP. proceed HP. cbv zeta. eapply sure_bind; [apply start_sure|]. intros sent.
  match goal with |- context [MkServing _ _ false ?b] => apply (sure_pre (serves b)); [|done]; pose proof (serves_steady b) as HS end.
  proceed HS. eapply sure_bind; [apply (serve_sure _ _ (MkServing _ _ _ _))|]. intros later. apply sure_any.
Qed.

Lemma settle_gentle o a b c d : check_limits limits = Ok tt -> gentle (settle py limits world identity o a b c d).
Proof.
  intros Hl. destruct (run_limits_positive Hl) as (_ & _ & _ & Hd). unfold settle, retain_stderr.
  rewrite (proj2 (Z.ltb_ge _ _) (proj1 Hd)), (proj2 (Z.ltb_ge _ _) (proj2 Hd)). soothe.
Qed.

Lemma supervise_sure session : check_limits limits = Ok tt -> make_session identity = Ok session ->
  match (supervise py limits world identity job_context automatic_cancellation (fresh_run session)).1 with
  | Err (Raised _) => False
  | _ => True
  end.
Proof.
  intros Hl Hm. pose proof unstarted_steady as HP.
  assert (sure unstarted (supervise py limits world identity job_context automatic_cancellation) (fun _ _ => True)) as H.
  { unfold supervise. proceed HP. eapply sure_step; [by apply keeps_await|apply gentle_await|intros o].
    eapply sure_bind; [apply serve_hello_sure|]. intros o'. apply sure_gentle.
    apply gentle_bind; [unfold end_process, _bounded_wait; soothe|]. intros [[terminated killed] waited].
    apply gentle_bind; [apply gentle_cleanup|]. intros cleaned. apply gentle_bind; [soothe|]. intros _.
    apply gentle_bind; [unfold join_readers, close_output; soothe|]. intros joined. by apply settle_gentle. }
  assert (unstarted (fresh_run session)) as Hu.
  { split; [by apply fresh_orderly|]. left. split; [|done]. unfold make_session in Hm. cbv zeta in Hm. unbind Hm.
    repeat case_match; by simplify_eq. }
  specialize (H _ Hu). by destruct (supervise _ _ _ _ _ _ _) as [[|[]]].
Qed.

End Returns.

(** C13. Every run ends, whatever the worker, its pipes and the other threads do, if the clock does
    not go back: it returns a result or raises, the loops needing no more turns than their
    deadlines hold pauses, with one exception.  It hangs, after the worker has exited or was
    killed, where it closes the output pipes under a reading thread that still waits on one which
    another process keeps open and silent.  A run that returns has seen the worker exit or has
    killed its process tree, and keeps no more messages and diagnostics than its limits allow.  A
    launched run does return, and raises nothing whatever the worker says, if its identity and
    limits are valid, its start and cancel are messages a session accepts, the worker's input
    stays open, and no pipe is so held. *)
Theorem worker_run_ends launched :
  (forall i, m_elapsed (world i) <= m_elapsed (world (S i))) ->
  match _run_protocol_worker py limits world identity job_context automatic_cancellation launched with
  | (Ok r, Some s) => (is_Some (rs_returncode s) \/ Kill ∈ rs_log s) /\
      Z.of_nat (length (wr_messages r)) <= message_limit limits /\
      exists enc, utf8_encode (wr_stderr r) = Some enc /\ Z.of_nat (length enc) <= diagnostic_limit limits
  | (Err (Raised _), _) => True
  | (Err Hung, Some s) => (is_Some (rs_returncode s) \/ Kill ∈ rs_log s) /\
      exists i, rs_moment s = S (S i) /\ m_reading (world i) = true /\ m_held (world (S i)) = true
  | _ => False
  end /\
  (launched = true -> check_limits limits = Ok tt -> is_ok (make_session identity) = true ->
   (exists js frames, _job_start identity job_context = Ok js /\
      (accept_all py [js; _cancel identity] [] plain_session).1 = Ok frames) ->
   (forall i, m_input_open (world i) = true) ->
   (forall i, m_reading (world i) = true -> m_held (world (S i)) = false) ->
   exists r s, _run_protocol_worker py limits world identity job_context automatic_cancellation launched = (Ok r, Some s)).
Proof.
  intros Hclock. split; unfold _run_protocol_worker.
  - destruct (session ← make_session identity; _) as [session|x] eqn:E; [|done]. unbind E. injection E as ->. destruct x0.
    pose proof (supervise_outcome (session_identity _ H) _ (fresh_orderly _ H)) as Hs.
    pose proof (supervise_ends Hclock H0 session H) as He. pose proof (supervise_hangs (fresh_run session) I) as Hh.
    destruct (supervise _ _ _ _ _ _ (fresh_run session)) as [[r|[]] s]; cbn [fst] in He; [|done..].
    destruct Hs as (_ & Hf & _ & [Hm Henc] & _). split; [exact Hf|]. split; [|exact Henc].
    unfold check_limits in H0. cbn [foldr] in H0. unbind H0. lia.
  - intros -> Hl Hm (js & frames & Hj & Hframes) Hopen Hfree. destruct (make_session identity) as [session|x] eqn:E; [|discriminate Hm].
    rewrite Hl. cbn [mbind result_bind].
    pose proof (supervise_ends Hclock Hl session E) as He.
    pose proof (supervise_sure js Hj (ex_intro _ frames Hframes) Hopen session Hl E) as Hs.
    pose proof (supervise_hangs (fresh_run session) I) as Hh.
    destruct (supervise _ _ _ _ _ _ (fresh_run session)) as [[r|[]] s]; [by eauto|done| |done].
    destruct Hh as (_ & i & _ & Hr & Hheld). rewrite (Hfree i Hr) in Hheld. done.
Qed.

End Facts.

(** ** Witnesses *)

#[local] Existing Instance ascii_only.

Definition sample_limits : run_limits :=
  {| process_deadline := 5000000; heartbeat_deadline := 1000000; hello_deadline := 1000000; cancel_after := 100000;
     cancel_grace := 100000; termination_grace := 100000; diagnostic_limit := 4096; line_limit := 65536; message_limit := 32 |}.
Definition sample_context : pydict :=
  [text_field "graph_id" "g1"; text_field "source_generation" "sg1:a"; text_field "config_generation" "cg1:b"].

(** A worker that says hello at a moment, its result at a later one, and then exits. *)
Definition sample_world (hello result : nat) (elapsed : nat -> Z) (input_open : bool) (i : nat) : moment :=
  {| m_lines := if Nat.eqb i hello then [(elapsed i, sample_frame sample_hello)]
                else if Nat.eqb i result then [(elapsed i, sample_frame sample_result)] else [];
     m_stderr := []; m_elapsed := elapsed i; m_exit := if Nat.leb i result then None else Some 0; m_cancel := false;
     m_probe := false; m_input_open := input_open; m_tree := false; m_reading := false; m_held := false |}.

Abbreviation sample_run w := (_run_protocol_worker sample_python sample_limits w sample_identity (Some sample_context) false true).

Lemma worker_success_genuine_witness :
  exists r s, sample_run (sample_world 1 7 Z.of_nat true) = (Ok r, Some s) /\ claims_end (wr_terminal r) = true /\
    wr_returncode r = Some 0 /\ exists first offers acc, converse sample_python offers first = (acc, rs_session s) /\
      worker_frames offers `prefix_of` lines_until (sample_world 1 7 Z.of_nat true) (rs_moment s) /\
      conversation (kinds acc) /\ last acc = Some (wr_terminal r).
Proof.
  destruct (sample_run (sample_world 1 7 Z.of_nat true)) as [[r|x] [s|]] eqn:E; [|vm_compute in E; discriminate E..].
  exists r, s. assert (claims_end (wr_terminal r) = true) as Hc.
  { vm_compute in E. injection E as <- <-. vm_compute. reflexivity. }
  pose proof (worker_success_genuine sample_python sample_limits (sample_world 1 7 Z.of_nat true) sample_identity
                (Some sample_context) false true r s E Hc) as ((Hr & _) & first & offers & acc & js & _ & H0 & _ & Hp & H1 & H2 & _).
  split; [reflexivity|]. split; [exact Hc|]. split; [exact Hr|]. exists first, offers, acc.
  exact (conj H0 (conj Hp (conj H1 H2))).
Defined.

Lemma worker_run_ends_witness :
  exists r s, sample_run (sample_world 1 7 Z.of_nat true) = (Ok r, Some s) /\ (is_Some (rs_returncode s) \/ Kill ∈ rs_log s).
Proof.
  assert (forall i, m_elapsed (sample_world 1 7 Z.of_nat true i) <= m_elapsed (sample_world 1 7 Z.of_nat true (S i))) as Hclock.
  { intros i. cbn. lia. }
  pose proof (worker_run_ends sample_python sample_limits (sample_world 1 7 Z.of_nat true) sample_identity
                (Some sample_context) false true Hclock) as [H Hr].
  destruct Hr as (r & s & E); [reflexivity|vm_compute; reflexivity|vm_compute; reflexivity| |reflexivity|discriminate|].
  { eexists _, _. split; [vm_compute; reflexivity|vm_compute; reflexivity]. }
  exists r, s. split; [exact E|]. rewrite E in H. exact (proj1 H).
Defined.

(** A worker that says hello, exits, and leaves behind a process of another session that keeps its
    output open: the run hangs, with the exit seen. *)
Definition held_world (i : nat) : moment :=
  let m := sample_world 1 7 Z.of_nat true i in
  {| m_lines := m_lines m; m_stderr := m_stderr m; m_elapsed := m_elapsed m; m_exit := m_exit m; m_cancel := m_cancel m;
     m_probe := m_probe m; m_input_open := m_input_open m; m_tree := m_tree m; m_reading := true; m_held := true |}.
Example held_pipe_hangs :
  exists s, sample_run held_world = (Err Hung, Some s) /\ rs_returncode s = Some 0 /\ is_Some (ps_terminal (rs_session s)).
Proof. eexists. split; [vm_compute; reflexivity|]. split; [reflexivity|]. eexists. reflexivity. Qed.

(** A line nested deeper than the stack ends the thread that reads, with no error recorded: the result
    after it is never read, and the run is reported as an exit of the process. *)
Definition deep_world (i : nat) : moment :=
  let m := sample_world 1 7 Z.of_nat true i in
  {| m_lines := if Nat.eqb i 4 then [(m_elapsed m, replicate 30 91 ++ [10])] else m_lines m; m_stderr := m_stderr m;
     m_elapsed := m_elapsed m; m_exit := m_exit m; m_cancel := m_cancel m; m_probe := m_probe m;
     m_input_open := m_input_open m; m_tree := m_tree m; m_reading := m_reading m; m_held := m_held m |}.
Example deep_line_ends_reader :
  exists r s, sample_run deep_world = (Ok r, Some s) /\ rs_reading s = false /\ wr_protocol_error r = None /\
    wr_original_terminal r = None /\ field_is "reason" "process_exit" (wr_terminal r) = true.
Proof. eexists _, _. split; [vm_compute; reflexivity|]. by vm_compute. Qed.

(** A worker that has closed its input is left running: the error of the write leaves the run before
    the worker is told to stop. *)
Example closed_input_leaves_worker :
  exists s, sample_run (sample_world 1 7 Z.of_nat false) = (Err (Raised (ProtocolError "worker_input_closed")), Some s) /\
    rs_returncode s = None /\ rs_log s = [].
Proof. eexists. split; [vm_compute; reflexivity|]. split; reflexivity. Qed.

(** A hello read just after its deadline was found missed is answered, and the job is done; but a
    result of it is reported as the missed deadline. *)
Example late_hello_served :
  exists r s, sample_run (sample_world 5 9 (fun i => if Nat.leb i 3 then 0 else 1000000) true) = (Ok r, Some s) /\
    wr_original_terminal r = Some (match decode_jsonl sample_python (sample_frame sample_result) 4096 with Ok d => d | Err _ => [] end) /\
    wr_returncode r = Some 0 /\ wr_terminated r = false /\
    field_is "reason" "hello_timeout" (wr_terminal r) = true.
Proof. eexists _, _. split; [vm_compute; reflexivity|]. by vm_compute. Qed.
